(* ===== verification/_CoqProject ===== *)
-Q . S2P
Prelude.v
Endian.v
Thread.v
LockSpec.v
CriticalSpec.v
ThreadSpec.v
ByteArray.v
ByteArraySpec.v
Timer.v
TimerSpec.v
Fiber.v
Scheduler.v
SchedulerSpec.v
FdManager.v
Hook.v
HookSpec.v
IOManager.v
IOManagerSpec.v
Lifecycle.v
LifecycleSpec.v
Text.v
Util.v
UtilSpec.v
Http.v
HttpSpec.v
Address.v
AddressSpec.v
Socket.v
SocketSpec.v
TcpServer.v
TcpServerSpec.v
Ragel.v
Http11States.v
Http11Parser.v
Http11Spec.v
HttpClientStates.v
HttpClientParser.v
UriStates.v
Stream.v
StreamSpec.v
ByteStream.v
ByteStreamSpec.v
HttpRequestParser.v
HttpRequestScan.v
HttpReceive.v
HttpSession.v
HttpReceiveSpec.v
HttpSessionSpec.v
Servlet.v
ServletSpec.v
HttpServer.v
HttpServerSpec.v
HttpResponseParser.v
HttpResponseScan.v
Uri.v
UriSpec.v
HttpConnection.v
HttpConnectionSpec.v
HttpConnectionPool.v
HttpConnectionPoolSpec.v
LogFormatter.v
Daemon.v
LogFormatterSpec.v
Logger.v
LoggerSpec.v
Yaml.v
Lexical.v
LexicalSpec.v
LogConfig.v
LogConfigSpec.v
LogYaml.v
LogYamlSpec.v
Config.v
ConfigSpec.v
Limits.v
LimitsSpec.v
Env.v
EnvSpec.v
Application.v
ApplicationSpec.v
