(* ===== verification/Prelude.v ===== *)
(** * A verification of the sylar server framework

    sylar is a C++ framework for network servers: fibers scheduled over threads,
    timers, an epoll loop, system calls that yield instead of blocking, and on top
    of it an HTTP server and client, with addresses, URIs, a byte buffer, logging
    and configuration.  This library models its code under [src/sylar] and proves
    what the parts promise.

    ** How the code is modelled

    Every stateful operation is a function in the monad [M] of this file: from a
    state to a result and a new state, or an exception with the state it leaves, or
    an abort ([SYLAR_ASSERT]), or undefined behaviour with its kind ([ub]).  Null
    pointers, indices out of range, indeterminate values and signed overflow are
    thus outcomes of the model, and theorems that an operation returns exclude them.
    Integers are [Z] with their wrap-around written out ([wrapu], [wraps]).  Objects
    that are shared through pointers live in maps from addresses, so that aliasing
    shows.  A method that holds its lock throughout is one step, which
    [CriticalSpec] justifies; where the code takes a lock twice, the model has two
    steps and theorems speak of what comes between.  The system and third-party libraries are type classes or arguments:
    [Heap], [Kernel], [Names], [Host], [Resolver], [LexicalCast], [Fnmatch], [Network],
    [LocalTime], [Files], [FileSystem], [Processes], [Yaml], [YamlInt], [Types], the
    locks of pthread ([PthreadMutex], [PthreadSpin], [PthreadRwlock]) and [PosixSem].

    ** The parts

    - [Thread] (thread.h, thread.cc): locks, guards, semaphores and threads.
      [LockSpec]: what the guards guarantee over any lock that keeps its laws;
      [CriticalSpec]: programs that access data under guards; [ThreadSpec]: the
      constructor of a thread and the new thread.
    - [Endian], [ByteArray] (bytearray.cc, endian.h): the chain of blocks, the
      cursor, fixed-width and variable-length integers, strings.  [ByteArraySpec]
      proves that reading and writing implement a plain tape (a refinement), and
      the round trips.
    - [Timer] (timer.cc): timers as objects, the ordered set, expiry.  [TimerSpec].
    - [Fiber], [Scheduler] (fiber.cc, scheduler.cc): contexts and their states, the
      queue and the workers as a step relation.  [SchedulerSpec]: the counters under
      every interleaving, what happens to a callback, a race.
    - [FdManager], [Hook] (fd_manager.cc, hook.cc): the descriptor table and the
      hooked system calls.  [HookSpec].
    - [IOManager] (iomanager.cc): registered events, the epoll loop, timeouts.
      [IOManagerSpec].  [Lifecycle]: joining and destroying schedulers, creating and
      destroying IO managers, the loop around [epoll_wait].  [LifecycleSpec].
    - [Text]: the C and C++ text functions the rest uses.
    - [Util] (util.cc): clocks, backtraces, directories, pid files.  [UtilSpec].
    - [Http] (http.cc): requests, responses, header maps, serialisation.  [HttpSpec].
    - [Ragel]: the shape of generated scanners and lemmas to run them by checking
      their tables; [Http11States], [HttpClientStates], [UriStates] are the three
      committed scanners (http11_parser.rl.cc, httpclient_parser.rl.cc, uri.rl.cc)
      label by label, [Http11Parser] and [HttpClientParser] their registers and
      actions, [HttpRequestParser] and [HttpResponseParser] the parser objects
      (http_parser.cc).  [Http11Spec]; [HttpRequestScan] and [HttpResponseScan] run
      the scanners on the messages [dump] writes.
    - [Stream] (stream.cc, socket_stream.cc): reading and writing over a connection,
      which is a script of what arrives and of how much the system takes.
      [StreamSpec].  [ByteStream]: the transfers of byte arrays, over the buffers
      [ByteArray] lends.  [ByteStreamSpec].
    - [HttpReceive], [HttpSession] (http_session.cc): receiving requests and sending
      responses.  [HttpReceiveSpec], [HttpSessionSpec].
    - [Servlet] (servlet.cc): servlets and their dispatch.  [ServletSpec].
    - [HttpServer] (http_server.cc): the life of a client connection; it composes
      session, dispatcher and stream.  [HttpServerSpec].
    - [Uri] (uri.rl.cc, uri.h) and [UriSpec].
    - [HttpConnection], [HttpConnectionPool] (http_connection.cc): the client and its
      pool of connections.  [HttpConnectionSpec], [HttpConnectionPoolSpec].
    - [Address] (address.cc) and [AddressSpec].
    - [Socket] (socket.cc): socket objects over the hooked calls.  [SocketSpec].
    - [TcpServer] (tcp_server.cc): shared socket objects with their lifetimes, the
      accepting fibers and the workers as a step relation.  [TcpServerSpec].
    - [LogFormatter], [Logger], [LogConfig] (log.cc): patterns, loggers and
      appenders, and the listener that applies a configuration.
      [LogFormatterSpec], [LoggerSpec], [LogConfigSpec].  [LogYaml]: the configuration
      of the log as text.  [LogYamlSpec].
    - [Yaml]: the calls of yaml-cpp the program makes; [Config] (config.cc, config.h)
      and [ConfigSpec]: variables, listeners, loading.  [Lexical] (the templates
      [LexicalCast] of config.h) and [LexicalSpec]: the conversions of containers.
      [Limits] (hook.cc, http_parser.cc): the static variables that follow the
      configuration.  [LimitsSpec].
    - [Env] (env.cc) and [EnvSpec]: arguments and environment.
    - [Daemon] (daemon.cc): the parent process that restarts the server.
    - [Application] (application.cc) and [ApplicationSpec]: the start of the process,
      which composes environment, configuration, files, addresses and servers.

    A definition has the name of the function it models; where a function is split,
    the parts have a name of their own and say in a comment which lines they are.
    Several classes have members of the same name: [r_] marks those of responses,
    [a_] and [l_] those of appenders and loggers.

    ** What is proved

    - Composition: a complete request reaches the servlet of its path as it was sent
      and the response of the servlet reaches the client ([HttpServerSpec]), on top
      of the round trip from [HttpRequest::dump] through the stream and the scanner
      to [recvRequest] ([HttpSessionSpec]); the client side has the same round trip
      for responses, with a body of known length or in chunks ([HttpConnectionSpec]).
      From the arguments to the listening sockets: one process per pid file, and a
      server for every configuration ([ApplicationSpec]).
    - Refinement: the byte array and its tape, also when a connection fills or drains
      it ([ByteStreamSpec]); the dispatcher and the history of its registrations
      ([ServletSpec]); threads under guards and their critical sections one after the
      other ([CriticalSpec]).
    - Invariants: guards and the locks they hold ([LockSpec]), the constructor of a
      thread and [run] ([ThreadSpec]), the limits and the configuration
      ([LimitsSpec]), timers, scheduler counters, registered events, the connection
      pool, loggers, socket objects, the sockets of a server in every run
      ([TcpServerSpec]: nothing dangles, nothing leaks; [bind] is all or nothing; a
      stopped server drains), the queue of a scheduler that is stopped
      ([LifecycleSpec]).
    - Totality and errors: the receiving loop on any input ([HttpReceiveSpec]), the
      scanner on any text ([Http11Spec]), hooked calls ([HookSpec]), transfers of a
      fixed size ([StreamSpec]).
    - Equivalence: cutting the text does not change what the scanner decides
      ([Http11Spec]); [Env::init] accepts exactly its grammar ([EnvSpec]); [Mkdir] over
      its buffer makes the prefixes of the path ([UtilSpec]).
    - Round trips: integers, strings, addresses, messages, URIs, log patterns,
      containers ([LexicalSpec]), the configuration of a server, the configuration the
      log prints ([LogYamlSpec]).
    - Liveness: the daemon restarts what crashes ([Daemon]).
    - Behaviour that is not what the code means to do is proved as such: the races,
      the age limit of the pool, the masks of IPv6, the pattern of an appender, chunks
      that are cut by segments, a server that is restarted too early, a scheduler that
      hangs when it is stopped, a thread that outlives its object.

    ** Fuel

    Loops without a structural measure take fuel and end in [Undef NoFuel] (or
    [None]) without it.  Theorems say how much is enough: the bytes to come and one
    more for the receiving loop, the length of the buffer for transfers, the depth of
    the tree for YAML and for directories, two for a logger and its root, the length of a
    pattern or a path, one fork more than the children that crash.  The
    only loops that have no bound are those of the program that never end:
    [readFixSize] at the end of the stream, and the server while requests come.

    ** What is not modelled

    Of the start of the process the endless loop that keeps the fiber of the servers
    alive, and its scheduling on the IO manager; in [Scheduler] the reference counts of
    fibers, and that [IOManager] overrides [stopping]; that each component runs under
    the guards of [Thread] is by reading: the components take a locked method as one
    step.  Diagnostics written to the log by other parts are left out everywhere.
    Signals other than those that interrupt [epoll_wait], weak memory and allocation
    failure outside the buffers of received messages are not modelled. *)
From stdpp Require Export base list list_numbers numbers option strings sorting.
From Stdlib Require Export ZArith Lia.
From Stdlib Require Import Strings.Byte.
From coqutil Require Import Byte.

(** ** Undefined behaviour, exceptions and aborts

    A C++ operation either returns, throws an exception, stops the process
    through [SYLAR_ASSERT], or has undefined behaviour.  The state of the
    object is kept when an exception is thrown, because a C++ object is still
    usable after the exception. *)

Inductive ub :=
  | NullDeref        (** a member of a null pointer is accessed *)
  | OutOfBounds      (** an array or vector is indexed out of range *)
  | DivByZero        (** integer division or remainder by zero *)
  | ShiftRange       (** a shift count that is not below the operand's width *)
  | EraseEnd         (** [erase(end())] on a container *)
  | Uninitialised    (** an indeterminate value is used *)
  | SignedOverflow   (** a signed operation whose result is not representable *)
  | NegativeSize     (** a negative byte count is passed to a library call *)
  | ContextInUse     (** [swapcontext] resumes a context that is executing *)
  | EmptyFunction    (** an empty function is called outside any handler *)
  | NotLocked        (** a lock is released by a thread that does not hold it *)
  | NoFuel.          (** the loop bound of the model is exhausted: never reached, as the
                         theorems show *)

Inductive exn :=
  | out_of_range (what : string)
  | logic_error (what : string)
  | invalid_argument (what : string)
  | length_error (what : string)
  | bad_alloc.

Inductive res (S A : Type) :=
  | Ok (a : A) (s : S)
  | Throw (e : exn) (s : S)
  | Abort
  | Undef (u : ub).
Arguments Ok {S A} a s.
Arguments Throw {S A} e s.
Arguments Abort {S A}.
Arguments Undef {S A} u.

#[export] Instance ub_eq_dec : EqDecision ub.
Proof. solve_decision. Defined.
#[export] Instance exn_eq_dec : EqDecision exn.
Proof. solve_decision. Defined.

(** The state-and-error monad all stateful operations are written in. *)
Definition M (S A : Type) : Type := S → res S A.

#[export] Instance M_ret S : MRet (M S) := λ A a s, Ok a s.
#[export] Instance M_bind S : MBind (M S) := λ A B k m s,
  match m s with
  | Ok a s' => k a s'
  | Throw e s' => Throw e s'
  | Abort => Abort
  | Undef u => Undef u
  end.

Definition get {S} : M S S := λ s, Ok s s.
Definition gets {S A} (f : S → A) : M S A := λ s, Ok (f s) s.
Definition modify {S} (f : S → S) : M S unit := λ s, Ok tt (f s).
Definition throw {S A} (e : exn) : M S A := λ s, Throw e s.
Definition undef {S A} (u : ub) : M S A := λ _, Undef u.
(** [SYLAR_ASSERT] *)
Definition sylar_assert {S} (b : bool) : M S unit :=
  λ s, if b then Ok tt s else Abort.
(** Using a pointer: the null pointer has no members. *)
Definition deref {S A} (o : option A) : M S A :=
  λ s, match o with Some a => Ok a s | None => Undef NullDeref end.

(** Runs an operation on an object [t] the caller holds, and hands it back. *)
Definition on {S T A} (t : T) (m : M T A) : M S (A * T) :=
  λ s, match m t with
       | Ok a t' => Ok (a, t') s
       | Throw e _ => Throw e s
       | Abort => Abort
       | Undef u => Undef u
       end.

(** The operation returns normally with value [a] in state [s']. *)
Definition returns {S A} (r : res S A) (a : A) (s' : S) : Prop := r = Ok a s'.
(** The operation stays inside defined behaviour. *)
Definition defined {S A} (r : res S A) : Prop :=
  match r with Undef _ => False | _ => True end.

Section monad_laws.
Context {S A B C : Type}.

Lemma bind_ok (m : M S A) (k : A → M S B) s a s' :
  m s = Ok a s' → (x ← m; k x) s = k a s'.
Proof. intros H. unfold mbind, M_bind. by rewrite H. Qed.
Lemma bind_throw (m : M S A) (k : A → M S B) s e s' :
  m s = Throw e s' → (x ← m; k x) s = Throw e s'.
Proof. intros H. unfold mbind, M_bind. by rewrite H. Qed.
Lemma bind_undef (m : M S A) (k : A → M S B) s u :
  m s = Undef u → (x ← m; k x) s = Undef u.
Proof. intros H. unfold mbind, M_bind. by rewrite H. Qed.
Lemma bind_abort (m : M S A) (k : A → M S B) s :
  m s = Abort → (x ← m; k x) s = Abort.
Proof. intros H. unfold mbind, M_bind. by rewrite H. Qed.
Lemma bind_modify (f : S → S) (k : unit → M S B) s : (x ← modify f; k x) s = k tt (f s).
Proof. done. Qed.
Lemma bind_gets (f : S → A) (k : A → M S B) s : (x ← gets f; k x) s = k (f s) s.
Proof. done. Qed.
Lemma bind_get (k : S → M S B) s : (x ← get; k x) s = k s s.
Proof. done. Qed.
Lemma bind_assert b (k : unit → M S B) s : b = true → (x ← sylar_assert b; k x) s = k tt s.
Proof. by intros ->. Qed.
Lemma bind_ret (a : A) (k : A → M S B) s : (x ← mret a; k x) s = k a s.
Proof. done. Qed.
Lemma on_ok {T} (t t' : T) (m : M T A) (s : S) a : m t = Ok a t' → on t m s = Ok (a, t') s.
Proof. unfold on. by intros ->. Qed.
Lemma bind_assoc (m : M S A) (k : A → M S B) (h : B → M S C) s :
  (y ← (x ← m; k x); h y) s = (x ← m; y ← k x; h y) s.
Proof. unfold mbind, M_bind. by destruct (m s). Qed.
Lemma bind_inv (m : M S A) (k : A → M S B) s b s' :
  (x ← m; k x) s = Ok b s' → ∃ a s1, m s = Ok a s1 ∧ k a s1 = Ok b s'.
Proof. unfold mbind, M_bind. destruct (m s); naive_solver. Qed.
End monad_laws.

(** Runs the first command of a sequence, given the equation for it. *)
Ltac step_with H := rewrite (bind_ok _ _ _ _ _ H); cbv beta iota.
(** Unfolds the monad on a concrete first command. *)
Ltac mred :=
  repeat first
    [ progress unfold mret, M_ret, get, gets, modify, throw, undef, deref, sylar_assert
    | progress unfold mbind, M_bind
    | progress cbv beta iota ].

(** ** Machine integers

    A [w]-bit unsigned integer is an integer in [[0, 2^w)], a signed one an
    integer in [[-2^(w-1), 2^(w-1))]; conversions wrap around. *)

Definition wrapu (w z : Z) : Z := z mod 2 ^ w.
Definition wraps (w z : Z) : Z := (z + 2 ^ (w - 1)) mod 2 ^ w - 2 ^ (w - 1).
Definition in_u (w z : Z) : Prop := (0 ≤ z < 2 ^ w)%Z.
Definition in_s (w z : Z) : Prop := (- 2 ^ (w - 1) ≤ z < 2 ^ (w - 1))%Z.

Create HintDb sylar discriminated.

Lemma pow2_half w : (0 < w)%Z → (2 ^ w = 2 * 2 ^ (w - 1))%Z.
Proof. intros H. rewrite <-Z.pow_succ_r by lia. f_equal. lia. Qed.

Lemma wrapu_small w z : in_u w z → wrapu w z = z.
Proof. intros H. by apply Z.mod_small. Qed.

Lemma wrapu_range w z : (0 ≤ w)%Z → in_u w (wrapu w z).
Proof. intros. apply Z.mod_pos_bound. by apply Z.pow_pos_nonneg. Qed.

Lemma wraps_small w z : (0 < w)%Z → in_s w z → wraps w z = z.
Proof.
  intros Hw [H1 H2]. unfold wraps. pose proof (pow2_half w Hw).
  rewrite Z.mod_small; lia.
Qed.

Lemma wraps_range w z : (0 < w)%Z → in_s w (wraps w z).
Proof.
  intros Hw. unfold in_s, wraps. pose proof (pow2_half w Hw).
  pose proof (Z.mod_pos_bound (z + 2 ^ (w - 1)) (2 ^ w)).
  pose proof (Z.pow_pos_nonneg 2 (w - 1)). lia.
Qed.

(** Converting a signed value to unsigned and back is the identity. *)
Lemma wraps_wrapu w z : (0 < w)%Z → wraps w (wrapu w z) = wraps w z.
Proof.
  intros Hw. unfold wraps, wrapu. f_equal.
  pose proof (Z.pow_pos_nonneg 2 w).
  rewrite Zplus_mod_idemp_l. done.
Qed.

Lemma wrapu_wraps w z : (0 < w)%Z → wrapu w (wraps w z) = wrapu w z.
Proof.
  intros Hw. unfold wraps, wrapu. pose proof (Z.pow_pos_nonneg 2 w).
  rewrite Zminus_mod_idemp_l. f_equal. lia.
Qed.

Lemma wrapu_idemp w z : (0 ≤ w)%Z → wrapu w (wrapu w z) = wrapu w z.
Proof. intros. apply Zmod_mod. Qed.

#[export] Hint Resolve wrapu_range wraps_range : sylar.

(** ** Lists used as memory *)

Section splice.
Context {A : Type}.
Implicit Types l k : list A.

(** [memcpy] of [k] over [l] from offset [n]. *)
Definition splice (n : nat) (k l : list A) : list A :=
  take n l ++ k ++ drop (n + length k) l.

Lemma length_splice n k l :
  n + length k ≤ length l → length (splice n k l) = length l.
Proof. intros. unfold splice. rewrite !length_app, length_take, length_drop. lia. Qed.

Lemma splice_0 k l : length l = length k → splice 0 k l = k.
Proof.
  intros H. unfold splice. rewrite take_0, drop_ge by lia.
  simpl. apply app_nil_r.
Qed.

Lemma splice_app_l n k l1 l2 :
  n + length k ≤ length l1 → splice n k (l1 ++ l2) = splice n k l1 ++ l2.
Proof.
  intros H. unfold splice.
  rewrite take_app_le, drop_app_le by lia. by rewrite <-!app_assoc.
Qed.

Lemma splice_app_r n k l1 l2 :
  splice (length l1 + n) k (l1 ++ l2) = l1 ++ splice n k l2.
Proof.
  unfold splice. rewrite take_app_add'; [|done].
  rewrite <-Nat.add_assoc, drop_app_add'; [|done]. by rewrite <-!app_assoc.
Qed.

Lemma splice_split n k1 k2 l :
  n + length k1 + length k2 ≤ length l →
  splice n (k1 ++ k2) l = splice (n + length k1) k2 (splice n k1 l).
Proof.
  intros H. unfold splice. rewrite length_app.
  assert (length (take n l ++ k1) = n + length k1) as Hl
    by (rewrite length_app, length_take; lia).
  rewrite (app_assoc (take n l) k1 (drop _ l)).
  rewrite (take_app_length' (take n l ++ k1)) by lia.
  rewrite (drop_app_ge (take n l ++ k1)) by lia.
  rewrite Hl, drop_drop, <-!app_assoc. do 4 f_equal. lia.
Qed.

Lemma take_drop_splice n k l :
  n + length k ≤ length l → take (length k) (drop n (splice n k l)) = k.
Proof.
  intros H. unfold splice.
  rewrite drop_app_length' by (rewrite length_take; lia).
  by rewrite take_app_length.
Qed.
End splice.

(** ** Filtering *)

Section filtering.
Context {A : Type}.

Lemma filter_ext_elem (P Q : A → Prop) `{∀ x, Decision (P x), ∀ x, Decision (Q x)} (l : list A) :
  (∀ x, x ∈ l → P x ↔ Q x) → filter P l = filter Q l.
Proof.
  induction l as [|x l IH]; intros H1; [done|].
  assert (x ∈ x :: l) as Hx by apply list_elem_of_here.
  rewrite !filter_cons, IH.
  - specialize (H1 x Hx). repeat case_decide; tauto.
  - intros y Hy. apply H1. by apply list_elem_of_further.
Qed.

Lemma filter_all_elem (P : A → Prop) `{∀ x, Decision (P x)} (l : list A) :
  (∀ x, x ∈ l → P x) → filter P l = l.
Proof.
  induction l as [|x l IH]; intros H1; [done|].
  rewrite filter_cons_True by (apply H1, list_elem_of_here). f_equal. apply IH.
  intros y Hy. apply H1. by apply list_elem_of_further.
Qed.

Lemma filter_none_elem (P : A → Prop) `{∀ x, Decision (P x)} (l : list A) :
  (∀ x, x ∈ l → ¬ P x) → filter P l = [].
Proof.
  induction l as [|x l IH]; intros H1; [done|].
  rewrite filter_cons_False by (apply H1, list_elem_of_here). apply IH.
  intros y Hy. apply H1. by apply list_elem_of_further.
Qed.
End filtering.

(** ** Partial correctness

    [triple P m Q]: started in a state that satisfies [P], the operation, if it
    returns normally, ends in [Q]. *)
Definition triple {S A} (P : S → Prop) (m : M S A) (Q : A → S → Prop) : Prop :=
  ∀ s a s', P s → m s = Ok a s' → Q a s'.

Section triples.
Context {S A B : Type}.

Lemma triple_bind (P : S → Prop) (m : M S A) (k : A → M S B) Q R :
  triple P m Q → (∀ a, triple (Q a) (k a) R) → triple P (x ← m; k x) R.
Proof. intros Hm Hk s b s' HP (a&s1&H1&H2)%bind_inv. eapply Hk, H2. eapply Hm, H1. done. Qed.
(** A step that keeps [P]. *)
Lemma triple_keep (P : S → Prop) (m : M S A) (k : A → M S B) R :
  triple P m (λ _, P) → (∀ a, triple P (k a) R) → triple P (x ← m; k x) R.
Proof. intros Hm Hk s b s' HP (a&s1&H1&H2)%bind_inv. eapply Hk, H2. eapply Hm, H1. done. Qed.
(** Reading a component: it is known while the state has not changed. *)
Lemma triple_read (P : S → Prop) (f : S → A) (k : A → M S B) R :
  (∀ a, triple (λ s, P s ∧ f s = a) (k a) R) → triple P (x ← gets f; k x) R.
Proof. intros Hk s b s' HP (a&s1&[= <- <-]&H2)%bind_inv. by eapply Hk, H2. Qed.
Lemma triple_ret (P : S → Prop) (a : A) Q : (∀ s, P s → Q a s) → triple P (mret a) Q.
Proof. intros HQ s b s' HP [= <- <-]. auto. Qed.
Lemma triple_gets (P : S → Prop) (f : S → A) Q : (∀ s, P s → Q (f s) s) → triple P (gets f) Q.
Proof. intros HQ s b s' HP [= <- <-]. auto. Qed.
Lemma triple_modify (P : S → Prop) (f : S → S) Q :
  (∀ s, P s → Q tt (f s)) → triple P (modify f) Q.
Proof. intros HQ s b s' HP [= <- <-]. auto. Qed.
Lemma triple_assert (P : S → Prop) b Q :
  (∀ s, P s → b = true → Q tt s) → triple P (sylar_assert b) Q.
Proof. intros HQ s a s' HP. unfold sylar_assert. destruct b; [intros [= <- <-]; auto|done]. Qed.
Lemma triple_undef (P : S → Prop) u (Q : A → S → Prop) : triple P (undef u) Q.
Proof. intros s a s' _ H. discriminate. Qed.
Lemma triple_pure (φ : Prop) (P : S → Prop) (m : M S A) Q :
  (φ → triple P m Q) → triple (λ s, P s ∧ φ) m Q.
Proof. intros Hm s a s' [HP Hφ] H. by eapply (Hm Hφ). Qed.
Lemma triple_weaken (P P' : S → Prop) (m : M S A) Q Q' :
  triple P' m Q' → (∀ s, P s → P' s) → (∀ a s, Q' a s → Q a s) → triple P m Q.
Proof. intros Hm HP HQ s a s' H1 H2. eauto. Qed.
End triples.

(** Changing an element that is there. *)
Lemma alter_as_insert {A} (f : A → A) i (l : list A) x :
  l !! i = Some x → alter f i l = <[i := f x]> l.
Proof.
  intros Hx. apply list_eq. intros j. destruct (decide (i = j)) as [<-|].
  - rewrite list_lookup_alter_eq, Hx, list_lookup_insert_eq; [done|]. by eapply lookup_lt_Some.
  - by rewrite list_lookup_alter_ne, list_lookup_insert_ne.
Qed.
