(* ===== verification/Endian.v ===== *)
(** Byte order ([sylar/endian.h]): the fixed-width integer types of the code,
    their representation in the host's memory, [byteswap], and the two
    [byteswapOn...] functions selected by [SYLAR_BYTE_ORDER].

    The host's byte order is a parameter (the class [Host]), so that every
    theorem holds for little-endian and for big-endian machines. *)
From S2P Require Import Prelude.
From Stdlib Require Import Strings.Byte.
From coqutil Require Import Byte Word.LittleEndianList.

Local Open Scope Z_scope.

Definition SYLAR_LITTLE_ENDIAN : Z := 1.
Definition SYLAR_BIG_ENDIAN : Z := 2.

(** The machine the code is compiled for. *)
Class Host := {
  SYLAR_BYTE_ORDER : Z;
  byte_order_valid :
    SYLAR_BYTE_ORDER = SYLAR_LITTLE_ENDIAN ∨ SYLAR_BYTE_ORDER = SYLAR_BIG_ENDIAN;
}.

Definition little_host : Host :=
  {| SYLAR_BYTE_ORDER := SYLAR_LITTLE_ENDIAN; byte_order_valid := or_introl eq_refl |}.
Definition big_host : Host :=
  {| SYLAR_BYTE_ORDER := SYLAR_BIG_ENDIAN; byte_order_valid := or_intror eq_refl |}.

(** Integer types: [sizeof] and signedness. *)
Record cint := { sizeof : nat; signed : bool }.
Definition int8_t := {| sizeof := 1; signed := true |}.
Definition uint8_t := {| sizeof := 1; signed := false |}.
Definition int16_t := {| sizeof := 2; signed := true |}.
Definition uint16_t := {| sizeof := 2; signed := false |}.
Definition int32_t := {| sizeof := 4; signed := true |}.
Definition uint32_t := {| sizeof := 4; signed := false |}.
Definition int64_t := {| sizeof := 8; signed := true |}.
Definition uint64_t := {| sizeof := 8; signed := false |}.

Definition bits (t : cint) : Z := Z.of_nat (sizeof t) * 8.
(** Conversion of a value to the type. *)
Definition conv (t : cint) (z : Z) : Z :=
  if signed t then wraps (bits t) z else wrapu (bits t) z.
Definition in_range (t : cint) (z : Z) : Prop :=
  if signed t then in_s (bits t) z else in_u (bits t) z.

(** [bswap_16], [bswap_32] and [bswap_64] of [<byteswap.h>]. *)
Definition bswap (n : nat) (x : Z) : Z := le_combine (rev (le_split n x)).

Definition byteswap (t : cint) (value : Z) : Z :=
  conv t (bswap (sizeof t) (wrapu 64 value)).

(** The bytes of an integer in order of significance, lowest address first. *)
Definition endian_bytes (order : Z) (n : nat) (z : Z) : list byte :=
  if order =? SYLAR_BIG_ENDIAN then rev (le_split n z) else le_split n z.

Section host.
Context {H : Host}.

(** The object representation of an integer on the host. *)
Definition to_memory (n : nat) (z : Z) : list byte := endian_bytes SYLAR_BYTE_ORDER n z.
Definition of_memory (t : cint) (bs : list byte) : Z :=
  conv t (le_combine (if SYLAR_BYTE_ORDER =? SYLAR_BIG_ENDIAN then rev bs else bs)).

Definition byteswapOnLittleEndian (t : cint) (z : Z) : Z :=
  if SYLAR_BYTE_ORDER =? SYLAR_BIG_ENDIAN then z else byteswap t z.
Definition byteswapOnBigEndian (t : cint) (z : Z) : Z :=
  if SYLAR_BYTE_ORDER =? SYLAR_BIG_ENDIAN then byteswap t z else z.
End host.

(** ** Lemmas *)

Lemma le_split_wrapu n w z :
  Z.of_nat n * 8 ≤ w → le_split n (wrapu w z) = le_split n z.
Proof.
  intros Hw. apply le_combine_inj.
  - by rewrite !length_le_split.
  - rewrite !le_combine_split. unfold wrapu.
    rewrite Z.mod_mod_divide; [done|].
    exists (2 ^ (w - Z.of_nat n * 8)). rewrite <-Z.pow_add_r by lia. f_equal. lia.
Qed.

Lemma le_split_wraps n z :
  (0 < n)%nat → le_split n (wraps (Z.of_nat n * 8) z) = le_split n z.
Proof.
  intros Hn. rewrite <-(le_split_wrapu n (Z.of_nat n * 8)) by lia.
  rewrite wrapu_wraps by lia. by apply le_split_wrapu.
Qed.

Lemma le_split_conv t z : (0 < sizeof t)%nat → le_split (sizeof t) (conv t z) = le_split (sizeof t) z.
Proof.
  intros Ht. unfold conv, bits. destruct (signed t).
  - by apply le_split_wraps.
  - by apply le_split_wrapu.
Qed.

Lemma conv_in_range t z : (0 < sizeof t)%nat → in_range t (conv t z).
Proof.
  intros. unfold in_range, conv, bits. destruct (signed t).
  - apply wraps_range. lia.
  - apply wrapu_range. lia.
Qed.

Lemma conv_id t z : (0 < sizeof t)%nat → in_range t z → conv t z = z.
Proof.
  intros. unfold in_range, conv, bits in *. destruct (signed t).
  - apply wraps_small; [lia|done].
  - by apply wrapu_small.
Qed.

Lemma conv_wrapu t z : (0 < sizeof t)%nat → conv t (wrapu (bits t) z) = conv t z.
Proof.
  intros. unfold conv, bits. destruct (signed t).
  - apply wraps_wrapu. lia.
  - apply wrapu_idemp. lia.
Qed.

Lemma conv_le_combine_split t z :
  (0 < sizeof t)%nat → conv t (le_combine (le_split (sizeof t) z)) = conv t z.
Proof. intros. rewrite le_combine_split. by apply (conv_wrapu t). Qed.

Lemma length_endian_bytes order n z : length (endian_bytes order n z) = n.
Proof. unfold endian_bytes. case_match; rewrite ?length_rev; apply length_le_split. Qed.

Lemma le_split_bswap n x : le_split n (bswap n x) = rev (le_split n x).
Proof. unfold bswap. apply split_le_combine'. by rewrite length_rev, length_le_split. Qed.

(** The bytes of a swapped integer are the bytes of the integer reversed. *)
Lemma endian_bytes_byteswap order t z :
  (0 < sizeof t ≤ 8)%nat →
  endian_bytes order (sizeof t) (byteswap t z) = rev (endian_bytes order (sizeof t) z).
Proof.
  intros Ht. unfold endian_bytes, byteswap.
  rewrite le_split_conv, le_split_bswap, le_split_wrapu by lia.
  case_match; by rewrite ?rev_involutive.
Qed.

Lemma byteswap_involutive t z :
  (0 < sizeof t ≤ 8)%nat → in_range t z → byteswap t (byteswap t z) = z.
Proof.
  intros Ht Hz. unfold byteswap at 1. unfold bswap.
  rewrite le_split_wrapu by lia. unfold byteswap.
  rewrite le_split_conv, le_split_bswap, rev_involutive, le_split_wrapu by lia.
  rewrite conv_le_combine_split by lia. apply conv_id; [lia|done].
Qed.

Section host_lemmas.
Context {H : Host}.

Lemma length_to_memory n z : length (to_memory n z) = n.
Proof. apply length_endian_bytes. Qed.

Lemma of_to_memory t z :
  (0 < sizeof t)%nat → of_memory t (to_memory (sizeof t) z) = conv t z.
Proof.
  intros. unfold of_memory, to_memory, endian_bytes.
  case_match; rewrite ?rev_involutive; by apply conv_le_combine_split.
Qed.

(** A number is stored, with a swap when the wanted order is not the
    host's, as its bytes in the wanted order, whatever the host. *)
Lemma to_memory_swapped order t z :
  (order = SYLAR_LITTLE_ENDIAN ∨ order = SYLAR_BIG_ENDIAN) →
  (0 < sizeof t ≤ 8)%nat →
  to_memory (sizeof t) (if negb (order =? SYLAR_BYTE_ORDER) then byteswap t z else z)
  = endian_bytes order (sizeof t) z.
Proof.
  intros Ho Ht. unfold to_memory.
  destruct byte_order_valid as [E|E], Ho as [->| ->]; rewrite E; simpl; try done;
    rewrite endian_bytes_byteswap by done; unfold endian_bytes; simpl;
    by rewrite ?rev_involutive.
Qed.

Lemma byteswapOnLittleEndian_involutive t z :
  (0 < sizeof t ≤ 8)%nat → in_range t z →
  byteswapOnLittleEndian t (byteswapOnLittleEndian t z) = z.
Proof.
  intros. unfold byteswapOnLittleEndian. case_match; [done|by apply byteswap_involutive].
Qed.

(** [byteswapOnLittleEndian] is the host-to-network conversion: the stored
    bytes are big-endian on every host. *)
Lemma to_memory_network t z :
  (0 < sizeof t ≤ 8)%nat →
  to_memory (sizeof t) (byteswapOnLittleEndian t z)
  = endian_bytes SYLAR_BIG_ENDIAN (sizeof t) z.
Proof.
  intros. rewrite <-(to_memory_swapped SYLAR_BIG_ENDIAN t z); [|by right|done].
  unfold byteswapOnLittleEndian. by destruct byte_order_valid as [E|E]; rewrite E.
Qed.
End host_lemmas.

