(* ===== verification/Thread.v ===== *)
(** Locks, their guards, semaphores and threads ([sylar/thread.h], [thread.cc]).

    The calls of pthread and of the semaphores are classes; a thread is named by a
    number.  A call that can block is one attempt: it says whether it returned, and a
    thread that waits tries again. *)
From S2P Require Import Prelude.
From stdpp Require Import gmap strings.

Local Open Scope string_scope.

(** ** The locks *)

(** [lock], [rdlock] and [wrlock]: the method a guard calls. *)
Inductive mode := Plain | Rd | Wr.
#[export] Instance mode_eq_dec : EqDecision mode.
Proof. solve_decision. Defined.
(** What the templates of the guards need of the class [T]: an attempt of a thread to
    take the lock, and [unlock], which is undefined for a thread that holds nothing. *)
Class Lockable (L : Type) := {
  create : L;
  attempt : mode → nat → L → bool * L;
  give : nat → L → option L;
}.

Class PthreadMutex (MX : Type) := {
  pthread_mutex_init : MX;
  pthread_mutex_lock : nat → MX → bool * MX;
  pthread_mutex_unlock : nat → MX → option MX;
}.
Class PthreadSpin (SP : Type) := {
  pthread_spin_init : SP;
  pthread_spin_lock : nat → SP → bool * SP;
  pthread_spin_unlock : nat → SP → option SP;
}.
Class PthreadRwlock (RW : Type) := {
  pthread_rwlock_init : RW;
  pthread_rwlock_rdlock : nat → RW → bool * RW;
  pthread_rwlock_wrlock : nat → RW → bool * RW;
  pthread_rwlock_unlock : nat → RW → option RW;
}.

Module Mutex.
Section mutex.
Context `{PthreadMutex MX}.
Definition Mutex_new : MX := pthread_mutex_init.
Definition lock (t : nat) (m_mutex : MX) : bool * MX := pthread_mutex_lock t m_mutex.
Definition unlock (t : nat) (m_mutex : MX) : option MX := pthread_mutex_unlock t m_mutex.
#[export] Instance lockable : Lockable MX := { create := Mutex_new; attempt _ := lock; give := unlock }.
End mutex.
End Mutex.

Module Spinlock.
Section spinlock.
Context `{PthreadSpin SP}.
Definition Spinlock_new : SP := pthread_spin_init.
Definition lock (t : nat) (m_mutex : SP) : bool * SP := pthread_spin_lock t m_mutex.
Definition unlock (t : nat) (m_mutex : SP) : option SP := pthread_spin_unlock t m_mutex.
#[export] Instance lockable : Lockable SP := { create := Spinlock_new; attempt _ := lock; give := unlock }.
End spinlock.
End Spinlock.

Module RWMutex.
Section rwmutex.
Context `{PthreadRwlock RW}.
Definition RWMutex_new : RW := pthread_rwlock_init.
Definition rdlock (t : nat) (m_lock : RW) : bool * RW := pthread_rwlock_rdlock t m_lock.
Definition wrlock (t : nat) (m_lock : RW) : bool * RW := pthread_rwlock_wrlock t m_lock.
Definition unlock (t : nat) (m_lock : RW) : option RW := pthread_rwlock_unlock t m_lock.
#[export] Instance lockable : Lockable RW := {
  create := RWMutex_new; attempt m := match m with Rd => rdlock | _ => wrlock end; give := unlock }.
End rwmutex.
End RWMutex.

Module CASLock.
(** An [atomic_flag]: [atomic_flag_test_and_set] gives what it was. *)
Definition test_and_set (m_mutex : bool) : bool * bool := (m_mutex, true).
Definition CASLock_new : bool := false.
(** One turn of the loop of [lock]. *)
Definition lock (t : nat) (m_mutex : bool) : bool * bool :=
  let '(was, m_mutex) := test_and_set m_mutex in (negb was, m_mutex).
(** [unlock] clears the flag, whoever calls it. *)
Definition unlock (t : nat) (m_mutex : bool) : option bool := Some false.
#[export] Instance lockable : Lockable bool := { create := CASLock_new; attempt _ := lock; give := unlock }.
End CASLock.

Module NullMutex.
Definition lock (t : nat) (m : unit) : bool * unit := (true, m).
Definition unlock (t : nat) (m : unit) : option unit := Some m.
(** [NullMutex] and [NullRWMutex] *)
#[export] Instance lockable : Lockable unit := { create := tt; attempt _ := lock; give := unlock }.
End NullMutex.

(** ** The guards *)

Section guards.
Context {L : Type} `{Lockable L}.

(** A guard on the stack of a thread: [ScopedLockImpl], [ReadScopedLockImpl] or
    [WriteScopedLockImpl], as its mode says. *)
Record Guard := mkGuard { g_thread : nat; g_mode : mode; m_locked : bool }.

Definition take_lock (m : mode) (t : nat) : M L bool := λ l, let '(ok, l) := attempt m t l in Ok ok l.
Definition give_lock (t : nat) : M L unit := λ l, match give t l with Some l => Ok tt l | None => Undef NotLocked end.
(** The constructors; nothing while the thread waits. *)
Definition guard_construct (m : mode) (t : nat) : M L (option Guard) :=
  ok ← take_lock m t; mret (if (ok : bool) then Some (mkGuard t m true) else None).
Definition ScopedLockImpl : nat → M L (option Guard) := guard_construct Plain.
Definition ReadScopedLockImpl : nat → M L (option Guard) := guard_construct Rd.
Definition WriteScopedLockImpl : nat → M L (option Guard) := guard_construct Wr.
(** [lock] and [unlock] of a guard; [lock] has returned when it gives the guard. *)
Definition guard_lock (g : Guard) : M L (option Guard) :=
  if negb (m_locked g) then
    ok ← take_lock (g_mode g) (g_thread g);
    mret (if (ok : bool) then Some (mkGuard (g_thread g) (g_mode g) true) else None)
  else mret (Some g).
Definition guard_unlock (g : Guard) : M L Guard :=
  if m_locked g then
    give_lock (g_thread g);;
    mret (mkGuard (g_thread g) (g_mode g) false)
  else mret g.
Definition guard_destroy (g : Guard) : M L unit := guard_unlock g;; mret tt.
End guards.

(** ** Semaphores *)

(** What [sem_wait] does: it takes one, waits, or fails, as when a signal comes. *)
Inductive waited (SE : Type) := Got (s : SE) | Waits (s : SE) | Fails (s : SE).
Arguments Got {SE} s.
Arguments Waits {SE} s.
Arguments Fails {SE} s.
Class PosixSem (SE : Type) := {
  sem_init : Z → option SE;
  sem_wait : SE → waited SE;
  sem_post : SE → option SE;
}.

Section semaphore.
Context `{PosixSem SE}.

Definition Semaphore_new {S} (count : Z) : M S SE :=
  match sem_init count with Some s => mret s | None => throw (logic_error "sem_init error") end.
(** [Semaphore::wait]: whether it returned. *)
Definition wait : M SE bool := λ s,
  match sem_wait s with
  | Got s => Ok true s
  | Waits s => Ok false s
  | Fails s => Throw (logic_error "sem_wait error") s
  end.
Definition notify : M SE unit := λ s,
  match sem_post s with Some s => Ok tt s | None => Throw (logic_error "sem_post error") s end.
End semaphore.

(** ** Threads *)

Section threads.
Context `{PosixSem SE} {CB : Type}.
(** [GetThreadId] of a thread *)
Context (gettid : nat → Z).

(** An object of the class; [m_thread] is 0 ([None]) after [join]. *)
Record Thread := mkThread {
  m_id : Z;
  m_thread : option nat;
  m_cb : option CB;
  m_name : string;
  m_semaphore : SE;
}.
(** Where a thread of the system is: in the constructor of an object; at the start of
    [run]; with everything set; before the call; in the code that is called; at the
    end. *)
Inductive phase :=
  | Creating (o : positive)
  | Entered (o : positive)
  | Initialised (o : positive) (cb : option CB)
  | Calling (cb : option CB)
  | Running
  | Finished.
(** A thread of the system with its two thread-local variables and the name [top]
    shows. *)
Record OsThread := mkOsThread {
  t_thread : option positive;
  t_thread_name : string;
  top_name : string;
  at_phase : phase;
}.
Record World := mkWorld {
  objects : gmap positive Thread;
  os : gmap nat OsThread;
  calls : list (nat * CB);
}.
Definition set_objects (v : gmap positive Thread) (w : World) : World := mkWorld v (os w) (calls w).
Definition set_os (v : gmap nat OsThread) (w : World) : World := mkWorld (objects w) v (calls w).
Definition put_object (o : positive) (v : Thread) : M World unit := modify (λ w, set_objects (<[o := v]> (objects w)) w).
Definition put_os (n : nat) (v : OsThread) : M World unit := modify (λ w, set_os (<[n := v]> (os w)) w).
Definition object (o : positive) : M World Thread := w ← get; deref (objects w !! o).
Definition os_of (n : nat) : M World OsThread := w ← get; deref (os w !! n).
Definition go (p : phase) (n : nat) : M World unit :=
  v ← os_of n; put_os n (mkOsThread (t_thread v) (t_thread_name v) (top_name v) p).
(** An operation on the semaphore of an object. *)
Definition on_semaphore {A} (o : positive) (m : M SE A) : M World A :=
  th ← object o;
  match m (m_semaphore th) with
  | Ok a s => put_object o (mkThread (m_id th) (m_thread th) (m_cb th) (m_name th) s);; mret a
  | Throw e s => put_object o (mkThread (m_id th) (m_thread th) (m_cb th) (m_name th) s);; throw e
  | Abort => (λ _, Abort) : M World A
  | Undef u => undef u
  end.

(** [Thread::Thread] in thread [c] up to the wait; [rt] is what [pthread_create]
    returns.  When it throws the object is gone. *)
Definition Thread_new (c : nat) (cb : option CB) (name : string) (rt : Z) : M World unit :=
  sem ← Semaphore_new 0;
  let m_name := if bool_decide (name = "") then "UNKNOW" else name in
  if negb (rt =? 0)%Z then throw (logic_error "pthread_create error")
  else
    w ← get;
    let o := fresh (dom (objects w)) in
    let n := fresh (dom (os w)) in
    put_object o (mkThread (-1) (Some n) cb m_name sem);;
    put_os n (mkOsThread None "UNKNOW" "" (Entered o));;
    go (Creating o) c.
(** The wait at its end; an exception destroys the object. *)
Definition Thread_wait (c : nat) : M World unit :=
  v ← os_of c;
  match at_phase v with
  | Creating o =>
      (λ w, match on_semaphore o wait w with
            | Ok true w => go Running c w
            | Ok false w => Ok tt w
            | Throw e w => Throw e (set_objects (delete o (objects w)) w)
            | Abort => Abort
            | Undef u => Undef u
            end) : M World unit
  | _ => mret tt
  end.

(** [Thread::run] up to [notify]: the thread-local variables, the members, and the
    function swapped out of the object. *)
Definition run_enter (n : nat) (o : positive) : M World unit :=
  thread ← object o;
  put_object o (mkThread (gettid n) (m_thread thread) None (m_name thread) (m_semaphore thread));;
  put_os n (mkOsThread (Some o) (m_name thread) (String.substring 0 15 (m_name thread)) (Initialised o (m_cb thread))).
Definition run_notify (n : nat) (o : positive) (cb : option CB) : M World unit :=
  on_semaphore o notify;;
  go (Calling cb) n.
(** The call; nothing catches what an empty function throws. *)
Definition run_call (n : nat) (cb : option CB) : M World unit :=
  match cb with
  | None => sylar_assert false
  | Some f => modify (λ w, mkWorld (objects w) (os w) (calls w ++ [(n, f)])%list);; go Running n
  end.
(** The next step of [run]. *)
Definition run (n : nat) : M World unit :=
  v ← os_of n;
  match at_phase v with
  | Entered o => run_enter n o
  | Initialised o cb => run_notify n o cb
  | Calling cb => run_call n cb
  | Running => go Finished n
  | Creating _ | Finished => mret tt
  end.

(** The static methods, in thread [n]. *)
Definition GetThis (n : nat) : M World (option positive) := v ← os_of n; mret (t_thread v).
Definition GetName (n : nat) : M World string := v ← os_of n; mret (t_thread_name v).
Definition SetName (n : nat) (name : string) : M World unit :=
  v ← os_of n;
  (match t_thread v with
   | Some o => th ← object o; put_object o (mkThread (m_id th) (m_thread th) (m_cb th) name (m_semaphore th))
   | None => mret tt
   end);;
  put_os n (mkOsThread (t_thread v) name (top_name v) (at_phase v)).

(** [join]: [rt] is what [pthread_join] returns once the thread has finished, and
    the result says whether the call returned. *)
Definition is_finished (n : nat) (w : World) : bool :=
  match at_phase <$> os w !! n with Some Finished => true | _ => false end.
Definition join (o : positive) (rt : Z) : M World bool :=
  th ← object o;
  match m_thread th with
  | None => mret true
  | Some n =>
      done ← gets (is_finished n);
      if negb (rt =? 0)%Z then throw (logic_error "pthread_join error")
      else if (done : bool) then
        put_object o (mkThread (m_id th) None (m_cb th) (m_name th) (m_semaphore th));;
        mret true
      else mret false
  end.
(** [~Thread]: the thread of the system goes on. *)
Definition Thread_destroy (o : positive) : M World unit :=
  object o;;
  modify (λ w, set_objects (delete o (objects w)) w).

(** The main thread, which is none of the class. *)
Definition main_world : World := mkWorld ∅ {[0%nat := mkOsThread None "UNKNOW" "" Running]} [].
End threads.
