(* ===== verification/LockSpec.v ===== *)
(** Locks exclude each other's holders, and what is done under one lock is done at
    once: the ground on which the other files treat a method as one step. *)
From S2P Require Import Prelude Thread.
From stdpp Require Import gmap.

(** ** What a lock promises *)

(** Who holds a lock, and by which method it was taken. *)
Notation holds := (list (mode * nat)).
Definition exclusive (m : mode) : bool := match m with Rd => false | _ => true end.
Definition compatible (m : mode) (h : holds) : Prop :=
  if exclusive m then h = [] else Forall (λ x, exclusive x.1 = false) h.
(** One holder, or readers only. *)
Definition valid (h : holds) : Prop := (length h ≤ 1)%nat ∨ Forall (λ x, exclusive x.1 = false) h.

(** A lock represents its holders: it is taken only when they allow it, a thread waits
    only when there are some, and a holder can give it back.  [uses] are the methods
    the lock has. *)
Class LockLaws (L : Type) `{Lockable L} (uses : mode → Prop) := {
  rep : L → holds → Prop;
  rep_perm l h h' : h ≡ₚ h' → rep l h → rep l h';
  rep_create : rep create [];
  rep_taken l h m t l' : uses m → rep l h → attempt m t l = (true, l') → compatible m h ∧ rep l' ((m, t) :: h);
  rep_waits l h m t l' : uses m → rep l h → attempt m t l = (false, l') → h ≠ [] ∧ rep l' h;
  rep_given l h m t : rep l ((m, t) :: h) → ∃ l', give t l = Some l' ∧ rep l' h;
}.

(** A lock with one owner: what pthread documents for its mutexes and spin locks. *)
Record OwnerLaws {A} (init : A) (lock : nat → A → bool * A) (unlock : nat → A → option A) := {
  own : A → option nat → Prop;
  own_init : own init None;
  own_free a t : own a None → ∃ a', lock t a = (true, a') ∧ own a' (Some t);
  own_held a t u : own a (Some u) → ∃ a', lock t a = (false, a') ∧ own a' (Some u);
  own_unlock a t : own a (Some t) → ∃ a', unlock t a = Some a' ∧ own a' None;
}.
Class MutexLaws (MX : Type) `{PthreadMutex MX} :=
  mutex_laws : OwnerLaws pthread_mutex_init pthread_mutex_lock pthread_mutex_unlock.
Class SpinLaws (SP : Type) `{PthreadSpin SP} :=
  spin_laws : OwnerLaws pthread_spin_init pthread_spin_lock pthread_spin_unlock.
(** What it documents for read-write locks. *)
Class RwlockLaws (RW : Type) `{PthreadRwlock RW} :=
  rwlock_laws : @LockLaws RW RWMutex.lockable (λ m, m ≠ Plain).

Lemma owner_lock_laws `{Lockable L} : OwnerLaws create (attempt Plain) give → LockLaws L (eq Plain).
Proof.
  intros [own Hi Hf Hh Hu].
  refine {| rep l h := ∃ o, own l o ∧ h = match o with Some t => [(Plain, t)] | None => [] end |}.
  - intros l h h' Hp (o&Ho&->). exists o. split; [done|].
    symmetry. destruct o; [by apply Permutation_singleton_l|by apply Permutation_nil_l].
  - by exists None.
  - intros l h m t l' <- (o&Ho&->) E. destruct o as [u|].
    + destruct (Hh l t u Ho) as (a&E'&_). congruence.
    + destruct (Hf l t Ho) as (a&E'&Ha). rewrite E' in E. injection E as <-. split; [done|]. by exists (Some t).
  - intros l h m t l' <- (o&Ho&->) E. destruct o as [u|].
    + destruct (Hh l t u Ho) as (a&E'&Ha). rewrite E' in E. injection E as <-. split; [done|]. by exists (Some u).
    + destruct (Hf l t Ho) as (a&E'&_). congruence.
  - intros l h m t (o&Ho&E). destruct o as [u|]; [|done]. injection E as -> -> ->.
    destruct (Hu l u Ho) as (a&E'&Ha). exists a. split; [done|]. by exists None.
Defined.
#[export] Instance Mutex_laws `{PthreadMutex MX} (HM : MutexLaws MX) : @LockLaws MX Mutex.lockable (eq Plain).
Proof. apply owner_lock_laws, HM. Defined.
#[export] Instance Spinlock_laws `{PthreadSpin SP} (HS : SpinLaws SP) : @LockLaws SP Spinlock.lockable (eq Plain).
Proof. apply owner_lock_laws, HS. Defined.
#[export] Instance RWMutex_laws `{PthreadRwlock RW} (HR : RwlockLaws RW) : @LockLaws RW RWMutex.lockable (λ m, m ≠ Plain) := HR.
(** The lock of the program itself: the flag is set while there is an owner. *)
Lemma CASLock_owner : OwnerLaws CASLock.CASLock_new CASLock.lock CASLock.unlock.
Proof.
  refine {| own a o := a = bool_decide (is_Some o) |}.
  - done.
  - intros a t ->. by exists true.
  - intros a t u ->. by exists true.
  - intros a t _. by exists false.
Defined.
#[export] Instance CASLock_laws : @LockLaws bool CASLock.lockable (eq Plain).
Proof. apply owner_lock_laws, CASLock_owner. Defined.

(** ** Guards *)

Section guards.
Context {L : Type} `{HL : Lockable L} {uses : mode → Prop} `{!LockLaws L uses}.

(** The guards of any threads on one lock: a guard is named by its thread and a number. *)
Record Guarded := mkGuarded { the_lock : L; the_guards : gmap (nat * nat) Guard }.
Inductive guard_op := Construct (m : mode) | Lock | Unlock | Destroy.
Definition on_lock {A} (m : M L A) : M Guarded A := λ s,
  let back l := mkGuarded l (the_guards s) in
  match m (the_lock s) with
  | Ok a l => Ok a (back l)
  | Throw e l => Throw e (back l)
  | Abort => Abort
  | Undef u => Undef u
  end.
Definition put_guard (k : nat * nat) (o : option Guard) : M Guarded unit :=
  match o with
  | Some v => modify (λ s, mkGuarded (the_lock s) (<[k := v]> (the_guards s)))
  | None => mret tt
  end.
Definition guard_of (k : nat * nat) : M Guarded Guard := s ← get; deref (the_guards s !! k).
Definition guard_step (t g : nat) (op : guard_op) : M Guarded unit :=
  match op with
  | Construct m => r ← on_lock (guard_construct m t); put_guard (t, g) r
  | Lock => v ← guard_of (t, g); r ← on_lock (guard_lock v); put_guard (t, g) r
  | Unlock => v ← guard_of (t, g); r ← on_lock (guard_unlock v); put_guard (t, g) (Some r)
  | Destroy =>
      v ← guard_of (t, g);
      on_lock (guard_destroy v);;
      modify (λ s, mkGuarded (the_lock s) (delete (t, g) (the_guards s)))
  end.
Definition legal (s : Guarded) (t g : nat) (op : guard_op) : Prop :=
  match op with
  | Construct m => uses m ∧ the_guards s !! (t, g) = None
  | _ => is_Some (the_guards s !! (t, g))
  end.
(** Any interleaving of what the threads do with their guards. *)
Inductive guard_run : Guarded → Prop :=
  | run_start : guard_run (mkGuarded create ∅)
  | run_step s t g op s' : guard_run s → legal s t g op → guard_step t g op s = Ok tt s' → guard_run s'.

(** What the locked guards hold. *)
Definition held (gs : gmap (nat * nat) Guard) : holds :=
  (λ kv, (g_mode kv.2, kv.1.1)) <$> map_to_list (filter (λ kv : nat * nat * Guard, m_locked kv.2 = true) gs).
Definition hold (k : nat * nat) (v : Guard) : holds := if m_locked v then [(g_mode v, k.1)] else [].
Lemma held_insert k v gs : held (<[k := v]> gs) ≡ₚ hold k v ++ held (delete k gs).
Proof.
  unfold held, hold. rewrite <-insert_delete_eq. destruct (m_locked v) eqn:E.
  - rewrite map_filter_insert_True by done. rewrite map_to_list_insert; [done|].
    rewrite map_lookup_filter_None. left. apply lookup_delete_eq.
  - rewrite map_filter_insert_False by (cbn; congruence). by rewrite delete_delete_eq.
Qed.
Lemma held_lookup k v gs : gs !! k = Some v → held gs ≡ₚ hold k v ++ held (delete k gs).
Proof. intros E. rewrite <-(insert_id gs k v E) at 1. apply held_insert. Qed.
Lemma held_fresh k v gs : gs !! k = None → held (<[k := v]> gs) ≡ₚ hold k v ++ held gs.
Proof. intros E. by rewrite held_insert, delete_id. Qed.
Lemma held_free gs : (∀ k v, gs !! k = Some v → m_locked v = false) → held gs = [].
Proof.
  intros Hf. unfold held. replace (filter _ gs) with (∅ : gmap (nat * nat) Guard); [done|].
  symmetry. apply map_empty_filter_2. intros k v Hk Hv. cbn in Hv. rewrite (Hf k v Hk) in Hv. done.
Qed.

Lemma valid_perm h h' : h ≡ₚ h' → valid h → valid h'.
Proof. intros Hp [Hl|Hl]; [left; by rewrite <-Hp|right; by rewrite <-Hp]. Qed.
Lemma valid_cons m t h : compatible m h → valid ((m, t) :: h).
Proof.
  unfold compatible, valid. destruct (exclusive m) eqn:E.
  - intros ->. left. simpl. lia.
  - intros Hh. right. by constructor.
Qed.
Lemma valid_tail x h : valid (x :: h) → valid h.
Proof. intros [Hl|[_ Hl]%Forall_cons]; [left; simpl in Hl; lia|by right]. Qed.

(** The invariant: the lock represents what the guards hold. *)
Record guarded (s : Guarded) : Prop := {
  gd_rep : rep (the_lock s) (held (the_guards s));
  gd_valid : valid (held (the_guards s));
  gd_owner k v : the_guards s !! k = Some v → g_thread v = k.1 ∧ uses (g_mode v);
}.
Lemma guarded_taken s k m l' : guarded s → uses m → (∀ v, the_guards s !! k = Some v → m_locked v = false) →
  attempt m k.1 (the_lock s) = (true, l') →
  compatible m (held (the_guards s)) ∧ guarded (mkGuarded l' (<[k := mkGuard k.1 m true]> (the_guards s))).
Proof.
  intros [Hr Hv Ho] Hu Hk E. destruct (rep_taken _ _ m k.1 l' Hu Hr E) as [Hc Hr'].
  assert (held (<[k := mkGuard k.1 m true]> (the_guards s)) ≡ₚ (m, k.1) :: held (the_guards s)) as Hp.
  { rewrite held_insert. cbn. constructor. destruct (the_guards s !! k) as [v|] eqn:Ev.
    - rewrite (held_lookup k v _ Ev). unfold hold. by rewrite (Hk v eq_refl).
    - by rewrite delete_id. }
  split; [done|]. split; cbn [the_lock the_guards].
  - by eapply rep_perm; [symmetry|].
  - eapply valid_perm; [by symmetry|]. by apply valid_cons.
  - intros k' v'. destruct (decide (k = k')) as [<-|Hne].
    + rewrite lookup_insert_eq. by intros [= <-].
    + rewrite lookup_insert_ne by done. apply Ho.
Qed.
Lemma guarded_waits s k m l' : guarded s → uses m → attempt m k (the_lock s) = (false, l') →
  held (the_guards s) ≠ [] ∧ guarded (mkGuarded l' (the_guards s)).
Proof. intros [Hr Hv Ho] Hu E. destruct (rep_waits _ _ m k l' Hu Hr E). by split. Qed.
Lemma guarded_release s k v : guarded s → the_guards s !! k = Some v → m_locked v = true →
  ∃ l', give (g_thread v) (the_lock s) = Some l' ∧ rep l' (held (delete k (the_guards s))) ∧
    valid (held (delete k (the_guards s))).
Proof.
  intros [Hr Hv Ho] Ek Ev. pose proof (held_lookup k v _ Ek) as Hp. unfold hold in Hp. rewrite Ev in Hp.
  destruct (Ho k v Ek) as [-> _].
  destruct (rep_given (the_lock s) (held (delete k (the_guards s))) (g_mode v) k.1) as (l'&E&Hr').
  { by eapply rep_perm. }
  exists l'. split_and!; try done. by eapply valid_tail, valid_perm.
Qed.

Lemma guarded_lower s l' k v : guarded s → the_guards s !! k = Some v →
  rep l' (held (delete k (the_guards s))) → valid (held (delete k (the_guards s))) →
  guarded (mkGuarded l' (delete k (the_guards s))) ∧
  guarded (mkGuarded l' (<[k := mkGuard (g_thread v) (g_mode v) false]> (the_guards s))).
Proof.
  intros [_ _ Ho] Hk Hr Hv. split; (split; cbn [the_lock the_guards]).
  - done.
  - done.
  - intros k' v'. rewrite lookup_delete_Some. intros [_ ?]. by apply Ho.
  - eapply rep_perm; [|exact Hr]. by rewrite held_insert.
  - eapply valid_perm; [|exact Hv]. by rewrite held_insert.
  - intros k' v' [[<- <-]|[_ E]]%lookup_insert_Some; [by apply (Ho k v)|by apply Ho].
Qed.
(** A guard that gives its lock back, or has nothing to give. *)
Lemma guard_unlock_ok s k v : guarded s → the_guards s !! k = Some v →
  ∃ l', guard_unlock v (the_lock s) = Ok (mkGuard (g_thread v) (g_mode v) false) l' ∧
    guarded (mkGuarded l' (delete k (the_guards s))) ∧
    guarded (mkGuarded l' (<[k := mkGuard (g_thread v) (g_mode v) false]> (the_guards s))).
Proof.
  intros Hg Hk. destruct (m_locked v) eqn:Ev.
  - destruct (guarded_release s k v Hg Hk Ev) as (l'&E&Hr&Hv). exists l'. split; [|by eapply guarded_lower].
    unfold guard_unlock. rewrite Ev. unfold give_lock, mbind, M_bind. by rewrite E.
  - exists (the_lock s). split.
    + unfold guard_unlock. rewrite Ev. destruct v as [t m b]. cbn in *. by rewrite Ev.
    + pose proof Hg as [Hr Hv _]. eapply guarded_lower; [done..| |].
      * eapply rep_perm; [|exact Hr]. rewrite (held_lookup k v _ Hk). unfold hold. by rewrite Ev.
      * eapply valid_perm; [|exact Hv]. rewrite (held_lookup k v _ Hk). unfold hold. by rewrite Ev.
Qed.
Lemma take_lock_ok m t (l : L) : ∃ ok l', attempt m t l = (ok, l') ∧ take_lock m t l = Ok ok l'.
Proof. unfold take_lock. destruct (attempt m t l) as [ok l']. by exists ok, l'. Qed.

(** What one operation does. *)
Lemma construct_ok s t g m : guarded s → legal s t g (Construct m) →
  ∃ ok l', attempt m t (the_lock s) = (ok, l') ∧
    guard_step t g (Construct m) s =
      Ok tt (mkGuarded l' (if ok then <[(t, g) := mkGuard t m true]> (the_guards s) else the_guards s)) ∧
    guarded (mkGuarded l' (if ok then <[(t, g) := mkGuard t m true]> (the_guards s) else the_guards s)) ∧
    if ok then compatible m (held (the_guards s)) else held (the_guards s) ≠ [].
Proof.
  intros Hg [Hu Hn]. destruct (take_lock_ok m t (the_lock s)) as (ok&l'&E&Et). exists ok, l'. split; [done|].
  split.
  - unfold guard_step, guard_construct, on_lock. unfold mbind, M_bind. rewrite Et. by destruct ok.
  - destruct ok.
    + destruct (guarded_taken s (t, g) m l' Hg Hu) as [Hc Hg']; [|done|done]. intros v. by rewrite Hn.
    + by destruct (guarded_waits s t m l' Hg Hu E).
Qed.
Lemma guard_step_ok s t g op : guarded s → legal s t g op → ∃ s', guard_step t g op s = Ok tt s' ∧ guarded s'.
Proof.
  intros Hg Hl. destruct op as [m| | |].
  { destruct (construct_ok s t g m Hg Hl) as (ok&l'&_&E&Hg'&_). eauto. }
  all: destruct Hl as [v Hk]; unfold guard_step, guard_of; rewrite (bind_assoc get), bind_get, Hk.
  all: rewrite (bind_ok (deref (Some v)) _ s v s) by done.
  - unfold on_lock, guard_lock, mbind, M_bind. destruct (m_locked v) eqn:Ev; cbn [negb].
    + eexists. split; [done|]. destruct s as [l gs]. cbn in *. rewrite (insert_id gs _ v) by done. done.
    + destruct (take_lock_ok (g_mode v) (g_thread v) (the_lock s)) as (ok&l'&E&Et). rewrite Et.
      destruct (gd_owner s Hg _ _ Hk) as [Ht Hu]. destruct ok.
      * eexists. split; [done|]. cbn [the_lock the_guards]. rewrite Ht. rewrite Ht in E.
        apply (guarded_taken s (t, g) (g_mode v) l' Hg Hu); [|done]. intros v' E'. congruence.
      * eexists. split; [done|]. by apply (guarded_waits s (g_thread v) (g_mode v) l' Hg Hu).
  - destruct (guard_unlock_ok s (t, g) v Hg Hk) as (l'&E&_&Hg'). unfold on_lock, mbind, M_bind. rewrite E.
    eexists. by split.
  - destruct (guard_unlock_ok s (t, g) v Hg Hk) as (l'&E&Hg'&_). unfold on_lock, guard_destroy, mbind, M_bind. rewrite E.
    eexists. by split.
Qed.
Lemma run_guarded s : guard_run s → guarded s.
Proof.
  induction 1 as [|s t g op s' _ IH Hl E].
  - split; cbn [the_lock the_guards]; [apply rep_create|left; rewrite held_free by done; cbn; lia|done].
  - destruct (guard_step_ok s t g op IH Hl) as (s''&E'&Hg). congruence.
Qed.

Lemma guarded_pair s k1 k2 v1 v2 : guarded s → the_guards s !! k1 = Some v1 → the_guards s !! k2 = Some v2 → k1 ≠ k2 →
  m_locked v1 = true → m_locked v2 = true → exclusive (g_mode v1) = false ∧ exclusive (g_mode v2) = false.
Proof.
  intros Hg H1 H2 Hne L1 L2. pose proof (gd_valid s Hg) as Hv.
  assert (held (the_guards s) ≡ₚ (g_mode v1, k1.1) :: (g_mode v2, k2.1) :: held (delete k2 (delete k1 (the_guards s)))) as Hp.
  { rewrite (held_lookup k1 v1 _ H1), (held_lookup k2 v2) by (by rewrite lookup_delete_ne).
    unfold hold. by rewrite L1, L2. }
  apply (valid_perm _ _ Hp) in Hv as [Hv|Hv]; [cbn [length] in Hv; lia|].
  by apply Forall_cons in Hv as [E1 [E2 _]%Forall_cons].
Qed.

End guards.

(** ** Instances *)

Module Demo.
(** A read-write lock that keeps a list of its holders. *)
Definition first_of (t : nat) (h : holds) : option holds :=
  match list_find (λ x, x.2 = t) h with Some (i, _) => Some (delete i h) | None => None end.
#[export] Instance list_rwlock : PthreadRwlock holds := {
  pthread_rwlock_init := [];
  pthread_rwlock_rdlock t h := if forallb (λ x, negb (exclusive x.1)) h then (true, (Rd, t) :: h) else (false, h);
  pthread_rwlock_wrlock t h := match h with [] => (true, [(Wr, t)]) | _ => (false, h) end;
  pthread_rwlock_unlock := first_of;
}.
(** It keeps one writer, or readers. *)
Definition shaped (h : holds) : Prop := (∃ t, h = [(Wr, t)]) ∨ Forall (λ x, x.1 = Rd) h.
Lemma readers_only h : forallb (λ x : mode * nat, negb (exclusive x.1)) h = true → shaped h → Forall (λ x, x.1 = Rd) h.
Proof. intros E [[t ->]|Hh]; [discriminate E|done]. Qed.
Lemma shaped_first m t h l : shaped l → l ≡ₚ (m, t) :: h → ∃ l', first_of t l = Some l' ∧ l' ≡ₚ h ∧ shaped l'.
Proof.
  intros Hs Hp. unfold first_of. destruct (list_find (λ x, x.2 = t) l) as [[i [m' t']]|] eqn:E.
  - apply list_find_Some in E as (Hi&Ht&_). cbn in Ht. subst t'. exists (delete i l). split; [done|].
    pose proof (delete_Permutation l i _ Hi) as Hd. destruct Hs as [[u ->]|Hr].
    + apply Permutation_singleton_l in Hp. injection Hp as _ _ <-. destruct i; [|done]. cbn. split; [done|]. right. constructor.
    + assert (m' = Rd ∧ m = Rd) as [-> ->].
      { split; [by apply (Forall_lookup_1 _ _ _ _ Hr Hi)|]. rewrite Hp in Hr. by apply Forall_cons in Hr as [Hr _]. }
      split; [by eapply Permutation_cons_inv; rewrite <-Hd|]. right. by apply Forall_delete.
  - exfalso. eapply (list_find_None _ _) in E. rewrite Hp in E. apply Forall_cons in E as [E _]. by apply E.
Qed.
#[export] Instance list_rwlock_laws : RwlockLaws holds.
Proof.
  refine {| rep (l : holds) h := l ≡ₚ h ∧ shaped l |}.
  - intros l h h' Hp [Hl Hs]. split; [by rewrite Hl|done].
  - split; [done|]. right. constructor.
  - intros l h m t l' Hm [Hp Hs] E. destruct m; [done| |]; cbn in E; unfold compatible; cbn.
    + unfold RWMutex.rdlock in E. cbn in E. destruct (forallb _ l) eqn:Ef; [|done]. injection E as <-.
      pose proof (readers_only l Ef Hs) as Hr. split; [|split; [by rewrite Hp|by right; constructor]].
      rewrite <-Hp. eapply Forall_impl; [exact Hr|]. by intros x ->.
    + unfold RWMutex.wrlock in E. cbn in E. destruct l; [|done]. injection E as <-. apply Permutation_nil_l in Hp as <-.
      split; [done|]. split; [done|]. left. by exists t.
  - intros l h m t l' Hm [Hp Hs] E. destruct m; [done| |]; cbn in E.
    + unfold RWMutex.rdlock in E. cbn in E. destruct (forallb _ l) eqn:Ef; [done|]. injection E as <-.
      split; [|done]. intros ->. by apply Permutation_nil_r in Hp as ->.
    + unfold RWMutex.wrlock in E. cbn in E. destruct l; [done|]. injection E as <-. split; [|done].
      intros ->. by apply Permutation_nil_r in Hp.
  - intros l h m t [Hp Hs]. destruct (shaped_first m t h l Hs Hp) as (l'&E&Hl&Hs'). by exists l'.
Defined.

(** Two readers are inside; a writer waits. *)
Definition two_readers : @Guarded holds :=
  mkGuarded [(Rd, 2%nat); (Rd, 1%nat)] (<[(2, 0)%nat := mkGuard 2 Rd true]> {[(1, 0)%nat := mkGuard 1 Rd true]}).
Lemma two_readers_run : guard_run (HL := RWMutex.lockable) (uses := λ m, m ≠ Plain) two_readers.
Proof.
  refine (run_step _ 2 0 (Construct Rd) _ (run_step _ 1 0 (Construct Rd) _ run_start _ _) _ _);
    first [reflexivity|by split].
Qed.
(** [NullMutex] keeps nobody out. *)
Lemma null_mutex_admits : ∃ s : @Guarded unit,
  (guard_step (HL := NullMutex.lockable) 1 0 (Construct Plain);; guard_step (HL := NullMutex.lockable) 2 0 (Construct Plain))
    (mkGuarded tt ∅) = Ok tt s ∧ m_locked <$> the_guards s !! (1, 0)%nat = Some true ∧
  m_locked <$> the_guards s !! (2, 0)%nat = Some true.
Proof. eexists. split; [reflexivity|]. by split. Qed.
End Demo.
