(* ===== verification/CriticalSpec.v ===== *)
(** What is done under one lock is done at once.

    Threads run critical sections on a shared value, each in small steps inside a
    guard; whatever the order of the steps, the outcome is that of the sections one
    after the other.  The other files rest on this where they treat a method that
    holds its lock as one step. *)
From S2P Require Import Prelude Thread LockSpec.
From stdpp Require Import gmap.

Section critical.
Context {L : Type} `{HL : Lockable L} {uses : mode → Prop} `{!LockLaws L uses} {X Y : Type}.

(** A section: the kind of its guard, and steps on the shared value and the thread's
    own. *)
Notation body := (list (X * Y → X * Y)).
Record section := mkSection { s_mode : mode; s_body : body }.
Record worker := mkWorker { w_local : Y; w_prog : list section; w_in : option (Guard * body) }.
Record config := mkConfig { c_lock : L; c_shared : X; c_workers : gmap nat worker }.

Definition with_lock {A} (m : M L A) : M config A := λ c,
  let back l := mkConfig l (c_shared c) (c_workers c) in
  match m (c_lock c) with
  | Ok a l => Ok a (back l)
  | Throw e l => Throw e (back l)
  | Abort => Abort
  | Undef u => Undef u
  end.
Definition put_worker (t : nat) (x : X) (w : worker) : M config unit :=
  modify (λ c, mkConfig (c_lock c) x (<[t := w]> (c_workers c))).
(** The next step of thread [t]: an attempt to construct the guard of its next section,
    a step of the section it is in, or the end of the guard. *)
Definition critical_step (t : nat) : M config unit :=
  c ← get;
  w ← deref (c_workers c !! t);
  match w_in w, w_prog w with
  | Some (g, f :: fs), prog =>
      let '(x, y) := f (c_shared c, w_local w) in put_worker t x (mkWorker y prog (Some (g, fs)))
  | Some (g, []), prog =>
      with_lock (guard_destroy g);; put_worker t (c_shared c) (mkWorker (w_local w) prog None)
  | None, s :: prog =>
      r ← with_lock (guard_construct (s_mode s) t);
      match r with
      | Some g => put_worker t (c_shared c) (mkWorker (w_local w) prog (Some (g, s_body s)))
      | None => mret tt
      end
  | None, [] => mret tt
  end.
Fixpoint schedule (ts : list nat) : M config unit :=
  match ts with [] => mret tt | t :: ts => critical_step t;; schedule ts end.

(** The sections at once. *)
Definition run_body (fs : body) (xy : X * Y) : X * Y := foldl (λ xy f, f xy) xy fs.
Notation atomic := (X * gmap nat (Y * list section))%type.
Definition atomic_step (t : nat) (a : atomic) : atomic :=
  match a.2 !! t with
  | Some (y, s :: prog) => let '(x, y) := run_body (s_body s) (a.1, y) in (x, <[t := (y, prog)]> a.2)
  | _ => a
  end.
Definition atomic_run (ts : list nat) (a : atomic) : atomic := foldl (λ a t, atomic_step t a) a ts.

(** Sections of readers do not write. *)
Definition reads (f : X * Y → X * Y) : Prop := ∀ xy, (f xy).1 = xy.1.
Definition fine (s : section) : Prop := uses (s_mode s) ∧ (s_mode s = Rd → Forall reads (s_body s)).
Definition view (w : worker) : Y * list section := (w_local w, w_prog w).
Definition todo (w : worker) : nat :=
  (sum_list_with (λ s, 2 + length (s_body s)) (w_prog w) + match w_in w with Some (_, fs) => 1 + length fs | None => 0 end)%nat.

Lemma run_body_reads fs xy : Forall reads fs → (run_body fs xy).1 = xy.1.
Proof.
  revert xy. induction fs as [|f fs IH]; intros xy; [done|]. intros [Hf Hfs]%Forall_cons.
  change (run_body (f :: fs) xy) with (run_body fs (f xy)). by rewrite (IH _ Hfs).
Qed.

(** The guards of the sections the threads are in. *)
Definition guards_of (ws : gmap nat worker) : gmap (nat * nat) Guard :=
  kmap (λ t, (t, 0%nat)) (omap (λ w, fst <$> w_in w) ws).
#[local] Instance key_inj : Inj (=) (=) (λ t : nat, (t, 0%nat)).
Proof. by intros x y [= ->]. Qed.
Lemma guards_of_lookup ws t : guards_of ws !! (t, 0%nat) = ws !! t ≫= λ w, fst <$> w_in w.
Proof. unfold guards_of. by rewrite (lookup_kmap (λ t : nat, (t, 0%nat))), lookup_omap. Qed.
Lemma guards_of_Some ws k v : guards_of ws !! k = Some v →
  ∃ t w fs, k = (t, 0%nat) ∧ ws !! t = Some w ∧ w_in w = Some (v, fs).
Proof.
  unfold guards_of. rewrite (lookup_kmap_Some (λ t : nat, (t, 0%nat))). intros (t&->&E). rewrite lookup_omap in E.
  destruct (ws !! t) as [w|] eqn:Ew; [|done]. cbn in E. destruct (w_in w) as [[g fs]|] eqn:Ei; [|done].
  injection E as <-. by exists t, w, fs.
Qed.
Lemma guards_of_in ws t w g fs : w_in w = Some (g, fs) → guards_of (<[t := w]> ws) = <[(t, 0%nat) := g]> (guards_of ws).
Proof.
  intros E. unfold guards_of. by rewrite (omap_insert_Some _ _ _ _ g), kmap_insert by (by rewrite ?E || apply _).
Qed.
Lemma guards_of_out ws t w : w_in w = None → guards_of (<[t := w]> ws) = delete (t, 0%nat) (guards_of ws).
Proof.
  intros E. unfold guards_of. by rewrite (omap_insert_None _ _ _ _), kmap_delete by (by rewrite ?E || apply _).
Qed.

(** The state in steps and the state of the sections at once: a thread that is inside
    has its section still to run in the one and has run it in the other. *)
Definition related (x a : X) (w : worker) (y : Y) : Prop :=
  match w_in w with
  | None => y = w_local w
  | Some (g, fs) =>
      m_locked g = true ∧ (run_body fs (x, w_local w)).2 = y ∧
      if exclusive (g_mode g) then (run_body fs (x, w_local w)).1 = a else Forall reads fs
  end.
Record sim (c : config) (a : atomic) : Prop := {
  sim_lock : guarded (uses := uses) (mkGuarded (c_lock c) (guards_of (c_workers c)));
  sim_dom t : is_Some (c_workers c !! t) ↔ is_Some (a.2 !! t);
  sim_worker t w y prog : c_workers c !! t = Some w → a.2 !! t = Some (y, prog) →
    w_prog w = prog ∧ Forall fine prog ∧ related (c_shared c) a.1 w y;
  sim_shared : (∀ t w g fs, c_workers c !! t = Some w → w_in w = Some (g, fs) → g_mode g = Rd) → c_shared c = a.1;
}.
Lemma sim_lookup c a t w : sim c a → c_workers c !! t = Some w →
  ∃ y, a.2 !! t = Some (y, w_prog w) ∧ Forall fine (w_prog w) ∧ related (c_shared c) a.1 w y.
Proof.
  intros Hs Hw. destruct (sim_dom c a Hs t) as [[[y prog] E] _]; [eauto|].
  destruct (sim_worker c a Hs t w y prog Hw E) as (->&Hf&Hr). by exists y.
Qed.

(** Who is inside with a writer. *)
Lemma inside_guard c t w g fs : c_workers c !! t = Some w → w_in w = Some (g, fs) →
  guards_of (c_workers c) !! (t, 0%nat) = Some g.
Proof. intros Hw Hi. rewrite guards_of_lookup, Hw. cbn. by rewrite Hi. Qed.
Lemma alone c a t u w w' g g' fs fs' : sim c a → c_workers c !! t = Some w → c_workers c !! u = Some w' → t ≠ u →
  w_in w = Some (g, fs) → w_in w' = Some (g', fs') → exclusive (g_mode g) = false.
Proof.
  intros Hs Hw Hw' Hne Hi Hi'.
  destruct (sim_lookup c a t w Hs Hw) as (y&_&_&Hr). destruct (sim_lookup c a u w' Hs Hw') as (y'&_&_&Hr').
  unfold related in Hr, Hr'. rewrite Hi in Hr. rewrite Hi' in Hr'.
  by eapply (guarded_pair _ (t, 0%nat) (u, 0%nat) g g' (sim_lock c a Hs));
    [eapply inside_guard|eapply inside_guard|congruence|apply Hr|apply Hr'].
Qed.

Lemma related_outside x x' b b' w y : w_in w = None → related x b w y → related x' b' w y.
Proof. unfold related. by intros ->. Qed.
(** One worker changes: what is left to show. *)
Lemma sim_put c a l x t w w' y' b :
  sim c a → c_workers c !! t = Some w →
  guarded (uses := uses) (mkGuarded l (guards_of (<[t := w']> (c_workers c)))) →
  Forall fine (w_prog w') → related x b w' y' →
  (∀ u v y, u ≠ t → c_workers c !! u = Some v → related (c_shared c) a.1 v y → related x b v y) →
  ((∀ u v g fs, u ≠ t → c_workers c !! u = Some v → w_in v = Some (g, fs) → g_mode g = Rd) →
   (∀ g fs, w_in w' = Some (g, fs) → g_mode g = Rd) → x = b) →
  sim (mkConfig l x (<[t := w']> (c_workers c))) (b, <[t := (y', w_prog w')]> a.2).
Proof.
  intros Hs Hw Hg Hf Hr Hrest Hsh. split; cbn [c_lock c_shared c_workers fst snd].
  - done.
  - intros u. rewrite !lookup_insert_is_Some. pose proof (sim_dom c a Hs u). tauto.
  - intros u v y prog. destruct (decide (t = u)) as [<-|Hne].
    + rewrite !lookup_insert_eq. intros [= <-] [= <- <-]. done.
    + rewrite !lookup_insert_ne by done. intros Hu Ha.
      destruct (sim_worker c a Hs u v y prog Hu Ha) as (Hp&Hf'&Hr'). split_and!; [done..|]. by apply (Hrest u).
  - intros Hall. apply Hsh.
    + intros u v g fs Hne Hu Hi. apply (Hall u v g fs); [by rewrite lookup_insert_ne|done].
    + intros g fs Hi. apply (Hall t w' g fs); [by rewrite lookup_insert_eq|done].
Qed.

(** A step of a section. *)
Lemma step_body c a t w g f fs : sim c a → c_workers c !! t = Some w → w_in w = Some (g, f :: fs) →
  let '(x, y) := f (c_shared c, w_local w) in
  critical_step t c = Ok tt (mkConfig (c_lock c) x (<[t := mkWorker y (w_prog w) (Some (g, fs))]> (c_workers c))) ∧
  sim (mkConfig (c_lock c) x (<[t := mkWorker y (w_prog w) (Some (g, fs))]> (c_workers c))) a.
Proof.
  intros Hs Hw Hi. destruct (f (c_shared c, w_local w)) as [x y] eqn:Ef.
  destruct (sim_lookup c a t w Hs Hw) as (z&Ha&Hf&Hr). unfold related in Hr. rewrite Hi in Hr. destruct Hr as (Hlk&Hy&Hx).
  assert (run_body (f :: fs) (c_shared c, w_local w) = run_body fs (x, y)) as E by (cbn; by rewrite Ef).
  rewrite E in Hy, Hx.
  assert (exclusive (g_mode g) = false → x = c_shared c ∧ Forall reads fs) as Hrd.
  { intros Eg. rewrite Eg in Hx. apply Forall_cons in Hx as [Hx Hx']. split; [|done].
    specialize (Hx (c_shared c, w_local w)). by rewrite Ef in Hx. }
  split.
  - unfold critical_step. rewrite bind_get, Hw, (bind_ok _ _ _ w c) by done. rewrite Hi, Ef. done.
  - destruct a as [b bs]. cbn [fst snd] in *. replace bs with (<[t := (z, w_prog w)]> bs) by (by apply insert_id).
    apply (sim_put c (b, bs) _ x t w (mkWorker y (w_prog w) (Some (g, fs))) z b); try done.
    + rewrite (guards_of_in _ _ _ g fs) by done. rewrite insert_id by (by eapply inside_guard). apply (sim_lock c _ Hs).
    + unfold related. cbn [w_in w_local]. split_and!; [done..|].
      destruct (exclusive (g_mode g)) eqn:Eg; [done|by apply Hrd].
    + intros u v q Hne Hu Hq. destruct (w_in v) as [[g' fs']|] eqn:Ei; [|by eapply related_outside].
      assert (exclusive (g_mode g) = false) as Eg by (by eapply (alone c (b, bs) t u w v)).
      by rewrite (proj1 (Hrd Eg)).
    + intros Hall Ht. specialize (Ht g fs eq_refl). rewrite (proj1 (Hrd ltac:(by rewrite Ht))).
      apply (sim_shared c (b, bs) Hs). intros u v g' fs' Hu Hv. destruct (decide (u = t)) as [->|Hne]; [congruence|eauto].
Qed.
(** The end of a section. *)
Lemma step_leave c a t w g : sim c a → c_workers c !! t = Some w → w_in w = Some (g, []) →
  ∃ l, critical_step t c = Ok tt (mkConfig l (c_shared c) (<[t := mkWorker (w_local w) (w_prog w) None]> (c_workers c))) ∧
  sim (mkConfig l (c_shared c) (<[t := mkWorker (w_local w) (w_prog w) None]> (c_workers c))) a.
Proof.
  intros Hs Hw Hi. destruct (sim_lookup c a t w Hs Hw) as (z&Ha&Hf&Hr). unfold related in Hr. rewrite Hi in Hr.
  destruct Hr as (Hlk&Hy&Hx). cbn in Hy, Hx.
  destruct (guard_unlock_ok _ (t, 0%nat) g (sim_lock c a Hs)) as (l&E&Hg&_); [by eapply inside_guard|].
  exists l. split.
  - unfold critical_step. rewrite bind_get, Hw, (bind_ok _ _ _ w c) by done. rewrite Hi.
    unfold with_lock, guard_destroy, mbind, M_bind. cbn [the_lock] in E. by rewrite E.
  - destruct a as [b bs]. cbn [fst snd] in *. replace bs with (<[t := (z, w_prog w)]> bs) by (by apply insert_id).
    apply (sim_put c (b, bs) l _ t w (mkWorker (w_local w) (w_prog w) None) z b); try done.
    + rewrite guards_of_out by done. exact Hg.
    + intros Hall _. destruct (g_mode g) eqn:Eg; cbn in Hx; [done| |done].
      apply (sim_shared c (b, bs) Hs). intros u v g' fs' Hu Hv. destruct (decide (u = t)) as [->|Hne]; [congruence|eauto].
Qed.
(** An attempt to enter: it succeeds when nobody is inside. *)
Definition nobody (c : config) : Prop := ∀ t w, c_workers c !! t = Some w → w_in w = None.
Lemma nobody_held c : nobody c → held (guards_of (c_workers c)) = [].
Proof.
  intros Hn. apply held_free. intros k v (t&w&fs&->&Hw&Hi)%guards_of_Some. rewrite (Hn t w Hw) in Hi. done.
Qed.
Lemma held_nobody c a : sim c a → held (guards_of (c_workers c)) = [] → nobody c.
Proof.
  intros Hs Hh t w Hw. destruct (w_in w) as [[g fs]|] eqn:Hi; [|done].
  destruct (sim_lookup c a t w Hs Hw) as (y&_&_&Hr). unfold related in Hr. rewrite Hi in Hr.
  pose proof (held_lookup (t, 0%nat) g _ (inside_guard c t w g fs Hw Hi)) as Hp. unfold hold in Hp.
  rewrite (proj1 Hr), Hh in Hp. by apply Permutation_nil_l in Hp.
Qed.
Lemma held_readers c a : sim c a → Forall (λ x, exclusive x.1 = false) (held (guards_of (c_workers c))) →
  ∀ t w g fs, c_workers c !! t = Some w → w_in w = Some (g, fs) → g_mode g = Rd.
Proof.
  intros Hs Hh t w g fs Hw Hi. destruct (sim_lookup c a t w Hs Hw) as (y&_&_&Hr). unfold related in Hr. rewrite Hi in Hr.
  pose proof (held_lookup (t, 0%nat) g _ (inside_guard c t w g fs Hw Hi)) as Hp. unfold hold in Hp.
  rewrite (proj1 Hr) in Hp. rewrite Hp in Hh. apply Forall_cons in Hh as [Hm _]. cbn in Hm. by destruct (g_mode g).
Qed.
Lemma atomic_step_eq t a y s prog : a.2 !! t = Some (y, s :: prog) →
  atomic_step t a = ((run_body (s_body s) (a.1, y)).1, <[t := ((run_body (s_body s) (a.1, y)).2, prog)]> a.2).
Proof. intros E. unfold atomic_step. rewrite E. by destruct (run_body _ _). Qed.
Lemma step_enter c a t w s prog : sim c a → c_workers c !! t = Some w → w_in w = None → w_prog w = s :: prog →
  ∃ l (ok : bool),
    let w' := mkWorker (w_local w) prog (Some (mkGuard t (s_mode s) true, s_body s)) in
    let c' := mkConfig l (c_shared c) (if ok then <[t := w']> (c_workers c) else c_workers c) in
    critical_step t c = Ok tt c' ∧ sim c' (if ok then atomic_step t a else a) ∧ (nobody c → ok = true).
Proof.
  intros Hs Hw Hi Hp. destruct (sim_lookup c a t w Hs Hw) as (z&Ha&Hf&Hr). unfold related in Hr. rewrite Hi in Hr. subst z.
  rewrite Hp in *. apply Forall_cons in Hf as [[Hu Hrd] Hf].
  destruct (take_lock_ok (s_mode s) t (c_lock c)) as (ok&l&E&Et). exists l, ok.
  assert (critical_step t c = Ok tt (mkConfig l (c_shared c)
    (if ok then <[t := mkWorker (w_local w) prog (Some (mkGuard t (s_mode s) true, s_body s))]> (c_workers c) else c_workers c))) as Est.
  { unfold critical_step. rewrite bind_get, Hw, (bind_ok _ _ _ w c) by done. rewrite Hi, Hp.
    unfold with_lock, guard_construct, mbind, M_bind. rewrite Et. by destruct ok. }
  cbn zeta. split; [exact Est|]. clear Est Et. destruct ok.
  - split; [|done]. destruct (guarded_taken _ (t, 0%nat) (s_mode s) l (sim_lock c a Hs) Hu) as [Hc Hg]; [|done|].
    { cbn [the_guards]. intros v. by rewrite guards_of_lookup, Hw; cbn; rewrite Hi. }
    cbn [the_guards] in *.
    assert (c_shared c = a.1 ∧ (exclusive (s_mode s) = true → nobody c)) as [Hx Hn].
    { unfold compatible in Hc. destruct (exclusive (s_mode s)).
      - pose proof (held_nobody c a Hs Hc) as Hn. split; [|done]. apply (sim_shared c a Hs).
        intros u v g fs Hv Hvi. rewrite (Hn u v Hv) in Hvi. done.
      - split; [|done]. apply (sim_shared c a Hs). by apply held_readers with a. }
    rewrite (atomic_step_eq t a _ s prog Ha).
    apply (sim_put c a l _ t w (mkWorker (w_local w) prog (Some (mkGuard t (s_mode s) true, s_body s)))); try done.
    + rewrite (guards_of_in _ _ _ (mkGuard t (s_mode s) true) (s_body s)) by done. exact Hg.
    + unfold related. cbn [w_in w_local g_mode m_locked]. rewrite Hx. split_and!; [done..|].
      destruct (s_mode s); cbn; [done|by apply Hrd|done].
    + intros u v y Hne Hv Hy. destruct (exclusive (s_mode s)) eqn:Ee; [by eapply related_outside, Hy; eapply Hn|].
      rewrite run_body_reads; [done|]. apply Hrd. by destruct (s_mode s).
    + intros _ Hm. rewrite run_body_reads; [done|]. apply Hrd. apply (Hm (mkGuard t (s_mode s) true) (s_body s)). done.
  - destruct (guarded_waits _ t (s_mode s) l (sim_lock c a Hs) Hu E) as [Hne Hg]. split.
    + pose proof Hs as [_ Hd Hw' Hsh]. by split.
    + intros Hn. cbn [the_guards] in Hne. by rewrite (nobody_held c Hn) in Hne.
Qed.

Lemma atomic_step_dom t u a : is_Some ((atomic_step t a).2 !! u) ↔ is_Some (a.2 !! u).
Proof.
  unfold atomic_step. destruct (a.2 !! t) as [[y [|s prog]]|] eqn:E; [done| |done].
  destruct (run_body _ _) as [x' y']. cbn. rewrite lookup_insert_is_Some'. split; [intros [<-|?]; [by eauto|done]|by right].
Qed.
(** Every step goes through; who is inside, or finds nobody inside, comes forward. *)
Definition forward (c : config) (t : nat) : Prop :=
  ∃ w c' w', c_workers c !! t = Some w ∧ critical_step t c = Ok tt c' ∧ c_workers c' !! t = Some w' ∧ (todo w' < todo w)%nat.
Lemma step_ok c a t : sim c a → is_Some (c_workers c !! t) →
  ∃ c' (b : bool), critical_step t c = Ok tt c' ∧ sim c' (if b then atomic_step t a else a) ∧
    (∀ w, c_workers c !! t = Some w → w_in w ≠ None ∨ (nobody c ∧ w_prog w ≠ []) → forward c t).
Proof.
  intros Hs [w Hw]. destruct (w_in w) as [[g [|f fs]]|] eqn:Hi.
  - destruct (step_leave c a t w g Hs Hw Hi) as (l&E&Hs'). eexists _, false. split; [exact E|]. split; [done|].
    intros ? _ _. eexists _, _, _. split_and!; [done..| |]; [apply lookup_insert_eq|]. unfold todo. rewrite Hi. cbn. lia.
  - pose proof (step_body c a t w g f fs Hs Hw Hi) as Hb. destruct (f (c_shared c, w_local w)) as [x y]. destruct Hb as [E Hs'].
    eexists _, false. split; [exact E|]. split; [done|].
    intros ? _ _. eexists _, _, _. split_and!; [done..| |]; [apply lookup_insert_eq|]. unfold todo. rewrite Hi. cbn. lia.
  - destruct (w_prog w) as [|s prog] eqn:Hp.
    + exists c, false. split; [|split; [done|]].
      * unfold critical_step. rewrite bind_get, Hw, (bind_ok _ _ _ w c) by done. by rewrite Hi, Hp.
      * intros w' Hw' [?|[_ ?]]; congruence.
    + destruct (step_enter c a t w s prog Hs Hw Hi Hp) as (l&ok&E&Hs'&Hn). eexists _, ok. split; [exact E|]. split; [done|].
      intros w' Hw' [?|[Hno _]]; [congruence|]. rewrite (Hn Hno) in E. exists w; eexists _, _. split_and!; [done..| |];
        [apply lookup_insert_eq|]. unfold todo. rewrite Hi, Hp. cbn. lia.
Qed.
Lemma schedule_ok ts : ∀ c a, sim c a → Forall (λ t, is_Some (c_workers c !! t)) ts →
  ∃ c' order, schedule ts c = Ok tt c' ∧ order `sublist_of` ts ∧ sim c' (atomic_run order a).
Proof.
  induction ts as [|t ts IH]; intros c a Hs Hts.
  - exists c, []. by split_and!.
  - apply Forall_cons in Hts as [Ht Hts]. destruct (step_ok c a t Hs Ht) as (c1&b&E&Hs1&_).
    destruct (IH c1 _ Hs1) as (c'&order&E'&Ho&Hs').
    { eapply Forall_impl; [exact Hts|]. intros u Hu. apply (sim_dom _ _ Hs1).
      destruct b; [apply atomic_step_dom|]; by apply (sim_dom _ _ Hs). }
    exists c', (if b then t :: order else order). split_and!.
    + cbn [schedule]. by rewrite (bind_ok _ _ _ _ _ E).
    + destruct b; by constructor.
    + by destruct b.
Qed.

(** C19: critical sections are atomic.  However the threads of a lock that keeps the
    laws are interleaved, nothing is undefined; the outcome, once everyone is outside,
    is that of whole sections run one after the other in the order of the schedule, a
    thread having left as much undone; and as long as there is something to do some
    thread comes forward. *)
Theorem critical_sections_atomic (x : X) (ws : gmap nat worker) (ts : list nat) :
  (∀ t w, ws !! t = Some w → w_in w = None ∧ Forall fine (w_prog w)) → Forall (λ t, is_Some (ws !! t)) ts →
  ∃ c order, schedule ts (mkConfig create x ws) = Ok tt c ∧ order `sublist_of` ts ∧
    (nobody c → (c_shared c, view <$> c_workers c) = atomic_run order (x, view <$> ws)) ∧
    ((∃ t w, c_workers c !! t = Some w ∧ (w_in w ≠ None ∨ w_prog w ≠ [])) → ∃ t, forward c t).
Proof.
  intros Hws Hts. assert (sim (mkConfig create x ws) (x, view <$> ws)) as Hs.
  { assert (guards_of ws = ∅) as Hg.
    { apply map_empty. intros k. destruct (guards_of ws !! k) as [v|] eqn:E; [|done].
      apply guards_of_Some in E as (t&w&fs&->&Hw&Hi). rewrite (proj1 (Hws t w Hw)) in Hi. done. }
    split; cbn [c_lock c_shared c_workers fst snd].
    - rewrite Hg. apply run_guarded, run_start.
    - intros t. by rewrite lookup_fmap, fmap_is_Some.
    - intros t w y prog Hw. rewrite lookup_fmap, Hw. intros [= <- <-]. destruct (Hws t w Hw) as [Hi Hf].
      split_and!; [done..|]. unfold related. by rewrite Hi.
    - done. }
  destruct (schedule_ok ts _ _ Hs Hts) as (c&order&E&Ho&Hs'). exists c, order. split_and!; [done..| |].
  - intros Hn. destruct (atomic_run order _) as [b bs]. f_equal.
    + apply (sim_shared _ _ Hs'). intros t w g fs Hw Hi. by rewrite (Hn t w Hw) in Hi.
    + apply map_eq. intros t. rewrite lookup_fmap. destruct (c_workers c !! t) as [w|] eqn:Hw.
      * destruct (sim_lookup _ _ t w Hs' Hw) as (y&Ha&_&Hr). cbn [snd] in Ha. rewrite Ha. unfold related in Hr.
        rewrite (Hn t w Hw) in Hr. cbn. unfold view. congruence.
      * destruct (bs !! t) eqn:Eb; [|done]. destruct (proj2 (sim_dom _ _ Hs' t)) as [v Hv]; [cbn; by rewrite Eb|congruence].
  - intros (t&w&Hw&Hor). destruct (decide (held (guards_of (c_workers c)) = [])) as [Hh|Hh].
    + pose proof (held_nobody c _ Hs' Hh) as Hn. exists t. destruct (step_ok c _ t Hs') as (c'&b&_&_&Hf); [eauto|].
      apply (Hf w Hw). right. split; [done|]. destruct Hor as [Hi|?]; [|done]. by rewrite (Hn t w Hw) in Hi.
    + destruct (map_choose (filter (λ kv : nat * nat * Guard, m_locked kv.2 = true) (guards_of (c_workers c)))) as (k&v&Hk).
      { intros E'. apply Hh. unfold held. by rewrite E', map_to_list_empty. }
      apply map_lookup_filter_Some in Hk as [(u&v'&fs&->&Hv&Hi)%guards_of_Some _].
      exists u. destruct (step_ok c _ u Hs') as (c'&b&_&_&Hf); [eauto|]. apply (Hf v' Hv). left. by rewrite Hi.
Qed.
End critical.

(** ** A counter *)

Module Demo.
Import CASLock.
(** Reading the counter, and writing it back incremented. *)
Definition increment : @section nat nat := mkSection Plain [λ '(x, _), (x, x); λ '(_, y), (S y, y)].
Definition two_threads : gmap nat (@worker nat nat) :=
  <[1%nat := mkWorker 0%nat [increment] None]> {[2%nat := mkWorker 0%nat [increment] None]}.
(** Thread 2 tries to get in while thread 1 is between the two steps. *)
Definition demo_schedule : list nat := [1; 1; 2; 2; 1; 1; 2; 2; 2; 2; 2].
Lemma critical_sections_atomic_witness : ∃ c order, schedule demo_schedule (mkConfig false 0%nat two_threads) = Ok tt c ∧
  (c_shared c, view <$> c_workers c) = atomic_run order (0%nat, view <$> two_threads) ∧ c_shared c = 2%nat.
Proof.
  destruct (critical_sections_atomic (uses := eq Plain) 0%nat two_threads demo_schedule) as (c&order&E&_&Hn&_).
  - unfold two_threads. intros t w [[_ <-]|[_ [_ <-]%lookup_singleton_Some]]%lookup_insert_Some; split; [done| |done|];
      (apply Forall_singleton; split; [reflexivity|discriminate]).
  - repeat constructor; vm_compute; by eexists.
  - exists c, order. split; [exact E|].
    assert (match schedule demo_schedule (mkConfig create 0%nat two_threads) with
            | Ok _ c => c_shared c = 2%nat ∧ map_Forall (λ _ w, w_in w = None) (c_workers c)
            | _ => False end) as Hc.
    { split; [vm_compute; reflexivity|]. apply map_Forall_to_list. vm_compute. repeat constructor. }
    rewrite E in Hc. destruct Hc as [Hc Ho]. split; [|exact Hc]. apply Hn. intros t w Hw. exact (Ho t w Hw).
Defined.
(** Without a lock an increment is lost. *)
Lemma null_mutex_loses :
  match schedule (HL := NullMutex.lockable) demo_schedule (mkConfig tt 0%nat two_threads) with
  | Ok _ c => c_shared c = 1%nat
  | _ => False
  end.
Proof. vm_compute. reflexivity. Qed.
End Demo.
