(* ===== verification/ThreadSpec.v ===== *)
(** The constructor of a thread returns when the new thread has taken what it needs
    out of the object: from then on the object may go. *)
From stdpp Require Import gmap strings.
From S2P Require Import Prelude Thread.

Local Open Scope string_scope.

(** What POSIX documents for a semaphore that stands for a number, when no signal
    interrupts the wait. *)
Class SemLaws (SE : Type) `{PosixSem SE} := {
  sem_rep : SE → nat → Prop;
  sem_init_0 : ∃ s, sem_init 0 = Some s ∧ sem_rep s 0;
  sem_wait_0 s : sem_rep s 0 → ∃ s', sem_wait s = Waits s' ∧ sem_rep s' 0;
  sem_wait_S s n : sem_rep s (S n) → ∃ s', sem_wait s = Got s' ∧ sem_rep s' n;
  sem_post_0 s : sem_rep s 0 → ∃ s', sem_post s = Some s' ∧ sem_rep s' 1;
}.

Section spec.
Context `{HSE : PosixSem SE} `{!SemLaws SE} {CB : Type} (gettid : nat → Z).
Notation world := (World (SE := SE) (CB := CB)).
Notation thread := (Thread (SE := SE) (CB := CB)).
Notation os_thread := (OsThread (CB := CB)).

(** ** Runs *)

Definition creating (w : world) (c : nat) (o : positive) : Prop := ∃ v, os w !! c = Some v ∧ at_phase v = Creating o.
Definition running (w : world) (n : nat) : Prop := ∃ v, os w !! n = Some v ∧ at_phase v = Running.
(** What can happen: threads in user code create objects, rename themselves, join and
    destroy objects whose constructor has returned; constructors and [run] go on.
    [given] has the function each thread was created with. *)
Inductive reach : gmap nat (option CB) → world → Prop :=
  | reach_main : reach ∅ main_world
  | reach_new given w w' c cb name : reach given w → running w c → Thread_new c cb name 0 w = Ok tt w' →
      reach (<[fresh (dom (os w)) := cb]> given) w'
  | reach_wait given w w' c : reach given w → Thread_wait c w = Ok tt w' → reach given w'
  | reach_run given w w' n : reach given w → n ≠ 0%nat → run gettid n w = Ok tt w' → reach given w'
  | reach_name given w w' n name : reach given w → running w n → SetName n name w = Ok tt w' → reach given w'
  | reach_join given w w' o rt b : reach given w → (∀ c, ¬ creating w c o) → join o rt w = Ok b w' → reach given w'
  | reach_destroy given w w' o : reach given w → (∀ c, ¬ creating w c o) → Thread_destroy o w = Ok tt w' → reach given w'.

(** ** The invariant *)

(** The object [run] still uses. *)
Definition early (v : os_thread) : option positive :=
  match at_phase v with Entered o | Initialised o _ => Some o | _ => None end.
Definition called (v : os_thread) : Prop :=
  match at_phase v with Creating _ | Running | Finished => True | _ => False end.
Definition ready (n : nat) (th : thread) : Prop := m_id th = gettid n ∧ m_cb th = None.
(** How far the thread [n] of an object in construction is. *)
Definition stage (given : gmap nat (option CB)) (o : positive) (n : nat) (v : os_thread) (th : thread) : Prop :=
  match at_phase v with
  | Entered o' => o' = o ∧ given !! n = Some (m_cb th) ∧ sem_rep (m_semaphore th) 0
  | Initialised o' cb => o' = o ∧ given !! n = Some cb ∧ ready n th ∧ sem_rep (m_semaphore th) 0
  | _ => ready n th ∧ sem_rep (m_semaphore th) 1
  end.
Definition phase_given (cb : option CB) (v : os_thread) : Prop :=
  match at_phase v with
  | Calling cb' => cb' = cb
  | Creating _ | Running | Finished => is_Some cb
  | _ => True
  end.
Record inv (given : gmap nat (option CB)) (w : world) : Prop := {
  inv_early n v o : os w !! n = Some v → early v = Some o →
    ∃ c th, creating w c o ∧ objects w !! o = Some th ∧ m_thread th = Some n;
  inv_creating c o : creating w c o →
    ∃ th n v, objects w !! o = Some th ∧ m_thread th = Some n ∧ os w !! n = Some v ∧ stage given o n v th;
  inv_unique c1 c2 o : creating w c1 o → creating w c2 o → c1 = c2;
  inv_live o th : objects w !! o = Some th →
    (∃ c, creating w c o) ∨ ∃ n v, os w !! n = Some v ∧ early v = None ∧ ready n th;
  inv_once : NoDup (calls w).*1;
  inv_calls n f : (n, f) ∈ calls w ↔ given !! n = Some (Some f) ∧ ∃ v, os w !! n = Some v ∧ called v;
  inv_given n v : os w !! n = Some v → n = 0%nat ∨ ∃ cb, given !! n = Some cb ∧ phase_given cb v;
  inv_dom n : is_Some (given !! n) → n ≠ 0%nat ∧ is_Some (os w !! n);
  inv_main : is_Some (os w !! 0%nat);
}.

Lemma early_not_creating v o o' : early v = Some o → at_phase v ≠ Creating o'.
Proof. unfold early. by destruct (at_phase v). Qed.
Lemma creating_put (w : world) objs n v v' c cs o : os w !! n = Some v → at_phase v ≠ Creating o → at_phase v' ≠ Creating o →
  creating (mkWorld objs (<[n := v']> (os w)) cs) c o ↔ creating w c o.
Proof.
  intros Hn Hv Hv'. unfold creating. cbn [os]. destruct (decide (n = c)) as [->|Hne].
  - rewrite lookup_insert_eq. split; intros (u&E&Hu); congruence.
  - by rewrite lookup_insert_ne.
Qed.

(** An object changes in what the invariant does not look at. *)
Lemma inv_object given w o th th' : inv given w → objects w !! o = Some th →
  m_id th' = m_id th → m_cb th' = m_cb th →
  ((∃ c, creating w c o) → m_thread th' = m_thread th ∧ ∀ n, sem_rep (m_semaphore th) n → sem_rep (m_semaphore th') n) →
  inv given (set_objects (<[o := th']> (objects w)) w).
Proof.
  intros [I1 I2 I3 I4 I5 I6 I7 I8 I9] Ho Hid Hcb Hc. split; try done; cbn [os objects set_objects calls].
  - intros n v o' Hn He. destruct (I1 n v o' Hn He) as (c&u&Hcr&Hu&Ht). destruct (decide (o' = o)) as [->|Hne].
    + exists c, th'. rewrite lookup_insert_eq. split_and!; [done..|]. destruct Hc as [-> _]; [by exists c|]. congruence.
    + exists c, u. by rewrite lookup_insert_ne.
  - intros c o' Hcr. destruct (I2 c o' Hcr) as (u&n&v&Hu&Ht&Hn&Hs). destruct (decide (o' = o)) as [->|Hne].
    + exists th', n, v. rewrite lookup_insert_eq. assert (u = th) as -> by congruence.
      destruct Hc as [Ht' Hsem]; [by exists c|]. split_and!; [done|congruence|done|].
      unfold stage, ready in *. rewrite Hid, Hcb. destruct (at_phase v); naive_solver.
    + exists u, n, v. by rewrite lookup_insert_ne.
  - intros o' u. destruct (decide (o' = o)) as [->|Hne].
    + rewrite lookup_insert_eq. intros [= <-]. destruct (I4 o th Ho) as [?|(n&v&Hn&He&Hr)]; [by left|right].
      exists n, v. split_and!; [done..|]. unfold ready in *. by rewrite Hid, Hcb.
    + rewrite lookup_insert_ne by done. apply I4.
Qed.
(** A thread that is past the semaphore goes on, in no constructor. *)
Definition late (v : os_thread) : Prop := early v = None ∧ ∀ o, at_phase v ≠ Creating o.
Lemma inv_late given w n v v' cs : inv given w → os w !! n = Some v → late v → late v' →
  NoDup cs.*1 → (∀ m f, (m, f) ∈ cs ↔ given !! m = Some (Some f) ∧ ∃ u, <[n := v']> (os w) !! m = Some u ∧ called u) →
  (n = 0%nat ∨ ∃ cb, given !! n = Some cb ∧ phase_given cb v') →
  inv given (mkWorld (objects w) (<[n := v']> (os w)) cs).
Proof.
  intros [I1 I2 I3 I4 I5 I6 I7 I8 I9] Hn [He Hc] [He' Hc'] Hnd Hcalls Hg.
  assert (∀ c o, creating (mkWorld (objects w) (<[n := v']> (os w)) cs) c o ↔ creating w c o) as Hcr by (intros; by eapply creating_put).
  split; cbn [os objects calls].
  - intros m u o Hm Hu. destruct (decide (m = n)) as [->|Hne]; [rewrite lookup_insert_eq in Hm; congruence|].
    rewrite lookup_insert_ne in Hm by done. setoid_rewrite Hcr. by apply (I1 m u).
  - intros c o Hco%Hcr. destruct (I2 c o Hco) as (th&m&u&Ho&Ht&Hm&Hs). destruct (decide (m = n)) as [->|Hne].
    + exists th, n, v'. rewrite lookup_insert_eq. split_and!; [done..|]. assert (u = v) as -> by congruence.
      unfold stage in *. unfold early in *. destruct (at_phase v) as [?|?|?|?| |]; try done; try (exfalso; by eapply Hc);
        destruct (at_phase v') as [?|?|?|?| |]; try done; try (exfalso; by eapply Hc').
    + exists th, m, u. by rewrite lookup_insert_ne.
  - intros c1 c2 o H1%Hcr H2%Hcr. by eapply I3.
  - intros o th Ho. destruct (I4 o th Ho) as [[c Hco]|(m&u&Hm&Hu&Hr)]; [left; exists c; by apply Hcr|right].
    destruct (decide (m = n)) as [->|Hne]; [exists n, v'; by rewrite lookup_insert_eq|exists m, u; by rewrite lookup_insert_ne].
  - done.
  - done.
  - intros m u. destruct (decide (m = n)) as [->|Hne]; [rewrite lookup_insert_eq; by intros [= <-]|].
    rewrite lookup_insert_ne by done. apply I7.
  - intros m Hm. destruct (I8 m Hm) as [? ?]. split; [done|]. apply lookup_insert_is_Some'. by right.
  - apply lookup_insert_is_Some'. by right.
Qed.
(** The thread of an object in construction goes on. *)
Lemma inv_stage given w n v v' o th th' : inv given w → os w !! n = Some v → early v = Some o →
  objects w !! o = Some th → m_thread th' = m_thread th → (early v' = Some o ∨ early v' = None) → ¬ called v' →
  stage given o n v' th' → (n = 0%nat ∨ ∃ cb, given !! n = Some cb ∧ phase_given cb v') →
  inv given (mkWorld (<[o := th']> (objects w)) (<[n := v']> (os w)) (calls w)).
Proof.
  intros [I1 I2 I3 I4 I5 I6 I7 I8 I9] Hn He Ho Ht He' Hnc Hst Hg.
  destruct (I1 n v o Hn He) as (c0&th0&Hc0&Ho0&Ht0). assert (th0 = th) as -> by congruence.
  assert (∀ c o', creating (mkWorld (<[o := th']> (objects w)) (<[n := v']> (os w)) (calls w)) c o' ↔ creating w c o') as Hcr.
  { intros c o'. eapply creating_put; [exact Hn|by eapply early_not_creating|]. intros E. apply Hnc. unfold called. by rewrite E. }
  split; cbn [os objects calls].
  - intros m u o' Hm Hu. setoid_rewrite Hcr. destruct (decide (m = n)) as [->|Hne].
    + rewrite lookup_insert_eq in Hm. injection Hm as <-. assert (o' = o) as -> by (destruct He'; congruence).
      exists c0, th'. rewrite lookup_insert_eq. split_and!; [done..|congruence].
    + rewrite lookup_insert_ne in Hm by done. destruct (I1 m u o' Hm Hu) as (c&th1&Hc&Ho1&Ht1).
      exists c, th1. split_and!; [done| |done]. rewrite lookup_insert_ne; [done|]. intros ->. congruence.
  - intros c o' Hco%Hcr. destruct (decide (o' = o)) as [->|Hne].
    + exists th', n, v'. rewrite !lookup_insert_eq. split_and!; [done|congruence|done..].
    + destruct (I2 c o' Hco) as (th1&m&u&Ho1&Ht1&Hm&Hs). exists th1, m, u. rewrite !lookup_insert_ne; [done| |done].
      intros ->. assert (u = v) as -> by congruence. unfold stage in Hs. unfold early in He.
      destruct (at_phase v); simplify_eq; naive_solver.
  - intros c1 c2 o' H1%Hcr H2%Hcr. by eapply I3.
  - intros o' th1. setoid_rewrite Hcr. destruct (decide (o' = o)) as [->|Hne]; [intros _; left; by exists c0|].
    rewrite lookup_insert_ne by done. intros Ho1. destruct (I4 o' th1 Ho1) as [?|(m&u&Hm&Hu&Hr)]; [by left|right].
    exists m, u. rewrite lookup_insert_ne by congruence. done.
  - done.
  - intros m f. rewrite (I6 m f). destruct (decide (m = n)) as [->|Hne]; [|by rewrite lookup_insert_ne].
    rewrite lookup_insert_eq. split; intros [_ (u&E&Hu)]; exfalso.
    + assert (u = v) as -> by congruence. unfold called, early in *. by destruct (at_phase v).
    + apply Hnc. congruence.
  - intros m u. destruct (decide (m = n)) as [->|Hne]; [rewrite lookup_insert_eq; by intros [= <-]|].
    rewrite lookup_insert_ne by done. apply I7.
  - intros m Hm. destruct (I8 m Hm) as [? ?]. split; [done|]. apply lookup_insert_is_Some'. by right.
  - apply lookup_insert_is_Some'. by right.
Qed.
(** A constructor returns. *)
Lemma inv_returned given w c v v' o n vn th th' : inv given w → os w !! c = Some v → at_phase v = Creating o →
  at_phase v' = Running → objects w !! o = Some th → m_thread th = Some n → os w !! n = Some vn → early vn = None →
  ready n th → ready n th' →
  inv given (mkWorld (<[o := th']> (objects w)) (<[c := v']> (os w)) (calls w)).
Proof.
  intros [I1 I2 I3 I4 I5 I6 I7 I8 I9] Hc Hv Hv' Ho Ht Hn He Hr Hr'.
  assert (∀ d o', creating (mkWorld (<[o := th']> (objects w)) (<[c := v']> (os w)) (calls w)) d o' ↔ creating w d o' ∧ d ≠ c) as Hcr.
  { intros d o'. unfold creating. cbn [os]. destruct (decide (d = c)) as [->|Hne].
    - rewrite lookup_insert_eq. split; [intros (u&[= <-]&E); congruence|by intros [_ ?]].
    - rewrite lookup_insert_ne by done. naive_solver. }
  assert (∀ d, creating w d o → d = c) as Hone by (intros d Hd; apply (I3 d c o Hd); by exists v).
  split; cbn [os objects calls].
  - intros m u o' Hm Hu. destruct (decide (m = c)) as [->|Hne].
    { rewrite lookup_insert_eq in Hm. injection Hm as <-. unfold early in Hu. by rewrite Hv' in Hu. }
    rewrite lookup_insert_ne in Hm by done. destruct (I1 m u o' Hm Hu) as (d&th1&Hd&Ho1&Ht1).
    assert (o' ≠ o) as Hoo by (intros ->; assert (m = n) as -> by congruence; congruence).
    exists d, th1. rewrite lookup_insert_ne by done. split_and!; [|done..]. apply Hcr. split; [done|]. intros ->.
    destruct Hd as (v1&E1&E2). congruence.
  - intros d o' [Hd Hdc]%Hcr. destruct (I2 d o' Hd) as (th1&m&u&Ho1&Ht1&Hm&Hs).
    assert (o' ≠ o) as Hoo by (intros ->; by apply Hdc, Hone).
    destruct (decide (m = c)) as [->|Hmc].
    + exists th1, c, v'. rewrite lookup_insert_ne, lookup_insert_eq by done. split_and!; [done..|].
      assert (u = v) as -> by congruence. unfold stage in *. by rewrite Hv in Hs; rewrite Hv'.
    + exists th1, m, u. by rewrite !lookup_insert_ne.
  - intros c1 c2 o' [H1 _]%Hcr [H2 _]%Hcr. by eapply I3.
  - assert (∀ m u th1, os w !! m = Some u → early u = None → ready m th1 →
      ∃ m u, <[c := v']> (os w) !! m = Some u ∧ early u = None ∧ ready m th1) as Hkeep.
    { intros m u th1 Hm Hu Hr1. destruct (decide (m = c)) as [->|Hmc]; [|exists m, u; by rewrite lookup_insert_ne].
      exists c, v'. rewrite lookup_insert_eq. split_and!; [done| |done]. unfold early. by rewrite Hv'. }
    intros o' th1. destruct (decide (o' = o)) as [->|Hne].
    + rewrite lookup_insert_eq. intros [= <-]. right. by apply (Hkeep n vn).
    + rewrite lookup_insert_ne by done. intros Ho1. destruct (I4 o' th1 Ho1) as [[d Hd]|(m&u&Hm&Hu&Hr1)].
      * left. exists d. apply Hcr. split; [done|]. intros ->. destruct Hd as (v1&E1&E2). congruence.
      * right. by apply (Hkeep m u).
  - done.
  - intros m f. rewrite (I6 m f). destruct (decide (m = c)) as [->|Hne]; [|by rewrite lookup_insert_ne].
    rewrite lookup_insert_eq. split; (intros [? _]; split; [done|]).
    + exists v'. split; [done|]. unfold called. by rewrite Hv'.
    + exists v. split; [done|]. unfold called. by rewrite Hv.
  - intros m u. destruct (decide (m = c)) as [->|Hne].
    + rewrite lookup_insert_eq. intros [= <-]. destruct (I7 c v Hc) as [?|(cb&Hcb&Hp)]; [by left|right].
      exists cb. split; [done|]. unfold phase_given in *. by rewrite Hv in Hp; rewrite Hv'.
    + rewrite lookup_insert_ne by done. apply I7.
  - intros m Hm. destruct (I8 m Hm) as [? ?]. split; [done|]. apply lookup_insert_is_Some'. by right.
  - apply lookup_insert_is_Some'. by right.
Qed.
(** A constructor has started its thread. *)
Lemma inv_new given w c v v' o n th vn cb : inv given w → os w !! c = Some v → at_phase v = Running →
  at_phase v' = Creating o → objects w !! o = None → os w !! n = None →
  m_thread th = Some n → m_cb th = cb → sem_rep (m_semaphore th) 0 → at_phase vn = Entered o →
  inv (<[n := cb]> given) (mkWorld (<[o := th]> (objects w)) (<[c := v']> (<[n := vn]> (os w))) (calls w)).
Proof.
  intros [I1 I2 I3 I4 I5 I6 I7 I8 I9] Hc Hv Hv' Ho Hn Ht Hcb Hsem Hvn.
  assert (c ≠ n) as Hcn by congruence.
  assert (∀ m, is_Some (os w !! m) → m ≠ n) as Hold by (intros m [u E]; congruence).
  assert (n ≠ 0%nat) as Hn0 by (symmetry; by apply Hold). assert (given !! n = None) as Hgn.
  { destruct (given !! n) eqn:E; [|done]. destruct (I8 n) as [_ [u Hu]]; [by rewrite E|congruence]. }
  assert (∀ d o', creating (mkWorld (<[o := th]> (objects w)) (<[c := v']> (<[n := vn]> (os w))) (calls w)) d o' ↔
    creating w d o' ∨ (d = c ∧ o' = o)) as Hcr.
  { intros d o'. unfold creating. cbn [os]. destruct (decide (d = c)) as [->|Hne].
    - rewrite lookup_insert_eq. split; [intros (u&[= <-]&E); right; split; congruence|].
      intros [(u&Hu&E)|[_ ->]]; [congruence|by exists v'].
    - rewrite lookup_insert_ne by done. destruct (decide (d = n)) as [->|Hne'].
      + rewrite lookup_insert_eq. split; [intros (u&[= <-]&E); congruence|]. intros [(u&Hu&E)|[? _]]; congruence.
      + rewrite lookup_insert_ne by done. naive_solver. }
  assert (∀ d o', creating w d o' → o' ≠ o) as Hoo by (intros d o' Hd; destruct (I2 d o' Hd) as (th1&?&?&Ho1&_); congruence).
  assert (∀ m u, m ≠ c → os w !! m = Some u → <[c := v']> (<[n := vn]> (os w)) !! m = Some u) as Hsame.
  { intros m u Hm Hu. rewrite !lookup_insert_ne; [done| |done]. intros ->. congruence. }
  assert (early v' = None ∧ called v') as [Hev' Hcv'] by (unfold early, called; by rewrite Hv').
  assert (early v = None) as Hev by (unfold early; by rewrite Hv).
  split; cbn [os objects calls].
  - intros m u o' Hm Hu. setoid_rewrite Hcr. destruct (decide (m = c)) as [->|Hmc]; [rewrite lookup_insert_eq in Hm; congruence|].
    rewrite lookup_insert_ne in Hm by done. destruct (decide (m = n)) as [->|Hmn].
    + rewrite lookup_insert_eq in Hm. injection Hm as <-. unfold early in Hu. rewrite Hvn in Hu. injection Hu as <-.
      exists c, th. rewrite lookup_insert_eq. by split_and!; [right|..].
    + rewrite lookup_insert_ne in Hm by done. destruct (I1 m u o' Hm Hu) as (d&th1&Hd&Ho1&Ht1).
      exists d, th1. split_and!; [by left| |done]. rewrite lookup_insert_ne; [done|]. symmetry. by eapply Hoo.
  - intros d o' [Hd|[-> ->]]%Hcr.
    + destruct (I2 d o' Hd) as (th1&m&u&Ho1&Ht1&Hm&Hs). pose proof (Hoo d o' Hd) as Hne.
      destruct (decide (m = c)) as [->|Hmc].
      * exists th1, c, v'. rewrite lookup_insert_eq, lookup_insert_ne by done. split_and!; [done..|].
        assert (u = v) as -> by congruence. unfold stage in *. by rewrite Hv in Hs; rewrite Hv'.
      * exists th1, m, u. rewrite (Hsame m u) by done. rewrite lookup_insert_ne by done. split_and!; [done..|].
        unfold stage in *. rewrite lookup_insert_ne by (intros ->; congruence). done.
    + exists th, n, vn. rewrite lookup_insert_eq. rewrite lookup_insert_ne by done. rewrite lookup_insert_eq.
      split_and!; [done..|]. unfold stage. rewrite Hvn, lookup_insert_eq. split_and!; [done|congruence|done].
  - intros c1 c2 o' [H1|[-> ->]]%Hcr [H2|[-> H2]]%Hcr; subst; try done; [by eapply I3|..]; exfalso; by eapply Hoo.
  - intros o' th1. setoid_rewrite Hcr. destruct (decide (o' = o)) as [->|Hne]; [intros _; left; exists c; by right|].
    rewrite lookup_insert_ne by done. intros Ho1. destruct (I4 o' th1 Ho1) as [[d Hd]|(m&u&Hm&Hu&Hr)]; [left; exists d; by left|right].
    destruct (decide (m = c)) as [->|Hmc]; [exists c, v'; by rewrite lookup_insert_eq|exists m, u; by rewrite (Hsame m u)].
  - done.
  - intros m f. rewrite (I6 m f). destruct (decide (m = c)) as [->|Hmc].
    + rewrite lookup_insert_eq, lookup_insert_ne by done. split; intros [? (u&Hu&Hcu)]; (split; [done|]).
      * by exists v'.
      * exists v. split; [done|]. unfold called. by rewrite Hv.
    + rewrite (lookup_insert_ne _ c) by done. destruct (decide (m = n)) as [->|Hmn]; [|by rewrite !lookup_insert_ne].
      rewrite !lookup_insert_eq, Hgn, Hn. split; [by intros [? _]|]. intros [_ (u&[= <-]&Hu)]. unfold called in Hu. by rewrite Hvn in Hu.
  - intros m u. destruct (decide (m = c)) as [->|Hmc].
    + rewrite lookup_insert_eq, lookup_insert_ne by done. intros [= <-]. destruct (I7 c v Hc) as [?|(cb'&Hcb'&Hp)]; [by left|right].
      exists cb'. split; [done|]. unfold phase_given in *. by rewrite Hv in Hp; rewrite Hv'.
    + rewrite (lookup_insert_ne _ c) by done. destruct (decide (m = n)) as [->|Hmn].
      * rewrite !lookup_insert_eq. intros [= <-]. right. exists cb. split; [done|]. unfold phase_given. by rewrite Hvn.
      * rewrite !lookup_insert_ne by done. apply I7.
  - intros m [->|Hm]%lookup_insert_is_Some'.
    + split; [done|]. apply lookup_insert_is_Some'. right. apply lookup_insert_is_Some'. by left.
    + destruct (I8 m Hm) as [? ?]. split; [done|]. do 2 (apply lookup_insert_is_Some'; right). done.
  - do 2 (apply lookup_insert_is_Some'; right). done.
Qed.
Lemma inv_destroy given w o : inv given w → (∀ c, ¬ creating w c o) →
  inv given (set_objects (delete o (objects w)) w).
Proof.
  intros [I1 I2 I3 I4 I5 I6 I7 I8 I9] Hno. split; try done; cbn [os objects set_objects calls].
  - intros n v o' Hn He. destruct (I1 n v o' Hn He) as (c&th&Hc&Ho&Ht). exists c, th. split_and!; [done| |done].
    rewrite lookup_delete_ne; [done|]. intros ->. by eapply Hno.
  - intros c o' Hc. destruct (I2 c o' Hc) as (th&n&v&Ho&Ht&Hn&Hs). exists th, n, v. split_and!; [|done..].
    rewrite lookup_delete_ne; [done|]. intros ->. by eapply Hno.
  - intros o' th [_ Ho]%lookup_delete_Some. by apply I4.
Qed.
(** ** The steps *)

Lemma os_of_ok n v (w : world) : os w !! n = Some v → os_of n w = Ok v w.
Proof. intros E. unfold os_of. by rewrite bind_get, E. Qed.
Lemma object_ok o th (w : world) : objects w !! o = Some th → object o w = Ok th w.
Proof. intros E. unfold object. by rewrite bind_get, E. Qed.
Lemma os_of_inv n v (w w' : world) : os_of n w = Ok v w' → os w !! n = Some v ∧ w' = w.
Proof. unfold os_of. rewrite bind_get. destruct (os w !! n); [|done]. by intros [= -> ->]. Qed.
Lemma object_inv o th (w w' : world) : object o w = Ok th w' → objects w !! o = Some th ∧ w' = w.
Proof. unfold object. rewrite bind_get. destruct (objects w !! o); [|done]. by intros [= -> ->]. Qed.
Definition with_phase (p : phase) (v : os_thread) : os_thread := mkOsThread (t_thread v) (t_thread_name v) (top_name v) p.
Definition with_sem (s : SE) (th : thread) : thread := mkThread (m_id th) (m_thread th) (m_cb th) (m_name th) s.
Lemma go_ok p n v (w : world) : os w !! n = Some v → go p n w = Ok tt (set_os (<[n := with_phase p v]> (os w)) w).
Proof. intros E. unfold go. by rewrite (bind_ok _ _ _ _ _ (os_of_ok n v w E)). Qed.
Lemma on_semaphore_ok {A} o (m : M SE A) (w : world) th a s : objects w !! o = Some th → m (m_semaphore th) = Ok a s →
  on_semaphore o m w = Ok a (set_objects (<[o := with_sem s th]> (objects w)) w).
Proof. intros E Em. unfold on_semaphore. rewrite (bind_ok _ _ _ _ _ (object_ok o th w E)). by rewrite Em. Qed.

(** The step of [run] for an object in construction goes through. *)
Lemma run_early given w n v o : inv given w → os w !! n = Some v → early v = Some o →
  ∃ w', run gettid n w = Ok tt w' ∧ inv given w'.
Proof.
  intros Hi Hn He. destruct (inv_early given w Hi n v o Hn He) as (c&th&Hc&Ho&Ht).
  destruct (inv_creating given w Hi c o Hc) as (th'&n'&v'&Ho'&Ht'&Hn'&Hst).
  assert (th' = th) as -> by congruence. assert (n' = n) as -> by congruence. assert (v' = v) as -> by congruence.
  unfold run. rewrite (bind_ok _ _ _ _ _ (os_of_ok n v w Hn)). unfold stage in Hst. unfold early in He.
  destruct (at_phase v) as [|o'|o' cb|cb| |] eqn:Ep; try done.
  - destruct Hst as (->&Hg&Hs). unfold run_enter. rewrite (bind_ok _ _ _ _ _ (object_ok o th w Ho)). eexists. split; [reflexivity|].
    apply (inv_stage given w n v _ o th); try done; [by unfold early; rewrite Ep|by left|by intros []|].
    right. by eexists.
  - destruct Hst as (->&Hg&Hr&Hs). destruct (sem_post_0 _ Hs) as (s&Es&Hs').
    unfold run_notify. rewrite (bind_ok _ _ _ _ _ (on_semaphore_ok o notify w th tt s Ho ltac:(unfold notify; by rewrite Es))).
    rewrite (go_ok _ n v) by done. eexists. split; [reflexivity|].
    apply (inv_stage given w n v _ o th); try done; [by unfold early; rewrite Ep|by right|by intros []|].
    right. by eexists.
Qed.
(** A constructor returns, unless its thread still uses the object. *)
Lemma wait_creating given w c o : inv given w → creating w c o →
  ∃ w', Thread_wait c w = Ok tt w' ∧ inv given w' ∧
    ((∃ n v, os w !! n = Some v ∧ early v = Some o) ∨ running w' c).
Proof.
  intros Hi Hc. pose proof Hc as (v&Hv&Hp). destruct (inv_creating given w Hi c o Hc) as (th&n&vn&Ho&Ht&Hn&Hst).
  unfold Thread_wait. rewrite (bind_ok _ _ _ _ _ (os_of_ok c v w Hv)). rewrite Hp.
  assert ((early vn = Some o ∧ sem_rep (m_semaphore th) 0) ∨ (early vn = None ∧ ready n th ∧ sem_rep (m_semaphore th) 1)) as [[He Hs]|(He&Hr&Hs)].
  { unfold stage, early in *. destruct (at_phase vn); naive_solver. }
  - destruct (sem_wait_0 _ Hs) as (s&Es&Hs').
    rewrite (on_semaphore_ok o wait w th false s Ho) by (unfold wait; by rewrite Es).
    eexists. split; [reflexivity|]. split; [|left; by exists n, vn].
    apply (inv_object given w o th); try done. intros _. split; [done|]. intros k Hk. cbn.
    destruct k as [|k]; [done|]. destruct (sem_wait_S _ _ Hk) as (s2&E2&_). congruence.
  - destruct (sem_wait_S _ _ Hs) as (s&Es&Hs').
    rewrite (on_semaphore_ok o wait w th true s Ho) by (unfold wait; by rewrite Es).
    rewrite (go_ok _ c v) by done. eexists. split; [reflexivity|]. split.
    + by eapply (inv_returned given w c v _ o n vn th).
    + right. eexists. split; [apply lookup_insert_eq|done].
Qed.
Lemma run_late given w n v w' : inv given w → n ≠ 0%nat → os w !! n = Some v → early v = None → run gettid n w = Ok tt w' →
  inv given w'.
Proof.
  intros Hi Hn0 Hn He E. unfold run in E. rewrite (bind_ok _ _ _ _ _ (os_of_ok n v w Hn)) in E.
  destruct (inv_given given w Hi n v Hn) as [?|(cb&Hcb&Hp)]; [done|]. unfold early in He. unfold phase_given in Hp.
  destruct (at_phase v) as [| | |cb'| |] eqn:Ep; try done; try (by injection E as <-).
  - subst cb'. unfold run_call in E. destruct cb as [f|]; [|done]. rewrite bind_modify in E.
    rewrite (go_ok _ n v) in E by done. injection E as <-.
    assert (¬ n ∈ (calls w).*1) as Hnew.
    { assert (∀ f, ¬ (n, f) ∈ calls w) as Hno.
      { intros g (_&u&Hu&Hc)%(inv_calls given w Hi). unfold called in Hc. assert (u = v) as -> by congruence. by rewrite Ep in Hc. }
      intros ([m g]&->&Hg)%list_elem_of_fmap. by eapply Hno. }
    apply (inv_late given w n v (with_phase Running v)); try done; [by split; unfold early; rewrite Ep|..].
    + cbn [calls]. rewrite fmap_app. apply NoDup_app. split_and!; [apply (inv_once given w Hi)| |by apply NoDup_singleton].
      by intros m Hm ->%list_elem_of_singleton.
    + cbn [calls os]. intros m g. rewrite elem_of_app, list_elem_of_singleton, (inv_calls given w Hi m g).
      destruct (decide (m = n)) as [->|Hne].
      * rewrite lookup_insert_eq, Hcb. split.
        { intros [(_&u&Hu&Hc)|[= ->]]; [|by split; [done|eexists; split]]. unfold called in Hc.
          assert (u = v) as -> by congruence. by rewrite Ep in Hc. }
        intros [[= ->] _]. by right.
      * rewrite lookup_insert_ne by done. split; [intros [?|[= ? _]]; done|by left].
    + right. exists (Some f). split; [done|]. by eexists.
  - rewrite (go_ok _ n v) in E by done. injection E as <-.
    apply (inv_late given w n v (with_phase Finished v)); try done; [by split; unfold early; rewrite Ep| | |].
    + apply (inv_once given w Hi).
    + intros m g. rewrite (inv_calls given w Hi m g). destruct (decide (m = n)) as [->|Hne]; [|by rewrite lookup_insert_ne].
      rewrite lookup_insert_eq. split; intros [? _]; (split; [done|]); [by eexists|]. exists v. split; [done|]. unfold called. by rewrite Ep.
    + right. by exists cb.
Qed.
Lemma new_ok given w c cb name w' : inv given w → running w c → Thread_new c cb name 0 w = Ok tt w' →
  inv (<[fresh (dom (os w)) := cb]> given) w'.
Proof.
  intros Hi (v&Hv&Hp) E. unfold Thread_new, Semaphore_new in E. destruct sem_init_0 as (s&Es&Hs). rewrite Es in E.
  rewrite bind_ret in E. cbn [negb Z.eqb] in E. rewrite bind_get in E.
  set (o := fresh (dom (objects w))) in *. set (n := fresh (dom (os w))) in *.
  assert (objects w !! o = None) as Ho by (apply not_elem_of_dom, is_fresh).
  assert (os w !! n = None) as Hn by (apply not_elem_of_dom, is_fresh).
  unfold put_object, put_os in E. rewrite !bind_modify in E.
  erewrite go_ok in E by (cbn; by rewrite lookup_insert_ne by congruence). injection E as <-.
  by apply (inv_new given w c v).
Qed.
Lemma SetName_ok given w n name w' : inv given w → running w n → SetName n name w = Ok tt w' → inv given w'.
Proof.
  intros Hi (v&Hv&Hp) E. unfold SetName in E. rewrite (bind_ok _ _ _ _ _ (os_of_ok n v w Hv)) in E.
  apply bind_inv in E as ([]&w1&E1&E). unfold put_os in E. injection E as <-.
  assert (inv given w1 ∧ os w1 = os w ∧ calls w1 = calls w) as (Hi1&Hos&Hcs).
  { destruct (t_thread v) as [o|]; [|by injection E1 as <-].
    apply bind_inv in E1 as (th&w2&(Ho&->)%object_inv&E1). injection E1 as <-. split; [|done].
    by apply (inv_object given w o th). }
  unfold set_os. rewrite <-Hos in Hv.
  apply (inv_late given w1 n v _ (calls w1) Hi1 Hv).
  - split; [unfold early|intros o]; by rewrite Hp.
  - split; [unfold early|intros o]; cbn; by rewrite Hp.
  - apply (inv_once given w1 Hi1).
  - intros m g. rewrite (inv_calls given w1 Hi1 m g). destruct (decide (m = n)) as [->|Hne]; [|by rewrite lookup_insert_ne].
    rewrite lookup_insert_eq. split; intros [? _]; (split; [done|]); eexists; (split; [done|]); unfold called; cbn; by rewrite Hp.
  - destruct (inv_given given w1 Hi1 n v Hv) as [?|(cb&Hcb&Hg)]; [by left|right]. exists cb. split; [done|]. exact Hg.
Qed.
Lemma reach_inv given w : reach given w → inv given w.
Proof.
  induction 1 as [|given w w' c cb name _ IH Hc E|given w w' c _ IH E|given w w' n _ IH Hn E|given w w' n name _ IH Hc E
                 |given w w' o rt b _ IH Hno E|given w w' o _ IH Hno E].
  - assert (∀ n v, os (main_world : world) !! n = Some v → n = 0%nat ∧ v = mkOsThread (CB := CB) None "UNKNOW" "" Running) as Hm.
    { cbn. by intros n v [<- <-]%lookup_singleton_Some. }
    split; cbn [objects calls main_world].
    + by intros n v o [_ ->]%Hm.
    + by intros c o (v&[_ ->]%Hm&?).
    + by intros c1 c2 o (v&[_ ->]%Hm&?).
    + by intros o th.
    + constructor.
    + intros n f. split; [by intros ?%elem_of_nil|by intros [? _]].
    + intros n v [-> _]%Hm. by left.
    + by intros n [? ?].
    + by eexists.
  - by eapply new_ok.
  - destruct (os w !! c) as [v|] eqn:Hv; [|unfold Thread_wait, os_of in E; rewrite (bind_assoc get), bind_get, Hv in E; done].
    destruct (at_phase v) as [o| | | | |] eqn:Hp.
    { destruct (wait_creating given w c o IH) as (w2&E2&Hi&_); [by exists v|]. congruence. }
    all: unfold Thread_wait in E; rewrite (bind_ok _ _ _ _ _ (os_of_ok c v w Hv)), Hp in E; by injection E as <-.
  - destruct (os w !! n) as [v|] eqn:Hv; [|unfold run, os_of in E; rewrite (bind_assoc get), bind_get, Hv in E; done].
    destruct (early v) as [o|] eqn:He; [|by eapply run_late].
    destruct (run_early given w n v o IH Hv He) as (w2&E2&Hi). congruence.
  - by eapply SetName_ok.
  - unfold join in E. apply bind_inv in E as (th&w1&(Ho&->)%object_inv&E). destruct (m_thread th) as [n|]; [|by injection E as _ <-].
    rewrite bind_gets in E. destruct (negb _); [done|]. destruct (is_finished n w); [|by injection E as _ <-].
    unfold put_object in E. rewrite bind_modify in E. injection E as _ <-.
    apply (inv_object given w o th); try done. intros [c Hc]. by destruct (Hno c).
  - unfold Thread_destroy in E. apply bind_inv in E as (th&w1&(Ho&->)%object_inv&E). injection E as <-. by apply inv_destroy.
Qed.

End spec.

(** ** Witnesses *)

Module Demo.
#[export] Instance nat_sem : PosixSem nat := {
  sem_init z := Some (Z.to_nat z); sem_wait n := match n with S n => Got n | O => Waits 0%nat end; sem_post n := Some (S n) }.
#[export] Instance nat_sem_laws : SemLaws nat.
Proof. refine {| sem_rep s n := s = n |}; cbn; intros; subst; eauto. Defined.
Definition tid (n : nat) : Z := 100 + Z.of_nat n.
(** The main thread starts a worker, which calls its function, and destroys the object. *)
Definition demo_run : M (World (SE := nat) (CB := string)) unit :=
  Thread_new 0 (Some "work") "" 0;; Thread_wait 0;; run tid 1;; run tid 1;; Thread_wait 0;;
  Thread_destroy 1;; run tid 1.
Definition demo_world : World (SE := nat) (CB := string) :=
  match demo_run main_world with Ok _ w => w | _ => main_world end.
Definition after {S} (m : M S unit) (s : S) : S := match m s with Ok _ s => s | _ => s end.
Lemma demo_reach : reach tid {[1%nat := Some "work"]} demo_world.
Proof.
  set (w1 := after (Thread_new 0 (Some "work") "" 0) main_world). set (w2 := after (Thread_wait 0) w1).
  set (w3 := after (run tid 1) w2). set (w4 := after (run tid 1) w3). set (w5 := after (Thread_wait 0) w4).
  set (w6 := after (Thread_destroy 1) w5).
  assert (reach tid {[1%nat := Some "work"]} w1) as H1.
  { apply (reach_new tid ∅ main_world w1 0 (Some "work") ""); [constructor|by eexists|reflexivity]. }
  assert (reach tid {[1%nat := Some "work"]} w5) as H5.
  { apply (reach_wait tid _ w4 w5 0); [|reflexivity]. apply (reach_run tid _ w3 w4 1); [|done|reflexivity].
    apply (reach_run tid _ w2 w3 1); [|done|reflexivity]. by apply (reach_wait tid _ w1 w2 0). }
  apply (reach_run tid _ w6 demo_world 1); [|done|reflexivity].
  apply (reach_destroy tid _ w5 w6 1); [done| |reflexivity].
  intros c (v&Hv&Hp). assert (map_Forall (λ _ v, at_phase v ≠ Creating 1) (os w5)) as Hall.
  { apply map_Forall_to_list. vm_compute. repeat constructor; discriminate. }
  by apply (Hall c v Hv).
Qed.
(** The thread then has a pointer to an object that is gone: renaming itself uses it. *)
Lemma rename_dangles : SetName 1 "worker" demo_world = Undef NullDeref.
Proof. vm_compute. reflexivity. Qed.
End Demo.
