(* ===== verification/ByteArray.v ===== *)
(** The serialisation buffer ([sylar/bytearray.h], [sylar/bytearray.cc]).

    A [ByteArray] is a chain of heap nodes of [m_baseSize] bytes each.  The
    model keeps the chain as the list of the nodes' memories, [m_root] being
    index 0 and [m_cur] an index or the null pointer; memory returned by
    [new char[s]] is indeterminate (class [Heap]).  Sizes of objects in memory
    are natural numbers ([size_t] cannot overflow on them).

    The module [Tape] is the abstract specification: a byte string with a
    cursor.  The theorems show that the operations implement it, say exactly
    when they do not, and that every encoder is inverted by its decoder. *)
From S2P Require Import Prelude Endian.
From Stdlib Require Import Strings.Byte.
From coqutil Require Import Byte Word.LittleEndianList.

(** The contents of fresh heap memory: a byte per node number and offset. *)
Class Heap := { indeterminate : nat → nat → byte }.

Record ByteArray := mkByteArray {
  m_baseSize : nat;
  m_position : nat;
  m_capacity : nat;
  m_size : nat;
  m_endian : Z;
  m_nodes : list (list byte);   (** the chain from [m_root] *)
  m_cur : option nat;           (** index in the chain, [None] for [nullptr] *)
}.

Definition set_position_field (p : nat) (ba : ByteArray) : ByteArray :=
  mkByteArray (m_baseSize ba) p (m_capacity ba) (m_size ba) (m_endian ba) (m_nodes ba) (m_cur ba).
Definition set_size_field (n : nat) (ba : ByteArray) : ByteArray :=
  mkByteArray (m_baseSize ba) (m_position ba) (m_capacity ba) n (m_endian ba) (m_nodes ba) (m_cur ba).
Definition set_nodes_field (l : list (list byte)) (ba : ByteArray) : ByteArray :=
  mkByteArray (m_baseSize ba) (m_position ba) (m_capacity ba) (m_size ba) (m_endian ba) l (m_cur ba).
Definition set_cur_field (c : option nat) (ba : ByteArray) : ByteArray :=
  mkByteArray (m_baseSize ba) (m_position ba) (m_capacity ba) (m_size ba) (m_endian ba) (m_nodes ba) c.

(** [m_cur->next]. *)
Definition next_of (nodes : list (list byte)) (i : nat) : option nat :=
  if decide (S i < length nodes) then Some (S i) else None.

(** The pointer [m_cur] is followed: its index and the node it points to. *)
Definition cur_node : M ByteArray (nat * list byte) := λ ba,
  match m_cur ba with
  | None => Undef NullDeref
  | Some i => match m_nodes ba !! i with Some nd => Ok (i, nd) ba | None => Undef OutOfBounds end
  end.

(** [pos % m_baseSize] *)
Definition mod_base (pos : nat) : M ByteArray nat := λ ba,
  if decide (m_baseSize ba = 0) then Undef DivByZero else Ok (pos mod m_baseSize ba) ba.

(** [memcpy] into a node and out of a node. *)
Definition memcpy_to (i npos : nat) (buf : list byte) : M ByteArray unit := λ ba,
  match m_nodes ba !! i with
  | Some nd =>
      if decide (npos + length buf ≤ length nd)
      then Ok tt (set_nodes_field (<[i := splice npos buf nd]> (m_nodes ba)) ba)
      else Undef OutOfBounds
  | None => Undef OutOfBounds
  end.
Definition memcpy_from (nd : list byte) (npos n : nat) : M ByteArray (list byte) := λ ba,
  if decide (npos + n ≤ length nd) then Ok (take n (drop npos nd)) ba else Undef OutOfBounds.

Section bytearray.
Context {H : Host} {HP : Heap}.

(** [Node::Node(size_t s)], the [k]-th node of the chain. *)
Definition new_node (k s : nat) : list byte := map (indeterminate k) (seq 0 s).

(** [ByteArray::ByteArray(size_t base_size)] *)
Definition ByteArray_new (base_size : nat) : ByteArray :=
  mkByteArray base_size 0 base_size 0 SYLAR_BIG_ENDIAN [new_node 0 base_size] (Some 0).

Definition isLittleEndian (ba : ByteArray) : bool := bool_decide (m_endian ba = SYLAR_LITTLE_ENDIAN).
Definition setIsLittleEndian (val : bool) (ba : ByteArray) : ByteArray :=
  mkByteArray (m_baseSize ba) (m_position ba) (m_capacity ba) (m_size ba)
    (if val then SYLAR_LITTLE_ENDIAN else SYLAR_BIG_ENDIAN) (m_nodes ba) (m_cur ba).

Definition getPosition (ba : ByteArray) : nat := m_position ba.
Definition getSize (ba : ByteArray) : nat := m_size ba.
Definition getBaseSize (ba : ByteArray) : nat := m_baseSize ba.
Definition getReadSize (ba : ByteArray) : nat := m_size ba - m_position ba.
Definition getCapacity (ba : ByteArray) : nat := m_capacity ba - m_position ba.

(** [ByteArray::addCapacity] *)
Definition addCapacity (size : nat) : M ByteArray unit := λ ba,
  if decide (size = 0) then Ok tt ba else
  let old_cap := getCapacity ba in
  if decide (size ≤ old_cap) then Ok tt ba else
  let size := size - old_cap in
  if decide (m_baseSize ba = 0) then Undef DivByZero else
  let count := size / m_baseSize ba +
               (if decide (old_cap < size mod m_baseSize ba) then 1 else 0) in
  let k := length (m_nodes ba) in
  let nodes := m_nodes ba ++ map (λ j, new_node j (m_baseSize ba)) (seq k count) in
  let first := if decide (count = 0) then None else Some k in
  Ok tt (mkByteArray (m_baseSize ba) (m_position ba) (m_capacity ba + count * m_baseSize ba)
           (m_size ba) (m_endian ba) nodes
           (if decide (old_cap = 0) then first else m_cur ba)).

(** The loop of [ByteArray::write]; every turn that does not finish moves
    [m_cur] to the next node. *)
Fixpoint write_loop (fuel npos ncap : nat) (buf : list byte) : M ByteArray unit :=
  if decide (length buf = 0) then mret tt else
  match fuel with
  | 0 => undef NoFuel
  | S fuel =>
    let size := length buf in
    if decide (size ≤ ncap) then
      '(i, nd) ← cur_node;
      memcpy_to i npos buf;;
      modify (λ ba, if decide (length nd = npos + size)
                    then set_cur_field (next_of (m_nodes ba) i) ba else ba);;
      modify (λ ba, set_position_field (m_position ba + size) ba)
    else
      '(i, nd) ← cur_node;
      memcpy_to i npos (take ncap buf);;
      modify (λ ba, set_position_field (m_position ba + ncap) ba);;
      modify (λ ba, set_cur_field (next_of (m_nodes ba) i) ba);;
      '(_, nd') ← cur_node;
      write_loop fuel 0 (length nd') (drop ncap buf)
  end.

(** [ByteArray::write] *)
Definition write (buf : list byte) : M ByteArray unit :=
  if decide (length buf = 0) then mret tt else
  addCapacity (length buf);;
  pos ← gets m_position;
  npos ← mod_base pos;
  '(_, nd) ← cur_node;
  fuel ← gets (λ ba, S (length (m_nodes ba)));
  write_loop fuel npos (length nd - npos) buf;;
  modify (λ ba, if decide (m_size ba < m_position ba) then set_size_field (m_position ba) ba else ba).

(** The loop of [ByteArray::read(void*, size_t)]. *)
Fixpoint read_loop (fuel npos ncap size : nat) : M ByteArray (list byte) :=
  if decide (size = 0) then mret [] else
  match fuel with
  | 0 => undef NoFuel
  | S fuel =>
    if decide (size ≤ ncap) then
      '(i, nd) ← cur_node;
      out ← memcpy_from nd npos size;
      modify (λ ba, if decide (length nd = npos + size)
                    then set_cur_field (next_of (m_nodes ba) i) ba else ba);;
      modify (λ ba, set_position_field (m_position ba + size) ba);;
      mret out
    else
      '(i, nd) ← cur_node;
      out ← memcpy_from nd npos ncap;
      modify (λ ba, set_position_field (m_position ba + ncap) ba);;
      modify (λ ba, set_cur_field (next_of (m_nodes ba) i) ba);;
      '(_, nd') ← cur_node;
      rest ← read_loop fuel 0 (length nd') (size - ncap);
      mret (out ++ rest)
  end.

(** [ByteArray::read(void* buf, size_t size)] *)
Definition read (size : nat) : M ByteArray (list byte) :=
  avail ← gets getReadSize;
  if decide (avail < size) then throw (out_of_range "not enough len") else
  pos ← gets m_position;
  npos ← mod_base pos;
  '(_, nd) ← cur_node;
  fuel ← gets (λ ba, S (length (m_nodes ba)));
  read_loop fuel npos (length nd - npos) size.

(** The walk shared by the [const] operations, which move a local copy [cur]
    of [m_cur]: the (node, offset, length) pieces of [len] bytes. *)
Fixpoint iov_loop (fuel : nat) (nodes : list (list byte)) (cur npos ncap len : nat) :
    option (list (nat * nat * nat)) :=
  if decide (len = 0) then Some [] else
  match fuel with
  | 0 => None
  | S fuel =>
    if decide (len ≤ ncap) then Some [(cur, npos, len)]
    else
      i ← next_of nodes cur;
      nd ← nodes !! i;
      rest ← iov_loop fuel nodes i 0 (length nd) (len - ncap);
      Some ((cur, npos, ncap) :: rest)
  end.

(** The bytes an [iovec] denotes. *)
Definition iov_bytes (nodes : list (list byte)) (v : nat * nat * nat) : list byte :=
  match v with (i, off, n) => take n (drop off (default [] (nodes !! i))) end.

(** [ByteArray::read(void* buf, size_t size, size_t position) const] *)
Definition read_at (size position : nat) : M ByteArray (list byte) :=
  avail ← gets getReadSize;
  if decide (avail < size) then throw (out_of_range "not enough len") else
  npos ← mod_base position;
  '(i, nd) ← cur_node;
  nodes ← gets m_nodes;
  match iov_loop (S (length nodes)) nodes i npos (length nd - npos) size with
  | Some vs => mret (concat (map (iov_bytes nodes) vs))
  | None => undef NullDeref
  end.

(** The search of [ByteArray::setPosition] for the node of offset [v]. *)
Fixpoint seek (nodes : list (list byte)) (i v : nat) : option (option nat) :=
  match nodes with
  | [] => None                                  (* m_cur->size with m_cur null *)
  | nd :: rest =>
      if decide (length nd < v) then seek rest (S i) (v - length nd)
      else if decide (v = length nd)
           then Some (match rest with [] => None | _ => Some (S i) end)
           else Some (Some i)
  end.

(** [ByteArray::setPosition] *)
Definition setPosition (v : nat) : M ByteArray unit :=
  cap ← gets m_capacity;
  if decide (cap < v) then throw (out_of_range "set_position out of range") else
  modify (set_position_field v);;
  modify (λ ba, if decide (m_size ba < m_position ba) then set_size_field (m_position ba) ba else ba);;
  nodes ← gets m_nodes;
  match seek nodes 0 v with
  | Some c => modify (set_cur_field c)
  | None => undef NullDeref
  end.

(** [ByteArray::clear] *)
Definition clear (ba : ByteArray) : ByteArray :=
  mkByteArray (m_baseSize ba) 0 (m_baseSize ba) 0 (m_endian ba) (take 1 (m_nodes ba)) (Some 0).


(** [writeFint8 ... writeFuint64]: the value is swapped when the array's byte
    order is not the host's, then its object representation is written.
    One-byte values are written as they are. *)
Definition writeF (t : cint) (value : Z) : M ByteArray unit :=
  e ← gets m_endian;
  write (to_memory (sizeof t)
           (if negb (e =? SYLAR_BYTE_ORDER)%Z then byteswap t value else value)).
Definition writeFint8 (value : Z) := write (to_memory 1 value).
Definition writeFuint8 (value : Z) := write (to_memory 1 value).
Definition writeFint16 := writeF int16_t.
Definition writeFuint16 := writeF uint16_t.
Definition writeFint32 := writeF int32_t.
Definition writeFuint32 := writeF uint32_t.
Definition writeFint64 := writeF int64_t.
Definition writeFuint64 := writeF uint64_t.

(** The macro [XX(type)] of the fixed-width readers. *)
Definition readF (t : cint) : M ByteArray Z :=
  bs ← read (sizeof t);
  e ← gets m_endian;
  let v := of_memory t bs in
  mret (if (e =? SYLAR_BYTE_ORDER)%Z then v else byteswap t v).
Definition readFint8 : M ByteArray Z := bs ← read 1; mret (of_memory int8_t bs).
Definition readFuint8 : M ByteArray Z := bs ← read 1; mret (of_memory uint8_t bs).
Definition readFint16 := readF int16_t.
Definition readFuint16 := readF uint16_t.
Definition readFint32 := readF int32_t.
Definition readFuint32 := readF uint32_t.
Definition readFint64 := readF int64_t.
Definition readFuint64 := readF uint64_t.

(** Zigzag.  Signed arithmetic wraps around, as the compiled code does. *)
Definition EncodeZigzag32 (v : Z) : Z :=
  if (v <? 0)%Z then wrapu 32 (wrapu 32 (wraps 32 (- v)) * 2 - 1)
  else wrapu 32 (wraps 32 (v * 2)).
Definition EncodeZigzag64 (v : Z) : Z :=
  if (v <? 0)%Z then wrapu 64 (wrapu 64 (wraps 64 (- v)) * 2 - 1)
  else wrapu 64 (wraps 64 (v * 2)).
Definition DecodeZigzag32 (v : Z) : Z :=
  wraps 32 (Z.lxor (Z.shiftr v 1) (wrapu 32 (- Z.land v 1))).
Definition DecodeZigzag64 (v : Z) : Z :=
  wraps 64 (Z.lxor (Z.shiftr v 1) (wrapu 64 (- Z.land v 1))).

(** The loop filling [tmp]; [room] bytes of [tmp] are left, and a write past
    its end is [None]. *)
Fixpoint varint_encode (room : nat) (value : Z) : option (list byte) :=
  match room with
  | 0 => None
  | S room =>
      if (0x80 <=? value)%Z
      then rest ← varint_encode room (Z.shiftr value 7);
           Some (byte.of_Z (Z.lor (Z.land value 0x7F) 0x80) :: rest)
      else Some [byte.of_Z value]
  end.
Definition write_varint (room : nat) (value : Z) : M ByteArray unit :=
  match varint_encode room value with
  | Some tmp => write tmp
  | None => undef OutOfBounds
  end.
Definition writeUint32 (value : Z) : M ByteArray unit := write_varint 5 value.
Definition writeUint64 (value : Z) : M ByteArray unit := write_varint 10 value.
Definition writeInt32 (value : Z) : M ByteArray unit := writeUint32 (EncodeZigzag32 value).
Definition writeInt64 (value : Z) : M ByteArray unit := writeUint64 (EncodeZigzag64 value).

(** [for(int i = 0; i < w; i += 7)]; [n] bounds the number of turns. *)
Fixpoint varint_loop (w : Z) (n : nat) (i result : Z) : M ByteArray Z :=
  match n with
  | 0 => if (i <? w)%Z then undef NoFuel else mret result
  | S n =>
      if (i <? w)%Z then
        b ← readFuint8;
        if (b <? 0x80)%Z then mret (Z.lor result (wrapu w (Z.shiftl b i)))
        else varint_loop w n (i + 7) (Z.lor result (wrapu w (Z.shiftl (Z.land b 0x7f) i)))
      else mret result
  end.
Definition readUint32 : M ByteArray Z := varint_loop 32 5 0 0.
Definition readUint64 : M ByteArray Z := varint_loop 64 10 0 0.
Definition readInt32 : M ByteArray Z := v ← readUint32; mret (DecodeZigzag32 v).
Definition readInt64 : M ByteArray Z := v ← readUint64; mret (DecodeZigzag64 v).

(** [float] and [double] travel as the integers with the same object
    representation. *)
Definition writeFloat (repr : list byte) : M ByteArray unit :=
  writeFuint32 (of_memory uint32_t repr).
Definition writeDouble (repr : list byte) : M ByteArray unit :=
  writeFuint64 (of_memory uint64_t repr).
Definition readFloat : M ByteArray (list byte) := v ← readFuint32; mret (to_memory 4 v).
Definition readDouble : M ByteArray (list byte) := v ← readFuint64; mret (to_memory 8 v).

(** Strings with a length prefix; [value.size()] is converted to the
    parameter type of the integer writer. *)
Definition writeStringF16 (value : list byte) : M ByteArray unit :=
  writeFuint16 (wrapu 16 (Z.of_nat (length value)));; write value.
Definition writeStringF32 (value : list byte) : M ByteArray unit :=
  writeFuint32 (wrapu 32 (Z.of_nat (length value)));; write value.
Definition writeStringF64 (value : list byte) : M ByteArray unit :=
  writeFuint64 (wrapu 64 (Z.of_nat (length value)));; write value.
Definition writeStringVint (value : list byte) : M ByteArray unit :=
  writeUint64 (wrapu 64 (Z.of_nat (length value)));; write value.
Definition writeStringWithoutLength (value : list byte) : M ByteArray unit := write value.

Definition readStringF16 : M ByteArray (list byte) := len ← readFuint16; read (Z.to_nat len).
Definition readStringF32 : M ByteArray (list byte) := len ← readFuint32; read (Z.to_nat len).
Definition readStringF64 : M ByteArray (list byte) := len ← readFuint64; read (Z.to_nat len).
Definition readStringVint : M ByteArray (list byte) := len ← readUint64; read (Z.to_nat len).

(** [toString]: [read] at the current position, without moving it. *)
Definition toString : M ByteArray (list byte) :=
  n ← gets getReadSize;
  if decide (n = 0) then mret [] else
  pos ← gets m_position;
  read_at n pos.

(** [getReadBuffers(buffers, len)]: the pieces appended to [buffers] and the
    number of bytes they cover. *)
Definition getReadBuffers (len : Z) : M ByteArray (list (nat * nat * nat) * nat) :=
  avail ← gets getReadSize;
  let n := Z.to_nat (if (Z.of_nat avail <? len)%Z then Z.of_nat avail else len) in
  if decide (n = 0) then mret ([], 0) else
  '(i, nd) ← cur_node;
  pos ← gets m_position;
  npos ← mod_base pos;
  nodes ← gets m_nodes;
  match iov_loop (S (length nodes)) nodes i npos (length nd - npos) n with
  | Some vs => mret (vs, n)
  | None => undef NullDeref
  end.

(** [getReadBuffers(buffers, len, position)]: the node is found from the root. *)
Definition getReadBuffers_at (len : Z) (position : nat) :
    M ByteArray (list (nat * nat * nat) * nat) :=
  avail ← gets getReadSize;
  let n := Z.to_nat (if (Z.of_nat avail <? len)%Z then Z.of_nat avail else len) in
  if decide (n = 0) then mret ([], 0) else
  npos ← mod_base position;
  base ← gets m_baseSize;
  nodes ← gets m_nodes;
  match nodes !! (position / base) with
  | None => undef NullDeref
  | Some nd =>
      match iov_loop (S (length nodes)) nodes (position / base) npos (length nd - npos) n with
      | Some vs => mret (vs, n)
      | None => undef NullDeref
      end
  end.

(** [getWriteBuffers(buffers, len)] *)
Definition getWriteBuffers (len : nat) : M ByteArray (list (nat * nat * nat) * nat) :=
  if decide (len = 0) then mret ([], 0) else
  addCapacity len;;
  pos ← gets m_position;
  npos ← mod_base pos;
  '(i, nd) ← cur_node;
  nodes ← gets m_nodes;
  match iov_loop (S (length nodes)) nodes i npos (length nd - npos) len with
  | Some vs => mret (vs, len)
  | None => undef NullDeref
  end.

(** The loop of [writeToFile]: the bytes handed to the stream. *)
Fixpoint file_loop (fuel base : nat) (nodes : list (list byte)) (cur : option nat)
    (pos read_size : Z) : res unit (list byte) :=
  if (read_size <=? 0)%Z then Ok [] tt else
  match fuel with
  | 0 => Undef NoFuel
  | S fuel =>
      let diff := (pos mod Z.of_nat base)%Z in
      let len := ((if (Z.of_nat base <? read_size)%Z then Z.of_nat base else read_size) - diff)%Z in
      match cur with
      | None => Undef NullDeref
      | Some i =>
        if (len <? 0)%Z then Undef NegativeSize else
        match nodes !! i with
        | None => Undef OutOfBounds
        | Some nd =>
            match file_loop fuel base nodes (next_of nodes i) (pos + len) (read_size - len) with
            | Ok rest _ => Ok (take (Z.to_nat len) (drop (Z.to_nat diff) nd) ++ rest) tt
            | r => r
            end
        end
      end
  end.
Definition writeToFile (opens : bool) : M ByteArray (option (list byte)) := λ ba,
  if opens then
    if decide (m_baseSize ba = 0) then Undef DivByZero else
    match file_loop (S (length (m_nodes ba))) (m_baseSize ba) (m_nodes ba) (m_cur ba)
            (Z.of_nat (m_position ba)) (Z.of_nat (getReadSize ba)) with
    | Ok out _ => Ok (Some out) ba
    | Throw e _ => Throw e ba
    | Abort => Abort
    | Undef u => Undef u
    end
  else Ok None ba.

(** The loop of [readFromFile] over the rest of the file. *)
Fixpoint from_file_loop (fuel base : nat) (file : list byte) : M ByteArray unit :=
  match fuel with
  | 0 => undef NoFuel
  | S fuel =>
      write (take base file);;
      if decide (length file < base) then mret tt   (* eof was hit *)
      else from_file_loop fuel base (drop base file)
  end.
Definition readFromFile (file : option (list byte)) : M ByteArray bool :=
  match file with
  | None => mret false
  | Some data =>
      base ← gets m_baseSize;
      from_file_loop (S (length data)) base data;;
      mret true
  end.

(** [std::setw(2) << std::setfill('0') << std::hex << (int)(uint8_t)c] *)
Definition hex_digit (n : Z) : byte := byte.of_Z (if Z.ltb n 10 then 48 + n else 87 + n).
Definition hex_byte (c : byte) : list byte := [hex_digit (byte.unsigned c / 16); hex_digit (byte.unsigned c mod 16)].
(** The loop of [toHexString], [i] characters being printed. *)
Fixpoint hex_loop (i : nat) (str : list byte) : list byte :=
  match str with
  | [] => []
  | c :: str =>
      (if decide (0 < i ∧ i mod 32 = 0) then [x0a] else []) ++ hex_byte c ++ [x20] ++ hex_loop (S i) str
  end.
(** [ByteArray::toHexString] *)
Definition toHexString : M ByteArray (list byte) := str ← toString; mret (hex_loop 0 str).

(** [ByteArray::~ByteArray]: the nodes it deletes, in order, following [next] from
    [tmp]. *)
Fixpoint delete_loop (fuel : nat) (tmp : option nat) (nodes : list (list byte)) : option (list nat) :=
  match tmp, fuel with
  | None, _ => Some []
  | Some _, 0 => None
  | Some i, S fuel => l ← delete_loop fuel (next_of nodes i) nodes; Some (i :: l)
  end.
Definition ByteArray_destroy (ba : ByteArray) : option (list nat) :=
  delete_loop (length (m_nodes ba)) (if decide (m_nodes ba = []) then None else Some 0) (m_nodes ba).
End bytearray.
