(* ===== verification/ByteArraySpec.v ===== *)
(** What [ByteArray] promises: the abstract tape, the representation
    invariant, the refinement of every cursor operation, and the encoders'
    round trips. *)
From S2P Require Import Prelude Endian ByteArray.
From Stdlib Require Import Strings.Byte.
From coqutil Require Import Byte Word.LittleEndianList.

(** ** The abstract specification *)
Module Tape.
(** The bytes stored so far and the cursor. *)
Record tape := mk { data : list byte; pos : nat }.
Definition write (buf : list byte) (t : tape) : tape :=
  mk (take (pos t) (data t) ++ buf ++ drop (pos t + length buf) (data t)) (pos t + length buf).
Definition peek (n : nat) (t : tape) : list byte := take n (drop (pos t) (data t)).
Definition advance (n : nat) (t : tape) : tape := mk (data t) (pos t + n).
End Tape.

Definition flat (ba : ByteArray) : list byte := concat (m_nodes ba).
Definition abs (ba : ByteArray) : Tape.tape := Tape.mk (take (m_size ba) (flat ba)) (m_position ba).

(** Where [m_cur] points when the position is [p]. *)
Definition cur_of (base cap p : nat) : option nat :=
  if decide (p < cap) then Some (p / base) else None.

(** The chain: every node has [m_baseSize] bytes and [m_capacity] counts them. *)
Record shape (ba : ByteArray) : Prop := {
  shape_base : 0 < m_baseSize ba;
  shape_root : m_nodes ba ≠ [];
  shape_nodes : Forall (λ nd, length nd = m_baseSize ba) (m_nodes ba);
  shape_cap : m_capacity ba = m_baseSize ba * length (m_nodes ba);
}.

(** The representation invariant. *)
Record wf (ba : ByteArray) : Prop := {
  wf_shape : shape ba;
  wf_position : m_position ba ≤ m_size ba;
  wf_size : m_size ba ≤ m_capacity ba;
  wf_cur : m_cur ba = cur_of (m_baseSize ba) (m_capacity ba) (m_position ba);
  wf_endian : m_endian ba = SYLAR_LITTLE_ENDIAN ∨ m_endian ba = SYLAR_BIG_ENDIAN;
}.

(** [addCapacity(n)] leaves room for [n] bytes: nothing is missing, or the
    missing part is a multiple of the node size, or its remainder exceeds the
    free bytes there were. *)
Definition room (ba : ByteArray) (n : nat) : Prop :=
  let missing := n - getCapacity ba in
  n ≤ getCapacity ba ∨ missing mod m_baseSize ba = 0 ∨ getCapacity ba < missing mod m_baseSize ba.
#[export] Instance room_dec ba n : Decision (room ba n).
Proof. unfold room. apply _. Defined.

(** ** Chains of equal nodes *)

Section chain.
Context {A : Type} (b : nat) (Hb : 0 < b).
Implicit Types (nodes : list (list A)).

Lemma length_concat nodes :
  Forall (λ nd, length nd = b) nodes → length (concat nodes) = b * length nodes.
Proof. induction 1; simpl; rewrite ?length_app; lia. Qed.

Lemma chain_lookup_lt nodes p :
  p < b * length nodes → ∃ nd, nodes !! (p / b) = Some nd.
Proof.
  intros Hp. destruct (lookup_lt_is_Some_2 nodes (p / b)) as [nd ?]; [|eauto].
  apply Nat.Div0.div_lt_upper_bound; lia.
Qed.

Lemma concat_split nodes i nd :
  Forall (λ nd, length nd = b) nodes → nodes !! i = Some nd →
  concat nodes = concat (take i nodes) ++ nd ++ concat (drop (S i) nodes) ∧
  length (concat (take i nodes)) = i * b ∧ length nd = b.
Proof.
  intros HF Hi. pose proof (lookup_lt_Some _ _ _ Hi).
  split; [|split].
  - rewrite <-(take_drop_middle nodes i nd) at 1 by done. by rewrite concat_app.
  - rewrite length_concat by (by apply Forall_take). rewrite length_take. lia.
  - by eapply Forall_lookup_1 in HF.
Qed.

Lemma concat_insert_splice nodes i nd npos k :
  Forall (λ nd, length nd = b) nodes → nodes !! i = Some nd → npos + length k ≤ b →
  concat (<[i := splice npos k nd]> nodes) = splice (i * b + npos) k (concat nodes).
Proof.
  intros HF Hi Hk. destruct (concat_split nodes i nd HF Hi) as (E & Hl & Hn).
  pose proof (lookup_lt_Some _ _ _ Hi).
  rewrite insert_take_drop by done. rewrite concat_app, E. simpl.
  rewrite <-Hl, splice_app_r. f_equal. rewrite splice_app_l by lia. done.
Qed.

Lemma Forall_insert_splice nodes i nd npos k :
  Forall (λ nd, length nd = b) nodes → nodes !! i = Some nd → npos + length k ≤ b →
  Forall (λ nd, length nd = b) (<[i := splice npos k nd]> nodes).
Proof.
  intros HF Hi Hk. apply Forall_insert; [done|].
  assert (length nd = b) by (by eapply Forall_lookup_1 in HF).
  rewrite length_splice; lia.
Qed.

Lemma chain_slice nodes i nd npos n :
  Forall (λ nd, length nd = b) nodes → nodes !! i = Some nd → npos + n ≤ b →
  take n (drop npos nd) = take n (drop (i * b + npos) (concat nodes)).
Proof.
  intros HF Hi Hk. destruct (concat_split nodes i nd HF Hi) as (E & Hl & Hn).
  rewrite E, <-Hl, drop_app_add'; [|done].
  rewrite drop_app_le by lia. rewrite take_app_le; [done|]. rewrite length_drop. lia.
Qed.

Lemma next_of_cur nodes p q :
  p < b * length nodes → q = (p / b + 1) * b → 
  (if decide (S (p / b) < length nodes) then Some (S (p / b)) else None)
  = cur_of b (b * length nodes) q.
Proof.
  intros Hp ->. unfold cur_of. rewrite Nat.div_mul by lia.
  repeat case_decide; f_equal; nia.
Qed.

End chain.

(** A position inside its node after [n] more bytes. *)
Lemma div_same b p n : p mod b + n < b → (p + n) / b = p / b.
Proof.
  intros. symmetry. apply (Nat.div_unique _ _ _ (p mod b + n)); [lia|].
  rewrite (Nat.div_mod_eq p b) at 1. lia.
Qed.
Lemma div_mod_mul b p : p = p / b * b + p mod b.
Proof. rewrite (Nat.div_mod_eq p b) at 1. lia. Qed.
Lemma mod_node_end b p : ((p / b + 1) * b) mod b = 0.
Proof. apply Nat.Div0.mod_mul. Qed.

Ltac dm p b := pose proof (div_mod_mul b p); pose proof (Nat.mod_upper_bound p b).

(** ** The cursor loops *)

(** [ba] after the cursor moved to [p] over the chain [nodes]. *)
Definition at_pos (ba : ByteArray) (nodes : list (list byte)) (p : nat) : ByteArray :=
  mkByteArray (m_baseSize ba) p (m_capacity ba) (m_size ba) (m_endian ba) nodes
    (cur_of (m_baseSize ba) (m_capacity ba) p).

(** The cursor is inside the chain. *)
Record inside (ba : ByteArray) : Prop := {
  inside_shape : shape ba;
  inside_pos : m_position ba < m_capacity ba;
  inside_cur : m_cur ba = Some (m_position ba / m_baseSize ba);
}.

Lemma inside_node ba :
  inside ba → ∃ nd, m_nodes ba !! (m_position ba / m_baseSize ba) = Some nd ∧
                    length nd = m_baseSize ba ∧
                    cur_node ba = Ok (m_position ba / m_baseSize ba, nd) ba.
Proof.
  intros [[? ? HF Hc] Hp Hcur]. rewrite Hc in Hp.
  destruct (chain_lookup_lt _ ltac:(done) (m_nodes ba) _ Hp) as [nd Hnd].
  exists nd. split; [done|]. split; [by eapply Forall_lookup_1 in HF|].
  unfold cur_node. by rewrite Hcur, Hnd.
Qed.

Lemma cur_of_inside b cap p : p < cap → cur_of b cap p = Some (p / b).
Proof. intros. unfold cur_of. by rewrite decide_True. Qed.

Lemma at_pos_inside ba nodes p :
  inside ba → p < m_capacity ba →
  Forall (λ nd, length nd = m_baseSize ba) nodes → length nodes = length (m_nodes ba) →
  inside (at_pos ba nodes p).
Proof.
  intros [[Hb Hr HF Hc] Hp Hcur] Hlt HF' Hl. split; simpl; [|done|by apply cur_of_inside].
  split; simpl; [done| |done|by rewrite Hl].
  intros ->. by destruct (m_nodes ba).
Qed.

(** One turn that ends inside the current node, or exactly at its end. *)
Lemma step_within ba nodes n nd :
  inside ba → m_position ba mod m_baseSize ba + n ≤ m_baseSize ba →
  length nodes = length (m_nodes ba) → length nd = m_baseSize ba →
  let ba1 := if decide (length (A:=byte) nd = m_position ba mod m_baseSize ba + n)
     then set_cur_field (next_of nodes (m_position ba / m_baseSize ba)) (set_nodes_field nodes ba)
     else set_nodes_field nodes ba in
  set_position_field (m_position ba1 + n) ba1 = at_pos ba nodes (m_position ba + n).
Proof.
  intros [[Hb Hr HF Hc] Hp Hcur] Hn Hl Hnd. unfold at_pos. rewrite Hnd. rewrite Hc in Hp |- *.
  dm (m_position ba) (m_baseSize ba).
  case_decide as E; unfold set_position_field, set_cur_field, set_nodes_field; simpl; f_equal; try done.
  - unfold next_of. rewrite Hl. apply next_of_cur; [lia|lia|nia].
  - rewrite Hcur. unfold cur_of.
    assert ((m_position ba + n) / m_baseSize ba = m_position ba / m_baseSize ba) as Hd
      by (apply div_same; lia).
    rewrite decide_True; [by rewrite Hd|].
    pose proof (Nat.Div0.div_lt_upper_bound (m_position ba) (m_baseSize ba) (length (m_nodes ba)) Hp). nia.
Qed.

(** One turn that fills up the current node. *)
Lemma step_across ba nodes :
  inside ba → length nodes = length (m_nodes ba) →
  let n := m_baseSize ba - m_position ba mod m_baseSize ba in
  set_cur_field (next_of nodes (m_position ba / m_baseSize ba))
    (set_position_field (m_position ba + n) (set_nodes_field nodes ba))
  = at_pos ba nodes (m_position ba + n) ∧
  (m_position ba + n) mod m_baseSize ba = 0 ∧
  (m_position ba + n) / m_baseSize ba = S (m_position ba / m_baseSize ba).
Proof.
  intros [[Hb Hr HF Hc] Hp Hcur] Hl n. rewrite Hc in Hp.
  dm (m_position ba) (m_baseSize ba).
  assert (m_position ba + n = (m_position ba / m_baseSize ba + 1) * m_baseSize ba) as Hq
    by (unfold n; nia).
  split; [|split].
  - unfold at_pos, set_cur_field, set_position_field, set_nodes_field. simpl. f_equal.
    unfold next_of. rewrite Hl, Hc. by apply next_of_cur.
  - rewrite Hq. apply mod_node_end.
  - rewrite Hq, Nat.div_mul by lia. lia.
Qed.

(** The turn's copy into the current node. *)
Lemma memcpy_to_inside ba k :
  inside ba → m_position ba mod m_baseSize ba + length k ≤ m_baseSize ba →
  ∃ nodes, 
    memcpy_to (m_position ba / m_baseSize ba) (m_position ba mod m_baseSize ba) k ba
      = Ok tt (set_nodes_field nodes ba) ∧
    concat nodes = splice (m_position ba) k (flat ba) ∧
    Forall (λ nd, length nd = m_baseSize ba) nodes ∧ length nodes = length (m_nodes ba).
Proof.
  intros Hin Hk. destruct (inside_node ba Hin) as (nd & Hnd & Hl & _).
  destruct Hin as [[Hb Hr HF Hc] Hp Hcur].
  eexists. unfold memcpy_to. rewrite Hnd, decide_True by lia.
  split; [done|]. split; [|split].
  - unfold flat. rewrite (concat_insert_splice (m_baseSize ba)) by done.
    by rewrite <-div_mod_mul by done.
  - by apply Forall_insert_splice.
  - apply length_insert.
Qed.

Lemma write_loop_spec fuel : ∀ ba buf,
  inside ba → buf ≠ [] → length (m_nodes ba) < fuel + m_position ba / m_baseSize ba + 1 →
  let p := m_position ba in
  let r := write_loop fuel (p mod m_baseSize ba) (m_baseSize ba - p mod m_baseSize ba) buf ba in
  if decide (p + length buf ≤ m_capacity ba) then
    ∃ nodes, r = Ok tt (at_pos ba nodes (p + length buf)) ∧
      concat nodes = splice p buf (flat ba) ∧
      Forall (λ nd, length nd = m_baseSize ba) nodes ∧ length nodes = length (m_nodes ba)
  else r = Undef NullDeref.
Proof.
  induction fuel as [|fuel IH]; intros ba buf Hin Hne Hf p r.
  { destruct Hin as [[Hb _ _ Hc] Hp _]. rewrite Hc in Hp.
    pose proof (Nat.Div0.div_lt_upper_bound _ _ _ Hp). lia. }
  destruct (inside_node ba Hin) as (nd & Hnd & Hl & Hcn).
  pose proof (shape_base _ (inside_shape _ Hin)) as Hb.
  pose proof (shape_cap _ (inside_shape _ Hin)) as Hc.
  pose proof (inside_pos _ Hin) as Hp. fold p in Hp.
  fold p in Hf, Hcn. dm p (m_baseSize ba).
  assert (length buf ≠ 0) as Hn0 by (by destruct buf).
  destruct (decide (length buf ≤ m_baseSize ba - p mod m_baseSize ba)) as [Hs|Hs].
  - destruct (memcpy_to_inside ba buf Hin ltac:(fold p; lia)) as (nodes & Hm & Hcat & HF & Hln).
    rewrite decide_True.
    2:{ rewrite Hc in Hp |- *. pose proof (Nat.Div0.div_lt_upper_bound _ _ _ Hp). nia. }
    exists nodes. split; [|done]. unfold r. cbn [write_loop]. cbv zeta.
    rewrite decide_False, decide_True by done. step_with Hcn. step_with Hm.
    rewrite bind_modify. unfold modify. f_equal. apply (step_within ba nodes (length buf) nd); fold p; try done; lia.
  - set (n := m_baseSize ba - p mod m_baseSize ba) in *.
    assert (length (take n buf) = n) as Hn by (rewrite length_take; lia).
    destruct (memcpy_to_inside ba (take n buf) Hin ltac:(fold p; lia)) as (nodes & Hm & Hcat & HF & Hln).
    destruct (step_across ba nodes Hin Hln) as (Hst & Hmod & Hdiv). fold p n in Hst, Hmod, Hdiv.
    assert (r = ('(_, nd') ← cur_node; write_loop fuel 0 (length nd') (drop n buf))
                  (at_pos ba nodes (p + n))) as ->.
    { unfold r. cbn [write_loop]. cbv zeta. rewrite decide_False, decide_False by done.
      step_with Hcn. step_with Hm. rewrite !bind_modify.
      cbn [m_position m_nodes set_nodes_field set_position_field]. fold p. by rewrite <-Hst. }
    destruct (decide (p + n < m_capacity ba)) as [Hlt|Hge].
    + pose proof (at_pos_inside ba nodes (p + n) Hin Hlt HF Hln) as Hin'.
      destruct (inside_node _ Hin') as (nd' & _ & Hl' & Hcn').
      rewrite (bind_ok _ _ _ _ _ Hcn'). cbv beta iota.
      assert (drop n buf ≠ []) as Hd
        by (intros E%(f_equal length); rewrite length_drop in E; simpl in E; lia).
      specialize (IH (at_pos ba nodes (p + n)) (drop n buf) Hin' Hd
        ltac:(cbn [at_pos m_nodes m_position m_baseSize]; rewrite Hdiv, Hln; lia)).
      cbn [at_pos m_nodes m_position m_baseSize m_capacity m_endian m_size] in IH. cbv zeta in IH.
      rewrite Hmod, Nat.sub_0_r in IH. cbn [at_pos m_baseSize] in Hl'. rewrite Hl'.
      rewrite length_drop in IH.
      replace (p + n + (length buf - n)) with (p + length buf) in IH by lia.
      destruct (decide (p + length buf ≤ m_capacity ba)) as [Hle|]; [|exact IH].
      destruct IH as (nodes2 & Hr & Hcat2 & HF2 & Hln2). exists nodes2.
      split; [exact Hr|]. split; [|split; [done|lia]].
      rewrite Hcat2. unfold flat; simpl. rewrite Hcat. fold p.
      rewrite <-(take_drop n buf) at 3. rewrite splice_split, Hn; [done|].
      rewrite Hn, length_drop. 
      rewrite (length_concat (m_baseSize ba)) by apply (inside_shape _ Hin). lia.
    + rewrite decide_False by lia. apply bind_undef. unfold cur_node, at_pos, cur_of; simpl.
      by rewrite decide_False.
Qed.

Lemma set_nodes_id ba : set_nodes_field (m_nodes ba) ba = ba.
Proof. by destruct ba. Qed.

Lemma flat_drop_split ba p n m :
  n ≤ m → take m (drop p (flat ba)) = take n (drop p (flat ba)) ++ take (m - n) (drop (p + n) (flat ba)).
Proof. intros. rewrite <-drop_drop. rewrite take_take_drop. f_equal. lia. Qed.

(** The bytes of the current node from the cursor on. *)
Lemma memcpy_from_inside ba nd n :
  inside ba → m_nodes ba !! (m_position ba / m_baseSize ba) = Some nd →
  m_position ba mod m_baseSize ba + n ≤ m_baseSize ba →
  memcpy_from nd (m_position ba mod m_baseSize ba) n ba
  = Ok (take n (drop (m_position ba) (flat ba))) ba.
Proof.
  intros [[Hb Hr HF Hc] Hp Hcur] Hnd Hn. unfold memcpy_from, flat.
  assert (length nd = m_baseSize ba) by (by eapply Forall_lookup_1 in HF).
  rewrite decide_True by lia. f_equal.
  rewrite (chain_slice (m_baseSize ba) Hb (m_nodes ba) (m_position ba / m_baseSize ba)) by done.
  by rewrite <-div_mod_mul.
Qed.

Lemma read_loop_spec fuel : ∀ ba size,
  inside ba → 0 < size → m_position ba + size ≤ m_capacity ba →
  length (m_nodes ba) < fuel + m_position ba / m_baseSize ba + 1 →
  let p := m_position ba in
  read_loop fuel (p mod m_baseSize ba) (m_baseSize ba - p mod m_baseSize ba) size ba
  = Ok (take size (drop p (flat ba))) (at_pos ba (m_nodes ba) (p + size)).
Proof.
  induction fuel as [|fuel IH]; intros ba size Hin Hpos Hsz Hf p.
  { destruct Hin as [[Hb _ _ Hc] Hp _]. rewrite Hc in Hp.
    pose proof (Nat.Div0.div_lt_upper_bound _ _ _ Hp). lia. }
  destruct (inside_node ba Hin) as (nd & Hnd & Hl & Hcn).
  pose proof (shape_base _ (inside_shape _ Hin)) as Hb.
  pose proof (inside_pos _ Hin) as Hp. fold p in Hf, Hcn, Hp, Hsz. dm p (m_baseSize ba).
  cbn [read_loop]. rewrite decide_False by lia.
  destruct (decide (size ≤ m_baseSize ba - p mod m_baseSize ba)) as [Hs|Hs]; step_with Hcn.
  - rewrite (bind_ok _ _ _ _ _ (memcpy_from_inside ba nd size Hin Hnd ltac:(fold p; lia))).
    cbv beta. rewrite !bind_modify. unfold mret, M_ret. f_equal.
    pose proof (step_within ba (m_nodes ba) size nd Hin ltac:(fold p; lia) eq_refl Hl) as Hst.
    rewrite set_nodes_id in Hst. exact Hst.
  - set (n := m_baseSize ba - p mod m_baseSize ba) in *.
    destruct (step_across ba (m_nodes ba) Hin eq_refl) as (Hst & Hmod & Hdiv).
    rewrite set_nodes_id in Hst. fold p n in Hst, Hmod, Hdiv.
    rewrite (bind_ok _ _ _ _ _ (memcpy_from_inside ba nd n Hin Hnd ltac:(fold p; lia))).
    cbv beta. rewrite !bind_modify.
    cbn [m_position m_nodes set_position_field]. fold p. rewrite Hst.
    pose proof (at_pos_inside ba (m_nodes ba) (p + n) Hin ltac:(lia)
                  (shape_nodes _ (inside_shape _ Hin)) eq_refl) as Hin'.
    destruct (inside_node _ Hin') as (nd' & _ & Hl' & Hcn').
    rewrite (bind_ok _ _ _ _ _ Hcn'). cbv beta iota.
    specialize (IH (at_pos ba (m_nodes ba) (p + n)) (size - n) Hin' ltac:(lia)
      ltac:(cbn [at_pos m_position m_capacity]; lia)
      ltac:(cbn [at_pos m_nodes m_position m_baseSize]; rewrite Hdiv; lia)).
    cbn [at_pos m_nodes m_position m_baseSize m_capacity m_endian m_size] in IH. cbv zeta in IH.
    cbn [at_pos m_baseSize] in Hl'. rewrite Hmod, Nat.sub_0_r in IH. rewrite Hl'.
    rewrite (bind_ok _ _ _ _ _ IH). unfold mret, M_ret, at_pos, flat. cbn. f_equal.
    + symmetry. apply (flat_drop_split ba p n size). lia.
    + f_equal; [lia|]. f_equal. lia.
Qed.

(** The pieces of the [const] walks: they denote the wanted bytes and cover
    the wanted length; [None] is the walk past the last node. *)
Lemma iov_loop_spec b nodes : 0 < b → Forall (λ nd, length nd = b) nodes →
  ∀ fuel p len, p < b * length nodes → length nodes < fuel + p / b + 1 →
  let r := iov_loop fuel nodes (p / b) (p mod b) (b - p mod b) len in
  if decide (p + len ≤ b * length nodes) then
    ∃ vs, r = Some vs ∧ concat (map (iov_bytes nodes) vs) = take len (drop p (concat nodes)) ∧
          sum_list (map (λ v, snd v) vs) = len
  else r = None.
Proof.
  intros Hb HF. induction fuel as [|fuel IH]; intros p len Hp Hf r.
  { pose proof (Nat.Div0.div_lt_upper_bound _ _ _ Hp). lia. }
  dm p b. unfold r. cbn [iov_loop]. destruct (decide (len = 0)) as [->|Hlen].
  { rewrite decide_True by lia. by exists []. }
  destruct (chain_lookup_lt b Hb nodes p Hp) as [nd Hnd].
  pose proof (Nat.Div0.div_lt_upper_bound _ _ _ Hp) as Hlt.
  assert (∀ n, p mod b + n ≤ b → iov_bytes nodes (p / b, p mod b, n) = take n (drop p (concat nodes))) as Hpiece.
  { intros n Hn. unfold iov_bytes. rewrite Hnd. simpl.
    rewrite (chain_slice b Hb nodes (p / b)) by done. by rewrite <-div_mod_mul. }
  destruct (decide (len ≤ b - p mod b)) as [Hs|Hs].
  { rewrite decide_True by nia. eexists; split; [done|]. cbn [map concat].
    rewrite Hpiece, app_nil_r by lia. simpl. split; [done|lia]. }
  set (n := b - p mod b) in *.
  assert (p + n = (p / b + 1) * b) as Hq by nia.
  unfold next_of. destruct (decide (S (p / b) < length nodes)) as [Hnx|Hnx].
  2:{ rewrite decide_False by nia. done. }
  simpl. destruct (lookup_lt_is_Some_2 nodes (S (p / b)) Hnx) as [nd' Hnd'].
  rewrite Hnd'. simpl. assert (length nd' = b) as -> by (by eapply Forall_lookup_1 in HF).
  specialize (IH (p + n) (len - n) ltac:(nia)).
  rewrite Hq, Nat.div_mul, Nat.Div0.mod_mul, Nat.sub_0_r in IH by lia.
  replace (p / b + 1) with (S (p / b)) in IH by lia. specialize (IH ltac:(lia)). cbv zeta in IH.
  replace (S (p / b) * b + (len - n)) with (p + len) in IH by lia.
  destruct (decide (p + len ≤ b * length nodes)) as [Hle|]; [|by rewrite IH].
  destruct IH as (vs & -> & Hcat & Hsum). eexists; split; [done|].
  cbn [map concat]. rewrite Hpiece, Hcat by lia.
  replace (S (p / b) * b) with (p + n) by lia. rewrite <-drop_drop. split.
  - rewrite take_take_drop. f_equal. lia.
  - simpl in Hsum |- *. lia.
Qed.

Lemma take_max_splice {A} p s (buf l l2 : list A) :
  p ≤ s → s ≤ length l → p + length buf ≤ length (l ++ l2) →
  take (s `max` (p + length buf)) (splice p buf (l ++ l2))
  = take p (take s l) ++ buf ++ drop (p + length buf) (take s l).
Proof.
  intros Hp Hs Hn. unfold splice. rewrite (take_app_le l l2 p) by lia.
  rewrite take_take, Nat.min_l by lia. rewrite take_app, length_take, Nat.min_l by lia.
  rewrite (take_ge (take p l)) by (rewrite length_take; lia). f_equal.
  rewrite take_app, (take_ge buf) by lia. f_equal.
  destruct (decide (s ≤ p + length buf)).
  - rewrite (drop_ge (take s l)) by (rewrite length_take; lia).
    replace (s `max` _ - p - length buf) with 0 by lia. apply take_0.
  - rewrite skipn_firstn_comm. rewrite drop_app_le by lia.
    rewrite take_app_le by (rewrite length_drop; lia). f_equal. lia.
Qed.

Lemma length_flat ba : shape ba → length (flat ba) = m_capacity ba.
Proof. intros [? ? HF ->]. by apply length_concat. Qed.

Lemma wf_inside ba : wf ba → m_position ba < m_capacity ba → inside ba.
Proof. intros [Hs _ _ Hc _] Hp. split; [done|done|]. by rewrite Hc, cur_of_inside. Qed.

Section operations.
Context {H : Host} {HP : Heap}.

Lemma length_new_node k s : length (new_node k s) = s.
Proof. unfold new_node. by rewrite length_map, length_seq. Qed.

(** The constructor establishes the invariant and gives an empty tape. *)
Lemma ByteArray_new_wf base : 0 < base → wf (ByteArray_new base) ∧ abs (ByteArray_new base) = Tape.mk [] 0.
Proof.
  intros Hb. split; [|done].
  split; simpl; [|lia|lia|by rewrite cur_of_inside, Nat.Div0.div_0_l by lia|by right].
  split; simpl; [done|done| |lia]. constructor; [apply length_new_node|done].
Qed.

Lemma addCapacity_spec ba n :
  wf ba → 0 < n →
  ∃ ba', addCapacity n ba = Ok tt ba' ∧ wf ba' ∧
    (∃ extra, flat ba' = flat ba ++ extra) ∧
    m_position ba' = m_position ba ∧ m_size ba' = m_size ba ∧
    m_baseSize ba' = m_baseSize ba ∧ m_endian ba' = m_endian ba ∧
    (m_position ba + n ≤ m_capacity ba' ↔ room ba n) ∧
    (¬ room ba n → m_position ba < m_capacity ba').
Proof.
  intros Hwf Hn. pose proof Hwf as [[Hb Hr HF Hc] Hps Hsc Hcur He].
  unfold addCapacity. rewrite decide_False by lia.
  destruct (decide (n ≤ getCapacity ba)) as [Hfit|Hfit].
  { exists ba. do 2 (split; [done|]). split; [exists []; by rewrite app_nil_r|].
    do 4 (split; [done|]). unfold room, getCapacity in *. split; [|lia].
    split; [by left|lia]. }
  rewrite decide_False by lia. eexists; split; [done|].
  set (missing := n - getCapacity ba). set (b := m_baseSize ba) in *.
  pose proof (Nat.div_mod_eq missing b). pose proof (Nat.mod_upper_bound missing b).
  set (count := missing / b + _).
  assert (length (map (λ j, new_node j b) (seq (length (m_nodes ba)) count)) = count) as Hlc
    by (by rewrite length_map, length_seq).
  assert (m_capacity ba + count * b = b * (length (m_nodes ba) + count)) as Hcap by lia.
  split; [|split; [|do 4 (split; [done|]); split]]; cbn.
  - split; cbn; [|lia|unfold b in *; lia| |done].
    + split; cbn; [done| | |by rewrite length_app, Hlc].
      * intros E. by apply app_nil in E as [? _].
      * apply Forall_app. split; [done|]. apply Forall_fmap, Forall_true. intros j.
        apply length_new_node.
    + rewrite Hcur. unfold getCapacity in *. destruct (decide (m_capacity ba - m_position ba = 0)) as [E|E].
      * assert (m_position ba = length (m_nodes ba) * b) as Hpe by (unfold b in *; lia).
        assert (missing = n) as Hmn by (unfold missing; lia).
        destruct (decide (count = 0)) as [Hz|Hz].
        { exfalso. unfold count in Hz. rewrite E, Hmn in *. case_decide; lia. }
        rewrite cur_of_inside by nia. rewrite Hpe, Nat.div_mul by lia. done.
      * rewrite !cur_of_inside by lia. done.
  - eexists. unfold flat; cbn. apply concat_app.
  - unfold room, getCapacity in *. fold missing b. split.
    + intros Hle. right. unfold count in Hle. destruct (decide (m_capacity ba - m_position ba < missing mod b)); [by right|left].
      unfold missing in *. nia.
    + intros [?|[Hz|Hgt]]; [lia| |]; unfold count, missing in *.
      * case_decide; nia.
      * rewrite decide_True by done. nia.
  - unfold room, getCapacity. fold missing b. intros Hno. lia.
Qed.

(** Capacity suffices: [write] is the tape's [write]. *)
Lemma write_ok ba buf :
  wf ba → room ba (length buf) →
  ∃ ba', write buf ba = Ok tt ba' ∧ wf ba' ∧ abs ba' = Tape.write buf (abs ba) ∧
    m_baseSize ba' = m_baseSize ba ∧ m_endian ba' = m_endian ba ∧
    m_capacity ba ≤ m_capacity ba'.
Proof.
  intros Hwf Hroom. unfold write. destruct (decide (length buf = 0)) as [Hz|Hz].
  { apply nil_length_inv in Hz as ->. exists ba. do 2 (split; [done|]).
    split; [|done]. unfold Tape.write, abs; simpl. by rewrite Nat.add_0_r, take_drop. }
  destruct (addCapacity_spec ba (length buf) Hwf ltac:(lia))
    as (b1 & Ha & Hwf1 & (extra & Hfl) & Hp & Hs & Hb & He & Hcap & _).
  apply Hcap in Hroom. clear Hcap.
  step_with Ha. rewrite bind_gets. cbv beta.
  assert (inside b1) as Hin by (apply wf_inside; [done|lia]).
  destruct (inside_node _ Hin) as (nd & _ & Hl & Hcn).
  pose proof (shape_base _ (inside_shape _ Hin)) as Hbase.
  assert (mod_base (m_position b1) b1 = Ok (m_position b1 mod m_baseSize b1) b1) as Hm
    by (unfold mod_base; by rewrite decide_False by lia).
  step_with Hm. step_with Hcn. rewrite bind_gets, Hl. cbv beta.
  pose proof (write_loop_spec (S (length (m_nodes b1))) b1 buf Hin ltac:(by destruct buf) ltac:(lia)) as Hw.
  cbv zeta in Hw. rewrite decide_True in Hw by lia. destruct Hw as (nodes & Hw & Hcat & HF & Hln).
  step_with Hw. unfold modify. eexists; split; [done|].
  pose proof Hwf as [_ Hps Hsc _ _]. pose proof Hwf1 as [Hsh1 _ Hsc1 _ He1].
  destruct (at_pos_inside b1 nodes (m_position b1) Hin (inside_pos _ Hin) HF Hln) as [Hsh2 _ _].
  pose proof (length_flat _ Hsh1) as Hlf.
  assert (length (flat ba) = m_capacity ba) as Hlf0 by apply length_flat, Hwf.
  assert (m_capacity ba ≤ m_capacity b1) as Hmono
    by (rewrite <-Hlf, Hfl, length_app, Hlf0; lia).
  assert (abs (at_pos b1 nodes (m_position b1 + length buf)) = abs (at_pos b1 nodes (m_position b1 + length buf))) by done.
  cbn [m_size m_position at_pos]. split; [|split].
  - case_decide; split; cbn; try done; try lia; by destruct Hsh2.
  - unfold abs, Tape.write; cbn. rewrite <-Hp.
    rewrite <-(take_max_splice (m_position b1) (m_size ba) buf (flat ba) extra); try lia.
    2:{ rewrite <-Hfl, Hlf. lia. }
    case_decide; cbn; unfold flat at 1; cbn; rewrite Hcat, Hfl; do 2 f_equal; lia.
  - case_decide; cbn; rewrite Hb, He; split_and!; done || lia.
Qed.

(** Capacity does not suffice: the copy runs off the end of the chain. *)
Lemma write_crash ba buf :
  wf ba → ¬ room ba (length buf) → write buf ba = Undef NullDeref.
Proof.
  intros Hwf Hroom. unfold write.
  rewrite decide_False by (intros E; apply Hroom; left; lia).
  destruct (addCapacity_spec ba (length buf) Hwf) as (b1 & Ha & Hwf1 & _ & Hp & _ & _ & _ & Hcap & Hlt).
  { unfold room in Hroom. lia. }
  specialize (Hlt Hroom). step_with Ha. rewrite bind_gets. cbv beta.
  assert (inside b1) as Hin by (apply wf_inside; [done|lia]).
  destruct (inside_node _ Hin) as (nd & _ & Hl & Hcn).
  pose proof (shape_base _ (inside_shape _ Hin)) as Hbase.
  assert (mod_base (m_position b1) b1 = Ok (m_position b1 mod m_baseSize b1) b1) as Hm
    by (unfold mod_base; by rewrite decide_False by lia).
  step_with Hm. step_with Hcn. rewrite bind_gets, Hl. cbv beta.
  pose proof (write_loop_spec (S (length (m_nodes b1))) b1 buf Hin) as Hw.
  cbv zeta in Hw. rewrite decide_False in Hw by (rewrite Hp, Hcap; done).
  apply bind_undef, Hw; [|lia]. intros ->. apply Hroom. left. simpl. lia.
Qed.

Lemma at_pos_same ba : wf ba → at_pos ba (m_nodes ba) (m_position ba) = ba.
Proof. intros [_ _ _ Hc _]. unfold at_pos. rewrite <-Hc. by destruct ba. Qed.

Lemma at_pos_wf ba p : wf ba → p ≤ m_size ba → wf (at_pos ba (m_nodes ba) p).
Proof. intros [[? ? ? ?] ? ? ? ?] Hp. split; try done. Qed.

Lemma peek_flat ba n :
  m_position ba + n ≤ m_size ba →
  Tape.peek n (abs ba) = take n (drop (m_position ba) (flat ba)).
Proof.
  intros Hn. unfold Tape.peek, abs; simpl. rewrite skipn_firstn_comm, take_take.
  f_equal. lia.
Qed.

Lemma mod_base_ok ba p : shape ba → mod_base p ba = Ok (p mod m_baseSize ba) ba.
Proof. intros [? _ _ _]. unfold mod_base. by rewrite decide_False by lia. Qed.

Lemma cur_node_null ba : wf ba → m_position ba = m_capacity ba → cur_node ba = Undef NullDeref.
Proof.
  intros [_ _ _ Hc _] Hp. unfold cur_node. rewrite Hc. unfold cur_of.
  by rewrite decide_False by lia.
Qed.

(** [read], on every branch. *)
Lemma read_spec ba n :
  wf ba →
  read n ba =
    if decide (getReadSize ba < n) then Throw (out_of_range "not enough len") ba
    else if decide (m_position ba = m_capacity ba) then Undef NullDeref
    else Ok (Tape.peek n (abs ba)) (at_pos ba (m_nodes ba) (m_position ba + n)).
Proof.
  intros Hwf. pose proof Hwf as [Hsh Hps Hsc _ _]. unfold read. rewrite bind_gets. cbv beta.
  destruct (decide (getReadSize ba < n)) as [Hlt|Hge]; [done|]. unfold getReadSize in Hge.
  rewrite bind_gets. cbv beta. step_with (mod_base_ok ba (m_position ba) Hsh).
  destruct (decide (m_position ba = m_capacity ba)) as [He|He].
  { by apply bind_undef, cur_node_null. }
  pose proof (wf_inside ba Hwf ltac:(lia)) as Hin.
  destruct (inside_node ba Hin) as (nd & _ & Hl & Hcn). step_with Hcn.
  rewrite bind_gets, Hl, peek_flat by lia. cbv beta.
  destruct (decide (n = 0)) as [->|Hn].
  - cbn [read_loop]. rewrite decide_True, Nat.add_0_r, take_0, at_pos_same by done. done.
  - apply (read_loop_spec (S (length (m_nodes ba)))); [done|lia|lia|lia].
Qed.

Lemma seek_spec b nodes :
  0 < b → nodes ≠ [] → Forall (λ nd, length nd = b) nodes →
  ∀ i v, v ≤ b * length nodes →
  seek nodes i v = Some (if decide (v < b * length nodes) then Some (i + v / b) else None).
Proof.
  intros Hb Hne HF. induction HF as [|nd nodes Hnd HF IH]; [done|]. intros i v Hv.
  simpl in Hv |- *. rewrite Hnd. destruct (decide (b < v)) as [Hlt|Hge].
  - destruct nodes as [|nd2 nodes]; [simpl in Hv; lia|].
    rewrite IH by (done || simpl in *; lia).
    assert (v / b = S ((v - b) / b)) as ->.
    { replace v with ((v - b) + 1 * b) at 1 by lia. rewrite Nat.div_add by lia. lia. }
    f_equal. case_decide; case_decide; try lia; f_equal; lia.
  - destruct (decide (v = b)) as [->|Hvb].
    + rewrite Nat.div_same by lia. destruct nodes; simpl.
      * by rewrite decide_False by lia.
      * rewrite decide_True by lia. do 2 f_equal. lia.
    + rewrite Nat.div_small by lia. rewrite decide_True by nia. do 2 f_equal. lia.
Qed.

(** [setPosition]: beyond the capacity it throws and changes nothing; else the
    cursor moves, and the size grows when the cursor passes it. *)
Lemma setPosition_spec ba v :
  wf ba →
  if decide (m_capacity ba < v)
  then setPosition v ba = Throw (out_of_range "set_position out of range") ba
  else ∃ ba', setPosition v ba = Ok tt ba' ∧ wf ba' ∧ m_position ba' = v ∧
       m_size ba' = m_size ba `max` v ∧ flat ba' = flat ba ∧
       m_nodes ba' = m_nodes ba ∧ m_capacity ba' = m_capacity ba ∧
       m_baseSize ba' = m_baseSize ba ∧ m_endian ba' = m_endian ba.
Proof.
  intros [[Hb Hr HF Hcap] Hps Hsc Hc He]. unfold setPosition. rewrite bind_gets. cbv beta.
  destruct (decide (m_capacity ba < v)) as [|Hv]; [done|].
  rewrite !bind_modify, bind_gets. cbn [m_position set_position_field].
  set (b1 := if decide _ then _ else _).
  assert (m_nodes b1 = m_nodes ba) as -> by (unfold b1; by case_decide).
  rewrite (seek_spec (m_baseSize ba)) by (done || lia).
  eexists; split; [done|]. unfold b1; cbn [m_size m_position set_position_field].
  destruct (decide (m_size ba < v)); (split; [|split_and!; cbn; done || lia]);
    (split; cbn; [by split|lia|lia|unfold cur_of; by rewrite Hcap|done]).
Qed.

Lemma clear_wf ba :
  wf ba → wf (clear ba) ∧ abs (clear ba) = Tape.mk [] 0.
Proof.
  intros [[Hb Hr HF Hcap] Hps Hsc Hc He]. split; [|done].
  destruct (m_nodes ba) as [|nd nodes] eqn:E; [done|].
  apply Forall_cons in HF as [Hnd HF].
  split; [|simpl; lia|simpl; lia| |done].
  - split; unfold clear; simpl; rewrite ?E; simpl; rewrite ?take_0; [done|done|by constructor|lia].
  - simpl. by rewrite cur_of_inside, Nat.Div0.div_0_l by done.
Qed.

(** The positional [const] read works from [m_cur]: from the cursor's node. *)
Lemma read_at_spec ba n :
  wf ba → m_position ba < m_capacity ba → n ≤ getReadSize ba →
  read_at n (m_position ba) ba = Ok (Tape.peek n (abs ba)) ba.
Proof.
  intros Hwf Hp Hn. pose proof Hwf as [Hsh Hps Hsc _ _]. unfold read_at. rewrite bind_gets. cbv beta.
  rewrite decide_False by lia. step_with (mod_base_ok ba (m_position ba) Hsh).
  pose proof (wf_inside ba Hwf Hp) as Hin. destruct (inside_node ba Hin) as (nd & _ & Hl & Hcn).
  step_with Hcn. rewrite bind_gets, Hl. cbv beta.
  pose proof Hsh as [Hb _ HF Hcap]. unfold getReadSize in Hn.
  pose proof (iov_loop_spec _ _ Hb HF (S (length (m_nodes ba))) (m_position ba) n ltac:(lia) ltac:(lia)) as Hi.
  cbv zeta in Hi. rewrite decide_True in Hi by lia. destruct Hi as (vs & -> & Hcat & _).
  rewrite Hcat, peek_flat by lia. done.
Qed.

Lemma toString_spec ba :
  wf ba → toString ba = Ok (drop (m_position ba) (Tape.data (abs ba))) ba.
Proof.
  intros Hwf. pose proof Hwf as [Hsh Hps Hsc _ _]. unfold toString. rewrite bind_gets. cbv beta.
  pose proof (length_flat ba Hsh) as Hl.
  assert (length (take (m_size ba) (flat ba)) = m_size ba) as Hlt by (rewrite length_take; lia).
  unfold abs; simpl. unfold getReadSize. case_decide as E.
  - rewrite drop_ge by lia. done.
  - rewrite bind_gets. cbv beta. rewrite read_at_spec by (done || unfold getReadSize; lia).
    unfold Tape.peek, abs; simpl. rewrite take_ge; [done|]. rewrite length_drop. lia.
Qed.

(** The read vectors denote the next bytes of the tape, at most [len]. *)
Lemma getReadBuffers_ok ba len :
  wf ba → (0 ≤ len)%Z →
  ∃ vs, getReadBuffers len ba
        = Ok (vs, Z.to_nat (Z.of_nat (getReadSize ba) `min` len)) ba ∧
    concat (map (iov_bytes (m_nodes ba)) vs)
    = Tape.peek (Z.to_nat (Z.of_nat (getReadSize ba) `min` len)) (abs ba) ∧
    sum_list (map (λ v, snd v) vs) = Z.to_nat (Z.of_nat (getReadSize ba) `min` len).
Proof.
  intros Hwf Hlen. pose proof Hwf as [Hsh Hps Hsc _ _]. unfold getReadBuffers. rewrite bind_gets. cbv beta.
  set (n := Z.to_nat (if (_ <? _)%Z then _ else _)).
  assert (n = Z.to_nat (Z.of_nat (getReadSize ba) `min` len)) as <-
    by (unfold n; destruct (Z.ltb_spec (Z.of_nat (getReadSize ba)) len); f_equal; lia).
  assert (n ≤ getReadSize ba) as Hn
    by (unfold n; destruct (Z.ltb_spec (Z.of_nat (getReadSize ba)) len); lia).
  unfold getReadSize in Hn.
  destruct (decide (n = 0)) as [E|E].
  { exists []. by rewrite E. }
  pose proof (wf_inside ba Hwf ltac:(lia)) as Hin. destruct (inside_node ba Hin) as (nd & _ & Hl & Hcn).
  step_with Hcn. rewrite bind_gets. cbv beta. step_with (mod_base_ok ba (m_position ba) Hsh).
  rewrite bind_gets, Hl. cbv beta. pose proof Hsh as [Hb _ HF Hcap].
  pose proof (iov_loop_spec _ _ Hb HF (S (length (m_nodes ba))) (m_position ba) n ltac:(lia) ltac:(lia)) as Hi.
  cbv zeta in Hi. rewrite decide_True in Hi by lia. destruct Hi as (vs & -> & Hcat & Hsum).
  exists vs. split; [done|]. rewrite peek_flat by lia. done.
Qed.
End operations.

(** ** Arithmetic of the codecs *)

Section arith.
Local Open Scope Z_scope.

Lemma testbit_high a i n : 0 <= a < 2 ^ i -> 0 <= i <= n -> Z.testbit a n = false.
Proof. intros Ha Hi. rewrite <-(Z.mod_small a (2 ^ i)) by lia. apply Z.mod_pow2_bits_high. lia. Qed.

Lemma lor_shiftl_add a b i : 0 <= a < 2 ^ i -> 0 <= i -> Z.lor a (Z.shiftl b i) = a + b * 2 ^ i.
Proof.
  intros Ha Hi. rewrite <-(Z.shiftl_mul_pow2 b i) by lia.
  assert (Z.land a (Z.shiftl b i) = 0) as E0; [|by rewrite Z.add_nocarry_lxor, Z.lxor_lor].
  apply Z.bits_inj'. intros n Hn. rewrite Z.land_spec, Z.bits_0.
  destruct (Z.lt_ge_cases n i).
  - rewrite (Z.shiftl_spec_low b) by lia. apply andb_false_r.
  - by rewrite (testbit_high a i n) by lia.
Qed.

Lemma lxor_ones a w : 0 <= w -> 0 <= a < 2 ^ w -> Z.lxor a (2 ^ w - 1) = 2 ^ w - 1 - a.
Proof.
  intros Hw Ha. replace (2 ^ w - 1) with (Z.ones w) by (rewrite Z.ones_equiv; lia).
  assert (a + Z.lxor a (Z.ones w) = Z.ones w); [|lia].
  rewrite Z.add_nocarry_lxor.
  - by rewrite <-Z.lxor_assoc, Z.lxor_nilpotent, Z.lxor_0_l.
  - apply Z.bits_inj'. intros n Hn. rewrite Z.land_spec, Z.lxor_spec, Z.bits_0.
    destruct (Z.lt_ge_cases n w).
    + rewrite Z.ones_spec_low by lia. by destruct (Z.testbit a n).
    + by rewrite (testbit_high a w n) by lia.
Qed.

Lemma low7 v : Z.land v 0x7F = v mod 128.
Proof. change 0x7F with (Z.ones 7). by rewrite Z.land_ones. Qed.

Lemma varint_byte v : 0 <= v ->
  byte.unsigned (byte.of_Z (Z.lor (Z.land v 0x7F) 0x80)) = v mod 128 + 128.
Proof.
  intros Hv. rewrite byte.unsigned_of_Z, low7. unfold byte.wrap.
  pose proof (Z.mod_pos_bound v 128).
  assert (Z.lor (v mod 128) 0x80 = v mod 128 + 1 * 2 ^ 7) as ->.
  { rewrite <-lor_shiftl_add by (change (2 ^ 7) with 128; lia). done. }
  change (2 ^ 7) with 128. rewrite Z.mod_small; lia.
Qed.
End arith.

(** ** Encoded bytes *)

(** [d], run with byte order [e], reads the bytes [bs] as [v] wherever they
    stand and moves past them. *)
Definition parses {A} (e : Z) (d : M ByteArray A) (bs : list byte) (v : A) : Prop :=
  ∀ ba, wf ba → m_endian ba = e → length bs ≤ getReadSize ba →
    Tape.peek (length bs) (abs ba) = bs →
    d ba = Ok v (at_pos ba (m_nodes ba) (m_position ba + length bs)).

Lemma parses_read e bs : bs ≠ [] → parses e (read (length bs)) bs bs.
Proof.
  intros Hne ba Hwf He Hl Hpk. rewrite read_spec by done.
  rewrite decide_False by lia. unfold getReadSize in Hl.
  assert (0 < length bs) by (destruct bs; simpl; [done|lia]).
  pose proof (wf_size _ Hwf). rewrite decide_False by lia. by rewrite Hpk.
Qed.

Lemma parses_bind {A B} e (d : M ByteArray A) (k : A → M ByteArray B) bs1 bs2 v w :
  parses e d bs1 v → parses e (k v) bs2 w → parses e (x ← d; k x) (bs1 ++ bs2) w.
Proof.
  intros Hd Hk ba Hwf He Hl Hpk. rewrite length_app in *. unfold getReadSize in Hl.
  pose proof (wf_position _ Hwf).
  rewrite peek_flat in Hpk by lia.
  rewrite (flat_drop_split ba (m_position ba) (length bs1)) in Hpk by lia.
  apply app_inj_1 in Hpk as [H1 H2].
  2:{ pose proof (length_flat ba (wf_shape _ Hwf)). pose proof (wf_size _ Hwf).
      rewrite length_take, length_drop. lia. }
  rewrite (bind_ok _ _ _ _ _ (Hd ba Hwf He ltac:(unfold getReadSize; lia)
    ltac:(rewrite peek_flat by lia; exact H1))).
  replace (length bs1 + length bs2 - length bs1) with (length bs2) in H2 by lia.
  pose proof (at_pos_wf ba (m_position ba + length bs1) Hwf ltac:(lia)) as Hwf2.
  rewrite (Hk _ Hwf2); [|done|unfold getReadSize; cbn; lia|].
  - unfold at_pos; cbn. f_equal. f_equal; [lia|]. f_equal. lia.
  - rewrite peek_flat by (cbn; lia). exact H2.
Qed.

Lemma parses_map {A B} e (d : M ByteArray A) (f : A → B) bs v :
  parses e d bs v → parses e (x ← d; mret (f x)) bs (f v).
Proof. intros Hd ba Hwf He Hl Hpk. by rewrite (bind_ok _ _ _ _ _ (Hd ba Hwf He Hl Hpk)). Qed.

Section codecs.
Context {H : Host} {HP : Heap}.

Lemma parses_readF e t v :
  (e = SYLAR_LITTLE_ENDIAN ∨ e = SYLAR_BIG_ENDIAN) → 0 < sizeof t ≤ 8 → in_range t v →
  parses e (readF t) (endian_bytes e (sizeof t) v) v.
Proof.
  intros He Ht Hv. set (bs := endian_bytes e (sizeof t) v).
  assert (length bs = sizeof t) as Hl by apply length_endian_bytes.
  assert (bs ≠ []) as Hne by (intros E; rewrite E in Hl; simpl in Hl; lia).
  intros ba Hwf Hee Hle Hpk. unfold readF. rewrite <-Hl.
  rewrite (bind_ok _ _ _ _ _ (parses_read e bs Hne ba Hwf Hee Hle Hpk)). rewrite bind_gets.
  cbn [m_endian at_pos]. rewrite Hee. unfold mret, M_ret. f_equal.
  unfold bs. rewrite <-(to_memory_swapped e t v) by done.
  destruct (Z.eqb_spec e SYLAR_BYTE_ORDER); cbn [negb].
  - rewrite of_to_memory by lia. apply conv_id; [lia|done].
  - rewrite of_to_memory by lia. rewrite (conv_id t) by (apply conv_in_range || lia; lia).
    by apply byteswap_involutive.
Qed.

Lemma parses_readFuint8 e b : parses e readFuint8 [b] (byte.unsigned b).
Proof.
  unfold readFuint8. replace (byte.unsigned b) with (of_memory uint8_t [b]).
  { apply (parses_map e _ (of_memory uint8_t)), (parses_read e [b]). done. }
  unfold of_memory. assert ((if (SYLAR_BYTE_ORDER =? SYLAR_BIG_ENDIAN)%Z then rev [b] else [b]) = [b]) as ->
    by (by case_match).
  rewrite le_combine_1. apply conv_id; [simpl; lia|]. apply byte.unsigned_range.
Qed.

(** The varint writer never overruns its [tmp] array, and needs at most
    [room] bytes. *)
Lemma varint_encode_total room : ∀ v,
  0 < room → (0 ≤ v < 2 ^ (7 * Z.of_nat room))%Z →
  ∃ bs, varint_encode room v = Some bs ∧ 0 < length bs ≤ room.
Proof.
  induction room as [|room IH]; intros v Hr Hv; [lia|]. cbn [varint_encode].
  destruct (Z.leb_spec 0x80 v) as [Hge|Hlt]; [|eexists; split; [done|simpl; lia]].
  destruct (decide (room = 0)) as [->|Hnz]; [change (2 ^ (7 * Z.of_nat 1))%Z with 128%Z in Hv; lia|].
  destruct (IH (Z.shiftr v 7)) as (bs & -> & Hl); [lia| |].
  - rewrite Z.shiftr_div_pow2 by lia.
    split; [apply Z.div_pos; lia|]. apply Z.div_lt_upper_bound; [lia|].
    rewrite <-Z.pow_add_r by lia. replace (7 + 7 * Z.of_nat room)%Z with (7 * Z.of_nat (S room))%Z by lia. lia.
  - eexists; split; [done|]. simpl. lia.
Qed.

Lemma parses_varint e w n : ∀ room i result v bs,
  varint_encode room v = Some bs → room ≤ n →
  (0 ≤ i < w → 0 ≤ v < 2 ^ (w - i) → 0 ≤ result < 2 ^ i →
  parses e (varint_loop w n i result) bs (result + v * 2 ^ i))%Z.
Proof.
  induction n as [|n IH]; intros room i result v bs Henc Hrn Hi Hv Hres.
  { by destruct room; [|lia]. }
  destruct room as [|room]; [done|]. cbn [varint_encode] in Henc. cbn [varint_loop].
  rewrite (proj2 (Z.ltb_lt i w)) by lia.
  assert (2 ^ w = 2 ^ (w - i) * 2 ^ i)%Z as Hpw by (rewrite <-Z.pow_add_r by lia; f_equal; lia).
  destruct (Z.leb_spec 0x80 v) as [Hge|Hlt].
  - destruct (varint_encode room (Z.shiftr v 7)) as [rest|] eqn:Hrest; [|done].
    simplify_eq/=. set (b := byte.of_Z _).
    assert (byte.unsigned b = v mod 128 + 128)%Z as Hb by (apply varint_byte; lia).
    change (b :: rest) with ([b] ++ rest). eapply parses_bind; [apply parses_readFuint8|]. cbv beta.
    pose proof (Z.mod_pos_bound v 128). rewrite Hb, (proj2 (Z.ltb_ge _ _)) by lia.
    assert (i + 7 < w)%Z as Hi7.
    { destruct (Z.lt_ge_cases (i + 7) w); [done|].
      assert (2 ^ (w - i) <= 2 ^ 7)%Z by (apply Z.pow_le_mono_r; lia).
      change (2 ^ 7)%Z with 128%Z in *. lia. }
    assert (Z.land (v mod 128 + 128) 0x7f = v mod 128)%Z as ->.
    { rewrite low7. rewrite <-Z.add_mod_idemp_r, Z.mod_same, Z.add_0_r by lia. apply Zmod_mod. }
    rewrite Z.shiftl_mul_pow2 by lia. rewrite wrapu_small.
    2:{ split; [nia|]. rewrite Hpw. pose proof (Z.mod_le v 128). nia. }
    rewrite <-Z.shiftl_mul_pow2, lor_shiftl_add by lia.
    replace (result + v * 2 ^ i)%Z
      with (result + v mod 128 * 2 ^ i + Z.shiftr v 7 * 2 ^ (i + 7))%Z.
    + apply (IH room); try done; try lia.
      * rewrite Z.shiftr_div_pow2 by lia. split; [apply Z.div_pos; lia|].
        apply Z.div_lt_upper_bound; [lia|]. rewrite <-Z.pow_add_r by lia.
        replace (7 + (w - (i + 7)))%Z with (w - i)%Z by lia. lia.
      * rewrite Z.pow_add_r by lia. change (2 ^ 7)%Z with 128%Z. nia.
    + rewrite Z.shiftr_div_pow2, Z.pow_add_r by lia. change (2 ^ 7)%Z with 128%Z.
      pose proof (Z.div_mod v 128). nia.
  - simplify_eq/=. change [byte.of_Z v] with ([byte.of_Z v] ++ []).
    assert (byte.unsigned (byte.of_Z v) = v) as Hb
      by (rewrite byte.unsigned_of_Z; apply Z.mod_small; lia).
    eapply parses_bind; [apply parses_readFuint8|]. cbv beta. rewrite Hb, (proj2 (Z.ltb_lt _ _)) by lia.
    rewrite Z.shiftl_mul_pow2 by lia. rewrite wrapu_small by (split; [nia|]; rewrite Hpw; nia).
    rewrite <-Z.shiftl_mul_pow2, lor_shiftl_add by lia.
    rewrite (Z.shiftl_mul_pow2 v i) by lia. intros ba Hwf _ _ _. unfold mret, M_ret.
    cbn [length]. by rewrite Nat.add_0_r, at_pos_same.
Qed.
End codecs.

(** ** Round trips *)

Section roundtrips.
Context {H : Host} {HP : Heap}.

(** The bytes a tape holds at the place they were written. *)
Lemma tape_write_peek bs ba n :
  wf ba → n ≤ length bs →
  take n (drop (m_position ba) (Tape.data (Tape.write bs (abs ba)))) = take n bs.
Proof.
  intros [Hsh Hps Hsc _ _] Hn. unfold Tape.write, abs; cbn [Tape.data Tape.pos].
  rewrite drop_app_length'.
  2:{ rewrite !length_take, length_flat by done. lia. }
  by rewrite take_app_le by lia.
Qed.

(** Going back to where [n] of the written bytes [bs] start. *)
Lemma rewind ba ba' bs :
  wf ba → wf ba' → abs ba' = Tape.write bs (abs ba) → m_endian ba' = m_endian ba →
  m_capacity ba ≤ m_capacity ba' →
  ∃ b2, setPosition (m_position ba) ba' = Ok tt b2 ∧ wf b2 ∧ m_endian b2 = m_endian ba ∧
    m_position b2 = m_position ba ∧ length bs ≤ getReadSize b2 ∧
    ∀ n, n ≤ length bs → Tape.peek n (abs b2) = take n bs.
Proof.
  intros Hwf Hwf' Habs He Hcap. pose proof (setPosition_spec ba' (m_position ba) Hwf') as Hs.
  pose proof Hwf as [_ Hps Hsc _ _]. pose proof Hwf' as [_ Hps' _ _ _].
  assert (m_position ba' = m_position ba + length bs) as Hp'
    by (apply (f_equal Tape.pos) in Habs; exact Habs).
  rewrite decide_False in Hs by lia.
  destruct Hs as (b2 & Hb2 & Hwf2 & Hp2 & Hs2 & Hf2 & Hn2 & Hc2 & Hbs2 & He2).
  exists b2. split; [done|]. split; [done|]. split; [congruence|]. split; [done|].
  rewrite Nat.max_l in Hs2 by lia. split; [unfold getReadSize; lia|].
  intros n Hn. rewrite <-(tape_write_peek bs ba n) by done. rewrite <-Habs.
  unfold Tape.peek, abs; cbn. by rewrite Hp2, Hs2, Hf2.
Qed.

(** Whatever a decoder parses can be read back after writing its bytes. *)
Lemma write_then_read {A} ba bs (d : M ByteArray A) v :
  wf ba → parses (m_endian ba) d bs v → room ba (length bs) →
  ∃ ba' b2 b3,
    write bs ba = Ok tt ba' ∧ wf ba' ∧ setPosition (m_position ba) ba' = Ok tt b2 ∧
    d b2 = Ok v b3 ∧ m_position b3 = m_position ba'.
Proof.
  intros Hwf Hd Hroom.
  destruct (write_ok ba bs Hwf Hroom) as (ba' & Hw & Hwf' & Habs & _ & He & Hcap).
  destruct (rewind ba ba' bs Hwf Hwf' Habs He Hcap) as (b2 & Hb2 & Hwf2 & He2 & Hp2 & Hl2 & Hpk).
  eexists ba', b2, _. split; [done|]. split; [done|]. split; [done|]. split.
  - apply Hd; [done|done|done|]. rewrite Hpk by done. apply firstn_all.
  - cbn. rewrite Hp2. by apply (f_equal Tape.pos) in Habs.
Qed.

Lemma writeF_bytes t v ba :
  0 < sizeof t ≤ 8 → wf ba →
  writeF t v ba = write (endian_bytes (m_endian ba) (sizeof t) v) ba.
Proof.
  intros Ht Hwf. unfold writeF. rewrite bind_gets. cbv beta.
  by rewrite to_memory_swapped by (done || by apply wf_endian).
Qed.
End roundtrips.

(** Zigzag at any width. *)
Lemma zigzag_generic w v :
  (1 < w → in_s w v →
   let enc := if v <? 0 then wrapu w (wrapu w (wraps w (- v)) * 2 - 1) else wrapu w (wraps w (v * 2)) in
   in_u w enc ∧ wraps w (Z.lxor (Z.shiftr enc 1) (wrapu w (- Z.land enc 1))) = v ∧
   enc ≤ 2 * Z.abs v)%Z.
Proof.
  intros Hw Hv enc. pose proof (pow2_half w ltac:(lia)) as Hp. unfold in_s in Hv.
  assert (enc = if v <? 0 then - v * 2 - 1 else v * 2)%Z as ->.
  { unfold enc. destruct (Z.ltb_spec v 0).
    - rewrite wrapu_wraps by lia. rewrite (wrapu_small w (- v)) by (unfold in_u; lia).
      apply wrapu_small. unfold in_u. lia.
    - rewrite wrapu_wraps by lia. apply wrapu_small. unfold in_u. lia. }
  rewrite Z.shiftr_div_pow2, (Z.land_ones _ 1) by lia. change (2 ^ 1)%Z with 2%Z.
  destruct (Z.ltb_spec v 0).
  - split; [unfold in_u; lia|]. split; [|lia].
    replace (- v * 2 - 1)%Z with (1 + (- v - 1) * 2)%Z by lia.
    rewrite Z.div_add, Z.mod_add by lia. change (1 / 2)%Z with 0%Z. change (- (1 mod 2))%Z with (-1)%Z.
    rewrite Z.add_0_l. replace (wrapu w (-1)) with (2 ^ w - 1)%Z.
    + rewrite lxor_ones by lia. rewrite <-wraps_wrapu by lia.
      replace (wrapu w (2 ^ w - 1 - (- v - 1))) with (wrapu w v).
      * rewrite wraps_wrapu by lia. apply wraps_small; [lia|done].
      * unfold wrapu. replace (2 ^ w - 1 - (- v - 1))%Z with (v + 1 * 2 ^ w)%Z by lia.
        by rewrite Z.mod_add by lia.
    + unfold wrapu. apply (Z.mod_unique_pos _ _ (-1)); lia.
  - split; [unfold in_u; lia|]. split; [|lia].
    rewrite Z.div_mul, Z.mod_mul by lia. change (wrapu w (- 0)) with (0 mod 2 ^ w)%Z.
    rewrite Z.mod_0_l, Z.lxor_0_r by lia. apply wraps_small; [lia|done].
Qed.

Lemma varint_generic `{Host} `{Heap} ba v w n :
  wf ba → 0 < n → (0 < w ≤ 7 * Z.of_nat n)%Z → in_u w v →
  ∃ bs, varint_encode n v = Some bs ∧ 1 ≤ length bs ≤ n ∧
    (room ba (length bs) → ∃ ba' b2 b3,
       write_varint n v ba = Ok tt ba' ∧ wf ba' ∧ setPosition (m_position ba) ba' = Ok tt b2 ∧
       varint_loop w n 0 0 b2 = Ok v b3 ∧ m_position b3 = m_position ba').
Proof.
  intros Hwf Hn Hw Hv.
  assert (0 ≤ v < 2 ^ (7 * Z.of_nat n))%Z as Hv7.
  { pose proof (Z.pow_le_mono_r 2 w (7 * Z.of_nat n)). unfold in_u in Hv. lia. }
  destruct (varint_encode_total n v Hn Hv7) as (bs & Hb & Hl).
  exists bs. split; [done|]. split; [lia|]. intros Hroom. unfold write_varint. rewrite Hb.
  apply (write_then_read ba bs); [done| |done].
  pose proof (parses_varint (m_endian ba) w n n 0 0 v bs Hb ltac:(lia) ltac:(lia)) as Hpp.
  rewrite Z.sub_0_r, Z.pow_0_r, Z.mul_1_r in Hpp. apply Hpp; [done|lia].
Qed.

Lemma tape_write_app a b t :
  Tape.pos t ≤ length (Tape.data t) →
  Tape.write b (Tape.write a t) = Tape.write (a ++ b) t.
Proof.
  intros Hp. unfold Tape.write; cbn. rewrite length_app. f_equal; [|lia].
  rewrite (app_assoc (take _ (Tape.data t)) a (drop _ (Tape.data t))).
  rewrite (take_app_length' (take _ _ ++ a)) by (rewrite length_app, length_take; lia).
  rewrite (drop_app_ge (take _ _ ++ a)) by (rewrite length_app, length_take; lia).
  rewrite <-!app_assoc. do 3 f_equal. rewrite length_app, length_take, drop_drop. f_equal. lia.
Qed.

(** A length prefix followed by the data, and its reader. *)
Lemma string_generic `{Host} `{Heap} ba pre value :
  wf ba → pre ≠ [] → length pre + length value ≤ getCapacity ba →
  ∃ ba' b2, (write pre;; write value) ba = Ok tt ba' ∧ wf ba' ∧
    setPosition (m_position ba) ba' = Ok tt b2 ∧
    ∀ d len, parses (m_endian ba) d pre len → (0 < len ≤ Z.of_nat (length value))%Z →
      ∃ b3, (l ← d; read (Z.to_nat l)) b2 = Ok (take (Z.to_nat len) value) b3 ∧
            m_position b3 = m_position ba + length pre + Z.to_nat len.
Proof.
  intros Hwf Hpre Hcap. unfold getCapacity in Hcap.
  destruct (write_ok ba pre Hwf ltac:(left; unfold getCapacity; lia))
    as (b1 & Hw1 & Hwf1 & Habs1 & _ & He1 & Hc1).
  assert (m_position b1 = m_position ba + length pre) as Hp1
    by (apply (f_equal Tape.pos) in Habs1; exact Habs1).
  destruct (write_ok b1 value Hwf1 ltac:(left; unfold getCapacity; lia))
    as (ba' & Hw & Hwf' & Habs & _ & He & Hc).
  rewrite Habs1, tape_write_app in Habs.
  2:{ destruct Hwf as [Hsh Hps Hsc _ _]. cbn. rewrite length_take, length_flat by done. lia. }
  destruct (rewind ba ba' (pre ++ value) Hwf Hwf' Habs ltac:(congruence) ltac:(lia))
    as (b2 & Hb2 & Hwf2 & He2 & Hp2 & Hl2 & Hpk).
  exists ba', b2. split; [by rewrite (bind_ok _ _ _ _ _ Hw1)|]. do 2 (split; [done|]).
  intros d len Hd Hlen. rewrite length_app in Hl2, Hpk. set (k := Z.to_nat len).
  assert (length (take k value) = k) as Hk by (rewrite length_take; lia).
  assert (take k value ≠ []) as Hne by (intros E; rewrite E in Hk; simpl in Hk; lia).
  pose proof (parses_read (m_endian ba) (take k value) Hne) as Hr. rewrite Hk in Hr.
  pose proof (parses_bind (m_endian ba) d (λ l, read (Z.to_nat l)) pre (take k value) len _ Hd Hr) as Hall.
  eexists. split; [apply Hall; try done|].
  - rewrite length_app, Hk. lia.
  - rewrite length_app, Hk, Hpk by lia. rewrite take_app_add. done.
  - cbn. rewrite Hp2, length_app, Hk. lia.
Qed.

(** ** Properties *)

(** C3: [ByteArray::write] implements the tape's write whenever [addCapacity]
    leaves enough room, preserving the invariant; when it does not, the copy
    loop dereferences the null end of the node chain. *)
Theorem write_refines_tape `{Heap} (ba : ByteArray) (buf : list byte) :
  wf ba →
  if decide (room ba (length buf)) then
    ∃ ba', write buf ba = Ok tt ba' ∧ wf ba' ∧ abs ba' = Tape.write buf (abs ba) ∧
      m_baseSize ba' = m_baseSize ba ∧ m_endian ba' = m_endian ba ∧
      m_capacity ba ≤ m_capacity ba'
  else write buf ba = Undef NullDeref.
Proof. intros. case_decide; [by apply write_ok|by apply write_crash]. Qed.

#[local] Instance zero_heap : Heap := {| indeterminate _ _ := x00 |}.

Lemma write_refines_tape_witness :
  let ba := ByteArray_new 4 in
  wf ba ∧
  (∃ ba', write [x01; x02; x03] ba = Ok tt ba' ∧ wf ba' ∧
    abs ba' = Tape.write [x01; x02; x03] (abs ba) ∧ m_baseSize ba' = 4 ∧
    m_endian ba' = SYLAR_BIG_ENDIAN ∧ 4 ≤ m_capacity ba') ∧
  write [x01; x02; x03; x04; x05] ba = Undef NullDeref.
Proof.
  intros ba. assert (wf ba) as Hwf by (apply ByteArray_new_wf; lia).
  pose proof (write_refines_tape ba [x01; x02; x03] Hwf) as Hw.
  pose proof (write_refines_tape ba [x01; x02; x03; x04; x05] Hwf) as Hw'.
  split; [done|]. split.
  - rewrite decide_True in Hw by (left; vm_compute; lia). exact Hw.
  - rewrite decide_False in Hw'; [exact Hw'|]. unfold room. vm_compute. lia.
Defined.

(** C12: [ByteArray::read], on every branch: too little data throws
    [out_of_range] and keeps the state; otherwise the next bytes of the tape are
    returned and the cursor moves past them, except that with the cursor at the
    end of the last node even an empty read dereferences the null [m_cur]. *)
Theorem read_refines_tape `{Heap} (ba : ByteArray) (n : nat) :
  wf ba →
  read n ba =
    (if decide (m_size ba < m_position ba + n) then Throw (out_of_range "not enough len") ba
     else if decide (m_position ba = m_capacity ba) then Undef NullDeref
     else Ok (Tape.peek n (abs ba)) (at_pos ba (m_nodes ba) (m_position ba + n))) ∧
  (m_position ba + n ≤ m_size ba →
   wf (at_pos ba (m_nodes ba) (m_position ba + n)) ∧
   abs (at_pos ba (m_nodes ba) (m_position ba + n)) = Tape.advance n (abs ba)).
Proof.
  intros Hwf. pose proof (wf_position _ Hwf). split.
  - rewrite read_spec by done. unfold getReadSize.
    by rewrite (decide_ext (m_size ba - m_position ba < n) (m_size ba < m_position ba + n)) by lia.
  - intros. split; [by apply at_pos_wf|done].
Qed.

Lemma read_refines_tape_witness :
  let ba := ByteArray_new 4 in
  wf ba ∧ read 1 ba = Throw (out_of_range "not enough len") ba.
Proof.
  intros ba. assert (wf ba) as Hwf by (apply ByteArray_new_wf; lia).
  split; [done|]. exact (proj1 (read_refines_tape ba 1 Hwf)).
Defined.

(** [setPosition] throws beyond the capacity, and otherwise moves the cursor
    (with [m_cur] following, null exactly at the capacity), keeps the bytes, and
    grows the size only when the cursor passes it. *)
Theorem setPosition_correct `{Heap} (ba : ByteArray) (v : nat) :
  wf ba →
  if decide (m_capacity ba < v)
  then setPosition v ba = Throw (out_of_range "set_position out of range") ba
  else ∃ ba', setPosition v ba = Ok tt ba' ∧ wf ba' ∧ m_position ba' = v ∧
       m_size ba' = m_size ba `max` v ∧ flat ba' = flat ba ∧
       (m_cur ba' = None ↔ v = m_capacity ba).
Proof.
  intros Hwf. pose proof (setPosition_spec ba v Hwf) as Hs. case_decide; [done|].
  destruct Hs as (ba' & Hs & Hwf' & Hp & Hsz & Hf & _ & Hc & _).
  exists ba'. do 5 (split; [done|]). rewrite (wf_cur _ Hwf'). unfold cur_of. rewrite Hp, Hc.
  case_decide; split; done || lia.
Qed.

Lemma setPosition_correct_witness :
  let ba := ByteArray_new 4 in
  wf ba ∧ ∃ ba', setPosition 4 ba = Ok tt ba' ∧ wf ba' ∧ m_position ba' = 4 ∧
       m_size ba' = 4 ∧ flat ba' = [x00; x00; x00; x00] ∧ (m_cur ba' = None ↔ 4 = 4).
Proof.
  intros ba. assert (wf ba) as Hwf by (apply ByteArray_new_wf; lia).
  split; [done|]. exact (setPosition_correct ba 4 Hwf).
Defined.

(** A fixed-width integer written on one host and read back on another one,
    at any position and with either byte order selected, is the same value, and
    the bytes in between are the value's bytes in the selected order. *)
Theorem fixed_width_roundtrip (h1 h2 : Host) `{Heap} (t : cint) (v : Z) (ba : ByteArray) :
  t ∈ [int16_t; uint16_t; int32_t; uint32_t; int64_t; uint64_t] →
  in_range t v → wf ba → room ba (sizeof t) →
  ∃ ba' b2 b3,
    writeF (H := h1) t v ba = Ok tt ba' ∧ wf ba' ∧
    setPosition (m_position ba) ba' = Ok tt b2 ∧
    Tape.peek (sizeof t) (abs b2) = endian_bytes (m_endian ba) (sizeof t) v ∧
    readF (H := h2) t b2 = Ok v b3 ∧ m_position b3 = m_position ba'.
Proof.
  intros Ht Hv Hwf Hroom.
  assert (0 < sizeof t ≤ 8) as Hsz by (repeat (apply elem_of_cons in Ht as [->|Ht]; [simpl; lia|]); by apply elem_of_nil in Ht).
  set (bs := endian_bytes (m_endian ba) (sizeof t) v).
  assert (length bs = sizeof t) as Hl by apply length_endian_bytes.
  rewrite <-Hl in Hroom.
  destruct (write_ok ba bs Hwf Hroom) as (ba' & Hw & Hwf' & Habs & _ & He & Hcap).
  destruct (rewind ba ba' bs Hwf Hwf' Habs He Hcap) as (b2 & Hb2 & Hwf2 & He2 & Hp2 & Hl2 & Hpk).
  assert (Tape.peek (length bs) (abs b2) = bs) as Hpk' by (rewrite Hpk by done; apply firstn_all).
  eexists ba', b2, _. split; [by rewrite writeF_bytes|]. split; [done|]. split; [done|].
  split; [by rewrite <-Hl|]. split.
  - apply (parses_readF (m_endian ba) t v); try done. by apply wf_endian.
  - cbn. rewrite Hp2. rewrite length_endian_bytes.
    apply (f_equal Tape.pos) in Habs. cbn in Habs. by rewrite Habs, Hl.
Qed.

Lemma fixed_width_roundtrip_witness :
  let ba := ByteArray_new 16 in
  wf ba ∧ room ba 4 ∧
  ∃ ba' b2 b3,
    writeF (H := little_host) int32_t (-2) ba = Ok tt ba' ∧ wf ba' ∧
    setPosition 0 ba' = Ok tt b2 ∧
    Tape.peek 4 (abs b2) = [xff; xff; xff; xfe] ∧
    readF (H := big_host) int32_t b2 = Ok (-2)%Z b3 ∧ m_position b3 = m_position ba'.
Proof.
  intros ba. assert (wf ba) as Hwf by (apply ByteArray_new_wf; lia).
  assert (room ba 4) as Hr by (left; vm_compute; lia).
  do 2 (split; [done|]).
  apply (fixed_width_roundtrip little_host big_host int32_t (-2) ba); try done.
  rewrite !elem_of_cons. tauto.
Defined.

(** Zigzag maps every 32-bit and 64-bit integer to an unsigned integer of
    the same width and back, and an integer of magnitude [m] to at most [2m]. *)
Theorem zigzag_roundtrip (v : Z) :
  (in_s 32 v → in_u 32 (EncodeZigzag32 v) ∧ DecodeZigzag32 (EncodeZigzag32 v) = v ∧
     EncodeZigzag32 v ≤ 2 * Z.abs v)%Z ∧
  (in_s 64 v → in_u 64 (EncodeZigzag64 v) ∧ DecodeZigzag64 (EncodeZigzag64 v) = v ∧
     EncodeZigzag64 v ≤ 2 * Z.abs v)%Z.
Proof. split; intros Hv; [apply (zigzag_generic 32)|apply (zigzag_generic 64)]; done || lia. Qed.

Lemma zigzag_roundtrip_witness :
  in_s 32 (-3) ∧ DecodeZigzag32 (EncodeZigzag32 (-3)) = (-3)%Z ∧ EncodeZigzag32 (-3) = 5%Z.
Proof.
  assert (in_s 32 (-3)) as Hv by (split; by vm_compute).
  destruct (proj1 (zigzag_roundtrip (-3)) Hv) as (_ & Hd & _).
  split; [done|]. split; [exact Hd|reflexivity].
Defined.

(** A variable-length integer takes between one byte and five (32 bits) or
    ten (64 bits), which is what the [tmp] arrays hold, and reads back as itself
    when the array has room for those bytes. *)
Theorem varint_roundtrip `{Host} `{Heap} (v : Z) (ba : ByteArray) :
  wf ba →
  (in_u 32 v → ∃ bs, varint_encode 5 v = Some bs ∧ 1 ≤ length bs ≤ 5 ∧
     (room ba (length bs) → ∃ ba' b2 b3,
        writeUint32 v ba = Ok tt ba' ∧ wf ba' ∧ setPosition (m_position ba) ba' = Ok tt b2 ∧
        readUint32 b2 = Ok v b3 ∧ m_position b3 = m_position ba')) ∧
  (in_u 64 v → ∃ bs, varint_encode 10 v = Some bs ∧ 1 ≤ length bs ≤ 10 ∧
     (room ba (length bs) → ∃ ba' b2 b3,
        writeUint64 v ba = Ok tt ba' ∧ wf ba' ∧ setPosition (m_position ba) ba' = Ok tt b2 ∧
        readUint64 b2 = Ok v b3 ∧ m_position b3 = m_position ba')).
Proof.
  intros Hwf. unfold writeUint32, readUint32, writeUint64, readUint64. split; intros Hv.
  - exact (varint_generic ba v 32 5 Hwf ltac:(lia) ltac:(lia) Hv).
  - exact (varint_generic ba v 64 10 Hwf ltac:(lia) ltac:(lia) Hv).
Qed.

Lemma varint_roundtrip_witness :
  let ba := ByteArray_new 16 in
  wf ba ∧ ∃ ba' b2 b3,
    writeUint32 300 ba = Ok tt ba' ∧ wf ba' ∧ setPosition 0 ba' = Ok tt b2 ∧
    readUint32 (H := big_host) b2 = Ok 300%Z b3 ∧ m_position b3 = m_position ba'.
Proof.
  intros ba. assert (wf ba) as Hwf by (apply ByteArray_new_wf; lia).
  split; [done|].
  destruct (proj1 (varint_roundtrip (H := big_host) 300 ba Hwf)) as (bs & Hb & _ & Hrt);
    [split; by vm_compute|].
  vm_compute in Hb. injection Hb as <-. apply Hrt. left. vm_compute. lia.
Defined.

(** A string with a 16-bit length prefix is written as the length modulo
    65536 and all its bytes; reading back gives the first (length mod 65536)
    bytes, hence the string itself exactly when it is shorter than 65536. *)
Theorem stringF16_roundtrip `{Host} `{Heap} (value : list byte) (ba : ByteArray) :
  wf ba → 2 + length value ≤ getCapacity ba →
  let k := length value mod Z.to_nat (2 ^ 16) in
  ∃ ba' b2, writeStringF16 value ba = Ok tt ba' ∧ wf ba' ∧
    setPosition (m_position ba) ba' = Ok tt b2 ∧
    (0 < k → ∃ b3, readStringF16 b2 = Ok (take k value) b3 ∧
                   m_position b3 = m_position ba + 2 + k ∧
                   (take k value = value ↔ length value < Z.to_nat (2 ^ 16))).
Proof.
  intros Hwf Hcap k. set (pre := endian_bytes (m_endian ba) 2 (wrapu 16 (Z.of_nat (length value)))).
  assert (length pre = 2) as Hpre by apply length_endian_bytes.
  destruct (string_generic ba pre value Hwf) as (ba' & b2 & Hw & Hwf' & Hb2 & Hr);
    [intros E; by rewrite E in Hpre|lia|].
  assert (Z.of_nat k = wrapu 16 (Z.of_nat (length value))) as Hk.
  { unfold k, wrapu. rewrite Nat2Z.inj_mod, Z2Nat.id by lia. done. }
  exists ba', b2. split; [|split; [done|split; [done|]]].
  - rewrite <-Hw. unfold writeStringF16, writeFuint16.
    unfold mbind, M_bind. by rewrite (writeF_bytes uint16_t) by (simpl; done || lia).
  - intros Hpos. destruct (Hr readFuint16 (Z.of_nat k)) as (b3 & Hrd & Hp3).
    + rewrite Hk. apply (parses_readF _ uint16_t); [by apply wf_endian|simpl; lia|].
      apply wrapu_range. lia.
    + split; [lia|]. unfold k. pose proof (Nat.Div0.mod_le (length value) (Z.to_nat (2 ^ 16))). lia.
    + exists b3. rewrite Nat2Z.id in Hrd, Hp3. split; [exact Hrd|]. split; [lia|].
      assert (length (take k value) = k) as Hlk.
      { rewrite length_take. unfold k. pose proof (Nat.Div0.mod_le (length value) (Z.to_nat (2 ^ 16))). lia. }
      pose proof (Nat.mod_upper_bound (length value) (Z.to_nat (2 ^ 16)) ltac:(lia)). split.
      * intros E. rewrite <-E, Hlk. unfold k. lia.
      * intros Hlt. unfold k. rewrite Nat.mod_small by done. apply firstn_all.
Qed.

Lemma stringF16_roundtrip_witness :
  let ba := ByteArray_new 8 in
  wf ba ∧ ∃ ba' b2, writeStringF16 (H := little_host) [x61; x62; x63] ba = Ok tt ba' ∧
    setPosition 0 ba' = Ok tt b2 ∧
    ∃ b3, readStringF16 (H := little_host) b2 = Ok [x61; x62; x63] b3.
Proof.
  intros ba. assert (wf ba) as Hwf by (apply ByteArray_new_wf; lia). split; [done|].
  destruct (stringF16_roundtrip (H := little_host) [x61; x62; x63] ba Hwf) as (ba' & b2 & Hw & _ & Hb & Hr).
  { vm_compute. lia. }
  exists ba', b2. split; [done|]. split; [done|].
  assert (length [x61; x62; x63] mod Z.to_nat (2 ^ 16) = 3) as E by (rewrite Nat.mod_small; simpl; lia).
  rewrite E in Hr. destruct (Hr ltac:(lia)) as (b3 & Hr3 & _). exists b3. exact Hr3.
Defined.

(** Strings with a 32-bit, 64-bit or variable-length prefix read back as
    themselves, when non-empty and shorter than 2^32. *)
Theorem string_roundtrip `{Host} `{Heap} (value : list byte) (ba : ByteArray) :
  wf ba → value ≠ [] → 10 + length value ≤ getCapacity ba →
  (Z.of_nat (length value) < 2 ^ 32)%Z →
  let back (w : list byte → M ByteArray unit) (r : M ByteArray (list byte)) :=
    ∃ ba' b2 b3, w value ba = Ok tt ba' ∧ wf ba' ∧ setPosition (m_position ba) ba' = Ok tt b2 ∧
                 r b2 = Ok value b3 in
  back writeStringF32 readStringF32 ∧ back writeStringF64 readStringF64 ∧
  back writeStringVint readStringVint.
Proof.
  intros Hwf Hne Hcap Hlen back.
  assert (0 < length value) as Hpos by (destruct value; simpl; [done|lia]).
  assert (∀ n w r (lenw : M ByteArray unit) d pre, 0 < length pre ≤ 10 →
    (2 ^ 32 ≤ 2 ^ n)%Z → (0 ≤ n)%Z →
    (∀ ba1, wf ba1 → m_endian ba1 = m_endian ba → lenw ba1 = write pre ba1) →
    w value = (lenw;; write value) → r = (l ← d; read (Z.to_nat l)) →
    parses (m_endian ba) d pre (wrapu n (Z.of_nat (length value))) → back w r) as Hgen.
  { intros n w r lenw d pre Hl Hn Hn0 Hlw Hweq -> Hd.
    destruct (string_generic ba pre value Hwf) as (ba' & b2 & Hw & Hwf' & Hb2 & Hr);
      [intros ->; simpl in Hl; lia|lia|].
    rewrite wrapu_small in Hd by (split; lia).
    destruct (Hr d _ Hd ltac:(lia)) as (b3 & Hr3 & _). rewrite Nat2Z.id, firstn_all in Hr3.
    exists ba', b2, b3. split; [|done]. rewrite Hweq, <-Hw. unfold mbind, M_bind. by rewrite Hlw. }
  split; [|split].
  - apply (Hgen 32%Z _ _ (writeFuint32 (wrapu 32 (Z.of_nat (length value)))) readFuint32 
             (endian_bytes (m_endian ba) 4 (wrapu 32 (Z.of_nat (length value)))));
      rewrite ?length_endian_bytes; try done; try lia.
    + intros b1 Hb1 He1. unfold writeFuint32. rewrite writeF_bytes by (simpl; done || lia). by rewrite He1.
    + apply (parses_readF _ uint32_t); [by apply wf_endian|simpl; lia|]. by apply wrapu_range.
  - apply (Hgen 64%Z _ _ (writeFuint64 (wrapu 64 (Z.of_nat (length value)))) readFuint64
             (endian_bytes (m_endian ba) 8 (wrapu 64 (Z.of_nat (length value)))));
      rewrite ?length_endian_bytes; try done; try lia.
    + intros b1 Hb1 He1. unfold writeFuint64. rewrite writeF_bytes by (simpl; done || lia). by rewrite He1.
    + apply (parses_readF _ uint64_t); [by apply wf_endian|simpl; lia|]. by apply wrapu_range.
  - pose proof (wrapu_range 64 (Z.of_nat (length value)) ltac:(lia)) as Hu.
    destruct (varint_encode_total 10 (wrapu 64 (Z.of_nat (length value)))) as (pre & Henc & Hl);
      [lia| |].
    { unfold in_u in Hu. change (7 * Z.of_nat 10)%Z with 70%Z. lia. }
    apply (Hgen 64%Z _ _ (writeUint64 (wrapu 64 (Z.of_nat (length value)))) readUint64 pre);
      try done; try lia.
    + intros b1 _ _. unfold writeUint64, write_varint. by rewrite Henc.
    + pose proof (parses_varint (m_endian ba) 64 10 10 0 0 _ pre Henc ltac:(lia) ltac:(lia)) as Hpp.
      rewrite Z.sub_0_r, Z.pow_0_r, Z.mul_1_r in Hpp. apply Hpp; [done|lia].
Qed.

Lemma string_roundtrip_witness :
  let ba := ByteArray_new 16 in
  wf ba ∧ ∃ ba' b2 b3, writeStringVint [x68; x69] ba = Ok tt ba' ∧ wf ba' ∧
    setPosition 0 ba' = Ok tt b2 ∧ readStringVint (H := little_host) b2 = Ok [x68; x69] b3.
Proof.
  intros ba. assert (wf ba) as Hwf by (apply ByteArray_new_wf; lia). split; [done|].
  refine (proj2 (proj2 (string_roundtrip (H := little_host) [x68; x69] ba Hwf _ _ _))).
  - done.
  - vm_compute. lia.
  - by vm_compute.
Defined.

(** ** The end of an array, and its text *)

(** The destructor deletes every node once. *)
Lemma delete_loop_all fuel i (nodes : list (list byte)) :
  i + fuel = length nodes →
  delete_loop fuel (if decide (i < length nodes) then Some i else None) nodes = Some (seq i fuel).
Proof.
  revert i. induction fuel as [|fuel IH]; intros i Hl; [by rewrite decide_False by lia|].
  rewrite decide_True by lia. cbn [delete_loop seq]. unfold next_of. by rewrite (IH (S i) ltac:(lia)).
Qed.
Lemma ByteArray_destroy_all (ba : ByteArray) : ByteArray_destroy ba = Some (seq 0 (length (m_nodes ba))).
Proof.
  unfold ByteArray_destroy. rewrite <-(delete_loop_all _ 0 (m_nodes ba)) by done. f_equal.
  destruct (m_nodes ba); [done|]. by rewrite decide_False, decide_True by (done || (cbn; lia)).
Qed.
(** Every byte is printed as two digits that give it back. *)
Definition digit_value (d : byte) : Z := let n := byte.unsigned d in (if n <? 58 then n - 48 else n - 87)%Z.
Lemma hex_byte_value c : map digit_value (hex_byte c) = [(byte.unsigned c / 16)%Z; (byte.unsigned c mod 16)%Z].
Proof. destruct c; reflexivity. Qed.
