(* ===== verification/Timer.v ===== *)
(** Timers ([sylar/timer.h], [sylar/timer.cc]).

    [Timer] objects are shared ([shared_ptr]), so they live in a heap indexed by
    their address; [m_timers] is the [std::set] ordered by [Comparator], kept as
    the list of its elements in order.  Every operation runs under the manager's
    lock and is one atomic step, except [listExpiredCb], which releases the read
    lock before taking the write lock and is two steps.  The clock
    ([GetCurrentMS]) is an argument. *)
From S2P Require Import Prelude.
From stdpp Require Import gmap fin_maps.

Local Open Scope Z_scope.

(** A [std::function<void()>]: a target, or [OnTimer] bound to a weak pointer. *)
Inductive callback :=
  | Target (k : nat)
  | OnTimer (weak_cond : nat) (cb : callback).
#[export] Instance callback_eq_dec : EqDecision callback.
Proof. solve_decision. Defined.

(** Calling it: the targets that run, given which objects are still alive. *)
Fixpoint run_callback (alive : nat → bool) (c : callback) : list nat :=
  match c with
  | Target k => [k]
  | OnTimer w cb => if alive w then run_callback alive cb else []
  end.

Record Timer := mkTimer {
  m_recurring : bool;
  m_ms : Z;
  m_next : Z;
  m_cb : option callback;   (** [None] for an empty function *)
}.

Record TimerManager := mkTimerManager {
  heap : gmap nat Timer;        (** the timer objects, by address *)
  m_timers : list nat;          (** the ordered set *)
  m_tickled : bool;
  m_previouseTime : Z;
  notified : nat;               (** calls of [onTimerInsertedAtFront] so far *)
}.

Definition set_heap (h : gmap nat Timer) (tm : TimerManager) : TimerManager :=
  mkTimerManager h (m_timers tm) (m_tickled tm) (m_previouseTime tm) (notified tm).
Definition set_timers (l : list nat) (tm : TimerManager) : TimerManager :=
  mkTimerManager (heap tm) l (m_tickled tm) (m_previouseTime tm) (notified tm).
Definition set_tickled (b : bool) (tm : TimerManager) : TimerManager :=
  mkTimerManager (heap tm) (m_timers tm) b (m_previouseTime tm) (notified tm).
Definition set_previouse (t : Z) (tm : TimerManager) : TimerManager :=
  mkTimerManager (heap tm) (m_timers tm) (m_tickled tm) t (notified tm).

Definition with_cb (c : option callback) (t : Timer) : Timer :=
  mkTimer (m_recurring t) (m_ms t) (m_next t) c.
Definition with_next (n : Z) (t : Timer) : Timer :=
  mkTimer (m_recurring t) (m_ms t) n (m_cb t).
Definition with_ms (n : Z) (t : Timer) : Timer :=
  mkTimer (m_recurring t) n (m_next t) (m_cb t).

Definition next_at (h : gmap nat Timer) (a : nat) : Z :=
  match h !! a with Some t => m_next t | None => 0 end.

(** [Timer::Comparator]: null pointers first, then [m_next], then the address. *)
Definition Comparator (h : gmap nat Timer) (lhs rhs : option nat) : bool :=
  match lhs, rhs with
  | None, None => false
  | None, _ => true
  | _, None => false
  | Some a, Some b =>
      if next_at h a <? next_at h b then true
      else if next_at h b <? next_at h a then false
      else bool_decide (a < b)%nat
  end.

(** [std::set] with [Comparator]: insertion keeps an equivalent element. *)
Fixpoint set_insert (h : gmap nat Timer) (a : nat) (l : list nat) : list nat :=
  match l with
  | [] => [a]
  | b :: l' =>
      if Comparator h (Some a) (Some b) then a :: l
      else if Comparator h (Some b) (Some a) then b :: set_insert h a l'
      else l
  end.
(** [find]: an element equivalent to the key. *)
Fixpoint set_find (h : gmap nat Timer) (a : nat) (l : list nat) : option nat :=
  match l with
  | [] => None
  | b :: l' =>
      if Comparator h (Some a) (Some b) || Comparator h (Some b) (Some a)
      then set_find h a l' else Some b
  end.
(** [erase(it)]: erasing [end()] is undefined. *)
Definition set_erase (it : option nat) : M TimerManager unit := λ tm : TimerManager,
  match it with
  | Some b => Ok tt (set_timers (filter (λ c, c ≠ b) (m_timers tm)) tm)
  | None => Undef EraseEnd
  end.

(** Access to the timer object [this]. *)
Definition timer_at (a : nat) : M TimerManager Timer := λ tm : TimerManager, deref (heap tm !! a) tm.
Definition update_timer (a : nat) (f : Timer → Timer) : M TimerManager unit :=
  modify (λ tm, set_heap (alter f a (heap tm)) tm).

(** [TimerManager::TimerManager] *)
Definition TimerManager_new (now : Z) : TimerManager := mkTimerManager ∅ [] false now 0.

(** The virtual call; the manager that inherits decides what it does. *)
Definition onTimerInsertedAtFront (tm : TimerManager) : TimerManager :=
  mkTimerManager (heap tm) (m_timers tm) (m_tickled tm) (m_previouseTime tm) (S (notified tm)).

(** [TimerManager::addTimer(Timer::ptr val, WriteLock& lock)] *)
Definition addTimer_set (a : nat) : M TimerManager unit :=
  modify (λ tm, set_timers (set_insert (heap tm) a (m_timers tm)) tm);;
  at_front ← gets (λ tm, bool_decide (head (m_timers tm) = Some a) && negb (m_tickled tm));
  if at_front : bool then
    modify (set_tickled true);;
    modify onTimerInsertedAtFront
  else mret tt.

(** [Timer::Timer(ms, cb, recurring, manager)] followed by
    [TimerManager::addTimer]; [a] is the address [new] returns. *)
Definition addTimer (now : Z) (a : nat) (ms : Z) (cb : callback) (recurring : bool) :
    M TimerManager nat :=
  modify (λ tm, set_heap (<[a := mkTimer recurring ms (wrapu 64 (now + ms)) (Some cb)]> (heap tm)) tm);;
  addTimer_set a;;
  mret a.

(** [TimerManager::addConditionTimer] *)
Definition addConditionTimer (now : Z) (a : nat) (ms : Z) (cb : callback) (weak_cond : nat)
    (recurring : bool) : M TimerManager nat :=
  addTimer now a ms (OnTimer weak_cond cb) recurring.

(** [Timer::cancel] *)
Definition cancel (this : nat) : M TimerManager bool :=
  t ← timer_at this;
  match m_cb t with
  | Some _ =>
      update_timer this (with_cb None);;
      it ← gets (λ tm, set_find (heap tm) this (m_timers tm));
      set_erase it;;
      mret true
  | None => mret false
  end.

(** [Timer::refresh] *)
Definition refresh (now : Z) (this : nat) : M TimerManager bool :=
  t ← timer_at this;
  match m_cb t with
  | Some _ =>
      update_timer this (with_cb None);;
      it ← gets (λ tm, set_find (heap tm) this (m_timers tm));
      match it with
      | None => mret false
      | Some _ =>
          set_erase it;;
          update_timer this (λ t, with_next (wrapu 64 (now + m_ms t)) t);;
          modify (λ tm, set_timers (set_insert (heap tm) this (m_timers tm)) tm);;
          mret true
      end
  | None => mret false
  end.

(** [Timer::reset] *)
Definition reset (now : Z) (this : nat) (ms : Z) (from_now : bool) : M TimerManager bool :=
  t ← timer_at this;
  match m_cb t with
  | Some _ =>
      if (ms =? m_ms t) && negb from_now then mret true else
      update_timer this (with_cb None);;
      it ← gets (λ tm, set_find (heap tm) this (m_timers tm));
      match it with
      | None => mret false
      | Some _ =>
          set_erase it;;
          let start := if from_now then now else wrapu 64 (m_next t - m_ms t) in
          update_timer this (with_ms ms);;
          update_timer this (with_next (wrapu 64 (start + ms)));;
          addTimer_set this;;
          mret true
      end
  | None => mret false
  end.

(** [TimerManager::getNextTimer] *)
Definition getNextTimer (now : Z) : M TimerManager Z :=
  modify (set_tickled false);;
  l ← gets m_timers;
  h ← gets heap;
  match l with
  | [] => mret (2 ^ 64 - 1)            (* ~0ull *)
  | a :: _ => mret (if next_at h a <=? now then 0 else wrapu 64 (next_at h a - now))
  end.

(** [TimerManager::hasTimer] *)
Definition hasTimer (tm : TimerManager) : bool := negb (bool_decide (m_timers tm = [])).

(** [TimerManager::detectClockRollover] *)
Definition detectClockRollover (now_ms : Z) : M TimerManager bool :=
  prev ← gets m_previouseTime;
  let rollover := (now_ms <? prev) && (now_ms <? wrapu 64 (prev - 60 * 60 * 1000)) in
  modify (set_previouse now_ms);;
  mret rollover.

(** The loop over [expired]: callbacks are collected, recurring timers go back
    into the set, the others drop their callback. *)
Fixpoint fire (now_ms : Z) (expired : list nat) : M TimerManager (list (option callback)) :=
  match expired with
  | [] => mret []
  | a :: rest =>
      t ← timer_at a;
      (if m_recurring t then
         update_timer a (with_next (wrapu 64 (now_ms + m_ms t)));;
         modify (λ tm, set_timers (set_insert (heap tm) a (m_timers tm)) tm)
       else update_timer a (with_cb None));;
      cbs ← fire now_ms rest;
      mret (m_cb t :: cbs)
  end.

(** [listExpiredCb] under the read lock: is there anything to do? *)
Definition listExpiredCb_check (tm : TimerManager) : bool := negb (bool_decide (m_timers tm = [])).

(** Advancing an iterator while a test holds. *)
Fixpoint advance (f : nat → bool) (l : list nat) : nat :=
  match l with
  | a :: l' => if f a then S (advance f l') else 0
  | [] => 0
  end.

(** [listExpiredCb] under the write lock.  The key [now_timer] of [lower_bound]
    is a temporary timer of address [tmp]. *)
Definition listExpiredCb_locked (now_ms : Z) (tmp : nat) : M TimerManager (list (option callback)) :=
  rollover ← detectClockRollover now_ms;
  l ← gets m_timers;
  h ← gets heap;
  match l with
  | [] => if rollover : bool then mret [] else undef NullDeref       (* *m_timers.begin() *)
  | first :: _ =>
      if negb rollover && (now_ms <? next_at h first) then mret [] else
      let before a := (next_at h a <? now_ms) || ((next_at h a =? now_ms) && bool_decide (a < tmp)%nat) in
      let n0 := if rollover then length l else advance before l in
      let n := Nat.add n0 (advance (λ a, next_at h a =? now_ms) (drop n0 l)) in
      let expired := take n l in
      modify (set_timers (drop n l));;
      fire now_ms expired
  end.

(** [TimerManager::listExpiredCb], when no other thread runs in between. *)
Definition listExpiredCb (now_ms : Z) (tmp : nat) : M TimerManager (list (option callback)) :=
  some ← gets listExpiredCb_check;
  if some : bool then listExpiredCb_locked now_ms tmp else mret [].
