(* ===== verification/TimerSpec.v ===== *)
(** Correctness of the timers: the ordered set stays ordered and complete, no
    operation erases [end()], and expiry hands out exactly the callbacks that
    are due. *)
From S2P Require Import Prelude Timer.
From stdpp Require Import gmap fin_maps.

Local Open Scope Z_scope.

(** ** The order of the set *)

(** The order [Comparator] decides, for a given assignment of expiry times. *)
Definition before (nx : nat → Z) (a b : nat) : Prop :=
  nx a < nx b ∨ (nx a = nx b ∧ (a < b)%nat).

#[export] Instance before_trans nx : Transitive (before nx).
Proof. unfold before. intros x y z ??. lia. Qed.

Lemma Comparator_before h a b : Comparator h (Some a) (Some b) = true ↔ before (next_at h) a b.
Proof.
  unfold before. simpl. destruct (Z.ltb_spec (next_at h a) (next_at h b)); [naive_solver lia|].
  destruct (Z.ltb_spec (next_at h b) (next_at h a)); [naive_solver lia|].
  rewrite bool_decide_eq_true. naive_solver lia.
Qed.

Lemma Comparator_false h a b :
  Comparator h (Some a) (Some b) = false ↔ a = b ∨ before (next_at h) b a.
Proof.
  rewrite <-not_true_iff_false, Comparator_before. unfold before.
  destruct (decide (a = b)) as [->|]; [split; intros; lia|].
  split; intros; [|lia]. lia.
Qed.

Abbreviation sorted_by nx := (StronglySorted (before nx)).

Lemma sorted_ext nx nx' l :
  (∀ a, a ∈ l → nx a = nx' a) → sorted_by nx l → sorted_by nx' l.
Proof.
  induction l as [|a l IH]; intros Hx Hs; constructor; inversion Hs; subst.
  - apply IH; [set_solver|done].
  - apply Forall_forall. intros b Hb. pose proof (proj1 (Forall_forall _ _) H2 b Hb) as Hab.
    unfold before in *. rewrite <-!Hx by set_solver. done.
Qed.

Lemma sorted_nodup nx l : sorted_by nx l → NoDup l.
Proof.
  induction 1 as [|a l ? IH Ha]; constructor; [|done].
  intros Hin. pose proof (proj1 (Forall_forall _ _) Ha a Hin) as Hb. unfold before in Hb. lia.
Qed.

Lemma sorted_drop nx n l : sorted_by nx l → sorted_by nx (drop n l).
Proof.
  intros Hs. rewrite <-(take_drop n l) in Hs.
  induction (take n l); [done|]. simpl in Hs. inversion Hs. auto.
Qed.

(** ** Insertion, search and removal *)

Lemma set_insert_elem h a l b : b ∈ set_insert h a l → b = a ∨ b ∈ l.
Proof.
  induction l as [|c l IH]; simpl; [set_solver|].
  repeat case_match; set_solver.
Qed.

Lemma set_insert_perm h a l : a ∉ l → set_insert h a l ≡ₚ a :: l.
Proof.
  induction l as [|c l IH]; cbn -[Comparator]; intros Ha; [done|].
  destruct (Comparator h (Some a) (Some c)) eqn:E1; [done|].
  destruct (Comparator h (Some c) (Some a)) eqn:E2.
  - rewrite IH by set_solver. apply Permutation_swap.
  - apply Comparator_false in E1, E2. exfalso. unfold before in *. set_solver by lia.
Qed.

Lemma set_insert_sorted h a l :
  sorted_by (next_at h) l → sorted_by (next_at h) (set_insert h a l).
Proof.
  induction 1 as [|c l Hs IH Hc]; cbn -[Comparator]; [repeat constructor|].
  destruct (Comparator h (Some a) (Some c)) eqn:E1.
  { apply Comparator_before in E1. constructor; [by constructor|]. constructor; [done|].
    eapply Forall_impl; [exact Hc|]. intros x Hx. by transitivity c. }
  destruct (Comparator h (Some c) (Some a)) eqn:E2; [|by constructor].
  apply Comparator_before in E2. constructor; [done|]. apply Forall_forall.
  intros b [->|Hb]%set_insert_elem; [done|]. by apply (proj1 (Forall_forall _ _) Hc).
Qed.

Lemma set_find_spec h a l : set_find h a l = if decide (a ∈ l) then Some a else None.
Proof.
  induction l as [|c l IH]; [done|]. cbn -[Comparator].
  destruct (decide (a = c)) as [<-|Hne].
  - rewrite (proj2 (Comparator_false h a a)) by auto. by rewrite decide_True by set_solver.
  - replace (_ || _) with true.
    + rewrite IH. destruct (decide (a ∈ l)), (decide (a ∈ c :: l)); set_solver.
    + symmetry. rewrite orb_true_iff, !Comparator_before. unfold before. lia.
Qed.

Lemma filter_sorted nx (P : nat → Prop) `{∀ a, Decision (P a)} l :
  sorted_by nx l → sorted_by nx (filter P l).
Proof.
  induction 1 as [|c l Hs IH Hc]; [constructor|]. rewrite filter_cons.
  case_decide; [|done]. constructor; [done|].
  apply Forall_forall. intros b [_ Hb]%list_elem_of_filter. by apply (proj1 (Forall_forall _ _) Hc).
Qed.

(** ** The invariant

    The set is in order, its members exist, and every timer that still has a
    callback is in it.  The last part is what keeps [cancel] from erasing
    [end()]: it erases the result of [find] without testing it. *)
Record tm_ok (tm : TimerManager) : Prop := {
  ok_sorted : sorted_by (next_at (heap tm)) (m_timers tm);
  ok_alloc : ∀ a, a ∈ m_timers tm → is_Some (heap tm !! a);
  ok_armed : ∀ a t, heap tm !! a = Some t → m_cb t ≠ None → a ∈ m_timers tm;
}.

Lemma next_at_alter_ne h f a b : a ≠ b → next_at (alter f a h) b = next_at h b.
Proof. intros. unfold next_at. by rewrite lookup_alter_ne. Qed.
Lemma next_at_alter h f a b : (∀ t, m_next (f t) = m_next t) → next_at (alter f a h) b = next_at h b.
Proof.
  intros Hf. destruct (decide (a = b)) as [<-|]; [|by apply next_at_alter_ne].
  unfold next_at. rewrite lookup_alter_eq. destruct (h !! a); simpl; auto.
Qed.
Lemma next_at_insert_ne h a b t : a ≠ b → next_at (<[a:=t]> h) b = next_at h b.
Proof. intros. unfold next_at. by rewrite lookup_insert_ne. Qed.

(** A callback is dropped: nothing moves. *)
Lemma ok_drop_cb tm a : tm_ok tm → tm_ok (set_heap (alter (with_cb None) a (heap tm)) tm).
Proof.
  intros [H1 H2 H3]. split; simpl.
  - eapply sorted_ext; [|exact H1]. intros. by rewrite next_at_alter.
  - intros b Hb. rewrite lookup_alter_is_Some. auto.
  - intros b t Hb Ht. destruct (decide (a = b)) as [<-|].
    + rewrite lookup_alter_eq in Hb. apply fmap_Some in Hb as (?&_&->). done.
    + rewrite lookup_alter_ne in Hb by done. eauto.
Qed.

(** A timer without a callback leaves the set. *)
Lemma ok_erase tm a t :
  tm_ok tm → heap tm !! a = Some t → m_cb t = None →
  tm_ok (set_timers (filter (λ c, c ≠ a) (m_timers tm)) tm).
Proof.
  intros [H1 H2 H3] Ha Ht. split; simpl.
  - by apply filter_sorted.
  - intros b [_ Hb]%list_elem_of_filter. auto.
  - intros b t' Hb Ht'. apply list_elem_of_filter. split; [|by eauto]. intros ->. congruence.
Qed.

(** A timer outside the set is changed and put into it. *)
Lemma ok_insert tm a h' :
  tm_ok tm → a ∉ m_timers tm →
  (∀ b, b ≠ a → h' !! b = heap tm !! b) → is_Some (h' !! a) →
  tm_ok (set_timers (set_insert h' a (m_timers tm)) (set_heap h' tm)).
Proof.
  intros [H1 H2 H3] Ha Hh Hs.
  assert (Hx : ∀ b, b ≠ a → next_at h' b = next_at (heap tm) b).
  { intros b Hb. unfold next_at. by rewrite Hh. }
  split; simpl.
  - apply set_insert_sorted. eapply sorted_ext; [|exact H1].
    intros b Hb. rewrite Hx; [done|]. intros ->. done.
  - intros b [->|Hb]%set_insert_elem; [done|]. rewrite Hh; [auto|]. intros ->. done.
  - intros b t Hb Ht. rewrite (set_insert_perm h' a) by done.
    destruct (decide (b = a)) as [->|]; [set_solver|].
    rewrite Hh in Hb by done. set_unfold. eauto.
Qed.

(** The fields the invariant does not mention. *)
Lemma ok_cong tm tm' : heap tm' = heap tm → m_timers tm' = m_timers tm → tm_ok tm → tm_ok tm'.
Proof. intros E1 E2 [H1 H2 H3]. split; rewrite ?E1, ?E2; auto. Qed.

Lemma addTimer_set_spec a tm :
  ∃ tm', addTimer_set a tm = Ok tt tm' ∧ heap tm' = heap tm
    ∧ m_timers tm' = set_insert (heap tm) a (m_timers tm)
    ∧ m_previouseTime tm' = m_previouseTime tm.
Proof.
  unfold addTimer_set. rewrite bind_modify, bind_gets.
  case_match; [rewrite bind_modify; mred|]; eexists; (split; [reflexivity|]); done.
Qed.

Lemma addTimer_spec now a ms cb r tm :
  tm_ok tm → heap tm !! a = None →
  ∃ tm', addTimer now a ms cb r tm = Ok a tm' ∧ tm_ok tm'
    ∧ heap tm' = <[a := mkTimer r ms (wrapu 64 (now + ms)) (Some cb)]> (heap tm)
    ∧ m_timers tm' ≡ₚ a :: m_timers tm.
Proof.
  intros Hok Ha. unfold addTimer. rewrite bind_modify.
  set (t := mkTimer r ms _ _). set (tm1 := set_heap _ tm).
  assert (a ∉ m_timers tm) as Hn. { intros Hin. destruct (ok_alloc _ Hok a Hin). congruence. }
  destruct (addTimer_set_spec a tm1) as (tm'&E&Eh&Et&_). step_with E. eexists. split; [reflexivity|].
  assert (Hok' : tm_ok (set_timers (set_insert (heap tm1) a (m_timers tm)) (set_heap (heap tm1) tm))).
  { apply ok_insert; [done|done| |]; unfold tm1; simpl.
    - intros. by rewrite lookup_insert_ne.
    - rewrite lookup_insert_eq. eauto. }
  split; [|split].
  - eapply ok_cong; [| |exact Hok']; done.
  - done.
  - rewrite Et. by apply set_insert_perm.
Qed.

(** ** cancel, refresh and reset *)

(** The common first part: the callback is dropped and the timer found. *)
Lemma armed_find tm a t c :
  tm_ok tm → heap tm !! a = Some t → m_cb t = Some c →
  set_find (alter (with_cb None) a (heap tm)) a (m_timers tm) = Some a.
Proof.
  intros Hok Ha Hc. rewrite set_find_spec. rewrite decide_True; [done|].
  apply (ok_armed _ Hok a t Ha). by rewrite Hc.
Qed.

Definition disarmed (a : nat) (tm : TimerManager) : TimerManager :=
  set_timers (filter (λ c, c ≠ a) (m_timers tm)) (set_heap (alter (with_cb None) a (heap tm)) tm).

Lemma disarmed_ok a t tm : tm_ok tm → heap tm !! a = Some t → tm_ok (disarmed a tm).
Proof.
  intros Hok Ha. pose proof (ok_drop_cb tm a Hok) as Hok1.
  eapply (ok_erase _ a (with_cb None t)) in Hok1; [exact Hok1| |done].
  simpl. by rewrite lookup_alter_eq, Ha.
Qed.

Lemma disarmed_notin a tm : a ∉ m_timers (disarmed a tm).
Proof. simpl. rewrite list_elem_of_filter. naive_solver. Qed.

Lemma cancel_spec (a : nat) t tm :
  tm_ok tm → heap tm !! a = Some t →
  Timer.cancel a tm = match m_cb t with Some _ => Ok true (disarmed a tm) | None => Ok false tm end.
Proof.
  intros Hok Ha. unfold Timer.cancel, timer_at.
  rewrite (bind_ok _ _ tm t tm) by (by mred; rewrite Ha). destruct (m_cb t) as [c|] eqn:Hc; [|done].
  unfold update_timer. rewrite bind_modify, bind_gets. simpl.
  by rewrite (armed_find _ _ _ _ Hok Ha Hc).
Qed.

(** A timer outside the set is given new times and put back. *)
Definition requeued (a : nat) (f : Timer → Timer) (tm : TimerManager) : TimerManager :=
  let h := alter f a (heap tm) in
  set_timers (set_insert h a (m_timers tm)) (set_heap h tm).

Lemma requeued_ok a f t tm :
  tm_ok tm → heap tm !! a = Some t → a ∉ m_timers tm → tm_ok (requeued a f tm).
Proof.
  intros Hok Ha Hn. apply ok_insert; [done|done| |].
  - intros. by rewrite lookup_alter_ne.
  - rewrite lookup_alter_eq, Ha. eauto.
Qed.

Lemma refresh_spec now (a : nat) t tm :
  tm_ok tm → heap tm !! a = Some t →
  refresh now a tm = match m_cb t with
    | Some _ => Ok true (requeued a (λ t, with_next (wrapu 64 (now + m_ms t)) t) (disarmed a tm))
    | None => Ok false tm end.
Proof.
  intros Hok Ha. unfold refresh, timer_at.
  rewrite (bind_ok _ _ tm t tm) by (by mred; rewrite Ha).
  destruct (m_cb t) as [c|] eqn:Hc; [|done].
  unfold update_timer. rewrite bind_modify, bind_gets. simpl.
  by rewrite (armed_find _ _ _ _ Hok Ha Hc).
Qed.

Lemma reset_spec now (a : nat) ms fn t tm :
  tm_ok tm → heap tm !! a = Some t →
  match m_cb t with
  | None => reset now a ms fn tm = Ok false tm
  | Some _ =>
      if (ms =? m_ms t) && negb fn then reset now a ms fn tm = Ok true tm else
      ∃ tm', reset now a ms fn tm = Ok true tm' ∧
        let tm2 := requeued a (λ t0, with_next
          (wrapu 64 ((if fn then now else wrapu 64 (m_next t - m_ms t)) + ms)) (with_ms ms t0)) (disarmed a tm) in
        heap tm' = heap tm2 ∧ m_timers tm' = m_timers tm2
  end.
Proof.
  intros Hok Ha. unfold reset, timer_at.
  rewrite (bind_ok _ _ tm t tm) by (by mred; rewrite Ha).
  destruct (m_cb t) as [c|] eqn:Hc; [|done].
  destruct (_ && _); [done|].
  unfold update_timer. rewrite bind_modify, bind_gets. cbn -[wrapu].
  rewrite (armed_find _ _ _ _ Hok Ha Hc).
  rewrite (bind_ok _ _ _ tt (disarmed a tm)) by done. rewrite !bind_modify.
  match goal with |- context[ (_ ;; _) ?s ] => destruct (addTimer_set_spec a s) as (tm'&E&Eh&Et&_) end.
  step_with E. exists tm'. split; [done|]. rewrite Eh, Et.
  unfold requeued. cbn -[wrapu]. by rewrite !alter_alter_eq.
Qed.

(** ** Expiry *)

(** What expiry does to a timer. *)
Definition fired (now : Z) (t : Timer) : Timer :=
  if m_recurring t then with_next (wrapu 64 (now + m_ms t)) t else with_cb None t.

Definition cb_at (h : gmap nat Timer) (a : nat) : option callback := (h !! a) ≫= m_cb.
Definition recurring_at (h : gmap nat Timer) (a : nat) : bool :=
  match h !! a with Some t => m_recurring t | None => false end.

(** The invariant while the timers [E] are being fired: they are outside the
    set. *)
Record ok_firing (E : list nat) (tm : TimerManager) : Prop := {
  okf_sorted : sorted_by (next_at (heap tm)) (m_timers tm);
  okf_alloc : ∀ a, a ∈ m_timers tm → is_Some (heap tm !! a);
  okf_armed : ∀ a t, heap tm !! a = Some t → m_cb t ≠ None → a ∈ m_timers tm ∨ a ∈ E;
  okf_out : ∀ a, a ∈ E → (a ∉ m_timers tm) ∧ is_Some (heap tm !! a);
  okf_nodup : NoDup E;
}.

Definition fire_step (now : Z) (a : nat) (tm : TimerManager) : TimerManager :=
  let h := alter (fired now) a (heap tm) in
  set_timers (if recurring_at (heap tm) a then set_insert h a (m_timers tm) else m_timers tm)
    (set_heap h tm).

Lemma fire_step_ok now a E tm : ok_firing (a :: E) tm → ok_firing E (fire_step now a tm).
Proof.
  intros [H1 H2 H3 H4 H5]. apply NoDup_cons in H5 as [HaE HE].
  destruct (H4 a) as [Hn [t Ha]]; [set_solver|].
  set (h := alter (fired now) a (heap tm)).
  assert (Hh : h !! a = Some (fired now t)) by (unfold h; by rewrite lookup_alter_eq, Ha).
  assert (Hhn : ∀ b, b ≠ a → h !! b = heap tm !! b) by (intros; unfold h; by rewrite lookup_alter_ne).
  assert (Hs : sorted_by (next_at h) (m_timers tm)).
  { eapply sorted_ext; [|exact H1]. intros b Hb. unfold next_at. rewrite Hhn; [done|congruence]. }
  unfold fire_step, recurring_at. fold h. rewrite Ha.
  split; simpl; [| | | |done].
  - destruct (m_recurring t); [by apply set_insert_sorted|done].
  - intros b Hb. destruct (decide (b = a)) as [->|]; [by rewrite Hh|]. rewrite Hhn by done.
    apply H2. destruct (m_recurring t); [|done]. apply set_insert_elem in Hb. naive_solver.
  - intros b tb Hb Htb. destruct (decide (b = a)) as [->|].
    + rewrite Hh in Hb. simplify_eq. unfold fired in Htb. destruct (m_recurring t); [|done].
      left. rewrite set_insert_perm by done. set_solver.
    + rewrite Hhn in Hb by done. destruct (H3 b tb Hb Htb) as [?|Hin]; [|set_solver].
      left. destruct (m_recurring t); [|done]. rewrite set_insert_perm by done. set_solver.
  - intros b Hb. destruct (H4 b) as [Hb1 Hb2]; [set_solver|].
    assert (b ≠ a) by congruence. rewrite Hhn by done. split; [|done].
    destruct (m_recurring t); [|done]. rewrite set_insert_perm by done. set_solver.
Qed.

Lemma fire_spec now E tm :
  ok_firing E tm →
  fire now E tm = Ok (cb_at (heap tm) <$> E) (foldl (λ s a, fire_step now a s) tm E)
  ∧ tm_ok (foldl (λ s a, fire_step now a s) tm E).
Proof.
  revert tm. induction E as [|a E IH]; intros tm Hok.
  { split; [done|]. destruct Hok as [H1 H2 H3 _ _]. split; [done|done|].
    intros a t Ha Ht. destruct (H3 a t Ha Ht) as [?|?]; [done|set_solver]. }
  destruct (okf_out _ _ Hok a) as [Hn [t Ha]]; [set_solver|].
  pose proof (fire_step_ok now a E tm Hok) as Hok'. destruct (IH _ Hok') as [IH1 IH2].
  split; [|done]. cbn [fire]. unfold timer_at.
  rewrite (bind_ok _ _ tm t tm) by (by mred; rewrite Ha).
  rewrite (bind_ok _ _ tm tt (fire_step now a tm)).
  2:{ unfold fire_step, recurring_at. rewrite Ha. unfold update_timer.
      destruct (m_recurring t) eqn:Hr.
      - rewrite bind_modify. unfold modify. cbn -[wrapu set_insert]. f_equal.
        rewrite (alter_ext (fired now) (with_next (wrapu 64 (now + m_ms t)))); [done|].
        intros t' Ht'. rewrite Ha in Ht'. simplify_eq. unfold fired. by rewrite Hr.
      - unfold modify. f_equal.
        rewrite (alter_ext (fired now) (with_cb None)); [done|].
        intros t' Ht'. rewrite Ha in Ht'. simplify_eq. unfold fired. by rewrite Hr. }
  rewrite (bind_ok _ _ _ _ _ IH1). cbn. unfold mret, M_ret. f_equal. f_equal.
  - unfold cb_at. by rewrite Ha.
  - apply list_fmap_ext. intros i b Hb. apply list_elem_of_lookup_2 in Hb.
    unfold cb_at. simpl. rewrite lookup_alter_ne; [done|].
    intros ->. pose proof (okf_nodup _ _ Hok) as Hnd. inversion Hnd. done.
Qed.

Lemma fire_result now E tm :
  ok_firing E tm →
  let tm' := foldl (λ s a, fire_step now a s) tm E in
  (∀ a, heap tm' !! a = if decide (a ∈ E) then fired now <$> heap tm !! a else heap tm !! a)
  ∧ m_timers tm' ≡ₚ m_timers tm ++ filter (λ a, recurring_at (heap tm) a = true) E
  ∧ m_previouseTime tm' = m_previouseTime tm ∧ m_tickled tm' = m_tickled tm.
Proof.
  revert tm. induction E as [|a E IH]; intros tm Hok; [by rewrite app_nil_r|].
  destruct (okf_out _ _ Hok a) as [Hn [t Ha]]; [set_solver|].
  pose proof (okf_nodup _ _ Hok) as [HaE HE]%NoDup_cons.
  destruct (IH _ (fire_step_ok now a E tm Hok)) as (IH1&IH2&IH3&IH4). cbn [foldl].
  split; [|split; [|split; [rewrite IH3|rewrite IH4]; done]].
  - intros b. rewrite IH1. unfold fire_step. cbn -[set_insert].
    destruct (decide (b = a)) as [->|Hne].
    + rewrite decide_False by done. rewrite decide_True by set_solver. by rewrite lookup_alter_eq.
    + rewrite !lookup_alter_ne by done.
      destruct (decide (b ∈ E)), (decide (b ∈ a :: E)); set_solver.
  - rewrite IH2. assert (EQ : filter (λ b, recurring_at (heap (fire_step now a tm)) b = true) E
      = filter (λ b, recurring_at (heap tm) b = true) E).
    { apply filter_ext_elem. intros b Hb. unfold recurring_at. simpl.
      rewrite lookup_alter_ne; [done|congruence]. }
    rewrite EQ. rewrite filter_cons. unfold fire_step. cbn -[set_insert].
    destruct (recurring_at (heap tm) a) eqn:Hr.
    + rewrite decide_True by done. rewrite set_insert_perm by done. apply Permutation_middle.
    + by rewrite decide_False by done.
Qed.

(** The iterator arithmetic of [lower_bound] and the loop after it finds the
    timers due now or earlier. *)
Lemma advance_due nx tmp now l :
  sorted_by nx l →
  let n0 := advance (λ a, (nx a <? now) || ((nx a =? now) && bool_decide (a < tmp)%nat)) l in
  Nat.add n0 (advance (λ a, nx a =? now) (drop n0 l)) = advance (λ a, nx a <=? now) l.
Proof.
  assert (Hge : ∀ l, sorted_by nx l → Forall (λ a, now ≤ nx a) l →
    advance (λ a, nx a =? now) l = advance (λ a, nx a <=? now) l).
  { induction 1 as [|a l' Hs IH Ha]; intros Hl; [done|]. apply Forall_cons in Hl as [Hl1 Hl2].
    simpl. destruct (Z.eqb_spec (nx a) now), (Z.leb_spec (nx a) now); try lia. by rewrite IH. }
  induction 1 as [|a l Hs IH Ha]; [done|]. cbn [advance].
  destruct ((nx a <? now) || _) eqn:E.
  { simpl. rewrite IH. rewrite (proj2 (Z.leb_le _ _)); [done|].
    apply orb_true_iff in E as [E|[E _]%andb_true_iff]; lia. }
  apply orb_false_iff in E as [E _]. simpl. apply (Hge (a :: l)); [by constructor|].
  apply Z.ltb_ge in E. constructor; [done|].
  eapply Forall_impl; [exact Ha|]. intros b Hb. unfold before in Hb. lia.
Qed.

Lemma advance_split nx now l :
  sorted_by nx l →
  take (advance (λ a, nx a <=? now) l) l = filter (λ a, nx a ≤ now) l ∧
  drop (advance (λ a, nx a <=? now) l) l = filter (λ a, now < nx a) l.
Proof.
  induction 1 as [|a l Hs [IH1 IH2] Ha]; [done|]. simpl. rewrite !filter_cons.
  destruct (Z.leb_spec (nx a) now).
  - rewrite decide_True, decide_False by lia. simpl. by rewrite IH1, IH2.
  - rewrite decide_False, decide_True by lia. simpl.
    assert (Hl : ∀ b, b ∈ l → now < nx b).
    { intros b Hb. pose proof (proj1 (Forall_forall _ _) Ha b Hb) as Hab. unfold before in Hab. lia. }
    rewrite (filter_none_elem (λ a, nx a ≤ now)), (filter_all_elem (λ a, now < nx a)); [done|exact Hl|].
    intros b Hb. specialize (Hl b Hb). lia.
Qed.

Definition rollover (now : Z) (tm : TimerManager) : bool :=
  (now <? m_previouseTime tm) && (now <? wrapu 64 (m_previouseTime tm - 60 * 60 * 1000)).

(** The timers an expiry run takes out of the set. *)
Definition due (now : Z) (tm : TimerManager) : list nat :=
  if rollover now tm then m_timers tm
  else filter (λ a, next_at (heap tm) a ≤ now) (m_timers tm).
Definition pending (now : Z) (tm : TimerManager) : list nat :=
  if rollover now tm then []
  else filter (λ a, now < next_at (heap tm) a) (m_timers tm).

Lemma due_pending now tm :
  sorted_by (next_at (heap tm)) (m_timers tm) → m_timers tm ≡ₚ due now tm ++ pending now tm.
Proof.
  intros Hs. unfold due, pending. destruct (rollover now tm); [by rewrite app_nil_r|].
  destruct (advance_split _ now _ Hs) as [<- <-]. by rewrite take_drop.
Qed.

Lemma listExpiredCb_shape now tmp tm :
  tm_ok tm →
  listExpiredCb now tmp tm =
    match m_timers tm with
    | [] => Ok [] tm
    | _ => fire now (due now tm) (set_timers (pending now tm) (set_previouse now tm))
    end ∨ (due now tm = [] ∧ listExpiredCb now tmp tm = Ok [] (set_previouse now tm)).
Proof.
  intros Hok. pose proof (ok_sorted _ Hok) as Hs. unfold listExpiredCb. rewrite bind_gets.
  unfold listExpiredCb_check. destruct (m_timers tm) as [|first l] eqn:El; [by left|].
  rewrite bool_decide_false by done. cbn [negb]. unfold listExpiredCb_locked.
  assert (Er : detectClockRollover now tm = Ok (rollover now tm) (set_previouse now tm)) by done.
  step_with Er. rewrite !bind_gets. cbn -[wrapu drop take]. rewrite El.
  unfold due, pending. rewrite El. destruct (rollover now tm) eqn:ER.
  { left. cbn -[wrapu take drop fire advance]. rewrite bind_modify.
    rewrite drop_ge by (simpl; lia). cbn [advance].
    rewrite drop_ge, take_ge by (simpl; lia). done. }
  cbn [negb andb]. pose proof (advance_due _ tmp now _ Hs) as Ha.
  destruct (advance_split _ now _ Hs) as [Et Ed].
  destruct (Z.ltb_spec now (next_at (heap tm) first)).
  - right. split; [|done]. rewrite <-Et. cbn [advance]. rewrite (proj2 (Z.leb_gt _ _)) by lia. done.
  - left. rewrite bind_modify. cbn -[wrapu take drop fire advance] in *.
    rewrite Ha, Et, Ed. done.
Qed.

Lemma ok_firing_due now tm :
  tm_ok tm → ok_firing (due now tm) (set_timers (pending now tm) (set_previouse now tm)).
Proof.
  intros Hok. pose proof (due_pending now tm (ok_sorted _ Hok)) as Hp.
  pose proof (sorted_nodup _ _ (ok_sorted _ Hok)) as Hnd. rewrite Hp in Hnd.
  apply NoDup_app in Hnd as (Hn1&Hn2&Hn3).
  assert (Hin : ∀ a, a ∈ m_timers tm ↔ a ∈ due now tm ∨ a ∈ pending now tm).
  { intros a. by rewrite Hp, elem_of_app. }
  split; simpl; [| | | |done].
  - unfold pending. destruct (rollover now tm); [constructor|].
    apply filter_sorted. apply Hok.
  - intros a Ha. apply Hok, Hin. auto.
  - intros a t Ha Ht. destruct (proj1 (Hin a) (ok_armed _ Hok a t Ha Ht)); auto.
  - intros a Ha. split; [by apply Hn2|]. apply Hok, Hin. auto.
Qed.

(** Expiry in one equation: the callbacks of the due timers, and the rounds of
    the loop run on the rest. *)
Lemma listExpiredCb_spec now tmp tm :
  tm_ok tm →
  ∃ tm', listExpiredCb now tmp tm = Ok (cb_at (heap tm) <$> due now tm) tm' ∧ tm_ok tm'
    ∧ (∀ a, heap tm' !! a = if decide (a ∈ due now tm) then fired now <$> heap tm !! a else heap tm !! a)
    ∧ m_timers tm' ≡ₚ pending now tm ++ filter (λ a, recurring_at (heap tm) a = true) (due now tm).
Proof.
  intros Hok. pose proof (ok_firing_due now tm Hok) as Hf.
  destruct (listExpiredCb_shape now tmp tm Hok) as [E|[Hd E]].
  - destruct (m_timers tm) as [|a l] eqn:El.
    + assert (due now tm = [] ∧ pending now tm = []) as [Hd Hp].
      { unfold due, pending. rewrite El. by destruct (rollover now tm). }
      exists tm. rewrite E, Hd, Hp, El. split; [done|]. split; [done|]. split; [|done].
      intros a. rewrite decide_False; [done|]. set_solver.
    + destruct (fire_spec now _ _ Hf) as [Ef Hok'].
      destruct (fire_result now _ _ Hf) as (H1&H2&_).
      eexists. split; [by rewrite E, Ef|]. done.
  - exists (set_previouse now tm). rewrite Hd. split; [done|]. split.
    { by apply (ok_cong tm). }
    split.
    + intros a. rewrite decide_False; [done|]. set_solver.
    + pose proof (due_pending now tm (ok_sorted _ Hok)) as Hp. rewrite Hd in Hp.
      simpl. by rewrite app_nil_r.
Qed.

(** ** Sequences of operations *)

(** The public operations, each with the clock value and the addresses it sees. *)
Inductive op :=
  | OpAdd (now : Z) (a : nat) (ms : Z) (cb : callback) (recurring : bool)
  | OpAddCondition (now : Z) (a : nat) (ms : Z) (cb : callback) (weak_cond : nat) (recurring : bool)
  | OpCancel (a : nat)
  | OpRefresh (now : Z) (a : nat)
  | OpReset (now : Z) (a : nat) (ms : Z) (from_now : bool)
  | OpGetNext (now : Z)
  | OpListExpired (now : Z) (tmp : nat).

Definition exec (o : op) : M TimerManager unit :=
  match o with
  | OpAdd now a ms cb r => addTimer now a ms cb r;; mret tt
  | OpAddCondition now a ms cb w r => addConditionTimer now a ms cb w r;; mret tt
  | OpCancel a => Timer.cancel a;; mret tt
  | OpRefresh now a => refresh now a;; mret tt
  | OpReset now a ms fn => reset now a ms fn;; mret tt
  | OpGetNext now => getNextTimer now;; mret tt
  | OpListExpired now tmp => listExpiredCb now tmp;; mret tt
  end.

(** [new] returns an unused address; the handles given to the other operations
    are timers that were created. *)
Definition valid (o : op) (tm : TimerManager) : Prop :=
  match o with
  | OpAdd _ a _ _ _ | OpAddCondition _ a _ _ _ _ => heap tm !! a = None
  | OpCancel a | OpRefresh _ a | OpReset _ a _ _ => is_Some (heap tm !! a)
  | OpGetNext _ | OpListExpired _ _ => True
  end.

Inductive reachable : TimerManager → Prop :=
  | reach_new now : reachable (TimerManager_new now)
  | reach_step o tm tm' :
      reachable tm → valid o tm → exec o tm = Ok tt tm' → reachable tm'.

Lemma exec_ok o tm : tm_ok tm → valid o tm → ∃ tm', exec o tm = Ok tt tm' ∧ tm_ok tm'.
Proof.
  intros Hok Hv. destruct o; simpl in Hv |- *; try match type of Hv with is_Some _ => destruct Hv as [t Ht] end.
  - destruct (addTimer_spec now a ms cb recurring tm Hok Hv) as (tm'&E&?&_). step_with E. by exists tm'.
  - destruct (addTimer_spec now a ms (OnTimer weak_cond cb) recurring tm Hok Hv) as (tm'&E&?&_).
    unfold addConditionTimer. step_with E. by exists tm'.
  - pose proof (cancel_spec _ _ _ Hok Ht) as E.
    destruct (m_cb t); step_with E; eexists; (split; [done|]); [by eapply disarmed_ok|done].
  - pose proof (refresh_spec now _ _ _ Hok Ht) as E.
    destruct (m_cb t); step_with E; eexists; (split; [done|]); [|done].
    eapply (requeued_ok _ _ (with_cb None t)); [by eapply disarmed_ok| |apply disarmed_notin].
    simpl. by rewrite lookup_alter_eq, Ht.
  - pose proof (reset_spec now _ ms from_now _ _ Hok Ht) as E.
    destruct (m_cb t); [|step_with E; by eexists].
    destruct (_ && _); [step_with E; by eexists|].
    destruct E as (tm'&E&Eh&Et). step_with E. eexists. split; [done|].
    eapply ok_cong; [exact Eh|exact Et|].
    eapply (requeued_ok _ _ (with_cb None t)); [by eapply disarmed_ok| |apply disarmed_notin].
    simpl. by rewrite lookup_alter_eq, Ht.
  - exists (set_tickled false tm). unfold getNextTimer. split; [|by apply (ok_cong tm)].
    unfold mbind, M_bind, modify, gets. simpl. by destruct (m_timers tm).
  - destruct (listExpiredCb_spec now tmp tm Hok) as (tm'&E&?&_). step_with E. by exists tm'.
Qed.

Lemma reachable_ok tm : reachable tm → tm_ok tm.
Proof.
  induction 1 as [now|o tm tm' _ IH Hv He].
  - split; simpl; [constructor|set_solver|]. intros a t Ha. by rewrite lookup_empty in Ha.
  - destruct (exec_ok o tm IH Hv) as (tm''&He'&Hok). congruence.
Qed.

(** Running a script of operations. *)
Fixpoint run (l : list op) (tm : TimerManager) : option TimerManager :=
  match l with
  | [] => Some tm
  | o :: l => match exec o tm with Ok _ tm' => run l tm' | _ => None end
  end.
Fixpoint run_valid (l : list op) (tm : TimerManager) : Prop :=
  match l with
  | [] => True
  | o :: l => valid o tm ∧ match exec o tm with Ok _ tm' => run_valid l tm' | _ => False end
  end.

Lemma run_reachable l tm tm' :
  reachable tm → run_valid l tm → run l tm = Some tm' → reachable tm'.
Proof.
  revert tm. induction l as [|o l IH]; intros tm Hr Hv He; simpl in *; [congruence|].
  destruct Hv as [Hv Hv']. destruct (exec o tm) as [[] tm1| | |] eqn:E; try done.
  eapply IH; [|exact Hv'|exact He]. eapply reach_step; eauto.
Qed.

(** ** Properties *)

(** C6: whatever sequence of operations the timer manager has served, its set is
    in the order of [Comparator] without duplicates, holds existing timers and
    every timer with a callback; and every further operation on a created timer
    is defined, so [cancel]'s unchecked [erase(find(..))] never erases [end()]. *)
Theorem timers_invariant (tm : TimerManager) (Hr : reachable tm) :
  sorted_by (next_at (heap tm)) (m_timers tm) ∧ NoDup (m_timers tm)
  ∧ (∀ a, a ∈ m_timers tm → is_Some (heap tm !! a))
  ∧ (∀ a t, heap tm !! a = Some t → m_cb t ≠ None → a ∈ m_timers tm)
  ∧ (∀ o, valid o tm → ∃ tm', exec o tm = Ok tt tm').
Proof.
  pose proof (reachable_ok _ Hr) as Hok. split; [apply Hok|]. split.
  { eapply sorted_nodup, Hok. }
  split; [apply Hok|]. split; [apply Hok|].
  intros o Hv. destruct (exec_ok o tm Hok Hv) as (tm'&?&_). eauto.
Qed.

(** Three timers, one of them recurring. *)
Definition demo : list op :=
  [OpAdd 1000 1 50 (Target 1) false; OpAdd 1000 2 20 (Target 2) true;
   OpAddCondition 1000 3 50 (Target 3) 9 false].
Definition demo_state : TimerManager :=
  match run demo (TimerManager_new 1000) with Some tm => tm | None => TimerManager_new 0 end.

Lemma demo_reachable : reachable demo_state.
Proof.
  apply (run_reachable demo (TimerManager_new 1000)); [apply reach_new| |vm_compute; reflexivity].
  vm_compute. auto.
Qed.

Lemma timers_invariant_witness :
  m_timers demo_state = [2; 1; 3]%nat ∧ NoDup (m_timers demo_state)
  ∧ ∃ tm', exec (OpCancel 1) demo_state = Ok tt tm'.
Proof.
  destruct (timers_invariant demo_state demo_reachable) as (_&H1&_&_&H2).
  split; [reflexivity|]. split; [exact H1|]. apply H2. vm_compute. eauto.
Defined.

(** C17: expiry hands out the callbacks of exactly the timers that are due (all
    of them after the clock was set back by more than an hour), in the order of
    their times; the others stay, recurring ones come back at [now + interval]
    and one-shot ones give up their callback, so none can fire twice. *)
Theorem listExpiredCb_exact (tm : TimerManager) (now : Z) (tmp : nat) (Hr : reachable tm) :
  let expired := if rollover now tm then m_timers tm
                 else filter (λ a, next_at (heap tm) a ≤ now) (m_timers tm) in
  ∃ tm', listExpiredCb now tmp tm = Ok ((λ a, (heap tm !! a) ≫= m_cb) <$> expired) tm'
    ∧ (∀ a t, a ∈ expired → heap tm !! a = Some t → heap tm' !! a = Some (
         if m_recurring t then mkTimer true (m_ms t) (wrapu 64 (now + m_ms t)) (m_cb t)
         else mkTimer false (m_ms t) (m_next t) None))
    ∧ (∀ a, (a ∉ expired) → heap tm' !! a = heap tm !! a)
    ∧ (∀ a, a ∈ m_timers tm' ↔ a ∈ m_timers tm ∧ (a ∈ expired → recurring_at (heap tm) a = true)).
Proof.
  pose proof (reachable_ok _ Hr) as Hok. intros expired.
  change expired with (due now tm). clear expired.
  destruct (listExpiredCb_spec now tmp tm Hok) as (tm'&E&Hok'&Hh&Ht).
  exists tm'. split; [exact E|]. split; [|split].
  - intros a t Ha Hat. rewrite Hh, decide_True, Hat by done. simpl. f_equal.
    unfold fired. by destruct t as [[] ? ? ?].
  - intros a Ha. by rewrite Hh, decide_False.
  - intros a. rewrite Ht, (due_pending now tm (ok_sorted _ Hok)), !elem_of_app, list_elem_of_filter.
    assert (a ∈ pending now tm → ¬ a ∈ due now tm).
    { intros Hp Hd. eapply (okf_out _ _ (ok_firing_due now tm Hok) a Hd). done. }
    destruct (decide (a ∈ due now tm)); naive_solver.
Qed.

Lemma listExpiredCb_exact_witness :
  ∃ tm', listExpiredCb 1050 99 demo_state = Ok [Some (Target 2); Some (Target 1); Some (OnTimer 9 (Target 3))] tm'
    ∧ heap tm' !! 2%nat = Some (mkTimer true 20 1070 (Some (Target 2))).
Proof.
  destruct (listExpiredCb_exact demo_state 1050 99 demo_reachable) as (tm'&E&H1&_).
  exists tm'. split; [exact E|]. apply (H1 2%nat (mkTimer true 20 1020 (Some (Target 2)))).
  - vm_compute. left.
  - reflexivity.
Defined.

Definition times_in_range (tm : TimerManager) : Prop :=
  ∀ a, a ∈ m_timers tm → in_u 64 (next_at (heap tm) a).

(** The delay [getNextTimer] gives to [epoll_wait] is exact: it is the
    largest value exactly when there is no timer, expiry has nothing to do
    before that many milliseconds have passed, and has something to do then. *)
Theorem getNextTimer_exact (tm : TimerManager) (now : Z) (Hr : reachable tm)
    (Hrange : times_in_range tm) (Hnow : in_u 64 now) (Hprev : m_previouseTime tm ≤ now) :
  ∃ d, getNextTimer now tm = Ok d (set_tickled false tm) ∧ in_u 64 d
    ∧ (m_timers tm = [] → d = 2 ^ 64 - 1)
    ∧ (∀ t, now ≤ t < now + d → due t tm = [])
    ∧ (m_timers tm ≠ [] → due (now + d) tm ≠ []).
Proof.
  pose proof (reachable_ok _ Hr) as Hok.
  assert (Hroll : ∀ t, now ≤ t → rollover t tm = false).
  { intros t Ht. unfold rollover. by rewrite (proj2 (Z.ltb_ge _ _)) by lia. }
  unfold getNextTimer. rewrite bind_modify, !bind_gets. cbn -[wrapu]. unfold due.
  pose proof (ok_sorted _ Hok) as Hs. destruct (m_timers tm) as [|a l] eqn:El.
  { eexists. split; [reflexivity|]. split; [unfold in_u; lia|]. split; [done|]. split; [|done].
    intros t Ht. rewrite Hroll by lia. done. }
  inversion Hs as [|?? _ Ha]; subst.
  assert (Hmin : ∀ b, b ∈ a :: l → next_at (heap tm) a ≤ next_at (heap tm) b).
  { intros b [->|Hb]%elem_of_cons; [done|].
    pose proof (proj1 (Forall_forall _ _) Ha b Hb) as Hab. unfold before in Hab. lia. }
  assert (Hra := Hrange a). rewrite El in Hra. specialize (Hra (list_elem_of_here _ _)).
  assert (Hw : wrapu 64 (next_at (heap tm) a - now) = next_at (heap tm) a - now ∨ next_at (heap tm) a ≤ now).
  { destruct (decide (next_at (heap tm) a ≤ now)); [by right|left].
    apply wrapu_small. unfold in_u in *. lia. }
  eexists. split; [reflexivity|]. unfold in_u in *.
  destruct (Z.leb_spec (next_at (heap tm) a) now).
  - split; [lia|]. split; [done|]. split; [intros; lia|]. intros _.
    rewrite Hroll by lia. rewrite filter_cons_True by lia. done.
  - destruct Hw as [->|]; [|lia]. split; [lia|]. split; [done|]. split.
    + intros t Ht. rewrite Hroll by lia. apply filter_none_elem.
      intros b Hb. specialize (Hmin b Hb). lia.
    + intros _. rewrite Hroll by lia. rewrite filter_cons_True by lia. done.
Qed.

Lemma getNextTimer_exact_witness :
  getNextTimer 1000 demo_state = Ok 20 (set_tickled false demo_state) ∧ due 1020 demo_state ≠ [].
Proof.
  destruct (getNextTimer_exact demo_state 1000) as (d&E&_&_&_&H).
  - exact demo_reachable.
  - intros a Ha. change (m_timers demo_state) with [2; 1; 3]%nat in Ha.
    repeat (apply elem_of_cons in Ha as [->|Ha]; [vm_compute; split; congruence|]).
    by apply elem_of_nil in Ha.
  - vm_compute. split; congruence.
  - vm_compute. congruence.
  - vm_compute in E. injection E as <-. split; [reflexivity|].
    apply H. vm_compute. congruence.
Defined.

(** A timer that was [refresh]ed keeps its place in the set with the new
    time but has lost its callback: both operations clear [m_cb] before moving
    the timer and never set it back.  It can no longer be cancelled, and expiry
    hands out an empty function for it. *)
Theorem refresh_drops_callback (tm : TimerManager) (now later : Z) (tmp : nat) (a : nat) (t : Timer)
    (Hr : reachable tm) (Ha : heap tm !! a = Some t) (Hcb : m_cb t ≠ None)
    (Hlater : wrapu 64 (now + m_ms t) ≤ later) :
  ∃ tm1 cbs tm2 i, refresh now a tm = Ok true tm1
    ∧ a ∈ m_timers tm1 ∧ next_at (heap tm1) a = wrapu 64 (now + m_ms t)
    ∧ Timer.cancel a tm1 = Ok false tm1
    ∧ listExpiredCb later tmp tm1 = Ok cbs tm2
    ∧ due later tm1 !! i = Some a ∧ cbs !! i = Some None.
Proof.
  pose proof (reachable_ok _ Hr) as Hok.
  pose proof (refresh_spec now _ _ _ Hok Ha) as E. destruct (m_cb t) as [c|] eqn:Hc; [|done].
  set (tm1 := requeued _ _ _) in E. set (w := wrapu 64 (now + m_ms t)) in *.
  assert (Ha1 : heap tm1 !! a = Some (mkTimer (m_recurring t) (m_ms t) w None)).
  { simpl. by rewrite !lookup_alter_eq, Ha. }
  assert (Hok1 : tm_ok tm1).
  { eapply (requeued_ok _ _ (with_cb None t)); [by eapply disarmed_ok| |apply disarmed_notin].
    simpl. by rewrite lookup_alter_eq, Ha. }
  assert (Hin : a ∈ m_timers tm1).
  { unfold tm1, requeued. cbn -[set_insert disarmed]. rewrite set_insert_perm; [set_solver|].
    apply disarmed_notin. }
  destruct (listExpiredCb_spec later tmp tm1 Hok1) as (tm2&E2&_).
  assert (Hn : next_at (heap tm1) a = w) by (unfold next_at; by rewrite Ha1).
  assert (Hd : a ∈ due later tm1).
  { unfold due. destruct (rollover _ _); [done|]. apply list_elem_of_filter. rewrite Hn. done. }
  apply list_elem_of_lookup in Hd as [i Hi].
  exists tm1, (cb_at (heap tm1) <$> due later tm1), tm2, i.
  do 3 (split; [done|]). split; [by rewrite (cancel_spec _ _ _ Hok1 Ha1)|].
  split; [done|]. split; [done|]. rewrite list_lookup_fmap, Hi.
  change (Some (cb_at (heap tm1) a) = Some None). unfold cb_at. by rewrite Ha1.
Qed.

Lemma refresh_drops_callback_witness :
  ∃ tm1, refresh 1010 1 demo_state = Ok true tm1 ∧ Timer.cancel 1 tm1 = Ok false tm1
    ∧ next_at (heap tm1) 1 = 1060.
Proof.
  destruct (refresh_drops_callback demo_state 1010 1060 99 1 (mkTimer false 50 1050 (Some (Target 1))) demo_reachable)
    as (tm1&cbs&tm2&i&E1&_&E2&E3&_).
  - reflexivity.
  - discriminate.
  - vm_compute. congruence.
  - exists tm1. split; [exact E1|]. split; [exact E3|exact E2].
Defined.

(** [listExpiredCb] tests for emptiness under the read lock and reads the
    first element after taking the write lock.  If the only timer is cancelled
    in between, the second half dereferences [begin()] of an empty set. *)
Theorem listExpiredCb_race (tm : TimerManager) (now : Z) (tmp a : nat) (t : Timer)
    (Hr : reachable tm) (Hone : m_timers tm = [a]) (Ha : heap tm !! a = Some t)
    (Hcb : m_cb t ≠ None) (Hroll : rollover now tm = false) :
  ∃ tm1, listExpiredCb_check tm = true ∧ Timer.cancel a tm = Ok true tm1
    ∧ listExpiredCb_check tm1 = false
    ∧ listExpiredCb_locked now tmp tm1 = Undef NullDeref.
Proof.
  pose proof (cancel_spec _ _ _ (reachable_ok _ Hr) Ha) as E.
  destruct (m_cb t) as [c|]; [|done]. exists (disarmed a tm).
  assert (El : m_timers (disarmed a tm) = []).
  { simpl. rewrite Hone. rewrite filter_cons_False by naive_solver. done. }
  unfold listExpiredCb_check. rewrite Hone, El. do 3 (split; [done|]).
  unfold listExpiredCb_locked.
  assert (Er : detectClockRollover now (disarmed a tm) = Ok false (set_previouse now (disarmed a tm))).
  { unfold detectClockRollover. rewrite bind_gets. change (m_previouseTime (disarmed a tm)) with (m_previouseTime tm).
    unfold rollover in Hroll. rewrite Hroll. done. }
  step_with Er. rewrite !bind_gets. change (m_timers (set_previouse now (disarmed a tm))) with (m_timers (disarmed a tm)).
  by rewrite El.
Qed.

Definition one_timer : TimerManager :=
  match run [OpAdd 1000 1 50 (Target 1) false] (TimerManager_new 1000) with
  | Some tm => tm | None => TimerManager_new 0 end.

Lemma listExpiredCb_race_witness :
  ∃ tm1, Timer.cancel 1 one_timer = Ok true tm1 ∧ listExpiredCb_locked 1050 99 tm1 = Undef NullDeref.
Proof.
  destruct (listExpiredCb_race one_timer 1050 99 1 (mkTimer false 50 1050 (Some (Target 1))))
    as (tm1&_&E1&_&E2).
  - apply (run_reachable [OpAdd 1000 1 50 (Target 1) false] (TimerManager_new 1000));
      [apply reach_new|vm_compute; auto|vm_compute; reflexivity].
  - reflexivity.
  - reflexivity.
  - discriminate.
  - reflexivity.
  - exists tm1. split; [exact E1|exact E2].
Defined.
