(* ===== verification/Fiber.v ===== *)
(** Fibers ([sylar/fiber.h], [sylar/fiber.cc]).

    Fiber objects live in a heap indexed by their address.  Each thread has its
    thread-local variables.  [swapcontext] is modelled by what it does to the
    two contexts: the first becomes suspended at the call, the second executes;
    resuming a context that is already executing is undefined. *)
From S2P Require Import Prelude Timer.
From stdpp Require Import gmap fin_maps.

Local Open Scope Z_scope.

(** [Fiber::State] *)
Inductive State := INIT | HOLD | EXEC | TERM | READY | EXCEPT.
#[export] Instance State_eq_dec : EqDecision State.
Proof. solve_decision. Defined.

(** [m_ctx]: as [makecontext] left it, saved by [swapcontext], or executing. *)
Inductive context := Made | Suspended | Executing.
#[export] Instance context_eq_dec : EqDecision context.
Proof. solve_decision. Defined.

(** The entry point given to [makecontext]. *)
Inductive entry := MainFunc | CallerMainFunc.

Record Fiber := mkFiber {
  m_id : Z;
  m_stacksize : Z;
  m_state : State;
  m_ctx : context;
  m_entry : entry;
  m_stack : bool;              (** a stack is allocated; not for a main fiber *)
  m_cb : option callback;
}.

Definition set_state (st : State) (f : Fiber) : Fiber :=
  mkFiber (m_id f) (m_stacksize f) st (m_ctx f) (m_entry f) (m_stack f) (m_cb f).
Definition set_ctx (c : context) (f : Fiber) : Fiber :=
  mkFiber (m_id f) (m_stacksize f) (m_state f) c (m_entry f) (m_stack f) (m_cb f).
Definition set_cb (c : option callback) (f : Fiber) : Fiber :=
  mkFiber (m_id f) (m_stacksize f) (m_state f) (m_ctx f) (m_entry f) (m_stack f) c.

(** The thread-local variables of one thread. *)
Record Locals := mkLocals {
  t_fiber : option nat;        (** the running fiber, in [fiber.cc] *)
  t_threadFiber : option nat;  (** the thread's main fiber *)
  t_scheduler : option nat;    (** in [scheduler.cc] *)
  t_main : option nat;         (** [t_fiber] of [scheduler.cc]: [Scheduler::GetMainFiber] *)
}.
Definition no_locals : Locals := mkLocals None None None None.

Record FiberWorld := mkFiberWorld {
  fibers : gmap nat Fiber;
  locals : gmap Z Locals;
  s_fiber_id : Z;
  s_fiber_count : Z;
}.

Definition locals_of (w : FiberWorld) (th : Z) : Locals := default no_locals (locals w !! th).
Definition set_locals (th : Z) (l : Locals) (w : FiberWorld) : FiberWorld :=
  mkFiberWorld (fibers w) (<[th := l]> (locals w)) (s_fiber_id w) (s_fiber_count w).
Definition set_fibers (m : gmap nat Fiber) (w : FiberWorld) : FiberWorld :=
  mkFiberWorld m (locals w) (s_fiber_id w) (s_fiber_count w).

Definition fiber_at (a : nat) : M FiberWorld Fiber := λ w : FiberWorld, deref (fibers w !! a) w.
Definition update_fiber (a : nat) (f : Fiber → Fiber) : M FiberWorld unit :=
  modify (λ w, set_fibers (alter f a (fibers w)) w).

(** [Fiber::SetThis] *)
Definition SetThis (th : Z) (f : option nat) : M FiberWorld unit :=
  modify (λ w, let l := locals_of w th in
    set_locals th (mkLocals f (t_threadFiber l) (t_scheduler l) (t_main l)) w).
Definition set_threadFiber (th : Z) (f : option nat) : M FiberWorld unit :=
  modify (λ w, let l := locals_of w th in
    set_locals th (mkLocals (t_fiber l) f (t_scheduler l) (t_main l)) w).

(** [Fiber::TotalFibers] *)
Definition TotalFibers (w : FiberWorld) : Z := s_fiber_count w.

(** [Fiber::GetFiberId] *)
Definition GetFiberId (th : Z) : M FiberWorld Z :=
  l ← gets (λ w, locals_of w th);
  match t_fiber l with
  | Some a => f ← fiber_at a; mret (m_id f)
  | None => mret 0
  end.

(** [Fiber::Fiber()], the main fiber of a thread: the running context. *)
Definition Fiber_main (th : Z) (a : nat) : M FiberWorld unit :=
  modify (λ w, set_fibers (<[a := mkFiber 0 0 EXEC Executing MainFunc false None]> (fibers w)) w);;
  SetThis th (Some a);;
  modify (λ w, mkFiberWorld (fibers w) (locals w) (s_fiber_id w) (wrapu 64 (s_fiber_count w + 1))).

(** [Fiber::Fiber(cb, stacksize, use_caller)]; [g_fiber_stack_size] is the
    configured default. *)
Definition Fiber_new (g_fiber_stack_size : Z) (a : nat) (cb : option callback) (stacksize : Z)
    (use_caller : bool) : M FiberWorld unit :=
  modify (λ w,
    let id := wrapu 64 (s_fiber_id w + 1) in
    let size := wrapu 32 (if stacksize =? 0 then g_fiber_stack_size else stacksize) in
    mkFiberWorld
      (<[a := mkFiber id size INIT Made (if use_caller then CallerMainFunc else MainFunc) true cb]> (fibers w))
      (locals w) id (wrapu 64 (s_fiber_count w + 1))).

(** [Fiber::GetThis]; [a] is the address of the main fiber if one is made. *)
Definition GetThis (th : Z) (a : nat) : M FiberWorld nat :=
  l ← gets (λ w, locals_of w th);
  match t_fiber l with
  | Some f => mret f
  | None =>
      Fiber_main th a;;
      set_threadFiber th (Some a);;
      mret a
  end.

(** [Fiber::~Fiber], run by thread [th]. *)
Definition Fiber_destroy (th : Z) (a : nat) : M FiberWorld unit :=
  f ← fiber_at a;
  modify (λ w, mkFiberWorld (fibers w) (locals w) (s_fiber_id w) (wrapu 64 (s_fiber_count w - 1)));;
  (if m_stack f then
     sylar_assert (bool_decide (m_state f = TERM ∨ m_state f = EXCEPT ∨ m_state f = INIT))
   else
     sylar_assert (bool_decide (m_cb f = None));;
     sylar_assert (bool_decide (m_state f = EXEC));;
     l ← gets (λ w, locals_of w th);
     if decide (t_fiber l = Some a) then SetThis th None else mret tt);;
  modify (λ w, set_fibers (delete a (fibers w)) w).

(** [Fiber::reset] *)
Definition reset (a : nat) (cb : option callback) : M FiberWorld unit :=
  f ← fiber_at a;
  sylar_assert (m_stack f);;
  sylar_assert (bool_decide (m_state f = TERM ∨ m_state f = EXCEPT ∨ m_state f = INIT));;
  update_fiber a (λ f, mkFiber (m_id f) (m_stacksize f) INIT Made MainFunc (m_stack f) cb).

(** [swapcontext(&save->m_ctx, &load->m_ctx)] *)
Definition swapcontext (save load : nat) : M FiberWorld unit :=
  fiber_at save;;
  update_fiber save (set_ctx Suspended);;
  f ← fiber_at load;
  match m_ctx f with
  | Executing => undef ContextInUse
  | _ => update_fiber load (set_ctx Executing)
  end.

(** [Fiber::call] *)
Definition call (th : Z) (a : nat) : M FiberWorld unit :=
  SetThis th (Some a);;
  update_fiber a (set_state EXEC);;
  l ← gets (λ w, locals_of w th);
  m ← deref (t_threadFiber l);
  swapcontext m a.

(** [Fiber::swapIn] *)
Definition swapIn (th : Z) (a : nat) : M FiberWorld unit :=
  SetThis th (Some a);;
  f ← fiber_at a;
  sylar_assert (bool_decide (m_state f ≠ EXEC));;
  update_fiber a (set_state EXEC);;
  l ← gets (λ w, locals_of w th);
  m ← deref (t_main l);
  swapcontext m a.

(** [Fiber::back] *)
Definition back (th : Z) (a : nat) : M FiberWorld unit :=
  l ← gets (λ w, locals_of w th);
  SetThis th (t_threadFiber l);;
  m ← deref (t_threadFiber l);
  swapcontext a m.

(** [Fiber::swapOut] *)
Definition swapOut (th : Z) (a : nat) : M FiberWorld unit :=
  l ← gets (λ w, locals_of w th);
  SetThis th (t_main l);;
  m ← deref (t_main l);
  swapcontext a m.

(** [Fiber::YieldToReady] and [Fiber::YieldToHold] up to the call of [swapOut]:
    the state is published before the context is saved. *)
Definition Yield_mark (th : Z) (fresh : nat) (st : State) : M FiberWorld nat :=
  cur ← GetThis th fresh;
  update_fiber cur (set_state st);;
  mret cur.
Definition YieldToReady (th : Z) (fresh : nat) : M FiberWorld unit :=
  cur ← Yield_mark th fresh READY;
  swapOut th cur.
Definition YieldToHold (th : Z) (fresh : nat) : M FiberWorld unit :=
  cur ← Yield_mark th fresh HOLD;
  swapOut th cur.

(** [Fiber::MainFunc] and [Fiber::CallerMainFunc] start by fetching the callback;
    calling an empty one throws [bad_function_call] inside the [try]. *)
Definition MainFunc_start (th : Z) (fresh : nat) : M FiberWorld (nat * option callback) :=
  cur ← GetThis th fresh;
  f ← fiber_at cur;
  mret (cur, m_cb f).
(** The callback has returned, or has thrown. *)
Definition MainFunc_mark (cur : nat) (thrown : bool) : M FiberWorld unit :=
  if thrown then update_fiber cur (set_state EXCEPT)
  else
    update_fiber cur (set_cb None);;
    update_fiber cur (set_state TERM).
(** The last switch; whoever resumes the fiber after it runs into
    [SYLAR_ASSERT2(false, "never reach")]. *)
Definition MainFunc_leave (th : Z) (cur : nat) : M FiberWorld unit :=
  f ← fiber_at cur;
  match m_entry f with
  | MainFunc => swapOut th cur
  | CallerMainFunc => back th cur
  end.
Definition MainFunc_resumed : M FiberWorld unit := sylar_assert false.
