(* ===== verification/Scheduler.v ===== *)
(** The fiber scheduler ([sylar/scheduler.h], [sylar/scheduler.cc]).

    The first part is the task queue and the counters of one [Scheduler], under
    its mutex.  The second part is the system of the worker threads that execute
    [Scheduler::run]: every access to shared state (the lock section, an atomic
    counter, the state of a fiber, a context switch) is one step of one worker,
    and the steps of different workers interleave freely. *)
From S2P Require Import Prelude Timer Fiber.
From stdpp Require Import gmap fin_maps.

Local Open Scope Z_scope.

(** [Scheduler::FiberAndThread] *)
Record FiberAndThread := mkFT {
  ft_fiber : option nat;
  ft_cb : option callback;
  ft_thread : Z;
}.
#[export] Instance FT_eq_dec : EqDecision FiberAndThread.
Proof. solve_decision. Defined.

(** Its constructors: from a fiber, from a function, and the default one. *)
Definition FT_fiber (f : option nat) (thr : Z) : FiberAndThread := mkFT f None thr.
Definition FT_cb (f : option callback) (thr : Z) : FiberAndThread := mkFT None f thr.
Definition FT_empty : FiberAndThread := mkFT None None (-1).

Record Scheduler := mkScheduler {
  m_threadIds : list Z;
  m_fibers : list FiberAndThread;
  m_threadCount : Z;
  m_activeThreadCount : Z;
  m_idleThreadCount : Z;
  m_stopping : bool;
  m_autoStop : bool;
  m_rootThread : Z;
  m_rootFiber : option nat;
  wakeups : nat;               (** what the calls of [tickle] sent so far *)
}.

Definition set_queue (l : list FiberAndThread) (s : Scheduler) : Scheduler :=
  mkScheduler (m_threadIds s) l (m_threadCount s) (m_activeThreadCount s) (m_idleThreadCount s)
    (m_stopping s) (m_autoStop s) (m_rootThread s) (m_rootFiber s) (wakeups s).
Definition set_active (n : Z) (s : Scheduler) : Scheduler :=
  mkScheduler (m_threadIds s) (m_fibers s) (m_threadCount s) n (m_idleThreadCount s)
    (m_stopping s) (m_autoStop s) (m_rootThread s) (m_rootFiber s) (wakeups s).
Definition set_idle (n : Z) (s : Scheduler) : Scheduler :=
  mkScheduler (m_threadIds s) (m_fibers s) (m_threadCount s) (m_activeThreadCount s) n
    (m_stopping s) (m_autoStop s) (m_rootThread s) (m_rootFiber s) (wakeups s).
Definition set_stop (stopping auto : bool) (s : Scheduler) : Scheduler :=
  mkScheduler (m_threadIds s) (m_fibers s) (m_threadCount s) (m_activeThreadCount s) (m_idleThreadCount s)
    stopping auto (m_rootThread s) (m_rootFiber s) (wakeups s).
Definition set_threadIds (l : list Z) (s : Scheduler) : Scheduler :=
  mkScheduler l (m_fibers s) (m_threadCount s) (m_activeThreadCount s) (m_idleThreadCount s)
    (m_stopping s) (m_autoStop s) (m_rootThread s) (m_rootFiber s) (wakeups s).
Definition add_wakeup (s : Scheduler) : Scheduler :=
  mkScheduler (m_threadIds s) (m_fibers s) (m_threadCount s) (m_activeThreadCount s) (m_idleThreadCount s)
    (m_stopping s) (m_autoStop s) (m_rootThread s) (m_rootFiber s) (S (wakeups s)).

(** The virtual function [tickle]: it may send a wake-up and changes nothing
    else. *)
Class Tickle := {
  tickle : Scheduler → Scheduler;
  tickle_frame s : ∃ n, tickle s = Nat.iter n add_wakeup s;
}.

(** [Scheduler::tickle] only writes a log line. *)
#[export] Instance Scheduler_tickle : Tickle.
Proof. refine {| tickle := λ s, s |}. intros s. by exists 0%nat. Defined.

(** [Scheduler::hasIdleThreads] *)
Definition hasIdleThreads (s : Scheduler) : bool := 0 <? m_idleThreadCount s.

(** [Scheduler::Scheduler]; with [use_caller] the calling thread [th] gets a main
    fiber at address [a] if it has none, and the root fiber at address [b]. *)
Definition Scheduler_new (g_fiber_stack_size threads : Z) (use_caller : bool) (this : nat) (th : Z)
    (a b : nat) : M FiberWorld Scheduler :=
  sylar_assert (0 <? threads);;
  if use_caller then
    GetThis th a;;
    l ← gets (λ w, locals_of w th);
    sylar_assert (bool_decide (t_scheduler l = None));;
    Fiber_new g_fiber_stack_size b (Some (Target 0)) 0 true;;
    modify (λ w, let l := locals_of w th in
      set_locals th (mkLocals (t_fiber l) (t_threadFiber l) (Some this) (Some b)) w);;
    mret (mkScheduler [th] [] (threads - 1) 0 0 true false th (Some b) 0)
  else mret (mkScheduler [] [] threads 0 0 true false (-1) None 0).

(** [Scheduler::scheduleNoLock] *)
Definition scheduleNoLock (ft : FiberAndThread) : M Scheduler bool :=
  need_tickle ← gets (λ s, bool_decide (m_fibers s = []));
  (if decide (ft_fiber ft ≠ None ∨ ft_cb ft ≠ None)
   then modify (λ s, set_queue (m_fibers s ++ [ft]) s) else mret tt);;
  mret need_tickle.

Section with_tickle.
Context `{Tickle}.

(** [Scheduler::schedule] of one task, and of a range. *)
Definition schedule (ft : FiberAndThread) : M Scheduler unit :=
  need_tickle ← scheduleNoLock ft;
  if need_tickle : bool then modify tickle else mret tt.
Fixpoint scheduleAllNoLock (l : list FiberAndThread) (need_tickle : bool) : M Scheduler bool :=
  match l with
  | [] => mret need_tickle
  | ft :: l => b ← scheduleNoLock ft; scheduleAllNoLock l (b || need_tickle)
  end.
Definition schedule_range (l : list FiberAndThread) : M Scheduler unit :=
  need_tickle ← scheduleAllNoLock l false;
  if need_tickle : bool then modify tickle else mret tt.

(** [Scheduler::stopping] *)
Definition stopping (s : Scheduler) : bool :=
  m_autoStop s && m_stopping s && bool_decide (m_fibers s = []) && (m_activeThreadCount s =? 0).

(** The search in the lock section of [run], for thread [th]: the task taken, the
    queue left, and [tickle_me]. *)
Fixpoint take_loop (th : Z) (l : list FiberAndThread) :
    M FiberWorld (option FiberAndThread * list FiberAndThread * bool) :=
  match l with
  | [] => mret (None, [], false)
  | it :: rest =>
      if (negb (ft_thread it =? -1)) && negb (ft_thread it =? th) then
        '(r, rest', _) ← take_loop th rest;
        mret (r, it :: rest', true)
      else
        sylar_assert (bool_decide (ft_fiber it ≠ None ∨ ft_cb it ≠ None));;
        exec ← match ft_fiber it with
               | Some f => fb ← fiber_at f; mret (bool_decide (m_state fb = EXEC))
               | None => mret false
               end;
        if exec : bool then
          '(r, rest', tickle_me) ← take_loop th rest;
          mret (r, it :: rest', tickle_me)
        else mret (Some it, rest, false)
  end.

(** ** The worker threads *)

(** What a switched-in fiber is to the worker: a scheduled fiber, the worker's
    [cb_fiber], or its [idle_fiber]. *)
Inductive kind := KFiber | KCb | KIdle.
#[export] Instance kind_eq_dec : EqDecision kind.
Proof. solve_decision. Defined.

(** Where a worker is in [run]. *)
Inductive phase :=
  | Enter                                        (** before [run] *)
  | Loop                                         (** at the top of [while(true)] *)
  | Dispatch (ft : FiberAndThread) (is_active : bool)  (** after the lock section *)
  | Running (f : nat) (k : kind)                 (** fiber [f] has the thread *)
  | Marked (f : nat) (k : kind)                  (** [f] has set its state and not yet switched *)
  | Returned (f : nat) (k : kind)                (** [swapIn] has returned *)
  | Counted (f : nat) (k : kind)                 (** and the counter is decremented *)
  | Exited.

Record Worker := mkWorker {
  w_thread : Z;
  w_phase : phase;
  idle_fiber : nat;
  cb_fiber : option nat;
}.
Definition at_phase (p : phase) (w : Worker) : Worker :=
  mkWorker (w_thread w) p (idle_fiber w) (cb_fiber w).
Definition with_cb_fiber (o : option nat) (w : Worker) : Worker :=
  mkWorker (w_thread w) (w_phase w) (idle_fiber w) o.

Record World := mkWorld {
  fw : FiberWorld;
  sched : Scheduler;
  workers : list Worker;
}.

(** Running an operation of a component on its part of the world. *)
Definition on_fibers {A} (m : M FiberWorld A) : M World A := λ w,
  match m (fw w) with
  | Ok a f => Ok a (mkWorld f (sched w) (workers w))
  | Throw e f => Throw e (mkWorld f (sched w) (workers w))
  | Abort => Abort
  | Undef u => Undef u
  end.
Definition on_sched {A} (m : M Scheduler A) : M World A := λ w,
  match m (sched w) with
  | Ok a s => Ok a (mkWorld (fw w) s (workers w))
  | Throw e s => Throw e (mkWorld (fw w) s (workers w))
  | Abort => Abort
  | Undef u => Undef u
  end.
Definition goto (i : nat) (p : phase) : M World unit :=
  modify (λ w, mkWorld (fw w) (sched w) (alter (at_phase p) i (workers w))).
Definition keep_cb_fiber (i : nat) (o : option nat) : M World unit :=
  modify (λ w, mkWorld (fw w) (sched w) (alter (with_cb_fiber o) i (workers w))).
Definition state_of (f : nat) : M World State := fb ← on_fibers (fiber_at f); mret (m_state fb).

Context (g_fiber_stack_size : Z).

(** The start of [run]: [setThis], the scheduler's main fiber of a new thread,
    and the idle fiber; [a] and [b] are fresh addresses, [this] the scheduler. *)
Definition run_enter (i : nat) (wk : Worker) (this a b : nat) : M World unit :=
  on_fibers (modify (λ w, let l := locals_of w (w_thread wk) in
    set_locals (w_thread wk) (mkLocals (t_fiber l) (t_threadFiber l) (Some this) (t_main l)) w));;
  root ← gets (λ w, m_rootThread (sched w));
  (if w_thread wk =? root then mret tt else
     m ← on_fibers (GetThis (w_thread wk) a);
     on_fibers (modify (λ w, let l := locals_of w (w_thread wk) in
       set_locals (w_thread wk) (mkLocals (t_fiber l) (t_threadFiber l) (t_scheduler l) (Some m)) w)));;
  on_fibers (Fiber_new g_fiber_stack_size b (Some (Target 0)) 0 false);;
  modify (λ w, mkWorld (fw w) (sched w)
    (alter (λ k, mkWorker (w_thread k) Loop b None) i (workers w))).

(** The lock section, and the wake-up after it. *)
Definition run_take (i : nat) (wk : Worker) : M World unit :=
  l ← gets (λ w, m_fibers (sched w));
  '(r, rest, tickle_me) ← on_fibers (take_loop (w_thread wk) l);
  on_sched (modify (set_queue rest));;
  (match r with
   | Some _ => on_sched (modify (λ s, set_active (wrapu 64 (m_activeThreadCount s + 1)) s))
   | None => mret tt
   end);;
  (if tickle_me : bool then on_sched (modify tickle) else mret tt);;
  goto i (Dispatch (default FT_empty r) (bool_decide (r ≠ None))).

Definition finished (st : State) : bool := bool_decide (st = TERM ∨ st = EXCEPT).

(** The choice between the scheduled fiber, the callback and idling; [a] is a
    fresh address for a new [cb_fiber]. *)
Definition run_dispatch (i : nat) (wk : Worker) (ft : FiberAndThread) (is_active : bool) (a : nat) :
    M World unit :=
  live ← match ft_fiber ft with
         | Some f => st ← state_of f; mret (negb (finished st))
         | None => mret false
         end;
  match ft_fiber ft, live : bool, ft_cb ft with
  | Some f, true, _ =>
      on_fibers (swapIn (w_thread wk) f);;
      goto i (Running f KFiber)
  | _, _, Some cb =>
      c ← match cb_fiber wk with
          | Some c => on_fibers (reset c (Some cb));; mret c
          | None => on_fibers (Fiber_new g_fiber_stack_size a (Some cb) 0 false);;
                    keep_cb_fiber i (Some a);; mret a
          end;
      on_fibers (swapIn (w_thread wk) c);;
      goto i (Running c KCb)
  | _, _, None =>
      if is_active then
        on_sched (modify (λ s, set_active (wrapu 64 (m_activeThreadCount s - 1)) s));;
        goto i Loop
      else
        st ← state_of (idle_fiber wk);
        if decide (st = TERM) then goto i Exited else
        on_sched (modify (λ s, set_idle (wrapu 64 (m_idleThreadCount s + 1)) s));;
        on_fibers (swapIn (w_thread wk) (idle_fiber wk));;
        goto i (Running (idle_fiber wk) KIdle)
  end.

(** The decrement of the counter when [swapIn] has returned. *)
Definition run_count (i : nat) (f : nat) (k : kind) : M World unit :=
  on_sched (modify (λ s,
    match k with
    | KIdle => set_idle (wrapu 64 (m_idleThreadCount s - 1)) s
    | _ => set_active (wrapu 64 (m_activeThreadCount s - 1)) s
    end));;
  goto i (Counted f k).

(** What is done with the fiber according to the state it came back in. *)
Definition run_after (i : nat) (f : nat) (k : kind) : M World unit :=
  st ← state_of f;
  (match k with
   | KFiber =>
       if decide (st = READY) then on_sched (schedule (FT_fiber (Some f) (-1)))
       else if finished st then mret tt
       else on_fibers (update_fiber f (set_state HOLD))
   | KCb =>
       if decide (st = READY) then
         on_sched (schedule (FT_fiber (Some f) (-1)));; keep_cb_fiber i None
       else if finished st then on_fibers (reset f None)
       else on_fibers (update_fiber f (set_state HOLD));; keep_cb_fiber i None
   | KIdle =>
       if finished st then mret tt
       else on_fibers (update_fiber f (set_state HOLD))
   end);;
  goto i Loop.

(** What the fiber that has the thread can do: publish a state in order to yield,
    end its callback (normally or by an exception), or switch out.  The body of
    the idle fiber is [Scheduler::idle]: it yields while not [stopping()] and
    returns otherwise. *)
Definition fiber_yield (i : nat) (wk : Worker) (f : nat) (k : kind) (st : State) : M World unit :=
  stop ← gets (λ w, stopping (sched w));
  if decide (k = KIdle ∧ (stop = true ∨ st ≠ HOLD)) then mret tt else
  on_fibers (Yield_mark (w_thread wk) f st);;
  goto i (Marked f k).
Definition fiber_end (i : nat) (f : nat) (k : kind) (thrown : bool) : M World unit :=
  stop ← gets (λ w, stopping (sched w));
  if decide (k = KIdle ∧ (stop = false ∨ thrown = true)) then mret tt else
  on_fibers (MainFunc_mark f thrown);;
  goto i (Marked f k).
Definition fiber_leave (i : nat) (wk : Worker) (f : nat) (k : kind) : M World unit :=
  on_fibers (swapOut (w_thread wk) f);;
  goto i (Returned f k).

(** One step of worker [i]; the choice of the fiber is an argument. *)
Inductive fiber_choice := Yield (st : State) | End (thrown : bool).

Definition worker_step (i : nat) (this a b : nat) (c : fiber_choice) : M World unit :=
  wk ← λ w : World, deref (workers w !! i) w;
  match w_phase wk with
  | Enter => run_enter i wk this a b
  | Loop => run_take i wk
  | Dispatch ft is_active => run_dispatch i wk ft is_active a
  | Running f k =>
      match c with
      | Yield st => if decide (st = HOLD ∨ st = READY) then fiber_yield i wk f k st else mret tt
      | End thrown => fiber_end i f k thrown
      end
  | Marked f k => fiber_leave i wk f k
  | Returned f k => run_count i f k
  | Counted f k => run_after i f k
  | Exited => mret tt
  end.

(** [Scheduler::start], under the lock: [ids] are the thread ids the operating
    system gives to the new threads. *)
Definition start (ids : list Z) : M World unit :=
  s ← gets sched;
  if m_stopping s then
    on_sched (modify (set_stop false (m_autoStop s)));;
    on_sched (modify (λ s, set_threadIds (m_threadIds s ++ ids) s));;
    modify (λ w, mkWorld (fw w) (sched w) (workers w ++ ((λ th, mkWorker th Enter 0 None) <$> ids)))
  else mret tt.

(** [Scheduler::stop] by thread [th] of scheduler [this] up to the join: the
    flags, the wake-ups and whether the root fiber is called to run the rest. *)
Definition stop (this : nat) (th : Z) : M World bool :=
  s ← gets sched;
  on_sched (modify (set_stop (m_stopping s) true));;
  early ← match m_rootFiber s with
          | Some r =>
              st ← state_of r;
              if (m_threadCount s =? 0) && bool_decide (st = TERM ∨ st = INIT) then
                on_sched (modify (set_stop true true));;
                gets (λ w, stopping (sched w))
              else mret false
          | None => mret false
          end;
  if early : bool then mret false else
  l ← gets (λ w, locals_of (fw w) th);
  (if m_rootThread s =? -1 then sylar_assert (bool_decide (t_scheduler l ≠ Some this))
   else sylar_assert (bool_decide (t_scheduler l = Some this)));;
  on_sched (modify (set_stop true true));;
  on_sched (modify (λ s, Nat.iter (Z.to_nat (m_threadCount s)) tickle s));;
  match m_rootFiber s with
  | Some r =>
      on_sched (modify tickle);;
      done ← gets (λ w, stopping (sched w));
      if done : bool then mret false else on_fibers (call th r);; mret true
  | None => mret false
  end.

(** The callback of the root fiber is [run]: once called, it is one more worker,
    on the thread that called [stop]. *)
Definition root_runs (th : Z) : M World unit :=
  modify (λ w, mkWorld (fw w) (sched w) (workers w ++ [mkWorker th Enter 0 None])).
End with_tickle.
