(* ===== verification/SchedulerSpec.v ===== *)
(** Correctness of the scheduler: what the search in the queue takes, that the
    counters and the queue stay consistent under every interleaving of the
    workers, the life of a callback, and the race between publishing a yield
    and switching out. *)
From S2P Require Import Prelude Timer Fiber Scheduler.
From stdpp Require Import gmap fin_maps.

Local Open Scope Z_scope.

(** ** The virtual wake-up changes nothing but the wake-up count *)

Section tickle.
Context `{Tickle}.

(** Equality up to [wakeups]. *)
Definition same (s s' : Scheduler) : Prop :=
  m_threadIds s' = m_threadIds s ∧ m_fibers s' = m_fibers s ∧ m_threadCount s' = m_threadCount s
  ∧ m_activeThreadCount s' = m_activeThreadCount s ∧ m_idleThreadCount s' = m_idleThreadCount s
  ∧ m_stopping s' = m_stopping s ∧ m_autoStop s' = m_autoStop s
  ∧ m_rootThread s' = m_rootThread s ∧ m_rootFiber s' = m_rootFiber s.

#[export] Instance same_equiv : Equivalence same.
Proof.
  split.
  - done.
  - unfold same. intros ?? ?. naive_solver congruence.
  - unfold same. intros ??? (?&?&?&?&?&?&?&?&?) (?&?&?&?&?&?&?&?&?). repeat split; congruence.
Qed.

Lemma same_tickle s : same s (tickle s).
Proof.
  destruct (tickle_frame s) as [n ->]. induction n as [|n IH]; [reflexivity|].
  simpl. transitivity (Nat.iter n add_wakeup s); [exact IH|]. done.
Qed.

Lemma same_tickles n s : same s (Nat.iter n tickle s).
Proof.
  induction n as [|n IH]; [reflexivity|]. simpl.
  transitivity (Nat.iter n tickle s); [exact IH|apply same_tickle].
Qed.

Definition nonempty (ft : FiberAndThread) : Prop := ft_fiber ft ≠ None ∨ ft_cb ft ≠ None.

(** Scheduling appends the task unless it is empty. *)
Lemma scheduleNoLock_spec ft s :
  scheduleNoLock ft s = Ok (bool_decide (m_fibers s = []))
    (set_queue (m_fibers s ++ (if decide (nonempty ft) then [ft] else [])) s).
Proof.
  unfold scheduleNoLock, nonempty. mred. case_decide; [done|].
  rewrite app_nil_r. by destruct s.
Qed.

Lemma schedule_spec ft s :
  ∃ s', schedule ft s = Ok tt s'
    ∧ same (set_queue (m_fibers s ++ (if decide (nonempty ft) then [ft] else [])) s) s'.
Proof.
  unfold schedule. step_with (scheduleNoLock_spec ft s).
  destruct (bool_decide _); eexists; (split; [reflexivity|]); [apply same_tickle|reflexivity].
Qed.
End tickle.

(** ** Taking a task *)

(** May thread [th] take the task now? *)
Definition eligible (th : Z) (w : FiberWorld) (ft : FiberAndThread) : bool :=
  ((ft_thread ft =? -1) || (ft_thread ft =? th)) &&
  match ft_fiber ft with
  | Some f => match fibers w !! f with Some fb => bool_decide (m_state fb ≠ EXEC) | None => true end
  | None => true
  end.

Definition queue_ok (w : FiberWorld) (l : list FiberAndThread) : Prop :=
  ∀ ft, ft ∈ l → nonempty ft ∧ ∀ f, ft_fiber ft = Some f → is_Some (fibers w !! f).

(** The task is pinned to a thread other than [th]. *)
Definition elsewhere (th : Z) (ft : FiberAndThread) : bool :=
  negb (ft_thread ft =? -1) && negb (ft_thread ft =? th).

(** The test of the fiber's state in the loop. *)
Lemma probe_spec th w it :
  nonempty it → (∀ f, ft_fiber it = Some f → is_Some (fibers w !! f)) → elsewhere th it = false →
  (match ft_fiber it with
   | Some f => fb ← fiber_at f; mret (bool_decide (m_state fb = EXEC))
   | None => mret false
   end) w = Ok (negb (eligible th w it)) w.
Proof.
  intros Hne Hf He. unfold elsewhere, eligible in *.
  replace ((ft_thread it =? -1) || (ft_thread it =? th)) with true
    by (by destruct (ft_thread it =? -1), (ft_thread it =? th)).
  destruct (ft_fiber it) as [f|] eqn:Ef; [|done]. destruct (Hf f eq_refl) as [fb Hfb].
  unfold fiber_at. mred. rewrite Hfb. cbn [andb]. by rewrite bool_decide_not, negb_involutive.
Qed.

Lemma elsewhere_not_eligible th w it : elsewhere th it = true → eligible th w it = false.
Proof.
  unfold elsewhere, eligible. intros [->%negb_true_iff ->%negb_true_iff]%andb_true_iff. done.
Qed.

Lemma take_loop_spec th w l :
  queue_ok w l →
  (Forall (λ ft, eligible th w ft = false) l ∧
     take_loop th l w = Ok (None, l, existsb (elsewhere th) l) w)
  ∨ (∃ pre ft post, l = pre ++ ft :: post ∧ Forall (λ ft, eligible th w ft = false) pre
     ∧ eligible th w ft = true
     ∧ take_loop th l w = Ok (Some ft, pre ++ post, existsb (elsewhere th) pre) w).
Proof.
  induction l as [|it l IH]; intros Hl; [by left|].
  destruct (Hl it (list_elem_of_here _ _)) as [Hne Hf].
  assert (IH' := IH (λ ft Hft, Hl ft (list_elem_of_further _ _ _ Hft))). clear IH.
  cbn [take_loop]. fold (elsewhere th it).
  destruct (elsewhere th it) eqn:Eelse.
  { pose proof (elsewhere_not_eligible th w it Eelse) as Hit.
    destruct IH' as [[H1 H2]|(pre&ft&post&->&H1&H2&H3)]; [left|right].
    - split; [by constructor|]. step_with H2. cbn [existsb]. by rewrite Eelse.
    - exists (it :: pre), ft, post. split; [done|]. split; [by constructor|]. split; [done|].
      step_with H3. cbn [existsb]. by rewrite Eelse. }
  rewrite (bind_ok _ _ w tt w) by (by mred; rewrite bool_decide_true by done).
  step_with (probe_spec th w it Hne Hf Eelse).
  destruct (eligible th w it) eqn:Eel; cbn [negb].
  { right. exists [], it, l. repeat split; [constructor|done]. }
  destruct IH' as [[H1 H2]|(pre&ft&post&->&H1&H2&H3)]; [left|right].
  - split; [by constructor|]. step_with H2. cbn [existsb]. by rewrite Eelse.
  - exists (it :: pre), ft, post. split; [done|]. split; [by constructor|]. split; [done|].
    step_with H3. cbn [existsb]. by rewrite Eelse.
Qed.

(** ** The counters and the queue under interleaving *)

(** The phases in which a worker is counted as active, or as idle. *)
Definition is_active (p : phase) : bool :=
  match p with
  | Dispatch _ b => b
  | Running _ k | Marked _ k | Returned _ k => bool_decide (k ≠ KIdle)
  | _ => false
  end.
Definition is_idle (p : phase) : bool :=
  match p with
  | Running _ k | Marked _ k | Returned _ k => bool_decide (k = KIdle)
  | _ => false
  end.
Definition count (f : phase → bool) (ps : list phase) : Z :=
  Z.of_nat (length (filter (λ p, f p = true) ps)).
Definition phases (w : World) : list phase := w_phase <$> workers w.

Lemma count_insert f ps i p q :
  ps !! i = Some p →
  count f (<[i := q]> ps) = count f ps - Z.b2z (f p) + Z.b2z (f q).
Proof.
  intros Hi. rewrite insert_take_drop by (by eapply lookup_lt_Some).
  rewrite <-(take_drop_middle ps i p Hi) at 3.
  unfold count. rewrite !filter_app, !filter_cons, !length_app.
  destruct (f p), (f q); repeat case_decide; try congruence; cbn [length Z.b2z]; lia.
Qed.

Lemma count_le f ps : count f ps ≤ Z.of_nat (length ps).
Proof. unfold count. pose proof (length_filter (λ p, f p = true) ps). lia. Qed.

Lemma count_nonneg f ps : 0 ≤ count f ps.
Proof. unfold count. lia. Qed.

(** The part of the world the counters speak of. *)
Definition core (a d : Z) (ps : list phase) (w : World) : Prop :=
  m_activeThreadCount (sched w) = a ∧ m_idleThreadCount (sched w) = d ∧ phases w = ps
  ∧ Forall nonempty (m_fibers (sched w)).

(** A worker that took a task has counted it. *)
Definition phase_ok (p : phase) : Prop :=
  match p with Dispatch ft b => nonempty ft → b = true | _ => True end.

Definition W_ok (w : World) : Prop :=
  core (count is_active (phases w)) (count is_idle (phases w)) (phases w) w
  ∧ Forall phase_ok (phases w) ∧ Z.of_nat (length (workers w)) < 2 ^ 64.

Section steps.
Context `{Tickle}.

Lemma on_fibers_core {A} a d ps (m : M FiberWorld A) :
  triple (core a d ps) (on_fibers m) (λ _, core a d ps).
Proof.
  intros w x w' Hw Hm. unfold on_fibers in Hm. destruct (m (fw w)); naive_solver.
Qed.

Lemma on_sched_core {A} a d ps a' d' (m : M Scheduler A) :
  (∀ s, Forall nonempty (m_fibers s) → m_activeThreadCount s = a → m_idleThreadCount s = d →
     ∀ x s', m s = Ok x s' →
     Forall nonempty (m_fibers s') ∧ m_activeThreadCount s' = a' ∧ m_idleThreadCount s' = d') →
  triple (core a d ps) (on_sched m) (λ _, core a' d' ps).
Proof.
  intros Hm w x w' (H1&H2&H3&H4) He. unfold on_sched in He.
  destruct (m (sched w)) as [y s'| | |] eqn:E; try done. injection He as <- <-.
  destruct (Hm (sched w) H4 H1 H2 y s' E) as (?&?&?). done.
Qed.

Lemma alter_core a d ps i p (g : Worker → Worker) :
  (∀ wk, w_phase (g wk) = p) →
  triple (core a d ps) (modify (λ w, mkWorld (fw w) (sched w) (alter g i (workers w))))
    (λ _, core a d (<[i := p]> ps)).
Proof.
  intros Hg w [] w' (H1&H2&<-&H4) [= <-]. split; [done|]. split; [done|]. split; [|done].
  unfold phases. simpl. apply list_eq. intros j. rewrite list_lookup_fmap.
  destruct (decide (i = j)) as [<-|].
  - rewrite list_lookup_alter_eq. destruct (workers w !! i) as [wk|] eqn:E; simpl.
    + rewrite Hg, list_lookup_insert_eq; [done|]. rewrite length_fmap. by eapply lookup_lt_Some.
    + rewrite list_insert_ge; [by rewrite list_lookup_fmap, E|].
      rewrite length_fmap. by apply lookup_ge_None.
  - rewrite list_lookup_alter_ne, list_lookup_insert_ne by done. by rewrite list_lookup_fmap.
Qed.

Lemma goto_core a d ps i p : triple (core a d ps) (goto i p) (λ _, core a d (<[i := p]> ps)).
Proof. by apply alter_core. Qed.

Lemma keep_cb_fiber_core a d ps i o : triple (core a d ps) (keep_cb_fiber i o) (λ _, core a d ps).
Proof.
  intros w [] w' (H1&H2&<-&H4) [= <-]. split; [done|]. split; [done|]. split; [|done].
  unfold phases. simpl. apply list_eq. intros j. rewrite !list_lookup_fmap.
  destruct (decide (i = j)) as [<-|]; [|by rewrite list_lookup_alter_ne].
  rewrite list_lookup_alter_eq. by destruct (workers w !! i).
Qed.

Lemma state_of_core a d ps f : triple (core a d ps) (state_of f) (λ _, core a d ps).
Proof.
  eapply triple_bind; [apply on_fibers_core|]. intros fb. by apply triple_ret.
Qed.

Lemma tickle_core a d ps : triple (core a d ps) (on_sched (modify tickle)) (λ _, core a d ps).
Proof.
  apply on_sched_core. intros s Hs H1 H2 x s' [= <- <-].
  destruct (same_tickle s) as (_&->&_&->&->&_). done.
Qed.

Lemma schedule_core a d ps ft : triple (core a d ps) (on_sched (schedule ft)) (λ _, core a d ps).
Proof.
  apply on_sched_core. intros s Hs H1 H2 x s' Hm.
  destruct (schedule_spec ft s) as (s2&E&(_&Hq&_&Ha&Hd&_)). rewrite E in Hm. injection Hm as <- <-.
  rewrite Hq, Ha, Hd. simpl. split; [|done]. apply Forall_app. split; [done|].
  case_decide; [|constructor]. by constructor.
Qed.

Lemma set_active_core a a' d ps (g : Z → Z) :
  g a = a' → triple (core a d ps) (on_sched (modify (λ s, set_active (g (m_activeThreadCount s)) s)))
    (λ _, core a' d ps).
Proof. intros <-. apply on_sched_core. intros s Hs <- <- x s' [= <- <-]. done. Qed.
Lemma set_idle_core a d d' ps (g : Z → Z) :
  g d = d' → triple (core a d ps) (on_sched (modify (λ s, set_idle (g (m_idleThreadCount s)) s)))
    (λ _, core a d' ps).
Proof. intros <-. apply on_sched_core. intros s Hs <- <- x s' [= <- <-]. done. Qed.

Lemma take_loop_incl th l w r rest t w' :
  take_loop th l w = Ok (r, rest, t) w' → ∀ ft, ft ∈ rest → ft ∈ l.
Proof.
  revert w r rest t w'. induction l as [|it l IH]; intros w r rest t w' E ft.
  { by injection E as <- <- <- <-. }
  assert (Hcons : ∀ w0 r1 rest1 t1 w1, take_loop th l w0 = Ok (r1, rest1, t1) w1 →
    ft ∈ it :: rest1 → ft ∈ it :: l).
  { intros w0 r1 rest1 t1 w1 E1 [->|Hft]%elem_of_cons; [apply list_elem_of_here|].
    apply list_elem_of_further. by eapply IH. }
  cbn [take_loop] in E. destruct (_ && _).
  - apply bind_inv in E as ([[r1 rest1] t1]&w1&E1&E). injection E as <- <- <- <-. by eapply Hcons.
  - apply bind_inv in E as (?&w1&_&E). apply bind_inv in E as (b&w2&_&E).
    destruct b; [|injection E as <- <- <- <-; apply list_elem_of_further].
    apply bind_inv in E as ([[r1 rest1] t1]&w3&E1&E). injection E as <- <- <- <-. by eapply Hcons.
Qed.

Ltac core_steps :=
  repeat first
    [ apply goto_core | apply keep_cb_fiber_core
    | eapply triple_bind;
      [ first [ apply on_fibers_core | apply state_of_core | apply tickle_core | apply schedule_core
              | apply goto_core | apply keep_cb_fiber_core ] | intros ] ].

Lemma run_enter_core a d ps st i wk this u v :
  triple (core a d ps) (run_enter st i wk this u v) (λ _, core a d (<[i := Loop]> ps)).
Proof.
  unfold run_enter. core_steps.
  eapply (triple_bind _ _ _ (λ _, core a d ps)); [by apply triple_gets|]. intros root.
  eapply (triple_bind _ _ _ (λ _, core a d ps)).
  { destruct (_ =? _); [by apply triple_ret|]. core_steps. apply on_fibers_core. }
  intros _. core_steps. by apply alter_core.
Qed.

Lemma set_queue_core a d ps l :
  Forall nonempty l → triple (core a d ps) (on_sched (modify (set_queue l))) (λ _, core a d ps).
Proof. intros Hl. apply on_sched_core. intros s Hs <- <- x s' [= <- <-]. done. Qed.

Lemma run_take_core a d ps i wk :
  triple (core a d ps) (run_take i wk)
    (λ _ w', ∃ ft (b : bool), (nonempty ft → b = true) ∧
       core (if b then wrapu 64 (a + 1) else a) d (<[i := Dispatch ft b]> ps) w').
Proof.
  unfold run_take.
  eapply (triple_bind _ _ _ (λ l w, core a d ps w ∧ Forall nonempty l)).
  { apply triple_gets. intros w Hw. split; [done|]. apply Hw. }
  intros l. apply triple_pure. intros Hl.
  eapply (triple_bind _ _ _ (λ x w, core a d ps w ∧ Forall nonempty x.1.2)).
  { intros w x w' Hw Hm. split; [by eapply on_fibers_core|].
    unfold on_fibers in Hm. destruct (take_loop _ _ _) as [[[r rest] t] f| | |] eqn:E; try done.
    injection Hm as <- _. simpl. rewrite Forall_forall in Hl |- *.
    intros ft Hft. apply Hl. by eapply take_loop_incl. }
  intros [[r rest] t]. apply triple_pure. simpl. intros Hrest.
  eapply triple_bind; [by apply set_queue_core|]. intros [].
  eapply (triple_bind _ _ _ (λ _, core (if bool_decide (r ≠ None) then wrapu 64 (a + 1) else a) d ps)).
  { destruct r as [ft|]; simpl; [|by apply triple_ret].
    by apply set_active_core with (g := λ n, wrapu 64 (n + 1)). }
  intros []. eapply triple_bind; [destruct t; [apply tickle_core|by apply triple_ret]|]. intros [].
  eapply triple_weaken; [apply goto_core|done|]. intros ? w' Hw.
  exists (default FT_empty r), (bool_decide (r ≠ None)). split; [|exact Hw].
  intros Hne. apply bool_decide_eq_true. intros ->. by destruct Hne.
Qed.

(** Where [run_dispatch] can go, and with which counters. *)
Lemma run_dispatch_core a d ps st i wk ft act fresh :
  triple (core a d ps) (run_dispatch st i wk ft act fresh) (λ _ w',
    (∃ f k, k ≠ KIdle ∧ nonempty ft ∧ core a d (<[i := Running f k]> ps) w')
    ∨ (act = true ∧ core (wrapu 64 (a - 1)) d (<[i := Loop]> ps) w')
    ∨ (act = false ∧ core a d (<[i := Exited]> ps) w')
    ∨ (act = false ∧ ∃ f, core a (wrapu 64 (d + 1)) (<[i := Running f KIdle]> ps) w')).
Proof.
  unfold run_dispatch.
  eapply (triple_bind _ _ _ (λ _, core a d ps)).
  { destruct (ft_fiber ft); [|by apply triple_ret]. core_steps. by apply triple_ret. }
  intros live.
  assert (Hcb : ∀ cb, ft_cb ft = Some cb → triple (core a d ps)
    (c ← match cb_fiber wk with
          | Some c => on_fibers (reset c (Some cb));; mret c
          | None => on_fibers (Fiber_new st fresh (Some cb) 0 false);;
                    keep_cb_fiber i (Some fresh);; mret fresh
          end;
      on_fibers (swapIn (w_thread wk) c);;
      goto i (Running c KCb)) (λ _ w', ∃ f k, k ≠ KIdle ∧ nonempty ft ∧ core a d (<[i := Running f k]> ps) w')).
  { intros cb Ecb. eapply (triple_bind _ _ _ (λ _, core a d ps)).
    { destruct (cb_fiber wk); core_steps; by apply triple_ret. }
    intros c. eapply triple_bind; [apply on_fibers_core|]. intros [].
    eapply triple_weaken; [apply goto_core|done|]. intros ? w' Hw'. exists c, KCb.
    split; [done|]. split; [|done]. right. by rewrite Ecb. }
  assert (Hnone : triple (core a d ps)
    (if act then
        on_sched (modify (λ s, set_active (wrapu 64 (m_activeThreadCount s - 1)) s));;
        goto i Loop
      else
        st ← state_of (idle_fiber wk);
        if decide (st = TERM) then goto i Exited else
        on_sched (modify (λ s, set_idle (wrapu 64 (m_idleThreadCount s + 1)) s));;
        on_fibers (swapIn (w_thread wk) (idle_fiber wk));;
        goto i (Running (idle_fiber wk) KIdle)) (λ _ w',
      (act = true ∧ core (wrapu 64 (a - 1)) d (<[i := Loop]> ps) w')
      ∨ (act = false ∧ core a d (<[i := Exited]> ps) w')
      ∨ (act = false ∧ ∃ f, core a (wrapu 64 (d + 1)) (<[i := Running f KIdle]> ps) w'))).
  { destruct act.
    - eapply triple_bind; [by apply set_active_core with (g := λ n, wrapu 64 (n - 1))|]. intros [].
      eapply triple_weaken; [apply goto_core|done|]. auto.
    - eapply triple_bind; [apply state_of_core|]. intros s0. case_decide.
      + eapply triple_weaken; [apply goto_core|done|]. auto.
      + eapply triple_bind; [by apply set_idle_core with (g := λ n, wrapu 64 (n + 1))|]. intros [].
        core_steps. eapply triple_weaken; [apply goto_core|done|].
        intros ? w' Hw'. right. right. split; [done|]. exists (idle_fiber wk). exact Hw'. }
  destruct (ft_fiber ft) as [f|] eqn:Ef; [destruct live|].
  - core_steps. eapply triple_weaken; [apply goto_core|done|]. intros ? w' Hw'. left.
    exists f, KFiber. split; [done|]. split; [|done]. left. by rewrite Ef.
  - destruct (ft_cb ft) as [cb|]; [|eapply triple_weaken; [apply Hnone|done|intros ? w' Hw'; right; exact Hw']].
    eapply triple_weaken; [by apply (Hcb cb)|done|]. intros ? w' Hw'. left. exact Hw'.
  - destruct (ft_cb ft) as [cb|]; [|eapply triple_weaken; [apply Hnone|done|intros ? w' Hw'; right; exact Hw']].
    eapply triple_weaken; [by apply (Hcb cb)|done|]. intros ? w' Hw'. left. exact Hw'.
Qed.

Lemma run_count_core a d ps i f k :
  triple (core a d ps) (run_count i f k) (λ _,
    core (if decide (k = KIdle) then a else wrapu 64 (a - 1))
         (if decide (k = KIdle) then wrapu 64 (d - 1) else d) (<[i := Counted f k]> ps)).
Proof.
  unfold run_count. destruct (decide (k = KIdle)) as [->|Hk].
  - eapply triple_bind; [by apply set_idle_core with (g := λ n, wrapu 64 (n - 1))|]. intros []. apply goto_core.
  - eapply (triple_bind _ _ _ (λ _, core (wrapu 64 (a - 1)) d ps)); [|intros []; apply goto_core].
    destruct k; try done; by apply set_active_core with (g := λ n, wrapu 64 (n - 1)).
Qed.

Lemma run_after_core a d ps i f k :
  triple (core a d ps) (run_after i f k) (λ _, core a d (<[i := Loop]> ps)).
Proof.
  unfold run_after. eapply triple_bind; [apply state_of_core|]. intros st.
  eapply (triple_bind _ _ _ (λ _, core a d ps)); [|intros []; apply goto_core].
  destruct k, (decide (st = READY)), (finished st);
    repeat first [ by apply triple_ret | apply schedule_core | apply on_fibers_core
                 | apply keep_cb_fiber_core | core_steps ].
Qed.

Lemma fiber_yield_core a d ps i wk f k st :
  triple (core a d ps) (fiber_yield i wk f k st) (λ _ w',
    core a d ps w' ∨ core a d (<[i := Marked f k]> ps) w').
Proof.
  unfold fiber_yield. eapply (triple_bind _ _ _ (λ _, core a d ps)); [by apply triple_gets|].
  intros stop. case_decide; [apply triple_ret; auto|]. core_steps.
  eapply triple_weaken; [apply goto_core|done|]. auto.
Qed.

Lemma fiber_end_core a d ps i f k b :
  triple (core a d ps) (fiber_end i f k b) (λ _ w',
    core a d ps w' ∨ core a d (<[i := Marked f k]> ps) w').
Proof.
  unfold fiber_end. eapply (triple_bind _ _ _ (λ _, core a d ps)); [by apply triple_gets|].
  intros stop. case_decide; [apply triple_ret; auto|]. core_steps.
  eapply triple_weaken; [apply goto_core|done|]. auto.
Qed.

Lemma fiber_leave_core a d ps i wk f k :
  triple (core a d ps) (fiber_leave i wk f k) (λ _, core a d (<[i := Returned f k]> ps)).
Proof. unfold fiber_leave. core_steps. Qed.

(** ** Executions *)

Context (g_fiber_stack_size : Z) (this : nat).

(** A step of worker [i] (with two fresh addresses and the fiber_choice of the fiber
    it runs), or a call from outside: a task is scheduled, a fiber is created,
    the scheduler is started or stopped. *)
Inductive action :=
  | AWorker (i : nat) (a b : nat) (c : fiber_choice)
  | ASchedule (ft : FiberAndThread)
  | ANewFiber (a : nat) (cb : callback)
  | AStart (ids : list Z)
  | AStop (th : Z).

Definition act (x : action) : M World unit :=
  match x with
  | AWorker i a b c => worker_step g_fiber_stack_size i this a b c
  | ASchedule ft => on_sched (schedule ft)
  | ANewFiber a cb => on_fibers (Fiber_new g_fiber_stack_size a (Some cb) 0 false)
  | AStart ids => start ids
  | AStop th => called ← stop this th; if called : bool then root_runs th else mret tt
  end.

Inductive reachable (w0 : World) : World → Prop :=
  | reach_init : reachable w0 w0
  | reach_act x w w' :
      reachable w0 w → act x w = Ok tt w' → Z.of_nat (length (workers w')) < 2 ^ 64 →
      reachable w0 w'.

Lemma W_ok_of_core a d ps w :
  core a d ps w → a = count is_active ps → d = count is_idle ps → Forall phase_ok ps →
  Z.of_nat (length (workers w)) < 2 ^ 64 → W_ok w.
Proof.
  intros Hc -> -> Hp Hl. split; [|split; [|done]]; pose proof Hc as (_&_&->&_); done.
Qed.

(** A worker in a phase moves to another and the counters follow. *)
Lemma counters_follow f ps i p q :
  ps !! i = Some p → Z.of_nat (length ps) < 2 ^ 64 →
  count f (<[i := q]> ps) = wrapu 64 (count f ps - Z.b2z (f p) + Z.b2z (f q)).
Proof.
  intros Hi Hl. rewrite <-(count_insert f ps i p q Hi). symmetry. apply wrapu_small.
  split; [apply count_nonneg|].
  pose proof (count_le f (<[i := q]> ps)) as Hc. rewrite length_insert in Hc. lia.
Qed.
Lemma counter_same f ps i p q :
  ps !! i = Some p → f q = f p → count f ps = count f (<[i := q]> ps).
Proof. intros Hi Hq. rewrite (count_insert f ps i p q Hi), Hq. lia. Qed.
Lemma counter_up f ps i p q :
  ps !! i = Some p → Z.of_nat (length ps) < 2 ^ 64 → f p = false → f q = true →
  wrapu 64 (count f ps + 1) = count f (<[i := q]> ps).
Proof. intros Hi Hl Hp Hq. rewrite (counters_follow f ps i p q Hi Hl), Hp, Hq. f_equal. simpl. lia. Qed.
Lemma counter_down f ps i p q :
  ps !! i = Some p → Z.of_nat (length ps) < 2 ^ 64 → f p = true → f q = false →
  wrapu 64 (count f ps - 1) = count f (<[i := q]> ps).
Proof. intros Hi Hl Hp Hq. rewrite (counters_follow f ps i p q Hi Hl), Hp, Hq. f_equal. simpl. lia. Qed.

Ltac moved Hc' := eapply W_ok_of_core; [exact Hc'| | |match goal with Hins : ∀ q, _ → Forall _ _ |- _ => apply Hins; first [exact I|assumption] end|done];
  first [ by eapply counter_same | by eapply counter_up | by eapply counter_down | idtac ].

Lemma worker_step_ok i a b c w w' :
  W_ok w → worker_step g_fiber_stack_size i this a b c w = Ok tt w' →
  Z.of_nat (length (workers w')) < 2 ^ 64 → W_ok w'.
Proof.
  intros (Hc&Hp&Hl) He Hl'. unfold worker_step in He.
  apply bind_inv in He as (wk&w1&E1&He). unfold deref in E1.
  destruct (workers w !! i) as [wk'|] eqn:Ei; [|done]. injection E1 as <- <-.
  assert (Hi : phases w !! i = Some (w_phase wk')) by (unfold phases; by rewrite list_lookup_fmap, Ei).
  assert (Hlp : Z.of_nat (length (phases w)) < 2 ^ 64) by (unfold phases; by rewrite length_fmap).
  assert (Hpi : phase_ok (w_phase wk')) by (by eapply Forall_lookup_1).
  set (ps := phases w) in *. clearbody ps.
  assert (Hins : ∀ q, phase_ok q → Forall phase_ok (<[i := q]> ps)) by (intros; by apply Forall_insert).
  destruct (w_phase wk') as [| |ft act0|f k|f k|f k|f k|].
  - moved (run_enter_core _ _ _ _ _ _ _ _ _ _ _ _ Hc He).
  - destruct (run_take_core _ _ _ _ _ _ _ _ Hc He) as (ft&[]&Hft&Hc'); moved Hc'.
  - destruct (run_dispatch_core _ _ _ _ _ _ _ _ _ _ _ _ Hc He)
      as [(f&k&Hk&Hne&Hc')|[[-> Hc']|[[-> Hc']|(->&f&Hc')]]]; [|moved Hc'..].
    specialize (Hpi Hne). subst act0.
    assert (bool_decide (k ≠ KIdle) = true ∧ bool_decide (k = KIdle) = false) as [Hk1 Hk2] by (by destruct k).
    moved Hc'.
  - destruct c as [st|thrown].
    + case_decide.
      * destruct (fiber_yield_core _ _ _ _ _ _ _ _ _ _ _ Hc He) as [Hc'|Hc']; [by eapply W_ok_of_core|moved Hc'].
      * injection He as <-. by eapply W_ok_of_core.
    + destruct (fiber_end_core _ _ _ _ _ _ _ _ _ _ Hc He) as [Hc'|Hc']; [by eapply W_ok_of_core|moved Hc'].
  - moved (fiber_leave_core _ _ _ _ _ _ _ _ _ _ Hc He).
  - pose proof (run_count_core _ _ _ _ _ _ _ _ _ Hc He) as Hc'. destruct k; simpl in Hc'; moved Hc'.
  - moved (run_after_core _ _ _ _ _ _ _ _ _ Hc He).
  - injection He as <-. by eapply W_ok_of_core.
Qed.

Lemma set_stop_core a d ps (g h : Scheduler → bool) :
  triple (core a d ps) (on_sched (modify (λ s, set_stop (g s) (h s) s))) (λ _, core a d ps).
Proof. apply on_sched_core. intros s Hs <- <- x s' [= <- <-]. done. Qed.

Lemma tickles_core a d ps :
  triple (core a d ps) (on_sched (modify (λ s, Nat.iter (Z.to_nat (m_threadCount s)) tickle s)))
    (λ _, core a d ps).
Proof.
  apply on_sched_core. intros s Hs H1 H2 x s' [= <- <-].
  destruct (same_tickles (Z.to_nat (m_threadCount s)) s) as (_&->&_&->&->&_). done.
Qed.

Lemma stop_core a d ps th : triple (core a d ps) (stop this th) (λ _, core a d ps).
Proof.
  unfold stop. eapply (triple_bind _ _ _ (λ _, core a d ps)); [by apply triple_gets|]. intros s.
  eapply triple_bind; [apply (set_stop_core _ _ _ (λ _, m_stopping s) (λ _, true))|]. intros [].
  eapply (triple_bind _ _ _ (λ _, core a d ps)).
  { destruct (m_rootFiber s); [|by apply triple_ret]. core_steps.
    destruct (_ && _); [|by apply triple_ret].
    eapply triple_bind; [apply (set_stop_core _ _ _ (λ _, true) (λ _, true))|]. intros [].
    by apply triple_gets. }
  intros []; [by apply triple_ret|].
  eapply (triple_bind _ _ _ (λ _, core a d ps)); [by apply triple_gets|]. intros l.
  eapply (triple_bind _ _ _ (λ _, core a d ps)); [destruct (_ =? _); by apply triple_assert|]. intros [].
  eapply triple_bind; [apply (set_stop_core _ _ _ (λ _, true) (λ _, true))|]. intros [].
  eapply triple_bind; [apply tickles_core|]. intros [].
  destruct (m_rootFiber s); [|by apply triple_ret].
  eapply triple_bind; [apply tickle_core|]. intros [].
  eapply (triple_bind _ _ _ (λ _, core a d ps)); [by apply triple_gets|].
  intros []; [by apply triple_ret|]. core_steps. by apply triple_ret.
Qed.

Lemma count_enter f (ids : list Z) :
  f Enter = false → count f (w_phase <$> ((λ th, mkWorker th Enter 0 None) <$> ids)) = 0.
Proof.
  intros Hf. unfold count. rewrite filter_none_elem; [done|].
  intros p (wk&->&(th&->&_)%list_elem_of_fmap)%list_elem_of_fmap. simpl. congruence.
Qed.

Lemma count_app f ps qs : count f (ps ++ qs) = count f ps + count f qs.
Proof. unfold count. rewrite filter_app, length_app. lia. Qed.

(** New workers are neither active nor idle. *)
Lemma add_workers_ok (ids : list Z) w s w' :
  W_ok w → Forall nonempty (m_fibers s) →
  m_activeThreadCount s = m_activeThreadCount (sched w) →
  m_idleThreadCount s = m_idleThreadCount (sched w) →
  w' = mkWorld (fw w) s (workers w ++ ((λ th, mkWorker th Enter 0 None) <$> ids)) →
  Z.of_nat (length (workers w')) < 2 ^ 64 → W_ok w'.
Proof.
  intros ((H1&H2&_&H4)&Hp&Hl) Hs Ha Hd -> Hl'.
  set (new := (λ th, mkWorker th Enter 0 None) <$> ids) in *.
  apply (W_ok_of_core (count is_active (phases w)) (count is_idle (phases w))
    (phases w ++ (w_phase <$> new))); [| | | |done].
  - split; [simpl; congruence|]. split; [simpl; congruence|]. split; [|done].
    unfold phases. simpl. by rewrite fmap_app.
  - rewrite count_app. unfold new. rewrite count_enter; [lia|done].
  - rewrite count_app. unfold new. rewrite count_enter; [lia|done].
  - apply Forall_app. split; [done|]. apply Forall_forall.
    intros p (wk&->&(th&->&_)%list_elem_of_fmap)%list_elem_of_fmap. done.
Qed.

Lemma act_ok x w w' :
  W_ok w → act x w = Ok tt w' → Z.of_nat (length (workers w')) < 2 ^ 64 → W_ok w'.
Proof.
  intros Hw He Hl'. destruct x as [i a b c|ft|a cb|ids|th]; simpl in He.
  - by eapply worker_step_ok.
  - destruct Hw as (Hc&Hp&_). eapply W_ok_of_core; [by eapply schedule_core|done..].
  - destruct Hw as (Hc&Hp&_). eapply W_ok_of_core; [by eapply on_fibers_core|done..].
  - unfold start in He. rewrite bind_gets in He. pose proof Hw as ((_&_&_&H4)&_).
    destruct (m_stopping (sched w)); injection He as <-; [|done].
    eapply (add_workers_ok ids w _ _ Hw); [| | |reflexivity|exact Hl']; done.
  - apply bind_inv in He as (r&w1&He1&He). pose proof Hw as (Hc&Hp&Hl).
    assert (Hlen : length (workers w1) = length (workers w)).
    { pose proof (stop_core _ _ _ _ _ _ _ Hc He1) as (_&_&Hps&_).
      apply (f_equal length) in Hps. unfold phases in Hps. by rewrite !length_fmap in Hps. }
    assert (Hw1 : W_ok w1).
    { eapply W_ok_of_core; [by eapply stop_core|done|done|done|lia]. }
    pose proof Hw1 as ((_&_&_&H4)&_).
    destruct r; injection He as <-; [|done].
    eapply (add_workers_ok [th] w1 _ _ Hw1); [| | |reflexivity|exact Hl']; done.
Qed.

Lemma reachable_W_ok w0 w : W_ok w0 → reachable w0 w → W_ok w.
Proof. induction 2; [done|]. by eapply act_ok. Qed.
End steps.

(** A scheduler before [start]. *)
Definition fresh_world (w : World) : Prop :=
  workers w = [] ∧ m_fibers (sched w) = []
  ∧ m_activeThreadCount (sched w) = 0 ∧ m_idleThreadCount (sched w) = 0.

Lemma fresh_W_ok w : fresh_world w → W_ok w.
Proof.
  intros (H1&H2&H3&H4). split; [|split].
  - unfold core, phases. rewrite H1, H2, H3, H4. done.
  - unfold phases. by rewrite H1.
  - by rewrite H1.
Qed.

(** Running a script. *)
Fixpoint run_script `{Tickle} (st : Z) (this : nat) (l : list action) (w : World) : option World :=
  match l with
  | [] => Some w
  | x :: l => match act st this x w with
              | Ok _ w' => if Z.of_nat (length (workers w')) <? 2 ^ 64 then run_script st this l w' else None
              | _ => None end
  end.

Lemma run_script_reachable `{Tickle} st this l w0 w w' :
  reachable st this w0 w → run_script st this l w = Some w' → reachable st this w0 w'.
Proof.
  revert w. induction l as [|x l IH]; intros w Hr He; simpl in He; [congruence|].
  destruct (act st this x w) as [[] w1| | |] eqn:E; try done.
  destruct (Z.ltb_spec (Z.of_nat (length (workers w1))) (2 ^ 64)); [|done].
  eapply IH; [|exact He]. by eapply reach_act.
Qed.

(** A scheduler without the caller's thread, and two threads. *)
Definition start_world : World :=
  mkWorld (mkFiberWorld ∅ ∅ 0 0) (mkScheduler [] [] 2 0 0 true false (-1) None 0) [].

(** ** Properties *)

(** The lock section of [run] takes the first task of the queue that may run
    on this thread (not pinned to another one, its fiber not executing) and
    removes exactly that one, keeping the order of the rest; the counter of
    active workers grows by one, and the other workers are woken exactly when a
    task pinned to another thread was passed over. *)
Theorem run_take_first `{Tickle} (w : World) (i : nat) (wk : Worker)
    (Hwk : workers w !! i = Some wk) (Hq : queue_ok (fw w) (m_fibers (sched w))) :
  let th := w_thread wk in
  let woken b s := if b : bool then tickle s else s in
  (Forall (λ ft, eligible th (fw w) ft = false) (m_fibers (sched w)) ∧
   run_take i wk w = Ok tt (mkWorld (fw w)
     (woken (existsb (elsewhere th) (m_fibers (sched w))) (sched w))
     (<[i := at_phase (Dispatch FT_empty false) wk]> (workers w))))
  ∨ (∃ pre ft post, m_fibers (sched w) = pre ++ ft :: post
     ∧ Forall (λ ft, eligible th (fw w) ft = false) pre ∧ eligible th (fw w) ft = true ∧
     run_take i wk w = Ok tt (mkWorld (fw w)
       (woken (existsb (elsewhere th) pre)
          (set_active (wrapu 64 (m_activeThreadCount (sched w) + 1)) (set_queue (pre ++ post) (sched w))))
       (<[i := at_phase (Dispatch ft true) wk]> (workers w)))).
Proof.
  intros th woken.
  assert (Halt : ∀ p, alter (at_phase p) i (workers w) = <[i := at_phase p wk]> (workers w)).
  { intros p. by apply alter_as_insert. }
  destruct (take_loop_spec th (fw w) _ Hq) as [[H1 H2]|(pre&ft&post&El&H1&H2&H3)]; [left|right].
  - split; [done|]. unfold run_take. rewrite bind_gets.
    rewrite (bind_ok _ _ w (None, m_fibers (sched w), existsb (elsewhere th) (m_fibers (sched w))) w).
    2:{ unfold on_fibers. fold th. rewrite H2. by destruct w. }
    assert (Es : set_queue (m_fibers (sched w)) (sched w) = sched w) by (by destruct (sched w)).
    unfold woken. destruct (existsb _ _); unfold goto; mred; unfold on_sched; cbn; rewrite Es, Halt;
      by destruct w.
  - exists pre, ft, post. do 3 (split; [done|]). unfold run_take. rewrite bind_gets.
    rewrite (bind_ok _ _ w (Some ft, pre ++ post, existsb (elsewhere th) pre) w).
    2:{ unfold on_fibers. fold th. rewrite H3. by destruct w. }
    unfold woken. destruct (existsb _ _); unfold goto; mred; unfold on_sched; cbn; rewrite Halt; done.
Qed.

(** A world with a pinned task, an executing fiber and a plain callback. *)
Definition take_world : World :=
  mkWorld (mkFiberWorld {[7%nat := mkFiber 1 4096 EXEC Executing MainFunc true None]} ∅ 1 1)
    (mkScheduler [11; 12] [FT_cb (Some (Target 1)) 12; FT_fiber (Some 7%nat) (-1); FT_cb (Some (Target 2)) (-1)]
       2 0 0 false false (-1) None 0)
    [mkWorker 11 Loop 3 None].

Lemma run_take_first_witness :
  ∃ w', @run_take Scheduler_tickle 0 (mkWorker 11 Loop 3 None) take_world = Ok tt w'
    ∧ w_phase <$> workers w' = [Dispatch (FT_cb (Some (Target 2)) (-1)) true].
Proof.
  destruct (@run_take_first Scheduler_tickle take_world 0 (mkWorker 11 Loop 3 None)) as [[H1 _]|(pre&ft&post&El&H1&H2&H3)].
  - reflexivity.
  - intros ft Hft. change (m_fibers (sched take_world)) with
      [FT_cb (Some (Target 1)) 12; FT_fiber (Some 7%nat) (-1); FT_cb (Some (Target 2)) (-1)] in Hft.
    repeat (apply elem_of_cons in Hft as [->|Hft];
      [split; [unfold nonempty; simpl; auto|intros f Hf; simpl in Hf; simplify_eq; eauto]|]).
    by apply elem_of_nil in Hft.
  - exfalso. rewrite Forall_forall in H1. specialize (H1 (FT_cb (Some (Target 2)) (-1))).
    discriminate H1. do 2 apply list_elem_of_further. apply list_elem_of_here.
  - eexists. split; [vm_compute; reflexivity|reflexivity].
Defined.


Definition two_workers : list action :=
  [AStart [11; 12]; AWorker 0 100 101 (End false); AWorker 1 102 103 (End false);
   ANewFiber 50 (Target 1); ASchedule (FT_fiber (Some 50%nat) (-1));
   AWorker 0 104 105 (End false)].
Definition two_workers_world : World :=
  match @run_script Scheduler_tickle 1024 1 two_workers start_world with Some w => w | None => start_world end.


(** Fiber 50 runs on the first worker, has been scheduled again meanwhile (for
    example by its own timer) and publishes HOLD in order to yield. *)
Definition race_script : list action :=
  two_workers ++
  [AWorker 0 104 105 (End false);             (* the first worker switches to fiber 50 *)
   ASchedule (FT_fiber (Some 50%nat) (-1));   (* the timer fires *)
   AWorker 0 106 107 (Yield HOLD);            (* YieldToHold stores HOLD *)
   AWorker 1 106 107 (End false)].            (* the second worker takes fiber 50 *)


(** ** The life of a callback *)

(** Running the steps of worker [i], with one fresh address. *)
Fixpoint steps `{Tickle} (st : Z) (this i a : nat) (n : nat) (c : fiber_choice) : M World unit :=
  match n with
  | O => mret tt
  | S n => worker_step st i this a a c;; steps st this i a n c
  end.

Lemma worker_step_at `{Tickle} st this i a b c w wk :
  workers w !! i = Some wk →
  worker_step st i this a b c w =
  match w_phase wk with
  | Enter => run_enter st i wk this a b
  | Loop => run_take i wk
  | Dispatch ft is_active => run_dispatch st i wk ft is_active a
  | Running f k =>
      match c with
      | Yield st => if decide (st = HOLD ∨ st = READY) then fiber_yield i wk f k st else mret tt
      | End thrown => fiber_end i f k thrown
      end
  | Marked f k => fiber_leave i wk f k
  | Returned f k => run_count i f k
  | Counted f k => run_after i f k
  | Exited => mret tt
  end w.
Proof. intros Hi. unfold worker_step. unfold mbind at 1, M_bind at 1. unfold deref. by rewrite Hi. Qed.

Lemma goto_at i p w wk :
  workers w !! i = Some wk →
  goto i p w = Ok tt (mkWorld (fw w) (sched w) (<[i := at_phase p wk]> (workers w))).
Proof. intros Hi. unfold goto, modify. by rewrite (alter_as_insert _ _ _ _ Hi). Qed.

Lemma on_fibers_ok {A} (m : M FiberWorld A) w x f :
  m (fw w) = Ok x f → on_fibers m w = Ok x (mkWorld f (sched w) (workers w)).
Proof. intros E. unfold on_fibers. by rewrite E. Qed.

(** ** Switching in and out *)

(** Thread [th] runs the main fiber [m] of its scheduler. *)
Record at_main (th : Z) (m : nat) (w : FiberWorld) : Prop := {
  main_local : t_main (locals_of w th) = Some m;
  main_this : t_fiber (locals_of w th) = Some m;
  main_runs : ∃ fm, fibers w !! m = Some fm ∧ m_ctx fm = Executing;
}.
(** Thread [th] runs fiber [a], switched in from [m]. *)
Record at_fiber (th : Z) (m a : nat) (f : Fiber) (w : FiberWorld) : Prop := {
  fib_local : t_main (locals_of w th) = Some m;
  fib_this : t_fiber (locals_of w th) = Some a;
  fib_runs : fibers w !! a = Some (set_ctx Executing f);
  fib_main : ∃ fm, fibers w !! m = Some fm ∧ m_ctx fm = Suspended;
  fib_ne : a ≠ m;
}.

Lemma locals_of_set th l w : locals_of (set_locals th l w) th = l.
Proof. unfold locals_of, set_locals. simpl. by rewrite lookup_insert_eq. Qed.

Lemma swapIn_spec th m a f w :
  at_main th m w → fibers w !! a = Some f → m_state f ≠ EXEC → m_ctx f ≠ Executing → a ≠ m →
  ∃ w', swapIn th a w = Ok tt w' ∧ at_fiber th m a (set_state EXEC f) w'.
Proof.
  intros [Hl Ht (fm&Hm&Hmx)] Ha Hs Hx Hne. unfold swapIn, SetThis. rewrite bind_modify.
  set (w1 := set_locals _ _ w).
  rewrite (bind_ok _ _ w1 f w1) by (unfold fiber_at; mred; unfold w1; simpl; by rewrite Ha).
  rewrite (bind_ok _ _ w1 tt w1) by (mred; by rewrite bool_decide_true).
  unfold update_fiber. rewrite bind_modify, bind_gets.
  set (w2 := set_fibers _ w1).
  assert (Hl2 : locals_of w2 th = mkLocals (Some a) (t_threadFiber (locals_of w th)) (t_scheduler (locals_of w th)) (Some m)).
  { unfold w2, w1. change (locals_of (set_fibers ?x ?y) th) with (locals_of y th). rewrite locals_of_set. by rewrite Hl. }
  rewrite (bind_ok _ _ w2 m w2) by (unfold deref; by rewrite Hl2).
  unfold swapcontext.
  rewrite (bind_ok _ _ w2 fm w2) by (unfold fiber_at; mred; simpl; by rewrite lookup_alter_ne, Hm).
  unfold update_fiber. rewrite bind_modify. set (w3 := set_fibers _ w2).
  assert (Ha3 : fibers w3 !! a = Some (set_state EXEC f)).
  { simpl. rewrite lookup_alter_ne by done. by rewrite lookup_alter_eq, Ha. }
  rewrite (bind_ok _ _ w3 (set_state EXEC f) w3) by (unfold fiber_at; mred; by rewrite Ha3).
  assert (Hm3 : fibers w3 !! m = Some (set_ctx Suspended fm)).
  { simpl. rewrite lookup_alter_eq, lookup_alter_ne by done. by rewrite Hm. }
  destruct (m_ctx (set_state EXEC f)) eqn:E; [| |done]; (eexists; split; [reflexivity|]);
    (split; [| | | |done]; [by rewrite <-(locals_of_set th (locals_of w th) w) in *; change (t_main (locals_of w2 th) = Some m); rewrite Hl2
     |change (t_fiber (locals_of w2 th) = Some a); by rewrite Hl2
     |simpl; rewrite lookup_alter_eq; unfold w3 in Ha3; simpl in Ha3; by rewrite Ha3
     |exists (set_ctx Suspended fm); split; [|done]; simpl; rewrite lookup_alter_ne by done; exact Hm3]).
Qed.

Lemma swapOut_spec th m a f w :
  at_fiber th m a f w →
  ∃ w', swapOut th a w = Ok tt w' ∧ at_main th m w' ∧ fibers w' !! a = Some (set_ctx Suspended f).
Proof.
  intros [Hl Ht Ha (fm&Hm&Hmx) Hne]. unfold swapOut, SetThis. rewrite bind_gets, bind_modify.
  set (w1 := set_locals _ _ w). rewrite Hl.
  rewrite (bind_ok _ _ w1 m w1) by done. unfold swapcontext.
  rewrite (bind_ok _ _ w1 (set_ctx Executing f) w1) by (unfold fiber_at; mred; unfold w1; simpl; by rewrite Ha).
  unfold update_fiber. rewrite bind_modify. set (w2 := set_fibers _ w1).
  assert (Hm2 : fibers w2 !! m = Some fm) by (simpl; by rewrite lookup_alter_ne).
  assert (Ha2 : fibers w2 !! a = Some (set_ctx Suspended f)).
  { simpl. by rewrite lookup_alter_eq, Ha. }
  rewrite (bind_ok _ _ w2 fm w2) by (unfold fiber_at; mred; by rewrite Hm2).
  rewrite Hmx. eexists. split; [reflexivity|]. split; [split|].
  - change (t_main (locals_of w1 th) = Some m). unfold w1. by rewrite locals_of_set, Hl.
  - change (t_fiber (locals_of w1 th) = Some m). unfold w1. by rewrite locals_of_set, Hl.
  - exists (set_ctx Executing fm). split; [|done]. simpl. rewrite lookup_alter_eq.
    simpl in Hm2. by rewrite Hm2.
  - simpl. rewrite lookup_alter_ne by done. exact Ha2.
Qed.

(** The running fiber changes a field of its own. *)
Lemma at_fiber_update th m a f g w :
  at_fiber th m a f w → (∀ c x, g (set_ctx c x) = set_ctx c (g x)) →
  at_fiber th m a (g f) (set_fibers (alter g a (fibers w)) w).
Proof.
  intros [Hl Ht Ha (fm&Hm&Hmx) Hne] Hg. split; [done|done| | |done].
  - simpl. rewrite lookup_alter_eq, Ha. simpl. by rewrite Hg.
  - exists fm. simpl. by rewrite lookup_alter_ne.
Qed.

(** The main fiber keeps running while another fiber is changed or made. *)
Lemma at_main_other th m a w fs' idn cnt :
  at_main th m w → a ≠ m → (∀ b, b ≠ a → fs' !! b = fibers w !! b) →
  at_main th m (mkFiberWorld fs' (locals w) idn cnt).
Proof.
  intros [Hl Ht (fm&Hm&Hmx)] Hne Hfs. split; [done|done|]. exists fm. simpl. rewrite Hfs by done. done.
Qed.

Lemma workers_insert (i : nat) (wk wk' : Worker) (l : list Worker) : l !! i = Some wk → <[i := wk']> l !! i = Some wk'.
Proof. intros Hi. apply list_lookup_insert_eq. by eapply lookup_lt_Some. Qed.

(** Taking and dispatching a callback at the head of the queue. *)
Lemma dispatch_callback `{Tickle} st this w i th idle cb rest m a :
  workers w !! i = Some (mkWorker th Loop idle None) →
  m_fibers (sched w) = FT_cb (Some cb) (-1) :: rest →
  at_main th m (fw w) → fibers (fw w) !! a = None →
  ∃ w2 f, steps st this i a 2 (End false) w = Ok tt w2
    ∧ workers w2 = <[i := mkWorker th (Running a KCb) idle (Some a)]> (workers w)
    ∧ at_fiber th m a f (fw w2) ∧ m_cb f = Some cb ∧ m_state f = EXEC ∧ m_entry f = MainFunc ∧ m_stack f = true
    ∧ sched w2 = set_active (wrapu 64 (m_activeThreadCount (sched w) + 1)) (set_queue rest (sched w)).
Proof.
  intros Hwk Hq Hm Ha. cbn [steps]. set (s1 := set_active _ _).
  set (wk1 := mkWorker th (Dispatch (FT_cb (Some cb) (-1)) true) idle None).
  set (w1 := mkWorld (fw w) s1 (<[i := wk1]> (workers w))).
  assert (E1 : worker_step st i this a a (End false) w = Ok tt w1).
  { rewrite (worker_step_at _ _ _ _ _ _ _ _ Hwk). cbn [w_phase]. unfold run_take. rewrite bind_gets.
    rewrite (bind_ok _ _ w (Some (FT_cb (Some cb) (-1)), rest, false) w).
    2:{ unfold on_fibers. rewrite Hq. cbn. by destruct w. }
    cbv beta iota.
    set (wq := mkWorld (fw w) (set_queue rest (sched w)) (workers w)).
    rewrite (bind_ok _ _ w tt wq) by done.
    rewrite (bind_ok _ _ wq tt (mkWorld (fw w) s1 (workers w))) by done.
    rewrite bind_ret. rewrite (goto_at i _ _ (mkWorker th Loop idle None)) by exact Hwk. done. }
  assert (Hwk1 : workers w1 !! i = Some wk1) by (by eapply workers_insert).
  step_with E1.
  assert (Ham : a ≠ m). { destruct (main_runs _ _ _ Hm) as (fm&Hfm&_). congruence. }
  set (size := wrapu 32 st). set (idn := wrapu 64 (s_fiber_id (fw w) + 1)).
  set (f0 := mkFiber idn size INIT Made MainFunc true (Some cb)).
  set (fw1 := mkFiberWorld (<[a := f0]> (fibers (fw w))) (locals (fw w)) idn (wrapu 64 (s_fiber_count (fw w) + 1))).
  assert (Hm1 : at_main th m fw1).
  { eapply at_main_other; [exact Hm|exact Ham|]. intros b Hb. by rewrite lookup_insert_ne. }
  destruct (swapIn_spec th m a f0 fw1 Hm1) as (fw2&E2&Hf); [simpl; by rewrite lookup_insert_eq|done|done|done|].
  assert (E3 : worker_step st i this a a (End false) w1 = Ok tt
    (mkWorld fw2 s1 (<[i := mkWorker th (Running a KCb) idle (Some a)]> (workers w)))).
  { rewrite (worker_step_at _ _ _ _ _ _ _ _ Hwk1).
    change (w_phase wk1) with (Dispatch (FT_cb (Some cb) (-1)) true). cbv beta iota. unfold run_dispatch. cbn [ft_fiber ft_cb FT_cb].
    rewrite (bind_ok _ _ w1 false w1) by done. change (cb_fiber wk1) with (@None nat). cbv beta iota.
    set (w1a := mkWorld fw1 s1 (workers w1)).
    set (w1b := mkWorld fw1 s1 (<[i := with_cb_fiber (Some a) wk1]> (workers w1))).
    rewrite (bind_ok _ _ w1 a w1b).
    2:{ rewrite (bind_ok _ _ w1 tt w1a) by done. rewrite (bind_ok _ _ w1a tt w1b); [done|].
        unfold keep_cb_fiber, modify. by rewrite (alter_as_insert _ _ _ _ Hwk1). }
    rewrite (bind_ok _ _ w1b tt (mkWorld fw2 s1 (workers w1b))) by (by apply on_fibers_ok).
    assert (Hwb : workers w1b !! i = Some (with_cb_fiber (Some a) wk1)) by (by eapply workers_insert).
    rewrite (goto_at i _ _ (with_cb_fiber (Some a) wk1)) by exact Hwb.
    cbn. by rewrite !list_insert_insert_eq. }
  step_with E3. eexists _, (set_state EXEC f0). split; [reflexivity|].
  repeat split; try done; apply Hf.
Qed.

(** The callback ends, the fiber switches out, and the worker recycles it. *)
Lemma finish_callback `{Tickle} st this w i th idle m a f x thrown :
  workers w !! i = Some (mkWorker th (Running a KCb) idle (Some x)) →
  at_fiber th m a f (fw w) → m_entry f = MainFunc → m_stack f = true →
  ∃ w2, steps st this i a 4 (End thrown) w = Ok tt w2
    ∧ workers w2 = <[i := mkWorker th Loop idle (Some x)]> (workers w)
    ∧ at_main th m (fw w2)
    ∧ fibers (fw w2) !! a = Some (mkFiber (m_id f) (m_stacksize f) INIT Made MainFunc true None)
    ∧ sched w2 = set_active (wrapu 64 (m_activeThreadCount (sched w) - 1)) (sched w).
Proof.
  intros Hwk Hf Hent Hst. cbn [steps].
  set (W p l := <[i := mkWorker th p idle (Some x)]> (l : list Worker)).
  assert (HW : ∀ p, W p (workers w) !! i = Some (mkWorker th p idle (Some x))).
  { intros p. by eapply workers_insert. }
  assert (HWW : ∀ p q, W p (W q (workers w)) = W p (workers w)) by (intros; unfold W; by rewrite list_insert_insert_eq).
  (* the end of the callback *)
  set (g := λ f, if thrown then set_state EXCEPT f else set_state TERM (set_cb None f)).
  set (fw1 := set_fibers (alter g a (fibers (fw w))) (fw w)).
  assert (Hf1 : at_fiber th m a (g f) fw1).
  { apply at_fiber_update; [done|]. intros c y. unfold g. by destruct thrown. }
  assert (E0 : MainFunc_mark a thrown (fw w) = Ok tt fw1).
  { unfold MainFunc_mark, update_fiber, fw1, g. destruct thrown; [done|].
    rewrite bind_modify. unfold modify, set_fibers. simpl. by rewrite alter_alter_eq. }
  set (w1 := mkWorld fw1 (sched w) (W (Marked a KCb) (workers w))).
  assert (E1 : worker_step st i this a a (End thrown) w = Ok tt w1).
  { rewrite (worker_step_at _ _ _ _ _ _ _ _ Hwk). cbn [w_phase]. unfold fiber_end. rewrite bind_gets.
    rewrite decide_False by naive_solver.
    rewrite (bind_ok _ _ w tt (mkWorld fw1 (sched w) (workers w))) by (by apply on_fibers_ok).
    rewrite (goto_at i _ _ (mkWorker th (Running a KCb) idle (Some x))) by exact Hwk. done. }
  step_with E1.
  (* the switch back *)
  destruct (swapOut_spec th m a (g f) fw1 Hf1) as (fw2&E2&Hm2&Ha2).
  set (w2 := mkWorld fw2 (sched w) (W (Returned a KCb) (workers w))).
  assert (E3 : worker_step st i this a a (End thrown) w1 = Ok tt w2).
  { rewrite (worker_step_at _ _ _ _ _ _ _ (mkWorker th (Marked a KCb) idle (Some x))) by apply HW.
    cbn [w_phase]. unfold fiber_leave.
    rewrite (bind_ok _ _ w1 tt (mkWorld fw2 (sched w) (W (Marked a KCb) (workers w)))) by exact (on_fibers_ok _ w1 _ _ E2).
    rewrite (goto_at i _ _ (mkWorker th (Marked a KCb) idle (Some x))) by apply HW. simpl. f_equal. f_equal. apply HWW. }
  step_with E3.
  (* the counter *)
  set (s3 := set_active (wrapu 64 (m_activeThreadCount (sched w) - 1)) (sched w)).
  set (w3 := mkWorld fw2 s3 (W (Counted a KCb) (workers w))).
  assert (E4 : worker_step st i this a a (End thrown) w2 = Ok tt w3).
  { rewrite (worker_step_at _ _ _ _ _ _ _ (mkWorker th (Returned a KCb) idle (Some x))) by apply HW.
    cbn [w_phase]. unfold run_count.
    rewrite (bind_ok _ _ w2 tt (mkWorld fw2 s3 (W (Returned a KCb) (workers w)))) by done.
    rewrite (goto_at i _ _ (mkWorker th (Returned a KCb) idle (Some x))) by apply HW. simpl. f_equal. f_equal. apply HWW. }
  step_with E4.
  (* the fiber is reset *)
  set (fr := mkFiber (m_id f) (m_stacksize f) INIT Made MainFunc true None).
  set (g2 := λ f, mkFiber (m_id f) (m_stacksize f) INIT Made MainFunc (m_stack f) None).
  set (fw4 := set_fibers (alter g2 a (fibers fw2)) fw2).
  set (w4 := mkWorld fw4 s3 (W Loop (workers w))).
  assert (Hgs : m_state (set_ctx Suspended (g f)) = if thrown then EXCEPT else TERM) by (unfold g; by destruct thrown).
  assert (E5 : worker_step st i this a a (End thrown) w3 = Ok tt w4).
  { rewrite (worker_step_at _ _ _ _ _ _ _ (mkWorker th (Counted a KCb) idle (Some x))) by apply HW.
    cbn [w_phase]. unfold run_after.
    rewrite (bind_ok _ _ w3 (if thrown then EXCEPT else TERM) w3).
    2:{ unfold state_of, on_fibers, fiber_at. mred. simpl. rewrite Ha2. by rewrite Hgs. }
    rewrite decide_False by (by destruct thrown).
    replace (finished (if thrown then EXCEPT else TERM)) with true by (by destruct thrown).
    rewrite (bind_ok _ _ w3 tt (mkWorld fw4 s3 (W (Counted a KCb) (workers w)))).
    2:{ apply on_fibers_ok. change (fw w3) with fw2. unfold reset.
        rewrite (bind_ok _ _ fw2 (set_ctx Suspended (g f)) fw2) by (unfold fiber_at; mred; by rewrite Ha2).
        rewrite (bind_ok _ _ fw2 tt fw2) by (unfold g; destruct thrown; simpl; by rewrite Hst).
        rewrite (bind_ok _ _ fw2 tt fw2); [done|]. mred. rewrite Hgs. by destruct thrown. }
    rewrite (goto_at i _ _ (mkWorker th (Counted a KCb) idle (Some x))) by apply HW. simpl. f_equal. f_equal. apply HWW. }
  step_with E5.
  exists w4. split; [done|]. split; [done|]. split; [|split; [|done]].
  - pose proof (fib_ne _ _ _ _ _ Hf). unfold w4, fw4. eapply at_main_other; [exact Hm2|done|].
    intros b Hb. by rewrite lookup_alter_ne.
  - simpl. rewrite lookup_alter_eq, Ha2. simpl. unfold g2, fr, g. destruct thrown; simpl; by rewrite Hst.
Qed.


Definition cycle_world : World :=
  mkWorld (mkFiberWorld {[1%nat := mkFiber 0 0 EXEC Executing MainFunc false None]}
             {[11 := mkLocals (Some 1%nat) (Some 1%nat) (Some 9%nat) (Some 1%nat)]} 0 1)
    (mkScheduler [11] [FT_cb (Some (Target 5)) (-1)] 1 0 0 false false (-1) None 0)
    [mkWorker 11 Loop 3 None].

