(* ===== verification/FdManager.v ===== *)
(** File descriptors ([sylar/fd_manager.h], [sylar/fd_manager.cc]) and the
    process state the hooked system calls share with them.

    The operating system is an oracle: the [k]-th call made through it is
    answered by [reply k call], a return value and the [errno] that goes with
    -1; [others k] is what other fibers do to the descriptor tables while the
    caller is suspended in it.  Every call is recorded in [trace]. *)
From S2P Require Import Prelude.
From stdpp Require Import gmap fin_maps.

Local Open Scope Z_scope.

(** ** Constants of the system headers *)

Definition EINTR : Z := 4.
Definition EBADF : Z := 9.
Definition EAGAIN : Z := 11.
Definition ETIMEDOUT : Z := 110.
Definition EINPROGRESS : Z := 115.
Definition O_NONBLOCK : Z := 0x800.
Definition SOL_SOCKET : Z := 1.
Definition SO_ERROR : Z := 4.
Definition SO_RCVTIMEO : Z := 20.
Definition SO_SNDTIMEO : Z := 21.
Definition F_GETFL : Z := 3.
Definition F_SETFL : Z := 4.
Definition S_ISSOCK (mode : Z) : bool := Z.land mode 0xF000 =? 0xC000.
(** [(uint64_t)-1] *)
Definition no_timeout : Z := 2 ^ 64 - 1.

(** ** Data *)

Record FdCtx := mkFdCtx {
  m_isInit : bool;
  m_isSocket : bool;
  m_sysNonblock : bool;
  m_userNonblock : bool;
  m_isClosed : bool;
  m_fd : Z;
  m_recvTimeout : Z;
  m_sendTimeout : Z;
}.

(** The calls that leave the component. *)
Inductive call :=
  | sys_fstat (fd : Z)                          (** returns [st_mode] or -1 *)
  | sys_fcntl (fd cmd : Z) (arg : option Z)
  | sys_ioctl (fd request arg : Z)
  | sys_socket
  | sys_connect (fd : Z)
  | sys_io (name : string) (fd : Z)             (** accept, read, write and the like *)
  | sys_close (fd : Z)
  | sys_getsockopt (fd level optname : Z)       (** returns the option or -1 *)
  | sys_setsockopt (fd level optname : Z)
  | sys_sleep (name : string)
  | AddTimer (ms : Z)                           (** [addTimer], [addConditionTimer] *)
  | CancelTimer
  | AddEvent (fd event : Z)                     (** [IOManager::addEvent] *)
  | CancelAll (fd : Z)                          (** [IOManager::cancelAll] *)
  | CancelEvent (fd event : Z)                  (** [IOManager::cancelEvent] *)
  | YieldToHold.                                (** returns whether the timer fired *)
#[export] Instance call_eq_dec : EqDecision call.
Proof. solve_decision. Defined.

Record Process := mkProcess {
  ctxs : gmap nat FdCtx;          (** the [FdCtx] objects, by address *)
  m_datas : list (option nat);    (** [FdManager::m_datas] *)
  errno : Z;
  clock : nat;                    (** calls made so far *)
  trace : list call;              (** and which, latest first *)
}.

Class Kernel := {
  reply : nat → call → Z * Z;
  others : nat → gmap nat FdCtx * list (option nat) → gmap nat FdCtx * list (option nat);
}.

Definition set_tables (c : gmap nat FdCtx) (d : list (option nat)) (p : Process) : Process :=
  mkProcess c d (errno p) (clock p) (trace p).
Definition set_errno (e : Z) (p : Process) : Process :=
  mkProcess (ctxs p) (m_datas p) e (clock p) (trace p).
Definition ctx_at (a : nat) : M Process FdCtx := λ p : Process, deref (ctxs p !! a) p.
Definition update_ctx (a : nat) (f : FdCtx → FdCtx) : M Process unit :=
  modify (λ p, set_tables (alter f a (ctxs p)) (m_datas p) p).

Definition set_userNonblock (v : bool) (c : FdCtx) : FdCtx :=
  mkFdCtx (m_isInit c) (m_isSocket c) (m_sysNonblock c) v (m_isClosed c) (m_fd c) (m_recvTimeout c) (m_sendTimeout c).
(** [FdCtx::setTimeout] *)
Definition setTimeout (type v : Z) (c : FdCtx) : FdCtx :=
  if type =? SO_RCVTIMEO
  then mkFdCtx (m_isInit c) (m_isSocket c) (m_sysNonblock c) (m_userNonblock c) (m_isClosed c) (m_fd c) v (m_sendTimeout c)
  else mkFdCtx (m_isInit c) (m_isSocket c) (m_sysNonblock c) (m_userNonblock c) (m_isClosed c) (m_fd c) (m_recvTimeout c) v.
(** [FdCtx::getTimeout] *)
Definition getTimeout (type : Z) (c : FdCtx) : Z :=
  if type =? SO_RCVTIMEO then m_recvTimeout c else m_sendTimeout c.

Section kernel.
Context `{Kernel}.

(** A call through the oracle. *)
Definition sys (c : call) : M Process Z := λ p,
  let r := reply (clock p) c in
  Ok r.1 (mkProcess (ctxs p) (m_datas p) (if r.1 =? -1 then r.2 else errno p)
            (S (clock p)) (c :: trace p)).
(** A suspension: the other fibers run. *)
Definition hold : M Process Z := λ p,
  let r := reply (clock p) YieldToHold in
  let t := others (clock p) (ctxs p, m_datas p) in
  Ok r.1 (mkProcess t.1 t.2 (errno p) (S (clock p)) (YieldToHold :: trace p)).

(** [FdCtx::init] on the object being constructed. *)
Definition init (c : FdCtx) : M Process FdCtx :=
  if m_isInit c then mret c else
  st ← sys (sys_fstat (m_fd c));
  let isInit := negb (st =? -1) in
  let isSocket := isInit && S_ISSOCK st in
  (if isSocket then
     flags ← sys (sys_fcntl (m_fd c) F_GETFL (Some 0));
     (if Z.land flags O_NONBLOCK =? 0
      then sys (sys_fcntl (m_fd c) F_SETFL (Some (Z.lor flags O_NONBLOCK)));; mret tt
      else mret tt)
   else mret tt);;
  mret (mkFdCtx isInit isSocket isSocket false false (m_fd c) no_timeout no_timeout).

(** [FdCtx::FdCtx] *)
Definition FdCtx_new (fd : Z) : M Process FdCtx :=
  init (mkFdCtx false false false false false fd no_timeout no_timeout).

(** [FdManager::FdManager]: 64 empty slots. *)
Definition FdManager_new : list (option nat) := replicate 64 None.

(** [vector::resize] *)
Definition resize (n : nat) (l : list (option nat)) : list (option nat) :=
  take n l ++ replicate (n - length l) None.

(** [m_datas[fd]], with an [int] index. *)
Definition slot (fd : Z) : M Process (option nat) := λ p,
  if fd <? 0 then Undef OutOfBounds else
  match m_datas p !! Z.to_nat fd with
  | Some o => Ok o p
  | None => Undef OutOfBounds
  end.
Definition set_slot (fd : Z) (o : option nat) : M Process unit := λ p,
  if fd <? 0 then Undef OutOfBounds else
  match m_datas p !! Z.to_nat fd with
  | Some _ => Ok tt (set_tables (ctxs p) (<[Z.to_nat fd := o]> (m_datas p)) p)
  | None => Undef OutOfBounds
  end.
(** [(int)m_datas.size()] *)
Definition datas_size : M Process Z := gets (λ p, wraps 32 (Z.of_nat (length (m_datas p)))).

(** [FdManager::get] under the read lock: what is there, or [None] to go on and
    create a context. *)
Definition get_read (fd : Z) (auto_create : bool) : M Process (option (option nat)) :=
  size ← datas_size;
  if size <=? fd then mret (if auto_create then None else Some None)
  else
    o ← slot fd;
    match o with
    | Some a => mret (Some (Some a))
    | None => mret (if auto_create then None else Some None)
    end.
(** And under the write lock; [a] is the address of the new context. *)
Definition get_create (fd : Z) (a : nat) : M Process (option nat) :=
  c ← FdCtx_new fd;
  modify (λ p, set_tables (<[a := c]> (ctxs p)) (m_datas p) p);;
  size ← datas_size;
  (if size <=? fd
   then modify (λ p, set_tables (ctxs p) (resize (Z.to_nat (fd * 3 / 2)) (m_datas p)) p)
   else mret tt);;
  set_slot fd (Some a);;
  mret (Some a).

(** [FdManager::get] *)
Definition get (fd : Z) (auto_create : bool) (a : nat) : M Process (option nat) :=
  if fd =? -1 then mret None else
  r ← get_read fd auto_create;
  match r with
  | Some o => mret o
  | None => get_create fd a
  end.

(** [FdManager::del] *)
Definition del (fd : Z) : M Process unit :=
  size ← datas_size;
  if size <=? fd then mret tt else set_slot fd None.
End kernel.
