(* ===== verification/Hook.v ===== *)
(** The hooked system calls ([sylar/hook.cc]).

    Each hooked function is a program over the [Process] state of [FdManager]:
    the original function, the timers and events of the IOManager and the
    suspension of the fiber are calls answered by the [Kernel] oracle.  [iom]
    says whether the thread has an IOManager; [a] is the address of the
    [FdCtx] a call may create. *)
From S2P Require Import Prelude FdManager.
From stdpp Require Import gmap fin_maps.

Local Open Scope Z_scope.

Definition READ : Z := 1.
Definition WRITE : Z := 4.
Definition FIONBIO : Z := 0x5421.

Section hook.
Context `{Kernel} (t_hook_enable : bool) (iom : bool).

(** [sylar::IOManager::GetThis()->...] on a thread without one. *)
Definition need_iom : M Process unit := if iom then mret tt else undef NullDeref.

(** [while(n == -1 && errno == EINTR)] *)
Fixpoint eintr_loop (fuel : nat) (fn : call) (n : Z) : M Process Z :=
  e ← gets errno;
  if (n =? -1) && (e =? EINTR) then
    match fuel with
    | O => undef NoFuel
    | S fuel => n ← sys fn; eintr_loop fuel fn n
    end
  else mret n.

(** [do_io] from the label [retry] on: [to] is the timeout. *)
Fixpoint retry (fuel : nat) (fd : Z) (fn : call) (event to : Z) : M Process Z :=
  n ← sys fn;
  n ← eintr_loop fuel fn n;
  e ← gets errno;
  if (n =? -1) && (e =? EAGAIN) then
    need_iom;;
    let timer := negb (to =? no_timeout) in
    (if timer then sys (AddTimer to);; mret tt else mret tt);;
    rt ← sys (AddEvent fd event);
    if negb (rt =? 0) then
      (if timer then sys CancelTimer;; mret tt else mret tt);;
      mret (-1)
    else
      fired ← hold;
      (if timer then sys CancelTimer;; mret tt else mret tt);;
      if timer && negb (fired =? 0) then
        modify (set_errno ETIMEDOUT);;
        mret (-1)
      else
        match fuel with
        | O => undef NoFuel
        | S fuel => retry fuel fd fn event to
        end
  else mret n.

(** [do_io] *)
Definition do_io (fuel : nat) (fd : Z) (fn : call) (event timeout_so : Z) : M Process Z :=
  if negb t_hook_enable then sys fn else
  ctx ← FdManager.get fd false 0;
  match ctx with
  | None => sys fn
  | Some c =>
      ctx ← ctx_at c;
      if m_isClosed ctx then modify (set_errno EBADF);; mret (-1)
      else if negb (m_isSocket ctx) || m_userNonblock ctx then sys fn
      else retry fuel fd fn event (getTimeout timeout_so ctx)
  end.

(** [sleep], [usleep] and [nanosleep]: the delay each passes to [addTimer], as
    the C++ arithmetic computes it. *)
Definition sleep_ms (seconds : Z) : Z := wrapu 32 (seconds * 1000).
Definition usleep_ms (usec : Z) : Z := usec / 1000.
Definition nanosleep_ms (tv_sec tv_nsec : Z) : Z :=
  wrapu 64 (wraps 32 (wraps 64 (tv_sec * 1000 + Z.quot (Z.quot tv_nsec 1000) 1000))).
Definition hooked_sleep (name : string) (ms : Z) : M Process Z :=
  if negb t_hook_enable then sys (sys_sleep name) else
  need_iom;;
  sys (AddTimer ms);;
  hold;;
  mret 0.
Definition sleep (seconds : Z) : M Process Z := hooked_sleep "sleep" (sleep_ms seconds).
Definition usleep (usec : Z) : M Process Z := hooked_sleep "usleep" (usleep_ms usec).
Definition nanosleep (tv_sec tv_nsec : Z) : M Process Z :=
  hooked_sleep "nanosleep" (nanosleep_ms tv_sec tv_nsec).

(** [socket] *)
Definition socket (a : nat) : M Process Z :=
  if negb t_hook_enable then sys sys_socket else
  fd ← sys sys_socket;
  if fd =? -1 then mret fd else
  FdManager.get fd true a;;
  mret fd.

(** [connect_with_timeout] *)
Definition connect_with_timeout (fd timeout_ms : Z) : M Process Z :=
  if negb t_hook_enable then sys (sys_connect fd) else
  ctx ← FdManager.get fd false 0;
  match ctx with
  | None => modify (set_errno EBADF);; mret (-1)
  | Some c =>
      ctx ← ctx_at c;
      if m_isClosed ctx then modify (set_errno EBADF);; mret (-1)
      else if negb (m_isSocket ctx) then sys (sys_connect fd)
      else if m_userNonblock ctx then sys (sys_connect fd)
      else
        n ← sys (sys_connect fd);
        e ← gets errno;
        if n =? 0 then mret 0
        else if negb (n =? -1) || negb (e =? EINPROGRESS) then mret n
        else
          need_iom;;
          let timer := negb (timeout_ms =? no_timeout) in
          (if timer then sys (AddTimer timeout_ms);; mret tt else mret tt);;
          rt ← sys (AddEvent fd WRITE);
          timed_out ←
            (if rt =? 0 then
               fired ← hold;
               (if timer then sys CancelTimer;; mret tt else mret tt);;
               mret (timer && negb (fired =? 0))
             else
               (if timer then sys CancelTimer;; mret tt else mret tt);;
               mret false);
          if timed_out : bool then modify (set_errno ETIMEDOUT);; mret (-1) else
          error ← sys (sys_getsockopt fd SOL_SOCKET SO_ERROR);
          if error =? -1 then mret (-1)
          else if error =? 0 then mret 0
          else modify (set_errno error);; mret (-1)
  end.
(** [connect], with [s_connect_timeout] *)
Definition connect (s_connect_timeout fd : Z) : M Process Z :=
  connect_with_timeout fd s_connect_timeout.

(** [accept] *)
Definition accept (fuel : nat) (s : Z) (a : nat) : M Process Z :=
  fd ← do_io fuel s (sys_io "accept" s) READ SO_RCVTIMEO;
  let fd := wraps 32 fd in
  (if 0 <=? fd then FdManager.get fd true a;; mret tt else mret tt);;
  mret fd.

Definition read (fuel : nat) (fd : Z) := do_io fuel fd (sys_io "read" fd) READ SO_RCVTIMEO.
Definition readv (fuel : nat) (fd : Z) := do_io fuel fd (sys_io "readv" fd) READ SO_RCVTIMEO.
Definition recv (fuel : nat) (fd : Z) := do_io fuel fd (sys_io "recv" fd) READ SO_RCVTIMEO.
Definition recvfrom (fuel : nat) (fd : Z) := do_io fuel fd (sys_io "recvfrom" fd) READ SO_RCVTIMEO.
Definition recvmsg (fuel : nat) (fd : Z) := do_io fuel fd (sys_io "recvmsg" fd) READ SO_RCVTIMEO.
Definition write (fuel : nat) (fd : Z) := do_io fuel fd (sys_io "write" fd) WRITE SO_SNDTIMEO.
Definition writev (fuel : nat) (fd : Z) := do_io fuel fd (sys_io "writev" fd) WRITE SO_SNDTIMEO.
Definition send (fuel : nat) (fd : Z) := do_io fuel fd (sys_io "send" fd) WRITE SO_SNDTIMEO.
Definition sendto (fuel : nat) (fd : Z) := do_io fuel fd (sys_io "sendto" fd) WRITE SO_SNDTIMEO.
Definition sendmsg (fuel : nat) (fd : Z) := do_io fuel fd (sys_io "sendmsg" fd) WRITE SO_SNDTIMEO.

(** [close] *)
Definition close (fd : Z) : M Process Z :=
  if negb t_hook_enable then sys (sys_close fd) else
  ctx ← FdManager.get fd false 0;
  (match ctx with
   | Some _ =>
       (if iom then sys (CancelAll fd);; mret tt else mret tt);;
       FdManager.del fd
   | None => mret tt
   end);;
  sys (sys_close fd).

(** The context of [fd] if it is an open socket. *)
Definition socket_ctx (fd : Z) : M Process (option nat) :=
  ctx ← FdManager.get fd false 0;
  match ctx with
  | None => mret None
  | Some c =>
      ctx ← ctx_at c;
      mret (if m_isClosed ctx || negb (m_isSocket ctx) then None else Some c)
  end.

(** How [fcntl] reads its variadic argument for a command. *)
Inductive fcntl_class := SetFl | GetFl | IntArg | VoidArg | PtrArg | Other.
Definition classify (cmd : Z) : fcntl_class :=
  if cmd =? F_SETFL then SetFl
  else if cmd =? F_GETFL then GetFl
  else if bool_decide (cmd ∈ [0; 1030; 2; 8; 10; 1024; 1026; 1031]) then IntArg
  else if bool_decide (cmd ∈ [1; 9; 11; 1025; 1032]) then VoidArg
  else if bool_decide (cmd ∈ [6; 7; 5; 16; 15]) then PtrArg
  else Other.

(** [fcntl] *)
Definition fcntl (fd cmd arg : Z) : M Process Z :=
  match classify cmd with
  | SetFl =>
      c ← socket_ctx fd;
      match c with
      | None => sys (sys_fcntl fd cmd (Some arg))
      | Some c =>
          update_ctx c (set_userNonblock (negb (Z.land arg O_NONBLOCK =? 0)));;
          ctx ← ctx_at c;
          sys (sys_fcntl fd cmd (Some (if m_sysNonblock ctx then Z.lor arg O_NONBLOCK
                                       else Z.land arg (Z.lnot O_NONBLOCK))))
      end
  | GetFl =>
      arg ← sys (sys_fcntl fd cmd None);
      c ← socket_ctx fd;
      match c with
      | None => mret arg
      | Some c =>
          ctx ← ctx_at c;
          mret (if m_userNonblock ctx then Z.lor arg O_NONBLOCK
                else Z.land arg (Z.lnot O_NONBLOCK))
      end
  | IntArg | PtrArg => sys (sys_fcntl fd cmd (Some arg))
  | VoidArg | Other => sys (sys_fcntl fd cmd None)
  end.

(** [ioctl]; [arg] is the integer the pointer argument points to. *)
Definition ioctl (d request arg : Z) : M Process Z :=
  if request =? FIONBIO then
    c ← socket_ctx d;
    match c with
    | None => sys (sys_ioctl d request arg)
    | Some c =>
        update_ctx c (set_userNonblock (negb (arg =? 0)));;
        sys (sys_ioctl d request arg)
    end
  else sys (sys_ioctl d request arg).

(** [getsockopt] *)
Definition getsockopt (fd level optname : Z) : M Process Z := sys (sys_getsockopt fd level optname).

(** [setsockopt]; [tv_sec] and [tv_usec] are read from [optval]. *)
Definition timeval_ms (tv_sec tv_usec : Z) : Z :=
  wrapu 64 (wraps 64 (tv_sec * 1000 + Z.quot tv_usec 1000)).
Definition setsockopt (fd level optname tv_sec tv_usec : Z) : M Process Z :=
  if negb t_hook_enable then sys (sys_setsockopt fd level optname) else
  (if (level =? SOL_SOCKET) && ((optname =? SO_RCVTIMEO) || (optname =? SO_SNDTIMEO)) then
     ctx ← FdManager.get fd false 0;
     match ctx with
     | Some c => update_ctx c (setTimeout optname (timeval_ms tv_sec tv_usec))
     | None => mret tt
     end
   else mret tt);;
  sys (sys_setsockopt fd level optname).
End hook.
