(* ===== verification/HookSpec.v ===== *)
(** Correctness of the descriptor table and of the hooked system calls. *)
From S2P Require Import Prelude FdManager Hook.
From stdpp Require Import gmap fin_maps.

Local Open Scope Z_scope.

(** ** do_io *)

Section do_io.
Context `{Kernel}.

(** [n] is the latest answer of the system to [fn], and [errno] is its. *)
Definition answered (fn : call) (n : Z) (p : Process) : Prop :=
  ∃ k e, clock p = S k ∧ reply k fn = (n, e) ∧ (n = -1 → errno p = e).

(** Calls made since [p]. *)
Definition count_call (P : call → bool) (l : list call) : nat := length (filter (λ c, P c = true) l).
Definition is_add (c : call) : bool := match c with AddTimer _ => true | _ => false end.
Definition is_cancel (c : call) : bool := match c with CancelTimer => true | _ => false end.

Lemma count_call_app P l l' : count_call P (l ++ l') = (count_call P l + count_call P l')%nat.
Proof. unfold count_call. by rewrite filter_app, length_app. Qed.

(** Timers added and cancelled between two states balance, and there are none
    without a timeout. *)
Definition balanced (to : Z) (p p' : Process) : Prop :=
  ∃ new, trace p' = new ++ trace p ∧ count_call is_add new = count_call is_cancel new
    ∧ (∀ ms, AddTimer ms ∈ new → ms = to ∧ to ≠ no_timeout).

Lemma balanced_refl to p p' : trace p' = trace p → balanced to p p'.
Proof. intros E. exists []. rewrite E. split; [done|]. split; [done|]. set_solver. Qed.
Lemma balanced_trans to p1 p2 p3 : balanced to p1 p2 → balanced to p2 p3 → balanced to p1 p3.
Proof.
  intros (n1&E1&H1&H1') (n2&E2&H2&H2'). exists (n2 ++ n1). rewrite E2, E1, app_assoc.
  split; [done|]. rewrite !count_call_app. split; [lia|]. set_solver.
Qed.
Lemma balanced_call to c p p' :
  trace p' = c :: trace p → is_add c = false → is_cancel c = false → balanced to p p'.
Proof.
  intros E H1 H2. exists [c]. rewrite E. split; [done|]. unfold count_call.
  rewrite !filter_cons, H1, H2, !decide_False by done. split; [done|].
  intros ms <-%list_elem_of_singleton. done.
Qed.

Lemma sys_ok c p :
  sys c p = Ok (reply (clock p) c).1
    (mkProcess (ctxs p) (m_datas p)
       (if (reply (clock p) c).1 =? -1 then (reply (clock p) c).2 else errno p) (S (clock p)) (c :: trace p)).
Proof. done. Qed.

Lemma sys_answered c p n p' : sys c p = Ok n p' → answered c n p'.
Proof.
  rewrite sys_ok. intros [= <- <-]. exists (clock p), (reply (clock p) c).2. simpl.
  split; [done|]. split; [by destruct (reply _ _)|]. intros ->. done.
Qed.

Context (name : string) (fd : Z).
Notation fn := (sys_io name fd).

Lemma eintr_loop_result fuel to n p n' p' :
  answered fn n p → eintr_loop fuel fn n p = Ok n' p' →
  answered fn n' p' ∧ ¬ (n' = -1 ∧ errno p' = EINTR) ∧ balanced to p p' ∧ (clock p ≤ clock p')%nat.
Proof.
  revert n p. induction fuel as [|fuel IH]; intros n p Hn E; cbn [eintr_loop] in E;
    rewrite bind_gets in E; destruct ((n =? -1) && (errno p =? EINTR)) eqn:Et.
  1,3: try done.
  2,3: injection E as <- <-; split; [done|]; split; [|split; [by apply balanced_refl|done]];
    intros [-> HE]; rewrite HE in Et; done.
  rewrite (bind_ok _ _ _ _ _ (sys_ok fn p)) in E.
  apply IH in E as (H1&H2&H3&H4); [|by eapply sys_answered].
  split; [done|]. split; [done|]. split; [|simpl in H4; lia].
  eapply balanced_trans; [|exact H3]. by eapply balanced_call.
Qed.

(** How [do_io] can end. *)
Inductive outcome (to n : Z) (p p' : Process) : Prop :=
  | out_answer :
      answered fn n p' → ¬ (n = -1 ∧ (errno p' = EINTR ∨ errno p' = EAGAIN)) → outcome to n p p'
  | out_timeout k :
      n = -1 → errno p' = ETIMEDOUT → to ≠ no_timeout →
      (clock p ≤ k < clock p')%nat → (reply k YieldToHold).1 ≠ 0 → outcome to n p p'
  | out_add k event :
      n = -1 → (clock p ≤ k < clock p')%nat → (reply k (AddEvent fd event)).1 ≠ 0 → outcome to n p p'.

Lemma outcome_later to n p1 p2 p' : (clock p1 ≤ clock p2)%nat → outcome to n p2 p' → outcome to n p1 p'.
Proof.
  intros Hc [H1 H2|k H1 H2 H3 H4 H5|k ev H1 H2 H3].
  - by apply out_answer.
  - apply (out_timeout _ _ _ _ k); try done. lia.
  - apply (out_add _ _ _ _ k ev); try done. lia.
Qed.

(** The timer of one wait: added if there is a timeout. *)
Lemma add_timer_ok (timer : bool) to p :
  ∃ p', (if timer then sys (AddTimer to);; mret tt else mret tt) p = Ok tt p'
    ∧ trace p' = (if timer then [AddTimer to] else []) ++ trace p ∧ (clock p ≤ clock p')%nat.
Proof. destruct timer; eexists; (split; [reflexivity|]); split; simpl; auto. Qed.
Lemma cancel_timer_ok (timer : bool) p :
  ∃ p', (if timer then sys CancelTimer;; mret tt else mret tt) p = Ok tt p'
    ∧ trace p' = (if timer then [CancelTimer] else []) ++ trace p ∧ (clock p ≤ clock p')%nat.
Proof. destruct timer; eexists; (split; [reflexivity|]); split; simpl; auto. Qed.

Lemma wait_balanced to p p' (mid : list call) :
  let timer := negb (to =? no_timeout) in
  trace p' = (if timer then [CancelTimer] else []) ++ mid ++ (if timer then [AddTimer to] else []) ++ trace p →
  (∀ c, c ∈ mid → is_add c = false ∧ is_cancel c = false) →
  balanced to p p'.
Proof.
  intros timer E Hmid. exists ((if timer then [CancelTimer] else []) ++ mid ++ (if timer then [AddTimer to] else [])).
  rewrite E, <-!app_assoc. split; [done|].
  assert (Hm : count_call is_add mid = 0%nat ∧ count_call is_cancel mid = 0%nat).
  { unfold count_call. rewrite !filter_none_elem; [done| |]; intros c Hc; destruct (Hmid c Hc); congruence. }
  destruct Hm as [Hm1 Hm2]. rewrite !count_call_app, Hm1, Hm2. split; [by destruct timer|].
  intros ms Hms. rewrite !elem_of_app in Hms. destruct Hms as [Hms|[Hms|Hms]].
  - destruct timer; [|by apply elem_of_nil in Hms]. apply list_elem_of_singleton in Hms. done.
  - destruct (Hmid _ Hms). done.
  - destruct timer eqn:Et; [|by apply elem_of_nil in Hms]. apply list_elem_of_singleton in Hms.
    injection Hms as ->. split; [done|]. unfold timer in Et. intros ->. done.
Qed.

Lemma retry_result iom fuel event to n p p' :
  retry iom fuel fd fn event to p = Ok n p' →
  outcome to n p p' ∧ balanced to p p' ∧ (clock p < clock p')%nat.
Proof.
  revert p. induction fuel as [|fuel IH]; intros p E; cbn [retry] in E;
    set (timer := negb (to =? no_timeout)) in *.
  all: apply bind_inv in E as (n0&p0&E0&E); pose proof (sys_answered _ _ _ _ E0) as A0;
    rewrite sys_ok in E0; injection E0 as _ <-;
    match type of A0 with answered _ _ ?q => set (p0 := q) in * end;
    assert (B0 : balanced to p p0) by (by eapply balanced_call);
    assert (C0 : (clock p < clock p0)%nat) by (simpl; lia); clearbody p0;
    apply bind_inv in E as (n1&p1&E1&E);
    destruct (eintr_loop_result _ to _ _ _ _ A0 E1) as (A1&N1&B1&C1); clear E1 A0;
    rewrite bind_gets in E;
    assert (B : balanced to p p1) by (by eapply balanced_trans);
    destruct ((n1 =? -1) && (errno p1 =? EAGAIN)) eqn:Ea;
    [|injection E as <- <-; split; [|split; [done|lia]]; apply out_answer; [done|];
      intros [-> [He|He]]; [by apply N1|rewrite He in Ea; done]].
  all: apply bind_inv in E as (?&p2&E2&E); unfold need_iom in E2; destruct iom; [|done];
    injection E2 as _ <-;
    destruct (add_timer_ok timer to p1) as (q1&Eq1&Tq1&Cq1);
    rewrite (bind_ok _ _ _ _ _ Eq1), (bind_ok _ _ _ _ _ (sys_ok (AddEvent fd event) q1)) in E;
    set (rt := reply (clock q1) (AddEvent fd event)) in *;
    set (q2 := mkProcess _ _ _ _ _) in E;
    destruct (Z.eqb_spec rt.1 0) as [Hrt|Hrt]; cbn [negb] in E.
  (* the event could not be added *)
  2,4: destruct (cancel_timer_ok timer q2) as (q3&Eq3&Tq3&Cq3); rewrite (bind_ok _ _ _ _ _ Eq3) in E;
    injection E as <- <-; simpl in Cq3;
    (split; [apply (out_add _ _ _ _ (clock q1) event); [done|lia|done]|]);
    (split; [|lia]); (eapply balanced_trans; [exact B|]);
    (eapply (wait_balanced to p1 q3 [AddEvent fd event]); [rewrite Tq3; simpl; rewrite Tq1; done|]);
    intros c ->%list_elem_of_singleton; done.
  all: unfold hold in E; apply bind_inv in E as (fired&q3&Eh&E); injection Eh as <- <-;
    match type of E with _ ?q = _ => set (q3 := q) in * end;
    destruct (cancel_timer_ok timer q3) as (q4&Eq4&Tq4&Cq4); rewrite (bind_ok _ _ _ _ _ Eq4) in E;
    simpl in Cq4;
    assert (B4 : balanced to p1 q4)
      by (eapply (wait_balanced to p1 q4 [YieldToHold; AddEvent fd event]);
          [rewrite Tq4; simpl; rewrite Tq1; done|];
          intros c Hc; repeat (apply elem_of_cons in Hc as [->|Hc]; [done|]); by apply elem_of_nil in Hc).
  all: destruct (timer && negb _) eqn:Ef.
  1,3: apply andb_true_iff in Ef as [Ht Ef]; apply negb_true_iff, Z.eqb_neq in Ef;
    unfold timer in Ht; apply negb_true_iff, Z.eqb_neq in Ht;
    injection E as <- <-; split; [|split; [|simpl; lia]];
    [apply (out_timeout _ _ _ _ (clock q2)); [done|done|done|simpl; lia|exact Ef]
    |eapply balanced_trans; [exact B|]; eapply balanced_trans; [exact B4|by apply balanced_refl]].
  - done.
  - apply IH in E as (H1&H2&H3). split; [eapply outcome_later; [|exact H1]; lia|].
    split; [|lia]. eapply balanced_trans; [exact B|]. by eapply balanced_trans.
Qed.

(** An answer that ends the loops. *)
Definition final (r : Z * Z) : Prop := r.1 ≠ -1 ∨ (r.2 ≠ EINTR ∧ r.2 ≠ EAGAIN).

Lemma answered_final N n p :
  (∀ k, (N ≤ k)%nat → final (reply k fn)) → answered fn n p → (N < clock p)%nat →
  n = -1 → errno p ≠ EINTR ∧ errno p ≠ EAGAIN.
Proof.
  intros Hfin (k&e&Hk&Hr&He) Hlt ->. destruct (Hfin k) as [Hf|Hf]; [lia| |];
    rewrite Hr in Hf; simpl in Hf; [done|]. rewrite He by done. done.
Qed.

Lemma eintr_loop_returns N fuel n p :
  (∀ k, (N ≤ k)%nat → final (reply k fn)) → answered fn n p → (N < clock p + fuel)%nat →
  ∃ n' p', eintr_loop fuel fn n p = Ok n' p'.
Proof.
  intros Hfin. revert n p. induction fuel as [|fuel IH]; intros n p Hn Hlt; cbn [eintr_loop];
    rewrite bind_gets; destruct ((n =? -1) && (errno p =? EINTR)) eqn:Et; [|by do 2 eexists| |by do 2 eexists].
  - exfalso. apply andb_true_iff in Et as [Et1%Z.eqb_eq Et2%Z.eqb_eq].
    destruct (answered_final N n p Hfin Hn); [lia|done..].
  - rewrite (bind_ok _ _ _ _ _ (sys_ok fn p)). apply IH; [by eapply sys_answered|simpl; lia].
Qed.

Lemma retry_returns N fuel event to p :
  (∀ k, (N ≤ k)%nat → final (reply k fn)) → (N ≤ clock p + fuel)%nat →
  ∃ n p', retry true fuel fd fn event to p = Ok n p'.
Proof.
  intros Hfin. revert p. induction fuel as [|fuel IH]; intros p Hlt; cbn [retry];
    rewrite (bind_ok _ _ _ _ _ (sys_ok fn p)).
  all: set (n0 := (reply (clock p) fn).1) in *; set (p0 := mkProcess _ _ _ _ _) in *;
    assert (A0 : answered fn n0 p0) by (by eapply sys_answered);
    assert (C0 : clock p0 = S (clock p)) by done; clearbody p0 n0.
  all: match goal with |- context[eintr_loop ?fl _ _] =>
      destruct (eintr_loop_returns N fl n0 p0 Hfin A0) as (n1&p1&E1); [lia|] end;
    destruct (eintr_loop_result _ to _ _ _ _ A0 E1) as (A1&_&_&C1); rewrite (bind_ok _ _ _ _ _ E1), bind_gets;
    destruct ((n1 =? -1) && (errno p1 =? EAGAIN)) eqn:Ea; [|by do 2 eexists];
    apply andb_true_iff in Ea as [Ea1%Z.eqb_eq Ea2%Z.eqb_eq].
  - exfalso. destruct (answered_final N n1 p1 Hfin A1); [lia|done..].
  - rewrite (bind_ok _ _ p1 tt p1) by done. set (timer := negb (to =? no_timeout)).
    destruct (add_timer_ok timer to p1) as (q1&Eq1&_&Cq1).
    rewrite (bind_ok _ _ _ _ _ Eq1), (bind_ok _ _ _ _ _ (sys_ok (AddEvent fd event) q1)).
    set (q2 := mkProcess _ _ _ _ _). destruct (_ =? 0); cbn [negb].
    2:{ destruct (cancel_timer_ok timer q2) as (q3&Eq3&_). rewrite (bind_ok _ _ _ _ _ Eq3). by do 2 eexists. }
    unfold hold at 1. unfold mbind at 1, M_bind at 1. cbv beta zeta iota.
    match goal with |- ∃ _ _, (_ ;; _) ?q = _ => destruct (cancel_timer_ok timer q) as (q4&Eq4&_&Cq4) end.
    rewrite (bind_ok _ _ _ _ _ Eq4). simpl in Cq4.
    destruct (timer && negb _); [by do 2 eexists|]. apply IH. lia.
Qed.
End do_io.

(** ** The descriptor table *)

Section table.
Context `{Kernel}.

(** The table never shrinks below its first size, and its entries exist. *)
Definition table_ok (p : Process) : Prop :=
  (64 ≤ length (m_datas p))%nat ∧ Z.of_nat (length (m_datas p)) < 2 ^ 31
  ∧ ∀ i a, m_datas p !! i = Some (Some a) → is_Some (ctxs p !! a).

(** What the table says about [fd]. *)
Definition entry (fd : Z) (p : Process) : option nat := default None (m_datas p !! Z.to_nat fd).

Lemma datas_size_ok p : table_ok p → datas_size p = Ok (Z.of_nat (length (m_datas p))) p.
Proof.
  intros (H1&H2&_). unfold datas_size, gets. f_equal. apply wraps_small; [lia|]. unfold in_s. simpl. lia.
Qed.

Lemma slot_ok fd p :
  0 ≤ fd < Z.of_nat (length (m_datas p)) → slot fd p = Ok (entry fd p) p.
Proof.
  intros Hfd. unfold slot, entry. rewrite (proj2 (Z.ltb_ge _ _)) by lia.
  destruct (lookup_lt_is_Some_2 (m_datas p) (Z.to_nat fd)) as [o ->]; [lia|]. done.
Qed.

Lemma entry_beyond fd p : Z.of_nat (length (m_datas p)) ≤ fd → entry fd p = None.
Proof. intros Hfd. unfold entry. rewrite lookup_ge_None_2 by lia. done. Qed.

Lemma get_read_ok fd auto p :
  table_ok p → 0 ≤ fd →
  get_read fd auto p = Ok (match entry fd p with
    | Some a => Some (Some a)
    | None => if auto then None else Some None end) p.
Proof.
  intros Hok Hfd. unfold get_read. step_with (datas_size_ok p Hok).
  destruct (Z.leb_spec (Z.of_nat (length (m_datas p))) fd).
  - rewrite entry_beyond by done. by destruct auto.
  - rewrite (bind_ok _ _ _ _ _ (slot_ok fd p ltac:(lia))). by destruct (entry fd p), auto.
Qed.

(** Only looking never changes the table. *)
Lemma get_lookup fd a p :
  table_ok p → -1 ≤ fd → FdManager.get fd false a p = Ok (if fd =? -1 then None else entry fd p) p.
Proof.
  intros Hok Hfd. unfold FdManager.get. destruct (Z.eqb_spec fd (-1)); [done|].
  rewrite (bind_ok _ _ _ _ _ (get_read_ok fd false p Hok ltac:(lia))). by destruct (entry fd p).
Qed.

(** Initialising a context leaves the table alone. *)
Lemma FdCtx_new_ok fd p :
  ∃ c p', FdCtx_new fd p = Ok c p' ∧ ctxs p' = ctxs p ∧ m_datas p' = m_datas p
    ∧ m_isSocket c = m_sysNonblock c ∧ m_userNonblock c = false ∧ m_isClosed c = false
    ∧ m_recvTimeout c = no_timeout ∧ m_sendTimeout c = no_timeout ∧ m_fd c = fd
    ∧ m_isInit c = negb ((reply (clock p) (sys_fstat fd)).1 =? -1)
    ∧ m_isSocket c = m_isInit c && S_ISSOCK (reply (clock p) (sys_fstat fd)).1.
Proof.
  unfold FdCtx_new, init. cbn [m_isInit m_fd].
  rewrite (bind_ok _ _ _ _ _ (sys_ok (sys_fstat fd) p)).
  set (st := (reply (clock p) (sys_fstat fd)).1). set (p1 := mkProcess _ _ _ _ _).
  destruct (negb (st =? -1) && S_ISSOCK st) eqn:Es.
  - unfold mbind, M_bind. unfold sys at 1. cbv beta zeta iota.
    destruct (_ =? 0); do 2 eexists; (split; [reflexivity|]); cbn; rewrite Es; done.
  - rewrite bind_ret. do 2 eexists. split; [reflexivity|]. cbn. rewrite Es. done.
Qed.

Lemma resize_lookup n (l : list (option nat)) (i : nat) :
  (length l ≤ n)%nat → (i < n)%nat → FdManager.resize n l !! i = Some (default None (l !! i)).
Proof.
  intros Hn Hi. unfold FdManager.resize. rewrite take_ge by done. destruct (decide (i < length l)%nat) as [Hl|Hl].
  - rewrite lookup_app_l by done. by destruct (lookup_lt_is_Some_2 l i Hl) as [o ->].
  - rewrite lookup_app_r by lia. rewrite lookup_replicate_2 by lia. rewrite lookup_ge_None_2 by lia. done.
Qed.

Lemma length_resize n (l : list (option nat)) : length (FdManager.resize n l) = n.
Proof. unfold FdManager.resize. rewrite length_app, length_take, length_replicate. lia. Qed.

Lemma get_create_ok fd a p :
  table_ok p → 0 ≤ fd → fd * 3 / 2 < 2 ^ 31 → ctxs p !! a = None →
  ∃ c p', get_create fd a p = Ok (Some a) p' ∧ table_ok p'
    ∧ ctxs p' = <[a := c]> (ctxs p) ∧ entry fd p' = Some a
    ∧ (∀ fd', 0 ≤ fd' → fd' ≠ fd → entry fd' p' = entry fd' p)
    ∧ m_isSocket c = m_sysNonblock c ∧ m_userNonblock c = false ∧ m_isClosed c = false
    ∧ m_recvTimeout c = no_timeout ∧ m_sendTimeout c = no_timeout ∧ m_fd c = fd.
Proof.
  intros Hok Hfd Hmax Ha. destruct (FdCtx_new_ok fd p) as (c&p1&E&Hc&Hd&F1&F2&F3&F4&F5&F6&_).
  exists c. unfold get_create. step_with E. rewrite bind_modify.
  set (p2 := set_tables _ _ p1).
  assert (Hok2 : table_ok p2).
  { destruct Hok as (H1&H2&H3). unfold p2, table_ok. simpl. rewrite Hd. split; [done|]. split; [done|].
    intros i b Hb. rewrite lookup_insert_is_Some, Hc. destruct (decide (a = b)); [auto|right]. eauto. }
  step_with (datas_size_ok p2 Hok2).
  set (p3 := if Z.of_nat (length (m_datas p2)) <=? fd
             then set_tables (ctxs p2) (FdManager.resize (Z.to_nat (fd * 3 / 2)) (m_datas p2)) p2 else p2).
  rewrite (bind_ok _ _ p2 tt p3) by (unfold p3; by destruct (_ <=? _)).
  assert (Hl : (Z.to_nat fd < length (m_datas p3))%nat ∧ (length (m_datas p2) ≤ length (m_datas p3))%nat
      ∧ Z.of_nat (length (m_datas p3)) < 2 ^ 31
      ∧ ∀ i, (i < length (m_datas p3))%nat → m_datas p3 !! i = Some (default None (m_datas p2 !! i))).
  { destruct Hok2 as (H1&H2&_). unfold p3.
    destruct (Z.leb_spec (Z.of_nat (length (m_datas p2))) fd) as [Hle|Hlt].
    - assert (fd + 1 ≤ fd * 3 / 2) by (apply Z.div_le_lower_bound; lia).
      cbn [m_datas set_tables]. rewrite length_resize. split; [lia|]. split; [lia|]. split; [lia|].
      intros i Hi. apply resize_lookup; lia.
    - split; [lia|]. split; [done|]. split; [done|]. intros i Hi.
      by destruct (lookup_lt_is_Some_2 (m_datas p2) i Hi) as [o ->]. }
  assert (Hcx : ctxs p3 = <[a := c]> (ctxs p)).
  { unfold p3. destruct (_ <=? _); simpl; by rewrite Hc. }
  destruct Hl as (L1&L2&L3&L4). unfold set_slot. mred. rewrite (proj2 (Z.ltb_ge _ _)) by lia.
  rewrite (L4 _ L1). eexists. split; [reflexivity|]. unfold table_ok, entry. cbn [m_datas ctxs set_tables].
  split; [|split; [exact Hcx|split; [|split]]].
  - rewrite length_insert. split; [destruct Hok2; lia|]. split; [done|]. intros i b Hb.
    rewrite Hcx, lookup_insert_is_Some. destruct (decide (a = b)); [auto|right]. split; [done|].
    destruct (decide (i = Z.to_nat fd)) as [->|Hi].
    { rewrite list_lookup_insert_eq in Hb by done. congruence. }
    rewrite list_lookup_insert_ne in Hb by done.
    assert (i < length (m_datas p3))%nat as Hil by (by eapply lookup_lt_Some).
    rewrite (L4 i Hil) in Hb. injection Hb as Hb.
    destruct Hok as (_&_&H3). apply (H3 i). rewrite <-Hd.
    by destruct (m_datas p1 !! i) as [o|]; [f_equal|].
  - by rewrite list_lookup_insert_eq.
  - intros fd' H0 Hne. rewrite list_lookup_insert_ne by lia.
    assert (Hp2 : m_datas p2 = m_datas p) by (unfold p2; simpl; by rewrite Hd).
    destruct (decide (Z.to_nat fd' < length (m_datas p3))%nat) as [Hlt|Hge].
    + rewrite (L4 _ Hlt). by rewrite Hp2.
    + rewrite !lookup_ge_None_2 by (rewrite <-?Hp2; lia). done.
  - done.
Qed.
End table.

(** ** Properties *)

(** C18: a hooked I/O call on a blocking socket returns, as soon as the system
    stops answering EINTR and EAGAIN from some point on, and it returns either
    the system's latest answer, which is then no EINTR or EAGAIN, or -1 with
    ETIMEDOUT after a wait that the timer ended (only with a timeout set), or
    -1 after [addEvent] failed.  Every timer it set carries the socket's
    timeout and was cancelled again. *)
Theorem do_io_outcome `{Kernel} (fuel N : nat) (fd : Z) (name : string) (event so : Z)
    (p : Process) (c : nat) (ctx : FdCtx)
    (Hok : table_ok p) (Hfd : 0 ≤ fd) (Hc : entry fd p = Some c) (Hctx : ctxs p !! c = Some ctx)
    (Hsock : m_isSocket ctx = true) (Hopen : m_isClosed ctx = false) (Hblock : m_userNonblock ctx = false)
    (Hfin : ∀ k, (N ≤ k)%nat → final (reply k (sys_io name fd))) (Hfuel : (N ≤ clock p + fuel)%nat) :
  let to := getTimeout so ctx in
  ∃ n p', do_io true true fuel fd (sys_io name fd) event so p = Ok n p'
    ∧ ((∃ k e, clock p' = S k ∧ (clock p ≤ k)%nat ∧ reply k (sys_io name fd) = (n, e)
          ∧ (n = -1 → errno p' = e ∧ e ≠ EINTR ∧ e ≠ EAGAIN))
       ∨ (n = -1 ∧ errno p' = ETIMEDOUT ∧ to ≠ no_timeout
          ∧ ∃ k, (clock p ≤ k < clock p')%nat ∧ (reply k YieldToHold).1 ≠ 0)
       ∨ (n = -1 ∧ ∃ k ev, (clock p ≤ k < clock p')%nat ∧ (reply k (AddEvent fd ev)).1 ≠ 0))
    ∧ ∃ new, trace p' = new ++ trace p ∧ count_call is_add new = count_call is_cancel new
        ∧ ∀ ms, AddTimer ms ∈ new → ms = to ∧ to ≠ no_timeout.
Proof.
  intros to. destruct (retry_returns name fd N fuel event to p Hfin Hfuel) as (n&p'&E).
  destruct (retry_result name fd true fuel event to n p p' E) as (Ho&Hb&Hclk).
  exists n, p'. split; [|split; [|exact Hb]].
  - unfold do_io. cbn [negb]. rewrite (bind_ok _ _ _ _ _ (get_lookup fd 0 p Hok ltac:(lia))).
    rewrite (proj2 (Z.eqb_neq _ _)) by lia. rewrite Hc.
    rewrite (bind_ok _ _ p ctx p) by (unfold ctx_at; mred; by rewrite Hctx).
    rewrite Hopen, Hsock, Hblock. exact E.
  - destruct Ho as [(k&e&Hk&Hr&He) Hn|k H1 H2 H3 H4 H5|k ev H1 H2 H3].
    + left. exists k, e. split; [done|]. split.
      { lia. }
      split; [done|].
      intros ->. rewrite He by done. split; [done|]. rewrite He in Hn by done. tauto.
    + right. left. eauto 10.
    + right. right. eauto 10.
Qed.

(** A system that answers EAGAIN once, then seven bytes. *)
Definition demo_kernel : Kernel := {|
  reply k c := match c with
    | sys_io _ _ => if Nat.eqb k 0 then (-1, EAGAIN) else (7, 0)
    | sys_fstat _ => (0xC000, 0)
    | sys_fcntl _ _ _ => (2, 0)
    | _ => (0, 0)
    end;
  others _ t := t;
|}.
Definition demo_ctx : FdCtx := mkFdCtx true true true false false 5 300 no_timeout.
Definition demo_process : Process :=
  mkProcess {[9%nat := demo_ctx]} (<[5%nat := Some 9%nat]> (replicate 64 None)) 0 0 [].

Lemma demo_process_ok : table_ok demo_process.
Proof.
  split; [vm_compute; lia|]. split; [vm_compute; done|]. intros i a Hi.
  change (m_datas demo_process) with (<[5%nat := Some 9%nat]> (replicate 64 (@None nat))) in Hi.
  destruct (decide (i = 5%nat)) as [->|Hne].
  - rewrite list_lookup_insert_eq in Hi by (vm_compute; lia). injection Hi as <-. simpl. eauto.
  - rewrite list_lookup_insert_ne in Hi by done. apply lookup_replicate in Hi as [? _]. done.
Qed.

Lemma do_io_outcome_witness :
  ∃ n p', @do_io demo_kernel true true 5 5 (sys_io "read" 5) READ SO_RCVTIMEO demo_process = Ok n p' ∧ n = 7
    ∧ trace p' = [sys_io "read" 5; CancelTimer; YieldToHold; AddEvent 5 READ; AddTimer 300; sys_io "read" 5].
Proof.
  destruct (@do_io_outcome demo_kernel 5 1 5 "read" READ SO_RCVTIMEO demo_process 9 demo_ctx)
    as (n&p'&E&_).
  - exact demo_process_ok.
  - lia.
  - reflexivity.
  - reflexivity.
  - reflexivity.
  - reflexivity.
  - reflexivity.
  - intros [|k] Hk; [lia|]. left. discriminate.
  - simpl. lia.
  - exists n, p'. split; [exact E|]. vm_compute in E. injection E as <- <-. split; reflexivity.
Defined.

(** The descriptor table: [get] finds what is there and changes nothing;
    with [auto_create] it makes, for a descriptor without one, a context whose
    socket flag follows [fstat], enters it for this descriptor only, growing
    the table when needed, and a later [get] finds it; [del] removes it. *)
Theorem fd_get_del `{Kernel} (fd : Z) (a b : nat) (p : Process)
    (Hok : table_ok p) (Hfd : 0 ≤ fd) (Hmax : fd * 3 / 2 < 2 ^ 31) (Ha : ctxs p !! a = None) :
  (∀ c, entry fd p = Some c → ∀ auto, FdManager.get fd auto a p = Ok (Some c) p)
  ∧ (entry fd p = None →
      FdManager.get fd false a p = Ok None p ∧
      ∃ c p', FdManager.get fd true a p = Ok (Some a) p'
        ∧ table_ok p' ∧ ctxs p' = <[a := c]> (ctxs p)
        ∧ m_isSocket c = m_sysNonblock c ∧ m_userNonblock c = false ∧ m_isClosed c = false
        ∧ m_recvTimeout c = no_timeout ∧ m_sendTimeout c = no_timeout ∧ m_fd c = fd
        ∧ (∀ fd', 0 ≤ fd' → FdManager.get fd' false b p' = Ok (if decide (fd' = fd) then Some a else entry fd' p) p')
        ∧ ∃ p'', del fd p' = Ok tt p'' ∧ FdManager.get fd false b p'' = Ok None p''
            ∧ ctxs p'' = ctxs p').
Proof.
  assert (Hne : (fd =? -1) = false) by lia. split.
  - intros c Hc auto. unfold FdManager.get. rewrite Hne.
    rewrite (bind_ok _ _ _ _ _ (get_read_ok fd auto p Hok Hfd)). by rewrite Hc.
  - intros Hc. split; [rewrite (get_lookup fd a p Hok) by lia; by rewrite Hne, Hc|].
    destruct (get_create_ok fd a p Hok Hfd Hmax Ha) as (c&p'&E&Hok'&Hcx&Hen&Hoth&F).
    exists c, p'. split.
    { unfold FdManager.get. rewrite Hne.
      rewrite (bind_ok _ _ _ _ _ (get_read_ok fd true p Hok Hfd)). by rewrite Hc. }
    split; [done|]. split; [done|]. destruct F as (F1&F2&F3&F4&F5&F6). do 6 (split; [done|]). split.
    { intros fd' Hfd'. rewrite (get_lookup fd' b p' Hok') by lia.
      rewrite (proj2 (Z.eqb_neq _ _)) by lia. f_equal. case_decide as Hd; [by subst|by apply Hoth]. }
    assert (Hlt : (Z.to_nat fd < length (m_datas p'))%nat).
    { unfold entry in Hen. destruct (m_datas p' !! Z.to_nat fd) eqn:El; [|done]. by eapply lookup_lt_Some. }
    set (p'' := set_tables (ctxs p') (<[Z.to_nat fd := None]> (m_datas p')) p').
    assert (Hok'' : table_ok p'').
    { destruct Hok' as (H1&H2&H3). unfold p'', table_ok. simpl. rewrite length_insert.
      split; [done|]. split; [done|]. intros i x Hi. destruct (decide (i = Z.to_nat fd)) as [->|Hi'].
      - rewrite list_lookup_insert_eq in Hi by done. done.
      - rewrite list_lookup_insert_ne in Hi by done. eauto. }
    exists p''. split; [|split; [|done]].
    + unfold del. step_with (datas_size_ok p' Hok'). rewrite (proj2 (Z.leb_gt _ _)) by lia.
      unfold set_slot. rewrite (proj2 (Z.ltb_ge _ _)) by lia.
      by destruct (lookup_lt_is_Some_2 (m_datas p') (Z.to_nat fd) Hlt) as [o ->].
    + rewrite (get_lookup fd b p'' Hok'') by lia. rewrite Hne. f_equal. unfold entry. simpl.
      by rewrite list_lookup_insert_eq.
Qed.

Lemma fd_get_del_witness :
  FdManager.get 5 true 20 (H := demo_kernel) demo_process = Ok (Some 9%nat) demo_process
  ∧ ∃ p', FdManager.get 70 true 20 (H := demo_kernel) demo_process = Ok (Some 20%nat) p' ∧ length (m_datas p') = 105%nat.
Proof.
  destruct (@fd_get_del demo_kernel 5 20 0 demo_process) as [H5 _];
    [exact demo_process_ok|lia|vm_compute; done|reflexivity|].
  destruct (@fd_get_del demo_kernel 70 20 0 demo_process) as [_ H70];
    [exact demo_process_ok|lia|vm_compute; done|reflexivity|].
  split; [apply H5; reflexivity|].
  destruct H70 as (_&c&p'&E&_); [reflexivity|]. exists p'. split; [exact E|].
  vm_compute in E. injection E as <-. reflexivity.
Defined.

(** The user's O_NONBLOCK is virtual for sockets: after [F_SETFL] the kernel
    was asked for a non-blocking descriptor whatever the user asked for, and
    [F_GETFL] reports the bit the user set and otherwise the kernel's flags. *)
Theorem fcntl_nonblock `{Kernel} (fd arg x : Z) (p : Process) (c : nat) (ctx : FdCtx)
    (Hok : table_ok p) (Hfd : 0 ≤ fd) (Hc : entry fd p = Some c) (Hctx : ctxs p !! c = Some ctx)
    (Hsock : m_isSocket ctx = true) (Hopen : m_isClosed ctx = false) (Hsys : m_sysNonblock ctx = true) :
  ∃ n p1, fcntl fd F_SETFL arg p = Ok n p1
    ∧ trace p1 = sys_fcntl fd F_SETFL (Some (Z.lor arg O_NONBLOCK)) :: trace p
    ∧ ∃ r p2, fcntl fd F_GETFL x p1 = Ok r p2
    ∧ Z.testbit r 11 = Z.testbit arg 11
    ∧ ∀ i, 0 ≤ i → i ≠ 11 → Z.testbit r i = Z.testbit (reply (clock p1) (sys_fcntl fd F_GETFL None)).1 i.
Proof.
  assert (Hbit : ∀ i, 0 ≤ i → Z.testbit O_NONBLOCK i = bool_decide (i = 11)).
  { intros i Hi. change O_NONBLOCK with (2 ^ 11). rewrite Z.pow2_bits_eqb by lia.
    destruct (Z.eqb_spec 11 i); [by rewrite bool_decide_true|by rewrite bool_decide_false by lia]. }
  assert (Hsc : ∀ q cx, table_ok q → entry fd q = Some c → ctxs q !! c = Some cx →
      m_isSocket cx = true → m_isClosed cx = false → socket_ctx fd q = Ok (Some c) q).
  { intros q cx Hq Hcq Hcx Hs Ho. unfold socket_ctx.
    rewrite (bind_ok _ _ _ _ _ (get_lookup fd 0 q Hq ltac:(lia))), (proj2 (Z.eqb_neq _ _)), Hcq by lia.
    rewrite (bind_ok _ _ q cx q) by (unfold ctx_at; mred; by rewrite Hcx). by rewrite Hs, Ho. }
  set (u := negb (Z.land arg O_NONBLOCK =? 0)).
  assert (Hu : u = Z.testbit arg 11).
  { unfold u. destruct (Z.eqb_spec (Z.land arg O_NONBLOCK) 0) as [E|E]; cbn [negb].
    - assert (Hb : Z.testbit (Z.land arg O_NONBLOCK) 11 = false) by (rewrite E; apply Z.bits_0).
      rewrite Z.land_spec, Hbit, andb_true_r in Hb by lia. done.
    - destruct (Z.testbit arg 11) eqn:Eb; [done|]. exfalso. apply E. apply Z.bits_inj'. intros i Hi.
      rewrite Z.land_spec, Hbit, Z.bits_0 by done. case_bool_decide; [subst; by rewrite Eb|apply andb_false_r]. }
  unfold fcntl at 1. cbn [classify F_SETFL F_GETFL].
  change (classify F_SETFL) with SetFl. cbv iota.
  rewrite (bind_ok _ _ _ _ _ (Hsc p ctx Hok Hc Hctx Hsock Hopen)). unfold update_ctx. rewrite bind_modify.
  set (p0 := set_tables _ _ p).
  assert (Hctx0 : ctxs p0 !! c = Some (set_userNonblock u ctx)).
  { simpl. rewrite lookup_alter_eq, Hctx. done. }
  rewrite (bind_ok _ _ p0 (set_userNonblock u ctx) p0) by (unfold ctx_at; mred; by rewrite Hctx0).
  cbn [m_sysNonblock set_userNonblock]. rewrite Hsys.
  rewrite (sys_ok (sys_fcntl fd F_SETFL (Some (Z.lor arg O_NONBLOCK))) p0).
  set (w := reply (clock p0) _). set (p1 := mkProcess (ctxs p0) _ _ _ _).
  eexists w.1, p1.
  split; [reflexivity|]. split; [reflexivity|].
  assert (∃ r p2, fcntl fd F_GETFL x p1 = Ok r p2 ∧ Z.testbit r 11 = u
    ∧ ∀ i, 0 ≤ i → i ≠ 11 → Z.testbit r i = Z.testbit (reply (clock p1) (sys_fcntl fd F_GETFL None)).1 i) as (r&p2&E1&E2&E3).
  2:{ exists r, p2. rewrite <-Hu. done. }
  unfold fcntl. change (classify F_GETFL) with GetFl. cbv iota.
  rewrite (bind_ok _ _ _ _ _ (sys_ok (sys_fcntl fd F_GETFL None) p1)).
  set (fl := (reply (clock p1) (sys_fcntl fd F_GETFL None)).1). set (p2 := mkProcess _ _ _ (S (clock p1)) _).
  assert (Hok2 : table_ok p2).
  { destruct Hok as (H1&H2&H3). split; [done|]. split; [done|]. intros i b Hb. simpl.
    rewrite lookup_alter_is_Some. eauto. }
  rewrite (bind_ok _ _ _ _ _ (Hsc p2 _ Hok2 Hc Hctx0 Hsock Hopen)).
  rewrite (bind_ok _ _ p2 (set_userNonblock u ctx) p2) by (unfold ctx_at; mred; change (ctxs p2) with (ctxs p0); by rewrite Hctx0).
  cbn [m_userNonblock set_userNonblock]. do 2 eexists. split; [reflexivity|]. destruct u; split.
  - by rewrite Z.lor_spec, Hbit, orb_true_r by lia.
  - intros i Hi Hne. by rewrite Z.lor_spec, Hbit, bool_decide_false, orb_false_r by done.
  - by rewrite Z.land_spec, Z.lnot_spec, Hbit, andb_false_r by lia.
  - intros i Hi Hne. by rewrite Z.land_spec, Z.lnot_spec, Hbit, bool_decide_false, andb_true_r by done.
Qed.

Lemma fcntl_nonblock_witness :
  ∃ n p1, @fcntl demo_kernel 5 F_SETFL 0 demo_process = Ok n p1
    ∧ trace p1 = [sys_fcntl 5 F_SETFL (Some O_NONBLOCK)].
Proof.
  destruct (@fcntl_nonblock demo_kernel 5 0 0 demo_process 9 demo_ctx) as (n&p1&E&T&_);
    [exact demo_process_ok|lia|reflexivity..|].
  exists n, p1. split; [exact E|exact T].
Defined.

(** The delay the hooked sleeps hand to the timer is the requested time, in
    whole milliseconds, exactly when it fits: [sleep] up to 4294967 seconds,
    [nanosleep] below 2^31 milliseconds; beyond, [sleep] wraps to a shorter
    delay and [nanosleep] from 2^31 to 2^32 milliseconds turns into a delay
    above 2^63. *)
Theorem sleep_delays (s us sec ns : Z) (Hs : in_u 32 s) (Hus : in_u 32 us)
    (Hsec : 0 ≤ sec < 2 ^ 32) (Hns : 0 ≤ ns < 1000000000) :
  (s ≤ 4294967 → sleep_ms s = s * 1000) ∧ (4294967 < s → sleep_ms s < s * 1000)
  ∧ usleep_ms us * 1000 ≤ us < usleep_ms us * 1000 + 1000
  ∧ (sec * 1000 + ns / 1000000 < 2 ^ 31 → nanosleep_ms sec ns = sec * 1000 + ns / 1000000)
  ∧ (2 ^ 31 ≤ sec * 1000 + ns / 1000000 < 2 ^ 32 → 2 ^ 63 < nanosleep_ms sec ns).
Proof.
  unfold in_u in *. split; [|split; [|split; [|]]].
  - intros H. apply wrapu_small. unfold in_u. lia.
  - intros H. unfold sleep_ms. pose proof (wrapu_range 32 (s * 1000) ltac:(lia)) as Hr. unfold in_u in Hr. lia.
  - unfold usleep_ms. pose proof (Z.div_mod us 1000 ltac:(lia)). pose proof (Z.mod_pos_bound us 1000 ltac:(lia)). lia.
  - assert (Hq : Z.quot (Z.quot ns 1000) 1000 = ns / 1000000).
    { rewrite Z.quot_div_nonneg by (try apply Z.quot_pos; lia). rewrite Z.quot_div_nonneg by lia.
      by rewrite Z.div_div by lia. }
    assert (0 ≤ ns / 1000000 < 1000) by (split; [apply Z.div_pos; lia|apply Z.div_lt_upper_bound; lia]).
    unfold nanosleep_ms. rewrite Hq. set (ms := sec * 1000 + ns / 1000000) in *.
    rewrite (wraps_small 64 ms) by (unfold in_s; lia). split; intros Hms.
    + rewrite wraps_small by (unfold in_s; lia). apply wrapu_small. unfold in_u. lia.
    + assert (E : wraps 32 ms = ms - 2 ^ 32).
      { unfold wraps. replace (ms + 2 ^ (32 - 1)) with ((ms - 2 ^ 31) + 1 * 2 ^ 32) by lia.
        rewrite Z.mod_add by lia. rewrite Z.mod_small by lia. lia. }
      rewrite E. unfold wrapu. replace (ms - 2 ^ 32) with ((ms - 2 ^ 32 + 2 ^ 64) + (-1) * 2 ^ 64) by lia.
      rewrite Z.mod_add by lia. rewrite Z.mod_small by lia. lia.
Qed.

Lemma sleep_delays_witness :
  sleep_ms 3600 = 3600000 ∧ sleep_ms 4294968 = 704 ∧ 2 ^ 63 < nanosleep_ms 3000000 0.
Proof.
  destruct (sleep_delays 3600 0 3000000 0) as (H1&_&_&_&H2).
  1-4: unfold in_u; lia.
  split; [apply H1; lia|]. split; [reflexivity|]. apply H2. change (0 / 1000000) with 0. lia.
Defined.
