(* ===== verification/IOManager.v ===== *)
(** The event loop ([sylar/iomanager.h], [sylar/iomanager.cc]).

    An [IOManager] is a [Scheduler] and a [TimerManager] with a table of
    [FdContext]s.  The contexts live in a heap, the table holds their addresses.
    [epoll_ctl] is an oracle that decides from the history of successful calls;
    these are recorded in [ctl].  Each lock section is one operation. *)
From S2P Require Import Prelude Timer Fiber Scheduler.
From stdpp Require Import gmap fin_maps.

Local Open Scope Z_scope.

(** ** Constants *)

Definition NONE : Z := 0.
Definition READ : Z := 1.
Definition WRITE : Z := 4.
Definition EPOLLIN : Z := 1.
Definition EPOLLOUT : Z := 4.
Definition EPOLLERR : Z := 8.
Definition EPOLLHUP : Z := 16.
Definition EPOLLET : Z := 2 ^ 31.

Inductive ctl_op := EPOLL_CTL_ADD | EPOLL_CTL_MOD | EPOLL_CTL_DEL.
#[export] Instance ctl_op_eq_dec : EqDecision ctl_op.
Proof. solve_decision. Defined.

(** ** Data *)

(** [FdContext::EventContext] *)
Record EventContext := mkEventContext {
  ec_scheduler : option nat;
  ec_fiber : option nat;
  ec_cb : option callback;
}.
Definition no_event : EventContext := mkEventContext None None None.

(** [IOManager::FdContext] *)
Record FdContext := mkFdContext {
  fc_read : EventContext;
  fc_write : EventContext;
  fc_fd : Z;
  fc_events : Z;
}.

(** One call of [epoll_ctl]: operation, descriptor, events, [data.ptr]. *)
Definition ctl_call : Type := ctl_op * Z * Z * nat.

Record IOManager := mkIOManager {
  base : Scheduler;
  timers : TimerManager;
  fdctx : gmap nat FdContext;            (** the contexts, by address *)
  m_fdContexts : list nat;
  brk : nat;                             (** the next address [new] returns *)
  m_pendingEventCount : Z;
  ctl : list ctl_call;                   (** successful calls, latest first *)
  elsewhere : list (nat * FiberAndThread);  (** tasks given to other schedulers *)
}.

Definition set_base (s : Scheduler) (io : IOManager) : IOManager :=
  mkIOManager s (timers io) (fdctx io) (m_fdContexts io) (brk io) (m_pendingEventCount io) (ctl io) (elsewhere io).
Definition set_timers (t : TimerManager) (io : IOManager) : IOManager :=
  mkIOManager (base io) t (fdctx io) (m_fdContexts io) (brk io) (m_pendingEventCount io) (ctl io) (elsewhere io).
Definition set_fdctx (m : gmap nat FdContext) (io : IOManager) : IOManager :=
  mkIOManager (base io) (timers io) m (m_fdContexts io) (brk io) (m_pendingEventCount io) (ctl io) (elsewhere io).
Definition set_table (l : list nat) (m : gmap nat FdContext) (b : nat) (io : IOManager) : IOManager :=
  mkIOManager (base io) (timers io) m l b (m_pendingEventCount io) (ctl io) (elsewhere io).
Definition set_pending (n : Z) (io : IOManager) : IOManager :=
  mkIOManager (base io) (timers io) (fdctx io) (m_fdContexts io) (brk io) n (ctl io) (elsewhere io).
Definition add_ctl (c : ctl_call) (io : IOManager) : IOManager :=
  mkIOManager (base io) (timers io) (fdctx io) (m_fdContexts io) (brk io) (m_pendingEventCount io) (c :: ctl io) (elsewhere io).
Definition send_elsewhere (s : nat) (ft : FiberAndThread) (io : IOManager) : IOManager :=
  mkIOManager (base io) (timers io) (fdctx io) (m_fdContexts io) (brk io) (m_pendingEventCount io) (ctl io) (elsewhere io ++ [(s, ft)]).

(** [IOManager::tickle]: a byte into the pipe, when there are no idle threads. *)
#[export] Instance IOManager_tickle : Tickle.
Proof.
  refine {| tickle := λ s, if hasIdleThreads s then s else add_wakeup s |}.
  intros s. destruct (hasIdleThreads s); [by exists 0%nat|by exists 1%nat].
Defined.

Definition on_base {A} (m : M Scheduler A) : M IOManager A := λ io,
  match m (base io) with
  | Ok a s => Ok a (set_base s io)
  | Throw e s => Throw e (set_base s io)
  | Abort => Abort
  | Undef u => Undef u
  end.
Definition on_timers {A} (m : M TimerManager A) : M IOManager A := λ io,
  match m (timers io) with
  | Ok a t => Ok a (set_timers t io)
  | Throw e t => Throw e (set_timers t io)
  | Abort => Abort
  | Undef u => Undef u
  end.

(** ** FdContext *)

Definition ctx_at (a : nat) : M IOManager FdContext := λ io : IOManager, deref (fdctx io !! a) io.
Definition update_ctx (a : nat) (f : FdContext → FdContext) : M IOManager unit :=
  modify (λ io, set_fdctx (alter f a (fdctx io)) io).

(** [FdContext::getContext] *)
Definition getContext (c : FdContext) (event : Z) : option EventContext :=
  if event =? READ then Some (fc_read c)
  else if event =? WRITE then Some (fc_write c)
  else None.
(** Writing through the reference [getContext] returns. *)
Definition set_context (event : Z) (e : EventContext) (c : FdContext) : FdContext :=
  if event =? READ then mkFdContext e (fc_write c) (fc_fd c) (fc_events c)
  else mkFdContext (fc_read c) e (fc_fd c) (fc_events c).
Definition set_events (n : Z) (c : FdContext) : FdContext :=
  mkFdContext (fc_read c) (fc_write c) (fc_fd c) n.
(** [FdContext::resetContext] *)
Definition resetContext (e : EventContext) : EventContext := no_event.

Section manager.
Context (this : nat) (epoll_ctl : list ctl_call → ctl_call → bool).

(** [ctx.scheduler->schedule(..)]; the scheduler may be this manager or another. *)
Definition schedule_on (s : option nat) (ft : FiberAndThread) : M IOManager unit :=
  s ← λ io : IOManager, deref s io;
  if Nat.eqb s this then on_base (schedule ft) else modify (send_elsewhere s ft).

(** [FdContext::triggerEvent]: scheduling through the pointer empties [cb] or
    [fiber]. *)
Definition triggerEvent (a : nat) (event : Z) : M IOManager unit :=
  c ← ctx_at a;
  sylar_assert (negb (Z.land (fc_events c) event =? 0));;
  update_ctx a (set_events (Z.land (fc_events c) (Z.lnot event)));;
  match getContext c event with
  | None => λ _, Abort
  | Some e =>
      (match ec_cb e with
       | Some cb => schedule_on (ec_scheduler e) (FT_cb (Some cb) (-1))
       | None => schedule_on (ec_scheduler e) (FT_fiber (ec_fiber e) (-1))
       end);;
      update_ctx a (set_context event
        (match ec_cb e with
         | Some _ => mkEventContext None (ec_fiber e) None
         | None => mkEventContext None None None
         end))
  end.

(** [contextResize]: [new FdContext] for every empty slot. *)
Fixpoint fill (n : nat) (i : nat) (l : list nat) (m : gmap nat FdContext) (b : nat) :
    list nat * gmap nat FdContext * nat :=
  match n with
  | O => (l, m, b)
  | S n => fill n (S i) (l ++ [b]) (<[b := mkFdContext no_event no_event (Z.of_nat i) NONE]> m) (S b)
  end.
Definition contextResize (size : nat) : M IOManager unit :=
  modify (λ io,
    let l := take size (m_fdContexts io) in
    let '(l', m', b') := fill (size - length l) (length l) l (fdctx io) (brk io) in
    set_table l' m' b' io).

(** [m_fdContexts[fd]] with an [int] index *)
Definition slot (fd : Z) : M IOManager nat := λ io,
  if fd <? 0 then Undef OutOfBounds else
  match m_fdContexts io !! Z.to_nat fd with
  | Some a => Ok a io
  | None => Undef OutOfBounds
  end.
Definition table_size : M IOManager Z := gets (λ io, wraps 32 (Z.of_nat (length (m_fdContexts io)))).

(** [addEvent], first under the read lock, then under the write lock. *)
Definition addEvent_lookup (fd : Z) : M IOManager (option nat) :=
  size ← table_size;
  if fd <? size then a ← slot fd; mret (Some a) else mret None.
Definition addEvent_grow (fd : Z) : M IOManager nat :=
  contextResize (Z.to_nat (fd * 3 / 2));;
  slot fd.

(** [epoll_ctl] *)
Definition do_ctl (c : ctl_call) : M IOManager bool :=
  ok ← gets (λ io, epoll_ctl (ctl io) c);
  (if ok : bool then modify (add_ctl c) else mret tt);;
  mret ok.

(** [addEvent] under the context's mutex; [cur_sched] is [Scheduler::GetThis()],
    [cur] the running fiber with its state. *)
Definition addEvent_body (a : nat) (fd event : Z) (cb : option callback) (cur_sched : option nat)
    (cur : nat * State) : M IOManager Z :=
  c ← ctx_at a;
  (if negb (fc_events c =? 0) && negb (event =? 0)
   then sylar_assert (Z.land (fc_events c) event =? 0) else mret tt);;
  let op := if fc_events c =? 0 then EPOLL_CTL_ADD else EPOLL_CTL_MOD in
  ok ← do_ctl (op, fd, Z.lor (Z.lor EPOLLET (fc_events c)) event, a);
  if negb ok then mret (-1) else
  modify (λ io, set_pending (wrapu 64 (m_pendingEventCount io + 1)) io);;
  update_ctx a (set_events (Z.lor (fc_events c) event));;
  match getContext c event with
  | None => λ _, Abort
  | Some e =>
      sylar_assert (bool_decide (ec_scheduler e = None));;
      sylar_assert (bool_decide (ec_fiber e = None));;
      sylar_assert (bool_decide (ec_cb e = None));;
      match cb with
      | Some f => update_ctx a (set_context event (mkEventContext cur_sched None (Some f)))
      | None =>
          update_ctx a (set_context event (mkEventContext cur_sched (Some cur.1) None));;
          sylar_assert (bool_decide (cur.2 = EXEC))
      end;;
      mret 0
  end.

(** [IOManager::addEvent] *)
Definition addEvent (fd event : Z) (cb : option callback) (cur_sched : option nat) (cur : nat * State) :
    M IOManager Z :=
  o ← addEvent_lookup fd;
  a ← match o with Some a => mret a | None => addEvent_grow fd end;
  addEvent_body a fd event cb cur_sched cur.

(** The common start of [delEvent], [cancelEvent] and [cancelAll]. *)
Definition with_context {A} (fd : Z) (none : A) (k : nat → FdContext → M IOManager A) : M IOManager A :=
  size ← table_size;
  if size <=? fd then mret none else
  a ← slot fd;
  c ← ctx_at a;
  k a c.

(** [IOManager::delEvent] *)
Definition delEvent (fd event : Z) : M IOManager bool :=
  with_context fd false (λ a c,
    if Z.land (fc_events c) event =? 0 then mret false else
    let new_events := Z.land (fc_events c) (Z.lnot event) in
    let op := if new_events =? 0 then EPOLL_CTL_DEL else EPOLL_CTL_MOD in
    ok ← do_ctl (op, fd, Z.lor EPOLLET new_events, a);
    if negb ok then mret false else
    modify (λ io, set_pending (wrapu 64 (m_pendingEventCount io - 1)) io);;
    update_ctx a (set_events new_events);;
    match getContext c event with
    | None => λ _, Abort
    | Some e => update_ctx a (set_context event (resetContext e));; mret true
    end).

(** [IOManager::cancelEvent] *)
Definition cancelEvent (fd event : Z) : M IOManager bool :=
  with_context fd false (λ a c,
    if Z.land (fc_events c) event =? 0 then mret false else
    let new_events := Z.land (fc_events c) (Z.lnot event) in
    let op := if new_events =? 0 then EPOLL_CTL_DEL else EPOLL_CTL_MOD in
    ok ← do_ctl (op, fd, Z.lor EPOLLET new_events, a);
    if negb ok then mret false else
    triggerEvent a event;;
    modify (λ io, set_pending (wrapu 64 (m_pendingEventCount io - 1)) io);;
    mret true).

(** One [if(.. & event) { triggerEvent(event); --m_pendingEventCount; }] *)
Definition trigger_if (cond : bool) (a : nat) (event : Z) : M IOManager unit :=
  if cond then
    triggerEvent a event;;
    modify (λ io, set_pending (wrapu 64 (m_pendingEventCount io - 1)) io)
  else mret tt.

(** [IOManager::cancelAll] *)
Definition cancelAll (fd : Z) : M IOManager bool :=
  with_context fd false (λ a c,
    if fc_events c =? 0 then mret false else
    ok ← do_ctl (EPOLL_CTL_DEL, fd, 0, a);
    if negb ok then mret false else
    trigger_if (negb (Z.land (fc_events c) READ =? 0)) a READ;;
    c1 ← ctx_at a;
    trigger_if (negb (Z.land (fc_events c1) WRITE =? 0)) a WRITE;;
    c2 ← ctx_at a;
    sylar_assert (fc_events c2 =? 0);;
    mret true).

(** [IOManager::stopping(next_timeout)] *)
Definition stopping_timeout (now : Z) : M IOManager (bool * Z) :=
  next_timeout ← on_timers (getNextTimer now);
  io ← Prelude.get;
  mret ((m_pendingEventCount io =? 0) && (next_timeout =? 2 ^ 64 - 1) && Scheduler.stopping (base io), next_timeout).

(** The [int] passed to [epoll_wait]. *)
Definition MAX_TIMEOUT : Z := 5000.
Definition clamp_timeout (next_timeout : Z) : Z :=
  if negb (next_timeout =? 2 ^ 64 - 1)
  then (if MAX_TIMEOUT <? wraps 32 next_timeout then MAX_TIMEOUT else next_timeout)
  else MAX_TIMEOUT.
Definition wait_timeout (next_timeout : Z) : Z := wraps 32 (clamp_timeout next_timeout).

(** An entry of [epoll_wait]'s array: the wake-up pipe, or a context. *)
Inductive ready := Tickled | Ready (a : nat) (events : Z).

(** The events to trigger: errors and hang-ups count as whatever the context
    waits for. *)
Definition real_events (events fc_ev : Z) : Z :=
  let events :=
    if negb (Z.land events (Z.lor EPOLLERR EPOLLHUP) =? 0)
    then Z.lor events (Z.land (Z.lor EPOLLIN EPOLLOUT) fc_ev) else events in
  Z.lor (if negb (Z.land events EPOLLIN =? 0) then READ else NONE)
        (if negb (Z.land events EPOLLOUT =? 0) then WRITE else NONE).

(** The body of the loop over the array. *)
Definition handle_event (e : ready) : M IOManager unit :=
  match e with
  | Tickled => mret tt            (* the pipe is read until it is empty *)
  | Ready a events =>
      c ← ctx_at a;
      let real_events := real_events events (fc_events c) in
      if Z.land (fc_events c) real_events =? NONE then mret tt else
      let left_events := Z.land (fc_events c) (Z.lnot real_events) in
      let op := if left_events =? 0 then EPOLL_CTL_DEL else EPOLL_CTL_MOD in
      ok ← do_ctl (op, fc_fd c, Z.lor EPOLLET left_events, a);
      if negb ok then mret tt else
      trigger_if (negb (Z.land real_events READ =? 0)) a READ;;
      trigger_if (negb (Z.land real_events WRITE =? 0)) a WRITE
  end.
Fixpoint handle_events (l : list ready) : M IOManager unit :=
  match l with
  | [] => mret tt
  | e :: l => handle_event e;; handle_events l
  end.

(** One round of [idle] up to [swapOut]; [true] when the loop ends.  The clock is
    read twice, [rt] is what [epoll_wait] finally returned. *)
Definition idle_round (now now' : Z) (tmp : nat) (rt : list ready) : M IOManager bool :=
  '(stop, next_timeout) ← stopping_timeout now;
  if stop : bool then mret true else
  cbs ← on_timers (listExpiredCb now' tmp);
  (if decide (cbs = []) then mret tt
   else on_base (schedule_range ((λ c, FT_cb c (-1)) <$> cbs)));;
  handle_events rt;;
  mret false.

(** [IOManager::onTimerInsertedAtFront] *)
Definition onTimerInsertedAtFront : M IOManager unit := on_base (modify tickle).
End manager.

(** [IOManager::IOManager]: the table starts with 32 contexts. *)
Definition IOManager_new (s : Scheduler) (now : Z) : M unit IOManager :=
  λ u, match contextResize 32 (mkIOManager s (TimerManager_new now) ∅ [] 0 0 [] []) with
       | Ok _ io => Ok io u
       | Throw e _ => Throw e u
       | Abort => Abort
       | Undef v => Undef v
       end.
