(* ===== verification/IOManagerSpec.v ===== *)
(** Correctness of the event table: the pending counter, the waiting fibers and
    callbacks, and the kernel's interest list stay in step. *)
From S2P Require Import Prelude Timer Fiber Scheduler SchedulerSpec IOManager.
From stdpp Require Import gmap fin_maps.

Local Open Scope Z_scope.

(** ** What a context may look like *)

(** Somebody waits: on a scheduler, a callback or a fiber. *)
Definition armed (e : EventContext) : Prop :=
  ∃ s, ec_scheduler e = Some s ∧
    ((∃ cb, ec_cb e = Some cb ∧ ec_fiber e = None) ∨ (∃ f, ec_fiber e = Some f ∧ ec_cb e = None)).
Definition slot_ok (b : bool) (e : EventContext) : Prop := if b then armed e else e = no_event.
Definition ctx_ok (c : FdContext) : Prop :=
  fc_events c ∈ [0; 1; 4; 5]
  ∧ slot_ok (Z.testbit (fc_events c) 0) (fc_read c)
  ∧ slot_ok (Z.testbit (fc_events c) 2) (fc_write c).

(** The events a context waits for. *)
Definition pend (c : FdContext) : Z :=
  Z.b2z (Z.testbit (fc_events c) 0) + Z.b2z (Z.testbit (fc_events c) 2).
Definition pend_at (h : gmap nat FdContext) (a : nat) : Z :=
  match h !! a with Some c => pend c | None => 0 end.
Definition total (h : gmap nat FdContext) (l : list nat) : Z := foldr (λ a n, pend_at h a + n) 0 l.

Lemma pend_range c : 0 ≤ pend c ≤ 2.
Proof. unfold pend. destruct (Z.testbit _ 0), (Z.testbit _ 2); simpl; lia. Qed.

Lemma total_range h l : 0 ≤ total h l ≤ 2 * Z.of_nat (length l).
Proof.
  induction l as [|a l IH]; simpl; [lia|].
  assert (0 ≤ pend_at h a ≤ 2) by (unfold pend_at; destruct (h !! a) as [c|]; [apply (pend_range c)|lia]). lia.
Qed.

Lemma total_ext h h' l : (∀ a, a ∈ l → pend_at h a = pend_at h' a) → total h l = total h' l.
Proof.
  induction l as [|a l IH]; intros Hh; simpl; [done|].
  rewrite Hh by apply list_elem_of_here. f_equal. apply IH. intros b Hb. apply Hh.
  by apply list_elem_of_further.
Qed.

Lemma pend_at_insert_ne h a b c : b ≠ a → pend_at (<[a := c]> h) b = pend_at h b.
Proof. intros. unfold pend_at. by rewrite lookup_insert_ne. Qed.

Lemma total_insert h l a c c' :
  NoDup l → a ∈ l → h !! a = Some c → total (<[a := c']> h) l = total h l - pend c + pend c'.
Proof.
  induction 1 as [|b l Hb Hl IH]; intros Ha Hc; [by apply elem_of_nil in Ha|]. simpl.
  assert (Hold : pend_at h a = pend c) by (unfold pend_at; by rewrite Hc).
  assert (Hnew : pend_at (<[a := c']> h) a = pend c') by (unfold pend_at; by rewrite lookup_insert_eq).
  apply elem_of_cons in Ha as [->|Ha].
  - rewrite (total_ext (<[b := c']> h) h l); [lia|]. intros d Hd. apply pend_at_insert_ne. by intros ->.
  - rewrite IH, pend_at_insert_ne by (done || by intros ->). lia.
Qed.

Lemma total_zero h l : (∀ a, a ∈ l → pend_at h a = 0) → total h l = 0.
Proof.
  induction l as [|a l IH]; intros Hz; [done|]. simpl. rewrite Hz by apply list_elem_of_here.
  rewrite IH; [done|]. intros b Hb. apply Hz. by apply list_elem_of_further.
Qed.

Lemma total_app h l l' : total h (l ++ l') = total h l + total h l'.
Proof. induction l; simpl; lia. Qed.

(** ** The kernel's interest list *)

(** The events [epoll] watches on [fd] after a history of successful calls. *)
Fixpoint interest (log : list ctl_call) (fd : Z) : option Z :=
  match log with
  | [] => None
  | (op, f, ev, _) :: log =>
      if f =? fd then match op with EPOLL_CTL_DEL => None | _ => Some ev end else interest log fd
  end.
(** Every call was one the kernel accepts: a descriptor is added when it is not
    watched, modified or deleted when it is. *)
Fixpoint well_formed (log : list ctl_call) : Prop :=
  match log with
  | [] => True
  | (op, f, _, _) :: log => (op = EPOLL_CTL_ADD ↔ interest log f = None) ∧ well_formed log
  end.

Definition watched (events : Z) : option Z := if events =? 0 then None else Some (Z.lor EPOLLET events).

Record io_ok (io : IOManager) : Prop := {
  io_ctx : ∀ i a, m_fdContexts io !! i = Some a →
    ∃ c, fdctx io !! a = Some c ∧ fc_fd c = Z.of_nat i ∧ ctx_ok c
      ∧ interest (ctl io) (Z.of_nat i) = watched (fc_events c);
  io_nodup : NoDup (m_fdContexts io);
  io_brk : ∀ a, is_Some (fdctx io !! a) → (a < brk io)%nat;
  io_size : 32 ≤ Z.of_nat (length (m_fdContexts io)) < 2 ^ 31;
  io_pending : m_pendingEventCount io = total (fdctx io) (m_fdContexts io);
  io_beyond : ∀ fd, Z.of_nat (length (m_fdContexts io)) ≤ fd → interest (ctl io) fd = None;
  io_log : well_formed (ctl io);
}.

(** One context changes with one successful call. *)
Lemma io_update io io' i a c c' op ev p :
  io_ok io → m_fdContexts io !! i = Some a → fdctx io !! a = Some c →
  ctx_ok c' → fc_fd c' = fc_fd c →
  fdctx io' = <[a := c']> (fdctx io) → m_fdContexts io' = m_fdContexts io → brk io' = brk io →
  m_pendingEventCount io' = m_pendingEventCount io - pend c + pend c' →
  ctl io' = (op, Z.of_nat i, ev, p) :: ctl io →
  (op = EPOLL_CTL_ADD ↔ fc_events c = 0) →
  watched (fc_events c') = (match op with EPOLL_CTL_DEL => None | _ => Some ev end) →
  io_ok io'.
Proof.
  intros [H1 H2 H3 H4 H5 H6 H7] Hi Hc Hok' Hfd Ef Et Eb Ep Ec Hop Hw.
  assert (Hint : interest (ctl io) (Z.of_nat i) = watched (fc_events c)).
  { destruct (H1 i a Hi) as (c0&Hc0&_&_&?). congruence. }
  split.
  - rewrite Et, Ef, Ec. intros j b Hj. simpl. destruct (decide (j = i)) as [->|Hne].
    + assert (b = a) as -> by congruence. exists c'. rewrite lookup_insert_eq, Z.eqb_refl.
      split; [done|]. destruct (H1 i a Hi) as (c0&Hc0&Hf0&_). split; [congruence|]. done.
    + destruct (H1 j b Hj) as (d&Hd&?&?&?). exists d. rewrite lookup_insert_ne.
      2:{ intros ->. apply Hne. by eapply NoDup_lookup. }
      rewrite (proj2 (Z.eqb_neq _ _)) by lia. done.
  - by rewrite Et.
  - rewrite Ef, Eb. intros b [d Hd]. destruct (decide (b = a)) as [->|]; [by apply H3; rewrite Hc; eauto|].
    rewrite lookup_insert_ne in Hd by done. apply H3. by rewrite Hd.
  - by rewrite Et.
  - rewrite Et, Ef, Ep, H5. symmetry. apply total_insert; [done| |done]. by eapply list_elem_of_lookup_2.
  - rewrite Et, Ec. intros fd Hfd'. simpl. rewrite (proj2 (Z.eqb_neq _ _)); [auto|].
    apply lookup_lt_Some in Hi. lia.
  - rewrite Ec. simpl. split; [|done]. rewrite Hint, Hop. unfold watched.
    destruct (Z.eqb_spec (fc_events c) 0); naive_solver.
Qed.

(** The parts the invariant does not mention. *)
Lemma io_frame io io' :
  io_ok io → fdctx io' = fdctx io → m_fdContexts io' = m_fdContexts io → brk io' = brk io →
  m_pendingEventCount io' = m_pendingEventCount io → ctl io' = ctl io → io_ok io'.
Proof. intros [H1 H2 H3 H4 H5 H6 H7] E1 E2 E3 E4 E5. split; rewrite ?E1, ?E2, ?E3, ?E4, ?E5; done. Qed.

(** ** Operations on one context *)

Section ops.
Context (this : nat) (epoll_ctl : list ctl_call → ctl_call → bool).

Definition task_of (e : EventContext) : FiberAndThread :=
  match ec_cb e with Some cb => FT_cb (Some cb) (-1) | None => FT_fiber (ec_fiber e) (-1) end.

(** Task [ft] was handed to scheduler [s] (and perhaps a wake-up sent). *)
Definition delivered (s : nat) (ft : FiberAndThread) (io io' : IOManager) : Prop :=
  if Nat.eqb s this
  then elsewhere io' = elsewhere io ∧ same (Scheduler.set_queue (m_fibers (base io) ++ [ft]) (base io)) (base io')
  else elsewhere io' = elsewhere io ++ [(s, ft)] ∧ base io' = base io.

(** Only the schedulers changed. *)
Definition same_table (io io' : IOManager) : Prop :=
  timers io' = timers io ∧ fdctx io' = fdctx io ∧ m_fdContexts io' = m_fdContexts io ∧ brk io' = brk io
  ∧ m_pendingEventCount io' = m_pendingEventCount io ∧ ctl io' = ctl io.

Lemma schedule_on_spec s ft io :
  nonempty ft →
  ∃ io', schedule_on this (Some s) ft io = Ok tt io' ∧ delivered s ft io io' ∧ same_table io io'.
Proof.
  intros Hne. unfold schedule_on, delivered.
  rewrite (bind_ok _ _ io s io) by done. destruct (Nat.eqb s this).
  - destruct (schedule_spec ft (base io)) as (s'&E&Hs). unfold on_base. rewrite E.
    eexists. split; [reflexivity|]. rewrite decide_True in Hs by done. split; [by split|by repeat split].
  - eexists. split; [reflexivity|]. by repeat split.
Qed.

(** The context after an event has been triggered. *)
Definition triggered (event : Z) (c : FdContext) : FdContext :=
  set_context event no_event (set_events (Z.land (fc_events c) (Z.lnot event)) c).

Lemma armed_task e : armed e → ∃ s, ec_scheduler e = Some s ∧ nonempty (task_of e).
Proof.
  intros (s&Hs&[(cb&Hcb&_)|(f&Hf&Hcb)]); exists s; (split; [done|]); unfold task_of, nonempty; rewrite Hcb; simpl.
  - by right.
  - left. by rewrite Hf.
Qed.

(** Going through the four sets of events. *)
Ltac each_event Hev ev :=
  repeat (apply elem_of_cons in Hev as [Hev|Hev]; [subst ev|]); [..|by apply elem_of_nil in Hev].

Lemma armed_events c event :
  ctx_ok c → event = READ ∨ event = WRITE → Z.land (fc_events c) event ≠ 0 →
  ∃ e, getContext c event = Some e ∧ armed e.
Proof.
  destruct c as [r w fd ev]. intros (Hev&Hr&Hw) He Hne. cbn in *.
  each_event Hev ev; destruct He as [->| ->]; try (by destruct Hne); by eexists.
Qed.

Lemma triggered_ok c event :
  ctx_ok c → event = READ ∨ event = WRITE → Z.land (fc_events c) event ≠ 0 →
  ctx_ok (triggered event c) ∧ pend (triggered event c) = pend c - 1
  ∧ fc_fd (triggered event c) = fc_fd c.
Proof.
  intros (Hev&Hr&Hw) He Hne. unfold ctx_ok, pend, triggered. destruct c as [r w fd ev].
  cbn [fc_events fc_read fc_write fc_fd] in *.
  each_event Hev ev; destruct He as [->| ->]; try (by destruct Hne);
    cbn in Hr, Hw |- *; split_and!; try done; (set_solver || lia).
Qed.

Lemma triggerEvent_spec a event c io :
  fdctx io !! a = Some c → ctx_ok c → event = READ ∨ event = WRITE → Z.land (fc_events c) event ≠ 0 →
  ∃ io' e s, triggerEvent this a event io = Ok tt io'
    ∧ getContext c event = Some e ∧ ec_scheduler e = Some s ∧ delivered s (task_of e) io io'
    ∧ fdctx io' = <[a := triggered event c]> (fdctx io)
    ∧ timers io' = timers io ∧ m_fdContexts io' = m_fdContexts io ∧ brk io' = brk io
    ∧ m_pendingEventCount io' = m_pendingEventCount io ∧ ctl io' = ctl io.
Proof.
  intros Hc Hok He Hne. destruct (armed_events c event Hok He Hne) as (e&Hge&Harm).
  destruct (armed_task e Harm) as (s&Hs&Htask).
  unfold triggerEvent. rewrite (bind_ok _ _ io c io) by (unfold ctx_at; mred; by rewrite Hc).
  rewrite (bind_ok _ _ io tt io) by (mred; by rewrite (proj2 (Z.eqb_neq _ _) Hne)).
  set (io1 := set_fdctx (alter (set_events (Z.land (fc_events c) (Z.lnot event))) a (fdctx io)) io).
  rewrite (bind_ok _ _ io tt io1) by done. rewrite Hge.
  destruct (schedule_on_spec s (task_of e) io1 Htask) as (io2&E2&Hd&(T1&T2&T3&T4&T5&T6)).
  rewrite (bind_ok _ _ io1 tt io2).
  2:{ unfold task_of in E2. rewrite Hs. by destruct (ec_cb e). }
  eexists _, e, s. split; [reflexivity|]. split; [done|]. split; [done|].
  split; [exact Hd|]. cbn [fdctx set_fdctx timers m_fdContexts brk m_pendingEventCount ctl].
  split; [|by rewrite T1, T3, T4, T5, T6].
  rewrite T2. unfold io1. cbn [fdctx set_fdctx]. rewrite alter_alter_eq.
  apply map_eq. intros b. destruct (decide (a = b)) as [<-|]; [|by rewrite lookup_alter_ne, lookup_insert_ne].
  rewrite lookup_alter_eq, lookup_insert_eq, Hc. simpl. f_equal. unfold triggered. f_equal.
  destruct Harm as (s'&_&[(cb&Hcb&Hf)|(f&Hf&Hcb)]); rewrite Hcb, ?Hf; done.
Qed.

Lemma pending_range io i a c :
  io_ok io → m_fdContexts io !! i = Some a → fdctx io !! a = Some c →
  pend c ≤ m_pendingEventCount io ≤ 2 ^ 32.
Proof.
  intros Hok Hi Hc. rewrite (io_pending _ Hok). pose proof (io_size _ Hok).
  pose proof (total_range (fdctx io) (m_fdContexts io)).
  pose proof (total_insert (fdctx io) (m_fdContexts io) a c (mkFdContext no_event no_event 0 0)
    (io_nodup _ Hok) (list_elem_of_lookup_2 _ _ _ Hi) Hc) as Ht.
  pose proof (total_range (<[a:=mkFdContext no_event no_event 0 0]> (fdctx io)) (m_fdContexts io)).
  change (pend (mkFdContext no_event no_event 0 0)) with 0 in Ht. lia.
Qed.

Lemma table_size_ok io : io_ok io → table_size io = Ok (Z.of_nat (length (m_fdContexts io))) io.
Proof.
  intros Hok. pose proof (io_size _ Hok). unfold table_size, gets. f_equal.
  apply wraps_small; [lia|]. unfold in_s. lia.
Qed.

Lemma slot_lookup fd io :
  io_ok io → 0 ≤ fd < Z.of_nat (length (m_fdContexts io)) →
  ∃ a c, m_fdContexts io !! Z.to_nat fd = Some a ∧ slot fd io = Ok a io
    ∧ fdctx io !! a = Some c ∧ fc_fd c = fd ∧ ctx_ok c.
Proof.
  intros Hok Hfd. destruct (lookup_lt_is_Some_2 (m_fdContexts io) (Z.to_nat fd)) as [a Ha]; [lia|].
  destruct (io_ctx _ Hok _ _ Ha) as (c&Hc&Hf&Hcok&_). exists a, c.
  split; [done|]. split; [|split; [done|split; [lia|done]]].
  unfold slot. rewrite (proj2 (Z.ltb_ge _ _)) by lia. by rewrite Ha.
Qed.

Lemma with_context_spec {A} fd (none : A) k io :
  io_ok io → 0 ≤ fd →
  (Z.of_nat (length (m_fdContexts io)) ≤ fd ∧ with_context fd none k io = Ok none io)
  ∨ ∃ a c, m_fdContexts io !! Z.to_nat fd = Some a ∧ fdctx io !! a = Some c ∧ fc_fd c = fd ∧ ctx_ok c
      ∧ with_context fd none k io = k a c io.
Proof.
  intros Hok Hfd. unfold with_context. rewrite (bind_ok _ _ _ _ _ (table_size_ok io Hok)).
  destruct (Z.leb_spec (Z.of_nat (length (m_fdContexts io))) fd) as [Hle|Hlt]; [by left|right].
  destruct (slot_lookup fd io Hok) as (a&c&Ha&E&Hc&Hf&Hcok); [lia|]. exists a, c.
  do 4 (split; [done|]). rewrite (bind_ok _ _ _ _ _ E).
  by rewrite (bind_ok _ _ io c io) by (unfold ctx_at; mred; by rewrite Hc).
Qed.

Lemma do_ctl_spec c io :
  do_ctl epoll_ctl c io = Ok (epoll_ctl (ctl io) c) (if epoll_ctl (ctl io) c then add_ctl c io else io).
Proof. unfold do_ctl. rewrite bind_gets. by destruct (epoll_ctl (ctl io) c). Qed.

(** The call that leaves the events [rest]. *)
Definition leave_call (fd rest : Z) (a : nat) : ctl_call :=
  (if rest =? 0 then EPOLL_CTL_DEL else EPOLL_CTL_MOD, fd, Z.lor EPOLLET rest, a).

Lemma watched_leave fd rest a :
  watched rest = match (leave_call fd rest a).1.1.1 with EPOLL_CTL_DEL => None | _ => Some (Z.lor EPOLLET rest) end.
Proof. unfold leave_call, watched. by destruct (rest =? 0). Qed.

Lemma leave_not_add fd rest a ev c :
  Z.land (fc_events c) ev ≠ 0 → (leave_call fd rest a).1.1.1 = EPOLL_CTL_ADD ↔ fc_events c = 0.
Proof.
  intros H0. unfold leave_call. simpl. split; [by destruct (rest =? 0)|].
  intros H1. rewrite H1, Z.land_0_l in H0. done.
Qed.

(** ** cancelEvent and delEvent *)

Lemma cancelEvent_spec fd event io :
  io_ok io → 0 ≤ fd → event = READ ∨ event = WRITE →
  (cancelEvent this epoll_ctl fd event io = Ok false io)
  ∨ ∃ a c e s io', m_fdContexts io !! Z.to_nat fd = Some a ∧ fdctx io !! a = Some c
      ∧ Z.land (fc_events c) event ≠ 0 ∧ getContext c event = Some e ∧ ec_scheduler e = Some s
      ∧ cancelEvent this epoll_ctl fd event io = Ok true io' ∧ io_ok io'
      ∧ delivered s (task_of e) io io' ∧ fdctx io' = <[a := triggered event c]> (fdctx io)
      ∧ m_pendingEventCount io' = m_pendingEventCount io - 1.
Proof.
  intros Hok Hfd He. unfold cancelEvent.
  match goal with |- context[with_context fd false ?k] => set (kk := k) end.
  destruct (with_context_spec fd false kk io Hok Hfd) as [[_ E]|(a&c&Ha&Hc&Hf&Hcok&E)]; [by left|].
  rewrite E. unfold kk. clear E kk.
  destruct (Z.eqb_spec (Z.land (fc_events c) event) 0) as [H0|H0]; [by left|].
  fold (leave_call fd (Z.land (fc_events c) (Z.lnot event)) a).
  set (cl := leave_call _ _ _). rewrite (bind_ok _ _ _ _ _ (do_ctl_spec cl io)).
  destruct (epoll_ctl (ctl io) cl); cbn [negb]; [right|by left].
  destruct (triggerEvent_spec a event c (add_ctl cl io) Hc Hcok He H0)
    as (io2&e&s&E2&Hge&Hs&Hd&F1&F2&F3&F4&F5&F6).
  rewrite (bind_ok _ _ _ _ _ E2), bind_modify.
  destruct (triggered_ok c event Hcok He H0) as (T1&T2&T3).
  pose proof (pending_range io _ a c Hok Ha Hc) as Hp. pose proof (pend_range (triggered event c)) as Hp'.
  eexists a, c, e, s, _. do 5 (split; [done|]). split; [reflexivity|].
  assert (Hpend : wrapu 64 (m_pendingEventCount io2 - 1) = m_pendingEventCount io - 1).
  { rewrite F5. apply wrapu_small. cbn. unfold in_u. lia. }
  split; [|split; [exact Hd|split; [exact F1|exact Hpend]]].
  apply (io_update io _ (Z.to_nat fd) a c (triggered event c) cl.1.1.1 cl.1.2 a); try done.
  - cbn. rewrite Hpend. lia.
  - cbn. rewrite F6. cbn. rewrite Z2Nat.id by done. done.
  - by eapply leave_not_add.
  - unfold cl. rewrite <-watched_leave. f_equal. destruct c, He as [->| ->]; done.
Qed.

Lemma delEvent_spec fd event io :
  io_ok io → 0 ≤ fd → event = READ ∨ event = WRITE →
  (delEvent epoll_ctl fd event io = Ok false io)
  ∨ ∃ a c io', m_fdContexts io !! Z.to_nat fd = Some a ∧ fdctx io !! a = Some c
      ∧ Z.land (fc_events c) event ≠ 0
      ∧ delEvent epoll_ctl fd event io = Ok true io' ∧ io_ok io'
      ∧ base io' = base io ∧ elsewhere io' = elsewhere io ∧ fdctx io' = <[a := triggered event c]> (fdctx io)
      ∧ m_pendingEventCount io' = m_pendingEventCount io - 1.
Proof.
  intros Hok Hfd He. unfold delEvent.
  match goal with |- context[with_context fd false ?k] => set (kk := k) end.
  destruct (with_context_spec fd false kk io Hok Hfd) as [[_ E]|(a&c&Ha&Hc&Hf&Hcok&E)]; [by left|].
  rewrite E. unfold kk. clear E kk.
  destruct (Z.eqb_spec (Z.land (fc_events c) event) 0) as [H0|H0]; [by left|].
  fold (leave_call fd (Z.land (fc_events c) (Z.lnot event)) a).
  set (cl := leave_call _ _ _). rewrite (bind_ok _ _ _ _ _ (do_ctl_spec cl io)).
  destruct (epoll_ctl (ctl io) cl); cbn [negb]; [right|by left].
  destruct (armed_events c event Hcok He H0) as (e&Hge&_). rewrite bind_modify.
  unfold update_ctx. rewrite bind_modify, Hge, bind_modify.
  destruct (triggered_ok c event Hcok He H0) as (T1&T2&T3).
  pose proof (pending_range io _ a c Hok Ha Hc) as Hp. pose proof (pend_range (triggered event c)) as Hp'.
  eexists a, c, _. do 3 (split; [done|]). split; [reflexivity|].
  assert (Hpend : wrapu 64 (m_pendingEventCount io - 1) = m_pendingEventCount io - 1).
  { apply wrapu_small. unfold in_u. lia. }
  assert (Hfd' : alter (set_context event (resetContext e))
      a (alter (set_events (Z.land (fc_events c) (Z.lnot event))) a (fdctx io)) = <[a := triggered event c]> (fdctx io)).
  { rewrite alter_alter_eq. apply map_eq. intros b. destruct (decide (a = b)) as [<-|];
      [by rewrite lookup_alter_eq, lookup_insert_eq, Hc|by rewrite lookup_alter_ne, lookup_insert_ne]. }
  split; [|split; [done|split; [done|split; [exact Hfd'|exact Hpend]]]].
  apply (io_update io _ (Z.to_nat fd) a c (triggered event c) cl.1.1.1 cl.1.2 a); try done.
  - cbn. rewrite Hpend. lia.
  - cbn. rewrite Z2Nat.id by done. done.
  - by eapply leave_not_add.
  - unfold cl. rewrite <-watched_leave. f_equal. destruct c, He as [->| ->]; done.
Qed.

(** ** Triggering both events *)

Definition maybe_delivered (b : bool) (e : EventContext) (io io' : IOManager) : Prop :=
  if b then ∃ s, ec_scheduler e = Some s ∧ delivered s (task_of e) io io'
  else base io' = base io ∧ elsewhere io' = elsewhere io.

Definition triggered_if (b : bool) (event : Z) (c : FdContext) : FdContext :=
  if b then triggered event c else c.

Lemma trigger_if_spec (b : bool) a event c e io :
  fdctx io !! a = Some c → ctx_ok c → event = READ ∨ event = WRITE → getContext c event = Some e →
  (b = true → Z.land (fc_events c) event ≠ 0) → Z.b2z b ≤ m_pendingEventCount io ≤ 2 ^ 32 →
  ∃ io', trigger_if this b a event io = Ok tt io' ∧ maybe_delivered b e io io'
    ∧ fdctx io' = <[a := triggered_if b event c]> (fdctx io)
    ∧ timers io' = timers io ∧ m_fdContexts io' = m_fdContexts io ∧ brk io' = brk io
    ∧ m_pendingEventCount io' = m_pendingEventCount io - Z.b2z b ∧ ctl io' = ctl io.
Proof.
  intros Hc Hok He Hge Hb Hp. destruct b; simpl.
  - destruct (triggerEvent_spec a event c io Hc Hok He (Hb eq_refl))
      as (io2&e'&s&E2&Hge'&Hs&Hd&F1&F2&F3&F4&F5&F6).
    assert (e' = e) as -> by congruence. rewrite (bind_ok _ _ _ _ _ E2).
    eexists. split; [reflexivity|]. split; [by exists s|]. do 4 (split; [done|]). split; [|done].
    cbn. rewrite F5. apply wrapu_small. unfold in_u. simpl in Hp. lia.
  - exists io. split; [done|]. split; [done|]. rewrite insert_id by done. do 4 (split; [done|]). split; [lia|done].
Qed.

(** Triggering a set of events one after the other. *)
Lemma trigger_both_spec (br bw : bool) a c io :
  fdctx io !! a = Some c → ctx_ok c →
  (br = true → Z.land (fc_events c) READ ≠ 0) → (bw = true → Z.land (fc_events c) WRITE ≠ 0) →
  pend c ≤ m_pendingEventCount io ≤ 2 ^ 32 →
  ∃ io1 io', trigger_if this br a READ io = Ok tt io1 ∧ trigger_if this bw a WRITE io1 = Ok tt io'
    ∧ fdctx io1 !! a = Some (triggered_if br READ c)
    ∧ maybe_delivered br (fc_read c) io io1 ∧ maybe_delivered bw (fc_write c) io1 io'
    ∧ fdctx io' = <[a := triggered_if bw WRITE (triggered_if br READ c)]> (fdctx io)
    ∧ timers io' = timers io ∧ m_fdContexts io' = m_fdContexts io ∧ brk io' = brk io
    ∧ m_pendingEventCount io' = m_pendingEventCount io - Z.b2z br - Z.b2z bw ∧ ctl io' = ctl io.
Proof.
  intros Hc Hok Hr Hw Hp.
  assert (Hpr : Z.b2z br + Z.b2z bw ≤ pend c).
  { destruct c as [r w fd ev], Hok as (Hev&_). cbn in *. unfold pend. cbn.
    each_event Hev ev; destruct br, bw; cbn; try lia; try (by destruct (Hr eq_refl)); by destruct (Hw eq_refl). }
  destruct (trigger_if_spec br a READ c (fc_read c) io Hc Hok (or_introl eq_refl) eq_refl Hr)
    as (io1&E1&D1&F1&F2&F3&F4&F5&F6); [destruct bw; simpl in *; lia|].
  set (c1 := triggered_if br READ c) in *.
  assert (Hc1 : fdctx io1 !! a = Some c1) by (by rewrite F1, lookup_insert_eq).
  assert (Hok1 : ctx_ok c1 ∧ fc_write c1 = fc_write c ∧ (bw = true → Z.land (fc_events c1) WRITE ≠ 0)).
  { unfold c1. destruct br; [|done]. simpl.
    destruct (triggered_ok c READ Hok (or_introl eq_refl) (Hr eq_refl)) as (T&_&_).
    split; [done|]. split; [done|]. intros Hbw. specialize (Hw Hbw).
    destruct c as [r w fd ev], Hok as (Hev&_). cbn in *. each_event Hev ev; cbn; done. }
  destruct Hok1 as (Hok1&Hfw&Hw1).
  destruct (trigger_if_spec bw a WRITE c1 (fc_write c) io1 Hc1 Hok1 (or_intror eq_refl)) as (io2&E2&D2&G1&G2&G3&G4&G5&G6);
    [by rewrite <-Hfw|done|destruct br; simpl in *; lia|].
  exists io1, io2. do 5 (split; [done|]). split; [|split; [congruence|split; [congruence|split; [congruence|split; [lia|congruence]]]]].
  rewrite G1, F1. by rewrite insert_insert_eq.
Qed.

Lemma cancelAll_spec fd io :
  io_ok io → 0 ≤ fd →
  (cancelAll this epoll_ctl fd io = Ok false io)
  ∨ ∃ a c io1 io', m_fdContexts io !! Z.to_nat fd = Some a ∧ fdctx io !! a = Some c
      ∧ cancelAll this epoll_ctl fd io = Ok true io' ∧ io_ok io'
      ∧ maybe_delivered (Z.testbit (fc_events c) 0) (fc_read c) io io1
      ∧ maybe_delivered (Z.testbit (fc_events c) 2) (fc_write c) io1 io'
      ∧ (∃ c', fdctx io' = <[a := c']> (fdctx io) ∧ fc_events c' = 0)
      ∧ m_pendingEventCount io' = m_pendingEventCount io - pend c ∧ fc_events c ≠ 0.
Proof.
  intros Hok Hfd. unfold cancelAll.
  match goal with |- context[with_context fd false ?k] => set (kk := k) end.
  destruct (with_context_spec fd false kk io Hok Hfd) as [[_ E]|(a&c&Ha&Hc&Hf&Hcok&E)]; [by left|].
  rewrite E. unfold kk. clear E kk.
  destruct (Z.eqb_spec (fc_events c) 0) as [H0|H0]; [by left|].
  rewrite (bind_ok _ _ _ _ _ (do_ctl_spec (EPOLL_CTL_DEL, fd, 0, a) io)).
  destruct (epoll_ctl (ctl io) _); cbn [negb]; [right|by left].
  set (br := negb (Z.land (fc_events c) READ =? 0)). set (bw := negb (Z.land (fc_events c) WRITE =? 0)).
  assert (Hb : br = Z.testbit (fc_events c) 0 ∧ bw = Z.testbit (fc_events c) 2).
  { unfold br, bw. destruct c as [r w f ev], Hcok as (Hev&_). cbn in *. by each_event Hev ev. }
  pose proof (pending_range io _ a c Hok Ha Hc) as Hp.
  destruct (trigger_both_spec br bw a c (add_ctl (EPOLL_CTL_DEL, fd, 0, a) io) Hc Hcok)
    as (io1&io2&E1&E2&Hc1&D1&D2&F1&F2&F3&F4&F5&F6);
    [by intros ?%negb_true_iff%Z.eqb_neq|by intros ?%negb_true_iff%Z.eqb_neq|done|].
  rewrite (bind_ok _ _ _ _ _ E1).
  rewrite (bind_ok _ _ io1 (triggered_if br READ c) io1) by (unfold ctx_at; mred; by rewrite Hc1).
  assert (Hev1 : negb (Z.land (fc_events (triggered_if br READ c)) WRITE =? 0) = bw).
  { unfold br, bw. destruct c as [r w f ev], Hcok as (Hev&_). cbn in *. by each_event Hev ev. }
  rewrite Hev1, (bind_ok _ _ _ _ _ E2). set (c2 := triggered_if bw WRITE (triggered_if br READ c)) in *.
  assert (Hc2 : fdctx io2 !! a = Some c2) by (by rewrite F1, lookup_insert_eq).
  rewrite (bind_ok _ _ io2 c2 io2) by (unfold ctx_at; mred; by rewrite Hc2).
  assert (Hz : fc_events c2 = 0 ∧ ctx_ok c2 ∧ fc_fd c2 = fc_fd c ∧ pend c2 = 0
      ∧ Z.b2z br + Z.b2z bw = pend c).
  { unfold ctx_ok, pend, c2, br, bw. destruct c as [r w f ev], Hcok as (Hev&Hr&Hw). cbn in Hr, Hw, Hev |- *.
    each_event Hev ev; cbn in *; split_and!; try done; set_solver. }
  destruct Hz as (Hz&Hokz&Hfz&Hpz&Hsum).
  rewrite (bind_ok _ _ io2 tt io2) by (mred; by rewrite Hz).
  exists a, c, io1, io2. destruct Hb as [<- <-]. do 2 (split; [done|]). split; [reflexivity|].
  split; [|split; [exact D1|split; [exact D2|split; [by exists c2|cbn in F5; split; [lia|done]]]]].
  apply (io_update io io2 (Z.to_nat fd) a c c2 EPOLL_CTL_DEL 0 a); try done.
  - cbn in F5. lia.
  - rewrite F6. cbn. by rewrite Z2Nat.id.
  - by rewrite Hz.
Qed.

(** ** Reported events *)

Definition subset (x y : Z) : bool := Z.land x (Z.lnot y) =? 0.

Lemma real_events_range events ev : ev ∈ [0; 1; 4; 5] → real_events events ev ∈ [0; 1; 4; 5].
Proof.
  intros _. unfold real_events. destruct (negb (Z.land events (Z.lor EPOLLERR EPOLLHUP) =? 0));
    destruct (negb (Z.land _ EPOLLIN =? 0)), (negb (Z.land _ EPOLLOUT =? 0)); cbn; set_solver.
Qed.

Lemma handle_event_spec i a c events io :
  io_ok io → m_fdContexts io !! i = Some a → fdctx io !! a = Some c →
  let real := real_events events (fc_events c) in
  ((Z.land (fc_events c) real = 0 ∨ ∃ call, epoll_ctl (ctl io) call = false)
     ∧ handle_event this epoll_ctl (Ready a events) io = Ok tt io)
  ∨ (Z.land (fc_events c) real ≠ 0 ∧ subset real (fc_events c) = false
     ∧ handle_event this epoll_ctl (Ready a events) io = Abort)
  ∨ (Z.land (fc_events c) real ≠ 0 ∧ subset real (fc_events c) = true ∧ ∃ io1 io',
     handle_event this epoll_ctl (Ready a events) io = Ok tt io' ∧ io_ok io'
     ∧ maybe_delivered (Z.testbit real 0) (fc_read c) io io1
     ∧ maybe_delivered (Z.testbit real 2) (fc_write c) io1 io'
     ∧ (∃ c', fdctx io' = <[a := c']> (fdctx io) ∧ fc_events c' = Z.land (fc_events c) (Z.lnot real))
     ∧ m_pendingEventCount io' = m_pendingEventCount io - Z.b2z (Z.testbit real 0) - Z.b2z (Z.testbit real 2)).
Proof.
  intros Hok Ha Hc real. destruct (io_ctx _ Hok _ _ Ha) as (c0&Hc0&Hf&Hcok&_).
  assert (c0 = c) as -> by congruence. clear Hc0.
  assert (Hreal : real ∈ [0; 1; 4; 5]) by (apply real_events_range, Hcok).
  unfold handle_event. rewrite (bind_ok _ _ io c io) by (unfold IOManager.ctx_at; mred; by rewrite Hc).
  fold real. cbv zeta. change NONE with 0.
  destruct (Z.eqb_spec (Z.land (fc_events c) real) 0) as [H0|H0]; [left; by split; [left|]|].
  fold (leave_call (fc_fd c) (Z.land (fc_events c) (Z.lnot real)) a). set (cl := leave_call _ _ _).
  rewrite (bind_ok _ _ _ _ _ (do_ctl_spec cl io)).
  destruct (epoll_ctl (ctl io) cl) eqn:Ectl; cbn [negb]; [right|left; split; [right; by exists cl|done]].
  set (br := negb (Z.land real READ =? 0)). set (bw := negb (Z.land real WRITE =? 0)).
  assert (Hb : br = Z.testbit real 0 ∧ bw = Z.testbit real 2).
  { unfold br, bw. clearbody real. by each_event Hreal real. }
  destruct Hb as [<- <-]. pose proof (pending_range io _ a c Hok Ha Hc) as Hp.
  destruct (subset real (fc_events c)) eqn:Hsub; [right|left].
  - split; [done|]. split; [done|].
    assert (Hbits : (br = true → Z.land (fc_events c) READ ≠ 0) ∧ (bw = true → Z.land (fc_events c) WRITE ≠ 0)).
    { unfold br, bw, subset in *. clearbody real. destruct c as [r w f ev], Hcok as (Hev&_). cbn in *.
      each_event Hev ev; each_event Hreal real; done. }
    destruct (trigger_both_spec br bw a c (add_ctl cl io) Hc Hcok (proj1 Hbits) (proj2 Hbits) Hp)
      as (io1&io2&E1&E2&Hc1&D1&D2&F1&F2&F3&F4&F5&F6).
    rewrite (bind_ok _ _ _ _ _ E1), E2. set (c2 := triggered_if bw WRITE (triggered_if br READ c)) in *.
    assert (Hz : fc_events c2 = Z.land (fc_events c) (Z.lnot real) ∧ ctx_ok c2 ∧ fc_fd c2 = fc_fd c
        ∧ pend c2 = pend c - Z.b2z br - Z.b2z bw).
    { unfold ctx_ok, pend, c2, br, bw, subset in *. clearbody real. destruct c as [r w f ev], Hcok as (Hev&Hr&Hw).
      cbn in Hr, Hw, Hev, Hsub, H0 |- *.
      each_event Hev ev; each_event Hreal real; try done; cbn in *; split_and!; try done; set_solver. }
    destruct Hz as (Hz&Hokz&Hfz&Hpz). exists io1, io2. split; [done|].
    split; [|split; [exact D1|split; [exact D2|split; [by exists c2|by rewrite F5]]]].
    apply (io_update io io2 i a c c2 cl.1.1.1 cl.1.2 a); try done.
    + rewrite F5. cbn. lia.
    + rewrite F6. cbn. by rewrite <-Hf.
    + by eapply leave_not_add.
    + unfold cl. rewrite Hz. apply watched_leave.
  - split; [done|]. split; [done|].
    (* one of the two events is not registered: its assertion fails *)
    assert (Hcase : (br = true ∧ Z.land (fc_events c) READ = 0) ∨
      (br = true ∧ Z.land (fc_events c) READ ≠ 0 ∧ bw = true ∧ Z.land (fc_events (triggered READ c)) WRITE = 0)).
    { unfold br, bw, subset in *. clearbody real. destruct c as [r w f ev], Hcok as (Hev&_). cbn in *.
      each_event Hev ev; each_event Hreal real; try done; cbn; naive_solver. }
    assert (Habort : ∀ ev d io0, fdctx io0 !! a = Some d → Z.land (fc_events d) ev = 0 →
      trigger_if this true a ev io0 = Abort).
    { intros ev d io0 Hd Hz. unfold trigger_if, triggerEvent.
      rewrite bind_assoc. rewrite (bind_ok _ _ io0 d io0) by (unfold ctx_at; mred; by rewrite Hd).
      rewrite Hz. done. }
    destruct Hcase as [[-> Hz]|(->&Hne&->&Hz)].
    + apply bind_abort. by eapply Habort.
    + destruct (trigger_if_spec true a READ c (fc_read c) (add_ctl cl io) Hc Hcok (or_introl eq_refl) eq_refl (λ _, Hne))
        as (io1&E1&_&F1&_); [cbn; assert (1 ≤ pend c); [|lia]|].
      { unfold pend. destruct c as [r w f ev], Hcok as (Hev&_). cbn in *. each_event Hev ev; try done; cbn; lia. }
      rewrite (bind_ok _ _ _ _ _ E1). eapply Habort; [|exact Hz]. by rewrite F1, lookup_insert_eq.
Qed.

(** ** Growing the table *)

Lemma fill_spec n i l m b :
  ∃ m', fill n i l m b = (l ++ seq b n, m', b + n)%nat
    ∧ (∀ x, (x < b)%nat → m' !! x = m !! x)
    ∧ (∀ j, (j < n)%nat → m' !! (b + j)%nat = Some (mkFdContext no_event no_event (Z.of_nat (i + j)) NONE))
    ∧ (∀ x, (b + n ≤ x)%nat → m' !! x = m !! x).
Proof.
  revert i l m b. induction n as [|n IH]; intros i l m b; cbn [fill].
  { exists m. rewrite app_nil_r, Nat.add_0_r. split; [done|]. split; [done|]. split; [lia|done]. }
  destruct (IH (S i) (l ++ [b]) (<[b := mkFdContext no_event no_event (Z.of_nat i) NONE]> m) (S b))
    as (m'&E&H1&H2&H3).
  exists m'. split; [|split; [|split]].
  - rewrite E, <-app_assoc. simpl. by rewrite Nat.add_succ_r.
  - intros x Hx. rewrite H1 by lia. by rewrite lookup_insert_ne by lia.
  - intros [|j] Hj.
    + rewrite !Nat.add_0_r, H1 by lia. by rewrite lookup_insert_eq.
    + rewrite <-!Nat.add_succ_comm. apply H2. lia.
  - intros x Hx. rewrite H3 by lia. by rewrite lookup_insert_ne by lia.
Qed.

Lemma contextResize_grow n io :
  io_ok io → (length (m_fdContexts io) ≤ n)%nat → Z.of_nat n < 2 ^ 31 →
  ∃ io', contextResize n io = Ok tt io' ∧ io_ok io' ∧ length (m_fdContexts io') = n
    ∧ base io' = base io ∧ elsewhere io' = elsewhere io ∧ timers io' = timers io ∧ ctl io' = ctl io
    ∧ m_pendingEventCount io' = m_pendingEventCount io
    ∧ (∀ i a, m_fdContexts io !! i = Some a → m_fdContexts io' !! i = Some a ∧ fdctx io' !! a = fdctx io !! a)
    ∧ (∀ i a, (length (m_fdContexts io) ≤ i)%nat → m_fdContexts io' !! i = Some a →
         fdctx io' !! a = Some (mkFdContext no_event no_event (Z.of_nat i) NONE)).
Proof.
  intros Hok Hn Hmax. unfold contextResize, modify. rewrite take_ge by done.
  set (l := m_fdContexts io) in *. set (k := (n - length l)%nat).
  destruct (fill_spec k (length l) l (fdctx io) (brk io)) as (m'&E&H1&H2&H3). rewrite E.
  assert (Hlow : ∀ i a, l !! i = Some a → (a < brk io)%nat).
  { intros i a Hi. destruct (io_ctx _ Hok i a Hi) as (c&Hc&_). apply (io_brk _ Hok). by rewrite Hc. }
  assert (Hold : ∀ i a, l !! i = Some a → (l ++ seq (brk io) k) !! i = Some a ∧ m' !! a = fdctx io !! a).
  { intros i a Hi. split; [rewrite lookup_app_l; [done|by eapply lookup_lt_Some]|]. apply H1. by eapply Hlow. }
  assert (Hnew : ∀ i a, (length l ≤ i)%nat → (l ++ seq (brk io) k) !! i = Some a →
      m' !! a = Some (mkFdContext no_event no_event (Z.of_nat i) NONE) ∧ (brk io ≤ a < brk io + k)%nat).
  { intros i a Hi Ha. rewrite lookup_app_r in Ha by done. apply lookup_seq in Ha as [-> Hj].
    rewrite H2 by done. split; [|lia]. do 3 f_equal. lia. }
  eexists. split; [reflexivity|]. cbn [set_table m_fdContexts base elsewhere timers ctl m_pendingEventCount fdctx].
  assert (Hlen : length (l ++ seq (brk io) k) = n) by (rewrite length_app, length_seq; lia).
  split; [|split; [done|]; do 5 (split; [done|]); split; [done|intros i a Hi Ha; by apply (Hnew i a)]].
  destruct Hok as [G1 G2 G3 G4 G5 G6 G7]. fold l in G1, G2, G4, G5, G6. split; cbn.
  - intros i a Hi. destruct (decide (i < length l)%nat) as [Hlt|Hge].
    + rewrite lookup_app_l in Hi by done. destruct (G1 i a Hi) as (c&Hc&?). exists c.
      split; [|done]. destruct (Hold i a Hi) as [_ ->]. done.
    + destruct (Hnew i a) as [Hc _]; [lia|done|]. eexists. split; [exact Hc|]. split; [done|]. split.
      * split; [cbn; set_solver|done].
      * apply G6. lia.
  - apply NoDup_app. split; [done|]. split; [|apply NoDup_seq].
    intros a [i Hi]%list_elem_of_lookup Ha%elem_of_seq. specialize (Hlow i a Hi). lia.
  - intros a Ha. destruct (decide (a < brk io + k)%nat); [done|]. rewrite H3 in Ha by lia.
    specialize (G3 a Ha). lia.
  - rewrite Hlen. lia.
  - change (m_pendingEventCount io = total m' (l ++ seq (brk io) k)).
    rewrite G5, total_app. fold l. rewrite (total_ext (fdctx io) m' l).
    2:{ intros a [i Hi]%list_elem_of_lookup. unfold pend_at. by destruct (Hold i a Hi) as [_ ->]. }
    rewrite (total_zero m' (seq (brk io) k)); [lia|].
    intros a Ha%elem_of_seq. unfold pend_at. replace a with (brk io + (a - brk io))%nat by lia.
    rewrite H2 by lia. done.
  - intros fd Hfd. apply G6. lia.
  - done.
Qed.

(** ** addEvent *)

Lemma added_ok c event e s :
  ctx_ok c → event = READ ∨ event = WRITE → Z.land (fc_events c) event = 0 →
  ec_scheduler e = Some s → armed e →
  let c' := set_context event e (set_events (Z.lor (fc_events c) event) c) in
  ctx_ok c' ∧ pend c' = pend c + 1 ∧ fc_fd c' = fc_fd c ∧ fc_events c' ≠ 0
  ∧ getContext c event = Some no_event.
Proof.
  intros (Hev&Hr&Hw) He H0 Hs Harm c'. unfold c', ctx_ok, pend. destruct c as [r w fd ev].
  cbn [fc_events fc_read fc_write fc_fd] in *.
  each_event Hev ev; destruct He as [->| ->]; try done;
    cbn in Hr, Hw |- *; subst; split_and!; try done; (set_solver || lia || (exists s; done) || done).
Qed.

Lemma addEvent_body_spec a i fd event cb s cur c io :
  io_ok io → m_fdContexts io !! i = Some a → fdctx io !! a = Some c → fd = Z.of_nat i →
  event = READ ∨ event = WRITE → cb ≠ None ∨ cur.2 = EXEC →
  let new := match cb with Some f => mkEventContext (Some s) None (Some f)
                         | None => mkEventContext (Some s) (Some cur.1) None end in
  (Z.land (fc_events c) event ≠ 0 ∧ addEvent_body epoll_ctl a fd event cb (Some s) cur io = Abort)
  ∨ (Z.land (fc_events c) event = 0 ∧
     (addEvent_body epoll_ctl a fd event cb (Some s) cur io = Ok (-1) io
      ∨ ∃ io', addEvent_body epoll_ctl a fd event cb (Some s) cur io = Ok 0 io' ∧ io_ok io'
          ∧ base io' = base io ∧ elsewhere io' = elsewhere io
          ∧ fdctx io' = <[a := set_context event new (set_events (Z.lor (fc_events c) event) c)]> (fdctx io)
          ∧ m_fdContexts io' = m_fdContexts io
          ∧ m_pendingEventCount io' = m_pendingEventCount io + 1)).
Proof.
  intros Hok Ha Hc -> He Hcur new. destruct (io_ctx _ Hok _ _ Ha) as (c0&Hc0&Hf&Hcok&_).
  assert (c0 = c) as -> by congruence. clear Hc0.
  assert (Hevent : (event =? 0) = false) by (by destruct He as [->| ->]).
  unfold addEvent_body. rewrite (bind_ok _ _ io c io) by (unfold IOManager.ctx_at; mred; by rewrite Hc).
  rewrite Hevent, andb_true_r.
  destruct (Z.eqb_spec (Z.land (fc_events c) event) 0) as [H0|H0].
  2:{ left. split; [done|]. apply bind_abort.
      destruct (Z.eqb_spec (fc_events c) 0) as [Hz|]; [|done]. rewrite Hz, Z.land_0_l in H0. done. }
  right. split; [done|]. rewrite (bind_ok _ _ io tt io) by (by destruct (negb _)).
  set (cl := (_, _, _, a) : ctl_call). rewrite (bind_ok _ _ _ _ _ (do_ctl_spec cl io)).
  destruct (epoll_ctl (ctl io) cl); cbn [negb]; [right|by left].
  assert (Hs : ec_scheduler new = Some s) by (unfold new; by destruct cb).
  assert (Harm : armed new).
  { exists s. split; [done|]. unfold new. destruct cb as [f|]; [left; by exists f|right; by eexists]. }
  destruct (added_ok c event new s Hcok He H0 Hs Harm) as (T1&T2&T3&T4&T5).
  set (c' := set_context event new _) in *.
  pose proof (pending_range io _ a c Hok Ha Hc) as Hp. pose proof (pend_range c) as Hpc.
  rewrite bind_modify. set (ioa := set_pending _ _).
  set (iob := set_fdctx (alter (set_events (Z.lor (fc_events c) event)) a (fdctx ioa)) ioa).
  rewrite (bind_ok _ _ ioa tt iob) by done. rewrite T5.
  rewrite !(bind_ok (sylar_assert _) _ iob tt iob) by done.
  set (ioc := set_fdctx (alter (set_context event new) a (fdctx iob)) iob).
  rewrite (bind_ok _ _ iob tt ioc).
  2:{ unfold ioc, new, update_ctx. destruct cb as [f|]; [done|]. rewrite bind_modify. mred.
      destruct Hcur as [?|Hcur]; [done|]. by rewrite bool_decide_true. }
  exists ioc. split; [reflexivity|].
  assert (Hpend : wrapu 64 (m_pendingEventCount io + 1) = m_pendingEventCount io + 1).
  { apply wrapu_small. unfold in_u. lia. }
  assert (Hfd : fdctx ioc = <[a := c']> (fdctx io)).
  { unfold ioc, iob, ioa. cbn [fdctx set_fdctx set_pending add_ctl]. rewrite alter_alter_eq.
    apply map_eq. intros b. destruct (decide (a = b)) as [<-|];
      [by rewrite lookup_alter_eq, lookup_insert_eq, Hc|by rewrite lookup_alter_ne, lookup_insert_ne]. }
  split; [|do 2 (split; [done|]); split; [exact Hfd|split; [done|exact Hpend]]].
  apply (io_update io ioc i a c c' cl.1.1.1 cl.1.2 a); try done.
  - unfold ioc, iob, ioa. cbn. rewrite Hpend. lia.
  - unfold cl. cbn. by destruct (Z.eqb_spec (fc_events c) 0).
  - unfold watched. rewrite (proj2 (Z.eqb_neq _ _) T4). unfold cl. cbn.
    assert (Hev : fc_events c' = Z.lor (fc_events c) event) by (unfold c', set_context; by destruct He as [->| ->]).
    rewrite Hev, Z.lor_assoc. by destruct (fc_events c =? 0).
Qed.

Lemma addEvent_spec fd event cb s cur io :
  io_ok io → 0 ≤ fd → fd * 3 / 2 < 2 ^ 31 → event = READ ∨ event = WRITE → cb ≠ None ∨ cur.2 = EXEC →
  ∃ io1 a c, m_fdContexts io1 !! Z.to_nat fd = Some a ∧ fdctx io1 !! a = Some c ∧ io_ok io1
    ∧ base io1 = base io ∧ elsewhere io1 = elsewhere io ∧ m_pendingEventCount io1 = m_pendingEventCount io
    ∧ ctl io1 = ctl io
    ∧ (∀ i a, m_fdContexts io !! i = Some a → m_fdContexts io1 !! i = Some a ∧ fdctx io1 !! a = fdctx io !! a)
    ∧ addEvent epoll_ctl fd event cb (Some s) cur io = addEvent_body epoll_ctl a fd event cb (Some s) cur io1.
Proof.
  intros Hok Hfd Hmax He Hcur. unfold addEvent, addEvent_lookup.
  rewrite bind_assoc, (bind_ok _ _ _ _ _ (table_size_ok io Hok)).
  destruct (Z.ltb_spec fd (Z.of_nat (length (m_fdContexts io)))) as [Hlt|Hge].
  - destruct (slot_lookup fd io Hok) as (a&c&Ha&E&Hc&_); [lia|]. exists io, a, c.
    do 7 (split; [done|]). split; [done|]. rewrite bind_assoc, (bind_ok _ _ _ _ _ E). done.
  - assert (Hgrow : fd + 1 ≤ fd * 3 / 2).
    { pose proof (io_size _ Hok). apply Z.div_le_lower_bound; lia. }
    destruct (contextResize_grow (Z.to_nat (fd * 3 / 2)) io Hok) as (io1&E1&Hok1&Hlen&F1&F2&F3&F4&F5&F6&F7); [lia|lia|].
    destruct (slot_lookup fd io1 Hok1) as (a&c&Ha&E&Hc&_); [lia|].
    exists io1, a, c. do 7 (split; [done|]). split; [exact F6|]. rewrite bind_ret.
    unfold addEvent_grow. rewrite bind_assoc, (bind_ok _ _ _ _ _ E1), (bind_ok _ _ _ _ _ E). done.
Qed.
End ops.

(** ** Executions *)

Section runs.
Context (this : nat) (epoll_ctl : list ctl_call → ctl_call → bool).

(** A call on the manager, or an entry of [epoll_wait]'s array. *)
Inductive io_op :=
  | OpAdd (fd event : Z) (cb : option callback) (s : nat) (cur : nat * State)
  | OpDel (fd event : Z)
  | OpCancel (fd event : Z)
  | OpCancelAll (fd : Z)
  | OpReady (i a : nat) (events : Z).

Definition io_exec (o : io_op) : M IOManager unit :=
  match o with
  | OpAdd fd event cb s cur => addEvent epoll_ctl fd event cb (Some s) cur;; mret tt
  | OpDel fd event => delEvent epoll_ctl fd event;; mret tt
  | OpCancel fd event => cancelEvent this epoll_ctl fd event;; mret tt
  | OpCancelAll fd => cancelAll this epoll_ctl fd;; mret tt
  | OpReady _ a events => handle_event this epoll_ctl (Ready a events)
  end.

Definition io_valid (o : io_op) (io : IOManager) : Prop :=
  match o with
  | OpAdd fd event cb _ cur =>
      0 ≤ fd ∧ fd * 3 / 2 < 2 ^ 31 ∧ (event = READ ∨ event = WRITE) ∧ (cb ≠ None ∨ cur.2 = EXEC)
  | OpDel fd event | OpCancel fd event => 0 ≤ fd ∧ (event = READ ∨ event = WRITE)
  | OpCancelAll fd => 0 ≤ fd
  | OpReady i a _ => m_fdContexts io !! i = Some a
  end.

(** The calls the assertions forbid: adding an event that is waited for, and a
    report of an event the context does not wait for next to one it does. *)
Definition refused (o : io_op) (io : IOManager) : Prop :=
  match o with
  | OpAdd fd event _ _ _ => ∃ a c, m_fdContexts io !! Z.to_nat fd = Some a ∧ fdctx io !! a = Some c
      ∧ Z.land (fc_events c) event ≠ 0
  | OpReady _ a events => ∃ c, fdctx io !! a = Some c
      ∧ Z.land (fc_events c) (real_events events (fc_events c)) ≠ 0
      ∧ subset (real_events events (fc_events c)) (fc_events c) = false
  | _ => False
  end.

Lemma io_exec_ok o io :
  io_ok io → io_valid o io →
  (∃ io', io_exec o io = Ok tt io' ∧ io_ok io') ∨ (refused o io ∧ io_exec o io = Abort).
Proof.
  intros Hok Hv. destruct o as [fd event cb s cur|fd event|fd event|fd|i a events]; simpl in Hv |- *.
  - destruct Hv as (Hfd&Hmax&He&Hcur).
    destruct (addEvent_spec epoll_ctl fd event cb s cur io Hok Hfd Hmax He Hcur)
      as (io1&a&c&Ha&Hc&Hok1&_&_&_&Hctl&Hold&E).
    destruct (addEvent_body_spec epoll_ctl a (Z.to_nat fd) fd event cb s cur c io1 Hok1 Ha Hc)
      as [[H0 Eb]|[H0 [Eb|(io2&Eb&Hok2&_)]]]; [by rewrite Z2Nat.id|done|done| | |]; rewrite Eb in E.
    + right. split; [|by apply bind_abort].
      destruct (decide (Z.to_nat fd < length (m_fdContexts io))%nat) as [Hlt|Hge].
      * destruct (lookup_lt_is_Some_2 _ _ Hlt) as [b Hb]. destruct (Hold _ _ Hb) as [Hb1 Hb2].
        assert (b = a) as -> by congruence. exists a, c. rewrite <-Hb2. done.
      * exfalso. apply H0. destruct (io_ctx _ Hok1 _ _ Ha) as (c'&Hc'&Hf&_&Hi).
        assert (c' = c) as -> by congruence. rewrite Z2Nat.id, Hctl, (io_beyond _ Hok) in Hi by lia.
        unfold watched in Hi. destruct (Z.eqb_spec (fc_events c) 0) as [Hz|]; [|done].
        by rewrite Hz, Z.land_0_l.
    + left. rewrite (bind_ok _ _ _ _ _ E). by eexists.
    + left. rewrite (bind_ok _ _ _ _ _ E). by eexists.
  - left. destruct Hv as (Hfd&He).
    destruct (delEvent_spec epoll_ctl fd event io Hok Hfd He) as [E|(a&c&io'&_&_&_&E&Hok'&_)];
      rewrite (bind_ok _ _ _ _ _ E); by eexists.
  - left. destruct Hv as (Hfd&He).
    destruct (cancelEvent_spec this epoll_ctl fd event io Hok Hfd He) as [E|(a&c&e&s&io'&_&_&_&_&_&E&Hok'&_)];
      rewrite (bind_ok _ _ _ _ _ E); by eexists.
  - left. destruct (cancelAll_spec this epoll_ctl fd io Hok Hv) as [E|(a&c&io1&io'&_&_&E&Hok'&_)];
      rewrite (bind_ok _ _ _ _ _ E); by eexists.
  - destruct (io_ctx _ Hok _ _ Hv) as (c&Hc&_).
    destruct (handle_event_spec this epoll_ctl i a c events io Hok Hv Hc)
      as [[_ E]|[(H1&H2&E)|(_&_&io1&io'&E&Hok'&_)]].
    + left. by exists io.
    + right. split; [by exists c|done].
    + left. by exists io'.
Qed.

Inductive io_reachable (io0 : IOManager) : IOManager → Prop :=
  | io_init : io_reachable io0 io0
  | io_step o io io' :
      io_reachable io0 io → io_valid o io → io_exec o io = Ok tt io' → io_reachable io0 io'.

Lemma io_reachable_ok io0 io : io_ok io0 → io_reachable io0 io → io_ok io.
Proof.
  intros H0. induction 1 as [|o io io' _ IH Hv He]; [done|].
  destruct (io_exec_ok o io IH Hv) as [(io2&E&Hok)|[_ E]]; congruence.
Qed.
End runs.

Lemma IOManager_new_ok s now io : IOManager_new s now tt = Ok io tt → io_ok io.
Proof.
  unfold IOManager_new, contextResize, modify. cbn [m_fdContexts length take fdctx brk].
  change (take 32 []) with (@nil nat). cbn [length]. rewrite Nat.sub_0_r.
  destruct (fill_spec 32 0 [] ∅ 0) as (m'&E&_&H2&H3). rewrite E. intros [= <-].
  assert (Hz : ∀ a, pend_at m' a = 0).
  { intros a. unfold pend_at. destruct (decide (a < 32)%nat).
    - replace a with (0 + a)%nat by lia. by rewrite H2.
    - by rewrite H3, lookup_empty by lia. }
  split; cbn [m_fdContexts fdctx set_table brk m_pendingEventCount ctl app].
  - intros i a Hi. apply (lookup_seq 0 32 i a) in Hi as [-> Hi].
    eexists. split; [by apply H2|]. split; [cbn; lia|]. split; [|done]. split; [exact (list_elem_of_here 0 _)|done].
  - exact (NoDup_seq 0 32).
  - intros a [c Hc]. destruct (decide (a < 32)%nat); [done|]. by rewrite H3, lookup_empty in Hc by lia.
  - simpl. lia.
  - symmetry. apply total_zero. auto.
  - done.
  - done.
Qed.

(** ** Properties *)

(** C5: however events were added, deleted, cancelled and reported, the pending
    counter is the number of registered events, an event is registered exactly
    when its context holds somebody to wake, the kernel watches exactly the
    registered events, and every call of [epoll_ctl] was an ADD for an
    unwatched and a MOD or DEL for a watched descriptor.  The next call is
    defined, and stops the process only for a second wait on the same event or
    a report of an event nobody waits for. *)
Theorem io_events_invariant (this : nat) (epoll_ctl : list ctl_call → ctl_call → bool)
    (s : Scheduler) (now : Z) (io0 io : IOManager)
    (H0 : IOManager_new s now tt = Ok io0 tt) (Hr : io_reachable this epoll_ctl io0 io) :
  m_pendingEventCount io = foldr (λ a n, pend_at (fdctx io) a + n) 0 (m_fdContexts io)
  ∧ (∀ i a, m_fdContexts io !! i = Some a → ∃ c, fdctx io !! a = Some c ∧ fc_fd c = Z.of_nat i
       ∧ (if Z.testbit (fc_events c) 0 then armed (fc_read c) else fc_read c = no_event)
       ∧ (if Z.testbit (fc_events c) 2 then armed (fc_write c) else fc_write c = no_event)
       ∧ interest (ctl io) (Z.of_nat i) = watched (fc_events c))
  ∧ well_formed (ctl io)
  ∧ ∀ o, io_valid o io →
      (∃ io', io_exec this epoll_ctl o io = Ok tt io') ∨ (refused o io ∧ io_exec this epoll_ctl o io = Abort).
Proof.
  pose proof (io_reachable_ok _ _ _ _ (IOManager_new_ok _ _ _ H0) Hr) as Hok.
  split; [apply Hok|]. split; [|split; [apply Hok|]].
  - intros i a Hi. destruct (io_ctx _ Hok i a Hi) as (c&Hc&Hf&(_&H1&H2)&Hint). by exists c.
  - intros o Hv. destruct (io_exec_ok this epoll_ctl o io Hok Hv) as [(io'&E&_)|?]; [left; by exists io'|by right].
Qed.

Definition demo_sched : Scheduler := mkScheduler [] [] 1 0 0 false false (-1) None 0.
Definition demo_io : IOManager :=
  match IOManager_new demo_sched 1000 tt with Ok io _ => io | _ => mkIOManager demo_sched (TimerManager_new 0) ∅ [] 0 0 [] [] end.
Definition always (_ : list ctl_call) (_ : ctl_call) : bool := true.
Definition demo_io1 : IOManager :=
  match io_exec 1 always (OpAdd 5 READ (Some (Target 8)) 1 (0%nat, EXEC)) demo_io with Ok _ io => io | _ => demo_io end.

Lemma io_events_invariant_witness :
  m_pendingEventCount demo_io1 = 1 ∧ well_formed (ctl demo_io1).
Proof.
  destruct (io_events_invariant 1 always demo_sched 1000 demo_io demo_io1) as (_&_&Hw&_).
  - vm_compute. reflexivity.
  - eapply (io_step _ _ _ (OpAdd 5 READ (Some (Target 8)) 1 (0%nat, EXEC))); [apply io_init| |vm_compute; reflexivity].
    split_and!; [lia|vm_compute; done|by left|by left].
  - split; [vm_compute; reflexivity|exact Hw].
Defined.

(** A wait that was registered is answered once: after [addEvent] returned 0
    for a callback or for the running fiber, [cancelEvent] hands exactly that
    task to the scheduler that was current, [delEvent] hands out nothing, and
    either way the pending counter is back (unless the kernel refuses). *)
Theorem event_wakes_waiter (this : nat) (epoll_ctl : list ctl_call → ctl_call → bool)
    (fd event : Z) (cb : option callback) (s : nat) (cur : nat * State) (io io1 : IOManager)
    (Hok : io_ok io) (Hfd : 0 ≤ fd) (Hmax : fd * 3 / 2 < 2 ^ 31) (He : event = READ ∨ event = WRITE)
    (Hcur : cb ≠ None ∨ cur.2 = EXEC)
    (Hadd : addEvent epoll_ctl fd event cb (Some s) cur io = Ok 0 io1) :
  m_pendingEventCount io1 = m_pendingEventCount io + 1
  ∧ (cancelEvent this epoll_ctl fd event io1 = Ok false io1
     ∨ ∃ io2, cancelEvent this epoll_ctl fd event io1 = Ok true io2
       ∧ delivered this s (match cb with Some f => FT_cb (Some f) (-1) | None => FT_fiber (Some cur.1) (-1) end) io1 io2
       ∧ m_pendingEventCount io2 = m_pendingEventCount io)
  ∧ (delEvent epoll_ctl fd event io1 = Ok false io1
     ∨ ∃ io2, delEvent epoll_ctl fd event io1 = Ok true io2
       ∧ base io2 = base io1 ∧ elsewhere io2 = elsewhere io1
       ∧ m_pendingEventCount io2 = m_pendingEventCount io).
Proof.
  destruct (addEvent_spec epoll_ctl fd event cb s cur io Hok Hfd Hmax He Hcur)
    as (iog&a&c&Ha&Hc&Hokg&_&_&Hpg&_&_&E). rewrite E in Hadd.
  destruct (addEvent_body_spec epoll_ctl a (Z.to_nat fd) fd event cb s cur c iog Hokg Ha Hc)
    as [[_ Eb]|[H0 [Eb|(io1'&Eb&Hok1&_&_&Hf1&Ht1&Hp1)]]]; [by rewrite Z2Nat.id|done|done|congruence|congruence|].
  assert (io1' = io1) as -> by congruence. split; [lia|].
  set (new := match cb with Some f => _ | None => _ end) in Hf1.
  set (c1 := set_context event new _) in Hf1.
  assert (Hge : getContext c1 event = Some new) by (unfold c1; by destruct He as [->| ->]).
  assert (Hlook : ∀ a' c', m_fdContexts io1 !! Z.to_nat fd = Some a' → fdctx io1 !! a' = Some c' → c' = c1).
  { intros a' c' Ha' Hc'. rewrite Ht1 in Ha'. assert (a' = a) as -> by congruence.
    rewrite Hf1, lookup_insert_eq in Hc'. congruence. }
  split.
  - destruct (cancelEvent_spec this epoll_ctl fd event io1 Hok1 Hfd He)
      as [->|(a'&c'&e&s'&io2&Ha'&Hc'&_&He'&Hs'&E2&_&Hd&_&Hp2)]; [by left|right].
    rewrite (Hlook a' c' Ha' Hc') in He'. assert (e = new) as -> by congruence.
    exists io2. split; [done|]. split; [|lia].
    unfold new in Hs', Hd. by destruct cb; injection Hs' as ->.
  - destruct (delEvent_spec epoll_ctl fd event io1 Hok1 Hfd He)
      as [->|(a'&c'&io2&_&_&_&E2&_&Hb&Hel&_&Hp2)]; [by left|right].
    exists io2. split; [done|]. split; [done|]. split; [done|lia].
Qed.

Lemma event_wakes_waiter_witness :
  ∃ io2, cancelEvent 1 always 5 READ demo_io1 = Ok true io2
    ∧ m_fibers (base io2) = [FT_cb (Some (Target 8)) (-1)].
Proof.
  destruct (event_wakes_waiter 1 always 5 READ (Some (Target 8)) 1 (0%nat, EXEC) demo_io demo_io1)
    as (_&[Hf|(io2&E&Hd&_)]&_).
  - apply (IOManager_new_ok demo_sched 1000). vm_compute. reflexivity.
  - lia.
  - vm_compute. done.
  - by left.
  - by left.
  - vm_compute. reflexivity.
  - exfalso. vm_compute in Hf. discriminate.
  - exists io2. split; [exact E|]. destruct Hd as [_ (_&Hq&_)]. rewrite Hq. reflexivity.
Defined.

(** When [epoll_wait] reports a context, exactly the reported events it
    waits for are triggered (error and hang-up count as all of them): their
    tasks go to their schedulers, their bits and their count disappear and the
    rest stays.  If events nobody waits for are reported besides, the process
    stops in an assertion: the report is not masked with the registered
    events. *)
Theorem ready_events_trigger (this : nat) (epoll_ctl : list ctl_call → ctl_call → bool)
    (i a : nat) (events : Z) (c : FdContext) (io : IOManager)
    (Hok : io_ok io) (Ha : m_fdContexts io !! i = Some a) (Hc : fdctx io !! a = Some c)
    (Hctl : ∀ log call, epoll_ctl log call = true) :
  let real := real_events events (fc_events c) in
  let r := Z.testbit real 0 in let w := Z.testbit real 2 in
  if Z.land (fc_events c) real =? 0 then handle_event this epoll_ctl (Ready a events) io = Ok tt io
  else if subset real (fc_events c) then ∃ io1 io2,
    handle_event this epoll_ctl (Ready a events) io = Ok tt io2
    ∧ maybe_delivered this r (fc_read c) io io1 ∧ maybe_delivered this w (fc_write c) io1 io2
    ∧ (∃ c', fdctx io2 = <[a := c']> (fdctx io) ∧ fc_events c' = Z.land (fc_events c) (Z.lnot real))
    ∧ m_pendingEventCount io2 = m_pendingEventCount io - Z.b2z r - Z.b2z w
  else handle_event this epoll_ctl (Ready a events) io = Abort.
Proof.
  intros real r w.
  destruct (handle_event_spec this epoll_ctl i a c events io Hok Ha Hc)
    as [[[H1|[call H1]] E]|[(H1&H2&E)|(H1&H2&io1&io2&E&_&D1&D2&F1&F2)]].
  - unfold real. by rewrite H1.
  - by rewrite Hctl in H1.
  - unfold real. by rewrite (proj2 (Z.eqb_neq _ _) H1), H2.
  - unfold real. rewrite (proj2 (Z.eqb_neq _ _) H1), H2. eauto 10.
Qed.

Lemma ready_events_trigger_witness :
  ∃ io2, handle_event 1 always (Ready 5 EPOLLHUP) demo_io1 = Ok tt io2 ∧ m_pendingEventCount io2 = 0.
Proof.
  pose proof (ready_events_trigger 1 always 5 5 EPOLLHUP
    (mkFdContext (mkEventContext (Some 1%nat) None (Some (Target 8))) no_event 5 1) demo_io1) as H.
  cbn in H. destruct H as (io1&io2&E&_&_&_&Hp).
  - eapply (io_reachable_ok 1 always demo_io); [apply (IOManager_new_ok demo_sched 1000); vm_compute; reflexivity|].
    eapply (io_step _ _ _ (OpAdd 5 READ (Some (Target 8)) 1 (0%nat, EXEC))); [apply io_init| |vm_compute; reflexivity].
    split_and!; [lia|vm_compute; done|by left|by left].
  - vm_compute. reflexivity.
  - vm_compute. reflexivity.
  - reflexivity.
  - exists io2. split; [exact E|]. rewrite Hp. reflexivity.
Defined.

(** Growing the table races: [addEvent] tests the size under the read lock
    and resizes later under the write lock.  A thread that saw the small table
    shrinks the one another thread has grown meanwhile: the context with the
    registered event is gone, it can be neither cancelled nor deleted, while the
    counter still waits for it and the kernel still watches the descriptor. *)
Theorem addEvent_resize_race :
  ∃ io1 a io2,
    addEvent_lookup 40 demo_io = Ok None demo_io                               (* thread 1, fd 40 *)
    ∧ addEvent always 100 READ (Some (Target 8)) (Some 1%nat) (0%nat, EXEC) demo_io = Ok 0 io1  (* thread 2, fd 100 *)
    ∧ length (m_fdContexts io1) = 150%nat
    ∧ addEvent_grow 40 io1 = Ok a io2                                          (* thread 1 again *)
    ∧ length (m_fdContexts io2) = 60%nat
    ∧ m_pendingEventCount io2 = 1 ∧ interest (ctl io2) 100 ≠ None
    ∧ cancelEvent 1 always 100 READ io2 = Ok false io2 ∧ delEvent always 100 READ io2 = Ok false io2
    ∧ cancelAll 1 always 100 io2 = Ok false io2.
Proof.
  destruct (addEvent always 100 READ (Some (Target 8)) (Some 1%nat) (0%nat, EXEC) demo_io) as [x io1| | |] eqn:E1;
    try (vm_compute in E1; discriminate).
  destruct (addEvent_grow 40 io1) as [a io2| | |] eqn:E2;
    try (vm_compute in E1; injection E1 as _ <-; vm_compute in E2; discriminate).
  exists io1, a, io2. vm_compute in E1. injection E1 as <- <-. vm_compute in E2. injection E2 as <- <-.
  split_and!; try (vm_compute; reflexivity). vm_compute. discriminate.
Qed.


