(* ===== verification/Lifecycle.v ===== *)
(** The beginning and the end of schedulers and IO managers ([scheduler.cc],
    [iomanager.cc]): the joining of the threads, the destructors, the constructor of
    [IOManager], and the loop around [epoll_wait]. *)
From S2P Require Import Prelude Timer Fiber Scheduler IOManager.
From stdpp Require Import gmap.

Local Open Scope Z_scope.

(** ** Scheduler *)

Definition has_exited (p : phase) : bool := match p with Exited => true | _ => false end.
(** [i->join()] for every thread returns when [run] has returned in each. *)
Definition join_returns (w : World) : bool := forallb (λ k, has_exited (w_phase k)) (workers w).
(** [Scheduler::~Scheduler] by thread [th] *)
Definition Scheduler_destroy (this : nat) (th : Z) : M World unit :=
  s ← gets sched;
  sylar_assert (m_stopping s);;
  l ← gets (λ w, locals_of (fw w) th);
  if decide (t_scheduler l = Some this)
  then on_fibers (modify (set_locals th (mkLocals (t_fiber l) (t_threadFiber l) None (t_main l))))
  else mret tt.

(** ** IOManager *)

(** The manager, the fibers and workers of its base, and the descriptors it holds. *)
Record IOWorld := mkIOWorld {
  io : IOManager;
  io_fw : FiberWorld;
  io_workers : list Worker;
  open_fds : list Z;
}.
Definition on_io {A} (m : M IOManager A) : M IOWorld A := λ w,
  let put i := mkIOWorld i (io_fw w) (io_workers w) (open_fds w) in
  match m (io w) with
  | Ok a i => Ok a (put i)
  | Throw e i => Throw e (put i)
  | Abort => Abort
  | Undef u => Undef u
  end.
Definition on_world {A} (m : M World A) : M IOWorld A := λ w,
  let put v := mkIOWorld (set_base (sched v) (io w)) (fw v) (workers v) (open_fds w) in
  match m (mkWorld (io_fw w) (base (io w)) (io_workers w)) with
  | Ok a v => Ok a (put v)
  | Throw e v => Throw e (put v)
  | Abort => Abort
  | Undef u => Undef u
  end.
Definition opened (fds : list Z) : M IOWorld unit :=
  modify (λ w, mkIOWorld (io w) (io_fw w) (io_workers w) (fds ++ open_fds w)%list).
Definition close (fd : Z) : M IOWorld unit :=
  modify (λ w, mkIOWorld (io w) (io_fw w) (io_workers w) (filter (λ x, x ≠ fd) (open_fds w))).

(** What the system calls of the constructor return: the epoll descriptor, the pipe,
    and the results of [pipe], [fcntl] and [epoll_ctl]. *)
Record Setup := mkSetup {
  m_epfd : Z;
  m_tickleFds : Z * Z;
  pipe_rt : Z;
  fcntl_rt : Z;
  ctl_rt : Z;
}.
(** The body of [IOManager::IOManager], its base class constructed; [ids] are the
    threads [start] creates. *)
Definition IOManager_init (u : Setup) (ids : list Z) : M IOWorld unit :=
  sylar_assert (0 <? m_epfd u);;
  opened [m_epfd u];;
  sylar_assert (pipe_rt u =? 0);;
  opened [(m_tickleFds u).1; (m_tickleFds u).2];;
  sylar_assert (fcntl_rt u =? 0);;
  sylar_assert (ctl_rt u =? 0);;
  on_io (contextResize 32);;
  on_world (start ids).

(** The loop of the destructor over [m_fdContexts]. *)
Fixpoint delete_contexts (l : list nat) : M IOManager unit :=
  match l with
  | [] => mret tt
  | a :: l => modify (λ i, set_fdctx (delete a (fdctx i)) i);; delete_contexts l
  end.
(** [IOManager::~IOManager] once [stop] has returned, and the destructor of the base. *)
Definition IOManager_destroy (u : Setup) (this : nat) (th : Z) : M IOWorld unit :=
  close (m_epfd u);;
  close (m_tickleFds u).1;;
  close (m_tickleFds u).2;;
  l ← gets (λ w, m_fdContexts (io w));
  on_io (delete_contexts l);;
  on_world (Scheduler_destroy this th).

(** The [do] loop around [epoll_wait] in [idle]: what each call gives, interrupted by a
    signal or anything else ([-1] with another error is as no event).  The timeouts of
    the calls, and the events of the last one, nothing while it waits. *)
Inductive answer := Interrupted | Answered (rt : list ready).
Fixpoint epoll_loop (next_timeout : Z) (answers : list answer) : list Z * option (list ready) :=
  let next_timeout := clamp_timeout next_timeout in
  match answers with
  | [] => ([wraps 32 next_timeout], None)
  | Interrupted :: answers => let '(ts, rt) := epoll_loop next_timeout answers in (wraps 32 next_timeout :: ts, rt)
  | Answered rt :: _ => ([wraps 32 next_timeout], Some rt)
  end.
