(* ===== verification/LifecycleSpec.v ===== *)
(** Stopping a scheduler: what may be left in its queue when its threads have ended,
    and the timeouts of the loop around [epoll_wait]. *)
From S2P Require Import Prelude Timer Fiber Scheduler SchedulerSpec IOManager Lifecycle.
From stdpp Require Import gmap.

Local Open Scope Z_scope.

(** ** Tasks that are left *)

(** A worker that will look at the queue again. *)
Definition live (p : phase) : bool := match p with Exited | Dispatch _ false => false | _ => true end.
Definition alive (w : World) : Prop := ∃ i p, phases w !! i = Some p ∧ live p = true.
(** No worker may take the task: it is pinned to a thread, or its fiber executes. *)
Definition held (fm : gmap nat Fiber) (ft : FiberAndThread) : Prop :=
  ft_thread ft ≠ -1 ∨ ∃ f fb, ft_fiber ft = Some f ∧ fm !! f = Some fb ∧ m_state fb = EXEC.
Definition all_held (w : World) : Prop := Forall (held (fibers (fw w))) (m_fibers (sched w)).

Lemma alive_insert w ps i p q : ps !! i = Some p → live q = true → phases w = <[i := q]> ps → alive w.
Proof.
  intros Hi Hq E. exists i, q. split; [|done]. rewrite E. apply list_lookup_insert_eq. by eapply lookup_lt_Some.
Qed.
Lemma take_nothing th l w rest t w' : take_loop th l w = Ok (None, rest, t) w' → w' = w ∧ rest = l ∧ Forall (held (fibers w)) l.
Proof.
  revert rest t w'. induction l as [|it l IH]; intros rest t w'; cbn [take_loop]; [by intros [= <- <- <-]|].
  destruct (_ && _) eqn:Eelse.
  - intros (x&w1&E1&E2)%bind_inv. destruct x as [[r rest'] b]. injection E2 as -> <- <- <-.
    destruct (IH _ _ _ E1) as (->&->&Hl). split_and!; [done..|]. constructor; [|done]. left.
    apply andb_true_iff in Eelse as [E%negb_true_iff _]. by apply Z.eqb_neq in E.
  - intros (?&w1&E1&E2)%bind_inv. unfold sylar_assert in E1. destruct (bool_decide _); [|done]. injection E1 as <- <-.
    apply bind_inv in E2 as (exec&w1&E1&E2). destruct (ft_fiber it) as [f|] eqn:Ef.
    + apply bind_inv in E1 as (fb&w2&E1&E3). unfold fiber_at, deref in E1. destruct (fibers w !! f) as [fb'|] eqn:Efb; [|done].
      injection E1 as <- <-. injection E3 as <- <-. case_bool_decide as Hx; [|done].
      apply bind_inv in E2 as (y&w3&E3&E4). destruct y as [[r rest'] b]. injection E4 as -> <- <- <-.
      destruct (IH _ _ _ E3) as (->&->&Hl). split_and!; [done..|]. constructor; [|done]. right. by exists f, fb'.
    + injection E1 as <- <-. done.
Qed.

Lemma on_fibers_frame {A} (m : M FiberWorld A) w a w' : on_fibers m w = Ok a w' → sched w' = sched w ∧ workers w' = workers w.
Proof. unfold on_fibers. destruct (m (fw w)); naive_solver. Qed.
Lemma on_sched_frame {A} (m : M Scheduler A) w a w' : on_sched m w = Ok a w' → fw w' = fw w ∧ workers w' = workers w.
Proof. unfold on_sched. destruct (m (sched w)); naive_solver. Qed.
Lemma alive_goto w i wk p w' : workers w !! i = Some wk → live p = true → goto i p w = Ok tt w' → alive w'.
Proof.
  intros Hi Hp [= <-]. exists i, p. split; [|done]. unfold phases. cbn [workers].
  by rewrite list_lookup_fmap, list_lookup_alter_eq, Hi.
Qed.

Section steps.
Context `{Tickle}.
Context (g_fiber_stack_size : Z) (this : nat).

Lemma run_take_end w i wk w' : workers w !! i = Some wk → run_take i wk w = Ok tt w' → alive w' ∨ all_held w'.
Proof.
  intros Hi. unfold run_take. rewrite bind_gets. intros (x&w1&E1&E2)%bind_inv. destruct x as [[r rest] t].
  destruct (on_fibers_frame _ _ _ _ E1) as [Hs1 Hw1]. destruct r as [ft|].
  - left. apply bind_inv in E2 as ([]&w2&E2&E3). destruct (on_sched_frame _ _ _ _ E2) as [_ Hw2].
    apply bind_inv in E3 as ([]&w3&E3&E4). destruct (on_sched_frame _ _ _ _ E3) as [_ Hw3].
    apply bind_inv in E4 as ([]&w4&E4&E5).
    assert (workers w4 = workers w3) as Hw4 by (destruct t; [by eapply on_sched_frame|by injection E4 as <-]).
    cbn [default] in E5. rewrite bool_decide_true in E5 by done. refine (alive_goto _ _ _ _ _ _ _ E5); [|done].
    by rewrite Hw4, Hw3, Hw2, Hw1.
  - right. unfold on_fibers in E1. destruct (take_loop _ _ (fw w)) as [[[r rest'] t'] f| | |] eqn:Et; try done.
    injection E1 as -> -> -> <-. destruct (take_nothing _ _ _ _ _ _ Et) as (Ef&Er&Hh). subst f rest.
    cbn [fw sched workers] in *. apply bind_inv in E2 as ([]&w2&E2&E3). injection E2 as <-. apply bind_inv in E3 as ([]&w2&E2&E3). injection E2 as <-.
    apply bind_inv in E3 as ([]&w3&E3&E4). injection E4 as <-. unfold all_held. cbn [fw sched].
    destruct t; injection E3 as <-; cbn [fw sched]; [|done].
    by destruct (same_tickle (set_queue (m_fibers (sched w)) (sched w))) as (_&->&_).
Qed.
Lemma run_dispatch_end w i wk ft a w' : workers w !! i = Some wk → ¬ nonempty ft → all_held w →
  run_dispatch g_fiber_stack_size i wk ft false a w = Ok tt w' → alive w' ∨ all_held w'.
Proof.
  intros Hi Hft Hh. unfold nonempty in Hft. unfold run_dispatch.
  destruct (ft_fiber ft) as [f|]; [exfalso; apply Hft; by left|]. destruct (ft_cb ft) as [cb|]; [exfalso; apply Hft; by right|].
  rewrite bind_ret. intros (st&w1&E1&E2)%bind_inv.
  assert (w1 = w) as ->.
  { unfold state_of in E1. apply bind_inv in E1 as (fb&w2&E1&E3). injection E3 as _ <-. unfold on_fibers, fiber_at, deref in E1.
    destruct (fibers (fw w) !! idle_fiber wk); [|done]. injection E1 as _ <-. by destruct w. }
  destruct (decide (st = TERM)); [right; by injection E2 as <-|left].
  apply bind_inv in E2 as ([]&w2&E2&E3). destruct (on_sched_frame _ _ _ _ E2) as [_ Hw2].
  apply bind_inv in E3 as ([]&w3&E3&E4). destruct (on_fibers_frame _ _ _ _ E3) as [_ Hw3].
  refine (alive_goto _ _ _ _ _ _ _ E4); [|done]. by rewrite Hw3, Hw2.
Qed.
Lemma worker_step_end i a b c w w' : W_ok w → alive w ∨ all_held w →
  worker_step g_fiber_stack_size i this a b c w = Ok tt w' → alive w' ∨ all_held w'.
Proof.
  intros (Hc&Hp&Hl) Ha He. unfold worker_step in He. apply bind_inv in He as (wk&w1&E1&He). unfold deref in E1.
  destruct (workers w !! i) as [wk'|] eqn:Ei; [|done]. injection E1 as <- <-.
  assert (Hi : phases w !! i = Some (w_phase wk')) by (unfold phases; by rewrite list_lookup_fmap, Ei).
  assert (Hpi : phase_ok (w_phase wk')) by (by eapply Forall_lookup_1).
  assert (Hmove : ∀ q a d, core a d (<[i := q]> (phases w)) w' → live q = true → alive w').
  { intros q a' d' (_&_&Hps&_) Hq. by eapply alive_insert. }
  assert (Hstay : ∀ a d, core a d (phases w) w' → live (w_phase wk') = true → alive w').
  { intros a' d' (_&_&Hps&_) Hq. exists i, (w_phase wk'). by rewrite Hps. }
  destruct (w_phase wk') as [| |ft act0|f k|f k|f k|f k|] eqn:Eph.
  - left. exact (Hmove _ _ _ (run_enter_core _ _ _ _ _ _ _ _ _ _ _ _ Hc He) eq_refl).
  - by eapply run_take_end.
  - destruct (run_dispatch_core _ _ _ _ _ _ _ _ _ _ _ _ Hc He) as [(f&k&_&_&Hc')|[[-> Hc']|[[-> Hc']|(->&f&Hc')]]];
      [left; exact (Hmove _ _ _ Hc' eq_refl)..| |left; exact (Hmove _ _ _ Hc' eq_refl)].
    destruct Ha as [(j&p&Hj&Hlive)|Hh].
    + left. exists j, p. destruct Hc' as (_&_&->&_). rewrite list_lookup_insert_ne; [done|]. intros <-. rewrite Hi in Hj. by injection Hj as <-.
    + eapply run_dispatch_end; [done| |done|exact He]. intros Hn. by specialize (Hpi Hn).
  - left. destruct c as [st|thrown].
    + case_decide; [|injection He as <-; exact (Hstay _ _ Hc eq_refl)].
      destruct (fiber_yield_core _ _ _ _ _ _ _ _ _ _ _ Hc He) as [Hc'|Hc']; [exact (Hstay _ _ Hc' eq_refl)|exact (Hmove _ _ _ Hc' eq_refl)].
    + destruct (fiber_end_core _ _ _ _ _ _ _ _ _ _ Hc He) as [Hc'|Hc']; [exact (Hstay _ _ Hc' eq_refl)|exact (Hmove _ _ _ Hc' eq_refl)].
  - left. exact (Hmove _ _ _ (fiber_leave_core _ _ _ _ _ _ _ _ _ _ Hc He) eq_refl).
  - left. exact (Hmove _ _ _ (run_count_core _ _ _ _ _ _ _ _ _ Hc He) eq_refl).
  - left. exact (Hmove _ _ _ (run_after_core _ _ _ _ _ _ _ _ _ Hc He) eq_refl).
  - by injection He as <-.
Qed.

(** [stop] touches neither the queue nor the workers, and the fibers only when it
    calls the root fiber. *)
Definition kept (f : FiberWorld) (q : list FiberAndThread) (ws : list Worker) (w : World) : Prop :=
  fw w = f ∧ m_fibers (sched w) = q ∧ workers w = ws.
Lemma state_of_kept f q ws a : triple (kept f q ws) (state_of a) (λ _, kept f q ws).
Proof.
  intros w st w' Hk. unfold state_of. intros (fb&w1&E1&E2)%bind_inv. injection E2 as _ <-. unfold on_fibers, fiber_at, deref in E1.
  destruct (fibers (fw w) !! a); [|done]. injection E1 as _ <-. by destruct w.
Qed.
Lemma sched_kept f q ws (g : Scheduler → Scheduler) : (∀ s, m_fibers (g s) = m_fibers s) →
  triple (kept f q ws) (on_sched (modify g)) (λ _, kept f q ws).
Proof. intros Hg w x w' (H1&H2&H3) [= _ <-]. unfold kept. cbn. by rewrite Hg. Qed.
Lemma stop_kept f q ws th : triple (kept f q ws) (stop this th) (λ b w',
  (b = false → fw w' = f) ∧ m_fibers (sched w') = q ∧ workers w' = ws).
Proof.
  assert (∀ (b : bool) w, kept f q ws w → (b = false → fw w = f) ∧ m_fibers (sched w) = q ∧ workers w = ws) as Hend by (by intros ?? (?&?&?)).
  unfold stop. eapply (triple_bind _ _ _ (λ _, kept f q ws)); [by apply triple_gets|]. intros s.
  eapply triple_keep; [by apply sched_kept|]. intros [].
  eapply (triple_bind _ _ _ (λ _, kept f q ws)).
  { destruct (m_rootFiber s); [|by apply triple_ret]. eapply triple_keep; [apply state_of_kept|]. intros st.
    destruct (_ && _); [|by apply triple_ret]. eapply triple_keep; [by apply sched_kept|]. intros []. by apply triple_gets. }
  intros []; [by apply triple_ret, Hend|].
  eapply (triple_bind _ _ _ (λ _, kept f q ws)); [by apply triple_gets|]. intros l.
  eapply triple_keep; [destruct (_ =? _); by apply triple_assert|]. intros [].
  eapply triple_keep; [by apply sched_kept|]. intros [].
  eapply triple_keep; [apply sched_kept; intros s'; by destruct (same_tickles (Z.to_nat (m_threadCount s')) s') as (_&->&_)|]. intros [].
  destruct (m_rootFiber s); [|by apply triple_ret, Hend].
  eapply triple_keep; [apply sched_kept; intros s'; by destruct (same_tickle s') as (_&->&_)|]. intros [].
  eapply (triple_bind _ _ _ (λ _, kept f q ws)); [by apply triple_gets|]. intros []; [by apply triple_ret, Hend|].
  intros w x w' (H1&H2&H3). intros ([]&w1&E1&E2)%bind_inv. injection E2 as <- <-.
  destruct (on_fibers_frame _ _ _ _ E1) as [-> ->]. done.
Qed.

Lemma all_held_same w w' : fibers (fw w') = fibers (fw w) → m_fibers (sched w') = m_fibers (sched w) → all_held w → all_held w'.
Proof. unfold all_held. by intros -> ->. Qed.
Lemma alive_same w w' : workers w' = workers w → alive w → alive w'.
Proof. unfold alive, phases. by intros ->. Qed.
Lemma alive_more w w' l : workers w' = workers w ++ l → alive w → alive w'.
Proof.
  unfold alive, phases. intros -> (i&p&Hi&Hp). exists i, p. split; [|done]. rewrite fmap_app. by apply lookup_app_l_Some.
Qed.
Lemma alive_new w w' th l : workers w' = workers w ++ mkWorker th Enter 0 None :: l → alive w'.
Proof.
  unfold alive, phases. intros ->. exists (length (workers w)), Enter. split; [|done].
  by rewrite list_lookup_fmap, lookup_app_r, Nat.sub_diag.
Qed.

(** The use of a scheduler: nothing is scheduled once no worker will look at the
    queue, and a new fiber has a fresh address. *)
Definition allowed (w : World) (x : action) : Prop :=
  match x with ASchedule _ => alive w | ANewFiber a _ => fibers (fw w) !! a = None | _ => True end.
Inductive used (w0 : World) : World → Prop :=
  | used_init : used w0 w0
  | used_act x w w' : used w0 w → allowed w x → act g_fiber_stack_size this x w = Ok tt w' →
      Z.of_nat (length (workers w')) < 2 ^ 64 → used w0 w'.
Lemma used_reachable w0 w : used w0 w → reachable g_fiber_stack_size this w0 w.
Proof. induction 1; [constructor|by econstructor]. Qed.

Lemma act_end x w w' : W_ok w → allowed w x → alive w ∨ all_held w → act g_fiber_stack_size this x w = Ok tt w' → alive w' ∨ all_held w'.
Proof.
  intros Hw Hx Ha He. destruct x as [i a b c|ft|a cb|ids|th]; cbn [act allowed] in *.
  - by eapply worker_step_end.
  - left. eapply alive_same; [|exact Hx]. by eapply on_sched_frame.
  - destruct (on_fibers_frame _ _ _ _ He) as [Hs Hk]. destruct Ha as [Ha|Ha]; [left; by eapply alive_same|right].
    injection He as <-. unfold all_held in *. cbn [fw sched fibers]. eapply Forall_impl; [exact Ha|].
    intros ft [Ht|(f&fb&Hf&Hl&Hst)]; [by left|right]. exists f, fb. split_and!; [done| |done].
    rewrite lookup_insert_ne; [done|]. intros ->. congruence.
  - unfold start in He. rewrite bind_gets in He. destruct (m_stopping (sched w)); [|by injection He as <-].
    injection He as <-. destruct ids as [|id ids]; [|left; by eapply (alive_new w)].
    destruct Ha as [Ha|Ha]; [left|right; by eapply all_held_same]. eapply (alive_more w); [done|done].
  - apply bind_inv in He as (b&w1&E1&E2). destruct (stop_kept _ _ _ th w b w1 ltac:(done) E1) as (Hf&Hq&Hk). destruct b.
    + left. injection E2 as <-. eapply (alive_new w1). done.
    + injection E2 as <-. destruct Ha as [Ha|Ha]; [left; by eapply alive_same|right].
      eapply all_held_same; [by rewrite Hf|done|done].
Qed.
Lemma used_end w0 w : fresh_world w0 → used w0 w → alive w ∨ all_held w.
Proof.
  intros H0 Hu. induction Hu as [|x w w' Hu IH Hx He Hl].
  - right. destruct H0 as (_&Hq&_). unfold all_held. rewrite Hq. constructor.
  - eapply act_end; [|exact Hx|exact IH|exact He]. eapply reachable_W_ok; [by apply fresh_W_ok|by apply used_reachable].
Qed.

End steps.

(** ** The loop around [epoll_wait] *)

(** However often it is interrupted, every call gets the timeout of the first. *)
Lemma clamp_clamp t : clamp_timeout (clamp_timeout t) = clamp_timeout t.
Proof.
  assert (clamp_timeout 5000 = 5000) as H5 by reflexivity. unfold clamp_timeout at 2 3. unfold MAX_TIMEOUT.
  destruct (t =? 2 ^ 64 - 1) eqn:E; cbn [negb]; [done|]. destruct (5000 <? wraps 32 t) eqn:El; [done|].
  unfold clamp_timeout, MAX_TIMEOUT. by rewrite E, El.
Qed.
Lemma epoll_loop_timeouts t answers : Forall (λ x, x = wait_timeout t) (epoll_loop t answers).1.
Proof.
  assert (∀ l t', wraps 32 (clamp_timeout t') = wait_timeout t → Forall (λ x, x = wait_timeout t) (epoll_loop t' l).1) as Hgen.
  { induction l as [|[|rt] l IH]; intros t' Ht; cbn [epoll_loop]; [by constructor| |by constructor].
    specialize (IH (clamp_timeout t') ltac:(by rewrite clamp_clamp)). destruct (epoll_loop (clamp_timeout t') l) as [ts rt].
    by constructor. }
  by apply Hgen.
Qed.
(** The loop ends with the first call that is not interrupted. *)
Lemma epoll_loop_answer t n rt rest : (epoll_loop t (replicate n Interrupted ++ Answered rt :: rest)).2 = Some rt.
Proof.
  revert t. induction n as [|n IH]; intros t; [done|]. cbn [replicate app epoll_loop]. specialize (IH (clamp_timeout t)).
  by destruct (epoll_loop (clamp_timeout t) _).
Qed.

Module Demo.
Definition allowed_b (w : World) (x : action) : bool :=
  match x with
  | ASchedule _ => existsb live (phases w)
  | ANewFiber a _ => bool_decide (fibers (fw w) !! a = None)
  | _ => true
  end.
Lemma allowed_b_ok w x : allowed_b w x = true → allowed w x.
Proof.
  destruct x; cbn; try done; [|by intros ?%bool_decide_eq_true].
  intros (p&Hp&Hl)%existsb_exists. rewrite <-list_elem_of_In in Hp. apply list_elem_of_lookup in Hp as [i Hi]. by exists i, p.
Qed.
Fixpoint run_used `{Tickle} (st : Z) (this : nat) (l : list action) (w : World) : option World :=
  match l with
  | [] => Some w
  | x :: l =>
      if allowed_b w x then
        match act st this x w with
        | Ok _ w' => if Z.of_nat (length (workers w')) <? 2 ^ 64 then run_used st this l w' else None
        | _ => None
        end
      else None
  end.
Lemma run_used_ok `{Tickle} st this l w0 w w' : used st this w0 w → run_used st this l w = Some w' → used st this w0 w'.
Proof.
  revert w. induction l as [|x l IH]; intros w Hu; cbn [run_used]; [congruence|].
  destruct (allowed_b w x) eqn:Ex; [|done]. destruct (act st this x w) as [[] w1| | |] eqn:E; try done.
  destruct (Z.ltb_spec (Z.of_nat (length (workers w1))) (2 ^ 64)); [|done].
  apply IH. eapply used_act; [done|by apply allowed_b_ok|done|done].
Qed.
(** Worker [i] makes [n] steps, with fresh addresses from [a] on. *)
Definition turns (i a : nat) (c : fiber_choice) (n : nat) : list action :=
  (λ j, AWorker i (a + 2 * j) (a + 2 * j + 1) c) <$> seq 0 n.
(** Two workers; the first runs a callback, both find nothing more and end. *)
Definition script : list action :=
  [AStart [11; 12]] ++ turns 0 100 (End false) 1 ++ turns 1 110 (End false) 1 ++
  [ASchedule (FT_cb (Some (Target 1)) (-1)); AStop 13] ++
  turns 0 120 (End false) 7 ++ turns 0 140 (End false) 8 ++ turns 1 160 (End false) 9.
Definition ended : World :=
  match @run_used Scheduler_tickle 1024 1 script start_world with Some w => w | None => start_world end.
(** The counter is decremented before a fiber that yielded READY is scheduled again.  The
    second worker sees neither and ends; the fiber then schedules a task for the thread of
    that worker, which nobody can take, and the first worker never ends: [stop] hangs. *)
Definition hang_script : list action :=
  [AStart [11; 12]] ++ turns 0 100 (End false) 1 ++ turns 1 110 (End false) 1 ++
  [ANewFiber 50 (Target 1); ASchedule (FT_fiber (Some 50%nat) (-1))] ++ turns 0 120 (End false) 2 ++ [AStop 13] ++
  turns 0 130 (Yield READY) 3 ++              (* yields; the counter is decremented *)
  turns 1 140 (End false) 9 ++                (* the second worker ends *)
  turns 0 160 (End false) 3 ++                (* the fiber runs again *)
  [ASchedule (FT_cb (Some (Target 2)) 12)] ++ turns 0 170 (End false) 12.
Lemma late_task_hangs :
  ∃ w idle, @used Scheduler_tickle 1024 1 start_world w ∧ phases w = [Running idle KIdle; Exited] ∧
    m_fibers (sched w) = [FT_cb (Some (Target 2)) 12] ∧ w_thread <$> workers w = [11; 12] ∧ stopping (sched w) = false.
Proof.
  destruct (@run_used Scheduler_tickle 1024 1 hang_script start_world) as [w|] eqn:E; [|vm_compute in E; discriminate].
  exists w, 101%nat. split.
  { apply (@run_used_ok Scheduler_tickle 1024 1 hang_script start_world start_world); [constructor|exact E]. }
  vm_compute in E. injection E as <-. repeat split; vm_compute; reflexivity.
Qed.
End Demo.
