(* ===== verification/Text.v ===== *)
(** C and C++ text primitives the components use: the part of a string before
    NUL, [memchr], [strcasecmp], decimal output of unsigned numbers and
    [strtol]. *)
From S2P Require Import Prelude.
From Stdlib Require Import Ascii DecimalString DecimalN DecimalPos.

Local Open Scope string_scope.

(** What a C string function sees of a [std::string]: the part before NUL. *)
Fixpoint c_str (s : string) : string :=
  match s with
  | "" => ""
  | String c s => if Ascii.eqb c "000" then "" else String c (c_str s)
  end.

(** All characters satisfy [p]. *)
Fixpoint every (p : ascii → bool) (s : string) : bool :=
  match s with "" => true | String c s => p c && every p s end.
Definition not_char (c : ascii) (x : ascii) : bool := negb (Ascii.eqb x c).
Definition is_digit (c : ascii) : bool :=
  let n := N_of_ascii c in ((48 <=? n) && (n <=? 57))%N.

(** [memchr]: the text before and after the first [c]. *)
Fixpoint cut (c : ascii) (s : string) : option (string * string) :=
  match s with
  | "" => None
  | String x s => if Ascii.eqb x c then Some ("", s) else '(a, b) ← cut c s; Some (String x a, b)
  end.

(** ** Numbers *)

(** [os << n] for an unsigned number *)
Definition show (n : Z) : string := NilZero.string_of_uint (N.to_uint (Z.to_N n)).
(** The number a whole string of digits denotes. *)
Definition read_dec (s : string) : option Z :=
  d ← NilZero.uint_of_string s; Some (Z.of_N (N.of_uint d)).

(** [isspace] in the C locale *)
Definition isspace (c : ascii) : bool :=
  let n := N_of_ascii c in ((n =? 32) || ((9 <=? n) && (n <=? 13)))%N.
Fixpoint skip_spaces (s : string) : string :=
  match s with String c s' => if isspace c then skip_spaces s' else s | "" => "" end.
Fixpoint digits_value (acc : Z) (s : string) : Z :=
  match s with
  | String c s => if is_digit c then digits_value (10 * acc + Z.of_N (N_of_ascii c - 48)) s else acc
  | "" => acc
  end.
(** [strtol] in base ten, clamped to [long]. *)
Definition strtol (s : string) : Z :=
  let clamp z := Z.min (2 ^ 63 - 1) (Z.max (- 2 ^ 63) z) in
  match skip_spaces s with
  | String c s' =>
      clamp (if Ascii.eqb c "-" then - digits_value 0 s'
             else if Ascii.eqb c "+" then digits_value 0 s' else digits_value 0 (String c s'))%Z
  | "" => 0%Z
  end.
(** [atoi] *)
Definition atoi (s : string) : Z := wraps 32 (strtol s).

(** [strtol] in base sixteen, with its optional prefix "0x". *)
Definition hex_value (c : ascii) : option Z :=
  let n := Z.of_N (N_of_ascii c) in
  (if (48 <=? n) && (n <=? 57) then Some (n - 48)
   else if (65 <=? n) && (n <=? 70) then Some (n - 55)
   else if (97 <=? n) && (n <=? 102) then Some (n - 87) else None)%Z.
Fixpoint hex_digits_value (acc : Z) (s : string) : Z :=
  match s with
  | String c s => match hex_value c with Some v => hex_digits_value (16 * acc + v) s | None => acc end
  | "" => acc
  end.
Definition skip_0x (s : string) : string :=
  match s with
  | String "0" (String x (String c s')) =>
      if (Ascii.eqb x "x" || Ascii.eqb x "X") && (if hex_value c is Some _ then true else false)
      then String c s' else s
  | _ => s
  end.
Definition strtol16 (s : string) : Z :=
  let clamp z := Z.min (2 ^ 63 - 1) (Z.max (- 2 ^ 63) z) in
  match skip_spaces s with
  | String c s' =>
      clamp (if Ascii.eqb c "-" then - hex_digits_value 0 (skip_0x s')
             else if Ascii.eqb c "+" then hex_digits_value 0 (skip_0x s')
             else hex_digits_value 0 (skip_0x (String c s')))%Z
  | "" => 0%Z
  end.

(** [strncmp(a, b, n) == 0] *)
Fixpoint strncmp_eq (a b : string) (n : nat) : bool :=
  match n with
  | O => true
  | S n =>
      match a, b with
      | "", "" => true
      | "", String d _ => Ascii.eqb d "000"
      | String c _, "" => Ascii.eqb c "000"
      | String c a, String d b => Ascii.eqb c d && (Ascii.eqb c "000" || strncmp_eq a b n)
      end
  end.

(** ** Case *)

(** [tolower] in the C locale. *)
Definition lower (c : ascii) : N :=
  let n := N_of_ascii c in
  if ((65 <=? n) && (n <=? 90))%N then (n + 32)%N else n.

(** What [strcasecmp] compares: the lower-cased bytes before NUL. *)
Fixpoint canon (s : string) : list N :=
  match s with
  | "" => []
  | String c s => if Ascii.eqb c "000" then [] else lower c :: canon s
  end.

(** Lexicographic order: the sign of [strcasecmp] on canonical forms and of
    [memcmp] followed by the comparison of lengths. *)
Fixpoint lex_lt (a b : list N) : bool :=
  match a, b with
  | _, [] => false
  | [], _ :: _ => true
  | x :: a, y :: b => (x <? y)%N || ((x =? y)%N && lex_lt a b)
  end.
Definition strcasecmp_eq (a b : string) : bool := bool_decide (canon a = canon b).

(** ** Lemmas *)

Section order.
Implicit Types a b c : list N.

Lemma lex_lt_irrefl a : lex_lt a a = false.
Proof. induction a as [|x a IH]; simpl; [done|]. rewrite N.ltb_irrefl, N.eqb_refl. exact IH. Qed.
Lemma lex_lt_trans a b c : lex_lt a b = true → lex_lt b c = true → lex_lt a c = true.
Proof.
  revert b c. induction a as [|x a IH]; intros [|y b] [|z c]; simpl; try done.
  rewrite !orb_true_iff, !andb_true_iff, !N.ltb_lt, !N.eqb_eq.
  intros [?|[-> ?]] [?|[-> ?]]; eauto 4 using N.lt_trans.
Qed.
Lemma lex_lt_total a b : lex_lt a b = false → lex_lt b a = false → a = b.
Proof.
  revert b. induction a as [|x a IH]; intros [|y b]; simpl; try done.
  rewrite !orb_false_iff, !andb_false_iff, !N.ltb_ge, !N.eqb_neq.
  intros [? H1] [? H2]. assert (x = y) as <- by lia. f_equal. apply IH; naive_solver.
Qed.
Lemma lex_lt_asym a b : lex_lt a b = true → lex_lt b a = false.
Proof.
  intros H. destruct (lex_lt b a) eqn:E; [|done].
  pose proof (lex_lt_trans _ _ _ H E) as Hc. by rewrite lex_lt_irrefl in Hc.
Qed.
(** Equivalence under the order is equality. *)
Lemma lex_lt_neither a b : lex_lt a b || lex_lt b a = bool_decide (a ≠ b).
Proof.
  case_bool_decide as E.
  - destruct (lex_lt a b) eqn:H1, (lex_lt b a) eqn:H2; try done. by destruct E; apply lex_lt_total.
  - subst b. by rewrite lex_lt_irrefl.
Qed.
End order.

Section strings.
Implicit Types s a b : string.

Lemma app_cons_s c a b : String c a +:+ b = String c (a +:+ b).
Proof. done. Qed.
Lemma app_empty_s a : "" +:+ a = a.
Proof. done. Qed.
Lemma app_assoc_s s a b : (s +:+ a) +:+ b = s +:+ (a +:+ b).
Proof. induction s as [|c s IH]; [done|]. by rewrite !app_cons_s, IH. Qed.
Lemma app_nil_s s : s +:+ "" = s.
Proof. induction s as [|c s IH]; [done|]. by rewrite app_cons_s, IH. Qed.
Lemma length_app_s a b : String.length (a +:+ b) = String.length a + String.length b.
Proof. induction a as [|c a IH]; [done|]. rewrite app_cons_s. simpl. by rewrite IH. Qed.

Lemma every_app p a b : every p (a +:+ b) = every p a && every p b.
Proof. induction a as [|c a IH]; [done|]. rewrite app_cons_s. simpl. by rewrite IH, andb_assoc. Qed.
Lemma every_impl p q s : (∀ c, p c = true → q c = true) → every p s = true → every q s = true.
Proof.
  intros H. induction s as [|c s IH]; simpl; [done|]. rewrite !andb_true_iff. naive_solver.
Qed.

Lemma cut_here c a b : every (not_char c) a = true → cut c (a +:+ String c b) = Some (a, b).
Proof.
  induction a as [|x a IH]; rewrite ?app_empty_s, ?app_cons_s; simpl.
  - by rewrite Ascii.eqb_refl.
  - unfold not_char at 1. destruct (Ascii.eqb x c); [done|]. simpl. intros H. by rewrite IH.
Qed.
Lemma cut_sep c a b : every (not_char c) a = true → cut c (a +:+ String c "" +:+ b) = Some (a, b).
Proof. apply cut_here. Qed.
Lemma cut_none c a : every (not_char c) a = true → cut c a = None.
Proof.
  induction a as [|x a IH]; simpl; [done|].
  unfold not_char at 1. destruct (Ascii.eqb x c); [done|]. simpl. intros H. by rewrite IH.
Qed.

Lemma show_digits n : every is_digit (show n) = true.
Proof.
  assert (∀ d, every is_digit (NilEmpty.string_of_uint d) = true) as Hd
    by (induction d; simpl; auto).
  unfold show, NilZero.string_of_uint. destruct (N.to_uint _) eqn:E; [done|..]; rewrite <-E; apply Hd.
Qed.
Lemma show_not_char c n : is_digit c = false → every (not_char c) (show n) = true.
Proof.
  intros Hc. eapply every_impl, show_digits. intros x Hx. unfold not_char.
  destruct (Ascii.eqb_spec x c) as [->|]; [|done]. by rewrite Hx in Hc.
Qed.
Lemma read_dec_show n : (0 ≤ n)%Z → read_dec (show n) = Some n.
Proof.
  intros Hn. unfold read_dec, show. rewrite NilZero.usu.
  - simpl. rewrite DecimalN.Unsigned.of_to. f_equal. lia.
  - destruct (Z.to_N n); [done|]. apply DecimalPos.Unsigned.to_uint_nonnil.
Qed.
(** [strtol] reads back what [<<] printed, up to a character that is no digit. *)
Definition no_digit (s : string) : bool := if s is String c _ then negb (is_digit c) else true.
Lemma digits_value_stop acc t : no_digit t = true → digits_value acc t = acc.
Proof. destruct t as [|c t]; simpl; [done|]. by destruct (is_digit c). Qed.
Lemma digits_value_acc d acc t :
  no_digit t = true →
  digits_value (Z.pos acc) (NilEmpty.string_of_uint d +:+ t) = Z.pos (Pos.of_uint_acc d acc).
Proof.
  intros Ht. revert acc. induction d as [|d IH|d IH|d IH|d IH|d IH|d IH|d IH|d IH|d IH|d IH]; intros acc;
    [by apply digits_value_stop|..]; cbn [Pos.of_uint_acc]; rewrite <-IH; cbn [NilEmpty.string_of_uint]; rewrite app_cons_s;
    cbn [digits_value is_digit]; f_equal; simpl; lia.
Qed.
Lemma digits_value_uint d t :
  no_digit t = true → digits_value 0 (NilEmpty.string_of_uint d +:+ t) = Z.of_N (N.of_uint d).
Proof.
  intros Ht. induction d as [|d IH|d IH|d IH|d IH|d IH|d IH|d IH|d IH|d IH|d IH];
    [by apply digits_value_stop|..]; cbn [NilEmpty.string_of_uint]; rewrite app_cons_s;
    cbn [digits_value is_digit]; [exact IH|..]; exact (digits_value_acc d _ t Ht).
Qed.
Lemma digits_value_show n t : (0 ≤ n)%Z → no_digit t = true → digits_value 0 (show n +:+ t) = n.
Proof.
  intros Hn Ht. unfold show, NilZero.string_of_uint. destruct (N.to_uint (Z.to_N n)) eqn:E; rewrite <-?E.
  { exfalso. destruct (Z.to_N n); [done|]. by apply DecimalPos.Unsigned.to_uint_nonnil in E. }
  all: rewrite digits_value_uint, DecimalN.Unsigned.of_to by done; lia.
Qed.
Lemma atoi_show n t : (0 ≤ n < 2 ^ 31)%Z → no_digit t = true → atoi (show n +:+ t) = n.
Proof.
  intros Hn Ht. unfold atoi, strtol. pose proof (digits_value_show n t (proj1 Hn) Ht) as Hv.
  pose proof (show_digits n) as Hd. destruct (show n) as [|c s] eqn:E.
  { unfold show, NilZero.string_of_uint in E. by destruct (N.to_uint _). }
  cbn [every] in Hd. apply andb_true_iff in Hd as [Hc _]. rewrite app_cons_s in *. unfold is_digit in Hc.
  apply andb_true_iff in Hc as [H1%N.leb_le H2%N.leb_le].
  assert (isspace c = false) as Hs.
  { unfold isspace. rewrite orb_false_iff, andb_false_iff, N.eqb_neq, !N.leb_gt. lia. }
  assert (∀ x, (N_of_ascii x < 48)%N → Ascii.eqb c x = false) as Hx.
  { intros x Hx. destruct (Ascii.eqb_spec c x) as [->|]; [lia|done]. }
  cbn [skip_spaces]. rewrite Hs, !Hx, Hv by done. rewrite Z.max_r, Z.min_r by lia.
  apply wraps_small; unfold in_s; lia.
Qed.
Lemma show_nonempty n : show n ≠ "".
Proof.
  unfold show, NilZero.string_of_uint. by destruct (N.to_uint (Z.to_N n)).
Qed.
Lemma c_str_id s : every (not_char "000") s = true → c_str s = s.
Proof.
  induction s as [|c s IH]; [done|]. cbn [every]. intros [Hc Hs]%andb_true_iff.
  apply negb_true_iff in Hc. simpl. by rewrite Hc, IH.
Qed.
End strings.
