(* ===== verification/Util.v ===== *)
(** Utilities ([sylar/util.h], [util.cc]): clocks, backtraces, directories and pid
    files.

    The calls of the system on files are the class [FileSystem]; a directory is read
    as the list of its entries, a file as its text. *)
From S2P Require Import Prelude Text.
From Stdlib Require Import Ascii.
From stdpp Require Import strings.

Local Open Scope string_scope.
Local Open Scope Z_scope.

(** ** Time *)

(** [GetCurrentMS] and [GetCurrentUS] on what [gettimeofday] stores, two [long]. *)
Definition GetCurrentMS (tv_sec tv_usec : Z) : Z :=
  wrapu 64 (wrapu 64 tv_sec * 1000 + wrapu 64 (Z.quot tv_usec 1000)).
Definition GetCurrentUS {S} (tv_sec tv_usec : Z) : M S Z :=
  let ms := tv_sec * 1000 in
  if bool_decide (in_s 64 ms) then mret (wrapu 64 (wrapu 64 ms * 1000 + wrapu 64 tv_usec))
  else undef SignedOverflow.

(** ** Backtraces *)

(** [Backtrace(bt, size, skip)]: [symbols] is what [backtrace] and
    [backtrace_symbols] give for at most [size] frames; [skip] is compared as a
    [size_t]. *)
Definition Backtrace (symbols : Z → option (list string)) (bt : list string) (size skip : Z) : list string :=
  match symbols size with
  | None => bt
  | Some strings => bt ++ drop (Z.to_nat (wrapu 64 skip)) strings
  end.
Definition endl : string := String "010" "".
Definition BacktraceToString (symbols : Z → option (list string)) (size skip : Z) (prefix : string) : string :=
  foldr (λ s t, prefix +:+ s +:+ endl +:+ t) "" (Backtrace symbols [] size skip).

(** ** Files *)

Inductive d_type := DT_DIR | DT_REG | DT_OTHER.

Class FileSystem (FS : Type) := {
  (** [lstat] and [access(path, F_OK)] succeed *)
  lstat : string → FS → bool;
  access : string → FS → bool;
  (** [mkdir] with the mode the program uses: whether it succeeds *)
  mkdir : string → FS → bool * FS;
  (** [opendir] and the entries [readdir] gives *)
  opendir : string → FS → option (list (d_type * string));
  (** the text of a file that can be read, and writing one *)
  read_file : string → FS → option string;
  write_file : string → string → FS → option FS;
  (** [kill(pid, 0)] succeeds *)
  alive : Z → FS → bool;
}.

Section files.
Context {FS : Type} `{FileSystem FS}.

(** The test of the suffix. *)
Definition has_suffix (subfix filename : string) : bool :=
  if bool_decide (subfix = "") then true
  else if (String.length filename <? String.length subfix)%nat then false
  else bool_decide (String.substring (String.length filename - String.length subfix) (String.length subfix) filename = subfix).

(** The loop of [FSUtil::ListAllFile] over the entries; [below] is the call for a
    directory. *)
Fixpoint list_entries (below : list string → string → M FS (list string)) (path subfix : string)
    (entries : list (d_type * string)) (files : list string) : M FS (list string) :=
  match entries with
  | [] => mret files
  | (DT_DIR, d_name) :: entries =>
      if bool_decide (d_name = ".") || bool_decide (d_name = "..") then list_entries below path subfix entries files
      else
        files ← below files (path +:+ "/" +:+ d_name);
        list_entries below path subfix entries files
  | (DT_REG, filename) :: entries =>
      list_entries below path subfix entries
        (if has_suffix subfix filename then (files ++ [path +:+ "/" +:+ filename])%list else files)
  | (DT_OTHER, _) :: entries => list_entries below path subfix entries files
  end.
(** [FSUtil::ListAllFile]; [fuel] bounds the depth.  The call for a directory passes
    the suffix on. *)
Fixpoint ListAllFile (fuel : nat) (files : list string) (path subfix : string) : M FS (list string) :=
  match fuel with
  | O => undef NoFuel
  | S fuel =>
      fs ← get;
      if negb (access path fs) then mret files
      else
        match opendir path fs with
        | None => mret files
        | Some entries => list_entries (λ files path, ListAllFile fuel files path subfix) path subfix entries files
        end
  end.

(** [__mkdir]: whether it returns 0 *)
Definition mkdir_one (dirname : string) : M FS bool :=
  fs ← get;
  if access dirname fs then mret true
  else let '(ok, fs') := mkdir dirname fs in modify (λ _, fs');; mret ok.

(** The buffer [strdup] makes, and [strchr(path + i, c)] in it: the index, nothing
    for a null pointer; a search that leaves the buffer is undefined. *)
Definition buffer (s : string) : list ascii := (String.list_ascii_of_string (c_str s) ++ ["000"%char])%list.
Definition text_of (buf : list ascii) : string := c_str (String.string_of_list_ascii buf).
Fixpoint strchr (buf : list ascii) (c : ascii) (i : nat) : option (option nat) :=
  match buf with
  | [] => None
  | x :: buf =>
      if Ascii.eqb x c then Some (Some i)
      else if Ascii.eqb x "000" then Some None
      else strchr buf c (S i)
  end.
Definition strchr_from (buf : list ascii) (i : nat) (c : ascii) : M FS (option nat) :=
  match strchr (drop i buf) c i with Some r => mret r | None => undef OutOfBounds end.

(** The loop of [FSUtil::Mkdir]: whether it came to the end of the path, and the
    buffer then; each turn writes a NUL over a slash and the slash back. *)
Fixpoint mkdir_loop (fuel : nat) (buf : list ascii) (ptr : option nat) : M FS (bool * list ascii) :=
  match ptr with
  | None => mret (true, buf)
  | Some i =>
      match fuel with
      | O => undef NoFuel
      | S fuel =>
          let buf := <[i := "000"%char]> buf in
          ok ← mkdir_one (text_of buf);
          if negb ok then mret (false, buf)
          else
            let buf := <[i := "/"%char]> buf in
            ptr ← strchr_from buf (S i) "/";
            mkdir_loop fuel buf ptr
      end
  end.
Definition Mkdir (dirname : string) : M FS bool :=
  fs ← get;
  if lstat dirname fs then mret true
  else
    let path := buffer dirname in
    ptr ← strchr_from path 1 "/";
    '(done, path) ← mkdir_loop (length path) path ptr;
    if negb done then mret false
    else mkdir_one (text_of path).

(** [std::getline] on a file that was just opened: the first line. *)
Fixpoint until_newline (s : string) : string :=
  match s with
  | "" => ""
  | String c s => if Ascii.eqb c "010" then "" else String c (until_newline s)
  end.
Definition getline (text : string) : option string := if bool_decide (text = "") then None else Some (until_newline text).
(** [FSUtil::IsRunningPidfile] *)
Definition IsRunningPidfile (pidfile : string) : M FS bool :=
  fs ← get;
  if negb (lstat pidfile fs) then mret false
  else
    match read_file pidfile fs ≫= getline with
    | None => mret false
    | Some line =>
        if bool_decide (line = "") then mret false
        else
          let pid := atoi (c_str line) in
          mret (negb (pid <=? 1) && alive pid fs)
    end.
End files.
