(* ===== verification/UtilSpec.v ===== *)
(** The calls on files do what they are for: [Mkdir] makes a directory with those
    above it, [ListAllFile] lists a tree, a pid file that was written is understood. *)
From S2P Require Import Prelude Text Util.
From Stdlib Require Import Ascii.
From stdpp Require Import strings.

Local Open Scope string_scope.
Local Open Scope list_scope.

Section files.
Context {FS : Type} `{FileSystem FS}.

(** ** [Mkdir] *)

(** What is made for a path whose beginning [pre] was read: the text before every
    slash of the rest, then all of it. *)
Fixpoint dirs (pre rest : list ascii) : list (list ascii) :=
  match rest with
  | [] => [pre]
  | c :: rest => if Ascii.eqb c "/" then pre :: dirs (pre ++ [c]) rest else dirs (pre ++ [c]) rest
  end.
Definition dirs_of (dirname : string) : list string :=
  match String.list_ascii_of_string dirname with
  | [] => []
  | c :: rest => map String.string_of_list_ascii (dirs [c] rest)
  end.
(** Make them in order until one cannot be made. *)
Fixpoint make_all (l : list string) : M FS bool :=
  match l with
  | [] => mret true
  | d :: l => ok ← mkdir_one d; if (ok : bool) then make_all l else mret false
  end.

Definition no_nul (l : list ascii) : Prop := Forall (λ c, Ascii.eqb c "000" = false) l.
Definition no_slash (l : list ascii) : Prop := Forall (λ c, Ascii.eqb c "/" = false) l.
Lemma no_nul_of s : every (not_char "000") s = true → no_nul (String.list_ascii_of_string s).
Proof.
  induction s as [|c s IH]; [by constructor|]. cbn [every String.list_ascii_of_string].
  intros [Hc Hs]%andb_true_iff. constructor; [|by apply IH]. by apply negb_true_iff in Hc.
Qed.
Lemma text_of_nul l r : no_nul l → text_of (l ++ "000"%char :: r) = String.string_of_list_ascii l.
Proof. unfold text_of. induction 1 as [|c l Hc _ IH]; [done|]. simpl. by rewrite Hc, IH. Qed.

Lemma strchr_skip a r i : no_slash a → no_nul a → strchr (a ++ r) "/" i = strchr r "/" (i + length a).
Proof.
  intros Ha. revert i. induction Ha as [|c a Hc _ IH]; intros i Hn; [simpl; by rewrite Nat.add_0_r|].
  apply Forall_cons in Hn as [Hn1 Hn]. cbn [app strchr length]. rewrite Hc, Hn1, IH by done. f_equal. lia.
Qed.
(** The rest has a first slash or none. *)
Lemma first_slash l : no_slash l ∨ ∃ a b, l = a ++ "/"%char :: b ∧ no_slash a.
Proof.
  induction l as [|c l IH]; [by left; constructor|]. destruct (Ascii.eqb c "/") eqn:E.
  { right. apply Ascii.eqb_eq in E as ->. exists [], l. split; [done|constructor]. }
  destruct IH as [IH|(a&b&->&IH)]; [left; by constructor|right]. exists (c :: a), b. split; [done|]. by constructor.
Qed.
Lemma dirs_no_slash pre rest : no_slash rest → dirs pre rest = [pre ++ rest].
Proof.
  intros Hr. revert pre. induction Hr as [|c rest Hc _ IH]; intros pre; cbn [dirs]; [by rewrite app_nil_r|].
  rewrite Hc, IH. by rewrite <-app_assoc.
Qed.
Lemma dirs_slash pre a b : no_slash a → dirs pre (a ++ "/"%char :: b) = (pre ++ a) :: dirs (pre ++ a ++ ["/"%char]) b.
Proof.
  intros Ha. revert pre. induction Ha as [|c a Hc _ IH]; intros pre; cbn [dirs app]; [by rewrite app_nil_r|].
  rewrite Hc, IH. by rewrite <-!app_assoc.
Qed.

Lemma make_one d fs : make_all [d] fs = mkdir_one d fs.
Proof.
  cbn [make_all]. unfold mbind, M_bind. destruct (mkdir_one d fs) as [[] ? | | |]; done.
Qed.
Lemma mkdir_loop_exact fuel : ∀ pre rest fs, no_nul pre → no_nul rest → length rest < fuel →
  (ptr ← strchr_from (pre ++ rest ++ ["000"%char]) (length pre) "/";
   '(done, path) ← mkdir_loop fuel (pre ++ rest ++ ["000"%char]) ptr;
   if negb done then mret false else mkdir_one (text_of path)) fs =
  make_all (map String.string_of_list_ascii (dirs pre rest)) fs.
Proof.
  induction fuel as [|fuel IH]; intros pre rest fs Hp Hr Hf; [lia|].
  unfold strchr_from at 1. rewrite drop_app_length. destruct (first_slash rest) as [Hs|(a&b&->&Hs)].
  - rewrite strchr_skip by done. cbn [strchr]. change (Ascii.eqb "000" "/") with false. change (Ascii.eqb "000" "000") with true.
    cbv iota. rewrite bind_ret. cbn [mkdir_loop]. rewrite bind_ret. cbn [negb]. rewrite dirs_no_slash by done.
    rewrite app_assoc, text_of_nul by (by apply Forall_app). cbn [map]. by rewrite make_one.
  - apply Forall_app in Hr as [Ha Hb]. apply Forall_cons in Hb as [_ Hb].
    rewrite <-app_assoc. rewrite strchr_skip by done. cbn [app strchr]. change (Ascii.eqb "/" "/") with true. cbv iota.
    rewrite bind_ret. cbn [mkdir_loop]. rewrite dirs_slash by done. cbn [map make_all].
    assert (length pre + length a = length (pre ++ a)) as El by (by rewrite length_app).
    rewrite El, (app_assoc pre a), !insert_app_r_alt, Nat.sub_diag by lia. cbn [insert list_insert].
    rewrite text_of_nul by (by apply Forall_app).
    set (d := String.string_of_list_ascii (pre ++ a)). rewrite bind_assoc.
    destruct (mkdir_one d fs) as [ok fs'|e fs'| |u] eqn:E.
    2: by rewrite !(bind_throw _ _ _ _ _ E).
    2: by rewrite !(bind_abort _ _ _ E).
    2: by rewrite !(bind_undef _ _ _ _ E).
    rewrite !(bind_ok _ _ _ _ _ E). destruct ok; [|done]. cbn [negb].
    specialize (IH (pre ++ a ++ ["/"%char]) b fs').
    rewrite <-IH; [|apply Forall_app; split; [done|apply Forall_app; split; [done|by repeat constructor]]|done|rewrite length_app in Hf; simpl in Hf; lia].
    rewrite !length_app. cbn [length]. rewrite bind_assoc, <-!app_assoc. cbn [app].
    by replace (S (length pre + length a)) with (length pre + (length a + 1)) by lia.
Qed.

(** C40: [Mkdir] against a plain list of directories: an existing path is left alone,
    the empty path is read behind its end, and any other path is made by trying the
    text before each slash in order and then all of it, stopping at the first that
    cannot be made; so when it answers true every one of them exists. *)
Theorem Mkdir_exact (dirname : string) (fs : FS) :
  every (not_char "000") dirname = true →
  (∀ d fs ok fs', mkdir d fs = (ok, fs') → (ok = true → access d fs' = true) ∧ ∀ x, access x fs = true → access x fs' = true) →
  Mkdir dirname fs = (if lstat dirname fs then Ok true fs
    else if bool_decide (dirname = "") then Undef OutOfBounds else make_all (dirs_of dirname) fs) ∧
  ∀ fs', lstat dirname fs = false → Mkdir dirname fs = Ok true fs' → Forall (λ d, access d fs' = true) (dirs_of dirname).
Proof.
  intros Hn Hlaw.
  assert (Mkdir dirname fs = (if lstat dirname fs then Ok true fs
    else if bool_decide (dirname = "") then Undef OutOfBounds else make_all (dirs_of dirname) fs)) as E.
  { unfold Mkdir. rewrite bind_get. destruct (lstat dirname fs); [done|]. unfold buffer. rewrite c_str_id by done.
    pose proof (no_nul_of _ Hn) as Hl. unfold dirs_of. destruct dirname as [|c dirname]; [done|].
    cbn [String.list_ascii_of_string] in *. rewrite bool_decide_false by done.
    apply Forall_cons in Hl as [Hc Hl].
    pose proof (mkdir_loop_exact (S (S (length (String.list_ascii_of_string dirname)))) [c] (String.list_ascii_of_string dirname) fs
      ltac:(by repeat constructor) Hl ltac:(lia)) as Hx. cbn [app length] in Hx. rewrite <-Hx.
    cbn [app length]. rewrite length_app, Nat.add_comm. done. }
  split; [exact E|]. intros fs' Hls Ht. rewrite E, Hls in Ht. case_bool_decide; [done|].
  clear -Hlaw Ht. revert fs Ht. induction (dirs_of dirname) as [|d l IH]; intros fs Ht; [constructor|].
  cbn [make_all] in Ht. apply bind_inv in Ht as ([]&fs1&E1&Ht); [|done].
  assert (access d fs1 = true ∧ ∀ x, access x fs1 = true → access x fs' = true) as [Ha Hm]; [|by constructor; eauto].
  split.
  - unfold mkdir_one in E1. rewrite bind_get in E1. destruct (access d fs) eqn:Ea; [by injection E1 as <-|].
    destruct (mkdir d fs) as [ok f2] eqn:Em. rewrite bind_modify in E1. injection E1 as -> <-. by apply (proj1 (Hlaw d fs true f2 Em)).
  - clear -Hlaw Ht. revert fs1 Ht. induction l as [|d l IH]; intros fs Ht x Hx; [by injection Ht as <-|].
    cbn [make_all] in Ht. apply bind_inv in Ht as ([]&fs1&E1&Ht); [|done]. apply (IH fs1 Ht). clear IH Ht.
    unfold mkdir_one in E1. rewrite bind_get in E1. destruct (access d fs); [by injection E1 as <-|].
    destruct (mkdir d fs) as [ok f2] eqn:Em. rewrite bind_modify in E1. injection E1 as -> <-. by apply (proj2 (Hlaw d fs true f2 Em)).
Qed.

(** ** [ListAllFile] *)

(** What is below a path. *)
Inductive tree := TReg | TOther | TDir (l : list (string * tree)).
Definition type_of (t : tree) : d_type := match t with TReg => DT_REG | TOther => DT_OTHER | TDir _ => DT_DIR end.
Definition child (path n : string) : string := path +:+ "/" +:+ n.
Definition dots (e : d_type * string) : bool :=
  match e with (DT_DIR, n) => bool_decide (n = ".") || bool_decide (n = "..") | _ => false end.

(** The system shows the tree: every directory can be opened and lists its members,
    with the two entries for itself and its parent anywhere. *)
Fixpoint shows (fs : FS) (path : string) (t : tree) : Prop :=
  match t with
  | TDir l =>
      access path fs = true ∧
      (∃ es, opendir path fs = Some es ∧
         List.filter (λ e, negb (dots e)) es = map (λ m, (type_of m.2, m.1)) l) ∧
      (fix below (l : list (string * tree)) : Prop :=
         match l with [] => True | (n, t) :: l => shows fs (child path n) t ∧ below l end) l
  | _ => True
  end.
Fixpoint depth (t : tree) : nat :=
  match t with
  | TDir l => S ((fix below (l : list (string * tree)) : nat :=
      match l with [] => 0 | (_, t) :: l => depth t `max` below l end) l)
  | _ => 0
  end.
(** The regular files of the tree with the suffix, in the order of the walk. *)
Fixpoint files_of (path subfix : string) (t : tree) : list string :=
  match t with
  | TDir l =>
      (fix below (l : list (string * tree)) : list string :=
         match l with
         | [] => []
         | (n, t) :: l =>
             (match t with
              | TReg => if has_suffix subfix n then [child path n] else []
              | t => files_of (child path n) subfix t
              end) ++ below l
         end) l
  | _ => []
  end.
(** A regular file of the tree: its name and its path. *)
Inductive regular : string → tree → string → string → Prop :=
  | regular_here path l n : (n, TReg) ∈ l → regular path (TDir l) n (child path n)
  | regular_below path l n t m f : (n, t) ∈ l → regular (child path n) t m f → regular path (TDir l) m f.

Lemma tree_ind_all (P : tree → Prop) :
  P TReg → P TOther → (∀ l, (∀ n t, (n, t) ∈ l → P t) → P (TDir l)) → ∀ t, P t.
Proof.
  intros H1 H2 H3. fix IH 1. intros [| |l]; [done|done|]. apply H3. induction l as [|[n t] l IHl]; [by intros ?? []%elem_of_nil|].
  intros n' t' [[= -> ->]|Hin]%elem_of_cons; [apply IH|by eapply IHl].
Qed.
Lemma substring_all s : String.substring 0 (String.length s) s = s.
Proof. induction s as [|c s IH]; [done|]. simpl. by rewrite IH. Qed.
Lemma substring_suffix p s : String.substring (String.length p) (String.length s) (p +:+ s) = s.
Proof. induction p as [|c p IH]; [apply substring_all|exact IH]. Qed.
Lemma substring_split n s : (n ≤ String.length s)%nat → String.substring 0 n s +:+ String.substring n (String.length s - n)%nat s = s.
Proof.
  revert s. induction n as [|n IH]; intros s Hn.
  { rewrite Nat.sub_0_r, substring_all. by destruct s. }
  destruct s as [|c s]; simpl in *; [lia|]. rewrite app_cons_s. f_equal. apply IH. lia.
Qed.
Lemma has_suffix_spec sub n : has_suffix sub n = true ↔ ∃ p, n = p +:+ sub.
Proof.
  unfold has_suffix. case_bool_decide as He.
  { subst sub. split; [|done]. intros _. exists n. by rewrite app_nil_s. }
  destruct (Nat.ltb_spec (String.length n) (String.length sub)) as [Hlt|Hle].
  { split; [done|]. intros [p ->]. rewrite length_app_s in Hlt. lia. }
  rewrite bool_decide_eq_true. split.
  - intros E. exists (String.substring 0 (String.length n - String.length sub) n). rewrite <-E at 2.
    rewrite <-(substring_split (String.length n - String.length sub) n) at 1 by lia. f_equal. f_equal. lia.
  - intros [p ->]. rewrite length_app_s, Nat.add_sub. apply substring_suffix.
Qed.
Lemma files_of_regular path sub t f :
  f ∈ files_of path sub t ↔ ∃ n, regular path t n f ∧ ∃ p, n = p +:+ sub.
Proof.
  revert path. induction t as [| |l IH] using tree_ind_all; intros path.
  1,2: split; [by intros []%elem_of_nil|intros (n&Hr&_); by inversion Hr].
  transitivity (∃ n t, (n, t) ∈ l ∧ f ∈ match t with
    | TReg => if has_suffix sub n then [child path n] else [] | t => files_of (child path n) sub t end).
  - clear IH. cbn [files_of]. induction l as [|[n t] l IH].
    { split; [by intros []%elem_of_nil|intros (?&?&[]%elem_of_nil&_)]. }
    rewrite elem_of_app, IH. setoid_rewrite elem_of_cons. naive_solver.
  - split.
    + intros (n&t&Hin&Hf). destruct t as [| |l'].
      * destruct (has_suffix sub n) eqn:E; [|by apply elem_of_nil in Hf]. apply list_elem_of_singleton in Hf as ->.
        exists n. split; [by constructor|by apply has_suffix_spec].
      * by apply elem_of_nil in Hf.
      * apply (IH n _ Hin) in Hf as (m&Hr&Hp). exists m. split; [by eapply regular_below|done].
    + intros (m&Hr&Hp). inversion Hr as [? ? n Hin|? ? n t ? ? Hin Hr']; subst.
      * exists m, TReg. split; [done|]. apply has_suffix_spec in Hp as ->. by apply list_elem_of_singleton.
      * exists n, t. split; [done|]. destruct t as [| |l']; [by inversion Hr'..|]. apply (IH n _ Hin). eauto.
Qed.

Fixpoint files_below (path subfix : string) (l : list (string * tree)) : list string :=
  match l with
  | [] => []
  | (n, t) :: l =>
      (match t with TReg => if has_suffix subfix n then [child path n] else [] | t => files_of (child path n) subfix t end)
      ++ files_below path subfix l
  end.
Lemma files_of_dir path subfix l : files_of path subfix (TDir l) = files_below path subfix l.
Proof. induction l as [|[n t] l IH]; [done|]. cbn [files_below]. by rewrite <-IH. Qed.
Lemma list_entries_ok (below : list string → string → M FS (list string)) path subfix (fs : FS) es : ∀ l files,
  List.filter (λ e, negb (dots e)) es = map (λ m, (type_of m.2, m.1)) l →
  (∀ n l', (n, TDir l') ∈ l → ∀ files, below files (child path n) fs = Ok (files ++ files_of (child path n) subfix (TDir l')) fs) →
  list_entries below path subfix es files fs = Ok (files ++ files_below path subfix l) fs.
Proof.
  induction es as [|[ty name] es IH]; intros l files E Hb.
  { destruct l; [|done]. cbn. by rewrite app_nil_r. }
  cbn [List.filter] in E. destruct (dots (ty, name)) eqn:Ed; cbn [negb] in E.
  { destruct ty; try done. cbn [list_entries]. cbn [dots] in Ed. rewrite Ed. by apply IH. }
  destruct l as [|[n t] l]; [done|]. cbn [map] in E. injection E as Et En E. cbn [fst snd] in *. subst ty name.
  assert (∀ n0 l', (n0, TDir l') ∈ l → ∀ files, below files (child path n0) fs =
    Ok (files ++ files_of (child path n0) subfix (TDir l')) fs) as Hb'.
  { intros n0 l' Hin. apply Hb. by apply list_elem_of_further. }
  destruct t as [| |l']; cbn [type_of list_entries files_below].
  - rewrite (IH l) by done. destruct (has_suffix subfix n); [by rewrite <-app_assoc|done].
  - by rewrite (IH l).
  - cbn [dots type_of] in Ed. rewrite Ed.
    assert (below files (child path n) fs = Ok (files ++ files_of (child path n) subfix (TDir l')) fs) as Eb
      by (apply Hb; apply list_elem_of_here).
    unfold child in Eb at 1. rewrite (bind_ok _ _ _ _ _ Eb). rewrite (IH l) by done. by rewrite <-app_assoc.
Qed.
Lemma ListAllFile_ok t : ∀ l fuel files path subfix (fs : FS), t = TDir l → shows fs path t → (depth t ≤ fuel)%nat →
  ListAllFile fuel files path subfix fs = Ok (files ++ files_of path subfix t) fs.
Proof.
  induction t as [| |l IH] using tree_ind_all; intros l0 fuel files path subfix fs E Hs Hd; try done. clear l0 E.
  destruct Hs as (Ha&(es&Eo&Ef)&Hb). cbn [depth] in Hd. destruct fuel as [|fuel]; [lia|].
  cbn [ListAllFile]. rewrite bind_get, Ha, Eo, files_of_dir. cbn [negb]. apply list_entries_ok; [done|].
  intros n l' Hin files'. apply (IH n _ Hin l'); [done|..].
  - clear -Hin Hb. induction l as [|[m t] l IHl]; [by apply elem_of_nil in Hin|]. destruct Hb as [Ht Hb].
    apply elem_of_cons in Hin as [[= <- <-]|Hin]; [done|by apply IHl].
  - apply le_S_n in Hd. etransitivity; [|exact Hd]. clear -Hin. induction l as [|[m t] l IHl]; [by apply elem_of_nil in Hin|].
    apply elem_of_cons in Hin as [[= <- <-]|Hin]; [lia|]. specialize (IHl Hin). lia.
Qed.

(** Listing only reads. *)
Lemma ListAllFile_reads fuel : ∀ files path subfix (fs : FS) r fs', ListAllFile fuel files path subfix fs = Ok r fs' → fs' = fs.
Proof.
  induction fuel as [|fuel IH]; intros files path subfix fs r fs' E; [done|]. cbn [ListAllFile] in E. rewrite bind_get in E.
  destruct (access path fs); cbn [negb] in E; [|by injection E]. destruct (opendir path fs) as [es|]; [|by injection E].
  revert files E. induction es as [|[[] name] es IHes]; intros files E; cbn [list_entries] in E; [by injection E|..].
  - destruct (bool_decide (name = ".") || bool_decide (name = "..")); [by eapply IHes|].
    apply bind_inv in E as (l&fs1&->%IH&E). by eapply IHes.
  - by eapply IHes.
  - by eapply IHes.
Qed.
Lemma IsRunningPidfile_reads pidfile (fs : FS) r fs' : IsRunningPidfile pidfile fs = Ok r fs' → fs' = fs.
Proof.
  unfold IsRunningPidfile. rewrite bind_get. destruct (lstat pidfile fs); cbn [negb]; [|by intros [=]].
  destruct (read_file pidfile fs ≫= getline) as [l|]; [|by intros [=]]. destruct (bool_decide (l = "")); by intros [=].
Qed.

(** [ListAllFile] on a directory tree: with fuel for its depth it returns, changes
    nothing, and appends the paths of exactly the regular files of the tree whose names
    end in the suffix; the entries for the directory itself and its parent are not
    followed. *)
Theorem ListAllFile_exact (l : list (string * tree)) (fuel : nat) (files : list string) (path subfix : string) (fs : FS) :
  shows fs path (TDir l) → (depth (TDir l) ≤ fuel)%nat →
  ∃ found, ListAllFile fuel files path subfix fs = Ok (files ++ found) fs ∧
    ∀ f, f ∈ found ↔ ∃ n, regular path (TDir l) n f ∧ ∃ p, n = p +:+ subfix.
Proof.
  intros Hs Hd. exists (files_of path subfix (TDir l)). split; [by eapply ListAllFile_ok|]. intros f. apply files_of_regular.
Qed.

(** ** Pid files *)

Lemma show_pid n : (0 ≤ n)%Z → every (not_char "000") (show n) = true ∧ every (not_char "010") (show n) = true.
Proof. intros _. split; by apply show_not_char. Qed.
Lemma until_newline_id s : every (not_char "010") s = true → until_newline s = s.
Proof.
  induction s as [|c s IH]; [done|]. cbn [every until_newline]. intros [Hc Hs]%andb_true_iff.
  apply negb_true_iff in Hc. by rewrite Hc, IH.
Qed.
(** A pid file with the text of a number. *)
Lemma IsRunningPidfile_written (pidfile : string) (pid : Z) (fs : FS) :
  (0 ≤ pid < 2 ^ 31)%Z → lstat pidfile fs = true → read_file pidfile fs = Some (show pid) →
  IsRunningPidfile pidfile fs = Ok (bool_decide (1 < pid)%Z && alive pid fs) fs.
Proof.
  intros Hp Hl Hr. unfold IsRunningPidfile. rewrite bind_get, Hl, Hr. cbn [negb].
  destruct (show_pid pid ltac:(lia)) as [H0 Hn]. pose proof (show_nonempty pid) as Hne.
  assert ((Some (show pid) ≫= getline) = Some (show pid)) as ->.
  { cbn. unfold getline. rewrite bool_decide_false by done. by rewrite until_newline_id. }
  rewrite bool_decide_false by done. rewrite c_str_id by done.
  rewrite <-(app_nil_s (show pid)), atoi_show by done. repeat f_equal. case_bool_decide.
  - by rewrite (proj2 (Z.leb_gt pid 1)) by lia.
  - by rewrite (proj2 (Z.leb_le pid 1)) by lia.
Qed.
End files.

(** ** Clocks *)

(** Milliseconds and microseconds since the epoch, while they fit. *)
Lemma GetCurrentMS_exact tv_sec tv_usec : (0 ≤ tv_sec)%Z → (0 ≤ tv_usec < 1000000)%Z → (tv_sec * 1000 + 1000 ≤ 2 ^ 64)%Z →
  GetCurrentMS tv_sec tv_usec = ((tv_sec * 1000000 + tv_usec) / 1000)%Z.
Proof.
  intros Hs Hu Hb. unfold GetCurrentMS. rewrite Z.quot_div_nonneg by lia.
  assert (0 ≤ tv_usec / 1000 < 1000)%Z as Hd by (split; [apply Z.div_pos; lia|apply Z.div_lt_upper_bound; lia]).
  rewrite !wrapu_small by (unfold in_u; rewrite ?wrapu_small by (unfold in_u; lia); lia).
  replace (tv_sec * 1000000 + tv_usec)%Z with (tv_usec + tv_sec * 1000 * 1000)%Z by lia.
  rewrite Z.div_add by lia. lia.
Qed.
Lemma GetCurrentUS_exact {S} tv_sec tv_usec (s : S) : (0 ≤ tv_sec)%Z → (0 ≤ tv_usec < 1000000)%Z →
  (tv_sec * 1000 < 2 ^ 63)%Z → (tv_sec * 1000000 + 1000000 ≤ 2 ^ 64)%Z →
  GetCurrentUS tv_sec tv_usec s = Ok (tv_sec * 1000000 + tv_usec)%Z s.
Proof.
  intros Hs Hu Hb Hb2. unfold GetCurrentUS. rewrite bool_decide_true by (unfold in_s; lia).
  unfold mret, M_ret. f_equal. rewrite !wrapu_small by (unfold in_u; rewrite ?wrapu_small by (unfold in_u; lia); lia). lia.
Qed.

(** ** Witnesses *)

Module Demo.
(** A disk: what exists, what the directories list, what the files hold. *)
Record disk := mk_disk { paths : list string; texts : list (string * string) }.
Definition on_disk (p : string) (d : disk) : bool := bool_decide (p ∈ paths d).
Definition text_on (p : string) (d : disk) : option string :=
  match list_find (λ e, e.1 = p) (texts d) with Some (_, e) => Some e.2 | None => None end.
#[export] Instance disk_system : FileSystem disk := {|
  lstat := on_disk;
  access := on_disk;
  mkdir p d := (true, mk_disk (p :: paths d) (texts d));
  opendir p d :=
    if bool_decide (p = "r") then Some [(DT_DIR, "."); (DT_REG, "a.yml"); (DT_DIR, ".."); (DT_DIR, "d")]
    else if bool_decide (p = "r/d") then Some [(DT_REG, "b.yml"); (DT_OTHER, "e.yml"); (DT_REG, "c.txt")]
    else None;
  read_file := text_on;
  write_file p t d := Some (mk_disk (p :: paths d) ((p, t) :: texts d));
  alive pid d := bool_decide (pid = 77%Z);
|}.
Lemma mkdir_law d (fs : disk) ok fs' : mkdir d fs = (ok, fs') →
  (ok = true → access d fs' = true) ∧ ∀ x, access x fs = true → access x fs' = true.
Proof.
  intros [= <- <-]. split; [intros _|intros x]; unfold access, disk_system, on_disk; simpl; rewrite ?bool_decide_eq_true.
  - apply list_elem_of_here.
  - intros Hx. by apply list_elem_of_further.
Qed.
Definition demo_disk : disk := mk_disk ["r"; "r/d"; "/"] [].
Lemma Mkdir_exact_witness :
  Mkdir "/var/log/app" demo_disk = make_all ["/var"; "/var/log"; "/var/log/app"] demo_disk ∧
  ∃ fs', Mkdir "/var/log/app" demo_disk = Ok true fs' ∧ Forall (λ d, access d fs' = true) ["/var"; "/var/log"; "/var/log/app"].
Proof.
  destruct (Mkdir_exact "/var/log/app" demo_disk eq_refl mkdir_law) as [E Hall]. split; [exact E|].
  eexists. split; [vm_compute; reflexivity|]. apply Hall; vm_compute; reflexivity.
Defined.
Lemma Mkdir_empty : Mkdir "" demo_disk = Undef OutOfBounds.
Proof. reflexivity. Qed.
Definition demo_tree : list (string * tree) :=
  [("a.yml", TReg); ("d", TDir [("b.yml", TReg); ("e.yml", TOther); ("c.txt", TReg)])].
Lemma ListAllFile_exact_witness :
  ∃ found, ListAllFile 2 ["x"] "r" ".yml" demo_disk = Ok (["x"] ++ found) demo_disk ∧ "r/d/b.yml" ∈ found.
Proof.
  destruct (ListAllFile_exact demo_tree 2 ["x"] "r" ".yml" demo_disk) as (found&E&Hf).
  - split; [reflexivity|]. split; [eexists; split; reflexivity|]. repeat split.
    eexists. split; reflexivity.
  - vm_compute. repeat constructor.
  - exists found. split; [exact E|]. apply Hf. exists "b.yml". split; [|exists "b"; reflexivity].
    apply (regular_below _ _ "d" (TDir [("b.yml", TReg); ("e.yml", TOther); ("c.txt", TReg)])).
    + by apply list_elem_of_further, list_elem_of_here.
    + apply regular_here, list_elem_of_here.
Defined.
End Demo.
