(* ===== verification/Http.v ===== *)
(** HTTP messages ([sylar/http/http.h], [sylar/http/http.cc]).

    Method and status tables, the case-insensitive header map ([std::map] with
    [CaseInsensitiveLess], kept as the list of its pairs in order), the fields of
    requests and responses, and their serialisation. *)
From S2P Require Import Prelude Text.
From Stdlib Require Import Ascii.
From stdpp Require Import gmap fin_maps.

Local Open Scope string_scope.

(** ** Methods and status codes *)

(** [HttpMethod] *)
Inductive HttpMethod :=
  | M_DELETE | M_GET | M_HEAD | M_POST | M_PUT | M_CONNECT | M_OPTIONS | M_TRACE | M_COPY | M_LOCK
  | M_MKCOL | M_MOVE | M_PROPFIND | M_PROPPATCH | M_SEARCH | M_UNLOCK | M_BIND | M_REBIND
  | M_UNBIND | M_ACL | M_REPORT | M_MKACTIVITY | M_CHECKOUT | M_MERGE | M_MSEARCH | M_NOTIFY
  | M_SUBSCRIBE | M_UNSUBSCRIBE | M_PATCH | M_PURGE | M_MKCALENDAR | M_LINK | M_UNLINK | M_SOURCE
  | INVALID_METHOD.
#[export] Instance HttpMethod_eq_dec : EqDecision HttpMethod.
Proof. solve_decision. Defined.

(** [HTTP_METHOD_MAP]: the names in the order of the numbers. *)
Definition http_method_map : list (HttpMethod * string) := [
  (M_DELETE, "DELETE"); (M_GET, "GET"); (M_HEAD, "HEAD"); (M_POST, "POST"); (M_PUT, "PUT");
  (M_CONNECT, "CONNECT"); (M_OPTIONS, "OPTIONS"); (M_TRACE, "TRACE"); (M_COPY, "COPY");
  (M_LOCK, "LOCK"); (M_MKCOL, "MKCOL"); (M_MOVE, "MOVE"); (M_PROPFIND, "PROPFIND");
  (M_PROPPATCH, "PROPPATCH"); (M_SEARCH, "SEARCH"); (M_UNLOCK, "UNLOCK"); (M_BIND, "BIND");
  (M_REBIND, "REBIND"); (M_UNBIND, "UNBIND"); (M_ACL, "ACL"); (M_REPORT, "REPORT");
  (M_MKACTIVITY, "MKACTIVITY"); (M_CHECKOUT, "CHECKOUT"); (M_MERGE, "MERGE");
  (M_MSEARCH, "M-SEARCH"); (M_NOTIFY, "NOTIFY"); (M_SUBSCRIBE, "SUBSCRIBE");
  (M_UNSUBSCRIBE, "UNSUBSCRIBE"); (M_PATCH, "PATCH"); (M_PURGE, "PURGE");
  (M_MKCALENDAR, "MKCALENDAR"); (M_LINK, "LINK"); (M_UNLINK, "UNLINK"); (M_SOURCE, "SOURCE")].

(** [HTTP_STATUS_MAP]; an [HttpStatus] is its number, since responses are parsed
    by casting the number. *)
Definition http_status_map : list (Z * string) := [
  (100%Z, "Continue"); (101%Z, "Switching Protocols"); (102%Z, "Processing"); (200%Z, "OK");
  (201%Z, "Created"); (202%Z, "Accepted"); (203%Z, "Non-Authoritative Information");
  (204%Z, "No Content"); (205%Z, "Reset Content"); (206%Z, "Partial Content");
  (207%Z, "Multi-Status"); (208%Z, "Already Reported"); (226%Z, "IM Used");
  (300%Z, "Multiple Choices"); (301%Z, "Moved Permanently"); (302%Z, "Found");
  (303%Z, "See Other"); (304%Z, "Not Modified"); (305%Z, "Use Proxy");
  (307%Z, "Temporary Redirect"); (308%Z, "Permanent Redirect"); (400%Z, "Bad Request");
  (401%Z, "Unauthorized"); (402%Z, "Payment Required"); (403%Z, "Forbidden"); (404%Z, "Not Found");
  (405%Z, "Method Not Allowed"); (406%Z, "Not Acceptable");
  (407%Z, "Proxy Authentication Required"); (408%Z, "Request Timeout"); (409%Z, "Conflict");
  (410%Z, "Gone"); (411%Z, "Length Required"); (412%Z, "Precondition Failed");
  (413%Z, "Payload Too Large"); (414%Z, "URI Too Long"); (415%Z, "Unsupported Media Type");
  (416%Z, "Range Not Satisfiable"); (417%Z, "Expectation Failed"); (421%Z, "Misdirected Request");
  (422%Z, "Unprocessable Entity"); (423%Z, "Locked"); (424%Z, "Failed Dependency");
  (426%Z, "Upgrade Required"); (428%Z, "Precondition Required"); (429%Z, "Too Many Requests");
  (431%Z, "Request Header Fields Too Large"); (451%Z, "Unavailable For Legal Reasons");
  (500%Z, "Internal Server Error"); (501%Z, "Not Implemented"); (502%Z, "Bad Gateway");
  (503%Z, "Service Unavailable"); (504%Z, "Gateway Timeout");
  (505%Z, "HTTP Version Not Supported"); (506%Z, "Variant Also Negotiates");
  (507%Z, "Insufficient Storage"); (508%Z, "Loop Detected"); (510%Z, "Not Extended");
  (511%Z, "Network Authentication Required")].
Definition HTTP_OK : Z := 200.
Definition HTTP_NOT_FOUND : Z := 404.

(** [StringToHttpMethod] *)
Definition StringToHttpMethod (m : string) : HttpMethod :=
  match list_find (λ e, e.2 = c_str m) http_method_map with
  | Some (_, (x, _)) => x
  | None => INVALID_METHOD
  end.

(** [CharsToHttpMethod]: the pointer is into the receive buffer, so [m] is
    everything that follows. *)
Definition CharsToHttpMethod (m : string) : HttpMethod :=
  match list_find (λ e, String.prefix e.2 m = true) http_method_map with
  | Some (_, (x, _)) => x
  | None => INVALID_METHOD
  end.

(** [HttpMethodToString] *)
Definition HttpMethodToString (m : HttpMethod) : string :=
  match list_find (λ e, e.1 = m) http_method_map with
  | Some (_, (_, s)) => s
  | None => "<unknown>"
  end.

(** [HttpStatusToString] *)
Definition HttpStatusToString (s : Z) : string :=
  match list_find (λ e, e.1 = s) http_status_map with
  | Some (_, (_, d)) => d
  | None => "<unknown>"
  end.

(** ** Case-insensitive maps *)

(** [CaseInsensitiveLess] *)
Definition CaseInsensitiveLess (lhs rhs : string) : bool := lex_lt (canon lhs) (canon rhs).

(** [MapType]: a [std::map] as its pairs in order. *)
Notation MapType := (list (string * string)).

(** [std::map::find] *)
Fixpoint map_find (m : MapType) (key : string) : option string :=
  match m with
  | [] => None
  | (k, v) :: m =>
      if CaseInsensitiveLess key k || CaseInsensitiveLess k key then map_find m key else Some v
  end.
(** [m[key] = val]: an equivalent key stays as it is and gets the new value. *)
Fixpoint map_set (m : MapType) (key val : string) : MapType :=
  match m with
  | [] => [(key, val)]
  | (k, v) :: m' =>
      if CaseInsensitiveLess key k then (key, val) :: m
      else if CaseInsensitiveLess k key then (k, v) :: map_set m' key val
      else (k, val) :: m'
  end.
(** [std::map::erase(key)] *)
Definition map_erase (m : MapType) (key : string) : MapType :=
  filter (λ e, CaseInsensitiveLess key e.1 || CaseInsensitiveLess e.1 key = true) m.

(** [checkGetAs] and [getAs], for a conversion that may fail
    ([boost::lexical_cast]). *)
Definition checkGetAs {T} (lexical_cast : string → option T) (m : MapType) (key : string) (def : T) : bool * T :=
  match map_find m key with
  | None => (false, def)
  | Some s => match lexical_cast s with Some v => (true, v) | None => (false, def) end
  end.
Definition getAs {T} (lexical_cast : string → option T) (m : MapType) (key : string) (def : T) : T :=
  match map_find m key with
  | None => def
  | Some s => default def (lexical_cast s)
  end.

(** ** Requests *)

Record HttpRequest := mkHttpRequest {
  m_method : HttpMethod;
  m_version : Z;
  m_close : bool;
  m_path : string;
  m_query : string;
  m_fragment : string;
  m_body : string;
  m_headers : MapType;
  m_params : MapType;
  m_cookies : MapType;
}.

(** [HttpRequest::HttpRequest] *)
Definition HttpRequest_new (version : Z) (close : bool) : HttpRequest :=
  mkHttpRequest M_GET version close "/" "" "" "" [] [] [].

Definition setMethod (v : HttpMethod) (r : HttpRequest) : HttpRequest :=
  mkHttpRequest v (m_version r) (m_close r) (m_path r) (m_query r) (m_fragment r) (m_body r) (m_headers r) (m_params r) (m_cookies r).
Definition setVersion (v : Z) (r : HttpRequest) : HttpRequest :=
  mkHttpRequest (m_method r) v (m_close r) (m_path r) (m_query r) (m_fragment r) (m_body r) (m_headers r) (m_params r) (m_cookies r).
Definition setClose (v : bool) (r : HttpRequest) : HttpRequest :=
  mkHttpRequest (m_method r) (m_version r) v (m_path r) (m_query r) (m_fragment r) (m_body r) (m_headers r) (m_params r) (m_cookies r).
Definition setPath (v : string) (r : HttpRequest) : HttpRequest :=
  mkHttpRequest (m_method r) (m_version r) (m_close r) v (m_query r) (m_fragment r) (m_body r) (m_headers r) (m_params r) (m_cookies r).
Definition setQuery (v : string) (r : HttpRequest) : HttpRequest :=
  mkHttpRequest (m_method r) (m_version r) (m_close r) (m_path r) v (m_fragment r) (m_body r) (m_headers r) (m_params r) (m_cookies r).
Definition setFragment (v : string) (r : HttpRequest) : HttpRequest :=
  mkHttpRequest (m_method r) (m_version r) (m_close r) (m_path r) (m_query r) v (m_body r) (m_headers r) (m_params r) (m_cookies r).
Definition setBody (v : string) (r : HttpRequest) : HttpRequest :=
  mkHttpRequest (m_method r) (m_version r) (m_close r) (m_path r) (m_query r) (m_fragment r) v (m_headers r) (m_params r) (m_cookies r).
Definition setHeaders (v : MapType) (r : HttpRequest) : HttpRequest :=
  mkHttpRequest (m_method r) (m_version r) (m_close r) (m_path r) (m_query r) (m_fragment r) (m_body r) v (m_params r) (m_cookies r).
Definition setParams (v : MapType) (r : HttpRequest) : HttpRequest :=
  mkHttpRequest (m_method r) (m_version r) (m_close r) (m_path r) (m_query r) (m_fragment r) (m_body r) (m_headers r) v (m_cookies r).
Definition setCookies (v : MapType) (r : HttpRequest) : HttpRequest :=
  mkHttpRequest (m_method r) (m_version r) (m_close r) (m_path r) (m_query r) (m_fragment r) (m_body r) (m_headers r) (m_params r) v.

Definition getHeader (r : HttpRequest) (key def : string) : string := default def (map_find (m_headers r) key).
Definition getParam (r : HttpRequest) (key def : string) : string := default def (map_find (m_params r) key).
Definition getCookie (r : HttpRequest) (key def : string) : string := default def (map_find (m_cookies r) key).
Definition setHeader (key val : string) (r : HttpRequest) : HttpRequest := setHeaders (map_set (m_headers r) key val) r.
Definition setParam (key val : string) (r : HttpRequest) : HttpRequest := setParams (map_set (m_params r) key val) r.
Definition setCookie (key val : string) (r : HttpRequest) : HttpRequest := setCookies (map_set (m_cookies r) key val) r.
Definition delHeader (key : string) (r : HttpRequest) : HttpRequest := setHeaders (map_erase (m_headers r) key) r.
Definition delParam (key : string) (r : HttpRequest) : HttpRequest := setParams (map_erase (m_params r) key) r.
Definition delCookie (key : string) (r : HttpRequest) : HttpRequest := setCookies (map_erase (m_cookies r) key) r.
(** [hasHeader] and the like also hand out the value. *)
Definition hasHeader (r : HttpRequest) (key : string) : option string := map_find (m_headers r) key.
Definition hasParam (r : HttpRequest) (key : string) : option string := map_find (m_params r) key.
Definition hasCookie (r : HttpRequest) (key : string) : option string := map_find (m_cookies r) key.

Definition CRLF : string := String "013" (String "010" "").
Definition version_string (v : Z) : string :=
  show (Z.shiftr v 4) +:+ "." +:+ show (Z.land v 0x0F).
Definition connection_value (close : bool) : string := if close then "close" else "keep-alive".

(** The header lines of [HttpRequest::dump], as key, separator and value. *)
Definition request_lines (r : HttpRequest) : list (string * string * string) :=
  [("connection", ": ", connection_value (m_close r))]
  ++ ((λ e, (e.1, ":", e.2)) <$> filter (λ e, strcasecmp_eq e.1 "connection" = false) (m_headers r))
  ++ (if bool_decide (m_body r = "") then []
      else [("content-length", ": ", show (Z.of_nat (String.length (m_body r))))]).
Definition render (l : list (string * string * string)) : string :=
  foldr (λ '(k, sep, v) s, k +:+ sep +:+ v +:+ CRLF +:+ s) "" l.
(** [HttpRequest::dump] *)
Definition request_dump (r : HttpRequest) : string :=
  HttpMethodToString (m_method r) +:+ " " +:+ m_path r
  +:+ (if bool_decide (m_query r = "") then "" else "?") +:+ m_query r
  +:+ (if bool_decide (m_fragment r = "") then "" else "#") +:+ m_fragment r
  +:+ " HTTP/" +:+ version_string (m_version r) +:+ CRLF
  +:+ render (request_lines r) +:+ CRLF +:+ m_body r.

(** ** Responses *)

Record HttpResponse := mkHttpResponse {
  r_status : Z;
  r_version : Z;
  r_close : bool;
  r_body : string;
  r_reason : string;
  r_headers : MapType;
}.
(** [HttpResponse::HttpResponse] *)
Definition HttpResponse_new (version : Z) (close : bool) : HttpResponse :=
  mkHttpResponse HTTP_OK version close "" "" [].
Definition r_setStatus (v : Z) (r : HttpResponse) : HttpResponse :=
  mkHttpResponse v (r_version r) (r_close r) (r_body r) (r_reason r) (r_headers r).
Definition r_setVersion (v : Z) (r : HttpResponse) : HttpResponse :=
  mkHttpResponse (r_status r) v (r_close r) (r_body r) (r_reason r) (r_headers r).
Definition r_setBody (v : string) (r : HttpResponse) : HttpResponse :=
  mkHttpResponse (r_status r) (r_version r) (r_close r) v (r_reason r) (r_headers r).
Definition r_setReason (v : string) (r : HttpResponse) : HttpResponse :=
  mkHttpResponse (r_status r) (r_version r) (r_close r) (r_body r) v (r_headers r).
Definition r_setHeaders (v : MapType) (r : HttpResponse) : HttpResponse :=
  mkHttpResponse (r_status r) (r_version r) (r_close r) (r_body r) (r_reason r) v.
Definition r_setClose (v : bool) (r : HttpResponse) : HttpResponse :=
  mkHttpResponse (r_status r) (r_version r) v (r_body r) (r_reason r) (r_headers r).
Definition r_getHeader (r : HttpResponse) (key def : string) : string := default def (map_find (r_headers r) key).
Definition r_setHeader (key val : string) (r : HttpResponse) : HttpResponse := r_setHeaders (map_set (r_headers r) key val) r.
Definition r_delHeader (key : string) (r : HttpResponse) : HttpResponse := r_setHeaders (map_erase (r_headers r) key) r.

(** The header lines of [HttpResponse::dump]. *)
Definition response_lines (r : HttpResponse) : list (string * string * string) :=
  ((λ e, (e.1, ": ", e.2)) <$> filter (λ e, e.1 ≠ "connection") (r_headers r))
  ++ [("connection", ": ", connection_value (r_close r))]
  ++ (if bool_decide (r_body r = "") then []
      else [("content-length", ": ", show (Z.of_nat (String.length (r_body r))))]).
(** [HttpResponse::dump] *)
Definition response_dump (r : HttpResponse) : string :=
  "HTTP/" +:+ version_string (r_version r) +:+ " " +:+ show (wrapu 32 (r_status r)) +:+ " "
  +:+ (if bool_decide (r_reason r = "") then HttpStatusToString (r_status r) else r_reason r) +:+ CRLF
  +:+ render (response_lines r) +:+ CRLF +:+ r_body r.
