(* ===== verification/HttpSpec.v ===== *)
(** Correctness of the HTTP tables, the header map and the serialisation. *)
From S2P Require Import Prelude Text Http.
From Stdlib Require Import Ascii.
From stdpp Require Import gmap fin_maps.

Local Open Scope string_scope.

(** ** Methods *)

Lemma list_find_unique {A} (P : A → Prop) `{∀ x, Decision (P x)} (l : list A) x :
  x ∈ l → P x → (∀ y, y ∈ l → P y → y = x) → ∃ i, list_find P l = Some (i, x).
Proof.
  intros Hx HP Hu. destruct (list_find P l) as [[i y]|] eqn:E.
  - apply list_find_Some in E as (H1&H2&_). exists i. do 2 f_equal.
    apply Hu; [by eapply list_elem_of_lookup_2|done].
  - apply list_find_None in E. rewrite Forall_forall in E. by destruct (E x Hx).
Qed.

Lemma prefix_spec a s : String.prefix a s = true ↔ ∃ r, s = a +:+ r.
Proof.
  revert s. induction a as [|c a IH]; intros s.
  { split; [|by destruct s]. intros _. by exists s. }
  destruct s as [|x s]; simpl.
  { split; [done|]. by intros [r Hr]. }
  destruct (Ascii.ascii_dec c x) as [->|Hc].
  - rewrite IH. split; intros [r Hr]; exists r; [by rewrite Hr|].
    rewrite app_cons_s in Hr. by injection Hr.
  - split; [done|]. intros [r Hr]. rewrite app_cons_s in Hr. by injection Hr as ->.
Qed.
(** Two prefixes of one text are comparable. *)
Lemma prefix_comparable a b s :
  String.prefix a s = true → String.prefix b s = true → String.prefix a b || String.prefix b a = true.
Proof.
  revert b s. induction a as [|c a IH]; intros b s; [by destruct b|].
  destruct b as [|d b]; [done|]. destruct s as [|x s]; [done|]. simpl.
  destruct (Ascii.ascii_dec c x) as [->|]; [|done].
  destruct (Ascii.ascii_dec d x) as [->|]; [|done].
  destruct (Ascii.ascii_dec x x) as [_|]; [|done]. eauto.
Qed.

(** No name of the table is a prefix of another. *)
Lemma method_names_apart e1 e2 :
  e1 ∈ http_method_map → e2 ∈ http_method_map →
  String.prefix e1.2 e2.2 || String.prefix e2.2 e1.2 = true → e1 = e2.
Proof.
  intros H1 H2 Hp.
  assert (Forall (λ e1, Forall (λ e2, implb (String.prefix e1.2 e2.2 || String.prefix e2.2 e1.2)
            (bool_decide (e1 = e2)) = true) http_method_map) http_method_map) as Hall
    by (apply (bool_decide_unpack _); vm_compute; exact I).
  rewrite Forall_forall in Hall. specialize (Hall e1 H1). rewrite Forall_forall in Hall.
  specialize (Hall e2 H2). rewrite Hp in Hall. by apply bool_decide_eq_true in Hall.
Qed.

Lemma method_entry m : m ≠ INVALID_METHOD → (m, HttpMethodToString m) ∈ http_method_map.
Proof.
  intros Hm. apply (bool_decide_unpack _). by destruct m; [vm_compute; exact I..|].
Qed.

Lemma method_name e : e ∈ http_method_map → HttpMethodToString e.1 = e.2 ∧ e.1 ≠ INVALID_METHOD.
Proof.
  revert e. apply Forall_forall, (bool_decide_unpack _). vm_compute. exact I.
Qed.

(** The method table is consistent: [StringToHttpMethod] inverts
    [HttpMethodToString] and accepts nothing else, and [CharsToHttpMethod],
    which reads from the receive buffer, recognises exactly the texts that start
    with the name, whatever follows. *)
Theorem method_tables :
  (∀ m, m ≠ INVALID_METHOD → StringToHttpMethod (HttpMethodToString m) = m) ∧
  (∀ s m, m ≠ INVALID_METHOD → StringToHttpMethod s = m → c_str s = HttpMethodToString m) ∧
  (∀ s m, m ≠ INVALID_METHOD →
    CharsToHttpMethod s = m ↔ ∃ rest, s = HttpMethodToString m +:+ rest).
Proof.
  split; [by intros []|]. split.
  - intros s m Hm. unfold StringToHttpMethod.
    destruct (list_find _ _) as [[i [m' s']]|] eqn:E; [|by intros <-].
    apply list_find_Some in E as (H1&H2&_). intros ->. simpl in H2. rewrite <-H2.
    by apply list_elem_of_lookup_2, method_name in H1 as [H1 _]; simpl in H1; rewrite H1.
  - intros s m Hm. rewrite <-(prefix_spec (HttpMethodToString m)). unfold CharsToHttpMethod. split.
    + destruct (list_find _ _) as [[i [m' s']]|] eqn:E; [|by intros <-].
      apply list_find_Some in E as (H1&H2&_). intros ->.
      by apply list_elem_of_lookup_2, method_name in H1 as [H1 _]; simpl in H1; rewrite H1.
    + intros Hp. destruct (list_find_unique (λ e, String.prefix e.2 s = true) http_method_map
        (m, HttpMethodToString m) (method_entry m Hm) Hp) as [i ->]; [|done].
      intros y Hy Hpy. apply method_names_apart; [done|by apply method_entry|].
      by apply (prefix_comparable _ _ s).
Qed.

(** ** The header map *)

Definition key_lt (e1 e2 : string * string) : Prop := CaseInsensitiveLess e1.1 e2.1 = true.
(** The pairs are in strictly increasing order: what [std::map] maintains. *)
Definition map_ok (m : MapType) : Prop := StronglySorted key_lt m.
(** The map as a finite map on canonical keys. *)
Definition view (m : MapType) : gmap (list N) string :=
  list_to_map ((λ e, (canon e.1, e.2)) <$> m).

Section header_map.
Implicit Types (m : MapType) (k v : string).

Lemma differ_canon k k' :
  CaseInsensitiveLess k k' || CaseInsensitiveLess k' k = bool_decide (canon k ≠ canon k').
Proof. apply lex_lt_neither. Qed.

Lemma view_cons k v m : view ((k, v) :: m) = <[canon k := v]> (view m).
Proof. done. Qed.

Lemma map_find_view m k : map_find m k = view m !! canon k.
Proof.
  induction m as [|[k' v] m IH]; [done|]. simpl map_find. rewrite view_cons, differ_canon.
  case_bool_decide as E; [by rewrite lookup_insert_ne|].
  by rewrite E, lookup_insert_eq.
Qed.

Lemma map_set_view m k v : view (map_set m k v) = <[canon k := v]> (view m).
Proof.
  induction m as [|[k' v'] m IH]; [done|]. simpl map_set.
  destruct (CaseInsensitiveLess k k') eqn:H1; [done|].
  destruct (CaseInsensitiveLess k' k) eqn:H2.
  - rewrite !view_cons, IH. apply insert_insert_ne. intros E.
    pose proof (differ_canon k k') as D. rewrite H1, H2, E in D.
    by rewrite bool_decide_false in D by auto.
  - assert (canon k = canon k') as -> by (by apply lex_lt_total).
    by rewrite !view_cons, insert_insert_eq.
Qed.

Lemma map_erase_view m k : view (map_erase m k) = delete (canon k) (view m).
Proof.
  unfold map_erase. induction m as [|[k' v] m IH]; [symmetry; exact (delete_empty _)|].
  rewrite filter_cons, view_cons. simpl. rewrite differ_canon.
  case_decide as E; rewrite bool_decide_eq_true in E.
  - by rewrite view_cons, IH, delete_insert_ne.
  - rewrite IH. apply dec_stable in E as ->. by rewrite delete_insert_eq.
Qed.

(** Nothing smaller than the first key is in the map. *)
Lemma map_find_below k e m :
  map_ok (e :: m) → CaseInsensitiveLess k e.1 = true → map_find (e :: m) k = None.
Proof.
  destruct e as [k' v']. intros [Hm Hall]%StronglySorted_inv Hk. simpl in *. rewrite Hk. simpl.
  revert Hm. induction Hall as [|[k2 v2] m H1 Hall IH]; [done|].
  intros [Hm _]%StronglySorted_inv. simpl. unfold key_lt in H1. simpl in H1.
  assert (CaseInsensitiveLess k k2 = true) as -> by (by eapply lex_lt_trans). by apply IH.
Qed.

Lemma map_set_keys m k v :
  map_ok m → map_find m k ≠ None → (map_set m k v).*1 = m.*1.
Proof.
  induction m as [|[k' v'] m IH]; [done|]. intros Hm Hf.
  destruct (CaseInsensitiveLess k k') eqn:H1; [by rewrite map_find_below in Hf|].
  simpl in *. rewrite H1 in *. destruct (CaseInsensitiveLess k' k); [|done].
  simpl in *. f_equal. apply IH; [|done]. by apply StronglySorted_inv in Hm as [].
Qed.

Lemma map_set_elem m k v e :
  e ∈ map_set m k v → e ∈ m ∨ (e.2 = v ∧ (e.1 = k ∨ e.1 ∈ m.*1)).
Proof.
  induction m as [|[k' v'] m IH]; simpl; [set_solver|].
  destruct (CaseInsensitiveLess k k'); [set_solver|].
  destruct (CaseInsensitiveLess k' k); set_solver.
Qed.

Lemma map_set_ok m k v : map_ok m → map_ok (map_set m k v).
Proof.
  induction m as [|[k' v'] m IH]; intros Hm; simpl; [by repeat constructor|].
  pose proof Hm as [Hm' Hall]%StronglySorted_inv.
  destruct (CaseInsensitiveLess k k') eqn:H1.
  - constructor; [done|]. constructor; [done|].
    eapply Forall_impl; [exact Hall|]. intros e He. by eapply lex_lt_trans.
  - destruct (CaseInsensitiveLess k' k) eqn:H2; [|by constructor].
    constructor; [by apply IH|]. apply Forall_forall. intros e He.
    rewrite Forall_forall in Hall. apply map_set_elem in He as [He|[_ [He|He]]].
    + by apply Hall.
    + unfold key_lt. by rewrite He.
    + apply list_elem_of_fmap in He as (e'&E&He'). unfold key_lt. rewrite E. by apply Hall.
Qed.

Lemma map_erase_ok m k : map_ok m → map_ok (map_erase m k).
Proof.
  unfold map_erase, map_ok. induction 1 as [|e m Hm IH Hall]; [constructor|].
  rewrite filter_cons. case_decide; [|done]. constructor; [done|].
  rewrite Forall_forall in *. intros e' [_ He']%list_elem_of_filter. by apply Hall.
Qed.
End header_map.

(** The headers of a request behave as a finite map on canonical keys
    (lower-cased up to NUL): setting, deleting and reading through any spelling of
    a key, and overwriting keeps the spelling and the place of the first. *)
Theorem header_map_laws (r : HttpRequest) (key val def : string) (Hm : map_ok (m_headers r)) :
  map_ok (m_headers (setHeader key val r)) ∧
  map_ok (m_headers (delHeader key r)) ∧
  view (m_headers (setHeader key val r)) = <[canon key := val]> (view (m_headers r)) ∧
  view (m_headers (delHeader key r)) = delete (canon key) (view (m_headers r)) ∧
  getHeader r key def = default def (view (m_headers r) !! canon key) ∧
  hasHeader r key = view (m_headers r) !! canon key ∧
  (hasHeader r key ≠ None → (m_headers (setHeader key val r)).*1 = (m_headers r).*1).
Proof.
  unfold getHeader, hasHeader. rewrite map_find_view. split_and!; try done.
  - by apply map_set_ok.
  - by apply map_erase_ok.
  - apply map_set_view.
  - apply map_erase_view.
  - rewrite <-map_find_view. by apply map_set_keys.
Qed.
Lemma header_map_laws_witness :
  let r := setHeader "Host" "a" (setHeader "accept" "b" (HttpRequest_new 0x11 true)) in
  map_ok (m_headers r) ∧ getHeader (setHeader "HOST" "c" r) "host" "" = "c".
Proof.
  intros r. assert (map_ok (m_headers r)) as Hm.
  { subst r. cbv. repeat constructor. }
  split; [done|]. pose proof (header_map_laws r "HOST" "c" "" Hm) as (H1&_).
  destruct (header_map_laws (setHeader "HOST" "c" r) "host" "" "" H1) as (_&_&_&_&->&_).
  reflexivity.
Defined.

(** ** Reading a message back *)

(** A reference reader of the message format: the start line, the fields up to
    the empty line, and the rest. *)
Fixpoint cut_crlf (s : string) : option (string * string) :=
  match s with
  | "" => None
  | String c s' =>
      match s' with
      | String d r => if Ascii.eqb c "013" && Ascii.eqb d "010" then Some ("", r)
                      else '(a, b) ← cut_crlf s'; Some (String c a, b)
      | "" => None
      end
  end.
Fixpoint skip_blanks (s : string) : string :=
  match s with String c s' => if Ascii.eqb c " " then skip_blanks s' else s | "" => "" end.
Fixpoint read_fields (fuel : nat) (s : string) : option (list (string * string) * string) :=
  match fuel with
  | O => None
  | S fuel =>
      '(l, rest) ← cut_crlf s;
      if bool_decide (l = "") then Some ([], rest)
      else '(k, v) ← cut ":" l; '(fs, body) ← read_fields fuel rest; Some ((k, skip_blanks v) :: fs, body)
  end.
Definition read_message (s : string) : option (string * list (string * string) * string) :=
  '(start, rest) ← cut_crlf s;
  '(fs, body) ← read_fields (String.length s) rest;
  Some (start, fs, body).

(** Text that cannot break the framing. *)
Definition no_cr (s : string) : bool := every (not_char "013") s.
Definition no_blank_start (s : string) : bool :=
  match s with String c _ => negb (Ascii.eqb c " ") | "" => true end.
Definition clean_key (k : string) : bool := no_cr k && every (not_char ":") k.
Definition clean_value (v : string) : bool := no_cr v && no_blank_start v.
Definition clean_field (e : string * string) : bool := clean_key e.1 && clean_value e.2.

Lemma cut_crlf_line a b : no_cr a = true → cut_crlf (a +:+ CRLF +:+ b) = Some (a, b).
Proof.
  unfold no_cr. induction a as [|c a IH]; [done|].
  rewrite app_cons_s. simpl. intros [Hc Ha]%andb_true_iff. rewrite IH by done.
  unfold not_char in Hc. destruct (Ascii.eqb c "013"); [done|]. simpl.
  by destruct (a +:+ CRLF +:+ b) eqn:E; [destruct a|].
Qed.

(** A rendered line: key, separator, value. *)
Definition sep_ok (l : string * string * string) : bool :=
  bool_decide (l.1.2 = ":") || bool_decide (l.1.2 = ": ").
Definition line_ok (l : string * string * string) : bool := clean_field (l.1.1, l.2) && sep_ok l.
Definition field_of (l : string * string * string) : string * string := (l.1.1, l.2).

Lemma skip_blanks_id v : no_blank_start v = true → skip_blanks v = v.
Proof. destruct v as [|c v]; [done|]. simpl. by destruct (Ascii.eqb c " "). Qed.

Lemma read_line l rest :
  line_ok l = true →
  ∃ text, l.1.1 +:+ l.1.2 +:+ l.2 +:+ CRLF +:+ rest = text +:+ CRLF +:+ rest ∧ no_cr text = true ∧ text ≠ "" ∧
    ∃ v, cut ":" text = Some (l.1.1, v) ∧ skip_blanks v = l.2.
Proof.
  destruct l as [[k sep] v]. unfold line_ok, sep_ok, clean_field, clean_key, clean_value, no_cr. simpl.
  rewrite !andb_true_iff, orb_true_iff, !bool_decide_eq_true. intros [[[Hk1 Hk2] [Hv1 Hv2]] Hs].
  simpl in Hs. exists (k +:+ sep +:+ v). split; [by rewrite !app_assoc_s|].
  unfold no_cr. rewrite !every_app, Hk1, Hv1.
  destruct Hs as [-> | ->]; (split; [done|]); (split; [by destruct k|]).
  - exists v. split; [by apply (cut_here ":")|]. by apply skip_blanks_id.
  - exists (" " +:+ v). split; [by apply (cut_here ":" k (" " +:+ v))|]. simpl. by apply skip_blanks_id.
Qed.

Lemma read_fields_render ls body fuel :
  Forall (λ l, line_ok l = true) ls → (length ls < fuel)%nat →
  read_fields fuel (render ls +:+ CRLF +:+ body) = Some (field_of <$> ls, body).
Proof.
  intros Hl. revert fuel. induction Hl as [|l ls Hl _ IH]; intros [|fuel] Hf; try (simpl in Hf; lia).
  { done. }
  simpl render. destruct l as [[k sep] v].
  destruct (read_line (k, sep, v) (render ls +:+ CRLF +:+ body) Hl) as (text&E&Ht&Hne&v'&Hc&Hv).
  simpl in E, Hc, Hv.
  replace ((k +:+ sep +:+ v +:+ CRLF +:+ render ls) +:+ CRLF +:+ body)
    with (text +:+ CRLF +:+ (render ls +:+ CRLF +:+ body)) by (by rewrite <-E, !app_assoc_s).
  cbn [read_fields]. rewrite cut_crlf_line by done. simpl.
  rewrite bool_decide_false by done. rewrite Hc. simpl.
  rewrite IH by (simpl in Hf; lia). simpl. by rewrite Hv.
Qed.

Lemma length_render ls : Forall (λ l, line_ok l = true) ls → (length ls ≤ String.length (render ls))%nat.
Proof.
  induction 1 as [|[[k sep] v] ls Hl _ IH]; [done|]. simpl.
  rewrite !length_app_s. simpl. lia.
Qed.

Lemma read_message_ok start ls body :
  no_cr start = true → Forall (λ l, line_ok l = true) ls →
  read_message (start +:+ CRLF +:+ render ls +:+ CRLF +:+ body) = Some (start, field_of <$> ls, body).
Proof.
  intros Hs Hl. unfold read_message. rewrite cut_crlf_line by done. simpl.
  rewrite read_fields_render; [done|done|].
  rewrite !length_app_s. pose proof (length_render ls Hl). simpl. lia.
Qed.

Lemma connection_value_clean b : clean_value (connection_value b) = true.
Proof. by destruct b. Qed.
Lemma show_clean n : clean_value (show n) = true.
Proof.
  unfold clean_value, no_cr. rewrite (show_not_char "013") by done.
  pose proof (show_digits n) as Hd. destruct (show n) as [|c s]; [done|]. simpl in *.
  destruct (Ascii.eqb_spec c " ") as [->|]; [done|]. done.
Qed.
Lemma version_no_cr v : no_cr (version_string v) = true.
Proof. unfold version_string, no_cr. by rewrite !every_app, !(show_not_char "013"). Qed.
Lemma method_no_cr m : no_cr (HttpMethodToString m) = true.
Proof. by destruct m. Qed.

Definition length_field (body : string) : list (string * string) :=
  if bool_decide (body = "") then [] else [("content-length", show (Z.of_nat (String.length body)))].

Lemma length_lines_ok body :
  let ls := if bool_decide (body = "") then [] else
      [("content-length", ": ", show (Z.of_nat (String.length body)))] in
  Forall (λ l, line_ok l = true) ls ∧ field_of <$> ls = length_field body.
Proof.
  intros ls. unfold ls, length_field. case_bool_decide; [done|]. split; [|done].
  constructor; [|done]. unfold line_ok, clean_field. simpl. by rewrite show_clean.
Qed.

Lemma field_lines sep (l : list (string * string)) :
  field_of <$> ((λ e, (e.1, sep, e.2)) <$> l) = l.
Proof. induction l as [|[k v] l IH]; [done|]. by rewrite !fmap_cons, IH. Qed.

Lemma clean_lines_ok sep (l : list (string * string)) :
  sep = ":" ∨ sep = ": " → forallb clean_field l = true →
  Forall (λ l, line_ok l = true) ((λ e, (e.1, sep, e.2)) <$> l).
Proof.
  intros Hs. rewrite forallb_forall. intros Hl. apply Forall_fmap, Forall_forall. intros [k v] He.
  unfold line_ok, sep_ok, field_of. simpl. rewrite (Hl (k, v)) by (by apply list_elem_of_In).
  by destruct Hs as [-> | ->].
Qed.

Lemma forallb_filter {A} (f : A → bool) (P : A → Prop) `{∀ x, Decision (P x)} (l : list A) :
  forallb f l = true → forallb f (filter P l) = true.
Proof.
  rewrite !forallb_forall. intros Hl x Hx. apply Hl.
  rewrite <-list_elem_of_In in *. by apply list_elem_of_filter in Hx as [].
Qed.

(** The start line of a request. *)
Definition request_line (r : HttpRequest) : string :=
  HttpMethodToString (m_method r) +:+ " " +:+ m_path r
  +:+ (if bool_decide (m_query r = "") then "" else "?") +:+ m_query r
  +:+ (if bool_decide (m_fragment r = "") then "" else "#") +:+ m_fragment r
  +:+ " HTTP/" +:+ version_string (m_version r).

(** A serialised request reads back: for a target and headers without CR
    (keys without a colon, values without a leading blank) a reader of the message
    format finds the request line, one "connection" field with the request's
    choice whatever the header map says, every other header once in the map's
    order, the length of the body if there is one, and the body. *)
Theorem request_dump_reads_back (r : HttpRequest)
    (Ht : no_cr (m_path r +:+ m_query r +:+ m_fragment r) = true)
    (Hh : forallb clean_field (m_headers r) = true) :
  read_message (request_dump r) =
    Some (request_line r,
      ("connection", connection_value (m_close r))
        :: filter (λ e, canon e.1 ≠ canon "connection") (m_headers r) ++ length_field (m_body r),
      m_body r).
Proof.
  unfold no_cr in Ht. rewrite !every_app, !andb_true_iff in Ht. destruct Ht as (Hp&Hq&Hf).
  assert (request_dump r = request_line r +:+ CRLF +:+ render (request_lines r) +:+ CRLF +:+ m_body r) as ->
    by (unfold request_dump, request_line; by rewrite !app_assoc_s).
  destruct (length_lines_ok (m_body r)) as [Hl1 Hl2].
  set (hs := filter (λ e, strcasecmp_eq e.1 "connection" = false) (m_headers r)).
  assert (hs = filter (λ e, canon e.1 ≠ canon "connection") (m_headers r)) as Ehs.
  { apply filter_ext_elem. intros e _. unfold strcasecmp_eq. by rewrite bool_decide_eq_false. }
  rewrite read_message_ok.
  - unfold request_lines. rewrite !fmap_app, Hl2, <-Ehs. fold hs. do 3 f_equal. simpl. f_equal. f_equal.
    apply field_lines.
  - unfold no_cr, request_line. rewrite !every_app, Hp, Hq, Hf.
    pose proof (method_no_cr (m_method r)) as H1. pose proof (version_no_cr (m_version r)) as H2.
    unfold no_cr in *. rewrite H1, H2. by repeat case_bool_decide.
  - unfold request_lines. apply Forall_app_2; [|apply Forall_app_2]; [..|done].
    + constructor; [|done]. unfold line_ok, clean_field. simpl. by rewrite connection_value_clean.
    + apply clean_lines_ok; [by left|]. by apply forallb_filter.
Qed.
Lemma request_dump_reads_back_witness :
  let r := setBody "xy" (setHeader "Connection" "close" (setHeader "Host" "a" (HttpRequest_new 0x11 false))) in
  read_message (request_dump r) =
    Some ("GET / HTTP/1.1",
          [("connection", "keep-alive"); ("Host", "a"); ("content-length", "2")], "xy").
Proof.
  intros r. rewrite (request_dump_reads_back r) by reflexivity. reflexivity.
Defined.

(** At most one entry has a given key. *)
Lemma count_key (m : MapType) k :
  map_ok m →
  length (filter (λ e, canon e.1 = canon k) m) = if map_find m k is Some _ then 1%nat else 0%nat.
Proof.
  induction m as [|[k' v] m IH]; [done|].
  intros Hm. pose proof Hm as [Hm' Hall]%StronglySorted_inv. rewrite filter_cons. simpl.
  rewrite differ_canon. destruct (decide (canon k' = canon k)) as [E|E].
  - rewrite bool_decide_false by (by intros []). simpl.
    rewrite filter_none_elem; [done|]. intros e He E'.
    rewrite Forall_forall in Hall. specialize (Hall e He).
    unfold key_lt, CaseInsensitiveLess in Hall. simpl in Hall. rewrite E, E', lex_lt_irrefl in Hall. done.
  - rewrite bool_decide_true by done. by apply IH.
Qed.

Lemma keys_unique (m : MapType) e1 e2 :
  map_ok m → e1 ∈ m → e2 ∈ m → canon e1.1 = canon e2.1 → e1 = e2.
Proof.
  intros Hm. induction Hm as [|e m Hm IH Hall]; [set_solver|].
  assert (∀ e', e' ∈ m → canon e.1 ≠ canon e'.1) as Hd.
  { intros e' He' E. rewrite Forall_forall in Hall. specialize (Hall e' He').
    unfold key_lt, CaseInsensitiveLess in Hall. by rewrite E, lex_lt_irrefl in Hall. }
  intros [->|H1]%elem_of_cons [->|H2]%elem_of_cons E; [done|..].
  - by destruct (Hd e2).
  - by destruct (Hd e1).
  - auto.
Qed.

(** The start line and the fields of a response. *)
Definition status_line (r : HttpResponse) : string :=
  "HTTP/" +:+ version_string (r_version r) +:+ " " +:+ show (wrapu 32 (r_status r)) +:+ " "
  +:+ (if bool_decide (r_reason r = "") then HttpStatusToString (r_status r) else r_reason r).
Definition response_fields (r : HttpResponse) : list (string * string) :=
  filter (λ e, e.1 ≠ "connection") (r_headers r)
  ++ ("connection", connection_value (r_close r)) :: length_field (r_body r).

Lemma status_no_cr s : no_cr (HttpStatusToString s) = true.
Proof.
  unfold HttpStatusToString. destruct (list_find _ _) as [[i [s' d]]|] eqn:E; [|done].
  apply list_find_Some in E as (H1&_&_). apply list_elem_of_lookup_2 in H1.
  assert (Forall (λ e, no_cr e.2 = true) http_status_map) as Hall
    by (apply (bool_decide_unpack _); vm_compute; exact I).
  rewrite Forall_forall in Hall. by apply (Hall (s', d)).
Qed.

(** A serialised response reads back: the status line, the headers other
    than "connection", one "connection" field with the response's choice, the
    length and the body.  Only that exact spelling is left out: a header the
    server or a servlet set as "Connection" is sent as well, so that the peer
    receives two fields which may contradict each other. *)
Theorem response_dump_reads_back (r : HttpResponse)
    (Hr : no_cr (r_reason r) = true) (Hh : forallb clean_field (r_headers r) = true)
    (Hm : map_ok (r_headers r)) :
  read_message (response_dump r) = Some (status_line r, response_fields r, r_body r) ∧
  length (filter (λ e, canon e.1 = canon "connection") (response_fields r)) =
    if decide (is_Some (map_find (r_headers r) "connection") ∧ "connection" ∉ (r_headers r).*1)
    then 2%nat else 1%nat.
Proof.
  split.
  - assert (response_dump r = status_line r +:+ CRLF +:+ render (response_lines r) +:+ CRLF +:+ r_body r) as ->
      by (unfold response_dump, status_line; by rewrite !app_assoc_s).
    destruct (length_lines_ok (r_body r)) as [Hl1 Hl2].
    rewrite read_message_ok.
    + unfold response_lines. rewrite !fmap_app, Hl2, field_lines. done.
    + unfold no_cr, status_line. pose proof (version_no_cr (r_version r)) as H2.
      pose proof (status_no_cr (r_status r)) as H3. unfold no_cr in *.
      rewrite !every_app, H2, (show_not_char "013") by done. by destruct (bool_decide (r_reason r = "")); rewrite ?H3, ?Hr.
    + unfold response_lines. apply Forall_app_2; [|apply Forall_app_2]; [..|done].
      * apply clean_lines_ok; [by right|]. by apply forallb_filter.
      * constructor; [|done]. unfold line_ok, clean_field. simpl. by rewrite connection_value_clean.
  - unfold response_fields. rewrite filter_app, length_app, filter_cons_True, length_cons by done.
    rewrite (filter_none_elem _ (length_field _)); last first.
    { unfold length_field. case_bool_decide; [set_solver|]. by intros e ->%list_elem_of_singleton. }
    pose proof (count_key (r_headers r) "connection" Hm) as Hc.
    destruct (decide ("connection" ∈ (r_headers r).*1)) as [Hin|Hin].
    + rewrite decide_False by tauto. rewrite filter_none_elem; [done|].
      apply list_elem_of_fmap in Hin as (e0&E0&He0). intros e [Hne He]%list_elem_of_filter E.
      apply Hne. rewrite E0. f_equal. apply (keys_unique (r_headers r)); [done..|]. by rewrite E, <-E0.
    + assert (filter (λ e, e.1 ≠ "connection") (r_headers r) = r_headers r) as ->.
      { apply filter_all_elem. intros e He E. apply Hin, list_elem_of_fmap. exists e. by rewrite E. }
      rewrite Hc. destruct (map_find _ _) eqn:E; [by rewrite decide_True by eauto|].
      rewrite decide_False; [done|]. by intros [[] _].
Qed.
Lemma response_dump_reads_back_witness :
  let r := r_setHeader "Connection" "keep-alive" (HttpResponse_new 0x11 true) in
  read_message (response_dump r) =
    Some ("HTTP/1.1 200 OK", [("Connection", "keep-alive"); ("connection", "close")], "") ∧
  length (filter (λ e, canon e.1 = canon "connection") (response_fields r)) = 2%nat.
Proof.
  intros r. assert (map_ok (r_headers r)) as Hm by (subst r; cbv; repeat constructor).
  destruct (response_dump_reads_back r eq_refl eq_refl Hm) as [-> ->].
  split; [reflexivity|]. vm_compute. reflexivity.
Defined.
