(* ===== verification/Address.v ===== *)
(** Socket addresses ([sylar/address.h], [sylar/address.cc]).

    The four kinds of address over their socket structures, kept field by field
    as the host loads them; masks and prefix lengths, text form, comparison, the
    splitting of "host:service" texts, and the queries built on the resolver and
    the interface list of the system, which are parameters. *)
From S2P Require Import Prelude Text Endian.
From Stdlib Require Import Ascii HexadecimalString Strings.Byte.
From coqutil Require Import Byte Word.LittleEndianList.

Local Open Scope Z_scope.

#[export] Instance byte_eq_decision : EqDecision byte := Byte.byte_eq_dec.

Definition AF_UNSPEC : Z := 0.
Definition AF_UNIX : Z := 1.
Definition AF_INET : Z := 2.
Definition AF_INET6 : Z := 10.

(** ** Masks *)

(** [CreateMask<T>]: the shift is done on [int], by a [size_t] amount. *)
Definition CreateMask (T : cint) (bits : Z) : M unit Z :=
  let amount := wrapu 64 (Z.of_nat (sizeof T) * 8 - bits) in
  if 32 <=? amount then undef ShiftRange
  else
    let shifted := wraps 32 (2 ^ amount) in
    if shifted - 1 <? - 2 ^ 31 then undef SignedOverflow
    else mret (conv T (shifted - 1)).

(** [CountBytes]: the loop clears the lowest set bit; one round per bit is
    enough fuel. *)
Fixpoint CountBytes_loop (fuel : nat) (T : cint) (value result : Z) : M unit Z :=
  if value =? 0 then mret result
  else
    match fuel with
    | O => undef NoFuel
    | S fuel => CountBytes_loop fuel T (conv T (Z.land value (value - 1))) (wrapu 32 (result + 1))
    end.
Definition CountBytes (T : cint) (value : Z) : M unit Z :=
  CountBytes_loop (8 * sizeof T) T value 0.

(** ** The socket structures *)

Record sockaddr_in := mk_in {
  sin_family : Z;
  sin_port : Z;        (** as loaded: network order in memory *)
  s_addr : Z;          (** as loaded: network order in memory *)
  sin_zero : list byte;
}.
Record sockaddr_in6 := mk_in6 {
  sin6_family : Z;
  sin6_port : Z;
  sin6_flowinfo : Z;
  s6_addr : list byte;
  sin6_scope_id : Z;
}.
(** What the system hands out. *)
Inductive sockaddr :=
  | SockIn (a : sockaddr_in)
  | SockIn6 (a : sockaddr_in6)
  | SockOther (family : Z) (data : list byte).

(** The classes [IPv4Address], [IPv6Address], [UnixAddress], [UnknownAddress]. *)
Inductive Address :=
  | IPv4Address (m_addr : sockaddr_in)
  | IPv6Address (m_addr : sockaddr_in6)
  | UnixAddress (sun_path : list byte) (m_length : Z)
  | UnknownAddress (sa_family : Z) (sa_data : list byte).

Definition set_s_addr (v : Z) (a : sockaddr_in) : sockaddr_in :=
  mk_in (sin_family a) (sin_port a) v (sin_zero a).
Definition set_sin_port (v : Z) (a : sockaddr_in) : sockaddr_in :=
  mk_in (sin_family a) v (s_addr a) (sin_zero a).
Definition set_s6_addr (v : list byte) (a : sockaddr_in6) : sockaddr_in6 :=
  mk_in6 (sin6_family a) (sin6_port a) (sin6_flowinfo a) v (sin6_scope_id a).
Definition set_sin6_port (v : Z) (a : sockaddr_in6) : sockaddr_in6 :=
  mk_in6 (sin6_family a) v (sin6_flowinfo a) (s6_addr a) (sin6_scope_id a).
Definition zeros (n : nat) : list byte := replicate n x00.

(** [s6_addr[i] = f(s6_addr[i])], out of range undefined. *)
Definition update_byte (i : nat) (f : byte → byte) (l : list byte) : M unit (list byte) :=
  match l !! i with
  | Some b => mret (<[i := f b]> l)
  | None => undef OutOfBounds
  end.

Section host.
Context {H : Host}.

(** ** IPv4 *)

(** [IPv4Address::IPv4Address(uint32_t, uint16_t)] *)
Definition IPv4Address_new (address port : Z) : sockaddr_in :=
  mk_in AF_INET (byteswapOnLittleEndian uint16_t port) (byteswapOnLittleEndian uint32_t address) (zeros 8).

(** [IPv4Address::broadcastAddress]; [None] is the null pointer. *)
Definition v4_broadcastAddress (a : sockaddr_in) (prefix_len : Z) : M unit (option sockaddr_in) :=
  if 32 <? prefix_len then mret None
  else mask ← CreateMask uint32_t prefix_len;
    mret (Some (set_s_addr (Z.lor (s_addr a) (byteswapOnLittleEndian uint32_t mask)) a)).
(** [IPv4Address::networkAddress] *)
Definition v4_networkAddress (a : sockaddr_in) (prefix_len : Z) : M unit (option sockaddr_in) :=
  if 32 <? prefix_len then mret None
  else mask ← CreateMask uint32_t prefix_len;
    mret (Some (set_s_addr (Z.land (s_addr a) (byteswapOnLittleEndian uint32_t mask)) a)).
(** [IPv4Address::subnetMask] *)
Definition v4_subnetMask (prefix_len : Z) : M unit (option sockaddr_in) :=
  mask ← CreateMask uint32_t prefix_len;
  mret (Some (mk_in AF_INET 0 (conv uint32_t (Z.lnot (byteswapOnLittleEndian uint32_t mask))) (zeros 8))).

(** [IPv4Address::insert] *)
Definition v4_dotted (a : sockaddr_in) : string :=
  let addr := byteswapOnLittleEndian uint32_t (s_addr a) in
  show (Z.land (Z.shiftr addr 24) 0xff) +:+ "." +:+ show (Z.land (Z.shiftr addr 16) 0xff) +:+ "."
  +:+ show (Z.land (Z.shiftr addr 8) 0xff) +:+ "." +:+ show (Z.land addr 0xff).
Definition v4_insert (a : sockaddr_in) : string :=
  v4_dotted a +:+ ":" +:+ show (byteswapOnLittleEndian uint16_t (sin_port a)).

(** ** IPv6 *)

(** [IPv6Address::IPv6Address()] *)
Definition IPv6Address_default : sockaddr_in6 := mk_in6 AF_INET6 0 0 (zeros 16) 0.
(** [IPv6Address::IPv6Address(const uint8_t[16], uint16_t)] *)
Definition IPv6Address_new (address : list byte) (port : Z) : sockaddr_in6 :=
  mk_in6 AF_INET6 (byteswapOnLittleEndian uint16_t port) 0 (take 16 address) 0.

(** [for (i = first; i < 16; ++i) s6_addr[i] = 0xff] *)
Definition fill_ff (first : nat) (l : list byte) : list byte :=
  take first l ++ replicate (length l - first) xff.

(** [IPv6Address::broadcastAddress] *)
Definition v6_broadcastAddress (a : sockaddr_in6) (prefix_len : Z) : M unit (option sockaddr_in6) :=
  mask ← CreateMask uint8_t (prefix_len mod 8);
  let idx := Z.to_nat (prefix_len / 8) in
  l ← update_byte idx (λ b, byte.of_Z (Z.lor (byte.unsigned b) mask)) (s6_addr a);
  mret (Some (set_s6_addr (fill_ff (idx + 1) l) a)).
(** [IPv6Address::networkAddress] *)
Definition v6_networkAddress (a : sockaddr_in6) (prefix_len : Z) : M unit (option sockaddr_in6) :=
  mask ← CreateMask uint8_t (prefix_len mod 8);
  let idx := Z.to_nat (prefix_len / 8) in
  l ← update_byte idx (λ b, byte.of_Z (Z.land (byte.unsigned b) mask)) (s6_addr a);
  mret (Some (set_s6_addr l a)).

(** The loop of [subnetMask]: the counter is a [uint32_t] and goes down. *)
Fixpoint subnet_loop (fuel : nat) (i bound : Z) (l : list byte) : M unit (list byte) :=
  if i <? bound then
    match fuel with
    | O => undef NoFuel
    | S fuel => l' ← update_byte (Z.to_nat i) (λ _, xff) l; subnet_loop fuel (wrapu 32 (i - 1)) bound l'
    end
  else mret l.
(** [IPv6Address::subnetMask]; two rounds are enough fuel. *)
Definition v6_subnetMask (prefix_len : Z) : M unit (option sockaddr_in6) :=
  mask ← CreateMask uint8_t (prefix_len mod 8);
  l ← update_byte (Z.to_nat (prefix_len / 8)) (λ _, byte.of_Z (Z.lnot mask)) (zeros 16);
  l' ← subnet_loop 2 0 (prefix_len / 8) l;
  mret (Some (set_s6_addr l' IPv6Address_default)).

(** [os << std::hex << (int)n] *)
Definition show_hex (n : Z) : string := NilZero.string_of_uint (N.to_hex_uint (Z.to_N n)).
(** [byteswapOnLittleEndian(addr[i])] of the address seen as [uint16_t[8]]. *)
Definition group (l : list byte) (i : nat) : Z :=
  byteswapOnLittleEndian uint16_t (of_memory uint16_t (take 2 (drop (2 * i) l))).
(** The loop of [IPv6Address::insert] over the groups [i, i+1, ...]; [prev] is
    [addr[i-1]], absent for [i = 0]. *)
Fixpoint insert_groups (prev : option Z) (used_zeros : bool) (gs : list Z) : string * bool :=
  match gs with
  | [] => (""%stdpp, used_zeros)
  | g :: gs =>
      if (g =? 0) && negb used_zeros then insert_groups (Some g) used_zeros gs
      else
        let skipped := bool_decide (prev = Some 0) && negb used_zeros in
        let '(rest, u) := insert_groups (Some g) (used_zeros || skipped) gs in
        ((if skipped then ":" else "") +:+ (if prev is Some _ then ":" else "") +:+ show_hex g +:+ rest, u)
  end.
Definition groups (l : list byte) : list Z := group l <$> seq 0 8.
Definition v6_text (l : list byte) : string :=
  let '(s, used_zeros) := insert_groups None false (groups l) in
  s +:+ (if negb used_zeros && (group l 7 =? 0) then "::" else "").
(** [IPv6Address::insert] *)
Definition v6_insert (a : sockaddr_in6) : string :=
  "[" +:+ v6_text (s6_addr a) +:+ "]:" +:+ show (byteswapOnLittleEndian uint16_t (sin6_port a)).

(** ** Unix and unknown addresses *)

Definition string_bytes (s : string) : list byte := String.list_byte_of_string s.
Definition bytes_string (l : list byte) : string := String.string_of_list_byte l.
Definition SUN_PATH : nat := 108.   (** [sizeof(m_addr.sun_path)] *)
Definition SUN_OFFSET : Z := 2.     (** [offsetof(sockaddr_un, sun_path)] *)

(** [UnixAddress::UnixAddress()] *)
Definition UnixAddress_default : Address := UnixAddress (zeros SUN_PATH) (SUN_OFFSET + (Z.of_nat SUN_PATH - 1)).
(** [UnixAddress::UnixAddress(path)] *)
Definition UnixAddress_new (path : string) : M unit Address :=
  let p := string_bytes path in
  let n := wrapu 32 (Z.of_nat (length p) + 1 - (if bool_decide (head p = Some x00) then 1 else 0)) in
  if Z.of_nat SUN_PATH <? n then throw (logic_error "path too long")
  else mret (UnixAddress (splice 0 (take (Z.to_nat n) (p ++ [x00])) (zeros SUN_PATH)) (n + SUN_OFFSET)).
(** [UnixAddress::setAddrLen] *)
Definition setAddrLen (v : Z) (a : Address) : Address :=
  match a with UnixAddress p _ => UnixAddress p v | _ => a end.

(** The bytes before NUL. *)
Fixpoint before_nul (l : list byte) : list byte :=
  match l with [] => [] | b :: l => if Byte.eqb b x00 then [] else b :: before_nul l end.
(** [UnixAddress::insert] *)
Definition unix_insert (sun_path : list byte) (m_length : Z) : string :=
  if (SUN_OFFSET <? m_length) && bool_decide (head sun_path = Some x00)
  then "\0" +:+ bytes_string (take (Z.to_nat (m_length - SUN_OFFSET - 1)) (drop 1 sun_path))
  else bytes_string (before_nul sun_path).

(** ** All addresses *)

(** [Address::toString] *)
Definition toString (a : Address) : string :=
  match a with
  | IPv4Address a => v4_insert a
  | IPv6Address a => v6_insert a
  | UnixAddress p n => unix_insert p n
  | UnknownAddress f _ => "[UnknownAddress family=" +:+ show f +:+ "]"
  end.

(** [getAddrLen] and the bytes [getAddr] points to. *)
Definition getAddrLen (a : Address) : Z :=
  match a with IPv4Address _ => 16 | IPv6Address _ => 28 | UnixAddress _ n => n | UnknownAddress _ _ => 16 end.
Definition getAddr (a : Address) : list byte :=
  match a with
  | IPv4Address a => to_memory 2 (sin_family a) ++ to_memory 2 (sin_port a) ++ to_memory 4 (s_addr a) ++ sin_zero a
  | IPv6Address a => to_memory 2 (sin6_family a) ++ to_memory 2 (sin6_port a) ++ to_memory 4 (sin6_flowinfo a)
                       ++ s6_addr a ++ to_memory 4 (sin6_scope_id a)
  | UnixAddress p _ => to_memory 2 AF_UNIX ++ p
  | UnknownAddress f d => to_memory 2 f ++ d
  end.
Definition getFamily (a : Address) : Z :=
  match a with
  | IPv4Address a => sin_family a | IPv6Address a => sin6_family a
  | UnixAddress _ _ => AF_UNIX | UnknownAddress f _ => f
  end.

(** The sign of [memcmp] on [n] bytes. *)
Fixpoint memcmp (a b : list byte) (n : nat) : comparison :=
  match n, a, b with
  | S n, x :: a, y :: b =>
      match Z.compare (byte.unsigned x) (byte.unsigned y) with Eq => memcmp a b n | c => c end
  | _, _, _ => Eq
  end.
(** [Address::operator<] *)
Definition addr_lt (a b : Address) : bool :=
  let minlen := Z.min (getAddrLen a) (getAddrLen b) in
  match memcmp (getAddr a) (getAddr b) (Z.to_nat minlen) with
  | Lt => true
  | Gt => false
  | Eq => getAddrLen a <? getAddrLen b
  end.
(** [Address::operator==], [operator!=] *)
Definition addr_eq (a b : Address) : bool :=
  (getAddrLen a =? getAddrLen b)
  && match memcmp (getAddr a) (getAddr b) (Z.to_nat (getAddrLen a)) with Eq => true | _ => false end.
Definition addr_ne (a b : Address) : bool := negb (addr_eq a b).

(** [Address::Create] *)
Definition Create (addr : option sockaddr) : option Address :=
  match addr with
  | None => None
  | Some (SockIn a) => Some (IPv4Address a)
  | Some (SockIn6 a) => Some (IPv6Address a)
  | Some (SockOther f d) => Some (UnknownAddress f d)
  end.

(** [IPAddress::getPort], [setPort] *)
Definition getPort (a : Address) : Z :=
  match a with
  | IPv4Address a => byteswapOnLittleEndian uint16_t (sin_port a)
  | IPv6Address a => byteswapOnLittleEndian uint16_t (sin6_port a)
  | _ => 0
  end.
Definition setPort (v : Z) (a : Address) : Address :=
  match a with
  | IPv4Address a => IPv4Address (set_sin_port (byteswapOnLittleEndian uint16_t v) a)
  | IPv6Address a => IPv6Address (set_sin6_port (byteswapOnLittleEndian uint16_t v) a)
  | _ => a
  end.
(** [dynamic_pointer_cast<IPAddress>] *)
Definition is_ip (a : Address) : bool :=
  match a with IPv4Address _ | IPv6Address _ => true | _ => false end.
End host.

(** ** Queries to the system *)

Record ifaddr := mk_ifaddr {
  ifa_name : string;
  ifa_addr : option sockaddr;
  ifa_netmask : option sockaddr;
}.
(** [getaddrinfo] (node, service, family, type, protocol), [inet_pton] (the
    bytes it writes) and [getifaddrs]. *)
Class Resolver := {
  getaddrinfo : string → option string → Z → Z → Z → option (list sockaddr);
  inet_pton : Z → string → option (list byte);
  getifaddrs : option (list ifaddr);
}.

(** The parsing at the start of [Address::Lookup]: node and service. *)
Definition split_host (host : string) : string * option string :=
  let '(node, service) :=
    match host with
    | String "[" t =>
        match cut "]" t with
        | Some (a, b) =>
            (a, match b with String ":" s => Some (c_str s) | _ => None end)
        | None => (""%stdpp, None)
        end
    | _ => (""%stdpp, None)
    end in
  let '(node, service) :=
    if bool_decide (node = "")
    then match cut ":" host with
         | Some (a, b) =>
             match cut ":" b with
             | None => (a, Some (c_str b))
             | Some _ => (node, Some (c_str (String ":" b)))
             end
         | None => (node, None)
         end
    else (node, service) in
  (if bool_decide (node = "") then host else node, service).

Section queries.
Context {H : Host} {R : Resolver}.

(** [Address::Lookup]: [None] is [false], otherwise the addresses added. *)
Definition Lookup (host : string) (family type protocol : Z) : option (list Address) :=
  let '(node, service) := split_host host in
  match getaddrinfo (c_str node) service family type protocol with
  | Some results => Some (omap (λ a, Create (Some a)) results)
  | None => None
  end.
(** [Address::LookupAny] *)
Definition LookupAny (host : string) (family type protocol : Z) : M unit (option Address) :=
  match Lookup host family type protocol with
  | Some (a :: _) => mret (Some a)
  | Some [] => undef OutOfBounds
  | None => mret None
  end.
(** [Address::LookupAnyIPAddress] *)
Definition LookupAnyIPAddress (host : string) (family type protocol : Z) : option Address :=
  match Lookup host family type protocol with
  | Some result => snd <$> list_find (λ a, is_ip a = true) result
  | None => None
  end.

(** [IPAddress::Create] *)
Definition IPAddress_Create (address : string) (port : Z) : M unit (option Address) :=
  match getaddrinfo (c_str address) None AF_UNSPEC 0 0 with
  | None => mret None
  | Some results =>
      r ← deref (head results);
      mret (match Create (Some r) with
            | Some a => if is_ip a then Some (setPort port a) else None
            | None => None
            end)
  end.
(** [IPv4Address::Create] *)
Definition IPv4Address_Create (address : string) (port : Z) : option Address :=
  (λ l, IPv4Address (set_s_addr (of_memory uint32_t l) (IPv4Address_new 0 port)))
    <$> inet_pton AF_INET (c_str address).
(** [IPv6Address::Create] *)
Definition IPv6Address_Create (address : string) (port : Z) : option Address :=
  (λ l, IPv6Address (set_s6_addr l (IPv6Address_new (zeros 16) port)))
    <$> inet_pton AF_INET6 (c_str address).

Definition family_of (a : sockaddr) : Z :=
  match a with SockIn a => sin_family a | SockIn6 a => sin6_family a | SockOther f _ => f end.

(** [prefix_len += CountBytes(byte)] over the bytes of an IPv6 mask. *)
Fixpoint add_counts (prefix_len : Z) (l : list byte) : M unit Z :=
  match l with
  | [] => mret prefix_len
  | b :: l => n ← CountBytes uint8_t (byte.unsigned b); add_counts (wrapu 32 (prefix_len + n)) l
  end.

(** One interface: the address and its prefix length. *)
Definition interface_prefix (i : ifaddr) : M unit (option (Address * Z)) :=
  match ifa_addr i with
  | None => undef NullDeref
  | Some (SockIn a) =>
      m ← deref (ifa_netmask i);
      bits ← (match m with SockIn m => mret (s_addr m) | _ => undef Uninitialised end);
      p ← CountBytes uint32_t bits;
      mret (Some (IPv4Address a, p))
  | Some (SockIn6 a) =>
      m ← deref (ifa_netmask i);
      bits ← (match m with SockIn6 m => mret (s6_addr m) | _ => undef Uninitialised end);
      p ← add_counts (2 ^ 32 - 1) bits;
      mret (Some (IPv6Address a, p))
  | Some (SockOther _ _) => mret None
  end.

Fixpoint collect_interfaces (family : Z) (l : list ifaddr) : M unit (list (string * (Address * Z))) :=
  match l with
  | [] => mret []
  | i :: l =>
      a ← deref (ifa_addr i);
      if negb (family =? AF_UNSPEC) && negb (family =? family_of a)
      then collect_interfaces family l
      else
        o ← interface_prefix i;
        rest ← collect_interfaces family l;
        mret (match o with Some p => (ifa_name i, p) :: rest | None => rest end)
  end.
(** [Address::GetInterfaceAddresses(multimap, family)]: the pairs added, in the
    order of insertion. *)
Definition GetInterfaceAddresses_all (family : Z) : M unit (option (list (string * (Address * Z)))) :=
  match getifaddrs with
  | None => mret None
  | Some l => r ← collect_interfaces family l; mret (Some r)
  end.
(** [Address::GetInterfaceAddresses(vector, iface, family)] *)
Definition GetInterfaceAddresses (iface : string) (family : Z) : M unit (option (list (Address * Z))) :=
  if bool_decide (iface = "") || bool_decide (iface = "*") then
    mret (Some ((if (family =? AF_INET) || (family =? AF_UNSPEC)
                 then [(IPv4Address (IPv4Address_new 0 0), 0)] else [])
             ++ (if (family =? AF_INET6) || (family =? AF_UNSPEC)
                 then [(IPv6Address IPv6Address_default, 0)] else [])))
  else
    r ← GetInterfaceAddresses_all family;
    mret ((λ l : list (string * (Address * Z)), (filter (λ e, e.1 = iface) l).*2) <$> r).
End queries.
