(* ===== verification/AddressSpec.v ===== *)
(** Correctness of the socket addresses: masks, prefix lengths, order, text. *)
From S2P Require Import Prelude Text Endian Address.
From Stdlib Require Import Ascii Strings.Byte HexadecimalString HexadecimalN HexadecimalPos.
From coqutil Require Import Byte Word.LittleEndianList.

Local Open Scope Z_scope.

(** ** Bits of numbers made of bytes *)

Lemma byte_testbit_high b i : 8 ≤ i → Z.testbit (byte.unsigned b) i = false.
Proof.
  intros Hi. pose proof (byte.unsigned_range b). rewrite <-(Z.mod_small (byte.unsigned b) (2 ^ 8)) by lia.
  by rewrite Z.mod_pow2_bits_high by lia.
Qed.
Lemma of_Z_testbit z i : 0 ≤ i < 8 → Z.testbit (byte.unsigned (byte.of_Z z)) i = Z.testbit z i.
Proof. intros Hi. rewrite byte.unsigned_of_Z. unfold byte.wrap. apply Z.mod_pow2_bits_low. lia. Qed.

(** Bit [i] of a little-endian number is bit [i mod 8] of byte [i / 8]. *)
Lemma le_combine_testbit l i :
  0 ≤ i →
  Z.testbit (le_combine l) i =
    match l !! Z.to_nat (i / 8) with Some b => Z.testbit (byte.unsigned b) (i mod 8) | None => false end.
Proof.
  revert i. induction l as [|b l IH]; intros i Hi.
  { simpl. by rewrite Z.testbit_0_l. }
  change (le_combine (b :: l)) with (Z.lor (byte.unsigned b) (Z.shiftl (le_combine l) 8)).
  rewrite Z.lor_spec, Z.shiftl_spec by done.
  destruct (decide (i < 8)) as [H8|H8].
  - rewrite (Z.testbit_neg_r _ (i - 8)) by lia. rewrite Z.div_small, Z.mod_small by lia.
    by rewrite orb_false_r.
  - rewrite byte_testbit_high, IH by lia. simpl.
    assert (i / 8 = (i - 8) / 8 + 1) as E by (rewrite <-Z.div_add by lia; f_equal; lia).
    rewrite E, Z2Nat.inj_add, Nat.add_1_r by (try apply Z.div_pos; lia). simpl.
    replace (i mod 8) with ((i - 8) mod 8); [done|].
    rewrite <-(Z_mod_plus_full (i - 8) 1 8). f_equal. lia.
Qed.

(** The number a list of bytes denotes in network order. *)
Definition be_value (l : list byte) : Z := le_combine (rev l).
Lemma be_value_testbit l i :
  0 ≤ i < 8 * Z.of_nat (length l) →
  Z.testbit (be_value l) i =
    match l !! (length l - 1 - Z.to_nat (i / 8))%nat with
    | Some b => Z.testbit (byte.unsigned b) (i mod 8) | None => false end.
Proof.
  intros Hi. unfold be_value. rewrite le_combine_testbit by lia.
  assert (Z.to_nat (i / 8) < length l)%nat.
  { apply Nat2Z.inj_lt. rewrite Z2Nat.id by (apply Z.div_pos; lia). apply Z.div_lt_upper_bound; lia. }
  rewrite rev_alt. change (rev_append l []) with (reverse l). rewrite reverse_lookup by lia.
  by replace (length l - S (Z.to_nat (i / 8)))%nat with (length l - 1 - Z.to_nat (i / 8))%nat by lia.
Qed.

(** ** Masks *)

Lemma CreateMask_ok T p :
  0 < Z.of_nat (sizeof T) * 8 - p < 31 → Z.of_nat (sizeof T) * 8 - p ≤ bits T → signed T = false →
  CreateMask T p tt = Ok (2 ^ (Z.of_nat (sizeof T) * 8 - p) - 1) tt.
Proof.
  intros Hp Hb Hs. unfold CreateMask. set (k := Z.of_nat (sizeof T) * 8 - p) in *.
  rewrite wrapu_small by (unfold in_u; lia). rewrite (proj2 (Z.leb_gt 32 k)) by lia.
  assert (1 ≤ 2 ^ k < 2 ^ 31) by (split; [by apply (Z.pow_le_mono_r 2 0); lia|by apply Z.pow_lt_mono_r; lia]).
  rewrite wraps_small by (unfold in_s; simpl; lia).
  rewrite (proj2 (Z.ltb_ge _ _)) by lia. unfold mret, M_ret. f_equal.
  unfold conv. rewrite Hs. apply wrapu_small. unfold in_u.
  pose proof (Z.pow_le_mono_r 2 k (Endian.bits T)). lia.
Qed.
Lemma CreateMask_32 p : 2 ≤ p ≤ 32 → CreateMask uint32_t p tt = Ok (2 ^ (32 - p) - 1) tt.
Proof.
  intros Hp. destruct (decide (p = 32)) as [->|]; [done|].
  apply (CreateMask_ok uint32_t); simpl; unfold bits; simpl; lia || done.
Qed.
Lemma CreateMask_8 p : 0 ≤ p < 8 → CreateMask uint8_t p tt = Ok (2 ^ (8 - p) - 1) tt.
Proof. intros Hp. apply (CreateMask_ok uint8_t); simpl; unfold bits; simpl; lia || done. Qed.

Lemma ones_testbit k i : 0 ≤ k → 0 ≤ i → Z.testbit (2 ^ k - 1) i = (i <? k).
Proof.
  intros Hk Hi.
  replace (2 ^ k - 1) with (Z.ones k) by (rewrite Z.ones_equiv; lia).
  destruct (Z.ltb_spec i k); [by apply Z.ones_spec_low|by apply Z.ones_spec_high; lia].
Qed.

(** ** Byte swapping is bitwise *)

Lemma bswap_testbit n x i :
  0 ≤ i < 8 * Z.of_nat n →
  Z.testbit (bswap n x) i = Z.testbit x (8 * (Z.of_nat n - 1 - i / 8) + i mod 8).
Proof.
  intros Hi. unfold bswap. fold (be_value (le_split n x)).
  assert (0 ≤ i / 8 < Z.of_nat n) as Hd by (split; [apply Z.div_pos|apply Z.div_lt_upper_bound]; lia).
  pose proof (Z.mod_pos_bound i 8 ltac:(lia)) as Hm.
  rewrite be_value_testbit by (by rewrite length_le_split). rewrite length_le_split.
  set (j := (n - 1 - Z.to_nat (i / 8))%nat).
  assert (le_combine (le_split n x) = x mod 2 ^ (Z.of_nat n * 8)) as E by apply le_combine_split.
  assert (0 ≤ 8 * Z.of_nat j + i mod 8) as Hj by lia.
  pose proof (le_combine_testbit (le_split n x) (8 * Z.of_nat j + i mod 8) Hj) as E2.
  assert ((8 * Z.of_nat j + i mod 8) / 8 = Z.of_nat j) as E3
    by (symmetry; apply Z.div_unique with (i mod 8); lia).
  assert ((8 * Z.of_nat j + i mod 8) mod 8 = i mod 8) as E4
    by (symmetry; apply Z.mod_unique with (Z.of_nat j); lia).
  rewrite E3, E4 in E2.
  rewrite Nat2Z.id in E2. rewrite <-E2, E, Z.mod_pow2_bits_low by lia. f_equal. lia.
Qed.
Lemma bswap_range n x : 0 ≤ bswap n x < 2 ^ (8 * Z.of_nat n).
Proof.
  unfold bswap. pose proof (le_combine_bound (rev (le_split n x))) as Hb.
  by rewrite length_rev, length_le_split in Hb.
Qed.

(** Numbers below [2^n] are equal when their first [n] bits are. *)
Lemma bits_ext n a b :
  0 ≤ n → 0 ≤ a < 2 ^ n → 0 ≤ b < 2 ^ n → (∀ i, 0 ≤ i < n → Z.testbit a i = Z.testbit b i) → a = b.
Proof.
  intros Hn Ha Hb Hi. rewrite <-(Z.mod_small a (2 ^ n)), <-(Z.mod_small b (2 ^ n)) by done.
  apply Z.bits_inj'. intros i H0. destruct (decide (i < n)).
  - rewrite !Z.mod_pow2_bits_low by lia. auto.
  - by rewrite !Z.mod_pow2_bits_high by lia.
Qed.


Section ipv4.
Context {H : Host}.
Notation swap := (byteswapOnLittleEndian uint32_t).

Lemma swap32_eq x :
  in_u 32 x → swap x = if SYLAR_BYTE_ORDER =? SYLAR_BIG_ENDIAN then x else bswap 4 x.
Proof.
  intros Hx. unfold byteswapOnLittleEndian. case_match; [done|]. unfold byteswap. simpl.
  rewrite (wrapu_small 64) by (unfold in_u in *; lia). apply wrapu_small. apply (bswap_range 4).
Qed.
Lemma swap32_range x : in_u 32 x → in_u 32 (swap x).
Proof. intros Hx. rewrite swap32_eq by done. case_match; [done|]. apply (bswap_range 4). Qed.
Lemma swap32_involutive x : in_u 32 x → swap (swap x) = x.
Proof. intros Hx. apply byteswapOnLittleEndian_involutive; [simpl; lia|done]. Qed.

Lemma in_u_bitwise (f : Z → Z → Z) (g : bool → bool → bool) w a b :
  (∀ x y i, Z.testbit (f x y) i = g (Z.testbit x i) (Z.testbit y i)) → g false false = false →
  (∀ x y, 0 ≤ x → 0 ≤ y → 0 ≤ f x y) →
  0 ≤ w → in_u w a → in_u w b → in_u w (f a b).
Proof.
  intros Hf Hg Hp Hw Ha Hb. unfold in_u in *. split; [apply Hp; lia|].
  rewrite <-(Z.mod_small a (2 ^ w)), <-(Z.mod_small b (2 ^ w)) by done.
  assert (f (a mod 2 ^ w) (b mod 2 ^ w) = f (a mod 2 ^ w) (b mod 2 ^ w) mod 2 ^ w) as ->; [|by apply Z.mod_pos_bound; lia].
  apply Z.bits_inj'. intros i Hi. destruct (decide (i < w)).
  - by rewrite Z.mod_pow2_bits_low by lia.
  - by rewrite Hf, !Z.mod_pow2_bits_high, Hg by lia.
Qed.

Lemma swap32_bitwise (f : Z → Z → Z) (g : bool → bool → bool) a b :
  (∀ x y i, Z.testbit (f x y) i = g (Z.testbit x i) (Z.testbit y i)) → g false false = false →
  (∀ x y, 0 ≤ x → 0 ≤ y → 0 ≤ f x y) →
  in_u 32 a → in_u 32 b → swap (f a b) = f (swap a) (swap b).
Proof.
  intros Hf Hg Hp Ha Hb.
  assert (in_u 32 (f a b)) as Hab by (by eapply in_u_bitwise).
  pose proof (swap32_range a Ha) as Hsa. pose proof (swap32_range b Hb) as Hsb.
  pose proof (swap32_range _ Hab) as Hsab.
  apply (bits_ext 32); [done|done|by eapply in_u_bitwise|]. intros i Hi. rewrite Hf, !swap32_eq by done.
  case_match; [by rewrite Hf|]. by rewrite !(bswap_testbit 4), Hf by (simpl; lia).
Qed.
Lemma swap32_lor a b : in_u 32 a → in_u 32 b → swap (Z.lor a b) = Z.lor (swap a) (swap b).
Proof.
  apply (swap32_bitwise Z.lor orb); [apply Z.lor_spec|done|]. intros. by apply Z.lor_nonneg.
Qed.
Lemma swap32_land a b : in_u 32 a → in_u 32 b → swap (Z.land a b) = Z.land (swap a) (swap b).
Proof.
  apply (swap32_bitwise Z.land andb); [apply Z.land_spec|done|]. intros. apply Z.land_nonneg. by left.
Qed.
Lemma swap32_not a : in_u 32 a → swap (conv uint32_t (Z.lnot a)) = 2 ^ 32 - 1 - swap a.
Proof.
  intros Ha. assert (∀ x, in_u 32 x → conv uint32_t (Z.lnot x) = 2 ^ 32 - 1 - x) as Hn.
  { intros x Hx. change (conv uint32_t (Z.lnot x)) with (wrapu 32 (Z.lnot x)). unfold Z.lnot, wrapu, in_u in *.
    symmetry. apply Z.mod_unique with (-1); lia. }
  assert (∀ x, in_u 32 x → in_u 32 (2 ^ 32 - 1 - x)) as Hr by (unfold in_u; lia).
  rewrite Hn by done. rewrite swap32_eq by auto. rewrite (swap32_eq a Ha). case_match; [done|].
  apply (bits_ext 32); [done|apply (bswap_range 4)| |].
  { pose proof (bswap_range 4 a). simpl in *. lia. }
  intros i Hi. rewrite (bswap_testbit 4) by (simpl; lia).
  assert (∀ x j, in_u 32 x → 0 ≤ j < 32 → Z.testbit (2 ^ 32 - 1 - x) j = negb (Z.testbit x j)) as Hb.
  { intros x j Hx Hj. rewrite <-Hn by done. change (conv uint32_t (Z.lnot x)) with (wrapu 32 (Z.lnot x)).
    unfold wrapu.
    rewrite Z.mod_pow2_bits_low by lia. apply Z.lnot_spec. lia. }
  rewrite !Hb; [by rewrite (bswap_testbit 4) by (simpl; lia)|apply (bswap_range 4)|done|done|].
  pose proof (Z.mod_pos_bound i 8 ltac:(lia)).
  assert (0 ≤ i / 8 < 4) by (split; [apply Z.div_pos|apply Z.div_lt_upper_bound]; lia). simpl. lia.
Qed.
End ipv4.

(** ** Addresses as numbers *)

(** The 32-bit number of an IPv4 address, in host order. *)
Definition v4_value `{Host} (a : sockaddr_in) : Z := byteswapOnLittleEndian uint32_t (s_addr a).
(** The prefix of [p] ones. *)
Definition prefix_mask (w p : Z) : Z := 2 ^ w - 2 ^ (w - p).

Lemma prefix_mask_testbit w p i :
  0 ≤ p ≤ w → 0 ≤ i → Z.testbit (prefix_mask w p) i = (w - p <=? i) && (i <? w).
Proof.
  intros Hp Hi. unfold prefix_mask.
  replace (2 ^ w - 2 ^ (w - p)) with (Z.shiftl (2 ^ p - 1) (w - p)).
  - rewrite Z.shiftl_spec by done. destruct (Z.leb_spec (w - p) i).
    + rewrite ones_testbit by lia. simpl. destruct (Z.ltb_spec i w), (Z.ltb_spec (i - (w - p)) p); lia.
    + by rewrite Z.testbit_neg_r by lia.
  - rewrite Z.shiftl_mul_pow2, Z.mul_sub_distr_r, <-Z.pow_add_r by lia.
    replace (p + (w - p)) with w by lia. lia.
Qed.
(** Masking with a prefix removes the host bits. *)
Lemma land_prefix_mask w p x :
  0 ≤ p ≤ w → in_u w x → Z.land x (prefix_mask w p) = x - x mod 2 ^ (w - p).
Proof.
  intros Hp Hx. assert (0 ≤ w) by lia. unfold in_u in Hx.
  pose proof (Z.pow_pos_nonneg 2 (w - p) ltac:(lia) ltac:(lia)).
  rewrite (Z.mod_eq x (2 ^ (w - p))) by lia.
  replace (x - (x - 2 ^ (w - p) * (x / 2 ^ (w - p)))) with (Z.shiftl (Z.shiftr x (w - p)) (w - p))
    by (rewrite Z.shiftl_mul_pow2, Z.shiftr_div_pow2 by lia; lia).
  apply Z.bits_inj'. intros i Hi. rewrite Z.land_spec, prefix_mask_testbit, Z.shiftl_spec by lia.
  destruct (Z.leb_spec (w - p) i); simpl.
  - rewrite Z.shiftr_spec by lia. replace (i - (w - p) + (w - p)) with i by lia.
    destruct (Z.ltb_spec i w); [apply andb_true_r|].
    rewrite <-(Z.mod_small x (2 ^ w)), Z.mod_pow2_bits_high by lia. done.
  - by rewrite (Z.testbit_neg_r _ (i - (w - p))), andb_false_r by lia.
Qed.

(** On either host order, for a prefix of 2 to 32 bits: the broadcast address
    has all host bits set and the subnet mask is the prefix of ones, with port and
    family kept; [networkAddress] keeps the host bits, not the network bits: it is
    the address modulo the size of the subnet, which equals the network address
    only when both are zero.  Prefixes 0 and 1 have undefined behaviour, larger
    ones give the null pointer (and undefined behaviour for the mask). *)
Theorem ipv4_masks `{Host} (a : sockaddr_in) (p : Z) (Ha : in_u 32 (s_addr a)) (Hp : 0 ≤ p < 2 ^ 32) :
  if (2 <=? p) && (p <=? 32) then
    ∃ b n m,
      v4_broadcastAddress a p tt = Ok (Some b) tt ∧
      v4_networkAddress a p tt = Ok (Some n) tt ∧
      v4_subnetMask p tt = Ok (Some m) tt ∧
      v4_value b = Z.lor (v4_value a) (2 ^ (32 - p) - 1) ∧
      v4_value m = prefix_mask 32 p ∧
      v4_value n = v4_value a mod 2 ^ (32 - p) ∧
      (v4_value n = Z.land (v4_value a) (v4_value m) ↔ v4_value a = 0) ∧
      Forall (λ x, sin_port x = sin_port a ∧ sin_family x = sin_family a) [b; n]
  else if p <? 2 then
    ∃ u, v4_broadcastAddress a p tt = Undef u ∧ v4_networkAddress a p tt = Undef u ∧ v4_subnetMask p tt = Undef u
  else
    v4_broadcastAddress a p tt = Ok None tt ∧ v4_networkAddress a p tt = Ok None tt ∧
    v4_subnetMask p tt = Undef ShiftRange.
Proof.
  destruct ((2 <=? p) && (p <=? 32)) eqn:Eb.
  - apply andb_true_iff in Eb as [H1 H2]. apply Z.leb_le in H1, H2.
    pose proof (CreateMask_32 p ltac:(lia)) as Hm. set (mask := 2 ^ (32 - p) - 1) in *.
    assert (in_u 32 mask) as Hmask.
    { unfold mask, in_u. pose proof (Z.pow_pos_nonneg 2 (32 - p)).
      pose proof (Z.pow_le_mono_r 2 (32 - p) 32). lia. }
    pose proof (swap32_range mask Hmask) as Hsm.
    unfold v4_broadcastAddress, v4_networkAddress, v4_subnetMask.
    rewrite (proj2 (Z.ltb_ge 32 p)) by lia.
    eexists _, _, _. do 3 (split; [by step_with Hm|]).
    unfold v4_value. cbn [s_addr set_s_addr].
    rewrite swap32_lor, swap32_land, swap32_not, !swap32_involutive by done.
    fold (v4_value a).
    assert (∀ x, Z.land x mask = x mod 2 ^ (32 - p)) as En.
    { intros x. unfold mask. rewrite <-Z.land_ones by lia. by rewrite Z.ones_equiv, Z.sub_1_r. }
    assert (0 ≤ 32 - p) by lia.
    assert (2 ^ 32 - 1 - mask = prefix_mask 32 p) as Em by (unfold prefix_mask, mask; lia).
    split; [done|]. split; [done|]. split; [by rewrite En|]. split; [|by repeat constructor].
    rewrite En, Em.
    pose proof (swap32_range _ Ha : in_u 32 (v4_value a)) as Hv.
    rewrite land_prefix_mask by (done || lia).
    pose proof (Z.mod_pos_bound (v4_value a) (2 ^ (32 - p)) ltac:(by apply Z.pow_pos_nonneg)) as Hb.
    split; [|by intros ->]. intros E.
    set (k := 2 ^ (32 - p)) in *. set (v := v4_value a) in *.
    assert (v = k * (v / k) + v mod k) as Ev by (apply Z.div_mod; lia).
    assert (v / k = 0) by nia. lia.
  - assert (p < 2 ∨ 32 < p) as Hp' by (apply andb_false_iff in Eb as [E|E]; apply Z.leb_gt in E; lia).
    unfold v4_broadcastAddress, v4_networkAddress, v4_subnetMask. destruct Hp' as [Hp'|Hp'].
    + rewrite (proj2 (Z.ltb_lt p 2)), (proj2 (Z.ltb_ge 32 p)) by lia.
      assert (p = 0 ∨ p = 1) as [-> | ->] by lia; eexists; (split; [|split]); reflexivity.
    + rewrite (proj2 (Z.ltb_ge p 2)), (proj2 (Z.ltb_lt 32 p)) by lia. do 2 (split; [done|]).
      apply bind_undef. unfold CreateMask. change (Z.of_nat (sizeof uint32_t) * 8) with 32.
      rewrite (proj2 (Z.leb_le 32 _)); [done|].
      assert (wrapu 64 (32 - p) = 2 ^ 64 + 32 - p) as ->; [|lia].
      symmetry. apply Z.mod_unique with (-1); lia.
Qed.
Lemma ipv4_masks_witness :
  let a := @IPv4Address_new little_host 0xC0A80142 80 in
  ∃ b n m,
    v4_broadcastAddress (H := little_host) a 24 tt = Ok (Some b) tt ∧
    v4_networkAddress (H := little_host) a 24 tt = Ok (Some n) tt ∧
    v4_subnetMask (H := little_host) 24 tt = Ok (Some m) tt ∧
    @v4_value little_host b = 0xC0A801FF ∧ @v4_value little_host m = 0xFFFFFF00 ∧
    @v4_value little_host n = 0x42.
Proof.
  intros a.
  destruct (@ipv4_masks little_host a 24 ltac:(vm_compute; split; congruence) ltac:(lia))
    as (b&n&m&H1&H2&H3&H4&H5&H6&_&_).
  exists b, n, m. rewrite H4, H5, H6. split_and!; [done..|reflexivity|reflexivity|reflexivity].
Defined.

(** ** IPv6 masks *)

(** Bit [8 * (15 - j) + r] of a 16-byte address is bit [r] of byte [j]. *)
Lemma be16_testbit l j r b :
  length l = 16%nat → (j < 16)%nat → 0 ≤ r < 8 → l !! j = Some b →
  Z.testbit (be_value l) (8 * (15 - Z.of_nat j) + r) = Z.testbit (byte.unsigned b) r.
Proof.
  intros Hl Hj Hr Hb. rewrite be_value_testbit by (rewrite Hl; simpl; lia). rewrite Hl.
  assert ((8 * (15 - Z.of_nat j) + r) / 8 = 15 - Z.of_nat j) as ->
    by (symmetry; apply Z.div_unique with r; lia).
  assert ((8 * (15 - Z.of_nat j) + r) mod 8 = r) as ->
    by (symmetry; apply Z.mod_unique with (15 - Z.of_nat j); lia).
  replace (16 - 1 - Z.to_nat (15 - Z.of_nat j))%nat with j by lia. by rewrite Hb.
Qed.
Lemma split16 i : 0 ≤ i < 128 → ∃ j r, (j < 16)%nat ∧ 0 ≤ r < 8 ∧ i = 8 * (15 - Z.of_nat j) + r.
Proof.
  intros Hi. pose proof (Z.div_mod i 8 ltac:(lia)). pose proof (Z.mod_pos_bound i 8 ltac:(lia)).
  exists (15 - Z.to_nat (i / 8))%nat, (i mod 8). lia.
Qed.

Lemma be_value_range l : length l = 16%nat → 0 ≤ be_value l < 2 ^ 128.
Proof. intros Hl. pose proof (le_combine_bound (rev l)) as Hb. by rewrite length_rev, Hl in Hb. Qed.

Lemma update_byte_ok i f l b :
  l !! i = Some b → update_byte i f l tt = Ok (<[i := f b]> l) tt.
Proof. intros Hb. unfold update_byte. by rewrite Hb. Qed.
Lemma update_byte_bad i f l : (length l ≤ i)%nat → update_byte i f l tt = Undef OutOfBounds.
Proof. intros Hb. unfold update_byte. by rewrite lookup_ge_None_2 by lia. Qed.

Lemma fill_ff_lookup n l j :
  (n ≤ length l)%nat → fill_ff n l !! j = if decide (j < n)%nat then l !! j else
    if decide (j < length l)%nat then Some xff else None.
Proof.
  intros Hn. unfold fill_ff. case_decide.
  - rewrite lookup_app_l by (rewrite length_take; lia). by rewrite lookup_take_lt.
  - rewrite lookup_app_r by (rewrite length_take; lia). rewrite length_take, Nat.min_l by lia.
    case_decide; [by rewrite lookup_replicate_2 by lia|]. apply lookup_replicate_None. lia.
Qed.
Lemma length_fill_ff n l : (n ≤ length l)%nat → length (fill_ff n l) = length l.
Proof. intros Hn. unfold fill_ff. rewrite length_app, length_take, length_replicate. lia. Qed.

Lemma subnet_loop_ok bound l b :
  bound < 2 ^ 32 - 1 → l !! 0%nat = Some b →
  subnet_loop 2 0 bound l tt = Ok (if 0 <? bound then <[0%nat := xff]> l else l) tt.
Proof.
  intros Hb Hl. cbn [subnet_loop]. destruct (0 <? bound); [|done].
  rewrite (bind_ok _ _ _ _ _ (update_byte_ok _ _ _ _ Hl)).
  change (wrapu 32 (0 - 1)) with (2 ^ 32 - 1). by rewrite (proj2 (Z.ltb_ge _ _)) by lia.
Qed.

(** The bits of the byte the prefix ends in that belong to the prefix. *)
Definition last_byte_prefix (p i : Z) : bool := (128 - p <=? i) && (i <? 128 - 8 * (p / 8)).

(** A prefix that ends in byte [idx] after [q] bits. *)
Section prefix.
Context (p : Z) (idx : nat) (q : Z) (Hp : p = 8 * Z.of_nat idx + q) (Hq : 0 ≤ q < 8) (Hidx : (idx < 16)%nat).

Lemma prefix_div : p / 8 = Z.of_nat idx.
Proof using Hp Hq Hidx. symmetry. apply Z.div_unique with q; lia. Qed.
Lemma last_byte_at j r :
  (j < 16)%nat → 0 ≤ r < 8 →
  last_byte_prefix p (8 * (15 - Z.of_nat j) + r) = bool_decide (j = idx) && (8 - q <=? r).
Proof using Hp Hq Hidx.
  intros Hj Hr. unfold last_byte_prefix. rewrite prefix_div. case_bool_decide.
  - subst j. simpl. rewrite (proj2 (Z.ltb_lt _ _)), andb_true_r by lia.
    destruct (Z.leb_spec (8 - q) r); [apply Z.leb_le|apply Z.leb_gt]; lia.
  - simpl. apply andb_false_iff. rewrite Z.leb_gt, Z.ltb_ge. lia.
Qed.

Lemma broadcast_bits (l : list byte) b0 :
  length l = 16%nat → l !! idx = Some b0 →
  be_value (fill_ff (idx + 1) (<[idx := byte.of_Z (Z.lor (byte.unsigned b0) (2 ^ (8 - q) - 1))]> l))
  = Z.lor (be_value l) (2 ^ (128 - p) - 1).
Proof using Hp Hq Hidx.
  intros Hl Hb0. set (l' := <[idx := _]> l).
  assert (length l' = 16%nat) as Hl' by (unfold l'; by rewrite length_insert).
  assert (length (fill_ff (idx + 1) l') = 16%nat) as Hf by (rewrite length_fill_ff; lia).
  pose proof (be_value_range l Hl) as Hr1.
  assert (0 ≤ 2 ^ (128 - p) - 1 < 2 ^ 128).
  { pose proof (Z.pow_pos_nonneg 2 (128 - p)). pose proof (Z.pow_le_mono_r 2 (128 - p) 128). lia. }
  apply (bits_ext 128); [done|by apply be_value_range| |].
  { apply (in_u_bitwise Z.lor orb 128); try done; [apply Z.lor_spec|]. intros. by apply Z.lor_nonneg. }
  intros i (j&r&Hj&Hr&->)%split16. rewrite Z.lor_spec, ones_testbit by lia.
  destruct (lookup_lt_is_Some_2 l j ltac:(lia)) as [b Hb]. rewrite (be16_testbit l j r b) by done.
  destruct (decide (j < idx)%nat); [|destruct (decide (j = idx)) as [->|]].
  - rewrite (be16_testbit _ j r b); [|done..|].
    + rewrite (proj2 (Z.ltb_ge _ _)) by lia. by rewrite orb_false_r.
    + rewrite fill_ff_lookup, decide_True by lia. unfold l'. by rewrite list_lookup_insert_ne by lia.
  - assert (b = b0) as -> by congruence.
    erewrite (be16_testbit _ idx r); [|done..|]; last first.
    { rewrite fill_ff_lookup, decide_True by lia. unfold l'. by rewrite list_lookup_insert_eq by lia. }
    rewrite of_Z_testbit, Z.lor_spec, ones_testbit by lia. f_equal.
    destruct (Z.ltb_spec r (8 - q)); symmetry; [apply Z.ltb_lt|apply Z.ltb_ge]; lia.
  - rewrite (be16_testbit _ j r xff); [|done..|].
    + rewrite (proj2 (Z.ltb_lt _ _)) by lia. rewrite orb_true_r. change (byte.unsigned xff) with (2 ^ 8 - 1).
      rewrite ones_testbit by lia. apply Z.ltb_lt. lia.
    + rewrite fill_ff_lookup, decide_False by lia. by rewrite decide_True by lia.
Qed.

Lemma network_bits (l : list byte) b0 i :
  length l = 16%nat → l !! idx = Some b0 → 0 ≤ i < 128 →
  Z.testbit (be_value (<[idx := byte.of_Z (Z.land (byte.unsigned b0) (2 ^ (8 - q) - 1))]> l)) i
  = Z.testbit (be_value l) i && negb (last_byte_prefix p i).
Proof using Hp Hq Hidx.
  intros Hl Hb0 (j&r&Hj&Hr&->)%split16. rewrite last_byte_at by done.
  destruct (lookup_lt_is_Some_2 l j ltac:(lia)) as [b Hb]. rewrite (be16_testbit l j r b) by done.
  case_bool_decide as E.
  - subst j. assert (b = b0) as -> by congruence.
    erewrite (be16_testbit _ idx r); [|by rewrite ?length_insert|done|done|by rewrite list_lookup_insert_eq by lia].
    rewrite of_Z_testbit, Z.land_spec, ones_testbit by lia. f_equal. simpl.
    destruct (Z.ltb_spec r (8 - q)), (Z.leb_spec (8 - q) r); lia || done.
  - rewrite (be16_testbit _ j r b); [|by rewrite ?length_insert|done|done|by rewrite list_lookup_insert_ne by done].
    by rewrite andb_true_r.
Qed.

Lemma subnet_bits i :
  0 ≤ i < 128 →
  let l := <[idx := byte.of_Z (Z.lnot (2 ^ (8 - q) - 1))]> (zeros 16) in
  Z.testbit (be_value (if 0 <? Z.of_nat idx then <[0%nat := xff]> l else l)) i
  = (8 <=? p) && (120 <=? i) || last_byte_prefix p i.
Proof using Hp Hq Hidx.
  intros (j&r&Hj&Hr&->)%split16 l. rewrite last_byte_at by done.
  assert (length l = 16%nat) as Hl by (unfold l; by rewrite length_insert).
  assert (length (if 0 <? Z.of_nat idx then <[0%nat := xff]> l else l) = 16%nat) as Hl'
    by (case_match; by rewrite ?length_insert).
  assert (zeros 16 !! j = Some x00) as Hz by (by apply lookup_replicate_2).
  assert ((8 <=? p) = (0 <? Z.of_nat idx)) as ->
    by (destruct (Z.leb_spec 8 p), (Z.ltb_spec 0 (Z.of_nat idx)); lia || done).
  destruct (decide (j = 0%nat)) as [->|Hj0].
  - rewrite (proj2 (Z.leb_le 120 _)), andb_true_r by lia.
    destruct (Z.ltb_spec 0 (Z.of_nat idx)).
    + erewrite (be16_testbit _ 0 r); [|done..|by rewrite list_lookup_insert_eq by lia].
      change (byte.unsigned xff) with (2 ^ 8 - 1). rewrite ones_testbit by lia. simpl. apply Z.ltb_lt. lia.
    + assert (idx = 0%nat) as E by lia. rewrite E in *. unfold l in *.
      erewrite (be16_testbit _ 0 r); [|done..|by rewrite E, list_lookup_insert_eq by done].
      rewrite of_Z_testbit, Z.lnot_spec, ones_testbit by lia. simpl.
      rewrite ?bool_decide_true by done. simpl. by rewrite Z.leb_antisym.
  - rewrite (proj2 (Z.leb_gt 120 _)), andb_false_r by lia. simpl.
    assert ((if 0 <? Z.of_nat idx then <[0%nat := xff]> l else l) !! j = l !! j) as El
      by (case_match; [by rewrite list_lookup_insert_ne by lia|done]).
    case_bool_decide as E.
    + subst j. erewrite (be16_testbit _ idx r); [|done..|rewrite El; by apply list_lookup_insert_eq].
      rewrite of_Z_testbit, Z.lnot_spec, ones_testbit by lia. simpl. by rewrite Z.leb_antisym.
    + erewrite (be16_testbit _ j r x00); [|done..|].
      * by rewrite Z.testbit_0_l.
      * rewrite El. unfold l. by rewrite list_lookup_insert_ne.
Qed.
End prefix.

(** For a prefix below 128 bits: the broadcast address has all host bits set;
    [networkAddress] only clears the prefix bits of the byte the prefix ends in and
    keeps everything else; [subnetMask] sets the first byte (from 8 bits on) and the
    bits of that last byte, because its loop counts down and stops after one round,
    so it is the prefix of ones only below 16 bits.  From 128 on, all three index the
    address out of bounds. *)
Theorem ipv6_masks (a : sockaddr_in6) (p : Z) (Ha : length (s6_addr a) = 16%nat) (Hp : 0 ≤ p < 2 ^ 32) :
  if p <? 128 then
    ∃ b n m,
      v6_broadcastAddress a p tt = Ok (Some b) tt ∧
      v6_networkAddress a p tt = Ok (Some n) tt ∧
      v6_subnetMask p tt = Ok (Some m) tt ∧
      be_value (s6_addr b) = Z.lor (be_value (s6_addr a)) (2 ^ (128 - p) - 1) ∧
      (∀ i, 0 ≤ i < 128 → Z.testbit (be_value (s6_addr n)) i =
        Z.testbit (be_value (s6_addr a)) i && negb (last_byte_prefix p i)) ∧
      (∀ i, 0 ≤ i < 128 → Z.testbit (be_value (s6_addr m)) i =
        (8 <=? p) && (120 <=? i) || last_byte_prefix p i) ∧
      (p < 16 → be_value (s6_addr m) = prefix_mask 128 p)
  else
    v6_broadcastAddress a p tt = Undef OutOfBounds ∧ v6_networkAddress a p tt = Undef OutOfBounds ∧
    v6_subnetMask p tt = Undef OutOfBounds.
Proof.
  pose proof (Z.mod_pos_bound p 8 ltac:(lia)) as Hm.
  pose proof (CreateMask_8 (p mod 8) ltac:(lia)) as HM.
  pose proof (Z.div_mod p 8 ltac:(lia)) as Hd.
  unfold v6_broadcastAddress, v6_networkAddress, v6_subnetMask.
  destruct (Z.ltb_spec p 128) as [H1|H1]; last first.
  { assert (16 ≤ Z.to_nat (p / 8))%nat by lia.
    split_and!; step_with HM; apply bind_undef, update_byte_bad; rewrite ?Ha; simpl; lia. }
  set (q := p mod 8) in *. set (idx := Z.to_nat (p / 8)). set (mask := 2 ^ (8 - q) - 1) in *.
  assert (idx < 16)%nat as Hidx by lia.
  destruct (lookup_lt_is_Some_2 (s6_addr a) idx ltac:(lia)) as [b0 Hb0].
  assert (zeros 16 !! idx = Some x00) as Hz by (by apply lookup_replicate_2).
  assert (p = 8 * Z.of_nat idx + q) as Hpq by lia.
  assert (∀ i, 0 ≤ i < 128 → _) as Hsub by exact (subnet_bits p idx q Hpq Hm Hidx). cbv zeta in Hsub.
  eexists _, _, _. split; [|split; [|split]].
  1,2: step_with HM; rewrite (bind_ok _ _ _ _ _ (update_byte_ok _ _ _ _ Hb0)); reflexivity.
  { step_with HM. rewrite (bind_ok _ _ _ _ _ (update_byte_ok _ _ _ _ Hz)).
    assert (p / 8 = Z.of_nat idx) as -> by lia.
    destruct (lookup_lt_is_Some_2 (<[idx := byte.of_Z (Z.lnot mask)]> (zeros 16)) 0%nat) as [b1 Hb1];
      [rewrite length_insert; simpl; lia|].
    rewrite (bind_ok _ _ _ _ _ (subnet_loop_ok (Z.of_nat idx) _ _ ltac:(lia) Hb1)). reflexivity. }
  cbn [s6_addr set_s6_addr]. split; [|split; [|split]].
  - by apply broadcast_bits.
  - intros i Hi. by apply (network_bits p idx q).
  - apply Hsub.
  - intros H16. apply (bits_ext 128); [done|apply be_value_range; by case_match; rewrite ?length_insert| |].
    { unfold prefix_mask. pose proof (Z.pow_pos_nonneg 2 (128 - p)).
      pose proof (Z.pow_le_mono_r 2 (128 - p) 128). lia. }
    intros i Hi. rewrite Hsub, prefix_mask_testbit by lia. unfold last_byte_prefix.
    rewrite (prefix_div p idx q) by done.
    destruct (Z.leb_spec 8 p), (Z.leb_spec 120 i), (Z.leb_spec (128 - p) i), (Z.ltb_spec i 128),
      (Z.ltb_spec i (128 - 8 * Z.of_nat idx)); simpl; done || lia.
Qed.
Lemma ipv6_masks_witness :
  let a := IPv6Address_default in
  length (s6_addr a) = 16%nat ∧
  ∃ b m, v6_broadcastAddress a 120 tt = Ok (Some b) tt ∧ be_value (s6_addr b) = 255 ∧
    v6_subnetMask 64 tt = Ok (Some m) tt ∧ Z.testbit (be_value (s6_addr m)) 119 = false ∧
    v6_networkAddress a 128 tt = Undef OutOfBounds.
Proof.
  intros a. split; [reflexivity|].
  destruct (ipv6_masks a 120 eq_refl ltac:(lia)) as (b&_&_&H1&_&_&H2&_).
  destruct (ipv6_masks a 64 eq_refl ltac:(lia)) as (_&_&m&_&_&H3&_&_&H4&_).
  destruct (ipv6_masks a 128 eq_refl ltac:(lia)) as (_&H5&_).
  exists b, m. split; [exact H1|]. split; [rewrite H2; vm_compute; reflexivity|].
  split; [exact H3|]. split; [rewrite H4 by lia; vm_compute; reflexivity|exact H5].
Defined.

(** ** Prefix lengths *)

(** The number of ones. *)
Fixpoint pop (p : positive) : nat :=
  match p with xH => 1 | xO p => pop p | xI p => S (pop p) end.
Definition popcount (z : Z) : nat := match z with Zpos p => pop p | _ => 0%nat end.

Lemma popcount_double z : 0 ≤ z → popcount (2 * z) = popcount z.
Proof. by destruct z. Qed.
Lemma popcount_double_1 z : 0 ≤ z → popcount (2 * z + 1) = S (popcount z).
Proof. by destruct z. Qed.
(** The step of the loop removes exactly one. *)
Lemma popcount_clear z :
  0 < z → popcount z = S (popcount (Z.land z (z - 1))) ∧ 0 ≤ Z.land z (z - 1) < z.
Proof.
  destruct z as [|p|]; [lia| |lia]. intros _. induction p as [p _|p IH|].
  - assert (Z.land (Z.pos p~1) (Z.pos p~1 - 1) = Z.pos p~0) as ->; [|simpl; lia].
    apply Z.bits_inj'. intros i Hi. rewrite Z.land_spec. replace (Z.pos p~1 - 1) with (2 * Z.pos p) by lia.
    change (Z.pos p~1) with (2 * Z.pos p + 1). change (Z.pos p~0) with (2 * Z.pos p).
    destruct (decide (i = 0)) as [->|]; [by rewrite Z.testbit_even_0, andb_false_r|].
    replace i with (Z.succ (Z.pred i)) by lia.
    rewrite Z.testbit_odd_succ, Z.testbit_even_succ by lia. apply andb_diag.
  - assert (Z.land (Z.pos p~0) (Z.pos p~0 - 1) = 2 * Z.land (Z.pos p) (Z.pos p - 1)) as ->.
    { apply Z.bits_inj'. intros i Hi. rewrite Z.land_spec.
      replace (Z.pos p~0 - 1) with (2 * (Z.pos p - 1) + 1) by lia. change (Z.pos p~0) with (2 * Z.pos p).
      destruct (decide (i = 0)) as [->|]; [by rewrite !Z.testbit_even_0|].
      replace i with (Z.succ (Z.pred i)) by lia.
      by rewrite Z.testbit_odd_succ, !Z.testbit_even_succ, Z.land_spec by lia. }
    destruct IH as [IH1 IH2]. rewrite popcount_double by lia. split; [exact IH1|lia].
  - done.
Qed.
Lemma popcount_le n z : 0 ≤ z < 2 ^ Z.of_nat n → (popcount z ≤ n)%nat.
Proof.
  revert z. induction n as [|n IH]; intros z Hz.
  { simpl in Hz. assert (z = 0) as -> by lia. done. }
  rewrite Nat2Z.inj_succ, Z.pow_succ_r in Hz by lia.
  pose proof (Z.div_mod z 2 ltac:(lia)) as E. pose proof (Z.mod_pos_bound z 2 ltac:(lia)).
  specialize (IH (z / 2) ltac:(lia)).
  assert (z mod 2 = 0 ∨ z mod 2 = 1) as [Hm|Hm] by lia; rewrite Hm in E; rewrite E.
  - rewrite Z.add_0_r, popcount_double; lia.
  - rewrite popcount_double_1; lia.
Qed.

Lemma CountBytes_loop_ok T fuel value result :
  signed T = false → (0 < sizeof T)%nat → in_range T value → (popcount value ≤ fuel)%nat →
  0 ≤ result → result + Z.of_nat fuel < 2 ^ 32 →
  CountBytes_loop fuel T value result tt = Ok (result + Z.of_nat (popcount value)) tt.
Proof.
  intros Hs Hz. revert value result. induction fuel as [|fuel IH]; intros value result Hv Hf Hr Hb;
    unfold in_range in Hv; rewrite Hs in Hv; unfold in_u in Hv;
    cbn [CountBytes_loop]; destruct (Z.eqb_spec value 0) as [->|Hne]; try (unfold mret, M_ret; f_equal; simpl; lia);
    destruct (popcount_clear value ltac:(lia)) as [H1 H2]; [lia|].
  assert (in_range T (Z.land value (value - 1))) as Hv' by (unfold in_range; rewrite Hs; unfold in_u; lia).
  rewrite conv_id by done. rewrite (wrapu_small 32) by (unfold in_u; lia).
  rewrite IH by (done || lia). f_equal. lia.
Qed.
Lemma CountBytes_ok T value :
  signed T = false → (0 < sizeof T ≤ 8)%nat → in_range T value →
  CountBytes T value tt = Ok (Z.of_nat (popcount value)) tt.
Proof.
  intros Hs Hz Hv. unfold CountBytes. rewrite (CountBytes_loop_ok T); [done|done|lia|done| |lia|lia].
  apply popcount_le. unfold in_range in Hv. rewrite Hs in Hv. unfold in_u, bits in Hv.
  replace (Z.of_nat (8 * sizeof T)) with (Z.of_nat (sizeof T) * 8) by lia. done.
Qed.

(** The ones in the bytes of an IPv6 mask. *)
Definition ones6 (l : list byte) : Z := foldr (λ b n, Z.of_nat (popcount (byte.unsigned b)) + n) 0 l.

Lemma ones6_nonneg l : 0 ≤ ones6 l.
Proof. induction l; simpl; lia. Qed.
Lemma add_counts_ok z l : add_counts (wrapu 32 z) l tt = Ok (wrapu 32 (z + ones6 l)) tt.
Proof.
  revert z. induction l as [|b l IH]; intros z; simpl.
  { rewrite Z.add_0_r. done. }
  step_with (CountBytes_ok uint8_t (byte.unsigned b) eq_refl ltac:(simpl; lia) (byte.unsigned_range b)).
  set (n := Z.of_nat (popcount (byte.unsigned b))).
  assert (wrapu 32 (wrapu 32 z + n) = wrapu 32 (z + n)) as ->
    by (unfold wrapu; by rewrite Z.add_mod_idemp_l).
  rewrite IH. do 2 f_equal. lia.
Qed.

(** The prefix length reported for an IPv4 interface is the number of ones of
    its netmask; for an IPv6 interface it is one less (modulo 2^32), because the
    sum starts from [~0u] instead of zero. *)
Theorem interface_prefix_length (name : string) :
  (∀ a m, in_u 32 (s_addr m) →
    interface_prefix (mk_ifaddr name (Some (SockIn a)) (Some (SockIn m))) tt
    = Ok (Some (IPv4Address a, Z.of_nat (popcount (s_addr m)))) tt) ∧
  (∀ a m, interface_prefix (mk_ifaddr name (Some (SockIn6 a)) (Some (SockIn6 m))) tt
    = Ok (Some (IPv6Address a, wrapu 32 (ones6 (s6_addr m) - 1))) tt).
Proof.
  split.
  - intros a m Hm. unfold interface_prefix. cbn [ifa_addr ifa_netmask].
    rewrite (bind_ok _ _ tt (SockIn m) tt), (bind_ret (s_addr m)) by done.
    by step_with (CountBytes_ok uint32_t (s_addr m) eq_refl ltac:(simpl; lia) Hm).
  - intros a m. unfold interface_prefix. cbn [ifa_addr ifa_netmask].
    rewrite (bind_ok _ _ tt (SockIn6 m) tt), (bind_ret (s6_addr m)) by done.
    assert (add_counts (2 ^ 32 - 1) (s6_addr m) tt = Ok (wrapu 32 (-1 + ones6 (s6_addr m))) tt) as E
      by apply (add_counts_ok (-1)).
    step_with E. do 4 f_equal. lia.
Qed.

(** ** Text *)

(** Readers of the text forms: dotted decimals, and groups of hexadecimal
    digits with at most one gap. *)
Definition read_v4 (s : string) : option Z :=
  '(a, s) ← cut "." s; '(b, s) ← cut "." s; '(c, d) ← cut "." s;
  a ← read_dec a; b ← read_dec b; c ← read_dec c; d ← read_dec d;
  Some (a * 2 ^ 24 + b * 2 ^ 16 + c * 2 ^ 8 + d).
Definition read_hex (s : string) : option Z :=
  d ← NilZero.uint_of_string s; Some (Z.of_N (N.of_hex_uint d)).
Fixpoint split_colon (s : string) : list string :=
  match s with
  | EmptyString => [""]
  | String c s =>
      if Ascii.eqb c ":" then "" :: split_colon s
      else match split_colon s with t :: ts => String c t :: ts | [] => [] end
  end%stdpp.
Fixpoint split_gap (ts : list string) : list string * option (list string) :=
  match ts with
  | [] => ([], None)
  | t :: ts => if bool_decide (t = "") then ([], Some ts) else let '(l, r) := split_gap ts in (t :: l, r)
  end.
Definition read_v6 (s : string) : option (list Z) :=
  match split_gap (split_colon s) with
  | (l, None) => mapM read_hex l
  | (l, Some r) =>
      l ← mapM read_hex l; r ← mapM read_hex (filter (λ t, t ≠ "") r);
      Some (l ++ replicate (8 - length l - length r) 0 ++ r)
  end.

Definition is_hex_digit (c : ascii) : bool :=
  let n := N_of_ascii c in (((48 <=? n) && (n <=? 57)) || ((97 <=? n) && (n <=? 102)))%N.
Lemma show_hex_digits n : every is_hex_digit (show_hex n) = true.
Proof.
  assert (∀ d, every is_hex_digit (NilEmpty.string_of_uint d) = true) as Hd by (induction d; simpl; auto).
  unfold show_hex, NilZero.string_of_uint. destruct (N.to_hex_uint _) eqn:E; [done|..]; rewrite <-E; apply Hd.
Qed.
Lemma show_hex_not_char c n : is_hex_digit c = false → every (not_char c) (show_hex n) = true.
Proof.
  intros Hc. eapply every_impl, show_hex_digits. intros x Hx. unfold not_char.
  destruct (Ascii.eqb_spec x c) as [->|]; [|done]. by rewrite Hx in Hc.
Qed.
Lemma show_hex_nonempty n : show_hex n ≠ "".
Proof. unfold show_hex, NilZero.string_of_uint. by destruct (N.to_hex_uint (Z.to_N n)). Qed.
Lemma read_hex_show n : 0 ≤ n → read_hex (show_hex n) = Some n.
Proof.
  intros Hn. unfold read_hex, show_hex. rewrite NilZero.usu.
  - simpl. rewrite HexadecimalN.Unsigned.of_to. f_equal. lia.
  - destruct (Z.to_N n); [done|]. apply HexadecimalPos.Unsigned.to_uint_nonnil.
Qed.

(** *** Tokens *)

Fixpoint join (ts : list string) : string :=
  match ts with [] => "" | [t] => t | t :: ts => t +:+ ":" +:+ join ts end%stdpp.
Definition token (t : string) : Prop := every (not_char ":") t = true ∧ t ≠ "".

Lemma split_colon_app t s :
  every (not_char ":") t = true → split_colon (t +:+ ":" +:+ s) = t :: split_colon s.
Proof.
  induction t as [|c t IH]; [done|]. rewrite app_cons_s. simpl. intros [Hc Ht]%andb_true_iff.
  unfold not_char in Hc. destruct (Ascii.eqb c ":"); [done|]. by rewrite IH.
Qed.
Lemma split_colon_token t : every (not_char ":") t = true → split_colon t = [t].
Proof.
  induction t as [|c t IH]; [done|]. simpl. intros [Hc Ht]%andb_true_iff.
  unfold not_char in Hc. destruct (Ascii.eqb c ":"); [done|]. by rewrite IH.
Qed.
Lemma split_join t ts : Forall token (t :: ts) → split_colon (join (t :: ts)) = t :: ts.
Proof.
  revert t. induction ts as [|t' ts IH]; intros t [Ht Hts]%Forall_cons.
  - by apply split_colon_token, Ht.
  - change (join (t :: t' :: ts)) with (t +:+ ":" +:+ join (t' :: ts)).
    rewrite split_colon_app by apply Ht. by rewrite IH.
Qed.
Lemma split_gap_tokens ts : Forall token ts → split_gap ts = (ts, None).
Proof.
  induction 1 as [|t ts Ht _ IH]; [done|]. simpl. rewrite bool_decide_false by apply Ht. by rewrite IH.
Qed.
Lemma filter_tokens ts : Forall token ts → filter (λ t, t ≠ ""%stdpp) ts = ts.
Proof. intros Ht. apply filter_all_elem. rewrite Forall_forall in Ht. intros t H. by apply Ht. Qed.

(** The tokens of two sides of a gap. *)
Lemma split_two_sides a b :
  Forall token a → Forall token b →
  ∃ r, split_gap (split_colon (join a +:+ "::" +:+ join b)) = (a, Some r) ∧ filter (λ t, t ≠ ""%stdpp) r = b.
Proof.
  intros Ha Hb. assert (∃ r, split_colon (join b) = r ∧ filter (λ t, t ≠ ""%stdpp) r = b) as (r&Er&Hr).
  { destruct b as [|t b]; [by exists [""%stdpp]|]. exists (t :: b). split; [by apply split_join|by apply filter_tokens]. }
  assert (∀ s, split_colon (":" +:+ s) = ""%stdpp :: split_colon s) as Hc by done.
  destruct a as [|t a].
  { exists (""%stdpp :: r). split; [|done]. change (join [] +:+ "::" +:+ join b) with (":" +:+ (":" +:+ join b)).
    by rewrite !Hc, Er. }
  exists r. split; [|done]. revert t Ha. induction a as [|t' a IH]; intros t [Ht Ha]%Forall_cons.
  - change (join [t] +:+ "::" +:+ join b) with (t +:+ ":" +:+ (":" +:+ join b)).
    rewrite split_colon_app, Hc, Er by apply Ht. simpl. by rewrite bool_decide_false by apply Ht.
  - change (join (t :: t' :: a)) with (t +:+ ":" +:+ join (t' :: a)).
    rewrite !app_assoc_s, split_colon_app by apply Ht. cbn [split_gap]. rewrite bool_decide_false by apply Ht.
    by rewrite IH.
Qed.

(** *** The printed groups *)

Lemma hex_tokens gs : Forall token (show_hex <$> gs).
Proof.
  apply Forall_fmap, Forall_forall. intros g _.
  split; [by apply show_hex_not_char|apply show_hex_nonempty].
Qed.

Definition tail_text (gs : list Z) : string := foldr (λ g s, ":" +:+ show_hex g +:+ s) "" gs.
Lemma join_tail g gs : join (show_hex <$> g :: gs) = show_hex g +:+ tail_text gs.
Proof.
  revert g. induction gs as [|g' gs IH]; intros g; [by rewrite app_nil_s|].
  change (join (show_hex <$> g :: g' :: gs)) with (show_hex g +:+ ":" +:+ join (show_hex <$> g' :: gs)).
  by rewrite IH.
Qed.

Lemma insert_used p gs : insert_groups (Some p) true gs = (tail_text gs, true).
Proof.
  revert p. induction gs as [|g gs IH]; intros p; [done|]. cbn [insert_groups].
  rewrite andb_false_r, andb_false_r. simpl. by rewrite IH.
Qed.
Lemma insert_zeros p k gs :
  p = Some 0 ∨ (0 < k)%nat → head gs ≠ Some 0 →
  insert_groups p false (replicate k 0 ++ gs) =
    if decide (gs = []) then (""%stdpp, false) else ("::" +:+ join (show_hex <$> gs), true).
Proof.
  revert p. induction k as [|k IH]; intros p Hp Hg.
  - destruct Hp as [->|]; [|lia]. destruct gs as [|g gs]; [done|].
    rewrite decide_False, join_tail by done. cbn [insert_groups replicate app]. simpl in Hg.
    destruct (Z.eqb_spec g 0) as [->|]; [done|]. simpl. rewrite ?bool_decide_true by done. simpl.
    by rewrite insert_used.
  - cbn [replicate app insert_groups]. simpl. apply IH; [by left|done].
Qed.
Lemma insert_nonzero p a gs :
  p ≠ Some 0 → Forall (λ g, g ≠ 0) a →
  insert_groups p false (a ++ gs) =
    let '(s, u) := insert_groups (if a is [] then p else last a) false gs in
    ((if a is g :: a' then (if p is Some _ then ":" else "") +:+ show_hex g +:+ tail_text a' else "") +:+ s, u).
Proof.
  revert p. induction a as [|g a IH]; intros p Hp Ha.
  { simpl. by destruct (insert_groups p false gs). }
  apply Forall_cons in Ha as [Hg Ha]. cbn [app insert_groups].
  rewrite (proj2 (Z.eqb_neq g 0)) by done. simpl. rewrite bool_decide_false by done. simpl.
  rewrite IH by (try done; congruence).
  assert ((if a is [] then Some g else last a) = last (g :: a)) as -> by (by destruct a).
  destruct (insert_groups _ false gs) as [s u]. f_equal. destruct a as [|g' a].
  - simpl. by rewrite !app_assoc_s.
  - simpl. by rewrite !app_assoc_s.
Qed.

(** Groups up to the first zero run, the run, and the rest. *)
Lemma split_groups (gs : list Z) :
  ∃ a k b, gs = a ++ replicate k 0 ++ b ∧ Forall (λ g, g ≠ 0) a ∧ head b ≠ Some 0 ∧ (k = 0%nat → b = []).
Proof.
  assert (∀ gs, ∃ k b, gs = replicate k 0 ++ b ∧ head b ≠ Some 0) as Hz.
  { intros l. induction l as [|g l (k&b&->&Hb)]; [by exists 0%nat, []|].
    destruct (decide (g = 0)) as [->|]; [by exists (S k), b|].
    exists 0%nat, (g :: replicate k 0 ++ b). split; [done|]. simpl. congruence. }
  induction gs as [|g gs (a&k&b&->&Ha&Hb&Hk)]; [by exists [], 0%nat, []|].
  destruct (decide (g = 0)) as [->|Hg].
  - destruct (Hz (a ++ replicate k 0 ++ b)) as (k'&b'&->&Hb').
    exists [], (S k'), b'. done.
  - exists (g :: a), k, b. split; [done|]. split; [by constructor|done].
Qed.

Section text.
Context {H : Host}.

Lemma v6_text_eq l :
  ∃ a k b, groups l = a ++ replicate k 0 ++ b ∧ (k = 0%nat → b = []) ∧
    v6_text l = if decide (k = 0%nat) then join (show_hex <$> a)
                else join (show_hex <$> a) +:+ "::" +:+ join (show_hex <$> b).
Proof.
  destruct (split_groups (groups l)) as (a&k&b&E&Ha&Hb&Hk). exists a, k, b. do 2 (split; [done|]).
  assert (last (groups l) = Some (group l 7)) as Hlast by done.
  unfold v6_text. rewrite E, insert_nonzero by done.
  assert ((if a is g :: a' then "" +:+ show_hex g +:+ tail_text a' else "") = join (show_hex <$> a))%stdpp as Ea
    by (destruct a; [done|by rewrite join_tail]).
  destruct (decide (k = 0%nat)) as [->|Hk0].
  - rewrite (Hk eq_refl) in *. cbn [replicate app]. simpl insert_groups. cbv beta iota.
    rewrite app_nil_r in E. rewrite app_nil_s. rewrite E in Hlast.
    assert (group l 7 ≠ 0) as Hn.
    { rewrite Forall_forall in Ha. apply Ha. by apply last_Some_elem_of. }
    rewrite (proj2 (Z.eqb_neq _ 0)) by done. rewrite andb_false_r. rewrite app_nil_s. exact Ea.
  - rewrite insert_zeros by (auto with lia). case_decide as Eb.
    + subst b. cbv beta iota. rewrite app_nil_r in E. rewrite E in Hlast.
      assert (group l 7 = 0) as ->.
      { destruct k as [|k]; [done|]. rewrite replicate_S_end, app_assoc, last_snoc in Hlast. congruence. }
      simpl negb. cbn [andb]. rewrite app_nil_s. change (0 =? 0) with true. cbv beta iota.
      change (join (show_hex <$> [])) with ""%stdpp. rewrite Ea. by rewrite app_nil_s.
    + cbv beta iota. cbn [negb andb]. rewrite app_nil_s, Ea. done.
Qed.

Lemma group_range l i : 0 ≤ group l i < 2 ^ 16.
Proof.
  unfold group, byteswapOnLittleEndian. case_match; [apply (conv_in_range uint16_t); simpl; lia|].
  apply (conv_in_range uint16_t). simpl. lia.
Qed.

Lemma read_hex_tokens gs : Forall (λ g, 0 ≤ g) gs → mapM read_hex (show_hex <$> gs) = Some gs.
Proof.
  intros Hg. apply mapM_Some_2, Forall2_fmap_l, Forall_Forall2_diag.
  eapply Forall_impl; [exact Hg|]. intros g. apply read_hex_show.
Qed.

(** The text of an IPv6 address denotes its groups. *)
Lemma read_v6_text l : read_v6 (v6_text l) = Some (groups l).
Proof.
  destruct (v6_text_eq l) as (a&k&b&E&Hb&->).
  assert (Forall (λ g, 0 ≤ g) (groups l)) as Hg.
  { apply Forall_fmap, Forall_forall. intros i _. apply group_range. }
  assert (length (groups l) = 8%nat) as Hl by done.
  rewrite E in Hg, Hl. rewrite !length_app, length_replicate in Hl.
  apply Forall_app in Hg as [Hga [_ Hgb]%Forall_app].
  unfold read_v6. case_decide as Hk.
  - subst k. rewrite Hb in * by done. cbn [replicate app] in *. rewrite app_nil_r in E.
    destruct a as [|g a]; [done|].
    rewrite fmap_cons, split_join by (rewrite <-fmap_cons; apply hex_tokens). rewrite <-fmap_cons.
    rewrite split_gap_tokens by apply hex_tokens. by rewrite read_hex_tokens, E.
  - destruct (split_two_sides _ _ (hex_tokens a) (hex_tokens b)) as (r&->&Hr).
    rewrite Hr, !read_hex_tokens by done. simpl. rewrite E. by replace (8 - length a - length b)%nat with k by lia.
Qed.
Lemma byte_of_word v k : 0 ≤ k → Z.land (Z.shiftr v k) 0xff = v / 2 ^ k mod 2 ^ 8.
Proof. intros Hk. change 0xff with (Z.ones 8). by rewrite Z.land_ones, Z.shiftr_div_pow2 by lia. Qed.

Lemma read_v4_dotted a : in_u 32 (s_addr a) → read_v4 (v4_dotted a) = Some (v4_value a).
Proof.
  intros Ha. pose proof (swap32_range _ Ha : in_u 32 (v4_value a)) as Hv.
  unfold v4_dotted. fold (v4_value a). set (v := v4_value a) in *.
  rewrite <-(Z.shiftr_0_r v) at 4. rewrite !byte_of_word by lia.
  assert (∀ k, 0 ≤ v / 2 ^ k mod 2 ^ 8) as Hb by (intros; apply Z.mod_pos_bound; lia).
  unfold read_v4.
  do 3 (rewrite cut_sep by (by apply show_not_char); cbn [mbind option_bind]).
  rewrite !read_dec_show by done. simpl. f_equal. unfold in_u in Hv.
  rewrite Z.div_1_r. change (2 ^ 24) with 16777216. change (2 ^ 16) with 65536. change (2 ^ 8) with 256.
  pose proof (Z.div_lt_upper_bound v 16777216 256). Z.to_euclidean_division_equations. lia.
Qed.

Lemma not_char_hex c : is_hex_digit c = false → Ascii.eqb ":" c = false →
  ∀ l, every (not_char c) (v6_text l) = true.
Proof.
  intros Hc Hc2 l.
  assert (∀ gs, every (not_char c) (join (show_hex <$> gs)) = true) as Hj.
  { intros gs. destruct gs as [|g gs]; [done|]. rewrite join_tail, every_app, show_hex_not_char by done. simpl.
    induction gs as [|g' gs IH]; [done|]. simpl. rewrite !every_app, show_hex_not_char, IH by done. simpl.
    unfold not_char. by rewrite Hc2. }
  destruct (v6_text_eq l) as (a&k&b&_&_&->). case_decide; [done|].
  rewrite !every_app, !Hj. simpl. unfold not_char. by rewrite Hc2.
Qed.

Lemma v6_text_nonempty l : v6_text l ≠ "".
Proof.
  destruct (v6_text_eq l) as (a&k&b&E&Hk&->). case_decide as Hk0; [|by destruct (join _)].
  subst k. rewrite Hk in E by done. destruct a as [|g a]; [done|]. rewrite join_tail.
  pose proof (show_hex_nonempty g). by destruct (show_hex g).
Qed.
End text.

(** C28: the text of an address reads back, on either host order.  [Lookup]
    splits the text of an IPv4 or IPv6 address with port into a node and a service
    which is the port in decimal; the dotted node denotes the 32-bit number, the
    bracketed node (with its first run of zero groups as "::") denotes
    the eight groups.  But an IPv6 text without brackets, or any text with two
    colons, is given a service that starts with a colon. *)
Theorem address_text `{Host} :
  (∀ a, in_u 32 (s_addr a) → ∃ node,
    split_host (toString (IPv4Address a)) = (node, Some (show (getPort (IPv4Address a)))) ∧
    read_v4 node = Some (v4_value a)) ∧
  (∀ a, length (s6_addr a) = 16%nat → ∃ node,
    split_host (toString (IPv6Address a)) = (node, Some (show (getPort (IPv6Address a)))) ∧
    read_v6 node = Some (groups (s6_addr a))) ∧
  (∀ x y z, every (not_char ":") (x +:+ y) = true → head (string_bytes (x +:+ ":")) ≠ Some "["%byte →
    split_host (x +:+ ":" +:+ y +:+ ":" +:+ z) =
      (x +:+ ":" +:+ y +:+ ":" +:+ z, Some (c_str (":" +:+ y +:+ ":" +:+ z)))).
Proof.
  split; [|split].
  - intros a Ha. exists (v4_dotted a). split; [|by apply read_v4_dotted].
    simpl toString. unfold v4_insert, split_host. set (port := show _).
    assert (every (not_char ":") (v4_dotted a) = true) as Hd
      by (unfold v4_dotted; by rewrite !every_app, !(show_not_char ":")).
    assert (∃ c s, v4_dotted a = String c s ∧ is_digit c = true) as (c&s&Ec&Hc).
    { unfold v4_dotted. set (n := Z.land _ _). pose proof (show_nonempty n). pose proof (show_digits n) as Hn.
      destruct (show n) as [|c s]; [done|]. simpl in Hn. apply andb_true_iff in Hn as [Hn _]. by eexists c, _. }
    assert (cut ":" (v4_dotted a +:+ ":" +:+ port) = Some (v4_dotted a, port)) as Hcut by by apply cut_sep.
    rewrite Hcut, (cut_none ":" port), (c_str_id port) by (by apply show_not_char).
    rewrite Ec in *. rewrite app_cons_s.
    destruct (decide (c = "["%char)) as [->|Hn]; [done|].
    destruct c as [[] [] [] [] [] [] [] []]; done.
  - intros a Ha. exists (v6_text (s6_addr a)). split; [|apply read_v6_text].
    simpl toString. unfold v6_insert, split_host. set (port := show _). set (t := v6_text _).
    change ("[" +:+ t +:+ "]:" +:+ port) with (String "[" (t +:+ String "]" "" +:+ (String ":" port))).
    cbv beta iota. rewrite cut_sep by (by apply not_char_hex).
    rewrite (c_str_id port) by (by apply show_not_char).
    rewrite bool_decide_false by apply v6_text_nonempty.
    cbv beta iota. by rewrite bool_decide_false by apply v6_text_nonempty.
  - intros x y z Hxy Hx. rewrite every_app in Hxy. apply andb_true_iff in Hxy as [Hx1 Hy].
    unfold split_host.
    rewrite (cut_sep ":" x) by done. rewrite (cut_sep ":" y) by done.
    destruct x as [|c x]; [done|]. rewrite app_cons_s.
    assert (c ≠ "["%char) as Hc by (intros ->; apply Hx; reflexivity).
    destruct c as [[] [] [] [] [] [] [] []]; done.
Qed.
Lemma address_text_witness :
  let a := @IPv4Address_new little_host 0x7f000001 8080 in
  in_u 32 (s_addr a) ∧
  ∃ node, split_host (@toString little_host (IPv4Address a)) = (node, Some "8080") ∧
    read_v4 node = Some 0x7f000001 ∧
    split_host "fe80::1" = ("fe80::1", Some "::1").
Proof.
  intros a. assert (in_u 32 (s_addr a)) as Ha by (vm_compute; split; congruence). split; [done|].
  destruct (proj1 (@address_text little_host) a Ha) as (node&H1&H2). exists node.
  split; [rewrite H1; vm_compute; reflexivity|]. split; [rewrite H2; vm_compute; reflexivity|].
  apply (proj2 (proj2 (@address_text little_host)) "fe80"%stdpp ""%stdpp "1"%stdpp); vm_compute; congruence.
Defined.
