(* ===== verification/Socket.v ===== *)
(** [Socket] ([sylar/socket.h], [socket.cc]): a descriptor with the addresses of
    its ends, over the hooked system calls.

    An operation runs on the object and the [Process]; what [getsockname] and
    [getpeername] write into an address is the class [Names].  The transfers are
    modelled by their results; the bytes they move are the subject of Stream.v. *)
From S2P Require Import Prelude Text Endian Address FdManager Hook.
From Stdlib Require Import Strings.Byte.
From stdpp Require Import gmap.

Local Open Scope string_scope.
Local Open Scope Z_scope.

(** [Socket::Type] and constants of the system headers *)
Definition TCP : Z := 1.
Definition UDP : Z := 2.
Definition SO_REUSEADDR : Z := 2.
Definition IPPROTO_TCP : Z := 6.
Definition TCP_NODELAY : Z := 1.

Record Socket := mkSocket {
  m_sock : Z;
  m_family : Z;
  m_type : Z;
  m_protocol : Z;
  m_isConnected : bool;
  m_localAddress : option Address;
  m_remoteAddress : option Address;
}.
Definition set_sock (v : Z) (s : Socket) : Socket :=
  mkSocket v (m_family s) (m_type s) (m_protocol s) (m_isConnected s) (m_localAddress s) (m_remoteAddress s).
Definition set_connected (v : bool) (s : Socket) : Socket :=
  mkSocket (m_sock s) (m_family s) (m_type s) (m_protocol s) v (m_localAddress s) (m_remoteAddress s).
Definition set_local (v : Address) (s : Socket) : Socket :=
  mkSocket (m_sock s) (m_family s) (m_type s) (m_protocol s) (m_isConnected s) (Some v) (m_remoteAddress s).
Definition set_remote (v : Address) (s : Socket) : Socket :=
  mkSocket (m_sock s) (m_family s) (m_type s) (m_protocol s) (m_isConnected s) (m_localAddress s) (Some v).

(** [Socket::Socket] *)
Definition Socket_new (family type protocol : Z) : Socket := mkSocket (-1) family type protocol false None None.
Definition CreateTCP (address : Address) : Socket := Socket_new (getFamily address) TCP 0.
Definition CreateUDP (address : Address) : Socket := Socket_new (getFamily address) UDP 0.
Definition CreateTCPSocket : Socket := Socket_new AF_INET TCP 0.
Definition CreateUDPSocket : Socket := Socket_new AF_INET UDP 0.
Definition CreateTCPSocket6 : Socket := Socket_new AF_INET6 TCP 0.
Definition CreateUDPSocket6 : Socket := Socket_new AF_INET6 UDP 0.
Definition CreateUnixTCPSocket : Socket := Socket_new AF_UNIX TCP 0.
Definition CreateUnixUDPSocket : Socket := Socket_new AF_UNIX UDP 0.
Definition isValid (s : Socket) : bool := negb (m_sock s =? -1).

(** What the [k]-th call writes into the socket structure of each kind; for a
    Unix address with the length. *)
Class Names := {
  name_in : nat → sockaddr_in;
  name_in6 : nat → sockaddr_in6;
  name_un : nat → list byte * Z;
  name_other : nat → Z * list byte;
}.

(** The object and the process an operation works on. *)
Record scope := mk_scope { self : Socket; proc : Process }.
Definition in_proc {A} (m : M Process A) : M scope A := λ s,
  match m (proc s) with
  | Ok a p => Ok a (mk_scope (self s) p)
  | Throw e p => Throw e (mk_scope (self s) p)
  | Abort => Abort
  | Undef u => Undef u
  end.
Definition update (f : Socket → Socket) : M scope unit := modify (λ s, mk_scope (f (self s)) (proc s)).
Definition fd_of : M scope Z := gets (λ s, m_sock (self s)).

Section socket.
Context `{Host, Kernel, Names} (t_hook_enable iom : bool) (s_connect_timeout : Z).

(** The object the address of the ends is read into. *)
Definition empty_address (family : Z) : Address :=
  if family =? AF_INET then IPv4Address (IPv4Address_new 0 0)
  else if family =? AF_INET6 then IPv6Address IPv6Address_default
  else if family =? AF_UNIX then UnixAddress_default
  else UnknownAddress family (zeros 14).

(** The address a successful call [k] leaves. *)
Definition named_address (k : nat) (family : Z) : Address :=
  match empty_address family with
  | IPv4Address _ => IPv4Address (name_in k)
  | IPv6Address _ => IPv6Address (name_in6 k)
  | UnixAddress _ _ => setAddrLen (name_un k).2 (UnixAddress (name_un k).1 0)
  | UnknownAddress _ _ => UnknownAddress (name_other k).1 (name_other k).2
  end.
(** [Socket::getRemoteAddress] *)
Definition getRemoteAddress : M scope Address :=
  s ← gets self;
  match m_remoteAddress s with
  | Some a => mret a
  | None =>
      k ← gets (λ s, clock (proc s));
      rt ← in_proc (sys (sys_io "getpeername" (m_sock s)));
      if negb (rt =? 0) then mret (UnknownAddress (m_family s) (zeros 14))
      else
        let a := named_address k (m_family s) in
        update (set_remote a);; mret a
  end.
(** [Socket::getLocalAddress] *)
Definition getLocalAddress : M scope Address :=
  s ← gets self;
  match m_localAddress s with
  | Some a => mret a
  | None =>
      k ← gets (λ s, clock (proc s));
      rt ← in_proc (sys (sys_io "getsockname" (m_sock s)));
      if negb (rt =? 0) then mret (UnknownAddress (m_family s) (zeros 14))
      else
        let a := named_address k (m_family s) in
        update (set_local a);; mret a
  end.

(** [Socket::getOption]: the answer of the call, which is the option or -1. *)
Definition getOption (level option_ : Z) : M scope (option Z) :=
  fd ← fd_of;
  rt ← in_proc (Hook.getsockopt fd level option_);
  mret (if rt =? -1 then None else Some rt).
(** [Socket::setOption]; [tv_sec] and [tv_usec] are read when the value is a
    [timeval]. *)
Definition setOption (level option_ tv_sec tv_usec : Z) : M scope bool :=
  fd ← fd_of;
  rt ← in_proc (Hook.setsockopt t_hook_enable fd level option_ tv_sec tv_usec);
  mret (rt =? 0).
(** [Socket::getError] *)
Definition getError : M scope Z :=
  e ← getOption SOL_SOCKET SO_ERROR; mret (default (-1) e).

(** [Socket::getSendTimeout], [getRecvTimeout] *)
Definition timeout_of (type : Z) : M scope Z :=
  fd ← fd_of;
  ctx ← in_proc (FdManager.get fd false 0);
  match ctx with
  | None => mret (-1)
  | Some a => c ← in_proc (ctx_at a); mret (wraps 64 (FdManager.getTimeout type c))
  end.
Definition getSendTimeout : M scope Z := timeout_of SO_SNDTIMEO.
Definition getRecvTimeout : M scope Z := timeout_of SO_RCVTIMEO.
(** [Socket::setSendTimeout], [setRecvTimeout]: [v] is a [uint64_t]. *)
Definition tv_sec_of (v : Z) : Z := wraps 32 (v / 1000).
Definition tv_usec_of (v : Z) : Z := wraps 32 (v mod 1000 * 1000).
Definition setSendTimeout (v : Z) : M scope unit :=
  setOption SOL_SOCKET SO_SNDTIMEO (tv_sec_of v) (tv_usec_of v);; mret tt.
Definition setRecvTimeout (v : Z) : M scope unit :=
  setOption SOL_SOCKET SO_RCVTIMEO (tv_sec_of v) (tv_usec_of v);; mret tt.

(** [Socket::initSock] *)
Definition initSock : M scope unit :=
  setOption SOL_SOCKET SO_REUSEADDR 0 0;;
  type ← gets (λ s, m_type (self s));
  if type =? TCP then setOption IPPROTO_TCP TCP_NODELAY 0 0;; mret tt else mret tt.
(** [Socket::newSock]; the context of the descriptor gets a new address. *)
Definition new_ctx (p : Process) : nat := fresh (dom (ctxs p)).
Definition newSock : M scope unit :=
  a ← gets (λ s, new_ctx (proc s));
  fd ← in_proc (Hook.socket t_hook_enable a);
  update (set_sock fd);;
  if negb (fd =? -1) then initSock else mret tt.

(** [Socket::close] *)
Definition close : M scope bool :=
  s ← gets self;
  if negb (m_isConnected s) && (m_sock s =? -1) then mret true
  else
    update (set_connected false);;
    (if negb (m_sock s =? -1) then
       in_proc (Hook.close t_hook_enable iom (m_sock s));;
       update (set_sock (-1))
     else mret tt);;
    mret false.

(** The common start of [bind] and [connect]: a descriptor of the address's
    family. *)
Definition ensure_sock (addr : Address) : M scope bool :=
  s ← gets self;
  (if isValid s then mret tt else newSock);;
  s ← gets self;
  mret (isValid s && (getFamily addr =? m_family s)).
(** [Socket::bind] *)
Definition bind (addr : Address) : M scope bool :=
  ok ← ensure_sock addr;
  if negb ok then mret false
  else
    fd ← fd_of;
    rt ← in_proc (sys (sys_io "bind" fd));
    if negb (rt =? 0) then mret false
    else getLocalAddress;; mret true.
(** [Socket::connect]; [timeout_ms] is [no_timeout] by default. *)
Definition connect (addr : Address) (timeout_ms : Z) : M scope bool :=
  ok ← ensure_sock addr;
  if negb ok then mret false
  else
    fd ← fd_of;
    rt ← in_proc (if timeout_ms =? no_timeout then Hook.connect t_hook_enable iom s_connect_timeout fd
                  else connect_with_timeout t_hook_enable iom fd timeout_ms);
    if negb (rt =? 0) then close;; mret false
    else
      update (set_connected true);;
      getRemoteAddress;;
      getLocalAddress;;
      mret true.
(** [Socket::listen] *)
Definition listen : M scope bool :=
  s ← gets self;
  if negb (isValid s) then mret false
  else
    rt ← in_proc (sys (sys_io "listen" (m_sock s)));
    mret (rt =? 0).

(** [Socket::init(sock)] on a new object *)
Definition init (sock : Z) : M scope bool :=
  ctx ← in_proc (FdManager.get sock false 0);
  match ctx with
  | None => mret false
  | Some a =>
      c ← in_proc (ctx_at a);
      if m_isSocket c && negb (m_isClosed c) then
        update (λ s, set_connected true (set_sock sock s));;
        initSock;;
        getLocalAddress;;
        getRemoteAddress;;
        mret true
      else mret false
  end.
(** [Socket::accept] of a socket like [s], whose descriptor is [fd]: the object
    that is returned; [a] is the address of the context of the new descriptor. *)
Definition accept_on (fuel : nat) (s : Socket) (fd : Z) (a : nat) : M Process (option Socket) := λ p,
  match Hook.accept t_hook_enable iom fuel fd a p with
  | Ok newsock p =>
      if newsock =? -1 then Ok None p
      else
        match init newsock (mk_scope (Socket_new (m_family s) (m_type s) (m_protocol s)) p) with
        | Ok true s => Ok (Some (self s)) (proc s)
        | Ok false s => Ok None (proc s)
        | Throw e s => Throw e (proc s)
        | Abort => Abort
        | Undef u => Undef u
        end
  | Throw e p => Throw e p
  | Abort => Abort
  | Undef u => Undef u
  end.
Definition accept (fuel : nat) (a : nat) : M scope (option Socket) :=
  s ← gets self; in_proc (accept_on fuel s (m_sock s) a).

(** The transfers: -1 on an object that is not connected, else the result of the
    hooked call as [int]. *)
Definition transfer (m : Z → M Process Z) : M scope Z :=
  s ← gets self;
  if m_isConnected s then rt ← in_proc (m (m_sock s)); mret (wraps 32 rt) else mret (-1).
Definition send (fuel : nat) : M scope Z := transfer (Hook.send t_hook_enable iom fuel).
Definition send_iov (fuel : nat) : M scope Z := transfer (Hook.sendmsg t_hook_enable iom fuel).
Definition sendTo (fuel : nat) : M scope Z := transfer (Hook.sendto t_hook_enable iom fuel).
Definition sendTo_iov (fuel : nat) : M scope Z := transfer (Hook.sendmsg t_hook_enable iom fuel).
Definition recv (fuel : nat) : M scope Z := transfer (Hook.recv t_hook_enable iom fuel).
Definition recv_iov (fuel : nat) : M scope Z := transfer (Hook.recvmsg t_hook_enable iom fuel).
Definition recvFrom (fuel : nat) : M scope Z := transfer (Hook.recvfrom t_hook_enable iom fuel).
Definition recvFrom_iov (fuel : nat) : M scope Z := transfer (Hook.recvmsg t_hook_enable iom fuel).

(** [cancelRead], [cancelWrite], [cancelAccept], [cancelAll] *)
Definition cancel (c : Z → call) : M scope bool :=
  fd ← fd_of;
  in_proc (need_iom iom);;
  rt ← in_proc (sys (c fd));
  mret (negb (rt =? 0)).
Definition cancelRead : M scope bool := cancel (λ fd, CancelEvent fd READ).
Definition cancelWrite : M scope bool := cancel (λ fd, CancelEvent fd WRITE).
Definition cancelAccept : M scope bool := cancel (λ fd, CancelEvent fd READ).
Definition cancelAll : M scope bool := cancel CancelAll.

(** [Socket::dump] *)
Definition dump (s : Socket) : string :=
  let num z := if z <? 0 then "-" +:+ show (- z) else show z in
  "[Socket sock=" +:+ num (m_sock s) +:+ " is_connected =" +:+ (if m_isConnected s then "1" else "0")
  +:+ " family=" +:+ num (m_family s) +:+ " type=" +:+ num (m_type s) +:+ " protocol=" +:+ num (m_protocol s)
  +:+ (match m_localAddress s with Some a => " local_address=" +:+ toString a | None => "" end)
  +:+ (match m_remoteAddress s with Some a => " remote_address=" +:+ toString a | None => "" end) +:+ "]".
End socket.
