(* ===== verification/SocketSpec.v ===== *)
(** What a [Socket] keeps: a connected object has a descriptor, its kind never
    changes, the addresses it has learned stay whatever it is connected to later;
    its timeouts; the life of its descriptor. *)
From stdpp Require Import gmap.
From S2P Require Import Prelude Text Endian Address FdManager Hook Socket.

Local Open Scope Z_scope.

(** The public operations that change the object. *)
Inductive sock_op :=
  | OBind (addr : Address) | OConnect (addr : Address) (timeout_ms : Z) | OListen | OClose
  | OTransfer (m : Z → M Process Z) | OLocal | ORemote | OTimeout (type v : Z)
  | OOption (level opt : Z) | OCancel (c : Z → call).

Section socket.
Context {HO : Host} {K : Kernel} {N : Names} (hooked iom : bool) (connect_timeout : Z).

Definition run_op (o : sock_op) : M scope unit :=
  match o with
  | OBind addr => bind hooked addr;; mret tt
  | OConnect addr t => connect hooked iom connect_timeout addr t;; mret tt
  | OListen => listen;; mret tt
  | OClose => close hooked iom;; mret tt
  | OTransfer m => transfer m;; mret tt
  | OLocal => getLocalAddress;; mret tt
  | ORemote => getRemoteAddress;; mret tt
  | OTimeout type v => if type =? SO_SNDTIMEO then setSendTimeout hooked v else setRecvTimeout hooked v
  | OOption level opt => getOption level opt;; mret tt
  | OCancel c => cancel iom c;; mret tt
  end.
Fixpoint run_ops (l : list sock_op) : M scope unit :=
  match l with [] => mret tt | o :: l => run_op o;; run_ops l end.

(** ** What every operation keeps *)

(** The object [s] as a later state of [s0]. *)
Record kept (s0 s : Socket) : Prop := {
  k_kind : m_family s = m_family s0 ∧ m_type s = m_type s0 ∧ m_protocol s = m_protocol s0;
  k_valid : m_isConnected s = true → m_sock s ≠ -1;
  k_local : ∀ a, m_localAddress s0 = Some a → m_localAddress s = Some a;
  k_remote : ∀ a, m_remoteAddress s0 = Some a → m_remoteAddress s = Some a;
}.
Notation Kept s0 := (λ _ σ, kept s0 (self σ)).
(** The same, with a descriptor. *)
Definition kept_valid (s0 s : Socket) : Prop := kept s0 s ∧ m_sock s ≠ -1.

Lemma in_proc_self {A} (Q : Socket → Prop) (m : M Process A) :
  triple (λ σ, Q (self σ)) (in_proc m) (λ _ σ, Q (self σ)).
Proof. intros σ a σ' HQ. unfold in_proc. destruct (m (proc σ)); try done. by intros [= <- <-]. Qed.
Lemma fd_of_self (Q : Socket → Prop) : triple (λ σ, Q (self σ)) fd_of (λ _ σ, Q (self σ)).
Proof. intros σ a σ' HQ [= <- <-]. done. Qed.
Lemma gets_self {A} (Q : Socket → Prop) (f : scope → A) : triple (λ σ, Q (self σ)) (gets f) (λ _ σ, Q (self σ)).
Proof. by apply triple_gets. Qed.
Lemma ret_self {A} (Q : Socket → Prop) (a : A) : triple (λ σ, Q (self σ)) (mret a) (λ _ σ, Q (self σ)).
Proof. by apply triple_ret. Qed.
(** Operations made of calls to the system and readings. *)
Ltac keeps :=
  repeat first
    [ apply ret_self | apply in_proc_self | apply fd_of_self | apply gets_self
    | apply triple_keep; [|intros ?] | case_match | assumption ].
Lemma setOption_self (Q : Socket → Prop) l o s u :
  triple (λ σ, Q (self σ)) (setOption hooked l o s u) (λ _ σ, Q (self σ)).
Proof. unfold setOption. keeps. Qed.
Lemma initSock_self (Q : Socket → Prop) : triple (λ σ, Q (self σ)) (initSock hooked) (λ _ σ, Q (self σ)).
Proof. unfold initSock. keeps; apply setOption_self. Qed.
Lemma transfer_self (Q : Socket → Prop) m : triple (λ σ, Q (self σ)) (transfer m) (λ _ σ, Q (self σ)).
Proof. unfold transfer. keeps. Qed.
Lemma getOption_self (Q : Socket → Prop) l o : triple (λ σ, Q (self σ)) (getOption l o) (λ _ σ, Q (self σ)).
Proof. unfold getOption. keeps. Qed.
Lemma cancel_self (Q : Socket → Prop) c : triple (λ σ, Q (self σ)) (cancel iom c) (λ _ σ, Q (self σ)).
Proof. unfold cancel. keeps. Qed.
Lemma listen_self (Q : Socket → Prop) : triple (λ σ, Q (self σ)) listen (λ _ σ, Q (self σ)).
Proof. unfold listen. keeps. Qed.

(** Updates that keep the object. *)
Lemma kept_sock s0 s fd : kept s0 s → m_isConnected s = false ∨ fd ≠ -1 → kept s0 (set_sock fd s).
Proof. intros [? ? ? ?] Hfd. split; try done. simpl. intros E. destruct Hfd; congruence. Qed.
Lemma kept_closed s0 s : kept s0 s → kept s0 (set_sock (-1) (set_connected false s)).
Proof. intros [? ? ? ?]. by split. Qed.
Lemma kept_set_local s0 s a : kept s0 s → m_localAddress s = None → kept s0 (set_local a s).
Proof. intros [? ? Hl ?] E. split; try done. intros b Hb%Hl. congruence. Qed.
Lemma kept_set_remote s0 s a : kept s0 s → m_remoteAddress s = None → kept s0 (set_remote a s).
Proof. intros [? ? ? Hr] E. split; try done. intros b Hb%Hr. congruence. Qed.
Lemma kept_connected s0 s : kept_valid s0 s → kept s0 (set_connected true s).
Proof. intros [[? ? ? ?] Hv]. by split. Qed.
Lemma kept_refl s : (m_isConnected s = true → m_sock s ≠ -1) → kept s s.
Proof. by split. Qed.
Lemma kept_trans s0 s1 s2 : kept s0 s1 → kept s1 s2 → kept s0 s2.
Proof. intros [(?&?&?) ? ? ?] [(?&?&?) ? ? ?]. split; [split_and!; congruence|done|auto|auto]. Qed.

(** Reading an address that is not known yet. *)
Lemma read_address_kept s0 (field : Socket → option Address) (store : Address → Socket → Socket) name :
  (∀ s a, kept s0 s → field s = None → kept s0 (store a s)) →
  triple (λ σ, kept s0 (self σ))
    (s ← gets self;
     match field s with
     | Some a => mret a
     | None =>
         k ← gets (λ s, clock (proc s));
         rt ← in_proc (sys (sys_io name (m_sock s)));
         if negb (rt =? 0) then mret (UnknownAddress (m_family s) (zeros 14))
         else let a := named_address k (m_family s) in update (store a);; mret a
     end) (Kept s0).
Proof.
  intros Hstore. apply triple_read. intros s. destruct (field s) as [a|] eqn:E.
  { apply triple_ret. by intros σ [? _]. }
  set (Q := λ s, kept s0 s ∧ field s = None).
  apply (triple_weaken _ (λ σ, Q (self σ)) _ _ (Kept s0)); [|by intros σ [Hk <-]|done].
  apply triple_keep; [apply gets_self|]. intros k. apply triple_keep; [apply in_proc_self|]. intros rt.
  destruct (negb (rt =? 0)); [apply triple_ret; by intros σ [? _]|].
  eapply (triple_bind _ _ _ (Kept s0)); [|intros _; by apply triple_ret].
  apply triple_modify. intros σ [Hk Hl]. by apply Hstore.
Qed.
Lemma getLocalAddress_kept s0 : triple (λ σ, kept s0 (self σ)) getLocalAddress (Kept s0).
Proof. apply (read_address_kept s0 m_localAddress set_local). intros s a. apply kept_set_local. Qed.
Lemma getRemoteAddress_kept s0 : triple (λ σ, kept s0 (self σ)) getRemoteAddress (Kept s0).
Proof. apply (read_address_kept s0 m_remoteAddress set_remote). intros s a. apply kept_set_remote. Qed.

Lemma newSock_kept s0 :
  triple (λ σ, kept s0 (self σ) ∧ m_isConnected (self σ) = false) (newSock hooked) (Kept s0).
Proof.
  set (Q := λ s, kept s0 s ∧ m_isConnected s = false).
  change (triple (λ σ, Q (self σ)) (newSock hooked) (Kept s0)). unfold newSock.
  apply triple_keep; [apply gets_self|]. intros a. apply triple_keep; [apply in_proc_self|]. intros fd.
  apply (triple_bind _ _ _ (Kept s0)).
  - apply triple_modify. intros σ [Hk Hc]. apply kept_sock; auto.
  - intros _. destruct (negb (fd =? -1)); [apply (initSock_self (kept s0))|by apply triple_ret].
Qed.
Lemma close_kept s0 : triple (λ σ, kept s0 (self σ)) (close hooked iom) (Kept s0).
Proof.
  unfold close. apply triple_read. intros s. destruct (negb (m_isConnected s) && (m_sock s =? -1)).
  { apply triple_ret. by intros σ [? _]. }
  set (Q := λ s, kept s0 s ∧ m_isConnected s = false).
  apply (triple_bind _ _ _ (λ _ σ, Q (self σ))).
  { apply triple_modify. intros σ [[? ? ? ?] _]. by split. }
  intros _. apply (triple_bind _ _ _ (Kept s0)); [|intros _; by apply triple_ret].
  destruct (negb (m_sock s =? -1)); [|apply triple_ret; by intros σ [? _]].
  apply triple_keep; [apply in_proc_self|]. intros _. apply triple_modify. intros σ [Hk Hc]. apply kept_sock; auto.
Qed.
Lemma ensure_sock_kept s0 addr :
  triple (λ σ, kept s0 (self σ)) (ensure_sock hooked addr)
    (λ ok σ, kept s0 (self σ) ∧ (ok = true → m_sock (self σ) ≠ -1)).
Proof.
  unfold ensure_sock. apply triple_read. intros s. apply (triple_bind _ _ _ (Kept s0)).
  - destruct (isValid s) eqn:E; [apply triple_ret; by intros σ [? _]|].
    eapply triple_weaken; [apply (newSock_kept s0)| |done]. intros σ [Hk <-]. split; [done|].
    unfold isValid in E. apply negb_false_iff, Z.eqb_eq in E. destruct Hk as [_ Hv _ _].
    destruct (m_isConnected (self σ)); [by destruct Hv|done].
  - intros _. apply triple_read. intros s1. apply triple_ret. intros σ [Hk <-]. split; [done|].
    intros [H _]%andb_true_iff. unfold isValid in H. apply negb_true_iff, Z.eqb_neq in H. done.
Qed.
Lemma bind_kept s0 addr : triple (λ σ, kept s0 (self σ)) (bind hooked addr) (Kept s0).
Proof.
  unfold bind. eapply triple_bind; [apply ensure_sock_kept|]. intros ok. destruct ok; cbn [negb].
  - set (Q := kept s0). apply (triple_weaken _ (λ σ, Q (self σ)) _ _ (Kept s0)); [|by intros σ [? _]|done].
    apply triple_keep; [apply fd_of_self|]. intros fd. apply triple_keep; [apply in_proc_self|]. intros rt.
    destruct (negb (rt =? 0)); [by apply triple_ret|]. apply triple_keep; [apply getLocalAddress_kept|]. intros _. by apply triple_ret.
  - apply triple_ret. by intros σ [? _].
Qed.
Lemma connect_kept s0 addr t : triple (λ σ, kept s0 (self σ)) (connect hooked iom connect_timeout addr t) (Kept s0).
Proof.
  unfold connect. eapply triple_bind; [apply ensure_sock_kept|]. intros ok. destruct ok; cbn [negb].
  - apply (triple_weaken _ (λ σ, kept_valid s0 (self σ)) _ _ (Kept s0)); [|by intros σ [? ?]; split; auto|done].
    apply triple_keep; [apply fd_of_self|]. intros fd. apply triple_keep; [apply in_proc_self|]. intros rt.
    destruct (negb (rt =? 0)).
    + apply (triple_weaken _ (λ σ, kept s0 (self σ)) _ _ (Kept s0)); [|by intros σ [? _]|done].
      apply triple_keep; [apply close_kept|]. intros _. by apply triple_ret.
    + apply (triple_bind _ _ _ (Kept s0)); [apply triple_modify; intros σ; apply kept_connected|]. intros _.
      apply triple_keep; [apply getRemoteAddress_kept|]. intros _.
      apply triple_keep; [apply getLocalAddress_kept|]. intros _. by apply triple_ret.
  - apply triple_ret. by intros σ [? _].
Qed.
Lemma run_op_kept s0 o : triple (λ σ, kept s0 (self σ)) (run_op o) (Kept s0).
Proof.
  destruct o; cbn [run_op]; try (apply triple_keep; [|intros ?; by apply triple_ret]).
  - apply bind_kept.
  - apply connect_kept.
  - apply (listen_self (kept s0)).
  - apply close_kept.
  - apply (transfer_self (kept s0)).
  - apply getLocalAddress_kept.
  - apply getRemoteAddress_kept.
  - destruct (type =? SO_SNDTIMEO); apply triple_keep; try (by intros ?; apply triple_ret);
      apply (setOption_self (kept s0)).
  - apply (getOption_self (kept s0)).
  - apply (cancel_self (kept s0)).
Qed.
Lemma run_ops_kept s0 l : triple (λ σ, kept s0 (self σ)) (run_ops l) (Kept s0).
Proof.
  induction l as [|o l IH]; cbn [run_ops]; [by apply triple_ret|].
  apply triple_keep; [apply run_op_kept|]. by intros _.
Qed.

(** What holds of a socket object whatever is called on it.  A connected object
    has a descriptor, its family, type and protocol are those it was made with, and an
    address of either end that it has learned is never replaced: after a close and a
    connection to another peer it still reports the first one. *)
Theorem socket_invariant (family type protocol : Z) (before after : list sock_op) (p : Process) (σ1 σ2 : scope) :
  run_ops before (mk_scope (Socket_new family type protocol) p) = Ok tt σ1 → run_ops after σ1 = Ok tt σ2 →
  (m_isConnected (self σ2) = true → isValid (self σ2) = true) ∧
  (m_family (self σ2) = family ∧ m_type (self σ2) = type ∧ m_protocol (self σ2) = protocol) ∧
  (∀ a, m_localAddress (self σ1) = Some a → m_localAddress (self σ2) = Some a) ∧
  (∀ a, m_remoteAddress (self σ1) = Some a → getRemoteAddress σ2 = Ok a σ2).
Proof.
  intros H1 H2.
  assert (kept (Socket_new family type protocol) (self σ1)) as K1.
  { eapply (run_ops_kept _ before); [|exact H1]. by apply kept_refl. }
  assert (kept (self σ1) (self σ2)) as K2.
  { eapply (run_ops_kept _ after); [|exact H2]. apply kept_refl, K1. }
  refine (conj _ (conj _ (conj _ _))).
  - intros Hc. apply negb_true_iff, Z.eqb_neq. by apply (k_valid _ _ K2).
  - destruct (k_kind _ _ (kept_trans _ _ _ K1 K2)) as (?&?&?). done.
  - apply (k_local _ _ K2).
  - intros a Ha. unfold getRemoteAddress. by rewrite bind_gets, (k_remote _ _ K2 a Ha).
Qed.

(** ** Timeouts *)

Lemma get_known fd a p p' o p1 :
  m_datas p' = m_datas p → FdManager.get fd false a p = Ok o p1 → p1 = p ∧ FdManager.get fd false a p' = Ok o p'.
Proof.
  intros Hd. unfold FdManager.get, get_read, datas_size, slot. destruct (fd =? -1); [by intros [= -> <-]|].
  mred. rewrite Hd. destruct (wraps 32 _ <=? fd); [by intros [= <- <-]|].
  destruct (fd <? 0); [done|]. rewrite ?Hd. destruct (m_datas p !! Z.to_nat fd) as [[b|]|]; [..|done]; by intros [= <- <-].
Qed.
Lemma tv_value v : 0 ≤ v < 2 ^ 64 →
  wraps 64 (timeval_ms (tv_sec_of v) (tv_usec_of v)) = wraps 32 (v / 1000) * 1000 + v mod 1000.
Proof.
  intros Hv. unfold timeval_ms, tv_sec_of, tv_usec_of.
  pose proof (wraps_range 32 (v / 1000) ltac:(lia)) as Hr. unfold in_s in Hr.
  pose proof (Z.mod_pos_bound v 1000 ltac:(lia)).
  rewrite (wraps_small 32 (v mod 1000 * 1000)) by (unfold in_s; lia).
  rewrite Z.quot_mul by lia. rewrite wraps_wrapu by lia.
  by rewrite !(wraps_small 64 (wraps 32 (v / 1000) * 1000 + v mod 1000)) by (unfold in_s; lia).
Qed.

(** Reading a timeout after setting it; [type] is one of the two options. *)
Lemma timeout_set type v s p a c :
  hooked = true → type = SO_RCVTIMEO ∨ type = SO_SNDTIMEO → 0 ≤ v < 2 ^ 64 →
  FdManager.get (m_sock s) false 0 p = Ok (Some a) p → ctxs p !! a = Some c →
  ∃ p', (setOption hooked SOL_SOCKET type (tv_sec_of v) (tv_usec_of v);; mret tt) (mk_scope s p) = Ok tt (mk_scope s p') ∧
    ∀ type', timeout_of type' (mk_scope s p') =
      Ok (wraps 64 (FdManager.getTimeout type' (FdManager.setTimeout type (timeval_ms (tv_sec_of v) (tv_usec_of v)) c)))
        (mk_scope s p').
Proof.
  intros Hh Ht Hv Hg Hc. eexists. split.
  - unfold setOption, Hook.setsockopt. rewrite Hh. cbn [negb].
    assert ((SOL_SOCKET =? SOL_SOCKET) && ((type =? SO_RCVTIMEO) || (type =? SO_SNDTIMEO)) = true) as ->
      by (destruct Ht as [-> | ->]; done).
    unfold in_proc, fd_of. mred. cbn [self proc]. rewrite Hg. unfold update_ctx, sys. mred. cbn. reflexivity.
  - intros type'. unfold timeout_of, fd_of. rewrite bind_gets. cbn [self].
    assert (∀ p', m_datas p' = m_datas p → ctxs p' !! a = Some (FdManager.setTimeout type (timeval_ms (tv_sec_of v) (tv_usec_of v)) c) →
      (ctx ← in_proc (FdManager.get (m_sock s) false 0);
       match ctx with None => mret (-1)
       | Some a => c ← in_proc (ctx_at a); mret (wraps 64 (FdManager.getTimeout type' c)) end) (mk_scope s p') =
      Ok (wraps 64 (FdManager.getTimeout type' (FdManager.setTimeout type (timeval_ms (tv_sec_of v) (tv_usec_of v)) c)))
        (mk_scope s p')) as Hread.
    { intros p' Hd Hc'. destruct (get_known _ _ _ p' _ _ Hd Hg) as [_ Hg'].
      unfold in_proc, ctx_at. mred. cbn [self proc]. rewrite Hg'. cbn [self proc]. by rewrite Hc'. }
    apply Hread; cbn [m_datas ctxs]; [done|]. by rewrite lookup_alter_eq, Hc.
Qed.

(** The timeouts of a socket.  A timeout that was set is read back in whole
    milliseconds below 2^31 seconds, and setting one does not change the other; above,
    the seconds are cut to [int] and another value, perhaps a negative one, is stored. *)
Theorem socket_timeouts (v : Z) (s : Socket) (p : Process) (a : nat) (c : FdCtx) :
  hooked = true → 0 ≤ v < 2 ^ 64 →
  FdManager.get (m_sock s) false 0 p = Ok (Some a) p → ctxs p !! a = Some c → 0 ≤ m_sendTimeout c < 2 ^ 63 →
  ∃ p', setRecvTimeout hooked v (mk_scope s p) = Ok tt (mk_scope s p') ∧
    getRecvTimeout (mk_scope s p') = Ok (wraps 32 (v / 1000) * 1000 + v mod 1000) (mk_scope s p') ∧
    getSendTimeout (mk_scope s p') = Ok (m_sendTimeout c) (mk_scope s p') ∧
    (v < 2 ^ 31 * 1000 → getRecvTimeout (mk_scope s p') = Ok v (mk_scope s p')) ∧
    (2 ^ 31 * 1000 ≤ v < 2 ^ 32 * 1000 → ∃ z, z < 0 ∧ getRecvTimeout (mk_scope s p') = Ok z (mk_scope s p')).
Proof.
  intros Hh Hv Hg Hc Hsend.
  destruct (timeout_set SO_RCVTIMEO v s p a c Hh ltac:(by left) Hv Hg Hc) as (p'&E&Hread).
  assert (getRecvTimeout (mk_scope s p') = Ok (wraps 32 (v / 1000) * 1000 + v mod 1000) (mk_scope s p')) as Hr.
  { unfold getRecvTimeout. rewrite Hread. change (FdManager.getTimeout SO_RCVTIMEO (FdManager.setTimeout SO_RCVTIMEO ?t c)) with t.
    by rewrite tv_value. }
  exists p'. split_and!; [exact E|exact Hr| | |].
  - unfold getSendTimeout. rewrite Hread. change (FdManager.getTimeout SO_SNDTIMEO (FdManager.setTimeout SO_RCVTIMEO ?t c)) with (m_sendTimeout c).
    by rewrite wraps_small by (unfold in_s; lia).
  - intros Hlt. rewrite Hr. pose proof (Z.div_mod v 1000 ltac:(lia)).
    pose proof (Z.mod_pos_bound v 1000 ltac:(lia)).
    rewrite wraps_small; [do 2 f_equal; lia|lia|]. unfold in_s. split; [lia|]. apply Z.div_lt_upper_bound; lia.
  - intros Hlt. eexists. split; [|exact Hr].
    assert (2 ^ 31 ≤ v / 1000 < 2 ^ 32) as Hd by (split; [apply Z.div_le_lower_bound; lia|apply Z.div_lt_upper_bound; lia]).
    pose proof (Z.mod_pos_bound v 1000 ltac:(lia)).
    unfold wraps. change (2 ^ (32 - 1)) with (2 ^ 31).
    rewrite <-(Z.mod_add (_ + _) (-1)), Z.mod_small by lia. lia.
Qed.
End socket.

(** ** Witnesses *)

Module Demo.
#[local] Instance demo_host : Host := little_host.
#[local] Instance demo_kernel : Kernel := {|
  reply _ c := match c with sys_socket => (5, 0) | sys_fstat _ => (0xC000, 0) | _ => (0, 0) end;
  others _ t := t;
|}.
#[local] Instance demo_names : Names := {|
  name_in k := mk_in AF_INET (Z.of_nat k) 0 [];
  name_in6 _ := IPv6Address_default; name_un _ := ([], 2); name_other _ := (0, []);
|}.
Definition demo_process : Process := mkProcess ∅ FdManager_new 0 0 [].
Definition demo_peer (port : Z) : Address := IPv4Address (IPv4Address_new 0 port).

Lemma socket_invariant_witness :
  ∃ σ1 σ2 a, run_ops true true no_timeout [OConnect (demo_peer 80) no_timeout]
      (mk_scope (Socket_new AF_INET TCP 0) demo_process) = Ok tt σ1 ∧
    run_ops true true no_timeout [OClose; OConnect (demo_peer 90) no_timeout] σ1 = Ok tt σ2 ∧
    m_remoteAddress (self σ1) = Some a ∧ getRemoteAddress σ2 = Ok a σ2 ∧ m_family (self σ2) = AF_INET.
Proof.
  assert (match run_ops true true no_timeout [OConnect (demo_peer 80) no_timeout]
            (mk_scope (Socket_new AF_INET TCP 0) demo_process) with
          | Ok _ σ1 =>
              m_remoteAddress (self σ1) ≠ None ∧
              match run_ops true true no_timeout [OClose; OConnect (demo_peer 90) no_timeout] σ1 with
              | Ok _ _ => True | _ => False end
          | _ => False end) as H by (vm_compute; split; [discriminate|exact I]).
  destruct (run_ops true true no_timeout [OConnect (demo_peer 80) no_timeout]
      (mk_scope (Socket_new AF_INET TCP 0) demo_process)) as [[] σ1| | |] eqn:E1; [|destruct H..]. destruct H as [Hr1 H].
  destruct (run_ops true true no_timeout [OClose; OConnect (demo_peer 90) no_timeout] σ1) as [[] σ2| | |] eqn:E2; [|destruct H..].
  destruct (m_remoteAddress (self σ1)) as [a|] eqn:Er; [|destruct (Hr1 eq_refl)].
  destruct (socket_invariant true true no_timeout AF_INET TCP 0 _ _ demo_process σ1 σ2 E1 E2) as (_&(Hf&_)&_&Hr).
  exists σ1, σ2, a. split_and!; [reflexivity|exact E2|exact Er|by apply Hr|exact Hf].
Defined.

Definition demo_ctx : FdCtx := mkFdCtx true true true false false 5 no_timeout 9.
Definition demo_open : Process :=
  mkProcess {[0%nat := demo_ctx]} (<[5%nat := Some 0%nat]> FdManager_new) 0 0 [].
Definition demo_socket : Socket := mkSocket 5 AF_INET TCP 0 true None None.
Lemma socket_timeouts_witness :
  ∃ p', setRecvTimeout true 120000 (mk_scope demo_socket demo_open) = Ok tt (mk_scope demo_socket p') ∧
    getRecvTimeout (mk_scope demo_socket p') = Ok 120000 (mk_scope demo_socket p') ∧
    getSendTimeout (mk_scope demo_socket p') = Ok 9 (mk_scope demo_socket p').
Proof.
  destruct (socket_timeouts true 120000 demo_socket demo_open 0 demo_ctx) as (p'&E&_&Hs&Hr&_).
  - reflexivity.
  - lia.
  - vm_compute. reflexivity.
  - reflexivity.
  - simpl. lia.
  - exists p'. split_and!; [exact E|apply Hr; lia|exact Hs].
Defined.
End Demo.
