(* ===== verification/TcpServer.v ===== *)
(** [TcpServer] ([sylar/tcp_server.h], [tcp_server.cc]): listening sockets, the
    fibers that accept on them and the clients they hand on.

    Socket objects are shared: the server, the accepting fibers and the tasks of
    the workers hold pointers to them, and an object is destroyed, which closes it,
    when the last pointer goes.  The fibers run in any order; an accepting fiber has
    two points where others run, the test of its loop and the call of [accept]. *)
From stdpp Require Import gmap.
From S2P Require Import Prelude Text Endian Address FdManager Hook Socket.

Local Open Scope string_scope.
Local Open Scope Z_scope.

Record TcpServer := mkTcpServer {
  m_socks : list nat;
  m_recvTimeout : Z;
  m_name : string;
  m_isStop : bool;
}.
(** [TcpServer::TcpServer]; the argument is the value of
    "tcp_server.read_timeout". *)
Definition TcpServer_new (read_timeout : Z) : TcpServer := mkTcpServer [] read_timeout "sylar/1.0.0" true.
Definition set_socks (v : list nat) (s : TcpServer) : TcpServer :=
  mkTcpServer v (m_recvTimeout s) (m_name s) (m_isStop s).
Definition setRecvTimeout (v : Z) (s : TcpServer) : TcpServer :=
  mkTcpServer (m_socks s) v (m_name s) (m_isStop s).
Definition setName (v : string) (s : TcpServer) : TcpServer :=
  mkTcpServer (m_socks s) (m_recvTimeout s) v (m_isStop s).
Definition set_stop (v : bool) (s : TcpServer) : TcpServer :=
  mkTcpServer (m_socks s) (m_recvTimeout s) (m_name s) v.

(** What is scheduled on the accepting IOManager. *)
Inductive accept_task :=
  | AcceptLoop (sock : nat)            (** [startAccept(sock)], at the test of the loop *)
  | InAccept (sock : nat) (fd : Z)     (** in [sock->accept()], called with [fd] *)
  | StopTask.                          (** the function [stop] schedules *)
Definition task_sock (t : accept_task) : list nat :=
  match t with AcceptLoop s | InAccept s _ => [s] | StopTask => [] end.

Record World := mkWorld {
  w_proc : Process;
  w_objs : gmap nat Socket;            (** the socket objects, by address *)
  w_srv : TcpServer;
  w_accept : list accept_task;
  w_clients : list nat;                (** [handleClient] scheduled on the workers *)
}.
Definition set_proc (v : Process) (w : World) : World := mkWorld v (w_objs w) (w_srv w) (w_accept w) (w_clients w).
Definition set_objs (v : gmap nat Socket) (w : World) : World := mkWorld (w_proc w) v (w_srv w) (w_accept w) (w_clients w).
Definition set_srv (v : TcpServer) (w : World) : World := mkWorld (w_proc w) (w_objs w) v (w_accept w) (w_clients w).
Definition set_accept (v : list accept_task) (w : World) : World := mkWorld (w_proc w) (w_objs w) (w_srv w) v (w_clients w).
Definition set_clients (v : list nat) (w : World) : World := mkWorld (w_proc w) (w_objs w) (w_srv w) (w_accept w) v.
Definition update_srv (f : TcpServer → TcpServer) : M World unit := modify (λ w, set_srv (f (w_srv w)) w).

(** The pointers that are kept between the steps. *)
Definition refs (w : World) : list nat := m_socks (w_srv w) ++ (w_accept w ≫= task_sock) ++ w_clients w.

(** [p->op()] *)
Definition on_socket {A} (a : nat) (m : M scope A) : M World A := λ w,
  match w_objs w !! a with
  | None => Undef NullDeref
  | Some s =>
      let keep σ := set_proc (proc σ) (set_objs (<[a := self σ]> (w_objs w)) w) in
      match m (mk_scope s (w_proc w)) with
      | Ok x σ => Ok x (keep σ)
      | Throw e σ => Throw e (keep σ)
      | Abort => Abort
      | Undef u => Undef u
      end
  end.
(** [new Socket] *)
Definition new_socket (s : Socket) : M World nat := λ w,
  let a := fresh (dom (w_objs w)) in Ok a (set_objs (<[a := s]> (w_objs w)) w).

Section server.
Context `{Host, Kernel, Names} (t_hook_enable iom : bool).

(** A local pointer goes out of scope: without another one the object is
    destroyed. *)
Definition release (a : nat) : M World unit :=
  w ← Prelude.get;
  if bool_decide (a ∈ refs w) then mret tt
  else on_socket a (Socket.close t_hook_enable iom);; modify (λ w, set_objs (delete a (w_objs w)) w).
Fixpoint release_all (l : list nat) : M World unit :=
  match l with [] => mret tt | a :: l => release a;; release_all l end.
(** [m_socks.clear()] *)
Definition clear_socks : M World unit :=
  l ← gets (λ w, m_socks (w_srv w));
  update_srv (set_socks []);;
  release_all l.

(** The loop of [TcpServer::bind] *)
Fixpoint bind_loop (addrs fails : list Address) : M World (list Address) :=
  match addrs with
  | [] => mret fails
  | addr :: addrs =>
      sock ← new_socket (CreateTCP addr);
      bound ← on_socket sock (Socket.bind t_hook_enable addr);
      if negb bound then release sock;; bind_loop addrs (fails ++ [addr])
      else
        listening ← on_socket sock Socket.listen;
        if negb listening then release sock;; bind_loop addrs (fails ++ [addr])
        else
          update_srv (λ s, set_socks (m_socks s ++ [sock]) s);;
          bind_loop addrs fails
  end.
(** [TcpServer::bind(addrs, fails)]: the result and what [fails] holds then. *)
Definition bind (addrs fails : list Address) : M World (bool * list Address) :=
  fails ← bind_loop addrs fails;
  if negb (bool_decide (fails = [])) then clear_socks;; mret (false, fails)
  else mret (true, fails).
(** [TcpServer::bind(addr)] *)
Definition bind_one (addr : Address) : M World bool := r ← bind [addr] []; mret r.1.

(** [TcpServer::start] *)
Definition start : M World bool :=
  s ← gets w_srv;
  if negb (m_isStop s) then mret true
  else
    update_srv (set_stop false);;
    modify (λ w, set_accept (w_accept w ++ (AcceptLoop <$> m_socks (w_srv w))) w);;
    mret true.
(** [TcpServer::stop] *)
Definition stop : M World unit :=
  update_srv (set_stop true);;
  modify (λ w, set_accept (w_accept w ++ [StopTask]) w).

(** The loop of [startAccept] from its test to the call of [accept], or to its
    end. *)
Definition accept_test (i sock : nat) : M World unit :=
  s ← gets w_srv;
  if m_isStop s then
    modify (λ w, set_accept (delete i (w_accept w)) w);;
    release sock
  else
    fd ← on_socket sock fd_of;
    modify (λ w, set_accept (<[i := InAccept sock fd]> (w_accept w)) w).
(** The call of [accept] and the rest of the body; [a] is the address of the
    context of the new descriptor. *)
Definition in_world {A} (m : M Process A) : M World A := λ w,
  match m (w_proc w) with
  | Ok x p => Ok x (set_proc p w)
  | Throw e p => Throw e (set_proc p w)
  | Abort => Abort
  | Undef u => Undef u
  end.
Definition accept_body (fuel i sock : nat) (fd : Z) (a : nat) : M World unit :=
  o ← gets (λ w, w_objs w !! sock);
  s ← deref o;
  client ← in_world (accept_on t_hook_enable iom fuel s fd a);
  (match client with
   | Some c =>
       c ← new_socket c;
       timeout ← gets (λ w, m_recvTimeout (w_srv w));
       on_socket c (Socket.setRecvTimeout t_hook_enable timeout);;
       modify (λ w, set_clients (w_clients w ++ [c]) w)
   | None => mret tt
   end);;
  modify (λ w, set_accept (<[i := AcceptLoop sock]> (w_accept w)) w).
(** The function [stop] schedules. *)
Fixpoint close_all (l : list nat) : M World unit :=
  match l with
  | [] => mret tt
  | a :: l =>
      on_socket a (Socket.cancelAll iom);;
      on_socket a (Socket.close t_hook_enable iom);;
      close_all l
  end.
Definition stop_task (i : nat) : M World unit :=
  l ← gets (λ w, m_socks (w_srv w));
  close_all l;;
  clear_socks;;
  modify (λ w, set_accept (delete i (w_accept w)) w).
(** A worker runs [handleClient], which only logs; subclasses replace it. *)
Definition handle_client (j c : nat) : M World unit :=
  modify (λ w, set_clients (delete j (w_clients w)) w);;
  release c.
(** [TcpServer::~TcpServer] *)
Fixpoint close_socks (l : list nat) : M World unit :=
  match l with [] => mret tt | a :: l => on_socket a (Socket.close t_hook_enable iom);; close_socks l end.
Definition TcpServer_destructor : M World unit :=
  l ← gets (λ w, m_socks (w_srv w)); close_socks l;; clear_socks.

(** ** Steps *)

(** The fibers of the accepting IOManager. *)
Inductive fiber_step (fuel : nat) : World → World → Prop :=
  | fiber_test w i sock w' :
      w_accept w !! i = Some (AcceptLoop sock) → accept_test i sock w = Ok tt w' → fiber_step fuel w w'
  | fiber_accept w i sock fd a w' :
      w_accept w !! i = Some (InAccept sock fd) → accept_body fuel i sock fd a w = Ok tt w' → fiber_step fuel w w'
  | fiber_stop w i w' :
      w_accept w !! i = Some StopTask → stop_task i w = Ok tt w' → fiber_step fuel w w'.
(** These, the workers and the calls of the user. *)
Inductive step (fuel : nat) : World → World → Prop :=
  | step_bind w addrs fails r w' : bind addrs fails w = Ok r w' → step fuel w w'
  | step_start w r w' : start w = Ok r w' → step fuel w w'
  | step_stop w w' : stop w = Ok tt w' → step fuel w w'
  | step_timeout w v : step fuel w (set_srv (setRecvTimeout v (w_srv w)) w)
  | step_fiber w w' : fiber_step fuel w w' → step fuel w w'
  | step_client w j c w' :
      w_clients w !! j = Some c → handle_client j c w = Ok tt w' → step fuel w w'.
End server.
