(* ===== verification/TcpServerSpec.v ===== *)
(** What holds of a [TcpServer] in every run: no pointer dangles and no object is
    lost, listening sockets are open, clients are connected; [bind] is all or
    nothing; a stopped server drains. *)
From stdpp Require Import gmap.
From S2P Require Import Prelude Text Endian Address FdManager Hook Socket SocketSpec TcpServer.

Local Open Scope Z_scope.

Section server.
Context {HO : Host} {K : Kernel} {N : Names} (hooked iom : bool).

(** ** Operations of a socket *)

Definition good (s : Socket) : Prop := m_isConnected s = true → m_sock s ≠ -1.

Lemma close_good : triple (λ σ, good (self σ)) (Socket.close hooked iom) (λ _ σ, good (self σ)).
Proof.
  intros σ r σ' Hg E. exact (k_valid _ _ (close_kept hooked iom (self σ) σ r σ' (kept_refl _ Hg) E)).
Qed.
Lemma read_self (Q : Socket → Prop) (field : Socket → option Address) (store : Address → Socket → Socket) (name : string) :
  (∀ s a, Q s → Q (store a s)) →
  triple (λ σ, Q (self σ))
    (s ← gets self;
     match field s with
     | Some a => mret a
     | None =>
         k ← gets (λ s, clock (proc s));
         rt ← in_proc (sys (sys_io name (m_sock s)));
         if negb (rt =? 0) then mret (UnknownAddress (m_family s) (zeros 14))
         else let a := named_address k (m_family s) in update (store a);; mret a
     end) (λ _ σ, Q (self σ)).
Proof.
  intros Hstore. apply triple_keep; [apply gets_self|]. intros s. destruct (field s); [by apply triple_ret|].
  apply triple_keep; [apply gets_self|]. intros k. apply triple_keep; [apply in_proc_self|]. intros rt.
  destruct (negb (rt =? 0)); [by apply triple_ret|].
  apply triple_keep; [apply triple_modify; simpl; auto|]. intros _. by apply triple_ret.
Qed.
Lemma bind_good addr :
  triple (λ σ, good (self σ)) (Socket.bind hooked addr) (λ ok σ, good (self σ) ∧ (ok = true → m_sock (self σ) ≠ -1)).
Proof.
  intros σ ok σ' Hg E. pose proof (kept_refl _ Hg) as Hk. split.
  { exact (k_valid _ _ (bind_kept hooked (self σ) addr σ ok σ' Hk E)). }
  intros ->. unfold Socket.bind in E. apply bind_inv in E as (b&σ1&E1&E).
  destruct (ensure_sock_kept hooked (self σ) addr σ b σ1 Hk E1) as [Hk1 Hv]. destruct b; [|done]. cbn [negb] in E.
  set (Q := λ s, kept (self σ) s ∧ m_sock s ≠ -1).
  assert (triple (λ σ, Q (self σ))
    (fd ← fd_of; rt ← in_proc (sys (sys_io "bind" fd));
     if negb (rt =? 0) then mret false else getLocalAddress;; mret true) (λ _ σ, m_sock (self σ) ≠ -1)) as Ht.
  { apply triple_keep; [apply fd_of_self|]. intros fd. apply triple_keep; [apply in_proc_self|]. intros rt.
    destruct (negb (rt =? 0)); [apply triple_ret; by intros ? [_ ?]|].
    eapply (triple_bind _ _ _ (λ _ σ, m_sock (self σ) ≠ -1)); [|intros _; by apply triple_ret].
    apply (triple_weaken _ (λ σ, m_sock (self σ) ≠ -1) _ _ (λ _ σ, m_sock (self σ) ≠ -1)); [|by intros ? [_ ?]|done].
    by apply (read_self (λ s, m_sock s ≠ -1) m_localAddress set_local "getsockname"%string). }
  eapply Ht; [|exact E]. split; [done|]. by apply Hv.
Qed.
Lemma getAddress_self_sock (Q : Socket → Prop) :
  (∀ s a, Q s → Q (set_local a s)) → (∀ s a, Q s → Q (set_remote a s)) →
  triple (λ σ, Q (self σ)) (getLocalAddress;; getRemoteAddress) (λ _ σ, Q (self σ)).
Proof.
  intros Hl Hr. apply triple_keep; [|intros _].
  - by apply (read_self Q m_localAddress set_local "getsockname"%string).
  - by apply (read_self Q m_remoteAddress set_remote "getpeername"%string).
Qed.
(** A socket made by [accept] is connected. *)
Definition open_client (s : Socket) : Prop := m_isConnected s = true ∧ m_sock s ≠ -1.
Lemma init_open fd : triple (λ _, True) (Socket.init hooked fd) (λ b σ, b = true → open_client (self σ)).
Proof.
  unfold Socket.init. apply (triple_bind _ _ _ (λ o _, o ≠ None → fd ≠ -1)).
  { intros σ o σ' _ E Ho ->. unfold in_proc, FdManager.get in E. simpl in E. injection E as <- _. done. }
  intros [a|]; [|by apply triple_ret].
  apply (triple_weaken _ (λ _, fd ≠ -1) _ _ (λ b σ, b = true → open_client (self σ))); [|by auto|done].
  apply triple_keep; [intros ? ? ? ? _; done|]. intros c.
  destruct (m_isSocket c && negb (m_isClosed c)); [|by apply triple_ret].
  apply (triple_bind _ _ _ (λ _ σ, open_client (self σ))); [by apply triple_modify|]. intros _.
  apply triple_keep; [apply initSock_self|]. intros _.
  apply (triple_weaken _ (λ σ, open_client (self σ)) _ _ (λ b σ, open_client (self σ))); [|done|done].
  eapply triple_weaken; [|intros σ H; exact H|intros ? ? H; exact H].
  intros σ b σ' Ho (u&σ1&E1&(v&σ2&E2&[= _ <-])%bind_inv)%bind_inv.
  assert ((getLocalAddress;; getRemoteAddress) σ = Ok v σ2) as E by by step_with E1.
  by apply (getAddress_self_sock open_client ltac:(done) ltac:(done) σ v σ2 Ho E).
Qed.
Lemma accept_on_open fuel s fd a : triple (λ _, True) (accept_on hooked iom fuel s fd a)
  (λ o _, ∀ c, o = Some c → open_client c).
Proof.
  intros p o p' _ E c ->. unfold accept_on in E. destruct (Hook.accept _ _ _ _ _ _) as [newsock p1| | |]; try done.
  destruct (newsock =? -1); [done|]. destruct (Socket.init _ _ _) as [[] σ| | |] eqn:Ei; try done.
  injection E as <- _. by apply (init_open newsock _ _ _ I Ei).
Qed.
(** ** The objects of the server *)

(** [L] are the local pointers, [ok] says that the listening sockets are open. *)
Record inv (ok : Prop) (L : list nat) (w : World) : Prop := {
  i_dom : ∀ a, is_Some (w_objs w !! a) ↔ a ∈ refs w ∨ a ∈ L;
  i_good : ∀ a s, w_objs w !! a = Some s → good s;
  i_socks : ok → ∀ a, a ∈ m_socks (w_srv w) → ∃ s, w_objs w !! a = Some s ∧ m_sock s ≠ -1;
  i_clients : ∀ a, a ∈ w_clients w → ∃ s, w_objs w !! a = Some s ∧ open_client s;
  i_apart : ∀ a, a ∈ w_clients w → a ∉ m_socks (w_srv w);
  i_nodup : NoDup (m_socks (w_srv w));
}.
Lemma inv_weaken (ok ok' : Prop) L w : (ok' → ok) → inv ok L w → inv ok' L w.
Proof. intros Hw []. split; auto. Qed.
Lemma elem_refs a w :
  a ∈ refs w ↔ a ∈ m_socks (w_srv w) ∨ (∃ t, t ∈ w_accept w ∧ a ∈ task_sock t) ∨ a ∈ w_clients w.
Proof. unfold refs. rewrite !elem_of_app, list_elem_of_bind. naive_solver. Qed.

Lemma on_socket_ok {A} a (m : M scope A) w x w' : on_socket a m w = Ok x w' →
  ∃ s σ, w_objs w !! a = Some s ∧ m (mk_scope s (w_proc w)) = Ok x σ ∧
    w' = set_proc (proc σ) (set_objs (<[a := self σ]> (w_objs w)) w).
Proof.
  unfold on_socket. destruct (w_objs w !! a) as [s|]; [|done]. destruct (m _) as [y σ| | |] eqn:E; try done.
  intros [= -> <-]. by eexists _, _.
Qed.
(** An operation of one object: what it keeps there, [ok] if the object may lose
    its descriptor. *)
Lemma on_socket_inv {A} (ok : Prop) L a (m : M scope A) w x w' :
  inv ok L w → triple (λ σ, good (self σ)) m (λ _ σ, good (self σ)) → a ∉ w_clients w →
  (ok → a ∈ m_socks (w_srv w) → ∀ s σ, m_sock s ≠ -1 → m (mk_scope s (w_proc w)) = Ok x σ → m_sock (self σ) ≠ -1) →
  on_socket a m w = Ok x w' → inv ok L w'.
Proof.
  intros [Hd Hg Hs Hc Ha Hn] Hm Hac Hv (s&σ&Ea&E&->)%on_socket_ok.
  split; cbn [w_objs w_srv w_clients set_proc set_objs]; try done.
  - intros b. rewrite lookup_insert_is_Some'. change (refs (set_proc _ _)) with (refs w).
    split; [intros [<-|H]; apply Hd; by eauto|]. intros H. right. by apply Hd.
  - intros b t [[<- <-]|[_ H]]%lookup_insert_Some; [|by eauto]. refine (Hm _ _ _ _ E). by apply (Hg a).
  - intros Hok b Hb. destruct (Hs Hok b Hb) as (t&Et&Ht). destruct (decide (a = b)) as [<-|Hne].
    + exists (self σ). rewrite lookup_insert_eq. split; [done|]. apply (Hv Hok Hb s); [congruence|done].
    + exists t. by rewrite lookup_insert_ne.
  - intros b Hb. destruct (Hc b Hb) as (t&Et&Ht). exists t. rewrite lookup_insert_ne; [done|]. by intros ->.
Qed.
Lemma on_socket_frame {A} a (m : M scope A) w x w' : on_socket a m w = Ok x w' →
  w_srv w' = w_srv w ∧ w_accept w' = w_accept w ∧ w_clients w' = w_clients w.
Proof. by intros (s&σ&_&_&->)%on_socket_ok. Qed.
Lemma new_socket_inv (ok : Prop) L s w a w' : inv ok L w → good s → new_socket s w = Ok a w' →
  inv ok (a :: L) w' ∧ (a ∉ refs w') ∧ (a ∉ L) ∧ w_objs w' !! a = Some s.
Proof.
  intros [Hd Hg Hs Hc Ha Hn] Hgs [= <- <-]. set (a := fresh (dom (w_objs w))).
  assert (w_objs w !! a = None) as Hf by (apply not_elem_of_dom, is_fresh).
  assert (¬ (a ∈ refs w ∨ a ∈ L)) as Hr by (rewrite <-Hd, Hf; by intros [? ?]).
  assert (∀ b, is_Some (w_objs w !! b) → a ≠ b) as Hne by (intros b [t Hb] ->; congruence).
  split; [|repeat split; [tauto..|apply lookup_insert_eq]].
  split; cbn [w_objs w_srv w_clients set_objs]; try done.
  - intros b. rewrite lookup_insert_is_Some', elem_of_cons. change (refs (set_objs _ _)) with (refs w).
    rewrite Hd. naive_solver.
  - intros b t [[_ <-]|[_ H]]%lookup_insert_Some; [done|by eauto].
  - intros Hok b Hb. destruct (Hs Hok b Hb) as (t&Et&Ht). exists t. by rewrite lookup_insert_ne by (apply Hne; eauto).
  - intros b Hb. destruct (Hc b Hb) as (t&Et&Ht). exists t. by rewrite lookup_insert_ne by (apply Hne; eauto).
Qed.
Lemma release_inv (ok : Prop) L a w w' : inv ok (a :: L) w → a ∉ L → release hooked iom a w = Ok tt w' →
  inv ok L w' ∧ w_srv w' = w_srv w ∧ w_accept w' = w_accept w ∧ w_clients w' = w_clients w.
Proof.
  intros Hi HaL E. unfold release in E. apply bind_inv in E as (w0&w1&[= <- <-]&E).
  case_bool_decide as Hr.
  { injection E as <-. destruct Hi as [Hd Hg Hs Hc Ha Hn]. split; [|done]. split; try done.
    intros b. rewrite Hd, elem_of_cons. split; [intros [?|[->|?]]; auto|intros [?|?]; auto]. }
  apply bind_inv in E as (b&w1&E&[= <-]). destruct (on_socket_frame _ _ _ _ _ E) as (Fs&Fa&Fc).
  assert ((a ∉ w_clients w) ∧ (a ∉ m_socks (w_srv w))) as [Hac Has] by (rewrite elem_refs in Hr; naive_solver).
  assert (inv ok (a :: L) w1) as [Hd Hg Hs Hc Ha Hn] by (by eapply (on_socket_inv _ _ _ _ _ _ _ Hi close_good Hac); [|exact E]).
  assert (refs w1 = refs w) as Hre by (unfold refs; by rewrite Fs, Fa, Fc).
  split; [|done]. split; cbn [w_objs w_srv w_clients set_objs]; try done.
  - intros c. change (refs (set_objs _ _)) with (refs w1). rewrite lookup_delete_is_Some, Hd, elem_of_cons, Hre.
    destruct (decide (a = c)) as [<-|]; naive_solver.
  - intros c s [_ H]%lookup_delete_Some. by eauto.
  - rewrite Fs. intros Hok c Hc'. rewrite Fs in Hs. destruct (Hs Hok c Hc') as (s&Es&?). exists s.
    rewrite lookup_delete_ne; [done|]. by intros ->.
  - rewrite Fc. intros c Hc'. rewrite Fc in Hc. destruct (Hc c Hc') as (s&Es&?). exists s.
    rewrite lookup_delete_ne; [done|]. by intros ->.
Qed.
(** The steps of these operations leave the lists and the other objects alone. *)
Definition touches (a : nat) (w w' : World) : Prop :=
  w_srv w' = w_srv w ∧ w_accept w' = w_accept w ∧ w_clients w' = w_clients w ∧
  ∀ b, b ≠ a → w_objs w' !! b = w_objs w !! b.
Lemma touch_trans a w w1 w2 : touches a w w1 → touches a w1 w2 → touches a w w2.
Proof. intros (S1&A1&C1&O1) (S2&A2&C2&O2). repeat split; try congruence. intros b Hb. by rewrite O2, O1. Qed.
Lemma on_socket_touches {A} a (m : M scope A) w x w' : on_socket a m w = Ok x w' → touches a w w'.
Proof. intros (s&σ&_&_&->)%on_socket_ok. repeat split. intros b Hb. by apply lookup_insert_ne. Qed.
Lemma release_touches a w w' : release hooked iom a w = Ok tt w' → touches a w w'.
Proof.
  intros E. unfold release in E. apply bind_inv in E as (w0&w1&[= <- <-]&E).
  case_bool_decide; [by injection E as <-|]. apply bind_inv in E as (b&w1&E&[= <-]).
  apply (touch_trans _ _ w1); [by eapply on_socket_touches|]. repeat split. intros c Hc. by apply lookup_delete_ne.
Qed.
Lemma new_socket_touches s w a w' : new_socket s w = Ok a w' → touches a w w'.
Proof. intros [= <- <-]. repeat split. intros b Hb. by apply lookup_insert_ne. Qed.
Lemma touches_refs a w w' : touches a w w' → refs w' = refs w.
Proof. intros (S&A&C&_). unfold refs. by rewrite S, A, C. Qed.

Lemma release_all_inv (ok : Prop) L l : ∀ w w', inv ok (l ++ L) w → NoDup (l ++ L) →
  release_all hooked iom l w = Ok tt w' →
  inv ok L w' ∧ w_srv w' = w_srv w ∧ w_accept w' = w_accept w ∧ w_clients w' = w_clients w.
Proof.
  induction l as [|a l IH]; intros w w' Hi Hn E; [by injection E as <-|].
  cbn [release_all] in E. apply bind_inv in E as ([]&w1&E1&E). simpl in Hn. apply NoDup_cons in Hn as [Hal Hn].
  destruct (release_inv _ _ _ _ _ Hi Hal E1) as (Hi1&Fs&Fa&Fc).
  destruct (IH _ _ Hi1 Hn E) as (?&->&->&->). done.
Qed.
Lemma clear_socks_inv (ok : Prop) w w' : inv ok [] w → clear_socks hooked iom w = Ok tt w' →
  inv True [] w' ∧ w_srv w' = set_socks [] (w_srv w) ∧ w_accept w' = w_accept w ∧ w_clients w' = w_clients w.
Proof.
  intros [Hd Hg Hs Hc Ha Hn] E. unfold clear_socks in E. apply bind_inv in E as (l&w0&[= <- <-]&E).
  apply bind_inv in E as (?&w1&[= _ <-]&E).
  eapply (release_all_inv True []) in E as (?&->&->&->); [done| |by rewrite app_nil_r].
  rewrite app_nil_r. split; cbn [w_objs w_srv w_clients set_srv m_socks set_socks]; try done.
  - intros a. rewrite Hd, !elem_refs. cbn [w_srv w_accept w_clients set_srv m_socks set_socks].
    rewrite elem_of_nil. tauto.
  - intros _ a []%elem_of_nil.
  - intros a _ []%elem_of_nil.
  - apply NoDup_nil_2.
Qed.

(** ** [bind] *)

(** An open socket of the kind made for [addr]. *)
Definition open_for (w : World) (addr : Address) (a : nat) : Prop :=
  ∃ s, w_objs w !! a = Some s ∧ m_sock s ≠ -1 ∧ m_family s = getFamily addr ∧ m_type s = TCP ∧ m_protocol s = 0.
Lemma open_for_mono addr a w w' : w_objs w' !! a = w_objs w !! a → open_for w addr a → open_for w' addr a.
Proof. unfold open_for. by intros ->. Qed.

(** One turn of the loop: the object is in the list, or gone. *)
Definition bind_step (addr : Address) : M World bool :=
  sock ← new_socket (CreateTCP addr);
  bound ← on_socket sock (Socket.bind hooked addr);
  if negb bound then release hooked iom sock;; mret false
  else
    listening ← on_socket sock Socket.listen;
    if negb listening then release hooked iom sock;; mret false
    else update_srv (λ s, set_socks (m_socks s ++ [sock]) s);; mret true.
Lemma bind_loop_step addr addrs fails w r w' : bind_loop hooked iom (addr :: addrs) fails w = Ok r w' →
  ∃ b w1, bind_step addr w = Ok b w1 ∧
    bind_loop hooked iom addrs (if b then fails else fails ++ [addr]) w1 = Ok r w'.
Proof.
  cbn [bind_loop]. unfold bind_step. intros (sock&w1&E1&(bound&w2&E2&E)%bind_inv)%bind_inv.
  rewrite (bind_ok _ _ _ _ _ E1), (bind_ok _ _ _ _ _ E2). destruct bound; cbn [negb] in E |- *.
  - apply bind_inv in E as (l&w3&E3&E). rewrite (bind_ok _ _ _ _ _ E3). destruct l; cbn [negb] in E |- *.
    all: apply bind_inv in E as ([]&w4&E4&E); rewrite (bind_ok _ _ _ _ _ E4); by eexists _, _.
  - apply bind_inv in E as ([]&w4&E4&E); rewrite (bind_ok _ _ _ _ _ E4); by eexists _, _.
Qed.
(** What a turn leaves alone. *)
Definition stays (w w' : World) : Prop :=
  w_accept w' = w_accept w ∧ w_clients w' = w_clients w ∧ ∀ b, b ∈ refs w → w_objs w' !! b = w_objs w !! b.
Lemma touches_stays a w w' : (a ∉ refs w) → touches a w w' → stays w w'.
Proof. intros Ha (_&A&C&O). split; [done|]. split; [done|]. intros b Hb. apply O. by intros ->. Qed.

Lemma bind_step_drop a w w2 w3 : inv True [a] w2 → (a ∉ refs w) → touches a w w2 → release hooked iom a w2 = Ok tt w3 →
  inv True [] w3 ∧ stays w w3 ∧ ∃ new, w_srv w3 = set_socks (m_socks (w_srv w) ++ new) (w_srv w) ∧ new = [].
Proof.
  intros Hi2 Hr T E3. destruct (release_inv _ _ _ _ _ Hi2 (not_elem_of_nil a) E3) as (Hi3&_).
  pose proof (touch_trans _ _ _ _ T (release_touches _ _ _ E3)) as T3. split; [done|].
  split; [by eapply touches_stays|]. exists []. rewrite app_nil_r. destruct T3 as (->&_). by destruct (w_srv w).
Qed.
(** The object joins the list. *)
Lemma inv_push a w s : inv True [a] w → (a ∉ w_clients w) → (a ∉ m_socks (w_srv w)) → w_objs w !! a = Some s →
  m_sock s ≠ -1 → inv True [] (set_srv (set_socks (m_socks (w_srv w) ++ [a]) (w_srv w)) w).
Proof.
  intros [Hd Hg Hs Hc Ha Hn] Hac Has Ho Hv. split; cbn [w_objs w_srv w_clients set_srv m_socks set_socks]; try done.
  - intros b. rewrite Hd, !elem_refs. cbn [w_srv w_accept w_clients set_srv m_socks set_socks].
    rewrite elem_of_app, list_elem_of_singleton, elem_of_nil. tauto.
  - intros _ b [Hb|Hb%list_elem_of_singleton]%elem_of_app; [by apply Hs|]. subst b. by exists s.
  - intros b Hb [Hin|Hin%list_elem_of_singleton]%elem_of_app; [by eapply Ha|by subst b].
  - apply NoDup_app. split; [done|]. split; [|apply NoDup_singleton]. by intros b Hb ->%list_elem_of_singleton.
Qed.
Lemma bind_step_ok addr w b w' : inv True [] w → bind_step addr w = Ok b w' →
  inv True [] w' ∧ stays w w' ∧ ∃ new, w_srv w' = set_socks (m_socks (w_srv w) ++ new) (w_srv w) ∧
    if b then ∃ a, new = [a] ∧ open_for w' addr a else new = [].
Proof.
  intros Hi E. unfold bind_step in E. apply bind_inv in E as (a&w1&E1&E).
  assert (good (CreateTCP addr)) as Hg by (by intros [=]).
  destruct (new_socket_inv True [] _ _ _ _ Hi Hg E1) as (Hi1&Hr1&_&Ho1).
  pose proof (new_socket_touches _ _ _ _ E1) as T1. rewrite (touches_refs _ _ _ T1) in Hr1.
  assert ((a ∉ w_clients w) ∧ (a ∉ m_socks (w_srv w))) as [Hac Has] by (rewrite elem_refs in Hr1; naive_solver).
  apply bind_inv in E as (bound&w2&E2&E).
  pose proof (touch_trans _ _ _ _ T1 (on_socket_touches _ _ _ _ _ E2)) as T2.
  assert (inv True [a] w2) as Hi2.
  { eapply (on_socket_inv _ _ _ _ _ _ _ Hi1); [| | |exact E2].
    - eapply triple_weaken; [apply (bind_good addr)|done|]. by intros ? ? [? _].
    - destruct T1 as (_&_&->&_). done.
    - intros _ Hin. destruct T1 as (Hs&_). by rewrite Hs in Hin. }
  destruct bound; cbn [negb] in E.
  2: { apply bind_inv in E as ([]&w3&E3&[= <- <-]). by eapply bind_step_drop. }
  assert (open_for w2 addr a) as (s2&Eo&Hv2&Hk2).
  { apply on_socket_ok in E2 as (s&σ&Es&E2&->). rewrite Ho1 in Es. injection Es as <-. exists (self σ).
    cbn [w_objs set_proc set_objs]. rewrite lookup_insert_eq. split; [done|].
    set (σ0 := mk_scope _ _) in E2.
    split; [by destruct (bind_good addr σ0 _ _ Hg E2) as [_ Hv]; apply Hv|].
    exact (k_kind _ _ (bind_kept hooked (CreateTCP addr) addr σ0 _ _ (kept_refl _ Hg) E2)). }
  apply bind_inv in E as (l&w3&E3&E). pose proof (on_socket_touches _ _ _ _ _ E3) as T3.
  pose proof (touch_trans _ _ _ _ T2 T3) as T4. destruct (T4) as (S4&A4&C4&O4).
  assert (inv True [a] w3) as Hi3.
  { eapply (on_socket_inv _ _ _ _ _ _ _ Hi2 (listen_self good)); [| |exact E3]; destruct T2 as (S2&_&C2&_); [by rewrite C2|].
    intros _ Hin. by rewrite S2 in Hin. }
  destruct l; cbn [negb] in E.
  2: { apply bind_inv in E as ([]&w4&E4&[= <- <-]). by eapply bind_step_drop. }
  apply bind_inv in E as (?&w4&[= _ <-]&[= <- <-]).
  assert (open_for w3 addr a) as (s3&Eo3&Hv3&Hk3).
  { apply on_socket_ok in E3 as (s&σ&Es&E3&->). rewrite Eo in Es. injection Es as <-. exists (self σ).
    cbn [w_objs set_proc set_objs]. rewrite lookup_insert_eq. split; [done|].
    set (Q := λ s, m_sock s ≠ -1 ∧ m_family s = getFamily addr ∧ m_type s = TCP ∧ m_protocol s = 0).
    set (σ0 := mk_scope _ _) in E3. exact (listen_self Q σ0 _ _ (conj Hv2 Hk2) E3). }
  refine (conj _ (conj _ _)).
  - apply (inv_push a _ s3); rewrite ?C4, ?S4; done.
  - split; [done|]. split; [done|]. intros b Hb. apply O4. by intros ->.
  - exists [a]. cbn [w_srv set_srv]. rewrite S4. split; [done|]. exists a. split; [done|]. by exists s3.
Qed.

Lemma bind_loop_ok addrs : ∀ fails w r w', inv True [] w → bind_loop hooked iom addrs fails w = Ok r w' →
  inv True [] w' ∧ stays w w' ∧ ∃ bound new failed,
    w_srv w' = set_socks (m_socks (w_srv w) ++ new) (w_srv w) ∧ r = fails ++ failed ∧
    Forall2 (open_for w') bound new ∧ bound `sublist_of` addrs ∧ failed `sublist_of` addrs ∧
    (length bound + length failed)%nat = length addrs.
Proof.
  induction addrs as [|addr addrs IH]; intros fails w r w' Hi E.
  { injection E as <- <-. split; [done|]. split; [done|]. exists [], [], []. rewrite !app_nil_r.
    split; [by destruct (w_srv w)|]. repeat split; try constructor. }
  apply bind_loop_step in E as (b&w1&E1&E). destruct (bind_step_ok _ _ _ _ Hi E1) as (Hi1&(A1&C1&O1)&new1&S1&Hb).
  destruct (IH _ _ _ _ Hi1 E) as (Hi'&(A2&C2&O2)&bound&new&failed&S2&Hr&Hf&Hsb&Hsf&Hl).
  split; [done|]. assert (∀ c, c ∈ refs w → c ∈ refs w1) as Hmono.
  { intros c. rewrite !elem_refs, A1, C1, S1. cbn [m_socks set_socks]. rewrite elem_of_app. tauto. }
  split; [split; [by rewrite A2|]; split; [by rewrite C2|]; intros c Hc; rewrite O2, O1 by auto; done|].
  rewrite S1 in S2. cbn [m_socks set_socks] in S2. rewrite <-app_assoc in S2. destruct b.
  - destruct Hb as (a&->&Ho). exists (addr :: bound), (a :: new), failed. split; [exact S2|]. split; [done|].
    split; [|split; [by constructor|split; [by constructor|cbn [length]; lia]]]. constructor; [|done].
    eapply open_for_mono; [|exact Ho]. apply O2. rewrite elem_refs, S1. left. cbn [m_socks set_socks]. set_solver.
  - subst new1. exists bound, new, (addr :: failed). split; [exact S2|]. split; [by rewrite Hr, <-app_assoc|].
    split; [done|]. split; [by constructor|]. split; [by constructor|]. cbn [length]. lia.
Qed.

(** ** Starting, accepting and stopping *)

(** The lists change, the pointers do not. *)
Lemma inv_lists (ok : Prop) L L' w srv accept : inv ok L w → m_socks srv = m_socks (w_srv w) →
  (∀ a, a ∈ refs (set_srv srv (set_accept accept w)) ∨ a ∈ L' ↔ a ∈ refs w ∨ a ∈ L) →
  inv ok L' (set_srv srv (set_accept accept w)).
Proof.
  intros [Hd Hg Hs Hc Ha Hn] E Hr. split; cbn [w_objs w_srv w_clients set_srv set_accept]; rewrite ?E; try done.
  intros a. rewrite Hd. symmetry. apply Hr.
Qed.
Lemma inv_accept (ok : Prop) L L' w accept : inv ok L w →
  (∀ a, (∃ t, t ∈ accept ∧ a ∈ task_sock t) ∨ a ∈ L' ∨ a ∈ m_socks (w_srv w) ↔
        (∃ t, t ∈ w_accept w ∧ a ∈ task_sock t) ∨ a ∈ L ∨ a ∈ m_socks (w_srv w)) →
  inv ok L' (set_accept accept w).
Proof.
  intros Hi Hr. change (set_accept accept w) with (set_srv (w_srv w) (set_accept accept w)).
  apply (inv_lists ok L); [done..|]. intros a. rewrite !elem_refs. cbn [w_srv w_accept w_clients set_srv set_accept].
  specialize (Hr a). tauto.
Qed.
Lemma task_gone i t (l : list accept_task) a : l !! i = Some t →
  (∃ t, t ∈ l ∧ a ∈ task_sock t) ↔ a ∈ task_sock t ∨ ∃ t, t ∈ delete i l ∧ a ∈ task_sock t.
Proof.
  intros E. setoid_rewrite (delete_Permutation _ _ _ E) at 1. setoid_rewrite elem_of_cons. naive_solver.
Qed.
Lemma delete_of_insert {A} i (x : A) (l : list A) : delete i (<[i := x]> l) = delete i l.
Proof. revert i. induction l as [|y l IH]; intros [|i]; [done..|]. simpl. by rewrite IH. Qed.
Lemma task_moved i t t' (l : list accept_task) a : l !! i = Some t → task_sock t' = task_sock t →
  (∃ t, t ∈ <[i := t']> l ∧ a ∈ task_sock t) ↔ (∃ t, t ∈ l ∧ a ∈ task_sock t).
Proof.
  intros E Ht. pose proof (lookup_lt_Some _ _ _ E) as Hl.
  rewrite (task_gone i t l) by done. rewrite (task_gone i t' (<[i := t']> l)) by (by apply list_lookup_insert_eq).
  by rewrite Ht, delete_of_insert.
Qed.
Lemma start_inv w r w' : inv True [] w → start w = Ok r w' → inv True [] w'.
Proof.
  intros Hi E. unfold start in E. rewrite bind_gets in E. destruct (m_isStop (w_srv w)); [|by injection E as _ <-].
  injection E as _ <-.
  apply (inv_lists True [] [] w (set_stop false (w_srv w)) (w_accept w ++ (AcceptLoop <$> m_socks (w_srv w)))); [done..|].
  intros a. rewrite !elem_refs. cbn [w_srv w_accept w_clients set_srv set_accept m_socks set_stop].
  setoid_rewrite elem_of_app. setoid_rewrite list_elem_of_fmap. split; [|naive_solver].
  intros [[?|[(t&[Ht|(b&->&Hb)]&Ha)|?]]|?]; [naive_solver..| |naive_solver|naive_solver].
  cbn [task_sock] in Ha. apply list_elem_of_singleton in Ha as ->. auto.
Qed.
Lemma stop_inv w w' : inv True [] w → stop w = Ok tt w' → inv True [] w'.
Proof.
  intros Hi [= <-]. apply (inv_lists True [] [] w (set_stop true (w_srv w)) (w_accept w ++ [StopTask])); [done..|].
  intros a. rewrite !elem_refs. cbn [w_srv w_accept w_clients set_srv set_accept m_socks set_stop].
  setoid_rewrite elem_of_app. setoid_rewrite list_elem_of_singleton. split; [|naive_solver].
  intros [[?|[(t&[Ht| ->]&Ha)|?]]|?]; [naive_solver..| |naive_solver|naive_solver]. by apply elem_of_nil in Ha.
Qed.
Lemma accept_test_inv i sock w w' : inv True [] w → w_accept w !! i = Some (AcceptLoop sock) →
  accept_test hooked iom i sock w = Ok tt w' → inv True [] w'.
Proof.
  intros Hi Ei E. unfold accept_test in E. rewrite bind_gets in E. destruct (m_isStop (w_srv w)).
  - rewrite bind_modify in E. eapply release_inv in E as [? _]; [done| |apply not_elem_of_nil].
    apply (inv_accept True []); [done|]. intros a. rewrite (task_gone _ _ (w_accept w) a Ei). cbn [task_sock].
    rewrite elem_of_nil. tauto.
  - apply bind_inv in E as (fd&w1&E1&[= <-]). destruct (on_socket_frame _ _ _ _ _ E1) as (S&A&C).
    assert (inv True [] w1) as Hi1.
    { apply on_socket_ok in E1 as (s&σ&Es&[= _ <-]&->). cbn [self proc].
      rewrite insert_id by done. by destruct w. }
    apply (inv_accept True []); [done|]. intros a. rewrite A. rewrite (task_moved i (AcceptLoop sock)) by done. done.
Qed.
Lemma set_proc_inv (ok : Prop) L w p : inv ok L w → inv ok L (set_proc p w).
Proof. by intros []; split. Qed.
(** A new client is handed to a worker. *)
Lemma inv_hand c w s : inv True [c] w → (c ∉ m_socks (w_srv w)) → w_objs w !! c = Some s → open_client s →
  inv True [] (set_clients (w_clients w ++ [c]) w).
Proof.
  intros [Hd Hg Hs Hc Ha Hn] Hcs Ho Hv. split; cbn [w_objs w_srv w_clients set_clients]; try done.
  - intros b. rewrite Hd, !elem_refs. cbn [w_srv w_accept w_clients set_clients].
    rewrite elem_of_app, list_elem_of_singleton, elem_of_nil. tauto.
  - intros b [Hb|Hb%list_elem_of_singleton]%elem_of_app; [by apply Hc|]. subst b. by exists s.
  - intros b [Hb|Hb%list_elem_of_singleton]%elem_of_app; [by apply Ha|by subst b].
Qed.
Lemma setRecvTimeout_self (Q : Socket → Prop) v :
  triple (λ σ, Q (self σ)) (Socket.setRecvTimeout hooked v) (λ _ σ, Q (self σ)).
Proof. apply triple_keep; [apply setOption_self|]. intros _. by apply triple_ret. Qed.
Lemma accept_body_inv fuel i sock fd a w w' : inv True [] w → w_accept w !! i = Some (InAccept sock fd) →
  accept_body hooked iom fuel i sock fd a w = Ok tt w' → inv True [] w' ∧
  w_srv w' = w_srv w ∧ w_accept w' = <[i := AcceptLoop sock]> (w_accept w).
Proof.
  intros Hi Ei E. unfold accept_body in E. apply bind_inv in E as (o&w0&[= <- <-]&E).
  apply bind_inv in E as (s&w0&E0&E). destruct (w_objs w !! sock) as [s0|] eqn:Es; [|done]. injection E0 as -> <-.
  apply bind_inv in E as (client&w1&E1&E). unfold in_world in E1.
  destruct (accept_on _ _ _ _ _ _ _) as [o p| | |] eqn:Ea; try done. injection E1 as -> <-.
  pose proof (accept_on_open fuel s fd a (w_proc w) _ _ I Ea) as Hopen. apply bind_inv in E as ([]&w2&E2&[= <-]).
  assert (inv True [] w2 ∧ w_srv w2 = w_srv w ∧ w_accept w2 = w_accept w) as (Hi2&S&A).
  { destruct client as [c|]; [|injection E2 as <-; split; [by apply set_proc_inv|done]].
    destruct (Hopen c eq_refl) as [Hc1 Hc2]. apply bind_inv in E2 as (b&w3&E3&E2).
    destruct (new_socket_inv True [] _ _ _ _ (set_proc_inv _ _ _ p Hi) ltac:(by intros _) E3) as (Hi3&Hr&_&Ho).
    destruct (new_socket_touches _ _ _ _ E3) as (S3&A3&C3&_).
    assert ((b ∉ w_clients w3) ∧ (b ∉ m_socks (w_srv w3))) as [Hbc Hbs] by (rewrite elem_refs in Hr; naive_solver).
    apply bind_inv in E2 as (v&w4&[= <- <-]&E2). apply bind_inv in E2 as (?&w4&E4&[= <-]).
    destruct (on_socket_frame _ _ _ _ _ E4) as (S4&A4&C4).
    split; [|cbn [w_srv w_accept set_clients]; by rewrite S4, A4, S3, A3].
    pose proof (on_socket_inv True [b] b _ _ _ _ Hi3 (setRecvTimeout_self good _) Hbc ltac:(by intros _ Hin) E4) as Hi4.
    apply on_socket_ok in E4 as (t&σ&Et&E4&->). rewrite Ho in Et. injection Et as <-.
    set (σ0 := mk_scope _ _) in E4.
    apply (inv_hand b _ (self σ)); [done..|apply lookup_insert_eq|].
    exact (setRecvTimeout_self open_client _ σ0 _ _ (conj Hc1 Hc2) E4). }
  split; [|by split; [|rewrite A]]. apply (inv_accept True []); [done|]. intros b. rewrite A.
  by rewrite (task_moved i (InAccept sock fd)) by done.
Qed.
(** An object that is closed has no descriptor. *)
Lemma close_shut σ r σ' : Socket.close hooked iom σ = Ok r σ' → m_sock (self σ') = -1.
Proof.
  unfold Socket.close. intros (s&σ1&[= <- <-]&E)%bind_inv.
  destruct (negb (m_isConnected (self σ)) && (m_sock (self σ) =? -1)) eqn:Eb.
  { injection E as _ <-. apply andb_true_iff in Eb as [_ H]. by apply Z.eqb_eq. }
  apply bind_inv in E as (?&σ1&[= _ <-]&E). destruct (Z.eqb_spec (m_sock (self σ)) (-1)) as [Hs|Hs]; cbn [negb] in E.
  - by injection E as _ <-.
  - apply bind_inv in E as (?&σ2&(?&σ3&_&[= _ <-])%bind_inv&[= _ <-]). done.
Qed.
Definition shut (w : World) (a : nat) : Prop := ∃ s, w_objs w !! a = Some s ∧ m_sock s = -1.
Lemma close_all_inv l : ∀ w w', inv False [] w → (∀ a, a ∈ l → a ∉ w_clients w) → close_all hooked iom l w = Ok tt w' →
  inv False [] w' ∧ w_srv w' = w_srv w ∧ w_accept w' = w_accept w ∧ w_clients w' = w_clients w ∧
  ∀ a, a ∈ l ∨ shut w a → shut w' a.
Proof.
  induction l as [|b l IH]; intros w w' Hi Hl E.
  { injection E as <-. do 4 (split; [done|]). by intros a [[]%elem_of_nil|?]. }
  cbn [close_all] in E. apply bind_inv in E as (r1&w1&E1&E). apply bind_inv in E as (r2&w2&E2&E).
  pose proof (Hl b (list_elem_of_here _ _)) as Hb.
  pose proof (on_socket_inv False [] b _ _ _ _ Hi (cancel_self iom good _) Hb ltac:(done) E1) as Hi1.
  destruct (on_socket_frame _ _ _ _ _ E1) as (S1&A1&C1).
  assert (inv False [] w2) as Hi2 by (eapply (on_socket_inv False [] b); [exact Hi1|exact close_good|by rewrite C1|done|exact E2]).
  destruct (on_socket_frame _ _ _ _ _ E2) as (S2&A2&C2).
  destruct (IH w2 w' Hi2) as (Hi'&S'&A'&C'&Hc'); [|exact E|].
  { intros a Ha. rewrite C2, C1. apply Hl. by apply list_elem_of_further. }
  split; [done|]. split; [congruence|]. split; [congruence|]. split; [congruence|]. intros a Ha. apply Hc'.
  destruct (decide (a ∈ l)) as [?|Hn]; [by left|right]. apply on_socket_ok in E2 as (s&σ&Es&E2&->). unfold shut.
  cbn [w_objs set_proc set_objs]. destruct (decide (a = b)) as [->|Hne].
  - exists (self σ). rewrite lookup_insert_eq. split; [done|]. by eapply close_shut.
  - rewrite lookup_insert_ne by done. apply on_socket_ok in E1 as (s1&σ1&_&_&->). cbn [w_objs set_proc set_objs].
    rewrite lookup_insert_ne by done. destruct Ha as [Ha|?]; [|done]. by apply elem_of_cons in Ha as [?|?].
Qed.
(** Pointers that go out of scope do not touch an object that is still held. *)
Lemma release_held a b w w' : b ∈ refs w → release hooked iom a w = Ok tt w' →
  w_objs w' !! b = w_objs w !! b ∧ b ∈ refs w'.
Proof.
  intros Hb E. pose proof (release_touches _ _ _ E) as T. rewrite (touches_refs _ _ _ T). split; [|done].
  destruct (decide (b = a)) as [->|]; [|by apply T]. unfold release in E. rewrite bind_get in E.
  rewrite bool_decide_true in E by done. by injection E as <-.
Qed.
Lemma release_all_held l b : ∀ w w', b ∈ refs w → release_all hooked iom l w = Ok tt w' →
  w_objs w' !! b = w_objs w !! b.
Proof.
  induction l as [|a l IH]; intros w w' Hb E; [by injection E as <-|].
  cbn [release_all] in E. apply bind_inv in E as ([]&w1&E1&E). destruct (release_held _ _ _ _ Hb E1) as [<- Hb1]. eauto.
Qed.
Lemma clear_socks_held b w w' : (∃ t, t ∈ w_accept w ∧ b ∈ task_sock t) ∨ b ∈ w_clients w →
  clear_socks hooked iom w = Ok tt w' → w_objs w' !! b = w_objs w !! b.
Proof.
  intros Hb E. unfold clear_socks, update_srv in E. rewrite bind_gets, bind_modify in E.
  eapply (release_all_held _ b) in E; [done|]. rewrite elem_refs. by right.
Qed.

(** The function [stop] schedules: the listening sockets are closed, those the
    accepting fibers still hold as well, and the list is empty. *)
Lemma stop_task_ok i w w' : inv True [] w → w_accept w !! i = Some StopTask → stop_task hooked iom i w = Ok tt w' →
  inv True [] w' ∧ w_srv w' = set_socks [] (w_srv w) ∧ w_accept w' = delete i (w_accept w) ∧ w_clients w' = w_clients w ∧
  ∀ a, a ∈ m_socks (w_srv w) → (∃ t, t ∈ w_accept w ∧ a ∈ task_sock t) → shut w' a.
Proof.
  intros Hi Ei E. unfold stop_task in E. rewrite bind_gets in E. apply bind_inv in E as ([]&w1&E1&E).
  apply bind_inv in E as ([]&w2&E2&[= <-]).
  assert (∀ a, a ∈ m_socks (w_srv w) → a ∉ w_clients w) as Hap by (intros a Ha Hc; by eapply (i_apart _ _ _ Hi)).
  destruct (close_all_inv _ _ _ (inv_weaken True False _ _ ltac:(done) Hi) Hap E1) as (Hi1&S1&A1&C1&Hs1).
  destruct (clear_socks_inv _ _ _ Hi1 E2) as (Hi2&S2&A2&C2).
  assert (w_accept w2 = w_accept w) as A3 by congruence.
  split; [|cbn [w_srv w_accept w_clients set_accept]; rewrite S2, S1, A3; split; [done|split; [done|split; [congruence|]]]].
  - apply (inv_accept True []); [done|]. intros a. rewrite A3, (task_gone i StopTask (w_accept w)) by done.
    cbn [task_sock]. rewrite elem_of_nil. tauto.
  - intros a Ha Ht. destruct (Hs1 a (or_introl Ha)) as (s&Es&?). exists s. split; [|done]. cbn [w_objs set_accept].
    rewrite (clear_socks_held a w1); [done|left; by rewrite A1|done].
Qed.
Lemma handle_client_inv j c w w' : inv True [] w → w_clients w !! j = Some c → handle_client hooked iom j c w = Ok tt w' →
  inv True [] w'.
Proof.
  intros [Hd Hg Hs Hc Ha Hn] Ej E. unfold handle_client in E. rewrite bind_modify in E.
  eapply (release_inv True) in E as [? _]; [done| |apply not_elem_of_nil].
  assert (∀ a, a ∈ delete j (w_clients w) → a ∈ w_clients w) as Hsub.
  { intros a Hin. rewrite (delete_Permutation _ _ _ Ej). by apply list_elem_of_further. }
  split; cbn [w_objs w_srv w_clients set_clients]; auto.
  intros a. rewrite Hd, !elem_refs. cbn [w_srv w_accept w_clients set_clients].
  rewrite (delete_Permutation _ _ _ Ej) at 1. rewrite !elem_of_cons, elem_of_nil. tauto.
Qed.
Lemma bind_inv_ok addrs fails w r w' : inv True [] w → bind hooked iom addrs fails w = Ok r w' → inv True [] w'.
Proof.
  intros Hi E. unfold bind in E. apply Prelude.bind_inv in E as (f&w1&E1&E).
  destruct (bind_loop_ok _ _ _ _ _ Hi E1) as [Hi1 _]. destruct (negb (bool_decide (f = []))).
  - apply Prelude.bind_inv in E as ([]&w2&E2&[= _ <-]). by eapply clear_socks_inv in E2 as [? _].
  - by injection E as _ <-.
Qed.
Lemma fiber_step_inv fuel w w' : inv True [] w → fiber_step hooked iom fuel w w' → inv True [] w'.
Proof.
  intros Hi Hs. revert Hi. destruct Hs as [w i sock w' Ei E|w i sock fd a w' Ei E|w i w' Ei E]; intros Hi.
  - exact (accept_test_inv _ _ _ _ Hi Ei E).
  - by destruct (accept_body_inv _ _ _ _ _ _ _ Hi Ei E).
  - by destruct (stop_task_ok _ _ _ Hi Ei E).
Qed.
Lemma step_inv fuel w w' : inv True [] w → step hooked iom fuel w w' → inv True [] w'.
Proof.
  intros Hi Hs. revert Hi.
  destruct Hs as [w addrs fails r w' E|w r w' E|w w' E|w v|w w' E|w j c w' Ej E]; intros Hi.
  - by eapply bind_inv_ok.
  - by eapply start_inv.
  - by eapply stop_inv.
  - by apply (inv_lists True [] [] w (setRecvTimeout v (w_srv w)) (w_accept w)).
  - by eapply fiber_step_inv.
  - by eapply handle_client_inv.
Qed.
Definition fresh_world (p : Process) (read_timeout : Z) : World := mkWorld p ∅ (TcpServer_new read_timeout) [] [].
Lemma fresh_inv p t : inv True [] (fresh_world p t).
Proof.
  split; unfold refs; cbn [fresh_world w_objs w_srv w_accept w_clients m_socks TcpServer_new]; try (by intros ? []%elem_of_nil).
  - intros a. rewrite lookup_empty. split; [by intros [? ?]|]. by intros [[]%elem_of_nil|[]%elem_of_nil].
  - intros a s. by rewrite lookup_empty.
  - intros _ a []%elem_of_nil.
  - apply NoDup_nil_2.
Qed.
Lemma run_inv fuel w w' : rtc (step hooked iom fuel) w w' → inv True [] w → inv True [] w'.
Proof. induction 1; [done|]. intros. eauto using step_inv. Qed.
(** C14: the sockets of a server in every run.  The objects alive are exactly those a
    list, a fiber or a worker points to, so nothing dangles and nothing is leaked;
    every listening socket has a descriptor, every client handed to a worker is
    connected, and a client is never one of the listening sockets. *)
Theorem server_invariant (fuel : nat) (p : Process) (read_timeout : Z) (w : World) :
  rtc (step hooked iom fuel) (fresh_world p read_timeout) w →
  (∀ a, is_Some (w_objs w !! a) ↔ a ∈ refs w) ∧
  NoDup (m_socks (w_srv w)) ∧ (∀ a, a ∈ w_clients w → a ∉ m_socks (w_srv w)) ∧
  (∀ a, a ∈ m_socks (w_srv w) → ∃ s, w_objs w !! a = Some s ∧ isValid s = true) ∧
  (∀ a, a ∈ w_clients w → ∃ s, w_objs w !! a = Some s ∧ isValid s = true ∧ m_isConnected s = true).
Proof.
  intros [Hd Hg Hs Hc Ha Hn]%run_inv; [|apply fresh_inv].
  assert (∀ s, m_sock s ≠ -1 → isValid s = true) as Hv by (by intros s ?; apply negb_true_iff, Z.eqb_neq).
  refine (conj _ (conj Hn (conj Ha (conj _ _)))).
  - intros a. rewrite Hd, elem_of_nil. tauto.
  - intros a (s&?&?)%(Hs I). eauto.
  - intros a (s&?&[??])%Hc. eauto.
Qed.

Lemma sublist_full {A} (l k : list A) : l `sublist_of` k → (length k ≤ length l)%nat → l = k.
Proof.
  induction 1 as [|x l k _ IH|x l k Hs _]; [done|cbn [length]; intros; f_equal; apply IH; lia|].
  apply sublist_length in Hs. cbn [length]. lia.
Qed.
Lemma bind_result addrs fails w r w' : inv True [] w → bind hooked iom addrs fails w = Ok r w' →
  ∃ failed, r = (bool_decide (fails ++ failed = []), fails ++ failed) ∧ failed `sublist_of` addrs ∧
    if r.1
    then ∃ new, w_srv w' = set_socks (m_socks (w_srv w) ++ new) (w_srv w) ∧ Forall2 (open_for w') addrs new ∧
      w_accept w' = w_accept w
    else w_srv w' = set_socks [] (w_srv w) ∧
      ∀ a, is_Some (w_objs w' !! a) ↔ (∃ t, t ∈ w_accept w ∧ a ∈ task_sock t) ∨ a ∈ w_clients w.
Proof.
  intros Hi E. unfold bind in E.
  apply Prelude.bind_inv in E as (f&w1&E1&E).
  destruct (bind_loop_ok _ _ _ _ _ Hi E1) as (Hi1&(A1&C1&_)&bound&new&failed&S1&->&Hf&Hsb&Hsf&Hl).
  exists failed. case_bool_decide as Hn; cbn [negb] in E.
  - injection E as <- <-. split; [done|]. split; [done|]. exists new. split; [done|]. split; [|done].
    apply app_nil in Hn as [_ ->]. cbn [length] in Hl. assert (bound = addrs) as <-; [|done].
    apply sublist_full; [done|lia].
  - apply Prelude.bind_inv in E as ([]&w2&E2&[= <- <-]). split; [done|]. split; [done|].
    destruct (clear_socks_inv _ _ _ Hi1 E2) as (Hi2&S2&A2&C2). cbn [fst]. split; [by rewrite S2, S1|].
    intros a. rewrite (i_dom _ _ _ Hi2), elem_refs, S2, A2, C2, A1, C1. cbn [m_socks set_socks]. rewrite !elem_of_nil. tauto.
Qed.
(** [bind].  Every address is tried; the ones that fail are reported in order.  The
    result is true exactly when none failed, and then there is one open listening
    socket of the family of each address behind those the server had.  If any failed
    the server has no listening socket left, not even one it had before, and those no
    fiber accepts on are destroyed. *)
Theorem bind_exact (addrs fails : list Address) (fuel : nat) (p : Process) (read_timeout : Z) (w : World) r w' :
  rtc (step hooked iom fuel) (fresh_world p read_timeout) w → bind hooked iom addrs fails w = Ok r w' →
  ∃ failed, r = (bool_decide (fails ++ failed = []), fails ++ failed) ∧ failed `sublist_of` addrs ∧
    if r.1
    then ∃ new, w_srv w' = set_socks (m_socks (w_srv w) ++ new) (w_srv w) ∧ Forall2 (open_for w') addrs new
    else w_srv w' = set_socks [] (w_srv w) ∧
      ∀ a, is_Some (w_objs w' !! a) ↔ (∃ t, t ∈ w_accept w ∧ a ∈ task_sock t) ∨ a ∈ w_clients w.
Proof.
  intros Hi E. eapply run_inv in Hi; [|apply fresh_inv].
  destruct (bind_result _ _ _ _ _ Hi E) as (failed&->&Hs&Hr). exists failed. split; [done|]. split; [done|].
  case_bool_decide; [|done]. destruct Hr as (new&?&?&_). by exists new.
Qed.

(** What a fiber of the accepting IOManager has still to do once the server stops. *)
Definition weight (t : accept_task) : nat := match t with InAccept _ _ => 2 | _ => 1 end.
Definition drain (w : World) : nat := sum_list_with weight (w_accept w).
Lemma drain_delete i t l : l !! i = Some t → sum_list_with weight l = (weight t + sum_list_with weight (delete i l))%nat.
Proof.
  revert i. induction l as [|x l IH]; intros [|i]; try done; [by intros [= ->]|]. intros E.
  change (delete (S i) (x :: l)) with (x :: delete i l). cbn [sum_list_with]. rewrite (IH i E). lia.
Qed.
Lemma fiber_step_drains fuel w w' : inv True [] w → m_isStop (w_srv w) = true → fiber_step hooked iom fuel w w' →
  (drain w' < drain w)%nat ∧ m_isStop (w_srv w') = true ∧
  (StopTask ∈ w_accept w ∨ m_socks (w_srv w) = [] → StopTask ∈ w_accept w' ∨ m_socks (w_srv w') = []).
Proof.
  intros Hi Hst Hs. revert Hi Hst. unfold drain.
  destruct Hs as [w i sock w' Ei E|w i sock fd a w' Ei E|w i w' Ei E]; intros Hi Hst.
  - unfold accept_test in E. rewrite bind_gets, Hst, bind_modify in E.
    assert (w_srv w' = w_srv w ∧ w_accept w' = delete i (w_accept w)) as [S A].
    { by destruct (release_touches _ _ _ E) as (->&->&_). }
    rewrite S, A, (drain_delete _ _ _ Ei). split; [simpl; lia|]. split; [done|]. intros [H|?]; [left|by right].
    rewrite (delete_Permutation _ _ _ Ei) in H. by apply elem_of_cons in H as [?|?].
  - destruct (accept_body_inv _ _ _ _ _ _ _ Hi Ei E) as (_&->&A).
    pose proof (lookup_lt_Some _ _ _ Ei) as Hlt. rewrite A, (drain_delete _ _ _ Ei).
    rewrite (drain_delete i (AcceptLoop sock) (<[i := _]> _)) by (by apply list_lookup_insert_eq).
    rewrite delete_of_insert. split; [simpl; lia|]. split; [done|]. intros [H|?]; [left|by right].
    rewrite (delete_Permutation (<[i := _]> _) i (AcceptLoop sock)) by (by apply list_lookup_insert_eq).
    rewrite delete_of_insert. rewrite (delete_Permutation _ _ _ Ei) in H. apply elem_of_cons in H as [?|?]; [done|].
    by apply list_elem_of_further.
  - destruct (stop_task_ok _ _ _ Hi Ei E) as (_&->&->&_). rewrite (drain_delete _ _ _ Ei). split; [simpl; lia|].
    split; [done|]. intros _. by right.
Qed.
Lemma nsteps_drain fuel n w w' : nsteps (fiber_step hooked iom fuel) n w w' → inv True [] w → m_isStop (w_srv w) = true →
  (n + drain w' ≤ drain w)%nat ∧ inv True [] w' ∧
  (StopTask ∈ w_accept w ∨ m_socks (w_srv w) = [] → StopTask ∈ w_accept w' ∨ m_socks (w_srv w') = []).
Proof.
  induction 1 as [w|n w w1 w' Hs _ IH]; intros Hi Hst; [done|].
  destruct (fiber_step_drains _ _ _ Hi Hst Hs) as (Hd&Hst1&Hm).
  destruct (IH (fiber_step_inv _ _ _ Hi Hs) Hst1) as (Hd1&Hi1&Hm1). split; [lia|]. auto.
Qed.

(** A fiber that accepts on a closed socket: [accept] of descriptor -1 fails at once. *)
Definition spinning (sock : nat) (w : World) : Prop :=
  AcceptLoop sock ∈ w_accept w ∧ shut w sock ∧ m_isStop (w_srv w) = false.
Lemma accept_on_closed fuel s a p : (∀ t, (reply t (sys_io "accept" (-1))).1 = -1) →
  ∃ p', accept_on hooked iom fuel s (-1) a p = Ok None p'.
Proof.
  intros Hr. assert (∃ p', sys (sys_io "accept" (-1)) p = Ok (-1) p') as [p' E].
  { eexists. unfold sys. cbv zeta. rewrite Hr. reflexivity. }
  exists p'. unfold accept_on, Hook.accept, do_io, FdManager.get. change (-1 =? -1) with true.
  destruct hooked; cbn [negb]; cbv iota; [unfold mbind at 2, M_bind; cbv beta iota delta [mret M_ret]|]; by rewrite (bind_ok _ _ _ _ _ E).
Qed.
Lemma spin fuel sock w : (∀ t, (reply t (sys_io "accept" (-1))).1 = -1) → spinning sock w →
  ∃ w1 w2, fiber_step hooked iom fuel w w1 ∧ fiber_step hooked iom fuel w1 w2 ∧ spinning sock w2 ∧
    w_clients w2 = w_clients w ∧ w_srv w2 = w_srv w.
Proof.
  intros Hr (Ha&(s&Es&Hs)&Hst). apply list_elem_of_lookup_1 in Ha as [i Ei].
  pose proof (lookup_lt_Some _ _ _ Ei) as Hlt.
  set (w1 := set_accept (<[i := InAccept sock (-1)]> (w_accept w)) w).
  destruct (accept_on_closed fuel s 0%nat (w_proc w) Hr) as [p' Ep].
  set (w2 := set_accept (<[i := AcceptLoop sock]> (w_accept w1)) (set_proc p' w1)).
  exists w1, w2. split; [|split; [|split; [|done]]].
  - apply (fiber_test _ _ _ _ i sock); [done|]. unfold accept_test, on_socket. rewrite bind_gets, Hst.
    unfold mbind at 1, M_bind. rewrite Es. unfold fd_of, gets. cbn [self proc]. rewrite Hs.
    rewrite insert_id by done. by destruct w.
  - apply (fiber_accept _ _ _ _ i sock (-1) 0%nat); [by apply list_lookup_insert_eq|].
    unfold accept_body. rewrite bind_gets. change (w_objs w1) with (w_objs w). rewrite Es. rewrite (bind_ok _ _ _ s w1) by done.
    unfold in_world. unfold mbind at 1, M_bind. change (w_proc w1) with (w_proc w). rewrite Ep. done.
  - split; [|split; [by exists s|done]]. apply list_elem_of_lookup_2 with i. subst w2 w1. cbn [w_accept set_accept].
    apply list_lookup_insert_eq. by rewrite length_insert.
Qed.

(** A server started again before the function [stop] schedules has run.  That
    function then closes the listening sockets of a running server: a fiber that
    accepts on one of them fails and tries again for ever, without another system
    call that waits, and the server never accepts a client. *)
Theorem restart_spins (fuel : nat) (p : Process) (read_timeout : Z) (w w1 w2 w' : World) (i sock : nat) (r : bool) :
  (∀ t, (reply t (sys_io "accept" (-1))).1 = -1) →
  rtc (step hooked iom fuel) (fresh_world p read_timeout) w →
  AcceptLoop sock ∈ w_accept w → sock ∈ m_socks (w_srv w) →
  stop w = Ok tt w1 → start w1 = Ok r w2 →
  w_accept w2 !! i = Some StopTask → stop_task hooked iom i w2 = Ok tt w' →
  m_socks (w_srv w') = [] ∧ m_isStop (w_srv w') = false ∧
  ∀ n, ∃ w'', nsteps (fiber_step hooked iom fuel) (2 * n) w' w'' ∧
    AcceptLoop sock ∈ w_accept w'' ∧ w_srv w'' = w_srv w' ∧ w_clients w'' = w_clients w'.
Proof.
  intros Hr Hi Ha Hs E1 E2 Ei E. eapply run_inv in Hi; [|apply fresh_inv].
  pose proof (start_inv _ _ _ (stop_inv _ _ Hi E1) E2) as Hi2. injection E1 as <-. injection E2 as _ <-.
  set (w2 := set_accept _ _) in *. assert (AcceptLoop sock ∈ w_accept w2) as Ha2 by (cbn; set_solver).
  destruct (stop_task_ok _ _ _ Hi2 Ei E) as (_&S&A&_&Hsh). rewrite S. split; [done|]. split; [done|].
  assert (spinning sock w') as Hsp.
  { split; [|split; [|by rewrite S]].
    - rewrite A. rewrite (delete_Permutation _ _ _ Ei) in Ha2. by apply elem_of_cons in Ha2 as [?|?].
    - apply Hsh; [done|]. exists (AcceptLoop sock). split; [done|]. by apply list_elem_of_here. }
  rewrite <-S. clear -Hr Hsp. intros n. revert w' Hsp. induction n as [|n IH]; intros w Hsp.
  { exists w. split; [constructor|]. destruct Hsp as [? _]. done. }
  destruct (spin fuel sock w Hr Hsp) as (w1&w2&F1&F2&Hsp2&C&Sv). destruct (IH w2 Hsp2) as (w''&Hn&?&?&?).
  exists w''. split; [|by rewrite <-Sv, <-C]. replace (2 * S n)%nat with (S (S (2 * n)))%nat by lia. by do 2 (econstructor; [done|]).
Qed.
End server.

(** ** Witnesses *)

Module Demo.
Import SocketSpec.Demo.
(** [accept] fails on a closed descriptor and else gives descriptor 9. *)
#[local] Instance server_kernel : Kernel := {|
  reply _ c := match c with
    | sys_socket => (5, 0) | sys_fstat _ => (0xC000, 0)
    | sys_io "accept" fd => if fd =? -1 then (-1, EBADF) else (9, 0)
    | _ => (0, 0) end;
  others _ t := t;
|}.
#[local] Existing Instances demo_host demo_names.
Definition ok_world {A} (r : res World A) : World := match r with Ok _ w => w | _ => fresh_world demo_process 0 end.
Definition w_fresh : World := fresh_world demo_process 120000.
Definition w_bound : World := ok_world (bind true true [demo_peer 80] [] w_fresh).
Definition w_started : World := ok_world (start w_bound).
Definition the_sock : nat := default 0%nat (head (m_socks (w_srv w_bound))).
Definition w_waiting : World := ok_world (accept_test true true 0 the_sock w_started).
Definition w_accepted : World := ok_world (accept_body true true 3 0 the_sock 5 1 w_waiting).

Lemma bound_run : rtc (step true true 3) w_fresh w_bound.
Proof. apply rtc_once. apply (step_bind _ _ _ _ [demo_peer 80] [] (true, [])). vm_compute. reflexivity. Qed.
Lemma started_run : rtc (step true true 3) w_fresh w_started.
Proof. eapply rtc_r; [apply bound_run|]. apply (step_start _ _ _ _ true). vm_compute. reflexivity. Qed.
Lemma accepted_run : rtc (step true true 3) w_fresh w_accepted.
Proof.
  eapply rtc_r; [eapply rtc_r; [apply started_run|]|].
  - apply step_fiber, (fiber_test _ _ _ _ 0 the_sock); [vm_compute; reflexivity|].
    instantiate (1 := w_waiting). vm_compute. reflexivity.
  - apply step_fiber, (fiber_accept _ _ _ _ 0 the_sock 5 1); vm_compute; reflexivity.
Qed.
Lemma server_invariant_witness :
  length (w_clients w_accepted) = 1%nat ∧
  ∀ a, a ∈ w_clients w_accepted → ∃ s, w_objs w_accepted !! a = Some s ∧ isValid s = true ∧ m_isConnected s = true.
Proof. split; [vm_compute; reflexivity|]. apply (server_invariant true true 3 demo_process 120000 _ accepted_run). Defined.
Lemma bind_exact_witness :
  ∃ new, w_srv w_bound = set_socks (m_socks (w_srv w_fresh) ++ new) (w_srv w_fresh) ∧
    Forall2 (open_for w_bound) [demo_peer 80] new.
Proof.
  destruct (bind_exact true true [demo_peer 80] [] 3 demo_process 120000 w_fresh (true, []) w_bound) as (failed&_&_&H).
  - apply rtc_refl.
  - vm_compute. reflexivity.
  - exact H.
Defined.
Definition w_stopped : World := ok_world (stop w_accepted).
Definition w_loop_done : World := ok_world (accept_test true true 0 the_sock w_stopped).
Definition w_drained : World := ok_world (stop_task true true 0 w_loop_done).
Definition w_restarted : World := ok_world (start (ok_world (stop w_started))).
Definition w_spins : World := ok_world (stop_task true true 1 w_restarted).
Lemma restart_spins_witness :
  ∃ w'', nsteps (fiber_step true true 3) (2 * 1000) w_spins w'' ∧
    AcceptLoop the_sock ∈ w_accept w'' ∧ w_srv w'' = w_srv w_spins ∧ w_clients w'' = w_clients w_spins.
Proof.
  refine (proj2 (proj2 (restart_spins true true 3 demo_process 120000 w_started (ok_world (stop w_started)) w_restarted w_spins 1 the_sock true _ _ _ _ _ _ _ _)) 1000%nat).
  - reflexivity.
  - apply started_run.
  - vm_compute. apply list_elem_of_here.
  - vm_compute. apply list_elem_of_here.
  - vm_compute. reflexivity.
  - vm_compute. reflexivity.
  - vm_compute. reflexivity.
  - vm_compute. reflexivity.
Defined.
End Demo.
