(* ===== verification/Ragel.v ===== *)
(** The shape of the code Ragel generates for a scanner, and its runs.

    Such code is a set of labels: [st_case_n] looks at the current character and
    jumps, a label [ctr] runs actions and goes on to a state.  A jump is thus a
    list of actions and a state; the scanner advances over the text, leaving it at
    the error state, by an [fbreak] of an action, or at the end of the buffer.
    State 0 is the error state of every machine. *)
From S2P Require Import Prelude.
From Stdlib Require Import Strings.Byte.
From coqutil Require Import Byte.

Local Open Scope Z_scope.

(** The value of a [char]. *)
Definition schar (b : byte) : Z := wraps 8 (byte.unsigned b).

Section ragel.
Context {A : Type}.

(** Actions to run and the state to go to; [leave] is set for [fbreak], after
    which the generated code leaves the loop behind the character. *)
Record jump := mkjump { acts : list A; dest : Z; leave : bool }.
(** [goto st<d>] *)
Definition to (d : Z) : jump := mkjump [] d false.
(** [ctr: actions; goto st<d>] *)
Definition via (l : list A) (d : Z) : jump := mkjump l d false.
Definition via_out (l : list A) (d : Z) : jump := mkjump l d true.

(** What a run leaves behind: the actions with the positions they ran at, the
    state, the position, and whether the loop was left before the end. *)
Record outcome := mkoutcome { trace : list (A * Z); final : Z; pos : Z; out : bool }.

Definition prepend (l : list (A * Z)) (o : outcome) : outcome :=
  mkoutcome (l ++ trace o) (final o) (pos o) (out o).

(** From state [cs] at position [p], with [l] the text that is left. *)
Fixpoint run (table : Z → Z → jump) (cs p : Z) (l : list byte) : outcome :=
  match l with
  | [] => mkoutcome [] cs p false
  | b :: l =>
      if cs =? 0 then mkoutcome [] 0 p true
      else
        let j := table cs (schar b) in
        let ran := (λ a, (a, p)) <$> acts j in
        if leave j then mkoutcome ran (dest j) (p + 1) true
        else if dest j =? 0 then mkoutcome ran 0 p true
        else prepend ran (run table (dest j) (p + 1) l)
  end.

(** ** Runs *)

Implicit Types (table : Z → Z → jump) (l : list byte).

Lemma run_pos table cs p l :
  p ≤ pos (run table cs p l) ≤ p + Z.of_nat (length l) ∧
  (out (run table cs p l) = false → pos (run table cs p l) = p + Z.of_nat (length l)).
Proof.
  revert cs p. induction l as [|b l IH]; intros cs p; simpl; [lia|].
  destruct (cs =? 0); [simpl; lia|]. destruct (leave _); [simpl; lia|].
  destruct (dest _ =? 0); [simpl; lia|]. simpl.
  destruct (IH (dest (table cs (schar b))) (p + 1)) as [H1 H2]. split; [lia|]. intros Ho. rewrite H2; [lia|done].
Qed.

(** Every action runs at a position of the text. *)
Lemma run_trace_pos table cs p l a q :
  (a, q) ∈ trace (run table cs p l) → p ≤ q < p + Z.of_nat (length l).
Proof.
  revert cs p. induction l as [|b l IH]; intros cs p; [intros []%elem_of_nil|].
  assert (∀ j, (a, q) ∈ (λ a, (a, p)) <$> acts j → q = p) as Hj.
  { intros j (a'&[= _ E]&_)%list_elem_of_fmap. exact E. }
  rewrite length_cons. cbn [run]. destruct (cs =? 0); [intros []%elem_of_nil|].
  destruct (leave _); [intros H%Hj; lia|].
  destruct (dest _ =? 0); [intros H%Hj; lia|].
  intros [H%Hj|H%IH]%elem_of_app; lia.
Qed.

(** A text in two parts. *)
Lemma run_app table cs p l1 l2 :
  run table cs p (l1 ++ l2) =
    let o := run table cs p l1 in
    if out o then o else prepend (trace o) (run table (final o) (pos o) l2).
Proof.
  revert cs p. induction l1 as [|b l1 IH]; intros cs p; simpl; [by destruct (run table cs p l2)|].
  destruct (cs =? 0); [done|]. destruct (leave _); [done|]. destruct (dest _ =? 0); [done|].
  rewrite IH. simpl. destruct (out _); [done|]. unfold prepend. simpl. by rewrite app_assoc.
Qed.

(** Shifting the position. *)
Lemma run_shift table cs p d l :
  run table cs (p + d) l =
    mkoutcome ((λ e, (e.1, e.2 + d)) <$> trace (run table cs p l)) (final (run table cs p l))
      (pos (run table cs p l) + d) (out (run table cs p l)).
Proof.
  assert (∀ j, (λ e : A * Z, (e.1, e.2 + d)) <$> ((λ a, (a, p)) <$> acts j) = (λ a, (a, p + d)) <$> acts j) as Hm
    by (intros j; by rewrite <-list_fmap_compose).
  revert cs p Hm. induction l as [|b l IH]; intros cs p Hm; simpl; [done|].
  destruct (cs =? 0); [done|]. destruct (leave _); simpl; [rewrite Hm; f_equal; lia|].
  destruct (dest _ =? 0); simpl; [by rewrite Hm|].
  replace (p + d + 1) with (p + 1 + d) by lia. rewrite IH by (intros; by rewrite <-list_fmap_compose).
  unfold prepend. simpl. by rewrite fmap_app, Hm.
Qed.

(** The state a run ends in does not depend on how the text is cut. *)
Lemma run_final_app table cs p q l1 l2 :
  out (run table cs p l1) = false →
  final (run table cs p (l1 ++ l2)) = final (run table (final (run table cs p l1)) q l2).
Proof.
  intros Ho. rewrite run_app. cbv zeta. rewrite Ho. simpl.
  replace (pos (run table cs p l1)) with (q + (pos (run table cs p l1) - q)) by lia.
  by rewrite run_shift.
Qed.

(** Staying in a state over a class of characters, without actions. *)
Lemma run_loop table cs (f : byte → bool) l p rest :
  cs ≠ 0 → (∀ b, f b = true → table cs (schar b) = to cs) → forallb f l = true →
  run table cs p (l ++ rest) = run table cs (p + Z.of_nat (length l)) rest.
Proof.
  intros Hcs Hf. revert p. induction l as [|b l IH]; intros p; simpl.
  { intros _. by rewrite Z.add_0_r. }
  intros [Hb Hl]%andb_true_iff. rewrite (proj2 (Z.eqb_neq cs 0)), (Hf b Hb) by done. simpl.
  rewrite (proj2 (Z.eqb_neq cs 0)), IH by done.
  replace (p + 1 + Z.of_nat (length l)) with (p + Z.of_nat (S (length l))) by lia.
  by destruct (run table cs _ rest).
Qed.
(** One character. *)
Lemma run_step table cs p b rest :
  cs ≠ 0 → dest (table cs (schar b)) ≠ 0 → leave (table cs (schar b)) = false →
  run table cs p (b :: rest) =
    prepend ((λ a, (a, p)) <$> acts (table cs (schar b))) (run table (dest (table cs (schar b))) (p + 1) rest).
Proof.
  intros Hcs Hd Hl. simpl. by rewrite (proj2 (Z.eqb_neq cs 0)), Hl, (proj2 (Z.eqb_neq _ 0)).
Qed.
End ragel.
Arguments jump : clear implicits.
Arguments outcome : clear implicits.

(** All bytes, for checking a table by evaluation. *)
Definition all_bytes : list byte := map (λ n, byte.of_Z (Z.of_nat n)) (seq 0 256).
Lemma all_bytes_spec (P : byte → bool) : forallb P all_bytes = true → ∀ b, P b = true.
Proof.
  rewrite forallb_forall. intros H b. apply H. unfold all_bytes. apply in_map_iff.
  pose proof (byte.unsigned_range b). exists (Z.to_nat (byte.unsigned b)). split.
  - rewrite Z2Nat.id by lia. apply byte.of_Z_unsigned.
  - apply in_seq. lia.
Qed.

(** ** Checking and using a table *)

Section tables.
Context {A : Type} `{EqDecision A}.

Definition same_jump (j k : jump A) : bool :=
  bool_decide (acts j = acts k) && (dest j =? dest k) && Bool.eqb (leave j) (leave k).
Lemma same_jump_eq j k : same_jump j k = true → j = k.
Proof.
  unfold same_jump. rewrite !andb_true_iff, bool_decide_eq_true, Z.eqb_eq, Bool.eqb_true_iff.
  destruct j, k; simpl. intros [[-> ->] ->]. done.
Qed.
(** In state [cs] every character of a class makes the jump [j]. *)
Definition jumps (table : Z → Z → jump A) (cs : Z) (f : byte → bool) (j : jump A) : bool :=
  forallb (λ b, implb (f b) (same_jump (table cs (schar b)) j)) all_bytes.
Lemma jumps_spec table cs f j b : jumps table cs f j = true → f b = true → table cs (schar b) = j.
Proof.
  intros H Hb. apply (all_bytes_spec _) with (b := b) in H. rewrite Hb in H. by apply same_jump_eq.
Qed.
Definition is_byte (x : byte) (b : byte) : bool := byte.unsigned b =? byte.unsigned x.
Lemma is_byte_refl x : is_byte x x = true.
Proof. apply Z.eqb_refl. Qed.
Lemma is_byte_eq x b : is_byte x b = true → b = x.
Proof. intros H%Z.eqb_eq. by apply byte.unsigned_inj. Qed.

(** A jump that stays in the loop. *)
Lemma run_jump table cs p b rest (l : list A) d :
  cs ≠ 0 → d ≠ 0 → table cs (schar b) = via l d →
  run table cs p (b :: rest) = prepend ((λ a, (a, p)) <$> l) (run table d (p + 1) rest).
Proof. intros Hcs Hd E. rewrite run_step; rewrite ?E; done. Qed.
Lemma run_via table cs p f b rest (l : list A) d :
  cs ≠ 0 → d ≠ 0 → jumps table cs f (via l d) = true → f b = true →
  run table cs p (b :: rest) = prepend ((λ a, (a, p)) <$> l) (run table d (p + 1) rest).
Proof. intros Hcs Hd Hj Hb. apply run_jump; [done|done|]. by apply (jumps_spec table cs f). Qed.
Lemma prepend_nil (o : outcome A) : prepend [] o = o.
Proof. by destruct o. Qed.
Lemma prepend_app l1 l2 (o : outcome A) : prepend l1 (prepend l2 o) = prepend (l1 ++ l2) o.
Proof. unfold prepend. simpl. by rewrite app_assoc. Qed.
Lemma run_while table cs p f l rest :
  cs ≠ 0 → jumps table cs f (to cs) = true → forallb f l = true →
  run table cs p (l ++ rest) = run table cs (p + Z.of_nat (length l)) rest.
Proof. intros Hcs Hj Hl. apply (run_loop _ _ f); [done| |done]. intros b. by apply jumps_spec. Qed.

(** Characters of a class and encoded ones, "%" and two hexadecimal digits. *)
Context (f hex : byte → bool).
Fixpoint encoded (l : list byte) : bool :=
  match l with
  | [] => true
  | b :: l =>
      if is_byte "%"%byte b
      then match l with a :: b :: l => hex a && hex b && encoded l | _ => false end
      else f b && encoded l
  end.
Definition plain (b : byte) : bool := f b && negb (is_byte "%"%byte b).
(** The states of such a loop: between characters, behind "%", behind a digit. *)
Definition encoded_loop (table : Z → Z → jump A) (s s1 s2 : Z) : bool :=
  jumps table s plain (to s) && jumps table s (is_byte "%"%byte) (to s1)
  && jumps table s1 hex (to s2) && jumps table s2 hex (to s).
Lemma encoded_ind (P : list byte → Prop) :
  P [] → (∀ a b l, hex a = true → hex b = true → encoded l = true → P l → P ("%"%byte :: a :: b :: l)) →
  (∀ b l, plain b = true → encoded l = true → P l → P (b :: l)) →
  ∀ l, encoded l = true → P l.
Proof.
  intros Hn He Hp l. remember (length l) as n eqn:En. revert l En.
  induction (lt_wf n) as [n _ IH]. intros [|b l] ->; [done|]. cbn [encoded].
  destruct (is_byte "%"%byte b) eqn:Eb.
  - apply is_byte_eq in Eb as ->.
    destruct l as [|a [|b l]]; try done. rewrite !andb_true_iff. intros [[Ha Hb] Hl].
    apply He; try done. eapply IH; [|done|done]. simpl. lia.
  - rewrite andb_true_iff. intros [Hb Hl]. apply Hp; [by unfold plain; rewrite Hb, Eb|done|].
    eapply IH; [|done|done]. simpl. lia.
Qed.
Lemma run_encoded table s s1 s2 p l rest :
  s ≠ 0 → s1 ≠ 0 → s2 ≠ 0 → encoded_loop table s s1 s2 = true → encoded l = true →
  run table s p (l ++ rest) = run table s (p + Z.of_nat (length l)) rest.
Proof.
  unfold encoded_loop. rewrite !andb_true_iff. intros Hs Hs1 Hs2 [[[H1 H2] H3] H4] Hl. revert l Hl p.
  apply (encoded_ind (λ l, ∀ p, run table s p (l ++ rest) = run table s (p + Z.of_nat (length l)) rest)).
  - intros p. by rewrite Z.add_0_r.
  - intros a b l Ha Hb _ IH p. cbn [app].
    rewrite (run_via table s p (is_byte "%"%byte) "%"%byte _ [] s1 Hs Hs1 H2 (is_byte_refl _)).
    rewrite (run_via table s1 _ hex a _ [] s2 Hs1 Hs2 H3 Ha).
    rewrite (run_via table s2 _ hex b _ [] s Hs2 Hs H4 Hb).
    rewrite IH. cbn [fmap list_fmap length]. rewrite !prepend_nil. f_equal. lia.
  - intros b l Hb _ IH p. cbn [app]. rewrite (run_via table s p plain b _ [] s Hs Hs H1 Hb), IH.
    cbn [fmap list_fmap length]. rewrite prepend_nil. f_equal. lia.
Qed.
(** Entering the loop, with the actions [A0] at the first character. *)
Definition encoded_enter (table : Z → Z → jump A) (s0 : Z) (f0 : byte → bool) (A0 : list A) (s s1 : Z) : bool :=
  jumps table s0 f0 (via A0 s) && jumps table s0 (is_byte "%"%byte) (via A0 s1).
Lemma run_enter table s0 f0 A0 s s1 s2 p b l rest :
  s0 ≠ 0 → s ≠ 0 → s1 ≠ 0 → s2 ≠ 0 → encoded_loop table s s1 s2 = true →
  encoded_enter table s0 f0 A0 s s1 = true → encoded (b :: l) = true →
  f0 b || is_byte "%"%byte b = true →
  run table s0 p (b :: l ++ rest) =
    prepend ((λ a, (a, p)) <$> A0) (run table s (p + Z.of_nat (S (length l))) rest).
Proof.
  unfold encoded_enter. rewrite andb_true_iff. intros Hs0 Hs Hs1 Hs2 Hloop [He1 He2] Hl Hb.
  pose proof Hloop as Hl'. unfold encoded_loop in Hl'. rewrite !andb_true_iff in Hl'. destruct Hl' as [[[_ _] H3] H4].
  cbn [encoded] in Hl. destruct (is_byte "%"%byte b) eqn:Eb.
  - destruct l as [|x [|y l]]; try done. rewrite !andb_true_iff in Hl. destruct Hl as [[Hx Hy] Hl].
    rewrite (run_via table s0 p _ b _ A0 s1 Hs0 Hs1 He2 Eb). cbn [app].
    rewrite (run_via table s1 _ hex x _ [] s2 Hs1 Hs2 H3 Hx).
    rewrite (run_via table s2 _ hex y _ [] s Hs2 Hs H4 Hy), (run_encoded table s s1 s2) by done.
    cbn [fmap list_fmap length]. rewrite !prepend_nil. do 2 f_equal. lia.
  - rewrite orb_false_r in Hb. apply andb_true_iff in Hl as [_ Hl].
    rewrite (run_via table s0 p _ b _ A0 s Hs0 Hs He1 Hb), (run_encoded table s s1 s2) by done.
    do 2 f_equal. lia.
Qed.
(** ** Loops over several states

    Where an element is recognised together with others the generated states come
    in sets that behave alike. *)

(** From every state of [S] the characters of a class lead into [T] with the same
    actions. *)
Definition into (table : Z → Z → jump A) (S : list Z) (g : byte → bool) (l : list A) (T : list Z) : bool :=
  forallb (λ s, negb (s =? 0) &&
    forallb (λ b, implb (g b)
      (let j := table s (schar b) in
       bool_decide (acts j = l) && negb (leave j) && negb (dest j =? 0) && bool_decide (dest j ∈ T))) all_bytes) S.
Lemma run_into table S g l T s p b rest :
  into table S g l T = true → s ∈ S → g b = true →
  ∃ d, d ∈ T ∧ run table s p (b :: rest) = prepend ((λ a, (a, p)) <$> l) (run table d (p + 1) rest).
Proof.
  unfold into. rewrite forallb_forall. intros H Hs Hb. specialize (H s (proj1 (list_elem_of_In _ _) Hs)).
  apply andb_true_iff in H as [H0 H]. apply negb_true_iff, Z.eqb_neq in H0.
  apply (all_bytes_spec _) with (b := b) in H. rewrite Hb in H. cbn [implb] in H. cbv zeta in H.
  rewrite !andb_true_iff, !bool_decide_eq_true, !negb_true_iff, Z.eqb_neq in H. destruct H as [[[E Hl] Hd] HT].
  exists (dest (table s (schar b))). split; [done|]. rewrite run_step by done. by rewrite E.
Qed.
(** The loop of [encoded_loop] with sets of states. *)
Definition encoded_within (table : Z → Z → jump A) (S S1 S2 : list Z) : bool :=
  into table S plain [] S && into table S (is_byte "%"%byte) [] S1
  && into table S1 hex [] S2 && into table S2 hex [] S.
Lemma run_within table S S1 S2 s p l rest :
  encoded_within table S S1 S2 = true → s ∈ S → encoded l = true →
  ∃ d, d ∈ S ∧ run table s p (l ++ rest) = run table d (p + Z.of_nat (length l)) rest.
Proof.
  unfold encoded_within. rewrite !andb_true_iff. intros [[[H1 H2] H3] H4] Hs Hl. revert l Hl s Hs p.
  apply (encoded_ind (λ l, ∀ s, s ∈ S → ∀ p,
    ∃ d, d ∈ S ∧ run table s p (l ++ rest) = run table d (p + Z.of_nat (length l)) rest)).
  - intros s Hs p. exists s. by rewrite Z.add_0_r.
  - intros a b l Ha Hb _ IH s Hs p. cbn [app].
    destruct (run_into table S _ [] S1 s p "%"%byte (a :: b :: l ++ rest) H2 Hs (is_byte_refl _)) as (d1&Hd1&->).
    destruct (run_into table S1 hex [] S2 d1 (p + 1) a (b :: l ++ rest) H3 Hd1 Ha) as (d2&Hd2&->).
    destruct (run_into table S2 hex [] S d2 (p + 1 + 1) b (l ++ rest) H4 Hd2 Hb) as (d3&Hd3&->).
    destruct (IH d3 Hd3 (p + 1 + 1 + 1)) as (d&Hd&->). exists d. split; [done|].
    cbn [fmap list_fmap length]. rewrite !prepend_nil. f_equal. lia.
  - intros b l Hb _ IH s Hs p. cbn [app].
    destruct (run_into table S plain [] S s p b (l ++ rest) H1 Hs Hb) as (d1&Hd1&->).
    destruct (IH d1 Hd1 (p + 1)) as (d&Hd&->). exists d. split; [done|].
    cbn [fmap list_fmap length]. rewrite prepend_nil. f_equal. lia.
Qed.
(** Entering it from [s0] with the actions [A0] at the first character. *)
Definition enter_within (table : Z → Z → jump A) (s0 : Z) (A0 : list A) (S S1 : list Z) : bool :=
  into table [s0] plain A0 S && into table [s0] (is_byte "%"%byte) A0 S1.
Lemma run_enter_within table s0 A0 S S1 S2 p l rest :
  encoded_within table S S1 S2 = true → enter_within table s0 A0 S S1 = true → encoded l = true → l ≠ [] →
  ∃ d, d ∈ S ∧ run table s0 p (l ++ rest) =
    prepend ((λ a, (a, p)) <$> A0) (run table d (p + Z.of_nat (length l)) rest).
Proof.
  unfold enter_within. rewrite andb_true_iff. intros Hw [E1 E2] Hl Hne.
  pose proof Hw as Hw'. unfold encoded_within in Hw'. rewrite !andb_true_iff in Hw'. destruct Hw' as [[_ H3] H4].
  assert (s0 ∈ [s0]) as Hs0 by by apply list_elem_of_here.
  destruct l as [|b l]; [done|]. cbn [encoded] in Hl. destruct (is_byte "%"%byte b) eqn:Eb.
  - destruct l as [|x [|y l]]; try done. rewrite !andb_true_iff in Hl. destruct Hl as [[Hx Hy] Hl]. cbn [app].
    destruct (run_into table [s0] _ A0 S1 s0 p b (x :: y :: l ++ rest) E2 Hs0 Eb) as (d1&Hd1&->).
    destruct (run_into table S1 hex [] S2 d1 (p + 1) x (y :: l ++ rest) H3 Hd1 Hx) as (d2&Hd2&->).
    destruct (run_into table S2 hex [] S d2 (p + 1 + 1) y (l ++ rest) H4 Hd2 Hy) as (d3&Hd3&->).
    destruct (run_within table S S1 S2 d3 (p + 1 + 1 + 1) l rest Hw Hd3 Hl) as (d&Hd&->). exists d. split; [done|].
    cbn [fmap list_fmap length]. rewrite !prepend_nil. do 2 f_equal. lia.
  - apply andb_true_iff in Hl as [Hb Hl]. cbn [app].
    assert (plain b = true) as Hp by (by unfold plain; rewrite Hb, Eb).
    destruct (run_into table [s0] plain A0 S s0 p b (l ++ rest) E1 Hs0 Hp) as (d1&Hd1&->).
    destruct (run_within table S S1 S2 d1 (p + 1) l rest Hw Hd1 Hl) as (d&Hd&->). exists d. split; [done|].
    cbn [fmap list_fmap length]. do 2 f_equal. lia.
Qed.
End tables.
