(* ===== verification/Http11States.v ===== *)
(** The scanner of HTTP requests as Ragel generated it
    ([sylar/http/http11_parser.rl.cc]): one definition per label, [req_case_n] for
    [st_case_n] and [req_ctr_n] for [ctr_n], with the comparisons on the character
    in the order of the code.  [uri_relaxed] is the parser's flag of that name. *)
From S2P Require Import Prelude Ragel.

Local Open Scope Z_scope.

(** The actions of the grammar. *)
Inductive http_action :=
  | Mark | StartField | WriteField | StartValue | WriteValue | RequestMethod | RequestUri
  | Fragment | StartQuery | QueryString | HttpVersion | RequestPath | Done | Xml | Json.
#[export] Instance http_action_eq_dec : EqDecision http_action.
Proof. solve_decision. Defined.

(** ** Action labels *)

Definition req_ctr_0 : jump http_action := via [Mark] 2.
Definition req_ctr_2 : jump http_action := via [Mark] 194.
Definition req_ctr_3 : jump http_action := via [Mark] 198.
Definition req_ctr_4 : jump http_action := via [RequestMethod] 3.
Definition req_ctr_6 : jump http_action := via [Mark; RequestPath; RequestUri] 4.
Definition req_ctr_7 : jump http_action := via [Mark] 19.
Definition req_ctr_8 : jump http_action := via [Mark; RequestPath; RequestUri] 20.
Definition req_ctr_9 : jump http_action := via [Mark] 24.
Definition req_ctr_10 : jump http_action := via [Mark] 33.
Definition req_ctr_11 : jump http_action := via [Mark; RequestPath] 29.
Definition req_ctr_12 : jump http_action := via [Mark] 173.
Definition req_ctr_13 : jump http_action := via [Mark] 19.
Definition req_ctr_15 : jump http_action := via [Mark] 5.
Definition req_ctr_23 : jump http_action := via [HttpVersion] 13.
Definition req_ctr_24 : jump http_action := via [HttpVersion] 17.
Definition req_ctr_25 : jump http_action := via [StartField] 14.
Definition req_ctr_26 : jump http_action := via_out [StartField; Done] 348.
Definition req_ctr_27 : jump http_action := via [StartField] 18.
Definition req_ctr_29 : jump http_action := via [WriteField] 15.
Definition req_ctr_30 : jump http_action := via [StartValue] 16.
Definition req_ctr_31 : jump http_action := via [StartValue] 15.
Definition req_ctr_32 : jump http_action := via [StartValue; WriteValue] 13.
Definition req_ctr_33 : jump http_action := via [StartValue; WriteValue] 17.
Definition req_ctr_35 : jump http_action := via [WriteValue] 13.
Definition req_ctr_36 : jump http_action := via [WriteValue] 17.
Definition req_ctr_38 : jump http_action := via_out [Done] 348.
Definition req_ctr_39 : jump http_action := via [RequestPath; RequestUri] 4.
Definition req_ctr_41 : jump http_action := via [RequestPath; RequestUri] 20.
Definition req_ctr_44 : jump http_action := via [RequestPath] 29.
Definition req_ctr_46 : jump http_action := via [Mark] 21.
Definition req_ctr_47 : jump http_action := via [Mark; Fragment] 4.
Definition req_ctr_48 : jump http_action := via [Mark] 22.
Definition req_ctr_49 : jump http_action := via [Mark] 21.
Definition req_ctr_51 : jump http_action := via [Fragment] 4.
Definition req_ctr_59 : jump http_action := via [StartQuery] 30.
Definition req_ctr_60 : jump http_action := via [StartQuery; QueryString; RequestUri] 4.
Definition req_ctr_61 : jump http_action := via [StartQuery; QueryString; RequestUri] 20.
Definition req_ctr_62 : jump http_action := via [StartQuery] 31.
Definition req_ctr_63 : jump http_action := via [StartQuery] 30.
Definition req_ctr_65 : jump http_action := via [QueryString; RequestUri] 4.
Definition req_ctr_66 : jump http_action := via [QueryString; RequestUri] 20.
Definition req_ctr_215 : jump http_action := via [Mark] 26.
Definition req_ctr_216 : jump http_action := via [Mark] 27.
Definition req_ctr_217 : jump http_action := via [Mark] 26.
Definition req_ctr_237 : jump http_action := via [RequestPath] 196.
Definition req_ctr_240 : jump http_action := via_out [Xml; Done] 349.
Definition req_ctr_241 : jump http_action := via [RequestPath] 199.
Definition req_ctr_246 : jump http_action := via [Mark] 200.
Definition req_ctr_249 : jump http_action := via_out [Json; Done] 349.

(** ** States *)

Definition req_case_1 (uri_relaxed : bool) (c : Z) : jump http_action :=
  if c =? 60 then req_ctr_2
  else if c =? 64 then req_ctr_3
  else if 57 <? c then (if (65 <=? c) && (c <=? 90) then req_ctr_0 else to 0)
  else if 48 <=? c then req_ctr_0 else to 0.
Definition req_case_2 (uri_relaxed : bool) (c : Z) : jump http_action :=
  if c =? 32 then req_ctr_4
  else if 57 <? c then (if (65 <=? c) && (c <=? 90) then to 175 else to 0)
  else if 48 <=? c then to 175 else to 0.
Definition req_case_3 (uri_relaxed : bool) (c : Z) : jump http_action :=
  if c =? 32 then req_ctr_6
  else if c =? 33 then req_ctr_7
  else if c =? 35 then req_ctr_8
  else if c =? 37 then req_ctr_9
  else if c =? 47 then req_ctr_10
  else if c =? 59 then req_ctr_7
  else if c =? 61 then req_ctr_7
  else if c =? 63 then req_ctr_11
  else if c =? 64 then req_ctr_7
  else if c =? 94 then (if uri_relaxed then req_ctr_13 else to 0)
  else if c =? 95 then req_ctr_7
  else if c =? 123 then (if uri_relaxed then req_ctr_13 else to 0)
  else if c =? 125 then (if uri_relaxed then req_ctr_13 else to 0)
  else if c =? 126 then req_ctr_7
  else if c <? 65 then (if (36 <=? c) && (c <=? 57) then req_ctr_7 else to 0)
  else if 90 <? c then (if (97 <=? c) && (c <=? 122) then req_ctr_12 else to 0)
  else req_ctr_12.
Definition req_case_4 (uri_relaxed : bool) (c : Z) : jump http_action :=
  if c =? 72 then req_ctr_15 else to 0.
Definition req_case_5 (uri_relaxed : bool) (c : Z) : jump http_action :=
  if c =? 84 then to 6 else to 0.
Definition req_case_6 (uri_relaxed : bool) (c : Z) : jump http_action :=
  if c =? 84 then to 7 else to 0.
Definition req_case_7 (uri_relaxed : bool) (c : Z) : jump http_action :=
  if c =? 80 then to 8 else to 0.
Definition req_case_8 (uri_relaxed : bool) (c : Z) : jump http_action :=
  if c =? 47 then to 9 else to 0.
Definition req_case_9 (uri_relaxed : bool) (c : Z) : jump http_action :=
  if c =? 49 then to 10 else to 0.
Definition req_case_10 (uri_relaxed : bool) (c : Z) : jump http_action :=
  if c =? 46 then to 11 else to 0.
Definition req_case_11 (uri_relaxed : bool) (c : Z) : jump http_action :=
  if (48 <=? c) && (c <=? 49) then to 12 else to 0.
Definition req_case_12 (uri_relaxed : bool) (c : Z) : jump http_action :=
  if c =? 10 then req_ctr_23
  else if c =? 13 then req_ctr_24 else to 0.
Definition req_case_13 (uri_relaxed : bool) (c : Z) : jump http_action :=
  if c =? 10 then req_ctr_26
  else if c =? 13 then req_ctr_27
  else if c =? 33 then req_ctr_25
  else if c =? 124 then req_ctr_25
  else if c =? 126 then req_ctr_25
  else if c <? 42 then (if c <? 11 then (if (1 <=? c) && (c <=? 8) then req_ctr_25 else to 0)
    else if 31 <? c then (if (35 <=? c) && (c <=? 39) then req_ctr_25 else to 0)
    else req_ctr_25)
  else if 43 <? c then (if c <? 48 then (if (45 <=? c) && (c <=? 46) then req_ctr_25 else to 0)
    else if 57 <? c then (if 90 <? c then (if (94 <=? c) && (c <=? 122) then req_ctr_25 else to 0)
      else if 65 <=? c then req_ctr_25 else to 0)
    else req_ctr_25)
  else req_ctr_25.
Definition req_case_14 (uri_relaxed : bool) (c : Z) : jump http_action :=
  if c =? 33 then to 14
  else if c =? 58 then req_ctr_29
  else if c =? 124 then to 14
  else if c =? 126 then to 14
  else if c <? 42 then (if c <? 10 then (if (1 <=? c) && (c <=? 8) then to 14 else to 0)
    else if 31 <? c then (if (35 <=? c) && (c <=? 39) then to 14 else to 0)
    else to 14)
  else if 43 <? c then (if c <? 48 then (if (45 <=? c) && (c <=? 46) then to 14 else to 0)
    else if 57 <? c then (if 90 <? c then (if (94 <=? c) && (c <=? 122) then to 14 else to 0)
      else if 65 <=? c then to 14 else to 0)
    else to 14)
  else to 14.
Definition req_case_15 (uri_relaxed : bool) (c : Z) : jump http_action :=
  if c =? 0 then to 0
  else if c =? 9 then req_ctr_31
  else if c =? 10 then req_ctr_32
  else if c =? 13 then req_ctr_33
  else if c =? 32 then req_ctr_31
  else if c =? 127 then to 0 else req_ctr_30.
Definition req_case_16 (uri_relaxed : bool) (c : Z) : jump http_action :=
  if c =? 0 then to 0
  else if c =? 10 then req_ctr_35
  else if c =? 13 then req_ctr_36
  else if c =? 127 then to 0 else to 16.
Definition req_case_17 (uri_relaxed : bool) (c : Z) : jump http_action :=
  if c =? 10 then to 13 else to 0.
Definition req_case_18 (uri_relaxed : bool) (c : Z) : jump http_action :=
  if c =? 10 then req_ctr_38
  else if c =? 33 then to 14
  else if c =? 58 then req_ctr_29
  else if c =? 124 then to 14
  else if c =? 126 then to 14
  else if c <? 42 then (if c <? 11 then (if (1 <=? c) && (c <=? 8) then to 14 else to 0)
    else if 31 <? c then (if (35 <=? c) && (c <=? 39) then to 14 else to 0)
    else to 14)
  else if 43 <? c then (if c <? 48 then (if (45 <=? c) && (c <=? 46) then to 14 else to 0)
    else if 57 <? c then (if 90 <? c then (if (94 <=? c) && (c <=? 122) then to 14 else to 0)
      else if 65 <=? c then to 14 else to 0)
    else to 14)
  else to 14.
Definition req_case_19 (uri_relaxed : bool) (c : Z) : jump http_action :=
  if c =? 32 then req_ctr_39
  else if c =? 33 then to 19
  else if c =? 35 then req_ctr_41
  else if c =? 37 then to 24
  else if c =? 47 then to 26
  else if c =? 59 then to 19
  else if c =? 61 then to 19
  else if c =? 63 then req_ctr_44
  else if c =? 94 then (if uri_relaxed then to 19 else to 0)
  else if c =? 95 then to 19
  else if c =? 123 then (if uri_relaxed then to 19 else to 0)
  else if c =? 125 then (if uri_relaxed then to 19 else to 0)
  else if c =? 126 then to 19
  else if c <? 64 then (if (36 <=? c) && (c <=? 57) then to 19 else to 0)
  else if 90 <? c then (if (97 <=? c) && (c <=? 122) then to 19 else to 0)
  else to 19.
Definition req_case_20 (uri_relaxed : bool) (c : Z) : jump http_action :=
  if c =? 32 then req_ctr_47
  else if c =? 37 then req_ctr_48
  else if c =? 60 then to 0
  else if c =? 62 then to 0
  else if c =? 94 then (if uri_relaxed then req_ctr_49 else to 0)
  else if c =? 96 then to 0
  else if c =? 124 then to 0
  else if c =? 127 then to 0
  else if c <? 34 then (if (0 <=? c) && (c <=? 31) then to 0 else req_ctr_46)
  else if 35 <? c then (if 93 <? c then (if (123 <=? c) && (c <=? 125) then (if uri_relaxed then req_ctr_49 else to 0)
      else req_ctr_46)
    else if 91 <=? c then to 0 else req_ctr_46)
  else to 0.
Definition req_case_21 (uri_relaxed : bool) (c : Z) : jump http_action :=
  if c =? 32 then req_ctr_51
  else if c =? 37 then to 22
  else if c =? 60 then to 0
  else if c =? 62 then to 0
  else if c =? 94 then (if uri_relaxed then to 21 else to 0)
  else if c =? 96 then to 0
  else if c =? 124 then to 0
  else if c =? 127 then to 0
  else if c <? 34 then (if (0 <=? c) && (c <=? 31) then to 0 else to 21)
  else if 35 <? c then (if 93 <? c then (if (123 <=? c) && (c <=? 125) then (if uri_relaxed then to 21 else to 0)
      else to 21)
    else if 91 <=? c then to 0 else to 21)
  else to 0.
Definition req_case_22 (uri_relaxed : bool) (c : Z) : jump http_action :=
  if c <? 65 then (if (48 <=? c) && (c <=? 57) then to 23 else to 0)
  else if 70 <? c then (if (97 <=? c) && (c <=? 102) then to 23 else to 0)
  else to 23.
Definition req_case_23 (uri_relaxed : bool) (c : Z) : jump http_action :=
  if c <? 65 then (if (48 <=? c) && (c <=? 57) then to 21 else to 0)
  else if 70 <? c then (if (97 <=? c) && (c <=? 102) then to 21 else to 0)
  else to 21.
Definition req_case_24 (uri_relaxed : bool) (c : Z) : jump http_action :=
  if c <? 65 then (if (48 <=? c) && (c <=? 57) then to 25 else to 0)
  else if 70 <? c then (if (97 <=? c) && (c <=? 102) then to 25 else to 0)
  else to 25.
Definition req_case_25 (uri_relaxed : bool) (c : Z) : jump http_action :=
  if c <? 65 then (if (48 <=? c) && (c <=? 57) then to 19 else to 0)
  else if 70 <? c then (if (97 <=? c) && (c <=? 102) then to 19 else to 0)
  else to 19.
Definition req_case_26 (uri_relaxed : bool) (c : Z) : jump http_action :=
  if c =? 32 then req_ctr_39
  else if c =? 34 then to 0
  else if c =? 35 then req_ctr_41
  else if c =? 37 then to 27
  else if c =? 60 then to 0
  else if c =? 62 then to 0
  else if c =? 63 then req_ctr_44
  else if c =? 94 then (if uri_relaxed then to 26 else to 0)
  else if c =? 96 then to 0
  else if c =? 124 then to 0
  else if c =? 127 then to 0
  else if c <? 91 then (if (0 <=? c) && (c <=? 31) then to 0 else to 26)
  else if 93 <? c then (if (123 <=? c) && (c <=? 125) then (if uri_relaxed then to 26 else to 0)
    else to 26)
  else to 0.
Definition req_case_27 (uri_relaxed : bool) (c : Z) : jump http_action :=
  if c <? 65 then (if (48 <=? c) && (c <=? 57) then to 28 else to 0)
  else if 70 <? c then (if (97 <=? c) && (c <=? 102) then to 28 else to 0)
  else to 28.
Definition req_case_28 (uri_relaxed : bool) (c : Z) : jump http_action :=
  if c <? 65 then (if (48 <=? c) && (c <=? 57) then to 26 else to 0)
  else if 70 <? c then (if (97 <=? c) && (c <=? 102) then to 26 else to 0)
  else to 26.
Definition req_case_29 (uri_relaxed : bool) (c : Z) : jump http_action :=
  if c =? 32 then req_ctr_60
  else if c =? 34 then to 0
  else if c =? 35 then req_ctr_61
  else if c =? 37 then req_ctr_62
  else if c =? 60 then to 0
  else if c =? 62 then to 0
  else if c =? 94 then (if uri_relaxed then req_ctr_63 else to 0)
  else if c =? 96 then to 0
  else if c =? 124 then to 0
  else if c =? 127 then to 0
  else if c <? 91 then (if (0 <=? c) && (c <=? 31) then to 0 else req_ctr_59)
  else if 93 <? c then (if (123 <=? c) && (c <=? 125) then (if uri_relaxed then req_ctr_63 else to 0)
    else req_ctr_59)
  else to 0.
Definition req_case_30 (uri_relaxed : bool) (c : Z) : jump http_action :=
  if c =? 32 then req_ctr_65
  else if c =? 34 then to 0
  else if c =? 35 then req_ctr_66
  else if c =? 37 then to 31
  else if c =? 60 then to 0
  else if c =? 62 then to 0
  else if c =? 94 then (if uri_relaxed then to 30 else to 0)
  else if c =? 96 then to 0
  else if c =? 124 then to 0
  else if c =? 127 then to 0
  else if c <? 91 then (if (0 <=? c) && (c <=? 31) then to 0 else to 30)
  else if 93 <? c then (if (123 <=? c) && (c <=? 125) then (if uri_relaxed then to 30 else to 0)
    else to 30)
  else to 0.
Definition req_case_31 (uri_relaxed : bool) (c : Z) : jump http_action :=
  if c <? 65 then (if (48 <=? c) && (c <=? 57) then to 32 else to 0)
  else if 70 <? c then (if (97 <=? c) && (c <=? 102) then to 32 else to 0)
  else to 32.
Definition req_case_32 (uri_relaxed : bool) (c : Z) : jump http_action :=
  if c <? 65 then (if (48 <=? c) && (c <=? 57) then to 30 else to 0)
  else if 70 <? c then (if (97 <=? c) && (c <=? 102) then to 30 else to 0)
  else to 30.
Definition req_case_33 (uri_relaxed : bool) (c : Z) : jump http_action :=
  if c =? 32 then req_ctr_39
  else if c =? 34 then to 0
  else if c =? 35 then req_ctr_41
  else if c =? 37 then to 27
  else if c =? 47 then to 34
  else if c =? 60 then to 0
  else if c =? 62 then to 0
  else if c =? 63 then req_ctr_44
  else if c =? 94 then (if uri_relaxed then to 26 else to 0)
  else if c =? 96 then to 0
  else if c =? 124 then to 0
  else if c =? 127 then to 0
  else if c <? 91 then (if (0 <=? c) && (c <=? 31) then to 0 else to 26)
  else if 93 <? c then (if (123 <=? c) && (c <=? 125) then (if uri_relaxed then to 26 else to 0)
    else to 26)
  else to 0.
Definition req_case_34 (uri_relaxed : bool) (c : Z) : jump http_action :=
  if c =? 32 then req_ctr_39
  else if c =? 33 then to 35
  else if c =? 35 then req_ctr_41
  else if c =? 37 then to 36
  else if c =? 47 then to 26
  else if c =? 58 then to 38
  else if c =? 61 then to 35
  else if c =? 63 then req_ctr_44
  else if c =? 64 then to 42
  else if c =? 91 then to 47
  else if c =? 94 then (if uri_relaxed then to 35 else to 0)
  else if c =? 95 then to 35
  else if c =? 123 then (if uri_relaxed then to 35 else to 0)
  else if c =? 125 then (if uri_relaxed then to 35 else to 0)
  else if c =? 126 then to 35
  else if c <? 65 then (if (36 <=? c) && (c <=? 59) then to 35 else to 0)
  else if 90 <? c then (if (97 <=? c) && (c <=? 122) then to 35 else to 0)
  else to 35.
Definition req_case_35 (uri_relaxed : bool) (c : Z) : jump http_action :=
  if c =? 32 then req_ctr_39
  else if c =? 33 then to 35
  else if c =? 35 then req_ctr_41
  else if c =? 37 then to 36
  else if c =? 47 then to 26
  else if c =? 58 then to 38
  else if c =? 61 then to 35
  else if c =? 63 then req_ctr_44
  else if c =? 64 then to 42
  else if c =? 94 then (if uri_relaxed then to 35 else to 0)
  else if c =? 95 then to 35
  else if c =? 123 then (if uri_relaxed then to 35 else to 0)
  else if c =? 125 then (if uri_relaxed then to 35 else to 0)
  else if c =? 126 then to 35
  else if c <? 65 then (if (36 <=? c) && (c <=? 59) then to 35 else to 0)
  else if 90 <? c then (if (97 <=? c) && (c <=? 122) then to 35 else to 0)
  else to 35.
Definition req_case_36 (uri_relaxed : bool) (c : Z) : jump http_action :=
  if c <? 65 then (if (48 <=? c) && (c <=? 57) then to 37 else to 0)
  else if 70 <? c then (if (97 <=? c) && (c <=? 102) then to 37 else to 0)
  else to 37.
Definition req_case_37 (uri_relaxed : bool) (c : Z) : jump http_action :=
  if c <? 65 then (if (48 <=? c) && (c <=? 57) then to 35 else to 0)
  else if 70 <? c then (if (97 <=? c) && (c <=? 102) then to 35 else to 0)
  else to 35.
Definition req_case_38 (uri_relaxed : bool) (c : Z) : jump http_action :=
  if c =? 32 then req_ctr_39
  else if c =? 33 then to 39
  else if c =? 35 then req_ctr_41
  else if c =? 37 then to 40
  else if c =? 47 then to 26
  else if c =? 61 then to 39
  else if c =? 63 then req_ctr_44
  else if c =? 64 then to 42
  else if c =? 94 then (if uri_relaxed then to 39 else to 0)
  else if c =? 95 then to 39
  else if c =? 123 then (if uri_relaxed then to 39 else to 0)
  else if c =? 125 then (if uri_relaxed then to 39 else to 0)
  else if c =? 126 then to 39
  else if c <? 58 then (if 46 <? c then (if 48 <=? c then to 38 else to 0)
    else if 36 <=? c then to 39 else to 0)
  else if 59 <? c then (if 90 <? c then (if (97 <=? c) && (c <=? 122) then to 39 else to 0)
    else if 65 <=? c then to 39 else to 0)
  else to 39.
Definition req_case_39 (uri_relaxed : bool) (c : Z) : jump http_action :=
  if c =? 33 then to 39
  else if c =? 37 then to 40
  else if c =? 61 then to 39
  else if c =? 64 then to 42
  else if c =? 94 then (if uri_relaxed then to 39 else to 0)
  else if c =? 95 then to 39
  else if c =? 123 then (if uri_relaxed then to 39 else to 0)
  else if c =? 125 then (if uri_relaxed then to 39 else to 0)
  else if c =? 126 then to 39
  else if c <? 48 then (if (36 <=? c) && (c <=? 46) then to 39 else to 0)
  else if 59 <? c then (if 90 <? c then (if (97 <=? c) && (c <=? 122) then to 39 else to 0)
    else if 65 <=? c then to 39 else to 0)
  else to 39.
Definition req_case_40 (uri_relaxed : bool) (c : Z) : jump http_action :=
  if c <? 65 then (if (48 <=? c) && (c <=? 57) then to 41 else to 0)
  else if 70 <? c then (if (97 <=? c) && (c <=? 102) then to 41 else to 0)
  else to 41.
Definition req_case_41 (uri_relaxed : bool) (c : Z) : jump http_action :=
  if c <? 65 then (if (48 <=? c) && (c <=? 57) then to 39 else to 0)
  else if 70 <? c then (if (97 <=? c) && (c <=? 102) then to 39 else to 0)
  else to 39.
Definition req_case_42 (uri_relaxed : bool) (c : Z) : jump http_action :=
  if c =? 32 then req_ctr_39
  else if c =? 33 then to 43
  else if c =? 35 then req_ctr_41
  else if c =? 37 then to 44
  else if c =? 47 then to 26
  else if c =? 58 then to 46
  else if c =? 61 then to 43
  else if c =? 63 then req_ctr_44
  else if c =? 91 then to 47
  else if c =? 94 then (if uri_relaxed then to 43 else to 0)
  else if c =? 95 then to 43
  else if c =? 123 then (if uri_relaxed then to 43 else to 0)
  else if c =? 125 then (if uri_relaxed then to 43 else to 0)
  else if c =? 126 then to 43
  else if c <? 65 then (if (36 <=? c) && (c <=? 59) then to 43 else to 0)
  else if 90 <? c then (if (97 <=? c) && (c <=? 122) then to 43 else to 0)
  else to 43.
Definition req_case_43 (uri_relaxed : bool) (c : Z) : jump http_action :=
  if c =? 32 then req_ctr_39
  else if c =? 33 then to 43
  else if c =? 35 then req_ctr_41
  else if c =? 37 then to 44
  else if c =? 47 then to 26
  else if c =? 58 then to 46
  else if c =? 61 then to 43
  else if c =? 63 then req_ctr_44
  else if c =? 94 then (if uri_relaxed then to 43 else to 0)
  else if c =? 95 then to 43
  else if c =? 123 then (if uri_relaxed then to 43 else to 0)
  else if c =? 125 then (if uri_relaxed then to 43 else to 0)
  else if c =? 126 then to 43
  else if c <? 65 then (if (36 <=? c) && (c <=? 59) then to 43 else to 0)
  else if 90 <? c then (if (97 <=? c) && (c <=? 122) then to 43 else to 0)
  else to 43.
Definition req_case_44 (uri_relaxed : bool) (c : Z) : jump http_action :=
  if c <? 65 then (if (48 <=? c) && (c <=? 57) then to 45 else to 0)
  else if 70 <? c then (if (97 <=? c) && (c <=? 102) then to 45 else to 0)
  else to 45.
Definition req_case_45 (uri_relaxed : bool) (c : Z) : jump http_action :=
  if c <? 65 then (if (48 <=? c) && (c <=? 57) then to 43 else to 0)
  else if 70 <? c then (if (97 <=? c) && (c <=? 102) then to 43 else to 0)
  else to 43.
Definition req_case_46 (uri_relaxed : bool) (c : Z) : jump http_action :=
  if c =? 32 then req_ctr_39
  else if c =? 35 then req_ctr_41
  else if c =? 47 then to 26
  else if c =? 63 then req_ctr_44
  else if (48 <=? c) && (c <=? 57) then to 46 else to 0.
Definition req_case_47 (uri_relaxed : bool) (c : Z) : jump http_action :=
  if c =? 6 then to 48
  else if c =? 58 then to 167
  else if c =? 118 then to 169
  else if c <? 65 then (if (48 <=? c) && (c <=? 57) then to 91 else to 0)
  else if 70 <? c then (if (97 <=? c) && (c <=? 102) then to 91 else to 0)
  else to 91.
Definition req_case_48 (uri_relaxed : bool) (c : Z) : jump http_action :=
  if c <? 65 then (if (48 <=? c) && (c <=? 57) then to 49 else to 0)
  else if 70 <? c then (if (97 <=? c) && (c <=? 102) then to 49 else to 0)
  else to 49.
Definition req_case_49 (uri_relaxed : bool) (c : Z) : jump http_action :=
  if c =? 58 then to 53
  else if c <? 65 then (if (48 <=? c) && (c <=? 57) then to 50 else to 0)
  else if 70 <? c then (if (97 <=? c) && (c <=? 102) then to 50 else to 0)
  else to 50.
Definition req_case_50 (uri_relaxed : bool) (c : Z) : jump http_action :=
  if c =? 58 then to 53
  else if c <? 65 then (if (48 <=? c) && (c <=? 57) then to 51 else to 0)
  else if 70 <? c then (if (97 <=? c) && (c <=? 102) then to 51 else to 0)
  else to 51.
Definition req_case_51 (uri_relaxed : bool) (c : Z) : jump http_action :=
  if c =? 58 then to 53
  else if c <? 65 then (if (48 <=? c) && (c <=? 57) then to 52 else to 0)
  else if 70 <? c then (if (97 <=? c) && (c <=? 102) then to 52 else to 0)
  else to 52.
Definition req_case_52 (uri_relaxed : bool) (c : Z) : jump http_action :=
  if c =? 58 then to 53 else to 0.
Definition req_case_53 (uri_relaxed : bool) (c : Z) : jump http_action :=
  if c =? 49 then to 84
  else if c =? 50 then to 87
  else if c <? 65 then (if (48 <=? c) && (c <=? 57) then to 54 else to 0)
  else if 70 <? c then (if (97 <=? c) && (c <=? 102) then to 90 else to 0)
  else to 90.
Definition req_case_54 (uri_relaxed : bool) (c : Z) : jump http_action :=
  if c =? 46 then to 55
  else if c =? 58 then to 80
  else if c <? 65 then (if (48 <=? c) && (c <=? 57) then to 77 else to 0)
  else if 70 <? c then (if (97 <=? c) && (c <=? 102) then to 77 else to 0)
  else to 77.
Definition req_case_55 (uri_relaxed : bool) (c : Z) : jump http_action :=
  if c =? 49 then to 72
  else if c =? 50 then to 74
  else if (48 <=? c) && (c <=? 57) then to 56 else to 0.
Definition req_case_56 (uri_relaxed : bool) (c : Z) : jump http_action :=
  if c =? 46 then to 57 else to 0.
Definition req_case_57 (uri_relaxed : bool) (c : Z) : jump http_action :=
  if c =? 49 then to 67
  else if c =? 50 then to 69
  else if (48 <=? c) && (c <=? 57) then to 58 else to 0.
Definition req_case_58 (uri_relaxed : bool) (c : Z) : jump http_action :=
  if c =? 46 then to 59 else to 0.
Definition req_case_59 (uri_relaxed : bool) (c : Z) : jump http_action :=
  if c =? 49 then to 62
  else if c =? 50 then to 64
  else if (48 <=? c) && (c <=? 57) then to 60 else to 0.
Definition req_case_60 (uri_relaxed : bool) (c : Z) : jump http_action :=
  if c =? 93 then to 61 else to 0.
Definition req_case_61 (uri_relaxed : bool) (c : Z) : jump http_action :=
  if c =? 32 then req_ctr_39
  else if c =? 35 then req_ctr_41
  else if c =? 47 then to 26
  else if c =? 58 then to 46
  else if c =? 63 then req_ctr_44 else to 0.
Definition req_case_62 (uri_relaxed : bool) (c : Z) : jump http_action :=
  if c =? 93 then to 61
  else if (48 <=? c) && (c <=? 57) then to 63 else to 0.
Definition req_case_63 (uri_relaxed : bool) (c : Z) : jump http_action :=
  if c =? 93 then to 61
  else if (48 <=? c) && (c <=? 57) then to 60 else to 0.
Definition req_case_64 (uri_relaxed : bool) (c : Z) : jump http_action :=
  if c =? 48 then to 65
  else if c =? 53 then to 66
  else if c =? 93 then to 61 else to 0.
Definition req_case_65 (uri_relaxed : bool) (c : Z) : jump http_action :=
  if (48 <=? c) && (c <=? 57) then to 60 else to 0.
Definition req_case_66 (uri_relaxed : bool) (c : Z) : jump http_action :=
  if c =? 48 then to 60 else to 0.
Definition req_case_67 (uri_relaxed : bool) (c : Z) : jump http_action :=
  if c =? 46 then to 59
  else if (48 <=? c) && (c <=? 57) then to 68 else to 0.
Definition req_case_68 (uri_relaxed : bool) (c : Z) : jump http_action :=
  if c =? 46 then to 59
  else if (48 <=? c) && (c <=? 57) then to 58 else to 0.
Definition req_case_69 (uri_relaxed : bool) (c : Z) : jump http_action :=
  if c =? 46 then to 59
  else if c =? 48 then to 70
  else if c =? 53 then to 71 else to 0.
Definition req_case_70 (uri_relaxed : bool) (c : Z) : jump http_action :=
  if (48 <=? c) && (c <=? 57) then to 58 else to 0.
Definition req_case_71 (uri_relaxed : bool) (c : Z) : jump http_action :=
  if c =? 48 then to 58 else to 0.
Definition req_case_72 (uri_relaxed : bool) (c : Z) : jump http_action :=
  if c =? 46 then to 57
  else if (48 <=? c) && (c <=? 57) then to 73 else to 0.
Definition req_case_73 (uri_relaxed : bool) (c : Z) : jump http_action :=
  if c =? 46 then to 57
  else if (48 <=? c) && (c <=? 57) then to 56 else to 0.
Definition req_case_74 (uri_relaxed : bool) (c : Z) : jump http_action :=
  if c =? 46 then to 57
  else if c =? 48 then to 75
  else if c =? 53 then to 76 else to 0.
Definition req_case_75 (uri_relaxed : bool) (c : Z) : jump http_action :=
  if (48 <=? c) && (c <=? 57) then to 56 else to 0.
Definition req_case_76 (uri_relaxed : bool) (c : Z) : jump http_action :=
  if c =? 48 then to 56 else to 0.
Definition req_case_77 (uri_relaxed : bool) (c : Z) : jump http_action :=
  if c =? 58 then to 80
  else if c <? 65 then (if (48 <=? c) && (c <=? 57) then to 78 else to 0)
  else if 70 <? c then (if (97 <=? c) && (c <=? 102) then to 78 else to 0)
  else to 78.
Definition req_case_78 (uri_relaxed : bool) (c : Z) : jump http_action :=
  if c =? 58 then to 80
  else if c <? 65 then (if (48 <=? c) && (c <=? 57) then to 79 else to 0)
  else if 70 <? c then (if (97 <=? c) && (c <=? 102) then to 79 else to 0)
  else to 79.
Definition req_case_79 (uri_relaxed : bool) (c : Z) : jump http_action :=
  if c =? 58 then to 80 else to 0.
Definition req_case_80 (uri_relaxed : bool) (c : Z) : jump http_action :=
  if c <? 65 then (if (48 <=? c) && (c <=? 57) then to 81 else to 0)
  else if 70 <? c then (if (97 <=? c) && (c <=? 102) then to 81 else to 0)
  else to 81.
Definition req_case_81 (uri_relaxed : bool) (c : Z) : jump http_action :=
  if c =? 93 then to 61
  else if c <? 65 then (if (48 <=? c) && (c <=? 57) then to 82 else to 0)
  else if 70 <? c then (if (97 <=? c) && (c <=? 102) then to 82 else to 0)
  else to 82.
Definition req_case_82 (uri_relaxed : bool) (c : Z) : jump http_action :=
  if c =? 93 then to 61
  else if c <? 65 then (if (48 <=? c) && (c <=? 57) then to 83 else to 0)
  else if 70 <? c then (if (97 <=? c) && (c <=? 102) then to 83 else to 0)
  else to 83.
Definition req_case_83 (uri_relaxed : bool) (c : Z) : jump http_action :=
  if c =? 93 then to 61
  else if c <? 65 then (if (48 <=? c) && (c <=? 57) then to 60 else to 0)
  else if 70 <? c then (if (97 <=? c) && (c <=? 102) then to 60 else to 0)
  else to 60.
Definition req_case_84 (uri_relaxed : bool) (c : Z) : jump http_action :=
  if c =? 46 then to 55
  else if c =? 58 then to 80
  else if c <? 65 then (if (48 <=? c) && (c <=? 57) then to 85 else to 0)
  else if 70 <? c then (if (97 <=? c) && (c <=? 102) then to 77 else to 0)
  else to 77.
Definition req_case_85 (uri_relaxed : bool) (c : Z) : jump http_action :=
  if c =? 46 then to 55
  else if c =? 58 then to 80
  else if c <? 65 then (if (48 <=? c) && (c <=? 57) then to 86 else to 0)
  else if 70 <? c then (if (97 <=? c) && (c <=? 102) then to 78 else to 0)
  else to 78.
Definition req_case_86 (uri_relaxed : bool) (c : Z) : jump http_action :=
  if c =? 46 then to 55
  else if c =? 58 then to 80
  else if c <? 65 then (if (48 <=? c) && (c <=? 57) then to 79 else to 0)
  else if 70 <? c then (if (97 <=? c) && (c <=? 102) then to 79 else to 0)
  else to 79.
Definition req_case_87 (uri_relaxed : bool) (c : Z) : jump http_action :=
  if c =? 46 then to 55
  else if c =? 48 then to 88
  else if c =? 53 then to 89
  else if c =? 58 then to 80
  else if c <? 65 then (if (49 <=? c) && (c <=? 57) then to 77 else to 0)
  else if 70 <? c then (if (97 <=? c) && (c <=? 102) then to 77 else to 0)
  else to 77.
Definition req_case_88 (uri_relaxed : bool) (c : Z) : jump http_action :=
  if c =? 58 then to 80
  else if c <? 65 then (if (48 <=? c) && (c <=? 57) then to 86 else to 0)
  else if 70 <? c then (if (97 <=? c) && (c <=? 102) then to 78 else to 0)
  else to 78.
Definition req_case_89 (uri_relaxed : bool) (c : Z) : jump http_action :=
  if c =? 48 then to 86
  else if c =? 58 then to 80
  else if c <? 65 then (if (49 <=? c) && (c <=? 57) then to 78 else to 0)
  else if 70 <? c then (if (97 <=? c) && (c <=? 102) then to 78 else to 0)
  else to 78.
Definition req_case_90 (uri_relaxed : bool) (c : Z) : jump http_action :=
  if c =? 58 then to 80
  else if c <? 65 then (if (48 <=? c) && (c <=? 57) then to 77 else to 0)
  else if 70 <? c then (if (97 <=? c) && (c <=? 102) then to 77 else to 0)
  else to 77.
Definition req_case_91 (uri_relaxed : bool) (c : Z) : jump http_action :=
  if c =? 58 then to 95
  else if c <? 65 then (if (48 <=? c) && (c <=? 57) then to 92 else to 0)
  else if 70 <? c then (if (97 <=? c) && (c <=? 102) then to 92 else to 0)
  else to 92.
Definition req_case_92 (uri_relaxed : bool) (c : Z) : jump http_action :=
  if c =? 58 then to 95
  else if c <? 65 then (if (48 <=? c) && (c <=? 57) then to 93 else to 0)
  else if 70 <? c then (if (97 <=? c) && (c <=? 102) then to 93 else to 0)
  else to 93.
Definition req_case_93 (uri_relaxed : bool) (c : Z) : jump http_action :=
  if c =? 58 then to 95
  else if c <? 65 then (if (48 <=? c) && (c <=? 57) then to 94 else to 0)
  else if 70 <? c then (if (97 <=? c) && (c <=? 102) then to 94 else to 0)
  else to 94.
Definition req_case_94 (uri_relaxed : bool) (c : Z) : jump http_action :=
  if c =? 58 then to 95 else to 0.
Definition req_case_95 (uri_relaxed : bool) (c : Z) : jump http_action :=
  if c =? 58 then to 166
  else if c <? 65 then (if (48 <=? c) && (c <=? 57) then to 96 else to 0)
  else if 70 <? c then (if (97 <=? c) && (c <=? 102) then to 96 else to 0)
  else to 96.
Definition req_case_96 (uri_relaxed : bool) (c : Z) : jump http_action :=
  if c =? 58 then to 100
  else if c <? 65 then (if (48 <=? c) && (c <=? 57) then to 97 else to 0)
  else if 70 <? c then (if (97 <=? c) && (c <=? 102) then to 97 else to 0)
  else to 97.
Definition req_case_97 (uri_relaxed : bool) (c : Z) : jump http_action :=
  if c =? 58 then to 100
  else if c <? 65 then (if (48 <=? c) && (c <=? 57) then to 98 else to 0)
  else if 70 <? c then (if (97 <=? c) && (c <=? 102) then to 98 else to 0)
  else to 98.
Definition req_case_98 (uri_relaxed : bool) (c : Z) : jump http_action :=
  if c =? 58 then to 100
  else if c <? 65 then (if (48 <=? c) && (c <=? 57) then to 99 else to 0)
  else if 70 <? c then (if (97 <=? c) && (c <=? 102) then to 99 else to 0)
  else to 99.
Definition req_case_99 (uri_relaxed : bool) (c : Z) : jump http_action :=
  if c =? 58 then to 100 else to 0.
Definition req_case_100 (uri_relaxed : bool) (c : Z) : jump http_action :=
  if c =? 58 then to 165
  else if c <? 65 then (if (48 <=? c) && (c <=? 57) then to 101 else to 0)
  else if 70 <? c then (if (97 <=? c) && (c <=? 102) then to 101 else to 0)
  else to 101.
Definition req_case_101 (uri_relaxed : bool) (c : Z) : jump http_action :=
  if c =? 58 then to 105
  else if c <? 65 then (if (48 <=? c) && (c <=? 57) then to 102 else to 0)
  else if 70 <? c then (if (97 <=? c) && (c <=? 102) then to 102 else to 0)
  else to 102.
Definition req_case_102 (uri_relaxed : bool) (c : Z) : jump http_action :=
  if c =? 58 then to 105
  else if c <? 65 then (if (48 <=? c) && (c <=? 57) then to 103 else to 0)
  else if 70 <? c then (if (97 <=? c) && (c <=? 102) then to 103 else to 0)
  else to 103.
Definition req_case_103 (uri_relaxed : bool) (c : Z) : jump http_action :=
  if c =? 58 then to 105
  else if c <? 65 then (if (48 <=? c) && (c <=? 57) then to 104 else to 0)
  else if 70 <? c then (if (97 <=? c) && (c <=? 102) then to 104 else to 0)
  else to 104.
Definition req_case_104 (uri_relaxed : bool) (c : Z) : jump http_action :=
  if c =? 58 then to 105 else to 0.
Definition req_case_105 (uri_relaxed : bool) (c : Z) : jump http_action :=
  if c =? 58 then to 164
  else if c <? 65 then (if (48 <=? c) && (c <=? 57) then to 106 else to 0)
  else if 70 <? c then (if (97 <=? c) && (c <=? 102) then to 106 else to 0)
  else to 106.
Definition req_case_106 (uri_relaxed : bool) (c : Z) : jump http_action :=
  if c =? 58 then to 110
  else if c <? 65 then (if (48 <=? c) && (c <=? 57) then to 107 else to 0)
  else if 70 <? c then (if (97 <=? c) && (c <=? 102) then to 107 else to 0)
  else to 107.
Definition req_case_107 (uri_relaxed : bool) (c : Z) : jump http_action :=
  if c =? 58 then to 110
  else if c <? 65 then (if (48 <=? c) && (c <=? 57) then to 108 else to 0)
  else if 70 <? c then (if (97 <=? c) && (c <=? 102) then to 108 else to 0)
  else to 108.
Definition req_case_108 (uri_relaxed : bool) (c : Z) : jump http_action :=
  if c =? 58 then to 110
  else if c <? 65 then (if (48 <=? c) && (c <=? 57) then to 109 else to 0)
  else if 70 <? c then (if (97 <=? c) && (c <=? 102) then to 109 else to 0)
  else to 109.
Definition req_case_109 (uri_relaxed : bool) (c : Z) : jump http_action :=
  if c =? 58 then to 110 else to 0.
Definition req_case_110 (uri_relaxed : bool) (c : Z) : jump http_action :=
  if c =? 58 then to 163
  else if c <? 65 then (if (48 <=? c) && (c <=? 57) then to 111 else to 0)
  else if 70 <? c then (if (97 <=? c) && (c <=? 102) then to 111 else to 0)
  else to 111.
Definition req_case_111 (uri_relaxed : bool) (c : Z) : jump http_action :=
  if c =? 58 then to 115
  else if c <? 65 then (if (48 <=? c) && (c <=? 57) then to 112 else to 0)
  else if 70 <? c then (if (97 <=? c) && (c <=? 102) then to 112 else to 0)
  else to 112.
Definition req_case_112 (uri_relaxed : bool) (c : Z) : jump http_action :=
  if c =? 58 then to 115
  else if c <? 65 then (if (48 <=? c) && (c <=? 57) then to 113 else to 0)
  else if 70 <? c then (if (97 <=? c) && (c <=? 102) then to 113 else to 0)
  else to 113.
Definition req_case_113 (uri_relaxed : bool) (c : Z) : jump http_action :=
  if c =? 58 then to 115
  else if c <? 65 then (if (48 <=? c) && (c <=? 57) then to 114 else to 0)
  else if 70 <? c then (if (97 <=? c) && (c <=? 102) then to 114 else to 0)
  else to 114.
Definition req_case_114 (uri_relaxed : bool) (c : Z) : jump http_action :=
  if c =? 58 then to 115 else to 0.
Definition req_case_115 (uri_relaxed : bool) (c : Z) : jump http_action :=
  if c =? 58 then to 151
  else if c <? 65 then (if (48 <=? c) && (c <=? 57) then to 116 else to 0)
  else if 70 <? c then (if (97 <=? c) && (c <=? 102) then to 116 else to 0)
  else to 116.
Definition req_case_116 (uri_relaxed : bool) (c : Z) : jump http_action :=
  if c =? 58 then to 120
  else if c <? 65 then (if (48 <=? c) && (c <=? 57) then to 117 else to 0)
  else if 70 <? c then (if (97 <=? c) && (c <=? 102) then to 117 else to 0)
  else to 117.
Definition req_case_117 (uri_relaxed : bool) (c : Z) : jump http_action :=
  if c =? 58 then to 120
  else if c <? 65 then (if (48 <=? c) && (c <=? 57) then to 118 else to 0)
  else if 70 <? c then (if (97 <=? c) && (c <=? 102) then to 118 else to 0)
  else to 118.
Definition req_case_118 (uri_relaxed : bool) (c : Z) : jump http_action :=
  if c =? 58 then to 120
  else if c <? 65 then (if (48 <=? c) && (c <=? 57) then to 119 else to 0)
  else if 70 <? c then (if (97 <=? c) && (c <=? 102) then to 119 else to 0)
  else to 119.
Definition req_case_119 (uri_relaxed : bool) (c : Z) : jump http_action :=
  if c =? 58 then to 120 else to 0.
Definition req_case_120 (uri_relaxed : bool) (c : Z) : jump http_action :=
  if c =? 58 then to 150
  else if c <? 65 then (if (48 <=? c) && (c <=? 57) then to 121 else to 0)
  else if 70 <? c then (if (97 <=? c) && (c <=? 102) then to 121 else to 0)
  else to 121.
Definition req_case_121 (uri_relaxed : bool) (c : Z) : jump http_action :=
  if c =? 58 then to 125
  else if c <? 65 then (if (48 <=? c) && (c <=? 57) then to 122 else to 0)
  else if 70 <? c then (if (97 <=? c) && (c <=? 102) then to 122 else to 0)
  else to 122.
Definition req_case_122 (uri_relaxed : bool) (c : Z) : jump http_action :=
  if c =? 58 then to 125
  else if c <? 65 then (if (48 <=? c) && (c <=? 57) then to 123 else to 0)
  else if 70 <? c then (if (97 <=? c) && (c <=? 102) then to 123 else to 0)
  else to 123.
Definition req_case_123 (uri_relaxed : bool) (c : Z) : jump http_action :=
  if c =? 58 then to 125
  else if c <? 65 then (if (48 <=? c) && (c <=? 57) then to 124 else to 0)
  else if 70 <? c then (if (97 <=? c) && (c <=? 102) then to 124 else to 0)
  else to 124.
Definition req_case_124 (uri_relaxed : bool) (c : Z) : jump http_action :=
  if c =? 58 then to 125 else to 0.
Definition req_case_125 (uri_relaxed : bool) (c : Z) : jump http_action :=
  if c =? 58 then to 126
  else if c <? 65 then (if (48 <=? c) && (c <=? 57) then to 121 else to 0)
  else if 70 <? c then (if (97 <=? c) && (c <=? 102) then to 121 else to 0)
  else to 121.
Definition req_case_126 (uri_relaxed : bool) (c : Z) : jump http_action :=
  if c =? 49 then to 143
  else if c =? 50 then to 146
  else if c =? 93 then to 61
  else if c <? 48 then (if (2 <=? c) && (c <=? 3) then to 48 else to 0)
  else if 57 <? c then (if 70 <? c then (if (97 <=? c) && (c <=? 102) then to 149 else to 0)
    else if 65 <=? c then to 149 else to 0)
  else to 127.
Definition req_case_127 (uri_relaxed : bool) (c : Z) : jump http_action :=
  if c =? 46 then to 55
  else if c =? 58 then to 131
  else if c =? 93 then to 61
  else if c <? 65 then (if (48 <=? c) && (c <=? 57) then to 128 else to 0)
  else if 70 <? c then (if (97 <=? c) && (c <=? 102) then to 128 else to 0)
  else to 128.
Definition req_case_128 (uri_relaxed : bool) (c : Z) : jump http_action :=
  if c =? 58 then to 131
  else if c =? 93 then to 61
  else if c <? 65 then (if (48 <=? c) && (c <=? 57) then to 129 else to 0)
  else if 70 <? c then (if (97 <=? c) && (c <=? 102) then to 129 else to 0)
  else to 129.
Definition req_case_129 (uri_relaxed : bool) (c : Z) : jump http_action :=
  if c =? 58 then to 131
  else if c =? 93 then to 61
  else if c <? 65 then (if (48 <=? c) && (c <=? 57) then to 130 else to 0)
  else if 70 <? c then (if (97 <=? c) && (c <=? 102) then to 130 else to 0)
  else to 130.
Definition req_case_130 (uri_relaxed : bool) (c : Z) : jump http_action :=
  if c =? 58 then to 131
  else if c =? 93 then to 61 else to 0.
Definition req_case_131 (uri_relaxed : bool) (c : Z) : jump http_action :=
  if c =? 49 then to 136
  else if c =? 50 then to 139
  else if c <? 65 then (if (48 <=? c) && (c <=? 57) then to 132 else to 0)
  else if 70 <? c then (if (97 <=? c) && (c <=? 102) then to 142 else to 0)
  else to 142.
Definition req_case_132 (uri_relaxed : bool) (c : Z) : jump http_action :=
  if c =? 46 then to 55
  else if c =? 58 then to 80
  else if c =? 93 then to 61
  else if c <? 65 then (if (48 <=? c) && (c <=? 57) then to 133 else to 0)
  else if 70 <? c then (if (97 <=? c) && (c <=? 102) then to 133 else to 0)
  else to 133.
Definition req_case_133 (uri_relaxed : bool) (c : Z) : jump http_action :=
  if c =? 58 then to 80
  else if c =? 93 then to 61
  else if c <? 65 then (if (48 <=? c) && (c <=? 57) then to 134 else to 0)
  else if 70 <? c then (if (97 <=? c) && (c <=? 102) then to 134 else to 0)
  else to 134.
Definition req_case_134 (uri_relaxed : bool) (c : Z) : jump http_action :=
  if c =? 58 then to 80
  else if c =? 93 then to 61
  else if c <? 65 then (if (48 <=? c) && (c <=? 57) then to 135 else to 0)
  else if 70 <? c then (if (97 <=? c) && (c <=? 102) then to 135 else to 0)
  else to 135.
Definition req_case_135 (uri_relaxed : bool) (c : Z) : jump http_action :=
  if c =? 58 then to 80
  else if c =? 93 then to 61 else to 0.
Definition req_case_136 (uri_relaxed : bool) (c : Z) : jump http_action :=
  if c =? 46 then to 55
  else if c =? 58 then to 80
  else if c =? 93 then to 61
  else if c <? 65 then (if (48 <=? c) && (c <=? 57) then to 137 else to 0)
  else if 70 <? c then (if (97 <=? c) && (c <=? 102) then to 133 else to 0)
  else to 133.
Definition req_case_137 (uri_relaxed : bool) (c : Z) : jump http_action :=
  if c =? 46 then to 55
  else if c =? 58 then to 80
  else if c =? 93 then to 61
  else if c <? 65 then (if (48 <=? c) && (c <=? 57) then to 138 else to 0)
  else if 70 <? c then (if (97 <=? c) && (c <=? 102) then to 134 else to 0)
  else to 134.
Definition req_case_138 (uri_relaxed : bool) (c : Z) : jump http_action :=
  if c =? 46 then to 55
  else if c =? 58 then to 80
  else if c =? 93 then to 61
  else if c <? 65 then (if (48 <=? c) && (c <=? 57) then to 135 else to 0)
  else if 70 <? c then (if (97 <=? c) && (c <=? 102) then to 135 else to 0)
  else to 135.
Definition req_case_139 (uri_relaxed : bool) (c : Z) : jump http_action :=
  if c =? 46 then to 55
  else if c =? 48 then to 140
  else if c =? 53 then to 141
  else if c =? 58 then to 80
  else if c =? 93 then to 61
  else if c <? 65 then (if (49 <=? c) && (c <=? 57) then to 133 else to 0)
  else if 70 <? c then (if (97 <=? c) && (c <=? 102) then to 133 else to 0)
  else to 133.
Definition req_case_140 (uri_relaxed : bool) (c : Z) : jump http_action :=
  if c =? 58 then to 80
  else if c =? 93 then to 61
  else if c <? 65 then (if (48 <=? c) && (c <=? 57) then to 138 else to 0)
  else if 70 <? c then (if (97 <=? c) && (c <=? 102) then to 134 else to 0)
  else to 134.
Definition req_case_141 (uri_relaxed : bool) (c : Z) : jump http_action :=
  if c =? 48 then to 138
  else if c =? 58 then to 80
  else if c =? 93 then to 61
  else if c <? 65 then (if (49 <=? c) && (c <=? 57) then to 134 else to 0)
  else if 70 <? c then (if (97 <=? c) && (c <=? 102) then to 134 else to 0)
  else to 134.
Definition req_case_142 (uri_relaxed : bool) (c : Z) : jump http_action :=
  if c =? 58 then to 80
  else if c =? 93 then to 61
  else if c <? 65 then (if (48 <=? c) && (c <=? 57) then to 133 else to 0)
  else if 70 <? c then (if (97 <=? c) && (c <=? 102) then to 133 else to 0)
  else to 133.
Definition req_case_143 (uri_relaxed : bool) (c : Z) : jump http_action :=
  if c =? 46 then to 55
  else if c =? 58 then to 131
  else if c =? 93 then to 61
  else if c <? 65 then (if (48 <=? c) && (c <=? 57) then to 144 else to 0)
  else if 70 <? c then (if (97 <=? c) && (c <=? 102) then to 128 else to 0)
  else to 128.
Definition req_case_144 (uri_relaxed : bool) (c : Z) : jump http_action :=
  if c =? 46 then to 55
  else if c =? 58 then to 131
  else if c =? 93 then to 61
  else if c <? 65 then (if (48 <=? c) && (c <=? 57) then to 145 else to 0)
  else if 70 <? c then (if (97 <=? c) && (c <=? 102) then to 129 else to 0)
  else to 129.
Definition req_case_145 (uri_relaxed : bool) (c : Z) : jump http_action :=
  if c =? 46 then to 55
  else if c =? 58 then to 131
  else if c =? 93 then to 61
  else if c <? 65 then (if (48 <=? c) && (c <=? 57) then to 130 else to 0)
  else if 70 <? c then (if (97 <=? c) && (c <=? 102) then to 130 else to 0)
  else to 130.
Definition req_case_146 (uri_relaxed : bool) (c : Z) : jump http_action :=
  if c =? 46 then to 55
  else if c =? 48 then to 147
  else if c =? 53 then to 148
  else if c =? 58 then to 131
  else if c =? 93 then to 61
  else if c <? 65 then (if (49 <=? c) && (c <=? 57) then to 128 else to 0)
  else if 70 <? c then (if (97 <=? c) && (c <=? 102) then to 128 else to 0)
  else to 128.
Definition req_case_147 (uri_relaxed : bool) (c : Z) : jump http_action :=
  if c =? 58 then to 131
  else if c =? 93 then to 61
  else if c <? 65 then (if (48 <=? c) && (c <=? 57) then to 145 else to 0)
  else if 70 <? c then (if (97 <=? c) && (c <=? 102) then to 129 else to 0)
  else to 129.
Definition req_case_148 (uri_relaxed : bool) (c : Z) : jump http_action :=
  if c =? 48 then to 145
  else if c =? 58 then to 131
  else if c =? 93 then to 61
  else if c <? 65 then (if (49 <=? c) && (c <=? 57) then to 129 else to 0)
  else if 70 <? c then (if (97 <=? c) && (c <=? 102) then to 129 else to 0)
  else to 129.
Definition req_case_149 (uri_relaxed : bool) (c : Z) : jump http_action :=
  if c =? 58 then to 131
  else if c =? 93 then to 61
  else if c <? 65 then (if (48 <=? c) && (c <=? 57) then to 128 else to 0)
  else if 70 <? c then (if (97 <=? c) && (c <=? 102) then to 128 else to 0)
  else to 128.
Definition req_case_150 (uri_relaxed : bool) (c : Z) : jump http_action :=
  if c =? 49 then to 143
  else if c =? 50 then to 146
  else if c <? 48 then (if (2 <=? c) && (c <=? 3) then to 48 else to 0)
  else if 57 <? c then (if 70 <? c then (if (97 <=? c) && (c <=? 102) then to 149 else to 0)
    else if 65 <=? c then to 149 else to 0)
  else to 127.
Definition req_case_151 (uri_relaxed : bool) (c : Z) : jump http_action :=
  if c =? 49 then to 156
  else if c =? 50 then to 159
  else if c <? 48 then (if (2 <=? c) && (c <=? 3) then to 48 else to 0)
  else if 57 <? c then (if 70 <? c then (if (97 <=? c) && (c <=? 102) then to 162 else to 0)
    else if 65 <=? c then to 162 else to 0)
  else to 152.
Definition req_case_152 (uri_relaxed : bool) (c : Z) : jump http_action :=
  if c =? 46 then to 55
  else if c =? 58 then to 131
  else if c <? 65 then (if (48 <=? c) && (c <=? 57) then to 153 else to 0)
  else if 70 <? c then (if (97 <=? c) && (c <=? 102) then to 153 else to 0)
  else to 153.
Definition req_case_153 (uri_relaxed : bool) (c : Z) : jump http_action :=
  if c =? 58 then to 131
  else if c <? 65 then (if (48 <=? c) && (c <=? 57) then to 154 else to 0)
  else if 70 <? c then (if (97 <=? c) && (c <=? 102) then to 154 else to 0)
  else to 154.
Definition req_case_154 (uri_relaxed : bool) (c : Z) : jump http_action :=
  if c =? 58 then to 131
  else if c <? 65 then (if (48 <=? c) && (c <=? 57) then to 155 else to 0)
  else if 70 <? c then (if (97 <=? c) && (c <=? 102) then to 155 else to 0)
  else to 155.
Definition req_case_155 (uri_relaxed : bool) (c : Z) : jump http_action :=
  if c =? 58 then to 131 else to 0.
Definition req_case_156 (uri_relaxed : bool) (c : Z) : jump http_action :=
  if c =? 46 then to 55
  else if c =? 58 then to 131
  else if c <? 65 then (if (48 <=? c) && (c <=? 57) then to 157 else to 0)
  else if 70 <? c then (if (97 <=? c) && (c <=? 102) then to 153 else to 0)
  else to 153.
Definition req_case_157 (uri_relaxed : bool) (c : Z) : jump http_action :=
  if c =? 46 then to 55
  else if c =? 58 then to 131
  else if c <? 65 then (if (48 <=? c) && (c <=? 57) then to 158 else to 0)
  else if 70 <? c then (if (97 <=? c) && (c <=? 102) then to 154 else to 0)
  else to 154.
Definition req_case_158 (uri_relaxed : bool) (c : Z) : jump http_action :=
  if c =? 46 then to 55
  else if c =? 58 then to 131
  else if c <? 65 then (if (48 <=? c) && (c <=? 57) then to 155 else to 0)
  else if 70 <? c then (if (97 <=? c) && (c <=? 102) then to 155 else to 0)
  else to 155.
Definition req_case_159 (uri_relaxed : bool) (c : Z) : jump http_action :=
  if c =? 46 then to 55
  else if c =? 48 then to 160
  else if c =? 53 then to 161
  else if c =? 58 then to 131
  else if c <? 65 then (if (49 <=? c) && (c <=? 57) then to 153 else to 0)
  else if 70 <? c then (if (97 <=? c) && (c <=? 102) then to 153 else to 0)
  else to 153.
Definition req_case_160 (uri_relaxed : bool) (c : Z) : jump http_action :=
  if c =? 58 then to 131
  else if c <? 65 then (if (48 <=? c) && (c <=? 57) then to 158 else to 0)
  else if 70 <? c then (if (97 <=? c) && (c <=? 102) then to 154 else to 0)
  else to 154.
Definition req_case_161 (uri_relaxed : bool) (c : Z) : jump http_action :=
  if c =? 48 then to 158
  else if c =? 58 then to 131
  else if c <? 65 then (if (49 <=? c) && (c <=? 57) then to 154 else to 0)
  else if 70 <? c then (if (97 <=? c) && (c <=? 102) then to 154 else to 0)
  else to 154.
Definition req_case_162 (uri_relaxed : bool) (c : Z) : jump http_action :=
  if c =? 58 then to 131
  else if c <? 65 then (if (48 <=? c) && (c <=? 57) then to 153 else to 0)
  else if 70 <? c then (if (97 <=? c) && (c <=? 102) then to 153 else to 0)
  else to 153.
Definition req_case_163 (uri_relaxed : bool) (c : Z) : jump http_action :=
  if c <? 48 then (if (2 <=? c) && (c <=? 3) then to 48 else to 0)
  else if 57 <? c then (if 70 <? c then (if (97 <=? c) && (c <=? 102) then to 49 else to 0)
    else if 65 <=? c then to 49 else to 0)
  else to 49.
Definition req_case_164 (uri_relaxed : bool) (c : Z) : jump http_action :=
  if (2 <=? c) && (c <=? 3) then to 48 else to 0.
Definition req_case_165 (uri_relaxed : bool) (c : Z) : jump http_action :=
  if c =? 3 then to 48 else to 0.
Definition req_case_166 (uri_relaxed : bool) (c : Z) : jump http_action :=
  if c =? 4 then to 48 else to 0.
Definition req_case_167 (uri_relaxed : bool) (c : Z) : jump http_action :=
  if c =? 58 then to 168 else to 0.
Definition req_case_168 (uri_relaxed : bool) (c : Z) : jump http_action :=
  if c =? 49 then to 143
  else if c =? 50 then to 146
  else if c =? 93 then to 61
  else if c <? 48 then (if (2 <=? c) && (c <=? 5) then to 48 else to 0)
  else if 57 <? c then (if 70 <? c then (if (97 <=? c) && (c <=? 102) then to 149 else to 0)
    else if 65 <=? c then to 149 else to 0)
  else to 127.
Definition req_case_169 (uri_relaxed : bool) (c : Z) : jump http_action :=
  if c <? 65 then (if (48 <=? c) && (c <=? 57) then to 170 else to 0)
  else if 70 <? c then (if (97 <=? c) && (c <=? 102) then to 170 else to 0)
  else to 170.
Definition req_case_170 (uri_relaxed : bool) (c : Z) : jump http_action :=
  if c =? 46 then to 171
  else if c <? 65 then (if (48 <=? c) && (c <=? 57) then to 170 else to 0)
  else if 70 <? c then (if (97 <=? c) && (c <=? 102) then to 170 else to 0)
  else to 170.
Definition req_case_171 (uri_relaxed : bool) (c : Z) : jump http_action :=
  if c =? 33 then to 172
  else if c =? 36 then to 172
  else if c =? 61 then to 172
  else if c =? 94 then (if uri_relaxed then to 172 else to 0)
  else if c =? 95 then to 172
  else if c =? 123 then (if uri_relaxed then to 172 else to 0)
  else if c =? 125 then (if uri_relaxed then to 172 else to 0)
  else if c =? 126 then to 172
  else if c <? 48 then (if (38 <=? c) && (c <=? 46) then to 172 else to 0)
  else if 59 <? c then (if 90 <? c then (if (97 <=? c) && (c <=? 122) then to 172 else to 0)
    else if 65 <=? c then to 172 else to 0)
  else to 172.
Definition req_case_172 (uri_relaxed : bool) (c : Z) : jump http_action :=
  if c =? 33 then to 172
  else if c =? 36 then to 172
  else if c =? 61 then to 172
  else if c =? 93 then to 61
  else if c =? 94 then (if uri_relaxed then to 172 else to 0)
  else if c =? 95 then to 172
  else if c =? 123 then (if uri_relaxed then to 172 else to 0)
  else if c =? 125 then (if uri_relaxed then to 172 else to 0)
  else if c =? 126 then to 172
  else if c <? 48 then (if (38 <=? c) && (c <=? 46) then to 172 else to 0)
  else if 59 <? c then (if 90 <? c then (if (97 <=? c) && (c <=? 122) then to 172 else to 0)
    else if 65 <=? c then to 172 else to 0)
  else to 172.
Definition req_case_173 (uri_relaxed : bool) (c : Z) : jump http_action :=
  if c =? 32 then req_ctr_39
  else if c =? 33 then to 19
  else if c =? 35 then req_ctr_41
  else if c =? 37 then to 24
  else if c =? 43 then to 173
  else if c =? 47 then to 26
  else if c =? 58 then to 174
  else if c =? 59 then to 19
  else if c =? 61 then to 19
  else if c =? 63 then req_ctr_44
  else if c =? 64 then to 19
  else if c =? 94 then (if uri_relaxed then to 19 else to 0)
  else if c =? 95 then to 19
  else if c =? 123 then (if uri_relaxed then to 19 else to 0)
  else if c =? 125 then (if uri_relaxed then to 19 else to 0)
  else if c =? 126 then to 19
  else if c <? 45 then (if 36 <=? c then to 19 else to 0)
  else if 57 <? c then (if 90 <? c then (if (97 <=? c) && (c <=? 122) then to 173 else to 0)
    else if 65 <=? c then to 173 else to 0)
  else to 173.
Definition req_case_174 (uri_relaxed : bool) (c : Z) : jump http_action :=
  if c =? 32 then req_ctr_6
  else if c =? 34 then to 0
  else if c =? 35 then req_ctr_8
  else if c =? 37 then req_ctr_216
  else if c =? 47 then req_ctr_10
  else if c =? 60 then to 0
  else if c =? 62 then to 0
  else if c =? 63 then req_ctr_11
  else if c =? 94 then (if uri_relaxed then req_ctr_217 else to 0)
  else if c =? 96 then to 0
  else if c =? 124 then to 0
  else if c =? 127 then to 0
  else if c <? 91 then (if (0 <=? c) && (c <=? 31) then to 0 else req_ctr_215)
  else if 93 <? c then (if (123 <=? c) && (c <=? 125) then (if uri_relaxed then req_ctr_217 else to 0)
    else req_ctr_215)
  else to 0.
Definition req_case_175 (uri_relaxed : bool) (c : Z) : jump http_action :=
  if c =? 32 then req_ctr_4
  else if 57 <? c then (if (65 <=? c) && (c <=? 90) then to 176 else to 0)
  else if 48 <=? c then to 176 else to 0.
Definition req_case_176 (uri_relaxed : bool) (c : Z) : jump http_action :=
  if c =? 32 then req_ctr_4
  else if 57 <? c then (if (65 <=? c) && (c <=? 90) then to 177 else to 0)
  else if 48 <=? c then to 177 else to 0.
Definition req_case_177 (uri_relaxed : bool) (c : Z) : jump http_action :=
  if c =? 32 then req_ctr_4
  else if 57 <? c then (if (65 <=? c) && (c <=? 90) then to 178 else to 0)
  else if 48 <=? c then to 178 else to 0.
Definition req_case_178 (uri_relaxed : bool) (c : Z) : jump http_action :=
  if c =? 32 then req_ctr_4
  else if 57 <? c then (if (65 <=? c) && (c <=? 90) then to 179 else to 0)
  else if 48 <=? c then to 179 else to 0.
Definition req_case_179 (uri_relaxed : bool) (c : Z) : jump http_action :=
  if c =? 32 then req_ctr_4
  else if 57 <? c then (if (65 <=? c) && (c <=? 90) then to 180 else to 0)
  else if 48 <=? c then to 180 else to 0.
Definition req_case_180 (uri_relaxed : bool) (c : Z) : jump http_action :=
  if c =? 32 then req_ctr_4
  else if 57 <? c then (if (65 <=? c) && (c <=? 90) then to 181 else to 0)
  else if 48 <=? c then to 181 else to 0.
Definition req_case_181 (uri_relaxed : bool) (c : Z) : jump http_action :=
  if c =? 32 then req_ctr_4
  else if 57 <? c then (if (65 <=? c) && (c <=? 90) then to 182 else to 0)
  else if 48 <=? c then to 182 else to 0.
Definition req_case_182 (uri_relaxed : bool) (c : Z) : jump http_action :=
  if c =? 32 then req_ctr_4
  else if 57 <? c then (if (65 <=? c) && (c <=? 90) then to 183 else to 0)
  else if 48 <=? c then to 183 else to 0.
Definition req_case_183 (uri_relaxed : bool) (c : Z) : jump http_action :=
  if c =? 32 then req_ctr_4
  else if 57 <? c then (if (65 <=? c) && (c <=? 90) then to 184 else to 0)
  else if 48 <=? c then to 184 else to 0.
Definition req_case_184 (uri_relaxed : bool) (c : Z) : jump http_action :=
  if c =? 32 then req_ctr_4
  else if 57 <? c then (if (65 <=? c) && (c <=? 90) then to 185 else to 0)
  else if 48 <=? c then to 185 else to 0.
Definition req_case_185 (uri_relaxed : bool) (c : Z) : jump http_action :=
  if c =? 32 then req_ctr_4
  else if 57 <? c then (if (65 <=? c) && (c <=? 90) then to 186 else to 0)
  else if 48 <=? c then to 186 else to 0.
Definition req_case_186 (uri_relaxed : bool) (c : Z) : jump http_action :=
  if c =? 32 then req_ctr_4
  else if 57 <? c then (if (65 <=? c) && (c <=? 90) then to 187 else to 0)
  else if 48 <=? c then to 187 else to 0.
Definition req_case_187 (uri_relaxed : bool) (c : Z) : jump http_action :=
  if c =? 32 then req_ctr_4
  else if 57 <? c then (if (65 <=? c) && (c <=? 90) then to 188 else to 0)
  else if 48 <=? c then to 188 else to 0.
Definition req_case_188 (uri_relaxed : bool) (c : Z) : jump http_action :=
  if c =? 32 then req_ctr_4
  else if 57 <? c then (if (65 <=? c) && (c <=? 90) then to 189 else to 0)
  else if 48 <=? c then to 189 else to 0.
Definition req_case_189 (uri_relaxed : bool) (c : Z) : jump http_action :=
  if c =? 32 then req_ctr_4
  else if 57 <? c then (if (65 <=? c) && (c <=? 90) then to 190 else to 0)
  else if 48 <=? c then to 190 else to 0.
Definition req_case_190 (uri_relaxed : bool) (c : Z) : jump http_action :=
  if c =? 32 then req_ctr_4
  else if 57 <? c then (if (65 <=? c) && (c <=? 90) then to 191 else to 0)
  else if 48 <=? c then to 191 else to 0.
Definition req_case_191 (uri_relaxed : bool) (c : Z) : jump http_action :=
  if c =? 32 then req_ctr_4
  else if 57 <? c then (if (65 <=? c) && (c <=? 90) then to 192 else to 0)
  else if 48 <=? c then to 192 else to 0.
Definition req_case_192 (uri_relaxed : bool) (c : Z) : jump http_action :=
  if c =? 32 then req_ctr_4
  else if 57 <? c then (if (65 <=? c) && (c <=? 90) then to 193 else to 0)
  else if 48 <=? c then to 193 else to 0.
Definition req_case_193 (uri_relaxed : bool) (c : Z) : jump http_action :=
  if c =? 32 then req_ctr_4 else to 0.
Definition req_case_194 (uri_relaxed : bool) (c : Z) : jump http_action :=
  if c <? 48 then (if (45 <=? c) && (c <=? 46) then to 195 else to 0)
  else if 57 <? c then (if 90 <? c then (if (97 <=? c) && (c <=? 122) then to 195 else to 0)
    else if 65 <=? c then to 195 else to 0)
  else to 195.
Definition req_case_195 (uri_relaxed : bool) (c : Z) : jump http_action :=
  if c =? 32 then req_ctr_237
  else if c =? 47 then req_ctr_237
  else if c =? 62 then req_ctr_237
  else if c <? 45 then (if (9 <=? c) && (c <=? 13) then req_ctr_237 else to 0)
  else if 57 <? c then (if 90 <? c then (if (97 <=? c) && (c <=? 122) then to 195 else to 0)
    else if 65 <=? c then to 195 else to 0)
  else to 195.
Definition req_case_196 (uri_relaxed : bool) (c : Z) : jump http_action :=
  if c =? 62 then to 197 else to 196.
Definition req_case_197 (uri_relaxed : bool) (c : Z) : jump http_action :=
  if c =? 0 then req_ctr_240
  else if c =? 62 then to 197 else to 196.
Definition req_case_198 (uri_relaxed : bool) (c : Z) : jump http_action :=
  if c =? 32 then req_ctr_241
  else if c =? 33 then to 202
  else if c =? 37 then to 203
  else if c =? 47 then to 208
  else if c =? 59 then to 202
  else if c =? 61 then to 202
  else if c =? 94 then (if uri_relaxed then to 202 else to 0)
  else if c =? 95 then to 202
  else if c =? 123 then (if uri_relaxed then to 202 else to 0)
  else if c =? 125 then (if uri_relaxed then to 202 else to 0)
  else if c =? 126 then to 202
  else if c <? 64 then (if (36 <=? c) && (c <=? 57) then to 202 else to 0)
  else if 90 <? c then (if (97 <=? c) && (c <=? 122) then to 202 else to 0)
  else to 202.
Definition req_case_199 (uri_relaxed : bool) (c : Z) : jump http_action :=
  if c =? 123 then req_ctr_246 else to 0.
Definition req_case_200 (uri_relaxed : bool) (c : Z) : jump http_action :=
  if c =? 125 then to 201 else to 200.
Definition req_case_201 (uri_relaxed : bool) (c : Z) : jump http_action :=
  if c =? 0 then req_ctr_249
  else if c =? 125 then to 201 else to 200.
Definition req_case_202 (uri_relaxed : bool) (c : Z) : jump http_action :=
  if c =? 32 then req_ctr_241
  else if c =? 33 then to 202
  else if c =? 37 then to 203
  else if c =? 47 then to 205
  else if c =? 59 then to 202
  else if c =? 61 then to 202
  else if c =? 94 then (if uri_relaxed then to 202 else to 0)
  else if c =? 95 then to 202
  else if c =? 123 then (if uri_relaxed then to 202 else to 0)
  else if c =? 125 then (if uri_relaxed then to 202 else to 0)
  else if c =? 126 then to 202
  else if c <? 64 then (if (36 <=? c) && (c <=? 57) then to 202 else to 0)
  else if 90 <? c then (if (97 <=? c) && (c <=? 122) then to 202 else to 0)
  else to 202.
Definition req_case_203 (uri_relaxed : bool) (c : Z) : jump http_action :=
  if c <? 65 then (if (48 <=? c) && (c <=? 57) then to 204 else to 0)
  else if 70 <? c then (if (97 <=? c) && (c <=? 102) then to 204 else to 0)
  else to 204.
Definition req_case_204 (uri_relaxed : bool) (c : Z) : jump http_action :=
  if c <? 65 then (if (48 <=? c) && (c <=? 57) then to 202 else to 0)
  else if 70 <? c then (if (97 <=? c) && (c <=? 102) then to 202 else to 0)
  else to 202.
Definition req_case_205 (uri_relaxed : bool) (c : Z) : jump http_action :=
  if c =? 32 then req_ctr_241
  else if c =? 37 then to 206
  else if c =? 60 then to 0
  else if c =? 94 then (if uri_relaxed then to 205 else to 0)
  else if c =? 96 then to 0
  else if c =? 124 then to 0
  else if c =? 127 then to 0
  else if c <? 62 then (if 31 <? c then (if (34 <=? c) && (c <=? 35) then to 0 else to 205)
    else if 0 <=? c then to 0 else to 205)
  else if 63 <? c then (if 93 <? c then (if (123 <=? c) && (c <=? 125) then (if uri_relaxed then to 205 else to 0)
      else to 205)
    else if 91 <=? c then to 0 else to 205)
  else to 0.
Definition req_case_206 (uri_relaxed : bool) (c : Z) : jump http_action :=
  if c <? 65 then (if (48 <=? c) && (c <=? 57) then to 207 else to 0)
  else if 70 <? c then (if (97 <=? c) && (c <=? 102) then to 207 else to 0)
  else to 207.
Definition req_case_207 (uri_relaxed : bool) (c : Z) : jump http_action :=
  if c <? 65 then (if (48 <=? c) && (c <=? 57) then to 205 else to 0)
  else if 70 <? c then (if (97 <=? c) && (c <=? 102) then to 205 else to 0)
  else to 205.
Definition req_case_208 (uri_relaxed : bool) (c : Z) : jump http_action :=
  if c =? 32 then req_ctr_241
  else if c =? 37 then to 206
  else if c =? 47 then to 209
  else if c =? 60 then to 0
  else if c =? 94 then (if uri_relaxed then to 205 else to 0)
  else if c =? 96 then to 0
  else if c =? 124 then to 0
  else if c =? 127 then to 0
  else if c <? 62 then (if 31 <? c then (if (34 <=? c) && (c <=? 35) then to 0 else to 205)
    else if 0 <=? c then to 0 else to 205)
  else if 63 <? c then (if 93 <? c then (if (123 <=? c) && (c <=? 125) then (if uri_relaxed then to 205 else to 0)
      else to 205)
    else if 91 <=? c then to 0 else to 205)
  else to 0.
Definition req_case_209 (uri_relaxed : bool) (c : Z) : jump http_action :=
  if c =? 32 then req_ctr_241
  else if c =? 33 then to 210
  else if c =? 37 then to 211
  else if c =? 47 then to 205
  else if c =? 58 then to 213
  else if c =? 61 then to 210
  else if c =? 64 then to 217
  else if c =? 91 then to 222
  else if c =? 94 then (if uri_relaxed then to 210 else to 0)
  else if c =? 95 then to 210
  else if c =? 123 then (if uri_relaxed then to 210 else to 0)
  else if c =? 125 then (if uri_relaxed then to 210 else to 0)
  else if c =? 126 then to 210
  else if c <? 65 then (if (36 <=? c) && (c <=? 59) then to 210 else to 0)
  else if 90 <? c then (if (97 <=? c) && (c <=? 122) then to 210 else to 0)
  else to 210.
Definition req_case_210 (uri_relaxed : bool) (c : Z) : jump http_action :=
  if c =? 32 then req_ctr_241
  else if c =? 33 then to 210
  else if c =? 37 then to 211
  else if c =? 47 then to 205
  else if c =? 58 then to 213
  else if c =? 61 then to 210
  else if c =? 64 then to 217
  else if c =? 94 then (if uri_relaxed then to 210 else to 0)
  else if c =? 95 then to 210
  else if c =? 123 then (if uri_relaxed then to 210 else to 0)
  else if c =? 125 then (if uri_relaxed then to 210 else to 0)
  else if c =? 126 then to 210
  else if c <? 65 then (if (36 <=? c) && (c <=? 59) then to 210 else to 0)
  else if 90 <? c then (if (97 <=? c) && (c <=? 122) then to 210 else to 0)
  else to 210.
Definition req_case_211 (uri_relaxed : bool) (c : Z) : jump http_action :=
  if c <? 65 then (if (48 <=? c) && (c <=? 57) then to 212 else to 0)
  else if 70 <? c then (if (97 <=? c) && (c <=? 102) then to 212 else to 0)
  else to 212.
Definition req_case_212 (uri_relaxed : bool) (c : Z) : jump http_action :=
  if c <? 65 then (if (48 <=? c) && (c <=? 57) then to 210 else to 0)
  else if 70 <? c then (if (97 <=? c) && (c <=? 102) then to 210 else to 0)
  else to 210.
Definition req_case_213 (uri_relaxed : bool) (c : Z) : jump http_action :=
  if c =? 32 then req_ctr_241
  else if c =? 33 then to 214
  else if c =? 37 then to 215
  else if c =? 47 then to 205
  else if c =? 61 then to 214
  else if c =? 64 then to 217
  else if c =? 94 then (if uri_relaxed then to 214 else to 0)
  else if c =? 95 then to 214
  else if c =? 123 then (if uri_relaxed then to 214 else to 0)
  else if c =? 125 then (if uri_relaxed then to 214 else to 0)
  else if c =? 126 then to 214
  else if c <? 58 then (if 46 <? c then (if 48 <=? c then to 213 else to 0)
    else if 36 <=? c then to 214 else to 0)
  else if 59 <? c then (if 90 <? c then (if (97 <=? c) && (c <=? 122) then to 214 else to 0)
    else if 65 <=? c then to 214 else to 0)
  else to 214.
Definition req_case_214 (uri_relaxed : bool) (c : Z) : jump http_action :=
  if c =? 33 then to 214
  else if c =? 37 then to 215
  else if c =? 61 then to 214
  else if c =? 64 then to 217
  else if c =? 94 then (if uri_relaxed then to 214 else to 0)
  else if c =? 95 then to 214
  else if c =? 123 then (if uri_relaxed then to 214 else to 0)
  else if c =? 125 then (if uri_relaxed then to 214 else to 0)
  else if c =? 126 then to 214
  else if c <? 48 then (if (36 <=? c) && (c <=? 46) then to 214 else to 0)
  else if 59 <? c then (if 90 <? c then (if (97 <=? c) && (c <=? 122) then to 214 else to 0)
    else if 65 <=? c then to 214 else to 0)
  else to 214.
Definition req_case_215 (uri_relaxed : bool) (c : Z) : jump http_action :=
  if c <? 65 then (if (48 <=? c) && (c <=? 57) then to 216 else to 0)
  else if 70 <? c then (if (97 <=? c) && (c <=? 102) then to 216 else to 0)
  else to 216.
Definition req_case_216 (uri_relaxed : bool) (c : Z) : jump http_action :=
  if c <? 65 then (if (48 <=? c) && (c <=? 57) then to 214 else to 0)
  else if 70 <? c then (if (97 <=? c) && (c <=? 102) then to 214 else to 0)
  else to 214.
Definition req_case_217 (uri_relaxed : bool) (c : Z) : jump http_action :=
  if c =? 32 then req_ctr_241
  else if c =? 33 then to 218
  else if c =? 37 then to 219
  else if c =? 47 then to 205
  else if c =? 58 then to 221
  else if c =? 61 then to 218
  else if c =? 91 then to 222
  else if c =? 94 then (if uri_relaxed then to 218 else to 0)
  else if c =? 95 then to 218
  else if c =? 123 then (if uri_relaxed then to 218 else to 0)
  else if c =? 125 then (if uri_relaxed then to 218 else to 0)
  else if c =? 126 then to 218
  else if c <? 65 then (if (36 <=? c) && (c <=? 59) then to 218 else to 0)
  else if 90 <? c then (if (97 <=? c) && (c <=? 122) then to 218 else to 0)
  else to 218.
Definition req_case_218 (uri_relaxed : bool) (c : Z) : jump http_action :=
  if c =? 32 then req_ctr_241
  else if c =? 33 then to 218
  else if c =? 37 then to 219
  else if c =? 47 then to 205
  else if c =? 58 then to 221
  else if c =? 61 then to 218
  else if c =? 94 then (if uri_relaxed then to 218 else to 0)
  else if c =? 95 then to 218
  else if c =? 123 then (if uri_relaxed then to 218 else to 0)
  else if c =? 125 then (if uri_relaxed then to 218 else to 0)
  else if c =? 126 then to 218
  else if c <? 65 then (if (36 <=? c) && (c <=? 59) then to 218 else to 0)
  else if 90 <? c then (if (97 <=? c) && (c <=? 122) then to 218 else to 0)
  else to 218.
Definition req_case_219 (uri_relaxed : bool) (c : Z) : jump http_action :=
  if c <? 65 then (if (48 <=? c) && (c <=? 57) then to 220 else to 0)
  else if 70 <? c then (if (97 <=? c) && (c <=? 102) then to 220 else to 0)
  else to 220.
Definition req_case_220 (uri_relaxed : bool) (c : Z) : jump http_action :=
  if c <? 65 then (if (48 <=? c) && (c <=? 57) then to 218 else to 0)
  else if 70 <? c then (if (97 <=? c) && (c <=? 102) then to 218 else to 0)
  else to 218.
Definition req_case_221 (uri_relaxed : bool) (c : Z) : jump http_action :=
  if c =? 32 then req_ctr_241
  else if c =? 47 then to 205
  else if (48 <=? c) && (c <=? 57) then to 221 else to 0.
Definition req_case_222 (uri_relaxed : bool) (c : Z) : jump http_action :=
  if c =? 6 then to 223
  else if c =? 58 then to 342
  else if c =? 118 then to 344
  else if c <? 65 then (if (48 <=? c) && (c <=? 57) then to 266 else to 0)
  else if 70 <? c then (if (97 <=? c) && (c <=? 102) then to 266 else to 0)
  else to 266.
Definition req_case_223 (uri_relaxed : bool) (c : Z) : jump http_action :=
  if c <? 65 then (if (48 <=? c) && (c <=? 57) then to 224 else to 0)
  else if 70 <? c then (if (97 <=? c) && (c <=? 102) then to 224 else to 0)
  else to 224.
Definition req_case_224 (uri_relaxed : bool) (c : Z) : jump http_action :=
  if c =? 58 then to 228
  else if c <? 65 then (if (48 <=? c) && (c <=? 57) then to 225 else to 0)
  else if 70 <? c then (if (97 <=? c) && (c <=? 102) then to 225 else to 0)
  else to 225.
Definition req_case_225 (uri_relaxed : bool) (c : Z) : jump http_action :=
  if c =? 58 then to 228
  else if c <? 65 then (if (48 <=? c) && (c <=? 57) then to 226 else to 0)
  else if 70 <? c then (if (97 <=? c) && (c <=? 102) then to 226 else to 0)
  else to 226.
Definition req_case_226 (uri_relaxed : bool) (c : Z) : jump http_action :=
  if c =? 58 then to 228
  else if c <? 65 then (if (48 <=? c) && (c <=? 57) then to 227 else to 0)
  else if 70 <? c then (if (97 <=? c) && (c <=? 102) then to 227 else to 0)
  else to 227.
Definition req_case_227 (uri_relaxed : bool) (c : Z) : jump http_action :=
  if c =? 58 then to 228 else to 0.
Definition req_case_228 (uri_relaxed : bool) (c : Z) : jump http_action :=
  if c =? 49 then to 259
  else if c =? 50 then to 262
  else if c <? 65 then (if (48 <=? c) && (c <=? 57) then to 229 else to 0)
  else if 70 <? c then (if (97 <=? c) && (c <=? 102) then to 265 else to 0)
  else to 265.
Definition req_case_229 (uri_relaxed : bool) (c : Z) : jump http_action :=
  if c =? 46 then to 230
  else if c =? 58 then to 255
  else if c <? 65 then (if (48 <=? c) && (c <=? 57) then to 252 else to 0)
  else if 70 <? c then (if (97 <=? c) && (c <=? 102) then to 252 else to 0)
  else to 252.
Definition req_case_230 (uri_relaxed : bool) (c : Z) : jump http_action :=
  if c =? 49 then to 247
  else if c =? 50 then to 249
  else if (48 <=? c) && (c <=? 57) then to 231 else to 0.
Definition req_case_231 (uri_relaxed : bool) (c : Z) : jump http_action :=
  if c =? 46 then to 232 else to 0.
Definition req_case_232 (uri_relaxed : bool) (c : Z) : jump http_action :=
  if c =? 49 then to 242
  else if c =? 50 then to 244
  else if (48 <=? c) && (c <=? 57) then to 233 else to 0.
Definition req_case_233 (uri_relaxed : bool) (c : Z) : jump http_action :=
  if c =? 46 then to 234 else to 0.
Definition req_case_234 (uri_relaxed : bool) (c : Z) : jump http_action :=
  if c =? 49 then to 237
  else if c =? 50 then to 239
  else if (48 <=? c) && (c <=? 57) then to 235 else to 0.
Definition req_case_235 (uri_relaxed : bool) (c : Z) : jump http_action :=
  if c =? 93 then to 236 else to 0.
Definition req_case_236 (uri_relaxed : bool) (c : Z) : jump http_action :=
  if c =? 32 then req_ctr_241
  else if c =? 47 then to 205
  else if c =? 58 then to 221 else to 0.
Definition req_case_237 (uri_relaxed : bool) (c : Z) : jump http_action :=
  if c =? 93 then to 236
  else if (48 <=? c) && (c <=? 57) then to 238 else to 0.
Definition req_case_238 (uri_relaxed : bool) (c : Z) : jump http_action :=
  if c =? 93 then to 236
  else if (48 <=? c) && (c <=? 57) then to 235 else to 0.
Definition req_case_239 (uri_relaxed : bool) (c : Z) : jump http_action :=
  if c =? 48 then to 240
  else if c =? 53 then to 241
  else if c =? 93 then to 236 else to 0.
Definition req_case_240 (uri_relaxed : bool) (c : Z) : jump http_action :=
  if (48 <=? c) && (c <=? 57) then to 235 else to 0.
Definition req_case_241 (uri_relaxed : bool) (c : Z) : jump http_action :=
  if c =? 48 then to 235 else to 0.
Definition req_case_242 (uri_relaxed : bool) (c : Z) : jump http_action :=
  if c =? 46 then to 234
  else if (48 <=? c) && (c <=? 57) then to 243 else to 0.
Definition req_case_243 (uri_relaxed : bool) (c : Z) : jump http_action :=
  if c =? 46 then to 234
  else if (48 <=? c) && (c <=? 57) then to 233 else to 0.
Definition req_case_244 (uri_relaxed : bool) (c : Z) : jump http_action :=
  if c =? 46 then to 234
  else if c =? 48 then to 245
  else if c =? 53 then to 246 else to 0.
Definition req_case_245 (uri_relaxed : bool) (c : Z) : jump http_action :=
  if (48 <=? c) && (c <=? 57) then to 233 else to 0.
Definition req_case_246 (uri_relaxed : bool) (c : Z) : jump http_action :=
  if c =? 48 then to 233 else to 0.
Definition req_case_247 (uri_relaxed : bool) (c : Z) : jump http_action :=
  if c =? 46 then to 232
  else if (48 <=? c) && (c <=? 57) then to 248 else to 0.
Definition req_case_248 (uri_relaxed : bool) (c : Z) : jump http_action :=
  if c =? 46 then to 232
  else if (48 <=? c) && (c <=? 57) then to 231 else to 0.
Definition req_case_249 (uri_relaxed : bool) (c : Z) : jump http_action :=
  if c =? 46 then to 232
  else if c =? 48 then to 250
  else if c =? 53 then to 251 else to 0.
Definition req_case_250 (uri_relaxed : bool) (c : Z) : jump http_action :=
  if (48 <=? c) && (c <=? 57) then to 231 else to 0.
Definition req_case_251 (uri_relaxed : bool) (c : Z) : jump http_action :=
  if c =? 48 then to 231 else to 0.
Definition req_case_252 (uri_relaxed : bool) (c : Z) : jump http_action :=
  if c =? 58 then to 255
  else if c <? 65 then (if (48 <=? c) && (c <=? 57) then to 253 else to 0)
  else if 70 <? c then (if (97 <=? c) && (c <=? 102) then to 253 else to 0)
  else to 253.
Definition req_case_253 (uri_relaxed : bool) (c : Z) : jump http_action :=
  if c =? 58 then to 255
  else if c <? 65 then (if (48 <=? c) && (c <=? 57) then to 254 else to 0)
  else if 70 <? c then (if (97 <=? c) && (c <=? 102) then to 254 else to 0)
  else to 254.
Definition req_case_254 (uri_relaxed : bool) (c : Z) : jump http_action :=
  if c =? 58 then to 255 else to 0.
Definition req_case_255 (uri_relaxed : bool) (c : Z) : jump http_action :=
  if c <? 65 then (if (48 <=? c) && (c <=? 57) then to 256 else to 0)
  else if 70 <? c then (if (97 <=? c) && (c <=? 102) then to 256 else to 0)
  else to 256.
Definition req_case_256 (uri_relaxed : bool) (c : Z) : jump http_action :=
  if c =? 93 then to 236
  else if c <? 65 then (if (48 <=? c) && (c <=? 57) then to 257 else to 0)
  else if 70 <? c then (if (97 <=? c) && (c <=? 102) then to 257 else to 0)
  else to 257.
Definition req_case_257 (uri_relaxed : bool) (c : Z) : jump http_action :=
  if c =? 93 then to 236
  else if c <? 65 then (if (48 <=? c) && (c <=? 57) then to 258 else to 0)
  else if 70 <? c then (if (97 <=? c) && (c <=? 102) then to 258 else to 0)
  else to 258.
Definition req_case_258 (uri_relaxed : bool) (c : Z) : jump http_action :=
  if c =? 93 then to 236
  else if c <? 65 then (if (48 <=? c) && (c <=? 57) then to 235 else to 0)
  else if 70 <? c then (if (97 <=? c) && (c <=? 102) then to 235 else to 0)
  else to 235.
Definition req_case_259 (uri_relaxed : bool) (c : Z) : jump http_action :=
  if c =? 46 then to 230
  else if c =? 58 then to 255
  else if c <? 65 then (if (48 <=? c) && (c <=? 57) then to 260 else to 0)
  else if 70 <? c then (if (97 <=? c) && (c <=? 102) then to 252 else to 0)
  else to 252.
Definition req_case_260 (uri_relaxed : bool) (c : Z) : jump http_action :=
  if c =? 46 then to 230
  else if c =? 58 then to 255
  else if c <? 65 then (if (48 <=? c) && (c <=? 57) then to 261 else to 0)
  else if 70 <? c then (if (97 <=? c) && (c <=? 102) then to 253 else to 0)
  else to 253.
Definition req_case_261 (uri_relaxed : bool) (c : Z) : jump http_action :=
  if c =? 46 then to 230
  else if c =? 58 then to 255
  else if c <? 65 then (if (48 <=? c) && (c <=? 57) then to 254 else to 0)
  else if 70 <? c then (if (97 <=? c) && (c <=? 102) then to 254 else to 0)
  else to 254.
Definition req_case_262 (uri_relaxed : bool) (c : Z) : jump http_action :=
  if c =? 46 then to 230
  else if c =? 48 then to 263
  else if c =? 53 then to 264
  else if c =? 58 then to 255
  else if c <? 65 then (if (49 <=? c) && (c <=? 57) then to 252 else to 0)
  else if 70 <? c then (if (97 <=? c) && (c <=? 102) then to 252 else to 0)
  else to 252.
Definition req_case_263 (uri_relaxed : bool) (c : Z) : jump http_action :=
  if c =? 58 then to 255
  else if c <? 65 then (if (48 <=? c) && (c <=? 57) then to 261 else to 0)
  else if 70 <? c then (if (97 <=? c) && (c <=? 102) then to 253 else to 0)
  else to 253.
Definition req_case_264 (uri_relaxed : bool) (c : Z) : jump http_action :=
  if c =? 48 then to 261
  else if c =? 58 then to 255
  else if c <? 65 then (if (49 <=? c) && (c <=? 57) then to 253 else to 0)
  else if 70 <? c then (if (97 <=? c) && (c <=? 102) then to 253 else to 0)
  else to 253.
Definition req_case_265 (uri_relaxed : bool) (c : Z) : jump http_action :=
  if c =? 58 then to 255
  else if c <? 65 then (if (48 <=? c) && (c <=? 57) then to 252 else to 0)
  else if 70 <? c then (if (97 <=? c) && (c <=? 102) then to 252 else to 0)
  else to 252.
Definition req_case_266 (uri_relaxed : bool) (c : Z) : jump http_action :=
  if c =? 58 then to 270
  else if c <? 65 then (if (48 <=? c) && (c <=? 57) then to 267 else to 0)
  else if 70 <? c then (if (97 <=? c) && (c <=? 102) then to 267 else to 0)
  else to 267.
Definition req_case_267 (uri_relaxed : bool) (c : Z) : jump http_action :=
  if c =? 58 then to 270
  else if c <? 65 then (if (48 <=? c) && (c <=? 57) then to 268 else to 0)
  else if 70 <? c then (if (97 <=? c) && (c <=? 102) then to 268 else to 0)
  else to 268.
Definition req_case_268 (uri_relaxed : bool) (c : Z) : jump http_action :=
  if c =? 58 then to 270
  else if c <? 65 then (if (48 <=? c) && (c <=? 57) then to 269 else to 0)
  else if 70 <? c then (if (97 <=? c) && (c <=? 102) then to 269 else to 0)
  else to 269.
Definition req_case_269 (uri_relaxed : bool) (c : Z) : jump http_action :=
  if c =? 58 then to 270 else to 0.
Definition req_case_270 (uri_relaxed : bool) (c : Z) : jump http_action :=
  if c =? 58 then to 341
  else if c <? 65 then (if (48 <=? c) && (c <=? 57) then to 271 else to 0)
  else if 70 <? c then (if (97 <=? c) && (c <=? 102) then to 271 else to 0)
  else to 271.
Definition req_case_271 (uri_relaxed : bool) (c : Z) : jump http_action :=
  if c =? 58 then to 275
  else if c <? 65 then (if (48 <=? c) && (c <=? 57) then to 272 else to 0)
  else if 70 <? c then (if (97 <=? c) && (c <=? 102) then to 272 else to 0)
  else to 272.
Definition req_case_272 (uri_relaxed : bool) (c : Z) : jump http_action :=
  if c =? 58 then to 275
  else if c <? 65 then (if (48 <=? c) && (c <=? 57) then to 273 else to 0)
  else if 70 <? c then (if (97 <=? c) && (c <=? 102) then to 273 else to 0)
  else to 273.
Definition req_case_273 (uri_relaxed : bool) (c : Z) : jump http_action :=
  if c =? 58 then to 275
  else if c <? 65 then (if (48 <=? c) && (c <=? 57) then to 274 else to 0)
  else if 70 <? c then (if (97 <=? c) && (c <=? 102) then to 274 else to 0)
  else to 274.
Definition req_case_274 (uri_relaxed : bool) (c : Z) : jump http_action :=
  if c =? 58 then to 275 else to 0.
Definition req_case_275 (uri_relaxed : bool) (c : Z) : jump http_action :=
  if c =? 58 then to 340
  else if c <? 65 then (if (48 <=? c) && (c <=? 57) then to 276 else to 0)
  else if 70 <? c then (if (97 <=? c) && (c <=? 102) then to 276 else to 0)
  else to 276.
Definition req_case_276 (uri_relaxed : bool) (c : Z) : jump http_action :=
  if c =? 58 then to 280
  else if c <? 65 then (if (48 <=? c) && (c <=? 57) then to 277 else to 0)
  else if 70 <? c then (if (97 <=? c) && (c <=? 102) then to 277 else to 0)
  else to 277.
Definition req_case_277 (uri_relaxed : bool) (c : Z) : jump http_action :=
  if c =? 58 then to 280
  else if c <? 65 then (if (48 <=? c) && (c <=? 57) then to 278 else to 0)
  else if 70 <? c then (if (97 <=? c) && (c <=? 102) then to 278 else to 0)
  else to 278.
Definition req_case_278 (uri_relaxed : bool) (c : Z) : jump http_action :=
  if c =? 58 then to 280
  else if c <? 65 then (if (48 <=? c) && (c <=? 57) then to 279 else to 0)
  else if 70 <? c then (if (97 <=? c) && (c <=? 102) then to 279 else to 0)
  else to 279.
Definition req_case_279 (uri_relaxed : bool) (c : Z) : jump http_action :=
  if c =? 58 then to 280 else to 0.
Definition req_case_280 (uri_relaxed : bool) (c : Z) : jump http_action :=
  if c =? 58 then to 339
  else if c <? 65 then (if (48 <=? c) && (c <=? 57) then to 281 else to 0)
  else if 70 <? c then (if (97 <=? c) && (c <=? 102) then to 281 else to 0)
  else to 281.
Definition req_case_281 (uri_relaxed : bool) (c : Z) : jump http_action :=
  if c =? 58 then to 285
  else if c <? 65 then (if (48 <=? c) && (c <=? 57) then to 282 else to 0)
  else if 70 <? c then (if (97 <=? c) && (c <=? 102) then to 282 else to 0)
  else to 282.
Definition req_case_282 (uri_relaxed : bool) (c : Z) : jump http_action :=
  if c =? 58 then to 285
  else if c <? 65 then (if (48 <=? c) && (c <=? 57) then to 283 else to 0)
  else if 70 <? c then (if (97 <=? c) && (c <=? 102) then to 283 else to 0)
  else to 283.
Definition req_case_283 (uri_relaxed : bool) (c : Z) : jump http_action :=
  if c =? 58 then to 285
  else if c <? 65 then (if (48 <=? c) && (c <=? 57) then to 284 else to 0)
  else if 70 <? c then (if (97 <=? c) && (c <=? 102) then to 284 else to 0)
  else to 284.
Definition req_case_284 (uri_relaxed : bool) (c : Z) : jump http_action :=
  if c =? 58 then to 285 else to 0.
Definition req_case_285 (uri_relaxed : bool) (c : Z) : jump http_action :=
  if c =? 58 then to 338
  else if c <? 65 then (if (48 <=? c) && (c <=? 57) then to 286 else to 0)
  else if 70 <? c then (if (97 <=? c) && (c <=? 102) then to 286 else to 0)
  else to 286.
Definition req_case_286 (uri_relaxed : bool) (c : Z) : jump http_action :=
  if c =? 58 then to 290
  else if c <? 65 then (if (48 <=? c) && (c <=? 57) then to 287 else to 0)
  else if 70 <? c then (if (97 <=? c) && (c <=? 102) then to 287 else to 0)
  else to 287.
Definition req_case_287 (uri_relaxed : bool) (c : Z) : jump http_action :=
  if c =? 58 then to 290
  else if c <? 65 then (if (48 <=? c) && (c <=? 57) then to 288 else to 0)
  else if 70 <? c then (if (97 <=? c) && (c <=? 102) then to 288 else to 0)
  else to 288.
Definition req_case_288 (uri_relaxed : bool) (c : Z) : jump http_action :=
  if c =? 58 then to 290
  else if c <? 65 then (if (48 <=? c) && (c <=? 57) then to 289 else to 0)
  else if 70 <? c then (if (97 <=? c) && (c <=? 102) then to 289 else to 0)
  else to 289.
Definition req_case_289 (uri_relaxed : bool) (c : Z) : jump http_action :=
  if c =? 58 then to 290 else to 0.
Definition req_case_290 (uri_relaxed : bool) (c : Z) : jump http_action :=
  if c =? 58 then to 326
  else if c <? 65 then (if (48 <=? c) && (c <=? 57) then to 291 else to 0)
  else if 70 <? c then (if (97 <=? c) && (c <=? 102) then to 291 else to 0)
  else to 291.
Definition req_case_291 (uri_relaxed : bool) (c : Z) : jump http_action :=
  if c =? 58 then to 295
  else if c <? 65 then (if (48 <=? c) && (c <=? 57) then to 292 else to 0)
  else if 70 <? c then (if (97 <=? c) && (c <=? 102) then to 292 else to 0)
  else to 292.
Definition req_case_292 (uri_relaxed : bool) (c : Z) : jump http_action :=
  if c =? 58 then to 295
  else if c <? 65 then (if (48 <=? c) && (c <=? 57) then to 293 else to 0)
  else if 70 <? c then (if (97 <=? c) && (c <=? 102) then to 293 else to 0)
  else to 293.
Definition req_case_293 (uri_relaxed : bool) (c : Z) : jump http_action :=
  if c =? 58 then to 295
  else if c <? 65 then (if (48 <=? c) && (c <=? 57) then to 294 else to 0)
  else if 70 <? c then (if (97 <=? c) && (c <=? 102) then to 294 else to 0)
  else to 294.
Definition req_case_294 (uri_relaxed : bool) (c : Z) : jump http_action :=
  if c =? 58 then to 295 else to 0.
Definition req_case_295 (uri_relaxed : bool) (c : Z) : jump http_action :=
  if c =? 58 then to 325
  else if c <? 65 then (if (48 <=? c) && (c <=? 57) then to 296 else to 0)
  else if 70 <? c then (if (97 <=? c) && (c <=? 102) then to 296 else to 0)
  else to 296.
Definition req_case_296 (uri_relaxed : bool) (c : Z) : jump http_action :=
  if c =? 58 then to 300
  else if c <? 65 then (if (48 <=? c) && (c <=? 57) then to 297 else to 0)
  else if 70 <? c then (if (97 <=? c) && (c <=? 102) then to 297 else to 0)
  else to 297.
Definition req_case_297 (uri_relaxed : bool) (c : Z) : jump http_action :=
  if c =? 58 then to 300
  else if c <? 65 then (if (48 <=? c) && (c <=? 57) then to 298 else to 0)
  else if 70 <? c then (if (97 <=? c) && (c <=? 102) then to 298 else to 0)
  else to 298.
Definition req_case_298 (uri_relaxed : bool) (c : Z) : jump http_action :=
  if c =? 58 then to 300
  else if c <? 65 then (if (48 <=? c) && (c <=? 57) then to 299 else to 0)
  else if 70 <? c then (if (97 <=? c) && (c <=? 102) then to 299 else to 0)
  else to 299.
Definition req_case_299 (uri_relaxed : bool) (c : Z) : jump http_action :=
  if c =? 58 then to 300 else to 0.
Definition req_case_300 (uri_relaxed : bool) (c : Z) : jump http_action :=
  if c =? 58 then to 301
  else if c <? 65 then (if (48 <=? c) && (c <=? 57) then to 296 else to 0)
  else if 70 <? c then (if (97 <=? c) && (c <=? 102) then to 296 else to 0)
  else to 296.
Definition req_case_301 (uri_relaxed : bool) (c : Z) : jump http_action :=
  if c =? 49 then to 318
  else if c =? 50 then to 321
  else if c =? 93 then to 236
  else if c <? 48 then (if (2 <=? c) && (c <=? 3) then to 223 else to 0)
  else if 57 <? c then (if 70 <? c then (if (97 <=? c) && (c <=? 102) then to 324 else to 0)
    else if 65 <=? c then to 324 else to 0)
  else to 302.
Definition req_case_302 (uri_relaxed : bool) (c : Z) : jump http_action :=
  if c =? 46 then to 230
  else if c =? 58 then to 306
  else if c =? 93 then to 236
  else if c <? 65 then (if (48 <=? c) && (c <=? 57) then to 303 else to 0)
  else if 70 <? c then (if (97 <=? c) && (c <=? 102) then to 303 else to 0)
  else to 303.
Definition req_case_303 (uri_relaxed : bool) (c : Z) : jump http_action :=
  if c =? 58 then to 306
  else if c =? 93 then to 236
  else if c <? 65 then (if (48 <=? c) && (c <=? 57) then to 304 else to 0)
  else if 70 <? c then (if (97 <=? c) && (c <=? 102) then to 304 else to 0)
  else to 304.
Definition req_case_304 (uri_relaxed : bool) (c : Z) : jump http_action :=
  if c =? 58 then to 306
  else if c =? 93 then to 236
  else if c <? 65 then (if (48 <=? c) && (c <=? 57) then to 305 else to 0)
  else if 70 <? c then (if (97 <=? c) && (c <=? 102) then to 305 else to 0)
  else to 305.
Definition req_case_305 (uri_relaxed : bool) (c : Z) : jump http_action :=
  if c =? 58 then to 306
  else if c =? 93 then to 236 else to 0.
Definition req_case_306 (uri_relaxed : bool) (c : Z) : jump http_action :=
  if c =? 49 then to 311
  else if c =? 50 then to 314
  else if c <? 65 then (if (48 <=? c) && (c <=? 57) then to 307 else to 0)
  else if 70 <? c then (if (97 <=? c) && (c <=? 102) then to 317 else to 0)
  else to 317.
Definition req_case_307 (uri_relaxed : bool) (c : Z) : jump http_action :=
  if c =? 46 then to 230
  else if c =? 58 then to 255
  else if c =? 93 then to 236
  else if c <? 65 then (if (48 <=? c) && (c <=? 57) then to 308 else to 0)
  else if 70 <? c then (if (97 <=? c) && (c <=? 102) then to 308 else to 0)
  else to 308.
Definition req_case_308 (uri_relaxed : bool) (c : Z) : jump http_action :=
  if c =? 58 then to 255
  else if c =? 93 then to 236
  else if c <? 65 then (if (48 <=? c) && (c <=? 57) then to 309 else to 0)
  else if 70 <? c then (if (97 <=? c) && (c <=? 102) then to 309 else to 0)
  else to 309.
Definition req_case_309 (uri_relaxed : bool) (c : Z) : jump http_action :=
  if c =? 58 then to 255
  else if c =? 93 then to 236
  else if c <? 65 then (if (48 <=? c) && (c <=? 57) then to 310 else to 0)
  else if 70 <? c then (if (97 <=? c) && (c <=? 102) then to 310 else to 0)
  else to 310.
Definition req_case_310 (uri_relaxed : bool) (c : Z) : jump http_action :=
  if c =? 58 then to 255
  else if c =? 93 then to 236 else to 0.
Definition req_case_311 (uri_relaxed : bool) (c : Z) : jump http_action :=
  if c =? 46 then to 230
  else if c =? 58 then to 255
  else if c =? 93 then to 236
  else if c <? 65 then (if (48 <=? c) && (c <=? 57) then to 312 else to 0)
  else if 70 <? c then (if (97 <=? c) && (c <=? 102) then to 308 else to 0)
  else to 308.
Definition req_case_312 (uri_relaxed : bool) (c : Z) : jump http_action :=
  if c =? 46 then to 230
  else if c =? 58 then to 255
  else if c =? 93 then to 236
  else if c <? 65 then (if (48 <=? c) && (c <=? 57) then to 313 else to 0)
  else if 70 <? c then (if (97 <=? c) && (c <=? 102) then to 309 else to 0)
  else to 309.
Definition req_case_313 (uri_relaxed : bool) (c : Z) : jump http_action :=
  if c =? 46 then to 230
  else if c =? 58 then to 255
  else if c =? 93 then to 236
  else if c <? 65 then (if (48 <=? c) && (c <=? 57) then to 310 else to 0)
  else if 70 <? c then (if (97 <=? c) && (c <=? 102) then to 310 else to 0)
  else to 310.
Definition req_case_314 (uri_relaxed : bool) (c : Z) : jump http_action :=
  if c =? 46 then to 230
  else if c =? 48 then to 315
  else if c =? 53 then to 316
  else if c =? 58 then to 255
  else if c =? 93 then to 236
  else if c <? 65 then (if (49 <=? c) && (c <=? 57) then to 308 else to 0)
  else if 70 <? c then (if (97 <=? c) && (c <=? 102) then to 308 else to 0)
  else to 308.
Definition req_case_315 (uri_relaxed : bool) (c : Z) : jump http_action :=
  if c =? 58 then to 255
  else if c =? 93 then to 236
  else if c <? 65 then (if (48 <=? c) && (c <=? 57) then to 313 else to 0)
  else if 70 <? c then (if (97 <=? c) && (c <=? 102) then to 309 else to 0)
  else to 309.
Definition req_case_316 (uri_relaxed : bool) (c : Z) : jump http_action :=
  if c =? 48 then to 313
  else if c =? 58 then to 255
  else if c =? 93 then to 236
  else if c <? 65 then (if (49 <=? c) && (c <=? 57) then to 309 else to 0)
  else if 70 <? c then (if (97 <=? c) && (c <=? 102) then to 309 else to 0)
  else to 309.
Definition req_case_317 (uri_relaxed : bool) (c : Z) : jump http_action :=
  if c =? 58 then to 255
  else if c =? 93 then to 236
  else if c <? 65 then (if (48 <=? c) && (c <=? 57) then to 308 else to 0)
  else if 70 <? c then (if (97 <=? c) && (c <=? 102) then to 308 else to 0)
  else to 308.
Definition req_case_318 (uri_relaxed : bool) (c : Z) : jump http_action :=
  if c =? 46 then to 230
  else if c =? 58 then to 306
  else if c =? 93 then to 236
  else if c <? 65 then (if (48 <=? c) && (c <=? 57) then to 319 else to 0)
  else if 70 <? c then (if (97 <=? c) && (c <=? 102) then to 303 else to 0)
  else to 303.
Definition req_case_319 (uri_relaxed : bool) (c : Z) : jump http_action :=
  if c =? 46 then to 230
  else if c =? 58 then to 306
  else if c =? 93 then to 236
  else if c <? 65 then (if (48 <=? c) && (c <=? 57) then to 320 else to 0)
  else if 70 <? c then (if (97 <=? c) && (c <=? 102) then to 304 else to 0)
  else to 304.
Definition req_case_320 (uri_relaxed : bool) (c : Z) : jump http_action :=
  if c =? 46 then to 230
  else if c =? 58 then to 306
  else if c =? 93 then to 236
  else if c <? 65 then (if (48 <=? c) && (c <=? 57) then to 305 else to 0)
  else if 70 <? c then (if (97 <=? c) && (c <=? 102) then to 305 else to 0)
  else to 305.
Definition req_case_321 (uri_relaxed : bool) (c : Z) : jump http_action :=
  if c =? 46 then to 230
  else if c =? 48 then to 322
  else if c =? 53 then to 323
  else if c =? 58 then to 306
  else if c =? 93 then to 236
  else if c <? 65 then (if (49 <=? c) && (c <=? 57) then to 303 else to 0)
  else if 70 <? c then (if (97 <=? c) && (c <=? 102) then to 303 else to 0)
  else to 303.
Definition req_case_322 (uri_relaxed : bool) (c : Z) : jump http_action :=
  if c =? 58 then to 306
  else if c =? 93 then to 236
  else if c <? 65 then (if (48 <=? c) && (c <=? 57) then to 320 else to 0)
  else if 70 <? c then (if (97 <=? c) && (c <=? 102) then to 304 else to 0)
  else to 304.
Definition req_case_323 (uri_relaxed : bool) (c : Z) : jump http_action :=
  if c =? 48 then to 320
  else if c =? 58 then to 306
  else if c =? 93 then to 236
  else if c <? 65 then (if (49 <=? c) && (c <=? 57) then to 304 else to 0)
  else if 70 <? c then (if (97 <=? c) && (c <=? 102) then to 304 else to 0)
  else to 304.
Definition req_case_324 (uri_relaxed : bool) (c : Z) : jump http_action :=
  if c =? 58 then to 306
  else if c =? 93 then to 236
  else if c <? 65 then (if (48 <=? c) && (c <=? 57) then to 303 else to 0)
  else if 70 <? c then (if (97 <=? c) && (c <=? 102) then to 303 else to 0)
  else to 303.
Definition req_case_325 (uri_relaxed : bool) (c : Z) : jump http_action :=
  if c =? 49 then to 318
  else if c =? 50 then to 321
  else if c <? 48 then (if (2 <=? c) && (c <=? 3) then to 223 else to 0)
  else if 57 <? c then (if 70 <? c then (if (97 <=? c) && (c <=? 102) then to 324 else to 0)
    else if 65 <=? c then to 324 else to 0)
  else to 302.
Definition req_case_326 (uri_relaxed : bool) (c : Z) : jump http_action :=
  if c =? 49 then to 331
  else if c =? 50 then to 334
  else if c <? 48 then (if (2 <=? c) && (c <=? 3) then to 223 else to 0)
  else if 57 <? c then (if 70 <? c then (if (97 <=? c) && (c <=? 102) then to 337 else to 0)
    else if 65 <=? c then to 337 else to 0)
  else to 327.
Definition req_case_327 (uri_relaxed : bool) (c : Z) : jump http_action :=
  if c =? 46 then to 230
  else if c =? 58 then to 306
  else if c <? 65 then (if (48 <=? c) && (c <=? 57) then to 328 else to 0)
  else if 70 <? c then (if (97 <=? c) && (c <=? 102) then to 328 else to 0)
  else to 328.
Definition req_case_328 (uri_relaxed : bool) (c : Z) : jump http_action :=
  if c =? 58 then to 306
  else if c <? 65 then (if (48 <=? c) && (c <=? 57) then to 329 else to 0)
  else if 70 <? c then (if (97 <=? c) && (c <=? 102) then to 329 else to 0)
  else to 329.
Definition req_case_329 (uri_relaxed : bool) (c : Z) : jump http_action :=
  if c =? 58 then to 306
  else if c <? 65 then (if (48 <=? c) && (c <=? 57) then to 330 else to 0)
  else if 70 <? c then (if (97 <=? c) && (c <=? 102) then to 330 else to 0)
  else to 330.
Definition req_case_330 (uri_relaxed : bool) (c : Z) : jump http_action :=
  if c =? 58 then to 306 else to 0.
Definition req_case_331 (uri_relaxed : bool) (c : Z) : jump http_action :=
  if c =? 46 then to 230
  else if c =? 58 then to 306
  else if c <? 65 then (if (48 <=? c) && (c <=? 57) then to 332 else to 0)
  else if 70 <? c then (if (97 <=? c) && (c <=? 102) then to 328 else to 0)
  else to 328.
Definition req_case_332 (uri_relaxed : bool) (c : Z) : jump http_action :=
  if c =? 46 then to 230
  else if c =? 58 then to 306
  else if c <? 65 then (if (48 <=? c) && (c <=? 57) then to 333 else to 0)
  else if 70 <? c then (if (97 <=? c) && (c <=? 102) then to 329 else to 0)
  else to 329.
Definition req_case_333 (uri_relaxed : bool) (c : Z) : jump http_action :=
  if c =? 46 then to 230
  else if c =? 58 then to 306
  else if c <? 65 then (if (48 <=? c) && (c <=? 57) then to 330 else to 0)
  else if 70 <? c then (if (97 <=? c) && (c <=? 102) then to 330 else to 0)
  else to 330.
Definition req_case_334 (uri_relaxed : bool) (c : Z) : jump http_action :=
  if c =? 46 then to 230
  else if c =? 48 then to 335
  else if c =? 53 then to 336
  else if c =? 58 then to 306
  else if c <? 65 then (if (49 <=? c) && (c <=? 57) then to 328 else to 0)
  else if 70 <? c then (if (97 <=? c) && (c <=? 102) then to 328 else to 0)
  else to 328.
Definition req_case_335 (uri_relaxed : bool) (c : Z) : jump http_action :=
  if c =? 58 then to 306
  else if c <? 65 then (if (48 <=? c) && (c <=? 57) then to 333 else to 0)
  else if 70 <? c then (if (97 <=? c) && (c <=? 102) then to 329 else to 0)
  else to 329.
Definition req_case_336 (uri_relaxed : bool) (c : Z) : jump http_action :=
  if c =? 48 then to 333
  else if c =? 58 then to 306
  else if c <? 65 then (if (49 <=? c) && (c <=? 57) then to 329 else to 0)
  else if 70 <? c then (if (97 <=? c) && (c <=? 102) then to 329 else to 0)
  else to 329.
Definition req_case_337 (uri_relaxed : bool) (c : Z) : jump http_action :=
  if c =? 58 then to 306
  else if c <? 65 then (if (48 <=? c) && (c <=? 57) then to 328 else to 0)
  else if 70 <? c then (if (97 <=? c) && (c <=? 102) then to 328 else to 0)
  else to 328.
Definition req_case_338 (uri_relaxed : bool) (c : Z) : jump http_action :=
  if c <? 48 then (if (2 <=? c) && (c <=? 3) then to 223 else to 0)
  else if 57 <? c then (if 70 <? c then (if (97 <=? c) && (c <=? 102) then to 224 else to 0)
    else if 65 <=? c then to 224 else to 0)
  else to 224.
Definition req_case_339 (uri_relaxed : bool) (c : Z) : jump http_action :=
  if (2 <=? c) && (c <=? 3) then to 223 else to 0.
Definition req_case_340 (uri_relaxed : bool) (c : Z) : jump http_action :=
  if c =? 3 then to 223 else to 0.
Definition req_case_341 (uri_relaxed : bool) (c : Z) : jump http_action :=
  if c =? 4 then to 223 else to 0.
Definition req_case_342 (uri_relaxed : bool) (c : Z) : jump http_action :=
  if c =? 58 then to 343 else to 0.
Definition req_case_343 (uri_relaxed : bool) (c : Z) : jump http_action :=
  if c =? 49 then to 318
  else if c =? 50 then to 321
  else if c =? 93 then to 236
  else if c <? 48 then (if (2 <=? c) && (c <=? 5) then to 223 else to 0)
  else if 57 <? c then (if 70 <? c then (if (97 <=? c) && (c <=? 102) then to 324 else to 0)
    else if 65 <=? c then to 324 else to 0)
  else to 302.
Definition req_case_344 (uri_relaxed : bool) (c : Z) : jump http_action :=
  if c <? 65 then (if (48 <=? c) && (c <=? 57) then to 345 else to 0)
  else if 70 <? c then (if (97 <=? c) && (c <=? 102) then to 345 else to 0)
  else to 345.
Definition req_case_345 (uri_relaxed : bool) (c : Z) : jump http_action :=
  if c =? 46 then to 346
  else if c <? 65 then (if (48 <=? c) && (c <=? 57) then to 345 else to 0)
  else if 70 <? c then (if (97 <=? c) && (c <=? 102) then to 345 else to 0)
  else to 345.
Definition req_case_346 (uri_relaxed : bool) (c : Z) : jump http_action :=
  if c =? 33 then to 347
  else if c =? 36 then to 347
  else if c =? 61 then to 347
  else if c =? 94 then (if uri_relaxed then to 347 else to 0)
  else if c =? 95 then to 347
  else if c =? 123 then (if uri_relaxed then to 347 else to 0)
  else if c =? 125 then (if uri_relaxed then to 347 else to 0)
  else if c =? 126 then to 347
  else if c <? 48 then (if (38 <=? c) && (c <=? 46) then to 347 else to 0)
  else if 59 <? c then (if 90 <? c then (if (97 <=? c) && (c <=? 122) then to 347 else to 0)
    else if 65 <=? c then to 347 else to 0)
  else to 347.
Definition req_case_347 (uri_relaxed : bool) (c : Z) : jump http_action :=
  if c =? 33 then to 347
  else if c =? 36 then to 347
  else if c =? 61 then to 347
  else if c =? 93 then to 236
  else if c =? 94 then (if uri_relaxed then to 347 else to 0)
  else if c =? 95 then to 347
  else if c =? 123 then (if uri_relaxed then to 347 else to 0)
  else if c =? 125 then (if uri_relaxed then to 347 else to 0)
  else if c =? 126 then to 347
  else if c <? 48 then (if (38 <=? c) && (c <=? 46) then to 347 else to 0)
  else if 59 <? c then (if 90 <? c then (if (97 <=? c) && (c <=? 122) then to 347 else to 0)
    else if 65 <=? c then to 347 else to 0)
  else to 347.
Definition req_case_348 (uri_relaxed : bool) (c : Z) : jump http_action :=
  if c =? 33 then to 14
  else if c =? 58 then req_ctr_29
  else if c =? 124 then to 14
  else if c =? 126 then to 14
  else if c <? 42 then (if c <? 10 then (if (1 <=? c) && (c <=? 8) then to 14 else to 0)
    else if 31 <? c then (if (35 <=? c) && (c <=? 39) then to 14 else to 0)
    else to 14)
  else if 43 <? c then (if c <? 48 then (if (45 <=? c) && (c <=? 46) then to 14 else to 0)
    else if 57 <? c then (if 90 <? c then (if (94 <=? c) && (c <=? 122) then to 14 else to 0)
      else if 65 <=? c then to 14 else to 0)
    else to 14)
  else to 14.
Definition req_case_349 (uri_relaxed : bool) (c : Z) : jump http_action :=
  to 0.

(** [switch (cs)]: the state the scanner continues in. *)
Definition req_table (uri_relaxed : bool) (cs : Z) : Z → jump http_action :=
  match cs with
  | 1 => req_case_1 uri_relaxed
  | 2 => req_case_2 uri_relaxed
  | 3 => req_case_3 uri_relaxed
  | 4 => req_case_4 uri_relaxed
  | 5 => req_case_5 uri_relaxed
  | 6 => req_case_6 uri_relaxed
  | 7 => req_case_7 uri_relaxed
  | 8 => req_case_8 uri_relaxed
  | 9 => req_case_9 uri_relaxed
  | 10 => req_case_10 uri_relaxed
  | 11 => req_case_11 uri_relaxed
  | 12 => req_case_12 uri_relaxed
  | 13 => req_case_13 uri_relaxed
  | 14 => req_case_14 uri_relaxed
  | 15 => req_case_15 uri_relaxed
  | 16 => req_case_16 uri_relaxed
  | 17 => req_case_17 uri_relaxed
  | 18 => req_case_18 uri_relaxed
  | 19 => req_case_19 uri_relaxed
  | 20 => req_case_20 uri_relaxed
  | 21 => req_case_21 uri_relaxed
  | 22 => req_case_22 uri_relaxed
  | 23 => req_case_23 uri_relaxed
  | 24 => req_case_24 uri_relaxed
  | 25 => req_case_25 uri_relaxed
  | 26 => req_case_26 uri_relaxed
  | 27 => req_case_27 uri_relaxed
  | 28 => req_case_28 uri_relaxed
  | 29 => req_case_29 uri_relaxed
  | 30 => req_case_30 uri_relaxed
  | 31 => req_case_31 uri_relaxed
  | 32 => req_case_32 uri_relaxed
  | 33 => req_case_33 uri_relaxed
  | 34 => req_case_34 uri_relaxed
  | 35 => req_case_35 uri_relaxed
  | 36 => req_case_36 uri_relaxed
  | 37 => req_case_37 uri_relaxed
  | 38 => req_case_38 uri_relaxed
  | 39 => req_case_39 uri_relaxed
  | 40 => req_case_40 uri_relaxed
  | 41 => req_case_41 uri_relaxed
  | 42 => req_case_42 uri_relaxed
  | 43 => req_case_43 uri_relaxed
  | 44 => req_case_44 uri_relaxed
  | 45 => req_case_45 uri_relaxed
  | 46 => req_case_46 uri_relaxed
  | 47 => req_case_47 uri_relaxed
  | 48 => req_case_48 uri_relaxed
  | 49 => req_case_49 uri_relaxed
  | 50 => req_case_50 uri_relaxed
  | 51 => req_case_51 uri_relaxed
  | 52 => req_case_52 uri_relaxed
  | 53 => req_case_53 uri_relaxed
  | 54 => req_case_54 uri_relaxed
  | 55 => req_case_55 uri_relaxed
  | 56 => req_case_56 uri_relaxed
  | 57 => req_case_57 uri_relaxed
  | 58 => req_case_58 uri_relaxed
  | 59 => req_case_59 uri_relaxed
  | 60 => req_case_60 uri_relaxed
  | 61 => req_case_61 uri_relaxed
  | 62 => req_case_62 uri_relaxed
  | 63 => req_case_63 uri_relaxed
  | 64 => req_case_64 uri_relaxed
  | 65 => req_case_65 uri_relaxed
  | 66 => req_case_66 uri_relaxed
  | 67 => req_case_67 uri_relaxed
  | 68 => req_case_68 uri_relaxed
  | 69 => req_case_69 uri_relaxed
  | 70 => req_case_70 uri_relaxed
  | 71 => req_case_71 uri_relaxed
  | 72 => req_case_72 uri_relaxed
  | 73 => req_case_73 uri_relaxed
  | 74 => req_case_74 uri_relaxed
  | 75 => req_case_75 uri_relaxed
  | 76 => req_case_76 uri_relaxed
  | 77 => req_case_77 uri_relaxed
  | 78 => req_case_78 uri_relaxed
  | 79 => req_case_79 uri_relaxed
  | 80 => req_case_80 uri_relaxed
  | 81 => req_case_81 uri_relaxed
  | 82 => req_case_82 uri_relaxed
  | 83 => req_case_83 uri_relaxed
  | 84 => req_case_84 uri_relaxed
  | 85 => req_case_85 uri_relaxed
  | 86 => req_case_86 uri_relaxed
  | 87 => req_case_87 uri_relaxed
  | 88 => req_case_88 uri_relaxed
  | 89 => req_case_89 uri_relaxed
  | 90 => req_case_90 uri_relaxed
  | 91 => req_case_91 uri_relaxed
  | 92 => req_case_92 uri_relaxed
  | 93 => req_case_93 uri_relaxed
  | 94 => req_case_94 uri_relaxed
  | 95 => req_case_95 uri_relaxed
  | 96 => req_case_96 uri_relaxed
  | 97 => req_case_97 uri_relaxed
  | 98 => req_case_98 uri_relaxed
  | 99 => req_case_99 uri_relaxed
  | 100 => req_case_100 uri_relaxed
  | 101 => req_case_101 uri_relaxed
  | 102 => req_case_102 uri_relaxed
  | 103 => req_case_103 uri_relaxed
  | 104 => req_case_104 uri_relaxed
  | 105 => req_case_105 uri_relaxed
  | 106 => req_case_106 uri_relaxed
  | 107 => req_case_107 uri_relaxed
  | 108 => req_case_108 uri_relaxed
  | 109 => req_case_109 uri_relaxed
  | 110 => req_case_110 uri_relaxed
  | 111 => req_case_111 uri_relaxed
  | 112 => req_case_112 uri_relaxed
  | 113 => req_case_113 uri_relaxed
  | 114 => req_case_114 uri_relaxed
  | 115 => req_case_115 uri_relaxed
  | 116 => req_case_116 uri_relaxed
  | 117 => req_case_117 uri_relaxed
  | 118 => req_case_118 uri_relaxed
  | 119 => req_case_119 uri_relaxed
  | 120 => req_case_120 uri_relaxed
  | 121 => req_case_121 uri_relaxed
  | 122 => req_case_122 uri_relaxed
  | 123 => req_case_123 uri_relaxed
  | 124 => req_case_124 uri_relaxed
  | 125 => req_case_125 uri_relaxed
  | 126 => req_case_126 uri_relaxed
  | 127 => req_case_127 uri_relaxed
  | 128 => req_case_128 uri_relaxed
  | 129 => req_case_129 uri_relaxed
  | 130 => req_case_130 uri_relaxed
  | 131 => req_case_131 uri_relaxed
  | 132 => req_case_132 uri_relaxed
  | 133 => req_case_133 uri_relaxed
  | 134 => req_case_134 uri_relaxed
  | 135 => req_case_135 uri_relaxed
  | 136 => req_case_136 uri_relaxed
  | 137 => req_case_137 uri_relaxed
  | 138 => req_case_138 uri_relaxed
  | 139 => req_case_139 uri_relaxed
  | 140 => req_case_140 uri_relaxed
  | 141 => req_case_141 uri_relaxed
  | 142 => req_case_142 uri_relaxed
  | 143 => req_case_143 uri_relaxed
  | 144 => req_case_144 uri_relaxed
  | 145 => req_case_145 uri_relaxed
  | 146 => req_case_146 uri_relaxed
  | 147 => req_case_147 uri_relaxed
  | 148 => req_case_148 uri_relaxed
  | 149 => req_case_149 uri_relaxed
  | 150 => req_case_150 uri_relaxed
  | 151 => req_case_151 uri_relaxed
  | 152 => req_case_152 uri_relaxed
  | 153 => req_case_153 uri_relaxed
  | 154 => req_case_154 uri_relaxed
  | 155 => req_case_155 uri_relaxed
  | 156 => req_case_156 uri_relaxed
  | 157 => req_case_157 uri_relaxed
  | 158 => req_case_158 uri_relaxed
  | 159 => req_case_159 uri_relaxed
  | 160 => req_case_160 uri_relaxed
  | 161 => req_case_161 uri_relaxed
  | 162 => req_case_162 uri_relaxed
  | 163 => req_case_163 uri_relaxed
  | 164 => req_case_164 uri_relaxed
  | 165 => req_case_165 uri_relaxed
  | 166 => req_case_166 uri_relaxed
  | 167 => req_case_167 uri_relaxed
  | 168 => req_case_168 uri_relaxed
  | 169 => req_case_169 uri_relaxed
  | 170 => req_case_170 uri_relaxed
  | 171 => req_case_171 uri_relaxed
  | 172 => req_case_172 uri_relaxed
  | 173 => req_case_173 uri_relaxed
  | 174 => req_case_174 uri_relaxed
  | 175 => req_case_175 uri_relaxed
  | 176 => req_case_176 uri_relaxed
  | 177 => req_case_177 uri_relaxed
  | 178 => req_case_178 uri_relaxed
  | 179 => req_case_179 uri_relaxed
  | 180 => req_case_180 uri_relaxed
  | 181 => req_case_181 uri_relaxed
  | 182 => req_case_182 uri_relaxed
  | 183 => req_case_183 uri_relaxed
  | 184 => req_case_184 uri_relaxed
  | 185 => req_case_185 uri_relaxed
  | 186 => req_case_186 uri_relaxed
  | 187 => req_case_187 uri_relaxed
  | 188 => req_case_188 uri_relaxed
  | 189 => req_case_189 uri_relaxed
  | 190 => req_case_190 uri_relaxed
  | 191 => req_case_191 uri_relaxed
  | 192 => req_case_192 uri_relaxed
  | 193 => req_case_193 uri_relaxed
  | 194 => req_case_194 uri_relaxed
  | 195 => req_case_195 uri_relaxed
  | 196 => req_case_196 uri_relaxed
  | 197 => req_case_197 uri_relaxed
  | 198 => req_case_198 uri_relaxed
  | 199 => req_case_199 uri_relaxed
  | 200 => req_case_200 uri_relaxed
  | 201 => req_case_201 uri_relaxed
  | 202 => req_case_202 uri_relaxed
  | 203 => req_case_203 uri_relaxed
  | 204 => req_case_204 uri_relaxed
  | 205 => req_case_205 uri_relaxed
  | 206 => req_case_206 uri_relaxed
  | 207 => req_case_207 uri_relaxed
  | 208 => req_case_208 uri_relaxed
  | 209 => req_case_209 uri_relaxed
  | 210 => req_case_210 uri_relaxed
  | 211 => req_case_211 uri_relaxed
  | 212 => req_case_212 uri_relaxed
  | 213 => req_case_213 uri_relaxed
  | 214 => req_case_214 uri_relaxed
  | 215 => req_case_215 uri_relaxed
  | 216 => req_case_216 uri_relaxed
  | 217 => req_case_217 uri_relaxed
  | 218 => req_case_218 uri_relaxed
  | 219 => req_case_219 uri_relaxed
  | 220 => req_case_220 uri_relaxed
  | 221 => req_case_221 uri_relaxed
  | 222 => req_case_222 uri_relaxed
  | 223 => req_case_223 uri_relaxed
  | 224 => req_case_224 uri_relaxed
  | 225 => req_case_225 uri_relaxed
  | 226 => req_case_226 uri_relaxed
  | 227 => req_case_227 uri_relaxed
  | 228 => req_case_228 uri_relaxed
  | 229 => req_case_229 uri_relaxed
  | 230 => req_case_230 uri_relaxed
  | 231 => req_case_231 uri_relaxed
  | 232 => req_case_232 uri_relaxed
  | 233 => req_case_233 uri_relaxed
  | 234 => req_case_234 uri_relaxed
  | 235 => req_case_235 uri_relaxed
  | 236 => req_case_236 uri_relaxed
  | 237 => req_case_237 uri_relaxed
  | 238 => req_case_238 uri_relaxed
  | 239 => req_case_239 uri_relaxed
  | 240 => req_case_240 uri_relaxed
  | 241 => req_case_241 uri_relaxed
  | 242 => req_case_242 uri_relaxed
  | 243 => req_case_243 uri_relaxed
  | 244 => req_case_244 uri_relaxed
  | 245 => req_case_245 uri_relaxed
  | 246 => req_case_246 uri_relaxed
  | 247 => req_case_247 uri_relaxed
  | 248 => req_case_248 uri_relaxed
  | 249 => req_case_249 uri_relaxed
  | 250 => req_case_250 uri_relaxed
  | 251 => req_case_251 uri_relaxed
  | 252 => req_case_252 uri_relaxed
  | 253 => req_case_253 uri_relaxed
  | 254 => req_case_254 uri_relaxed
  | 255 => req_case_255 uri_relaxed
  | 256 => req_case_256 uri_relaxed
  | 257 => req_case_257 uri_relaxed
  | 258 => req_case_258 uri_relaxed
  | 259 => req_case_259 uri_relaxed
  | 260 => req_case_260 uri_relaxed
  | 261 => req_case_261 uri_relaxed
  | 262 => req_case_262 uri_relaxed
  | 263 => req_case_263 uri_relaxed
  | 264 => req_case_264 uri_relaxed
  | 265 => req_case_265 uri_relaxed
  | 266 => req_case_266 uri_relaxed
  | 267 => req_case_267 uri_relaxed
  | 268 => req_case_268 uri_relaxed
  | 269 => req_case_269 uri_relaxed
  | 270 => req_case_270 uri_relaxed
  | 271 => req_case_271 uri_relaxed
  | 272 => req_case_272 uri_relaxed
  | 273 => req_case_273 uri_relaxed
  | 274 => req_case_274 uri_relaxed
  | 275 => req_case_275 uri_relaxed
  | 276 => req_case_276 uri_relaxed
  | 277 => req_case_277 uri_relaxed
  | 278 => req_case_278 uri_relaxed
  | 279 => req_case_279 uri_relaxed
  | 280 => req_case_280 uri_relaxed
  | 281 => req_case_281 uri_relaxed
  | 282 => req_case_282 uri_relaxed
  | 283 => req_case_283 uri_relaxed
  | 284 => req_case_284 uri_relaxed
  | 285 => req_case_285 uri_relaxed
  | 286 => req_case_286 uri_relaxed
  | 287 => req_case_287 uri_relaxed
  | 288 => req_case_288 uri_relaxed
  | 289 => req_case_289 uri_relaxed
  | 290 => req_case_290 uri_relaxed
  | 291 => req_case_291 uri_relaxed
  | 292 => req_case_292 uri_relaxed
  | 293 => req_case_293 uri_relaxed
  | 294 => req_case_294 uri_relaxed
  | 295 => req_case_295 uri_relaxed
  | 296 => req_case_296 uri_relaxed
  | 297 => req_case_297 uri_relaxed
  | 298 => req_case_298 uri_relaxed
  | 299 => req_case_299 uri_relaxed
  | 300 => req_case_300 uri_relaxed
  | 301 => req_case_301 uri_relaxed
  | 302 => req_case_302 uri_relaxed
  | 303 => req_case_303 uri_relaxed
  | 304 => req_case_304 uri_relaxed
  | 305 => req_case_305 uri_relaxed
  | 306 => req_case_306 uri_relaxed
  | 307 => req_case_307 uri_relaxed
  | 308 => req_case_308 uri_relaxed
  | 309 => req_case_309 uri_relaxed
  | 310 => req_case_310 uri_relaxed
  | 311 => req_case_311 uri_relaxed
  | 312 => req_case_312 uri_relaxed
  | 313 => req_case_313 uri_relaxed
  | 314 => req_case_314 uri_relaxed
  | 315 => req_case_315 uri_relaxed
  | 316 => req_case_316 uri_relaxed
  | 317 => req_case_317 uri_relaxed
  | 318 => req_case_318 uri_relaxed
  | 319 => req_case_319 uri_relaxed
  | 320 => req_case_320 uri_relaxed
  | 321 => req_case_321 uri_relaxed
  | 322 => req_case_322 uri_relaxed
  | 323 => req_case_323 uri_relaxed
  | 324 => req_case_324 uri_relaxed
  | 325 => req_case_325 uri_relaxed
  | 326 => req_case_326 uri_relaxed
  | 327 => req_case_327 uri_relaxed
  | 328 => req_case_328 uri_relaxed
  | 329 => req_case_329 uri_relaxed
  | 330 => req_case_330 uri_relaxed
  | 331 => req_case_331 uri_relaxed
  | 332 => req_case_332 uri_relaxed
  | 333 => req_case_333 uri_relaxed
  | 334 => req_case_334 uri_relaxed
  | 335 => req_case_335 uri_relaxed
  | 336 => req_case_336 uri_relaxed
  | 337 => req_case_337 uri_relaxed
  | 338 => req_case_338 uri_relaxed
  | 339 => req_case_339 uri_relaxed
  | 340 => req_case_340 uri_relaxed
  | 341 => req_case_341 uri_relaxed
  | 342 => req_case_342 uri_relaxed
  | 343 => req_case_343 uri_relaxed
  | 344 => req_case_344 uri_relaxed
  | 345 => req_case_345 uri_relaxed
  | 346 => req_case_346 uri_relaxed
  | 347 => req_case_347 uri_relaxed
  | 348 => req_case_348 uri_relaxed
  | 349 => req_case_349 uri_relaxed
  | _ => λ _, to 0
  end.
