(* ===== verification/Http11Parser.v ===== *)
(** The request parser around the generated scanner
    ([sylar/http/http11_parser.rl.cc], [http11_parser.h]): the registers, the
    actions, [http_parser_init], [http_parser_execute], [http_parser_finish].

    The callbacks do not touch the registers, so a run yields the callbacks in
    their order, with offsets into the buffer in place of pointers; the component
    that installs them interprets the list. *)
From S2P Require Import Prelude Ragel Http11States.
From Stdlib Require Import Strings.Byte.

Local Open Scope Z_scope.

Definition http_parser_start : Z := 1.
Definition http_parser_first_final : Z := 348.
Definition http_parser_error : Z := 0.

Record http_parser := mk_http_parser {
  cs : Z;
  body_start : Z;
  content_len : Z;
  nread : Z;
  mark : Z;
  field_start : Z;
  field_len : Z;
  query_start : Z;
  xml_sent : bool;
  json_sent : bool;
  uri_relaxed : bool;
}.
Definition set_cs (v : Z) (s : http_parser) : http_parser :=
  mk_http_parser v (body_start s) (content_len s) (nread s) (mark s) (field_start s) (field_len s) (query_start s) (xml_sent s) (json_sent s) (uri_relaxed s).
Definition set_body_start (v : Z) (s : http_parser) : http_parser :=
  mk_http_parser (cs s) v (content_len s) (nread s) (mark s) (field_start s) (field_len s) (query_start s) (xml_sent s) (json_sent s) (uri_relaxed s).
Definition set_content_len (v : Z) (s : http_parser) : http_parser :=
  mk_http_parser (cs s) (body_start s) v (nread s) (mark s) (field_start s) (field_len s) (query_start s) (xml_sent s) (json_sent s) (uri_relaxed s).
Definition set_nread (v : Z) (s : http_parser) : http_parser :=
  mk_http_parser (cs s) (body_start s) (content_len s) v (mark s) (field_start s) (field_len s) (query_start s) (xml_sent s) (json_sent s) (uri_relaxed s).
Definition set_mark (v : Z) (s : http_parser) : http_parser :=
  mk_http_parser (cs s) (body_start s) (content_len s) (nread s) v (field_start s) (field_len s) (query_start s) (xml_sent s) (json_sent s) (uri_relaxed s).
Definition set_field_start (v : Z) (s : http_parser) : http_parser :=
  mk_http_parser (cs s) (body_start s) (content_len s) (nread s) (mark s) v (field_len s) (query_start s) (xml_sent s) (json_sent s) (uri_relaxed s).
Definition set_field_len (v : Z) (s : http_parser) : http_parser :=
  mk_http_parser (cs s) (body_start s) (content_len s) (nread s) (mark s) (field_start s) v (query_start s) (xml_sent s) (json_sent s) (uri_relaxed s).
Definition set_query_start (v : Z) (s : http_parser) : http_parser :=
  mk_http_parser (cs s) (body_start s) (content_len s) (nread s) (mark s) (field_start s) (field_len s) v (xml_sent s) (json_sent s) (uri_relaxed s).
Definition set_xml_sent (v : bool) (s : http_parser) : http_parser :=
  mk_http_parser (cs s) (body_start s) (content_len s) (nread s) (mark s) (field_start s) (field_len s) (query_start s) v (json_sent s) (uri_relaxed s).
Definition set_json_sent (v : bool) (s : http_parser) : http_parser :=
  mk_http_parser (cs s) (body_start s) (content_len s) (nread s) (mark s) (field_start s) (field_len s) (query_start s) (xml_sent s) v (uri_relaxed s).

(** Calls of the installed functions: [at] is the offset of the pointer. *)
Inductive element :=
  request_method | request_uri | fragment | request_path | query_string | http_version | header_done.
Inductive callback :=
  | ElementCb (e : element) (at_ length : Z)
  | FieldCb (field flen value vlen : Z).

(** [LEN(AT, FPC)]: pointers subtract to a signed number, the register is a
    [size_t]. *)
Definition LEN (at_ p : Z) : Z := wrapu 64 (p - at_).

(** The code of an action at position [p] of [len] characters. *)
Definition do_action (len : Z) (a : http_action) (p : Z) (s : http_parser) : http_parser * list callback :=
  match a with
  | Mark | StartValue => (set_mark p s, [])
  | StartField => (set_field_start p s, [])
  | WriteField => (set_field_len (LEN (field_start s) p) s, [])
  | WriteValue => (s, [FieldCb (field_start s) (field_len s) (mark s) (LEN (mark s) p)])
  | RequestMethod => (s, [ElementCb request_method (mark s) (LEN (mark s) p)])
  | RequestUri => (s, [ElementCb request_uri (mark s) (LEN (mark s) p)])
  | Fragment => (s, [ElementCb fragment (mark s) (LEN (mark s) p)])
  | StartQuery => (set_query_start p s, [])
  | QueryString => (s, [ElementCb query_string (query_start s) (LEN (query_start s) p)])
  | HttpVersion => (s, [ElementCb http_version (mark s) (LEN (mark s) p)])
  | RequestPath => (s, [ElementCb request_path (mark s) (LEN (mark s) p)])
  | Done =>
      if xml_sent s || json_sent s
      then (set_content_len (wraps 32 (p - mark s + 1)) (set_body_start (mark s) s), [])
      else (set_body_start (p + 1) s, [ElementCb header_done (p + 1) (len - p - 1)])
  | Xml => (set_xml_sent true s, [])
  | Json => (set_json_sent true s, [])
  end.
Fixpoint do_actions (len : Z) (l : list (http_action * Z)) (s : http_parser) : http_parser * list callback :=
  match l with
  | [] => (s, [])
  | (a, p) :: l =>
      let '(s1, c1) := do_action len a p s in
      let '(s2, c2) := do_actions len l s1 in (s2, c1 ++ c2)
  end.

(** [http_parser_init]: [query_start] and [uri_relaxed] keep what the memory
    held. *)
Definition http_parser_init (s : http_parser) : http_parser :=
  mk_http_parser http_parser_start 0 0 0 0 0 0 (query_start s) false false (uri_relaxed s).

Definition http_parser_has_error (s : http_parser) : bool := cs s =? http_parser_error.
Definition http_parser_is_finished (s : http_parser) : bool := http_parser_first_final <=? cs s.
(** [http_parser_finish] *)
Definition http_parser_finish (s : http_parser) : Z :=
  if http_parser_has_error s then -1 else if http_parser_is_finished s then 1 else 0.

(** [http_parser_execute(parser, buffer, len, 0)] on the [len] characters
    [text]: the result and the callbacks made. *)
Definition http_parser_execute (text : list byte) : M http_parser (Z * list callback) :=
  let len := Z.of_nat (length text) in
  if len =? 0 then mret (0, [])
  else
    modify (λ s, set_field_start 0 (set_field_len 0 (set_mark 0 (set_nread 0 s))));;
    s ← get;
    let o := run (req_table (uri_relaxed s)) (cs s) 0 text in
    let '(s', cbs) := do_actions len (trace o) s in
    modify (λ _, if http_parser_has_error s' then s' else set_cs (final o) s');;
    modify (λ s, set_nread (nread s + pos o) s);;
    r ← get;
    sylar_assert (nread r <=? len);;
    sylar_assert (body_start r <=? len);;
    sylar_assert (mark r <? len);;
    sylar_assert (field_len r <=? len);;
    sylar_assert (field_start r <? len);;
    mret (nread r, cbs).
