(* ===== verification/Http11Spec.v ===== *)
(** Correctness of the request scanner: every pointer it hands out stays inside the
    text, its own assertions hold, and where a text is cut does not matter to the
    state it ends in. *)
From S2P Require Import Prelude Ragel Http11States Http11Parser.
From Stdlib Require Import Strings.Byte.

Local Open Scope Z_scope.

(** ** An abstract reading of the table

    Two facts about the registers follow from the state alone: whether
    [field_start] has been set since [field_len] was, and whether [query_start]
    belongs to the query being read. *)

Definition in_name (cs : Z) : bool := bool_decide (cs ∈ [14; 18]).
Definition in_query (cs : Z) : bool := bool_decide (cs ∈ [30; 31; 32]).

(** What a list of actions does to the two facts; [None] when it would use a
    register that is not set. *)
Fixpoint acts_ok (stale_len stale_query : bool) (l : list http_action) : option (bool * bool) :=
  match l with
  | [] => Some (stale_len, stale_query)
  | StartField :: l => acts_ok true stale_query l
  | WriteField :: l => acts_ok false stale_query l
  | WriteValue :: l => if stale_len then None else acts_ok stale_len stale_query l
  | StartQuery :: l => acts_ok stale_len false l
  | QueryString :: l => if stale_query then None else acts_ok stale_len stale_query l
  | _ :: l => acts_ok stale_len stale_query l
  end.
Definition ends_head (l : list http_action) : bool := existsb (λ a, bool_decide (a = Done)) l.
Definition jump_ok (cs : Z) (j : jump http_action) : bool :=
  match acts_ok (in_name cs) (negb (in_query cs)) (acts j) with
  | None => false
  | Some (stale_len, stale_query) =>
      if leave j then http_parser_first_final <=? dest j
      else negb (ends_head (acts j))
           && ((dest j =? 0)
               || (negb stale_len || in_name (dest j)) && (negb (in_query (dest j)) || negb stale_query))
  end.

Definition states : list Z := Z.of_nat <$> seq 0 350.
Lemma table_ok_check :
  forallb (λ r, forallb (λ cs, forallb (λ b, jump_ok cs (req_table r cs (schar b))) all_bytes) states) [true; false] = true.
Proof. vm_compute. reflexivity. Qed.

Lemma table_outside r cs c : ¬ 1 ≤ cs ≤ 349 → req_table r cs c = to 0.
Proof.
  intros H. unfold req_table. destruct cs as [|n|n]; [done| |done].
  do 9 (try (destruct n as [n|n|]; try done)); exfalso; lia.
Qed.
Lemma table_ok r cs b : jump_ok cs (req_table r cs (schar b)) = true.
Proof.
  destruct (decide (1 ≤ cs ≤ 349)) as [Hcs|Hcs].
  - pose proof table_ok_check as H. rewrite forallb_forall in H.
    assert (forallb (λ cs, forallb (λ b, jump_ok cs (req_table r cs (schar b))) all_bytes) states = true) as Hr
      by (apply H; destruct r; simpl; tauto).
    rewrite forallb_forall in Hr.
    assert (In cs states) as Hin.
    { apply list_elem_of_In, list_elem_of_fmap. exists (Z.to_nat cs). split; [lia|]. apply elem_of_seq. lia. }
    specialize (Hr cs Hin). simpl in Hr. by apply (all_bytes_spec (λ b, jump_ok cs (req_table r cs (schar b)))).
  - rewrite table_outside by done. done.
Qed.

(** ** The registers during a run *)

Lemma do_actions_app len l1 l2 s :
  do_actions len (l1 ++ l2) s =
    let '(s1, c1) := do_actions len l1 s in let '(s2, c2) := do_actions len l2 s1 in (s2, c1 ++ c2).
Proof.
  revert s. induction l1 as [|[a p] l1 IH]; intros s; simpl; [by destruct (do_actions len l2 s)|].
  destruct (do_action len a p s) as [s1 c1]. rewrite IH.
  destruct (do_actions len l1 s1) as [s2 c2]. destruct (do_actions len l2 s2) as [s3 c3].
  by rewrite app_assoc.
Qed.

Section run.
Context (len cs0 q0 : Z) (Hlen : len < 2 ^ 63).

(** The pointer is inside the text, or is the start of a query that an earlier
    call had found. *)
Definition in_text (at_ length_ : Z) : Prop := 0 ≤ at_ ∧ 0 ≤ length_ ∧ at_ + length_ ≤ len.
Definition callback_ok (c : callback) : Prop :=
  match c with
  | ElementCb query_string a n =>
      in_text a n ∨ (in_query cs0 = true ∧ a = q0 ∧ ∃ p, 0 ≤ p < len ∧ n = wrapu 64 (p - q0))
  | ElementCb _ a n => in_text a n
  | FieldCb f fl v vl => in_text f fl ∧ in_text v vl
  end.

(** The registers at position [p]. *)
Record regs (stale_len stale_query : bool) (p : Z) (s : http_parser) : Prop := {
  r_mark : 0 ≤ mark s ≤ p;
  r_start : 0 ≤ field_start s ≤ p;
  r_len : 0 ≤ field_len s ≤ p;
  r_field : stale_len = false → field_start s + field_len s ≤ p;
  r_query : stale_query = false → 0 ≤ query_start s ≤ p ∨ (in_query cs0 = true ∧ query_start s = q0);
  r_body : 0 ≤ body_start s ≤ len;
}.
Lemma regs_next a b p s : regs a b p s → regs a b (p + 1) s.
Proof. intros [? ? ? Hf Hq ?]. split; try lia; [intros H%Hf; lia|intros H; destruct (Hq H); [left; lia|by right]]. Qed.
Lemma regs_weaken a b a' b' p s :
  regs a b p s → (a' = false → a = false) → (b' = false → b = false) → regs a' b' p s.
Proof. intros [? ? ? Hf Hq ?] Ha Hb. split; try lia; [intros H%Ha; auto|intros H%Hb; auto]. Qed.

Lemma LEN_small a p : 0 ≤ a ≤ p → p < len → LEN a p = p - a.
Proof. intros. apply wrapu_small. unfold in_u. lia. Qed.

(** One action. *)
Lemma do_action_ok x a b a' b' l p s s' cbs :
  regs a b p s → 0 ≤ p < len → acts_ok a b (x :: l) = Some (a', b') →
  do_action len x p s = (s', cbs) →
  ∃ a1 b1, acts_ok a1 b1 l = Some (a', b') ∧ regs a1 b1 p s' ∧ Forall callback_ok cbs ∧
    uri_relaxed s' = uri_relaxed s ∧ cs s' = cs s ∧ nread s' = nread s ∧
    (bool_decide (x = Done) = false → body_start s' = body_start s).
Proof.
  intros Hr Hp Ha E. pose proof Hr as [Hm Hs Hl Hf Hq Hb].
  destruct x; simpl in Ha, E.
  all: try destruct (xml_sent s || json_sent s).
  all: injection E as <- <-.
  all: try (destruct a; [discriminate Ha|]).
  all: try (destruct b; [discriminate Ha|]).
  all: eexists _, _; split; [exact Ha|]; split; [|split; [|done]].
  all: try (split; simpl; intros; rewrite ?LEN_small by lia; auto with lia; fail).
  all: try (constructor; [|constructor]; destruct (Hq eq_refl) as [Hq'|[Hc Hq']];
    [left; unfold in_text; rewrite LEN_small by lia; lia
    |right; split_and!; [exact Hc|exact Hq'|exists p; split; [exact Hp|unfold LEN; by rewrite Hq']]]).
  all: repeat constructor; unfold callback_ok, in_text; rewrite ?LEN_small by lia; lia.
Qed.

(** The actions of one jump. *)
Lemma do_actions_ok l a b a' b' p s s' cbs :
  regs a b p s → 0 ≤ p < len → acts_ok a b l = Some (a', b') →
  do_actions len ((λ x, (x, p)) <$> l) s = (s', cbs) →
  regs a' b' p s' ∧ Forall callback_ok cbs ∧ uri_relaxed s' = uri_relaxed s ∧ cs s' = cs s ∧ nread s' = nread s ∧
  (ends_head l = false → body_start s' = body_start s).
Proof.
  revert a b s s' cbs. induction l as [|x l IH]; intros a b s s' cbs Hr Hp Ha.
  { intros [= <- <-]. injection Ha as <- <-. by split_and!. }
  cbn [fmap list_fmap do_actions]. destruct (do_action len x p s) as [s1 c1] eqn:E1.
  destruct (do_actions len _ s1) as [s2 c2] eqn:E2. intros [= <- <-].
  destruct (do_action_ok _ _ _ _ _ _ _ _ _ _ Hr Hp Ha E1) as (a1&b1&Ha1&Hr1&Hc1&Hu1&Hcs1&Hn1&Hb1).
  destruct (IH _ _ _ _ _ Hr1 Hp Ha1 E2) as (Hr2&Hc2&Hu2&Hcs2&Hn2&Hb2).
  split_and!; [done|by apply Forall_app|congruence|congruence|congruence|].
  cbn [ends_head existsb]. intros [Hd Hl]%orb_false_iff. rewrite Hb2 by done. auto.
Qed.

(** The whole run from state [c] at position [p]. *)
Lemma run_ok r l c p s s' cbs :
  regs (in_name c) (negb (in_query c)) p s → 0 ≤ p → p + Z.of_nat (length l) = len → (0 < length l)%nat →
  let o := run (req_table r) c p l in
  do_actions len (trace o) s = (s', cbs) →
  Forall callback_ok cbs ∧ uri_relaxed s' = uri_relaxed s ∧ cs s' = cs s ∧ nread s' = nread s ∧
  (∃ a b, regs a b (len - 1) s') ∧
  (final o ≠ 0 → final o < http_parser_first_final → out o = false ∧ body_start s' = body_start s ∧
     (in_query (final o) = true → 0 ≤ query_start s' ≤ len ∨ (in_query cs0 = true ∧ query_start s' = q0))).
Proof using Hlen.
  revert c p s s' cbs. induction l as [|b l IH]; intros c p s s' cbs Hr Hp Hl Hne; [simpl in Hne; lia|].
  cbn [length] in Hl. cbn [run].
  destruct (c =? 0).
  { simpl. intros [= <- <-]. split_and!; try done.
    exists (in_name c), (negb (in_query c)). clear IH. destruct Hr as [? ? ? Hf Hq ?].
    split; try lia; [intros H%Hf; lia|intros H; destruct (Hq H); [left; lia|by right]]. }
  pose proof (table_ok r c b) as Hj. set (j := req_table r c (schar b)) in *. unfold jump_ok in Hj.
  destruct (acts_ok (in_name c) (negb (in_query c)) (acts j)) as [[a' b']|] eqn:Ea; [|done].
  destruct (do_actions len ((λ x, (x, p)) <$> acts j) s) as [s1 c1] eqn:E1.
  destruct (do_actions_ok _ _ _ _ _ _ _ _ _ Hr ltac:(lia) Ea E1) as (Hr1&Hc1&Hu1&Hcs1&Hn1&Hb1).
  assert (∃ a b, regs a b (len - 1) s1) as Hend.
  { exists a', b'. destruct Hr1 as [? ? ? Hf Hq ?].
    split; try lia; [intros H%Hf; lia|intros H; destruct (Hq H); [left; lia|by right]]. }
  destruct (leave j) eqn:El.
  { cbn [trace final out]. intros E. rewrite E1 in E. injection E as <- <-. split_and!; try done.
    intros _ H. apply Z.leb_le in Hj. lia. }
  destruct (Z.eqb_spec (dest j) 0) as [Ed|Ed].
  { cbn [trace final out]. intros E. rewrite E1 in E. injection E as <- <-. by split_and!. }
  cbn [prepend trace final out orb] in *.
  apply andb_true_iff in Hj as [Hdone Hj]. apply negb_true_iff in Hdone.
  rewrite do_actions_app. rewrite E1.
  assert (in_query (dest j) = true → b' = false) as Hqb.
  { intros Hq. destruct b'; [|done]. by rewrite Hq, andb_false_r in Hj. }
  destruct l as [|b2 l].
  { simpl. intros [= <- <-]. rewrite app_nil_r. split_and!; try done. intros _ _. split_and!; [done|auto|].
    intros Hq%Hqb. destruct Hr1 as [_ _ _ _ Hr1 _]. destruct (Hr1 Hq) as [?|?]; [left; lia|by right]. }
  destruct (do_actions len (trace _) s1) as [s2 c2] eqn:E2. intros [= <- <-].
  destruct (IH (dest j) (p + 1) s1 s2 c2) as (Hc2&Hu2&Hcs2&Hn2&Hend2&Hfin2); try lia; try done.
  { apply regs_next. eapply regs_weaken; [exact Hr1|..]; intros H.
    - destruct a'; [|done]. simpl in Hj. rewrite H in Hj. done.
    - apply Hqb. by apply negb_false_iff in H. }
  { simpl. lia. }
  split_and!; [by apply Forall_app|congruence|congruence|congruence|done|].
  intros H1 H2. destruct (Hfin2 H1 H2) as (Ho&Hb2&Hq2). split_and!; [done| |done]. rewrite Hb2. auto.
Qed.
End run.

(** ** Calls *)

(** A parser that waits for more text. *)
Definition in_progress (s : http_parser) : Prop := http_parser_finish s = 0 ∧ body_start s = 0.

Lemma finish_zero s : http_parser_finish s = 0 ↔ cs s ≠ 0 ∧ cs s < http_parser_first_final.
Proof.
  unfold http_parser_finish, http_parser_has_error, http_parser_is_finished, http_parser_error.
  destruct (Z.eqb_spec (cs s) 0); [lia|]. destruct (Z.leb_spec http_parser_first_final (cs s)); lia.
Qed.
Lemma init_in_progress g : in_progress (http_parser_init g).
Proof. done. Qed.

(** The registers as a call resets them. *)
Definition reset (s : http_parser) : http_parser :=
  set_field_start 0 (set_field_len 0 (set_mark 0 (set_nread 0 s))).

Lemma execute_ok text s :
  in_progress s → (0 < length text)%nat → Z.of_nat (length text) < 2 ^ 63 →
  let o := run (req_table (uri_relaxed s)) (cs s) 0 text in
  ∃ cbs s', http_parser_execute text s = Ok (pos o, cbs) s' ∧
    Forall (callback_ok (Z.of_nat (length text)) (cs s) (query_start s)) cbs ∧
    cs s' = final o ∧ uri_relaxed s' = uri_relaxed s ∧
    (http_parser_finish s' = 0 → out o = false ∧ in_progress s' ∧
       (in_query (cs s') = true → 0 ≤ query_start s' ≤ Z.of_nat (length text) ∨
          (in_query (cs s) = true ∧ query_start s' = query_start s))) ∧
    (do_actions (Z.of_nat (length text)) (trace o) (reset s)).2 = cbs.
Proof.
  intros [Hf Hb] Hne Hlen o. pose proof Hf as [Hcs _]%finish_zero.
  unfold http_parser_execute. cbv zeta. rewrite (proj2 (Z.eqb_neq _ 0)) by lia. rewrite bind_modify.
  fold (reset s). set (s0 := reset s). rewrite bind_get.
  change (uri_relaxed s0) with (uri_relaxed s). change (cs s0) with (cs s). fold o.
  destruct (do_actions (Z.of_nat (length text)) (trace o) s0) as [s1 cbs] eqn:E.
  destruct (run_ok (Z.of_nat (length text)) (cs s) (query_start s) Hlen (uri_relaxed s) text (cs s) 0 s0 s1 cbs)
    as (Hc&Hu&Hcs1&Hn&(a&b&Hr)&Hfin); try lia; try done.
  { split; simpl; try lia. intros H%negb_false_iff. by right. }
  rewrite !bind_modify.
  assert (http_parser_has_error s1 = false) as He.
  { unfold http_parser_has_error. rewrite Hcs1. simpl. by apply Z.eqb_neq. }
  rewrite He. pose proof (run_pos (req_table (uri_relaxed s)) (cs s) 0 text) as [Hpos _]. fold o in Hpos.
  set (s2 := set_nread _ _). rewrite bind_get.
  assert (nread s2 = pos o) as Hn2 by (simpl; rewrite Hn; simpl; lia). destruct Hr as [Hr1 Hr2 Hr3 _ _ Hr4].
  rewrite Hn2, !bind_assert by (simpl; rewrite ?Z.leb_le, ?Z.ltb_lt; lia).
  exists cbs, s2. split_and!; try done.
  intros [H1 H2]%finish_zero. simpl in H1, H2. destruct (Hfin H1 H2) as (Ho&Hbs&Hqs). split; [done|].
  split; [|exact Hqs]. split; [by apply finish_zero|]. simpl. by rewrite Hbs.
Qed.

(** The states a parser goes through while its text arrives in pieces. *)
Inductive feeding : http_parser → Prop :=
  | feeding_init g : feeding (http_parser_init g)
  | feeding_execute s text r s' :
      feeding s → http_parser_finish s = 0 → Z.of_nat (length text) < 2 ^ 63 →
      http_parser_execute text s = Ok r s' → feeding s'.

Lemma feeding_progress s : feeding s → http_parser_finish s = 0 → in_progress s.
Proof.
  induction 1 as [|s text r s' Hs IH Hf Hl E]; intros H; [done|]. specialize (IH Hf).
  destruct text as [|b text].
  - unfold http_parser_execute in E. simpl in E. by injection E as <- <-.
  - destruct (execute_ok (b :: text) s IH) as (cbs&s1&E1&_&_&_&H1&_); [simpl; lia|done|].
    rewrite E in E1. injection E1 as -> <-. by apply H1.
Qed.

(** The start of a query found in an earlier text. *)
Lemma feeding_query s : feeding s → http_parser_finish s = 0 → in_query (cs s) = true → 0 ≤ query_start s < 2 ^ 63.
Proof.
  induction 1 as [|s text r s' Hs IH Hf Hl E]; intros H Hq; [done|]. specialize (IH Hf).
  destruct text as [|b text].
  - unfold http_parser_execute in E. simpl in E. injection E as <- <-. auto.
  - destruct (execute_ok (b :: text) s (feeding_progress s Hs Hf)) as (cbs&s1&E1&_&_&_&H1&_); [simpl; lia|done|].
    rewrite E in E1. injection E1 as -> <-. destruct (H1 H) as (_&_&Hq1).
    destruct (Hq1 Hq) as [?|[Hq0 ->]]; [lia|auto].
Qed.


Definition demo_parser : http_parser := mk_http_parser 9 9 9 9 9 9 9 9 true true true.
Definition demo_text : list byte := [x47; x45; x54; x20; x2f; x61; x3f; x62].   (* "GET /a?b" *)

(** C11: for the verdict it makes no difference where the text is cut: after two
    texts the scanner is in the state, and has consumed as many characters, as
    after one call on both together. *)
Theorem http_parser_segmentation (s s1 : http_parser) (l1 l2 : list byte) (r1 : Z * list callback) :
  feeding s → http_parser_finish s = 0 → l1 ≠ [] → l2 ≠ [] →
  Z.of_nat (length l1) + Z.of_nat (length l2) < 2 ^ 63 →
  http_parser_execute l1 s = Ok r1 s1 → http_parser_finish s1 = 0 →
  ∃ n2 c2 s2 c12 s12,
    http_parser_execute l2 s1 = Ok (n2, c2) s2 ∧
    http_parser_execute (l1 ++ l2) s = Ok (Z.of_nat (length l1) + n2, c12) s12 ∧
    cs s2 = cs s12 ∧ http_parser_finish s2 = http_parser_finish s12.
Proof.
  intros Hs Hf H1 H2 Hl E1 Hf1. pose proof (feeding_progress s Hs Hf) as Hp.
  assert (0 < length l1)%nat as Hn1 by (destruct l1; [done|simpl; lia]).
  assert (0 < length l2)%nat as Hn2 by (destruct l2; [done|simpl; lia]).
  destruct (execute_ok l1 s Hp Hn1) as (c1&s1'&E1'&_&Hcs1&Hu1&Hend&_); [lia|].
  rewrite E1 in E1'. injection E1' as -> <-. destruct (Hend Hf1) as (Ho&Hp1&_).
  destruct (execute_ok l2 s1 Hp1 Hn2) as (c2&s2&E2&_&Hcs2&_); [lia|].
  destruct (execute_ok (l1 ++ l2) s Hp) as (c12&s12&E12&_&Hcs12&_); [rewrite length_app; lia..|].
  assert (cs s2 = cs s12) as Hcs.
  { rewrite Hcs2, Hcs12, Hu1, Hcs1. symmetry. by apply run_final_app. }
  eexists _, c2, s2, c12, s12. split; [exact E2|]. split.
  - rewrite E12. do 2 f_equal. rewrite run_app. cbv zeta. rewrite Ho. cbn [pos prepend].
    pose proof (run_pos (req_table (uri_relaxed s)) (cs s) 0 l1) as [_ Hpos]. rewrite (Hpos Ho), Hcs1, Hu1.
    rewrite (run_shift _ _ 0). cbn [pos]. lia.
  - split; [done|]. unfold http_parser_finish, http_parser_has_error, http_parser_is_finished. by rewrite Hcs.
Qed.
Definition demo_rest : list byte := [x63; x20; x48; x54; x54; x50].   (* "c HTTP" *)
Definition demo_cut : http_parser :=
  match http_parser_execute demo_text (http_parser_init demo_parser) with Ok _ s => s | _ => demo_parser end.
Lemma http_parser_segmentation_witness :
  ∃ n2 c2 s2 c12 s12,
    http_parser_execute demo_rest demo_cut = Ok (n2, c2) s2 ∧
    http_parser_execute (demo_text ++ demo_rest) (http_parser_init demo_parser) = Ok (8 + n2, c12) s12 ∧
    cs s2 = cs s12.
Proof.
  destruct (http_parser_segmentation (http_parser_init demo_parser) demo_cut demo_text demo_rest (8, [ElementCb request_method 0 3; ElementCb request_path 4 2]))
    as (n2&c2&s2&c12&s12&E1&E2&E3&_);
    [apply feeding_init|reflexivity|discriminate|discriminate|simpl; lia|vm_compute; reflexivity|vm_compute; reflexivity|].
  exists n2, c2, s2, c12, s12. split; [exact E1|]. split; [exact E2|exact E3].
Defined.
