(* ===== verification/HttpClientStates.v ===== *)
(** The scanner of HTTP responses and chunk headers as Ragel generated it
    ([sylar/http/httpclient_parser.rl.cc]): one definition per label, [rsp_case_n]
    for [st_case_n] and [rsp_ctr_n] for [ctr_n], with the comparisons on the
    character in the order of the code. *)
From S2P Require Import Prelude Ragel.

Local Open Scope Z_scope.

(** The actions of the grammar. *)
Inductive client_action :=
  | RMark | RStartField | RWriteField | RStartValue | RWriteContentLen | RWriteConnectionClose
  | RWriteValue | RReasonPhrase | RStatusCode | RHttpVersion | RChunkSize | RTransChunked | RDone.
#[export] Instance client_action_eq_dec : EqDecision client_action.
Proof. solve_decision. Defined.

(** ** Action labels *)

Definition rsp_ctr_0 : jump client_action := via [RMark] 2.
Definition rsp_ctr_2 : jump client_action := via [RMark] 8.
Definition rsp_ctr_3 : jump client_action := via_out [RChunkSize; RDone] 120.
Definition rsp_ctr_4 : jump client_action := via [RChunkSize] 3.
Definition rsp_ctr_6 : jump client_action := via [RChunkSize] 4.
Definition rsp_ctr_7 : jump client_action := via_out [RDone] 120.
Definition rsp_ctr_8 : jump client_action := via [RStartField] 5.
Definition rsp_ctr_9 : jump client_action := via_out [RWriteField; RStartValue; RWriteValue; RDone] 120.
Definition rsp_ctr_10 : jump client_action := via [RWriteField; RStartValue; RWriteValue] 3.
Definition rsp_ctr_12 : jump client_action := via [RWriteField; RStartValue; RWriteValue] 4.
Definition rsp_ctr_13 : jump client_action := via [RWriteField; RStartValue] 6.
Definition rsp_ctr_14 : jump client_action := via [RStartValue] 7.
Definition rsp_ctr_15 : jump client_action := via_out [RWriteValue; RDone] 120.
Definition rsp_ctr_16 : jump client_action := via [RWriteValue] 3.
Definition rsp_ctr_18 : jump client_action := via [RWriteValue] 4.
Definition rsp_ctr_26 : jump client_action := via [RHttpVersion] 16.
Definition rsp_ctr_27 : jump client_action := via [RMark] 17.
Definition rsp_ctr_28 : jump client_action := via [RStatusCode] 18.
Definition rsp_ctr_30 : jump client_action := via [RMark] 19.
Definition rsp_ctr_32 : jump client_action := via [RReasonPhrase] 20.
Definition rsp_ctr_33 : jump client_action := via [RReasonPhrase] 24.
Definition rsp_ctr_35 : jump client_action := via [RStartField] 21.
Definition rsp_ctr_36 : jump client_action := via [RStartField] 25.
Definition rsp_ctr_37 : jump client_action := via [RStartField] 44.
Definition rsp_ctr_39 : jump client_action := via [RWriteField] 22.
Definition rsp_ctr_40 : jump client_action := via [RStartValue] 23.
Definition rsp_ctr_41 : jump client_action := via [RStartValue] 22.
Definition rsp_ctr_42 : jump client_action := via [RStartValue; RWriteValue] 20.
Definition rsp_ctr_43 : jump client_action := via [RStartValue; RWriteValue] 24.
Definition rsp_ctr_45 : jump client_action := via [RWriteValue] 20.
Definition rsp_ctr_46 : jump client_action := via [RWriteValue] 24.
Definition rsp_ctr_58 : jump client_action := via [RWriteField] 35.
Definition rsp_ctr_59 : jump client_action := via [RStartValue] 35.
Definition rsp_ctr_60 : jump client_action := via [RStartValue; RWriteValue] 36.
Definition rsp_ctr_61 : jump client_action := via [RStartValue; RWriteValue] 95.
Definition rsp_ctr_62 : jump client_action := via [RStartValue] 96.
Definition rsp_ctr_64 : jump client_action := via_out [RDone] 122.
Definition rsp_ctr_66 : jump client_action := via [RStartField] 90.
Definition rsp_ctr_74 : jump client_action := via_out [RWriteConnectionClose; RDone] 120.
Definition rsp_ctr_75 : jump client_action := via [RWriteConnectionClose] 3.
Definition rsp_ctr_76 : jump client_action := via [RWriteConnectionClose; RStartField] 21.
Definition rsp_ctr_77 : jump client_action := via [RWriteConnectionClose; RStartField] 25.
Definition rsp_ctr_78 : jump client_action := via [RWriteConnectionClose; RStartField] 44.
Definition rsp_ctr_95 : jump client_action := via [RWriteField] 61.
Definition rsp_ctr_96 : jump client_action := via [RStartValue] 61.
Definition rsp_ctr_97 : jump client_action := via [RStartValue; RWriteValue] 62.
Definition rsp_ctr_98 : jump client_action := via [RStartValue; RWriteValue] 80.
Definition rsp_ctr_99 : jump client_action := via [RStartValue] 81.
Definition rsp_ctr_101 : jump client_action := via_out [RDone] 121.
Definition rsp_ctr_103 : jump client_action := via [RStartValue; RStartField] 73.
Definition rsp_ctr_104 : jump client_action := via [RStartValue] 64.
Definition rsp_ctr_111 : jump client_action := via [RWriteValue; RTransChunked] 20.
Definition rsp_ctr_112 : jump client_action := via [RWriteValue] 71.
Definition rsp_ctr_113 : jump client_action := via [RTransChunked] 20.
Definition rsp_ctr_136 : jump client_action := via [RWriteValue] 43.
Definition rsp_ctr_137 : jump client_action := via [RWriteValue] 88.
Definition rsp_ctr_148 : jump client_action := via [RWriteField] 112.
Definition rsp_ctr_149 : jump client_action := via [RStartValue] 112.
Definition rsp_ctr_150 : jump client_action := via [RStartValue; RWriteValue] 113.
Definition rsp_ctr_151 : jump client_action := via [RStartValue; RWriteValue] 118.
Definition rsp_ctr_152 : jump client_action := via [RStartValue] 119.
Definition rsp_ctr_154 : jump client_action := via_out [RDone] 123.
Definition rsp_ctr_156 : jump client_action := via [RStartValue; RStartField] 117.
Definition rsp_ctr_157 : jump client_action := via [RStartValue] 115.
Definition rsp_ctr_158 : jump client_action := via [RWriteContentLen; RWriteValue] 20.
Definition rsp_ctr_159 : jump client_action := via [RWriteContentLen; RWriteValue] 24.

(** ** States *)

Definition rsp_case_1 (c : Z) : jump client_action :=
  if c =? 72 then rsp_ctr_2
  else if c <? 65 then (if (48 <=? c) && (c <=? 57) then rsp_ctr_0 else to 0)
  else if 70 <? c then (if (97 <=? c) && (c <=? 102) then rsp_ctr_0 else to 0)
  else rsp_ctr_0.
Definition rsp_case_2 (c : Z) : jump client_action :=
  if c =? 10 then rsp_ctr_3
  else if c =? 13 then rsp_ctr_4
  else if c =? 59 then rsp_ctr_6
  else if c <? 65 then (if (48 <=? c) && (c <=? 57) then to 2 else to 0)
  else if 70 <? c then (if (97 <=? c) && (c <=? 102) then to 2 else to 0)
  else to 2.
Definition rsp_case_3 (c : Z) : jump client_action :=
  if c =? 10 then rsp_ctr_7 else to 0.
Definition rsp_case_4 (c : Z) : jump client_action :=
  if c =? 33 then rsp_ctr_8
  else if c =? 124 then rsp_ctr_8
  else if c =? 126 then rsp_ctr_8
  else if c <? 45 then (if 39 <? c then (if (42 <=? c) && (c <=? 43) then rsp_ctr_8 else to 0)
    else if 35 <=? c then rsp_ctr_8 else to 0)
  else if 46 <? c then (if c <? 65 then (if (48 <=? c) && (c <=? 57) then rsp_ctr_8 else to 0)
    else if 90 <? c then (if (94 <=? c) && (c <=? 122) then rsp_ctr_8 else to 0)
    else rsp_ctr_8)
  else rsp_ctr_8.
Definition rsp_case_5 (c : Z) : jump client_action :=
  if c =? 10 then rsp_ctr_9
  else if c =? 13 then rsp_ctr_10
  else if c =? 33 then to 5
  else if c =? 59 then rsp_ctr_12
  else if c =? 61 then rsp_ctr_13
  else if c =? 124 then to 5
  else if c =? 126 then to 5
  else if c <? 45 then (if 39 <? c then (if (42 <=? c) && (c <=? 43) then to 5 else to 0)
    else if 35 <=? c then to 5 else to 0)
  else if 46 <? c then (if c <? 65 then (if (48 <=? c) && (c <=? 57) then to 5 else to 0)
    else if 90 <? c then (if (94 <=? c) && (c <=? 122) then to 5 else to 0)
    else to 5)
  else to 5.
Definition rsp_case_6 (c : Z) : jump client_action :=
  if c =? 33 then rsp_ctr_14
  else if c =? 124 then rsp_ctr_14
  else if c =? 126 then rsp_ctr_14
  else if c <? 45 then (if 39 <? c then (if (42 <=? c) && (c <=? 43) then rsp_ctr_14 else to 0)
    else if 35 <=? c then rsp_ctr_14 else to 0)
  else if 46 <? c then (if c <? 65 then (if (48 <=? c) && (c <=? 57) then rsp_ctr_14 else to 0)
    else if 90 <? c then (if (94 <=? c) && (c <=? 122) then rsp_ctr_14 else to 0)
    else rsp_ctr_14)
  else rsp_ctr_14.
Definition rsp_case_7 (c : Z) : jump client_action :=
  if c =? 10 then rsp_ctr_15
  else if c =? 13 then rsp_ctr_16
  else if c =? 33 then to 7
  else if c =? 59 then rsp_ctr_18
  else if c =? 124 then to 7
  else if c =? 126 then to 7
  else if c <? 45 then (if 39 <? c then (if (42 <=? c) && (c <=? 43) then to 7 else to 0)
    else if 35 <=? c then to 7 else to 0)
  else if 46 <? c then (if c <? 65 then (if (48 <=? c) && (c <=? 57) then to 7 else to 0)
    else if 90 <? c then (if (94 <=? c) && (c <=? 122) then to 7 else to 0)
    else to 7)
  else to 7.
Definition rsp_case_8 (c : Z) : jump client_action :=
  if c =? 84 then to 9 else to 0.
Definition rsp_case_9 (c : Z) : jump client_action :=
  if c =? 84 then to 10 else to 0.
Definition rsp_case_10 (c : Z) : jump client_action :=
  if c =? 80 then to 11 else to 0.
Definition rsp_case_11 (c : Z) : jump client_action :=
  if c =? 47 then to 12 else to 0.
Definition rsp_case_12 (c : Z) : jump client_action :=
  if (48 <=? c) && (c <=? 57) then to 13 else to 0.
Definition rsp_case_13 (c : Z) : jump client_action :=
  if c =? 46 then to 14
  else if (48 <=? c) && (c <=? 57) then to 13 else to 0.
Definition rsp_case_14 (c : Z) : jump client_action :=
  if (48 <=? c) && (c <=? 57) then to 15 else to 0.
Definition rsp_case_15 (c : Z) : jump client_action :=
  if c =? 32 then rsp_ctr_26
  else if (48 <=? c) && (c <=? 57) then to 15 else to 0.
Definition rsp_case_16 (c : Z) : jump client_action :=
  if (48 <=? c) && (c <=? 57) then rsp_ctr_27 else to 0.
Definition rsp_case_17 (c : Z) : jump client_action :=
  if c =? 32 then rsp_ctr_28
  else if (48 <=? c) && (c <=? 57) then to 17 else to 0.
Definition rsp_case_18 (c : Z) : jump client_action :=
  if c =? 10 then to 0 else rsp_ctr_30.
Definition rsp_case_19 (c : Z) : jump client_action :=
  if c =? 10 then rsp_ctr_32
  else if c =? 13 then rsp_ctr_33 else to 19.
Definition rsp_case_20 (c : Z) : jump client_action :=
  if c =? 10 then rsp_ctr_7
  else if c =? 13 then to 3
  else if c =? 33 then rsp_ctr_35
  else if c =? 67 then rsp_ctr_36
  else if c =? 84 then rsp_ctr_37
  else if c =? 99 then rsp_ctr_36
  else if c =? 116 then rsp_ctr_37
  else if c =? 124 then rsp_ctr_35
  else if c =? 126 then rsp_ctr_35
  else if c <? 45 then (if 39 <? c then (if (42 <=? c) && (c <=? 43) then rsp_ctr_35 else to 0)
    else if 35 <=? c then rsp_ctr_35 else to 0)
  else if 46 <? c then (if c <? 65 then (if (48 <=? c) && (c <=? 57) then rsp_ctr_35 else to 0)
    else if 90 <? c then (if (94 <=? c) && (c <=? 122) then rsp_ctr_35 else to 0)
    else rsp_ctr_35)
  else rsp_ctr_35.
Definition rsp_case_21 (c : Z) : jump client_action :=
  if c =? 33 then to 21
  else if c =? 58 then rsp_ctr_39
  else if c =? 124 then to 21
  else if c =? 126 then to 21
  else if c <? 45 then (if 39 <? c then (if (42 <=? c) && (c <=? 43) then to 21 else to 0)
    else if 35 <=? c then to 21 else to 0)
  else if 46 <? c then (if c <? 65 then (if (48 <=? c) && (c <=? 57) then to 21 else to 0)
    else if 90 <? c then (if (94 <=? c) && (c <=? 122) then to 21 else to 0)
    else to 21)
  else to 21.
Definition rsp_case_22 (c : Z) : jump client_action :=
  if c =? 10 then rsp_ctr_42
  else if c =? 13 then rsp_ctr_43
  else if c =? 32 then rsp_ctr_41
  else if (9 <=? c) && (c <=? 12) then rsp_ctr_41 else rsp_ctr_40.
Definition rsp_case_23 (c : Z) : jump client_action :=
  if c =? 10 then rsp_ctr_45
  else if c =? 13 then rsp_ctr_46 else to 23.
Definition rsp_case_24 (c : Z) : jump client_action :=
  if c =? 10 then to 20 else to 0.
Definition rsp_case_25 (c : Z) : jump client_action :=
  if c =? 33 then to 21
  else if c =? 58 then rsp_ctr_39
  else if c =? 79 then to 26
  else if c =? 111 then to 26
  else if c =? 124 then to 21
  else if c =? 126 then to 21
  else if c <? 45 then (if 39 <? c then (if (42 <=? c) && (c <=? 43) then to 21 else to 0)
    else if 35 <=? c then to 21 else to 0)
  else if 46 <? c then (if c <? 65 then (if (48 <=? c) && (c <=? 57) then to 21 else to 0)
    else if 90 <? c then (if (94 <=? c) && (c <=? 122) then to 21 else to 0)
    else to 21)
  else to 21.
Definition rsp_case_26 (c : Z) : jump client_action :=
  if c =? 33 then to 21
  else if c =? 58 then rsp_ctr_39
  else if c =? 78 then to 27
  else if c =? 110 then to 27
  else if c =? 124 then to 21
  else if c =? 126 then to 21
  else if c <? 45 then (if 39 <? c then (if (42 <=? c) && (c <=? 43) then to 21 else to 0)
    else if 35 <=? c then to 21 else to 0)
  else if 46 <? c then (if c <? 65 then (if (48 <=? c) && (c <=? 57) then to 21 else to 0)
    else if 90 <? c then (if (94 <=? c) && (c <=? 122) then to 21 else to 0)
    else to 21)
  else to 21.
Definition rsp_case_27 (c : Z) : jump client_action :=
  if c =? 33 then to 21
  else if c =? 58 then rsp_ctr_39
  else if c =? 78 then to 28
  else if c =? 84 then to 101
  else if c =? 110 then to 28
  else if c =? 116 then to 101
  else if c =? 124 then to 21
  else if c =? 126 then to 21
  else if c <? 45 then (if 39 <? c then (if (42 <=? c) && (c <=? 43) then to 21 else to 0)
    else if 35 <=? c then to 21 else to 0)
  else if 46 <? c then (if c <? 65 then (if (48 <=? c) && (c <=? 57) then to 21 else to 0)
    else if 90 <? c then (if (94 <=? c) && (c <=? 122) then to 21 else to 0)
    else to 21)
  else to 21.
Definition rsp_case_28 (c : Z) : jump client_action :=
  if c =? 33 then to 21
  else if c =? 58 then rsp_ctr_39
  else if c =? 69 then to 29
  else if c =? 101 then to 29
  else if c =? 124 then to 21
  else if c =? 126 then to 21
  else if c <? 45 then (if 39 <? c then (if (42 <=? c) && (c <=? 43) then to 21 else to 0)
    else if 35 <=? c then to 21 else to 0)
  else if 46 <? c then (if c <? 65 then (if (48 <=? c) && (c <=? 57) then to 21 else to 0)
    else if 90 <? c then (if (94 <=? c) && (c <=? 122) then to 21 else to 0)
    else to 21)
  else to 21.
Definition rsp_case_29 (c : Z) : jump client_action :=
  if c =? 33 then to 21
  else if c =? 58 then rsp_ctr_39
  else if c =? 67 then to 30
  else if c =? 99 then to 30
  else if c =? 124 then to 21
  else if c =? 126 then to 21
  else if c <? 45 then (if 39 <? c then (if (42 <=? c) && (c <=? 43) then to 21 else to 0)
    else if 35 <=? c then to 21 else to 0)
  else if 46 <? c then (if c <? 65 then (if (48 <=? c) && (c <=? 57) then to 21 else to 0)
    else if 90 <? c then (if (94 <=? c) && (c <=? 122) then to 21 else to 0)
    else to 21)
  else to 21.
Definition rsp_case_30 (c : Z) : jump client_action :=
  if c =? 33 then to 21
  else if c =? 58 then rsp_ctr_39
  else if c =? 84 then to 31
  else if c =? 116 then to 31
  else if c =? 124 then to 21
  else if c =? 126 then to 21
  else if c <? 45 then (if 39 <? c then (if (42 <=? c) && (c <=? 43) then to 21 else to 0)
    else if 35 <=? c then to 21 else to 0)
  else if 46 <? c then (if c <? 65 then (if (48 <=? c) && (c <=? 57) then to 21 else to 0)
    else if 90 <? c then (if (94 <=? c) && (c <=? 122) then to 21 else to 0)
    else to 21)
  else to 21.
Definition rsp_case_31 (c : Z) : jump client_action :=
  if c =? 33 then to 21
  else if c =? 58 then rsp_ctr_39
  else if c =? 73 then to 32
  else if c =? 105 then to 32
  else if c =? 124 then to 21
  else if c =? 126 then to 21
  else if c <? 45 then (if 39 <? c then (if (42 <=? c) && (c <=? 43) then to 21 else to 0)
    else if 35 <=? c then to 21 else to 0)
  else if 46 <? c then (if c <? 65 then (if (48 <=? c) && (c <=? 57) then to 21 else to 0)
    else if 90 <? c then (if (94 <=? c) && (c <=? 122) then to 21 else to 0)
    else to 21)
  else to 21.
Definition rsp_case_32 (c : Z) : jump client_action :=
  if c =? 33 then to 21
  else if c =? 58 then rsp_ctr_39
  else if c =? 79 then to 33
  else if c =? 111 then to 33
  else if c =? 124 then to 21
  else if c =? 126 then to 21
  else if c <? 45 then (if 39 <? c then (if (42 <=? c) && (c <=? 43) then to 21 else to 0)
    else if 35 <=? c then to 21 else to 0)
  else if 46 <? c then (if c <? 65 then (if (48 <=? c) && (c <=? 57) then to 21 else to 0)
    else if 90 <? c then (if (94 <=? c) && (c <=? 122) then to 21 else to 0)
    else to 21)
  else to 21.
Definition rsp_case_33 (c : Z) : jump client_action :=
  if c =? 33 then to 21
  else if c =? 58 then rsp_ctr_39
  else if c =? 78 then to 34
  else if c =? 110 then to 34
  else if c =? 124 then to 21
  else if c =? 126 then to 21
  else if c <? 45 then (if 39 <? c then (if (42 <=? c) && (c <=? 43) then to 21 else to 0)
    else if 35 <=? c then to 21 else to 0)
  else if 46 <? c then (if c <? 65 then (if (48 <=? c) && (c <=? 57) then to 21 else to 0)
    else if 90 <? c then (if (94 <=? c) && (c <=? 122) then to 21 else to 0)
    else to 21)
  else to 21.
Definition rsp_case_34 (c : Z) : jump client_action :=
  if c =? 33 then to 21
  else if c =? 58 then rsp_ctr_58
  else if c =? 124 then to 21
  else if c =? 126 then to 21
  else if c <? 45 then (if 39 <? c then (if (42 <=? c) && (c <=? 43) then to 21 else to 0)
    else if 35 <=? c then to 21 else to 0)
  else if 46 <? c then (if c <? 65 then (if (48 <=? c) && (c <=? 57) then to 21 else to 0)
    else if 90 <? c then (if (94 <=? c) && (c <=? 122) then to 21 else to 0)
    else to 21)
  else to 21.
Definition rsp_case_35 (c : Z) : jump client_action :=
  if c =? 10 then rsp_ctr_60
  else if c =? 13 then rsp_ctr_61
  else if c =? 32 then rsp_ctr_59
  else if c =? 67 then rsp_ctr_62
  else if c =? 99 then rsp_ctr_62
  else if (9 <=? c) && (c <=? 12) then rsp_ctr_59 else rsp_ctr_40.
Definition rsp_case_36 (c : Z) : jump client_action :=
  if c =? 10 then rsp_ctr_64
  else if c =? 13 then to 89
  else if c =? 32 then to 37
  else if c =? 33 then rsp_ctr_35
  else if c =? 67 then rsp_ctr_66
  else if c =? 84 then rsp_ctr_37
  else if c =? 99 then rsp_ctr_66
  else if c =? 116 then rsp_ctr_37
  else if c =? 124 then rsp_ctr_35
  else if c =? 126 then rsp_ctr_35
  else if c <? 45 then (if c <? 35 then (if (9 <=? c) && (c <=? 12) then to 37 else to 0)
    else if 39 <? c then (if (42 <=? c) && (c <=? 43) then rsp_ctr_35 else to 0)
    else rsp_ctr_35)
  else if 46 <? c then (if c <? 65 then (if (48 <=? c) && (c <=? 57) then rsp_ctr_35 else to 0)
    else if 90 <? c then (if (94 <=? c) && (c <=? 122) then rsp_ctr_35 else to 0)
    else rsp_ctr_35)
  else rsp_ctr_35.
Definition rsp_case_37 (c : Z) : jump client_action :=
  if c =? 32 then to 37
  else if c =? 67 then to 38
  else if c =? 99 then to 38
  else if (9 <=? c) && (c <=? 13) then to 37 else to 0.
Definition rsp_case_38 (c : Z) : jump client_action :=
  if c =? 76 then to 39
  else if c =? 108 then to 39 else to 0.
Definition rsp_case_39 (c : Z) : jump client_action :=
  if c =? 79 then to 40
  else if c =? 111 then to 40 else to 0.
Definition rsp_case_40 (c : Z) : jump client_action :=
  if c =? 83 then to 41
  else if c =? 115 then to 41 else to 0.
Definition rsp_case_41 (c : Z) : jump client_action :=
  if c =? 69 then to 42
  else if c =? 101 then to 42 else to 0.
Definition rsp_case_42 (c : Z) : jump client_action :=
  if c =? 10 then to 43
  else if c =? 13 then to 88 else to 0.
Definition rsp_case_43 (c : Z) : jump client_action :=
  if c =? 10 then rsp_ctr_74
  else if c =? 13 then rsp_ctr_75
  else if c =? 33 then rsp_ctr_76
  else if c =? 67 then rsp_ctr_77
  else if c =? 84 then rsp_ctr_78
  else if c =? 99 then rsp_ctr_77
  else if c =? 116 then rsp_ctr_78
  else if c =? 124 then rsp_ctr_76
  else if c =? 126 then rsp_ctr_76
  else if c <? 45 then (if 39 <? c then (if (42 <=? c) && (c <=? 43) then rsp_ctr_76 else to 0)
    else if 35 <=? c then rsp_ctr_76 else to 0)
  else if 46 <? c then (if c <? 65 then (if (48 <=? c) && (c <=? 57) then rsp_ctr_76 else to 0)
    else if 90 <? c then (if (94 <=? c) && (c <=? 122) then rsp_ctr_76 else to 0)
    else rsp_ctr_76)
  else rsp_ctr_76.
Definition rsp_case_44 (c : Z) : jump client_action :=
  if c =? 33 then to 21
  else if c =? 58 then rsp_ctr_39
  else if c =? 82 then to 45
  else if c =? 114 then to 45
  else if c =? 124 then to 21
  else if c =? 126 then to 21
  else if c <? 45 then (if 39 <? c then (if (42 <=? c) && (c <=? 43) then to 21 else to 0)
    else if 35 <=? c then to 21 else to 0)
  else if 46 <? c then (if c <? 65 then (if (48 <=? c) && (c <=? 57) then to 21 else to 0)
    else if 90 <? c then (if (94 <=? c) && (c <=? 122) then to 21 else to 0)
    else to 21)
  else to 21.
Definition rsp_case_45 (c : Z) : jump client_action :=
  if c =? 33 then to 21
  else if c =? 58 then rsp_ctr_39
  else if c =? 65 then to 46
  else if c =? 97 then to 46
  else if c =? 124 then to 21
  else if c =? 126 then to 21
  else if c <? 45 then (if 39 <? c then (if (42 <=? c) && (c <=? 43) then to 21 else to 0)
    else if 35 <=? c then to 21 else to 0)
  else if 46 <? c then (if c <? 66 then (if (48 <=? c) && (c <=? 57) then to 21 else to 0)
    else if 90 <? c then (if (94 <=? c) && (c <=? 122) then to 21 else to 0)
    else to 21)
  else to 21.
Definition rsp_case_46 (c : Z) : jump client_action :=
  if c =? 33 then to 21
  else if c =? 58 then rsp_ctr_39
  else if c =? 78 then to 47
  else if c =? 110 then to 47
  else if c =? 124 then to 21
  else if c =? 126 then to 21
  else if c <? 45 then (if 39 <? c then (if (42 <=? c) && (c <=? 43) then to 21 else to 0)
    else if 35 <=? c then to 21 else to 0)
  else if 46 <? c then (if c <? 65 then (if (48 <=? c) && (c <=? 57) then to 21 else to 0)
    else if 90 <? c then (if (94 <=? c) && (c <=? 122) then to 21 else to 0)
    else to 21)
  else to 21.
Definition rsp_case_47 (c : Z) : jump client_action :=
  if c =? 33 then to 21
  else if c =? 58 then rsp_ctr_39
  else if c =? 83 then to 48
  else if c =? 115 then to 48
  else if c =? 124 then to 21
  else if c =? 126 then to 21
  else if c <? 45 then (if 39 <? c then (if (42 <=? c) && (c <=? 43) then to 21 else to 0)
    else if 35 <=? c then to 21 else to 0)
  else if 46 <? c then (if c <? 65 then (if (48 <=? c) && (c <=? 57) then to 21 else to 0)
    else if 90 <? c then (if (94 <=? c) && (c <=? 122) then to 21 else to 0)
    else to 21)
  else to 21.
Definition rsp_case_48 (c : Z) : jump client_action :=
  if c =? 33 then to 21
  else if c =? 58 then rsp_ctr_39
  else if c =? 70 then to 49
  else if c =? 102 then to 49
  else if c =? 124 then to 21
  else if c =? 126 then to 21
  else if c <? 45 then (if 39 <? c then (if (42 <=? c) && (c <=? 43) then to 21 else to 0)
    else if 35 <=? c then to 21 else to 0)
  else if 46 <? c then (if c <? 65 then (if (48 <=? c) && (c <=? 57) then to 21 else to 0)
    else if 90 <? c then (if (94 <=? c) && (c <=? 122) then to 21 else to 0)
    else to 21)
  else to 21.
Definition rsp_case_49 (c : Z) : jump client_action :=
  if c =? 33 then to 21
  else if c =? 58 then rsp_ctr_39
  else if c =? 69 then to 50
  else if c =? 101 then to 50
  else if c =? 124 then to 21
  else if c =? 126 then to 21
  else if c <? 45 then (if 39 <? c then (if (42 <=? c) && (c <=? 43) then to 21 else to 0)
    else if 35 <=? c then to 21 else to 0)
  else if 46 <? c then (if c <? 65 then (if (48 <=? c) && (c <=? 57) then to 21 else to 0)
    else if 90 <? c then (if (94 <=? c) && (c <=? 122) then to 21 else to 0)
    else to 21)
  else to 21.
Definition rsp_case_50 (c : Z) : jump client_action :=
  if c =? 33 then to 21
  else if c =? 58 then rsp_ctr_39
  else if c =? 82 then to 51
  else if c =? 114 then to 51
  else if c =? 124 then to 21
  else if c =? 126 then to 21
  else if c <? 45 then (if 39 <? c then (if (42 <=? c) && (c <=? 43) then to 21 else to 0)
    else if 35 <=? c then to 21 else to 0)
  else if 46 <? c then (if c <? 65 then (if (48 <=? c) && (c <=? 57) then to 21 else to 0)
    else if 90 <? c then (if (94 <=? c) && (c <=? 122) then to 21 else to 0)
    else to 21)
  else to 21.
Definition rsp_case_51 (c : Z) : jump client_action :=
  if c =? 33 then to 21
  else if c =? 45 then to 52
  else if c =? 46 then to 21
  else if c =? 58 then rsp_ctr_39
  else if c =? 124 then to 21
  else if c =? 126 then to 21
  else if c <? 48 then (if 39 <? c then (if (42 <=? c) && (c <=? 43) then to 21 else to 0)
    else if 35 <=? c then to 21 else to 0)
  else if 57 <? c then (if 90 <? c then (if (94 <=? c) && (c <=? 122) then to 21 else to 0)
    else if 65 <=? c then to 21 else to 0)
  else to 21.
Definition rsp_case_52 (c : Z) : jump client_action :=
  if c =? 33 then to 21
  else if c =? 58 then rsp_ctr_39
  else if c =? 69 then to 53
  else if c =? 101 then to 53
  else if c =? 124 then to 21
  else if c =? 126 then to 21
  else if c <? 45 then (if 39 <? c then (if (42 <=? c) && (c <=? 43) then to 21 else to 0)
    else if 35 <=? c then to 21 else to 0)
  else if 46 <? c then (if c <? 65 then (if (48 <=? c) && (c <=? 57) then to 21 else to 0)
    else if 90 <? c then (if (94 <=? c) && (c <=? 122) then to 21 else to 0)
    else to 21)
  else to 21.
Definition rsp_case_53 (c : Z) : jump client_action :=
  if c =? 33 then to 21
  else if c =? 58 then rsp_ctr_39
  else if c =? 78 then to 54
  else if c =? 110 then to 54
  else if c =? 124 then to 21
  else if c =? 126 then to 21
  else if c <? 45 then (if 39 <? c then (if (42 <=? c) && (c <=? 43) then to 21 else to 0)
    else if 35 <=? c then to 21 else to 0)
  else if 46 <? c then (if c <? 65 then (if (48 <=? c) && (c <=? 57) then to 21 else to 0)
    else if 90 <? c then (if (94 <=? c) && (c <=? 122) then to 21 else to 0)
    else to 21)
  else to 21.
Definition rsp_case_54 (c : Z) : jump client_action :=
  if c =? 33 then to 21
  else if c =? 58 then rsp_ctr_39
  else if c =? 67 then to 55
  else if c =? 99 then to 55
  else if c =? 124 then to 21
  else if c =? 126 then to 21
  else if c <? 45 then (if 39 <? c then (if (42 <=? c) && (c <=? 43) then to 21 else to 0)
    else if 35 <=? c then to 21 else to 0)
  else if 46 <? c then (if c <? 65 then (if (48 <=? c) && (c <=? 57) then to 21 else to 0)
    else if 90 <? c then (if (94 <=? c) && (c <=? 122) then to 21 else to 0)
    else to 21)
  else to 21.
Definition rsp_case_55 (c : Z) : jump client_action :=
  if c =? 33 then to 21
  else if c =? 58 then rsp_ctr_39
  else if c =? 79 then to 56
  else if c =? 111 then to 56
  else if c =? 124 then to 21
  else if c =? 126 then to 21
  else if c <? 45 then (if 39 <? c then (if (42 <=? c) && (c <=? 43) then to 21 else to 0)
    else if 35 <=? c then to 21 else to 0)
  else if 46 <? c then (if c <? 65 then (if (48 <=? c) && (c <=? 57) then to 21 else to 0)
    else if 90 <? c then (if (94 <=? c) && (c <=? 122) then to 21 else to 0)
    else to 21)
  else to 21.
Definition rsp_case_56 (c : Z) : jump client_action :=
  if c =? 33 then to 21
  else if c =? 58 then rsp_ctr_39
  else if c =? 68 then to 57
  else if c =? 100 then to 57
  else if c =? 124 then to 21
  else if c =? 126 then to 21
  else if c <? 45 then (if 39 <? c then (if (42 <=? c) && (c <=? 43) then to 21 else to 0)
    else if 35 <=? c then to 21 else to 0)
  else if 46 <? c then (if c <? 65 then (if (48 <=? c) && (c <=? 57) then to 21 else to 0)
    else if 90 <? c then (if (94 <=? c) && (c <=? 122) then to 21 else to 0)
    else to 21)
  else to 21.
Definition rsp_case_57 (c : Z) : jump client_action :=
  if c =? 33 then to 21
  else if c =? 58 then rsp_ctr_39
  else if c =? 73 then to 58
  else if c =? 105 then to 58
  else if c =? 124 then to 21
  else if c =? 126 then to 21
  else if c <? 45 then (if 39 <? c then (if (42 <=? c) && (c <=? 43) then to 21 else to 0)
    else if 35 <=? c then to 21 else to 0)
  else if 46 <? c then (if c <? 65 then (if (48 <=? c) && (c <=? 57) then to 21 else to 0)
    else if 90 <? c then (if (94 <=? c) && (c <=? 122) then to 21 else to 0)
    else to 21)
  else to 21.
Definition rsp_case_58 (c : Z) : jump client_action :=
  if c =? 33 then to 21
  else if c =? 58 then rsp_ctr_39
  else if c =? 78 then to 59
  else if c =? 110 then to 59
  else if c =? 124 then to 21
  else if c =? 126 then to 21
  else if c <? 45 then (if 39 <? c then (if (42 <=? c) && (c <=? 43) then to 21 else to 0)
    else if 35 <=? c then to 21 else to 0)
  else if 46 <? c then (if c <? 65 then (if (48 <=? c) && (c <=? 57) then to 21 else to 0)
    else if 90 <? c then (if (94 <=? c) && (c <=? 122) then to 21 else to 0)
    else to 21)
  else to 21.
Definition rsp_case_59 (c : Z) : jump client_action :=
  if c =? 33 then to 21
  else if c =? 58 then rsp_ctr_39
  else if c =? 71 then to 60
  else if c =? 103 then to 60
  else if c =? 124 then to 21
  else if c =? 126 then to 21
  else if c <? 45 then (if 39 <? c then (if (42 <=? c) && (c <=? 43) then to 21 else to 0)
    else if 35 <=? c then to 21 else to 0)
  else if 46 <? c then (if c <? 65 then (if (48 <=? c) && (c <=? 57) then to 21 else to 0)
    else if 90 <? c then (if (94 <=? c) && (c <=? 122) then to 21 else to 0)
    else to 21)
  else to 21.
Definition rsp_case_60 (c : Z) : jump client_action :=
  if c =? 33 then to 21
  else if c =? 58 then rsp_ctr_95
  else if c =? 124 then to 21
  else if c =? 126 then to 21
  else if c <? 45 then (if 39 <? c then (if (42 <=? c) && (c <=? 43) then to 21 else to 0)
    else if 35 <=? c then to 21 else to 0)
  else if 46 <? c then (if c <? 65 then (if (48 <=? c) && (c <=? 57) then to 21 else to 0)
    else if 90 <? c then (if (94 <=? c) && (c <=? 122) then to 21 else to 0)
    else to 21)
  else to 21.
Definition rsp_case_61 (c : Z) : jump client_action :=
  if c =? 10 then rsp_ctr_97
  else if c =? 13 then rsp_ctr_98
  else if c =? 32 then rsp_ctr_96
  else if c =? 67 then rsp_ctr_99
  else if c =? 99 then rsp_ctr_99
  else if (9 <=? c) && (c <=? 12) then rsp_ctr_96 else rsp_ctr_40.
Definition rsp_case_62 (c : Z) : jump client_action :=
  if c =? 10 then rsp_ctr_101
  else if c =? 13 then to 72
  else if c =? 32 then to 63
  else if c =? 33 then rsp_ctr_35
  else if c =? 67 then rsp_ctr_103
  else if c =? 84 then rsp_ctr_37
  else if c =? 99 then rsp_ctr_103
  else if c =? 116 then rsp_ctr_37
  else if c =? 124 then rsp_ctr_35
  else if c =? 126 then rsp_ctr_35
  else if c <? 45 then (if c <? 35 then (if (9 <=? c) && (c <=? 12) then to 63 else to 0)
    else if 39 <? c then (if (42 <=? c) && (c <=? 43) then rsp_ctr_35 else to 0)
    else rsp_ctr_35)
  else if 46 <? c then (if c <? 65 then (if (48 <=? c) && (c <=? 57) then rsp_ctr_35 else to 0)
    else if 90 <? c then (if (94 <=? c) && (c <=? 122) then rsp_ctr_35 else to 0)
    else rsp_ctr_35)
  else rsp_ctr_35.
Definition rsp_case_63 (c : Z) : jump client_action :=
  if c =? 32 then to 63
  else if c =? 67 then rsp_ctr_104
  else if c =? 99 then rsp_ctr_104
  else if (9 <=? c) && (c <=? 13) then to 63 else to 0.
Definition rsp_case_64 (c : Z) : jump client_action :=
  if c =? 72 then to 65
  else if c =? 104 then to 65 else to 0.
Definition rsp_case_65 (c : Z) : jump client_action :=
  if c =? 85 then to 66
  else if c =? 117 then to 66 else to 0.
Definition rsp_case_66 (c : Z) : jump client_action :=
  if c =? 78 then to 67
  else if c =? 110 then to 67 else to 0.
Definition rsp_case_67 (c : Z) : jump client_action :=
  if c =? 75 then to 68
  else if c =? 107 then to 68 else to 0.
Definition rsp_case_68 (c : Z) : jump client_action :=
  if c =? 69 then to 69
  else if c =? 101 then to 69 else to 0.
Definition rsp_case_69 (c : Z) : jump client_action :=
  if c =? 68 then to 70
  else if c =? 100 then to 70 else to 0.
Definition rsp_case_70 (c : Z) : jump client_action :=
  if c =? 10 then rsp_ctr_111
  else if c =? 13 then rsp_ctr_112 else to 0.
Definition rsp_case_71 (c : Z) : jump client_action :=
  if c =? 10 then rsp_ctr_113 else to 0.
Definition rsp_case_72 (c : Z) : jump client_action :=
  if c =? 10 then rsp_ctr_101
  else if c =? 32 then to 63
  else if c =? 67 then rsp_ctr_104
  else if c =? 99 then rsp_ctr_104
  else if (9 <=? c) && (c <=? 13) then to 63 else to 0.
Definition rsp_case_73 (c : Z) : jump client_action :=
  if c =? 33 then to 21
  else if c =? 58 then rsp_ctr_39
  else if c =? 72 then to 74
  else if c =? 79 then to 26
  else if c =? 104 then to 74
  else if c =? 111 then to 26
  else if c =? 124 then to 21
  else if c =? 126 then to 21
  else if c <? 45 then (if 39 <? c then (if (42 <=? c) && (c <=? 43) then to 21 else to 0)
    else if 35 <=? c then to 21 else to 0)
  else if 46 <? c then (if c <? 65 then (if (48 <=? c) && (c <=? 57) then to 21 else to 0)
    else if 90 <? c then (if (94 <=? c) && (c <=? 122) then to 21 else to 0)
    else to 21)
  else to 21.
Definition rsp_case_74 (c : Z) : jump client_action :=
  if c =? 33 then to 21
  else if c =? 58 then rsp_ctr_39
  else if c =? 85 then to 75
  else if c =? 117 then to 75
  else if c =? 124 then to 21
  else if c =? 126 then to 21
  else if c <? 45 then (if 39 <? c then (if (42 <=? c) && (c <=? 43) then to 21 else to 0)
    else if 35 <=? c then to 21 else to 0)
  else if 46 <? c then (if c <? 65 then (if (48 <=? c) && (c <=? 57) then to 21 else to 0)
    else if 90 <? c then (if (94 <=? c) && (c <=? 122) then to 21 else to 0)
    else to 21)
  else to 21.
Definition rsp_case_75 (c : Z) : jump client_action :=
  if c =? 33 then to 21
  else if c =? 58 then rsp_ctr_39
  else if c =? 78 then to 76
  else if c =? 110 then to 76
  else if c =? 124 then to 21
  else if c =? 126 then to 21
  else if c <? 45 then (if 39 <? c then (if (42 <=? c) && (c <=? 43) then to 21 else to 0)
    else if 35 <=? c then to 21 else to 0)
  else if 46 <? c then (if c <? 65 then (if (48 <=? c) && (c <=? 57) then to 21 else to 0)
    else if 90 <? c then (if (94 <=? c) && (c <=? 122) then to 21 else to 0)
    else to 21)
  else to 21.
Definition rsp_case_76 (c : Z) : jump client_action :=
  if c =? 33 then to 21
  else if c =? 58 then rsp_ctr_39
  else if c =? 75 then to 77
  else if c =? 107 then to 77
  else if c =? 124 then to 21
  else if c =? 126 then to 21
  else if c <? 45 then (if 39 <? c then (if (42 <=? c) && (c <=? 43) then to 21 else to 0)
    else if 35 <=? c then to 21 else to 0)
  else if 46 <? c then (if c <? 65 then (if (48 <=? c) && (c <=? 57) then to 21 else to 0)
    else if 90 <? c then (if (94 <=? c) && (c <=? 122) then to 21 else to 0)
    else to 21)
  else to 21.
Definition rsp_case_77 (c : Z) : jump client_action :=
  if c =? 33 then to 21
  else if c =? 58 then rsp_ctr_39
  else if c =? 69 then to 78
  else if c =? 101 then to 78
  else if c =? 124 then to 21
  else if c =? 126 then to 21
  else if c <? 45 then (if 39 <? c then (if (42 <=? c) && (c <=? 43) then to 21 else to 0)
    else if 35 <=? c then to 21 else to 0)
  else if 46 <? c then (if c <? 65 then (if (48 <=? c) && (c <=? 57) then to 21 else to 0)
    else if 90 <? c then (if (94 <=? c) && (c <=? 122) then to 21 else to 0)
    else to 21)
  else to 21.
Definition rsp_case_78 (c : Z) : jump client_action :=
  if c =? 33 then to 21
  else if c =? 58 then rsp_ctr_39
  else if c =? 68 then to 79
  else if c =? 100 then to 79
  else if c =? 124 then to 21
  else if c =? 126 then to 21
  else if c <? 45 then (if 39 <? c then (if (42 <=? c) && (c <=? 43) then to 21 else to 0)
    else if 35 <=? c then to 21 else to 0)
  else if 46 <? c then (if c <? 65 then (if (48 <=? c) && (c <=? 57) then to 21 else to 0)
    else if 90 <? c then (if (94 <=? c) && (c <=? 122) then to 21 else to 0)
    else to 21)
  else to 21.
Definition rsp_case_79 (c : Z) : jump client_action :=
  if c =? 10 then rsp_ctr_111
  else if c =? 13 then rsp_ctr_112
  else if c =? 33 then to 21
  else if c =? 58 then rsp_ctr_39
  else if c =? 124 then to 21
  else if c =? 126 then to 21
  else if c <? 45 then (if 39 <? c then (if (42 <=? c) && (c <=? 43) then to 21 else to 0)
    else if 35 <=? c then to 21 else to 0)
  else if 46 <? c then (if c <? 65 then (if (48 <=? c) && (c <=? 57) then to 21 else to 0)
    else if 90 <? c then (if (94 <=? c) && (c <=? 122) then to 21 else to 0)
    else to 21)
  else to 21.
Definition rsp_case_80 (c : Z) : jump client_action :=
  if c =? 10 then to 62
  else if c =? 32 then to 63
  else if c =? 67 then rsp_ctr_104
  else if c =? 99 then rsp_ctr_104
  else if (9 <=? c) && (c <=? 13) then to 63 else to 0.
Definition rsp_case_81 (c : Z) : jump client_action :=
  if c =? 10 then rsp_ctr_45
  else if c =? 13 then rsp_ctr_46
  else if c =? 72 then to 82
  else if c =? 104 then to 82 else to 23.
Definition rsp_case_82 (c : Z) : jump client_action :=
  if c =? 10 then rsp_ctr_45
  else if c =? 13 then rsp_ctr_46
  else if c =? 85 then to 83
  else if c =? 117 then to 83 else to 23.
Definition rsp_case_83 (c : Z) : jump client_action :=
  if c =? 10 then rsp_ctr_45
  else if c =? 13 then rsp_ctr_46
  else if c =? 78 then to 84
  else if c =? 110 then to 84 else to 23.
Definition rsp_case_84 (c : Z) : jump client_action :=
  if c =? 10 then rsp_ctr_45
  else if c =? 13 then rsp_ctr_46
  else if c =? 75 then to 85
  else if c =? 107 then to 85 else to 23.
Definition rsp_case_85 (c : Z) : jump client_action :=
  if c =? 10 then rsp_ctr_45
  else if c =? 13 then rsp_ctr_46
  else if c =? 69 then to 86
  else if c =? 101 then to 86 else to 23.
Definition rsp_case_86 (c : Z) : jump client_action :=
  if c =? 10 then rsp_ctr_45
  else if c =? 13 then rsp_ctr_46
  else if c =? 68 then to 87
  else if c =? 100 then to 87 else to 23.
Definition rsp_case_87 (c : Z) : jump client_action :=
  if c =? 10 then rsp_ctr_111
  else if c =? 13 then rsp_ctr_112 else to 23.
Definition rsp_case_88 (c : Z) : jump client_action :=
  if c =? 10 then to 43 else to 0.
Definition rsp_case_89 (c : Z) : jump client_action :=
  if c =? 10 then rsp_ctr_64
  else if c =? 32 then to 37
  else if c =? 67 then to 38
  else if c =? 99 then to 38
  else if (9 <=? c) && (c <=? 13) then to 37 else to 0.
Definition rsp_case_90 (c : Z) : jump client_action :=
  if c =? 33 then to 21
  else if c =? 58 then rsp_ctr_39
  else if c =? 76 then to 91
  else if c =? 79 then to 26
  else if c =? 108 then to 91
  else if c =? 111 then to 26
  else if c =? 124 then to 21
  else if c =? 126 then to 21
  else if c <? 45 then (if 39 <? c then (if (42 <=? c) && (c <=? 43) then to 21 else to 0)
    else if 35 <=? c then to 21 else to 0)
  else if 46 <? c then (if c <? 65 then (if (48 <=? c) && (c <=? 57) then to 21 else to 0)
    else if 90 <? c then (if (94 <=? c) && (c <=? 122) then to 21 else to 0)
    else to 21)
  else to 21.
Definition rsp_case_91 (c : Z) : jump client_action :=
  if c =? 33 then to 21
  else if c =? 58 then rsp_ctr_39
  else if c =? 79 then to 92
  else if c =? 111 then to 92
  else if c =? 124 then to 21
  else if c =? 126 then to 21
  else if c <? 45 then (if 39 <? c then (if (42 <=? c) && (c <=? 43) then to 21 else to 0)
    else if 35 <=? c then to 21 else to 0)
  else if 46 <? c then (if c <? 65 then (if (48 <=? c) && (c <=? 57) then to 21 else to 0)
    else if 90 <? c then (if (94 <=? c) && (c <=? 122) then to 21 else to 0)
    else to 21)
  else to 21.
Definition rsp_case_92 (c : Z) : jump client_action :=
  if c =? 33 then to 21
  else if c =? 58 then rsp_ctr_39
  else if c =? 83 then to 93
  else if c =? 115 then to 93
  else if c =? 124 then to 21
  else if c =? 126 then to 21
  else if c <? 45 then (if 39 <? c then (if (42 <=? c) && (c <=? 43) then to 21 else to 0)
    else if 35 <=? c then to 21 else to 0)
  else if 46 <? c then (if c <? 65 then (if (48 <=? c) && (c <=? 57) then to 21 else to 0)
    else if 90 <? c then (if (94 <=? c) && (c <=? 122) then to 21 else to 0)
    else to 21)
  else to 21.
Definition rsp_case_93 (c : Z) : jump client_action :=
  if c =? 33 then to 21
  else if c =? 58 then rsp_ctr_39
  else if c =? 69 then to 94
  else if c =? 101 then to 94
  else if c =? 124 then to 21
  else if c =? 126 then to 21
  else if c <? 45 then (if 39 <? c then (if (42 <=? c) && (c <=? 43) then to 21 else to 0)
    else if 35 <=? c then to 21 else to 0)
  else if 46 <? c then (if c <? 65 then (if (48 <=? c) && (c <=? 57) then to 21 else to 0)
    else if 90 <? c then (if (94 <=? c) && (c <=? 122) then to 21 else to 0)
    else to 21)
  else to 21.
Definition rsp_case_94 (c : Z) : jump client_action :=
  if c =? 10 then to 43
  else if c =? 13 then to 88
  else if c =? 33 then to 21
  else if c =? 58 then rsp_ctr_39
  else if c =? 124 then to 21
  else if c =? 126 then to 21
  else if c <? 45 then (if 39 <? c then (if (42 <=? c) && (c <=? 43) then to 21 else to 0)
    else if 35 <=? c then to 21 else to 0)
  else if 46 <? c then (if c <? 65 then (if (48 <=? c) && (c <=? 57) then to 21 else to 0)
    else if 90 <? c then (if (94 <=? c) && (c <=? 122) then to 21 else to 0)
    else to 21)
  else to 21.
Definition rsp_case_95 (c : Z) : jump client_action :=
  if c =? 10 then to 36
  else if c =? 32 then to 37
  else if c =? 67 then to 38
  else if c =? 99 then to 38
  else if (9 <=? c) && (c <=? 13) then to 37 else to 0.
Definition rsp_case_96 (c : Z) : jump client_action :=
  if c =? 10 then rsp_ctr_45
  else if c =? 13 then rsp_ctr_46
  else if c =? 76 then to 97
  else if c =? 108 then to 97 else to 23.
Definition rsp_case_97 (c : Z) : jump client_action :=
  if c =? 10 then rsp_ctr_45
  else if c =? 13 then rsp_ctr_46
  else if c =? 79 then to 98
  else if c =? 111 then to 98 else to 23.
Definition rsp_case_98 (c : Z) : jump client_action :=
  if c =? 10 then rsp_ctr_45
  else if c =? 13 then rsp_ctr_46
  else if c =? 83 then to 99
  else if c =? 115 then to 99 else to 23.
Definition rsp_case_99 (c : Z) : jump client_action :=
  if c =? 10 then rsp_ctr_45
  else if c =? 13 then rsp_ctr_46
  else if c =? 69 then to 100
  else if c =? 101 then to 100 else to 23.
Definition rsp_case_100 (c : Z) : jump client_action :=
  if c =? 10 then rsp_ctr_136
  else if c =? 13 then rsp_ctr_137 else to 23.
Definition rsp_case_101 (c : Z) : jump client_action :=
  if c =? 33 then to 21
  else if c =? 58 then rsp_ctr_39
  else if c =? 69 then to 102
  else if c =? 101 then to 102
  else if c =? 124 then to 21
  else if c =? 126 then to 21
  else if c <? 45 then (if 39 <? c then (if (42 <=? c) && (c <=? 43) then to 21 else to 0)
    else if 35 <=? c then to 21 else to 0)
  else if 46 <? c then (if c <? 65 then (if (48 <=? c) && (c <=? 57) then to 21 else to 0)
    else if 90 <? c then (if (94 <=? c) && (c <=? 122) then to 21 else to 0)
    else to 21)
  else to 21.
Definition rsp_case_102 (c : Z) : jump client_action :=
  if c =? 33 then to 21
  else if c =? 58 then rsp_ctr_39
  else if c =? 78 then to 103
  else if c =? 110 then to 103
  else if c =? 124 then to 21
  else if c =? 126 then to 21
  else if c <? 45 then (if 39 <? c then (if (42 <=? c) && (c <=? 43) then to 21 else to 0)
    else if 35 <=? c then to 21 else to 0)
  else if 46 <? c then (if c <? 65 then (if (48 <=? c) && (c <=? 57) then to 21 else to 0)
    else if 90 <? c then (if (94 <=? c) && (c <=? 122) then to 21 else to 0)
    else to 21)
  else to 21.
Definition rsp_case_103 (c : Z) : jump client_action :=
  if c =? 33 then to 21
  else if c =? 58 then rsp_ctr_39
  else if c =? 84 then to 104
  else if c =? 116 then to 104
  else if c =? 124 then to 21
  else if c =? 126 then to 21
  else if c <? 45 then (if 39 <? c then (if (42 <=? c) && (c <=? 43) then to 21 else to 0)
    else if 35 <=? c then to 21 else to 0)
  else if 46 <? c then (if c <? 65 then (if (48 <=? c) && (c <=? 57) then to 21 else to 0)
    else if 90 <? c then (if (94 <=? c) && (c <=? 122) then to 21 else to 0)
    else to 21)
  else to 21.
Definition rsp_case_104 (c : Z) : jump client_action :=
  if c =? 33 then to 21
  else if c =? 45 then to 105
  else if c =? 46 then to 21
  else if c =? 58 then rsp_ctr_39
  else if c =? 124 then to 21
  else if c =? 126 then to 21
  else if c <? 48 then (if 39 <? c then (if (42 <=? c) && (c <=? 43) then to 21 else to 0)
    else if 35 <=? c then to 21 else to 0)
  else if 57 <? c then (if 90 <? c then (if (94 <=? c) && (c <=? 122) then to 21 else to 0)
    else if 65 <=? c then to 21 else to 0)
  else to 21.
Definition rsp_case_105 (c : Z) : jump client_action :=
  if c =? 33 then to 21
  else if c =? 58 then rsp_ctr_39
  else if c =? 76 then to 106
  else if c =? 108 then to 106
  else if c =? 124 then to 21
  else if c =? 126 then to 21
  else if c <? 45 then (if 39 <? c then (if (42 <=? c) && (c <=? 43) then to 21 else to 0)
    else if 35 <=? c then to 21 else to 0)
  else if 46 <? c then (if c <? 65 then (if (48 <=? c) && (c <=? 57) then to 21 else to 0)
    else if 90 <? c then (if (94 <=? c) && (c <=? 122) then to 21 else to 0)
    else to 21)
  else to 21.
Definition rsp_case_106 (c : Z) : jump client_action :=
  if c =? 33 then to 21
  else if c =? 58 then rsp_ctr_39
  else if c =? 69 then to 107
  else if c =? 101 then to 107
  else if c =? 124 then to 21
  else if c =? 126 then to 21
  else if c <? 45 then (if 39 <? c then (if (42 <=? c) && (c <=? 43) then to 21 else to 0)
    else if 35 <=? c then to 21 else to 0)
  else if 46 <? c then (if c <? 65 then (if (48 <=? c) && (c <=? 57) then to 21 else to 0)
    else if 90 <? c then (if (94 <=? c) && (c <=? 122) then to 21 else to 0)
    else to 21)
  else to 21.
Definition rsp_case_107 (c : Z) : jump client_action :=
  if c =? 33 then to 21
  else if c =? 58 then rsp_ctr_39
  else if c =? 78 then to 108
  else if c =? 110 then to 108
  else if c =? 124 then to 21
  else if c =? 126 then to 21
  else if c <? 45 then (if 39 <? c then (if (42 <=? c) && (c <=? 43) then to 21 else to 0)
    else if 35 <=? c then to 21 else to 0)
  else if 46 <? c then (if c <? 65 then (if (48 <=? c) && (c <=? 57) then to 21 else to 0)
    else if 90 <? c then (if (94 <=? c) && (c <=? 122) then to 21 else to 0)
    else to 21)
  else to 21.
Definition rsp_case_108 (c : Z) : jump client_action :=
  if c =? 33 then to 21
  else if c =? 58 then rsp_ctr_39
  else if c =? 71 then to 109
  else if c =? 103 then to 109
  else if c =? 124 then to 21
  else if c =? 126 then to 21
  else if c <? 45 then (if 39 <? c then (if (42 <=? c) && (c <=? 43) then to 21 else to 0)
    else if 35 <=? c then to 21 else to 0)
  else if 46 <? c then (if c <? 65 then (if (48 <=? c) && (c <=? 57) then to 21 else to 0)
    else if 90 <? c then (if (94 <=? c) && (c <=? 122) then to 21 else to 0)
    else to 21)
  else to 21.
Definition rsp_case_109 (c : Z) : jump client_action :=
  if c =? 33 then to 21
  else if c =? 58 then rsp_ctr_39
  else if c =? 84 then to 110
  else if c =? 116 then to 110
  else if c =? 124 then to 21
  else if c =? 126 then to 21
  else if c <? 45 then (if 39 <? c then (if (42 <=? c) && (c <=? 43) then to 21 else to 0)
    else if 35 <=? c then to 21 else to 0)
  else if 46 <? c then (if c <? 65 then (if (48 <=? c) && (c <=? 57) then to 21 else to 0)
    else if 90 <? c then (if (94 <=? c) && (c <=? 122) then to 21 else to 0)
    else to 21)
  else to 21.
Definition rsp_case_110 (c : Z) : jump client_action :=
  if c =? 33 then to 21
  else if c =? 58 then rsp_ctr_39
  else if c =? 72 then to 111
  else if c =? 104 then to 111
  else if c =? 124 then to 21
  else if c =? 126 then to 21
  else if c <? 45 then (if 39 <? c then (if (42 <=? c) && (c <=? 43) then to 21 else to 0)
    else if 35 <=? c then to 21 else to 0)
  else if 46 <? c then (if c <? 65 then (if (48 <=? c) && (c <=? 57) then to 21 else to 0)
    else if 90 <? c then (if (94 <=? c) && (c <=? 122) then to 21 else to 0)
    else to 21)
  else to 21.
Definition rsp_case_111 (c : Z) : jump client_action :=
  if c =? 33 then to 21
  else if c =? 58 then rsp_ctr_148
  else if c =? 124 then to 21
  else if c =? 126 then to 21
  else if c <? 45 then (if 39 <? c then (if (42 <=? c) && (c <=? 43) then to 21 else to 0)
    else if 35 <=? c then to 21 else to 0)
  else if 46 <? c then (if c <? 65 then (if (48 <=? c) && (c <=? 57) then to 21 else to 0)
    else if 90 <? c then (if (94 <=? c) && (c <=? 122) then to 21 else to 0)
    else to 21)
  else to 21.
Definition rsp_case_112 (c : Z) : jump client_action :=
  if c =? 10 then rsp_ctr_150
  else if c =? 13 then rsp_ctr_151
  else if c =? 32 then rsp_ctr_149
  else if 12 <? c then (if (48 <=? c) && (c <=? 57) then rsp_ctr_152 else rsp_ctr_40)
  else if 9 <=? c then rsp_ctr_149 else rsp_ctr_40.
Definition rsp_case_113 (c : Z) : jump client_action :=
  if c =? 10 then rsp_ctr_154
  else if c =? 13 then to 116
  else if c =? 32 then to 114
  else if c =? 33 then rsp_ctr_35
  else if c =? 67 then rsp_ctr_36
  else if c =? 84 then rsp_ctr_37
  else if c =? 99 then rsp_ctr_36
  else if c =? 116 then rsp_ctr_37
  else if c =? 124 then rsp_ctr_35
  else if c =? 126 then rsp_ctr_35
  else if c <? 45 then (if c <? 35 then (if (9 <=? c) && (c <=? 12) then to 114 else to 0)
    else if 39 <? c then (if (42 <=? c) && (c <=? 43) then rsp_ctr_35 else to 0)
    else rsp_ctr_35)
  else if 46 <? c then (if c <? 65 then (if (48 <=? c) && (c <=? 57) then rsp_ctr_156 else to 0)
    else if 90 <? c then (if (94 <=? c) && (c <=? 122) then rsp_ctr_35 else to 0)
    else rsp_ctr_35)
  else rsp_ctr_35.
Definition rsp_case_114 (c : Z) : jump client_action :=
  if c =? 32 then to 114
  else if 13 <? c then (if (48 <=? c) && (c <=? 57) then rsp_ctr_157 else to 0)
  else if 9 <=? c then to 114 else to 0.
Definition rsp_case_115 (c : Z) : jump client_action :=
  if c =? 10 then rsp_ctr_158
  else if c =? 13 then rsp_ctr_159
  else if (48 <=? c) && (c <=? 57) then to 115 else to 0.
Definition rsp_case_116 (c : Z) : jump client_action :=
  if c =? 10 then rsp_ctr_154
  else if c =? 32 then to 114
  else if 13 <? c then (if (48 <=? c) && (c <=? 57) then rsp_ctr_157 else to 0)
  else if 9 <=? c then to 114 else to 0.
Definition rsp_case_117 (c : Z) : jump client_action :=
  if c =? 10 then rsp_ctr_158
  else if c =? 13 then rsp_ctr_159
  else if c =? 33 then to 21
  else if c =? 58 then rsp_ctr_39
  else if c =? 124 then to 21
  else if c =? 126 then to 21
  else if c <? 45 then (if 39 <? c then (if (42 <=? c) && (c <=? 43) then to 21 else to 0)
    else if 35 <=? c then to 21 else to 0)
  else if 46 <? c then (if c <? 65 then (if (48 <=? c) && (c <=? 57) then to 117 else to 0)
    else if 90 <? c then (if (94 <=? c) && (c <=? 122) then to 21 else to 0)
    else to 21)
  else to 21.
Definition rsp_case_118 (c : Z) : jump client_action :=
  if c =? 10 then to 113
  else if c =? 32 then to 114
  else if 13 <? c then (if (48 <=? c) && (c <=? 57) then rsp_ctr_157 else to 0)
  else if 9 <=? c then to 114 else to 0.
Definition rsp_case_119 (c : Z) : jump client_action :=
  if c =? 10 then rsp_ctr_158
  else if c =? 13 then rsp_ctr_159
  else if (48 <=? c) && (c <=? 57) then to 119 else to 23.
Definition rsp_case_120 (c : Z) : jump client_action :=
  to 0.
Definition rsp_case_121 (c : Z) : jump client_action :=
  if c =? 32 then to 63
  else if c =? 67 then rsp_ctr_104
  else if c =? 99 then rsp_ctr_104
  else if (9 <=? c) && (c <=? 13) then to 63 else to 0.
Definition rsp_case_122 (c : Z) : jump client_action :=
  if c =? 32 then to 37
  else if c =? 67 then to 38
  else if c =? 99 then to 38
  else if (9 <=? c) && (c <=? 13) then to 37 else to 0.
Definition rsp_case_123 (c : Z) : jump client_action :=
  if c =? 32 then to 114
  else if 13 <? c then (if (48 <=? c) && (c <=? 57) then rsp_ctr_157 else to 0)
  else if 9 <=? c then to 114 else to 0.

(** [switch (cs)]: the state the scanner continues in. *)
Definition rsp_table (cs : Z) : Z → jump client_action :=
  match cs with
  | 1 => rsp_case_1
  | 2 => rsp_case_2
  | 3 => rsp_case_3
  | 4 => rsp_case_4
  | 5 => rsp_case_5
  | 6 => rsp_case_6
  | 7 => rsp_case_7
  | 8 => rsp_case_8
  | 9 => rsp_case_9
  | 10 => rsp_case_10
  | 11 => rsp_case_11
  | 12 => rsp_case_12
  | 13 => rsp_case_13
  | 14 => rsp_case_14
  | 15 => rsp_case_15
  | 16 => rsp_case_16
  | 17 => rsp_case_17
  | 18 => rsp_case_18
  | 19 => rsp_case_19
  | 20 => rsp_case_20
  | 21 => rsp_case_21
  | 22 => rsp_case_22
  | 23 => rsp_case_23
  | 24 => rsp_case_24
  | 25 => rsp_case_25
  | 26 => rsp_case_26
  | 27 => rsp_case_27
  | 28 => rsp_case_28
  | 29 => rsp_case_29
  | 30 => rsp_case_30
  | 31 => rsp_case_31
  | 32 => rsp_case_32
  | 33 => rsp_case_33
  | 34 => rsp_case_34
  | 35 => rsp_case_35
  | 36 => rsp_case_36
  | 37 => rsp_case_37
  | 38 => rsp_case_38
  | 39 => rsp_case_39
  | 40 => rsp_case_40
  | 41 => rsp_case_41
  | 42 => rsp_case_42
  | 43 => rsp_case_43
  | 44 => rsp_case_44
  | 45 => rsp_case_45
  | 46 => rsp_case_46
  | 47 => rsp_case_47
  | 48 => rsp_case_48
  | 49 => rsp_case_49
  | 50 => rsp_case_50
  | 51 => rsp_case_51
  | 52 => rsp_case_52
  | 53 => rsp_case_53
  | 54 => rsp_case_54
  | 55 => rsp_case_55
  | 56 => rsp_case_56
  | 57 => rsp_case_57
  | 58 => rsp_case_58
  | 59 => rsp_case_59
  | 60 => rsp_case_60
  | 61 => rsp_case_61
  | 62 => rsp_case_62
  | 63 => rsp_case_63
  | 64 => rsp_case_64
  | 65 => rsp_case_65
  | 66 => rsp_case_66
  | 67 => rsp_case_67
  | 68 => rsp_case_68
  | 69 => rsp_case_69
  | 70 => rsp_case_70
  | 71 => rsp_case_71
  | 72 => rsp_case_72
  | 73 => rsp_case_73
  | 74 => rsp_case_74
  | 75 => rsp_case_75
  | 76 => rsp_case_76
  | 77 => rsp_case_77
  | 78 => rsp_case_78
  | 79 => rsp_case_79
  | 80 => rsp_case_80
  | 81 => rsp_case_81
  | 82 => rsp_case_82
  | 83 => rsp_case_83
  | 84 => rsp_case_84
  | 85 => rsp_case_85
  | 86 => rsp_case_86
  | 87 => rsp_case_87
  | 88 => rsp_case_88
  | 89 => rsp_case_89
  | 90 => rsp_case_90
  | 91 => rsp_case_91
  | 92 => rsp_case_92
  | 93 => rsp_case_93
  | 94 => rsp_case_94
  | 95 => rsp_case_95
  | 96 => rsp_case_96
  | 97 => rsp_case_97
  | 98 => rsp_case_98
  | 99 => rsp_case_99
  | 100 => rsp_case_100
  | 101 => rsp_case_101
  | 102 => rsp_case_102
  | 103 => rsp_case_103
  | 104 => rsp_case_104
  | 105 => rsp_case_105
  | 106 => rsp_case_106
  | 107 => rsp_case_107
  | 108 => rsp_case_108
  | 109 => rsp_case_109
  | 110 => rsp_case_110
  | 111 => rsp_case_111
  | 112 => rsp_case_112
  | 113 => rsp_case_113
  | 114 => rsp_case_114
  | 115 => rsp_case_115
  | 116 => rsp_case_116
  | 117 => rsp_case_117
  | 118 => rsp_case_118
  | 119 => rsp_case_119
  | 120 => rsp_case_120
  | 121 => rsp_case_121
  | 122 => rsp_case_122
  | 123 => rsp_case_123
  | _ => λ _, to 0
  end.
