(* ===== verification/HttpClientParser.v ===== *)
(** The response parser around the generated scanner
    ([sylar/http/httpclient_parser.rl.cc], [httpclient_parser.h]): the registers,
    the actions, [httpclient_parser_init], [_execute], [_finish].  As for
    requests, a run yields the callbacks made, with offsets for pointers. *)
From S2P Require Import Prelude Text Ragel HttpClientStates.
From Stdlib Require Import Strings.Byte.

Local Open Scope Z_scope.

Definition httpclient_parser_start : Z := 1.
Definition httpclient_parser_first_final : Z := 120.
Definition httpclient_parser_error : Z := 0.

Record httpclient_parser := mk_httpclient_parser {
  cs : Z;
  body_start : Z;
  content_len : Z;
  status : Z;
  chunked : bool;
  chunks_done : bool;
  close_ : bool;
  nread : Z;
  mark : Z;
  field_start : Z;
  field_len : Z;
}.
Definition set_cs (v : Z) (s : httpclient_parser) : httpclient_parser :=
  mk_httpclient_parser v (body_start s) (content_len s) (status s) (chunked s) (chunks_done s) (close_ s) (nread s) (mark s) (field_start s) (field_len s).
Definition set_body_start (v : Z) (s : httpclient_parser) : httpclient_parser :=
  mk_httpclient_parser (cs s) v (content_len s) (status s) (chunked s) (chunks_done s) (close_ s) (nread s) (mark s) (field_start s) (field_len s).
Definition set_content_len (v : Z) (s : httpclient_parser) : httpclient_parser :=
  mk_httpclient_parser (cs s) (body_start s) v (status s) (chunked s) (chunks_done s) (close_ s) (nread s) (mark s) (field_start s) (field_len s).
Definition set_status (v : Z) (s : httpclient_parser) : httpclient_parser :=
  mk_httpclient_parser (cs s) (body_start s) (content_len s) v (chunked s) (chunks_done s) (close_ s) (nread s) (mark s) (field_start s) (field_len s).
Definition set_chunked (v : bool) (s : httpclient_parser) : httpclient_parser :=
  mk_httpclient_parser (cs s) (body_start s) (content_len s) (status s) v (chunks_done s) (close_ s) (nread s) (mark s) (field_start s) (field_len s).
Definition set_chunks_done (v : bool) (s : httpclient_parser) : httpclient_parser :=
  mk_httpclient_parser (cs s) (body_start s) (content_len s) (status s) (chunked s) v (close_ s) (nread s) (mark s) (field_start s) (field_len s).
Definition set_close (v : bool) (s : httpclient_parser) : httpclient_parser :=
  mk_httpclient_parser (cs s) (body_start s) (content_len s) (status s) (chunked s) (chunks_done s) v (nread s) (mark s) (field_start s) (field_len s).
Definition set_nread (v : Z) (s : httpclient_parser) : httpclient_parser :=
  mk_httpclient_parser (cs s) (body_start s) (content_len s) (status s) (chunked s) (chunks_done s) (close_ s) v (mark s) (field_start s) (field_len s).
Definition set_mark (v : Z) (s : httpclient_parser) : httpclient_parser :=
  mk_httpclient_parser (cs s) (body_start s) (content_len s) (status s) (chunked s) (chunks_done s) (close_ s) (nread s) v (field_start s) (field_len s).
Definition set_field_start (v : Z) (s : httpclient_parser) : httpclient_parser :=
  mk_httpclient_parser (cs s) (body_start s) (content_len s) (status s) (chunked s) (chunks_done s) (close_ s) (nread s) (mark s) v (field_len s).
Definition set_field_len (v : Z) (s : httpclient_parser) : httpclient_parser :=
  mk_httpclient_parser (cs s) (body_start s) (content_len s) (status s) (chunked s) (chunks_done s) (close_ s) (nread s) (mark s) (field_start s) v.

(** Calls of the installed functions: [at_] is the offset of the pointer. *)
Inductive element :=
  reason_phrase | status_code | chunk_size | http_version | header_done | last_chunk.
Inductive callback :=
  | ElementCb (e : element) (at_ length : Z)
  | FieldCb (field flen value vlen : Z).

(** [LEN(AT, FPC)] *)
Definition LEN (at_ p : Z) : Z := wrapu 64 (p - at_).
(** [PTR_TO(mark)] as the text [strtol] sees: up to the NUL behind the text. *)
Definition number_text (text : list byte) (at_ : Z) : string :=
  String.string_of_list_byte (drop (Z.to_nat at_) text).

(** The code of an action at position [p] of [text]. *)
Definition do_action (text : list byte) (a : client_action) (p : Z) (s : httpclient_parser)
    : httpclient_parser * list callback :=
  match a with
  | RMark | RStartValue => (set_mark p s, [])
  | RStartField => (set_field_start p s, [])
  | RWriteField => (set_field_len (LEN (field_start s) p) s, [])
  | RWriteContentLen => (set_content_len (wraps 32 (strtol (number_text text (mark s)))) s, [])
  | RWriteConnectionClose => (set_close true s, [])
  | RWriteValue => (s, [FieldCb (field_start s) (field_len s) (mark s) (LEN (mark s) p)])
  | RReasonPhrase => (s, [ElementCb reason_phrase (mark s) (LEN (mark s) p)])
  | RStatusCode =>
      (set_status (wraps 32 (strtol (number_text text (mark s)))) s,
       [ElementCb status_code (mark s) (LEN (mark s) p)])
  | RHttpVersion => (s, [ElementCb http_version (mark s) (LEN (mark s) p)])
  | RChunkSize =>
      let n := wraps 32 (strtol16 (number_text text (mark s))) in
      (set_chunks_done (n <=? 0) (set_content_len n (set_chunked true s)),
       [ElementCb (if n <=? 0 then last_chunk else chunk_size) (mark s) (LEN (mark s) p)])
  | RTransChunked => (set_chunked true s, [])
  | RDone => (set_body_start (p + 1) s, [ElementCb header_done (p + 1) (Z.of_nat (length text) - p - 1)])
  end.
Fixpoint do_actions (text : list byte) (l : list (client_action * Z)) (s : httpclient_parser)
    : httpclient_parser * list callback :=
  match l with
  | [] => (s, [])
  | (a, p) :: l =>
      let '(s1, c1) := do_action text a p s in
      let '(s2, c2) := do_actions text l s1 in (s2, c1 ++ c2)
  end.

(** [httpclient_parser_init]: [status] keeps what the memory held. *)
Definition httpclient_parser_init (s : httpclient_parser) : httpclient_parser :=
  mk_httpclient_parser httpclient_parser_start 0 (-1) (status s) false false false 0 0 0 0.

Definition httpclient_parser_has_error (s : httpclient_parser) : bool := cs s =? httpclient_parser_error.
(** Only the first final state counts as finished. *)
Definition httpclient_parser_is_finished (s : httpclient_parser) : bool :=
  cs s =? httpclient_parser_first_final.
(** [httpclient_parser_finish] *)
Definition httpclient_parser_finish (s : httpclient_parser) : Z :=
  if httpclient_parser_has_error s then -1 else if httpclient_parser_is_finished s then 1 else 0.

(** [httpclient_parser_execute(parser, buffer, len, 0)] on the [len] characters
    [text]; the caller has put NUL behind them.  The result is -1 when a [check]
    fails. *)
Definition httpclient_parser_execute (text : list byte) : M httpclient_parser (Z * list callback) :=
  let len := Z.of_nat (length text) in
  modify (λ s, set_field_start 0 (set_field_len 0 (set_mark 0 (set_nread 0 s))));;
  s ← get;
  let o := run rsp_table (cs s) 0 text in
  let '(s', cbs) := do_actions text (trace o) s in
  modify (λ _, set_nread (nread s' + pos o) (set_cs (final o) s'));;
  r ← get;
  sylar_assert (nread r <=? len);;
  sylar_assert (body_start r <=? len);;
  mret (if (mark r <? len) && (field_len r <=? len) && (field_start r <? len) then nread r else -1, cbs).
