(* ===== verification/UriStates.v ===== *)
(** The scanner of URIs as Ragel generated it ([sylar/uri.rl.cc]): one definition
    per label, [uri_case_n] for [st_case_n] and [uri_ctr_n] for [ctr_n], with the
    comparisons on the character in the order of the code. *)
From S2P Require Import Prelude Ragel.

Local Open Scope Z_scope.

(** The actions of the grammar. *)
Inductive uri_action :=
  | MarkU | MarkH | SaveScheme | SavePort | SaveUserinfo | SaveHost | SavePath | SaveQuery
  | SaveFragment.
#[export] Instance uri_action_eq_dec : EqDecision uri_action.
Proof. solve_decision. Defined.

(** ** Action labels *)

Definition uri_ctr_38 : jump uri_action := via [SaveUserinfo] 469.
Definition uri_ctr_263 : jump uri_action := via [SaveUserinfo] 522.
Definition uri_ctr_461 : jump uri_action := via [MarkU] 508.
Definition uri_ctr_462 : jump uri_action := via [MarkU] 454.
Definition uri_ctr_463 : jump uri_action := via [MarkU] 1.
Definition uri_ctr_466 : jump uri_action := via [MarkU] 457.
Definition uri_ctr_467 : jump uri_action := via [MarkU; SaveQuery] 453.
Definition uri_ctr_468 : jump uri_action := via [MarkU] 7.
Definition uri_ctr_469 : jump uri_action := via [SaveQuery] 453.
Definition uri_ctr_472 : jump uri_action := via [MarkH] 9.
Definition uri_ctr_473 : jump uri_action := via [MarkH] 467.
Definition uri_ctr_474 : jump uri_action := via [MarkH; SaveHost] 453.
Definition uri_ctr_475 : jump uri_action := via [MarkH] 31.
Definition uri_ctr_476 : jump uri_action := via [MarkH; SaveHost] 455.
Definition uri_ctr_477 : jump uri_action := via [MarkH] 490.
Definition uri_ctr_478 : jump uri_action := via [MarkH] 504.
Definition uri_ctr_479 : jump uri_action := via [MarkH] 506.
Definition uri_ctr_480 : jump uri_action := via [MarkH] 505.
Definition uri_ctr_481 : jump uri_action := via [MarkH; SaveHost] 468.
Definition uri_ctr_482 : jump uri_action := via [MarkH; SaveHost] 456.
Definition uri_ctr_483 : jump uri_action := via [MarkH; SaveUserinfo] 469.
Definition uri_ctr_484 : jump uri_action := via [MarkH] 38.
Definition uri_ctr_485 : jump uri_action := via [SaveHost] 453.
Definition uri_ctr_486 : jump uri_action := via [SaveHost] 455.
Definition uri_ctr_487 : jump uri_action := via [SaveHost] 461.
Definition uri_ctr_488 : jump uri_action := via [SaveHost] 456.
Definition uri_ctr_489 : jump uri_action := via [MarkH; SavePort] 453.
Definition uri_ctr_490 : jump uri_action := via [MarkH; SavePort] 455.
Definition uri_ctr_491 : jump uri_action := via [MarkH] 462.
Definition uri_ctr_492 : jump uri_action := via [MarkH; SavePort] 456.
Definition uri_ctr_493 : jump uri_action := via [SavePort] 453.
Definition uri_ctr_494 : jump uri_action := via [SavePort] 455.
Definition uri_ctr_496 : jump uri_action := via [SavePort] 456.
Definition uri_ctr_499 : jump uri_action := via [SaveHost] 468.
Definition uri_ctr_500 : jump uri_action := via [MarkH] 489.
Definition uri_ctr_501 : jump uri_action := via [MarkH] 470.
Definition uri_ctr_502 : jump uri_action := via [MarkH] 36.
Definition uri_ctr_503 : jump uri_action := via [MarkH] 471.
Definition uri_ctr_504 : jump uri_action := via [MarkH] 485.
Definition uri_ctr_505 : jump uri_action := via [MarkH] 487.
Definition uri_ctr_506 : jump uri_action := via [MarkH] 486.
Definition uri_ctr_507 : jump uri_action := via [MarkH; SaveHost] 461.
Definition uri_ctr_543 : jump uri_action := via [SaveScheme] 509.
Definition uri_ctr_546 : jump uri_action := via [MarkH] 229.
Definition uri_ctr_547 : jump uri_action := via [MarkH] 520.
Definition uri_ctr_548 : jump uri_action := via [MarkH; SaveHost; SavePath] 453.
Definition uri_ctr_549 : jump uri_action := via [MarkH] 253.
Definition uri_ctr_550 : jump uri_action := via [MarkH; SaveHost] 513.
Definition uri_ctr_551 : jump uri_action := via [MarkH] 543.
Definition uri_ctr_552 : jump uri_action := via [MarkH] 557.
Definition uri_ctr_553 : jump uri_action := via [MarkH] 559.
Definition uri_ctr_554 : jump uri_action := via [MarkH] 558.
Definition uri_ctr_555 : jump uri_action := via [MarkH; SaveHost] 521.
Definition uri_ctr_556 : jump uri_action := via [MarkH; SaveHost; SavePath] 456.
Definition uri_ctr_557 : jump uri_action := via [MarkH; SaveUserinfo] 522.
Definition uri_ctr_558 : jump uri_action := via [MarkH] 260.
Definition uri_ctr_559 : jump uri_action := via [SaveHost; MarkH; SavePath] 453.
Definition uri_ctr_560 : jump uri_action := via [SaveHost; MarkH] 513.
Definition uri_ctr_561 : jump uri_action := via [SaveHost] 514.
Definition uri_ctr_562 : jump uri_action := via [SaveHost; MarkH; SavePath] 456.
Definition uri_ctr_563 : jump uri_action := via [SavePath] 453.
Definition uri_ctr_565 : jump uri_action := via [SavePath] 456.
Definition uri_ctr_566 : jump uri_action := via [MarkH; SavePort; SavePath] 453.
Definition uri_ctr_567 : jump uri_action := via [MarkH; SavePort] 513.
Definition uri_ctr_568 : jump uri_action := via [MarkH] 515.
Definition uri_ctr_569 : jump uri_action := via [MarkH; SavePort; SavePath] 456.
Definition uri_ctr_570 : jump uri_action := via [SavePort; MarkH; SavePath] 453.
Definition uri_ctr_571 : jump uri_action := via [SavePort; MarkH] 513.
Definition uri_ctr_573 : jump uri_action := via [SavePort; MarkH; SavePath] 456.
Definition uri_ctr_576 : jump uri_action := via [SaveHost] 521.
Definition uri_ctr_577 : jump uri_action := via [MarkH] 542.
Definition uri_ctr_578 : jump uri_action := via [MarkH] 523.
Definition uri_ctr_579 : jump uri_action := via [MarkH] 258.
Definition uri_ctr_580 : jump uri_action := via [MarkH] 524.
Definition uri_ctr_581 : jump uri_action := via [MarkH] 538.
Definition uri_ctr_582 : jump uri_action := via [MarkH] 540.
Definition uri_ctr_583 : jump uri_action := via [MarkH] 539.
Definition uri_ctr_584 : jump uri_action := via [MarkH; SaveHost] 514.

(** ** States *)

Definition uri_case_1 (c : Z) : jump uri_action :=
  if c <? 65 then (if (48 <=? c) && (c <=? 57) then to 2 else to 0)
  else if 70 <? c then (if (97 <=? c) && (c <=? 102) then to 2 else to 0)
  else to 2.
Definition uri_case_2 (c : Z) : jump uri_action :=
  if c <? 65 then (if (48 <=? c) && (c <=? 57) then to 454 else to 0)
  else if 70 <? c then (if (97 <=? c) && (c <=? 102) then to 454 else to 0)
  else to 454.
Definition uri_case_3 (c : Z) : jump uri_action :=
  if c <? 65 then (if (48 <=? c) && (c <=? 57) then to 4 else to 0)
  else if 70 <? c then (if (97 <=? c) && (c <=? 102) then to 4 else to 0)
  else to 4.
Definition uri_case_4 (c : Z) : jump uri_action :=
  if c <? 65 then (if (48 <=? c) && (c <=? 57) then to 452 else to 0)
  else if 70 <? c then (if (97 <=? c) && (c <=? 102) then to 452 else to 0)
  else to 452.
Definition uri_case_5 (c : Z) : jump uri_action :=
  if c <? 65 then (if (48 <=? c) && (c <=? 57) then to 6 else to 0)
  else if 70 <? c then (if (97 <=? c) && (c <=? 102) then to 6 else to 0)
  else to 6.
Definition uri_case_6 (c : Z) : jump uri_action :=
  if c <? 65 then (if (48 <=? c) && (c <=? 57) then to 455 else to 0)
  else if 70 <? c then (if (97 <=? c) && (c <=? 102) then to 455 else to 0)
  else to 455.
Definition uri_case_7 (c : Z) : jump uri_action :=
  if c <? 65 then (if (48 <=? c) && (c <=? 57) then to 8 else to 0)
  else if 70 <? c then (if (97 <=? c) && (c <=? 102) then to 8 else to 0)
  else to 8.
Definition uri_case_8 (c : Z) : jump uri_action :=
  if c <? 65 then (if (48 <=? c) && (c <=? 57) then to 457 else to 0)
  else if 70 <? c then (if (97 <=? c) && (c <=? 102) then to 457 else to 0)
  else to 457.
Definition uri_case_9 (c : Z) : jump uri_action :=
  if (48 <=? c) && (c <=? 52) then to 10 else to 0.
Definition uri_case_10 (c : Z) : jump uri_action :=
  if (48 <=? c) && (c <=? 57) then to 11 else to 0.
Definition uri_case_11 (c : Z) : jump uri_action :=
  if c =? 46 then to 12 else to 0.
Definition uri_case_12 (c : Z) : jump uri_action :=
  if c =? 2 then to 13
  else if c =? 48 then to 15
  else if c =? 49 then to 27
  else if c =? 50 then to 29
  else if (51 <=? c) && (c <=? 57) then to 28 else to 0.
Definition uri_case_13 (c : Z) : jump uri_action :=
  if (48 <=? c) && (c <=? 52) then to 14 else to 0.
Definition uri_case_14 (c : Z) : jump uri_action :=
  if (48 <=? c) && (c <=? 57) then to 15 else to 0.
Definition uri_case_15 (c : Z) : jump uri_action :=
  if c =? 46 then to 16 else to 0.
Definition uri_case_16 (c : Z) : jump uri_action :=
  if c =? 2 then to 17
  else if c =? 48 then to 19
  else if c =? 49 then to 23
  else if c =? 50 then to 25
  else if (51 <=? c) && (c <=? 57) then to 24 else to 0.
Definition uri_case_17 (c : Z) : jump uri_action :=
  if (48 <=? c) && (c <=? 52) then to 18 else to 0.
Definition uri_case_18 (c : Z) : jump uri_action :=
  if (48 <=? c) && (c <=? 57) then to 19 else to 0.
Definition uri_case_19 (c : Z) : jump uri_action :=
  if c =? 46 then to 20 else to 0.
Definition uri_case_20 (c : Z) : jump uri_action :=
  if c =? 2 then to 21
  else if c =? 48 then to 460
  else if c =? 49 then to 463
  else if c =? 50 then to 465
  else if (51 <=? c) && (c <=? 57) then to 464 else to 0.
Definition uri_case_21 (c : Z) : jump uri_action :=
  if (48 <=? c) && (c <=? 52) then to 22 else to 0.
Definition uri_case_22 (c : Z) : jump uri_action :=
  if (48 <=? c) && (c <=? 57) then to 460 else to 0.
Definition uri_case_23 (c : Z) : jump uri_action :=
  if c =? 46 then to 20
  else if (48 <=? c) && (c <=? 57) then to 24 else to 0.
Definition uri_case_24 (c : Z) : jump uri_action :=
  if c =? 46 then to 20
  else if (48 <=? c) && (c <=? 57) then to 19 else to 0.
Definition uri_case_25 (c : Z) : jump uri_action :=
  if c =? 46 then to 20
  else if c =? 53 then to 26
  else if (48 <=? c) && (c <=? 57) then to 19 else to 0.
Definition uri_case_26 (c : Z) : jump uri_action :=
  if c =? 46 then to 20
  else if (48 <=? c) && (c <=? 53) then to 19 else to 0.
Definition uri_case_27 (c : Z) : jump uri_action :=
  if c =? 46 then to 16
  else if (48 <=? c) && (c <=? 57) then to 28 else to 0.
Definition uri_case_28 (c : Z) : jump uri_action :=
  if c =? 46 then to 16
  else if (48 <=? c) && (c <=? 57) then to 15 else to 0.
Definition uri_case_29 (c : Z) : jump uri_action :=
  if c =? 46 then to 16
  else if c =? 53 then to 30
  else if (48 <=? c) && (c <=? 57) then to 15 else to 0.
Definition uri_case_30 (c : Z) : jump uri_action :=
  if c =? 46 then to 16
  else if (48 <=? c) && (c <=? 53) then to 15 else to 0.
Definition uri_case_31 (c : Z) : jump uri_action :=
  if c <? 65 then (if (48 <=? c) && (c <=? 57) then to 32 else to 0)
  else if 70 <? c then (if (97 <=? c) && (c <=? 102) then to 32 else to 0)
  else to 32.
Definition uri_case_32 (c : Z) : jump uri_action :=
  if c <? 65 then (if (48 <=? c) && (c <=? 57) then to 467 else to 0)
  else if 70 <? c then (if (97 <=? c) && (c <=? 102) then to 467 else to 0)
  else to 467.
Definition uri_case_33 (c : Z) : jump uri_action :=
  if c =? 33 then to 33
  else if c =? 37 then to 34
  else if c =? 61 then to 33
  else if c =? 64 then uri_ctr_38
  else if c =? 95 then to 33
  else if c =? 126 then to 33
  else if c <? 48 then (if (36 <=? c) && (c <=? 46) then to 33 else to 0)
  else if 59 <? c then (if 90 <? c then (if (97 <=? c) && (c <=? 122) then to 33 else to 0)
    else if 65 <=? c then to 33 else to 0)
  else to 33.
Definition uri_case_34 (c : Z) : jump uri_action :=
  if c <? 65 then (if (48 <=? c) && (c <=? 57) then to 35 else to 0)
  else if 70 <? c then (if (97 <=? c) && (c <=? 102) then to 35 else to 0)
  else to 35.
Definition uri_case_35 (c : Z) : jump uri_action :=
  if c <? 65 then (if (48 <=? c) && (c <=? 57) then to 33 else to 0)
  else if 70 <? c then (if (97 <=? c) && (c <=? 102) then to 33 else to 0)
  else to 33.
Definition uri_case_36 (c : Z) : jump uri_action :=
  if c <? 65 then (if (48 <=? c) && (c <=? 57) then to 37 else to 0)
  else if 70 <? c then (if (97 <=? c) && (c <=? 102) then to 37 else to 0)
  else to 37.
Definition uri_case_37 (c : Z) : jump uri_action :=
  if c <? 65 then (if (48 <=? c) && (c <=? 57) then to 470 else to 0)
  else if 70 <? c then (if (97 <=? c) && (c <=? 102) then to 470 else to 0)
  else to 470.
Definition uri_case_38 (c : Z) : jump uri_action :=
  if c =? 58 then to 146
  else if c =? 118 then to 225
  else if c <? 65 then (if (48 <=? c) && (c <=? 57) then to 39 else to 0)
  else if 70 <? c then (if (97 <=? c) && (c <=? 102) then to 39 else to 0)
  else to 39.
Definition uri_case_39 (c : Z) : jump uri_action :=
  if c =? 58 then to 43
  else if c <? 65 then (if (48 <=? c) && (c <=? 57) then to 40 else to 0)
  else if 70 <? c then (if (97 <=? c) && (c <=? 102) then to 40 else to 0)
  else to 40.
Definition uri_case_40 (c : Z) : jump uri_action :=
  if c =? 58 then to 43
  else if c <? 65 then (if (48 <=? c) && (c <=? 57) then to 41 else to 0)
  else if 70 <? c then (if (97 <=? c) && (c <=? 102) then to 41 else to 0)
  else to 41.
Definition uri_case_41 (c : Z) : jump uri_action :=
  if c =? 58 then to 43
  else if c <? 65 then (if (48 <=? c) && (c <=? 57) then to 42 else to 0)
  else if 70 <? c then (if (97 <=? c) && (c <=? 102) then to 42 else to 0)
  else to 42.
Definition uri_case_42 (c : Z) : jump uri_action :=
  if c =? 58 then to 43 else to 0.
Definition uri_case_43 (c : Z) : jump uri_action :=
  if c =? 58 then to 141
  else if c <? 65 then (if (48 <=? c) && (c <=? 57) then to 44 else to 0)
  else if 70 <? c then (if (97 <=? c) && (c <=? 102) then to 44 else to 0)
  else to 44.
Definition uri_case_44 (c : Z) : jump uri_action :=
  if c =? 58 then to 48
  else if c <? 65 then (if (48 <=? c) && (c <=? 57) then to 45 else to 0)
  else if 70 <? c then (if (97 <=? c) && (c <=? 102) then to 45 else to 0)
  else to 45.
Definition uri_case_45 (c : Z) : jump uri_action :=
  if c =? 58 then to 48
  else if c <? 65 then (if (48 <=? c) && (c <=? 57) then to 46 else to 0)
  else if 70 <? c then (if (97 <=? c) && (c <=? 102) then to 46 else to 0)
  else to 46.
Definition uri_case_46 (c : Z) : jump uri_action :=
  if c =? 58 then to 48
  else if c <? 65 then (if (48 <=? c) && (c <=? 57) then to 47 else to 0)
  else if 70 <? c then (if (97 <=? c) && (c <=? 102) then to 47 else to 0)
  else to 47.
Definition uri_case_47 (c : Z) : jump uri_action :=
  if c =? 58 then to 48 else to 0.
Definition uri_case_48 (c : Z) : jump uri_action :=
  if c =? 58 then to 136
  else if c <? 65 then (if (48 <=? c) && (c <=? 57) then to 49 else to 0)
  else if 70 <? c then (if (97 <=? c) && (c <=? 102) then to 49 else to 0)
  else to 49.
Definition uri_case_49 (c : Z) : jump uri_action :=
  if c =? 58 then to 53
  else if c <? 65 then (if (48 <=? c) && (c <=? 57) then to 50 else to 0)
  else if 70 <? c then (if (97 <=? c) && (c <=? 102) then to 50 else to 0)
  else to 50.
Definition uri_case_50 (c : Z) : jump uri_action :=
  if c =? 58 then to 53
  else if c <? 65 then (if (48 <=? c) && (c <=? 57) then to 51 else to 0)
  else if 70 <? c then (if (97 <=? c) && (c <=? 102) then to 51 else to 0)
  else to 51.
Definition uri_case_51 (c : Z) : jump uri_action :=
  if c =? 58 then to 53
  else if c <? 65 then (if (48 <=? c) && (c <=? 57) then to 52 else to 0)
  else if 70 <? c then (if (97 <=? c) && (c <=? 102) then to 52 else to 0)
  else to 52.
Definition uri_case_52 (c : Z) : jump uri_action :=
  if c =? 58 then to 53 else to 0.
Definition uri_case_53 (c : Z) : jump uri_action :=
  if c =? 58 then to 131
  else if c <? 65 then (if (48 <=? c) && (c <=? 57) then to 54 else to 0)
  else if 70 <? c then (if (97 <=? c) && (c <=? 102) then to 54 else to 0)
  else to 54.
Definition uri_case_54 (c : Z) : jump uri_action :=
  if c =? 58 then to 58
  else if c <? 65 then (if (48 <=? c) && (c <=? 57) then to 55 else to 0)
  else if 70 <? c then (if (97 <=? c) && (c <=? 102) then to 55 else to 0)
  else to 55.
Definition uri_case_55 (c : Z) : jump uri_action :=
  if c =? 58 then to 58
  else if c <? 65 then (if (48 <=? c) && (c <=? 57) then to 56 else to 0)
  else if 70 <? c then (if (97 <=? c) && (c <=? 102) then to 56 else to 0)
  else to 56.
Definition uri_case_56 (c : Z) : jump uri_action :=
  if c =? 58 then to 58
  else if c <? 65 then (if (48 <=? c) && (c <=? 57) then to 57 else to 0)
  else if 70 <? c then (if (97 <=? c) && (c <=? 102) then to 57 else to 0)
  else to 57.
Definition uri_case_57 (c : Z) : jump uri_action :=
  if c =? 58 then to 58 else to 0.
Definition uri_case_58 (c : Z) : jump uri_action :=
  if c =? 58 then to 126
  else if c <? 65 then (if (48 <=? c) && (c <=? 57) then to 59 else to 0)
  else if 70 <? c then (if (97 <=? c) && (c <=? 102) then to 59 else to 0)
  else to 59.
Definition uri_case_59 (c : Z) : jump uri_action :=
  if c =? 58 then to 63
  else if c <? 65 then (if (48 <=? c) && (c <=? 57) then to 60 else to 0)
  else if 70 <? c then (if (97 <=? c) && (c <=? 102) then to 60 else to 0)
  else to 60.
Definition uri_case_60 (c : Z) : jump uri_action :=
  if c =? 58 then to 63
  else if c <? 65 then (if (48 <=? c) && (c <=? 57) then to 61 else to 0)
  else if 70 <? c then (if (97 <=? c) && (c <=? 102) then to 61 else to 0)
  else to 61.
Definition uri_case_61 (c : Z) : jump uri_action :=
  if c =? 58 then to 63
  else if c <? 65 then (if (48 <=? c) && (c <=? 57) then to 62 else to 0)
  else if 70 <? c then (if (97 <=? c) && (c <=? 102) then to 62 else to 0)
  else to 62.
Definition uri_case_62 (c : Z) : jump uri_action :=
  if c =? 58 then to 63 else to 0.
Definition uri_case_63 (c : Z) : jump uri_action :=
  if c =? 58 then to 113
  else if c <? 65 then (if (48 <=? c) && (c <=? 57) then to 64 else to 0)
  else if 70 <? c then (if (97 <=? c) && (c <=? 102) then to 64 else to 0)
  else to 64.
Definition uri_case_64 (c : Z) : jump uri_action :=
  if c =? 58 then to 68
  else if c <? 65 then (if (48 <=? c) && (c <=? 57) then to 65 else to 0)
  else if 70 <? c then (if (97 <=? c) && (c <=? 102) then to 65 else to 0)
  else to 65.
Definition uri_case_65 (c : Z) : jump uri_action :=
  if c =? 58 then to 68
  else if c <? 65 then (if (48 <=? c) && (c <=? 57) then to 66 else to 0)
  else if 70 <? c then (if (97 <=? c) && (c <=? 102) then to 66 else to 0)
  else to 66.
Definition uri_case_66 (c : Z) : jump uri_action :=
  if c =? 58 then to 68
  else if c <? 65 then (if (48 <=? c) && (c <=? 57) then to 67 else to 0)
  else if 70 <? c then (if (97 <=? c) && (c <=? 102) then to 67 else to 0)
  else to 67.
Definition uri_case_67 (c : Z) : jump uri_action :=
  if c =? 58 then to 68 else to 0.
Definition uri_case_68 (c : Z) : jump uri_action :=
  if c =? 2 then to 69
  else if c =? 48 then to 96
  else if c =? 49 then to 104
  else if c =? 50 then to 107
  else if c =? 58 then to 111
  else if c <? 65 then (if (51 <=? c) && (c <=? 57) then to 110 else to 0)
  else if 70 <? c then (if (97 <=? c) && (c <=? 102) then to 112 else to 0)
  else to 112.
Definition uri_case_69 (c : Z) : jump uri_action :=
  if (48 <=? c) && (c <=? 52) then to 70 else to 0.
Definition uri_case_70 (c : Z) : jump uri_action :=
  if (48 <=? c) && (c <=? 57) then to 71 else to 0.
Definition uri_case_71 (c : Z) : jump uri_action :=
  if c =? 46 then to 72 else to 0.
Definition uri_case_72 (c : Z) : jump uri_action :=
  if c =? 2 then to 73
  else if c =? 48 then to 75
  else if c =? 49 then to 92
  else if c =? 50 then to 94
  else if (51 <=? c) && (c <=? 57) then to 93 else to 0.
Definition uri_case_73 (c : Z) : jump uri_action :=
  if (48 <=? c) && (c <=? 52) then to 74 else to 0.
Definition uri_case_74 (c : Z) : jump uri_action :=
  if (48 <=? c) && (c <=? 57) then to 75 else to 0.
Definition uri_case_75 (c : Z) : jump uri_action :=
  if c =? 46 then to 76 else to 0.
Definition uri_case_76 (c : Z) : jump uri_action :=
  if c =? 2 then to 77
  else if c =? 48 then to 79
  else if c =? 49 then to 88
  else if c =? 50 then to 90
  else if (51 <=? c) && (c <=? 57) then to 89 else to 0.
Definition uri_case_77 (c : Z) : jump uri_action :=
  if (48 <=? c) && (c <=? 52) then to 78 else to 0.
Definition uri_case_78 (c : Z) : jump uri_action :=
  if (48 <=? c) && (c <=? 57) then to 79 else to 0.
Definition uri_case_79 (c : Z) : jump uri_action :=
  if c =? 46 then to 80 else to 0.
Definition uri_case_80 (c : Z) : jump uri_action :=
  if c =? 2 then to 81
  else if c =? 48 then to 83
  else if c =? 49 then to 84
  else if c =? 50 then to 86
  else if (51 <=? c) && (c <=? 57) then to 85 else to 0.
Definition uri_case_81 (c : Z) : jump uri_action :=
  if (48 <=? c) && (c <=? 52) then to 82 else to 0.
Definition uri_case_82 (c : Z) : jump uri_action :=
  if (48 <=? c) && (c <=? 57) then to 83 else to 0.
Definition uri_case_83 (c : Z) : jump uri_action :=
  if c =? 93 then to 460 else to 0.
Definition uri_case_84 (c : Z) : jump uri_action :=
  if c =? 93 then to 460
  else if (48 <=? c) && (c <=? 57) then to 85 else to 0.
Definition uri_case_85 (c : Z) : jump uri_action :=
  if c =? 93 then to 460
  else if (48 <=? c) && (c <=? 57) then to 83 else to 0.
Definition uri_case_86 (c : Z) : jump uri_action :=
  if c =? 53 then to 87
  else if c =? 93 then to 460
  else if (48 <=? c) && (c <=? 57) then to 83 else to 0.
Definition uri_case_87 (c : Z) : jump uri_action :=
  if c =? 93 then to 460
  else if (48 <=? c) && (c <=? 53) then to 83 else to 0.
Definition uri_case_88 (c : Z) : jump uri_action :=
  if c =? 46 then to 80
  else if (48 <=? c) && (c <=? 57) then to 89 else to 0.
Definition uri_case_89 (c : Z) : jump uri_action :=
  if c =? 46 then to 80
  else if (48 <=? c) && (c <=? 57) then to 79 else to 0.
Definition uri_case_90 (c : Z) : jump uri_action :=
  if c =? 46 then to 80
  else if c =? 53 then to 91
  else if (48 <=? c) && (c <=? 57) then to 79 else to 0.
Definition uri_case_91 (c : Z) : jump uri_action :=
  if c =? 46 then to 80
  else if (48 <=? c) && (c <=? 53) then to 79 else to 0.
Definition uri_case_92 (c : Z) : jump uri_action :=
  if c =? 46 then to 76
  else if (48 <=? c) && (c <=? 57) then to 93 else to 0.
Definition uri_case_93 (c : Z) : jump uri_action :=
  if c =? 46 then to 76
  else if (48 <=? c) && (c <=? 57) then to 75 else to 0.
Definition uri_case_94 (c : Z) : jump uri_action :=
  if c =? 46 then to 76
  else if c =? 53 then to 95
  else if (48 <=? c) && (c <=? 57) then to 75 else to 0.
Definition uri_case_95 (c : Z) : jump uri_action :=
  if c =? 46 then to 76
  else if (48 <=? c) && (c <=? 53) then to 75 else to 0.
Definition uri_case_96 (c : Z) : jump uri_action :=
  if c =? 46 then to 72
  else if c =? 58 then to 100
  else if c <? 65 then (if (48 <=? c) && (c <=? 57) then to 97 else to 0)
  else if 70 <? c then (if (97 <=? c) && (c <=? 102) then to 97 else to 0)
  else to 97.
Definition uri_case_97 (c : Z) : jump uri_action :=
  if c =? 58 then to 100
  else if c <? 65 then (if (48 <=? c) && (c <=? 57) then to 98 else to 0)
  else if 70 <? c then (if (97 <=? c) && (c <=? 102) then to 98 else to 0)
  else to 98.
Definition uri_case_98 (c : Z) : jump uri_action :=
  if c =? 58 then to 100
  else if c <? 65 then (if (48 <=? c) && (c <=? 57) then to 99 else to 0)
  else if 70 <? c then (if (97 <=? c) && (c <=? 102) then to 99 else to 0)
  else to 99.
Definition uri_case_99 (c : Z) : jump uri_action :=
  if c =? 58 then to 100 else to 0.
Definition uri_case_100 (c : Z) : jump uri_action :=
  if c =? 58 then to 83
  else if c <? 65 then (if (48 <=? c) && (c <=? 57) then to 101 else to 0)
  else if 70 <? c then (if (97 <=? c) && (c <=? 102) then to 101 else to 0)
  else to 101.
Definition uri_case_101 (c : Z) : jump uri_action :=
  if c =? 93 then to 460
  else if c <? 65 then (if (48 <=? c) && (c <=? 57) then to 102 else to 0)
  else if 70 <? c then (if (97 <=? c) && (c <=? 102) then to 102 else to 0)
  else to 102.
Definition uri_case_102 (c : Z) : jump uri_action :=
  if c =? 93 then to 460
  else if c <? 65 then (if (48 <=? c) && (c <=? 57) then to 103 else to 0)
  else if 70 <? c then (if (97 <=? c) && (c <=? 102) then to 103 else to 0)
  else to 103.
Definition uri_case_103 (c : Z) : jump uri_action :=
  if c =? 93 then to 460
  else if c <? 65 then (if (48 <=? c) && (c <=? 57) then to 83 else to 0)
  else if 70 <? c then (if (97 <=? c) && (c <=? 102) then to 83 else to 0)
  else to 83.
Definition uri_case_104 (c : Z) : jump uri_action :=
  if c =? 46 then to 72
  else if c =? 58 then to 100
  else if c <? 65 then (if (48 <=? c) && (c <=? 57) then to 105 else to 0)
  else if 70 <? c then (if (97 <=? c) && (c <=? 102) then to 97 else to 0)
  else to 97.
Definition uri_case_105 (c : Z) : jump uri_action :=
  if c =? 46 then to 72
  else if c =? 58 then to 100
  else if c <? 65 then (if (48 <=? c) && (c <=? 57) then to 106 else to 0)
  else if 70 <? c then (if (97 <=? c) && (c <=? 102) then to 98 else to 0)
  else to 98.
Definition uri_case_106 (c : Z) : jump uri_action :=
  if c =? 46 then to 72
  else if c =? 58 then to 100
  else if c <? 65 then (if (48 <=? c) && (c <=? 57) then to 99 else to 0)
  else if 70 <? c then (if (97 <=? c) && (c <=? 102) then to 99 else to 0)
  else to 99.
Definition uri_case_107 (c : Z) : jump uri_action :=
  if c =? 46 then to 72
  else if c =? 53 then to 109
  else if c =? 58 then to 100
  else if c <? 65 then (if (48 <=? c) && (c <=? 57) then to 108 else to 0)
  else if 70 <? c then (if (97 <=? c) && (c <=? 102) then to 97 else to 0)
  else to 97.
Definition uri_case_108 (c : Z) : jump uri_action :=
  if c =? 46 then to 72
  else if c =? 58 then to 100
  else if c <? 65 then (if (48 <=? c) && (c <=? 57) then to 98 else to 0)
  else if 70 <? c then (if (97 <=? c) && (c <=? 102) then to 98 else to 0)
  else to 98.
Definition uri_case_109 (c : Z) : jump uri_action :=
  if c =? 46 then to 72
  else if c =? 58 then to 100
  else if c <? 54 then (if 48 <=? c then to 106 else to 0)
  else if 57 <? c then (if 70 <? c then (if (97 <=? c) && (c <=? 102) then to 98 else to 0)
    else if 65 <=? c then to 98 else to 0)
  else to 98.
Definition uri_case_110 (c : Z) : jump uri_action :=
  if c =? 46 then to 72
  else if c =? 58 then to 100
  else if c <? 65 then (if (48 <=? c) && (c <=? 57) then to 108 else to 0)
  else if 70 <? c then (if (97 <=? c) && (c <=? 102) then to 97 else to 0)
  else to 97.
Definition uri_case_111 (c : Z) : jump uri_action :=
  if c <? 65 then (if (48 <=? c) && (c <=? 57) then to 101 else to 0)
  else if 70 <? c then (if (97 <=? c) && (c <=? 102) then to 101 else to 0)
  else to 101.
Definition uri_case_112 (c : Z) : jump uri_action :=
  if c =? 58 then to 100
  else if c <? 65 then (if (48 <=? c) && (c <=? 57) then to 97 else to 0)
  else if 70 <? c then (if (97 <=? c) && (c <=? 102) then to 97 else to 0)
  else to 97.
Definition uri_case_113 (c : Z) : jump uri_action :=
  if c =? 2 then to 69
  else if c =? 48 then to 114
  else if c =? 49 then to 118
  else if c =? 50 then to 121
  else if c <? 65 then (if (51 <=? c) && (c <=? 57) then to 124 else to 0)
  else if 70 <? c then (if (97 <=? c) && (c <=? 102) then to 125 else to 0)
  else to 125.
Definition uri_case_114 (c : Z) : jump uri_action :=
  if c =? 46 then to 72
  else if c =? 58 then to 111
  else if c <? 65 then (if (48 <=? c) && (c <=? 57) then to 115 else to 0)
  else if 70 <? c then (if (97 <=? c) && (c <=? 102) then to 115 else to 0)
  else to 115.
Definition uri_case_115 (c : Z) : jump uri_action :=
  if c =? 58 then to 111
  else if c <? 65 then (if (48 <=? c) && (c <=? 57) then to 116 else to 0)
  else if 70 <? c then (if (97 <=? c) && (c <=? 102) then to 116 else to 0)
  else to 116.
Definition uri_case_116 (c : Z) : jump uri_action :=
  if c =? 58 then to 111
  else if c <? 65 then (if (48 <=? c) && (c <=? 57) then to 117 else to 0)
  else if 70 <? c then (if (97 <=? c) && (c <=? 102) then to 117 else to 0)
  else to 117.
Definition uri_case_117 (c : Z) : jump uri_action :=
  if c =? 58 then to 111 else to 0.
Definition uri_case_118 (c : Z) : jump uri_action :=
  if c =? 46 then to 72
  else if c =? 58 then to 111
  else if c <? 65 then (if (48 <=? c) && (c <=? 57) then to 119 else to 0)
  else if 70 <? c then (if (97 <=? c) && (c <=? 102) then to 115 else to 0)
  else to 115.
Definition uri_case_119 (c : Z) : jump uri_action :=
  if c =? 46 then to 72
  else if c =? 58 then to 111
  else if c <? 65 then (if (48 <=? c) && (c <=? 57) then to 120 else to 0)
  else if 70 <? c then (if (97 <=? c) && (c <=? 102) then to 116 else to 0)
  else to 116.
Definition uri_case_120 (c : Z) : jump uri_action :=
  if c =? 46 then to 72
  else if c =? 58 then to 111
  else if c <? 65 then (if (48 <=? c) && (c <=? 57) then to 117 else to 0)
  else if 70 <? c then (if (97 <=? c) && (c <=? 102) then to 117 else to 0)
  else to 117.
Definition uri_case_121 (c : Z) : jump uri_action :=
  if c =? 46 then to 72
  else if c =? 53 then to 123
  else if c =? 58 then to 111
  else if c <? 65 then (if (48 <=? c) && (c <=? 57) then to 122 else to 0)
  else if 70 <? c then (if (97 <=? c) && (c <=? 102) then to 115 else to 0)
  else to 115.
Definition uri_case_122 (c : Z) : jump uri_action :=
  if c =? 46 then to 72
  else if c =? 58 then to 111
  else if c <? 65 then (if (48 <=? c) && (c <=? 57) then to 116 else to 0)
  else if 70 <? c then (if (97 <=? c) && (c <=? 102) then to 116 else to 0)
  else to 116.
Definition uri_case_123 (c : Z) : jump uri_action :=
  if c =? 46 then to 72
  else if c =? 58 then to 111
  else if c <? 54 then (if 48 <=? c then to 120 else to 0)
  else if 57 <? c then (if 70 <? c then (if (97 <=? c) && (c <=? 102) then to 116 else to 0)
    else if 65 <=? c then to 116 else to 0)
  else to 116.
Definition uri_case_124 (c : Z) : jump uri_action :=
  if c =? 46 then to 72
  else if c =? 58 then to 111
  else if c <? 65 then (if (48 <=? c) && (c <=? 57) then to 122 else to 0)
  else if 70 <? c then (if (97 <=? c) && (c <=? 102) then to 115 else to 0)
  else to 115.
Definition uri_case_125 (c : Z) : jump uri_action :=
  if c =? 58 then to 111
  else if c <? 65 then (if (48 <=? c) && (c <=? 57) then to 115 else to 0)
  else if 70 <? c then (if (97 <=? c) && (c <=? 102) then to 115 else to 0)
  else to 115.
Definition uri_case_126 (c : Z) : jump uri_action :=
  if c <? 65 then (if (48 <=? c) && (c <=? 57) then to 127 else to 0)
  else if 70 <? c then (if (97 <=? c) && (c <=? 102) then to 127 else to 0)
  else to 127.
Definition uri_case_127 (c : Z) : jump uri_action :=
  if c =? 58 then to 113
  else if c <? 65 then (if (48 <=? c) && (c <=? 57) then to 128 else to 0)
  else if 70 <? c then (if (97 <=? c) && (c <=? 102) then to 128 else to 0)
  else to 128.
Definition uri_case_128 (c : Z) : jump uri_action :=
  if c =? 58 then to 113
  else if c <? 65 then (if (48 <=? c) && (c <=? 57) then to 129 else to 0)
  else if 70 <? c then (if (97 <=? c) && (c <=? 102) then to 129 else to 0)
  else to 129.
Definition uri_case_129 (c : Z) : jump uri_action :=
  if c =? 58 then to 113
  else if c <? 65 then (if (48 <=? c) && (c <=? 57) then to 130 else to 0)
  else if 70 <? c then (if (97 <=? c) && (c <=? 102) then to 130 else to 0)
  else to 130.
Definition uri_case_130 (c : Z) : jump uri_action :=
  if c =? 58 then to 113 else to 0.
Definition uri_case_131 (c : Z) : jump uri_action :=
  if c <? 65 then (if (48 <=? c) && (c <=? 57) then to 132 else to 0)
  else if 70 <? c then (if (97 <=? c) && (c <=? 102) then to 132 else to 0)
  else to 132.
Definition uri_case_132 (c : Z) : jump uri_action :=
  if c =? 58 then to 126
  else if c <? 65 then (if (48 <=? c) && (c <=? 57) then to 133 else to 0)
  else if 70 <? c then (if (97 <=? c) && (c <=? 102) then to 133 else to 0)
  else to 133.
Definition uri_case_133 (c : Z) : jump uri_action :=
  if c =? 58 then to 126
  else if c <? 65 then (if (48 <=? c) && (c <=? 57) then to 134 else to 0)
  else if 70 <? c then (if (97 <=? c) && (c <=? 102) then to 134 else to 0)
  else to 134.
Definition uri_case_134 (c : Z) : jump uri_action :=
  if c =? 58 then to 126
  else if c <? 65 then (if (48 <=? c) && (c <=? 57) then to 135 else to 0)
  else if 70 <? c then (if (97 <=? c) && (c <=? 102) then to 135 else to 0)
  else to 135.
Definition uri_case_135 (c : Z) : jump uri_action :=
  if c =? 58 then to 126 else to 0.
Definition uri_case_136 (c : Z) : jump uri_action :=
  if c <? 65 then (if (48 <=? c) && (c <=? 57) then to 137 else to 0)
  else if 70 <? c then (if (97 <=? c) && (c <=? 102) then to 137 else to 0)
  else to 137.
Definition uri_case_137 (c : Z) : jump uri_action :=
  if c =? 58 then to 131
  else if c <? 65 then (if (48 <=? c) && (c <=? 57) then to 138 else to 0)
  else if 70 <? c then (if (97 <=? c) && (c <=? 102) then to 138 else to 0)
  else to 138.
Definition uri_case_138 (c : Z) : jump uri_action :=
  if c =? 58 then to 131
  else if c <? 65 then (if (48 <=? c) && (c <=? 57) then to 139 else to 0)
  else if 70 <? c then (if (97 <=? c) && (c <=? 102) then to 139 else to 0)
  else to 139.
Definition uri_case_139 (c : Z) : jump uri_action :=
  if c =? 58 then to 131
  else if c <? 65 then (if (48 <=? c) && (c <=? 57) then to 140 else to 0)
  else if 70 <? c then (if (97 <=? c) && (c <=? 102) then to 140 else to 0)
  else to 140.
Definition uri_case_140 (c : Z) : jump uri_action :=
  if c =? 58 then to 131 else to 0.
Definition uri_case_141 (c : Z) : jump uri_action :=
  if c <? 65 then (if (48 <=? c) && (c <=? 57) then to 142 else to 0)
  else if 70 <? c then (if (97 <=? c) && (c <=? 102) then to 142 else to 0)
  else to 142.
Definition uri_case_142 (c : Z) : jump uri_action :=
  if c =? 58 then to 136
  else if c <? 65 then (if (48 <=? c) && (c <=? 57) then to 143 else to 0)
  else if 70 <? c then (if (97 <=? c) && (c <=? 102) then to 143 else to 0)
  else to 143.
Definition uri_case_143 (c : Z) : jump uri_action :=
  if c =? 58 then to 136
  else if c <? 65 then (if (48 <=? c) && (c <=? 57) then to 144 else to 0)
  else if 70 <? c then (if (97 <=? c) && (c <=? 102) then to 144 else to 0)
  else to 144.
Definition uri_case_144 (c : Z) : jump uri_action :=
  if c =? 58 then to 136
  else if c <? 65 then (if (48 <=? c) && (c <=? 57) then to 145 else to 0)
  else if 70 <? c then (if (97 <=? c) && (c <=? 102) then to 145 else to 0)
  else to 145.
Definition uri_case_145 (c : Z) : jump uri_action :=
  if c =? 58 then to 136 else to 0.
Definition uri_case_146 (c : Z) : jump uri_action :=
  if c =? 58 then to 147 else to 0.
Definition uri_case_147 (c : Z) : jump uri_action :=
  if c =? 2 then to 69
  else if c =? 48 then to 148
  else if c =? 49 then to 217
  else if c =? 50 then to 220
  else if c =? 93 then to 460
  else if c <? 65 then (if (51 <=? c) && (c <=? 57) then to 223 else to 0)
  else if 70 <? c then (if (97 <=? c) && (c <=? 102) then to 224 else to 0)
  else to 224.
Definition uri_case_148 (c : Z) : jump uri_action :=
  if c =? 46 then to 72
  else if c =? 58 then to 152
  else if c =? 93 then to 460
  else if c <? 65 then (if (48 <=? c) && (c <=? 57) then to 149 else to 0)
  else if 70 <? c then (if (97 <=? c) && (c <=? 102) then to 149 else to 0)
  else to 149.
Definition uri_case_149 (c : Z) : jump uri_action :=
  if c =? 58 then to 152
  else if c =? 93 then to 460
  else if c <? 65 then (if (48 <=? c) && (c <=? 57) then to 150 else to 0)
  else if 70 <? c then (if (97 <=? c) && (c <=? 102) then to 150 else to 0)
  else to 150.
Definition uri_case_150 (c : Z) : jump uri_action :=
  if c =? 58 then to 152
  else if c =? 93 then to 460
  else if c <? 65 then (if (48 <=? c) && (c <=? 57) then to 151 else to 0)
  else if 70 <? c then (if (97 <=? c) && (c <=? 102) then to 151 else to 0)
  else to 151.
Definition uri_case_151 (c : Z) : jump uri_action :=
  if c =? 58 then to 152
  else if c =? 93 then to 460 else to 0.
Definition uri_case_152 (c : Z) : jump uri_action :=
  if c =? 2 then to 69
  else if c =? 48 then to 153
  else if c =? 49 then to 209
  else if c =? 50 then to 212
  else if c <? 65 then (if (51 <=? c) && (c <=? 57) then to 215 else to 0)
  else if 70 <? c then (if (97 <=? c) && (c <=? 102) then to 216 else to 0)
  else to 216.
Definition uri_case_153 (c : Z) : jump uri_action :=
  if c =? 46 then to 72
  else if c =? 58 then to 157
  else if c =? 93 then to 460
  else if c <? 65 then (if (48 <=? c) && (c <=? 57) then to 154 else to 0)
  else if 70 <? c then (if (97 <=? c) && (c <=? 102) then to 154 else to 0)
  else to 154.
Definition uri_case_154 (c : Z) : jump uri_action :=
  if c =? 58 then to 157
  else if c =? 93 then to 460
  else if c <? 65 then (if (48 <=? c) && (c <=? 57) then to 155 else to 0)
  else if 70 <? c then (if (97 <=? c) && (c <=? 102) then to 155 else to 0)
  else to 155.
Definition uri_case_155 (c : Z) : jump uri_action :=
  if c =? 58 then to 157
  else if c =? 93 then to 460
  else if c <? 65 then (if (48 <=? c) && (c <=? 57) then to 156 else to 0)
  else if 70 <? c then (if (97 <=? c) && (c <=? 102) then to 156 else to 0)
  else to 156.
Definition uri_case_156 (c : Z) : jump uri_action :=
  if c =? 58 then to 157
  else if c =? 93 then to 460 else to 0.
Definition uri_case_157 (c : Z) : jump uri_action :=
  if c =? 2 then to 69
  else if c =? 48 then to 158
  else if c =? 49 then to 201
  else if c =? 50 then to 204
  else if c <? 65 then (if (51 <=? c) && (c <=? 57) then to 207 else to 0)
  else if 70 <? c then (if (97 <=? c) && (c <=? 102) then to 208 else to 0)
  else to 208.
Definition uri_case_158 (c : Z) : jump uri_action :=
  if c =? 46 then to 72
  else if c =? 58 then to 162
  else if c =? 93 then to 460
  else if c <? 65 then (if (48 <=? c) && (c <=? 57) then to 159 else to 0)
  else if 70 <? c then (if (97 <=? c) && (c <=? 102) then to 159 else to 0)
  else to 159.
Definition uri_case_159 (c : Z) : jump uri_action :=
  if c =? 58 then to 162
  else if c =? 93 then to 460
  else if c <? 65 then (if (48 <=? c) && (c <=? 57) then to 160 else to 0)
  else if 70 <? c then (if (97 <=? c) && (c <=? 102) then to 160 else to 0)
  else to 160.
Definition uri_case_160 (c : Z) : jump uri_action :=
  if c =? 58 then to 162
  else if c =? 93 then to 460
  else if c <? 65 then (if (48 <=? c) && (c <=? 57) then to 161 else to 0)
  else if 70 <? c then (if (97 <=? c) && (c <=? 102) then to 161 else to 0)
  else to 161.
Definition uri_case_161 (c : Z) : jump uri_action :=
  if c =? 58 then to 162
  else if c =? 93 then to 460 else to 0.
Definition uri_case_162 (c : Z) : jump uri_action :=
  if c =? 2 then to 69
  else if c =? 48 then to 163
  else if c =? 49 then to 193
  else if c =? 50 then to 196
  else if c <? 65 then (if (51 <=? c) && (c <=? 57) then to 199 else to 0)
  else if 70 <? c then (if (97 <=? c) && (c <=? 102) then to 200 else to 0)
  else to 200.
Definition uri_case_163 (c : Z) : jump uri_action :=
  if c =? 46 then to 72
  else if c =? 58 then to 167
  else if c =? 93 then to 460
  else if c <? 65 then (if (48 <=? c) && (c <=? 57) then to 164 else to 0)
  else if 70 <? c then (if (97 <=? c) && (c <=? 102) then to 164 else to 0)
  else to 164.
Definition uri_case_164 (c : Z) : jump uri_action :=
  if c =? 58 then to 167
  else if c =? 93 then to 460
  else if c <? 65 then (if (48 <=? c) && (c <=? 57) then to 165 else to 0)
  else if 70 <? c then (if (97 <=? c) && (c <=? 102) then to 165 else to 0)
  else to 165.
Definition uri_case_165 (c : Z) : jump uri_action :=
  if c =? 58 then to 167
  else if c =? 93 then to 460
  else if c <? 65 then (if (48 <=? c) && (c <=? 57) then to 166 else to 0)
  else if 70 <? c then (if (97 <=? c) && (c <=? 102) then to 166 else to 0)
  else to 166.
Definition uri_case_166 (c : Z) : jump uri_action :=
  if c =? 58 then to 167
  else if c =? 93 then to 460 else to 0.
Definition uri_case_167 (c : Z) : jump uri_action :=
  if c =? 2 then to 69
  else if c =? 48 then to 168
  else if c =? 49 then to 185
  else if c =? 50 then to 188
  else if c <? 65 then (if (51 <=? c) && (c <=? 57) then to 191 else to 0)
  else if 70 <? c then (if (97 <=? c) && (c <=? 102) then to 192 else to 0)
  else to 192.
Definition uri_case_168 (c : Z) : jump uri_action :=
  if c =? 46 then to 72
  else if c =? 58 then to 172
  else if c =? 93 then to 460
  else if c <? 65 then (if (48 <=? c) && (c <=? 57) then to 169 else to 0)
  else if 70 <? c then (if (97 <=? c) && (c <=? 102) then to 169 else to 0)
  else to 169.
Definition uri_case_169 (c : Z) : jump uri_action :=
  if c =? 58 then to 172
  else if c =? 93 then to 460
  else if c <? 65 then (if (48 <=? c) && (c <=? 57) then to 170 else to 0)
  else if 70 <? c then (if (97 <=? c) && (c <=? 102) then to 170 else to 0)
  else to 170.
Definition uri_case_170 (c : Z) : jump uri_action :=
  if c =? 58 then to 172
  else if c =? 93 then to 460
  else if c <? 65 then (if (48 <=? c) && (c <=? 57) then to 171 else to 0)
  else if 70 <? c then (if (97 <=? c) && (c <=? 102) then to 171 else to 0)
  else to 171.
Definition uri_case_171 (c : Z) : jump uri_action :=
  if c =? 58 then to 172
  else if c =? 93 then to 460 else to 0.
Definition uri_case_172 (c : Z) : jump uri_action :=
  if c =? 2 then to 69
  else if c =? 48 then to 173
  else if c =? 49 then to 177
  else if c =? 50 then to 180
  else if c <? 65 then (if (51 <=? c) && (c <=? 57) then to 183 else to 0)
  else if 70 <? c then (if (97 <=? c) && (c <=? 102) then to 184 else to 0)
  else to 184.
Definition uri_case_173 (c : Z) : jump uri_action :=
  if c =? 46 then to 72
  else if c =? 58 then to 111
  else if c =? 93 then to 460
  else if c <? 65 then (if (48 <=? c) && (c <=? 57) then to 174 else to 0)
  else if 70 <? c then (if (97 <=? c) && (c <=? 102) then to 174 else to 0)
  else to 174.
Definition uri_case_174 (c : Z) : jump uri_action :=
  if c =? 58 then to 111
  else if c =? 93 then to 460
  else if c <? 65 then (if (48 <=? c) && (c <=? 57) then to 175 else to 0)
  else if 70 <? c then (if (97 <=? c) && (c <=? 102) then to 175 else to 0)
  else to 175.
Definition uri_case_175 (c : Z) : jump uri_action :=
  if c =? 58 then to 111
  else if c =? 93 then to 460
  else if c <? 65 then (if (48 <=? c) && (c <=? 57) then to 176 else to 0)
  else if 70 <? c then (if (97 <=? c) && (c <=? 102) then to 176 else to 0)
  else to 176.
Definition uri_case_176 (c : Z) : jump uri_action :=
  if c =? 58 then to 111
  else if c =? 93 then to 460 else to 0.
Definition uri_case_177 (c : Z) : jump uri_action :=
  if c =? 46 then to 72
  else if c =? 58 then to 111
  else if c =? 93 then to 460
  else if c <? 65 then (if (48 <=? c) && (c <=? 57) then to 178 else to 0)
  else if 70 <? c then (if (97 <=? c) && (c <=? 102) then to 174 else to 0)
  else to 174.
Definition uri_case_178 (c : Z) : jump uri_action :=
  if c =? 46 then to 72
  else if c =? 58 then to 111
  else if c =? 93 then to 460
  else if c <? 65 then (if (48 <=? c) && (c <=? 57) then to 179 else to 0)
  else if 70 <? c then (if (97 <=? c) && (c <=? 102) then to 175 else to 0)
  else to 175.
Definition uri_case_179 (c : Z) : jump uri_action :=
  if c =? 46 then to 72
  else if c =? 58 then to 111
  else if c =? 93 then to 460
  else if c <? 65 then (if (48 <=? c) && (c <=? 57) then to 176 else to 0)
  else if 70 <? c then (if (97 <=? c) && (c <=? 102) then to 176 else to 0)
  else to 176.
Definition uri_case_180 (c : Z) : jump uri_action :=
  if c =? 46 then to 72
  else if c =? 53 then to 182
  else if c =? 58 then to 111
  else if c =? 93 then to 460
  else if c <? 65 then (if (48 <=? c) && (c <=? 57) then to 181 else to 0)
  else if 70 <? c then (if (97 <=? c) && (c <=? 102) then to 174 else to 0)
  else to 174.
Definition uri_case_181 (c : Z) : jump uri_action :=
  if c =? 46 then to 72
  else if c =? 58 then to 111
  else if c =? 93 then to 460
  else if c <? 65 then (if (48 <=? c) && (c <=? 57) then to 175 else to 0)
  else if 70 <? c then (if (97 <=? c) && (c <=? 102) then to 175 else to 0)
  else to 175.
Definition uri_case_182 (c : Z) : jump uri_action :=
  if c =? 46 then to 72
  else if c =? 58 then to 111
  else if c =? 93 then to 460
  else if c <? 54 then (if 48 <=? c then to 179 else to 0)
  else if 57 <? c then (if 70 <? c then (if (97 <=? c) && (c <=? 102) then to 175 else to 0)
    else if 65 <=? c then to 175 else to 0)
  else to 175.
Definition uri_case_183 (c : Z) : jump uri_action :=
  if c =? 46 then to 72
  else if c =? 58 then to 111
  else if c =? 93 then to 460
  else if c <? 65 then (if (48 <=? c) && (c <=? 57) then to 181 else to 0)
  else if 70 <? c then (if (97 <=? c) && (c <=? 102) then to 174 else to 0)
  else to 174.
Definition uri_case_184 (c : Z) : jump uri_action :=
  if c =? 58 then to 111
  else if c =? 93 then to 460
  else if c <? 65 then (if (48 <=? c) && (c <=? 57) then to 174 else to 0)
  else if 70 <? c then (if (97 <=? c) && (c <=? 102) then to 174 else to 0)
  else to 174.
Definition uri_case_185 (c : Z) : jump uri_action :=
  if c =? 46 then to 72
  else if c =? 58 then to 172
  else if c =? 93 then to 460
  else if c <? 65 then (if (48 <=? c) && (c <=? 57) then to 186 else to 0)
  else if 70 <? c then (if (97 <=? c) && (c <=? 102) then to 169 else to 0)
  else to 169.
Definition uri_case_186 (c : Z) : jump uri_action :=
  if c =? 46 then to 72
  else if c =? 58 then to 172
  else if c =? 93 then to 460
  else if c <? 65 then (if (48 <=? c) && (c <=? 57) then to 187 else to 0)
  else if 70 <? c then (if (97 <=? c) && (c <=? 102) then to 170 else to 0)
  else to 170.
Definition uri_case_187 (c : Z) : jump uri_action :=
  if c =? 46 then to 72
  else if c =? 58 then to 172
  else if c =? 93 then to 460
  else if c <? 65 then (if (48 <=? c) && (c <=? 57) then to 171 else to 0)
  else if 70 <? c then (if (97 <=? c) && (c <=? 102) then to 171 else to 0)
  else to 171.
Definition uri_case_188 (c : Z) : jump uri_action :=
  if c =? 46 then to 72
  else if c =? 53 then to 190
  else if c =? 58 then to 172
  else if c =? 93 then to 460
  else if c <? 65 then (if (48 <=? c) && (c <=? 57) then to 189 else to 0)
  else if 70 <? c then (if (97 <=? c) && (c <=? 102) then to 169 else to 0)
  else to 169.
Definition uri_case_189 (c : Z) : jump uri_action :=
  if c =? 46 then to 72
  else if c =? 58 then to 172
  else if c =? 93 then to 460
  else if c <? 65 then (if (48 <=? c) && (c <=? 57) then to 170 else to 0)
  else if 70 <? c then (if (97 <=? c) && (c <=? 102) then to 170 else to 0)
  else to 170.
Definition uri_case_190 (c : Z) : jump uri_action :=
  if c =? 46 then to 72
  else if c =? 58 then to 172
  else if c =? 93 then to 460
  else if c <? 54 then (if 48 <=? c then to 187 else to 0)
  else if 57 <? c then (if 70 <? c then (if (97 <=? c) && (c <=? 102) then to 170 else to 0)
    else if 65 <=? c then to 170 else to 0)
  else to 170.
Definition uri_case_191 (c : Z) : jump uri_action :=
  if c =? 46 then to 72
  else if c =? 58 then to 172
  else if c =? 93 then to 460
  else if c <? 65 then (if (48 <=? c) && (c <=? 57) then to 189 else to 0)
  else if 70 <? c then (if (97 <=? c) && (c <=? 102) then to 169 else to 0)
  else to 169.
Definition uri_case_192 (c : Z) : jump uri_action :=
  if c =? 58 then to 172
  else if c =? 93 then to 460
  else if c <? 65 then (if (48 <=? c) && (c <=? 57) then to 169 else to 0)
  else if 70 <? c then (if (97 <=? c) && (c <=? 102) then to 169 else to 0)
  else to 169.
Definition uri_case_193 (c : Z) : jump uri_action :=
  if c =? 46 then to 72
  else if c =? 58 then to 167
  else if c =? 93 then to 460
  else if c <? 65 then (if (48 <=? c) && (c <=? 57) then to 194 else to 0)
  else if 70 <? c then (if (97 <=? c) && (c <=? 102) then to 164 else to 0)
  else to 164.
Definition uri_case_194 (c : Z) : jump uri_action :=
  if c =? 46 then to 72
  else if c =? 58 then to 167
  else if c =? 93 then to 460
  else if c <? 65 then (if (48 <=? c) && (c <=? 57) then to 195 else to 0)
  else if 70 <? c then (if (97 <=? c) && (c <=? 102) then to 165 else to 0)
  else to 165.
Definition uri_case_195 (c : Z) : jump uri_action :=
  if c =? 46 then to 72
  else if c =? 58 then to 167
  else if c =? 93 then to 460
  else if c <? 65 then (if (48 <=? c) && (c <=? 57) then to 166 else to 0)
  else if 70 <? c then (if (97 <=? c) && (c <=? 102) then to 166 else to 0)
  else to 166.
Definition uri_case_196 (c : Z) : jump uri_action :=
  if c =? 46 then to 72
  else if c =? 53 then to 198
  else if c =? 58 then to 167
  else if c =? 93 then to 460
  else if c <? 65 then (if (48 <=? c) && (c <=? 57) then to 197 else to 0)
  else if 70 <? c then (if (97 <=? c) && (c <=? 102) then to 164 else to 0)
  else to 164.
Definition uri_case_197 (c : Z) : jump uri_action :=
  if c =? 46 then to 72
  else if c =? 58 then to 167
  else if c =? 93 then to 460
  else if c <? 65 then (if (48 <=? c) && (c <=? 57) then to 165 else to 0)
  else if 70 <? c then (if (97 <=? c) && (c <=? 102) then to 165 else to 0)
  else to 165.
Definition uri_case_198 (c : Z) : jump uri_action :=
  if c =? 46 then to 72
  else if c =? 58 then to 167
  else if c =? 93 then to 460
  else if c <? 54 then (if 48 <=? c then to 195 else to 0)
  else if 57 <? c then (if 70 <? c then (if (97 <=? c) && (c <=? 102) then to 165 else to 0)
    else if 65 <=? c then to 165 else to 0)
  else to 165.
Definition uri_case_199 (c : Z) : jump uri_action :=
  if c =? 46 then to 72
  else if c =? 58 then to 167
  else if c =? 93 then to 460
  else if c <? 65 then (if (48 <=? c) && (c <=? 57) then to 197 else to 0)
  else if 70 <? c then (if (97 <=? c) && (c <=? 102) then to 164 else to 0)
  else to 164.
Definition uri_case_200 (c : Z) : jump uri_action :=
  if c =? 58 then to 167
  else if c =? 93 then to 460
  else if c <? 65 then (if (48 <=? c) && (c <=? 57) then to 164 else to 0)
  else if 70 <? c then (if (97 <=? c) && (c <=? 102) then to 164 else to 0)
  else to 164.
Definition uri_case_201 (c : Z) : jump uri_action :=
  if c =? 46 then to 72
  else if c =? 58 then to 162
  else if c =? 93 then to 460
  else if c <? 65 then (if (48 <=? c) && (c <=? 57) then to 202 else to 0)
  else if 70 <? c then (if (97 <=? c) && (c <=? 102) then to 159 else to 0)
  else to 159.
Definition uri_case_202 (c : Z) : jump uri_action :=
  if c =? 46 then to 72
  else if c =? 58 then to 162
  else if c =? 93 then to 460
  else if c <? 65 then (if (48 <=? c) && (c <=? 57) then to 203 else to 0)
  else if 70 <? c then (if (97 <=? c) && (c <=? 102) then to 160 else to 0)
  else to 160.
Definition uri_case_203 (c : Z) : jump uri_action :=
  if c =? 46 then to 72
  else if c =? 58 then to 162
  else if c =? 93 then to 460
  else if c <? 65 then (if (48 <=? c) && (c <=? 57) then to 161 else to 0)
  else if 70 <? c then (if (97 <=? c) && (c <=? 102) then to 161 else to 0)
  else to 161.
Definition uri_case_204 (c : Z) : jump uri_action :=
  if c =? 46 then to 72
  else if c =? 53 then to 206
  else if c =? 58 then to 162
  else if c =? 93 then to 460
  else if c <? 65 then (if (48 <=? c) && (c <=? 57) then to 205 else to 0)
  else if 70 <? c then (if (97 <=? c) && (c <=? 102) then to 159 else to 0)
  else to 159.
Definition uri_case_205 (c : Z) : jump uri_action :=
  if c =? 46 then to 72
  else if c =? 58 then to 162
  else if c =? 93 then to 460
  else if c <? 65 then (if (48 <=? c) && (c <=? 57) then to 160 else to 0)
  else if 70 <? c then (if (97 <=? c) && (c <=? 102) then to 160 else to 0)
  else to 160.
Definition uri_case_206 (c : Z) : jump uri_action :=
  if c =? 46 then to 72
  else if c =? 58 then to 162
  else if c =? 93 then to 460
  else if c <? 54 then (if 48 <=? c then to 203 else to 0)
  else if 57 <? c then (if 70 <? c then (if (97 <=? c) && (c <=? 102) then to 160 else to 0)
    else if 65 <=? c then to 160 else to 0)
  else to 160.
Definition uri_case_207 (c : Z) : jump uri_action :=
  if c =? 46 then to 72
  else if c =? 58 then to 162
  else if c =? 93 then to 460
  else if c <? 65 then (if (48 <=? c) && (c <=? 57) then to 205 else to 0)
  else if 70 <? c then (if (97 <=? c) && (c <=? 102) then to 159 else to 0)
  else to 159.
Definition uri_case_208 (c : Z) : jump uri_action :=
  if c =? 58 then to 162
  else if c =? 93 then to 460
  else if c <? 65 then (if (48 <=? c) && (c <=? 57) then to 159 else to 0)
  else if 70 <? c then (if (97 <=? c) && (c <=? 102) then to 159 else to 0)
  else to 159.
Definition uri_case_209 (c : Z) : jump uri_action :=
  if c =? 46 then to 72
  else if c =? 58 then to 157
  else if c =? 93 then to 460
  else if c <? 65 then (if (48 <=? c) && (c <=? 57) then to 210 else to 0)
  else if 70 <? c then (if (97 <=? c) && (c <=? 102) then to 154 else to 0)
  else to 154.
Definition uri_case_210 (c : Z) : jump uri_action :=
  if c =? 46 then to 72
  else if c =? 58 then to 157
  else if c =? 93 then to 460
  else if c <? 65 then (if (48 <=? c) && (c <=? 57) then to 211 else to 0)
  else if 70 <? c then (if (97 <=? c) && (c <=? 102) then to 155 else to 0)
  else to 155.
Definition uri_case_211 (c : Z) : jump uri_action :=
  if c =? 46 then to 72
  else if c =? 58 then to 157
  else if c =? 93 then to 460
  else if c <? 65 then (if (48 <=? c) && (c <=? 57) then to 156 else to 0)
  else if 70 <? c then (if (97 <=? c) && (c <=? 102) then to 156 else to 0)
  else to 156.
Definition uri_case_212 (c : Z) : jump uri_action :=
  if c =? 46 then to 72
  else if c =? 53 then to 214
  else if c =? 58 then to 157
  else if c =? 93 then to 460
  else if c <? 65 then (if (48 <=? c) && (c <=? 57) then to 213 else to 0)
  else if 70 <? c then (if (97 <=? c) && (c <=? 102) then to 154 else to 0)
  else to 154.
Definition uri_case_213 (c : Z) : jump uri_action :=
  if c =? 46 then to 72
  else if c =? 58 then to 157
  else if c =? 93 then to 460
  else if c <? 65 then (if (48 <=? c) && (c <=? 57) then to 155 else to 0)
  else if 70 <? c then (if (97 <=? c) && (c <=? 102) then to 155 else to 0)
  else to 155.
Definition uri_case_214 (c : Z) : jump uri_action :=
  if c =? 46 then to 72
  else if c =? 58 then to 157
  else if c =? 93 then to 460
  else if c <? 54 then (if 48 <=? c then to 211 else to 0)
  else if 57 <? c then (if 70 <? c then (if (97 <=? c) && (c <=? 102) then to 155 else to 0)
    else if 65 <=? c then to 155 else to 0)
  else to 155.
Definition uri_case_215 (c : Z) : jump uri_action :=
  if c =? 46 then to 72
  else if c =? 58 then to 157
  else if c =? 93 then to 460
  else if c <? 65 then (if (48 <=? c) && (c <=? 57) then to 213 else to 0)
  else if 70 <? c then (if (97 <=? c) && (c <=? 102) then to 154 else to 0)
  else to 154.
Definition uri_case_216 (c : Z) : jump uri_action :=
  if c =? 58 then to 157
  else if c =? 93 then to 460
  else if c <? 65 then (if (48 <=? c) && (c <=? 57) then to 154 else to 0)
  else if 70 <? c then (if (97 <=? c) && (c <=? 102) then to 154 else to 0)
  else to 154.
Definition uri_case_217 (c : Z) : jump uri_action :=
  if c =? 46 then to 72
  else if c =? 58 then to 152
  else if c =? 93 then to 460
  else if c <? 65 then (if (48 <=? c) && (c <=? 57) then to 218 else to 0)
  else if 70 <? c then (if (97 <=? c) && (c <=? 102) then to 149 else to 0)
  else to 149.
Definition uri_case_218 (c : Z) : jump uri_action :=
  if c =? 46 then to 72
  else if c =? 58 then to 152
  else if c =? 93 then to 460
  else if c <? 65 then (if (48 <=? c) && (c <=? 57) then to 219 else to 0)
  else if 70 <? c then (if (97 <=? c) && (c <=? 102) then to 150 else to 0)
  else to 150.
Definition uri_case_219 (c : Z) : jump uri_action :=
  if c =? 46 then to 72
  else if c =? 58 then to 152
  else if c =? 93 then to 460
  else if c <? 65 then (if (48 <=? c) && (c <=? 57) then to 151 else to 0)
  else if 70 <? c then (if (97 <=? c) && (c <=? 102) then to 151 else to 0)
  else to 151.
Definition uri_case_220 (c : Z) : jump uri_action :=
  if c =? 46 then to 72
  else if c =? 53 then to 222
  else if c =? 58 then to 152
  else if c =? 93 then to 460
  else if c <? 65 then (if (48 <=? c) && (c <=? 57) then to 221 else to 0)
  else if 70 <? c then (if (97 <=? c) && (c <=? 102) then to 149 else to 0)
  else to 149.
Definition uri_case_221 (c : Z) : jump uri_action :=
  if c =? 46 then to 72
  else if c =? 58 then to 152
  else if c =? 93 then to 460
  else if c <? 65 then (if (48 <=? c) && (c <=? 57) then to 150 else to 0)
  else if 70 <? c then (if (97 <=? c) && (c <=? 102) then to 150 else to 0)
  else to 150.
Definition uri_case_222 (c : Z) : jump uri_action :=
  if c =? 46 then to 72
  else if c =? 58 then to 152
  else if c =? 93 then to 460
  else if c <? 54 then (if 48 <=? c then to 219 else to 0)
  else if 57 <? c then (if 70 <? c then (if (97 <=? c) && (c <=? 102) then to 150 else to 0)
    else if 65 <=? c then to 150 else to 0)
  else to 150.
Definition uri_case_223 (c : Z) : jump uri_action :=
  if c =? 46 then to 72
  else if c =? 58 then to 152
  else if c =? 93 then to 460
  else if c <? 65 then (if (48 <=? c) && (c <=? 57) then to 221 else to 0)
  else if 70 <? c then (if (97 <=? c) && (c <=? 102) then to 149 else to 0)
  else to 149.
Definition uri_case_224 (c : Z) : jump uri_action :=
  if c =? 58 then to 152
  else if c =? 93 then to 460
  else if c <? 65 then (if (48 <=? c) && (c <=? 57) then to 149 else to 0)
  else if 70 <? c then (if (97 <=? c) && (c <=? 102) then to 149 else to 0)
  else to 149.
Definition uri_case_225 (c : Z) : jump uri_action :=
  if c <? 65 then (if (48 <=? c) && (c <=? 57) then to 226 else to 0)
  else if 70 <? c then (if (97 <=? c) && (c <=? 102) then to 226 else to 0)
  else to 226.
Definition uri_case_226 (c : Z) : jump uri_action :=
  if c =? 46 then to 227
  else if c <? 65 then (if (48 <=? c) && (c <=? 57) then to 226 else to 0)
  else if 70 <? c then (if (97 <=? c) && (c <=? 102) then to 226 else to 0)
  else to 226.
Definition uri_case_227 (c : Z) : jump uri_action :=
  if c =? 33 then to 228
  else if c =? 36 then to 228
  else if c =? 61 then to 228
  else if c =? 95 then to 228
  else if c =? 126 then to 228
  else if c <? 48 then (if (38 <=? c) && (c <=? 46) then to 228 else to 0)
  else if 59 <? c then (if 90 <? c then (if (97 <=? c) && (c <=? 122) then to 228 else to 0)
    else if 65 <=? c then to 228 else to 0)
  else to 228.
Definition uri_case_228 (c : Z) : jump uri_action :=
  if c =? 33 then to 228
  else if c =? 36 then to 228
  else if c =? 61 then to 228
  else if c =? 93 then to 460
  else if c =? 95 then to 228
  else if c =? 126 then to 228
  else if c <? 48 then (if (38 <=? c) && (c <=? 46) then to 228 else to 0)
  else if 59 <? c then (if 90 <? c then (if (97 <=? c) && (c <=? 122) then to 228 else to 0)
    else if 65 <=? c then to 228 else to 0)
  else to 228.
Definition uri_case_229 (c : Z) : jump uri_action :=
  if (48 <=? c) && (c <=? 52) then to 230 else to 0.
Definition uri_case_230 (c : Z) : jump uri_action :=
  if (48 <=? c) && (c <=? 57) then to 231 else to 0.
Definition uri_case_231 (c : Z) : jump uri_action :=
  if c =? 46 then to 232 else to 0.
Definition uri_case_232 (c : Z) : jump uri_action :=
  if c =? 2 then to 233
  else if c =? 48 then to 235
  else if c =? 49 then to 249
  else if c =? 50 then to 251
  else if (51 <=? c) && (c <=? 57) then to 250 else to 0.
Definition uri_case_233 (c : Z) : jump uri_action :=
  if (48 <=? c) && (c <=? 52) then to 234 else to 0.
Definition uri_case_234 (c : Z) : jump uri_action :=
  if (48 <=? c) && (c <=? 57) then to 235 else to 0.
Definition uri_case_235 (c : Z) : jump uri_action :=
  if c =? 46 then to 236 else to 0.
Definition uri_case_236 (c : Z) : jump uri_action :=
  if c =? 2 then to 237
  else if c =? 48 then to 239
  else if c =? 49 then to 245
  else if c =? 50 then to 247
  else if (51 <=? c) && (c <=? 57) then to 246 else to 0.
Definition uri_case_237 (c : Z) : jump uri_action :=
  if (48 <=? c) && (c <=? 52) then to 238 else to 0.
Definition uri_case_238 (c : Z) : jump uri_action :=
  if (48 <=? c) && (c <=? 57) then to 239 else to 0.
Definition uri_case_239 (c : Z) : jump uri_action :=
  if c =? 46 then to 240 else to 0.
Definition uri_case_240 (c : Z) : jump uri_action :=
  if c =? 2 then to 241
  else if c =? 48 then to 512
  else if c =? 49 then to 516
  else if c =? 50 then to 518
  else if (51 <=? c) && (c <=? 57) then to 517 else to 0.
Definition uri_case_241 (c : Z) : jump uri_action :=
  if (48 <=? c) && (c <=? 52) then to 242 else to 0.
Definition uri_case_242 (c : Z) : jump uri_action :=
  if (48 <=? c) && (c <=? 57) then to 512 else to 0.
Definition uri_case_243 (c : Z) : jump uri_action :=
  if c <? 65 then (if (48 <=? c) && (c <=? 57) then to 244 else to 0)
  else if 70 <? c then (if (97 <=? c) && (c <=? 102) then to 244 else to 0)
  else to 244.
Definition uri_case_244 (c : Z) : jump uri_action :=
  if c <? 65 then (if (48 <=? c) && (c <=? 57) then to 513 else to 0)
  else if 70 <? c then (if (97 <=? c) && (c <=? 102) then to 513 else to 0)
  else to 513.
Definition uri_case_245 (c : Z) : jump uri_action :=
  if c =? 46 then to 240
  else if (48 <=? c) && (c <=? 57) then to 246 else to 0.
Definition uri_case_246 (c : Z) : jump uri_action :=
  if c =? 46 then to 240
  else if (48 <=? c) && (c <=? 57) then to 239 else to 0.
Definition uri_case_247 (c : Z) : jump uri_action :=
  if c =? 46 then to 240
  else if c =? 53 then to 248
  else if (48 <=? c) && (c <=? 57) then to 239 else to 0.
Definition uri_case_248 (c : Z) : jump uri_action :=
  if c =? 46 then to 240
  else if (48 <=? c) && (c <=? 53) then to 239 else to 0.
Definition uri_case_249 (c : Z) : jump uri_action :=
  if c =? 46 then to 236
  else if (48 <=? c) && (c <=? 57) then to 250 else to 0.
Definition uri_case_250 (c : Z) : jump uri_action :=
  if c =? 46 then to 236
  else if (48 <=? c) && (c <=? 57) then to 235 else to 0.
Definition uri_case_251 (c : Z) : jump uri_action :=
  if c =? 46 then to 236
  else if c =? 53 then to 252
  else if (48 <=? c) && (c <=? 57) then to 235 else to 0.
Definition uri_case_252 (c : Z) : jump uri_action :=
  if c =? 46 then to 236
  else if (48 <=? c) && (c <=? 53) then to 235 else to 0.
Definition uri_case_253 (c : Z) : jump uri_action :=
  if c <? 65 then (if (48 <=? c) && (c <=? 57) then to 254 else to 0)
  else if 70 <? c then (if (97 <=? c) && (c <=? 102) then to 254 else to 0)
  else to 254.
Definition uri_case_254 (c : Z) : jump uri_action :=
  if c <? 65 then (if (48 <=? c) && (c <=? 57) then to 520 else to 0)
  else if 70 <? c then (if (97 <=? c) && (c <=? 102) then to 520 else to 0)
  else to 520.
Definition uri_case_255 (c : Z) : jump uri_action :=
  if c =? 33 then to 255
  else if c =? 37 then to 256
  else if c =? 61 then to 255
  else if c =? 64 then uri_ctr_263
  else if c =? 95 then to 255
  else if c =? 126 then to 255
  else if c <? 48 then (if (36 <=? c) && (c <=? 46) then to 255 else to 0)
  else if 59 <? c then (if 90 <? c then (if (97 <=? c) && (c <=? 122) then to 255 else to 0)
    else if 65 <=? c then to 255 else to 0)
  else to 255.
Definition uri_case_256 (c : Z) : jump uri_action :=
  if c <? 65 then (if (48 <=? c) && (c <=? 57) then to 257 else to 0)
  else if 70 <? c then (if (97 <=? c) && (c <=? 102) then to 257 else to 0)
  else to 257.
Definition uri_case_257 (c : Z) : jump uri_action :=
  if c <? 65 then (if (48 <=? c) && (c <=? 57) then to 255 else to 0)
  else if 70 <? c then (if (97 <=? c) && (c <=? 102) then to 255 else to 0)
  else to 255.
Definition uri_case_258 (c : Z) : jump uri_action :=
  if c <? 65 then (if (48 <=? c) && (c <=? 57) then to 259 else to 0)
  else if 70 <? c then (if (97 <=? c) && (c <=? 102) then to 259 else to 0)
  else to 259.
Definition uri_case_259 (c : Z) : jump uri_action :=
  if c <? 65 then (if (48 <=? c) && (c <=? 57) then to 523 else to 0)
  else if 70 <? c then (if (97 <=? c) && (c <=? 102) then to 523 else to 0)
  else to 523.
Definition uri_case_260 (c : Z) : jump uri_action :=
  if c =? 58 then to 368
  else if c =? 118 then to 447
  else if c <? 65 then (if (48 <=? c) && (c <=? 57) then to 261 else to 0)
  else if 70 <? c then (if (97 <=? c) && (c <=? 102) then to 261 else to 0)
  else to 261.
Definition uri_case_261 (c : Z) : jump uri_action :=
  if c =? 58 then to 265
  else if c <? 65 then (if (48 <=? c) && (c <=? 57) then to 262 else to 0)
  else if 70 <? c then (if (97 <=? c) && (c <=? 102) then to 262 else to 0)
  else to 262.
Definition uri_case_262 (c : Z) : jump uri_action :=
  if c =? 58 then to 265
  else if c <? 65 then (if (48 <=? c) && (c <=? 57) then to 263 else to 0)
  else if 70 <? c then (if (97 <=? c) && (c <=? 102) then to 263 else to 0)
  else to 263.
Definition uri_case_263 (c : Z) : jump uri_action :=
  if c =? 58 then to 265
  else if c <? 65 then (if (48 <=? c) && (c <=? 57) then to 264 else to 0)
  else if 70 <? c then (if (97 <=? c) && (c <=? 102) then to 264 else to 0)
  else to 264.
Definition uri_case_264 (c : Z) : jump uri_action :=
  if c =? 58 then to 265 else to 0.
Definition uri_case_265 (c : Z) : jump uri_action :=
  if c =? 58 then to 363
  else if c <? 65 then (if (48 <=? c) && (c <=? 57) then to 266 else to 0)
  else if 70 <? c then (if (97 <=? c) && (c <=? 102) then to 266 else to 0)
  else to 266.
Definition uri_case_266 (c : Z) : jump uri_action :=
  if c =? 58 then to 270
  else if c <? 65 then (if (48 <=? c) && (c <=? 57) then to 267 else to 0)
  else if 70 <? c then (if (97 <=? c) && (c <=? 102) then to 267 else to 0)
  else to 267.
Definition uri_case_267 (c : Z) : jump uri_action :=
  if c =? 58 then to 270
  else if c <? 65 then (if (48 <=? c) && (c <=? 57) then to 268 else to 0)
  else if 70 <? c then (if (97 <=? c) && (c <=? 102) then to 268 else to 0)
  else to 268.
Definition uri_case_268 (c : Z) : jump uri_action :=
  if c =? 58 then to 270
  else if c <? 65 then (if (48 <=? c) && (c <=? 57) then to 269 else to 0)
  else if 70 <? c then (if (97 <=? c) && (c <=? 102) then to 269 else to 0)
  else to 269.
Definition uri_case_269 (c : Z) : jump uri_action :=
  if c =? 58 then to 270 else to 0.
Definition uri_case_270 (c : Z) : jump uri_action :=
  if c =? 58 then to 358
  else if c <? 65 then (if (48 <=? c) && (c <=? 57) then to 271 else to 0)
  else if 70 <? c then (if (97 <=? c) && (c <=? 102) then to 271 else to 0)
  else to 271.
Definition uri_case_271 (c : Z) : jump uri_action :=
  if c =? 58 then to 275
  else if c <? 65 then (if (48 <=? c) && (c <=? 57) then to 272 else to 0)
  else if 70 <? c then (if (97 <=? c) && (c <=? 102) then to 272 else to 0)
  else to 272.
Definition uri_case_272 (c : Z) : jump uri_action :=
  if c =? 58 then to 275
  else if c <? 65 then (if (48 <=? c) && (c <=? 57) then to 273 else to 0)
  else if 70 <? c then (if (97 <=? c) && (c <=? 102) then to 273 else to 0)
  else to 273.
Definition uri_case_273 (c : Z) : jump uri_action :=
  if c =? 58 then to 275
  else if c <? 65 then (if (48 <=? c) && (c <=? 57) then to 274 else to 0)
  else if 70 <? c then (if (97 <=? c) && (c <=? 102) then to 274 else to 0)
  else to 274.
Definition uri_case_274 (c : Z) : jump uri_action :=
  if c =? 58 then to 275 else to 0.
Definition uri_case_275 (c : Z) : jump uri_action :=
  if c =? 58 then to 353
  else if c <? 65 then (if (48 <=? c) && (c <=? 57) then to 276 else to 0)
  else if 70 <? c then (if (97 <=? c) && (c <=? 102) then to 276 else to 0)
  else to 276.
Definition uri_case_276 (c : Z) : jump uri_action :=
  if c =? 58 then to 280
  else if c <? 65 then (if (48 <=? c) && (c <=? 57) then to 277 else to 0)
  else if 70 <? c then (if (97 <=? c) && (c <=? 102) then to 277 else to 0)
  else to 277.
Definition uri_case_277 (c : Z) : jump uri_action :=
  if c =? 58 then to 280
  else if c <? 65 then (if (48 <=? c) && (c <=? 57) then to 278 else to 0)
  else if 70 <? c then (if (97 <=? c) && (c <=? 102) then to 278 else to 0)
  else to 278.
Definition uri_case_278 (c : Z) : jump uri_action :=
  if c =? 58 then to 280
  else if c <? 65 then (if (48 <=? c) && (c <=? 57) then to 279 else to 0)
  else if 70 <? c then (if (97 <=? c) && (c <=? 102) then to 279 else to 0)
  else to 279.
Definition uri_case_279 (c : Z) : jump uri_action :=
  if c =? 58 then to 280 else to 0.
Definition uri_case_280 (c : Z) : jump uri_action :=
  if c =? 58 then to 348
  else if c <? 65 then (if (48 <=? c) && (c <=? 57) then to 281 else to 0)
  else if 70 <? c then (if (97 <=? c) && (c <=? 102) then to 281 else to 0)
  else to 281.
Definition uri_case_281 (c : Z) : jump uri_action :=
  if c =? 58 then to 285
  else if c <? 65 then (if (48 <=? c) && (c <=? 57) then to 282 else to 0)
  else if 70 <? c then (if (97 <=? c) && (c <=? 102) then to 282 else to 0)
  else to 282.
Definition uri_case_282 (c : Z) : jump uri_action :=
  if c =? 58 then to 285
  else if c <? 65 then (if (48 <=? c) && (c <=? 57) then to 283 else to 0)
  else if 70 <? c then (if (97 <=? c) && (c <=? 102) then to 283 else to 0)
  else to 283.
Definition uri_case_283 (c : Z) : jump uri_action :=
  if c =? 58 then to 285
  else if c <? 65 then (if (48 <=? c) && (c <=? 57) then to 284 else to 0)
  else if 70 <? c then (if (97 <=? c) && (c <=? 102) then to 284 else to 0)
  else to 284.
Definition uri_case_284 (c : Z) : jump uri_action :=
  if c =? 58 then to 285 else to 0.
Definition uri_case_285 (c : Z) : jump uri_action :=
  if c =? 58 then to 335
  else if c <? 65 then (if (48 <=? c) && (c <=? 57) then to 286 else to 0)
  else if 70 <? c then (if (97 <=? c) && (c <=? 102) then to 286 else to 0)
  else to 286.
Definition uri_case_286 (c : Z) : jump uri_action :=
  if c =? 58 then to 290
  else if c <? 65 then (if (48 <=? c) && (c <=? 57) then to 287 else to 0)
  else if 70 <? c then (if (97 <=? c) && (c <=? 102) then to 287 else to 0)
  else to 287.
Definition uri_case_287 (c : Z) : jump uri_action :=
  if c =? 58 then to 290
  else if c <? 65 then (if (48 <=? c) && (c <=? 57) then to 288 else to 0)
  else if 70 <? c then (if (97 <=? c) && (c <=? 102) then to 288 else to 0)
  else to 288.
Definition uri_case_288 (c : Z) : jump uri_action :=
  if c =? 58 then to 290
  else if c <? 65 then (if (48 <=? c) && (c <=? 57) then to 289 else to 0)
  else if 70 <? c then (if (97 <=? c) && (c <=? 102) then to 289 else to 0)
  else to 289.
Definition uri_case_289 (c : Z) : jump uri_action :=
  if c =? 58 then to 290 else to 0.
Definition uri_case_290 (c : Z) : jump uri_action :=
  if c =? 2 then to 291
  else if c =? 48 then to 318
  else if c =? 49 then to 326
  else if c =? 50 then to 329
  else if c =? 58 then to 333
  else if c <? 65 then (if (51 <=? c) && (c <=? 57) then to 332 else to 0)
  else if 70 <? c then (if (97 <=? c) && (c <=? 102) then to 334 else to 0)
  else to 334.
Definition uri_case_291 (c : Z) : jump uri_action :=
  if (48 <=? c) && (c <=? 52) then to 292 else to 0.
Definition uri_case_292 (c : Z) : jump uri_action :=
  if (48 <=? c) && (c <=? 57) then to 293 else to 0.
Definition uri_case_293 (c : Z) : jump uri_action :=
  if c =? 46 then to 294 else to 0.
Definition uri_case_294 (c : Z) : jump uri_action :=
  if c =? 2 then to 295
  else if c =? 48 then to 297
  else if c =? 49 then to 314
  else if c =? 50 then to 316
  else if (51 <=? c) && (c <=? 57) then to 315 else to 0.
Definition uri_case_295 (c : Z) : jump uri_action :=
  if (48 <=? c) && (c <=? 52) then to 296 else to 0.
Definition uri_case_296 (c : Z) : jump uri_action :=
  if (48 <=? c) && (c <=? 57) then to 297 else to 0.
Definition uri_case_297 (c : Z) : jump uri_action :=
  if c =? 46 then to 298 else to 0.
Definition uri_case_298 (c : Z) : jump uri_action :=
  if c =? 2 then to 299
  else if c =? 48 then to 301
  else if c =? 49 then to 310
  else if c =? 50 then to 312
  else if (51 <=? c) && (c <=? 57) then to 311 else to 0.
Definition uri_case_299 (c : Z) : jump uri_action :=
  if (48 <=? c) && (c <=? 52) then to 300 else to 0.
Definition uri_case_300 (c : Z) : jump uri_action :=
  if (48 <=? c) && (c <=? 57) then to 301 else to 0.
Definition uri_case_301 (c : Z) : jump uri_action :=
  if c =? 46 then to 302 else to 0.
Definition uri_case_302 (c : Z) : jump uri_action :=
  if c =? 2 then to 303
  else if c =? 48 then to 305
  else if c =? 49 then to 306
  else if c =? 50 then to 308
  else if (51 <=? c) && (c <=? 57) then to 307 else to 0.
Definition uri_case_303 (c : Z) : jump uri_action :=
  if (48 <=? c) && (c <=? 52) then to 304 else to 0.
Definition uri_case_304 (c : Z) : jump uri_action :=
  if (48 <=? c) && (c <=? 57) then to 305 else to 0.
Definition uri_case_305 (c : Z) : jump uri_action :=
  if c =? 93 then to 512 else to 0.
Definition uri_case_306 (c : Z) : jump uri_action :=
  if c =? 93 then to 512
  else if (48 <=? c) && (c <=? 57) then to 307 else to 0.
Definition uri_case_307 (c : Z) : jump uri_action :=
  if c =? 93 then to 512
  else if (48 <=? c) && (c <=? 57) then to 305 else to 0.
Definition uri_case_308 (c : Z) : jump uri_action :=
  if c =? 53 then to 309
  else if c =? 93 then to 512
  else if (48 <=? c) && (c <=? 57) then to 305 else to 0.
Definition uri_case_309 (c : Z) : jump uri_action :=
  if c =? 93 then to 512
  else if (48 <=? c) && (c <=? 53) then to 305 else to 0.
Definition uri_case_310 (c : Z) : jump uri_action :=
  if c =? 46 then to 302
  else if (48 <=? c) && (c <=? 57) then to 311 else to 0.
Definition uri_case_311 (c : Z) : jump uri_action :=
  if c =? 46 then to 302
  else if (48 <=? c) && (c <=? 57) then to 301 else to 0.
Definition uri_case_312 (c : Z) : jump uri_action :=
  if c =? 46 then to 302
  else if c =? 53 then to 313
  else if (48 <=? c) && (c <=? 57) then to 301 else to 0.
Definition uri_case_313 (c : Z) : jump uri_action :=
  if c =? 46 then to 302
  else if (48 <=? c) && (c <=? 53) then to 301 else to 0.
Definition uri_case_314 (c : Z) : jump uri_action :=
  if c =? 46 then to 298
  else if (48 <=? c) && (c <=? 57) then to 315 else to 0.
Definition uri_case_315 (c : Z) : jump uri_action :=
  if c =? 46 then to 298
  else if (48 <=? c) && (c <=? 57) then to 297 else to 0.
Definition uri_case_316 (c : Z) : jump uri_action :=
  if c =? 46 then to 298
  else if c =? 53 then to 317
  else if (48 <=? c) && (c <=? 57) then to 297 else to 0.
Definition uri_case_317 (c : Z) : jump uri_action :=
  if c =? 46 then to 298
  else if (48 <=? c) && (c <=? 53) then to 297 else to 0.
Definition uri_case_318 (c : Z) : jump uri_action :=
  if c =? 46 then to 294
  else if c =? 58 then to 322
  else if c <? 65 then (if (48 <=? c) && (c <=? 57) then to 319 else to 0)
  else if 70 <? c then (if (97 <=? c) && (c <=? 102) then to 319 else to 0)
  else to 319.
Definition uri_case_319 (c : Z) : jump uri_action :=
  if c =? 58 then to 322
  else if c <? 65 then (if (48 <=? c) && (c <=? 57) then to 320 else to 0)
  else if 70 <? c then (if (97 <=? c) && (c <=? 102) then to 320 else to 0)
  else to 320.
Definition uri_case_320 (c : Z) : jump uri_action :=
  if c =? 58 then to 322
  else if c <? 65 then (if (48 <=? c) && (c <=? 57) then to 321 else to 0)
  else if 70 <? c then (if (97 <=? c) && (c <=? 102) then to 321 else to 0)
  else to 321.
Definition uri_case_321 (c : Z) : jump uri_action :=
  if c =? 58 then to 322 else to 0.
Definition uri_case_322 (c : Z) : jump uri_action :=
  if c =? 58 then to 305
  else if c <? 65 then (if (48 <=? c) && (c <=? 57) then to 323 else to 0)
  else if 70 <? c then (if (97 <=? c) && (c <=? 102) then to 323 else to 0)
  else to 323.
Definition uri_case_323 (c : Z) : jump uri_action :=
  if c =? 93 then to 512
  else if c <? 65 then (if (48 <=? c) && (c <=? 57) then to 324 else to 0)
  else if 70 <? c then (if (97 <=? c) && (c <=? 102) then to 324 else to 0)
  else to 324.
Definition uri_case_324 (c : Z) : jump uri_action :=
  if c =? 93 then to 512
  else if c <? 65 then (if (48 <=? c) && (c <=? 57) then to 325 else to 0)
  else if 70 <? c then (if (97 <=? c) && (c <=? 102) then to 325 else to 0)
  else to 325.
Definition uri_case_325 (c : Z) : jump uri_action :=
  if c =? 93 then to 512
  else if c <? 65 then (if (48 <=? c) && (c <=? 57) then to 305 else to 0)
  else if 70 <? c then (if (97 <=? c) && (c <=? 102) then to 305 else to 0)
  else to 305.
Definition uri_case_326 (c : Z) : jump uri_action :=
  if c =? 46 then to 294
  else if c =? 58 then to 322
  else if c <? 65 then (if (48 <=? c) && (c <=? 57) then to 327 else to 0)
  else if 70 <? c then (if (97 <=? c) && (c <=? 102) then to 319 else to 0)
  else to 319.
Definition uri_case_327 (c : Z) : jump uri_action :=
  if c =? 46 then to 294
  else if c =? 58 then to 322
  else if c <? 65 then (if (48 <=? c) && (c <=? 57) then to 328 else to 0)
  else if 70 <? c then (if (97 <=? c) && (c <=? 102) then to 320 else to 0)
  else to 320.
Definition uri_case_328 (c : Z) : jump uri_action :=
  if c =? 46 then to 294
  else if c =? 58 then to 322
  else if c <? 65 then (if (48 <=? c) && (c <=? 57) then to 321 else to 0)
  else if 70 <? c then (if (97 <=? c) && (c <=? 102) then to 321 else to 0)
  else to 321.
Definition uri_case_329 (c : Z) : jump uri_action :=
  if c =? 46 then to 294
  else if c =? 53 then to 331
  else if c =? 58 then to 322
  else if c <? 65 then (if (48 <=? c) && (c <=? 57) then to 330 else to 0)
  else if 70 <? c then (if (97 <=? c) && (c <=? 102) then to 319 else to 0)
  else to 319.
Definition uri_case_330 (c : Z) : jump uri_action :=
  if c =? 46 then to 294
  else if c =? 58 then to 322
  else if c <? 65 then (if (48 <=? c) && (c <=? 57) then to 320 else to 0)
  else if 70 <? c then (if (97 <=? c) && (c <=? 102) then to 320 else to 0)
  else to 320.
Definition uri_case_331 (c : Z) : jump uri_action :=
  if c =? 46 then to 294
  else if c =? 58 then to 322
  else if c <? 54 then (if 48 <=? c then to 328 else to 0)
  else if 57 <? c then (if 70 <? c then (if (97 <=? c) && (c <=? 102) then to 320 else to 0)
    else if 65 <=? c then to 320 else to 0)
  else to 320.
Definition uri_case_332 (c : Z) : jump uri_action :=
  if c =? 46 then to 294
  else if c =? 58 then to 322
  else if c <? 65 then (if (48 <=? c) && (c <=? 57) then to 330 else to 0)
  else if 70 <? c then (if (97 <=? c) && (c <=? 102) then to 319 else to 0)
  else to 319.
Definition uri_case_333 (c : Z) : jump uri_action :=
  if c <? 65 then (if (48 <=? c) && (c <=? 57) then to 323 else to 0)
  else if 70 <? c then (if (97 <=? c) && (c <=? 102) then to 323 else to 0)
  else to 323.
Definition uri_case_334 (c : Z) : jump uri_action :=
  if c =? 58 then to 322
  else if c <? 65 then (if (48 <=? c) && (c <=? 57) then to 319 else to 0)
  else if 70 <? c then (if (97 <=? c) && (c <=? 102) then to 319 else to 0)
  else to 319.
Definition uri_case_335 (c : Z) : jump uri_action :=
  if c =? 2 then to 291
  else if c =? 48 then to 336
  else if c =? 49 then to 340
  else if c =? 50 then to 343
  else if c <? 65 then (if (51 <=? c) && (c <=? 57) then to 346 else to 0)
  else if 70 <? c then (if (97 <=? c) && (c <=? 102) then to 347 else to 0)
  else to 347.
Definition uri_case_336 (c : Z) : jump uri_action :=
  if c =? 46 then to 294
  else if c =? 58 then to 333
  else if c <? 65 then (if (48 <=? c) && (c <=? 57) then to 337 else to 0)
  else if 70 <? c then (if (97 <=? c) && (c <=? 102) then to 337 else to 0)
  else to 337.
Definition uri_case_337 (c : Z) : jump uri_action :=
  if c =? 58 then to 333
  else if c <? 65 then (if (48 <=? c) && (c <=? 57) then to 338 else to 0)
  else if 70 <? c then (if (97 <=? c) && (c <=? 102) then to 338 else to 0)
  else to 338.
Definition uri_case_338 (c : Z) : jump uri_action :=
  if c =? 58 then to 333
  else if c <? 65 then (if (48 <=? c) && (c <=? 57) then to 339 else to 0)
  else if 70 <? c then (if (97 <=? c) && (c <=? 102) then to 339 else to 0)
  else to 339.
Definition uri_case_339 (c : Z) : jump uri_action :=
  if c =? 58 then to 333 else to 0.
Definition uri_case_340 (c : Z) : jump uri_action :=
  if c =? 46 then to 294
  else if c =? 58 then to 333
  else if c <? 65 then (if (48 <=? c) && (c <=? 57) then to 341 else to 0)
  else if 70 <? c then (if (97 <=? c) && (c <=? 102) then to 337 else to 0)
  else to 337.
Definition uri_case_341 (c : Z) : jump uri_action :=
  if c =? 46 then to 294
  else if c =? 58 then to 333
  else if c <? 65 then (if (48 <=? c) && (c <=? 57) then to 342 else to 0)
  else if 70 <? c then (if (97 <=? c) && (c <=? 102) then to 338 else to 0)
  else to 338.
Definition uri_case_342 (c : Z) : jump uri_action :=
  if c =? 46 then to 294
  else if c =? 58 then to 333
  else if c <? 65 then (if (48 <=? c) && (c <=? 57) then to 339 else to 0)
  else if 70 <? c then (if (97 <=? c) && (c <=? 102) then to 339 else to 0)
  else to 339.
Definition uri_case_343 (c : Z) : jump uri_action :=
  if c =? 46 then to 294
  else if c =? 53 then to 345
  else if c =? 58 then to 333
  else if c <? 65 then (if (48 <=? c) && (c <=? 57) then to 344 else to 0)
  else if 70 <? c then (if (97 <=? c) && (c <=? 102) then to 337 else to 0)
  else to 337.
Definition uri_case_344 (c : Z) : jump uri_action :=
  if c =? 46 then to 294
  else if c =? 58 then to 333
  else if c <? 65 then (if (48 <=? c) && (c <=? 57) then to 338 else to 0)
  else if 70 <? c then (if (97 <=? c) && (c <=? 102) then to 338 else to 0)
  else to 338.
Definition uri_case_345 (c : Z) : jump uri_action :=
  if c =? 46 then to 294
  else if c =? 58 then to 333
  else if c <? 54 then (if 48 <=? c then to 342 else to 0)
  else if 57 <? c then (if 70 <? c then (if (97 <=? c) && (c <=? 102) then to 338 else to 0)
    else if 65 <=? c then to 338 else to 0)
  else to 338.
Definition uri_case_346 (c : Z) : jump uri_action :=
  if c =? 46 then to 294
  else if c =? 58 then to 333
  else if c <? 65 then (if (48 <=? c) && (c <=? 57) then to 344 else to 0)
  else if 70 <? c then (if (97 <=? c) && (c <=? 102) then to 337 else to 0)
  else to 337.
Definition uri_case_347 (c : Z) : jump uri_action :=
  if c =? 58 then to 333
  else if c <? 65 then (if (48 <=? c) && (c <=? 57) then to 337 else to 0)
  else if 70 <? c then (if (97 <=? c) && (c <=? 102) then to 337 else to 0)
  else to 337.
Definition uri_case_348 (c : Z) : jump uri_action :=
  if c <? 65 then (if (48 <=? c) && (c <=? 57) then to 349 else to 0)
  else if 70 <? c then (if (97 <=? c) && (c <=? 102) then to 349 else to 0)
  else to 349.
Definition uri_case_349 (c : Z) : jump uri_action :=
  if c =? 58 then to 335
  else if c <? 65 then (if (48 <=? c) && (c <=? 57) then to 350 else to 0)
  else if 70 <? c then (if (97 <=? c) && (c <=? 102) then to 350 else to 0)
  else to 350.
Definition uri_case_350 (c : Z) : jump uri_action :=
  if c =? 58 then to 335
  else if c <? 65 then (if (48 <=? c) && (c <=? 57) then to 351 else to 0)
  else if 70 <? c then (if (97 <=? c) && (c <=? 102) then to 351 else to 0)
  else to 351.
Definition uri_case_351 (c : Z) : jump uri_action :=
  if c =? 58 then to 335
  else if c <? 65 then (if (48 <=? c) && (c <=? 57) then to 352 else to 0)
  else if 70 <? c then (if (97 <=? c) && (c <=? 102) then to 352 else to 0)
  else to 352.
Definition uri_case_352 (c : Z) : jump uri_action :=
  if c =? 58 then to 335 else to 0.
Definition uri_case_353 (c : Z) : jump uri_action :=
  if c <? 65 then (if (48 <=? c) && (c <=? 57) then to 354 else to 0)
  else if 70 <? c then (if (97 <=? c) && (c <=? 102) then to 354 else to 0)
  else to 354.
Definition uri_case_354 (c : Z) : jump uri_action :=
  if c =? 58 then to 348
  else if c <? 65 then (if (48 <=? c) && (c <=? 57) then to 355 else to 0)
  else if 70 <? c then (if (97 <=? c) && (c <=? 102) then to 355 else to 0)
  else to 355.
Definition uri_case_355 (c : Z) : jump uri_action :=
  if c =? 58 then to 348
  else if c <? 65 then (if (48 <=? c) && (c <=? 57) then to 356 else to 0)
  else if 70 <? c then (if (97 <=? c) && (c <=? 102) then to 356 else to 0)
  else to 356.
Definition uri_case_356 (c : Z) : jump uri_action :=
  if c =? 58 then to 348
  else if c <? 65 then (if (48 <=? c) && (c <=? 57) then to 357 else to 0)
  else if 70 <? c then (if (97 <=? c) && (c <=? 102) then to 357 else to 0)
  else to 357.
Definition uri_case_357 (c : Z) : jump uri_action :=
  if c =? 58 then to 348 else to 0.
Definition uri_case_358 (c : Z) : jump uri_action :=
  if c <? 65 then (if (48 <=? c) && (c <=? 57) then to 359 else to 0)
  else if 70 <? c then (if (97 <=? c) && (c <=? 102) then to 359 else to 0)
  else to 359.
Definition uri_case_359 (c : Z) : jump uri_action :=
  if c =? 58 then to 353
  else if c <? 65 then (if (48 <=? c) && (c <=? 57) then to 360 else to 0)
  else if 70 <? c then (if (97 <=? c) && (c <=? 102) then to 360 else to 0)
  else to 360.
Definition uri_case_360 (c : Z) : jump uri_action :=
  if c =? 58 then to 353
  else if c <? 65 then (if (48 <=? c) && (c <=? 57) then to 361 else to 0)
  else if 70 <? c then (if (97 <=? c) && (c <=? 102) then to 361 else to 0)
  else to 361.
Definition uri_case_361 (c : Z) : jump uri_action :=
  if c =? 58 then to 353
  else if c <? 65 then (if (48 <=? c) && (c <=? 57) then to 362 else to 0)
  else if 70 <? c then (if (97 <=? c) && (c <=? 102) then to 362 else to 0)
  else to 362.
Definition uri_case_362 (c : Z) : jump uri_action :=
  if c =? 58 then to 353 else to 0.
Definition uri_case_363 (c : Z) : jump uri_action :=
  if c <? 65 then (if (48 <=? c) && (c <=? 57) then to 364 else to 0)
  else if 70 <? c then (if (97 <=? c) && (c <=? 102) then to 364 else to 0)
  else to 364.
Definition uri_case_364 (c : Z) : jump uri_action :=
  if c =? 58 then to 358
  else if c <? 65 then (if (48 <=? c) && (c <=? 57) then to 365 else to 0)
  else if 70 <? c then (if (97 <=? c) && (c <=? 102) then to 365 else to 0)
  else to 365.
Definition uri_case_365 (c : Z) : jump uri_action :=
  if c =? 58 then to 358
  else if c <? 65 then (if (48 <=? c) && (c <=? 57) then to 366 else to 0)
  else if 70 <? c then (if (97 <=? c) && (c <=? 102) then to 366 else to 0)
  else to 366.
Definition uri_case_366 (c : Z) : jump uri_action :=
  if c =? 58 then to 358
  else if c <? 65 then (if (48 <=? c) && (c <=? 57) then to 367 else to 0)
  else if 70 <? c then (if (97 <=? c) && (c <=? 102) then to 367 else to 0)
  else to 367.
Definition uri_case_367 (c : Z) : jump uri_action :=
  if c =? 58 then to 358 else to 0.
Definition uri_case_368 (c : Z) : jump uri_action :=
  if c =? 58 then to 369 else to 0.
Definition uri_case_369 (c : Z) : jump uri_action :=
  if c =? 2 then to 291
  else if c =? 48 then to 370
  else if c =? 49 then to 439
  else if c =? 50 then to 442
  else if c =? 93 then to 512
  else if c <? 65 then (if (51 <=? c) && (c <=? 57) then to 445 else to 0)
  else if 70 <? c then (if (97 <=? c) && (c <=? 102) then to 446 else to 0)
  else to 446.
Definition uri_case_370 (c : Z) : jump uri_action :=
  if c =? 46 then to 294
  else if c =? 58 then to 374
  else if c =? 93 then to 512
  else if c <? 65 then (if (48 <=? c) && (c <=? 57) then to 371 else to 0)
  else if 70 <? c then (if (97 <=? c) && (c <=? 102) then to 371 else to 0)
  else to 371.
Definition uri_case_371 (c : Z) : jump uri_action :=
  if c =? 58 then to 374
  else if c =? 93 then to 512
  else if c <? 65 then (if (48 <=? c) && (c <=? 57) then to 372 else to 0)
  else if 70 <? c then (if (97 <=? c) && (c <=? 102) then to 372 else to 0)
  else to 372.
Definition uri_case_372 (c : Z) : jump uri_action :=
  if c =? 58 then to 374
  else if c =? 93 then to 512
  else if c <? 65 then (if (48 <=? c) && (c <=? 57) then to 373 else to 0)
  else if 70 <? c then (if (97 <=? c) && (c <=? 102) then to 373 else to 0)
  else to 373.
Definition uri_case_373 (c : Z) : jump uri_action :=
  if c =? 58 then to 374
  else if c =? 93 then to 512 else to 0.
Definition uri_case_374 (c : Z) : jump uri_action :=
  if c =? 2 then to 291
  else if c =? 48 then to 375
  else if c =? 49 then to 431
  else if c =? 50 then to 434
  else if c <? 65 then (if (51 <=? c) && (c <=? 57) then to 437 else to 0)
  else if 70 <? c then (if (97 <=? c) && (c <=? 102) then to 438 else to 0)
  else to 438.
Definition uri_case_375 (c : Z) : jump uri_action :=
  if c =? 46 then to 294
  else if c =? 58 then to 379
  else if c =? 93 then to 512
  else if c <? 65 then (if (48 <=? c) && (c <=? 57) then to 376 else to 0)
  else if 70 <? c then (if (97 <=? c) && (c <=? 102) then to 376 else to 0)
  else to 376.
Definition uri_case_376 (c : Z) : jump uri_action :=
  if c =? 58 then to 379
  else if c =? 93 then to 512
  else if c <? 65 then (if (48 <=? c) && (c <=? 57) then to 377 else to 0)
  else if 70 <? c then (if (97 <=? c) && (c <=? 102) then to 377 else to 0)
  else to 377.
Definition uri_case_377 (c : Z) : jump uri_action :=
  if c =? 58 then to 379
  else if c =? 93 then to 512
  else if c <? 65 then (if (48 <=? c) && (c <=? 57) then to 378 else to 0)
  else if 70 <? c then (if (97 <=? c) && (c <=? 102) then to 378 else to 0)
  else to 378.
Definition uri_case_378 (c : Z) : jump uri_action :=
  if c =? 58 then to 379
  else if c =? 93 then to 512 else to 0.
Definition uri_case_379 (c : Z) : jump uri_action :=
  if c =? 2 then to 291
  else if c =? 48 then to 380
  else if c =? 49 then to 423
  else if c =? 50 then to 426
  else if c <? 65 then (if (51 <=? c) && (c <=? 57) then to 429 else to 0)
  else if 70 <? c then (if (97 <=? c) && (c <=? 102) then to 430 else to 0)
  else to 430.
Definition uri_case_380 (c : Z) : jump uri_action :=
  if c =? 46 then to 294
  else if c =? 58 then to 384
  else if c =? 93 then to 512
  else if c <? 65 then (if (48 <=? c) && (c <=? 57) then to 381 else to 0)
  else if 70 <? c then (if (97 <=? c) && (c <=? 102) then to 381 else to 0)
  else to 381.
Definition uri_case_381 (c : Z) : jump uri_action :=
  if c =? 58 then to 384
  else if c =? 93 then to 512
  else if c <? 65 then (if (48 <=? c) && (c <=? 57) then to 382 else to 0)
  else if 70 <? c then (if (97 <=? c) && (c <=? 102) then to 382 else to 0)
  else to 382.
Definition uri_case_382 (c : Z) : jump uri_action :=
  if c =? 58 then to 384
  else if c =? 93 then to 512
  else if c <? 65 then (if (48 <=? c) && (c <=? 57) then to 383 else to 0)
  else if 70 <? c then (if (97 <=? c) && (c <=? 102) then to 383 else to 0)
  else to 383.
Definition uri_case_383 (c : Z) : jump uri_action :=
  if c =? 58 then to 384
  else if c =? 93 then to 512 else to 0.
Definition uri_case_384 (c : Z) : jump uri_action :=
  if c =? 2 then to 291
  else if c =? 48 then to 385
  else if c =? 49 then to 415
  else if c =? 50 then to 418
  else if c <? 65 then (if (51 <=? c) && (c <=? 57) then to 421 else to 0)
  else if 70 <? c then (if (97 <=? c) && (c <=? 102) then to 422 else to 0)
  else to 422.
Definition uri_case_385 (c : Z) : jump uri_action :=
  if c =? 46 then to 294
  else if c =? 58 then to 389
  else if c =? 93 then to 512
  else if c <? 65 then (if (48 <=? c) && (c <=? 57) then to 386 else to 0)
  else if 70 <? c then (if (97 <=? c) && (c <=? 102) then to 386 else to 0)
  else to 386.
Definition uri_case_386 (c : Z) : jump uri_action :=
  if c =? 58 then to 389
  else if c =? 93 then to 512
  else if c <? 65 then (if (48 <=? c) && (c <=? 57) then to 387 else to 0)
  else if 70 <? c then (if (97 <=? c) && (c <=? 102) then to 387 else to 0)
  else to 387.
Definition uri_case_387 (c : Z) : jump uri_action :=
  if c =? 58 then to 389
  else if c =? 93 then to 512
  else if c <? 65 then (if (48 <=? c) && (c <=? 57) then to 388 else to 0)
  else if 70 <? c then (if (97 <=? c) && (c <=? 102) then to 388 else to 0)
  else to 388.
Definition uri_case_388 (c : Z) : jump uri_action :=
  if c =? 58 then to 389
  else if c =? 93 then to 512 else to 0.
Definition uri_case_389 (c : Z) : jump uri_action :=
  if c =? 2 then to 291
  else if c =? 48 then to 390
  else if c =? 49 then to 407
  else if c =? 50 then to 410
  else if c <? 65 then (if (51 <=? c) && (c <=? 57) then to 413 else to 0)
  else if 70 <? c then (if (97 <=? c) && (c <=? 102) then to 414 else to 0)
  else to 414.
Definition uri_case_390 (c : Z) : jump uri_action :=
  if c =? 46 then to 294
  else if c =? 58 then to 394
  else if c =? 93 then to 512
  else if c <? 65 then (if (48 <=? c) && (c <=? 57) then to 391 else to 0)
  else if 70 <? c then (if (97 <=? c) && (c <=? 102) then to 391 else to 0)
  else to 391.
Definition uri_case_391 (c : Z) : jump uri_action :=
  if c =? 58 then to 394
  else if c =? 93 then to 512
  else if c <? 65 then (if (48 <=? c) && (c <=? 57) then to 392 else to 0)
  else if 70 <? c then (if (97 <=? c) && (c <=? 102) then to 392 else to 0)
  else to 392.
Definition uri_case_392 (c : Z) : jump uri_action :=
  if c =? 58 then to 394
  else if c =? 93 then to 512
  else if c <? 65 then (if (48 <=? c) && (c <=? 57) then to 393 else to 0)
  else if 70 <? c then (if (97 <=? c) && (c <=? 102) then to 393 else to 0)
  else to 393.
Definition uri_case_393 (c : Z) : jump uri_action :=
  if c =? 58 then to 394
  else if c =? 93 then to 512 else to 0.
Definition uri_case_394 (c : Z) : jump uri_action :=
  if c =? 2 then to 291
  else if c =? 48 then to 395
  else if c =? 49 then to 399
  else if c =? 50 then to 402
  else if c <? 65 then (if (51 <=? c) && (c <=? 57) then to 405 else to 0)
  else if 70 <? c then (if (97 <=? c) && (c <=? 102) then to 406 else to 0)
  else to 406.
Definition uri_case_395 (c : Z) : jump uri_action :=
  if c =? 46 then to 294
  else if c =? 58 then to 333
  else if c =? 93 then to 512
  else if c <? 65 then (if (48 <=? c) && (c <=? 57) then to 396 else to 0)
  else if 70 <? c then (if (97 <=? c) && (c <=? 102) then to 396 else to 0)
  else to 396.
Definition uri_case_396 (c : Z) : jump uri_action :=
  if c =? 58 then to 333
  else if c =? 93 then to 512
  else if c <? 65 then (if (48 <=? c) && (c <=? 57) then to 397 else to 0)
  else if 70 <? c then (if (97 <=? c) && (c <=? 102) then to 397 else to 0)
  else to 397.
Definition uri_case_397 (c : Z) : jump uri_action :=
  if c =? 58 then to 333
  else if c =? 93 then to 512
  else if c <? 65 then (if (48 <=? c) && (c <=? 57) then to 398 else to 0)
  else if 70 <? c then (if (97 <=? c) && (c <=? 102) then to 398 else to 0)
  else to 398.
Definition uri_case_398 (c : Z) : jump uri_action :=
  if c =? 58 then to 333
  else if c =? 93 then to 512 else to 0.
Definition uri_case_399 (c : Z) : jump uri_action :=
  if c =? 46 then to 294
  else if c =? 58 then to 333
  else if c =? 93 then to 512
  else if c <? 65 then (if (48 <=? c) && (c <=? 57) then to 400 else to 0)
  else if 70 <? c then (if (97 <=? c) && (c <=? 102) then to 396 else to 0)
  else to 396.
Definition uri_case_400 (c : Z) : jump uri_action :=
  if c =? 46 then to 294
  else if c =? 58 then to 333
  else if c =? 93 then to 512
  else if c <? 65 then (if (48 <=? c) && (c <=? 57) then to 401 else to 0)
  else if 70 <? c then (if (97 <=? c) && (c <=? 102) then to 397 else to 0)
  else to 397.
Definition uri_case_401 (c : Z) : jump uri_action :=
  if c =? 46 then to 294
  else if c =? 58 then to 333
  else if c =? 93 then to 512
  else if c <? 65 then (if (48 <=? c) && (c <=? 57) then to 398 else to 0)
  else if 70 <? c then (if (97 <=? c) && (c <=? 102) then to 398 else to 0)
  else to 398.
Definition uri_case_402 (c : Z) : jump uri_action :=
  if c =? 46 then to 294
  else if c =? 53 then to 404
  else if c =? 58 then to 333
  else if c =? 93 then to 512
  else if c <? 65 then (if (48 <=? c) && (c <=? 57) then to 403 else to 0)
  else if 70 <? c then (if (97 <=? c) && (c <=? 102) then to 396 else to 0)
  else to 396.
Definition uri_case_403 (c : Z) : jump uri_action :=
  if c =? 46 then to 294
  else if c =? 58 then to 333
  else if c =? 93 then to 512
  else if c <? 65 then (if (48 <=? c) && (c <=? 57) then to 397 else to 0)
  else if 70 <? c then (if (97 <=? c) && (c <=? 102) then to 397 else to 0)
  else to 397.
Definition uri_case_404 (c : Z) : jump uri_action :=
  if c =? 46 then to 294
  else if c =? 58 then to 333
  else if c =? 93 then to 512
  else if c <? 54 then (if 48 <=? c then to 401 else to 0)
  else if 57 <? c then (if 70 <? c then (if (97 <=? c) && (c <=? 102) then to 397 else to 0)
    else if 65 <=? c then to 397 else to 0)
  else to 397.
Definition uri_case_405 (c : Z) : jump uri_action :=
  if c =? 46 then to 294
  else if c =? 58 then to 333
  else if c =? 93 then to 512
  else if c <? 65 then (if (48 <=? c) && (c <=? 57) then to 403 else to 0)
  else if 70 <? c then (if (97 <=? c) && (c <=? 102) then to 396 else to 0)
  else to 396.
Definition uri_case_406 (c : Z) : jump uri_action :=
  if c =? 58 then to 333
  else if c =? 93 then to 512
  else if c <? 65 then (if (48 <=? c) && (c <=? 57) then to 396 else to 0)
  else if 70 <? c then (if (97 <=? c) && (c <=? 102) then to 396 else to 0)
  else to 396.
Definition uri_case_407 (c : Z) : jump uri_action :=
  if c =? 46 then to 294
  else if c =? 58 then to 394
  else if c =? 93 then to 512
  else if c <? 65 then (if (48 <=? c) && (c <=? 57) then to 408 else to 0)
  else if 70 <? c then (if (97 <=? c) && (c <=? 102) then to 391 else to 0)
  else to 391.
Definition uri_case_408 (c : Z) : jump uri_action :=
  if c =? 46 then to 294
  else if c =? 58 then to 394
  else if c =? 93 then to 512
  else if c <? 65 then (if (48 <=? c) && (c <=? 57) then to 409 else to 0)
  else if 70 <? c then (if (97 <=? c) && (c <=? 102) then to 392 else to 0)
  else to 392.
Definition uri_case_409 (c : Z) : jump uri_action :=
  if c =? 46 then to 294
  else if c =? 58 then to 394
  else if c =? 93 then to 512
  else if c <? 65 then (if (48 <=? c) && (c <=? 57) then to 393 else to 0)
  else if 70 <? c then (if (97 <=? c) && (c <=? 102) then to 393 else to 0)
  else to 393.
Definition uri_case_410 (c : Z) : jump uri_action :=
  if c =? 46 then to 294
  else if c =? 53 then to 412
  else if c =? 58 then to 394
  else if c =? 93 then to 512
  else if c <? 65 then (if (48 <=? c) && (c <=? 57) then to 411 else to 0)
  else if 70 <? c then (if (97 <=? c) && (c <=? 102) then to 391 else to 0)
  else to 391.
Definition uri_case_411 (c : Z) : jump uri_action :=
  if c =? 46 then to 294
  else if c =? 58 then to 394
  else if c =? 93 then to 512
  else if c <? 65 then (if (48 <=? c) && (c <=? 57) then to 392 else to 0)
  else if 70 <? c then (if (97 <=? c) && (c <=? 102) then to 392 else to 0)
  else to 392.
Definition uri_case_412 (c : Z) : jump uri_action :=
  if c =? 46 then to 294
  else if c =? 58 then to 394
  else if c =? 93 then to 512
  else if c <? 54 then (if 48 <=? c then to 409 else to 0)
  else if 57 <? c then (if 70 <? c then (if (97 <=? c) && (c <=? 102) then to 392 else to 0)
    else if 65 <=? c then to 392 else to 0)
  else to 392.
Definition uri_case_413 (c : Z) : jump uri_action :=
  if c =? 46 then to 294
  else if c =? 58 then to 394
  else if c =? 93 then to 512
  else if c <? 65 then (if (48 <=? c) && (c <=? 57) then to 411 else to 0)
  else if 70 <? c then (if (97 <=? c) && (c <=? 102) then to 391 else to 0)
  else to 391.
Definition uri_case_414 (c : Z) : jump uri_action :=
  if c =? 58 then to 394
  else if c =? 93 then to 512
  else if c <? 65 then (if (48 <=? c) && (c <=? 57) then to 391 else to 0)
  else if 70 <? c then (if (97 <=? c) && (c <=? 102) then to 391 else to 0)
  else to 391.
Definition uri_case_415 (c : Z) : jump uri_action :=
  if c =? 46 then to 294
  else if c =? 58 then to 389
  else if c =? 93 then to 512
  else if c <? 65 then (if (48 <=? c) && (c <=? 57) then to 416 else to 0)
  else if 70 <? c then (if (97 <=? c) && (c <=? 102) then to 386 else to 0)
  else to 386.
Definition uri_case_416 (c : Z) : jump uri_action :=
  if c =? 46 then to 294
  else if c =? 58 then to 389
  else if c =? 93 then to 512
  else if c <? 65 then (if (48 <=? c) && (c <=? 57) then to 417 else to 0)
  else if 70 <? c then (if (97 <=? c) && (c <=? 102) then to 387 else to 0)
  else to 387.
Definition uri_case_417 (c : Z) : jump uri_action :=
  if c =? 46 then to 294
  else if c =? 58 then to 389
  else if c =? 93 then to 512
  else if c <? 65 then (if (48 <=? c) && (c <=? 57) then to 388 else to 0)
  else if 70 <? c then (if (97 <=? c) && (c <=? 102) then to 388 else to 0)
  else to 388.
Definition uri_case_418 (c : Z) : jump uri_action :=
  if c =? 46 then to 294
  else if c =? 53 then to 420
  else if c =? 58 then to 389
  else if c =? 93 then to 512
  else if c <? 65 then (if (48 <=? c) && (c <=? 57) then to 419 else to 0)
  else if 70 <? c then (if (97 <=? c) && (c <=? 102) then to 386 else to 0)
  else to 386.
Definition uri_case_419 (c : Z) : jump uri_action :=
  if c =? 46 then to 294
  else if c =? 58 then to 389
  else if c =? 93 then to 512
  else if c <? 65 then (if (48 <=? c) && (c <=? 57) then to 387 else to 0)
  else if 70 <? c then (if (97 <=? c) && (c <=? 102) then to 387 else to 0)
  else to 387.
Definition uri_case_420 (c : Z) : jump uri_action :=
  if c =? 46 then to 294
  else if c =? 58 then to 389
  else if c =? 93 then to 512
  else if c <? 54 then (if 48 <=? c then to 417 else to 0)
  else if 57 <? c then (if 70 <? c then (if (97 <=? c) && (c <=? 102) then to 387 else to 0)
    else if 65 <=? c then to 387 else to 0)
  else to 387.
Definition uri_case_421 (c : Z) : jump uri_action :=
  if c =? 46 then to 294
  else if c =? 58 then to 389
  else if c =? 93 then to 512
  else if c <? 65 then (if (48 <=? c) && (c <=? 57) then to 419 else to 0)
  else if 70 <? c then (if (97 <=? c) && (c <=? 102) then to 386 else to 0)
  else to 386.
Definition uri_case_422 (c : Z) : jump uri_action :=
  if c =? 58 then to 389
  else if c =? 93 then to 512
  else if c <? 65 then (if (48 <=? c) && (c <=? 57) then to 386 else to 0)
  else if 70 <? c then (if (97 <=? c) && (c <=? 102) then to 386 else to 0)
  else to 386.
Definition uri_case_423 (c : Z) : jump uri_action :=
  if c =? 46 then to 294
  else if c =? 58 then to 384
  else if c =? 93 then to 512
  else if c <? 65 then (if (48 <=? c) && (c <=? 57) then to 424 else to 0)
  else if 70 <? c then (if (97 <=? c) && (c <=? 102) then to 381 else to 0)
  else to 381.
Definition uri_case_424 (c : Z) : jump uri_action :=
  if c =? 46 then to 294
  else if c =? 58 then to 384
  else if c =? 93 then to 512
  else if c <? 65 then (if (48 <=? c) && (c <=? 57) then to 425 else to 0)
  else if 70 <? c then (if (97 <=? c) && (c <=? 102) then to 382 else to 0)
  else to 382.
Definition uri_case_425 (c : Z) : jump uri_action :=
  if c =? 46 then to 294
  else if c =? 58 then to 384
  else if c =? 93 then to 512
  else if c <? 65 then (if (48 <=? c) && (c <=? 57) then to 383 else to 0)
  else if 70 <? c then (if (97 <=? c) && (c <=? 102) then to 383 else to 0)
  else to 383.
Definition uri_case_426 (c : Z) : jump uri_action :=
  if c =? 46 then to 294
  else if c =? 53 then to 428
  else if c =? 58 then to 384
  else if c =? 93 then to 512
  else if c <? 65 then (if (48 <=? c) && (c <=? 57) then to 427 else to 0)
  else if 70 <? c then (if (97 <=? c) && (c <=? 102) then to 381 else to 0)
  else to 381.
Definition uri_case_427 (c : Z) : jump uri_action :=
  if c =? 46 then to 294
  else if c =? 58 then to 384
  else if c =? 93 then to 512
  else if c <? 65 then (if (48 <=? c) && (c <=? 57) then to 382 else to 0)
  else if 70 <? c then (if (97 <=? c) && (c <=? 102) then to 382 else to 0)
  else to 382.
Definition uri_case_428 (c : Z) : jump uri_action :=
  if c =? 46 then to 294
  else if c =? 58 then to 384
  else if c =? 93 then to 512
  else if c <? 54 then (if 48 <=? c then to 425 else to 0)
  else if 57 <? c then (if 70 <? c then (if (97 <=? c) && (c <=? 102) then to 382 else to 0)
    else if 65 <=? c then to 382 else to 0)
  else to 382.
Definition uri_case_429 (c : Z) : jump uri_action :=
  if c =? 46 then to 294
  else if c =? 58 then to 384
  else if c =? 93 then to 512
  else if c <? 65 then (if (48 <=? c) && (c <=? 57) then to 427 else to 0)
  else if 70 <? c then (if (97 <=? c) && (c <=? 102) then to 381 else to 0)
  else to 381.
Definition uri_case_430 (c : Z) : jump uri_action :=
  if c =? 58 then to 384
  else if c =? 93 then to 512
  else if c <? 65 then (if (48 <=? c) && (c <=? 57) then to 381 else to 0)
  else if 70 <? c then (if (97 <=? c) && (c <=? 102) then to 381 else to 0)
  else to 381.
Definition uri_case_431 (c : Z) : jump uri_action :=
  if c =? 46 then to 294
  else if c =? 58 then to 379
  else if c =? 93 then to 512
  else if c <? 65 then (if (48 <=? c) && (c <=? 57) then to 432 else to 0)
  else if 70 <? c then (if (97 <=? c) && (c <=? 102) then to 376 else to 0)
  else to 376.
Definition uri_case_432 (c : Z) : jump uri_action :=
  if c =? 46 then to 294
  else if c =? 58 then to 379
  else if c =? 93 then to 512
  else if c <? 65 then (if (48 <=? c) && (c <=? 57) then to 433 else to 0)
  else if 70 <? c then (if (97 <=? c) && (c <=? 102) then to 377 else to 0)
  else to 377.
Definition uri_case_433 (c : Z) : jump uri_action :=
  if c =? 46 then to 294
  else if c =? 58 then to 379
  else if c =? 93 then to 512
  else if c <? 65 then (if (48 <=? c) && (c <=? 57) then to 378 else to 0)
  else if 70 <? c then (if (97 <=? c) && (c <=? 102) then to 378 else to 0)
  else to 378.
Definition uri_case_434 (c : Z) : jump uri_action :=
  if c =? 46 then to 294
  else if c =? 53 then to 436
  else if c =? 58 then to 379
  else if c =? 93 then to 512
  else if c <? 65 then (if (48 <=? c) && (c <=? 57) then to 435 else to 0)
  else if 70 <? c then (if (97 <=? c) && (c <=? 102) then to 376 else to 0)
  else to 376.
Definition uri_case_435 (c : Z) : jump uri_action :=
  if c =? 46 then to 294
  else if c =? 58 then to 379
  else if c =? 93 then to 512
  else if c <? 65 then (if (48 <=? c) && (c <=? 57) then to 377 else to 0)
  else if 70 <? c then (if (97 <=? c) && (c <=? 102) then to 377 else to 0)
  else to 377.
Definition uri_case_436 (c : Z) : jump uri_action :=
  if c =? 46 then to 294
  else if c =? 58 then to 379
  else if c =? 93 then to 512
  else if c <? 54 then (if 48 <=? c then to 433 else to 0)
  else if 57 <? c then (if 70 <? c then (if (97 <=? c) && (c <=? 102) then to 377 else to 0)
    else if 65 <=? c then to 377 else to 0)
  else to 377.
Definition uri_case_437 (c : Z) : jump uri_action :=
  if c =? 46 then to 294
  else if c =? 58 then to 379
  else if c =? 93 then to 512
  else if c <? 65 then (if (48 <=? c) && (c <=? 57) then to 435 else to 0)
  else if 70 <? c then (if (97 <=? c) && (c <=? 102) then to 376 else to 0)
  else to 376.
Definition uri_case_438 (c : Z) : jump uri_action :=
  if c =? 58 then to 379
  else if c =? 93 then to 512
  else if c <? 65 then (if (48 <=? c) && (c <=? 57) then to 376 else to 0)
  else if 70 <? c then (if (97 <=? c) && (c <=? 102) then to 376 else to 0)
  else to 376.
Definition uri_case_439 (c : Z) : jump uri_action :=
  if c =? 46 then to 294
  else if c =? 58 then to 374
  else if c =? 93 then to 512
  else if c <? 65 then (if (48 <=? c) && (c <=? 57) then to 440 else to 0)
  else if 70 <? c then (if (97 <=? c) && (c <=? 102) then to 371 else to 0)
  else to 371.
Definition uri_case_440 (c : Z) : jump uri_action :=
  if c =? 46 then to 294
  else if c =? 58 then to 374
  else if c =? 93 then to 512
  else if c <? 65 then (if (48 <=? c) && (c <=? 57) then to 441 else to 0)
  else if 70 <? c then (if (97 <=? c) && (c <=? 102) then to 372 else to 0)
  else to 372.
Definition uri_case_441 (c : Z) : jump uri_action :=
  if c =? 46 then to 294
  else if c =? 58 then to 374
  else if c =? 93 then to 512
  else if c <? 65 then (if (48 <=? c) && (c <=? 57) then to 373 else to 0)
  else if 70 <? c then (if (97 <=? c) && (c <=? 102) then to 373 else to 0)
  else to 373.
Definition uri_case_442 (c : Z) : jump uri_action :=
  if c =? 46 then to 294
  else if c =? 53 then to 444
  else if c =? 58 then to 374
  else if c =? 93 then to 512
  else if c <? 65 then (if (48 <=? c) && (c <=? 57) then to 443 else to 0)
  else if 70 <? c then (if (97 <=? c) && (c <=? 102) then to 371 else to 0)
  else to 371.
Definition uri_case_443 (c : Z) : jump uri_action :=
  if c =? 46 then to 294
  else if c =? 58 then to 374
  else if c =? 93 then to 512
  else if c <? 65 then (if (48 <=? c) && (c <=? 57) then to 372 else to 0)
  else if 70 <? c then (if (97 <=? c) && (c <=? 102) then to 372 else to 0)
  else to 372.
Definition uri_case_444 (c : Z) : jump uri_action :=
  if c =? 46 then to 294
  else if c =? 58 then to 374
  else if c =? 93 then to 512
  else if c <? 54 then (if 48 <=? c then to 441 else to 0)
  else if 57 <? c then (if 70 <? c then (if (97 <=? c) && (c <=? 102) then to 372 else to 0)
    else if 65 <=? c then to 372 else to 0)
  else to 372.
Definition uri_case_445 (c : Z) : jump uri_action :=
  if c =? 46 then to 294
  else if c =? 58 then to 374
  else if c =? 93 then to 512
  else if c <? 65 then (if (48 <=? c) && (c <=? 57) then to 443 else to 0)
  else if 70 <? c then (if (97 <=? c) && (c <=? 102) then to 371 else to 0)
  else to 371.
Definition uri_case_446 (c : Z) : jump uri_action :=
  if c =? 58 then to 374
  else if c =? 93 then to 512
  else if c <? 65 then (if (48 <=? c) && (c <=? 57) then to 371 else to 0)
  else if 70 <? c then (if (97 <=? c) && (c <=? 102) then to 371 else to 0)
  else to 371.
Definition uri_case_447 (c : Z) : jump uri_action :=
  if c <? 65 then (if (48 <=? c) && (c <=? 57) then to 448 else to 0)
  else if 70 <? c then (if (97 <=? c) && (c <=? 102) then to 448 else to 0)
  else to 448.
Definition uri_case_448 (c : Z) : jump uri_action :=
  if c =? 46 then to 449
  else if c <? 65 then (if (48 <=? c) && (c <=? 57) then to 448 else to 0)
  else if 70 <? c then (if (97 <=? c) && (c <=? 102) then to 448 else to 0)
  else to 448.
Definition uri_case_449 (c : Z) : jump uri_action :=
  if c =? 33 then to 450
  else if c =? 36 then to 450
  else if c =? 61 then to 450
  else if c =? 95 then to 450
  else if c =? 126 then to 450
  else if c <? 48 then (if (38 <=? c) && (c <=? 46) then to 450 else to 0)
  else if 59 <? c then (if 90 <? c then (if (97 <=? c) && (c <=? 122) then to 450 else to 0)
    else if 65 <=? c then to 450 else to 0)
  else to 450.
Definition uri_case_450 (c : Z) : jump uri_action :=
  if c =? 33 then to 450
  else if c =? 36 then to 450
  else if c =? 61 then to 450
  else if c =? 93 then to 512
  else if c =? 95 then to 450
  else if c =? 126 then to 450
  else if c <? 48 then (if (38 <=? c) && (c <=? 46) then to 450 else to 0)
  else if 59 <? c then (if 90 <? c then (if (97 <=? c) && (c <=? 122) then to 450 else to 0)
    else if 65 <=? c then to 450 else to 0)
  else to 450.
Definition uri_case_451 (c : Z) : jump uri_action :=
  if c =? 34 then to 0
  else if c =? 35 then to 453
  else if c =? 37 then to 3
  else if c =? 47 then to 458
  else if c =? 58 then to 0
  else if c =? 60 then to 0
  else if c =? 62 then to 0
  else if c =? 63 then to 456
  else if c =? 96 then to 0
  else if c =? 127 then to 0
  else if c <? 91 then (if 32 <? c then (if 65 <=? c then uri_ctr_461 else to 452)
    else if 0 <=? c then to 0 else to 452)
  else if 94 <? c then (if 122 <? c then (if c <=? 125 then to 0 else to 452)
    else if 97 <=? c then uri_ctr_461 else to 452)
  else to 0.
Definition uri_case_452 (c : Z) : jump uri_action :=
  if c =? 34 then to 0
  else if c =? 35 then to 453
  else if c =? 37 then to 3
  else if c =? 47 then to 455
  else if c =? 58 then to 0
  else if c =? 60 then to 0
  else if c =? 62 then to 0
  else if c =? 63 then to 456
  else if c =? 96 then to 0
  else if c =? 127 then to 0
  else if c <? 91 then (if (0 <=? c) && (c <=? 32) then to 0 else to 452)
  else if 94 <? c then (if (123 <=? c) && (c <=? 125) then to 0 else to 452)
  else to 0.
Definition uri_case_453 (c : Z) : jump uri_action :=
  if c =? 37 then uri_ctr_463
  else if c =? 60 then to 0
  else if c =? 62 then to 0
  else if c =? 96 then to 0
  else if c =? 127 then to 0
  else if c <? 34 then (if (0 <=? c) && (c <=? 32) then to 0 else uri_ctr_462)
  else if 35 <? c then (if 94 <? c then (if (123 <=? c) && (c <=? 125) then to 0 else uri_ctr_462)
    else if 91 <=? c then to 0 else uri_ctr_462)
  else to 0.
Definition uri_case_454 (c : Z) : jump uri_action :=
  if c =? 37 then to 1
  else if c =? 60 then to 0
  else if c =? 62 then to 0
  else if c =? 96 then to 0
  else if c =? 127 then to 0
  else if c <? 34 then (if (0 <=? c) && (c <=? 32) then to 0 else to 454)
  else if 35 <? c then (if 94 <? c then (if (123 <=? c) && (c <=? 125) then to 0 else to 454)
    else if 91 <=? c then to 0 else to 454)
  else to 0.
Definition uri_case_455 (c : Z) : jump uri_action :=
  if c =? 34 then to 0
  else if c =? 35 then to 453
  else if c =? 37 then to 5
  else if c =? 60 then to 0
  else if c =? 62 then to 0
  else if c =? 63 then to 456
  else if c =? 96 then to 0
  else if c =? 127 then to 0
  else if c <? 91 then (if (0 <=? c) && (c <=? 32) then to 0 else to 455)
  else if 94 <? c then (if (123 <=? c) && (c <=? 125) then to 0 else to 455)
  else to 0.
Definition uri_case_456 (c : Z) : jump uri_action :=
  if c =? 34 then to 0
  else if c =? 35 then uri_ctr_467
  else if c =? 37 then uri_ctr_468
  else if c =? 60 then to 0
  else if c =? 62 then to 0
  else if c =? 96 then to 0
  else if c =? 127 then to 0
  else if c <? 91 then (if (0 <=? c) && (c <=? 32) then to 0 else uri_ctr_466)
  else if 94 <? c then (if (123 <=? c) && (c <=? 125) then to 0 else uri_ctr_466)
  else to 0.
Definition uri_case_457 (c : Z) : jump uri_action :=
  if c =? 34 then to 0
  else if c =? 35 then uri_ctr_469
  else if c =? 37 then to 7
  else if c =? 60 then to 0
  else if c =? 62 then to 0
  else if c =? 96 then to 0
  else if c =? 127 then to 0
  else if c <? 91 then (if (0 <=? c) && (c <=? 32) then to 0 else to 457)
  else if 94 <? c then (if (123 <=? c) && (c <=? 125) then to 0 else to 457)
  else to 0.
Definition uri_case_458 (c : Z) : jump uri_action :=
  if c =? 34 then to 0
  else if c =? 35 then to 453
  else if c =? 37 then to 5
  else if c =? 47 then to 459
  else if c =? 60 then to 0
  else if c =? 62 then to 0
  else if c =? 63 then to 456
  else if c =? 96 then to 0
  else if c =? 127 then to 0
  else if c <? 91 then (if (0 <=? c) && (c <=? 32) then to 0 else to 455)
  else if 94 <? c then (if (123 <=? c) && (c <=? 125) then to 0 else to 455)
  else to 0.
Definition uri_case_459 (c : Z) : jump uri_action :=
  if c =? 2 then uri_ctr_472
  else if c =? 33 then uri_ctr_473
  else if c =? 35 then uri_ctr_474
  else if c =? 37 then uri_ctr_475
  else if c =? 47 then uri_ctr_476
  else if c =? 48 then uri_ctr_477
  else if c =? 49 then uri_ctr_478
  else if c =? 50 then uri_ctr_479
  else if c =? 58 then uri_ctr_481
  else if c =? 59 then uri_ctr_473
  else if c =? 61 then uri_ctr_473
  else if c =? 63 then uri_ctr_482
  else if c =? 64 then uri_ctr_483
  else if c =? 91 then uri_ctr_484
  else if c =? 95 then uri_ctr_473
  else if c =? 126 then uri_ctr_473
  else if c <? 51 then (if (36 <=? c) && (c <=? 46) then uri_ctr_473 else to 0)
  else if 57 <? c then (if 90 <? c then (if (97 <=? c) && (c <=? 122) then uri_ctr_473 else to 0)
    else if 65 <=? c then uri_ctr_473 else to 0)
  else uri_ctr_480.
Definition uri_case_460 (c : Z) : jump uri_action :=
  if c =? 35 then uri_ctr_485
  else if c =? 47 then uri_ctr_486
  else if c =? 58 then uri_ctr_487
  else if c =? 63 then uri_ctr_488 else to 0.
Definition uri_case_461 (c : Z) : jump uri_action :=
  if c =? 35 then uri_ctr_489
  else if c =? 47 then uri_ctr_490
  else if c =? 63 then uri_ctr_492
  else if (48 <=? c) && (c <=? 57) then uri_ctr_491 else to 0.
Definition uri_case_462 (c : Z) : jump uri_action :=
  if c =? 35 then uri_ctr_493
  else if c =? 47 then uri_ctr_494
  else if c =? 63 then uri_ctr_496
  else if (48 <=? c) && (c <=? 57) then to 462 else to 0.
Definition uri_case_463 (c : Z) : jump uri_action :=
  if c =? 35 then uri_ctr_485
  else if c =? 47 then uri_ctr_486
  else if c =? 58 then uri_ctr_487
  else if c =? 63 then uri_ctr_488
  else if (48 <=? c) && (c <=? 57) then to 464 else to 0.
Definition uri_case_464 (c : Z) : jump uri_action :=
  if c =? 35 then uri_ctr_485
  else if c =? 47 then uri_ctr_486
  else if c =? 58 then uri_ctr_487
  else if c =? 63 then uri_ctr_488
  else if (48 <=? c) && (c <=? 57) then to 460 else to 0.
Definition uri_case_465 (c : Z) : jump uri_action :=
  if c =? 35 then uri_ctr_485
  else if c =? 47 then uri_ctr_486
  else if c =? 53 then to 466
  else if c =? 58 then uri_ctr_487
  else if c =? 63 then uri_ctr_488
  else if (48 <=? c) && (c <=? 57) then to 460 else to 0.
Definition uri_case_466 (c : Z) : jump uri_action :=
  if c =? 35 then uri_ctr_485
  else if c =? 47 then uri_ctr_486
  else if c =? 58 then uri_ctr_487
  else if c =? 63 then uri_ctr_488
  else if (48 <=? c) && (c <=? 53) then to 460 else to 0.
Definition uri_case_467 (c : Z) : jump uri_action :=
  if c =? 33 then to 467
  else if c =? 35 then uri_ctr_485
  else if c =? 37 then to 31
  else if c =? 47 then uri_ctr_486
  else if c =? 58 then uri_ctr_499
  else if c =? 61 then to 467
  else if c =? 63 then uri_ctr_488
  else if c =? 64 then uri_ctr_38
  else if c =? 95 then to 467
  else if c =? 126 then to 467
  else if c <? 65 then (if (36 <=? c) && (c <=? 59) then to 467 else to 0)
  else if 90 <? c then (if (97 <=? c) && (c <=? 122) then to 467 else to 0)
  else to 467.
Definition uri_case_468 (c : Z) : jump uri_action :=
  if c =? 33 then to 33
  else if c =? 35 then uri_ctr_489
  else if c =? 37 then to 34
  else if c =? 47 then uri_ctr_490
  else if c =? 61 then to 33
  else if c =? 63 then uri_ctr_492
  else if c =? 64 then uri_ctr_38
  else if c =? 95 then to 33
  else if c =? 126 then to 33
  else if c <? 58 then (if 46 <? c then (if 48 <=? c then uri_ctr_500 else to 0)
    else if 36 <=? c then to 33 else to 0)
  else if 59 <? c then (if 90 <? c then (if (97 <=? c) && (c <=? 122) then to 33 else to 0)
    else if 65 <=? c then to 33 else to 0)
  else to 33.
Definition uri_case_469 (c : Z) : jump uri_action :=
  if c =? 2 then uri_ctr_472
  else if c =? 33 then uri_ctr_501
  else if c =? 35 then uri_ctr_474
  else if c =? 37 then uri_ctr_502
  else if c =? 47 then uri_ctr_476
  else if c =? 48 then uri_ctr_503
  else if c =? 49 then uri_ctr_504
  else if c =? 50 then uri_ctr_505
  else if c =? 58 then uri_ctr_507
  else if c =? 59 then uri_ctr_501
  else if c =? 61 then uri_ctr_501
  else if c =? 63 then uri_ctr_482
  else if c =? 91 then uri_ctr_484
  else if c =? 95 then uri_ctr_501
  else if c =? 126 then uri_ctr_501
  else if c <? 51 then (if (36 <=? c) && (c <=? 46) then uri_ctr_501 else to 0)
  else if 57 <? c then (if 90 <? c then (if (97 <=? c) && (c <=? 122) then uri_ctr_501 else to 0)
    else if 65 <=? c then uri_ctr_501 else to 0)
  else uri_ctr_506.
Definition uri_case_470 (c : Z) : jump uri_action :=
  if c =? 33 then to 470
  else if c =? 35 then uri_ctr_485
  else if c =? 37 then to 36
  else if c =? 47 then uri_ctr_486
  else if c =? 58 then uri_ctr_487
  else if c =? 61 then to 470
  else if c =? 63 then uri_ctr_488
  else if c =? 95 then to 470
  else if c =? 126 then to 470
  else if c <? 65 then (if (36 <=? c) && (c <=? 59) then to 470 else to 0)
  else if 90 <? c then (if (97 <=? c) && (c <=? 122) then to 470 else to 0)
  else to 470.
Definition uri_case_471 (c : Z) : jump uri_action :=
  if c =? 33 then to 470
  else if c =? 35 then uri_ctr_485
  else if c =? 37 then to 36
  else if c =? 46 then to 472
  else if c =? 47 then uri_ctr_486
  else if c =? 58 then uri_ctr_487
  else if c =? 61 then to 470
  else if c =? 63 then uri_ctr_488
  else if c =? 95 then to 470
  else if c =? 126 then to 470
  else if c <? 65 then (if (36 <=? c) && (c <=? 59) then to 470 else to 0)
  else if 90 <? c then (if (97 <=? c) && (c <=? 122) then to 470 else to 0)
  else to 470.
Definition uri_case_472 (c : Z) : jump uri_action :=
  if c =? 2 then to 13
  else if c =? 33 then to 470
  else if c =? 35 then uri_ctr_485
  else if c =? 37 then to 36
  else if c =? 47 then uri_ctr_486
  else if c =? 48 then to 473
  else if c =? 49 then to 481
  else if c =? 50 then to 483
  else if c =? 58 then uri_ctr_487
  else if c =? 59 then to 470
  else if c =? 61 then to 470
  else if c =? 63 then uri_ctr_488
  else if c =? 95 then to 470
  else if c =? 126 then to 470
  else if c <? 51 then (if (36 <=? c) && (c <=? 46) then to 470 else to 0)
  else if 57 <? c then (if 90 <? c then (if (97 <=? c) && (c <=? 122) then to 470 else to 0)
    else if 65 <=? c then to 470 else to 0)
  else to 482.
Definition uri_case_473 (c : Z) : jump uri_action :=
  if c =? 33 then to 470
  else if c =? 35 then uri_ctr_485
  else if c =? 37 then to 36
  else if c =? 46 then to 474
  else if c =? 47 then uri_ctr_486
  else if c =? 58 then uri_ctr_487
  else if c =? 61 then to 470
  else if c =? 63 then uri_ctr_488
  else if c =? 95 then to 470
  else if c =? 126 then to 470
  else if c <? 65 then (if (36 <=? c) && (c <=? 59) then to 470 else to 0)
  else if 90 <? c then (if (97 <=? c) && (c <=? 122) then to 470 else to 0)
  else to 470.
Definition uri_case_474 (c : Z) : jump uri_action :=
  if c =? 2 then to 17
  else if c =? 33 then to 470
  else if c =? 35 then uri_ctr_485
  else if c =? 37 then to 36
  else if c =? 47 then uri_ctr_486
  else if c =? 48 then to 475
  else if c =? 49 then to 477
  else if c =? 50 then to 479
  else if c =? 58 then uri_ctr_487
  else if c =? 59 then to 470
  else if c =? 61 then to 470
  else if c =? 63 then uri_ctr_488
  else if c =? 95 then to 470
  else if c =? 126 then to 470
  else if c <? 51 then (if (36 <=? c) && (c <=? 46) then to 470 else to 0)
  else if 57 <? c then (if 90 <? c then (if (97 <=? c) && (c <=? 122) then to 470 else to 0)
    else if 65 <=? c then to 470 else to 0)
  else to 478.
Definition uri_case_475 (c : Z) : jump uri_action :=
  if c =? 33 then to 470
  else if c =? 35 then uri_ctr_485
  else if c =? 37 then to 36
  else if c =? 46 then to 476
  else if c =? 47 then uri_ctr_486
  else if c =? 58 then uri_ctr_487
  else if c =? 61 then to 470
  else if c =? 63 then uri_ctr_488
  else if c =? 95 then to 470
  else if c =? 126 then to 470
  else if c <? 65 then (if (36 <=? c) && (c <=? 59) then to 470 else to 0)
  else if 90 <? c then (if (97 <=? c) && (c <=? 122) then to 470 else to 0)
  else to 470.
Definition uri_case_476 (c : Z) : jump uri_action :=
  if c =? 2 then to 21
  else if c =? 33 then to 470
  else if c =? 35 then uri_ctr_485
  else if c =? 37 then to 36
  else if c =? 47 then uri_ctr_486
  else if c =? 58 then uri_ctr_487
  else if c =? 61 then to 470
  else if c =? 63 then uri_ctr_488
  else if c =? 95 then to 470
  else if c =? 126 then to 470
  else if c <? 65 then (if (36 <=? c) && (c <=? 59) then to 470 else to 0)
  else if 90 <? c then (if (97 <=? c) && (c <=? 122) then to 470 else to 0)
  else to 470.
Definition uri_case_477 (c : Z) : jump uri_action :=
  if c =? 33 then to 470
  else if c =? 35 then uri_ctr_485
  else if c =? 37 then to 36
  else if c =? 46 then to 476
  else if c =? 47 then uri_ctr_486
  else if c =? 58 then uri_ctr_487
  else if c =? 59 then to 470
  else if c =? 61 then to 470
  else if c =? 63 then uri_ctr_488
  else if c =? 95 then to 470
  else if c =? 126 then to 470
  else if c <? 48 then (if (36 <=? c) && (c <=? 45) then to 470 else to 0)
  else if 57 <? c then (if 90 <? c then (if (97 <=? c) && (c <=? 122) then to 470 else to 0)
    else if 65 <=? c then to 470 else to 0)
  else to 478.
Definition uri_case_478 (c : Z) : jump uri_action :=
  if c =? 33 then to 470
  else if c =? 35 then uri_ctr_485
  else if c =? 37 then to 36
  else if c =? 46 then to 476
  else if c =? 47 then uri_ctr_486
  else if c =? 58 then uri_ctr_487
  else if c =? 59 then to 470
  else if c =? 61 then to 470
  else if c =? 63 then uri_ctr_488
  else if c =? 95 then to 470
  else if c =? 126 then to 470
  else if c <? 48 then (if (36 <=? c) && (c <=? 45) then to 470 else to 0)
  else if 57 <? c then (if 90 <? c then (if (97 <=? c) && (c <=? 122) then to 470 else to 0)
    else if 65 <=? c then to 470 else to 0)
  else to 475.
Definition uri_case_479 (c : Z) : jump uri_action :=
  if c =? 33 then to 470
  else if c =? 35 then uri_ctr_485
  else if c =? 37 then to 36
  else if c =? 46 then to 476
  else if c =? 47 then uri_ctr_486
  else if c =? 53 then to 480
  else if c =? 58 then uri_ctr_487
  else if c =? 59 then to 470
  else if c =? 61 then to 470
  else if c =? 63 then uri_ctr_488
  else if c =? 95 then to 470
  else if c =? 126 then to 470
  else if c <? 48 then (if (36 <=? c) && (c <=? 45) then to 470 else to 0)
  else if 57 <? c then (if 90 <? c then (if (97 <=? c) && (c <=? 122) then to 470 else to 0)
    else if 65 <=? c then to 470 else to 0)
  else to 475.
Definition uri_case_480 (c : Z) : jump uri_action :=
  if c =? 33 then to 470
  else if c =? 35 then uri_ctr_485
  else if c =? 37 then to 36
  else if c =? 46 then to 476
  else if c =? 47 then uri_ctr_486
  else if c =? 58 then uri_ctr_487
  else if c =? 61 then to 470
  else if c =? 63 then uri_ctr_488
  else if c =? 95 then to 470
  else if c =? 126 then to 470
  else if c <? 54 then (if 45 <? c then (if 48 <=? c then to 475 else to 0)
    else if 36 <=? c then to 470 else to 0)
  else if 59 <? c then (if 90 <? c then (if (97 <=? c) && (c <=? 122) then to 470 else to 0)
    else if 65 <=? c then to 470 else to 0)
  else to 470.
Definition uri_case_481 (c : Z) : jump uri_action :=
  if c =? 33 then to 470
  else if c =? 35 then uri_ctr_485
  else if c =? 37 then to 36
  else if c =? 46 then to 474
  else if c =? 47 then uri_ctr_486
  else if c =? 58 then uri_ctr_487
  else if c =? 59 then to 470
  else if c =? 61 then to 470
  else if c =? 63 then uri_ctr_488
  else if c =? 95 then to 470
  else if c =? 126 then to 470
  else if c <? 48 then (if (36 <=? c) && (c <=? 45) then to 470 else to 0)
  else if 57 <? c then (if 90 <? c then (if (97 <=? c) && (c <=? 122) then to 470 else to 0)
    else if 65 <=? c then to 470 else to 0)
  else to 482.
Definition uri_case_482 (c : Z) : jump uri_action :=
  if c =? 33 then to 470
  else if c =? 35 then uri_ctr_485
  else if c =? 37 then to 36
  else if c =? 46 then to 474
  else if c =? 47 then uri_ctr_486
  else if c =? 58 then uri_ctr_487
  else if c =? 59 then to 470
  else if c =? 61 then to 470
  else if c =? 63 then uri_ctr_488
  else if c =? 95 then to 470
  else if c =? 126 then to 470
  else if c <? 48 then (if (36 <=? c) && (c <=? 45) then to 470 else to 0)
  else if 57 <? c then (if 90 <? c then (if (97 <=? c) && (c <=? 122) then to 470 else to 0)
    else if 65 <=? c then to 470 else to 0)
  else to 473.
Definition uri_case_483 (c : Z) : jump uri_action :=
  if c =? 33 then to 470
  else if c =? 35 then uri_ctr_485
  else if c =? 37 then to 36
  else if c =? 46 then to 474
  else if c =? 47 then uri_ctr_486
  else if c =? 53 then to 484
  else if c =? 58 then uri_ctr_487
  else if c =? 59 then to 470
  else if c =? 61 then to 470
  else if c =? 63 then uri_ctr_488
  else if c =? 95 then to 470
  else if c =? 126 then to 470
  else if c <? 48 then (if (36 <=? c) && (c <=? 45) then to 470 else to 0)
  else if 57 <? c then (if 90 <? c then (if (97 <=? c) && (c <=? 122) then to 470 else to 0)
    else if 65 <=? c then to 470 else to 0)
  else to 473.
Definition uri_case_484 (c : Z) : jump uri_action :=
  if c =? 33 then to 470
  else if c =? 35 then uri_ctr_485
  else if c =? 37 then to 36
  else if c =? 46 then to 474
  else if c =? 47 then uri_ctr_486
  else if c =? 58 then uri_ctr_487
  else if c =? 61 then to 470
  else if c =? 63 then uri_ctr_488
  else if c =? 95 then to 470
  else if c =? 126 then to 470
  else if c <? 54 then (if 45 <? c then (if 48 <=? c then to 473 else to 0)
    else if 36 <=? c then to 470 else to 0)
  else if 59 <? c then (if 90 <? c then (if (97 <=? c) && (c <=? 122) then to 470 else to 0)
    else if 65 <=? c then to 470 else to 0)
  else to 470.
Definition uri_case_485 (c : Z) : jump uri_action :=
  if c =? 33 then to 470
  else if c =? 35 then uri_ctr_485
  else if c =? 37 then to 36
  else if c =? 46 then to 472
  else if c =? 47 then uri_ctr_486
  else if c =? 58 then uri_ctr_487
  else if c =? 59 then to 470
  else if c =? 61 then to 470
  else if c =? 63 then uri_ctr_488
  else if c =? 95 then to 470
  else if c =? 126 then to 470
  else if c <? 48 then (if (36 <=? c) && (c <=? 45) then to 470 else to 0)
  else if 57 <? c then (if 90 <? c then (if (97 <=? c) && (c <=? 122) then to 470 else to 0)
    else if 65 <=? c then to 470 else to 0)
  else to 486.
Definition uri_case_486 (c : Z) : jump uri_action :=
  if c =? 33 then to 470
  else if c =? 35 then uri_ctr_485
  else if c =? 37 then to 36
  else if c =? 46 then to 472
  else if c =? 47 then uri_ctr_486
  else if c =? 58 then uri_ctr_487
  else if c =? 59 then to 470
  else if c =? 61 then to 470
  else if c =? 63 then uri_ctr_488
  else if c =? 95 then to 470
  else if c =? 126 then to 470
  else if c <? 48 then (if (36 <=? c) && (c <=? 45) then to 470 else to 0)
  else if 57 <? c then (if 90 <? c then (if (97 <=? c) && (c <=? 122) then to 470 else to 0)
    else if 65 <=? c then to 470 else to 0)
  else to 471.
Definition uri_case_487 (c : Z) : jump uri_action :=
  if c =? 33 then to 470
  else if c =? 35 then uri_ctr_485
  else if c =? 37 then to 36
  else if c =? 46 then to 472
  else if c =? 47 then uri_ctr_486
  else if c =? 53 then to 488
  else if c =? 58 then uri_ctr_487
  else if c =? 59 then to 470
  else if c =? 61 then to 470
  else if c =? 63 then uri_ctr_488
  else if c =? 95 then to 470
  else if c =? 126 then to 470
  else if c <? 48 then (if (36 <=? c) && (c <=? 45) then to 470 else to 0)
  else if 57 <? c then (if 90 <? c then (if (97 <=? c) && (c <=? 122) then to 470 else to 0)
    else if 65 <=? c then to 470 else to 0)
  else to 471.
Definition uri_case_488 (c : Z) : jump uri_action :=
  if c =? 33 then to 470
  else if c =? 35 then uri_ctr_485
  else if c =? 37 then to 36
  else if c =? 46 then to 472
  else if c =? 47 then uri_ctr_486
  else if c =? 58 then uri_ctr_487
  else if c =? 61 then to 470
  else if c =? 63 then uri_ctr_488
  else if c =? 95 then to 470
  else if c =? 126 then to 470
  else if c <? 54 then (if 45 <? c then (if 48 <=? c then to 471 else to 0)
    else if 36 <=? c then to 470 else to 0)
  else if 59 <? c then (if 90 <? c then (if (97 <=? c) && (c <=? 122) then to 470 else to 0)
    else if 65 <=? c then to 470 else to 0)
  else to 470.
Definition uri_case_489 (c : Z) : jump uri_action :=
  if c =? 33 then to 33
  else if c =? 35 then uri_ctr_493
  else if c =? 37 then to 34
  else if c =? 47 then uri_ctr_494
  else if c =? 61 then to 33
  else if c =? 63 then uri_ctr_496
  else if c =? 64 then uri_ctr_38
  else if c =? 95 then to 33
  else if c =? 126 then to 33
  else if c <? 58 then (if 46 <? c then (if 48 <=? c then to 489 else to 0)
    else if 36 <=? c then to 33 else to 0)
  else if 59 <? c then (if 90 <? c then (if (97 <=? c) && (c <=? 122) then to 33 else to 0)
    else if 65 <=? c then to 33 else to 0)
  else to 33.
Definition uri_case_490 (c : Z) : jump uri_action :=
  if c =? 33 then to 467
  else if c =? 35 then uri_ctr_485
  else if c =? 37 then to 31
  else if c =? 46 then to 491
  else if c =? 47 then uri_ctr_486
  else if c =? 58 then uri_ctr_499
  else if c =? 61 then to 467
  else if c =? 63 then uri_ctr_488
  else if c =? 64 then uri_ctr_38
  else if c =? 95 then to 467
  else if c =? 126 then to 467
  else if c <? 65 then (if (36 <=? c) && (c <=? 59) then to 467 else to 0)
  else if 90 <? c then (if (97 <=? c) && (c <=? 122) then to 467 else to 0)
  else to 467.
Definition uri_case_491 (c : Z) : jump uri_action :=
  if c =? 2 then to 13
  else if c =? 33 then to 467
  else if c =? 35 then uri_ctr_485
  else if c =? 37 then to 31
  else if c =? 47 then uri_ctr_486
  else if c =? 48 then to 492
  else if c =? 49 then to 500
  else if c =? 50 then to 502
  else if c =? 58 then uri_ctr_499
  else if c =? 59 then to 467
  else if c =? 61 then to 467
  else if c =? 63 then uri_ctr_488
  else if c =? 64 then uri_ctr_38
  else if c =? 95 then to 467
  else if c =? 126 then to 467
  else if c <? 51 then (if (36 <=? c) && (c <=? 46) then to 467 else to 0)
  else if 57 <? c then (if 90 <? c then (if (97 <=? c) && (c <=? 122) then to 467 else to 0)
    else if 65 <=? c then to 467 else to 0)
  else to 501.
Definition uri_case_492 (c : Z) : jump uri_action :=
  if c =? 33 then to 467
  else if c =? 35 then uri_ctr_485
  else if c =? 37 then to 31
  else if c =? 46 then to 493
  else if c =? 47 then uri_ctr_486
  else if c =? 58 then uri_ctr_499
  else if c =? 61 then to 467
  else if c =? 63 then uri_ctr_488
  else if c =? 64 then uri_ctr_38
  else if c =? 95 then to 467
  else if c =? 126 then to 467
  else if c <? 65 then (if (36 <=? c) && (c <=? 59) then to 467 else to 0)
  else if 90 <? c then (if (97 <=? c) && (c <=? 122) then to 467 else to 0)
  else to 467.
Definition uri_case_493 (c : Z) : jump uri_action :=
  if c =? 2 then to 17
  else if c =? 33 then to 467
  else if c =? 35 then uri_ctr_485
  else if c =? 37 then to 31
  else if c =? 47 then uri_ctr_486
  else if c =? 48 then to 494
  else if c =? 49 then to 496
  else if c =? 50 then to 498
  else if c =? 58 then uri_ctr_499
  else if c =? 59 then to 467
  else if c =? 61 then to 467
  else if c =? 63 then uri_ctr_488
  else if c =? 64 then uri_ctr_38
  else if c =? 95 then to 467
  else if c =? 126 then to 467
  else if c <? 51 then (if (36 <=? c) && (c <=? 46) then to 467 else to 0)
  else if 57 <? c then (if 90 <? c then (if (97 <=? c) && (c <=? 122) then to 467 else to 0)
    else if 65 <=? c then to 467 else to 0)
  else to 497.
Definition uri_case_494 (c : Z) : jump uri_action :=
  if c =? 33 then to 467
  else if c =? 35 then uri_ctr_485
  else if c =? 37 then to 31
  else if c =? 46 then to 495
  else if c =? 47 then uri_ctr_486
  else if c =? 58 then uri_ctr_499
  else if c =? 61 then to 467
  else if c =? 63 then uri_ctr_488
  else if c =? 64 then uri_ctr_38
  else if c =? 95 then to 467
  else if c =? 126 then to 467
  else if c <? 65 then (if (36 <=? c) && (c <=? 59) then to 467 else to 0)
  else if 90 <? c then (if (97 <=? c) && (c <=? 122) then to 467 else to 0)
  else to 467.
Definition uri_case_495 (c : Z) : jump uri_action :=
  if c =? 2 then to 21
  else if c =? 33 then to 467
  else if c =? 35 then uri_ctr_485
  else if c =? 37 then to 31
  else if c =? 47 then uri_ctr_486
  else if c =? 58 then uri_ctr_499
  else if c =? 61 then to 467
  else if c =? 63 then uri_ctr_488
  else if c =? 64 then uri_ctr_38
  else if c =? 95 then to 467
  else if c =? 126 then to 467
  else if c <? 65 then (if (36 <=? c) && (c <=? 59) then to 467 else to 0)
  else if 90 <? c then (if (97 <=? c) && (c <=? 122) then to 467 else to 0)
  else to 467.
Definition uri_case_496 (c : Z) : jump uri_action :=
  if c =? 33 then to 467
  else if c =? 35 then uri_ctr_485
  else if c =? 37 then to 31
  else if c =? 46 then to 495
  else if c =? 47 then uri_ctr_486
  else if c =? 58 then uri_ctr_499
  else if c =? 59 then to 467
  else if c =? 61 then to 467
  else if c =? 63 then uri_ctr_488
  else if c =? 64 then uri_ctr_38
  else if c =? 95 then to 467
  else if c =? 126 then to 467
  else if c <? 48 then (if (36 <=? c) && (c <=? 45) then to 467 else to 0)
  else if 57 <? c then (if 90 <? c then (if (97 <=? c) && (c <=? 122) then to 467 else to 0)
    else if 65 <=? c then to 467 else to 0)
  else to 497.
Definition uri_case_497 (c : Z) : jump uri_action :=
  if c =? 33 then to 467
  else if c =? 35 then uri_ctr_485
  else if c =? 37 then to 31
  else if c =? 46 then to 495
  else if c =? 47 then uri_ctr_486
  else if c =? 58 then uri_ctr_499
  else if c =? 59 then to 467
  else if c =? 61 then to 467
  else if c =? 63 then uri_ctr_488
  else if c =? 64 then uri_ctr_38
  else if c =? 95 then to 467
  else if c =? 126 then to 467
  else if c <? 48 then (if (36 <=? c) && (c <=? 45) then to 467 else to 0)
  else if 57 <? c then (if 90 <? c then (if (97 <=? c) && (c <=? 122) then to 467 else to 0)
    else if 65 <=? c then to 467 else to 0)
  else to 494.
Definition uri_case_498 (c : Z) : jump uri_action :=
  if c =? 33 then to 467
  else if c =? 35 then uri_ctr_485
  else if c =? 37 then to 31
  else if c =? 46 then to 495
  else if c =? 47 then uri_ctr_486
  else if c =? 53 then to 499
  else if c =? 58 then uri_ctr_499
  else if c =? 59 then to 467
  else if c =? 61 then to 467
  else if c =? 63 then uri_ctr_488
  else if c =? 64 then uri_ctr_38
  else if c =? 95 then to 467
  else if c =? 126 then to 467
  else if c <? 48 then (if (36 <=? c) && (c <=? 45) then to 467 else to 0)
  else if 57 <? c then (if 90 <? c then (if (97 <=? c) && (c <=? 122) then to 467 else to 0)
    else if 65 <=? c then to 467 else to 0)
  else to 494.
Definition uri_case_499 (c : Z) : jump uri_action :=
  if c =? 33 then to 467
  else if c =? 35 then uri_ctr_485
  else if c =? 37 then to 31
  else if c =? 46 then to 495
  else if c =? 47 then uri_ctr_486
  else if c =? 58 then uri_ctr_499
  else if c =? 61 then to 467
  else if c =? 63 then uri_ctr_488
  else if c =? 64 then uri_ctr_38
  else if c =? 95 then to 467
  else if c =? 126 then to 467
  else if c <? 54 then (if 45 <? c then (if 48 <=? c then to 494 else to 0)
    else if 36 <=? c then to 467 else to 0)
  else if 59 <? c then (if 90 <? c then (if (97 <=? c) && (c <=? 122) then to 467 else to 0)
    else if 65 <=? c then to 467 else to 0)
  else to 467.
Definition uri_case_500 (c : Z) : jump uri_action :=
  if c =? 33 then to 467
  else if c =? 35 then uri_ctr_485
  else if c =? 37 then to 31
  else if c =? 46 then to 493
  else if c =? 47 then uri_ctr_486
  else if c =? 58 then uri_ctr_499
  else if c =? 59 then to 467
  else if c =? 61 then to 467
  else if c =? 63 then uri_ctr_488
  else if c =? 64 then uri_ctr_38
  else if c =? 95 then to 467
  else if c =? 126 then to 467
  else if c <? 48 then (if (36 <=? c) && (c <=? 45) then to 467 else to 0)
  else if 57 <? c then (if 90 <? c then (if (97 <=? c) && (c <=? 122) then to 467 else to 0)
    else if 65 <=? c then to 467 else to 0)
  else to 501.
Definition uri_case_501 (c : Z) : jump uri_action :=
  if c =? 33 then to 467
  else if c =? 35 then uri_ctr_485
  else if c =? 37 then to 31
  else if c =? 46 then to 493
  else if c =? 47 then uri_ctr_486
  else if c =? 58 then uri_ctr_499
  else if c =? 59 then to 467
  else if c =? 61 then to 467
  else if c =? 63 then uri_ctr_488
  else if c =? 64 then uri_ctr_38
  else if c =? 95 then to 467
  else if c =? 126 then to 467
  else if c <? 48 then (if (36 <=? c) && (c <=? 45) then to 467 else to 0)
  else if 57 <? c then (if 90 <? c then (if (97 <=? c) && (c <=? 122) then to 467 else to 0)
    else if 65 <=? c then to 467 else to 0)
  else to 492.
Definition uri_case_502 (c : Z) : jump uri_action :=
  if c =? 33 then to 467
  else if c =? 35 then uri_ctr_485
  else if c =? 37 then to 31
  else if c =? 46 then to 493
  else if c =? 47 then uri_ctr_486
  else if c =? 53 then to 503
  else if c =? 58 then uri_ctr_499
  else if c =? 59 then to 467
  else if c =? 61 then to 467
  else if c =? 63 then uri_ctr_488
  else if c =? 64 then uri_ctr_38
  else if c =? 95 then to 467
  else if c =? 126 then to 467
  else if c <? 48 then (if (36 <=? c) && (c <=? 45) then to 467 else to 0)
  else if 57 <? c then (if 90 <? c then (if (97 <=? c) && (c <=? 122) then to 467 else to 0)
    else if 65 <=? c then to 467 else to 0)
  else to 492.
Definition uri_case_503 (c : Z) : jump uri_action :=
  if c =? 33 then to 467
  else if c =? 35 then uri_ctr_485
  else if c =? 37 then to 31
  else if c =? 46 then to 493
  else if c =? 47 then uri_ctr_486
  else if c =? 58 then uri_ctr_499
  else if c =? 61 then to 467
  else if c =? 63 then uri_ctr_488
  else if c =? 64 then uri_ctr_38
  else if c =? 95 then to 467
  else if c =? 126 then to 467
  else if c <? 54 then (if 45 <? c then (if 48 <=? c then to 492 else to 0)
    else if 36 <=? c then to 467 else to 0)
  else if 59 <? c then (if 90 <? c then (if (97 <=? c) && (c <=? 122) then to 467 else to 0)
    else if 65 <=? c then to 467 else to 0)
  else to 467.
Definition uri_case_504 (c : Z) : jump uri_action :=
  if c =? 33 then to 467
  else if c =? 35 then uri_ctr_485
  else if c =? 37 then to 31
  else if c =? 46 then to 491
  else if c =? 47 then uri_ctr_486
  else if c =? 58 then uri_ctr_499
  else if c =? 59 then to 467
  else if c =? 61 then to 467
  else if c =? 63 then uri_ctr_488
  else if c =? 64 then uri_ctr_38
  else if c =? 95 then to 467
  else if c =? 126 then to 467
  else if c <? 48 then (if (36 <=? c) && (c <=? 45) then to 467 else to 0)
  else if 57 <? c then (if 90 <? c then (if (97 <=? c) && (c <=? 122) then to 467 else to 0)
    else if 65 <=? c then to 467 else to 0)
  else to 505.
Definition uri_case_505 (c : Z) : jump uri_action :=
  if c =? 33 then to 467
  else if c =? 35 then uri_ctr_485
  else if c =? 37 then to 31
  else if c =? 46 then to 491
  else if c =? 47 then uri_ctr_486
  else if c =? 58 then uri_ctr_499
  else if c =? 59 then to 467
  else if c =? 61 then to 467
  else if c =? 63 then uri_ctr_488
  else if c =? 64 then uri_ctr_38
  else if c =? 95 then to 467
  else if c =? 126 then to 467
  else if c <? 48 then (if (36 <=? c) && (c <=? 45) then to 467 else to 0)
  else if 57 <? c then (if 90 <? c then (if (97 <=? c) && (c <=? 122) then to 467 else to 0)
    else if 65 <=? c then to 467 else to 0)
  else to 490.
Definition uri_case_506 (c : Z) : jump uri_action :=
  if c =? 33 then to 467
  else if c =? 35 then uri_ctr_485
  else if c =? 37 then to 31
  else if c =? 46 then to 491
  else if c =? 47 then uri_ctr_486
  else if c =? 53 then to 507
  else if c =? 58 then uri_ctr_499
  else if c =? 59 then to 467
  else if c =? 61 then to 467
  else if c =? 63 then uri_ctr_488
  else if c =? 64 then uri_ctr_38
  else if c =? 95 then to 467
  else if c =? 126 then to 467
  else if c <? 48 then (if (36 <=? c) && (c <=? 45) then to 467 else to 0)
  else if 57 <? c then (if 90 <? c then (if (97 <=? c) && (c <=? 122) then to 467 else to 0)
    else if 65 <=? c then to 467 else to 0)
  else to 490.
Definition uri_case_507 (c : Z) : jump uri_action :=
  if c =? 33 then to 467
  else if c =? 35 then uri_ctr_485
  else if c =? 37 then to 31
  else if c =? 46 then to 491
  else if c =? 47 then uri_ctr_486
  else if c =? 58 then uri_ctr_499
  else if c =? 61 then to 467
  else if c =? 63 then uri_ctr_488
  else if c =? 64 then uri_ctr_38
  else if c =? 95 then to 467
  else if c =? 126 then to 467
  else if c <? 54 then (if 45 <? c then (if 48 <=? c then to 490 else to 0)
    else if 36 <=? c then to 467 else to 0)
  else if 59 <? c then (if 90 <? c then (if (97 <=? c) && (c <=? 122) then to 467 else to 0)
    else if 65 <=? c then to 467 else to 0)
  else to 467.
Definition uri_case_508 (c : Z) : jump uri_action :=
  if c =? 34 then to 0
  else if c =? 35 then to 453
  else if c =? 37 then to 3
  else if c =? 43 then to 508
  else if c =? 47 then to 455
  else if c =? 58 then uri_ctr_543
  else if c =? 60 then to 0
  else if c =? 62 then to 0
  else if c =? 63 then to 456
  else if c =? 96 then to 0
  else if c =? 127 then to 0
  else if c <? 65 then (if 32 <? c then (if (45 <=? c) && (c <=? 57) then to 508 else to 452)
    else if 0 <=? c then to 0 else to 452)
  else if 90 <? c then (if c <? 97 then (if c <=? 94 then to 0 else to 452)
    else if 122 <? c then (if c <=? 125 then to 0 else to 452)
    else to 508)
  else to 508.
Definition uri_case_509 (c : Z) : jump uri_action :=
  if c =? 34 then to 0
  else if c =? 35 then to 453
  else if c =? 37 then to 5
  else if c =? 47 then to 510
  else if c =? 60 then to 0
  else if c =? 62 then to 0
  else if c =? 63 then to 456
  else if c =? 96 then to 0
  else if c =? 127 then to 0
  else if c <? 91 then (if (0 <=? c) && (c <=? 32) then to 0 else to 455)
  else if 94 <? c then (if (123 <=? c) && (c <=? 125) then to 0 else to 455)
  else to 0.
Definition uri_case_510 (c : Z) : jump uri_action :=
  if c =? 34 then to 0
  else if c =? 35 then to 453
  else if c =? 37 then to 5
  else if c =? 47 then to 511
  else if c =? 60 then to 0
  else if c =? 62 then to 0
  else if c =? 63 then to 456
  else if c =? 96 then to 0
  else if c =? 127 then to 0
  else if c <? 91 then (if (0 <=? c) && (c <=? 32) then to 0 else to 455)
  else if 94 <? c then (if (123 <=? c) && (c <=? 125) then to 0 else to 455)
  else to 0.
Definition uri_case_511 (c : Z) : jump uri_action :=
  if c =? 2 then uri_ctr_546
  else if c =? 33 then uri_ctr_547
  else if c =? 35 then uri_ctr_548
  else if c =? 37 then uri_ctr_549
  else if c =? 47 then uri_ctr_550
  else if c =? 48 then uri_ctr_551
  else if c =? 49 then uri_ctr_552
  else if c =? 50 then uri_ctr_553
  else if c =? 58 then uri_ctr_555
  else if c =? 59 then uri_ctr_547
  else if c =? 61 then uri_ctr_547
  else if c =? 63 then uri_ctr_556
  else if c =? 64 then uri_ctr_557
  else if c =? 91 then uri_ctr_558
  else if c =? 95 then uri_ctr_547
  else if c =? 126 then uri_ctr_547
  else if c <? 51 then (if (36 <=? c) && (c <=? 46) then uri_ctr_547 else to 0)
  else if 57 <? c then (if 90 <? c then (if (97 <=? c) && (c <=? 122) then uri_ctr_547 else to 0)
    else if 65 <=? c then uri_ctr_547 else to 0)
  else uri_ctr_554.
Definition uri_case_512 (c : Z) : jump uri_action :=
  if c =? 35 then uri_ctr_559
  else if c =? 47 then uri_ctr_560
  else if c =? 58 then uri_ctr_561
  else if c =? 63 then uri_ctr_562 else to 0.
Definition uri_case_513 (c : Z) : jump uri_action :=
  if c =? 34 then to 0
  else if c =? 35 then uri_ctr_563
  else if c =? 37 then to 243
  else if c =? 60 then to 0
  else if c =? 62 then to 0
  else if c =? 63 then uri_ctr_565
  else if c =? 96 then to 0
  else if c =? 127 then to 0
  else if c <? 91 then (if (0 <=? c) && (c <=? 32) then to 0 else to 513)
  else if 94 <? c then (if (123 <=? c) && (c <=? 125) then to 0 else to 513)
  else to 0.
Definition uri_case_514 (c : Z) : jump uri_action :=
  if c =? 35 then uri_ctr_566
  else if c =? 47 then uri_ctr_567
  else if c =? 63 then uri_ctr_569
  else if (48 <=? c) && (c <=? 57) then uri_ctr_568 else to 0.
Definition uri_case_515 (c : Z) : jump uri_action :=
  if c =? 35 then uri_ctr_570
  else if c =? 47 then uri_ctr_571
  else if c =? 63 then uri_ctr_573
  else if (48 <=? c) && (c <=? 57) then to 515 else to 0.
Definition uri_case_516 (c : Z) : jump uri_action :=
  if c =? 35 then uri_ctr_559
  else if c =? 47 then uri_ctr_560
  else if c =? 58 then uri_ctr_561
  else if c =? 63 then uri_ctr_562
  else if (48 <=? c) && (c <=? 57) then to 517 else to 0.
Definition uri_case_517 (c : Z) : jump uri_action :=
  if c =? 35 then uri_ctr_559
  else if c =? 47 then uri_ctr_560
  else if c =? 58 then uri_ctr_561
  else if c =? 63 then uri_ctr_562
  else if (48 <=? c) && (c <=? 57) then to 512 else to 0.
Definition uri_case_518 (c : Z) : jump uri_action :=
  if c =? 35 then uri_ctr_559
  else if c =? 47 then uri_ctr_560
  else if c =? 53 then to 519
  else if c =? 58 then uri_ctr_561
  else if c =? 63 then uri_ctr_562
  else if (48 <=? c) && (c <=? 57) then to 512 else to 0.
Definition uri_case_519 (c : Z) : jump uri_action :=
  if c =? 35 then uri_ctr_559
  else if c =? 47 then uri_ctr_560
  else if c =? 58 then uri_ctr_561
  else if c =? 63 then uri_ctr_562
  else if (48 <=? c) && (c <=? 53) then to 512 else to 0.
Definition uri_case_520 (c : Z) : jump uri_action :=
  if c =? 33 then to 520
  else if c =? 35 then uri_ctr_559
  else if c =? 37 then to 253
  else if c =? 47 then uri_ctr_560
  else if c =? 58 then uri_ctr_576
  else if c =? 61 then to 520
  else if c =? 63 then uri_ctr_562
  else if c =? 64 then uri_ctr_263
  else if c =? 95 then to 520
  else if c =? 126 then to 520
  else if c <? 65 then (if (36 <=? c) && (c <=? 59) then to 520 else to 0)
  else if 90 <? c then (if (97 <=? c) && (c <=? 122) then to 520 else to 0)
  else to 520.
Definition uri_case_521 (c : Z) : jump uri_action :=
  if c =? 33 then to 255
  else if c =? 35 then uri_ctr_566
  else if c =? 37 then to 256
  else if c =? 47 then uri_ctr_567
  else if c =? 61 then to 255
  else if c =? 63 then uri_ctr_569
  else if c =? 64 then uri_ctr_263
  else if c =? 95 then to 255
  else if c =? 126 then to 255
  else if c <? 58 then (if 46 <? c then (if 48 <=? c then uri_ctr_577 else to 0)
    else if 36 <=? c then to 255 else to 0)
  else if 59 <? c then (if 90 <? c then (if (97 <=? c) && (c <=? 122) then to 255 else to 0)
    else if 65 <=? c then to 255 else to 0)
  else to 255.
Definition uri_case_522 (c : Z) : jump uri_action :=
  if c =? 2 then uri_ctr_546
  else if c =? 33 then uri_ctr_578
  else if c =? 35 then uri_ctr_548
  else if c =? 37 then uri_ctr_579
  else if c =? 47 then uri_ctr_550
  else if c =? 48 then uri_ctr_580
  else if c =? 49 then uri_ctr_581
  else if c =? 50 then uri_ctr_582
  else if c =? 58 then uri_ctr_584
  else if c =? 59 then uri_ctr_578
  else if c =? 61 then uri_ctr_578
  else if c =? 63 then uri_ctr_556
  else if c =? 91 then uri_ctr_558
  else if c =? 95 then uri_ctr_578
  else if c =? 126 then uri_ctr_578
  else if c <? 51 then (if (36 <=? c) && (c <=? 46) then uri_ctr_578 else to 0)
  else if 57 <? c then (if 90 <? c then (if (97 <=? c) && (c <=? 122) then uri_ctr_578 else to 0)
    else if 65 <=? c then uri_ctr_578 else to 0)
  else uri_ctr_583.
Definition uri_case_523 (c : Z) : jump uri_action :=
  if c =? 33 then to 523
  else if c =? 35 then uri_ctr_559
  else if c =? 37 then to 258
  else if c =? 47 then uri_ctr_560
  else if c =? 58 then uri_ctr_561
  else if c =? 61 then to 523
  else if c =? 63 then uri_ctr_562
  else if c =? 95 then to 523
  else if c =? 126 then to 523
  else if c <? 65 then (if (36 <=? c) && (c <=? 59) then to 523 else to 0)
  else if 90 <? c then (if (97 <=? c) && (c <=? 122) then to 523 else to 0)
  else to 523.
Definition uri_case_524 (c : Z) : jump uri_action :=
  if c =? 33 then to 523
  else if c =? 35 then uri_ctr_559
  else if c =? 37 then to 258
  else if c =? 46 then to 525
  else if c =? 47 then uri_ctr_560
  else if c =? 58 then uri_ctr_561
  else if c =? 61 then to 523
  else if c =? 63 then uri_ctr_562
  else if c =? 95 then to 523
  else if c =? 126 then to 523
  else if c <? 65 then (if (36 <=? c) && (c <=? 59) then to 523 else to 0)
  else if 90 <? c then (if (97 <=? c) && (c <=? 122) then to 523 else to 0)
  else to 523.
Definition uri_case_525 (c : Z) : jump uri_action :=
  if c =? 2 then to 233
  else if c =? 33 then to 523
  else if c =? 35 then uri_ctr_559
  else if c =? 37 then to 258
  else if c =? 47 then uri_ctr_560
  else if c =? 48 then to 526
  else if c =? 49 then to 534
  else if c =? 50 then to 536
  else if c =? 58 then uri_ctr_561
  else if c =? 59 then to 523
  else if c =? 61 then to 523
  else if c =? 63 then uri_ctr_562
  else if c =? 95 then to 523
  else if c =? 126 then to 523
  else if c <? 51 then (if (36 <=? c) && (c <=? 46) then to 523 else to 0)
  else if 57 <? c then (if 90 <? c then (if (97 <=? c) && (c <=? 122) then to 523 else to 0)
    else if 65 <=? c then to 523 else to 0)
  else to 535.
Definition uri_case_526 (c : Z) : jump uri_action :=
  if c =? 33 then to 523
  else if c =? 35 then uri_ctr_559
  else if c =? 37 then to 258
  else if c =? 46 then to 527
  else if c =? 47 then uri_ctr_560
  else if c =? 58 then uri_ctr_561
  else if c =? 61 then to 523
  else if c =? 63 then uri_ctr_562
  else if c =? 95 then to 523
  else if c =? 126 then to 523
  else if c <? 65 then (if (36 <=? c) && (c <=? 59) then to 523 else to 0)
  else if 90 <? c then (if (97 <=? c) && (c <=? 122) then to 523 else to 0)
  else to 523.
Definition uri_case_527 (c : Z) : jump uri_action :=
  if c =? 2 then to 237
  else if c =? 33 then to 523
  else if c =? 35 then uri_ctr_559
  else if c =? 37 then to 258
  else if c =? 47 then uri_ctr_560
  else if c =? 48 then to 528
  else if c =? 49 then to 530
  else if c =? 50 then to 532
  else if c =? 58 then uri_ctr_561
  else if c =? 59 then to 523
  else if c =? 61 then to 523
  else if c =? 63 then uri_ctr_562
  else if c =? 95 then to 523
  else if c =? 126 then to 523
  else if c <? 51 then (if (36 <=? c) && (c <=? 46) then to 523 else to 0)
  else if 57 <? c then (if 90 <? c then (if (97 <=? c) && (c <=? 122) then to 523 else to 0)
    else if 65 <=? c then to 523 else to 0)
  else to 531.
Definition uri_case_528 (c : Z) : jump uri_action :=
  if c =? 33 then to 523
  else if c =? 35 then uri_ctr_559
  else if c =? 37 then to 258
  else if c =? 46 then to 529
  else if c =? 47 then uri_ctr_560
  else if c =? 58 then uri_ctr_561
  else if c =? 61 then to 523
  else if c =? 63 then uri_ctr_562
  else if c =? 95 then to 523
  else if c =? 126 then to 523
  else if c <? 65 then (if (36 <=? c) && (c <=? 59) then to 523 else to 0)
  else if 90 <? c then (if (97 <=? c) && (c <=? 122) then to 523 else to 0)
  else to 523.
Definition uri_case_529 (c : Z) : jump uri_action :=
  if c =? 2 then to 241
  else if c =? 33 then to 523
  else if c =? 35 then uri_ctr_559
  else if c =? 37 then to 258
  else if c =? 47 then uri_ctr_560
  else if c =? 58 then uri_ctr_561
  else if c =? 61 then to 523
  else if c =? 63 then uri_ctr_562
  else if c =? 95 then to 523
  else if c =? 126 then to 523
  else if c <? 65 then (if (36 <=? c) && (c <=? 59) then to 523 else to 0)
  else if 90 <? c then (if (97 <=? c) && (c <=? 122) then to 523 else to 0)
  else to 523.
Definition uri_case_530 (c : Z) : jump uri_action :=
  if c =? 33 then to 523
  else if c =? 35 then uri_ctr_559
  else if c =? 37 then to 258
  else if c =? 46 then to 529
  else if c =? 47 then uri_ctr_560
  else if c =? 58 then uri_ctr_561
  else if c =? 59 then to 523
  else if c =? 61 then to 523
  else if c =? 63 then uri_ctr_562
  else if c =? 95 then to 523
  else if c =? 126 then to 523
  else if c <? 48 then (if (36 <=? c) && (c <=? 45) then to 523 else to 0)
  else if 57 <? c then (if 90 <? c then (if (97 <=? c) && (c <=? 122) then to 523 else to 0)
    else if 65 <=? c then to 523 else to 0)
  else to 531.
Definition uri_case_531 (c : Z) : jump uri_action :=
  if c =? 33 then to 523
  else if c =? 35 then uri_ctr_559
  else if c =? 37 then to 258
  else if c =? 46 then to 529
  else if c =? 47 then uri_ctr_560
  else if c =? 58 then uri_ctr_561
  else if c =? 59 then to 523
  else if c =? 61 then to 523
  else if c =? 63 then uri_ctr_562
  else if c =? 95 then to 523
  else if c =? 126 then to 523
  else if c <? 48 then (if (36 <=? c) && (c <=? 45) then to 523 else to 0)
  else if 57 <? c then (if 90 <? c then (if (97 <=? c) && (c <=? 122) then to 523 else to 0)
    else if 65 <=? c then to 523 else to 0)
  else to 528.
Definition uri_case_532 (c : Z) : jump uri_action :=
  if c =? 33 then to 523
  else if c =? 35 then uri_ctr_559
  else if c =? 37 then to 258
  else if c =? 46 then to 529
  else if c =? 47 then uri_ctr_560
  else if c =? 53 then to 533
  else if c =? 58 then uri_ctr_561
  else if c =? 59 then to 523
  else if c =? 61 then to 523
  else if c =? 63 then uri_ctr_562
  else if c =? 95 then to 523
  else if c =? 126 then to 523
  else if c <? 48 then (if (36 <=? c) && (c <=? 45) then to 523 else to 0)
  else if 57 <? c then (if 90 <? c then (if (97 <=? c) && (c <=? 122) then to 523 else to 0)
    else if 65 <=? c then to 523 else to 0)
  else to 528.
Definition uri_case_533 (c : Z) : jump uri_action :=
  if c =? 33 then to 523
  else if c =? 35 then uri_ctr_559
  else if c =? 37 then to 258
  else if c =? 46 then to 529
  else if c =? 47 then uri_ctr_560
  else if c =? 58 then uri_ctr_561
  else if c =? 61 then to 523
  else if c =? 63 then uri_ctr_562
  else if c =? 95 then to 523
  else if c =? 126 then to 523
  else if c <? 54 then (if 45 <? c then (if 48 <=? c then to 528 else to 0)
    else if 36 <=? c then to 523 else to 0)
  else if 59 <? c then (if 90 <? c then (if (97 <=? c) && (c <=? 122) then to 523 else to 0)
    else if 65 <=? c then to 523 else to 0)
  else to 523.
Definition uri_case_534 (c : Z) : jump uri_action :=
  if c =? 33 then to 523
  else if c =? 35 then uri_ctr_559
  else if c =? 37 then to 258
  else if c =? 46 then to 527
  else if c =? 47 then uri_ctr_560
  else if c =? 58 then uri_ctr_561
  else if c =? 59 then to 523
  else if c =? 61 then to 523
  else if c =? 63 then uri_ctr_562
  else if c =? 95 then to 523
  else if c =? 126 then to 523
  else if c <? 48 then (if (36 <=? c) && (c <=? 45) then to 523 else to 0)
  else if 57 <? c then (if 90 <? c then (if (97 <=? c) && (c <=? 122) then to 523 else to 0)
    else if 65 <=? c then to 523 else to 0)
  else to 535.
Definition uri_case_535 (c : Z) : jump uri_action :=
  if c =? 33 then to 523
  else if c =? 35 then uri_ctr_559
  else if c =? 37 then to 258
  else if c =? 46 then to 527
  else if c =? 47 then uri_ctr_560
  else if c =? 58 then uri_ctr_561
  else if c =? 59 then to 523
  else if c =? 61 then to 523
  else if c =? 63 then uri_ctr_562
  else if c =? 95 then to 523
  else if c =? 126 then to 523
  else if c <? 48 then (if (36 <=? c) && (c <=? 45) then to 523 else to 0)
  else if 57 <? c then (if 90 <? c then (if (97 <=? c) && (c <=? 122) then to 523 else to 0)
    else if 65 <=? c then to 523 else to 0)
  else to 526.
Definition uri_case_536 (c : Z) : jump uri_action :=
  if c =? 33 then to 523
  else if c =? 35 then uri_ctr_559
  else if c =? 37 then to 258
  else if c =? 46 then to 527
  else if c =? 47 then uri_ctr_560
  else if c =? 53 then to 537
  else if c =? 58 then uri_ctr_561
  else if c =? 59 then to 523
  else if c =? 61 then to 523
  else if c =? 63 then uri_ctr_562
  else if c =? 95 then to 523
  else if c =? 126 then to 523
  else if c <? 48 then (if (36 <=? c) && (c <=? 45) then to 523 else to 0)
  else if 57 <? c then (if 90 <? c then (if (97 <=? c) && (c <=? 122) then to 523 else to 0)
    else if 65 <=? c then to 523 else to 0)
  else to 526.
Definition uri_case_537 (c : Z) : jump uri_action :=
  if c =? 33 then to 523
  else if c =? 35 then uri_ctr_559
  else if c =? 37 then to 258
  else if c =? 46 then to 527
  else if c =? 47 then uri_ctr_560
  else if c =? 58 then uri_ctr_561
  else if c =? 61 then to 523
  else if c =? 63 then uri_ctr_562
  else if c =? 95 then to 523
  else if c =? 126 then to 523
  else if c <? 54 then (if 45 <? c then (if 48 <=? c then to 526 else to 0)
    else if 36 <=? c then to 523 else to 0)
  else if 59 <? c then (if 90 <? c then (if (97 <=? c) && (c <=? 122) then to 523 else to 0)
    else if 65 <=? c then to 523 else to 0)
  else to 523.
Definition uri_case_538 (c : Z) : jump uri_action :=
  if c =? 33 then to 523
  else if c =? 35 then uri_ctr_559
  else if c =? 37 then to 258
  else if c =? 46 then to 525
  else if c =? 47 then uri_ctr_560
  else if c =? 58 then uri_ctr_561
  else if c =? 59 then to 523
  else if c =? 61 then to 523
  else if c =? 63 then uri_ctr_562
  else if c =? 95 then to 523
  else if c =? 126 then to 523
  else if c <? 48 then (if (36 <=? c) && (c <=? 45) then to 523 else to 0)
  else if 57 <? c then (if 90 <? c then (if (97 <=? c) && (c <=? 122) then to 523 else to 0)
    else if 65 <=? c then to 523 else to 0)
  else to 539.
Definition uri_case_539 (c : Z) : jump uri_action :=
  if c =? 33 then to 523
  else if c =? 35 then uri_ctr_559
  else if c =? 37 then to 258
  else if c =? 46 then to 525
  else if c =? 47 then uri_ctr_560
  else if c =? 58 then uri_ctr_561
  else if c =? 59 then to 523
  else if c =? 61 then to 523
  else if c =? 63 then uri_ctr_562
  else if c =? 95 then to 523
  else if c =? 126 then to 523
  else if c <? 48 then (if (36 <=? c) && (c <=? 45) then to 523 else to 0)
  else if 57 <? c then (if 90 <? c then (if (97 <=? c) && (c <=? 122) then to 523 else to 0)
    else if 65 <=? c then to 523 else to 0)
  else to 524.
Definition uri_case_540 (c : Z) : jump uri_action :=
  if c =? 33 then to 523
  else if c =? 35 then uri_ctr_559
  else if c =? 37 then to 258
  else if c =? 46 then to 525
  else if c =? 47 then uri_ctr_560
  else if c =? 53 then to 541
  else if c =? 58 then uri_ctr_561
  else if c =? 59 then to 523
  else if c =? 61 then to 523
  else if c =? 63 then uri_ctr_562
  else if c =? 95 then to 523
  else if c =? 126 then to 523
  else if c <? 48 then (if (36 <=? c) && (c <=? 45) then to 523 else to 0)
  else if 57 <? c then (if 90 <? c then (if (97 <=? c) && (c <=? 122) then to 523 else to 0)
    else if 65 <=? c then to 523 else to 0)
  else to 524.
Definition uri_case_541 (c : Z) : jump uri_action :=
  if c =? 33 then to 523
  else if c =? 35 then uri_ctr_559
  else if c =? 37 then to 258
  else if c =? 46 then to 525
  else if c =? 47 then uri_ctr_560
  else if c =? 58 then uri_ctr_561
  else if c =? 61 then to 523
  else if c =? 63 then uri_ctr_562
  else if c =? 95 then to 523
  else if c =? 126 then to 523
  else if c <? 54 then (if 45 <? c then (if 48 <=? c then to 524 else to 0)
    else if 36 <=? c then to 523 else to 0)
  else if 59 <? c then (if 90 <? c then (if (97 <=? c) && (c <=? 122) then to 523 else to 0)
    else if 65 <=? c then to 523 else to 0)
  else to 523.
Definition uri_case_542 (c : Z) : jump uri_action :=
  if c =? 33 then to 255
  else if c =? 35 then uri_ctr_570
  else if c =? 37 then to 256
  else if c =? 47 then uri_ctr_571
  else if c =? 61 then to 255
  else if c =? 63 then uri_ctr_573
  else if c =? 64 then uri_ctr_263
  else if c =? 95 then to 255
  else if c =? 126 then to 255
  else if c <? 58 then (if 46 <? c then (if 48 <=? c then to 542 else to 0)
    else if 36 <=? c then to 255 else to 0)
  else if 59 <? c then (if 90 <? c then (if (97 <=? c) && (c <=? 122) then to 255 else to 0)
    else if 65 <=? c then to 255 else to 0)
  else to 255.
Definition uri_case_543 (c : Z) : jump uri_action :=
  if c =? 33 then to 520
  else if c =? 35 then uri_ctr_559
  else if c =? 37 then to 253
  else if c =? 46 then to 544
  else if c =? 47 then uri_ctr_560
  else if c =? 58 then uri_ctr_576
  else if c =? 61 then to 520
  else if c =? 63 then uri_ctr_562
  else if c =? 64 then uri_ctr_263
  else if c =? 95 then to 520
  else if c =? 126 then to 520
  else if c <? 65 then (if (36 <=? c) && (c <=? 59) then to 520 else to 0)
  else if 90 <? c then (if (97 <=? c) && (c <=? 122) then to 520 else to 0)
  else to 520.
Definition uri_case_544 (c : Z) : jump uri_action :=
  if c =? 2 then to 233
  else if c =? 33 then to 520
  else if c =? 35 then uri_ctr_559
  else if c =? 37 then to 253
  else if c =? 47 then uri_ctr_560
  else if c =? 48 then to 545
  else if c =? 49 then to 553
  else if c =? 50 then to 555
  else if c =? 58 then uri_ctr_576
  else if c =? 59 then to 520
  else if c =? 61 then to 520
  else if c =? 63 then uri_ctr_562
  else if c =? 64 then uri_ctr_263
  else if c =? 95 then to 520
  else if c =? 126 then to 520
  else if c <? 51 then (if (36 <=? c) && (c <=? 46) then to 520 else to 0)
  else if 57 <? c then (if 90 <? c then (if (97 <=? c) && (c <=? 122) then to 520 else to 0)
    else if 65 <=? c then to 520 else to 0)
  else to 554.
Definition uri_case_545 (c : Z) : jump uri_action :=
  if c =? 33 then to 520
  else if c =? 35 then uri_ctr_559
  else if c =? 37 then to 253
  else if c =? 46 then to 546
  else if c =? 47 then uri_ctr_560
  else if c =? 58 then uri_ctr_576
  else if c =? 61 then to 520
  else if c =? 63 then uri_ctr_562
  else if c =? 64 then uri_ctr_263
  else if c =? 95 then to 520
  else if c =? 126 then to 520
  else if c <? 65 then (if (36 <=? c) && (c <=? 59) then to 520 else to 0)
  else if 90 <? c then (if (97 <=? c) && (c <=? 122) then to 520 else to 0)
  else to 520.
Definition uri_case_546 (c : Z) : jump uri_action :=
  if c =? 2 then to 237
  else if c =? 33 then to 520
  else if c =? 35 then uri_ctr_559
  else if c =? 37 then to 253
  else if c =? 47 then uri_ctr_560
  else if c =? 48 then to 547
  else if c =? 49 then to 549
  else if c =? 50 then to 551
  else if c =? 58 then uri_ctr_576
  else if c =? 59 then to 520
  else if c =? 61 then to 520
  else if c =? 63 then uri_ctr_562
  else if c =? 64 then uri_ctr_263
  else if c =? 95 then to 520
  else if c =? 126 then to 520
  else if c <? 51 then (if (36 <=? c) && (c <=? 46) then to 520 else to 0)
  else if 57 <? c then (if 90 <? c then (if (97 <=? c) && (c <=? 122) then to 520 else to 0)
    else if 65 <=? c then to 520 else to 0)
  else to 550.
Definition uri_case_547 (c : Z) : jump uri_action :=
  if c =? 33 then to 520
  else if c =? 35 then uri_ctr_559
  else if c =? 37 then to 253
  else if c =? 46 then to 548
  else if c =? 47 then uri_ctr_560
  else if c =? 58 then uri_ctr_576
  else if c =? 61 then to 520
  else if c =? 63 then uri_ctr_562
  else if c =? 64 then uri_ctr_263
  else if c =? 95 then to 520
  else if c =? 126 then to 520
  else if c <? 65 then (if (36 <=? c) && (c <=? 59) then to 520 else to 0)
  else if 90 <? c then (if (97 <=? c) && (c <=? 122) then to 520 else to 0)
  else to 520.
Definition uri_case_548 (c : Z) : jump uri_action :=
  if c =? 2 then to 241
  else if c =? 33 then to 520
  else if c =? 35 then uri_ctr_559
  else if c =? 37 then to 253
  else if c =? 47 then uri_ctr_560
  else if c =? 58 then uri_ctr_576
  else if c =? 61 then to 520
  else if c =? 63 then uri_ctr_562
  else if c =? 64 then uri_ctr_263
  else if c =? 95 then to 520
  else if c =? 126 then to 520
  else if c <? 65 then (if (36 <=? c) && (c <=? 59) then to 520 else to 0)
  else if 90 <? c then (if (97 <=? c) && (c <=? 122) then to 520 else to 0)
  else to 520.
Definition uri_case_549 (c : Z) : jump uri_action :=
  if c =? 33 then to 520
  else if c =? 35 then uri_ctr_559
  else if c =? 37 then to 253
  else if c =? 46 then to 548
  else if c =? 47 then uri_ctr_560
  else if c =? 58 then uri_ctr_576
  else if c =? 59 then to 520
  else if c =? 61 then to 520
  else if c =? 63 then uri_ctr_562
  else if c =? 64 then uri_ctr_263
  else if c =? 95 then to 520
  else if c =? 126 then to 520
  else if c <? 48 then (if (36 <=? c) && (c <=? 45) then to 520 else to 0)
  else if 57 <? c then (if 90 <? c then (if (97 <=? c) && (c <=? 122) then to 520 else to 0)
    else if 65 <=? c then to 520 else to 0)
  else to 550.
Definition uri_case_550 (c : Z) : jump uri_action :=
  if c =? 33 then to 520
  else if c =? 35 then uri_ctr_559
  else if c =? 37 then to 253
  else if c =? 46 then to 548
  else if c =? 47 then uri_ctr_560
  else if c =? 58 then uri_ctr_576
  else if c =? 59 then to 520
  else if c =? 61 then to 520
  else if c =? 63 then uri_ctr_562
  else if c =? 64 then uri_ctr_263
  else if c =? 95 then to 520
  else if c =? 126 then to 520
  else if c <? 48 then (if (36 <=? c) && (c <=? 45) then to 520 else to 0)
  else if 57 <? c then (if 90 <? c then (if (97 <=? c) && (c <=? 122) then to 520 else to 0)
    else if 65 <=? c then to 520 else to 0)
  else to 547.
Definition uri_case_551 (c : Z) : jump uri_action :=
  if c =? 33 then to 520
  else if c =? 35 then uri_ctr_559
  else if c =? 37 then to 253
  else if c =? 46 then to 548
  else if c =? 47 then uri_ctr_560
  else if c =? 53 then to 552
  else if c =? 58 then uri_ctr_576
  else if c =? 59 then to 520
  else if c =? 61 then to 520
  else if c =? 63 then uri_ctr_562
  else if c =? 64 then uri_ctr_263
  else if c =? 95 then to 520
  else if c =? 126 then to 520
  else if c <? 48 then (if (36 <=? c) && (c <=? 45) then to 520 else to 0)
  else if 57 <? c then (if 90 <? c then (if (97 <=? c) && (c <=? 122) then to 520 else to 0)
    else if 65 <=? c then to 520 else to 0)
  else to 547.
Definition uri_case_552 (c : Z) : jump uri_action :=
  if c =? 33 then to 520
  else if c =? 35 then uri_ctr_559
  else if c =? 37 then to 253
  else if c =? 46 then to 548
  else if c =? 47 then uri_ctr_560
  else if c =? 58 then uri_ctr_576
  else if c =? 61 then to 520
  else if c =? 63 then uri_ctr_562
  else if c =? 64 then uri_ctr_263
  else if c =? 95 then to 520
  else if c =? 126 then to 520
  else if c <? 54 then (if 45 <? c then (if 48 <=? c then to 547 else to 0)
    else if 36 <=? c then to 520 else to 0)
  else if 59 <? c then (if 90 <? c then (if (97 <=? c) && (c <=? 122) then to 520 else to 0)
    else if 65 <=? c then to 520 else to 0)
  else to 520.
Definition uri_case_553 (c : Z) : jump uri_action :=
  if c =? 33 then to 520
  else if c =? 35 then uri_ctr_559
  else if c =? 37 then to 253
  else if c =? 46 then to 546
  else if c =? 47 then uri_ctr_560
  else if c =? 58 then uri_ctr_576
  else if c =? 59 then to 520
  else if c =? 61 then to 520
  else if c =? 63 then uri_ctr_562
  else if c =? 64 then uri_ctr_263
  else if c =? 95 then to 520
  else if c =? 126 then to 520
  else if c <? 48 then (if (36 <=? c) && (c <=? 45) then to 520 else to 0)
  else if 57 <? c then (if 90 <? c then (if (97 <=? c) && (c <=? 122) then to 520 else to 0)
    else if 65 <=? c then to 520 else to 0)
  else to 554.
Definition uri_case_554 (c : Z) : jump uri_action :=
  if c =? 33 then to 520
  else if c =? 35 then uri_ctr_559
  else if c =? 37 then to 253
  else if c =? 46 then to 546
  else if c =? 47 then uri_ctr_560
  else if c =? 58 then uri_ctr_576
  else if c =? 59 then to 520
  else if c =? 61 then to 520
  else if c =? 63 then uri_ctr_562
  else if c =? 64 then uri_ctr_263
  else if c =? 95 then to 520
  else if c =? 126 then to 520
  else if c <? 48 then (if (36 <=? c) && (c <=? 45) then to 520 else to 0)
  else if 57 <? c then (if 90 <? c then (if (97 <=? c) && (c <=? 122) then to 520 else to 0)
    else if 65 <=? c then to 520 else to 0)
  else to 545.
Definition uri_case_555 (c : Z) : jump uri_action :=
  if c =? 33 then to 520
  else if c =? 35 then uri_ctr_559
  else if c =? 37 then to 253
  else if c =? 46 then to 546
  else if c =? 47 then uri_ctr_560
  else if c =? 53 then to 556
  else if c =? 58 then uri_ctr_576
  else if c =? 59 then to 520
  else if c =? 61 then to 520
  else if c =? 63 then uri_ctr_562
  else if c =? 64 then uri_ctr_263
  else if c =? 95 then to 520
  else if c =? 126 then to 520
  else if c <? 48 then (if (36 <=? c) && (c <=? 45) then to 520 else to 0)
  else if 57 <? c then (if 90 <? c then (if (97 <=? c) && (c <=? 122) then to 520 else to 0)
    else if 65 <=? c then to 520 else to 0)
  else to 545.
Definition uri_case_556 (c : Z) : jump uri_action :=
  if c =? 33 then to 520
  else if c =? 35 then uri_ctr_559
  else if c =? 37 then to 253
  else if c =? 46 then to 546
  else if c =? 47 then uri_ctr_560
  else if c =? 58 then uri_ctr_576
  else if c =? 61 then to 520
  else if c =? 63 then uri_ctr_562
  else if c =? 64 then uri_ctr_263
  else if c =? 95 then to 520
  else if c =? 126 then to 520
  else if c <? 54 then (if 45 <? c then (if 48 <=? c then to 545 else to 0)
    else if 36 <=? c then to 520 else to 0)
  else if 59 <? c then (if 90 <? c then (if (97 <=? c) && (c <=? 122) then to 520 else to 0)
    else if 65 <=? c then to 520 else to 0)
  else to 520.
Definition uri_case_557 (c : Z) : jump uri_action :=
  if c =? 33 then to 520
  else if c =? 35 then uri_ctr_559
  else if c =? 37 then to 253
  else if c =? 46 then to 544
  else if c =? 47 then uri_ctr_560
  else if c =? 58 then uri_ctr_576
  else if c =? 59 then to 520
  else if c =? 61 then to 520
  else if c =? 63 then uri_ctr_562
  else if c =? 64 then uri_ctr_263
  else if c =? 95 then to 520
  else if c =? 126 then to 520
  else if c <? 48 then (if (36 <=? c) && (c <=? 45) then to 520 else to 0)
  else if 57 <? c then (if 90 <? c then (if (97 <=? c) && (c <=? 122) then to 520 else to 0)
    else if 65 <=? c then to 520 else to 0)
  else to 558.
Definition uri_case_558 (c : Z) : jump uri_action :=
  if c =? 33 then to 520
  else if c =? 35 then uri_ctr_559
  else if c =? 37 then to 253
  else if c =? 46 then to 544
  else if c =? 47 then uri_ctr_560
  else if c =? 58 then uri_ctr_576
  else if c =? 59 then to 520
  else if c =? 61 then to 520
  else if c =? 63 then uri_ctr_562
  else if c =? 64 then uri_ctr_263
  else if c =? 95 then to 520
  else if c =? 126 then to 520
  else if c <? 48 then (if (36 <=? c) && (c <=? 45) then to 520 else to 0)
  else if 57 <? c then (if 90 <? c then (if (97 <=? c) && (c <=? 122) then to 520 else to 0)
    else if 65 <=? c then to 520 else to 0)
  else to 543.
Definition uri_case_559 (c : Z) : jump uri_action :=
  if c =? 33 then to 520
  else if c =? 35 then uri_ctr_559
  else if c =? 37 then to 253
  else if c =? 46 then to 544
  else if c =? 47 then uri_ctr_560
  else if c =? 53 then to 560
  else if c =? 58 then uri_ctr_576
  else if c =? 59 then to 520
  else if c =? 61 then to 520
  else if c =? 63 then uri_ctr_562
  else if c =? 64 then uri_ctr_263
  else if c =? 95 then to 520
  else if c =? 126 then to 520
  else if c <? 48 then (if (36 <=? c) && (c <=? 45) then to 520 else to 0)
  else if 57 <? c then (if 90 <? c then (if (97 <=? c) && (c <=? 122) then to 520 else to 0)
    else if 65 <=? c then to 520 else to 0)
  else to 543.
Definition uri_case_560 (c : Z) : jump uri_action :=
  if c =? 33 then to 520
  else if c =? 35 then uri_ctr_559
  else if c =? 37 then to 253
  else if c =? 46 then to 544
  else if c =? 47 then uri_ctr_560
  else if c =? 58 then uri_ctr_576
  else if c =? 61 then to 520
  else if c =? 63 then uri_ctr_562
  else if c =? 64 then uri_ctr_263
  else if c =? 95 then to 520
  else if c =? 126 then to 520
  else if c <? 54 then (if 45 <? c then (if 48 <=? c then to 543 else to 0)
    else if 36 <=? c then to 520 else to 0)
  else if 59 <? c then (if 90 <? c then (if (97 <=? c) && (c <=? 122) then to 520 else to 0)
    else if 65 <=? c then to 520 else to 0)
  else to 520.

(** [switch (cs)]: the state the scanner continues in. *)
Definition uri_table (cs : Z) : Z → jump uri_action :=
  match cs with
  | 1 => uri_case_1
  | 2 => uri_case_2
  | 3 => uri_case_3
  | 4 => uri_case_4
  | 5 => uri_case_5
  | 6 => uri_case_6
  | 7 => uri_case_7
  | 8 => uri_case_8
  | 9 => uri_case_9
  | 10 => uri_case_10
  | 11 => uri_case_11
  | 12 => uri_case_12
  | 13 => uri_case_13
  | 14 => uri_case_14
  | 15 => uri_case_15
  | 16 => uri_case_16
  | 17 => uri_case_17
  | 18 => uri_case_18
  | 19 => uri_case_19
  | 20 => uri_case_20
  | 21 => uri_case_21
  | 22 => uri_case_22
  | 23 => uri_case_23
  | 24 => uri_case_24
  | 25 => uri_case_25
  | 26 => uri_case_26
  | 27 => uri_case_27
  | 28 => uri_case_28
  | 29 => uri_case_29
  | 30 => uri_case_30
  | 31 => uri_case_31
  | 32 => uri_case_32
  | 33 => uri_case_33
  | 34 => uri_case_34
  | 35 => uri_case_35
  | 36 => uri_case_36
  | 37 => uri_case_37
  | 38 => uri_case_38
  | 39 => uri_case_39
  | 40 => uri_case_40
  | 41 => uri_case_41
  | 42 => uri_case_42
  | 43 => uri_case_43
  | 44 => uri_case_44
  | 45 => uri_case_45
  | 46 => uri_case_46
  | 47 => uri_case_47
  | 48 => uri_case_48
  | 49 => uri_case_49
  | 50 => uri_case_50
  | 51 => uri_case_51
  | 52 => uri_case_52
  | 53 => uri_case_53
  | 54 => uri_case_54
  | 55 => uri_case_55
  | 56 => uri_case_56
  | 57 => uri_case_57
  | 58 => uri_case_58
  | 59 => uri_case_59
  | 60 => uri_case_60
  | 61 => uri_case_61
  | 62 => uri_case_62
  | 63 => uri_case_63
  | 64 => uri_case_64
  | 65 => uri_case_65
  | 66 => uri_case_66
  | 67 => uri_case_67
  | 68 => uri_case_68
  | 69 => uri_case_69
  | 70 => uri_case_70
  | 71 => uri_case_71
  | 72 => uri_case_72
  | 73 => uri_case_73
  | 74 => uri_case_74
  | 75 => uri_case_75
  | 76 => uri_case_76
  | 77 => uri_case_77
  | 78 => uri_case_78
  | 79 => uri_case_79
  | 80 => uri_case_80
  | 81 => uri_case_81
  | 82 => uri_case_82
  | 83 => uri_case_83
  | 84 => uri_case_84
  | 85 => uri_case_85
  | 86 => uri_case_86
  | 87 => uri_case_87
  | 88 => uri_case_88
  | 89 => uri_case_89
  | 90 => uri_case_90
  | 91 => uri_case_91
  | 92 => uri_case_92
  | 93 => uri_case_93
  | 94 => uri_case_94
  | 95 => uri_case_95
  | 96 => uri_case_96
  | 97 => uri_case_97
  | 98 => uri_case_98
  | 99 => uri_case_99
  | 100 => uri_case_100
  | 101 => uri_case_101
  | 102 => uri_case_102
  | 103 => uri_case_103
  | 104 => uri_case_104
  | 105 => uri_case_105
  | 106 => uri_case_106
  | 107 => uri_case_107
  | 108 => uri_case_108
  | 109 => uri_case_109
  | 110 => uri_case_110
  | 111 => uri_case_111
  | 112 => uri_case_112
  | 113 => uri_case_113
  | 114 => uri_case_114
  | 115 => uri_case_115
  | 116 => uri_case_116
  | 117 => uri_case_117
  | 118 => uri_case_118
  | 119 => uri_case_119
  | 120 => uri_case_120
  | 121 => uri_case_121
  | 122 => uri_case_122
  | 123 => uri_case_123
  | 124 => uri_case_124
  | 125 => uri_case_125
  | 126 => uri_case_126
  | 127 => uri_case_127
  | 128 => uri_case_128
  | 129 => uri_case_129
  | 130 => uri_case_130
  | 131 => uri_case_131
  | 132 => uri_case_132
  | 133 => uri_case_133
  | 134 => uri_case_134
  | 135 => uri_case_135
  | 136 => uri_case_136
  | 137 => uri_case_137
  | 138 => uri_case_138
  | 139 => uri_case_139
  | 140 => uri_case_140
  | 141 => uri_case_141
  | 142 => uri_case_142
  | 143 => uri_case_143
  | 144 => uri_case_144
  | 145 => uri_case_145
  | 146 => uri_case_146
  | 147 => uri_case_147
  | 148 => uri_case_148
  | 149 => uri_case_149
  | 150 => uri_case_150
  | 151 => uri_case_151
  | 152 => uri_case_152
  | 153 => uri_case_153
  | 154 => uri_case_154
  | 155 => uri_case_155
  | 156 => uri_case_156
  | 157 => uri_case_157
  | 158 => uri_case_158
  | 159 => uri_case_159
  | 160 => uri_case_160
  | 161 => uri_case_161
  | 162 => uri_case_162
  | 163 => uri_case_163
  | 164 => uri_case_164
  | 165 => uri_case_165
  | 166 => uri_case_166
  | 167 => uri_case_167
  | 168 => uri_case_168
  | 169 => uri_case_169
  | 170 => uri_case_170
  | 171 => uri_case_171
  | 172 => uri_case_172
  | 173 => uri_case_173
  | 174 => uri_case_174
  | 175 => uri_case_175
  | 176 => uri_case_176
  | 177 => uri_case_177
  | 178 => uri_case_178
  | 179 => uri_case_179
  | 180 => uri_case_180
  | 181 => uri_case_181
  | 182 => uri_case_182
  | 183 => uri_case_183
  | 184 => uri_case_184
  | 185 => uri_case_185
  | 186 => uri_case_186
  | 187 => uri_case_187
  | 188 => uri_case_188
  | 189 => uri_case_189
  | 190 => uri_case_190
  | 191 => uri_case_191
  | 192 => uri_case_192
  | 193 => uri_case_193
  | 194 => uri_case_194
  | 195 => uri_case_195
  | 196 => uri_case_196
  | 197 => uri_case_197
  | 198 => uri_case_198
  | 199 => uri_case_199
  | 200 => uri_case_200
  | 201 => uri_case_201
  | 202 => uri_case_202
  | 203 => uri_case_203
  | 204 => uri_case_204
  | 205 => uri_case_205
  | 206 => uri_case_206
  | 207 => uri_case_207
  | 208 => uri_case_208
  | 209 => uri_case_209
  | 210 => uri_case_210
  | 211 => uri_case_211
  | 212 => uri_case_212
  | 213 => uri_case_213
  | 214 => uri_case_214
  | 215 => uri_case_215
  | 216 => uri_case_216
  | 217 => uri_case_217
  | 218 => uri_case_218
  | 219 => uri_case_219
  | 220 => uri_case_220
  | 221 => uri_case_221
  | 222 => uri_case_222
  | 223 => uri_case_223
  | 224 => uri_case_224
  | 225 => uri_case_225
  | 226 => uri_case_226
  | 227 => uri_case_227
  | 228 => uri_case_228
  | 229 => uri_case_229
  | 230 => uri_case_230
  | 231 => uri_case_231
  | 232 => uri_case_232
  | 233 => uri_case_233
  | 234 => uri_case_234
  | 235 => uri_case_235
  | 236 => uri_case_236
  | 237 => uri_case_237
  | 238 => uri_case_238
  | 239 => uri_case_239
  | 240 => uri_case_240
  | 241 => uri_case_241
  | 242 => uri_case_242
  | 243 => uri_case_243
  | 244 => uri_case_244
  | 245 => uri_case_245
  | 246 => uri_case_246
  | 247 => uri_case_247
  | 248 => uri_case_248
  | 249 => uri_case_249
  | 250 => uri_case_250
  | 251 => uri_case_251
  | 252 => uri_case_252
  | 253 => uri_case_253
  | 254 => uri_case_254
  | 255 => uri_case_255
  | 256 => uri_case_256
  | 257 => uri_case_257
  | 258 => uri_case_258
  | 259 => uri_case_259
  | 260 => uri_case_260
  | 261 => uri_case_261
  | 262 => uri_case_262
  | 263 => uri_case_263
  | 264 => uri_case_264
  | 265 => uri_case_265
  | 266 => uri_case_266
  | 267 => uri_case_267
  | 268 => uri_case_268
  | 269 => uri_case_269
  | 270 => uri_case_270
  | 271 => uri_case_271
  | 272 => uri_case_272
  | 273 => uri_case_273
  | 274 => uri_case_274
  | 275 => uri_case_275
  | 276 => uri_case_276
  | 277 => uri_case_277
  | 278 => uri_case_278
  | 279 => uri_case_279
  | 280 => uri_case_280
  | 281 => uri_case_281
  | 282 => uri_case_282
  | 283 => uri_case_283
  | 284 => uri_case_284
  | 285 => uri_case_285
  | 286 => uri_case_286
  | 287 => uri_case_287
  | 288 => uri_case_288
  | 289 => uri_case_289
  | 290 => uri_case_290
  | 291 => uri_case_291
  | 292 => uri_case_292
  | 293 => uri_case_293
  | 294 => uri_case_294
  | 295 => uri_case_295
  | 296 => uri_case_296
  | 297 => uri_case_297
  | 298 => uri_case_298
  | 299 => uri_case_299
  | 300 => uri_case_300
  | 301 => uri_case_301
  | 302 => uri_case_302
  | 303 => uri_case_303
  | 304 => uri_case_304
  | 305 => uri_case_305
  | 306 => uri_case_306
  | 307 => uri_case_307
  | 308 => uri_case_308
  | 309 => uri_case_309
  | 310 => uri_case_310
  | 311 => uri_case_311
  | 312 => uri_case_312
  | 313 => uri_case_313
  | 314 => uri_case_314
  | 315 => uri_case_315
  | 316 => uri_case_316
  | 317 => uri_case_317
  | 318 => uri_case_318
  | 319 => uri_case_319
  | 320 => uri_case_320
  | 321 => uri_case_321
  | 322 => uri_case_322
  | 323 => uri_case_323
  | 324 => uri_case_324
  | 325 => uri_case_325
  | 326 => uri_case_326
  | 327 => uri_case_327
  | 328 => uri_case_328
  | 329 => uri_case_329
  | 330 => uri_case_330
  | 331 => uri_case_331
  | 332 => uri_case_332
  | 333 => uri_case_333
  | 334 => uri_case_334
  | 335 => uri_case_335
  | 336 => uri_case_336
  | 337 => uri_case_337
  | 338 => uri_case_338
  | 339 => uri_case_339
  | 340 => uri_case_340
  | 341 => uri_case_341
  | 342 => uri_case_342
  | 343 => uri_case_343
  | 344 => uri_case_344
  | 345 => uri_case_345
  | 346 => uri_case_346
  | 347 => uri_case_347
  | 348 => uri_case_348
  | 349 => uri_case_349
  | 350 => uri_case_350
  | 351 => uri_case_351
  | 352 => uri_case_352
  | 353 => uri_case_353
  | 354 => uri_case_354
  | 355 => uri_case_355
  | 356 => uri_case_356
  | 357 => uri_case_357
  | 358 => uri_case_358
  | 359 => uri_case_359
  | 360 => uri_case_360
  | 361 => uri_case_361
  | 362 => uri_case_362
  | 363 => uri_case_363
  | 364 => uri_case_364
  | 365 => uri_case_365
  | 366 => uri_case_366
  | 367 => uri_case_367
  | 368 => uri_case_368
  | 369 => uri_case_369
  | 370 => uri_case_370
  | 371 => uri_case_371
  | 372 => uri_case_372
  | 373 => uri_case_373
  | 374 => uri_case_374
  | 375 => uri_case_375
  | 376 => uri_case_376
  | 377 => uri_case_377
  | 378 => uri_case_378
  | 379 => uri_case_379
  | 380 => uri_case_380
  | 381 => uri_case_381
  | 382 => uri_case_382
  | 383 => uri_case_383
  | 384 => uri_case_384
  | 385 => uri_case_385
  | 386 => uri_case_386
  | 387 => uri_case_387
  | 388 => uri_case_388
  | 389 => uri_case_389
  | 390 => uri_case_390
  | 391 => uri_case_391
  | 392 => uri_case_392
  | 393 => uri_case_393
  | 394 => uri_case_394
  | 395 => uri_case_395
  | 396 => uri_case_396
  | 397 => uri_case_397
  | 398 => uri_case_398
  | 399 => uri_case_399
  | 400 => uri_case_400
  | 401 => uri_case_401
  | 402 => uri_case_402
  | 403 => uri_case_403
  | 404 => uri_case_404
  | 405 => uri_case_405
  | 406 => uri_case_406
  | 407 => uri_case_407
  | 408 => uri_case_408
  | 409 => uri_case_409
  | 410 => uri_case_410
  | 411 => uri_case_411
  | 412 => uri_case_412
  | 413 => uri_case_413
  | 414 => uri_case_414
  | 415 => uri_case_415
  | 416 => uri_case_416
  | 417 => uri_case_417
  | 418 => uri_case_418
  | 419 => uri_case_419
  | 420 => uri_case_420
  | 421 => uri_case_421
  | 422 => uri_case_422
  | 423 => uri_case_423
  | 424 => uri_case_424
  | 425 => uri_case_425
  | 426 => uri_case_426
  | 427 => uri_case_427
  | 428 => uri_case_428
  | 429 => uri_case_429
  | 430 => uri_case_430
  | 431 => uri_case_431
  | 432 => uri_case_432
  | 433 => uri_case_433
  | 434 => uri_case_434
  | 435 => uri_case_435
  | 436 => uri_case_436
  | 437 => uri_case_437
  | 438 => uri_case_438
  | 439 => uri_case_439
  | 440 => uri_case_440
  | 441 => uri_case_441
  | 442 => uri_case_442
  | 443 => uri_case_443
  | 444 => uri_case_444
  | 445 => uri_case_445
  | 446 => uri_case_446
  | 447 => uri_case_447
  | 448 => uri_case_448
  | 449 => uri_case_449
  | 450 => uri_case_450
  | 451 => uri_case_451
  | 452 => uri_case_452
  | 453 => uri_case_453
  | 454 => uri_case_454
  | 455 => uri_case_455
  | 456 => uri_case_456
  | 457 => uri_case_457
  | 458 => uri_case_458
  | 459 => uri_case_459
  | 460 => uri_case_460
  | 461 => uri_case_461
  | 462 => uri_case_462
  | 463 => uri_case_463
  | 464 => uri_case_464
  | 465 => uri_case_465
  | 466 => uri_case_466
  | 467 => uri_case_467
  | 468 => uri_case_468
  | 469 => uri_case_469
  | 470 => uri_case_470
  | 471 => uri_case_471
  | 472 => uri_case_472
  | 473 => uri_case_473
  | 474 => uri_case_474
  | 475 => uri_case_475
  | 476 => uri_case_476
  | 477 => uri_case_477
  | 478 => uri_case_478
  | 479 => uri_case_479
  | 480 => uri_case_480
  | 481 => uri_case_481
  | 482 => uri_case_482
  | 483 => uri_case_483
  | 484 => uri_case_484
  | 485 => uri_case_485
  | 486 => uri_case_486
  | 487 => uri_case_487
  | 488 => uri_case_488
  | 489 => uri_case_489
  | 490 => uri_case_490
  | 491 => uri_case_491
  | 492 => uri_case_492
  | 493 => uri_case_493
  | 494 => uri_case_494
  | 495 => uri_case_495
  | 496 => uri_case_496
  | 497 => uri_case_497
  | 498 => uri_case_498
  | 499 => uri_case_499
  | 500 => uri_case_500
  | 501 => uri_case_501
  | 502 => uri_case_502
  | 503 => uri_case_503
  | 504 => uri_case_504
  | 505 => uri_case_505
  | 506 => uri_case_506
  | 507 => uri_case_507
  | 508 => uri_case_508
  | 509 => uri_case_509
  | 510 => uri_case_510
  | 511 => uri_case_511
  | 512 => uri_case_512
  | 513 => uri_case_513
  | 514 => uri_case_514
  | 515 => uri_case_515
  | 516 => uri_case_516
  | 517 => uri_case_517
  | 518 => uri_case_518
  | 519 => uri_case_519
  | 520 => uri_case_520
  | 521 => uri_case_521
  | 522 => uri_case_522
  | 523 => uri_case_523
  | 524 => uri_case_524
  | 525 => uri_case_525
  | 526 => uri_case_526
  | 527 => uri_case_527
  | 528 => uri_case_528
  | 529 => uri_case_529
  | 530 => uri_case_530
  | 531 => uri_case_531
  | 532 => uri_case_532
  | 533 => uri_case_533
  | 534 => uri_case_534
  | 535 => uri_case_535
  | 536 => uri_case_536
  | 537 => uri_case_537
  | 538 => uri_case_538
  | 539 => uri_case_539
  | 540 => uri_case_540
  | 541 => uri_case_541
  | 542 => uri_case_542
  | 543 => uri_case_543
  | 544 => uri_case_544
  | 545 => uri_case_545
  | 546 => uri_case_546
  | 547 => uri_case_547
  | 548 => uri_case_548
  | 549 => uri_case_549
  | 550 => uri_case_550
  | 551 => uri_case_551
  | 552 => uri_case_552
  | 553 => uri_case_553
  | 554 => uri_case_554
  | 555 => uri_case_555
  | 556 => uri_case_556
  | 557 => uri_case_557
  | 558 => uri_case_558
  | 559 => uri_case_559
  | 560 => uri_case_560
  | _ => λ _, to 0
  end.
