(* ===== verification/Stream.v ===== *)
(** Byte streams over a connected socket ([sylar/stream.cc],
    [sylar/socket_stream.cc], [Socket::recv] and [send] of [sylar/socket.cc]).

    The peer is a script: what arrives, in the pieces the system hands out, and
    how much of each [send] the system takes. *)
From S2P Require Import Prelude.
From Stdlib Require Import Strings.Byte.

Local Open Scope Z_scope.

(** One wake-up of [recv]. *)
Inductive arrival :=
  | Data (bs : list byte)
  | Eof
  | Error.
Record wire := mk_wire {
  m_isConnected : bool;
  arrivals : list arrival;
  takes : list Z;        (** answers to [send]; everything is taken when the list is empty *)
  sent : list byte;
}.
Definition set_arrivals (v : list arrival) (w : wire) : wire :=
  mk_wire (m_isConnected w) v (takes w) (sent w).

(** The most bytes one system call transfers (Linux). *)
Definition MAX_RW_COUNT : Z := 0x7ffff000.

(** [::recv] on the socket: end of file stays, an error is reported once, and
    when nothing more is scripted the timeout strikes. *)
Definition sys_recv (n : Z) : M wire (Z * list byte) :=
  w ← get;
  if n =? 0 then mret (0, [])
  else match arrivals w with
       | [] => mret (-1, [])
       | Eof :: _ => mret (0, [])
       | Error :: l => modify (set_arrivals l);; mret (-1, [])
       | Data bs :: l =>
           let k := Z.min (Z.min n MAX_RW_COUNT) (Z.of_nat (length bs)) in
           let rest := drop (Z.to_nat k) bs in
           modify (set_arrivals (if bool_decide (rest = []) then l else Data rest :: l));;
           mret (k, take (Z.to_nat k) bs)
       end.
(** [::send] *)
Definition sys_send (bs : list byte) : M wire Z :=
  w ← get;
  let n := Z.min (Z.of_nat (length bs)) MAX_RW_COUNT in
  let k := match takes w with [] => n | k :: _ => Z.min k n end in
  if k <? 0 then modify (λ w, mk_wire (m_isConnected w) (arrivals w) (tail (takes w)) (sent w));; mret (-1)
  else
    modify (λ w, mk_wire (m_isConnected w) (arrivals w) (tail (takes w)) (sent w ++ take (Z.to_nat k) bs));;
    mret k.

(** [SocketStream::close], [Socket::close] *)
Definition close : M wire unit :=
  modify (λ w, mk_wire false (arrivals w) (takes w) (sent w)).

(** [SocketStream::read(buffer, length)], [Socket::recv]: the pointer is
    [offset] in the object [buffer]; the result is an [int]. *)
Definition read (buffer : list byte) (offset n : Z) : M wire (Z * list byte) :=
  w ← get;
  if negb ((0 <=? offset) && (offset <=? Z.of_nat (length buffer))) then undef OutOfBounds
  else if negb (m_isConnected w) then mret (-1, buffer)
  else
    '(r, bs) ← sys_recv n;
    if Z.of_nat (length buffer) <? offset + Z.of_nat (length bs) then undef OutOfBounds
    else mret (wraps 32 r, splice (Z.to_nat offset) bs buffer).
(** [SocketStream::write(buffer, length)], [Socket::send] *)
Definition write (buffer : list byte) (offset n : Z) : M wire Z :=
  w ← get;
  if negb ((0 <=? offset) && (offset + n <=? Z.of_nat (length buffer))) then undef OutOfBounds
  else if negb (m_isConnected w) then mret (-1)
  else r ← sys_send (take (Z.to_nat n) (drop (Z.to_nat offset) buffer)); mret (wraps 32 r).

(** The loop of [Stream::readFixSize(buffer, length)]: [base] is the offset of
    the pointer passed in; the counters are [size_t], and so is the result of
    [read], which makes the test [len < 0] false. *)
Fixpoint readFixSize_loop (fuel : nat) (buffer : list byte) (base offset left : Z) : M wire (list byte) :=
  if left =? 0 then mret buffer
  else
    match fuel with
    | O => undef NoFuel
    | S fuel =>
        '(r, buffer) ← read buffer (base + wraps 64 offset) left;
        let len := wrapu 64 r in
        readFixSize_loop fuel buffer base (wrapu 64 (offset + len)) (wrapu 64 (left - len))
    end.
(** [Stream::readFixSize(buffer, length)]: the result is converted to [int]. *)
Definition readFixSize (fuel : nat) (buffer : list byte) (base n : Z) : M wire (Z * list byte) :=
  buffer ← readFixSize_loop fuel buffer base 0 n;
  mret (wraps 32 n, buffer).

Fixpoint writeFixSize_loop (fuel : nat) (buffer : list byte) (offset left : Z) : M wire unit :=
  if left =? 0 then mret tt
  else
    match fuel with
    | O => undef NoFuel
    | S fuel =>
        r ← write buffer (wraps 64 offset) left;
        let len := wrapu 64 r in
        writeFixSize_loop fuel buffer (wrapu 64 (offset + len)) (wrapu 64 (left - len))
    end.
(** [Stream::writeFixSize(buffer, length)] on a whole buffer. *)
Definition writeFixSize (fuel : nat) (buffer : list byte) : M wire Z :=
  let n := Z.of_nat (length buffer) in
  writeFixSize_loop fuel buffer 0 n;;
  mret (wraps 32 n).

(** ** Correctness *)

(** What arrives before the end of file or an error. *)
Fixpoint incoming (l : list arrival) : list byte :=
  match l with Data bs :: l => bs ++ incoming l | _ => [] end.
(** The system never wakes [recv] for nothing. *)
Definition pieces_ok (l : list arrival) : Prop := Forall (λ a, a ≠ Data []) l.

(** The script ends the stream before more data comes. *)
Fixpoint ends (l : list arrival) : bool :=
  match l with Data _ :: l => ends l | Eof :: _ => true | _ => false end.

Lemma sys_recv_data n w :
  0 < n → pieces_ok (arrivals w) → incoming (arrivals w) ≠ [] →
  ∃ k l, sys_recv n w = Ok (Z.of_nat k, take k (incoming (arrivals w))) (set_arrivals l w) ∧
    (0 < k ≤ length (incoming (arrivals w)))%nat ∧ Z.of_nat k ≤ n ∧ Z.of_nat k ≤ MAX_RW_COUNT ∧
    incoming l = drop k (incoming (arrivals w)) ∧ pieces_ok l ∧ ends l = ends (arrivals w).
Proof.
  intros Hn Hp Hi. destruct (arrivals w) as [|[bs| |] l] eqn:E; try done.
  simpl in *. apply Forall_cons in Hp as [Hbs Hp].
  assert (0 < length bs)%nat as Hl by (destruct bs; [done|simpl; lia]).
  set (k := Z.min (Z.min n MAX_RW_COUNT) (Z.of_nat (length bs))).
  assert (0 < k ≤ Z.of_nat (length bs)) as Hk by (unfold k, MAX_RW_COUNT; lia).
  exists (Z.to_nat k). eexists. unfold sys_recv.
  unfold get, mbind, M_bind. rewrite (proj2 (Z.eqb_neq n 0)), E by lia. fold k.
  split_and!.
  - unfold modify. rewrite take_app_le by lia. rewrite Z2Nat.id by lia. reflexivity.
  - lia.
  - rewrite length_app. lia.
  - lia.
  - unfold k, MAX_RW_COUNT. lia.
  - rewrite drop_app_le by lia. destruct (decide (drop (Z.to_nat k) bs = [])) as [Er|Er].
    + by rewrite bool_decide_true, Er by done.
    + by rewrite bool_decide_false by done.
  - case_bool_decide as Er; [done|]. constructor; [by intros [= E']|done].
  - by case_bool_decide.
Qed.

Lemma read_ok buffer offset n w :
  m_isConnected w = true → 0 ≤ offset → 0 < n → offset + n ≤ Z.of_nat (length buffer) →
  pieces_ok (arrivals w) → incoming (arrivals w) ≠ [] →
  ∃ k l, read buffer offset n w =
      Ok (Z.of_nat k, splice (Z.to_nat offset) (take k (incoming (arrivals w))) buffer) (set_arrivals l w) ∧
    (0 < k ≤ length (incoming (arrivals w)))%nat ∧ Z.of_nat k ≤ n ∧ Z.of_nat k < 2 ^ 31 ∧
    incoming l = drop k (incoming (arrivals w)) ∧ pieces_ok l ∧ ends l = ends (arrivals w).
Proof.
  intros Hc Ho Hn Hb Hp Hi.
  destruct (sys_recv_data n w Hn Hp Hi) as (k&l&E&Hk1&Hk2&Hk3&Hl1&Hl2&Hl3). exists k, l.
  assert (Z.of_nat k < 2 ^ 31) by (unfold MAX_RW_COUNT in Hk3; lia).
  split; [|done]. unfold read. unfold get at 1, mbind, M_bind.
  rewrite (proj2 (Z.leb_le 0 _)), (proj2 (Z.leb_le offset _)), Hc by lia. cbn [negb andb]. rewrite E.
  rewrite length_take, Nat.min_l by lia.
  rewrite (proj2 (Z.ltb_ge _ _)), wraps_small by (unfold in_s; lia). done.
Qed.

(** Reading [n] bytes that will arrive. *)
Lemma readFixSize_loop_ok fuel buffer base offset left w :
  m_isConnected w = true → 0 ≤ base → 0 ≤ offset → 0 ≤ left →
  base + offset + left ≤ Z.of_nat (length buffer) → offset + left < 2 ^ 63 →
  pieces_ok (arrivals w) → left ≤ Z.of_nat (length (incoming (arrivals w))) → left ≤ Z.of_nat fuel →
  ∃ l, readFixSize_loop fuel buffer base offset left w =
      Ok (splice (Z.to_nat (base + offset)) (take (Z.to_nat left) (incoming (arrivals w))) buffer) (set_arrivals l w) ∧
    incoming l = drop (Z.to_nat left) (incoming (arrivals w)) ∧ pieces_ok l.
Proof.
  revert buffer offset left w. induction fuel as [|fuel IH]; intros buffer offset left w Hc Hb Ho Hl Hs Hw Hp Hi Hf;
    cbn [readFixSize_loop].
  all: destruct (Z.eqb_spec left 0) as [->|Hne].
  1,3: exists (arrivals w); rewrite take_0, drop_0; destruct w; split; [|done]; unfold mret, M_ret; f_equal;
    unfold splice; simpl; rewrite Nat.add_0_r; by rewrite take_drop.
  { lia. }
  rewrite wraps_small by (unfold in_s; lia).
  destruct (read_ok buffer (base + offset) left w) as (k&l&E&Hk1&Hk2&Hk3&Hl1&Hl2&Hl3); try done; try lia.
  { intros E. rewrite E in Hi. simpl in Hi. lia. }
  rewrite (bind_ok _ _ _ _ _ E). cbv beta iota.
  rewrite (wrapu_small 64 (Z.of_nat k)), (wrapu_small 64 (offset + _)), (wrapu_small 64 (left - _)) by (unfold in_u; lia).
  set (inc := incoming (arrivals w)) in *.
  assert (length (take k inc) = k) as Htk by (rewrite length_take; lia).
  destruct (IH (splice (Z.to_nat (base + offset)) (take k inc) buffer) (offset + Z.of_nat k) (left - Z.of_nat k)
              (set_arrivals l w)) as (l'&E'&Hl1'&Hl2'); simpl; try done; try lia.
  { rewrite length_splice by (rewrite Htk; lia). lia. }
  { rewrite Hl1, length_drop. lia. }
  exists l'. rewrite E'. simpl in *. rewrite Hl1 in *. split; [|split; [|done]].
  - f_equal. replace (Z.to_nat (base + (offset + Z.of_nat k))) with (Z.to_nat (base + offset) + length (take k inc))%nat
      by (rewrite Htk; lia).
    rewrite <-splice_split.
    + f_equal. replace (Z.to_nat left) with (k + Z.to_nat (left - Z.of_nat k))%nat by lia. by rewrite <-take_take_drop.
    + rewrite Htk, length_take, length_drop. lia.
  - rewrite Hl1', drop_drop. f_equal. lia.
Qed.

Lemma readFixSize_loop_eof fuel buffer base offset left w :
  m_isConnected w = true → 0 ≤ base → 0 ≤ offset → 0 ≤ left →
  base + offset + left ≤ Z.of_nat (length buffer) → offset + left < 2 ^ 63 →
  pieces_ok (arrivals w) → ends (arrivals w) = true →
  Z.of_nat (length (incoming (arrivals w))) < left →
  readFixSize_loop fuel buffer base offset left w = Undef NoFuel.
Proof.
  revert buffer offset left w. induction fuel as [|fuel IH]; intros buffer offset left w Hc Hb Ho Hl Hs Hw Hp He Hi;
    cbn [readFixSize_loop]; rewrite (proj2 (Z.eqb_neq left 0)) by lia; [done|].
  rewrite wraps_small by (unfold in_s; lia).
  destruct (decide (incoming (arrivals w) = [])) as [Ei|Ei].
  - destruct (arrivals w) as [|[bs| |] l] eqn:E; try done.
    { apply Forall_cons in Hp as [Hbs _]. simpl in Ei. by destruct bs. }
    assert (read buffer (base + offset) left w = Ok (0, buffer) w) as Er.
    { unfold read, get, sys_recv, mbind, M_bind.
      rewrite (proj2 (Z.leb_le 0 _)), (proj2 (Z.leb_le (base + offset) _)), Hc by lia. cbn [negb andb].
      unfold get. rewrite (proj2 (Z.eqb_neq left 0)), E by lia. unfold mret, M_ret. simpl.
      rewrite (proj2 (Z.ltb_ge _ _)) by lia. do 2 f_equal. unfold splice. simpl.
      by rewrite Nat.add_0_r, take_drop. }
    rewrite (bind_ok _ _ _ _ _ Er). cbv beta iota zeta.
    change (wrapu 64 0) with 0. rewrite Z.add_0_r, Z.sub_0_r, !wrapu_small by (unfold in_u; lia).
    apply IH; rewrite ?E; try done.
  - destruct (read_ok buffer (base + offset) left w) as (k&l&E&Hk1&Hk2&Hk3&Hl1&Hl2&Hl3); try done; try lia.
    rewrite (bind_ok _ _ _ _ _ E). cbv beta iota zeta.
    rewrite (wrapu_small 64 (Z.of_nat k)), (wrapu_small 64 (offset + _)), (wrapu_small 64 (left - _)) by (unfold in_u; lia).
    apply IH; simpl; try done; try lia.
    + rewrite length_splice; [lia|]. rewrite length_take. lia.
    + by rewrite Hl3.
    + rewrite Hl1, length_drop. lia.
Qed.

(** A piece that fits is read at once. *)
Lemma read_piece buffer offset n bs l w :
  m_isConnected w = true → arrivals w = Data bs :: l → bs ≠ [] →
  0 ≤ offset → Z.of_nat (length bs) ≤ n → Z.of_nat (length bs) ≤ MAX_RW_COUNT →
  offset + Z.of_nat (length bs) ≤ Z.of_nat (length buffer) →
  read buffer offset n w =
    Ok (Z.of_nat (length bs), splice (Z.to_nat offset) bs buffer) (set_arrivals l w).
Proof.
  intros Hc Ha Hne Ho Hn Hmax Hb.
  assert (0 < length bs)%nat as Hl by (destruct bs; [done|simpl; lia]).
  unfold read. rewrite bind_get, (proj2 (Z.leb_le 0 _)), (proj2 (Z.leb_le offset _)), Hc by lia. cbn [andb negb].
  assert (sys_recv n w = Ok (Z.of_nat (length bs), bs) (set_arrivals l w)) as E.
  { unfold sys_recv. rewrite bind_get, (proj2 (Z.eqb_neq n 0)), Ha by lia. cbv zeta.
    replace (Z.min (Z.min n MAX_RW_COUNT) (Z.of_nat (length bs))) with (Z.of_nat (length bs)) by lia.
    rewrite Nat2Z.id, drop_all, firstn_all.
    by rewrite bool_decide_true, bind_modify by done. }
  step_with E. rewrite (proj2 (Z.ltb_ge _ _)) by lia.
  rewrite wraps_small by (unfold in_s, MAX_RW_COUNT in *; lia). done.
Qed.
