(* ===== verification/StreamSpec.v ===== *)
(** Correctness of the fixed-size transfers: complete whatever the pieces are, and
    what the missing error checks do. *)
From S2P Require Import Prelude Stream.
From Stdlib Require Import Strings.Byte.

Local Open Scope Z_scope.

(** The system takes something of every [send]. *)
Definition takes_ok (w : wire) : Prop := Forall (λ k, 0 < k) (takes w).

Lemma stream_write_ok buffer offset n w :
  m_isConnected w = true → 0 ≤ offset → 0 < n → offset + n = Z.of_nat (length buffer) → takes_ok w →
  ∃ k l, write buffer offset n w =
      Ok (Z.of_nat k) (mk_wire true (arrivals w) l (sent w ++ take k (drop (Z.to_nat offset) buffer))) ∧
    (0 < k)%nat ∧ Z.of_nat k ≤ n ∧ Z.of_nat k < 2 ^ 31 ∧ Forall (λ k, 0 < k) l.
Proof.
  intros Hc Ho Hn Hb Ht. unfold write.
  rewrite bind_get, (proj2 (Z.leb_le 0 _)), (proj2 (Z.leb_le (offset + n) _)), Hc by lia. cbn [andb negb].
  assert (length (take (Z.to_nat n) (drop (Z.to_nat offset) buffer)) = Z.to_nat n) as Hl
    by (rewrite length_take, length_drop; lia).
  unfold sys_send. rewrite bind_assoc, bind_get, Hl.
  set (m := Z.min (Z.of_nat (Z.to_nat n)) MAX_RW_COUNT).
  set (k := match takes w with [] => m | k :: _ => Z.min k m end).
  assert (0 < k ≤ m) as Hk.
  { unfold k. destruct Ht as [|k' l Hk' _]; unfold m, MAX_RW_COUNT; lia. }
  assert (m ≤ n ∧ m < 2 ^ 31) as [Hm1 Hm2] by (unfold m, MAX_RW_COUNT; lia).
  rewrite (proj2 (Z.ltb_ge _ _)) by lia. rewrite bind_assoc, bind_modify, bind_ret.
  exists (Z.to_nat k), (tail (takes w)). rewrite wraps_small by (unfold in_s; lia).
  rewrite Z2Nat.id, Hc by lia. rewrite take_take, Nat.min_l by lia.
  split_and!; try done; try lia. destruct Ht; [constructor|done].
Qed.

Lemma writeFixSize_loop_ok fuel buffer offset left w :
  m_isConnected w = true → 0 ≤ offset → 0 ≤ left → offset + left = Z.of_nat (length buffer) →
  Z.of_nat (length buffer) < 2 ^ 63 → takes_ok w → left ≤ Z.of_nat fuel →
  ∃ l, writeFixSize_loop fuel buffer offset left w =
      Ok tt (mk_wire true (arrivals w) l (sent w ++ drop (Z.to_nat offset) buffer)) ∧ Forall (λ k, 0 < k) l.
Proof.
  revert offset left w. induction fuel as [|fuel IH]; intros offset left w Hc Ho Hl Hb Hs Ht Hf; cbn [writeFixSize_loop].
  all: destruct (Z.eqb_spec left 0) as [->|Hne].
  1,3: exists (takes w); rewrite drop_ge by lia; rewrite app_nil_r; destruct w; simpl in *; subst; done.
  { lia. }
  rewrite wraps_small by (unfold in_s; lia).
  destruct (stream_write_ok buffer offset left w) as (k&l&E&Hk1&Hk2&Hk3&Hl'); try done; try lia.
  step_with E. cbv zeta.
  rewrite (wrapu_small 64 (Z.of_nat k)), (wrapu_small 64 (offset + _)), (wrapu_small 64 (left - _)) by (unfold in_u; lia).
  set (w1 := mk_wire _ _ _ _).
  destruct (IH (offset + Z.of_nat k) (left - Z.of_nat k) w1) as (l2&E2&Hl2); try done; try lia.
  exists l2. rewrite E2. split; [|done]. do 2 f_equal. cbn [sent w1]. rewrite <-app_assoc. f_equal.
  replace (Z.to_nat (offset + Z.of_nat k)) with (Z.to_nat offset + k)%nat by lia.
  by rewrite <-drop_drop, take_drop.
Qed.

(** [writeFixSize] sends the whole buffer in order, however little the system
    takes at a time, and answers its length as an [int]; [readFixSize] delivers
    exactly the next [n] bytes of the stream, however they are cut, and leaves the
    rest.  No shortage is ever reported: when the stream ends before [n] bytes have
    come, [readFixSize] never returns. *)
Theorem fixed_size_transfers (w : wire) (buffer : list byte) (base n : Z) (fuel : nat) :
  m_isConnected w = true → takes_ok w → pieces_ok (arrivals w) →
  0 ≤ base → 0 < n → base + n ≤ Z.of_nat (length buffer) → Z.of_nat (length buffer) < 2 ^ 31 →
  Z.of_nat (length buffer) ≤ Z.of_nat fuel →
  (∃ w', writeFixSize fuel buffer w = Ok (Z.of_nat (length buffer)) w' ∧
     sent w' = sent w ++ buffer ∧ arrivals w' = arrivals w) ∧
  (n ≤ Z.of_nat (length (incoming (arrivals w))) →
     ∃ w', readFixSize fuel buffer base n w =
         Ok (n, splice (Z.to_nat base) (take (Z.to_nat n) (incoming (arrivals w))) buffer) w' ∧
       incoming (arrivals w') = drop (Z.to_nat n) (incoming (arrivals w))) ∧
  (ends (arrivals w) = true → Z.of_nat (length (incoming (arrivals w))) < n →
     readFixSize fuel buffer base n w = Undef NoFuel).
Proof.
  intros Hc Ht Hp Hb Hn Hbn Hl Hf. split_and!.
  - destruct (writeFixSize_loop_ok fuel buffer 0 (Z.of_nat (length buffer)) w) as (l&E&_); try done; try lia.
    unfold writeFixSize. step_with E. rewrite wraps_small by (unfold in_s; lia).
    eexists. split; [reflexivity|]. done.
  - intros Hi. destruct (readFixSize_loop_ok fuel buffer base 0 n w) as (l&E&Hl1&_); try done; try lia.
    unfold readFixSize. step_with E. rewrite wraps_small by (unfold in_s; lia). rewrite Z.add_0_r.
    eexists. split; [reflexivity|]. exact Hl1.
  - intros He Hi. unfold readFixSize. apply bind_undef. apply readFixSize_loop_eof; try done; lia.
Qed.
Lemma fixed_size_transfers_witness :
  let w := mk_wire true [Data [x61]; Data [x62; x63]; Eof] [1; 5] [] in
  (∃ w', readFixSize 9 [x00; x00; x00; x00] 1 2 w = Ok (2, [x00; x61; x62; x00]) w') ∧
  readFixSize 9 [x00; x00; x00; x00] 0 4 w = Undef NoFuel.
Proof.
  intros w. split.
  - destruct (fixed_size_transfers w [x00; x00; x00; x00] 1 2 9) as (_&H&_);
      [reflexivity|repeat constructor; lia|by repeat constructor|lia|lia|simpl; lia|simpl; lia|simpl; lia|].
    destruct (H ltac:(simpl; lia)) as (w'&E&_). exists w'. exact E.
  - destruct (fixed_size_transfers w [x00; x00; x00; x00] 0 4 9) as (_&_&H);
      [reflexivity|repeat constructor; lia|by repeat constructor|lia|lia|simpl; lia|simpl; lia|simpl; lia|].
    apply H; [reflexivity|simpl; lia].
Defined.
