(* ===== verification/ByteStream.v ===== *)
(** The overloads of the streams that move the bytes of a [ByteArray]
    ([sylar/stream.cc], [sylar/socket_stream.cc]): [recv] and [send] on the pieces
    of the block chain, and the loops for a fixed size. *)
From S2P Require Import Prelude Endian ByteArray Stream.
From Stdlib Require Import Strings.Byte.

Local Open Scope Z_scope.

(** The connection and the byte array at the cursor of which it is read or
    written. *)
Record pair := mk_pair { p_wire : wire; p_ba : ByteArray }.

Definition on_wire {A} (m : M wire A) : M pair A := λ s,
  match m (p_wire s) with
  | Ok a w => Ok a (mk_pair w (p_ba s))
  | Throw e w => Throw e (mk_pair w (p_ba s))
  | Abort => Abort
  | Undef u => Undef u
  end.
Definition on_array {A} (m : M ByteArray A) : M pair A := λ s,
  match m (p_ba s) with
  | Ok a b => Ok a (mk_pair (p_wire s) b)
  | Throw e b => Throw e (mk_pair (p_wire s) b)
  | Abort => Abort
  | Undef u => Undef u
  end.

(** An [iovec] is a node, an offset in it and a length. *)
Notation iov := (nat * nat * nat)%type.
Definition iov_total (iovs : list iov) : Z := Z.of_nat (sum_list (map snd iovs)).
(** The most vectors one call takes (Linux, [UIO_MAXIOV]). *)
Definition IOV_MAX : nat := 1024.
(** What a read call does with the bytes that came. *)
Fixpoint scatter (nodes : list (list byte)) (iovs : list iov) (bs : list byte) : list (list byte) :=
  match iovs with
  | [] => nodes
  | (i, off, n) :: iovs =>
      scatter (<[i := splice off (take n bs) (default [] (nodes !! i))]> nodes) iovs (drop n bs)
  end.

Section streams.
Context `{Heap}.

(** [Socket::recv(buffers, length, flags)] with the vectors of the array *)
Definition recv_iov (iovs : list iov) : M pair Z :=
  w ← gets p_wire;
  if negb (m_isConnected w) then mret (-1)
  else if bool_decide (IOV_MAX < length iovs)%nat then mret (-1)
  else
    '(r, bs) ← on_wire (sys_recv (iov_total iovs));
    on_array (modify (λ ba, set_nodes_field (scatter (m_nodes ba) iovs bs) ba));;
    mret (wraps 32 r).
(** [Socket::send(buffers, length, flags)] *)
Definition send_iov (iovs : list iov) : M pair Z :=
  w ← gets p_wire;
  if negb (m_isConnected w) then mret (-1)
  else if bool_decide (IOV_MAX < length iovs)%nat then mret (-1)
  else
    nodes ← gets (λ s, m_nodes (p_ba s));
    r ← on_wire (sys_send (concat (map (iov_bytes nodes) iovs)));
    mret (wraps 32 r).

(** [SocketStream::read(ba, length)]; [&iovs[0]] of an empty vector is undefined. *)
Definition read_array (n : Z) : M pair Z :=
  w ← gets p_wire;
  if negb (m_isConnected w) then mret (-1)
  else
    '(iovs, _) ← on_array (getWriteBuffers (Z.to_nat n));
    if bool_decide (iovs = []) then undef OutOfBounds
    else
      rt ← recv_iov iovs;
      (if 0 <? rt
       then on_array (pos ← gets getPosition; setPosition (pos + Z.to_nat rt)%nat)
       else mret tt);;
      mret rt.
(** [SocketStream::write(ba, length)] *)
Definition write_array (n : Z) : M pair Z :=
  w ← gets p_wire;
  if negb (m_isConnected w) then mret (-1)
  else
    '(iovs, _) ← on_array (getReadBuffers n);
    if bool_decide (iovs = []) then undef OutOfBounds
    else
      rt ← send_iov iovs;
      (if 0 <? rt
       then on_array (pos ← gets getPosition; setPosition (pos + Z.to_nat rt)%nat)
       else mret tt);;
      mret rt.

(** The loops of [Stream::readFixSize(ba, length)] and [writeFixSize(ba, length)]:
    [size_t] again makes the test for an error false. *)
Fixpoint read_array_loop (fuel : nat) (left : Z) : M pair unit :=
  if left =? 0 then mret tt
  else
    match fuel with
    | O => undef NoFuel
    | S fuel => r ← read_array left; read_array_loop fuel (wrapu 64 (left - wrapu 64 r))
    end.
Fixpoint write_array_loop (fuel : nat) (left : Z) : M pair unit :=
  if left =? 0 then mret tt
  else
    match fuel with
    | O => undef NoFuel
    | S fuel => r ← write_array left; write_array_loop fuel (wrapu 64 (left - wrapu 64 r))
    end.
Definition readFixSize_array (fuel : nat) (n : Z) : M pair Z := read_array_loop fuel n;; mret (wraps 32 n).
Definition writeFixSize_array (fuel : nat) (n : Z) : M pair Z := write_array_loop fuel n;; mret (wraps 32 n).
End streams.
