(* ===== verification/ByteStreamSpec.v ===== *)
(** Transfers between a connection and a [ByteArray] act on the plain tape: what
    arrives is written at the cursor, what is sent was read there. *)
From S2P Require Import Prelude Endian ByteArray ByteArraySpec Stream StreamSpec ByteStream.
From Stdlib Require Import Strings.Byte.

(** ** The pieces of the chain *)

(** Storing at the pieces of a walk is one splice of the whole chain. *)
Lemma scatter_loop b nodes : 0 < b → Forall (λ nd, length nd = b) nodes →
  ∀ fuel p len vs nodes' bs, p < b * length nodes → length nodes' = length nodes →
  Forall (λ nd, length nd = b) nodes' → p + len ≤ b * length nodes → length bs ≤ len →
  iov_loop fuel nodes (p / b) (p mod b) (b - p mod b) len = Some vs →
  concat (scatter nodes' vs bs) = splice p bs (concat nodes') ∧
  Forall (λ nd, length nd = b) (scatter nodes' vs bs) ∧ length (scatter nodes' vs bs) = length nodes ∧
  (0 < len → (length vs - 1) * b < p mod b + len) ∧ (0 < len → vs ≠ []).
Proof.
  intros Hb HF. induction fuel as [|fuel IH]; intros p len vs nodes' bs Hp Hl HF' Hfit Hbs E; cbn [iov_loop] in E.
  all: destruct (decide (len = 0)) as [->|Hlen]; [injection E as <-|].
  1,3: assert (bs = []) as -> by (by apply nil_length_inv; lia); cbn [scatter]; unfold splice; simpl;
    rewrite Nat.add_0_r, take_drop; split_and!; try done; lia.
  { done. }
  dm p b. destruct (chain_lookup_lt b Hb nodes' p ltac:(lia)) as [nd Hnd].
  pose proof (Nat.Div0.div_lt_upper_bound _ _ _ Hp) as Hlt.
  assert (length nd = b) as Hndl by (by eapply Forall_lookup_1 in HF').
  assert (∀ k, length k + p mod b ≤ b →
    concat (<[p / b := splice (p mod b) k nd]> nodes') = splice p k (concat nodes') ∧
    Forall (λ nd, length nd = b) (<[p / b := splice (p mod b) k nd]> nodes')) as Hstep.
  { intros k Hk. split; [|by apply Forall_insert_splice; (done || lia)].
    rewrite (concat_insert_splice b) by (done || lia). by rewrite <-div_mod_mul. }
  destruct (decide (len ≤ b - p mod b)) as [Hs|Hs].
  { injection E as <-. cbn [scatter]. rewrite Hnd, take_ge by lia. change (default [] (Some nd)) with nd.
    destruct (Hstep bs ltac:(lia)) as [-> ?]. rewrite length_insert. split_and!; try done; simpl; lia. }
  set (n := b - p mod b) in *. assert (p + n = (p / b + 1) * b) as Hq by lia.
  unfold next_of in E. destruct (decide (S (p / b) < length nodes)) as [Hnx|Hnx]; [|done]. simpl in E.
  destruct (lookup_lt_is_Some_2 nodes (S (p / b)) Hnx) as [nd' Hnd']. rewrite Hnd' in E. simpl in E.
  assert (length nd' = b) as El by (by eapply Forall_lookup_1 in HF). rewrite El in E.
  destruct (iov_loop fuel nodes (S (p / b)) 0 b (len - n)) as [vs'|] eqn:E'; [|done]. injection E as <-.
  cbn [scatter]. rewrite Hnd. change (default [] (Some nd)) with nd.
  assert (length (take n bs) ≤ n) as Ht by (rewrite length_take; lia).
  destruct (Hstep (take n bs) ltac:(lia)) as [Hc1 HF1].
  destruct (IH (p + n) (len - n) vs' (<[p / b := splice (p mod b) (take n bs) nd]> nodes') (drop n bs))
    as (Hc&HF2&Hl2&Hn2&_); try done.
  - nia.
  - by rewrite length_insert.
  - lia.
  - rewrite length_drop. lia.
  - rewrite Hq, Nat.div_mul, Nat.Div0.mod_mul, Nat.sub_0_r by lia. by replace (p / b + 1) with (S (p / b)) by lia.
  - split; [|split; [done|split; [done|split; [|done]]]].
    + rewrite Hc, Hc1. rewrite <-(take_drop n bs) at 3.
      destruct (decide (n ≤ length bs)) as [Hle|Hgt].
      * rewrite splice_split; [by rewrite (length_take_le bs n) by lia|].
        rewrite length_take, length_drop, (length_concat b) by done. rewrite Hl. lia.
      * rewrite (drop_ge bs), app_nil_r by lia. unfold splice at 1. simpl. by rewrite Nat.add_0_r, take_drop.
    + intros _. rewrite Hq, Nat.Div0.mod_mul in Hn2. simpl. rewrite Nat.sub_0_r.
      destruct (decide (len - n = 0)); [lia|]. specialize (Hn2 ltac:(lia)). nia.
Qed.

Lemma on_array_ok {A} (m : M ByteArray A) w b a b' : m b = Ok a b' → on_array m (mk_pair w b) = Ok a (mk_pair w b').
Proof. unfold on_array. simpl. by intros ->. Qed.
Lemma on_wire_ok {A} (m : M wire A) w b a w' : m w = Ok a w' → on_wire m (mk_pair w b) = Ok a (mk_pair w' b).
Proof. unfold on_wire. simpl. by intros ->. Qed.

(** What one call can move: a cursor inside a node adds one vector. *)
Definition at_once (b : ByteArray) : Z := Z.of_nat ((IOV_MAX - 1) * m_baseSize b).
Arguments at_once : simpl never.

Section arrays.
Context {HP : Heap}.

(** ** Reading *)

Lemma getWriteBuffers_ok ba n : wf ba → room ba n → 0 < n → n ≤ (IOV_MAX - 1) * m_baseSize ba →
  ∃ vs ba', getWriteBuffers n ba = Ok (vs, n) ba' ∧ wf ba' ∧ abs ba' = abs ba ∧
    m_baseSize ba' = m_baseSize ba ∧ m_position ba' = m_position ba ∧ m_position ba' + n ≤ m_capacity ba' ∧
    vs ≠ [] ∧ length vs ≤ IOV_MAX ∧ sum_list (map snd vs) = n ∧
    ∀ bs, length bs ≤ n → let nodes := scatter (m_nodes ba') vs bs in
      concat nodes = splice (m_position ba') bs (flat ba') ∧
      Forall (λ nd, length nd = m_baseSize ba') nodes ∧ length nodes = length (m_nodes ba').
Proof.
  intros Hwf Hroom Hn Hmax. unfold getWriteBuffers. rewrite decide_False by lia.
  destruct (addCapacity_spec ba n Hwf Hn) as (b1&Ea&Hwf1&(extra&Hfl)&Hp&Hs&Hb&He&Hcap&_).
  apply Hcap in Hroom. clear Hcap. step_with Ea. rewrite bind_gets.
  pose proof Hwf1 as [Hsh Hps Hsc _ _]. pose proof Hsh as [Hbase Hroot HF Hc].
  step_with (mod_base_ok b1 (m_position b1) Hsh).
  pose proof (wf_inside b1 Hwf1 ltac:(lia)) as Hin. destruct (inside_node b1 Hin) as (nd&_&Hl&Hcn).
  step_with Hcn. rewrite bind_gets, Hl.
  pose proof (iov_loop_spec _ _ Hbase HF (S (length (m_nodes b1))) (m_position b1) n ltac:(lia) ltac:(lia)) as Hi.
  cbv zeta in Hi. rewrite decide_True in Hi by lia. destruct Hi as (vs&Ev&_&Hsum). rewrite Ev.
  pose proof (λ bs Hbs, scatter_loop _ _ Hbase HF _ (m_position b1) n vs (m_nodes b1) bs
    ltac:(lia) eq_refl HF ltac:(lia) Hbs Ev) as Hsc'.
  destruct (Hsc' [] ltac:(simpl; lia)) as (_&_&_&Hlen&Hne). specialize (Hlen Hn).
  pose proof (Nat.mod_upper_bound (m_position b1) (m_baseSize b1) ltac:(lia)) as Hmod.
  exists vs, b1. split; [done|]. split; [done|]. split.
  { unfold abs. rewrite Hfl, Hs, Hp. f_equal. pose proof Hwf as [Hsh0 _ Hsc0 _ _].
    rewrite take_app_le by (rewrite length_flat by done; done). done. }
  split; [done|]. split; [done|]. split; [lia|]. split; [auto|]. split; [|split; [done|]].
  - rewrite Hb in Hlen, Hmod. assert ((length vs - 1) * m_baseSize ba < IOV_MAX * m_baseSize ba) as Hlt by (unfold IOV_MAX in *; lia).
    apply Nat.mul_lt_mono_pos_r in Hlt; lia.
  - intros bs Hbs. destruct (Hsc' bs Hbs) as (?&?&?&_). done.
Qed.

(** Bytes stored at the cursor and the cursor moved over them: a write on the tape. *)
Lemma stored_write ba nodes bs : wf ba → m_position ba + length bs ≤ m_capacity ba →
  concat nodes = splice (m_position ba) bs (flat ba) →
  Forall (λ nd, length nd = m_baseSize ba) nodes → length nodes = length (m_nodes ba) →
  ∃ ba', setPosition (m_position ba + length bs) (set_nodes_field nodes ba) = Ok tt ba' ∧ wf ba' ∧
    abs ba' = Tape.write bs (abs ba) ∧ m_baseSize ba' = m_baseSize ba ∧
    m_position ba' = m_position ba + length bs ∧ m_capacity ba' = m_capacity ba.
Proof.
  intros Hwf Hfit Hc HF Hl. pose proof Hwf as [[Hb Hr HFn Hcap] Hps Hsc Hcur He].
  assert (wf (set_nodes_field nodes ba)) as Hwf1.
  { split; simpl; try done. split; simpl; try done; [|by rewrite Hl].
    intros ->. simpl in Hl. symmetry in Hl. by apply nil_length_inv in Hl. }
  pose proof (setPosition_spec _ (m_position ba + length bs) Hwf1) as Hsp. cbn [m_capacity set_nodes_field] in Hsp.
  rewrite decide_False in Hsp by lia. destruct Hsp as (ba'&E&Hwf'&Hp&Hs&Hfl&_&Hcp&Hbs&_).
  exists ba'. split; [done|]. split; [done|]. split; [|done]. unfold abs. rewrite Hfl, Hs, Hp.
  cbn [m_size set_nodes_field]. unfold flat at 1. cbn [m_nodes set_nodes_field]. rewrite Hc. unfold Tape.write. simpl. f_equal.
  pose proof (length_flat ba ltac:(by split)) as Hfl'.
  rewrite <-(app_nil_r (flat ba)). rewrite take_max_splice by (rewrite ?length_app; simpl; lia). by rewrite app_nil_r.
Qed.
Local Open Scope Z_scope.

Lemma read_array_ok n w b : m_isConnected w = true → wf b → room b (Z.to_nat n) → 0 < n →
  n ≤ at_once b → pieces_ok (arrivals w) → incoming (arrivals w) ≠ [] →
  let inc := incoming (arrivals w) in
  ∃ k l b', read_array n (mk_pair w b) = Ok (Z.of_nat k) (mk_pair (set_arrivals l w) b') ∧
    (0 < k)%nat ∧ Z.of_nat k ≤ n ∧ Z.of_nat k < 2 ^ 31 ∧ (k ≤ length inc)%nat ∧
    incoming l = drop k inc ∧ pieces_ok l ∧ ends l = ends (arrivals w) ∧
    wf b' ∧ abs b' = Tape.write (take k inc) (abs b) ∧ m_baseSize b' = m_baseSize b ∧
    room b' (Z.to_nat (n - Z.of_nat k)).
Proof.
  intros Hc Hwf Hroom Hn Hmax Hp Hi inc. unfold read_array. rewrite bind_gets. cbn [p_wire]. rewrite Hc. cbn [negb].
  destruct (getWriteBuffers_ok b (Z.to_nat n) Hwf Hroom ltac:(lia) ltac:(unfold at_once in *; lia))
    as (vs&b1&E&Hwf1&Habs&Hb1&Hp1&Hcap&Hne&Hlen&Hsum&Hsc).
  step_with (on_array_ok _ w _ _ _ E). rewrite bool_decide_false by done.
  destruct (sys_recv_data n w Hn Hp Hi) as (k&l&Er&Hk1&Hk2&Hk3&Hl1&Hl2&Hl3). fold inc in Er, Hk1, Hl1.
  assert (length (take k inc) = k) as Htk by (rewrite length_take; lia).
  destruct (Hsc (take k inc) ltac:(lia)) as (Hcc&HF&Hln).
  destruct (stored_write b1 _ (take k inc) Hwf1 ltac:(lia) Hcc HF Hln) as (b2&E2&Hwf2&Ha2&Hb2&Hp2&Hc2). rewrite Htk in E2, Hp2.
  assert (Z.of_nat k < 2 ^ 31) as Hk31 by (unfold MAX_RW_COUNT in Hk3; lia).
  exists k, l, b2. split.
  - unfold recv_iov. rewrite bind_assoc, bind_gets. cbn [p_wire]. rewrite Hc. cbn [negb].
    rewrite bool_decide_false by lia. unfold iov_total. rewrite Hsum, Z2Nat.id by lia.
    rewrite bind_assoc. step_with (on_wire_ok _ _ b1 _ _ Er). rewrite bind_assoc.
    unfold on_array at 1, modify at 1. mred. cbn [p_wire p_ba].
    rewrite wraps_small by (unfold in_s; lia).
    rewrite (proj2 (Z.ltb_lt _ _)) by lia. unfold on_array, getPosition. mred. cbn [p_ba p_wire].
    rewrite Nat2Z.id. cbn [m_position set_nodes_field]. by rewrite E2.
  - do 7 (split; [done || lia|]). split; [done|]. split; [by rewrite Ha2, Habs|]. split; [congruence|].
    left. unfold getCapacity. lia.
Qed.

(** ** Writing *)

Lemma getReadBuffers_pieces b n : wf b → 0 < n → n ≤ at_once b → (m_position b < m_size b)%nat →
  let m := (getReadSize b `min` Z.to_nat n)%nat in
  ∃ vs, getReadBuffers n b = Ok (vs, m) b ∧ concat (map (iov_bytes (m_nodes b)) vs) = Tape.peek m (abs b) ∧
    vs ≠ [] ∧ (length vs ≤ IOV_MAX)%nat.
Proof.
  intros Hwf Hn Hmax Hr m. destruct (getReadBuffers_ok b n Hwf ltac:(lia)) as (vs&E&Hcat&Hsum).
  assert (Z.to_nat (Z.of_nat (getReadSize b) `min` n) = m) as Hm by lia. rewrite Hm in *. clear Hm.
  exists vs. split; [done|]. split; [done|]. pose proof Hwf as [Hsh Hps Hsc _ _]. pose proof Hsh as [Hb _ HF Hcap].
  unfold getReadBuffers in E. rewrite bind_gets in E.
  assert (0 < m)%nat as Hm0 by (unfold m, getReadSize; lia).
  set (q := Z.to_nat _) in E. assert (q = m) as Hq.
  { unfold q, m. destruct (Z.ltb_spec (Z.of_nat (getReadSize b)) n); lia. }
  rewrite Hq, decide_False in E by lia.
  pose proof (wf_inside b Hwf ltac:(lia)) as Hin. destruct (inside_node b Hin) as (nd&_&Hl&Hcn).
  rewrite (bind_ok _ _ _ _ _ Hcn) in E. cbv beta iota in E. rewrite bind_gets in E.
  rewrite (bind_ok _ _ _ _ _ (mod_base_ok b (m_position b) Hsh)) in E. rewrite bind_gets, Hl in E.
  destruct (iov_loop _ _ _ _ _ _) as [vs'|] eqn:Ei; [|done]. injection E as ->.
  destruct (scatter_loop _ _ Hb HF _ (m_position b) m vs (m_nodes b) [] ltac:(lia) eq_refl HF
    ltac:(unfold m, getReadSize; lia) ltac:(simpl; lia) Ei) as (_&_&_&Hlen&Hne).
  split; [auto|]. specialize (Hlen Hm0). pose proof (Nat.mod_upper_bound (m_position b) (m_baseSize b) ltac:(lia)).
  assert ((length vs - 1) * m_baseSize b < IOV_MAX * m_baseSize b)%nat as Hlt by (unfold at_once, IOV_MAX, m in *; lia).
  apply Nat.mul_lt_mono_pos_r in Hlt; lia.
Qed.

Lemma write_array_ok n w b : m_isConnected w = true → takes_ok w → wf b → 0 < n → (m_position b < m_size b)%nat →
  n ≤ at_once b →
  ∃ k l b', write_array n (mk_pair w b) =
      Ok (Z.of_nat k) (mk_pair (mk_wire true (arrivals w) l (sent w ++ Tape.peek k (abs b))) b') ∧
    (0 < k)%nat ∧ (k ≤ getReadSize b)%nat ∧ Z.of_nat k ≤ n ∧ Z.of_nat k < 2 ^ 31 ∧ Forall (λ k, 0 < k) l ∧
    wf b' ∧ abs b' = Tape.advance k (abs b) ∧ m_baseSize b' = m_baseSize b ∧
    m_position b' = (m_position b + k)%nat ∧ m_size b' = m_size b.
Proof.
  intros Hc Ht Hwf Hn Hr Hmax. unfold write_array. rewrite bind_gets. cbn [p_wire]. rewrite Hc. cbn [negb].
  destruct (getReadBuffers_pieces b n Hwf Hn Hmax Hr) as (vs&E&Hcat&Hne&Hlen).
  set (m := (getReadSize b `min` Z.to_nat n)%nat) in *.
  step_with (on_array_ok _ w _ _ _ E). rewrite bool_decide_false by done.
  pose proof Hwf as [Hsh Hps Hsc _ _]. pose proof (length_flat b Hsh) as Hfl.
  assert (length (Tape.peek m (abs b)) = m) as Hlp.
  { unfold Tape.peek, abs. simpl. rewrite length_take, length_drop, length_take. unfold m, getReadSize in *. lia. }
  set (m' := Z.min (Z.of_nat m) MAX_RW_COUNT).
  set (k := match takes w with [] => m' | k :: _ => Z.min k m' end).
  assert (0 < k ≤ m') as Hk.
  { unfold k. destruct Ht as [|k' l Hk' _]; unfold m', m, MAX_RW_COUNT, getReadSize; lia. }
  assert (m' ≤ Z.of_nat m ∧ m' < 2 ^ 31) as [Hm1 Hm2] by (unfold m', MAX_RW_COUNT; lia).
  assert (sys_send (Tape.peek m (abs b)) w =
    Ok k (mk_wire true (arrivals w) (tail (takes w)) (sent w ++ Tape.peek (Z.to_nat k) (abs b)))) as Es.
  { unfold sys_send. rewrite bind_get, Hlp. fold m' k. rewrite (proj2 (Z.ltb_ge _ _)) by lia.
    rewrite bind_modify, Hc. unfold Tape.peek. rewrite take_take, Nat.min_l by lia. done. }
  pose proof (setPosition_spec b (m_position b + Z.to_nat k) Hwf) as Hsp.
  rewrite decide_False in Hsp by (unfold m, getReadSize in *; lia).
  destruct Hsp as (b'&E'&Hwf'&Hp'&Hs'&Hf'&_&_&Hb'&_).
  exists (Z.to_nat k), (tail (takes w)), b'. rewrite Z2Nat.id by lia. split.
  - unfold send_iov. rewrite bind_assoc, bind_gets. cbn [p_wire]. rewrite Hc. cbn [negb].
    rewrite bool_decide_false by lia. rewrite bind_assoc, bind_gets. cbn [p_ba]. rewrite Hcat.
    rewrite bind_assoc. step_with (on_wire_ok _ _ b _ _ Es). rewrite bind_ret, wraps_small by (unfold in_s; lia).
    rewrite (proj2 (Z.ltb_lt _ _)) by lia. unfold on_array, getPosition. mred. cbn [p_ba p_wire]. by rewrite E'.
  - split; [lia|]. split; [lia|]. split; [unfold m in *; lia|]. split; [lia|].
    split; [destruct Ht; [constructor|done]|]. split; [done|]. split; [|split; [done|split; [done|rewrite Hs'; unfold m, getReadSize in *; lia]]].
    unfold abs, Tape.advance. simpl. rewrite Hp', Hf', Hs'. f_equal. f_equal. unfold m, getReadSize in *. lia.
Qed.
(** At the end of the data there is no vector whose address could be taken. *)
Lemma write_array_empty n w b : m_isConnected w = true → 0 ≤ n → m_position b = m_size b →
  write_array n (mk_pair w b) = Undef OutOfBounds.
Proof.
  intros Hc Hn He. unfold write_array. rewrite bind_gets. cbn [p_wire]. rewrite Hc. cbn [negb].
  assert (getReadBuffers n b = Ok ([], 0%nat) b) as E.
  { unfold getReadBuffers. rewrite bind_gets. unfold getReadSize. rewrite He, Nat.sub_diag.
    destruct (Z.ltb_spec (Z.of_nat 0) n); [done|]. by replace n with 0 by lia. }
  by step_with (on_array_ok _ w _ _ _ E).
Qed.

(** ** The loops *)

Lemma tape_write_nil t : Tape.write [] t = t.
Proof. destruct t. unfold Tape.write. simpl. by rewrite Nat.add_0_r, take_drop. Qed.

Lemma abs_pos b : wf b → (Tape.pos (abs b) ≤ length (Tape.data (abs b)))%nat.
Proof. intros [Hsh Hp Hs _ _]. simpl. rewrite length_take, length_flat by done. lia. Qed.
Lemma read_array_loop_ok fuel left : ∀ w b, m_isConnected w = true → wf b → room b (Z.to_nat left) → 0 ≤ left →
  left ≤ at_once b → left < 2 ^ 63 → pieces_ok (arrivals w) →
  left ≤ Z.of_nat (length (incoming (arrivals w))) → left ≤ Z.of_nat fuel →
  ∃ l b', read_array_loop fuel left (mk_pair w b) = Ok tt (mk_pair (set_arrivals l w) b') ∧ wf b' ∧
    abs b' = Tape.write (take (Z.to_nat left) (incoming (arrivals w))) (abs b) ∧
    incoming l = drop (Z.to_nat left) (incoming (arrivals w)) ∧ pieces_ok l.
Proof.
  revert left. induction fuel as [|fuel IH]; intros left w b Hc Hwf Hr Hl Hmax H63 Hp Hi Hf; cbn [read_array_loop].
  all: destruct (Z.eqb_spec left 0) as [->|Hne].
  1,3: exists (arrivals w), b; rewrite take_0, drop_0, tape_write_nil; by destruct w.
  { lia. }
  destruct (read_array_ok left w b) as (k&l&b1&E&Hk0&Hkn&Hk31&Hkl&Hl1&Hl2&Hl3&Hwf1&Ha1&Hb1&Hr1); try done; try lia.
  { intros E. rewrite E in Hi. simpl in Hi. lia. }
  step_with E. rewrite (wrapu_small 64 (Z.of_nat k)), (wrapu_small 64 (left - _)) by (unfold in_u; lia).
  destruct (IH (left - Z.of_nat k) (set_arrivals l w) b1) as (l2&b2&E2&Hwf2&Ha2&Hl4&Hl5); simpl; try done; try lia.
  { unfold at_once in *. rewrite Hb1. lia. }
  { rewrite Hl1, length_drop. lia. }
  exists l2, b2. rewrite E2. simpl in *. rewrite Hl1 in *. split; [done|]. split; [done|]. split; [|split; [|done]].
  - rewrite Ha2, Ha1, tape_write_app by (by apply abs_pos). f_equal.
    replace (Z.to_nat left) with (k + Z.to_nat (left - Z.of_nat k))%nat by lia. by rewrite take_take_drop.
  - rewrite Hl4, drop_drop. f_equal. lia.
Qed.
Lemma read_array_loop_eof fuel left : ∀ w b, m_isConnected w = true → wf b → room b (Z.to_nat left) → 0 ≤ left →
  left ≤ at_once b → left < 2 ^ 63 → pieces_ok (arrivals w) → ends (arrivals w) = true →
  Z.of_nat (length (incoming (arrivals w))) < left →
  read_array_loop fuel left (mk_pair w b) = Undef NoFuel.
Proof.
  revert left. induction fuel as [|fuel IH]; intros left w b Hc Hwf Hr Hl Hmax H63 Hp He Hi; cbn [read_array_loop];
    rewrite (proj2 (Z.eqb_neq left 0)) by lia; [done|].
  destruct (decide (incoming (arrivals w) = [])) as [Ei|Ei].
  - destruct (arrivals w) as [|[bs| |] l] eqn:Ew; try done.
    { apply Forall_cons in Hp as [Hbs _]. simpl in Ei. by destruct bs. }
    destruct (getWriteBuffers_ok b (Z.to_nat left) Hwf Hr ltac:(lia) ltac:(unfold at_once in *; lia))
      as (vs&b1&E&Hwf1&Habs&Hb1&Hp1&Hcap&Hne&Hlen&Hsum&Hsc).
    destruct (Hsc [] ltac:(simpl; lia)) as (Hcc&HF&Hln).
    assert (∃ b2, read_array left (mk_pair w b) = Ok 0 (mk_pair w b2) ∧ wf b2 ∧ m_baseSize b2 = m_baseSize b ∧
      room b2 (Z.to_nat left)) as (b2&E2&Hwf2&Hb2&Hr2).
    { exists (set_nodes_field (scatter (m_nodes b1) vs []) b1). split.
      - unfold read_array. rewrite bind_gets. cbn [p_wire]. rewrite Hc. cbn [negb].
        step_with (on_array_ok _ w _ _ _ E). rewrite bool_decide_false by done.
        unfold recv_iov. rewrite bind_assoc, bind_gets. cbn [p_wire]. rewrite Hc. cbn [negb].
        rewrite bool_decide_false by lia. unfold iov_total. rewrite Hsum, Z2Nat.id by lia.
        assert (sys_recv left w = Ok (0, []) w) as Er.
        { unfold sys_recv. rewrite bind_get, (proj2 (Z.eqb_neq left 0)), Ew by lia. done. }
        rewrite bind_assoc. by step_with (on_wire_ok _ _ b1 _ _ Er).
      - pose proof Hwf1 as [[? Hroot ? Hcp] ? ? ? ?]. split; [|split; [done|left; unfold getCapacity; simpl; lia]].
        split; simpl; try done. split; simpl; try done; [|by rewrite Hln].
        intros Hz. rewrite Hz in Hln. simpl in Hln. symmetry in Hln. by apply nil_length_inv in Hln. }
    step_with E2. change (wrapu 64 0) with 0. rewrite Z.sub_0_r, wrapu_small by (unfold in_u; lia).
    apply IH; rewrite ?Ew; try done. unfold at_once in *. by rewrite Hb2.
  - destruct (read_array_ok left w b) as (k&l&b1&E&Hk0&Hkn&Hk31&Hkl&Hl1&Hl2&Hl3&Hwf1&Ha1&Hb1&Hr1); try done; try lia.
    step_with E. rewrite (wrapu_small 64 (Z.of_nat k)), (wrapu_small 64 (left - _)) by (unfold in_u; lia).
    apply IH; simpl; try done; try lia; [unfold at_once in *; rewrite Hb1; lia|by rewrite Hl3|rewrite Hl1, length_drop; lia].
Qed.

Lemma peek_split k n t : Tape.peek (k + n) t = Tape.peek k t ++ Tape.peek n (Tape.advance k t).
Proof. unfold Tape.peek, Tape.advance. simpl. rewrite <-drop_drop. symmetry. apply take_take_drop. Qed.
Lemma write_array_loop_ok fuel left : ∀ w b, m_isConnected w = true → takes_ok w → wf b → 0 ≤ left →
  left ≤ at_once b → left < 2 ^ 63 → (m_size b - m_position b < fuel)%nat →
  if bool_decide (left ≤ Z.of_nat (getReadSize b))
  then ∃ l b', write_array_loop fuel left (mk_pair w b) =
      Ok tt (mk_pair (mk_wire true (arrivals w) l (sent w ++ Tape.peek (Z.to_nat left) (abs b))) b') ∧
    wf b' ∧ abs b' = Tape.advance (Z.to_nat left) (abs b)
  else write_array_loop fuel left (mk_pair w b) = Undef OutOfBounds.
Proof.
  revert left. induction fuel as [|fuel IH]; intros left w b Hc Ht Hwf Hl Hmax H63 Hf; cbn [write_array_loop].
  { lia. }
  destruct (Z.eqb_spec left 0) as [->|Hne].
  { rewrite bool_decide_true by (unfold getReadSize; lia). exists (takes w), b. unfold Tape.peek, Tape.advance.
    change (Z.to_nat 0) with 0%nat. rewrite take_0, app_nil_r. destruct w; simpl in *; subst. split; [done|]. split; [done|].
    unfold abs. simpl. by rewrite Nat.add_0_r. }
  pose proof (wf_position _ Hwf) as Hps. destruct (decide (m_position b = m_size b)) as [He|He].
  { rewrite bool_decide_false by (unfold getReadSize; lia). apply bind_undef. by apply write_array_empty. }
  destruct (write_array_ok left w b) as (k&l&b1&E&Hk0&Hkr&Hkn&Hk31&Hl1&Hwf1&Ha1&Hb1&Hp1&Hs1); try done; try lia.
  step_with E. rewrite (wrapu_small 64 (Z.of_nat k)), (wrapu_small 64 (left - _)) by (unfold in_u; lia).
  set (w1 := mk_wire _ _ _ _). specialize (IH (left - Z.of_nat k) w1 b1 eq_refl Hl1 Hwf1 ltac:(lia)).
  rewrite Hp1, Hs1 in IH. specialize (IH ltac:(unfold at_once in *; rewrite Hb1; lia) ltac:(lia) ltac:(unfold getReadSize in *; lia)).
  assert (left - Z.of_nat k ≤ Z.of_nat (getReadSize b1) ↔ left ≤ Z.of_nat (getReadSize b)) as Hiff
    by (unfold getReadSize in *; lia).
  rewrite (bool_decide_ext _ _ Hiff) in IH. case_bool_decide as Hle; [|done].
  destruct IH as (l2&b2&E2&Hwf2&Ha2). exists l2, b2. rewrite E2. split; [|split; [done|]].
  - do 3 f_equal. cbn [sent w1]. rewrite Ha1, <-app_assoc, <-peek_split. do 3 f_equal. lia.
  - rewrite Ha2, Ha1. unfold Tape.advance. simpl. f_equal. lia.
Qed.

End arrays.

(** ** Witnesses *)

Local Open Scope Z_scope.
Module Demo.
#[local] Instance demo_heap : Heap := {| indeterminate _ _ := x00 |}.
Definition demo_wire : wire := mk_wire true [Data [x61]; Data [x62; x63; x64; x65]; Eof] [1; 5] [].
Definition demo_array : ByteArray := mkByteArray 2 1 4 4 SYLAR_BIG_ENDIAN [[x31; x32]; [x33; x34]] (Some 0%nat).
Lemma demo_array_wf : wf demo_array.
Proof.
  split; [|simpl; lia|simpl; lia|reflexivity|by right].
  split; simpl; [lia|done|repeat constructor|lia].
Qed.
(** An error of [recv] is read as a length of [2^64 - 1]: the loop then wants one byte
    more than it was asked for. *)
Lemma error_reads_more :
  ∃ w' b', readFixSize_array 9 2 (mk_pair (mk_wire true [Error; Data [x61; x62; x63]] [] []) demo_array) =
    Ok 2 (mk_pair w' b') ∧ abs b' = Tape.mk [x31; x61; x62; x63] 4.
Proof. eexists _, _. split; vm_compute; reflexivity. Qed.
End Demo.
