(* ===== verification/HttpRequestParser.v ===== *)
(** [HttpRequestParser] ([sylar/http/http_parser.h], [http_parser.cc]): the
    request under construction and the callbacks that fill it.

    The receive buffer is a list of bytes; a [std::string(at, length)] that would
    read outside of it is undefined, one longer than any string throws. *)
From S2P Require Import Prelude Text Http Http11Parser.
From Stdlib Require Import Strings.Byte.

Local Open Scope Z_scope.

(** [boost::lexical_cast<uint64_t>], which may throw. *)
Class LexicalCast := lexical_cast_u64 : string → option Z.

(** The limits copied out of the configuration ([s_http_request_buffer_size],
    ...), and the listeners that keep the copies current. *)
Record Sizes := mk_sizes {
  s_http_request_buffer_size : Z;
  s_http_request_max_body_size : Z;
  s_http_response_buffer_size : Z;
  s_http_response_max_body_size : Z;
}.
(** The defaults given to [Config::Lookup] *)
Definition default_sizes : Sizes := mk_sizes (4 * 1024) (64 * 1024 * 1024) (4 * 1024) (64 * 1024 * 1024).
Definition on_request_buffer_size (nv : Z) (s : Sizes) : Sizes :=
  mk_sizes nv (s_http_request_max_body_size s) (s_http_response_buffer_size s) (s_http_response_max_body_size s).
Definition on_request_max_body_size (nv : Z) (s : Sizes) : Sizes :=
  mk_sizes (s_http_request_buffer_size s) nv (s_http_response_buffer_size s) (s_http_response_max_body_size s).
Definition on_response_buffer_size (nv : Z) (s : Sizes) : Sizes :=
  mk_sizes (s_http_request_buffer_size s) (s_http_request_max_body_size s) nv (s_http_response_max_body_size s).
Definition on_response_max_body_size (nv : Z) (s : Sizes) : Sizes :=
  mk_sizes (s_http_request_buffer_size s) (s_http_request_max_body_size s) (s_http_response_buffer_size s) nv.

(** Bytes as text. *)
Definition str (l : list byte) : string := String.string_of_list_byte l.
(** [std::string(at, length)] *)
Definition string_at {S} (buffer : list byte) (at_ length_ : Z) : M S string :=
  if 2 ^ 63 - 1 <? length_ then throw (length_error "basic_string::_M_create")
  else if Z.of_nat (length buffer) <? at_ + length_ then undef OutOfBounds
  else mret (str (take (Z.to_nat length_) (drop (Z.to_nat at_) buffer))).
(** What a C string function sees from [at]. *)
Definition text_at (buffer : list byte) (at_ : Z) : string := str (drop (Z.to_nat at_) buffer).

(** [memmove(data, data + offset, len - offset)] *)
Definition memmove_front (offset len : Z) (data : list byte) : list byte :=
  splice 0 (take (Z.to_nat (len - offset)) (drop (Z.to_nat offset) data)) data.

(** The version of a request or response: "HTTP/1.1" and "HTTP/1.0", compared on
    [length] characters. *)
Definition version_of (buffer : list byte) (at_ length_ : Z) : option Z :=
  if strncmp_eq (text_at buffer at_) "HTTP/1.1" (Z.to_nat length_) then Some 0x11
  else if strncmp_eq (text_at buffer at_) "HTTP/1.0" (Z.to_nat length_) then Some 0x10
  else None.

Record HttpRequestParser := mkHttpRequestParser {
  m_parser : http_parser;
  m_data : HttpRequest;
  m_error : Z;
}.
Definition setError (v : Z) (p : HttpRequestParser) : HttpRequestParser :=
  mkHttpRequestParser (m_parser p) (m_data p) v.
Definition update_data (f : HttpRequest → HttpRequest) (p : HttpRequestParser) : HttpRequestParser :=
  mkHttpRequestParser (m_parser p) (f (m_data p)) (m_error p).
(** [HttpRequestParser::HttpRequestParser], on memory that held [garbage]. *)
Definition HttpRequestParser_new (garbage : http_parser) : HttpRequestParser :=
  mkHttpRequestParser (http_parser_init garbage) (HttpRequest_new 0x11 true) 0.

(** ** The callbacks *)

Definition on_request_method (buffer : list byte) (at_ : Z) : M HttpRequestParser unit :=
  let m := CharsToHttpMethod (text_at buffer at_) in
  if bool_decide (m = INVALID_METHOD) then modify (setError 1000) else modify (update_data (setMethod m)).
Definition on_request_fragment (buffer : list byte) (at_ length_ : Z) : M HttpRequestParser unit :=
  s ← string_at buffer at_ length_; modify (update_data (setFragment s)).
Definition on_request_path (buffer : list byte) (at_ length_ : Z) : M HttpRequestParser unit :=
  s ← string_at buffer at_ length_; modify (update_data (setPath s)).
Definition on_request_query_string (buffer : list byte) (at_ length_ : Z) : M HttpRequestParser unit :=
  s ← string_at buffer at_ length_; modify (update_data (setQuery s)).
Definition on_request_http_version (buffer : list byte) (at_ length_ : Z) : M HttpRequestParser unit :=
  match version_of buffer at_ length_ with
  | Some v => modify (update_data (setVersion v))
  | None => modify (setError 1001)
  end.
Definition on_request_http_field (buffer : list byte) (field flen value vlen : Z) : M HttpRequestParser unit :=
  if flen =? 0 then mret tt
  else
    k ← string_at buffer field flen;
    v ← string_at buffer value vlen;
    modify (update_data (setHeader k v)).

(** The functions the constructor installs; [on_request_uri] and
    [on_request_header_done] do nothing. *)
Definition on_callback (buffer : list byte) (c : callback) : M HttpRequestParser unit :=
  match c with
  | ElementCb request_method a _ => on_request_method buffer a
  | ElementCb request_uri _ _ => mret tt
  | ElementCb fragment a n => on_request_fragment buffer a n
  | ElementCb request_path a n => on_request_path buffer a n
  | ElementCb query_string a n => on_request_query_string buffer a n
  | ElementCb http_version a n => on_request_http_version buffer a n
  | ElementCb header_done _ _ => mret tt
  | FieldCb f fl v vl => on_request_http_field buffer f fl v vl
  end.
Fixpoint on_callbacks (buffer : list byte) (l : list callback) : M HttpRequestParser unit :=
  match l with
  | [] => mret tt
  | c :: l => on_callback buffer c;; on_callbacks buffer l
  end.

(** [HttpRequestParser::execute(data, len)]: the result, and the buffer after
    the parsed text is moved out. *)
Definition execute (data : list byte) (len : Z) : M HttpRequestParser (Z * list byte) :=
  p ← get;
  '((offset, cbs), parser) ← on (m_parser p) (http_parser_execute (take (Z.to_nat len) data));
  modify (λ p, mkHttpRequestParser parser (m_data p) (m_error p));;
  on_callbacks data cbs;;
  mret (offset, memmove_front offset len data).
(** [HttpRequestParser::isFinished] *)
Definition isFinished (p : HttpRequestParser) : Z := http_parser_finish (m_parser p).
(** [HttpRequestParser::hasError] *)
Definition hasError (p : HttpRequestParser) : bool :=
  negb (m_error p =? 0) || http_parser_has_error (m_parser p).
(** [HttpRequestParser::getContentLength] *)
Definition getContentLength `{LexicalCast} (p : HttpRequestParser) : Z :=
  getAs lexical_cast_u64 (m_headers (m_data p)) "content-length" 0.
