(* ===== verification/HttpRequestScan.v ===== *)
(** The request parser reads what [HttpRequest::dump] writes: each part of the
    head, run through the generated scanner, has the effect of its callback. *)
From S2P Require Import Prelude Ragel Http11States Http11Parser Http11Spec Text Http HttpRequestParser.
From Stdlib Require Import Strings.Byte.
From coqutil Require Import Byte.

Local Open Scope Z_scope.

Notation bytes := String.list_byte_of_string.
Lemma str_bytes s : str (bytes s) = s.
Proof. apply String.string_of_list_byte_of_string. Qed.
Lemma bytes_cons c s : bytes (String c s) = Ascii.byte_of_ascii c :: bytes s.
Proof. done. Qed.
Lemma bytes_app (a b : string) : bytes (a +:+ b)%string = bytes a ++ bytes b.
Proof. induction a as [|c a IH]; [done|]. by rewrite app_cons_s, !bytes_cons, IH. Qed.
Lemma length_bytes s : length (bytes s) = String.length s.
Proof. induction s as [|c s IH]; [done|]. rewrite bytes_cons. simpl. by rewrite IH. Qed.

Lemma forallb_bytes (p : Ascii.ascii → bool) (q : byte → bool) s :
  (∀ c, p c = true → q (Ascii.byte_of_ascii c) = true) → every p s = true → forallb q (bytes s) = true.
Proof.
  intros H. induction s as [|c s IH]; [done|]. rewrite bytes_cons. simpl.
  rewrite !andb_true_iff. intros [Hc Hs]. auto.
Qed.

(** ** The characters of the parts *)

Definition in_ranges (l : list (Z * Z)) (b : byte) : bool :=
  existsb (λ r, (r.1 <=? byte.unsigned b) && (byte.unsigned b <=? r.2)) l.
Definition hex_char : byte → bool := in_ranges [(48, 57); (65, 70); (97, 102)].
(** Letters, digits and [!$&'()*+,-.:=@_~], slashes and semicolons *)
Definition path_char : byte → bool :=
  in_ranges [(33, 33); (36, 36); (38, 59); (61, 61); (64, 90); (95, 95); (97, 122); (126, 126)].
(** The same and question marks *)
Definition query_char (b : byte) : bool := path_char b || is_byte "?"%byte b.
(** Characters of a header name, letters, digits and [!#$%&'*+-.^_`|~] *)
Definition token_char : byte → bool :=
  in_ranges [(33, 33); (35, 39); (42, 43); (45, 46); (48, 57); (65, 90); (94, 122); (124, 124); (126, 126)].
(** Characters of a header value; the first is not a space. *)
Definition value_char (b : byte) : bool :=
  let n := byte.unsigned b in (32 <=? n) && negb (n =? 127).
Definition value_start (b : byte) : bool := value_char b && negb (is_byte " "%byte b).

(** ** The loops of the table, checked on all characters *)

Definition both (p : (Z → Z → jump http_action) → bool) : bool := p (req_table true) && p (req_table false).
Lemma both_spec p r : both p = true → p (req_table r) = true.
Proof. unfold both. rewrite andb_true_iff. destruct r; tauto. Qed.
Ltac table_check := vm_compute; reflexivity.

Definition path_first (b : byte) : bool := path_char b && negb (is_byte "/"%byte b).
Lemma path_loop r : encoded_loop path_char hex_char (req_table r) 26 27 28 = true.
Proof. apply (both_spec (λ t, encoded_loop path_char hex_char t 26 27 28)). table_check. Qed.
Lemma path_enter r : encoded_enter (req_table r) 33 path_first [] 26 27 = true.
Proof. apply (both_spec (λ t, encoded_enter t 33 path_first [] 26 27)). table_check. Qed.
Lemma query_loop r : encoded_loop query_char hex_char (req_table r) 30 31 32 = true.
Proof. apply (both_spec (λ t, encoded_loop query_char hex_char t 30 31 32)). table_check. Qed.
Lemma query_enter r : encoded_enter (req_table r) 29 query_char [StartQuery] 30 31 = true.
Proof. apply (both_spec (λ t, encoded_enter t 29 query_char [StartQuery] 30 31)). table_check. Qed.
Lemma fragment_loop r : encoded_loop query_char hex_char (req_table r) 21 22 23 = true.
Proof. apply (both_spec (λ t, encoded_loop query_char hex_char t 21 22 23)). table_check. Qed.
Lemma fragment_enter r : encoded_enter (req_table r) 20 query_char [Mark] 21 22 = true.
Proof. apply (both_spec (λ t, encoded_enter t 20 query_char [Mark] 21 22)). table_check. Qed.
Lemma token_enter r : jumps (req_table r) 13 token_char (via [StartField] 14) = true.
Proof. apply (both_spec (λ t, jumps t 13 token_char (via [StartField] 14))). table_check. Qed.
Lemma token_loop r : jumps (req_table r) 14 token_char (to 14) = true.
Proof. apply (both_spec (λ t, jumps t 14 token_char (to 14))). table_check. Qed.
Lemma value_enter r : jumps (req_table r) 15 value_start (via [StartValue] 16) = true.
Proof. apply (both_spec (λ t, jumps t 15 value_start (via [StartValue] 16))). table_check. Qed.
Lemma value_loop r : jumps (req_table r) 16 value_char (to 16) = true.
Proof. apply (both_spec (λ t, jumps t 16 value_char (to 16))). table_check. Qed.

(** ** Parts of a head *)

Section parts.
Context (r : bool) (len : Z).

(** The registers the parts leave alone. *)
Definition quiet (s : http_parser) : Prop := xml_sent s = false ∧ json_sent s = false.

(** Behind [pre], the text [seg] takes the scanner from state [c] to [c'] and the
    parser object from [P] to [P'], whatever follows in the buffer. *)
Definition moves (c : Z) (pre seg : list byte) (P : HttpRequestParser) (c' : Z) (P' : HttpRequestParser) : Prop :=
  ∀ rest, ∃ tr,
    run (req_table r) c (Z.of_nat (length pre)) (seg ++ rest) =
      prepend tr (run (req_table r) c' (Z.of_nat (length (pre ++ seg))) rest) ∧
    ∀ buffer s, quiet s → pre ++ seg `prefix_of` buffer → Z.of_nat (length buffer) < 2 ^ 63 →
      let '(s', cbs) := do_actions len tr s in
      quiet s' ∧ on_callbacks buffer cbs P = Ok tt P'.

Lemma on_callbacks_app buffer l1 l2 P P1 :
  on_callbacks buffer l1 P = Ok tt P1 → on_callbacks buffer (l1 ++ l2) P = on_callbacks buffer l2 P1.
Proof.
  revert P. induction l1 as [|c l1 IH]; intros P; simpl; [by intros [= ->]|].
  intros ([]&P2&E&E2)%bind_inv. step_with E. auto.
Qed.

Lemma moves_app c pre s1 s2 P c1 P1 c2 P2 :
  moves c pre s1 P c1 P1 → moves c1 (pre ++ s1) s2 P1 c2 P2 → moves c pre (s1 ++ s2) P c2 P2.
Proof.
  intros H1 H2 rest. destruct (H1 (s2 ++ rest)) as (tr1&E1&K1). destruct (H2 rest) as (tr2&E2&K2).
  exists (tr1 ++ tr2). split.
  - by rewrite <-app_assoc, E1, E2, prepend_app, <-!app_assoc.
  - intros buffer s Hq Hb Hl. rewrite do_actions_app.
    assert (pre ++ s1 `prefix_of` buffer) as Hb1.
    { etrans; [|exact Hb]. rewrite app_assoc. by apply prefix_app_r. }
    specialize (K1 buffer s Hq Hb1 Hl). destruct (do_actions len tr1 s) as [t1 b1].
    destruct K1 as [Hq1 C1]. rewrite app_assoc in Hb. specialize (K2 buffer t1 Hq1 Hb Hl).
    destruct (do_actions len tr2 t1) as [t2 b2]. destruct K2 as [Hq2 C2].
    split; [done|]. by rewrite (on_callbacks_app _ _ _ _ _ C1).
Qed.
Lemma moves_nil c pre P : moves c pre [] P c P.
Proof.
  intros rest. exists []. split; [by rewrite prepend_nil, app_nil_r|]. intros buffer s Hq _ _. done.
Qed.

(** A part of the buffer as a string. *)
Lemma string_at_mid {S} pre seg post buffer (s : S) :
  pre ++ seg ++ post `prefix_of` buffer → Z.of_nat (length buffer) < 2 ^ 63 →
  string_at buffer (Z.of_nat (length pre)) (Z.of_nat (length seg)) s = Ok (str seg) s.
Proof.
  intros [k ->] Hl. rewrite !length_app in Hl. unfold string_at.
  rewrite (proj2 (Z.ltb_ge _ _)) by lia. rewrite (proj2 (Z.ltb_ge _ _)) by (rewrite !length_app; lia).
  rewrite !Nat2Z.id, <-!app_assoc, drop_app_length, take_app_length. done.
Qed.
Lemma LEN_mid (a n : nat) : Z.of_nat (a + n) < 2 ^ 63 → LEN (Z.of_nat a) (Z.of_nat (a + n)) = Z.of_nat n.
Proof. intros H. unfold LEN. rewrite wrapu_small; unfold in_u; lia. Qed.

(** A part without loops, run from position 0 by evaluation. *)
Lemma moves_concrete c pre seg tr0 P c' P' :
  run (req_table r) c 0 seg = mkoutcome tr0 c' (Z.of_nat (length seg)) false →
  (∀ buffer s, quiet s → pre ++ seg `prefix_of` buffer → Z.of_nat (length buffer) < 2 ^ 63 →
    let '(s', cbs) := do_actions len ((λ e, (e.1, e.2 + Z.of_nat (length pre))) <$> tr0) s in
    quiet s' ∧ on_callbacks buffer cbs P = Ok tt P') →
  moves c pre seg P c' P'.
Proof.
  intros E K rest. eexists. split; [|exact K].
  rewrite run_app. cbv zeta. rewrite <-(Z.add_0_l (Z.of_nat (length pre))), run_shift, E.
  cbn [out trace final pos]. do 2 f_equal. rewrite length_app. lia.
Qed.

(** The method and the space behind it. *)
Lemma moves_method m P :
  m ≠ M_MSEARCH → m ≠ INVALID_METHOD →
  moves 1 [] (bytes (HttpMethodToString m +:+ " ")%string) P 3 (update_data (setMethod m) P).
Proof.
  intros H1 H2.
  apply (moves_concrete _ _ _ [(Mark, 0); (RequestMethod, Z.of_nat (String.length (HttpMethodToString m)))]).
  - destruct r, m; first [exfalso; by apply H1|exfalso; by apply H2|vm_compute; reflexivity].
  - intros buffer s Hq [k ->] _. cbn [fmap list_fmap do_actions do_action fst snd app]. split; [done|].
    cbn [on_callbacks on_callback]. unfold on_request_method.
    assert (∀ a, a = 0 → CharsToHttpMethod (text_at (([] ++ bytes (HttpMethodToString m +:+ " ")%string) ++ k) a) = m) as Hm.
    { intros a ->. destruct m; first [exfalso; by apply H1|exfalso; by apply H2|reflexivity]. }
    rewrite Hm by done. by rewrite bool_decide_false.
Qed.

(** The version, the end of its line. *)
Lemma moves_version v pre P :
  v = 0x11 ∨ v = 0x10 →
  moves 4 pre (bytes ("HTTP/" +:+ version_string v +:+ CRLF)%string) P 13 (update_data (setVersion v) P).
Proof.
  intros Hv. apply (moves_concrete _ _ _ [(Mark, 0); (HttpVersion, 8)]).
  { destruct Hv as [-> | ->], r; vm_compute; reflexivity. }
  intros buffer s Hq [k ->] Hl. cbn [fmap list_fmap do_actions do_action fst snd app]. split; [done|].
  cbn [on_callbacks on_callback mark set_mark]. unfold on_request_http_version.
  assert (version_of ((pre ++ bytes ("HTTP/" +:+ version_string v +:+ CRLF)%string) ++ k)
            (0 + Z.of_nat (length pre)) (LEN (0 + Z.of_nat (length pre)) (8 + Z.of_nat (length pre))) = Some v) as ->.
  { rewrite !length_app in Hl. unfold LEN. rewrite wrapu_small by (unfold in_u; lia).
    unfold version_of, text_at. rewrite Z.add_0_l, Nat2Z.id, <-app_assoc, drop_app_length.
    replace (8 + Z.of_nat (length pre) - Z.of_nat (length pre)) with 8 by lia.
    destruct Hv as [-> | ->]; reflexivity. }
  done.
Qed.

(** What follows the path, the query or the fragment, and the state it leads to. *)
Inductive after_target : byte → Z → Prop :=
  | after_space : after_target " "%byte 4
  | after_hash : after_target "#"%byte 20.

Definition path_ok (l : list byte) : Prop :=
  encoded path_char hex_char l = true ∧
  match l with [] => True | b :: _ => path_first b || is_byte "%"%byte b = true end.

Lemma path_ends b d cs :
  (cs = 33 ∨ cs = 26) → after_target b d → req_table r cs (schar b) = via [RequestPath; RequestUri] d.
Proof. intros [-> | ->] []; destruct r; vm_compute; reflexivity. Qed.
Lemma path_query cs : (cs = 33 ∨ cs = 26) → req_table r cs (schar "?"%byte) = via [RequestPath] 29.
Proof. intros [-> | ->]; destruct r; vm_compute; reflexivity. Qed.

(** The run over "/" and the rest of the path. *)
Lemma run_path p l rest :
  path_ok l → ∃ cs, (cs = 33 ∨ cs = 26) ∧
    run (req_table r) 3 p ("/"%byte :: l ++ rest) =
      prepend [(Mark, p)] (run (req_table r) cs (p + Z.of_nat (S (length l))) rest).
Proof.
  intros [Hl Hf].
  assert (req_table r 3 (schar "/"%byte) = via [Mark] 33) as E by (destruct r; vm_compute; reflexivity).
  rewrite (run_jump _ 3 p "/"%byte (l ++ rest) [Mark] 33) by done.
  destruct l as [|b l].
  - exists 33. split; [by left|]. done.
  - exists 26. split; [by right|]. cbn [app].
    rewrite (run_enter path_char hex_char (req_table r) 33 path_first [] 26 27 28 _ b l rest
      ltac:(done) ltac:(done) ltac:(done) ltac:(done) (path_loop r) (path_enter r) Hl Hf).
    cbn [fmap list_fmap length]. rewrite prepend_nil. f_equal. f_equal. lia.
Qed.

Lemma moves_path_with pre l b c' acts P P' :
  path_ok l → c' ≠ 0 →
  (∀ cs, cs = 33 ∨ cs = 26 → req_table r cs (schar b) = via acts c') →
  (∀ buffer s, pre ++ "/"%byte :: l `prefix_of` buffer → Z.of_nat (length buffer) < 2 ^ 63 →
     let p := Z.of_nat (length (pre ++ "/"%byte :: l)) in
     let '(s', cbs) := do_actions len ((λ a, (a, p)) <$> acts) (set_mark (Z.of_nat (length pre)) s) in
     (quiet s → quiet s') ∧ on_callbacks buffer cbs P = Ok tt P') →
  moves 3 pre ("/"%byte :: l ++ [b]) P c' P'.
Proof.
  intros Hl Hc' Ht K rest.
  destruct (run_path (Z.of_nat (length pre)) l (b :: rest) Hl) as (cs&Hcs&E).
  eexists. split.
  - cbn [app]. rewrite <-app_assoc. cbn [app]. rewrite E.
    rewrite (run_jump _ cs _ b rest acts c'); [|by destruct Hcs; subst|done|by apply Ht].
    rewrite prepend_app. f_equal. f_equal. rewrite !length_app. simpl. rewrite length_app. simpl. lia.
  - intros buffer s Hq Hb Hlen. cbn [app do_actions do_action].
    assert (pre ++ "/"%byte :: l `prefix_of` buffer) as Hb'.
    { etrans; [|exact Hb]. apply prefix_app, (prefix_app_r ("/"%byte :: l) ("/"%byte :: l)). done. }
    specialize (K buffer s Hb' Hlen). rewrite length_app in K. cbn [length] in K.
    rewrite Nat2Z.inj_add in K. destruct (do_actions len _ _) as [s' cbs]. destruct K as [Kq Kc].
    split; [by apply Kq|exact Kc].
Qed.
(** A callback that stores the marked text. *)
Lemma store_marked {A} pre seg buffer (s : A) :
  pre ++ seg `prefix_of` buffer → Z.of_nat (length buffer) < 2 ^ 63 →
  string_at buffer (Z.of_nat (length pre)) (LEN (Z.of_nat (length pre)) (Z.of_nat (length (pre ++ seg)))) s =
    Ok (str seg) s.
Proof.
  intros Hb Hl. pose proof (prefix_length _ _ Hb) as Hle. rewrite length_app in *. rewrite LEN_mid by lia.
  apply (string_at_mid pre seg []); [|done]. by rewrite app_nil_r.
Qed.

Lemma moves_path pre l b d P :
  path_ok l → after_target b d →
  moves 3 pre ("/"%byte :: l ++ [b]) P d (update_data (setPath (str ("/"%byte :: l))) P).
Proof.
  intros Hl Hd. apply (moves_path_with _ _ _ _ [RequestPath; RequestUri]); try done.
  { by destruct Hd. }
  { intros cs Hcs. by apply path_ends. }
  intros buffer s Hb Hlen. cbv zeta. cbn [fmap list_fmap do_actions do_action app]. split; [done|].
  cbn [on_callbacks on_callback mark set_mark]. unfold on_request_path. rewrite !bind_assoc.
  by step_with (store_marked pre ("/"%byte :: l) buffer P Hb Hlen).
Qed.
Lemma moves_path_query pre l P :
  path_ok l → moves 3 pre ("/"%byte :: l ++ ["?"%byte]) P 29 (update_data (setPath (str ("/"%byte :: l))) P).
Proof.
  intros Hl. apply (moves_path_with _ _ _ _ [RequestPath]); try done.
  { intros cs Hcs. by apply path_query. }
  intros buffer s Hb Hlen. cbv zeta. cbn [fmap list_fmap do_actions do_action app]. split; [done|].
  cbn [on_callbacks on_callback mark set_mark]. unfold on_request_path. rewrite !bind_assoc.
  by step_with (store_marked pre ("/"%byte :: l) buffer P Hb Hlen).
Qed.

(** A query or a fragment: not empty, allowed and encoded characters. *)
Definition query_ok (l : list byte) : Prop := l ≠ [] ∧ encoded query_char hex_char l = true.
Lemma query_first b l : query_ok (b :: l) → query_char b || is_byte "%"%byte b = true.
Proof.
  intros [_ H]. cbn [encoded] in H. destruct (is_byte _ b); [apply orb_true_r|].
  apply andb_true_iff in H as [-> _]. done.
Qed.

Lemma moves_loop s0 A0 s s1 s2 pre q b c' acts P P' :
  s0 ≠ 0 → s ≠ 0 → s1 ≠ 0 → s2 ≠ 0 → c' ≠ 0 →
  encoded_loop query_char hex_char (req_table r) s s1 s2 = true →
  encoded_enter (req_table r) s0 query_char A0 s s1 = true →
  req_table r s (schar b) = via acts c' → query_ok q →
  (∀ buffer st, quiet st → pre ++ q `prefix_of` buffer → Z.of_nat (length buffer) < 2 ^ 63 →
     let '(s', cbs) := do_actions len
       (((λ a, (a, Z.of_nat (length pre))) <$> A0) ++ ((λ a, (a, Z.of_nat (length (pre ++ q)))) <$> acts)) st in
     quiet s' ∧ on_callbacks buffer cbs P = Ok tt P') →
  moves s0 pre (q ++ [b]) P c' P'.
Proof.
  intros H0 Hs H1 H2 Hc' Hloop Hent Hb Hq K rest. pose proof Hq as [Hne He]. destruct q as [|x l]; [done|].
  eexists. split.
  - rewrite <-app_assoc. cbn [app].
    rewrite (run_enter query_char hex_char (req_table r) s0 query_char A0 s s1 s2 _ x l (b :: rest)
      H0 Hs H1 H2 Hloop Hent He (query_first _ _ Hq)).
    rewrite (run_jump _ s _ b rest acts c') by done. rewrite prepend_app.
    replace (Z.of_nat (length pre) + Z.of_nat (S (length l))) with (Z.of_nat (length (pre ++ x :: l)))
      by (rewrite length_app; simpl; lia).
    f_equal. f_equal. rewrite !length_app. simpl. rewrite length_app. simpl. lia.
  - intros buffer st Hst Hpre Hlen. apply K; [done| |done].
    etrans; [|exact Hpre]. rewrite app_assoc. by apply prefix_app_r.
Qed.

Lemma query_ends b d : after_target b d → req_table r 30 (schar b) = via [QueryString; RequestUri] d.
Proof. intros []; destruct r; vm_compute; reflexivity. Qed.
Lemma moves_query pre q b d P :
  query_ok q → after_target b d → moves 29 pre (q ++ [b]) P d (update_data (setQuery (str q)) P).
Proof.
  intros Hq Hd.
  apply (moves_loop 29 [StartQuery] 30 31 32 _ _ _ _ [QueryString; RequestUri]);
    [done|done|done|done|by destruct Hd|apply query_loop|apply query_enter|by apply query_ends|exact Hq|].
  intros buffer st Hst Hb Hlen. cbn [fmap list_fmap do_actions do_action app]. split; [done|].
  cbn [on_callbacks on_callback query_start set_query_start]. unfold on_request_query_string. rewrite !bind_assoc.
  by step_with (store_marked pre q buffer P Hb Hlen).
Qed.
Lemma moves_fragment pre f P :
  query_ok f → moves 20 pre (f ++ [" "%byte]) P 4 (update_data (setFragment (str f)) P).
Proof.
  intros Hq.
  assert (req_table r 21 (schar " "%byte) = via [Fragment] 4) as Hb by (destruct r; vm_compute; reflexivity).
  apply (moves_loop 20 [Mark] 21 22 23 _ _ _ _ [Fragment]);
    [done|done|done|done|done|apply fragment_loop|apply fragment_enter|exact Hb|exact Hq|].
  intros buffer st Hst Hpre Hlen. cbn [fmap list_fmap do_actions do_action app]. split; [done|].
  cbn [on_callbacks on_callback mark set_mark]. unfold on_request_fragment. rewrite !bind_assoc.
  by step_with (store_marked pre f buffer P Hpre Hlen).
Qed.
(** A header line: name, colon, perhaps a space, value. *)
Definition name_ok (k : list byte) : Prop := k ≠ [] ∧ forallb token_char k = true.
Definition value_ok (v : list byte) : Prop :=
  match v with [] => True | x :: v => value_start x = true ∧ forallb value_char v = true end.
Definition space_ok (sp : list byte) : Prop := sp = [] ∨ sp = [" "%byte].
Definition crlf : list byte := bytes CRLF.
Definition line_text (k sp v : list byte) : list byte := k ++ ":"%byte :: sp ++ v ++ crlf.

Lemma Z_ne (n : positive) : Z.pos n ≠ 0.
Proof. done. Qed.
Lemma run_value p v rest :
  value_ok v →
  run (req_table r) 15 p (v ++ crlf ++ rest) =
    prepend [(StartValue, p); (WriteValue, p + Z.of_nat (length v))]
      (run (req_table r) 13 (p + Z.of_nat (length v) + 2) rest).
Proof.
  assert (req_table r 17 (schar x0a) = via [] 13) as E17 by (destruct r; vm_compute; reflexivity).
  assert (∀ q, run (req_table r) 17 q (x0a :: rest) = run (req_table r) 13 (q + 1) rest) as H17.
  { intros q. rewrite (run_jump _ 17 q x0a rest [] 13) by done. apply prepend_nil. }
  change crlf with [x0d; x0a]. cbn [app]. destruct v as [|x v]; cbn [value_ok].
  - intros _. assert (req_table r 15 (schar x0d) = via [StartValue; WriteValue] 17) as E by (destruct r; vm_compute; reflexivity).
    cbn [app]. rewrite (run_jump _ 15 p x0d _ [StartValue; WriteValue] 17), H17 by done.
    cbn [fmap list_fmap length]. rewrite Z.add_0_r. do 2 f_equal. lia.
  - intros [Hx Hv]. assert (req_table r 16 (schar x0d) = via [WriteValue] 17) as E by (destruct r; vm_compute; reflexivity).
    cbn [app]. rewrite (run_via _ 15 p value_start x _ [StartValue] 16 ltac:(done) ltac:(done) (value_enter r) Hx).
    rewrite (run_while (req_table r) 16 _ value_char v _ (Z_ne 16%positive) (value_loop r) Hv).
    rewrite (run_jump _ 16 _ x0d _ [WriteValue] 17), H17 by done.
    rewrite prepend_app. cbn [fmap list_fmap app length].
    replace (p + Z.of_nat (S (length v))) with (p + 1 + Z.of_nat (length v)) by lia. f_equal. f_equal. lia.
Qed.
Lemma run_header p k sp v rest :
  name_ok k → space_ok sp → value_ok v →
  run (req_table r) 13 p (line_text k sp v ++ rest) =
    prepend ([(StartField, p); (WriteField, p + Z.of_nat (length k))]
             ++ ((λ _, (StartValue, p + Z.of_nat (length k) + 1)) <$> sp)
             ++ [(StartValue, p + Z.of_nat (length k) + 1 + Z.of_nat (length sp));
                 (WriteValue, p + Z.of_nat (length k) + 1 + Z.of_nat (length sp) + Z.of_nat (length v))])
      (run (req_table r) 13 (p + Z.of_nat (length (line_text k sp v))) rest).
Proof.
  intros [Hk Htok] Hsp Hv. destruct k as [|x k]; [done|]. cbn [forallb] in Htok. apply andb_true_iff in Htok as [Hx Htok].
  assert (req_table r 14 (schar ":"%byte) = via [WriteField] 15) as E by (destruct r; vm_compute; reflexivity).
  assert (req_table r 15 (schar " "%byte) = via [StartValue] 15) as Es by (destruct r; vm_compute; reflexivity).
  unfold line_text. rewrite <-app_assoc. cbn [app].
  rewrite (run_via _ 13 p token_char x _ [StartField] 14 ltac:(done) ltac:(done) (token_enter r) Hx).
  rewrite (run_while (req_table r) 14 _ token_char k _ (Z_ne 14%positive) (token_loop r) Htok).
  rewrite (run_jump _ 14 _ ":"%byte _ [WriteField] 15) by done. rewrite prepend_app, <-!app_assoc.
  replace (p + 1 + Z.of_nat (length k)) with (p + Z.of_nat (length (x :: k))) by (simpl; lia).
  assert (length crlf = 2%nat) as Hcr by done.
  destruct Hsp as [-> | ->]; cbn [app].
  - rewrite run_value, prepend_app by done. cbn [fmap list_fmap app length]. rewrite !Z.add_0_r.
    f_equal. f_equal. rewrite !length_app. simpl. rewrite length_app, Hcr. lia.
  - rewrite (run_jump _ 15 _ " "%byte _ [StartValue] 15) by done.
    rewrite run_value, !prepend_app by done. cbn [fmap list_fmap app length].
    f_equal. f_equal. rewrite !length_app. simpl. rewrite length_app, Hcr. lia.
Qed.

Lemma moves_header pre k sp v P :
  name_ok k → space_ok sp → value_ok v →
  moves 13 pre (line_text k sp v) P 13 (update_data (setHeader (str k) (str v)) P).
Proof.
  intros Hk Hsp Hv rest. eexists. split.
  { rewrite (run_header _ k sp v rest Hk Hsp Hv), length_app, Nat2Z.inj_add. reflexivity. }
  intros buffer s Hq Hb Hl.
  set (p := Z.of_nat (length pre)). set (pv := p + Z.of_nat (length k) + 1 + Z.of_nat (length sp)).
  assert (do_actions len
    ([(StartField, p); (WriteField, p + Z.of_nat (length k))]
     ++ ((λ _, (StartValue, p + Z.of_nat (length k) + 1)) <$> sp)
     ++ [(StartValue, pv); (WriteValue, pv + Z.of_nat (length v))]) s =
    (set_mark pv (set_field_len (LEN p (p + Z.of_nat (length k))) (set_field_start p s)),
     [FieldCb p (LEN p (p + Z.of_nat (length k))) pv (LEN pv (pv + Z.of_nat (length v)))])) as ->
    by (destruct Hsp as [-> | ->]; done).
  split; [done|]. cbn [on_callbacks on_callback]. unfold on_request_http_field.
  pose proof (prefix_length _ _ Hb) as Hle. rewrite length_app in Hle. unfold line_text in Hle.
  rewrite length_app in Hle. cbn [length] in Hle. rewrite !length_app in Hle.
  assert (LEN p (p + Z.of_nat (length k)) = Z.of_nat (length k)) as ->
    by (unfold LEN, p; rewrite wrapu_small; unfold in_u; lia).
  assert (LEN pv (pv + Z.of_nat (length v)) = Z.of_nat (length v)) as ->
    by (unfold LEN, pv, p; rewrite wrapu_small; unfold in_u; lia).
  rewrite (proj2 (Z.eqb_neq _ 0)) by (destruct Hk as [Hk _], k; [done|simpl; lia]). rewrite !bind_assoc.
  step_with (string_at_mid pre k (":"%byte :: sp ++ v ++ crlf) buffer P Hb Hl). rewrite bind_assoc.
  replace pv with (Z.of_nat (length (pre ++ k ++ ":"%byte :: sp)))
    by (unfold pv, p; rewrite !length_app; simpl; lia).
  assert ((pre ++ k ++ ":"%byte :: sp) ++ v ++ crlf `prefix_of` buffer) as Hb2
    by (unfold line_text in Hb; by rewrite <-!app_assoc).
  by step_with (string_at_mid (pre ++ k ++ ":"%byte :: sp) v crlf buffer P Hb2 Hl).
Qed.

(** All header lines. *)
Definition lines_ok (l : list (list byte * list byte * list byte)) : Prop :=
  Forall (λ e, name_ok e.1.1 ∧ space_ok e.1.2 ∧ value_ok e.2) l.
Definition lines_text (l : list (list byte * list byte * list byte)) : list byte :=
  concat ((λ e, line_text e.1.1 e.1.2 e.2) <$> l).
Definition add_line (P : HttpRequestParser) (e : list byte * list byte * list byte) : HttpRequestParser :=
  update_data (setHeader (str e.1.1) (str e.2)) P.
Lemma moves_lines pre l P : lines_ok l → moves 13 pre (lines_text l) P 13 (foldl add_line P l).
Proof.
  intros Hl. revert pre P. induction Hl as [|[[k sp] v] l [Hk [Hs Hv]] Hl IH]; intros pre P; [apply moves_nil|].
  cbn [lines_text fmap list_fmap concat foldl]. eapply moves_app; [by apply moves_header|apply IH].
Qed.

(** The empty line ends the run. *)
Lemma run_end p rest :
  run (req_table r) 13 p (crlf ++ rest) = mkoutcome [(StartField, p); (Done, p + 1)] 348 (p + 1 + 1) true.
Proof.
  assert (req_table r 13 (schar x0d) = via [StartField] 18) as E1 by (destruct r; vm_compute; reflexivity).
  assert (req_table r 18 (schar x0a) = via_out [Done] 348) as E2 by (destruct r; vm_compute; reflexivity).
  change crlf with [x0d; x0a]. cbn [app]. rewrite (run_jump _ 13 p x0d _ [StartField] 18) by done.
  cbn [run]. rewrite E2. done.
Qed.
End parts.
