(* ===== verification/HttpReceive.v ===== *)
(** The two parts [HttpSession::recvRequest] and [HttpConnection::recvResponse]
    have in common ([sylar/http/http_session.cc], [http_connection.cc]): the loop
    that reads and parses until the head is complete, and the reading of a body
    whose length is known.

    The loop uses a parser only through [execute], [hasError] and [isFinished];
    the interface [MessageParser] states them, and the request and the response
    parser are its instances. *)
From S2P Require Import Prelude Http HttpRequestParser Stream.
From Stdlib Require Import Strings.Byte.

Local Open Scope Z_scope.

Class MessageParser (P : Type) := {
  mp_execute : list byte → Z → M P (Z * list byte);
  mp_hasError : P → bool;
  mp_isFinished : P → Z;
  (** Whether the reader stores NUL behind the text before each call. *)
  mp_terminated : bool;
}.

(** A signed [int] result. *)
Definition sint {S} (z : Z) : M S Z :=
  if (- 2 ^ 31 <=? z) && (z <? 2 ^ 31) then mret z else undef SignedOverflow.
(** [data[i] = c] *)
Definition store {S} (data : list byte) (i : Z) (c : byte) : M S (list byte) :=
  if (0 <=? i) && (i <? Z.of_nat (length data)) then mret (<[Z.to_nat i := c]> data) else undef OutOfBounds.

(** The memory the process can still get, and what it holds. *)
Record heap := mk_heap { available : Z; contents : nat → byte }.
(** [new char[n]] *)
Definition new_chars {S} (h : heap) (n : Z) : M S (list byte) :=
  if available h <? n then throw bad_alloc else mret (contents h <$> seq 0 (Z.to_nat n)).
(** [body.resize(n)] of an empty string *)
Definition resized {S} (h : heap) (n : Z) : M S (list byte) :=
  if 2 ^ 63 - 1 <? n then throw (length_error "basic_string::_M_replace_aux")
  else if available h <? n then throw bad_alloc
  else mret (replicate (Z.to_nat n) "000"%byte).

Section receive.
Context {P : Type} `{MessageParser P}.

(** The loop: [None] stands for the null pointer that is returned after
    [close]. *)
Fixpoint recv_head (fuel : nat) (buff_size : Z) (parser : P) (data : list byte) (offset : Z)
    : M wire (option (P * list byte * Z)) :=
  match fuel with
  | O => undef NoFuel
  | S fuel =>
      '(len, data) ← read data offset (wrapu 64 (buff_size - offset));
      if len <=? 0 then close;; mret None
      else
        len ← sint (len + offset);
        data ← (if mp_terminated then store data len "000"%byte else mret data);
        '((nparser, data), parser) ← on parser (mp_execute data len);
        if mp_hasError parser then close;; mret None
        else
          offset ← sint (len - wraps 32 nparser);
          if offset =? wraps 32 buff_size then close;; mret None
          else if negb (mp_isFinished parser =? 0) then mret (Some (parser, data, offset))
          else recv_head fuel buff_size parser data offset
  end.
End receive.

(** The body, [length] being positive: what the parser left over, then the rest
    from the stream. *)
Definition recv_body (fuel : nat) (h : heap) (data : list byte) (offset length_ : Z)
    : M wire (option (list byte)) :=
  body ← resized h length_;
  let len := if offset <=? length_ then offset else length_ in
  let body := splice 0 (take (Z.to_nat len) data) body in
  let length_ := length_ - offset in
  if 0 <? length_ then
    '(r, body) ← readFixSize fuel body len length_;
    if r <=? 0 then close;; mret None else mret (Some body)
  else mret (Some body).

(** ** The loop on one piece *)

Lemma sint_ok {S} z (s : S) : - 2 ^ 31 ≤ z < 2 ^ 31 → sint z s = Ok z s.
Proof. intros Hz. unfold sint. by rewrite (proj2 (Z.leb_le _ _)), (proj2 (Z.ltb_lt _ _)) by lia. Qed.
Lemma store_ok {S} data i c (s : S) :
  0 ≤ i < Z.of_nat (length data) → store data i c s = Ok (<[Z.to_nat i := c]> data) s.
Proof. intros Hi. unfold store. by rewrite (proj2 (Z.leb_le _ _)), (proj2 (Z.ltb_lt _ _)) by lia. Qed.

(** The text the parser is called on: the piece and perhaps NUL behind it. *)
Definition parse_input (term : bool) (bs data : list byte) : list byte :=
  let D := splice 0 bs data in if term then <[length bs := "000"%byte]> D else D.

(** A first piece on which the parser finishes. *)
Lemma recv_head_once {P} {MP : MessageParser P} fuel buff_size (P0 P1 : P) bs data data' n l w :
  m_isConnected w = true → arrivals w = Data bs :: l → bs ≠ [] →
  Z.of_nat (length bs) ≤ buff_size → buff_size < 2 ^ 30 →
  buff_size + (if mp_terminated then 1 else 0) ≤ Z.of_nat (length data) →
  mp_execute (parse_input mp_terminated bs data) (Z.of_nat (length bs)) P0 = Ok (n, data') P1 →
  mp_hasError P1 = false → mp_isFinished P1 ≠ 0 → 0 < n ≤ Z.of_nat (length bs) →
  recv_head (S fuel) buff_size P0 data 0 w =
    Ok (Some (P1, data', Z.of_nat (length bs) - n)) (set_arrivals l w).
Proof.
  intros Hc Ha Hne Hn Hb Hd Hx He Hf Hk.
  assert (buff_size ≤ Z.of_nat (length data)) by (destruct mp_terminated; lia).
  cbn [recv_head]. rewrite Z.sub_0_r, wrapu_small by (unfold in_u; lia).
  step_with (read_piece data 0 buff_size bs l w Hc Ha Hne ltac:(lia) Hn ltac:(unfold MAX_RW_COUNT; lia) ltac:(lia)).
  assert (0 < length bs)%nat by (destruct bs; [done|simpl; lia]).
  rewrite (proj2 (Z.leb_gt _ _)) by lia.
  step_with (sint_ok (Z.of_nat (length bs) + 0) (set_arrivals l w) ltac:(lia)). rewrite Z.add_0_r.
  assert ((if mp_terminated then store (splice (Z.to_nat 0) bs data) (Z.of_nat (length bs)) "000"%byte
           else mret (splice (Z.to_nat 0) bs data)) (set_arrivals l w) =
          Ok (parse_input mp_terminated bs data) (set_arrivals l w)) as Es.
  { unfold parse_input. destruct mp_terminated; [|done]. rewrite store_ok; [by rewrite Nat2Z.id|].
    rewrite length_splice by (simpl; lia). lia. }
  step_with Es. step_with (on_ok _ _ _ (set_arrivals l w) _ Hx). rewrite He.
  rewrite (wraps_small 32 n) by (unfold in_s; lia).
  step_with (sint_ok (Z.of_nat (length bs) - n) (set_arrivals l w) ltac:(lia)).
  rewrite (wraps_small 32 buff_size) by (unfold in_s; lia).
  rewrite (proj2 (Z.eqb_neq _ buff_size)) by lia. by rewrite (proj2 (Z.eqb_neq _ 0)) by done.
Qed.
