(* ===== verification/HttpSession.v ===== *)
(** [HttpSession] ([sylar/http/http_session.h], [http_session.cc]): receiving a
    request and sending a response over the stream. *)
From S2P Require Import Prelude Text Http Http11Parser HttpRequestParser Stream HttpReceive.
From Stdlib Require Import Strings.Byte.

Local Open Scope Z_scope.

#[export] Instance HttpRequestParser_message : MessageParser HttpRequestParser := {
  mp_execute := execute;
  mp_hasError := hasError;
  mp_isFinished := isFinished;
  mp_terminated := false;
}.

Section session.
Context `{LexicalCast}.
(** The memory, what a new parser finds in its own, and the limits. *)
Context (h : heap) (garbage : http_parser) (sizes : Sizes).

(** The body of [recvRequest] behind the loop. *)
Definition finish_request (fuel : nat) (parser : HttpRequestParser) (data : list byte) (offset : Z)
    : M wire (option HttpRequest) :=
  let length_ := wraps 64 (getContentLength parser) in
  req ← (if 0 <? length_ then
           body ← recv_body fuel h data offset length_;
           mret ((λ b, setBody (str b) (m_data parser)) <$> body)
         else mret (Some (m_data parser)));
  match req with
  | None => mret None
  | Some req =>
      mret (Some (if strcasecmp_eq (getHeader req "Connection" "") "keep-alive" then setClose false req else req))
  end.
(** [HttpSession::recvRequest] *)
Definition recvRequest (fuel : nat) : M wire (option HttpRequest) :=
  let buff_size := s_http_request_buffer_size sizes in
  data ← new_chars h buff_size;
  head ← recv_head fuel buff_size (HttpRequestParser_new garbage) data 0;
  match head with
  | None => mret None
  | Some (parser, data, offset) => finish_request fuel parser data offset
  end.
End session.

(** [HttpSession::sendResponse] *)
Definition sendResponse (fuel : nat) (rsp : HttpResponse) : M wire Z :=
  writeFixSize fuel (String.list_byte_of_string (response_dump rsp)).
