(* ===== verification/HttpReceiveSpec.v ===== *)
(** The receiving loop on arbitrary input: it ends, it stays inside its buffer, and
    it leaves the connection closed exactly when it has no request. *)
From S2P Require Import Prelude Ragel Http11States Http11Parser Http11Spec Text Http HttpRequestParser Stream HttpReceive HttpSession.
From Stdlib Require Import Strings.Byte.

Local Open Scope Z_scope.

(** ** One call of the parser *)

Lemma string_at_total {S} buffer a n (s : S) :
  (0 ≤ a ∧ a + n ≤ Z.of_nat (length buffer)) ∨ 2 ^ 63 - 1 < n →
  (∃ v, string_at buffer a n s = Ok v s) ∨
  string_at buffer a n s = Throw (length_error "basic_string::_M_create") s.
Proof.
  intros H. unfold string_at. destruct (Z.ltb_spec (2 ^ 63 - 1) n); [by right|].
  rewrite (proj2 (Z.ltb_ge _ _)) by lia. left. by eexists.
Qed.

(** The callback is safe on a buffer that holds the text. *)
Definition safe_callback (len : Z) (c : callback) : Prop :=
  match c with
  | ElementCb _ a n => in_text len a n ∨ 2 ^ 63 - 1 < n
  | FieldCb f fl v vl => in_text len f fl ∧ in_text len v vl
  end.
Lemma callback_ok_safe len cs0 q0 c :
  len < 2 ^ 63 → (in_query cs0 = true → 0 ≤ q0 < 2 ^ 63) → callback_ok len cs0 q0 c → safe_callback len c.
Proof.
  intros Hl Hq. destruct c as [[] a n|]; cbn [callback_ok safe_callback]; try tauto.
  intros [H|(Hc&->&p&Hp&->)]; [by left|]. specialize (Hq Hc).
  destruct (decide (q0 ≤ p)).
  - left. rewrite wrapu_small by (unfold in_u; lia). unfold in_text. lia.
  - right. unfold wrapu. rewrite <-(Z.mod_add _ 1), Z.mod_small by lia. lia.
Qed.

Lemma on_callback_total buffer len c P :
  safe_callback len c → len ≤ Z.of_nat (length buffer) →
  (∃ P', on_callback buffer c P = Ok tt P' ∧ m_parser P' = m_parser P) ∨
  ∃ P', on_callback buffer c P = Throw (length_error "basic_string::_M_create") P'.
Proof.
  intros Hc Hl.
  assert (∀ (k : string → HttpRequestParser → HttpRequestParser) a n,
    in_text len a n ∨ 2 ^ 63 - 1 < n → (∀ v P, m_parser (k v P) = m_parser P) →
    (∃ P', (s ← string_at buffer a n; modify (k s)) P = Ok tt P' ∧ m_parser P' = m_parser P) ∨
    ∃ P', (s ← string_at buffer a n; modify (k s)) P = Throw (length_error "basic_string::_M_create") P') as Hstr.
  { intros k a n Ha Hk.
    destruct (string_at_total buffer a n P) as [[v E]|E]; [unfold in_text in Ha; lia| |].
    - left. step_with E. eexists. split; [reflexivity|apply Hk].
    - right. eexists. by apply bind_throw. }
  destruct c as [[] a n|f fl v vl]; cbn [on_callback safe_callback] in *.
  - left. unfold on_request_method. case_bool_decide; by eexists.
  - left. by eexists.
  - by apply (Hstr (λ s, update_data (setFragment s))).
  - by apply (Hstr (λ s, update_data (setPath s))).
  - by apply (Hstr (λ s, update_data (setQuery s))).
  - left. unfold on_request_http_version. destruct (version_of _ _ _); by eexists.
  - left. by eexists.
  - unfold on_request_http_field. destruct (fl =? 0); [left; by eexists|].
    destruct Hc as [Hf Hv].
    destruct (string_at_total buffer f fl P) as [[k E]|E]; [unfold in_text in Hf; lia| |];
      [|right; eexists; by apply bind_throw].
    step_with E. apply (Hstr (λ s, update_data (setHeader k s))); [by left|done].
Qed.
Lemma on_callbacks_total buffer len l P :
  Forall (safe_callback len) l → len ≤ Z.of_nat (length buffer) →
  (∃ P', on_callbacks buffer l P = Ok tt P' ∧ m_parser P' = m_parser P) ∨
  ∃ P', on_callbacks buffer l P = Throw (length_error "basic_string::_M_create") P'.
Proof.
  intros Hl Hb. revert P. induction Hl as [|c l Hc _ IH]; intros P; cbn [on_callbacks]; [left; by eexists|].
  destruct (on_callback_total buffer len c P Hc Hb) as [(P1&E&Hp)|[P1 E]].
  - step_with E. destruct (IH P1) as [(P2&E2&Hp2)|?]; [left|by right]. exists P2. split; [done|congruence].
  - right. eexists. by apply bind_throw.
Qed.

Lemma length_memmove_front offset len data :
  0 ≤ offset ≤ len → len ≤ Z.of_nat (length data) → length (memmove_front offset len data) = length data.
Proof.
  intros. unfold memmove_front. apply length_splice. rewrite length_take, length_drop. lia.
Qed.

(** [execute] returns or throws [length_error]. *)
Lemma execute_total data len P :
  feeding (m_parser P) → http_parser_finish (m_parser P) = 0 →
  0 < len ≤ Z.of_nat (length data) → Z.of_nat (length data) < 2 ^ 31 →
  (∃ n data' P', execute data len P = Ok (n, data') P' ∧ 0 ≤ n ≤ len ∧ feeding (m_parser P') ∧
     length data' = length data) ∨
  ∃ P', execute data len P = Throw (length_error "basic_string::_M_create") P'.
Proof.
  intros Hs Hf Hl Hd. set (text := take (Z.to_nat len) data).
  assert (Z.of_nat (length text) = len) as Ht by (unfold text; rewrite length_take; lia).
  destruct (execute_ok text (m_parser P) (feeding_progress _ Hs Hf)) as (cbs&s'&E&Hc&_); [lia|lia|].
  rewrite Ht in Hc. set (n := pos _) in E.
  assert (0 ≤ n ≤ len) as Hn by (rewrite <-Ht; apply run_pos).
  assert (feeding s') as Hs' by (eapply feeding_execute; [exact Hs|exact Hf| |exact E]; lia).
  assert (Forall (safe_callback len) cbs) as Hsafe.
  { eapply Forall_impl; [exact Hc|]. intros c. apply callback_ok_safe; [lia|]. by apply feeding_query. }
  unfold execute. rewrite bind_get. fold text. step_with (on_ok _ _ _ P _ E). rewrite bind_modify.
  destruct (on_callbacks_total data len cbs (mkHttpRequestParser s' (m_data P) (m_error P)) Hsafe)
    as [(P'&E'&Hp)|[P' E']]; [lia| |].
  - left. exists n, (memmove_front n len data), P'. step_with E'. split_and!; try done; try lia.
    + by rewrite Hp.
    + apply length_memmove_front; lia.
  - right. eexists. by apply bind_throw.
Qed.

(** ** The loop *)

(** What the loop may come to, [ok] being the parser and the buffer it returns. *)
Definition head_outcome (buff_size : Z) (r : res wire (option (HttpRequestParser * list byte * Z))) : Prop :=
  match r with
  | Ok None w => m_isConnected w = false
  | Ok (Some (parser, data, offset)) w =>
      m_isConnected w = true ∧ 0 ≤ offset < buff_size ∧ Z.of_nat (length data) = buff_size ∧
      hasError parser = false ∧ isFinished parser = 1
  | Throw e w => e = length_error "basic_string::_M_create" ∧ m_isConnected w = true
  | _ => False
  end.

(** C9: on any input, in any pieces, ended by end of file, an error or the timeout,
    the loop of [recvRequest] comes to an end after at most one turn for each byte:
    it returns a finished head with the connection open, or null with the connection
    closed, or throws [length_error]; it never touches memory outside its buffer and
    no assertion fails. *)
Theorem recv_head_total (fuel : nat) (buff_size : Z) (P : HttpRequestParser) (data : list byte) (offset : Z) (w : wire) :
  feeding (m_parser P) → http_parser_finish (m_parser P) = 0 →
  Z.of_nat (length data) = buff_size → 0 ≤ offset < buff_size → buff_size < 2 ^ 31 →
  m_isConnected w = true → pieces_ok (arrivals w) → (length (incoming (arrivals w)) < fuel)%nat →
  head_outcome buff_size (recv_head fuel buff_size P data offset w).
Proof.
  revert P data offset w. induction fuel as [|fuel IH]; intros P data offset w Hs Hf Hd Ho Hb Hc Hp Hfuel; [lia|].
  cbn [recv_head]. rewrite wrapu_small by (unfold in_u; lia).
  destruct (decide (incoming (arrivals w) = [])) as [Ei|Ei].
  { assert (∃ r w', read data offset (buff_size - offset) w = Ok (r, data) w' ∧ r ≤ 0) as (r&w'&E&Hr).
    { assert (splice (Z.to_nat offset) [] data = data) as Hsp
        by (unfold splice; simpl; by rewrite Nat.add_0_r, take_drop).
      unfold read. rewrite bind_get, (proj2 (Z.leb_le 0 _)), (proj2 (Z.leb_le offset _)), Hc by lia. cbn [andb negb].
      unfold sys_recv. rewrite bind_assoc, bind_get, (proj2 (Z.eqb_neq _ 0)) by lia.
      destruct (arrivals w) as [|[bs| |] l] eqn:Ea.
      - rewrite bind_ret, (proj2 (Z.ltb_ge _ _)), Hsp by (simpl; lia). by eexists _, _.
      - exfalso. apply Forall_cons in Hp as [Hp _]. destruct bs; [done|]. simpl in Ei. discriminate.
      - rewrite bind_ret, (proj2 (Z.ltb_ge _ _)), Hsp by (simpl; lia). by eexists _, _.
      - rewrite bind_assoc, bind_modify, bind_ret, (proj2 (Z.ltb_ge _ _)), Hsp by (simpl; lia). by eexists _, _. }
    step_with E. by rewrite (proj2 (Z.leb_le r 0)). }
  destruct (read_ok data offset (buff_size - offset) w) as (k&l&E&Hk1&Hk2&Hk3&Hl1&Hl2&Hl3); try done; try lia.
  step_with E. rewrite (proj2 (Z.leb_gt _ 0)) by lia.
  set (data1 := splice _ _ data). set (w1 := set_arrivals l w).
  assert (length data1 = length data) as Hd1.
  { unfold data1. apply length_splice. rewrite length_take. lia. }
  assert (∀ z (s : wire), - 2 ^ 31 ≤ z < 2 ^ 31 → sint z s = Ok z s) as Hsint.
  { intros z s Hz. unfold sint. by rewrite (proj2 (Z.leb_le _ _)), (proj2 (Z.ltb_lt _ _)) by lia. }
  step_with (Hsint (Z.of_nat k + offset) w1 ltac:(lia)).
  cbn [mp_terminated mp_execute mp_hasError mp_isFinished HttpRequestParser_message]. rewrite bind_ret.
  destruct (execute_total data1 (Z.of_nat k + offset) P Hs Hf) as [(n&data2&P'&Ex&Hn&Hs'&Hd2)|(P'&Ex)]; [lia|lia| |].
  2: { erewrite bind_throw by (unfold on; by rewrite Ex). done. }
  step_with (on_ok _ _ _ w1 _ Ex).
  destruct (hasError P') eqn:Eerr; [done|].
  rewrite (wraps_small 32 n) by (unfold in_s; lia).
  step_with (Hsint (Z.of_nat k + offset - n) w1 ltac:(lia)).
  rewrite (wraps_small 32 buff_size) by (unfold in_s; lia).
  destruct (Z.eqb_spec (Z.of_nat k + offset - n) buff_size) as [Ebuf|Ebuf]; [done|].
  assert (http_parser_finish (m_parser P') = isFinished P') as Hfin by done.
  destruct (Z.eqb_spec (isFinished P') 0) as [Efin|Efin]; cbn [negb].
  - apply IH; try done; try lia.
    change (arrivals w1) with l. rewrite Hl1, length_drop. lia.
  - cbn. split_and!; try done; try lia.
    unfold hasError in Eerr. apply orb_false_iff in Eerr as [_ Eerr].
    revert Efin. unfold isFinished, http_parser_finish. rewrite Eerr. by destruct (http_parser_is_finished _).
Qed.
Lemma recv_head_total_witness :
  head_outcome 16 (recv_head 9 16 (HttpRequestParser_new demo_parser) (replicate 16 x00) 0
    (mk_wire true [Data demo_text; Error] [] [])).
Proof.
  apply recv_head_total; [apply feeding_init|reflexivity|reflexivity|lia|lia|reflexivity| |simpl; lia].
  repeat constructor; discriminate.
Defined.
