(* ===== verification/HttpSessionSpec.v ===== *)
(** Receiving requests: what a client serialises arrives as the same request, and
    what happens when the stream ends early, breaks or carries something else. *)
From S2P Require Import Prelude Ragel Http11States Http11Parser Http11Spec Text Http HttpSpec HttpRequestParser HttpRequestScan Stream HttpReceive HttpSession.
From Stdlib Require Import Strings.Byte.
From stdpp Require Import gmap.
From coqutil Require Import Byte.

Local Open Scope Z_scope.

(** ** The text of a request in its parts *)

(** Requests whose fields fit the grammar of the parser. *)
Record sendable (r : HttpRequest) : Prop := {
  s_method : m_method r ≠ INVALID_METHOD ∧ m_method r ≠ M_MSEARCH;
  s_version : m_version r = 0x11 ∨ m_version r = 0x10;
  s_path : ∃ l, bytes (m_path r) = "/"%byte :: l ∧ path_ok l;
  s_query : m_query r = ""%string ∨ query_ok (bytes (m_query r));
  s_fragment : m_fragment r = ""%string ∨ query_ok (bytes (m_fragment r));
  s_headers : Forall (λ e, name_ok (bytes e.1) ∧ value_ok (bytes e.2)) (m_headers r);
}.

(** The header lines as the scanner sees them: name, space, value. *)
Definition scan_line (e : string * string * string) : list byte * list byte * list byte :=
  (bytes e.1.1, drop 1 (bytes e.1.2), bytes e.2).

Lemma bytes_render l :
  Forall (λ e : string * string * string, e.1.2 = ":"%string ∨ e.1.2 = ": "%string) l →
  bytes (render l) = lines_text (scan_line <$> l).
Proof.
  induction 1 as [|[[k sep] v] l Hs _ IH]; [done|].
  change (render ((k, sep, v) :: l)) with (k +:+ sep +:+ v +:+ CRLF +:+ render l)%string.
  rewrite !bytes_app, IH. unfold lines_text. cbn [fmap list_fmap concat scan_line fst snd].
  unfold line_text, crlf. simpl in Hs.
  destruct Hs as [-> | ->];
    change (bytes ":") with [":"%byte]; change (bytes ": ") with [":"%byte; " "%byte];
    cbn [app drop]; rewrite <-!app_assoc; cbn [app]; by rewrite <-!app_assoc.
Qed.

Definition head_text (r : HttpRequest) : string :=
  HttpMethodToString (m_method r) +:+ " " +:+ m_path r
  +:+ (if bool_decide (m_query r = "") then "" else "?") +:+ m_query r
  +:+ (if bool_decide (m_fragment r = "") then "" else "#") +:+ m_fragment r
  +:+ " HTTP/" +:+ version_string (m_version r) +:+ CRLF
  +:+ render (request_lines r) +:+ CRLF.
Lemma dump_head r : bytes (request_dump r) = bytes (head_text r) ++ bytes (m_body r).
Proof. unfold request_dump, head_text. by rewrite !bytes_app, <-!app_assoc. Qed.

(** The request as the parser reports it, before the body. *)
Definition headers_of (r : HttpRequest) : MapType :=
  foldl (λ m e, map_set m e.1.1 e.2) [] (request_lines r).
Definition parsed (r : HttpRequest) : HttpRequest :=
  mkHttpRequest (m_method r) (m_version r) true (m_path r) (m_query r) (m_fragment r) "" (headers_of r) [] [].

Section scan.
Context (u : bool) (len : Z).
Notation moves := (moves u len).

(** From the path to the space in front of the version. *)
Lemma moves_target pre r P :
  sendable r →
  ∃ P', moves 3 pre (bytes (m_path r
      +:+ (if bool_decide (m_query r = "") then "" else "?") +:+ m_query r
      +:+ (if bool_decide (m_fragment r = "") then "" else "#") +:+ m_fragment r +:+ " ")%string) P 4 P' ∧
    m_error P' = m_error P ∧ m_parser P' = m_parser P ∧
    m_data P' = (if bool_decide (m_fragment r = "") then λ d, d else setFragment (m_fragment r))
                  ((if bool_decide (m_query r = "") then λ d, d else setQuery (m_query r))
                     (setPath (m_path r) (m_data P))).
Proof.
  intros [_ _ (l&Hp&Hl) Hq Hf _].
  assert (str ("/"%byte :: l) = m_path r) as Hpath by by rewrite <-Hp, str_bytes.
  destruct (bool_decide_reflect (m_query r = ""%string)) as [Eq|Eq];
    destruct (bool_decide_reflect (m_fragment r = ""%string)) as [Ef|Ef];
    try (destruct Hq as [Hq|Hq]; [done|]); try (destruct Hf as [Hf|Hf]; [done|]);
    rewrite ?Eq, ?Ef, !bytes_app, Hp; change (bytes "") with (@nil byte); change (bytes "?") with ["?"%byte];
    change (bytes "#") with ["#"%byte]; change (bytes " ") with [" "%byte]; cbn [app].
  - eexists. split; [apply moves_path; [done|constructor]|]. split_and!; simpl; by rewrite ?Hpath.
  - replace ("/"%byte :: l ++ "#"%byte :: bytes (m_fragment r) ++ [" "%byte])
      with (("/"%byte :: l ++ ["#"%byte]) ++ (bytes (m_fragment r) ++ [" "%byte]))
      by (cbn [app]; by rewrite <-!app_assoc).
    eexists. split.
    { eapply moves_app; [apply moves_path; [done|constructor]|]. by apply moves_fragment. }
    split_and!; simpl; by rewrite ?Hpath, ?str_bytes.
  - replace ("/"%byte :: l ++ "?"%byte :: bytes (m_query r) ++ [" "%byte])
      with (("/"%byte :: l ++ ["?"%byte]) ++ (bytes (m_query r) ++ [" "%byte]))
      by (cbn [app]; by rewrite <-!app_assoc).
    eexists. split.
    { eapply moves_app; [by apply moves_path_query|]. apply moves_query; [done|constructor]. }
    split_and!; simpl; by rewrite ?Hpath, ?str_bytes.
  - replace ("/"%byte :: l ++ "?"%byte :: bytes (m_query r) ++ "#"%byte :: bytes (m_fragment r) ++ [" "%byte])
      with (("/"%byte :: l ++ ["?"%byte]) ++ ((bytes (m_query r) ++ ["#"%byte]) ++ (bytes (m_fragment r) ++ [" "%byte])))
      by (cbn [app]; by rewrite <-!app_assoc).
    eexists. split.
    { eapply moves_app; [by apply moves_path_query|]. eapply moves_app; [apply moves_query; [done|constructor]|].
      by apply moves_fragment. }
    split_and!; simpl; by rewrite ?Hpath, ?str_bytes.
Qed.
End scan.

(** ** The whole head *)

Lemma digit_value_start c : is_digit c = true → value_start (Ascii.byte_of_ascii c) = true.
Proof. destruct c as [[] [] [] [] [] [] [] []]; vm_compute; done. Qed.
Lemma value_start_char b : value_start b = true → value_char b = true.
Proof. unfold value_start. by intros [? _]%andb_true_iff. Qed.
Lemma show_value_ok n : value_ok (bytes (show n)).
Proof.
  pose proof (forallb_bytes is_digit value_start (show n) digit_value_start (show_digits n)) as H.
  destruct (bytes (show n)) as [|x v]; [done|]. cbn [forallb] in H. apply andb_true_iff in H as [Hx Hv].
  split; [done|]. rewrite forallb_forall in *. intros y Hy. apply value_start_char. auto.
Qed.

Lemma request_lines_sep r :
  Forall (λ e : string * string * string, e.1.2 = ":"%string ∨ e.1.2 = ": "%string) (request_lines r).
Proof.
  unfold request_lines. apply Forall_app. split; [by repeat constructor; right|]. apply Forall_app. split.
  - apply Forall_fmap, Forall_forall. intros e _. by left.
  - case_bool_decide; [constructor|]. by repeat constructor; right.
Qed.
Lemma request_lines_ok r : sendable r → lines_ok (scan_line <$> request_lines r).
Proof.
  intros Hr. pose proof (s_headers r Hr) as Hh. unfold lines_ok, request_lines.
  rewrite !fmap_app, !Forall_app. split_and!.
  - constructor; [|constructor]. split_and!; [by split; vm_compute|by right|].
    unfold scan_line, connection_value. simpl. by destruct (m_close r).
  - rewrite !Forall_fmap. apply Forall_forall. intros e [_ He]%list_elem_of_filter.
    rewrite Forall_forall in Hh. destruct (Hh e He). split_and!; [done|by left|done].
  - case_bool_decide; [constructor|]. constructor; [|constructor].
    split_and!; [by split; vm_compute|by right|apply show_value_ok].
Qed.

Lemma head_parts r :
  bytes (head_text r) =
    bytes (HttpMethodToString (m_method r) +:+ " ")%string
    ++ bytes (m_path r +:+ (if bool_decide (m_query r = "") then "" else "?") +:+ m_query r
         +:+ (if bool_decide (m_fragment r = "") then "" else "#") +:+ m_fragment r +:+ " ")%string
    ++ bytes ("HTTP/" +:+ version_string (m_version r) +:+ CRLF)%string
    ++ lines_text (scan_line <$> request_lines r) ++ crlf.
Proof.
  unfold head_text. rewrite <-(bytes_render _ (request_lines_sep r)). unfold crlf.
  change " HTTP/"%string with (" " +:+ "HTTP/")%string. by rewrite !bytes_app, <-!app_assoc.
Qed.

Lemma add_lines P l :
  foldl add_line P (scan_line <$> l) =
    mkHttpRequestParser (m_parser P)
      (setHeaders (foldl (λ m e, map_set m e.1.1 e.2) (m_headers (m_data P)) l) (m_data P)) (m_error P).
Proof.
  revert P. induction l as [|e l IH]; intros P; simpl; [by destruct P as [? [] ?]|].
  rewrite IH. unfold add_line, scan_line. simpl. by rewrite !str_bytes.
Qed.

(** The part of the head in front of the empty line. *)
Lemma moves_head u len r P :
  sendable r → m_data P = HttpRequest_new 0x11 true →
  ∃ P' h, bytes (head_text r) = h ++ crlf ∧ moves u len 1 [] h P 13 P' ∧
    m_error P' = m_error P ∧ m_parser P' = m_parser P ∧ m_data P' = parsed r.
Proof.
  intros Hr HP. pose proof Hr as [[Hm1 Hm2] Hv _ _ _ _].
  set (P1 := update_data (setMethod (m_method r)) P).
  destruct (moves_target u len (bytes (HttpMethodToString (m_method r) +:+ " ")%string) r P1 Hr) as (P2&M2&He2&Hp2&Hd2).
  rewrite head_parts. rewrite !app_assoc.
  eexists _, _. split; [reflexivity|]. split.
  { eapply moves_app; [|by apply moves_lines, request_lines_ok]. eapply moves_app; [|by apply moves_version].
    eapply moves_app; [by apply moves_method|]. exact M2. }
  rewrite add_lines. cbn [m_error m_parser m_data update_data]. split_and!; [done|done|].
  rewrite Hd2. subst P1. simpl. rewrite HP. unfold parsed, headers_of. simpl.
  destruct (bool_decide_reflect (m_query r = ""%string)) as [Eq|Eq];
    destruct (bool_decide_reflect (m_fragment r = ""%string)) as [Ef|Ef]; simpl; by rewrite ?Eq, ?Ef.
Qed.

(** The callbacks do not look at the scanner. *)
Definition with_parser (s : http_parser) (P : HttpRequestParser) : HttpRequestParser :=
  mkHttpRequestParser s (m_data P) (m_error P).
Lemma string_at_same {S S'} buffer a n (s : S) (s' : S') v t :
  string_at buffer a n s = Ok v t → t = s ∧ string_at buffer a n s' = Ok v s'.
Proof. unfold string_at. repeat case_match; [done|done|]. by intros [= -> ->]. Qed.
Lemma with_parser_callback s buffer c P P' :
  on_callback buffer c P = Ok tt P' → on_callback buffer c (with_parser s P) = Ok tt (with_parser s P').
Proof.
  destruct c as [[] a n|f fl v vl]; cbn [on_callback];
    unfold on_request_method, on_request_fragment, on_request_path, on_request_query_string,
      on_request_http_version, on_request_http_field.
  all: try (repeat case_match; by intros [= <-]).
  all: try (intros (x&P1&E&H)%bind_inv; destruct (string_at_same _ _ _ _ (with_parser s P) _ _ E) as [-> E'];
    step_with E'; injection H as <-; done).
  destruct (fl =? 0); [by intros [= <-]|].
  intros (x&P1&E&(y&P2&E2&H)%bind_inv)%bind_inv.
  destruct (string_at_same _ _ _ _ (with_parser s P) _ _ E) as [-> E'].
  destruct (string_at_same _ _ _ _ (with_parser s P) _ _ E2) as [-> E2'].
  step_with E'. step_with E2'. by injection H as <-.
Qed.
Lemma with_parser_callbacks s buffer l P P' :
  on_callbacks buffer l P = Ok tt P' → on_callbacks buffer l (with_parser s P) = Ok tt (with_parser s P').
Proof.
  revert P. induction l as [|c l IH]; intros P; cbn [on_callbacks]; [by intros [= <-]|].
  intros ([]&P1&E&H)%bind_inv. step_with (with_parser_callback s _ _ _ _ E). auto.
Qed.

(** One call on the whole head and some of the body. *)
Lemma execute_head r garbage data post junk :
  sendable r → data = bytes (head_text r) ++ post ++ junk → Z.of_nat (length data) < 2 ^ 63 →
  let len := Z.of_nat (length (bytes (head_text r) ++ post)) in
  let offset := Z.of_nat (length (bytes (head_text r))) in
  ∃ parser, execute data len (HttpRequestParser_new garbage) =
      Ok (offset, memmove_front offset len data) parser ∧
    m_data parser = parsed r ∧ hasError parser = false ∧ isFinished parser = 1.
Proof.
  intros Hr -> Hlen len offset. set (B := bytes (head_text r) ++ post ++ junk) in *.
  set (s := http_parser_init garbage). set (u := uri_relaxed s).
  destruct (moves_head u len r (HttpRequestParser_new garbage) Hr eq_refl) as (P'&hd&Eh&Hm&He&_&Hd).
  assert (take (Z.to_nat len) B = hd ++ crlf ++ post) as Htake.
  { unfold B, len. rewrite Nat2Z.id, app_assoc, take_app_length. by rewrite Eh, <-app_assoc. }
  assert (Z.of_nat (length (hd ++ crlf ++ post)) = len) as Hlt.
  { rewrite <-Htake, length_take. unfold len, B. rewrite !length_app. lia. }
  destruct (Hm (crlf ++ post)) as (tr&Erun&Heff). cbn [app length] in Erun.
  rewrite run_end in Erun. unfold prepend in Erun. cbn [trace final pos out] in Erun.
  assert (len ≤ Z.of_nat (length B)) as HlB by (unfold len, B; rewrite !length_app; lia).
  destruct (execute_ok (hd ++ crlf ++ post) s (init_in_progress garbage)) as (cbs&s'&Ex&_&Hcs&_&_&Hcbs).
  { rewrite !length_app. simpl. lia. }
  { lia. }
  fold u in Ex, Hcs, Hcbs. change (cs s) with 1 in *. change (Z.of_nat 0) with 0 in Erun.
  rewrite Erun in Ex, Hcs, Hcbs. cbn [pos final trace] in Ex, Hcs, Hcbs. rewrite Hlt in Hcbs.
  assert (offset = Z.of_nat (length hd) + 1 + 1) as Hoff.
  { unfold offset. rewrite Eh, length_app. simpl. lia. }
  assert ([] ++ hd `prefix_of` B) as Hpre.
  { unfold B. rewrite Eh, <-app_assoc. apply prefix_app_r. done. }
  specialize (Heff B (reset s) (conj eq_refl eq_refl) Hpre Hlen).
  rewrite do_actions_app in Hcbs.
  destruct (do_actions len tr (reset s)) as [s1 c1]. destruct Heff as [[Hx Hj] Hc1].
  cbn [do_actions do_action] in Hcbs. cbn [xml_sent json_sent set_field_start] in Hcbs.
  rewrite Hx, Hj in Hcbs. cbn [orb app snd] in Hcbs.
  set (P0 := mkHttpRequestParser s' (HttpRequest_new 0x11 true) 0).
  (* the callbacks do not look at the scanner *)
  assert (on_callbacks B cbs P0 = Ok tt (mkHttpRequestParser s' (m_data P') (m_error P'))) as Hc.
  { rewrite <-Hcbs. erewrite on_callbacks_app; [|by apply (with_parser_callbacks s' _ _ _ _ Hc1)].
    done. }
  exists (mkHttpRequestParser s' (m_data P') (m_error P')).
  split; [|split_and!; [done| |]].
  - unfold execute. rewrite bind_get. rewrite Htake.
    erewrite bind_ok; [|by apply on_ok]. cbv beta iota. rewrite bind_modify. fold P0. step_with Hc.
    unfold mret, M_ret. by rewrite Hoff.
  - unfold hasError, http_parser_has_error. simpl. by rewrite He, Hcs.
  - unfold isFinished, http_parser_finish, http_parser_has_error, http_parser_is_finished. simpl. by rewrite Hcs.
Qed.

(** ** The headers that arrive *)

Definition set_line (m : gmap (list N) string) (e : string * string * string) : gmap (list N) string :=
  <[canon e.1.1 := e.2]> m.
Lemma view_lines l m :
  view (foldl (λ m e, map_set m e.1.1 e.2) m l) = foldl set_line (view m) l.
Proof. revert m. induction l as [|e l IH]; intros m; [done|]. simpl. by rewrite IH, map_set_view. Qed.
Lemma set_lines_other key l m :
  Forall (λ e, canon e.1.1 ≠ key) l → foldl set_line m l !! key = m !! key.
Proof.
  intros Hl. revert m. induction Hl as [|e l He _ IH]; intros m; [done|]. simpl. rewrite IH.
  unfold set_line. by rewrite lookup_insert_ne.
Qed.
Lemma map_ok_fresh e m : map_ok (e :: m) → view m !! canon e.1 = None.
Proof.
  intros [Hm Hall]%StronglySorted_inv. rewrite <-map_find_view. destruct m as [|e2 m]; [done|].
  apply map_find_below; [done|]. by apply Forall_cons in Hall as [H _].
Qed.
(** The lines of a user's headers, some of which are left out. *)
Lemma set_lines_user key sep (Q : string * string → Prop) `{∀ e, Decision (Q e)} (m : MapType) acc :
  map_ok m → (∀ e, ¬ Q e → canon e.1 ≠ key) →
  foldl set_line acc ((λ e, (e.1, sep, e.2)) <$> filter Q m) !! key =
    match view m !! key with Some v => Some v | None => acc !! key end.
Proof.
  revert acc. induction m as [|[k v] m IH]; intros acc Hm Hk.
  { change (view []) with (∅ : gmap (list N) string). by rewrite lookup_empty. }
  pose proof (map_ok_fresh _ _ Hm) as Hf. cbn [fst] in Hf. apply StronglySorted_inv in Hm as [Hm _].
  rewrite filter_cons, view_cons. case_decide as Ec.
  - cbn [fmap list_fmap foldl]. rewrite IH by done. unfold set_line. cbn [fst snd].
    destruct (decide (canon k = key)) as [<-|Hne].
    + by rewrite Hf, !lookup_insert_eq.
    + by rewrite !lookup_insert_ne.
  - rewrite IH by done. rewrite lookup_insert_ne; [done|]. exact (Hk _ Ec).
Qed.

Lemma received_headers r key :
  map_ok (m_headers r) →
  view (headers_of r) !! key =
    if bool_decide (key = canon "connection") then Some (connection_value (m_close r))
    else if bool_decide (key = canon "content-length" ∧ m_body r ≠ ""%string)
    then Some (show (Z.of_nat (String.length (m_body r))))
    else view (m_headers r) !! key.
Proof.
  intros Hm. unfold headers_of, request_lines. rewrite view_lines, !foldl_app.
  change (view []) with (∅ : gmap (list N) string). cbn [foldl].
  set (user := (λ e : string * string, (e.1, ":"%string, e.2)) <$> _).
  set (m1 := foldl set_line _ user).
  assert (∀ acc, key = canon "connection" → foldl set_line acc user !! key = acc !! key) as Huser.
  { intros acc ->. apply set_lines_other. unfold user. rewrite Forall_fmap. apply Forall_forall.
    intros e [He _]%list_elem_of_filter. unfold strcasecmp_eq in He. by apply bool_decide_eq_false in He. }
  assert (key ≠ canon "connection" → ∀ e : string * string, ¬ strcasecmp_eq e.1 "connection" = false → canon e.1 ≠ key) as Hq.
  { intros Hk e Ec E. apply Hk. rewrite <-E. unfold strcasecmp_eq in Ec. case_bool_decide; [done|congruence]. }
  destruct (decide (m_body r = ""%string)) as [Eb|Eb].
  - rewrite (bool_decide_true (m_body r = "")) by done. cbn [foldl].
    rewrite (bool_decide_false (_ ∧ _)) by naive_solver. case_bool_decide as Ek.
    + unfold m1. rewrite Huser by done. subst key. unfold set_line. cbn [fst snd]. by rewrite lookup_insert_eq.
    + unfold m1, user. rewrite set_lines_user by auto. destruct (view (m_headers r) !! key); [done|].
      unfold set_line. cbn [fst snd]. rewrite lookup_insert_ne by done. apply lookup_empty.
  - rewrite (bool_decide_false (m_body r = "")) by done. cbn [foldl].
    unfold set_line at 1. cbn [fst snd]. case_bool_decide as Ek.
    + rewrite lookup_insert_ne by (subst key; done). unfold m1. rewrite Huser by done.
      subst key. unfold set_line. cbn [fst snd]. by rewrite lookup_insert_eq.
    + destruct (decide (key = canon "content-length")) as [->|Hne].
      * rewrite bool_decide_true by done. by rewrite lookup_insert_eq.
      * rewrite bool_decide_false by naive_solver. rewrite lookup_insert_ne by done.
        unfold m1, user. rewrite set_lines_user by auto. destruct (view (m_headers r) !! key); [done|].
        unfold set_line. cbn [fst snd]. rewrite lookup_insert_ne by done. apply lookup_empty.
Qed.

(** ** Receiving *)

Section receive.
Context {LC : LexicalCast}.
Context (h : heap) (garbage : http_parser) (sizes : Sizes).

(** What the code relies on of [boost::lexical_cast]. *)
Definition cast_reads_numbers : Prop :=
  ∀ n, 0 ≤ n < 2 ^ 64 → lexical_cast_u64 (show n) = Some n.

Definition received (r : HttpRequest) : HttpRequest :=
  mkHttpRequest (m_method r) (m_version r) (m_close r) (m_path r) (m_query r) (m_fragment r) (m_body r) (headers_of r) [] [].

Lemma new_chars_ok n (w : wire) :
  0 ≤ n ≤ available h → ∃ data, new_chars h n w = Ok data w ∧ Z.of_nat (length data) = n.
Proof.
  intros Hn. unfold new_chars. rewrite (proj2 (Z.ltb_ge _ _)) by lia. eexists. split; [reflexivity|].
  rewrite length_fmap, length_seq. lia.
Qed.

(** The loop on a first piece that holds the head. *)
Lemma recv_head_ok fuel r post buff_size data l w :
  sendable r → m_isConnected w = true →
  arrivals w = Data (bytes (head_text r) ++ post) :: l →
  Z.of_nat (length (bytes (head_text r) ++ post)) ≤ buff_size → Z.of_nat (length data) = buff_size →
  buff_size < 2 ^ 30 →
  ∃ parser data', recv_head (S fuel) buff_size (HttpRequestParser_new garbage) data 0 w =
      Ok (Some (parser, data', Z.of_nat (length post))) (set_arrivals l w) ∧
    m_data parser = parsed r ∧ take (length post) data' = post ∧ length data' = length data.
Proof.
  intros Hr Hc Ha Hn Hd Hb. set (bs := bytes (head_text r) ++ post) in *.
  assert (0 < length (bytes (head_text r)))%nat as Hhead.
  { rewrite head_parts, !length_app. simpl. lia. }
  assert (length bs = length (bytes (head_text r)) + length post)%nat as Hbs by (unfold bs; apply length_app).
  assert (bs ≠ []) as Hne by (destruct bs; [simpl in Hbs; lia|done]).
  set (D := splice 0 bs data).
  assert (D = bytes (head_text r) ++ post ++ drop (length bs) data) as HDe.
  { unfold D, splice. simpl. unfold bs. by rewrite <-app_assoc. }
  assert (length D = length data) as HD by (apply length_splice; simpl; lia).
  destruct (execute_head r garbage D post (drop (length bs) data) Hr HDe ltac:(lia))
    as (parser&Ex&Hp&He&Hf). fold bs in Ex.
  assert (mp_isFinished parser ≠ 0) as Hf' by (change (isFinished parser ≠ 0); by rewrite Hf).
  assert (buff_size + (if mp_terminated (P := HttpRequestParser) then 1 else 0) ≤ Z.of_nat (length data)) as Hd'
    by (simpl; lia).
  rewrite (recv_head_once (MP := HttpRequestParser_message) fuel buff_size _ parser bs data _ (Z.of_nat (length (bytes (head_text r)))) l w
    Hc Ha Hne Hn Hb Hd' Ex He Hf') by lia.
  replace (Z.of_nat (length bs) - Z.of_nat (length (bytes (head_text r)))) with (Z.of_nat (length post)) by lia.
  eexists parser, _. split; [reflexivity|]. split; [done|].
  assert (memmove_front (Z.of_nat (length (bytes (head_text r)))) (Z.of_nat (length bs)) D = splice 0 post D) as ->.
  { unfold memmove_front. f_equal. rewrite Nat2Z.id, HDe.
    rewrite drop_app_length. replace (Z.to_nat _) with (length post) by lia. by rewrite take_app_length. }
  split.
  - unfold splice. simpl. by rewrite take_app_length.
  - rewrite length_splice by (simpl; lia). done.
Qed.

(** The body: [have] is in the buffer, [rest] is still to come. *)
Lemma recv_body_ok fuel data have rest more w :
  m_isConnected w = true → take (length have) data = have →
  (0 < length have + length rest)%nat → Z.of_nat (length have + length rest) < 2 ^ 31 →
  Z.of_nat (length have + length rest) ≤ available h → (length rest ≤ fuel)%nat →
  pieces_ok (arrivals w) → incoming (arrivals w) = rest ++ more →
  ∃ l, recv_body fuel h data (Z.of_nat (length have)) (Z.of_nat (length have + length rest)) w =
      Ok (Some (have ++ rest)) (set_arrivals l w) ∧
    incoming l = more ∧ pieces_ok l.
Proof.
  intros Hc Hd Hpos Hlt Hav Hf Hp Hi. set (n := (length have + length rest)%nat) in *.
  unfold recv_body, resized.
  rewrite (proj2 (Z.ltb_ge (2 ^ 63 - 1) _)), (proj2 (Z.ltb_ge (available h) _)), bind_ret by lia.
  rewrite (proj2 (Z.leb_le (Z.of_nat (length have)) _)) by lia. cbv zeta. rewrite !Nat2Z.id, Hd.
  assert (splice 0 have (replicate n "000"%byte) = have ++ replicate (length rest) "000"%byte) as ->.
  { unfold splice. simpl. rewrite drop_replicate. do 2 f_equal. lia. }
  replace (Z.of_nat n - Z.of_nat (length have)) with (Z.of_nat (length rest)) by lia.
  assert (n = length have + length rest)%nat as En by done. clearbody n.
  destruct (decide (rest = [])) as [-> |Hr].
  - exists (arrivals w). split; [|by rewrite Hi]. simpl. destruct w. done.
  - assert (0 < length rest)%nat by (destruct rest; [done|simpl; lia]).
    rewrite (proj2 (Z.ltb_lt 0 _)) by lia.
    destruct (readFixSize_loop_ok fuel (have ++ replicate (length rest) "000"%byte) (Z.of_nat (length have)) 0
      (Z.of_nat (length rest)) w) as (l&E&Hl&Hpl); try done; try lia.
    { rewrite length_app, length_replicate. lia. }
    { rewrite Hi, length_app. lia. }
    exists l. unfold readFixSize. rewrite bind_assoc. step_with E. rewrite bind_ret.
    rewrite wraps_small by (unfold in_s; lia). rewrite (proj2 (Z.leb_gt _ _)) by lia.
    rewrite Z.add_0_r, !Nat2Z.id, Hi, take_app_length.
    split; [|split; [|done]].
    + unfold mret, M_ret. do 2 f_equal. unfold splice. rewrite take_app_length, drop_ge; [by rewrite app_nil_r|].
      rewrite length_app, length_replicate. lia.
    + by rewrite Hl, Nat2Z.id, Hi, drop_app_length.
Qed.

Lemma request_received_lemma (r : HttpRequest) (have rest more : list byte) (w : wire) (l : list arrival) (fuel : nat) :
  sendable r → map_ok (m_headers r) → cast_reads_numbers →
  (m_body r = "" → map_find (m_headers r) "content-length" = None) →
  m_isConnected w = true → bytes (m_body r) = have ++ rest →
  arrivals w = Data (bytes (head_text r) ++ have) :: l → pieces_ok l → incoming l = rest ++ more →
  s_http_request_buffer_size sizes < 2 ^ 30 →
  Z.of_nat (length (bytes (head_text r) ++ have)) ≤ s_http_request_buffer_size sizes →
  s_http_request_buffer_size sizes ≤ available h →
  Z.of_nat (String.length (m_body r)) < 2 ^ 31 → Z.of_nat (String.length (m_body r)) ≤ available h →
  (length rest < fuel)%nat →
  ∃ l', recvRequest h garbage sizes fuel w = Ok (Some (received r)) (set_arrivals l' w) ∧ incoming l' = more.
Proof.
  intros Hr Hm Hcast Hcl Hc Hbody Ha Hp Hi Hsz Hfit Hav Hb1 Hb2 Hfuel.
  assert (Z.of_nat (String.length (m_body r)) = Z.of_nat (length have + length rest)) as Hlen.
  { rewrite <-length_bytes, Hbody, length_app. lia. }
  unfold recvRequest.
  destruct (new_chars_ok (s_http_request_buffer_size sizes) w) as (data&En&Hdl); [lia|]. step_with En.
  destruct fuel as [|fuel]; [lia|].
  destruct (recv_head_ok fuel r have (s_http_request_buffer_size sizes) data l w) as (parser&data'&Eh&Hpd&Htake&_);
    try done. step_with Eh.
  unfold finish_request, getContentLength. rewrite Hpd. cbn [m_headers parsed].
  unfold getAs. rewrite map_find_view, received_headers by done.
  rewrite (bool_decide_false (canon "content-length" = canon "connection")) by done.
  assert (∀ r', m_headers r' = headers_of r → m_close r' = true →
    (if strcasecmp_eq (getHeader r' "Connection" "") "keep-alive" then setClose false r' else r') =
      setClose (m_close r) r') as Hkeep.
  { intros r' Hh Hcl'. unfold getHeader. rewrite Hh, map_find_view, received_headers by done.
    rewrite bool_decide_true by done. cbn [default]. destruct (m_close r); [|done].
    destruct r'. simpl in *. by rewrite Hcl'. }
  destruct (decide (m_body r = ""%string)) as [Eb|Eb].
  - rewrite bool_decide_false by naive_solver. rewrite <-map_find_view, Hcl by done.
    change (wraps 64 0) with 0. cbn [Z.ltb Z.compare]. rewrite bind_ret.
    assert (have = [] ∧ rest = []) as [-> ->].
    { rewrite Eb in Hbody. by apply app_eq_nil. }
    exists l. split; [|done]. rewrite ?Hpd, Hkeep by done. unfold mret, M_ret.
    do 2 f_equal. unfold received. by rewrite Eb.
  - rewrite bool_decide_true by done. assert (0 ≤ Z.of_nat (String.length (m_body r)) < 2 ^ 64) as Hin by (clear -Hb1; lia).
    rewrite (Hcast _ Hin).
    unfold default, id. rewrite wraps_small by (unfold in_s; lia).
    assert (0 < length have + length rest)%nat as Hpos.
    { destruct (m_body r); [done|]. simpl in Hlen. lia. }
    rewrite (proj2 (Z.ltb_lt _ _)) by lia. rewrite Hlen.
    destruct (recv_body_ok (S fuel) data' have rest more (set_arrivals l w)) as (l'&Ebd&Hl'&_); try done; try lia.
    rewrite !bind_assoc. step_with Ebd. rewrite bind_ret. cbn [fmap option_fmap option_map].
    exists l'. split; [|done]. rewrite ?Hpd, Hkeep by done. unfold mret, M_ret.
    do 2 f_equal. unfold received, parsed. cbn. f_equal. by rewrite <-Hbody, str_bytes.
Qed.

End receive.

(** ** Witness *)

Module Demo.
#[local] Instance demo_lexical : LexicalCast := read_dec.
Definition demo_garbage : http_parser := mk_http_parser 9 9 9 9 9 9 9 9 true true true.
Definition demo_heap : heap := mk_heap 10000 (λ _, x00).
Definition demo_request : HttpRequest :=
  setHeader "Host" "x" (setBody "hello" (setQuery "a=b%20c" (setPath "/p/q" (setMethod M_POST (HttpRequest_new 0x11 false))))).
Definition demo_wire : wire :=
  mk_wire true [Data (bytes (head_text demo_request) ++ bytes "he"); Data (bytes "l"); Data (bytes "lo+")] [] [].

Lemma demo_sendable : sendable demo_request.
Proof.
  split.
  - split; discriminate.
  - by left.
  - eexists. split; [vm_compute; reflexivity|]. split; vm_compute; reflexivity.
  - right. split; [discriminate|vm_compute; reflexivity].
  - by left.
  - repeat constructor; try discriminate; vm_compute; reflexivity.
Qed.
Lemma read_dec_reads : cast_reads_numbers.
Proof. intros n Hn. unfold lexical_cast_u64. apply read_dec_show. lia. Qed.

End Demo.
