(* ===== verification/Servlet.v ===== *)
(** Servlets and their dispatch ([sylar/http/servlet.h], [servlet.cc]).

    A servlet works on the request and the response it shares with the server, and
    on the session.  The dispatcher has an exact table ([unordered_map]), a list of
    patterns in order ([vector]) and a default; a stored pointer may be null.  Its
    methods hold [m_mutex] throughout, so each is one step. *)
From S2P Require Import Prelude Text Http Stream.
From stdpp Require Import gmap strings.

Local Open Scope string_scope.

(** [fnmatch(pattern, text, 0) == 0] of the C library. *)
Class Fnmatch := fnmatch : string → string → bool.

(** What [handle] does to the request and the response. *)
Definition handler := HttpRequest → HttpResponse → M wire (Z * HttpRequest * HttpResponse).

Record Servlet := mkServlet { getName : string; handle : handler }.

(** [FunctionServlet] *)
Definition FunctionServlet (cb : handler) : Servlet := mkServlet "FunctionServlet" cb.

(** [NotFoundServlet] *)
Definition RSP_BODY : string :=
  "<html><head><title>404 Not Found" +:+
  "</title></head><body><center><h1>404 Not Found</h1></center>" +:+
  "<hr><center>custom-server/1.0.0</center></body></html>".
Definition NotFoundServlet_handle : handler := λ request response,
  let response := r_setStatus HTTP_NOT_FOUND response in
  let response := r_setHeader "Server" "custom-server/1.0.0" response in
  let response := r_setHeader "Content-Type" "text/html" response in
  let response := r_setBody RSP_BODY response in
  mret (0%Z, request, response).
Definition NotFoundServlet : Servlet := mkServlet "NotFoundServlet" NotFoundServlet_handle.

(** A [Servlet::ptr] *)
Notation servlet_ptr := (option Servlet).

Record ServletDispatch := mkServletDispatch {
  m_datas : gmap string servlet_ptr;
  m_globs : list (string * servlet_ptr);
  m_default : servlet_ptr;
}.
(** [ServletDispatch::ServletDispatch] *)
Definition ServletDispatch_new : ServletDispatch := mkServletDispatch ∅ [] (Some NotFoundServlet).

Definition addServlet (uri : string) (slt : servlet_ptr) (d : ServletDispatch) : ServletDispatch :=
  mkServletDispatch (<[uri := slt]> (m_datas d)) (m_globs d) (m_default d).
Definition addServlet_cb (uri : string) (cb : handler) : ServletDispatch → ServletDispatch :=
  addServlet uri (Some (FunctionServlet cb)).

(** The loop that erases the first entry for [uri]. *)
Fixpoint erase_first (uri : string) (l : list (string * servlet_ptr)) : list (string * servlet_ptr) :=
  match l with
  | [] => []
  | e :: l => if bool_decide (e.1 = uri) then l else e :: erase_first uri l
  end.
Definition addGlobServlet (uri : string) (slt : servlet_ptr) (d : ServletDispatch) : ServletDispatch :=
  mkServletDispatch (m_datas d) (erase_first uri (m_globs d) ++ [(uri, slt)]) (m_default d).
Definition addGlobServlet_cb (uri : string) (cb : handler) : ServletDispatch → ServletDispatch :=
  addGlobServlet uri (Some (FunctionServlet cb)).
Definition delServlet (uri : string) (d : ServletDispatch) : ServletDispatch :=
  mkServletDispatch (delete uri (m_datas d)) (m_globs d) (m_default d).
Definition delGlobServlet (uri : string) (d : ServletDispatch) : ServletDispatch :=
  mkServletDispatch (m_datas d) (erase_first uri (m_globs d)) (m_default d).
Definition setDefault (v : servlet_ptr) (d : ServletDispatch) : ServletDispatch :=
  mkServletDispatch (m_datas d) (m_globs d) v.
Definition getDefault (d : ServletDispatch) : servlet_ptr := m_default d.

(** The null pointer when there is no entry. *)
Definition getServlet (d : ServletDispatch) (uri : string) : servlet_ptr := default None (m_datas d !! uri).

Section matching.
Context `{Fnmatch}.

(** The first entry whose pattern matches; C strings end at NUL. *)
Fixpoint first_match (l : list (string * servlet_ptr)) (uri : string) : option servlet_ptr :=
  match l with
  | [] => None
  | e :: l => if fnmatch (c_str e.1) (c_str uri) then Some e.2 else first_match l uri
  end.
Definition getGlobServlet (d : ServletDispatch) (uri : string) : servlet_ptr :=
  default None (first_match (m_globs d) uri).
Definition getMatchedServlet (d : ServletDispatch) (uri : string) : servlet_ptr :=
  match m_datas d !! uri with
  | Some slt => slt
  | None => default (m_default d) (first_match (m_globs d) uri)
  end.

(** [ServletDispatch::handle] *)
Definition ServletDispatch_handle (d : ServletDispatch) : handler := λ request response,
  match getMatchedServlet d (m_path request) with
  | None => mret (0%Z, request, response)
  | Some slt => '((_, request), response) ← handle slt request response; mret (0%Z, request, response)
  end.
(** A dispatcher is a servlet itself. *)
Definition ServletDispatch_servlet (d : ServletDispatch) : Servlet :=
  mkServlet "ServletDispatch" (ServletDispatch_handle d).
End matching.
