(* ===== verification/ServletSpec.v ===== *)
(** Dispatch as a function of the history of registrations.

    The specification knows only the calls made so far: the servlet of a path is
    the one last registered for it, else the one of the oldest pattern still
    registered that matches, a pattern counting from its last registration, else
    the default. *)
From S2P Require Import Prelude Text Http Stream Servlet.
From stdpp Require Import gmap strings.

Local Open Scope string_scope.
Local Open Scope list_scope.

Inductive op :=
  | AddServlet (uri : string) (slt : servlet_ptr)
  | DelServlet (uri : string)
  | AddGlob (uri : string) (slt : servlet_ptr)
  | DelGlob (uri : string)
  | SetDefault (slt : servlet_ptr).
Definition apply (d : ServletDispatch) (o : op) : ServletDispatch :=
  match o with
  | AddServlet uri slt => addServlet uri slt d
  | DelServlet uri => delServlet uri d
  | AddGlob uri slt => addGlobServlet uri slt d
  | DelGlob uri => delGlobServlet uri d
  | SetDefault slt => setDefault slt d
  end.
(** The dispatcher after the calls [h], the oldest first. *)
Definition after (h : list op) : ServletDispatch := foldl apply ServletDispatch_new h.

(** ** The specification *)

(** What the calls leave of an exact entry [e]. *)
Definition exact_step (uri : string) (e : option servlet_ptr) (o : op) : option servlet_ptr :=
  match o with
  | AddServlet u slt => if bool_decide (u = uri) then Some slt else e
  | DelServlet u => if bool_decide (u = uri) then None else e
  | _ => e
  end.
Definition exact_of (h : list op) (uri : string) : option servlet_ptr := foldl (exact_step uri) None h.
Definition default_step (v : servlet_ptr) (o : op) : servlet_ptr :=
  match o with SetDefault slt => slt | _ => v end.
Definition default_of (h : list op) : servlet_ptr := foldl default_step (Some NotFoundServlet) h.

(** The call changes the registration of pattern [p]. *)
Definition touches (p : string) (o : op) : bool :=
  match o with AddGlob u _ | DelGlob u => bool_decide (u = p) | _ => false end.
Definition touched (h : list op) (p : string) : bool := existsb (touches p) h.
(** The patterns that are registered, the oldest first. *)
Fixpoint live (h : list op) : list (string * servlet_ptr) :=
  match h with
  | [] => []
  | AddGlob p slt :: h => if touched h p then live h else (p, slt) :: live h
  | _ :: h => live h
  end.

(** ** The pattern list *)

Definition keys (l : list (string * servlet_ptr)) : list string := l.*1.
Definition without (p : string → bool) (l : list (string * servlet_ptr)) : list (string * servlet_ptr) :=
  filter (λ e, p e.1 = false) l.

Lemma erase_first_without uri l : NoDup (keys l) → erase_first uri l = without (λ p, bool_decide (uri = p)) l.
Proof.
  unfold without. induction l as [|[p s] l IH]; [done|].
  unfold keys. cbn [fmap list_fmap fst erase_first]. intros [Hp Hl]%NoDup_cons.
  destruct (decide (p = uri)) as [->|Hne].
  - rewrite bool_decide_true, filter_cons_False by (rewrite ?bool_decide_true; done).
    symmetry. apply filter_all_elem. intros [q t] Hq. apply bool_decide_false. intros ->.
    apply Hp, list_elem_of_fmap. by exists (q, t).
  - rewrite bool_decide_false, filter_cons_True by (rewrite ?bool_decide_false; done). f_equal. auto.
Qed.
Lemma without_without p q l : without p (without q l) = without (λ k, p k || q k) l.
Proof.
  unfold without. rewrite list_filter_filter. apply filter_ext_elem. intros x _.
  rewrite orb_false_iff. tauto.
Qed.
Lemma keys_without p l : NoDup (keys l) → NoDup (keys (without p l)).
Proof.
  unfold keys, without. induction l as [|e l IH]; [done|].
  rewrite fmap_cons, NoDup_cons. intros [He Hl]. rewrite filter_cons. case_decide; [|auto].
  rewrite fmap_cons, NoDup_cons. split; [|auto].
  intros (x&Hx&[_ Hin]%list_elem_of_filter)%list_elem_of_fmap. apply He, list_elem_of_fmap. by exists x.
Qed.

(** Every operation keeps the patterns distinct. *)
Lemma apply_distinct d o : NoDup (keys (m_globs d)) → NoDup (keys (m_globs (apply d o))).
Proof.
  intros Hd. destruct o as [uri slt|uri|uri slt|uri|slt]; try done; simpl;
    rewrite erase_first_without by done; [|by apply keys_without].
  unfold keys. rewrite fmap_app, NoDup_app. split_and!; [by apply keys_without| |apply NoDup_singleton].
  intros p (e&->&[He _]%list_elem_of_filter)%list_elem_of_fmap. intros Hp%list_elem_of_singleton.
  simpl in Hp. apply bool_decide_eq_false in He. congruence.
Qed.

Lemma globs_after h d :
  NoDup (keys (m_globs d)) → m_globs (foldl apply d h) = without (touched h) (m_globs d) ++ live h.
Proof.
  revert d. induction h as [|o h IH]; intros d Hd; cbn [foldl].
  { rewrite app_nil_r. symmetry. by apply filter_all_elem. }
  rewrite IH by by apply apply_distinct.
  destruct o as [uri slt|uri|uri slt|uri|slt]; try done; simpl;
    rewrite erase_first_without, ?without_without by done.
  - unfold without at 1. rewrite filter_app, <-app_assoc. f_equal.
    + fold (without (touched h) (without (λ p, bool_decide (uri = p)) (m_globs d))).
      rewrite without_without. apply filter_ext_elem. intros e _. by rewrite orb_comm.
    + rewrite filter_cons, filter_nil. simpl. by destruct (touched h uri).
  - f_equal. apply filter_ext_elem. intros e _. by rewrite orb_comm.
Qed.

Lemma datas_after h d uri :
  m_datas (foldl apply d h) !! uri = foldl (exact_step uri) (m_datas d !! uri) h.
Proof.
  revert d. induction h as [|o h IH]; intros d; [done|]. cbn [foldl]. rewrite IH. f_equal.
  destruct o as [u slt|u|u slt|u|slt]; simpl; try done; case_bool_decide as E; subst.
  - by rewrite lookup_insert_eq.
  - by rewrite lookup_insert_ne.
  - by rewrite lookup_delete_eq.
  - by rewrite lookup_delete_ne.
Qed.
Lemma default_after h d : m_default (foldl apply d h) = foldl default_step (m_default d) h.
Proof.
  revert d. induction h as [|o h IH]; intros d; [done|]. cbn [foldl]. rewrite IH. by destruct o.
Qed.

(** ** The refinement *)

Section refinement.
Context `{Fnmatch}.

(** C13: whatever was registered and removed, [getMatchedServlet] is the servlet of
    the specification, [getServlet] and [getGlobServlet] are its two halves, and
    each pattern is registered at most once. *)
Theorem dispatch_refines (h : list op) (uri : string) :
  let d := after h in
  NoDup (keys (m_globs d)) ∧
  m_globs d = live h ∧
  getServlet d uri = default None (exact_of h uri) ∧
  getGlobServlet d uri = default None (first_match (live h) uri) ∧
  getMatchedServlet d uri =
    match exact_of h uri with
    | Some slt => slt
    | None => default (default_of h) (first_match (live h) uri)
    end.
Proof.
  assert (m_globs (after h) = live h) as Hg by (unfold after; by rewrite globs_after by constructor).
  assert (m_datas (after h) !! uri = exact_of h uri) as Hd by apply datas_after.
  assert (NoDup (keys (m_globs (after h)))) as Hn.
  { assert (∀ d, NoDup (keys (m_globs d)) → NoDup (keys (m_globs (foldl apply d h)))) as Ha.
    { clear. induction h as [|o h IH]; intros d Hd; [done|]. by apply IH, apply_distinct. }
    apply Ha. constructor. }
  unfold getServlet, getGlobServlet, getMatchedServlet. cbv zeta. rewrite Hd, Hg. split_and!; try done.
  - by rewrite <-Hg.
  - destruct (exact_of h uri); [done|]. f_equal. apply default_after.
Qed.
End refinement.
