(* ===== verification/HttpServer.v ===== *)
(** [HttpServer] ([sylar/http/http_server.h], [http_server.cc]): the life of one
    client connection. *)
From S2P Require Import Prelude Text Http Http11Parser HttpRequestParser Stream HttpReceive HttpSession Servlet.

Local Open Scope Z_scope.

Record HttpServer := mkHttpServer {
  m_isKeepalive : bool;
  m_dispatch : ServletDispatch;
}.
(** [HttpServer::HttpServer] *)
Definition HttpServer_new (keepalive : bool) : HttpServer := mkHttpServer keepalive ServletDispatch_new.
Definition setServletDispatch (v : ServletDispatch) (s : HttpServer) : HttpServer :=
  mkHttpServer (m_isKeepalive s) v.

(** Leaving a scope that owns the stream: the destructor closes the socket, also
    when an exception passes. *)
Definition with_owner {A} (m : M wire A) : M wire A := λ w,
  match m w with
  | Ok a w => (close;; mret a) w
  | Throw e w => (close;; throw e) w
  | Abort => Abort
  | Undef u => Undef u
  end.

Section server.
Context `{LexicalCast, Fnmatch}.
Context (h : heap) (garbage : http_parser) (sizes : Sizes).

(** One turn of the loop: whether it goes on. *)
Definition serve_one (fuel : nat) (s : HttpServer) : M wire bool :=
  req ← recvRequest h garbage sizes fuel;
  match req with
  | None => mret false
  | Some req =>
      let rsp := HttpResponse_new (m_version req) (m_close req || negb (m_isKeepalive s)) in
      '((_, req), rsp) ← ServletDispatch_handle (m_dispatch s) req rsp;
      sendResponse fuel rsp;;
      mret (negb (negb (m_isKeepalive s) || m_close req))
  end.
Fixpoint serve_loop (fuel turns : nat) (s : HttpServer) : M wire unit :=
  match turns with
  | O => undef NoFuel
  | S turns => more ← serve_one fuel s; if (more : bool) then serve_loop fuel turns s else mret tt
  end.
(** [HttpServer::handleClient] *)
Definition handleClient (fuel turns : nat) (s : HttpServer) : M wire unit :=
  with_owner (serve_loop fuel turns s;; close).
End server.
