(* ===== verification/HttpServerSpec.v ===== *)
(** The server as its client sees it: a request in, the servlet's response out. *)
From S2P Require Import Prelude Text Http HttpSpec Http11Parser HttpRequestParser HttpRequestScan Stream StreamSpec HttpReceive HttpSession HttpSessionSpec Servlet HttpServer.
From Stdlib Require Import Strings.Byte.

Local Open Scope Z_scope.

Section server.
Context {LC : LexicalCast} {FN : Fnmatch}.
Context (h : heap) (garbage : http_parser) (sizes : Sizes).

(** A request on the stream: its head and some of the body in the first piece,
    [more] behind it. *)
Record arriving (r : HttpRequest) (more : list byte) (w : wire) (fuel : nat) : Prop := {
  a_sendable : sendable r;
  a_map : map_ok (m_headers r);
  a_length : m_body r = "" → map_find (m_headers r) "content-length" = None;
  a_open : m_isConnected w = true;
  a_pieces : ∃ have rest l,
    bytes (m_body r) = have ++ rest ∧ arrivals w = Data (bytes (head_text r) ++ have) :: l ∧
    pieces_ok l ∧ incoming l = rest ++ more ∧ (length rest < fuel)%nat ∧
    Z.of_nat (length (bytes (head_text r) ++ have)) ≤ s_http_request_buffer_size sizes;
  a_buffer : s_http_request_buffer_size sizes < 2 ^ 30 ∧ s_http_request_buffer_size sizes ≤ available h;
  a_body : Z.of_nat (String.length (m_body r)) < 2 ^ 31 ∧ Z.of_nat (String.length (m_body r)) ≤ available h;
}.

Lemma sendResponse_ok fuel rsp w :
  m_isConnected w = true → takes_ok w → (String.length (response_dump rsp) ≤ fuel)%nat →
  Z.of_nat (String.length (response_dump rsp)) < 2 ^ 31 →
  ∃ l, sendResponse fuel rsp w =
      Ok (Z.of_nat (String.length (response_dump rsp)))
        (mk_wire true (arrivals w) l (sent w ++ bytes (response_dump rsp))).
Proof.
  intros Hc Ht Hf Hl. unfold sendResponse, writeFixSize.
  destruct (writeFixSize_loop_ok fuel (bytes (response_dump rsp)) 0 (Z.of_nat (length (bytes (response_dump rsp)))) w)
    as (l&E&_); try done; try (rewrite length_bytes; lia); try lia.
  step_with E. rewrite length_bytes, wraps_small by (unfold in_s; lia). exists l. done.
Qed.

(** The end of a connection closes it. *)
Lemma handleClient_closes fuel turns s w :
  match handleClient h garbage sizes fuel turns s w with
  | Ok _ w' | Throw _ w' => m_isConnected w' = false
  | _ => True
  end.
Proof. unfold handleClient, with_owner. by destruct ((serve_loop _ _ _ _ _ _;; close) w). Qed.

(** C1: the server answers a request with what the servlet of its path makes of
    it.  A request that arrives complete is handed, as it was sent, to the servlet the
    dispatcher selects for its path, with a fresh response of its version; the response
    as the servlet leaves it is written to the client; the connection goes on exactly
    when the server keeps connections and the request does not ask to close, and is
    closed otherwise. *)
Theorem server_answers (s : HttpServer) (r : HttpRequest) (more : list byte) (w : wire) (fuel turns : nat)
    (slt : Servlet) (code : Z) (req' : HttpRequest) (rsp' : HttpResponse) :
  cast_reads_numbers → arriving r more w fuel → takes_ok w →
  getMatchedServlet (m_dispatch s) (m_path r) = Some slt →
  (∀ w, handle slt (received r) (HttpResponse_new (m_version r) (m_close r || negb (m_isKeepalive s))) w =
     Ok (code, req', rsp') w) →
  (String.length (response_dump rsp') ≤ fuel)%nat → Z.of_nat (String.length (response_dump rsp')) < 2 ^ 31 →
  ∃ w', serve_one h garbage sizes fuel s w = Ok (m_isKeepalive s && negb (m_close req')) w' ∧
    m_isConnected w' = true ∧ incoming (arrivals w') = more ∧
    sent w' = sent w ++ bytes (response_dump rsp') ∧
    (m_isKeepalive s && negb (m_close req') = false →
     handleClient h garbage sizes fuel (S turns) s w =
       Ok tt (mk_wire false (arrivals w') (takes w') (sent w'))).
Proof.
  intros Hcast [Hr Hm Hl Hc (have&rest&l&Hb&Ha&Hp&Hi&Hf&Hfit) [Hs1 Hs2] [Hb1 Hb2]] Ht Hslt Hh Hrf Hrl.
  destruct (request_received_lemma h garbage sizes r have rest more w l fuel) as (l'&E&Hl'); try done.
  destruct (sendResponse_ok fuel rsp' (set_arrivals l' w) Hc Ht Hrf Hrl) as (l2&E2).
  set (w' := mk_wire true l' l2 (sent w ++ bytes (response_dump rsp'))).
  assert (serve_one h garbage sizes fuel s w = Ok (m_isKeepalive s && negb (m_close req')) w') as Eone.
  { unfold serve_one. step_with E. cbv zeta.
    assert (ServletDispatch_handle (m_dispatch s) (received r)
      (HttpResponse_new (m_version r) (m_close r || negb (m_isKeepalive s))) (set_arrivals l' w) =
      Ok (0, req', rsp') (set_arrivals l' w)) as Ed.
    { unfold ServletDispatch_handle. change (m_path (received r)) with (m_path r). rewrite Hslt. by step_with (Hh (set_arrivals l' w)). }
    change (m_version (received r)) with (m_version r). change (m_close (received r)) with (m_close r).
    step_with Ed. step_with E2. unfold mret, M_ret. f_equal. by rewrite negb_orb, negb_involutive. }
  exists w'. split_and!; try done.
  intros Hstop. unfold handleClient, with_owner.
  assert ((serve_loop h garbage sizes fuel (S turns) s;; close) w = Ok tt (mk_wire false l' l2 (sent w'))) as ->.
  { cbn [serve_loop]. rewrite bind_assoc. step_with Eone. by rewrite Hstop. }
  done.
Qed.
End server.

(** ** Witness *)

Module Demo.
Import HttpSessionSpec.Demo.
#[local] Instance demo_cast : LexicalCast := read_dec.
#[local] Instance demo_fnmatch : Fnmatch := String.eqb.
Definition demo_arriving : wire := mk_wire true (arrivals demo_wire) [7] [].
Lemma server_answers_witness :
  ∃ w', handleClient demo_heap demo_garbage default_sizes 2000 1 (HttpServer_new false) demo_arriving = Ok tt w' ∧
    m_isConnected w' = false ∧
    sent w' = bytes (response_dump
      (r_setBody RSP_BODY (r_setHeader "Content-Type" "text/html"
        (r_setHeader "Server" "custom-server/1.0.0" (r_setStatus 404 (HttpResponse_new 0x11 true)))))).
Proof.
  destruct (server_answers demo_heap demo_garbage default_sizes (HttpServer_new false) demo_request (bytes "+")
    demo_arriving 2000 0 NotFoundServlet 0 (received demo_request)
    (r_setBody RSP_BODY (r_setHeader "Content-Type" "text/html"
        (r_setHeader "Server" "custom-server/1.0.0" (r_setStatus 404 (HttpResponse_new 0x11 true))))))
    as (w'&_&_&_&Hs&Hc).
  - exact read_dec_reads.
  - split; [exact demo_sendable|repeat constructor|discriminate|reflexivity| |by split|by split].
    exists (bytes "he"), (bytes "llo"), [Data (bytes "l"); Data (bytes "lo+")].
    split_and!; [reflexivity|reflexivity| |reflexivity|vm_compute; lia|by vm_compute].
    repeat constructor; discriminate.
  - repeat constructor; lia.
  - reflexivity.
  - intros w. reflexivity.
  - vm_compute. lia.
  - vm_compute. reflexivity.
  - eexists. split; [apply Hc; reflexivity|]. split; [reflexivity|]. cbn [sent]. rewrite Hs. reflexivity.
Defined.
End Demo.
