(* ===== verification/HttpResponseParser.v ===== *)
(** [HttpResponseParser] ([sylar/http/http_parser.h], [http_parser.cc]): the
    response under construction and the callbacks that fill it. *)
From S2P Require Import Prelude Text Http HttpClientParser HttpRequestParser HttpReceive.
From Stdlib Require Import Strings.Byte.

Local Open Scope Z_scope.

Record HttpResponseParser := mkHttpResponseParser {
  rp_parser : httpclient_parser;
  rp_data : HttpResponse;
  rp_error : Z;
}.
Definition rp_setError (v : Z) (p : HttpResponseParser) : HttpResponseParser :=
  mkHttpResponseParser (rp_parser p) (rp_data p) v.
Definition rp_update_data (f : HttpResponse → HttpResponse) (p : HttpResponseParser) : HttpResponseParser :=
  mkHttpResponseParser (rp_parser p) (f (rp_data p)) (rp_error p).
(** [HttpResponseParser::HttpResponseParser], on memory that held [garbage]. *)
Definition HttpResponseParser_new (garbage : httpclient_parser) : HttpResponseParser :=
  mkHttpResponseParser (httpclient_parser_init garbage) (HttpResponse_new 0x11 true) 0.

(** ** The callbacks *)

Definition on_response_reason (buffer : list byte) (at_ length_ : Z) : M HttpResponseParser unit :=
  s ← string_at buffer at_ length_; modify (rp_update_data (r_setReason s)).
(** The number is cast to [HttpStatus] whatever it is. *)
Definition on_response_status (buffer : list byte) (at_ : Z) : M HttpResponseParser unit :=
  modify (rp_update_data (r_setStatus (atoi (text_at buffer at_)))).
Definition on_response_version (buffer : list byte) (at_ length_ : Z) : M HttpResponseParser unit :=
  match version_of buffer at_ length_ with
  | Some v => modify (rp_update_data (r_setVersion v))
  | None => modify (rp_setError 1001)
  end.
Definition on_response_http_field (buffer : list byte) (field flen value vlen : Z) : M HttpResponseParser unit :=
  if flen =? 0 then mret tt
  else
    k ← string_at buffer field flen;
    v ← string_at buffer value vlen;
    modify (rp_update_data (r_setHeader k v)).

(** The functions the constructor installs; [on_response_chunk],
    [on_response_header_done] and [on_response_last_chunk] do nothing. *)
Definition on_response_callback (buffer : list byte) (c : callback) : M HttpResponseParser unit :=
  match c with
  | ElementCb reason_phrase a n => on_response_reason buffer a n
  | ElementCb status_code a _ => on_response_status buffer a
  | ElementCb chunk_size _ _ => mret tt
  | ElementCb http_version a n => on_response_version buffer a n
  | ElementCb header_done _ _ => mret tt
  | ElementCb last_chunk _ _ => mret tt
  | FieldCb f fl v vl => on_response_http_field buffer f fl v vl
  end.
Fixpoint on_response_callbacks (buffer : list byte) (l : list callback) : M HttpResponseParser unit :=
  match l with
  | [] => mret tt
  | c :: l => on_response_callback buffer c;; on_response_callbacks buffer l
  end.

(** [HttpResponseParser::execute(data, len, chunck)].  When the scanner answers
    -1, the pointer handed to [memmove] is in front of the buffer. *)
Definition rp_execute (chunck : bool) (data : list byte) (len : Z) : M HttpResponseParser (Z * list byte) :=
  p ← get;
  let parser := if chunck then httpclient_parser_init (rp_parser p) else rp_parser p in
  '((offset, cbs), parser) ← on parser (httpclient_parser_execute (take (Z.to_nat len) data));
  modify (λ p, mkHttpResponseParser parser (rp_data p) (rp_error p));;
  on_response_callbacks data cbs;;
  if offset <? 0 then undef OutOfBounds
  else mret (offset, memmove_front offset len data).
(** [HttpResponseParser::isFinished] *)
Definition rp_isFinished (p : HttpResponseParser) : Z := httpclient_parser_finish (rp_parser p).
(** [HttpResponseParser::hasError] *)
Definition rp_hasError (p : HttpResponseParser) : bool :=
  negb (rp_error p =? 0) || httpclient_parser_has_error (rp_parser p).
(** [HttpResponseParser::getContentLength] *)
Definition rp_getContentLength `{LexicalCast} (p : HttpResponseParser) : Z :=
  getAs lexical_cast_u64 (r_headers (rp_data p)) "content-length" 0.

#[export] Instance HttpResponseParser_message : MessageParser HttpResponseParser := {
  mp_execute := rp_execute false;
  mp_hasError := rp_hasError;
  mp_isFinished := rp_isFinished;
  mp_terminated := true;
}.
