(* ===== verification/HttpResponseScan.v ===== *)
(** The response parser reads what [HttpResponse::dump] and other servers write:
    each part of a head, run through the generated scanner, has the effect of its
    callback.

    The scanner follows the special headers (connection, content-length,
    transfer-encoding) beside the general rule for a header line, so its states
    come in sets that differ only in what they may still recognise, and jumps in
    actions that set [content_len] and [close], which nothing here reads. *)
From S2P Require Import Prelude Ragel HttpClientStates HttpClientParser Text Http HttpRequestParser HttpRequestScan HttpResponseParser.
From Stdlib Require Import Strings.Byte.
From coqutil Require Import Byte.

Local Open Scope Z_scope.

(** ** Runs up to ignored actions *)

Definition ignored (a : client_action) : bool :=
  match a with RWriteContentLen | RWriteConnectionClose => true | _ => false end.
Definition essential (l : list (client_action * Z)) : list (client_action * Z) :=
  filter (λ e, ignored e.1 = false) l.
Lemma essential_app l1 l2 : essential (l1 ++ l2) = essential l1 ++ essential l2.
Proof. apply filter_app. Qed.

(** From each state of [S] at position [p] the text [seg] leads into [T], running
    the actions [tr] beside ignored ones. *)
Definition heads (S : list Z) (p : Z) (seg : list byte) (tr : list (client_action * Z)) (T : list Z) : Prop :=
  ∀ c rest, c ∈ S → ∃ l d, d ∈ T ∧ essential l = tr ∧
    run rsp_table c p (seg ++ rest) = prepend l (run rsp_table d (p + Z.of_nat (length seg)) rest).

Lemma heads_nil S p : heads S p [] [] S.
Proof. intros c rest Hc. exists [], c. split_and!; [done|done|]. by rewrite Z.add_0_r, prepend_nil. Qed.
Lemma heads_app S p s1 t1 T s2 t2 U :
  heads S p s1 t1 T → heads T (p + Z.of_nat (length s1)) s2 t2 U → heads S p (s1 ++ s2) (t1 ++ t2) U.
Proof.
  intros H1 H2 c rest Hc. destruct (H1 c (s2 ++ rest) Hc) as (l1&d1&Hd1&E1&R1).
  destruct (H2 d1 rest Hd1) as (l2&d2&Hd2&E2&R2). exists (l1 ++ l2), d2. split_and!; [done| |].
  - by rewrite essential_app, E1, E2.
  - rewrite <-app_assoc, R1, R2, prepend_app. do 2 f_equal. rewrite length_app. lia.
Qed.
Lemma heads_cons S p b t1 T s2 t2 U :
  heads S p [b] t1 T → heads T (p + 1) s2 t2 U → heads S p (b :: s2) (t1 ++ t2) U.
Proof. intros H1 H2. by apply (heads_app S p [b] t1 T). Qed.

(** A class of characters, checked by evaluation. *)
Definition steps (S : list Z) (f : byte → bool) (acts_ : list client_action) (T : list Z) : bool :=
  forallb (λ s, negb (s =? 0) &&
    forallb (λ b, implb (f b)
      (let j := rsp_table s (schar b) in
       bool_decide (filter (λ a, ignored a = false) (acts j) = acts_) && negb (leave j)
       && negb (dest j =? 0) && bool_decide (dest j ∈ T))) all_bytes) S.
Lemma essential_at l (p : Z) :
  essential ((λ a, (a, p)) <$> l) = (λ a, (a, p)) <$> filter (λ a, ignored a = false) l.
Proof.
  unfold essential. induction l as [|a l IH]; [done|]. cbn [fmap list_fmap]. rewrite !filter_cons. cbn [fst].
  destruct (decide _); [cbn [fmap list_fmap]; by rewrite IH|exact IH].
Qed.
Lemma steps_spec S f l T s b :
  steps S f l T = true → s ∈ S → f b = true →
  s ≠ 0 ∧ filter (λ a, ignored a = false) (acts (rsp_table s (schar b))) = l ∧
  leave (rsp_table s (schar b)) = false ∧ dest (rsp_table s (schar b)) ≠ 0 ∧ dest (rsp_table s (schar b)) ∈ T.
Proof.
  unfold steps. rewrite forallb_forall. intros H Hs Hb.
  specialize (H s (proj1 (list_elem_of_In _ _) Hs)). apply andb_true_iff in H as [H0 H].
  apply negb_true_iff, Z.eqb_neq in H0.
  apply (all_bytes_spec _) with (b := b) in H. rewrite Hb in H. cbn [implb] in H. cbv zeta in H.
  rewrite !andb_true_iff, !bool_decide_eq_true, !negb_true_iff, Z.eqb_neq in H. tauto.
Qed.
Lemma heads_char S f l T p b : steps S f l T = true → f b = true → heads S p [b] ((λ a, (a, p)) <$> l) T.
Proof.
  intros H Hb c rest Hc. destruct (steps_spec _ _ _ _ c b H Hc Hb) as (H0&E&Hl&Hd&HT).
  exists ((λ a, (a, p)) <$> acts (rsp_table c (schar b))), (dest (rsp_table c (schar b))).
  split_and!; [done|by rewrite essential_at, E|]. cbn [app length]. by rewrite run_step.
Qed.
Lemma heads_while S f p l : steps S f [] S = true → forallb f l = true → heads S p l [] S.
Proof.
  intros H. revert p. induction l as [|b l IH]; intros p Hl; [apply heads_nil|].
  cbn [forallb] in Hl. apply andb_true_iff in Hl as [Hb Hl].
  apply (heads_cons S p b [] S l [] S); [by apply (heads_char S f [] S)|by apply IH].
Qed.
Lemma heads_weaken S p seg tr T T' : heads S p seg tr T → (∀ d, d ∈ T → d ∈ T') → heads S p seg tr T'.
Proof. intros H HT c rest Hc. destruct (H c rest Hc) as (l&d&Hd&?). exists l, d. auto. Qed.
Lemma heads_from S S' p seg tr T : heads S p seg tr T → (∀ c, c ∈ S' → c ∈ S) → heads S' p seg tr T.
Proof. intros H HS c rest Hc. auto. Qed.

(** ** The states of a header line *)

(** At the start of a line; behind a carriage return; in front of a value; in a value. *)
Definition at_line : list Z := [20; 43].
Definition at_lf : list Z := [24; 88].
Definition before_value : list Z := [22; 35; 112].
Definition in_value : list Z := [23; 96; 97; 98; 99; 100; 119].
(** In a name: 21 in general; 25 to 34 and 101 to 111 along "connection" and
    "content-length"; 44 to 60 along "transfer-encoding". *)
Definition in_name : list Z := Z.of_nat <$> (seq 21 1 ++ seq 25 10 ++ seq 101 11 ++ seq 44 17).
Definition transfer_encoding : string := "transfer-encoding".
Definition lower (b : byte) : Z :=
  let n := byte.unsigned b in if (65 <=? n) && (n <=? 90) then n + 32 else n.
Definition te_codes : list Z := (λ b, byte.unsigned b) <$> bytes transfer_encoding.

Lemma rsp_name_enter : steps at_line token_char [RStartField] in_name = true.
Proof. table_check. Qed.
Lemma rsp_name_loop : steps in_name token_char [] in_name = true.
Proof. table_check. Qed.
(** The chain of "transfer-encoding" is entered and followed in its order. *)
Lemma chain_enter : forallb (λ s, forallb (λ b, implb (token_char b) (
    let d := dest (rsp_table s (schar b)) in
    implb ((44 <=? d) && (d <=? 60)) ((d =? 44) && bool_decide (lower b = 116)))) all_bytes) at_line = true.
Proof. table_check. Qed.
Lemma chain_loop : forallb (λ s, forallb (λ b, implb (token_char b) (
    let d := dest (rsp_table s (schar b)) in
    implb ((44 <=? d) && (d <=? 60))
      ((s =? d - 1) && bool_decide (te_codes !! Z.to_nat (d - 44) = Some (lower b))))) all_bytes) in_name = true.
Proof. table_check. Qed.
Lemma name_colon : steps (filter (λ s, s ≠ 60) in_name) (is_byte ":"%byte) [RWriteField] before_value = true.
Proof. table_check. Qed.
Lemma value_space : steps before_value (is_byte " "%byte) [RStartValue] before_value = true.
Proof. table_check. Qed.
Lemma rsp_value_enter : steps before_value value_start [RStartValue] in_value = true.
Proof. table_check. Qed.
Lemma rsp_value_loop : steps in_value value_char [] in_value = true.
Proof. table_check. Qed.
Lemma value_cr : steps in_value (is_byte x0d) [RWriteValue] at_lf = true.
Proof. table_check. Qed.
Lemma line_lf : steps at_lf (is_byte x0a) [] at_line = true.
Proof. table_check. Qed.

(** ** A header line *)

Lemma checked (T : list Z) (f : byte → bool) (Q : Z → byte → bool) s b :
  forallb (λ s, forallb (λ b, implb (f b) (Q s b)) all_bytes) T = true → s ∈ T → f b = true → Q s b = true.
Proof.
  rewrite forallb_forall. intros H Hs Hb. specialize (H s (proj1 (list_elem_of_In _ _) Hs)).
  apply (all_bytes_spec _) with (b := b) in H. by rewrite Hb in H.
Qed.

(** Inside a name, with what the chain has seen. *)
Lemma run_name s l p rest :
  s ∈ in_name → forallb token_char l = true →
  ∃ tr d, d ∈ in_name ∧ essential tr = [] ∧
    run rsp_table s p (l ++ rest) = prepend tr (run rsp_table d (p + Z.of_nat (length l)) rest) ∧
    (44 ≤ d ≤ 60 → 44 ≤ s ∧ d - s = Z.of_nat (length l) ∧
       lower <$> l = take (length l) (drop (Z.to_nat (s - 43)) te_codes)).
Proof.
  revert s p. induction l as [|b l IH]; intros s p Hs Hl.
  { exists [], s. split_and!; [done|done|by rewrite Z.add_0_r, prepend_nil|].
    intros. rewrite take_0. split_and!; [lia|simpl; lia|done]. }
  cbn [forallb] in Hl. apply andb_true_iff in Hl as [Hb Hl].
  destruct (steps_spec _ _ _ _ s b rsp_name_loop Hs Hb) as (H0&E&Hlv&Hd0&HT).
  pose proof (checked _ _ _ s b chain_loop Hs Hb) as Hc. cbv zeta beta in Hc.
  set (d1 := dest (rsp_table s (schar b))) in *.
  destruct (IH d1 (p + 1) HT Hl) as (tr&d&Hd&Htr&R&Hch).
  exists (((λ a, (a, p)) <$> acts (rsp_table s (schar b))) ++ tr), d. split_and!.
  - done.
  - by rewrite essential_app, essential_at, E, Htr.
  - cbn [app]. rewrite run_step by done. fold d1. rewrite R, prepend_app. do 2 f_equal. simpl. lia.
  - intros Hd'. destruct (Hch Hd') as (H1&H2&H3).
    rewrite (proj2 (Z.leb_le 44 d1)), (proj2 (Z.leb_le d1 60)) in Hc by lia. cbn [andb implb] in Hc.
    apply andb_true_iff in Hc as [Hs1%Z.eqb_eq Hlk%bool_decide_eq_true].
    assert (44 ≤ s) as Hs44.
    { destruct (decide (44 ≤ s)); [done|]. exfalso. assert (s = 43) as -> by lia.
      assert (bool_decide (43 ∈ in_name) = false) as H43 by (vm_compute; reflexivity).
      by apply bool_decide_eq_false in H43. }
    split_and!; [done|cbn [length]; lia|]. cbn [fmap list_fmap length].
    replace (Z.to_nat (d1 - 44)) with (Z.to_nat (s - 43)) in Hlk by lia.
    rewrite (drop_S _ (lower b) _ Hlk). cbn [take]. f_equal. rewrite H3. do 2 f_equal. lia.
Qed.
(** A name other than "transfer-encoding". *)
Definition other_name (k : list byte) : Prop := lower <$> k ≠ te_codes.
Lemma heads_name p k :
  name_ok k → other_name k → heads at_line p k [(RStartField, p)] (filter (λ s, s ≠ 60) in_name).
Proof.
  intros [Hne Hk] Hte c rest Hc. destruct k as [|b l]; [done|].
  cbn [forallb] in Hk. apply andb_true_iff in Hk as [Hb Hl].
  destruct (steps_spec _ _ _ _ c b rsp_name_enter Hc Hb) as (H0&E&Hlv&Hd0&HT).
  pose proof (checked _ _ _ c b chain_enter Hc Hb) as Hch. cbv zeta beta in Hch.
  destruct (run_name _ l (p + 1) rest HT Hl) as (tr&d&Hd&Htr&R&Hch2).
  exists (((λ a, (a, p)) <$> acts (rsp_table c (schar b))) ++ tr), d. split_and!.
  - apply list_elem_of_filter. split; [|done]. intros ->. apply Hte. destruct (Hch2 ltac:(lia)) as (H1&H2&H3).
    rewrite (proj2 (Z.leb_le 44 _)), (proj2 (Z.leb_le _ 60)) in Hch by lia. cbn [andb implb] in Hch.
    apply andb_true_iff in Hch as [Hs1%Z.eqb_eq Hlk%bool_decide_eq_true]. rewrite Hs1 in H2, H3.
    cbn [fmap list_fmap]. rewrite H3, Hlk. assert (length l = 16%nat) as -> by lia. vm_compute. done.
  - by rewrite essential_app, essential_at, E, Htr.
  - cbn [app]. rewrite run_step, R, prepend_app by done. do 2 f_equal. simpl. lia.
Qed.

(** A value that is not empty. *)
Definition full_value (v : list byte) : Prop := v ≠ [] ∧ value_ok v.
Definition line_trace (p : Z) (k sp v : list byte) : list (client_action * Z) :=
  let pv := p + Z.of_nat (length k) + 1 + Z.of_nat (length sp) in
  [(RStartField, p); (RWriteField, p + Z.of_nat (length k))]
  ++ ((λ _, (RStartValue, p + Z.of_nat (length k) + 1)) <$> sp)
  ++ [(RStartValue, pv); (RWriteValue, pv + Z.of_nat (length v))].
Lemma heads_value p v :
  full_value v →
  heads before_value p (v ++ crlf) [(RStartValue, p); (RWriteValue, p + Z.of_nat (length v))] at_line.
Proof.
  intros [Hne Hv]. destruct v as [|x v]; [done|]. destruct Hv as [Hx Hv]. change crlf with [x0d; x0a].
  change [(RStartValue, p); (RWriteValue, p + Z.of_nat (length (x :: v)))]
    with ([(RStartValue, p)] ++ [] ++ [(RWriteValue, p + Z.of_nat (length (x :: v)))] ++ []).
  cbn [app]. apply (heads_cons _ _ _ _ _ _ _ _ (heads_char _ _ _ _ p x rsp_value_enter Hx)).
  apply (heads_app _ _ v [] in_value [x0d; x0a] [_] at_line); [by apply (heads_while _ value_char), Hv; apply rsp_value_loop|].
  replace (p + 1 + Z.of_nat (length v)) with (p + Z.of_nat (length (x :: v))) by (simpl; lia).
  set (q := p + Z.of_nat (length (x :: v))).
  apply (heads_cons in_value q x0d [(RWriteValue, q)] at_lf [x0a] [] at_line).
  - apply (heads_char _ _ _ _ _ x0d value_cr (is_byte_refl _)).
  - apply (heads_char _ _ _ _ _ x0a line_lf (is_byte_refl _)).
Qed.
Lemma heads_line p k sp v :
  name_ok k → other_name k → space_ok sp → full_value v →
  heads at_line p (line_text k sp v) (line_trace p k sp v) at_line.
Proof.
  intros Hk Ho Hsp Hv. unfold line_text, line_trace. cbv zeta.
  apply (heads_app _ _ k [(RStartField, p)] (filter (λ s, s ≠ 60) in_name) _
    ((RWriteField, p + Z.of_nat (length k)) :: ((λ _, (RStartValue, p + Z.of_nat (length k) + 1)) <$> sp) ++ _));
    [by apply heads_name|].
  apply (heads_cons _ _ ":"%byte [(RWriteField, p + Z.of_nat (length k))] before_value _ _ _ (heads_char _ _ _ _ _ _ name_colon (is_byte_refl _))).
  apply (heads_app _ _ sp _ before_value (v ++ crlf)).
  - destruct Hsp as [-> | ->]; [apply heads_nil|]. apply (heads_char _ _ _ _ _ _ value_space (is_byte_refl _)).
  - by apply heads_value.
Qed.

(** ** Effects *)

(** Registers equal in what the callbacks and the loop around the scanner use. *)
Definition similar (s t : httpclient_parser) : Prop :=
  mark s = mark t ∧ field_start s = field_start t ∧ field_len s = field_len t ∧ chunked s = chunked t.
Lemma essential_effect text l s t :
  similar s t →
  (do_actions text l s).2 = (do_actions text (essential l) t).2 ∧
  similar (do_actions text l s).1 (do_actions text (essential l) t).1.
Proof.
  revert s t. induction l as [|[a p] l IH]; intros s t Hs; [done|].
  unfold essential. rewrite filter_cons. cbn [fst]. fold (essential l).
  assert (ignored a = true → similar (do_action text a p s).1 t ∧ (do_action text a p s).2 = []) as Hi
    by (destruct a; [done..|]; done).
  assert (similar (do_action text a p s).1 (do_action text a p t).1 ∧
          (do_action text a p s).2 = (do_action text a p t).2) as Hd.
  { destruct Hs as (Hm&Hf&Hl&Hc), s, t. simpl in *. subst. by destruct a. }
  cbn [do_actions]. destruct (do_action text a p s) as [s1 c1]. destruct (decide (ignored a = false)) as [Ea|Ea].
  - cbn [do_actions]. destruct (do_action text a p t) as [t1 d1]. destruct Hd as [Hd Ec]. simpl in Hd, Ec. subst d1.
    destruct (IH _ _ Hd) as [E1 E2]. destruct (do_actions text l s1), (do_actions text (essential l) t1).
    simpl in *. by rewrite E1.
  - apply not_false_is_true in Ea. destruct (Hi Ea) as [Hd' Hc]. simpl in Hd', Hc. subst c1.
    destruct (IH _ _ Hd') as [E1 E2]. destruct (do_actions text l s1). done.
Qed.
Lemma rsp_actions_app text l1 l2 s :
  do_actions text (l1 ++ l2) s =
    let '(s1, c1) := do_actions text l1 s in let '(s2, c2) := do_actions text l2 s1 in (s2, c1 ++ c2).
Proof.
  revert s. induction l1 as [|[a p] l1 IH]; intros s; simpl; [by destruct (do_actions text l2 s)|].
  destruct (do_action text a p s) as [s1 c1]. rewrite IH.
  destruct (do_actions text l1 s1) as [s2 c2]. destruct (do_actions text l2 s2) as [s3 c3].
  by rewrite app_assoc.
Qed.
Lemma on_response_callbacks_app buffer l1 l2 P P1 :
  on_response_callbacks buffer l1 P = Ok tt P1 →
  on_response_callbacks buffer (l1 ++ l2) P = on_response_callbacks buffer l2 P1.
Proof.
  revert P. induction l1 as [|c l1 IH]; intros P; simpl; [by intros [= ->]|].
  intros ([]&P2&E&E2)%bind_inv. step_with E. auto.
Qed.

(** The registers at position [n]. *)
Definition bounded (n : nat) (s : httpclient_parser) : Prop :=
  0 ≤ mark s ≤ Z.of_nat n ∧ 0 ≤ field_start s ≤ Z.of_nat n ∧ 0 ≤ field_len s ≤ Z.of_nat n.

(** Running [tr] behind [pre] over [seg] changes the response by [f]; [tc] says
    whether the body is announced as chunked. *)
Definition effect (tr : list (client_action * Z)) (pre seg : list byte) (tc : bool) (f : HttpResponse → HttpResponse) : Prop :=
  ∀ text buffer s P, bounded (length pre) s → pre ++ seg `prefix_of` buffer → Z.of_nat (length buffer) < 2 ^ 63 →
    let '(s', cbs) := do_actions text tr s in
    bounded (length (pre ++ seg)) s' ∧ chunked s' = chunked s || tc ∧
    on_response_callbacks buffer cbs P = Ok tt (rp_update_data f P).
Definition advances (S : list Z) (pre seg : list byte) (tc : bool) (f : HttpResponse → HttpResponse) (T : list Z) : Prop :=
  ∀ c rest, c ∈ S → ∃ tr d, d ∈ T ∧
    run rsp_table c (Z.of_nat (length pre)) (seg ++ rest) =
      prepend tr (run rsp_table d (Z.of_nat (length (pre ++ seg))) rest) ∧
    effect tr pre seg tc f.

Lemma advances_app S pre s1 s2 t1 t2 f1 f2 T U :
  advances S pre s1 t1 f1 T → advances T (pre ++ s1) s2 t2 f2 U →
  advances S pre (s1 ++ s2) (t1 || t2) (λ r, f2 (f1 r)) U.
Proof.
  intros H1 H2 c rest Hc. destruct (H1 c (s2 ++ rest) Hc) as (tr1&d1&Hd1&E1&K1).
  destruct (H2 d1 rest Hd1) as (tr2&d2&Hd2&E2&K2). exists (tr1 ++ tr2), d2. split_and!; [done| |].
  - by rewrite <-app_assoc, E1, E2, prepend_app, <-!app_assoc.
  - intros text buffer s P Hq Hb Hl. rewrite rsp_actions_app.
    assert (pre ++ s1 `prefix_of` buffer) as Hb1.
    { etrans; [|exact Hb]. rewrite app_assoc. by apply prefix_app_r. }
    specialize (K1 text buffer s P Hq Hb1 Hl). destruct (do_actions text tr1 s) as [st1 b1].
    destruct K1 as (Hq1&Hc1&C1). rewrite app_assoc in Hb.
    specialize (K2 text buffer st1 (rp_update_data f1 P) Hq1 Hb Hl).
    destruct (do_actions text tr2 st1) as [st2 b2]. destruct K2 as (Hq2&Hc2&C2). rewrite app_assoc.
    split_and!; [done|by rewrite Hc2, Hc1, orb_assoc|]. by rewrite (on_response_callbacks_app _ _ _ _ _ C1).
Qed.
Lemma advances_nil S pre : advances S pre [] false (λ r, r) S.
Proof.
  intros c rest Hc. exists [], c. split_and!; [done|by rewrite app_nil_r, prepend_nil|].
  intros text buffer s [] Hq Hb Hl. simpl. rewrite app_nil_r, orb_false_r. done.
Qed.
Lemma advances_heads S pre seg tr tc f T :
  heads S (Z.of_nat (length pre)) seg tr T → effect tr pre seg tc f → advances S pre seg tc f T.
Proof.
  intros H K c rest Hc. destruct (H c rest Hc) as (l&d&Hd&E&R). exists l, d. split_and!; [done| |].
  - by rewrite R, length_app, Nat2Z.inj_add.
  - intros text buffer s P Hq Hb Hl. specialize (K text buffer s P Hq Hb Hl).
    destruct (essential_effect text l s s) as [E1 E2]; [done|]. rewrite E in *.
    destruct (do_actions text l s) as [s1 c1], (do_actions text tr s) as [s2 c2]. simpl in *. subst c2.
    destruct E2 as (Hm&Hf&Hn&Hch). destruct K as ((B1&B2&B3)&K2&K3).
    split_and!; [by unfold bounded; rewrite Hm, Hf, Hn|congruence|done].
Qed.

(** A header line sets the header. *)
Lemma effect_line pre k sp v :
  k ≠ [] → space_ok sp →
  effect (line_trace (Z.of_nat (length pre)) k sp v) pre (line_text k sp v) false (r_setHeader (str k) (str v)).
Proof.
  intros Hk Hsp text buffer s P Hq Hb Hl.
  set (p := Z.of_nat (length pre)). set (pv := p + Z.of_nat (length k) + 1 + Z.of_nat (length sp)).
  assert (do_actions text (line_trace p k sp v) s =
    (set_mark pv (set_field_len (LEN p (p + Z.of_nat (length k))) (set_field_start p s)),
     [FieldCb p (LEN p (p + Z.of_nat (length k))) pv (LEN pv (pv + Z.of_nat (length v)))])) as ->
    by (destruct Hsp as [-> | ->]; done).
  pose proof (prefix_length _ _ Hb) as Hle. rewrite length_app in Hle. unfold line_text in Hle.
  rewrite length_app in Hle. cbn [length] in Hle. rewrite !length_app in Hle.
  assert (LEN p (p + Z.of_nat (length k)) = Z.of_nat (length k)) as ->
    by (unfold LEN, p; rewrite wrapu_small; unfold in_u; lia).
  assert (LEN pv (pv + Z.of_nat (length v)) = Z.of_nat (length v)) as ->
    by (unfold LEN, pv, p; rewrite wrapu_small; unfold in_u; lia).
  split_and!.
  - unfold bounded, line_text, pv, p. rewrite !length_app. cbn [length]. rewrite !length_app. simpl. lia.
  - by rewrite orb_false_r.
  - cbn [on_response_callbacks on_response_callback]. unfold on_response_http_field.
    rewrite (proj2 (Z.eqb_neq _ 0)) by (destruct k; [done|simpl; lia]). rewrite !bind_assoc.
    step_with (string_at_mid pre k (":"%byte :: sp ++ v ++ crlf) buffer P Hb Hl). rewrite bind_assoc.
    replace pv with (Z.of_nat (length (pre ++ k ++ ":"%byte :: sp)))
      by (unfold pv, p; rewrite !length_app; simpl; lia).
    assert ((pre ++ k ++ ":"%byte :: sp) ++ v ++ crlf `prefix_of` buffer) as Hb2
      by (unfold line_text in Hb; by rewrite <-!app_assoc).
    by step_with (string_at_mid (pre ++ k ++ ":"%byte :: sp) v crlf buffer P Hb2 Hl).
Qed.

Lemma advances_line pre k sp v :
  name_ok k → other_name k → space_ok sp → full_value v →
  advances at_line pre (line_text k sp v) false (r_setHeader (str k) (str v)) at_line.
Proof.
  intros Hk Ho Hsp Hv. eapply advances_heads; [by apply heads_line|]. apply effect_line; [apply Hk|done].
Qed.

(** ** The header that announces chunks *)

(** A word recognised letter by letter in either case: the codes of its letters
    and the states they lead to. *)
Definition is_letter (code : Z) (b : byte) : bool := lower b =? code.
Fixpoint word (s : Z) (l : list (Z * Z)) : bool :=
  match l with [] => true | e :: l => steps [s] (is_letter e.1) [] [e.2] && word e.2 l end.
Lemma heads_word l s p k :
  word s l = true → lower <$> k = l.*1 → heads [s] p k [] [List.last (l.*2) s].
Proof.
  revert s p k. induction l as [|[code d] l IH]; intros s p [|b k] Hw; try done; [intros; apply heads_nil|].
  cbn [word fmap list_fmap fst snd] in *. apply andb_true_iff in Hw as [H1 Hw]. intros [= Hb Hk].
  replace (List.last (d :: l.*2) s) with (List.last (l.*2) d) by (destruct (l.*2) eqn:E; [done|]; clear; revert s z d;
    induction l0 as [|? l0 IH]; intros; [done|apply IH]).
  apply (heads_cons [s] p b [] [d] k []); [|by apply IH].
  apply (heads_char _ _ _ _ _ _ H1). unfold is_letter. by apply Z.eqb_eq.
Qed.
Definition chunked_codes : list Z := (λ b, byte.unsigned b) <$> bytes "chunked".
Definition te_word : list (Z * Z) := zip (drop 1 te_codes) (Z.of_nat <$> seq 45 16).
Definition chunked_word : list (Z * Z) := zip (drop 1 chunked_codes) (Z.of_nat <$> seq 82 6).
Lemma te_first : steps at_line (is_letter 116) [RStartField] [44] = true.
Proof. table_check. Qed.
Lemma te_word_ok : word 44 te_word = true.
Proof. table_check. Qed.
Lemma te_colon : steps [60] (is_byte ":"%byte) [RWriteField] [61] = true.
Proof. table_check. Qed.
Lemma te_space : steps [61] (is_byte " "%byte) [RStartValue] [61] = true.
Proof. table_check. Qed.
Lemma chunked_first : steps [61] (is_letter 99) [RStartValue] [81] = true.
Proof. table_check. Qed.
Lemma chunked_word_ok : word 81 chunked_word = true.
Proof. table_check. Qed.
Lemma chunked_cr : steps [87] (is_byte x0d) [RWriteValue] [71] = true.
Proof. table_check. Qed.
Lemma chunked_lf : steps [71] (is_byte x0a) [RTransChunked] at_line = true.
Proof. table_check. Qed.

Definition chunked_line (k v : list byte) : Prop := lower <$> k = te_codes ∧ lower <$> v = chunked_codes.
Lemma heads_letters S a s l p x k :
  steps S (is_letter a.1) a.2 [s] = true → word s l = true → lower <$> (x :: k) = a.1 :: l.*1 →
  heads S p (x :: k) ((λ a, (a, p)) <$> a.2) [List.last (l.*2) s].
Proof.
  intros H1 H2 [= Hx Hk]. rewrite <-(app_nil_r (_ <$> a.2)).
  apply (heads_cons S p x _ [s] k []); [|by apply heads_word].
  apply (heads_char _ _ _ _ _ _ H1). unfold is_letter. by apply Z.eqb_eq.
Qed.
Lemma heads_chunked_line p k sp v :
  chunked_line k v → space_ok sp →
  heads at_line p (line_text k sp v)
    (line_trace p k sp v ++ [(RTransChunked, p + Z.of_nat (length k) + 1 + Z.of_nat (length sp) + Z.of_nat (length v) + 1)])
    at_line.
Proof.
  intros [Hk Hv] Hsp. unfold line_text, line_trace. cbv zeta.
  destruct k as [|x k]; [by vm_compute in Hk|]. destruct v as [|y v]; [by vm_compute in Hv|].
  pose proof (heads_letters at_line (116, [RStartField]) 44 te_word p x k te_first te_word_ok Hk) as Gk.
  rewrite <-!app_assoc. cbn [fst snd fmap list_fmap app] in Gk.
  change [(?a, ?b); ?c] with ([(a, b)] ++ [c]).
  apply (heads_app _ _ (x :: k) [(RStartField, p)] [60] _ ((RWriteField, p + Z.of_nat (length (x :: k))) :: _)); [exact Gk|].
  set (p1 := p + Z.of_nat (length (x :: k))).
  apply (heads_cons [60] p1 ":"%byte [(RWriteField, p1)] [61] _ _ at_line (heads_char _ _ _ _ _ _ te_colon (is_byte_refl _))).
  apply (heads_app _ _ sp _ [61] ((y :: v) ++ crlf)).
  { destruct Hsp as [-> | ->]; [apply heads_nil|]. apply (heads_char _ _ _ _ _ _ te_space (is_byte_refl _)). }
  set (p2 := p1 + 1 + Z.of_nat (length sp)).
  pose proof (heads_letters [61] (99, [RStartValue]) 81 chunked_word p2 y v chunked_first chunked_word_ok Hv) as Gv.
  apply (heads_app _ _ (y :: v) [(RStartValue, p2)] [87] crlf [_; _]); [exact Gv|].
  set (p3 := p2 + Z.of_nat (length (y :: v))). change crlf with [x0d; x0a].
  apply (heads_cons [87] p3 x0d [(RWriteValue, p3)] [71] [x0a] [_] at_line (heads_char _ _ _ _ _ _ chunked_cr (is_byte_refl _))).
  apply (heads_char _ _ _ _ _ _ chunked_lf (is_byte_refl _)).
Qed.
Lemma advances_chunked_line pre k sp v :
  chunked_line k v → space_ok sp →
  advances at_line pre (line_text k sp v) true (r_setHeader (str k) (str v)) at_line.
Proof.
  intros Hk Hsp. eapply advances_heads; [by apply heads_chunked_line|]. intros text buffer s P Hq Hb Hl.
  assert (k ≠ []) as Hne by (destruct k; [by destruct Hk|done]).
  pose proof (effect_line pre k sp v Hne Hsp text buffer s P Hq Hb Hl) as He.
  rewrite rsp_actions_app. destruct (do_actions text (line_trace _ k sp v) s) as [s1 c1].
  destruct He as (B&_&C). cbn [do_actions do_action]. rewrite app_nil_r. split_and!; [done| |done].
  by rewrite orb_true_r.
Qed.

(** ** The lines of a head *)

Definition plain_line (e : list byte * list byte * list byte) : Prop :=
  name_ok e.1.1 ∧ other_name e.1.1 ∧ full_value e.2.
Definition line_ok (e : list byte * list byte * list byte) : Prop :=
  space_ok e.1.2 ∧ (plain_line e ∨ chunked_line e.1.1 e.2).
Definition announces (e : list byte * list byte * list byte) : bool := bool_decide (lower <$> e.1.1 = te_codes).
Definition apply_lines (l : list (list byte * list byte * list byte)) (r : HttpResponse) : HttpResponse :=
  foldl (λ r e, r_setHeader (str e.1.1) (str e.2) r) r l.
Lemma advances_lines pre l :
  Forall line_ok l → advances at_line pre (lines_text l) (existsb announces l) (apply_lines l) at_line.
Proof.
  intros Hl. revert pre. induction Hl as [|[[k sp] v] l [Hsp Hk] Hl IH]; intros pre; [apply advances_nil|].
  change (lines_text ((k, sp, v) :: l)) with (line_text k sp v ++ lines_text l).
  change (apply_lines ((k, sp, v) :: l)) with (λ r, apply_lines l (r_setHeader (str k) (str v) r)).
  cbn [existsb]. eapply advances_app; [|apply IH]. unfold announces. cbn [fst snd] in *. destruct Hk as [(Hk&Ho&Hv)|Hc].
  - rewrite bool_decide_false by done. by apply advances_line.
  - rewrite bool_decide_true by apply Hc. by apply advances_chunked_line.
Qed.

(** The empty line ends the run. *)
Lemma line_end_cr : steps at_line (is_byte x0d) [] [3] = true.
Proof. table_check. Qed.
Lemma rsp_run_end p c rest :
  c ∈ at_line →
  ∃ tr, essential tr = [] ∧
    run rsp_table c p (crlf ++ rest) = mkoutcome (tr ++ [(RDone, p + 1)]) 120 (p + 1 + 1) true.
Proof.
  intros Hc. destruct (heads_char _ _ _ _ p x0d line_end_cr (is_byte_refl _) c (x0a :: rest) Hc)
    as (tr&d&->%list_elem_of_singleton&Ht&R).
  exists tr. split; [done|]. change (crlf ++ rest) with ([x0d] ++ x0a :: rest). rewrite R. done.
Qed.

(** ** The status line *)

Lemma advances_version v :
  v = 0x11 ∨ v = 0x10 →
  advances [1] [] (bytes ("HTTP/" +:+ version_string v +:+ " ")%string) false (r_setVersion v) [16].
Proof.
  intros Hv. apply (advances_heads _ _ _ [(RMark, 0); (RHttpVersion, 8)]).
  { intros c rest ->%list_elem_of_singleton. exists [(RMark, 0); (RHttpVersion, 8)], 16.
    split_and!; [by apply list_elem_of_singleton|done|]. rewrite run_app. by destruct Hv as [-> | ->]; vm_compute run. }
  intros text buffer s P Hq [k ->] Hl. cbn [do_actions do_action app mark set_mark].
  split_and!; [|by rewrite orb_false_r|].
  { unfold bounded in *. simpl in Hq. destruct Hv as [-> | ->]; simpl; lia. }
  cbn [on_response_callbacks on_response_callback]. unfold on_response_version.
  assert (∀ n, n = 8 → version_of ([] ++ bytes ("HTTP/" +:+ version_string v +:+ " ")%string ++ k) 0 n = Some v) as Hver.
  { intros n ->. destruct Hv as [-> | ->]; reflexivity. }
  cbn [app] in *. rewrite Hver by reflexivity. done.
Qed.

Definition digit_byte : byte → bool := in_ranges [(48, 57)].
Lemma status_first : steps [16] digit_byte [RMark] [17] = true.
Proof. table_check. Qed.
Lemma status_loop : steps [17] digit_byte [] [17] = true.
Proof. table_check. Qed.
Lemma status_end : steps [17] (is_byte " "%byte) [RStatusCode] [18] = true.
Proof. table_check. Qed.
Lemma digit_is_byte c : is_digit c = true → digit_byte (Ascii.byte_of_ascii c) = true.
Proof. destruct c as [[] [] [] [] [] [] [] []]; vm_compute; done. Qed.
(** A pointer to a part of the buffer. *)
Lemma text_at_mid pre seg buffer :
  pre ++ seg `prefix_of` buffer → ∃ k, text_at buffer (Z.of_nat (length pre)) = str (seg ++ k).
Proof. intros [k ->]. exists k. unfold text_at. by rewrite Nat2Z.id, <-app_assoc, drop_app_length. Qed.
Lemma str_concat (a b : list byte) : str (a ++ b) = (str a +:+ str b)%string.
Proof. unfold str, String.string_of_list_byte. induction a as [|x a IH]; [done|]. simpl. by rewrite IH. Qed.
Lemma advances_status pre n :
  0 ≤ n < 2 ^ 31 → advances [16] pre (bytes (show n +:+ " ")%string) false (r_setStatus n) [18].
Proof.
  intros Hn. set (p := Z.of_nat (length pre)).
  pose proof (forallb_bytes is_digit digit_byte (show n) digit_is_byte (show_digits n)) as Hd.
  set (q := p + Z.of_nat (length (bytes (show n)))).
  apply (advances_heads _ _ _ [(RMark, p); (RStatusCode, q)]).
  { rewrite bytes_app. change (bytes " ") with [" "%byte].
    apply (heads_app _ _ (bytes (show n)) [(RMark, p)] [17] [_] [_]).
    - pose proof (show_nonempty n) as Hne. destruct (show n) as [|c s]; [done|]. rewrite bytes_cons in *.
      cbn [forallb] in Hd. apply andb_true_iff in Hd as [Hc Hs].
      rewrite <-(app_nil_r [(RMark, p)]).
      apply (heads_cons _ _ _ _ _ _ _ _ (heads_char _ _ _ _ _ _ status_first Hc)).
      apply (heads_while _ _ _ _ status_loop Hs).
    - apply (heads_char _ _ _ _ _ _ status_end (is_byte_refl _)). }
  intros text buffer s P Hq Hb Hl. cbn [do_actions do_action app mark set_mark].
  rewrite bytes_app in *. change (bytes " ") with [" "%byte] in *.
  split_and!; [|by rewrite orb_false_r|].
  { unfold bounded in *. rewrite !length_app. simpl in *. unfold p. lia. }
  cbn [on_response_callbacks on_response_callback]. unfold on_response_status.
  destruct (text_at_mid pre (bytes (show n) ++ [" "%byte]) buffer Hb) as [k Ek]. fold p in Ek. rewrite Ek.
  rewrite <-app_assoc. rewrite str_concat, str_bytes, atoi_show by done. done.
Qed.

(** A reason: any characters but the end of a line. *)
Definition reason_char (b : byte) : bool := negb (is_byte x0a b) && negb (is_byte x0d b).
Definition reason_ok (l : list byte) : Prop := l ≠ [] ∧ forallb reason_char l = true.
Lemma reason_first : steps [18] reason_char [RMark] [19] = true.
Proof. table_check. Qed.
Lemma reason_loop : steps [19] reason_char [] [19] = true.
Proof. table_check. Qed.
Lemma reason_cr : steps [19] (is_byte x0d) [RReasonPhrase] at_lf = true.
Proof. table_check. Qed.
Lemma advances_reason pre l :
  reason_ok l → advances [18] pre (l ++ crlf) false (r_setReason (str l)) at_line.
Proof.
  intros [Hne Hr]. set (p := Z.of_nat (length pre)). set (q := p + Z.of_nat (length l)).
  apply (advances_heads _ _ _ [(RMark, p); (RReasonPhrase, q)]).
  { apply (heads_app _ _ l [(RMark, p)] [19] crlf [_]).
    - destruct l as [|x l]; [done|]. cbn [forallb] in Hr. apply andb_true_iff in Hr as [Hx Hr].
      rewrite <-(app_nil_r [(RMark, p)]).
      apply (heads_cons _ _ _ _ _ _ _ _ (heads_char _ _ _ _ _ _ reason_first Hx)).
      apply (heads_while _ _ _ _ reason_loop Hr).
    - change crlf with [x0d; x0a].
      apply (heads_cons [19] q x0d [(RReasonPhrase, q)] at_lf [x0a] [] at_line (heads_char _ _ _ _ _ _ reason_cr (is_byte_refl _))).
      apply (heads_char _ _ _ _ _ _ line_lf (is_byte_refl _)). }
  intros text buffer s P Hq Hb Hl. cbn [do_actions do_action app mark set_mark].
  split_and!; [|by rewrite orb_false_r|].
  { unfold bounded in *. rewrite !length_app. simpl in *. unfold p. lia. }
  cbn [on_response_callbacks on_response_callback]. unfold on_response_reason. rewrite !bind_assoc.
  replace (LEN p q) with (Z.of_nat (length l)).
  - by step_with (string_at_mid pre l crlf buffer P Hb Hl).
  - pose proof (prefix_length _ _ Hb) as Hle. rewrite !length_app in Hle.
    unfold LEN, q, p. rewrite wrapu_small; unfold in_u; lia.
Qed.
Lemma advances_cr pre : advances at_line pre [x0d] false (λ r, r) [3].
Proof.
  apply (advances_heads _ _ _ []); [apply (heads_char _ _ [] _ _ _ line_end_cr (is_byte_refl _))|].
  intros text buffer s [] Hq Hb Hl. cbn [do_actions]. rewrite orb_false_r. split_and!; [|done|done].
  unfold bounded in *. rewrite length_app. simpl. lia.
Qed.

(** ** A whole head *)

(** What a head says: version, status, reason and header lines. *)
Record message_head := mk_head {
  h_version : Z; h_status : Z; h_reason : list byte; h_lines : list (list byte * list byte * list byte);
}.
Record head_ok (hd : message_head) : Prop := {
  ho_version : h_version hd = 0x11 ∨ h_version hd = 0x10;
  ho_status : 0 ≤ h_status hd < 2 ^ 31;
  ho_reason : reason_ok (h_reason hd);
  ho_lines : Forall line_ok (h_lines hd);
}.
(** The text in front of the last line feed, and the head with it. *)
Definition head_front (hd : message_head) : list byte :=
  bytes ("HTTP/" +:+ version_string (h_version hd) +:+ " ")%string ++ bytes (show (h_status hd) +:+ " ")%string
  ++ (h_reason hd ++ crlf) ++ lines_text (h_lines hd) ++ [x0d].
Definition head_bytes (hd : message_head) : list byte := head_front hd ++ [x0a].
Definition head_response (hd : message_head) (r : HttpResponse) : HttpResponse :=
  apply_lines (h_lines hd) (r_setReason (str (h_reason hd)) (r_setStatus (h_status hd) (r_setVersion (h_version hd) r))).
Lemma advances_head hd :
  head_ok hd → advances [1] [] (head_front hd) (existsb announces (h_lines hd)) (head_response hd) [3].
Proof.
  intros [Hv Hs Hr Hl]. unfold head_front.
  pose proof (advances_app _ _ _ _ _ _ _ _ _ _ (advances_version _ Hv)
    (advances_app _ _ _ _ _ _ _ _ _ _ (advances_status _ _ Hs)
      (advances_app _ _ _ _ _ _ _ _ _ _ (advances_reason _ _ Hr)
        (advances_app _ _ _ _ _ _ _ _ _ _ (advances_lines _ _ Hl) (advances_cr _))))) as H.
  cbn [orb] in H. by rewrite orb_false_r in H.
Qed.

Lemma do_actions_nread text l s : nread (do_actions text l s).1 = nread s.
Proof.
  revert s. induction l as [|[a p] l IH]; intros s; [done|]. cbn [do_actions].
  destruct (do_action text a p s) as [s1 c1] eqn:E. specialize (IH s1).
  destruct (do_actions text l s1) as [s2 c2]. simpl in *. rewrite IH. by destruct a; injection E as <- _.
Qed.

(** The scanner on the head and what follows it. *)
Lemma scan_head hd garbage post :
  head_ok hd → Z.of_nat (length (head_bytes hd ++ post)) < 2 ^ 31 →
  ∃ s' cbs, httpclient_parser_execute (head_bytes hd ++ post) (httpclient_parser_init garbage) =
      Ok (Z.of_nat (length (head_bytes hd)), cbs) s' ∧
    cs s' = 120 ∧ chunked s' = existsb announces (h_lines hd) ∧
    ∀ B P, head_bytes hd `prefix_of` B → Z.of_nat (length B) < 2 ^ 63 →
      on_response_callbacks B cbs P = Ok tt (rp_update_data (head_response hd) P).
Proof.
  intros Hh Hlen.
  destruct (advances_head hd Hh 1 (x0a :: post) (proj2 (list_elem_of_singleton _ _) eq_refl))
    as (tr&d&->%list_elem_of_singleton&R&Heff).
  assert (head_bytes hd ++ post = head_front hd ++ x0a :: post) as Et by (unfold head_bytes; by rewrite <-app_assoc).
  rewrite Et in *. unfold head_bytes. rewrite length_app, Nat2Z.inj_add.
  set (F := head_front hd) in *. cbn [length app] in R |- *. change (Z.of_nat 1) with 1.
  assert (run rsp_table 1 0 (F ++ x0a :: post) =
    mkoutcome (tr ++ [(RDone, Z.of_nat (length F))]) 120 (Z.of_nat (length F) + 1) true) as Er.
  { change (Z.of_nat 0) with 0 in R. rewrite R. reflexivity. }
  set (s0 := set_field_start 0 (set_field_len 0 (set_mark 0 (set_nread 0 (httpclient_parser_init garbage))))).
  set (text := F ++ x0a :: post) in *.
  assert (Z.of_nat (length text) = Z.of_nat (length F) + 1 + Z.of_nat (length post)) as Hlt
    by (unfold text; rewrite length_app; simpl; lia).
  assert (bounded (length (@nil byte)) s0) as Hb0 by (unfold bounded; simpl; lia).
  pose proof (do_actions_nread text tr s0) as Hnr. change (nread s0) with 0 in Hnr.
  pose proof (λ B P, Heff text B s0 P Hb0) as He. cbn [app length] in He. fold F in He.
  destruct (do_actions text tr s0) as [s1 c1] eqn:E1. cbn [fst] in Hnr.
  destruct (He F (HttpResponseParser_new garbage)) as ((Hm&Hf&Hn)&Hch&_); [done|lia|].
  exists (set_nread (nread s1 + (Z.of_nat (length F) + 1)) (set_cs 120 (set_body_start (Z.of_nat (length F) + 1) s1))),
    (c1 ++ [ElementCb header_done (Z.of_nat (length F) + 1) (Z.of_nat (length text) - Z.of_nat (length F) - 1)]).
  split_and!.
  - unfold httpclient_parser_execute. rewrite bind_modify, bind_get. fold s0. change (cs s0) with 1. rewrite Er.
    cbn [trace final pos]. rewrite rsp_actions_app, E1. cbn [do_actions do_action]. rewrite bind_modify, bind_get.
    rewrite !bind_assert by (apply Z.leb_le; cbn [nread set_nread set_cs set_body_start body_start]; lia). cbn [nread set_nread set_cs set_body_start mark field_len field_start].
    rewrite Hnr, (proj2 (Z.ltb_lt (mark s1) _)), (proj2 (Z.leb_le (field_len s1) _)), (proj2 (Z.ltb_lt (field_start s1) _)) by lia.
    reflexivity.
  - done.
  - exact Hch.
  - intros B P HB HlB. destruct (He B P) as (_&_&Hc); [etrans; [|exact HB]; by apply prefix_app_r|done|].
    by rewrite (on_response_callbacks_app _ _ _ _ _ Hc).
Qed.

(** One call of [execute] on the head and some of what follows it. *)
Lemma execute_response_head hd garbage data post junk :
  head_ok hd → data = head_bytes hd ++ post ++ junk → Z.of_nat (length data) < 2 ^ 31 →
  let len := Z.of_nat (length (head_bytes hd ++ post)) in
  let offset := Z.of_nat (length (head_bytes hd)) in
  ∃ parser, rp_execute false data len (HttpResponseParser_new garbage) =
      Ok (offset, memmove_front offset len data) parser ∧
    rp_data parser = head_response hd (HttpResponse_new 0x11 true) ∧
    chunked (rp_parser parser) = existsb announces (h_lines hd) ∧
    rp_hasError parser = false ∧ rp_isFinished parser = 1.
Proof.
  intros Hh -> Hlen len offset. set (B := head_bytes hd ++ post ++ junk) in *.
  destruct (scan_head hd garbage post Hh) as (s'&cbs&Ex&Hcs&Hch&Hcb).
  { unfold B in Hlen. rewrite app_assoc, length_app in Hlen. lia. }
  exists (rp_update_data (head_response hd) (mkHttpResponseParser s' (HttpResponse_new 0x11 true) 0)).
  split_and!; [|done|done| |].
  - unfold rp_execute. rewrite bind_get. cbn [rp_parser HttpResponseParser_new].
    assert (take (Z.to_nat len) B = head_bytes hd ++ post) as ->
      by (unfold B, len; by rewrite Nat2Z.id, app_assoc, take_app_length).
    step_with (on_ok _ _ _ (HttpResponseParser_new garbage) _ Ex). rewrite bind_modify. fold offset.
    assert (head_bytes hd `prefix_of` B) as Hpre by (unfold B; by apply prefix_app_r).
    step_with (Hcb B (mkHttpResponseParser s' (HttpResponse_new 0x11 true) 0) Hpre ltac:(lia)).
    by rewrite (proj2 (Z.ltb_ge offset 0)) by (unfold offset; lia).
  - unfold rp_hasError, httpclient_parser_has_error. simpl. by rewrite Hcs.
  - unfold rp_isFinished, httpclient_parser_finish, httpclient_parser_has_error, httpclient_parser_is_finished.
    simpl. by rewrite Hcs.
Qed.
