(* ===== verification/Uri.v ===== *)
(** [Uri] ([sylar/uri.h], [sylar/uri.rl.cc]): the fields of a URI, [Uri::Create]
    around the generated scanner, and the way back to text. *)
From S2P Require Import Prelude Endian Text Ragel UriStates HttpRequestParser Address.
From Stdlib Require Import Strings.Byte.

Local Open Scope string_scope.
Local Open Scope Z_scope.

Record Uri := mkUri {
  m_scheme : string;
  m_userinfo : string;
  m_host : string;
  m_path : string;
  m_query : string;
  m_fragment : string;
  m_port : Z;
}.
(** [Uri::Uri] *)
Definition Uri_new : Uri := mkUri "" "" "" "" "" "" 0.
Definition setScheme (v : string) (u : Uri) : Uri :=
  mkUri v (m_userinfo u) (m_host u) (m_path u) (m_query u) (m_fragment u) (m_port u).
Definition setUserinfo (v : string) (u : Uri) : Uri :=
  mkUri (m_scheme u) v (m_host u) (m_path u) (m_query u) (m_fragment u) (m_port u).
Definition setHost (v : string) (u : Uri) : Uri :=
  mkUri (m_scheme u) (m_userinfo u) v (m_path u) (m_query u) (m_fragment u) (m_port u).
Definition setPath (v : string) (u : Uri) : Uri :=
  mkUri (m_scheme u) (m_userinfo u) (m_host u) v (m_query u) (m_fragment u) (m_port u).
Definition setQuery (v : string) (u : Uri) : Uri :=
  mkUri (m_scheme u) (m_userinfo u) (m_host u) (m_path u) v (m_fragment u) (m_port u).
Definition setFragment (v : string) (u : Uri) : Uri :=
  mkUri (m_scheme u) (m_userinfo u) (m_host u) (m_path u) (m_query u) v (m_port u).
Definition setPort (v : Z) (u : Uri) : Uri :=
  mkUri (m_scheme u) (m_userinfo u) (m_host u) (m_path u) (m_query u) (m_fragment u) v.

Definition uri_parser_start : Z := 451.
Definition uri_parser_first_final : Z := 451.
Definition uri_parser_error : Z := 0.

(** ** The actions

    The state is the pointer [mark] (as an offset, or null) and the [Uri] under
    construction. *)

Notation uri_state := (option Z * Uri)%type.

(** [std::string(mark, p - mark)] *)
Definition marked (text : list byte) (p : Z) : M uri_state string :=
  s ← get; m ← deref s.1; string_at text m (p - m).
Definition set_mark (v : option Z) : M uri_state unit := modify (λ s, (v, s.2)).
Definition update (f : Uri → Uri) : M uri_state unit := modify (λ s, (s.1, f s.2)).

Definition do_action (text : list byte) (a : uri_action) (p : Z) : M uri_state unit :=
  match a with
  | MarkU | MarkH => set_mark (Some p)
  | SaveScheme => v ← marked text p; update (setScheme v);; set_mark None
  | SavePort =>
      s ← get;
      (if bool_decide (s.1 = Some p) then mret tt
       else m ← deref s.1; update (setPort (atoi (text_at text m))));;
      set_mark None
  | SaveUserinfo =>
      s ← get;
      (match s.1 with
       | Some _ => v ← marked text p; update (setUserinfo v)
       | None => mret tt
       end);;
      set_mark None
  | SaveHost =>
      s ← get;
      match s.1 with
      | Some _ => v ← marked text p; update (setHost v)
      | None => mret tt
      end
  | SavePath => v ← marked text p; update (setPath v);; set_mark None
  | SaveQuery => v ← marked text p; update (setQuery v);; set_mark None
  | SaveFragment => v ← marked text p; update (setFragment v);; set_mark None
  end.
Fixpoint do_actions (text : list byte) (l : list (uri_action * Z)) : M uri_state unit :=
  match l with
  | [] => mret tt
  | (a, p) :: l => do_action text a p;; do_actions text l
  end.

(** The actions that end an unfinished element at the end of the text. *)
Definition eof_actions (cs : Z) : list uri_action :=
  if bool_decide (cs ∈ [462; 489]) then [SavePort]
  else if bool_decide (cs ∈ [460; 463; 464; 465; 466; 467; 470; 471; 472; 473; 474; 475; 476; 477;
      478; 479; 480; 481; 482; 483; 484; 485; 486; 487; 488; 490; 491; 492; 493; 494; 495; 496; 497;
      498; 499; 500; 501; 502; 503; 504; 505; 506; 507]) then [SaveHost]
  else if bool_decide (cs = 513) then [SavePath]
  else if bool_decide (cs = 457) then [SaveQuery]
  else if bool_decide (cs = 454) then [SaveFragment]
  else if bool_decide (cs = 456) then [MarkU; SaveQuery]
  else if bool_decide (cs = 453) then [MarkU; SaveFragment]
  else if bool_decide (cs ∈ [461; 468]) then [MarkH; SavePort]
  else if bool_decide (cs ∈ [459; 469]) then [MarkH; SaveHost]
  else if bool_decide (cs ∈ [514; 521]) then [MarkH; SavePort; SavePath]
  else if bool_decide (cs ∈ [511; 522]) then [MarkH; SaveHost; SavePath]
  else if bool_decide (cs ∈ [515; 542]) then [SavePort; MarkH; SavePath]
  else if bool_decide (cs ∈ [512; 516; 517; 518; 519; 520; 523; 524; 525; 526; 527; 528; 529; 530;
      531; 532; 533; 534; 535; 536; 537; 538; 539; 540; 541; 543; 544; 545; 546; 547; 548; 549; 550;
      551; 552; 553; 554; 555; 556; 557; 558; 559; 560]) then [SaveHost; MarkH; SavePath]
  else [].

(** The run over the text and what happens at its end. *)
Definition scan (text : list byte) : list (uri_action * Z) * Z :=
  let o := run uri_table uri_parser_start 0 text in
  ((trace o ++ (if out o then [] else (λ a, (a, pos o)) <$> eof_actions (final o)))%list, final o).
(** [Uri::Create] *)
Definition Create (uristr : string) : M unit (option Uri) :=
  let text := String.list_byte_of_string uristr in
  let '(l, cs) := scan text in
  '(_, (_, uri)) ← on (None, Uri_new) (do_actions text l);
  if cs =? uri_parser_error then mret None
  else if uri_parser_first_final <=? cs then mret (Some uri)
  else mret None.

(** ** Accessors and text *)

Definition isDefaultPort (u : Uri) : bool :=
  if m_port u =? 0 then true
  else if bool_decide (m_scheme u = "http") then m_port u =? 80
  else if bool_decide (m_scheme u = "https") then m_port u =? 443
  else false.
Definition getPath (u : Uri) : string := if bool_decide (m_path u = "") then "/" else m_path u.
Definition getPort (u : Uri) : Z :=
  if negb (m_port u =? 0) then m_port u
  else if bool_decide (m_scheme u = "http") then 80
  else if bool_decide (m_scheme u = "https") then 443
  else m_port u.

(** [std::to_string(int32_t)] *)
Definition show_int (n : Z) : string := if n <? 0 then "-" +:+ show (- n) else show n.
Definition opt_sep (sep s : string) : string := if bool_decide (s = "") then "" else sep.
(** [Uri::dump], [Uri::toString] *)
Definition toString (u : Uri) : string :=
  m_scheme u +:+ "://" +:+ m_userinfo u +:+ opt_sep "@" (m_userinfo u) +:+ m_host u
  +:+ (if isDefaultPort u then "" else ":" +:+ show_int (m_port u))
  +:+ getPath u +:+ opt_sep "?" (m_query u) +:+ m_query u
  +:+ opt_sep "#" (m_fragment u) +:+ m_fragment u.

(** [Uri::createAddress]: the port is narrowed to [uint16_t]. *)
Definition createAddress `{Host, Resolver} (u : Uri) : option Address :=
  Address.setPort (wrapu 16 (getPort u)) <$> LookupAnyIPAddress (m_host u) AF_INET 0 0.
