(* ===== verification/UriSpec.v ===== *)
(** [Uri::Create] reads back what [Uri::toString] writes.

    A URI in this form is recognised part by part.  The generated scanner keeps
    the readings "host" and "user information" apart only at the character that
    ends them, so the states of these parts come in sets. *)
From S2P Require Import Prelude Ragel UriStates Text HttpRequestParser HttpRequestScan Uri.
From Stdlib Require Import Strings.Byte.

Local Open Scope Z_scope.

(** ** Characters *)

Definition alpha_char : byte → bool := in_ranges [(65, 90); (97, 122)].
Definition digit_char : byte → bool := in_ranges [(48, 57)].
(** Letters, digits, [+], [-] and [.] *)
Definition scheme_char : byte → bool := in_ranges [(43, 43); (45, 46); (48, 57); (65, 90); (97, 122)].
(** Letters, digits and [!$&'()*+,-.;=_~], of a name *)
Definition reg_char : byte → bool :=
  in_ranges [(33, 33); (36, 36); (38, 46); (48, 57); (59, 59); (61, 61); (65, 90); (95, 95); (97, 122); (126, 126)].
(** The same, [/:@] and everything outside ASCII *)
Definition segment_char : byte → bool :=
  in_ranges [(33, 33); (36, 36); (38, 59); (61, 61); (64, 90); (95, 95); (97, 122); (126, 126); (128, 255)].
Definition rest_char (b : byte) : bool := segment_char b || is_byte "?"%byte b.

(** ** The table, checked on all characters *)

(** The states in a name behind "//" and in one behind "@". *)
Definition name_states : list Z :=
  [520; 543; 544; 545; 546; 547; 548; 549; 550; 551; 552; 553; 554; 555; 556; 557; 558; 559; 560].
Definition host_states : list Z :=
  [523; 524; 525; 526; 527; 528; 529; 530; 531; 532; 533; 534; 535; 536; 537; 538; 539; 540; 541].

Lemma scheme_enter : jumps uri_table 451 alpha_char (via [MarkU] 508) = true.
Proof. table_check. Qed.
Lemma scheme_loop : jumps uri_table 508 scheme_char (to 508) = true.
Proof. table_check. Qed.
Lemma name_loop : encoded_within reg_char hex_char uri_table name_states [253] [254] = true.
Proof. table_check. Qed.
Lemma name_enter : enter_within reg_char uri_table 511 [MarkH] name_states [253] = true.
Proof. table_check. Qed.
Lemma host_loop : encoded_within reg_char hex_char uri_table host_states [258] [259] = true.
Proof. table_check. Qed.
Lemma host_enter : enter_within reg_char uri_table 522 [MarkH] host_states [258] = true.
Proof. table_check. Qed.
Lemma segment_loop : encoded_loop segment_char hex_char uri_table 513 243 244 = true.
Proof. table_check. Qed.
Lemma query_part : encoded_within rest_char hex_char uri_table [457] [7] [8] = true.
Proof. table_check. Qed.
Lemma query_part_enter : enter_within rest_char uri_table 456 [MarkU] [457] [7] = true.
Proof. table_check. Qed.
Lemma fragment_part : encoded_within rest_char hex_char uri_table [454] [1] [2] = true.
Proof. table_check. Qed.
Lemma fragment_part_enter : enter_within rest_char uri_table 453 [MarkU] [454] [1] = true.
Proof. table_check. Qed.

(** ** Parts of a text *)

(** Behind [pre], the text [seg] takes the scanner from state [c] to [c'] and the
    mark and the fields from [s] to [s'], whatever follows. *)
Definition goes (c : Z) (pre seg : list byte) (s : uri_state) (c' : Z) (s' : uri_state) : Prop :=
  ∀ rest, ∃ tr,
    run uri_table c (Z.of_nat (length pre)) (seg ++ rest) =
      prepend tr (run uri_table c' (Z.of_nat (length (pre ++ seg))) rest) ∧
    ∀ text, pre ++ seg `prefix_of` text → Z.of_nat (length text) < 2 ^ 63 → do_actions text tr s = Ok tt s'.
(** Behind [pre], the text [seg] is the last part and leaves the fields [u']. *)
Definition ends (c : Z) (pre seg : list byte) (s : uri_state) (u' : Uri) : Prop :=
  ∃ tr f m,
    run uri_table c (Z.of_nat (length pre)) seg = mkoutcome tr f (Z.of_nat (length (pre ++ seg))) false ∧
    uri_parser_first_final ≤ f ∧
    (Z.of_nat (length (pre ++ seg)) < 2 ^ 63 →
     do_actions (pre ++ seg) (tr ++ ((λ a, (a, Z.of_nat (length (pre ++ seg)))) <$> eof_actions f)) s = Ok tt (m, u')).

Lemma uri_actions_app text l1 l2 s s1 :
  do_actions text l1 s = Ok tt s1 → do_actions text (l1 ++ l2) s = do_actions text l2 s1.
Proof.
  revert s. induction l1 as [|[a p] l1 IH]; intros s; simpl; [by intros [= ->]|].
  intros ([]&s2&E&E2)%bind_inv. step_with E. auto.
Qed.
Lemma goes_app c pre g1 g2 s c1 s1 c2 s2 :
  goes c pre g1 s c1 s1 → goes c1 (pre ++ g1) g2 s1 c2 s2 → goes c pre (g1 ++ g2) s c2 s2.
Proof.
  intros H1 H2 rest. destruct (H1 (g2 ++ rest)) as (t1&E1&K1). destruct (H2 rest) as (t2&E2&K2).
  exists (t1 ++ t2). split; [by rewrite <-app_assoc, E1, E2, prepend_app, <-!app_assoc|].
  intros text Hp Hl. rewrite app_assoc in Hp. rewrite (uri_actions_app _ _ _ _ s1); [by apply K2|].
  apply K1; [|done]. etrans; [|exact Hp]. by apply prefix_app_r.
Qed.
Lemma goes_ends c pre g1 g2 s c1 s1 u :
  goes c pre g1 s c1 s1 → ends c1 (pre ++ g1) g2 s1 u → ends c pre (g1 ++ g2) s u.
Proof.
  intros H1 (t2&f&m&E2&Hf&K2). destruct (H1 g2) as (t1&E1&K1). rewrite <-app_assoc in *.
  exists (t1 ++ t2), f, m. split; [by rewrite E1, E2|]. split; [done|]. intros Hl. rewrite <-app_assoc.
  rewrite (uri_actions_app _ _ _ _ s1); [by apply K2|]. apply K1; [|done].
  rewrite app_assoc. by apply prefix_app_r.
Qed.
Lemma goes_nil c pre s : goes c pre [] s c s.
Proof. intros rest. exists []. rewrite prepend_nil, app_nil_r. done. Qed.
(** The text is read from its start. *)
Lemma ends_Create (t : string) u :
  Z.of_nat (String.length t) < 2 ^ 63 → ends uri_parser_start [] (bytes t) (None, Uri_new) u →
  Create t tt = Ok (Some u) tt.
Proof.
  intros Hl (tr&f&m&E&Hf&K). unfold Create, scan. cbn [app] in E.
  change (Z.of_nat (length [])) with 0 in E. rewrite E. cbv zeta. cbn [trace final pos out]. cbn [app] in K.
  rewrite <-length_bytes in Hl. specialize (K Hl). step_with (on_ok _ _ _ tt _ K).
  unfold uri_parser_error, uri_parser_first_final in *.
  rewrite (proj2 (Z.eqb_neq f 0)) by lia. by rewrite (proj2 (Z.leb_le 451 f)).
Qed.

Lemma bind_set_mark {B} v (k : unit → M uri_state B) s : (x ← set_mark v; k x) s = k tt (v, s.2).
Proof. done. Qed.
(** The marked text. *)
Lemma marked_part pre seg text u :
  pre ++ seg `prefix_of` text → Z.of_nat (length text) < 2 ^ 63 →
  marked text (Z.of_nat (length (pre ++ seg))) (Some (Z.of_nat (length pre)), u) =
    Ok (str seg) (Some (Z.of_nat (length pre)), u).
Proof.
  intros Hp Hl. unfold marked. rewrite bind_get. cbn [fst deref].
  unfold mbind, M_bind, deref.
  replace (Z.of_nat (length (pre ++ seg)) - Z.of_nat (length pre)) with (Z.of_nat (length seg))
    by (rewrite length_app; lia).
  apply (string_at_mid pre seg []); [|done]. by rewrite app_nil_r.
Qed.

(** An element that is entered at its first character and ended by the character [x]. *)
Lemma goes_part c A0 (f : byte → bool) S S1 S2 pre l x acts d s s' :
  encoded_within f hex_char uri_table S S1 S2 = true → enter_within f uri_table c A0 S S1 = true →
  encoded f hex_char l = true → l ≠ [] → into uri_table S (is_byte x) acts [d] = true →
  (∀ text, pre ++ l `prefix_of` text → Z.of_nat (length text) < 2 ^ 63 →
     do_actions text (((λ a, (a, Z.of_nat (length pre))) <$> A0)
       ++ ((λ a, (a, Z.of_nat (length (pre ++ l)))) <$> acts)) s = Ok tt s') →
  goes c pre (l ++ [x]) s d s'.
Proof.
  intros Hw He Hl Hne Hx K rest.
  destruct (run_enter_within f hex_char uri_table c A0 S S1 S2 (Z.of_nat (length pre)) l (x :: rest) Hw He Hl Hne)
    as (d1&Hd1&E1).
  destruct (run_into uri_table S _ acts [d] d1 (Z.of_nat (length pre) + Z.of_nat (length l)) x rest Hx Hd1 (is_byte_refl _))
    as (d2&Hd2&E2). apply list_elem_of_singleton in Hd2 as ->.
  eexists. split.
  - rewrite <-app_assoc. cbn [app]. rewrite E1, E2, prepend_app, <-Nat2Z.inj_add, <-length_app.
    do 2 f_equal. rewrite !length_app. simpl. lia.
  - intros text Hp Ht. apply K; [|done]. etrans; [|exact Hp]. rewrite app_assoc. by apply prefix_app_r.
Qed.
(** An element that is ended by the text. *)
Lemma ends_part c A0 (f : byte → bool) S S1 S2 pre l acts s m u :
  encoded_within f hex_char uri_table S S1 S2 = true → enter_within f uri_table c A0 S S1 = true →
  encoded f hex_char l = true → l ≠ [] →
  forallb (λ d, (uri_parser_first_final <=? d) && bool_decide (eof_actions d = acts)) S = true →
  (Z.of_nat (length (pre ++ l)) < 2 ^ 63 →
     do_actions (pre ++ l) (((λ a, (a, Z.of_nat (length pre))) <$> A0)
       ++ ((λ a, (a, Z.of_nat (length (pre ++ l)))) <$> acts)) s = Ok tt (m, u)) →
  ends c pre l s u.
Proof.
  intros Hw He Hl Hne Hx K.
  destruct (run_enter_within f hex_char uri_table c A0 S S1 S2 (Z.of_nat (length pre)) l [] Hw He Hl Hne)
    as (d1&Hd1&E1). rewrite app_nil_r in E1.
  rewrite forallb_forall in Hx. specialize (Hx d1 (proj1 (list_elem_of_In _ _) Hd1)).
  rewrite andb_true_iff, Z.leb_le, bool_decide_eq_true in Hx. destruct Hx as [Hf Ha].
  eexists _, d1, m. split; [|split; [done|]].
  - rewrite E1. unfold prepend. cbn [run trace final pos out]. rewrite app_nil_r. f_equal. rewrite length_app. lia.
  - rewrite Ha. exact K.
Qed.

(** ** The parts of a URI *)

Lemma goes_scheme b l u :
  alpha_char b = true → forallb scheme_char l = true →
  goes 451 [] (b :: l ++ bytes "://") (None, u) 511 (None, setScheme (str (b :: l)) u).
Proof.
  intros Hb Hl rest. exists [(MarkU, 0); (SaveScheme, 0 + 1 + Z.of_nat (length l))]. split.
  - change (Z.of_nat (length [])) with 0. cbn [app]. rewrite <-app_assoc.
    rewrite (run_via uri_table 451 0 alpha_char b _ [MarkU] 508 ltac:(done) ltac:(done) scheme_enter Hb).
    rewrite (run_while uri_table 508 _ scheme_char l _ (Z_ne 508%positive) scheme_loop Hl).
    change (bytes "://") with [":"%byte; "/"%byte; "/"%byte]. cbn [app].
    rewrite (run_jump uri_table 508 _ ":"%byte _ [SaveScheme] 509) by done.
    rewrite (run_jump uri_table 509 _ "/"%byte _ [] 510) by done.
    rewrite (run_jump uri_table 510 _ "/"%byte _ [] 511) by done.
    cbn [fmap list_fmap]. rewrite !prepend_nil, prepend_app. do 2 f_equal. cbn [app length]. rewrite length_app. simpl. lia.
  - intros text Hp Ht. cbn [fmap list_fmap app do_actions do_action fst snd].
    rewrite bind_set_mark, !bind_assoc. cbn [fst snd].
    pose proof (marked_part [] (b :: l) text u) as Hm. cbn [app] in Hm.
    replace (0 + 1 + Z.of_nat (length l)) with (Z.of_nat (length (b :: l))) by (simpl; lia).
    step_with (Hm ltac:(etrans; [|exact Hp]; cbn [app]; apply (prefix_app_r (b :: l) (b :: l)); done) Ht).
    done.
Qed.

Lemma goes_userinfo pre l u :
  encoded reg_char hex_char l = true → l ≠ [] →
  goes 511 pre (l ++ ["@"%byte]) (None, u) 522 (None, setUserinfo (str l) u).
Proof.
  intros Hl Hne.
  apply (goes_part _ _ _ _ _ _ _ _ _ [SaveUserinfo] _ _ _ name_loop name_enter Hl Hne); [table_check|].
  intros text Hp Ht. cbn [fmap list_fmap app do_actions do_action fst snd].
  rewrite bind_set_mark, !bind_assoc, bind_get. cbn [fst snd].
  rewrite !bind_assoc. by step_with (marked_part pre l text u Hp Ht).
Qed.

(** The name of the host, from the state behind "//" or "@", up to a colon or a
    slash. *)
Inductive before_host : Z → Z → Prop :=
  | host_first : before_host 511 521
  | host_after_userinfo : before_host 522 514.
Lemma goes_host_colon c d pre l u :
  before_host c d → encoded reg_char hex_char l = true → l ≠ [] →
  goes c pre (l ++ [":"%byte]) (None, u) d (Some (Z.of_nat (length pre)), setHost (str l) u).
Proof.
  intros [] Hl Hne;
  [apply (goes_part _ _ _ _ _ _ _ _ _ [SaveHost] _ _ _ name_loop name_enter Hl Hne); [table_check|]
  |apply (goes_part _ _ _ _ _ _ _ _ _ [SaveHost] _ _ _ host_loop host_enter Hl Hne); [table_check|]].
  all: intros text Hp Ht; cbn [fmap list_fmap app do_actions do_action fst snd];
    rewrite bind_set_mark, !bind_assoc, bind_get; cbn [fst snd];
    rewrite !bind_assoc; by step_with (marked_part pre l text u Hp Ht).
Qed.
Lemma goes_host_slash c d pre l u :
  before_host c d → encoded reg_char hex_char l = true → l ≠ [] →
  goes c pre (l ++ ["/"%byte]) (None, u) 513 (Some (Z.of_nat (length (pre ++ l))), setHost (str l) u).
Proof.
  intros [] Hl Hne;
  [apply (goes_part _ _ _ _ _ _ _ _ _ [SaveHost; MarkH] _ _ _ name_loop name_enter Hl Hne); [table_check|]
  |apply (goes_part _ _ _ _ _ _ _ _ _ [SaveHost; MarkH] _ _ _ host_loop host_enter Hl Hne); [table_check|]].
  all: intros text Hp Ht; cbn [fmap list_fmap app do_actions do_action fst snd];
    rewrite bind_set_mark, !bind_assoc, bind_get; cbn [fst snd];
    rewrite !bind_assoc; by step_with (marked_part pre l text u Hp Ht).
Qed.

Lemma str_app (a : string) (l : list byte) : str (bytes a ++ l) = (a +:+ str l)%string.
Proof.
  rewrite <-(String.list_byte_of_string_of_list_byte l) at 1. by rewrite <-bytes_app, str_bytes.
Qed.
Lemma digits_bytes n : forallb digit_char (bytes (show n)) = true.
Proof.
  pose proof (show_digits n) as H. induction (show n) as [|c s IH]; [done|].
  cbn [every] in H. apply andb_true_iff in H as [Hc H]. rewrite bytes_cons. cbn [forallb]. rewrite IH, andb_true_r by done.
  revert Hc. clear. destruct c as [[] [] [] [] [] [] [] []]; vm_compute; done.
Qed.

(** The port, up to the slash of the path. *)
Lemma goes_port c d pre n m u :
  before_host c d → 0 ≤ n < 2 ^ 31 →
  goes d pre (bytes (show n) ++ ["/"%byte]) (m, u) 513 (Some (Z.of_nat (length (pre ++ bytes (show n)))), setPort n u).
Proof.
  intros Hc Hn rest. pose proof (digits_bytes n) as Hd. pose proof (show_nonempty n) as Hne.
  exists [(MarkH, Z.of_nat (length pre)); (SavePort, Z.of_nat (length (pre ++ bytes (show n))));
          (MarkH, Z.of_nat (length (pre ++ bytes (show n))))]. split.
  - assert (∃ e, e ≠ 0 ∧ jumps uri_table d digit_char (via [MarkH] e) = true ∧
      jumps uri_table e digit_char (to e) = true ∧
      uri_table e (schar "/"%byte) = via [SavePort; MarkH] 513) as (e&He&H1&H2&H3).
    { destruct Hc; [exists 542|exists 515]; (split; [done|]); (split; [table_check|]); (split; [table_check|]); done. }
    destruct (show n) as [|x s]; [done|]. rewrite bytes_cons in *. cbn [forallb] in Hd. apply andb_true_iff in Hd as [Hx Hd].
    rewrite <-app_assoc. cbn [app].
    rewrite (run_via uri_table d _ digit_char _ _ [MarkH] e ltac:(by destruct Hc) He H1 Hx).
    rewrite (run_while uri_table e _ digit_char _ _ He H2 Hd).
    rewrite (run_jump uri_table e _ "/"%byte _ [SavePort; MarkH] 513) by done.
    rewrite prepend_app. cbn [fmap list_fmap app].
    replace (Z.of_nat (length pre) + 1 + Z.of_nat (length (bytes s)))
      with (Z.of_nat (length (pre ++ Ascii.byte_of_ascii x :: bytes s))) by (rewrite length_app; simpl; lia).
    do 2 f_equal. rewrite !length_app. simpl. rewrite length_app. simpl. lia.
  - intros text [k ->] Ht. cbn [do_actions do_action fst snd]. rewrite bind_set_mark, !bind_assoc, bind_get. cbn [fst snd].
    rewrite bool_decide_eq_false_2.
    2: { intros [= E]. rewrite length_app in E. rewrite length_bytes in E. by destruct (show n); [|simpl in E; lia]. }
    rewrite !bind_assoc.
    assert (atoi (text_at ((pre ++ bytes (show n) ++ ["/"%byte]) ++ k) (Z.of_nat (length pre))) = n) as Ha.
    { unfold text_at. rewrite Nat2Z.id, <-!app_assoc, drop_app_length, str_app. by apply atoi_show. }
    unfold deref. unfold mbind at 1, M_bind at 1. rewrite Ha. done.
Qed.

(** The path behind its first slash, at which the mark stands. *)
Lemma run_segments pre l rest :
  encoded segment_char hex_char l = true →
  run uri_table 513 (Z.of_nat (length (pre ++ ["/"%byte]))) (l ++ rest) =
    run uri_table 513 (Z.of_nat (length (pre ++ "/"%byte :: l))) rest.
Proof.
  intros Hl. rewrite (run_encoded segment_char hex_char uri_table 513 243 244) by (done || apply segment_loop).
  f_equal. rewrite !length_app. simpl. lia.
Qed.
Lemma goes_path pre l x d u :
  encoded segment_char hex_char l = true → d ≠ 0 → uri_table 513 (schar x) = via [SavePath] d →
  goes 513 (pre ++ ["/"%byte]) (l ++ [x]) (Some (Z.of_nat (length pre)), u) d (None, setPath (str ("/"%byte :: l)) u).
Proof.
  intros Hl Hd Hx rest. exists [(SavePath, Z.of_nat (length (pre ++ "/"%byte :: l)))]. split.
  - rewrite <-app_assoc, run_segments by done. cbn [app].
    rewrite (run_jump uri_table 513 _ x rest [SavePath] d) by done. cbn [fmap list_fmap].
    do 2 f_equal. rewrite !length_app. simpl. lia.
  - intros text Hp Ht. cbn [do_actions do_action]. rewrite <-!app_assoc in Hp. cbn [app] in Hp.
    rewrite !bind_assoc. assert (pre ++ "/"%byte :: l `prefix_of` text) as Hp'.
    { etrans; [|exact Hp]. rewrite app_comm_cons, (app_assoc pre). by apply prefix_app_r. }
    by step_with (marked_part pre ("/"%byte :: l) text u Hp' Ht).
Qed.
Lemma ends_path pre l u :
  encoded segment_char hex_char l = true →
  ends 513 (pre ++ ["/"%byte]) l (Some (Z.of_nat (length pre)), u) (setPath (str ("/"%byte :: l)) u).
Proof.
  intros Hl. exists [], 513, None. rewrite <-!app_assoc. cbn [app]. split; [|split; [done|]].
  - pose proof (run_segments pre l [] Hl) as E. rewrite app_nil_r in E. by rewrite E.
  - intros Ht. change (eof_actions 513) with [SavePath]. cbn [fmap list_fmap do_actions do_action]. rewrite !bind_assoc.
    by step_with (marked_part pre ("/"%byte :: l) (pre ++ "/"%byte :: l) u ltac:(done) Ht).
Qed.

(** Query and fragment. *)
Lemma goes_query pre l u :
  encoded rest_char hex_char l = true → l ≠ [] →
  goes 456 pre (l ++ ["#"%byte]) (None, u) 453 (None, setQuery (str l) u).
Proof.
  intros Hl Hne.
  apply (goes_part _ _ _ _ _ _ _ _ _ [SaveQuery] _ _ _ query_part query_part_enter Hl Hne); [table_check|].
  intros text Hp Ht. cbn [fmap list_fmap app do_actions do_action fst snd].
  rewrite bind_set_mark, !bind_assoc. by step_with (marked_part pre l text u Hp Ht).
Qed.
Lemma ends_query pre l u :
  encoded rest_char hex_char l = true → l ≠ [] → ends 456 pre l (None, u) (setQuery (str l) u).
Proof.
  intros Hl Hne.
  apply (ends_part _ _ _ _ _ _ _ _ [SaveQuery] _ None _ query_part query_part_enter Hl Hne); [table_check|].
  intros Ht. cbn [fmap list_fmap app do_actions do_action fst snd].
  rewrite bind_set_mark, !bind_assoc. by step_with (marked_part pre l (pre ++ l) u ltac:(done) Ht).
Qed.
Lemma ends_fragment pre l u :
  encoded rest_char hex_char l = true → l ≠ [] → ends 453 pre l (None, u) (setFragment (str l) u).
Proof.
  intros Hl Hne.
  apply (ends_part _ _ _ _ _ _ _ _ [SaveFragment] _ None _ fragment_part fragment_part_enter Hl Hne); [table_check|].
  intros Ht. cbn [fmap list_fmap app do_actions do_action fst snd].
  rewrite bind_set_mark, !bind_assoc. by step_with (marked_part pre l (pre ++ l) u ltac:(done) Ht).
Qed.

(** ** The round trip *)

Local Open Scope string_scope.

Definition starts_with (b : byte) (l : list byte) : bool := if l is x :: _ then is_byte b x else false.
(** URIs in the form the program uses: a scheme, user information without a colon,
    a host that is a name or an IPv4 address, a path from the root; percent signs
    stand before two hexadecimal digits. *)
Definition uri_ok (u : Uri) : bool :=
  (if bytes (m_scheme u) is b :: l then alpha_char b && forallb scheme_char l else false)
  && encoded reg_char hex_char (bytes (m_userinfo u))
  && encoded reg_char hex_char (bytes (m_host u)) && negb (bool_decide (m_host u = ""))
  && (bool_decide (m_path u = "") || starts_with "/"%byte (bytes (m_path u)))
  && encoded segment_char hex_char (bytes (m_path u))
  && encoded rest_char hex_char (bytes (m_query u))
  && encoded rest_char hex_char (bytes (m_fragment u))
  && (0 <=? m_port u)%Z && (m_port u <? 2 ^ 31)%Z.

(** What is read back: the default path and port are made explicit and implicit. *)
Definition normal (u : Uri) : Uri :=
  mkUri (m_scheme u) (m_userinfo u) (m_host u) (getPath u) (m_query u) (m_fragment u)
    (if isDefaultPort u then 0%Z else m_port u).

Local Open Scope Z_scope.
Local Open Scope list_scope.

Lemma bytes_nonempty (s : string) : s ≠ "" → bytes s ≠ [].
Proof. by destruct s. Qed.

(** The scheme and the user information. *)
Lemma goes_front u0 u b l :
  bytes (m_scheme u) = b :: l → alpha_char b = true → forallb scheme_char l = true →
  encoded reg_char hex_char (bytes (m_userinfo u)) = true → m_userinfo u0 = "" →
  ∃ c d, before_host c d ∧
    goes 451 [] (bytes (m_scheme u +:+ "://" +:+ m_userinfo u +:+ opt_sep "@" (m_userinfo u))) (None, u0)
      c (None, setUserinfo (m_userinfo u) (setScheme (m_scheme u) u0)).
Proof.
  intros Es Hb Hl Hu H0. pose proof (goes_scheme b l u0 Hb Hl) as Hs.
  rewrite <-Es, str_bytes in Hs.
  replace (b :: l ++ bytes "://") with (bytes (m_scheme u +:+ "://")) in Hs by (by rewrite bytes_app, Es).
  unfold opt_sep. case_bool_decide as Ei.
  - exists 511, 521. split; [constructor|]. rewrite Ei, !app_empty_s. rewrite app_nil_s.
    replace (setUserinfo "" (setScheme (m_scheme u) u0)) with (setScheme (m_scheme u) u0) by (destruct u0; simpl in *; by subst).
    done.
  - exists 522, 514. split; [constructor|].
    rewrite <-app_assoc_s, bytes_app. eapply goes_app; [exact Hs|].
    rewrite (bytes_app (m_userinfo u) "@"). rewrite <-(str_bytes (m_userinfo u)) at 2. by apply goes_userinfo, bytes_nonempty.
Qed.
(** The host and the port, and the slash behind them. *)
Lemma goes_authority c d pre u0 u :
  before_host c d → encoded reg_char hex_char (bytes (m_host u)) = true → m_host u ≠ "" →
  0 ≤ m_port u < 2 ^ 31 → m_port u0 = 0 →
  let t := bytes (m_host u +:+ (if isDefaultPort u then "" else ":" +:+ show_int (m_port u))) in
  goes c pre (t ++ ["/"%byte]) (None, u0) 513
    (Some (Z.of_nat (length (pre ++ t))), setPort (if isDefaultPort u then 0 else m_port u) (setHost (m_host u) u0)).
Proof.
  intros Hc Hh Hne Hp H0. cbv zeta. destruct (isDefaultPort u).
  - rewrite app_nil_s.
    replace (setPort 0 (setHost (m_host u) u0)) with (setHost (m_host u) u0) by (destruct u0; simpl in *; by subst).
    rewrite <-(str_bytes (m_host u)) at 3. by eapply goes_host_slash, bytes_nonempty.
  - unfold show_int. rewrite (proj2 (Z.ltb_ge _ _)) by lia.
    replace (bytes (m_host u +:+ ":" +:+ show (m_port u)) ++ ["/"%byte])
      with ((bytes (m_host u) ++ [":"%byte]) ++ bytes (show (m_port u)) ++ ["/"%byte])
      by (by rewrite bytes_app, (bytes_app ":"), <-!app_assoc).
    pose proof (goes_host_colon c d pre _ u0 Hc Hh (bytes_nonempty _ Hne)) as H1. rewrite str_bytes in H1.
    eapply goes_app; [exact H1|].
    replace (pre ++ bytes (m_host u +:+ ":" +:+ show (m_port u)))
      with ((pre ++ bytes (m_host u) ++ [":"%byte]) ++ bytes (show (m_port u)))
      by (by rewrite bytes_app, (bytes_app ":"), <-!app_assoc).
    by apply goes_port with c.
Qed.
(** From the path to the end. *)
Lemma ends_back pre l u0 u :
  encoded segment_char hex_char l = true →
  encoded rest_char hex_char (bytes (m_query u)) = true → encoded rest_char hex_char (bytes (m_fragment u)) = true →
  m_query u0 = "" → m_fragment u0 = "" →
  ends 513 (pre ++ ["/"%byte])
    (l ++ bytes (opt_sep "?" (m_query u) +:+ m_query u +:+ opt_sep "#" (m_fragment u) +:+ m_fragment u))
    (Some (Z.of_nat (length pre)), u0)
    (setFragment (m_fragment u) (setQuery (m_query u) (setPath (str ("/"%byte :: l)) u0))).
Proof.
  intros Hl Hq Hf Hq0 Hf0. unfold opt_sep.
  assert (∀ v pre, m_fragment u ≠ "" → ends 453 pre (bytes (m_fragment u)) (None, v) (setFragment (m_fragment u) v)) as Hfr.
  { intros v pre' Hne. rewrite <-(str_bytes (m_fragment u)) at 2. by apply ends_fragment, bytes_nonempty. }
  assert (∀ v, m_fragment v = "" → setFragment "" v = v) as HF by (intros []; simpl; by intros ->).
  assert (∀ v, m_query v = "" → setQuery "" v = v) as HQ by (intros []; simpl; by intros ->).
  case_bool_decide as Eq.
  - rewrite Eq, !app_empty_s, (HQ (setPath _ _) Hq0). case_bool_decide as Ef.
    + rewrite Ef, (HF (setPath _ _) Hf0). change (bytes ("" +:+ "")) with (@nil byte). rewrite app_nil_r. by apply ends_path.
    + rewrite bytes_app, app_assoc. eapply goes_ends; [by apply (goes_path pre l "#"%byte 453)|]. by apply Hfr.
  - rewrite bytes_app, app_assoc. eapply goes_ends; [by apply (goes_path pre l "?"%byte 456)|].
    pose proof (bytes_nonempty _ Eq) as Hne. case_bool_decide as Ef.
    + rewrite Ef, app_nil_s, (HF (setQuery _ (setPath _ u0)) Hf0).
      rewrite <-(str_bytes (m_query u)) at 2. by apply ends_query.
    + rewrite (bytes_app (m_query u)), (bytes_app "#"), (app_assoc (bytes (m_query u)) (bytes "#")).
      pose proof (λ p v, goes_query p (bytes (m_query u)) v Hq Hne) as Hgq. rewrite str_bytes in Hgq.
      eapply goes_ends; [apply Hgq|]. by apply Hfr.
Qed.


(** What is outside this form is accepted but not kept: the mark moves to the port
    behind a colon of the user information, and only a path behind an authority
    and a scheme is stored. *)
Lemma uri_parts_lost :
  Create "http://user:80@h/a" tt = Ok (Some (mkUri "http" "80" "h" "/a" "" "" 0)) tt ∧
  Create "/a/b?q" tt = Ok (Some (mkUri "" "" "" "" "q" "" 0)) tt ∧
  Create "mailto:a" tt = Ok (Some (mkUri "mailto" "" "" "" "" "" 0)) tt ∧
  Create "//h/a" tt = Ok (Some (mkUri "" "" "h" "" "" "" 0)) tt.
Proof. split_and!; vm_compute; reflexivity. Qed.
