(* ===== verification/HttpConnection.v ===== *)
(** [HttpConnection] ([sylar/http/http_connection.h], [http_connection.cc]): the
    client's side: sending a request, receiving a response with a known length or
    in chunks, and the static functions that do both over a new connection. *)
From S2P Require Import Prelude Endian Text Http HttpClientParser HttpRequestParser HttpResponseParser Stream HttpReceive Address.
From S2P Require Uri.
From Stdlib Require Import Strings.Byte.

Local Open Scope string_scope.
Local Open Scope Z_scope.

(** [HttpResult] *)
Inductive HttpError :=
  | OK | INVALID_URL | INVALID_HOST | CONNECT_FAIL | SEND_CLOSE_BY_PEER | SEND_SOCKET_ERROR
  | TIMEOUT | CREATE_SOCKET_ERROR | POOL_GET_CONNECTION | POOL_INVALID_CONNECTION.
Definition HttpError_number (e : HttpError) : Z :=
  match e with
  | OK => 0 | INVALID_URL => 1 | INVALID_HOST => 2 | CONNECT_FAIL => 3 | SEND_CLOSE_BY_PEER => 4
  | SEND_SOCKET_ERROR => 5 | TIMEOUT => 6 | CREATE_SOCKET_ERROR => 7 | POOL_GET_CONNECTION => 8
  | POOL_INVALID_CONNECTION => 9
  end.
Record HttpResult := mkHttpResult {
  result : Z;
  response : option HttpResponse;
  error : string;
}.
Definition make_result (e : HttpError) (rsp : option HttpResponse) (msg : string) : HttpResult :=
  mkHttpResult (HttpError_number e) rsp msg.
(** [HttpResult::toString] *)
Definition HttpResult_toString (r : HttpResult) : string :=
  "[HttpResult result=" +:+ Uri.show_int (result r) +:+ " error=" +:+ error r +:+ " response="
  +:+ (match response r with Some rsp => response_dump rsp | None => "nullptr" end) +:+ "]".

Section receive.
Context `{LexicalCast}.
Context (h : heap) (garbage : httpclient_parser) (sizes : Sizes).

(** [body.append(data, n)], [n] converted to [size_t]. *)
Definition append_body {S} (body data : list byte) (n : Z) : M S (list byte) :=
  let n := wrapu 64 n in
  if 2 ^ 63 - 1 - Z.of_nat (length body) <? n then throw (length_error "basic_string::append")
  else if Z.of_nat (length data) <? n then undef OutOfBounds
  else if available h <? Z.of_nat (length body) + n then throw bad_alloc
  else mret (body ++ take (Z.to_nat n) data)%list.

(** Reading until the head of a chunk is complete; every turn resets the
    scanner. *)
Fixpoint recv_chunk_head (fuel : nat) (buff_size : Z) (parser : HttpResponseParser) (data : list byte) (len : Z)
    : M wire (option (HttpResponseParser * list byte * Z)) :=
  match fuel with
  | O => undef NoFuel
  | S fuel =>
      '(rt, data) ← read data len (wrapu 64 (buff_size - len));
      if rt <=? 0 then close;; mret None
      else
        len ← sint (len + rt);
        data ← store data len "000"%byte;
        '((nparse, data), parser) ← on parser (rp_execute true data len);
        if rp_hasError parser then close;; mret None
        else
          let len := wraps 32 (len - nparse) in
          if len =? wraps 32 buff_size then close;; mret None
          else if negb (rp_isFinished parser =? 0) then mret (Some (parser, data, len))
          else recv_chunk_head fuel buff_size parser data len
  end.

(** The rest of a chunk that is not in the buffer yet. *)
Fixpoint recv_chunk_rest (fuel : nat) (buff_size : Z) (body data : list byte) (left : Z)
    : M wire (option (list byte * list byte)) :=
  if negb (0 <? left) then mret (Some (body, data))
  else
    match fuel with
    | O => undef NoFuel
    | S fuel =>
        '(rt, data) ← read data 0 (wrapu 64 (if wraps 32 buff_size <? left then wraps 32 buff_size else left));
        if rt <=? 0 then close;; mret None
        else
          body ← append_body body data rt;
          recv_chunk_rest fuel buff_size body data (left - rt)
    end.

(** The loop over the chunks. *)
Fixpoint recv_chunks (fuel io_fuel : nat) (buff_size : Z) (parser : HttpResponseParser) (body data : list byte) (len : Z)
    : M wire (option (HttpResponseParser * list byte)) :=
  match fuel with
  | O => undef NoFuel
  | S fuel =>
      head ← recv_chunk_head io_fuel buff_size parser data len;
      match head with
      | None => mret None
      | Some (parser, data, len) =>
          let content_len := content_len (rp_parser parser) in
          len ← sint (len - 2);
          next ← (if content_len <=? len then
                    body ← append_body body data content_len;
                    if Z.of_nat (length data) <? len then undef OutOfBounds
                    else mret (Some (body, memmove_front content_len len data, len - content_len))
                  else
                    body ← append_body body data len;
                    left ← sint (content_len - len);
                    rest ← recv_chunk_rest io_fuel buff_size body data left;
                    mret ((λ r, (r.1, r.2, 0)) <$> rest));
          match next with
          | None => mret None
          | Some (body, data, len) =>
              if chunks_done (rp_parser parser) then mret (Some (parser, body))
              else recv_chunks fuel io_fuel buff_size parser body data len
          end
      end
  end.

(** The branch of [recvResponse] for a body of known length. *)
Definition finish_response (fuel : nat) (parser : HttpResponseParser) (data : list byte) (offset : Z)
    : M wire (option HttpResponse) :=
  let length_ := wraps 64 (rp_getContentLength parser) in
  if 0 <? length_ then
    body ← recv_body fuel h data offset length_;
    mret ((λ b, r_setBody (str b) (rp_data parser)) <$> body)
  else mret (Some (rp_data parser)).

(** [HttpConnection::recvResponse]; the buffer has one more byte for NUL. *)
Definition recvResponse (fuel : nat) : M wire (option HttpResponse) :=
  let buff_size := s_http_response_buffer_size sizes in
  data ← new_chars h (wrapu 64 (buff_size + 1));
  head ← recv_head fuel buff_size (HttpResponseParser_new garbage) data 0;
  match head with
  | None => mret None
  | Some (parser, data, offset) =>
      if chunked (rp_parser parser) then
        r ← recv_chunks fuel fuel buff_size parser [] data offset;
        mret ((λ r, r_setBody (str r.2) (rp_data r.1)) <$> r)
      else finish_response fuel parser data offset
  end.
End receive.

(** [HttpConnection::sendRequest] *)
Definition sendRequest (fuel : nat) (req : HttpRequest) : M wire Z :=
  writeFixSize fuel (String.list_byte_of_string (request_dump req)).

(** ** Requests over a new connection *)

(** [connect] of a new TCP socket and what the peer then does; [errno] and
    [strerror] for the messages. *)
Class Network := {
  tcp_connect : Address → option wire;
  errno : Z;
  strerror : Z → string;
}.

(** The connections that were opened, as their destructors leave them. *)
Notation Net := (M (list wire)).

Section requests.
Context {LC : LexicalCast} {HO : Host} {RS : Resolver} {NW : Network}.
Context (h : heap) (garbage : httpclient_parser) (sizes : Sizes).

(** Runs the operations on a new connection; the destructor closes it at the end
    of the scope and when an exception passes. *)
Definition on_connection {A} (w : wire) (m : M wire A) : Net A := λ l,
  match m w with
  | Ok a w => match close w with Ok _ w => Ok a (l ++ [w])%list | _ => Abort end
  | Throw e w => match close w with Ok _ w => Throw e (l ++ [w])%list | _ => Abort end
  | Abort => Abort
  | Undef u => Undef u
  end.

(** Sending the request and receiving the answer, with the result for each
    failure; [peer] is the remote address as text. *)
Definition exchange (fuel : nat) (req : HttpRequest) (peer : string) (timeout_ms : Z) : M wire HttpResult :=
  rt ← sendRequest fuel req;
  if rt =? 0 then
    mret (make_result SEND_CLOSE_BY_PEER None ("send request close by peer: " +:+ peer))
  else if rt <? 0 then
    mret (make_result SEND_SOCKET_ERROR None
      ("send request socket error, errno= " +:+ Uri.show_int errno +:+ " errstr=" +:+ strerror errno))
  else
    rsp ← recvResponse h garbage sizes fuel;
    match rsp with
    | None => mret (make_result TIMEOUT None
        ("recv response timeout: " +:+ peer +:+ " timeout_ms:" +:+ show timeout_ms))
    | Some rsp => mret (make_result OK (Some rsp) "ok")
    end.

(** [DoRequest(req, uri, timeout_ms)]; [Socket::CreateTCP] never returns null. *)
Definition DoRequest_req (fuel : nat) (req : HttpRequest) (uri : Uri.Uri) (timeout_ms : Z) : Net HttpResult :=
  match Uri.createAddress uri with
  | None => mret (make_result INVALID_HOST None ("invalid host: " +:+ Uri.m_host uri))
  | Some addr =>
      match tcp_connect addr with
      | None => mret (make_result CONNECT_FAIL None ("connect fail: " +:+ toString addr))
      | Some w => on_connection w (exchange fuel req (toString addr) timeout_ms)
      end
  end.

(** The loop over the headers: the request and whether a host was given. *)
Definition add_header (s : HttpRequest * bool) (e : string * string) : HttpRequest * bool :=
  let '(req, has_host) := s in
  if strcasecmp_eq e.1 "connection" then
    (if strcasecmp_eq e.2 "keep-alive" then setClose false req else req, has_host)
  else
    (setHeader e.1 e.2 req,
     if negb has_host && strcasecmp_eq e.1 "host" then negb (bool_decide (e.2 = "")) else has_host).
(** The request of [DoRequest(method, uri, ...)]; [headers] in the order of
    [std::map]. *)
Definition build_request (method : HttpMethod) (uri : Uri.Uri) (headers : list (string * string)) (body : string)
    : HttpRequest :=
  let req := setMethod method (setFragment (Uri.m_fragment uri) (setQuery (Uri.m_query uri)
               (setPath (Uri.getPath uri) (HttpRequest_new 0x11 true)))) in
  let '(req, has_host) := foldl add_header (req, false) headers in
  setBody body (if (has_host : bool) then req else setHeader "Host" (Uri.m_host uri) req).
Definition DoRequest_uri (fuel : nat) (method : HttpMethod) (uri : Uri.Uri) (timeout_ms : Z)
    (headers : list (string * string)) (body : string) : Net HttpResult :=
  DoRequest_req fuel (build_request method uri headers body) uri timeout_ms.

(** [Uri::Create] and the result for a URL it rejects. *)
Definition with_url (url : string) (k : Uri.Uri → Net HttpResult) : Net HttpResult :=
  '(uri, _) ← on tt (Uri.Create url);
  match uri with
  | None => mret (make_result INVALID_URL None ("invalid url: " +:+ url))
  | Some uri => k uri
  end.
Definition DoRequest_url (fuel : nat) (method : HttpMethod) (url : string) (timeout_ms : Z)
    (headers : list (string * string)) (body : string) : Net HttpResult :=
  with_url url (λ uri, DoRequest_uri fuel method uri timeout_ms headers body).
Definition DoGet_uri (fuel : nat) (uri : Uri.Uri) (timeout_ms : Z) (headers : list (string * string))
    (body : string) : Net HttpResult :=
  DoRequest_uri fuel M_GET uri timeout_ms headers body.
Definition DoGet_url (fuel : nat) (url : string) (timeout_ms : Z) (headers : list (string * string))
    (body : string) : Net HttpResult :=
  with_url url (λ uri, DoGet_uri fuel uri timeout_ms headers body).
Definition DoPost_uri (fuel : nat) (uri : Uri.Uri) (timeout_ms : Z) (headers : list (string * string))
    (body : string) : Net HttpResult :=
  DoRequest_uri fuel M_POST uri timeout_ms headers body.
Definition DoPost_url (fuel : nat) (url : string) (timeout_ms : Z) (headers : list (string * string))
    (body : string) : Net HttpResult :=
  with_url url (λ uri, DoPost_uri fuel uri timeout_ms headers body).
End requests.
