(* ===== verification/HttpConnectionSpec.v ===== *)
(** Receiving responses: what a server serialises arrives as it was sent, and a
    chunked body arrives when each chunk comes in a segment of its own. *)
From S2P Require Import Prelude Ragel Text Http HttpSpec HttpClientStates HttpClientParser HttpRequestParser HttpRequestScan HttpResponseParser HttpResponseScan Stream StreamSpec HttpReceive HttpSessionSpec HttpConnection.
From Stdlib Require Import Strings.Ascii Strings.Byte.
From stdpp Require Import gmap.
From coqutil Require Import Byte.

Local Open Scope Z_scope.

(** ** The text of a response in its parts *)

Definition reason_of (r : HttpResponse) : string :=
  if bool_decide (r_reason r = "") then HttpStatusToString (r_status r) else r_reason r.
(** Responses whose fields fit the grammar of the parser. *)
Record servable (r : HttpResponse) : Prop := {
  sv_version : r_version r = 0x11 ∨ r_version r = 0x10;
  sv_status : 0 ≤ r_status r < 2 ^ 31;
  sv_reason : forallb reason_char (bytes (r_reason r)) = true;
  sv_headers : Forall (λ e, name_ok (bytes e.1) ∧ other_name (bytes e.1) ∧ full_value (bytes e.2)) (r_headers r);
}.
Definition response_head (r : HttpResponse) : message_head :=
  mk_head (r_version r) (wrapu 32 (r_status r)) (bytes (reason_of r)) (scan_line <$> response_lines r).

Lemma response_lines_sep r :
  Forall (λ e : string * string * string, e.1.2 = ":"%string ∨ e.1.2 = ": "%string) (response_lines r).
Proof.
  unfold response_lines. rewrite !Forall_app. split_and!.
  - apply Forall_fmap, Forall_forall. intros e _. by right.
  - by repeat constructor; right.
  - case_bool_decide; [constructor|]. by repeat constructor; right.
Qed.
Lemma response_dump_head r : bytes (response_dump r) = head_bytes (response_head r) ++ bytes (r_body r).
Proof.
  unfold head_bytes, head_front, response_head. cbn [h_version h_status h_reason h_lines].
  rewrite <-(bytes_render _ (response_lines_sep r)). unfold response_dump. fold (reason_of r).
  unfold crlf. rewrite !bytes_app, <-!app_assoc. reflexivity.
Qed.
Lemma status_reason_ok s : reason_ok (bytes (HttpStatusToString s)).
Proof.
  unfold HttpStatusToString. destruct (list_find _ _) as [[i [s' d]]|] eqn:E; [|done].
  apply list_find_Some in E as (H1&_&_). apply list_elem_of_lookup_2 in H1.
  assert (Forall (λ e, bytes e.2 ≠ [] ∧ forallb reason_char (bytes e.2) = true) http_status_map) as Hall
    by (apply (bool_decide_unpack _); vm_compute; exact I).
  rewrite Forall_forall in Hall. by apply (Hall (s', d)).
Qed.
Lemma show_full_value n : full_value (bytes (show n)).
Proof.
  split; [|apply show_value_ok]. pose proof (show_nonempty n) as H. by destruct (show n).
Qed.
Lemma response_lines_plain r :
  servable r → Forall (λ e, space_ok e.1.2 ∧ plain_line e) (scan_line <$> response_lines r).
Proof.
  intros [_ _ _ Hh]. rewrite Forall_fmap. unfold response_lines. rewrite !Forall_app. split_and!.
  - rewrite Forall_fmap. apply Forall_forall. intros e [_ He]%list_elem_of_filter.
    rewrite Forall_forall in Hh. split; [by right|exact (Hh e He)].
  - constructor; [|constructor]. split; [by right|]. split_and!; [done|done|].
    unfold scan_line, connection_value. simpl. by destruct (r_close r).
  - case_bool_decide; constructor; [|constructor]. split; [by right|].
    split_and!; [done|done|apply show_full_value].
Qed.
Lemma response_head_ok r : servable r → head_ok (response_head r).
Proof.
  intros Hr. pose proof Hr as [Hv Hs Hre Hh].
  split; [done|..]; cbn [response_head h_version h_status h_reason h_lines].
  - rewrite wrapu_small; unfold in_u; lia.
  - unfold reason_of. case_bool_decide as E; [apply status_reason_ok|]. split; [|done].
    by destruct (r_reason r).
  - eapply Forall_impl; [by apply response_lines_plain|]. intros e [Hs1 Hp]. split; [done|by left].
Qed.
Lemma no_announcement r : servable r → existsb announces (h_lines (response_head r)) = false.
Proof.
  intros Hr. apply not_true_is_false. intros (e&He%list_elem_of_In&Ha%bool_decide_eq_true)%existsb_exists.
  pose proof (response_lines_plain r Hr) as Hl. rewrite Forall_forall in Hl.
  destruct (Hl e He) as [_ (_&Ho&_)]. by apply Ho.
Qed.
(** The response as the parser reports it, before the body. *)
Definition r_headers_of (r : HttpResponse) : MapType :=
  foldl (λ m e, map_set m e.1.1 e.2) [] (response_lines r).
Definition received_response (r : HttpResponse) : HttpResponse :=
  mkHttpResponse (r_status r) (r_version r) true (r_body r) (reason_of r) (r_headers_of r).
Lemma add_lines_headers l r :
  apply_lines (scan_line <$> l) r = r_setHeaders (foldl (λ m e, map_set m e.1.1 e.2) (r_headers r) l) r.
Proof.
  revert r. induction l as [|e l IH]; intros r; [by destruct r|]. cbn [fmap list_fmap].
  change (apply_lines (scan_line e :: (scan_line <$> l)) r)
    with (apply_lines (scan_line <$> l) (r_setHeader (str (bytes e.1.1)) (str (bytes e.2)) r)).
  by rewrite IH, !str_bytes.
Qed.
Lemma head_response_of r :
  servable r → head_response (response_head r) (HttpResponse_new 0x11 true) = r_setBody "" (received_response r).
Proof.
  intros [_ Hs _ _]. unfold head_response. cbn [response_head h_version h_status h_reason h_lines].
  rewrite add_lines_headers, str_bytes, wrapu_small by (unfold in_u; lia). done.
Qed.

(** ** The headers that arrive *)

Lemma received_response_headers r key :
  map_ok (r_headers r) →
  view (r_headers_of r) !! key =
    if bool_decide (key = canon "content-length" ∧ r_body r ≠ ""%string)
    then Some (show (Z.of_nat (String.length (r_body r))))
    else if bool_decide (key = canon "connection") then Some (connection_value (r_close r))
    else view (r_headers r) !! key.
Proof.
  intros Hm. unfold r_headers_of, response_lines. rewrite view_lines, !foldl_app.
  change (view []) with (∅ : gmap (list N) string). cbn [foldl].
  assert (key ≠ canon "connection" → ∀ e : string * string, ¬ e.1 ≠ "connection" → canon e.1 ≠ key) as Hq.
  { intros Hk e Ec E. apply Hk. rewrite <-E. f_equal. by apply dec_stable. }
  set (m1 := foldl set_line ∅ _).
  assert (set_line m1 ("connection", ": ", connection_value (r_close r)) !! key =
    if bool_decide (key = canon "connection") then Some (connection_value (r_close r))
    else view (r_headers r) !! key) as H1.
  { unfold set_line. cbn [fst snd]. case_bool_decide as Ek; [subst; by rewrite lookup_insert_eq|].
    rewrite lookup_insert_ne by done. unfold m1. rewrite set_lines_user by auto.
    destruct (view (r_headers r) !! key); [done|apply lookup_empty]. }
  destruct (decide (r_body r = ""%string)) as [Eb|Eb].
  - rewrite (bool_decide_true (r_body r = "")), (bool_decide_false (_ ∧ _)) by naive_solver. exact H1.
  - rewrite (bool_decide_false (r_body r = "")) by done. cbn [foldl]. unfold set_line at 1. cbn [fst snd].
    destruct (decide (key = canon "content-length")) as [->|Hne].
    + rewrite bool_decide_true by done. by rewrite lookup_insert_eq.
    + rewrite bool_decide_false by naive_solver. by rewrite lookup_insert_ne.
Qed.

(** ** Receiving *)

Section receive.
Context {LC : LexicalCast}.
Context (h : heap) (garbage : httpclient_parser) (sizes : Sizes).
Notation buff_size := (s_http_response_buffer_size sizes).

(** The loop on a first piece that holds the head. *)
Lemma recv_response_head fuel hd post data l w :
  head_ok hd → m_isConnected w = true → arrivals w = Data (head_bytes hd ++ post) :: l →
  Z.of_nat (length (head_bytes hd ++ post)) ≤ buff_size → Z.of_nat (length data) = buff_size + 1 →
  buff_size < 2 ^ 30 →
  ∃ parser data', recv_head (S fuel) buff_size (HttpResponseParser_new garbage) data 0 w =
      Ok (Some (parser, data', Z.of_nat (length post))) (set_arrivals l w) ∧
    rp_data parser = head_response hd (HttpResponse_new 0x11 true) ∧
    chunked (rp_parser parser) = existsb announces (h_lines hd) ∧
    rp_error parser = 0 ∧ take (length post) data' = post ∧ length data' = length data.
Proof.
  intros Hr Hc Ha Hn Hd Hb. set (bs := head_bytes hd ++ post) in *.
  assert (0 < length (head_bytes hd))%nat as Hhead by (unfold head_bytes; rewrite length_app; simpl; lia).
  assert (length bs = length (head_bytes hd) + length post)%nat as Hbs by (unfold bs; apply length_app).
  assert (bs ≠ []) as Hne by (destruct bs; [simpl in Hbs; lia|done]).
  set (D := parse_input true bs data).
  assert (D = head_bytes hd ++ post ++ "000"%byte :: drop (S (length bs)) data) as HDe.
  { unfold D, parse_input, splice. cbn [Nat.add]. rewrite take_0. cbn [app]. rewrite insert_app_r_alt, Nat.sub_diag by lia.
    destruct (drop (length bs) data) as [|x q] eqn:E.
    { exfalso. apply (f_equal length) in E. rewrite length_drop in E. change (length []) with 0%nat in E. lia. }
    rewrite <-(Nat.add_1_r (length bs)), <-drop_drop, E. unfold bs. by rewrite <-app_assoc. }
  assert (length D = length data) as HD.
  { unfold D, parse_input. rewrite length_insert. apply length_splice. lia. }
  destruct (execute_response_head hd garbage D post _ Hr HDe ltac:(lia)) as (parser&Ex&Hp&Hch&He&Hf). fold bs in Ex.
  assert (mp_isFinished parser ≠ 0) as Hf' by (change (rp_isFinished parser ≠ 0); by rewrite Hf).
  assert (buff_size + (if mp_terminated (P := HttpResponseParser) then 1 else 0) ≤ Z.of_nat (length data)) as Hd'
    by (simpl; lia).
  rewrite (recv_head_once (MP := HttpResponseParser_message) fuel buff_size _ parser bs data _
    (Z.of_nat (length (head_bytes hd))) l w Hc Ha Hne Hn Hb Hd' Ex He Hf') by lia.
  replace (Z.of_nat (length bs) - Z.of_nat (length (head_bytes hd))) with (Z.of_nat (length post)) by lia.
  assert (rp_error parser = 0) as Her.
  { apply Z.eqb_eq. unfold rp_hasError in He. by destruct (rp_error parser =? 0). }
  eexists parser, _. split; [reflexivity|]. split_and!; [done|done|done|..].
  all: assert (memmove_front (Z.of_nat (length (head_bytes hd))) (Z.of_nat (length bs)) D = splice 0 post D) as ->
    by (unfold memmove_front; f_equal; rewrite Nat2Z.id, HDe, drop_app_length;
        replace (Z.to_nat _) with (length post) by lia; by rewrite take_app_length).
  - unfold splice. simpl. by rewrite take_app_length.
  - rewrite length_splice by lia. done.
Qed.

(** A response on the stream: its head and some of the body in the first piece,
    [more] behind it. *)
Record arriving_response (r : HttpResponse) (more : list byte) (w : wire) (fuel : nat) : Prop := {
  ar_servable : servable r;
  ar_map : map_ok (r_headers r);
  ar_length : r_body r = "" → map_find (r_headers r) "content-length" = None;
  ar_open : m_isConnected w = true;
  ar_pieces : ∃ have rest l,
    bytes (r_body r) = have ++ rest ∧ arrivals w = Data (head_bytes (response_head r) ++ have) :: l ∧
    pieces_ok l ∧ incoming l = rest ++ more ∧ (length rest < fuel)%nat ∧
    Z.of_nat (length (head_bytes (response_head r) ++ have)) ≤ buff_size;
  ar_buffer : 0 ≤ buff_size < 2 ^ 30 ∧ buff_size < available h;
  ar_body : Z.of_nat (String.length (r_body r)) < 2 ^ 31 ∧ Z.of_nat (String.length (r_body r)) ≤ available h;
}.
Lemma recvResponse_ok (r : HttpResponse) (more : list byte) (w : wire) (fuel : nat) :
  cast_reads_numbers → arriving_response r more w fuel →
  ∃ l', recvResponse h garbage sizes fuel w = Ok (Some (received_response r)) (set_arrivals l' w) ∧ incoming l' = more.
Proof.
  intros Hcast [Hr Hm Hcl Hc (have&rest&l&Hbody&Ha&Hp&Hi&Hfuel&Hfit) [Hsz Hav] [Hb1 Hb2]].
  assert (Z.of_nat (String.length (r_body r)) = Z.of_nat (length have + length rest)) as Hlen.
  { rewrite <-length_bytes, Hbody, length_app. lia. }
  unfold recvResponse. rewrite wrapu_small by (unfold in_u; lia).
  destruct (new_chars_ok h (buff_size + 1) w) as (data&En&Hdl); [lia|]. step_with En.
  destruct fuel as [|fuel]; [lia|].
  destruct (recv_response_head fuel _ have data l w (response_head_ok r Hr)) as (parser&data'&Eh&Hpd&Hch&_&Htake&_);
    try done; try lia. step_with Eh.
  rewrite Hch, no_announcement by done. rewrite head_response_of in Hpd by done.
  unfold finish_response, rp_getContentLength. rewrite Hpd. cbn [r_headers r_setBody received_response].
  unfold getAs. rewrite map_find_view, received_response_headers by done.
  rewrite (bool_decide_false (canon "content-length" = canon "connection")) by done.
  destruct (decide (r_body r = ""%string)) as [Eb|Eb].
  - rewrite bool_decide_false by naive_solver. rewrite <-map_find_view, Hcl by done.
    change (wraps 64 0) with 0. cbn [Z.ltb Z.compare].
    assert (have = [] ∧ rest = []) as [-> ->].
    { rewrite Eb in Hbody. by apply app_eq_nil. }
    exists l. split; [|done]. unfold mret, M_ret. do 2 f_equal. unfold received_response, r_setBody. simpl. by rewrite Eb.
  - rewrite bool_decide_true by done. assert (0 ≤ Z.of_nat (String.length (r_body r)) < 2 ^ 64) as Hin by (clear -Hb1; lia).
    rewrite (Hcast _ Hin).
    unfold default, id. rewrite wraps_small by (unfold in_s; lia).
    assert (0 < length have + length rest)%nat as Hpos.
    { destruct (r_body r); [done|]. simpl in Hlen. lia. }
    rewrite (proj2 (Z.ltb_lt _ _)) by lia. rewrite Hlen.
    destruct (recv_body_ok h (S fuel) data' have rest more (set_arrivals l w)) as (l'&Ebd&Hl'&_); try done; try lia.
    step_with Ebd. cbn [fmap option_fmap option_map].
    exists l'. split; [|done]. unfold mret, M_ret. do 2 f_equal. rewrite <-Hbody, str_bytes. done.
Qed.

(** Sending a request and receiving the answer. *)
Lemma exchange_ok {NW : Network} (req : HttpRequest) (r : HttpResponse) (more : list byte) (w : wire) (fuel : nat)
    (peer : string) (timeout_ms : Z) :
  cast_reads_numbers → arriving_response r more w fuel → takes_ok w →
  0 < Z.of_nat (String.length (request_dump req)) < 2 ^ 31 → (String.length (request_dump req) ≤ fuel)%nat →
  ∃ l t, exchange h garbage sizes fuel req peer timeout_ms w =
      Ok (make_result OK (Some (received_response r)) "ok")
        (mk_wire true l t (sent w ++ bytes (request_dump req))) ∧ incoming l = more.
Proof.
  intros Hcast Har Ht Hl Hf. pose proof (ar_open _ _ _ _ Har) as Hc.
  destruct (writeFixSize_loop_ok fuel (bytes (request_dump req)) 0 (Z.of_nat (length (bytes (request_dump req)))) w)
    as (t&E&_); try done; try (rewrite length_bytes; lia); try lia.
  set (w1 := mk_wire true (arrivals w) t (sent w ++ bytes (request_dump req))).
  assert (sendRequest fuel req w = Ok (Z.of_nat (String.length (request_dump req))) w1) as Es.
  { unfold sendRequest, writeFixSize. step_with E. by rewrite length_bytes, wraps_small by (unfold in_s; lia). }
  destruct (recvResponse_ok r more w1 fuel Hcast) as (l&Er&Hi).
  { destruct Har as [? ? ? ? Hp ? ?]. by split. }
  exists l, t. split; [|done]. unfold exchange. step_with Es.
  rewrite (proj2 (Z.eqb_neq _ 0)), (proj2 (Z.ltb_ge _ 0)) by lia. by step_with Er.
Qed.

(** ** Chunked bodies *)

(** The size line of a chunk: hexadecimal digits with a value. *)
Definition size_text (hx : list byte) (n : Z) : Prop :=
  hx ≠ [] ∧ forallb hex_char hx = true ∧ hex_digits_value 0 (str hx) = n ∧ 0 ≤ n < 2 ^ 31.
Definition chunk_bytes (c : list byte * list byte) : list byte := c.1 ++ crlf ++ c.2 ++ crlf.

Lemma hex_char_value b : hex_char b = true →
  ∃ v, hex_value (Ascii.ascii_of_byte b) = Some v ∧ isspace (Ascii.ascii_of_byte b) = false ∧
    Ascii.eqb (Ascii.ascii_of_byte b) "-"%char = false ∧ Ascii.eqb (Ascii.ascii_of_byte b) "+"%char = false ∧
    Ascii.eqb (Ascii.ascii_of_byte b) "x"%char = false ∧ Ascii.eqb (Ascii.ascii_of_byte b) "X"%char = false.
Proof. destruct b; try (intros H; vm_compute in H; discriminate H); intros _; eexists; by vm_compute. Qed.
Lemma hex_digits_stop acc hx t :
  forallb hex_char hx = true →
  hex_digits_value acc (str (hx ++ x0d :: t)) = hex_digits_value acc (str hx).
Proof.
  revert acc. unfold str, String.string_of_list_byte. induction hx as [|b hx IH]; intros acc; [done|].
  cbn [forallb]. intros [Hb Hh]%andb_true_iff. cbn [app map String.string_of_list_ascii hex_digits_value].
  destruct (hex_char_value b Hb) as (v&Ev&_). cbn [List.map String.string_of_list_ascii hex_digits_value]. rewrite Ev. by apply IH.
Qed.
Lemma strtol16_size hx n t : size_text hx n → strtol16 (str (hx ++ x0d :: t)) = n.
Proof.
  intros (Hne&Hh&Hv&Hn). pose proof (hex_digits_stop 0 hx t Hh) as Hs. rewrite Hv in Hs.
  unfold strtol16. destruct hx as [|b hx]; [done|]. cbn [forallb] in Hh. apply andb_true_iff in Hh as [Hb Hh].
  destruct (hex_char_value b Hb) as (v&Ev&Hsp&Hm&Hp&_).
  change (str ((b :: hx) ++ x0d :: t)) with (String (Ascii.ascii_of_byte b) (str (hx ++ x0d :: t))) in *.
  cbn [skip_spaces]. rewrite Hsp, Hm, Hp.
  assert (skip_0x (String (Ascii.ascii_of_byte b) (str (hx ++ x0d :: t))) =
          String (Ascii.ascii_of_byte b) (str (hx ++ x0d :: t))) as ->.
  { destruct hx as [|c hx].
    - change (str ([] ++ x0d :: t)) with (String "013"%char (str t)). unfold skip_0x. by repeat case_match.
    - cbn [forallb] in Hh. apply andb_true_iff in Hh as [Hc _].
      destruct (hex_char_value c Hc) as (_&_&_&_&_&Hx&HX).
      change (str ((c :: hx) ++ x0d :: t)) with (String (Ascii.ascii_of_byte c) (str (hx ++ x0d :: t))).
      unfold skip_0x. rewrite Hx, HX. by repeat case_match. }
  rewrite Hs. lia.
Qed.

(** The scanner, reset, on a chunk. *)
Lemma size_first : steps [1] hex_char [RMark] [2] = true.
Proof. table_check. Qed.
Lemma size_loop : steps [2] hex_char [] [2] = true.
Proof. table_check. Qed.
Lemma run_chunk hx rest :
  hx ≠ [] → forallb hex_char hx = true →
  ∃ tr, essential tr = [(RMark, 0)] ∧
    run rsp_table 1 0 (hx ++ crlf ++ rest) =
      mkoutcome (tr ++ [(RChunkSize, Z.of_nat (length hx)); (RDone, Z.of_nat (length hx) + 1)]) 120
        (Z.of_nat (length hx) + 1 + 1) true.
Proof.
  intros Hne Hh. destruct hx as [|b hx]; [done|]. cbn [forallb] in Hh. apply andb_true_iff in Hh as [Hb Hh].
  pose proof (heads_cons _ _ _ _ _ _ _ _ (heads_char _ _ _ _ 0 _ size_first Hb) (heads_while _ _ 1 _ size_loop Hh)) as H.
  destruct (H 1 (crlf ++ rest) (proj2 (list_elem_of_singleton _ _) eq_refl)) as (tr&d&->%list_elem_of_singleton&Ht&R).
  exists tr. split; [done|]. rewrite R, Z.add_0_l. set (p := Z.of_nat (length (b :: hx))).
  change (crlf ++ rest) with (x0d :: x0a :: rest).
  rewrite (run_jump _ 2 p x0d (x0a :: rest) [RChunkSize] 3) by done.
  cbn [run]. change (rsp_table 3 (schar x0a)) with (via_out [RDone] 120). unfold prepend. cbn [trace final pos out fmap list_fmap app acts via_out leave dest].
  done.
Qed.
Lemma scan_chunk hx n rest s :
  size_text hx n → let text := hx ++ crlf ++ rest in
  Z.of_nat (length text) < 2 ^ 31 →
  ∃ s' cbs, httpclient_parser_execute text (httpclient_parser_init s) = Ok (Z.of_nat (length hx) + 2, cbs) s' ∧
    cs s' = 120 ∧ content_len s' = n ∧ chunks_done s' = (n <=? 0) ∧
    ∀ B P, on_response_callbacks B cbs P = Ok tt P.
Proof.
  intros Hsz text Hl. pose proof Hsz as (Hne&Hh&Hv&Hn).
  destruct (run_chunk hx rest Hne Hh) as (tr&Ht&R). fold text in R.
  assert (Z.of_nat (length text) = Z.of_nat (length hx) + 2 + Z.of_nat (length rest)) as Hlt.
  { unfold text. rewrite !length_app. change (length crlf) with 2%nat. lia. }
  set (s0 := set_field_start 0 (set_field_len 0 (set_mark 0 (set_nread 0 (httpclient_parser_init s))))).
  pose proof (do_actions_nread text tr s0) as Hnr. change (nread s0) with 0 in Hnr.
  destruct (essential_effect text tr s0 s0) as [E1 (E2&E3&E4&_)]; [done|]. rewrite Ht in E1, E2, E3, E4.
  destruct (do_actions text tr s0) as [s1 c1] eqn:Ea. cbn in E1, E2, E3, E4, Hnr. subst c1.
  assert (wraps 32 (strtol16 (number_text text 0)) = n) as Hnum.
  { change (number_text text 0) with (str (hx ++ x0d :: x0a :: rest)).
    rewrite (strtol16_size hx n _ Hsz). apply wraps_small; unfold in_s; lia. }
  exists (set_nread (Z.of_nat (length hx) + 2) (set_cs 120 (set_body_start (Z.of_nat (length hx) + 2)
            (set_chunks_done (n <=? 0) (set_content_len n (set_chunked true s1)))))),
    [ElementCb (if n <=? 0 then last_chunk else chunk_size) 0 (HttpClientParser.LEN 0 (Z.of_nat (length hx)));
     ElementCb header_done (Z.of_nat (length hx) + 1 + 1) (Z.of_nat (length text) - (Z.of_nat (length hx) + 1) - 1)].
  split_and!; [|done..|].
  - unfold httpclient_parser_execute. rewrite bind_modify, bind_get. fold s0. change (cs s0) with 1. rewrite R.
    cbn [trace final pos]. rewrite rsp_actions_app, Ea. cbn [do_actions do_action]. rewrite E2, Hnum.
    rewrite bind_modify, bind_get. cbn [nread set_nread set_cs set_body_start set_chunks_done set_content_len set_chunked]. rewrite Hnr.
    replace (Z.of_nat (length hx) + 1 + 1) with (Z.of_nat (length hx) + 2) by lia.
    rewrite !bind_assert by (apply Z.leb_le; cbn; lia).
    cbn [mark field_len field_start nread set_nread set_cs set_body_start set_chunks_done set_content_len set_chunked].
    rewrite E2, E3, E4, (proj2 (Z.ltb_lt 0 _)), (proj2 (Z.leb_le 0 _)) by lia. reflexivity.
  - intros B P. by destruct (n <=? 0).
Qed.
Lemma execute_chunk hx n rest junk P :
  size_text hx n → rp_error P = 0 →
  let text := hx ++ crlf ++ rest in let data := text ++ junk in
  Z.of_nat (length text) < 2 ^ 31 →
  ∃ P', rp_execute true data (Z.of_nat (length text)) P =
      Ok (Z.of_nat (length hx) + 2, memmove_front (Z.of_nat (length hx) + 2) (Z.of_nat (length text)) data) P' ∧
    rp_data P' = rp_data P ∧ rp_error P' = 0 ∧ rp_hasError P' = false ∧ rp_isFinished P' = 1 ∧
    content_len (rp_parser P') = n ∧ chunks_done (rp_parser P') = (n <=? 0).
Proof.
  intros Hsz He text data Hl.
  destruct (scan_chunk hx n rest (rp_parser P) Hsz Hl) as (s'&cbs&Ex&Hcs&Hcl&Hd&Hcb). fold text in Ex.
  exists (mkHttpResponseParser s' (rp_data P) (rp_error P)). split_and!; try done.
  - unfold rp_execute. rewrite bind_get.
    assert (take (Z.to_nat (Z.of_nat (length text))) data = text) as -> by (unfold data; by rewrite Nat2Z.id, take_app_length).
    step_with (on_ok _ _ _ P _ Ex). rewrite bind_modify. step_with (Hcb data (mkHttpResponseParser s' (rp_data P) (rp_error P))).
    by rewrite (proj2 (Z.ltb_ge _ 0)) by lia.
  - unfold rp_hasError, httpclient_parser_has_error. simpl. by rewrite Hcs, He.
  - unfold rp_isFinished, httpclient_parser_finish, httpclient_parser_has_error, httpclient_parser_is_finished.
    simpl. by rewrite Hcs.
Qed.

(** A chunk in a segment of its own. *)
Definition chunk_ok (c : list byte * list byte) : Prop :=
  size_text c.1 (Z.of_nat (length c.2)) ∧ Z.of_nat (length (chunk_bytes c)) ≤ buff_size.
Lemma recv_chunk_head_ok fuel P data c l w :
  chunk_ok c → rp_error P = 0 → m_isConnected w = true → arrivals w = Data (chunk_bytes c) :: l →
  Z.of_nat (length data) = buff_size + 1 → buff_size < 2 ^ 30 →
  ∃ P' data', recv_chunk_head (S fuel) buff_size P data 0 w =
      Ok (Some (P', data', Z.of_nat (length c.2) + 2)) (set_arrivals l w) ∧
    rp_data P' = rp_data P ∧ rp_error P' = 0 ∧ content_len (rp_parser P') = Z.of_nat (length c.2) ∧
    chunks_done (rp_parser P') = (Z.of_nat (length c.2) <=? 0) ∧
    take (length c.2) data' = c.2 ∧ length data' = length data.
Proof.
  destruct c as [hx d]. intros [Hsz Hfit] He Hc Ha Hd Hb. cbn [fst snd] in *.
  set (bs := chunk_bytes (hx, d)) in *. pose proof Hsz as (Hne&_&_&_).
  assert (length bs = length hx + length d + 4)%nat as Hbs.
  { unfold bs, chunk_bytes. rewrite !length_app. change (length crlf) with 2%nat. simpl. lia. }
  assert (0 < length hx)%nat by (destruct hx; [done|simpl; lia]).
  assert (bs ≠ []) as Hbne by (intros E; rewrite E in Hbs; simpl in Hbs; lia).
  cbn [recv_chunk_head]. rewrite Z.sub_0_r, wrapu_small by (unfold in_u; lia).
  step_with (read_piece data 0 buff_size bs l w Hc Ha Hbne ltac:(lia) Hfit ltac:(unfold MAX_RW_COUNT; lia) ltac:(lia)).
  rewrite (proj2 (Z.leb_gt _ _)) by lia.
  step_with (sint_ok (0 + Z.of_nat (length bs)) (set_arrivals l w) ltac:(lia)). rewrite Z.add_0_l.
  set (D0 := splice (Z.to_nat 0) bs data).
  assert (length D0 = length data) as HD0 by (apply length_splice; lia).
  step_with (store_ok D0 (Z.of_nat (length bs)) "000"%byte (set_arrivals l w) ltac:(lia)). rewrite Nat2Z.id.
  set (junk := <[0%nat := "000"%byte]> (drop (length bs) data)).
  assert (<[length bs := "000"%byte]> D0 = bs ++ junk) as ->.
  { unfold D0, splice. change (Z.to_nat 0) with 0%nat. cbn [Nat.add]. rewrite take_0. cbn [app].
    by rewrite insert_app_r_alt, Nat.sub_diag by lia. }
  assert (length (bs ++ junk) = length data) as HD.
  { unfold junk. rewrite length_app, length_insert, length_drop. lia. }
  destruct (execute_chunk hx _ (d ++ crlf) junk P Hsz He) as (P'&Ex&Hdata&He'&Hne'&Hf&Hcl&Hdone).
  { change (hx ++ crlf ++ d ++ crlf) with bs. lia. }
  change (hx ++ crlf ++ d ++ crlf) with bs in Ex. step_with (on_ok _ _ _ (set_arrivals l w) _ Ex). rewrite Hne'.
  replace (Z.of_nat (length bs) - (Z.of_nat (length hx) + 2)) with (Z.of_nat (length d) + 2) by lia.
  rewrite (wraps_small 32 (_ + 2)), (wraps_small 32 buff_size) by (unfold in_s; lia).
  rewrite (proj2 (Z.eqb_neq _ buff_size)), Hf by lia. cbn [Z.eqb negb].
  assert (memmove_front (Z.of_nat (length hx) + 2) (Z.of_nat (length bs)) (bs ++ junk) = splice 0 (d ++ crlf) (bs ++ junk)) as ->.
  { unfold memmove_front. f_equal.
    replace (Z.to_nat (Z.of_nat (length hx) + 2)) with (length (hx ++ crlf))
      by (rewrite length_app; change (length crlf) with 2%nat; lia).
    replace (bs ++ junk) with ((hx ++ crlf) ++ (d ++ crlf) ++ junk) by (unfold bs, chunk_bytes; by rewrite <-!app_assoc).
    rewrite drop_app_length.
    rewrite take_app_le by (rewrite !length_app in *; change (length crlf) with 2%nat in *; lia).
    apply take_ge. rewrite !length_app in *. change (length crlf) with 2%nat in *. lia. }
  eexists P', _. split_and!; [reflexivity|done..| |].
  - unfold splice. rewrite take_0. cbn [app]. rewrite <-app_assoc. by rewrite take_app_length.
  - rewrite length_splice; [done|]. rewrite length_app in HD. rewrite !length_app. change (length crlf) with 2%nat. lia.
Qed.

Lemma append_body_ok {S} body data n (s : S) :
  0 ≤ n ≤ Z.of_nat (length data) → Z.of_nat (length body) + n ≤ available h → Z.of_nat (length body) + n < 2 ^ 63 →
  append_body h body data n s = Ok (body ++ take (Z.to_nat n) data) s.
Proof.
  intros Hn Hav Hl. unfold append_body. rewrite wrapu_small by (unfold in_u; lia).
  by rewrite (proj2 (Z.ltb_ge (2 ^ 63 - 1 - _) n)), (proj2 (Z.ltb_ge _ n)), (proj2 (Z.ltb_ge (available h) _)) by lia.
Qed.

(** The whole body: the chunks and the last one, of size zero. *)
Definition chunked_arrivals (chunks : list (list byte * list byte)) (zx : list byte) : list arrival :=
  ((λ c, Data (chunk_bytes c)) <$> chunks) ++ [Data (chunk_bytes (zx, []))].
Lemma recv_chunks_ok chunks zx : ∀ fuel io P body data l w,
  Forall (λ c, chunk_ok c ∧ c.2 ≠ []) chunks → chunk_ok (zx, []) →
  rp_error P = 0 → m_isConnected w = true → arrivals w = chunked_arrivals chunks zx ++ l →
  Z.of_nat (length data) = buff_size + 1 → buff_size < 2 ^ 30 →
  Z.of_nat (length (body ++ concat chunks.*2)) ≤ available h → Z.of_nat (length (body ++ concat chunks.*2)) < 2 ^ 63 →
  (length chunks < fuel)%nat →
  ∃ P', recv_chunks h fuel (S io) buff_size P body data 0 w =
      Ok (Some (P', body ++ concat chunks.*2)) (set_arrivals l w) ∧ rp_data P' = rp_data P.
Proof.
  induction chunks as [|c chunks IH]; intros [|fuel] io P body data l w Hcs Hz He Hc Ha Hd Hb Hav Hl Hf;
    try (simpl in Hf; lia); cbn [recv_chunks].
  - destruct (recv_chunk_head_ok io P data (zx, []) l w Hz He Hc Ha Hd Hb) as (P'&data'&E&Hp&_&Hcl&Hdn&_&Hld).
    step_with E. rewrite Hcl, Hdn. cbn [snd length].
    step_with (sint_ok (Z.of_nat 0 + 2 - 2) (set_arrivals l w) ltac:(lia)). change (Z.of_nat 0 <=? Z.of_nat 0 + 2 - 2) with true.
    cbv iota. rewrite !bind_assoc. cbn [fmap list_fmap concat] in *. rewrite app_nil_r in *.
    step_with (append_body_ok body data' (Z.of_nat 0) (set_arrivals l w) ltac:(lia) ltac:(lia) ltac:(lia)).
    rewrite (proj2 (Z.ltb_ge _ _)) by lia. rewrite bind_ret. change (Z.of_nat 0 <=? 0) with true.
    exists P'. split; [|done]. rewrite Nat2Z.id, take_0, app_nil_r. done.
  - apply Forall_cons in Hcs as [[Hck Hne] Hcs]. set (lr := chunked_arrivals chunks zx ++ l).
    destruct (recv_chunk_head_ok io P data c lr w Hck He Hc Ha Hd Hb) as (P'&data'&E&Hp&He'&Hcl&Hdn&Htk&Hld).
    step_with E. rewrite Hcl, Hdn. cbn [fmap list_fmap concat] in *. rewrite (app_assoc body) in *.
    assert (Z.of_nat (length c.2) + 2 ≤ buff_size) as Hfit.
    { destruct Hck as [(Hx&_) Hfit]. unfold chunk_bytes in Hfit. rewrite !length_app in Hfit.
      change (length crlf) with 2%nat in Hfit. lia. }
    assert (0 < length c.2)%nat as Hpos by (destruct c.2; [done|simpl; lia]).
    pose proof Hav as Hav'. pose proof Hl as Hl'. rewrite length_app, Nat2Z.inj_add in Hav', Hl'.
    rewrite (length_app body) in Hav', Hl'.
    step_with (sint_ok (Z.of_nat (length c.2) + 2 - 2) (set_arrivals lr w) ltac:(lia)).
    rewrite (proj2 (Z.leb_le _ (Z.of_nat (length c.2) + 2 - 2))) by lia. cbv iota. rewrite !bind_assoc.
    step_with (append_body_ok body data' (Z.of_nat (length c.2)) (set_arrivals lr w) ltac:(lia) ltac:(lia) ltac:(lia)).
    rewrite (proj2 (Z.ltb_ge _ _)) by lia. rewrite bind_ret, (proj2 (Z.leb_gt _ 0)) by lia.
    replace (Z.of_nat (length c.2) + 2 - 2 - Z.of_nat (length c.2)) with 0 by lia. rewrite Nat2Z.id, Htk.
    destruct (IH fuel io P' (body ++ c.2)
      (memmove_front (Z.of_nat (length c.2)) (Z.of_nat (length c.2) + 2 - 2) data') l (set_arrivals lr w)) as (P2&E2&Hp2);
      try done; [|simpl in Hf; lia|].
    + unfold memmove_front. rewrite length_splice; [by rewrite Hld|]. rewrite length_take, length_drop. lia.
    + exists P2. rewrite E2. split; [done|congruence].
Qed.


(** C16: a response whose body comes in chunks.  When the head arrives with nothing
    behind it and then each chunk and the last one in a segment of its own that fits
    the buffer, [recvResponse] returns the response with the data of the chunks in
    their order, and leaves what follows in the stream. *)
Theorem chunked_response (hd : message_head) (chunks : list (list byte * list byte)) (zx : list byte)
    (l : list arrival) (w : wire) (fuel : nat) :
  head_ok hd → existsb announces (h_lines hd) = true →
  Forall (λ c, chunk_ok c ∧ c.2 ≠ []) chunks → chunk_ok (zx, []) →
  m_isConnected w = true → arrivals w = Data (head_bytes hd) :: chunked_arrivals chunks zx ++ l →
  Z.of_nat (length (head_bytes hd)) ≤ buff_size → buff_size < 2 ^ 30 → buff_size < available h →
  Z.of_nat (length (concat chunks.*2)) ≤ available h → Z.of_nat (length (concat chunks.*2)) < 2 ^ 63 →
  (length chunks < fuel)%nat →
  recvResponse h garbage sizes fuel w =
    Ok (Some (r_setBody (str (concat chunks.*2)) (head_response hd (HttpResponse_new 0x11 true)))) (set_arrivals l w).
Proof.
  intros Hh Han Hcs Hz Hc Ha Hfit Hb Hav Hl1 Hl2 Hf. unfold recvResponse.
  destruct fuel as [|fuel]; [lia|]. rewrite wrapu_small by (unfold in_u; lia).
  destruct (new_chars_ok h (buff_size + 1) w) as (data&En&Hdl); [lia|]. step_with En.
  assert (arrivals w = Data (head_bytes hd ++ []) :: chunked_arrivals chunks zx ++ l) as Ha' by by rewrite app_nil_r.
  destruct (recv_response_head fuel hd [] data _ w Hh Hc Ha') as (parser&data'&Eh&Hpd&Hch&Her&_&Hld);
    [by rewrite app_nil_r|done|done|]. step_with Eh. rewrite Hch, Han.
  destruct (recv_chunks_ok chunks zx (S fuel) fuel parser [] data' l (set_arrivals (chunked_arrivals chunks zx ++ l) w))
    as (P'&E&Hp); try done; [by rewrite Hld|].
  change (Z.of_nat (length [])) with 0. step_with E. cbn [fmap option_fmap option_map fst snd app].
  by rewrite Hp, Hpd.
Qed.
End receive.

(** ** Witnesses *)

Module Demo.
Import HttpSessionSpec.Demo.
#[local] Instance demo_cast : LexicalCast := read_dec.
#[local] Instance demo_network : Network := {| tcp_connect := λ _, None; errno := 0; strerror := λ _, "" |}.
Definition demo_client_parser : httpclient_parser := mk_httpclient_parser 9 9 9 9 true true true 9 9 9 9.
Definition demo_response : HttpResponse :=
  r_setHeader "Server" "sylar" (r_setBody "hello" (r_setStatus 404 (HttpResponse_new 0x11 false))).
Definition demo_response_wire : wire :=
  mk_wire true [Data (head_bytes (response_head demo_response) ++ bytes "he"); Data (bytes "llo+")] [5] [].


Definition demo_head : message_head :=
  mk_head 0x11 200 (bytes "OK")
    [(bytes "Server", bytes " ", bytes "x"); (bytes "Transfer-Encoding", bytes " ", bytes "chunked")].
Definition demo_chunks : list (list byte * list byte) := [(bytes "5", bytes "hello"); (bytes "0a", bytes "0123456789")].
Lemma demo_head_ok : head_ok demo_head.
Proof.
  split; [by left|done|by split|]. constructor; [|constructor; [|constructor]].
  - split; [by right|left]. split_and!; [by split|done|by split].
  - split; [by right|right]. by split.
Qed.
Lemma chunked_response_witness :
  recvResponse demo_heap demo_client_parser default_sizes 9
      (mk_wire true (Data (head_bytes demo_head) :: chunked_arrivals demo_chunks (bytes "0") ++ []) [] []) =
    Ok (Some (r_setBody "hello0123456789" (head_response demo_head (HttpResponse_new 0x11 true))))
      (mk_wire true [] [] []).
Proof.
  apply (chunked_response demo_heap demo_client_parser default_sizes demo_head demo_chunks (bytes "0") []
    (mk_wire true (Data (head_bytes demo_head) :: chunked_arrivals demo_chunks (bytes "0") ++ []) [] []) 9).
  - exact demo_head_ok.
  - reflexivity.
  - repeat constructor; vm_compute; congruence.
  - repeat constructor; vm_compute; congruence.
  - reflexivity.
  - reflexivity.
  - vm_compute; congruence.
  - reflexivity.
  - reflexivity.
  - vm_compute; congruence.
  - reflexivity.
  - vm_compute; lia.
Defined.

(** A chunk cut in two by the network: two bytes of its data are lost and the end of
    its line becomes part of the body. *)
Lemma split_chunk_corrupted :
  ∃ rsp w', recvResponse demo_heap demo_client_parser default_sizes 9
      (mk_wire true [Data (head_bytes demo_head); Data (bytes ("5" +:+ CRLF +:+ "hel")); Data (bytes ("lo" +:+ CRLF));
                     Data (bytes ("0" +:+ CRLF +:+ CRLF))] [] []) = Ok (Some rsp) w' ∧
    r_body rsp = ("hlo" +:+ CRLF)%string.
Proof. eexists _, _. split; vm_compute; reflexivity. Qed.
(** Two chunks in one segment: the connection is closed. *)
Lemma joined_chunks_rejected :
  ∃ w', recvResponse demo_heap demo_client_parser default_sizes 9
      (mk_wire true [Data (head_bytes demo_head);
                     Data (bytes ("5" +:+ CRLF +:+ "hello" +:+ CRLF +:+ "2" +:+ CRLF +:+ "xy" +:+ CRLF));
                     Data (bytes ("0" +:+ CRLF +:+ CRLF))] [] []) = Ok None w' ∧ m_isConnected w' = false.
Proof. eexists. split; vm_compute; reflexivity. Qed.
(** A size line in front of its data: [append] throws. *)
Lemma bare_size_line_throws :
  ∃ w', recvResponse demo_heap demo_client_parser default_sizes 9
      (mk_wire true [Data (head_bytes demo_head); Data (bytes ("5" +:+ CRLF))] [] []) =
    Throw (length_error "basic_string::append") w'.
Proof. eexists. vm_compute; reflexivity. Qed.
(** An empty length header at the end of a head: the head is never complete. *)
Lemma empty_length_header_hangs :
  ∃ w', recvResponse demo_heap demo_client_parser default_sizes 9
      (mk_wire true [Data (bytes ("HTTP/1.1 200 OK" +:+ CRLF +:+ "Content-Length:" +:+ CRLF +:+ CRLF))] [] []) = Ok None w' ∧
    m_isConnected w' = false.
Proof. eexists. split; vm_compute; reflexivity. Qed.
End Demo.
