(* ===== verification/HttpConnectionPool.v ===== *)
(** [HttpConnectionPool] ([sylar/http/http_connection.h], [http_connection.cc]):
    the idle connections to one host.

    The pool holds plain pointers: a connection is an object in [objects], named
    by its address, and deleting it removes the object.  The readings of the
    clock are arguments. *)
From S2P Require Import Prelude Endian Text Http HttpClientParser HttpRequestParser Stream HttpReceive Address HttpConnection.
From S2P Require Uri.
From stdpp Require Import gmap.

Local Open Scope string_scope.
Local Open Scope Z_scope.

(** The members of [HttpConnection] the pool uses, the stream included. *)
Record HttpConnection := mkHttpConnection {
  stream : wire;
  m_createTime : Z;
  m_request : Z;
  remote : Address;
}.
(** [HttpConnection::HttpConnection]: the defaults of the members. *)
Definition HttpConnection_new (w : wire) (remote : Address) : HttpConnection := mkHttpConnection w 0 0 remote.
Definition set_stream (w : wire) (c : HttpConnection) : HttpConnection :=
  mkHttpConnection w (m_createTime c) (m_request c) (remote c).
Definition count_request (c : HttpConnection) : HttpConnection :=
  mkHttpConnection (stream c) (m_createTime c) (wrapu 64 (m_request c + 1)) (remote c).

(** What the constructor fixes. *)
Record Config := mkConfig {
  m_host : string;
  m_vhost : string;
  m_port : Z;
  m_maxSize : Z;
  m_maxAliveTime : Z;
  m_maxRequest : Z;
}.
Record Pool := mkPool {
  config : Config;
  m_conns : list positive;
  m_total : Z;
  objects : gmap positive HttpConnection;
}.
(** [HttpConnectionPool::HttpConnectionPool] *)
Definition Pool_new (c : Config) : Pool := mkPool c [] 0 ∅.
Definition set_conns (v : list positive) (p : Pool) : Pool := mkPool (config p) v (m_total p) (objects p).
Definition set_objects (v : gmap positive HttpConnection) (p : Pool) : Pool := mkPool (config p) (m_conns p) (m_total p) v.
(** [m_total], an [atomic<int32_t>] *)
Definition add_total (d : Z) (p : Pool) : Pool :=
  mkPool (config p) (m_conns p) (wraps 32 (m_total p + d)) (objects p).

(** Using the object behind a pointer; it dangles once the object is deleted. *)
Definition object (i : positive) : M Pool HttpConnection :=
  p ← get; match objects p !! i with Some c => mret c | None => undef NullDeref end.
Definition update_object (i : positive) (f : HttpConnection → HttpConnection) : M Pool unit :=
  c ← object i; modify (λ p, set_objects (<[i := f c]> (objects p)) p).
Definition delete_object (i : positive) : M Pool unit :=
  object i;; modify (λ p, set_objects (delete i (objects p)) p).
Fixpoint delete_all (l : list positive) : M Pool unit :=
  match l with [] => mret tt | i :: l => delete_object i;; delete_all l end.

(** The test on the age of an idle connection, which makes it invalid. *)
Definition too_old (now_ms : Z) (cfg : Config) (c : HttpConnection) : bool :=
  now_ms <? wrapu 64 (m_createTime c + m_maxAliveTime cfg).

(** The loop of [getConnection]: the connection taken and the invalid ones;
    [conns] is what [m_conns] holds. *)
Fixpoint take_idle (now_ms : Z) (conns invalid : list positive) : M Pool (option positive * list positive) :=
  match conns with
  | [] => mret (None, invalid)
  | i :: conns =>
      modify (set_conns conns);;
      p ← get;
      c ← object i;
      if negb (m_isConnected (stream c)) then take_idle now_ms conns (invalid ++ [i])%list
      else if too_old now_ms (config p) c then take_idle now_ms conns (invalid ++ [i])%list
      else mret (Some i, invalid)
  end.

Section pool.
Context {LC : LexicalCast} {HO : Host} {RS : Resolver} {NW : Network}.
Context (h : heap) (garbage : httpclient_parser) (sizes : Sizes).

(** The part of [getConnection] that makes a new connection. *)
Definition open_connection : M Pool (option positive) :=
  p ← get;
  match LookupAnyIPAddress (m_host (config p)) AF_INET 0 0 with
  | None => mret None
  | Some addr =>
      let addr := setPort (wrapu 16 (m_port (config p))) addr in
      match tcp_connect addr with
      | None => mret None
      | Some w =>
          let i := fresh (dom (objects p)) in
          modify (set_objects (<[i := HttpConnection_new w addr]> (objects p)));;
          modify (add_total 1);;
          mret (Some i)
      end
  end.
(** [HttpConnectionPool::getConnection] *)
Definition getConnection (now_ms : Z) : M Pool (option positive) :=
  p ← get;
  '(ptr, invalid_conns) ← take_idle now_ms (m_conns p) [];
  delete_all invalid_conns;;
  modify (add_total (- Z.of_nat (length invalid_conns)));;
  match ptr with
  | Some i => mret (Some i)
  | None => open_connection
  end.

(** [HttpConnectionPool::ReleasePtr], the deleter of the pointers handed out. *)
Definition ReleasePtr (now_ms : Z) (i : positive) : M Pool unit :=
  update_object i count_request;;
  c ← object i;
  cfg ← gets config;
  if negb (m_isConnected (stream c))
     || (now_ms <=? wrapu 64 (m_createTime c + m_maxAliveTime cfg))
     || (m_maxRequest cfg <=? m_request c)
  then delete_object i;; modify (add_total (-1))
  else modify (λ p, set_conns (m_conns p ++ [i])%list p).

(** Runs an operation of the stream on a connection of the pool. *)
Definition on_stream {A} (i : positive) (m : M wire A) : M Pool A :=
  c ← object i;
  (λ p, match m (stream c) with
        | Ok a w => (update_object i (set_stream w);; mret a) p
        | Throw e w => (update_object i (set_stream w);; throw e) p
        | Abort => Abort
        | Undef u => Undef u
        end) : M Pool A.
(** Runs [m] and then the deleter, also when an exception passes. *)
Definition releasing {A} (now_ms : Z) (i : positive) (m : M Pool A) : M Pool A := λ p,
  match m p with
  | Ok a p => (ReleasePtr now_ms i;; mret a) p
  | Throw e p => (ReleasePtr now_ms i;; throw e) p
  | Abort => Abort
  | Undef u => Undef u
  end.

(** [doRequest(req, timeout_ms)]; a connection always has a socket. *)
Definition doRequest_req (fuel : nat) (now_get now_release : Z) (req : HttpRequest) (timeout_ms : Z) : M Pool HttpResult :=
  conn ← getConnection now_get;
  match conn with
  | None =>
      cfg ← gets config;
      mret (make_result POOL_GET_CONNECTION None
        ("pool fail host: " +:+ m_host cfg +:+ " post:" +:+ show (m_port cfg)))
  | Some i =>
      releasing now_release i
        (c ← object i;
         on_stream i (exchange h garbage sizes fuel req (toString (remote c)) timeout_ms))
  end.

(** The request of [doRequest(method, url, ...)]: the whole [url] is the path. *)
Definition pool_request (cfg : Config) (method : HttpMethod) (url : string) (headers : list (string * string))
    (body : string) : HttpRequest :=
  let req := setClose false (setMethod method (setPath url (HttpRequest_new 0x11 true))) in
  let '(req, has_host) := foldl add_header (req, false) headers in
  setBody body
    (if (has_host : bool) then req
     else setHeader "Host" (if bool_decide (m_vhost cfg = "") then m_host cfg else m_vhost cfg) req).
Definition doRequest_url (fuel : nat) (now_get now_release : Z) (method : HttpMethod) (url : string) (timeout_ms : Z)
    (headers : list (string * string)) (body : string) : M Pool HttpResult :=
  cfg ← gets config;
  doRequest_req fuel now_get now_release (pool_request cfg method url headers body) timeout_ms.

(** Path, query and fragment of a URI. *)
Definition uri_target (uri : Uri.Uri) : string :=
  Uri.getPath uri +:+ Uri.opt_sep "?" (Uri.m_query uri) +:+ Uri.m_query uri
  +:+ Uri.opt_sep "#" (Uri.m_fragment uri) +:+ Uri.m_fragment uri.
Definition doRequest_uri (fuel : nat) (now_get now_release : Z) (method : HttpMethod) (uri : Uri.Uri) (timeout_ms : Z)
    (headers : list (string * string)) (body : string) : M Pool HttpResult :=
  doRequest_url fuel now_get now_release method (uri_target uri) timeout_ms headers body.
Definition doGet_url (fuel : nat) (now_get now_release : Z) := doRequest_url fuel now_get now_release M_GET.
Definition doGet_uri (fuel : nat) (now_get now_release : Z) (uri : Uri.Uri) :=
  doGet_url fuel now_get now_release (uri_target uri).
Definition doPost_url (fuel : nat) (now_get now_release : Z) := doRequest_url fuel now_get now_release M_POST.
Definition doPost_uri (fuel : nat) (now_get now_release : Z) (uri : Uri.Uri) :=
  doPost_url fuel now_get now_release (uri_target uri).
End pool.
