(* ===== verification/HttpConnectionPoolSpec.v ===== *)
(** Correctness of the connection pool: no pointer dangles, nothing leaks, the
    count is right, and what the age limit really does. *)
From S2P Require Import Prelude Endian Text Http HttpClientParser HttpRequestParser Stream HttpReceive Address HttpConnection HttpConnectionPool.
From stdpp Require Import gmap.

Local Open Scope Z_scope.

Section pool.
Context {LC : LexicalCast} {HO : Host} {RS : Resolver} {NW : Network}.
Implicit Types (p : Pool) (held conns l : list positive) (i : positive).

(** ** The loop over the idle connections *)

Definition usable (now : Z) (p : Pool) (i : positive) : bool :=
  match objects p !! i with
  | Some c => m_isConnected (stream c) && negb (too_old now (config p) c)
  | None => false
  end.
(** The first usable connection, what precedes and what follows it. *)
Fixpoint split_idle (ok : positive → bool) (l : list positive) : option positive * list positive * list positive :=
  match l with
  | [] => (None, [], [])
  | i :: l => if ok i then (Some i, [], l) else let '(r, s, t) := split_idle ok l in (r, i :: s, t)
  end.

Lemma split_idle_spec ok l r s t :
  split_idle ok l = (r, s, t) →
  l = s ++ option_list r ++ t ∧ Forall (λ i, ok i = false) s ∧
  match r with Some i => ok i = true | None => t = [] end.
Proof.
  revert r s t. induction l as [|i l IH]; intros r s t; simpl; [by intros [= <- <- <-]|].
  destruct (ok i) eqn:Ei; [by intros [= <- <- <-]|].
  destruct (split_idle ok l) as [[r' s'] t'] eqn:E. intros [= <- <- <-].
  destruct (IH _ _ _ eq_refl) as (->&Hs&Hr). split_and!; [done|by constructor|done].
Qed.

Definition all_there (p : Pool) (l : list positive) : Prop := ∀ i, i ∈ l → i ∈ dom (objects p).

Lemma object_there p i : i ∈ dom (objects p) → ∃ c, objects p !! i = Some c ∧ object i p = Ok c p.
Proof.
  intros [c Hc]%elem_of_dom. exists c. split; [done|].
  unfold object, get, mbind, M_bind. by rewrite Hc.
Qed.

Lemma take_idle_spec now l invalid p r s t :
  all_there p l → split_idle (usable now p) l = (r, s, t) →
  m_conns p = l → take_idle now l invalid p = Ok (r, invalid ++ s) (set_conns t p).
Proof.
  revert invalid p r s t. induction l as [|i l IH]; intros invalid p r s t Ht Hs Hp; simpl in *.
  { injection Hs as <- <- <-. rewrite app_nil_r. destruct p; simpl in *. by subst. }
  destruct (object_there (set_conns l p) i) as (c&Hc&Ho); [apply Ht, list_elem_of_here|].
  rewrite bind_modify. unfold get at 1, mbind at 1, M_bind at 1. step_with Ho.
  unfold usable in Hs at 1. simpl in Hc. rewrite Hc in Hs.
  destruct (m_isConnected (stream c)); [destruct (too_old now (config p) c) eqn:Eo|]; simpl in *.
  2: { rewrite Eo. injection Hs as <- <- <-. by rewrite app_nil_r. }
  all: rewrite ?Eo; destruct (split_idle _ l) as [[r' s'] t'] eqn:E; injection Hs as <- <- <-.
  all: rewrite (IH _ _ r' s' t'); [by rewrite <-app_assoc|..|done];
    [intros j Hj; by apply Ht, list_elem_of_further|exact E].
Qed.

Definition remove_all (l : list positive) (m : gmap positive HttpConnection) : gmap positive HttpConnection :=
  foldl (λ m i, delete i m) m l.
Lemma dom_remove_all l m : dom (remove_all l m) = dom m ∖ list_to_set l.
Proof.
  revert m. induction l as [|i l IH]; intros m; simpl; [set_solver|].
  rewrite IH, dom_delete_L. set_solver.
Qed.
Lemma remove_all_lookup l m j : j ∉ l → remove_all l m !! j = m !! j.
Proof.
  revert m. induction l as [|i l IH]; intros m Hj; [done|].
  apply not_elem_of_cons in Hj as [Hne Hj]. simpl. rewrite IH by done. by rewrite lookup_delete_ne.
Qed.
Lemma delete_all_ok l p :
  NoDup l → all_there p l → delete_all l p = Ok tt (set_objects (remove_all l (objects p)) p).
Proof.
  revert p. induction l as [|i l IH]; intros p Hl Ht; simpl; [by destruct p|].
  apply NoDup_cons in Hl as [Hi Hl].
  destruct (object_there p i) as (c&Hc&Ho); [apply Ht, list_elem_of_here|].
  assert (delete_object i p = Ok tt (set_objects (delete i (objects p)) p)) as Hd.
  { unfold delete_object. by step_with Ho. }
  step_with Hd. rewrite IH; [done|done|].
  intros j Hj. simpl. rewrite dom_delete_L. assert (j ≠ i) by (by intros ->).
  assert (j ∈ dom (objects p)) by (apply Ht; by apply list_elem_of_further). set_solver.
Qed.

(** ** The invariant *)

(** [held] are the connections handed out and not released. *)
Record pool_ok (p : Pool) (held : list positive) : Prop := {
  ok_nodup : NoDup (m_conns p ++ held);
  ok_dom : dom (objects p) = list_to_set (m_conns p ++ held);
  ok_total : m_total p = wraps 32 (Z.of_nat (length (m_conns p ++ held)));
  (** nothing ever sets the time of creation *)
  ok_created : map_Forall (λ _ c, m_createTime c = 0) (objects p);
}.

Lemma remove_all_subseteq l m : remove_all l m ⊆ m.
Proof.
  revert m. induction l as [|i l IH]; intros m; [done|]. simpl.
  etrans; [apply IH|apply delete_subseteq].
Qed.

Lemma wraps_add w a b : wraps w (wraps w a + b) = wraps w (a + b).
Proof.
  unfold wraps. f_equal.
  replace ((a + 2 ^ (w - 1)) mod 2 ^ w - 2 ^ (w - 1) + b + 2 ^ (w - 1)) with ((a + 2 ^ (w - 1)) mod 2 ^ w + b) by lia.
  rewrite Zplus_mod_idemp_l. f_equal. lia.
Qed.

Lemma pool_new_ok c : pool_ok (Pool_new c) [].
Proof. split; simpl; [apply NoDup_nil_2|by rewrite dom_empty_L|done|apply map_Forall_empty]. Qed.

(** Dropping the unusable connections. *)
Lemma drop_invalid_ok p held s t r :
  pool_ok p held → m_conns p = s ++ option_list r ++ t →
  pool_ok (add_total (- Z.of_nat (length s)) (set_objects (remove_all s (objects p)) (set_conns t p)))
    (option_list r ++ held).
Proof.
  intros [Hn Hd Ht Hcr] E. rewrite E in *. simpl.
  assert (s ++ option_list r ++ t ++ held ≡ₚ s ++ (t ++ option_list r ++ held)) as HP.
  { apply Permutation_app_head. rewrite !app_assoc. apply Permutation_app_tail, Permutation_app_comm. }
  rewrite <-!app_assoc in Hn, Hd, Ht. rewrite HP in Hn, Hd, Ht. apply NoDup_app in Hn as (Hs&Hst&Hn).
  split; simpl.
  - exact Hn.
  - rewrite dom_remove_all, Hd, list_to_set_app_L. apply set_eq. intros j.
    rewrite elem_of_difference, elem_of_union, !elem_of_list_to_set.
    split; [tauto|]. intros Hj. split; [tauto|]. intros Hj'. by apply (Hst j).
  - rewrite Ht, wraps_add, length_app. f_equal. lia.
  - intros i c Hi. apply (Hcr i). eapply lookup_weaken; [exact Hi|apply remove_all_subseteq].
Qed.

(** The state once the unusable connections are gone. *)
Definition cleaned (s t : list positive) (p : Pool) : Pool :=
  add_total (- Z.of_nat (length s)) (set_objects (remove_all s (objects p)) (set_conns t p)).

Lemma getConnection_split now p held r s t :
  pool_ok p held → split_idle (usable now p) (m_conns p) = (r, s, t) →
  getConnection now p =
    match r with Some i => Ok (Some i) (cleaned s t p) | None => open_connection (cleaned s t p) end.
Proof.
  intros [Hn Hd Ht Hcr] E. destruct (split_idle_spec _ _ _ _ _ E) as (Ec&_&_).
  assert (all_there p (m_conns p)) as Hall.
  { intros j Hj. rewrite Hd. apply elem_of_list_to_set, elem_of_app. by left. }
  unfold getConnection, get at 1, mbind at 1, M_bind at 1.
  step_with (take_idle_spec now (m_conns p) [] p r s t Hall E eq_refl).
  assert (delete_all ([] ++ s) (set_conns t p) =
      Ok tt (set_objects (remove_all s (objects p)) (set_conns t p))) as Hdel.
  { rewrite delete_all_ok; [done|..].
    - rewrite Ec in Hn. apply NoDup_app in Hn as (Hn&_). apply NoDup_app in Hn as (Hn&_). exact Hn.
    - intros j Hj. apply Hall. rewrite Ec. apply elem_of_app. by left. }
  step_with Hdel. rewrite bind_modify. by destruct r.
Qed.

Lemma open_connection_ok p held :
  pool_ok p held →
  ∃ o p', open_connection p = Ok o p' ∧ config p' = config p ∧
    (∀ j, j ∈ held → objects p' !! j = objects p !! j) ∧
    match o with Some i => (i ∉ held) ∧ pool_ok p' (i :: held) | None => pool_ok p' held end.
Proof.
  intros Hp. unfold open_connection, get at 1, mbind at 1, M_bind at 1.
  destruct (LookupAnyIPAddress _ _ _ _) as [addr|]; [destruct (tcp_connect _) as [w|]|].
  2,3: by exists None, p.
  cbv zeta. rewrite !bind_modify.
  set (i := fresh (dom (objects p))). assert (i ∉ dom (objects p)) as Hi by apply is_fresh.
  exists (Some i). eexists. split; [reflexivity|]. destruct Hp as [Hn Hd Ht Hcr].
  assert (i ∉ m_conns p ++ held) as Hi' by (by rewrite <-(elem_of_list_to_set (C:=gset positive)), <-Hd).
  assert (i ∉ held) as Hih by (intros Hh; apply Hi', elem_of_app; by right).
  split_and!; [done| |done|].
  - intros j Hj. cbn [objects add_total set_objects]. rewrite lookup_insert_ne; [done|by intros <-].
  - split; cbn [m_conns objects m_total add_total set_objects].
    + rewrite <-Permutation_middle. by apply NoDup_cons.
    + rewrite dom_insert_L, Hd, !list_to_set_app_L, list_to_set_cons. set_solver.
    + rewrite Ht, wraps_add, !length_app. simpl. f_equal. lia.
    + by apply map_Forall_insert_2.
Qed.

Lemma getConnection_ok now p held :
  pool_ok p held →
  ∃ o p', getConnection now p = Ok o p' ∧ config p' = config p ∧
    (∀ j, j ∈ held → objects p' !! j = objects p !! j) ∧
    match o with Some i => (i ∉ held) ∧ pool_ok p' (i :: held) | None => pool_ok p' held end.
Proof.
  intros Hp. destruct (split_idle (usable now p) (m_conns p)) as [[r s] t] eqn:E.
  destruct (split_idle_spec _ _ _ _ _ E) as (Ec&_&_).
  rewrite (getConnection_split now p held r s t Hp E).
  pose proof (drop_invalid_ok p held s t r Hp Ec) as Hp'. fold (cleaned s t p) in Hp'.
  assert (∀ j, j ∈ held → objects (cleaned s t p) !! j = objects p !! j) as Hsame.
  { intros j Hj. simpl. apply remove_all_lookup. intros Hs. destruct Hp as [Hn _ _ _].
    apply NoDup_app in Hn as (_&Hn&_). apply (Hn j); [|done]. rewrite Ec. apply elem_of_app. by left. }
  destruct r as [i|]; simpl in Hp'.
  - exists (Some i), (cleaned s t p). split_and!; [done|done|exact Hsame| |exact Hp'].
    destruct Hp' as [Hn' _ _ _]. apply NoDup_app in Hn' as (_&_&Hn'). by apply NoDup_cons in Hn' as [Hi _].
  - destruct (open_connection_ok _ _ Hp') as (o&p'&E'&Hc'&Hsame'&Ho). exists o, p'. split_and!; [done|by rewrite Hc'| |exact Ho].
    intros j Hj. rewrite Hsame' by done. auto.
Qed.

(** Handing a connection back, or deleting it. *)
Lemma ReleasePtr_ok now p held i :
  pool_ok p (i :: held) →
  ∃ p', ReleasePtr now i p = Ok tt p' ∧ config p' = config p ∧
    (∀ j, j ∈ held → objects p' !! j = objects p !! j) ∧ pool_ok p' held.
Proof.
  intros [Hn Hd Ht Hcr].
  assert (i ∈ dom (objects p)) as Hi by (rewrite Hd; set_solver).
  destruct (object_there p i Hi) as (c&Hc&Ho).
  assert (m_conns p ++ i :: held ≡ₚ i :: (m_conns p ++ held)) as HP by by rewrite Permutation_middle.
  rewrite HP in Hn, Hd, Ht. apply NoDup_cons in Hn as [Hni Hn].
  assert (i ∉ held) as Hih by (intros H; apply Hni, elem_of_app; by right).
  set (p1 := set_objects (<[i:=count_request c]> (objects p)) p).
  assert (update_object i count_request p = Ok tt p1) as Hu by (unfold update_object; by step_with Ho).
  unfold ReleasePtr. step_with Hu.
  assert (i ∈ dom (objects p1)) as Hi1 by (simpl; rewrite dom_insert_L; set_solver).
  destruct (object_there p1 i Hi1) as (c1&Hc1&Ho1). step_with Ho1. rewrite bind_gets.
  assert (map_Forall (λ _ c, m_createTime c = 0) (objects p1)) as Hcr1.
  { simpl. apply map_Forall_insert_2; [|done]. exact (Hcr i c Hc). }
  assert (∀ j, j ∈ held → objects p1 !! j = objects p !! j) as Hsame.
  { intros j Hj. simpl. rewrite lookup_insert_ne; [done|by intros <-]. }
  destruct (_ || _).
  - assert (delete_object i p1 = Ok tt (set_objects (delete i (objects p1)) p1)) as Hdel
      by (unfold delete_object; by step_with Ho1).
    step_with Hdel. eexists. split; [reflexivity|]. split_and!; [done| |].
    + intros j Hj. cbn [objects add_total set_objects]. rewrite lookup_delete_ne by (by intros <-). by apply Hsame.
    + split; cbn [m_conns objects m_total add_total set_objects]; [done| | |by apply map_Forall_delete].
      * rewrite dom_delete_L. simpl. rewrite dom_insert_L, Hd.
        assert (i ∉ (list_to_set (m_conns p ++ held) : gset positive)) by (by rewrite elem_of_list_to_set).
        set_solver.
      * simpl. rewrite Ht, wraps_add. simpl. f_equal. lia.
  - eexists. split; [reflexivity|]. split_and!; [done|exact Hsame|].
    assert ((m_conns p ++ [i]) ++ held ≡ₚ i :: (m_conns p ++ held)) as HP'.
    { rewrite <-app_assoc. by rewrite Permutation_middle. }
    split; cbn [m_conns objects m_total set_conns set_objects]; change (m_conns p1) with (m_conns p); rewrite ?HP'.
    + by apply NoDup_cons.
    + simpl. rewrite dom_insert_L, Hd. set_solver.
    + done.
    + exact Hcr1.
Qed.
(** Input and output on a connection that is held. *)
Lemma set_stream_ok p held i w :
  pool_ok p held → i ∈ held →
  ∃ p', update_object i (set_stream w) p = Ok tt p' ∧ pool_ok p' held ∧ config p' = config p.
Proof.
  intros [Hn Hd Ht Hcr] Hi.
  assert (i ∈ dom (objects p)) as Hi' by (rewrite Hd; set_solver).
  destruct (object_there p i Hi') as (c&Hc&Ho).
  eexists. unfold update_object. step_with Ho. split; [reflexivity|]. split; [|done]. split; simpl; try done.
  - rewrite dom_insert_L. set_solver.
  - apply map_Forall_insert_2; [|done]. exact (Hcr i c Hc).
Qed.

(** ** Runs of the pool *)

(** The states the pool goes through, with the connections its users hold; fibers
    may interleave in any way, and what happens on a stream is arbitrary. *)
Inductive reach (cfg : Config) : Pool → list positive → Prop :=
  | reach_new : reach cfg (Pool_new cfg) []
  | reach_get now p held o p' :
      reach cfg p held → getConnection now p = Ok o p' → reach cfg p' (option_list o ++ held)
  | reach_use p held i w p' :
      reach cfg p held → i ∈ held → update_object i (set_stream w) p = Ok tt p' → reach cfg p' held
  | reach_release now p held i rest p' :
      reach cfg p held → held ≡ₚ i :: rest → ReleasePtr now i p = Ok tt p' → reach cfg p' rest.

Lemma pool_ok_perm p held held' : held ≡ₚ held' → pool_ok p held → pool_ok p held'.
Proof. intros HP [Hn Hd Ht Hc]. split; by rewrite <-?HP. Qed.

Lemma reach_ok cfg p held : reach cfg p held → pool_ok p held ∧ config p = cfg.
Proof.
  induction 1 as [|now p held o p' _ [IH Hc] E|p held i w p' _ [IH Hc] Hi E|now p held i rest p' _ [IH Hc] HP E].
  - split; [apply pool_new_ok|done].
  - destruct (getConnection_ok now p held IH) as (o'&p''&E'&Hc'&_&H). rewrite E in E'. injection E' as <- <-.
    split; [|congruence]. destruct o; [by destruct H|done].
  - destruct (set_stream_ok p held i w IH Hi) as (p''&E'&H&Hc'). rewrite E in E'. injection E' as <-.
    split; [done|congruence].
  - apply (pool_ok_perm _ _ _ HP) in IH. destruct (ReleasePtr_ok now p rest i IH) as (p''&E'&Hc'&_&H).
    rewrite E in E'. injection E' as <-. split; [done|congruence].
Qed.

(** C15: in every run of the pool, however its users interleave, the idle list and
    the connections in use name distinct objects, these are all the objects there
    are, and [m_total] is their number; so no operation meets a dangling pointer:
    taking, using and releasing a connection always returns. *)
Theorem pool_invariant (cfg : Config) (p : Pool) (held : list positive) (now : Z) :
  reach cfg p held →
  NoDup (m_conns p ++ held) ∧
  dom (objects p) = list_to_set (m_conns p ++ held) ∧
  m_total p = wraps 32 (Z.of_nat (length (m_conns p ++ held))) ∧
  (∃ o p', getConnection now p = Ok o p') ∧
  ∀ i, i ∈ held → (∃ p', ReleasePtr now i p = Ok tt p') ∧ ∃ c, object i p = Ok c p.
Proof.
  intros [Hok Hc]%reach_ok. pose proof Hok as [Hn Hd Ht _]. split_and!; try done.
  - destruct (getConnection_ok now p held Hok) as (o&p'&E&_). by exists o, p'.
  - intros i Hi. split.
    + apply elem_of_Permutation in Hi as (rest&HP).
      destruct (ReleasePtr_ok now p rest i) as (p'&E&_); [by eapply pool_ok_perm|by exists p'].
    + destruct (object_there p i) as (c&_&E); [rewrite Hd; set_solver|by exists c].
Qed.

(** The age limit works the wrong way round.  Connections carry the creation
    time 0, so from [m_maxAliveTime] milliseconds after the epoch on it never
    removes one: [getConnection] hands out the first connected idle connection and
    [ReleasePtr] keeps every connected one below the request limit, whatever their
    age; before that moment every released connection is deleted. *)
Theorem pool_lifetime (cfg : Config) (p : Pool) (held : list positive) (now : Z) :
  reach cfg p held → 0 ≤ m_maxAliveTime cfg < 2 ^ 32 →
  (∀ i s t, m_maxAliveTime cfg ≤ now →
    split_idle (λ j, default false (m_isConnected ∘ stream <$> objects p !! j)) (m_conns p) = (Some i, s, t) →
    ∃ p', getConnection now p = Ok (Some i) p' ∧ m_conns p' = t) ∧
  (∀ i c, i ∈ held → objects p !! i = Some c →
    ∃ p', ReleasePtr now i p = Ok tt p' ∧
      (m_maxAliveTime cfg < now → m_isConnected (stream c) = true →
       wrapu 64 (m_request c + 1) < m_maxRequest cfg → m_conns p' = m_conns p ++ [i]) ∧
      (now ≤ m_maxAliveTime cfg → m_conns p' = m_conns p ∧ i ∉ dom (objects p'))).
Proof.
  intros [Hok Hc]%reach_ok Hm. pose proof Hok as [Hn Hd Ht Hcr].
  assert (∀ c, m_createTime c = 0 → wrapu 64 (m_createTime c + m_maxAliveTime cfg) = m_maxAliveTime cfg) as Hw.
  { intros c ->. apply wrapu_small. unfold in_u. lia. }
  split.
  - intros i s t Hnow E. exists (cleaned s t p). split; [|done].
    rewrite (getConnection_split now p held (Some i) s t Hok); [done|]. rewrite <-E.
    assert (∀ l, split_idle (usable now p) l =
      split_idle (λ j, default false (m_isConnected ∘ stream <$> objects p !! j)) l) as He; [|apply He].
    induction l as [|j l IH]; [done|]. simpl. rewrite IH. unfold usable.
    destruct (objects p !! j) as [c|] eqn:Ec; [|done]. simpl. unfold too_old.
    rewrite Hc, Hw by exact (Hcr j c Ec). rewrite (proj2 (Z.ltb_ge _ _)) by done. by rewrite andb_true_r.
  - intros i c Hi Hci. unfold ReleasePtr, update_object.
    assert (object i p = Ok c p) as Ho by (unfold object, get, mbind, M_bind; by rewrite Hci).
    rewrite bind_assoc. step_with Ho. rewrite bind_modify.
    set (p1 := set_objects _ p).
    assert (object i p1 = Ok (count_request c) p1) as Ho1.
    { unfold object, get, mbind, M_bind. simpl. by rewrite lookup_insert_eq. }
    step_with Ho1. rewrite bind_gets. cbn [config p1 set_objects]. rewrite Hc.
    change (m_createTime (count_request c)) with (m_createTime c). rewrite Hw by exact (Hcr i c Hci).
    change (stream (count_request c)) with (stream c).
    change (m_request (count_request c)) with (wrapu 64 (m_request c + 1)).
    destruct (_ || _) eqn:Eb.
    + eexists. unfold delete_object. rewrite bind_assoc. step_with Ho1. rewrite bind_modify. split; [reflexivity|].
      split.
      * intros H1 H2 H3. exfalso. rewrite !orb_true_iff, negb_true_iff, !Z.leb_le in Eb.
        destruct Eb as [[Eb|Eb]|Eb]; [congruence|lia|lia].
      * intros _. split; [done|]. cbn [objects add_total set_objects]. rewrite dom_delete_L. set_solver.
    + eexists. split; [reflexivity|]. split; [done|]. intros H1. exfalso.
      rewrite !orb_false_iff, !Z.leb_gt in Eb. lia.
Qed.
End pool.

(** ** Witnesses *)

Module Demo.
#[local] Instance demo_cast : LexicalCast := read_dec.
#[local] Instance demo_resolver : Resolver := {
  getaddrinfo := λ _ _ _ _ _, Some [SockIn (mk_in AF_INET 0 0x0100007f [])];
  inet_pton := λ _ _, None;
  getifaddrs := None;
}.
#[local] Instance demo_network : Network := {
  tcp_connect := λ _, Some (mk_wire true [] [] []);
  errno := 0;
  strerror := λ _, ""%string;
}.
Definition demo_config : Config := mkConfig "localhost" "" 80 10 30000 100.
#[local] Instance demo_host : Host := little_host.
Definition pool_of {A} (r : res Pool A) : Pool := match r with Ok _ p => p | _ => Pool_new demo_config end.
(** One connection taken, then released. *)
Definition taken (now : Z) : Pool := pool_of (getConnection now (Pool_new demo_config)).

Lemma taken_reach now : getConnection now (Pool_new demo_config) = Ok (Some 1%positive) (taken now) →
  reach demo_config (taken now) [1%positive].
Proof. intros E. exact (reach_get demo_config now _ [] (Some 1%positive) _ (reach_new _) E). Qed.

Lemma pool_invariant_witness :
  reach demo_config (taken 1000000) [1%positive] ∧ m_total (taken 1000000) = 1 ∧
  ∃ p', ReleasePtr 1000000 1%positive (taken 1000000) = Ok tt p'.
Proof.
  assert (reach demo_config (taken 1000000) [1%positive]) as Hr by (apply taken_reach; vm_compute; reflexivity).
  destruct (pool_invariant demo_config _ _ 1000000 Hr) as (_&_&Ht&_&Hi).
  split; [exact Hr|]. split; [exact Ht|]. apply Hi. by apply list_elem_of_here.
Defined.

Lemma pool_lifetime_witness :
  ∃ p', ReleasePtr 1000000 1%positive (taken 1000000) = Ok tt p' ∧ m_conns p' = [1%positive].
Proof.
  assert (reach demo_config (taken 1000000) [1%positive]) as Hr by (apply taken_reach; vm_compute; reflexivity).
  destruct (pool_lifetime demo_config _ _ 1000000 Hr) as [_ Hrel]; [simpl; lia|].
  destruct (Hrel 1%positive (default (HttpConnection_new (mk_wire true [] [] []) (UnknownAddress 0 []))
              (objects (taken 1000000) !! 1%positive))) as (p'&E&Hk&_);
    [by apply list_elem_of_here|vm_compute; reflexivity|].
  exists p'. split; [exact E|]. apply Hk; [simpl; lia|vm_compute; reflexivity|vm_compute; reflexivity].
Defined.
End Demo.
