(* ===== verification/LogFormatter.v ===== *)
(** Levels, events and formatters of the log ([sylar/log.h], [log.cc]):
    [LogFormatter::init] reads a pattern into items, [format] writes an event with
    them.

    Loggers are named by their addresses; the name an item prints is looked up
    through [name_of].  [localtime_r] and [strftime] are a parameter. *)
From S2P Require Import Prelude Text.
From Stdlib Require Import Ascii.

Local Open Scope string_scope.

(** ** Levels *)

Definition Level := Z.
Definition UNKNOW : Level := 0%Z.
Definition DEBUG : Level := 1%Z.
Definition INFO : Level := 2%Z.
Definition WARN : Level := 3%Z.
Definition ERROR : Level := 4%Z.
Definition FATAL : Level := 5%Z.

(** [LogLevel::ToString] *)
Definition ToString (level : Level) : string :=
  if (level =? DEBUG)%Z then "DEBUG" else if (level =? INFO)%Z then "INFO" else if (level =? WARN)%Z then "WARN"
  else if (level =? ERROR)%Z then "ERROR" else if (level =? FATAL)%Z then "FATAL" else "UNKNOW".
(** [LogLevel::FromString] *)
Definition FromString (s : string) : Level :=
  let eq x := bool_decide (s = x) in
  if eq "debug" then DEBUG else if eq "info" then INFO else if eq "warn" then WARN
  else if eq "error" then ERROR else if eq "fatal" then FATAL
  else if eq "DEBUG" then DEBUG else if eq "INFO" then INFO else if eq "WARN" then WARN
  else if eq "ERROR" then ERROR else if eq "FATAL" then FATAL else UNKNOW.

(** ** Events *)

Record LogEvent := mkLogEvent {
  m_file : string;
  m_line : Z;
  m_elapse : Z;
  m_threadId : Z;
  m_threadName : string;
  m_fiberId : Z;
  m_time : Z;
  m_ss : string;
  m_logger : positive;
  m_level : Level;
}.
(** [LogEvent::LogEvent]: the ids are stored as [int32_t]. *)
Definition LogEvent_new (logger : positive) (level : Level) (file : string) (line elapse thread_id fiber_id time : Z)
    (thread_name : string) : LogEvent :=
  mkLogEvent file line elapse (wraps 32 thread_id) thread_name (wraps 32 fiber_id) time "" logger level.
(** The accessors that convert. *)
Definition getThreadId (e : LogEvent) : Z := wrapu 32 (m_threadId e).
Definition getFiberId (e : LogEvent) : Z := wrapu 32 (m_fiberId e).
Definition getTime (e : LogEvent) : Z := wrapu 32 (m_time e).
(** [getSS() << text] *)
Definition append (text : string) (e : LogEvent) : LogEvent :=
  mkLogEvent (m_file e) (m_line e) (m_elapse e) (m_threadId e) (m_threadName e) (m_fiberId e) (m_time e)
    (m_ss e +:+ text) (m_logger e) (m_level e).

(** ** Items *)

Inductive FormatItem :=
  | MessageFormatItem | LevelFormatItem | ElapseFormatItem | NameFormatItem | ThreadIdFormatItem
  | FiberIdFormatItem | ThreadNameFormatItem | DateTimeFormatItem (format : string)
  | FilenameFormatItem | LineFormatItem | NewLineFormatItem | StringFormatItem (s : string) | TabFormatItem.

(** [strftime] of the local time into 64 bytes: nothing when it does not fit, the
    bytes are then indeterminate. *)
Class LocalTime := strftime : string → Z → option string.

(** [std::to_string] of a signed number *)
Definition show_signed (n : Z) : string := if (n <? 0)%Z then "-" +:+ show (- n) else show n.

Section format.
Context `{LocalTime} {S : Type} (name_of : positive → M S string).

(** The [format] methods of the items: what is written. *)
Definition format_item (item : FormatItem) (level : Level) (event : LogEvent) : M S string :=
  match item with
  | MessageFormatItem => mret (m_ss event)
  | LevelFormatItem => mret (ToString level)
  | ElapseFormatItem => mret (show (m_elapse event))
  | NameFormatItem => name_of (m_logger event)
  | ThreadIdFormatItem => mret (show (getThreadId event))
  | FiberIdFormatItem => mret (show (getFiberId event))
  | ThreadNameFormatItem => mret (m_threadName event)
  | DateTimeFormatItem f =>
      match strftime (c_str f) (getTime event) with Some t => mret t | None => undef Uninitialised end
  | FilenameFormatItem => mret (m_file event)
  | LineFormatItem => mret (show_signed (m_line event))
  | NewLineFormatItem => mret (String "010" "")
  | StringFormatItem s => mret s
  | TabFormatItem => mret (String "009" "")
  end.
(** [LogFormatter::format] *)
Fixpoint format (items : list FormatItem) (level : Level) (event : LogEvent) : M S string :=
  match items with
  | [] => mret ""
  | i :: items => a ← format_item i level event; b ← format items level event; mret (a +:+ b)
  end.
End format.

(** ** Patterns *)

Section pattern.
Context (m_pattern : string).

Definition pattern_size : nat := String.length m_pattern.
(** [m_pattern[i]] *)
Definition char_at (i : nat) : ascii := default "000"%char (String.get i m_pattern).
Definition isalpha (c : ascii) : bool :=
  let n := N_of_ascii c in (((65 <=? n) && (n <=? 90)) || ((97 <=? n) && (n <=? 122)))%N.
Definition substr (pos n : nat) : string := String.substring pos n m_pattern.

(** The inner loop, from the percent sign at [i]: the position, whether a brace is
    open, the name and the format. *)
Fixpoint scan_item (fuel i n : nat) (fmt_state : bool) (fmt_begin : nat) (str fmt : string)
    : option (nat * bool * string * string) :=
  if (pattern_size <=? n)%nat then Some (n, fmt_state, str, fmt)
  else
    match fuel with
    | O => None
    | S fuel =>
        let c := char_at n in
        if negb fmt_state && (negb (isalpha c) && negb (Ascii.eqb c "{") && negb (Ascii.eqb c "}"))
        then Some (n, fmt_state, substr (i + 1) (n - i - 1), fmt)
        else if negb fmt_state && Ascii.eqb c "{"
        then scan_item fuel i (n + 1) true n (substr (i + 1) (n - i - 1)) fmt
        else if fmt_state && Ascii.eqb c "}"
        then Some (n + 1, false, str, substr (fmt_begin + 1) (n - fmt_begin - 1))
        else
          let n := n + 1 in
          let str := if (n =? pattern_size)%nat && bool_decide (str = "") then substr (i + 1) (pattern_size - (i + 1)) else str in
          scan_item fuel i n fmt_state fmt_begin str fmt
    end.

(** The outer loop: the pieces with their kind, 0 for text and 1 for an item, and
    whether there was an error. *)
Definition flush (nstr : string) (vec : list (string * string * Z)) : list (string * string * Z) :=
  if bool_decide (nstr = "") then vec else (vec ++ [(nstr, "", 0%Z)])%list.
Fixpoint scan_pattern (fuel i : nat) (nstr : string) (vec : list (string * string * Z)) (error : bool)
    : option (list (string * string * Z) * bool) :=
  if (pattern_size <=? i)%nat then Some (flush nstr vec, error)
  else
    match fuel with
    | O => None
    | S fuel =>
        if negb (Ascii.eqb (char_at i) "%")
        then scan_pattern fuel (i + 1) (nstr +:+ String (char_at i) "") vec error
        else if (i + 1 <? pattern_size)%nat && Ascii.eqb (char_at (i + 1)) "%"
        then scan_pattern fuel (i + 1) (nstr +:+ "%") vec error
        else
          '(n, fmt_state, str, fmt) ← scan_item (pattern_size - i) i (i + 1) false 0 "" "";
          if (fmt_state : bool)
          then scan_pattern fuel (i + 1) nstr (vec ++ [("<<pattern_error>>", fmt, 0%Z)])%list true
          else scan_pattern fuel n "" (flush nstr vec ++ [(str, fmt, 1%Z)])%list error
    end.
End pattern.

(** [s_format_items] *)
Definition s_format_items (name fmt : string) : option FormatItem :=
  let eq x := bool_decide (name = x) in
  if eq "m" then Some MessageFormatItem else if eq "p" then Some LevelFormatItem
  else if eq "r" then Some ElapseFormatItem else if eq "c" then Some NameFormatItem
  else if eq "t" then Some ThreadIdFormatItem else if eq "n" then Some NewLineFormatItem
  else if eq "d" then Some (DateTimeFormatItem (if bool_decide (fmt = "") then "%Y-%m-%d %H:%M:%S" else fmt))
  else if eq "f" then Some FilenameFormatItem else if eq "l" then Some LineFormatItem
  else if eq "T" then Some TabFormatItem else if eq "F" then Some FiberIdFormatItem
  else if eq "N" then Some ThreadNameFormatItem else None.

(** The item of a piece, and whether it is an error. *)
Definition make_item (e : string * string * Z) : FormatItem * bool :=
  let '(str, fmt, kind) := e in
  if (kind =? 0)%Z then (StringFormatItem str, false)
  else
    match s_format_items str fmt with
    | Some i => (i, false)
    | None => (StringFormatItem ("<< error_format %" +:+ str +:+ ">>"), true)
    end.

Record LogFormatter := mkLogFormatter { m_pattern : string; m_items : list FormatItem; m_error : bool }.
(** [LogFormatter::LogFormatter] with [init]; [None] would be a loop that does not
    end. *)
Definition LogFormatter_new (pattern : string) : option LogFormatter :=
  '(vec, error) ← scan_pattern pattern (pattern_size pattern) 0 "" [] false;
  let items := make_item <$> vec in
  Some (mkLogFormatter pattern (fst <$> items) (error || existsb snd items)).
