(* ===== verification/Daemon.v ===== *)
(** The parent process that restarts the server ([sylar/daemon.h], [daemon.cc]).

    [fork] and [waitpid] are answers of the system, numbered by the forks so far; a
    process that gets 0 from [fork] is the child and runs the program. *)
From S2P Require Import Prelude Text LogFormatter.

Local Open Scope string_scope.
Local Open Scope Z_scope.

Record ProcessInfo := mkProcessInfo {
  parent_id : Z;
  main_id : Z;
  parent_start_time : Z;
  main_start_time : Z;
  restart_count : Z;
}.
Definition ProcessInfo_new : ProcessInfo := mkProcessInfo 0 0 0 0 0.

(** [Time2Str] with its default format; nothing when the text does not fit, whose
    buffer is then indeterminate. *)
Definition Time2Str `{LocalTime} (ts : Z) : option string := strftime "%Y-%m-%d %H:%M:%S" ts.
(** [ProcessInfo::toString] *)
Definition toString `{LocalTime} (p : ProcessInfo) : option string :=
  a ← Time2Str (parent_start_time p);
  b ← Time2Str (main_start_time p);
  Some ("[ProcessInfo parent_id=" +:+ show_signed (parent_id p) +:+ " main_id=" +:+ show_signed (main_id p)
        +:+ " parent_start_time=" +:+ a +:+ " main_start_time=" +:+ b
        +:+ " restart_count=" +:+ show (restart_count p) +:+ "]").

(** The system: the [n]-th fork, the status its child leaves (0 also when [waitpid]
    fails, which does not set it), and the process id and the time then. *)
Class Processes := {
  fork : nat → Z;
  status : nat → Z;
  getpid : nat → Z;
  now : nat → Z;
}.

(** The singleton [ProcessInfoMgr], the number of forks and the pauses made. *)
Record Daemon := mkDaemon {
  info : ProcessInfo;
  forks : nat;
  sleeps : list Z;
}.
Definition Daemon_new : Daemon := mkDaemon ProcessInfo_new 0 [].
Definition update_info (f : ProcessInfo → ProcessInfo) : M Daemon unit :=
  modify (λ d, mkDaemon (f (info d)) (forks d) (sleeps d)).

Section daemon.
Context `{Processes} (restart_interval : Z) (main_cb : M Daemon Z).

(** [real_start] *)
Definition real_start : M Daemon Z := main_cb.
(** The loop of [real_daemon] *)
Fixpoint daemon_loop (fuel : nat) : M Daemon Z :=
  match fuel with
  | O => undef NoFuel
  | S fuel =>
      n ← gets forks;
      let pid := fork n in
      modify (λ d, mkDaemon (info d) (S n) (sleeps d));;
      if pid =? 0 then
        update_info (λ i, mkProcessInfo (parent_id i) (getpid n) (parent_start_time i) (now n) (restart_count i));;
        real_start
      else if pid <? 0 then mret (-1)
      else if status n =? 0 then mret 0
      else
        update_info (λ i, mkProcessInfo (parent_id i) (main_id i) (parent_start_time i) (main_start_time i)
                            (wrapu 32 (restart_count i + 1)));;
        modify (λ d, mkDaemon (info d) (forks d) (sleeps d ++ [restart_interval])%list);;
        daemon_loop fuel
  end.
Definition real_daemon (fuel : nat) : M Daemon Z :=
  n ← gets forks;
  update_info (λ i, mkProcessInfo (getpid n) (main_id i) (now n) (main_start_time i) (restart_count i));;
  daemon_loop fuel.
(** [start_daemon] *)
Definition start_daemon (fuel : nat) (is_daemon : bool) : M Daemon Z :=
  if negb is_daemon then real_start else real_daemon fuel.

(** ** Restarting *)

Definition crashed (p0 t0 : Z) (k : nat) : Daemon :=
  mkDaemon (mkProcessInfo p0 0 t0 0 (wrapu 32 (Z.of_nat k))) k (replicate k restart_interval).
Lemma daemon_loop_crash fuel k p0 t0 : 0 < fork k → status k ≠ 0 →
  daemon_loop (S fuel) (crashed p0 t0 k) = daemon_loop fuel (crashed p0 t0 (S k)).
Proof.
  intros Hf Hs. cbn [daemon_loop]. rewrite bind_gets. cbn [crashed forks]. rewrite bind_modify.
  rewrite (proj2 (Z.eqb_neq _ 0)), (proj2 (Z.ltb_ge _ _)), (proj2 (Z.eqb_neq (status k) 0)) by lia.
  unfold update_info. rewrite !bind_modify. cbn [info forks sleeps parent_id main_id parent_start_time main_start_time restart_count].
  unfold crashed. do 2 f_equal.
  - cbn. f_equal. unfold wrapu. rewrite Z.add_mod_idemp_l by lia. f_equal. lia.
  - symmetry. by rewrite replicate_S_end.
Qed.
Lemma daemon_loop_crashes k p0 t0 : ∀ fuel, (∀ i, (i < k)%nat → 0 < fork i ∧ status i ≠ 0) →
  daemon_loop (k + fuel) (crashed p0 t0 0) = daemon_loop fuel (crashed p0 t0 k).
Proof.
  induction k as [|k IH]; intros fuel Hk; [done|].
  rewrite <-daemon_loop_crash by (apply Hk; lia). rewrite <-IH by (intros i Hi; apply Hk; lia). f_equal. lia.
Qed.

(** C39: the daemon.  While the children crash it starts another one after each pause
    and counts the restarts, as an [uint32_t]; it returns 0 when a child ends with
    status 0, and -1 when [fork] fails; the process that gets 0 from [fork] runs the
    program; and if every child crashes the parent never returns. *)
Theorem daemon_restarts (k : nat) :
  (∀ i, (i < k)%nat → 0 < fork i ∧ status i ≠ 0) →
  let σ := crashed (getpid 0) (now 0) k in
  let σ' := mkDaemon (info σ) (S k) (sleeps σ) in
  (0 < fork k → status k = 0 → start_daemon (S k) true Daemon_new = Ok 0 σ') ∧
  (fork k < 0 → start_daemon (S k) true Daemon_new = Ok (-1) σ') ∧
  (fork k = 0 → start_daemon (S k) true Daemon_new =
     main_cb (mkDaemon (mkProcessInfo (getpid 0) (getpid k) (now 0) (now k) (wrapu 32 (Z.of_nat k))) (S k) (sleeps σ))) ∧
  ((∀ i, 0 < fork i ∧ status i ≠ 0) → ∀ fuel, start_daemon fuel true Daemon_new = Undef NoFuel).
Proof.
  intros Hk σ σ'.
  assert (∀ fuel, start_daemon fuel true Daemon_new = daemon_loop fuel (crashed (getpid 0) (now 0) 0)) as E by done.
  assert (start_daemon (S k) true Daemon_new = daemon_loop 1 σ) as E1.
  { rewrite E. replace (S k) with (k + 1)%nat by lia. by apply daemon_loop_crashes. }
  rewrite E1. cbn [daemon_loop]. rewrite bind_gets. cbn [forks crashed σ]. rewrite bind_modify.
  split; [|split; [|split]].
  - intros Hf Hs. by rewrite (proj2 (Z.eqb_neq _ 0)), (proj2 (Z.ltb_ge _ _)), Hs by lia.
  - intros Hf. by rewrite (proj2 (Z.eqb_neq _ 0)), (proj2 (Z.ltb_lt _ _)) by lia.
  - intros ->. done.
  - intros Hall fuel. rewrite E. replace fuel with (fuel + 0)%nat by lia. rewrite daemon_loop_crashes by (intros; apply Hall). done.
Qed.
End daemon.

Module Demo.
(** The first two children crash, the third ends. *)
#[local] Instance demo_processes : Processes := {|
  fork n := 100 + Z.of_nat n; status n := if (n <? 2)%nat then 139 else 0; getpid n := 7; now n := Z.of_nat n |}.
Lemma daemon_restarts_witness :
  start_daemon 5 (mret 1) 3 true Daemon_new = Ok 0 (mkDaemon (mkProcessInfo 7 0 0 0 2) 3 [5; 5]).
Proof.
  destruct (daemon_restarts 5 (mret 1) 2) as [H _].
  - intros i Hi. unfold fork, status, demo_processes. rewrite (proj2 (Nat.ltb_lt i 2)) by lia. lia.
  - apply H; [reflexivity|reflexivity].
Defined.
End Demo.
