(* ===== verification/LogFormatterSpec.v ===== *)
(** The pattern language of [LogFormatter]: every pattern is read, and one that is
    printed from its pieces is read back as these pieces. *)
From S2P Require Import Prelude Text LogFormatter.
From Stdlib Require Import Ascii.

Local Open Scope string_scope.
Local Open Scope list_scope.
Local Open Scope nat_scope.

(** ** Positions in a text in parts *)

Lemma get_app a c b : String.get (String.length a) (a +:+ String c b) = Some c.
Proof. by induction a as [|x a IH]. Qed.
Lemma substring_app a b c :
  String.substring (String.length a) (String.length b) (a +:+ b +:+ c) = b.
Proof.
  induction a as [|x a IH]; [|exact IH]. rewrite app_empty_s. cbn [String.length].
  induction b as [|x b IH]; [by destruct c|]. rewrite app_cons_s. cbn [String.length String.substring].
  by rewrite IH.
Qed.
Lemma char_at_app a c b : char_at (a +:+ String c b) (String.length a) = c.
Proof. unfold char_at. by rewrite get_app. Qed.
Lemma substr_app a b c n m : n = String.length a → m = String.length b → substr (a +:+ b +:+ c) n m = b.
Proof. intros -> ->. apply substring_app. Qed.
Lemma length_snoc a c : String.length (a +:+ String c "") = String.length a + 1.
Proof. rewrite length_app_s. done. Qed.

(** ** Every pattern is read *)

Section total.
Context (p : string).

Lemma scan_item_total fuel i n st b str fmt :
  i < n → pattern_size p - n ≤ fuel →
  ∃ n' st' str' fmt', scan_item p fuel i n st b str fmt = Some (n', st', str', fmt') ∧ i < n'.
Proof.
  revert n st b str fmt. induction fuel as [|fuel IH]; intros n st b str fmt Hn Hf; cbn [scan_item].
  - destruct (Nat.leb_spec (pattern_size p) n); [by eexists _, _, _, _|lia].
  - destruct (Nat.leb_spec (pattern_size p) n); [by eexists _, _, _, _|].
    destruct (_ && _); [by eexists _, _, _, _|].
    destruct (_ && _); [apply IH; lia|]. destruct (_ && _); [eexists _, _, _, _; split; [done|lia]|apply IH; lia].
Qed.
Lemma scan_pattern_total fuel i nstr vec error :
  pattern_size p - i ≤ fuel → is_Some (scan_pattern p fuel i nstr vec error).
Proof.
  revert i nstr vec error. induction fuel as [|fuel IH]; intros i nstr vec error Hf; cbn [scan_pattern].
  - destruct (Nat.leb_spec (pattern_size p) i); [by eexists|lia].
  - destruct (Nat.leb_spec (pattern_size p) i); [by eexists|].
    destruct (negb _); [apply IH; lia|]. destruct (_ && _); [apply IH; lia|].
    destruct (scan_item_total (pattern_size p - i) i (i + 1) false 0 "" "") as (n'&st'&str'&fmt'&E&Hn); [lia|lia|].
    rewrite E. cbn [mbind option_bind]. destruct st'; apply IH; lia.
Qed.
End total.
Lemma LogFormatter_total p : is_Some (LogFormatter_new p).
Proof.
  unfold LogFormatter_new. destruct (scan_pattern_total p (pattern_size p) 0 "" [] false) as [[v e] ->]; [lia|].
  by eexists.
Qed.

(** ** Pieces *)

Inductive piece := Text (s : string) | Item (name fmt : string).
Definition print_piece (x : piece) : string :=
  match x with
  | Text s => s
  | Item name fmt => "%" +:+ name +:+ (if bool_decide (fmt = "") then "" else "{" +:+ fmt +:+ "}")
  end.
Fixpoint print (l : list piece) : string :=
  match l with [] => "" | x :: l => print_piece x +:+ print l end.

(** The character that ends a name. *)
Definition ends_name (t : string) : bool :=
  match t with
  | "" => true
  | String c _ => negb (isalpha c) && negb (Ascii.eqb c "{") && negb (Ascii.eqb c "}")
  end.
(** Pieces that can be told apart: text without percent signs, not two texts in a
    row; names of letters, where a name without a format is ended by what follows. *)
Definition starts_text (l : list piece) : bool := match l with Text _ :: _ => true | _ => false end.
Fixpoint pieces_ok (l : list piece) : bool :=
  match l with
  | [] => true
  | Text s :: l => negb (bool_decide (s = "")) && every (not_char "%") s && negb (starts_text l) && pieces_ok l
  | Item name fmt :: l =>
      negb (bool_decide (name = "")) && every isalpha name && every (not_char "}") fmt
      && (negb (bool_decide (fmt = "")) || ends_name (print l)) && pieces_ok l
  end.
Definition piece_entry (x : piece) : string * string * Z :=
  match x with Text s => (s, "", 0%Z) | Item name fmt => (name, fmt, 1%Z) end.

(** ** Reading a piece *)

Lemma isalpha_not_brace c : isalpha c = true → Ascii.eqb c "{" = false ∧ Ascii.eqb c "}" = false.
Proof. intros H. split; apply Ascii.eqb_neq; intros ->; done. Qed.

(** Letters of a name, with more text behind them. *)
Lemma scan_letters p pre w c r fuel i b fmt :
  p = pre +:+ w +:+ String c r → every isalpha w = true → pattern_size p - String.length pre ≤ fuel →
  ∃ fuel', pattern_size p - String.length (pre +:+ w) ≤ fuel' ∧
    scan_item p fuel i (String.length pre) false b "" fmt =
      scan_item p fuel' i (String.length (pre +:+ w)) false b "" fmt.
Proof.
  revert pre fuel. induction w as [|x w IH]; intros pre fuel Hp Hw Hf.
  { exists fuel. rewrite app_nil_s. done. }
  cbn [every] in Hw. apply andb_true_iff in Hw as [Hx Hw]. destruct (isalpha_not_brace x Hx) as [Hx1 Hx2].
  assert (pattern_size p = String.length pre + S (String.length w) + S (String.length r)) as Hs.
  { rewrite Hp. unfold pattern_size. rewrite !length_app_s. simpl. lia. }
  destruct fuel as [|fuel]; [lia|].
  destruct (IH (pre +:+ String x "") fuel) as (fuel'&Hf'&E); [by rewrite Hp, app_assoc_s|done|rewrite length_snoc; lia|].
  rewrite app_assoc_s in Hf', E. exists fuel'. split; [done|]. change (String x "" +:+ w) with (String x w) in E.
  rewrite <-E. cbn [scan_item]. destruct (Nat.leb_spec (pattern_size p) (String.length pre)); [lia|].
  assert (char_at p (String.length pre) = x) as -> by (rewrite Hp; apply char_at_app).
  rewrite Hx, Hx1, Hx2. cbn [negb andb].
  rewrite (proj2 (Nat.eqb_neq _ (pattern_size p))) by lia. cbn [andb]. by rewrite length_snoc.
Qed.
(** A name up to the end of the pattern. *)
Lemma scan_letters_end p pre w i b fmt fuel :
  p = pre +:+ w → w ≠ "" → every isalpha w = true → pattern_size p - String.length pre ≤ fuel →
  scan_item p fuel i (String.length pre) false b "" fmt =
    Some (pattern_size p, false, substr p (i + 1) (pattern_size p - (i + 1)), fmt).
Proof.
  intros Hp Hne Hw Hf.
  assert (∃ u x, w = u +:+ String x "") as (u&x&Hu).
  { clear -Hne. induction w as [|x w IH]; [done|]. destruct (decide (w = "")) as [->|Hw]; [by exists "", x|].
    destruct (IH Hw) as (u&y&->). by exists (String x u), y. }
  rewrite Hu, every_app in Hw. apply andb_true_iff in Hw as [Hwu Hx]. cbn [every] in Hx. rewrite andb_true_r in Hx.
  destruct (isalpha_not_brace x Hx) as [Hx1 Hx2].
  destruct (scan_letters p pre u x "" fuel i b fmt) as (fuel'&Hf'&->); [by rewrite Hp, Hu|done|done|].
  assert (pattern_size p = String.length (pre +:+ u) + 1) as Hs.
  { rewrite Hp, Hu. unfold pattern_size. rewrite <-app_assoc_s, length_snoc. done. }
  destruct fuel' as [|fuel']; [lia|]. cbn [scan_item].
  destruct (Nat.leb_spec (pattern_size p) (String.length (pre +:+ u))); [lia|].
  assert (char_at p (String.length (pre +:+ u)) = x) as ->
    by (rewrite Hp, Hu, <-app_assoc_s; apply char_at_app).
  rewrite Hx, Hx1, Hx2. cbn [negb andb]. rewrite (proj2 (Nat.eqb_eq _ (pattern_size p))) by lia.
  rewrite bool_decide_true by done. cbn [andb].
  rewrite <-Hs. destruct fuel'; cbn [scan_item]; by rewrite (proj2 (Nat.leb_le _ _)) by done.
Qed.
(** A format up to its closing brace. *)
Lemma scan_braced p pre w r fuel i b str fmt :
  p = pre +:+ w +:+ "}" +:+ r → every (not_char "}") w = true → pattern_size p - String.length pre ≤ fuel →
  scan_item p fuel i (String.length pre) true b str fmt =
    Some (String.length (pre +:+ w) + 1, false, str,
          substr p (b + 1) (String.length (pre +:+ w) - b - 1)).
Proof.
  revert pre fuel. induction w as [|x w IH]; intros pre fuel Hp Hw Hf.
  - assert (pattern_size p = String.length pre + S (String.length r)) as Hs.
    { rewrite Hp. unfold pattern_size. rewrite !length_app_s. simpl. lia. }
    destruct fuel as [|fuel]; [lia|]. cbn [scan_item].
    destruct (Nat.leb_spec (pattern_size p) (String.length pre)); [lia|].
    assert (char_at p (String.length pre) = "}"%char) as -> by (rewrite Hp; apply char_at_app).
    rewrite app_nil_s. done.
  - cbn [every] in Hw. apply andb_true_iff in Hw as [Hx Hw]. unfold not_char in Hx. apply negb_true_iff in Hx.
    assert (pattern_size p = String.length pre + S (String.length w) + S (String.length r)) as Hs.
    { rewrite Hp. unfold pattern_size. rewrite !length_app_s. simpl. lia. }
    destruct fuel as [|fuel]; [lia|]. cbn [scan_item].
    destruct (Nat.leb_spec (pattern_size p) (String.length pre)); [lia|].
    assert (char_at p (String.length pre) = x) as -> by (rewrite Hp; apply char_at_app).
    rewrite Hx. cbn [negb andb]. rewrite (proj2 (Nat.eqb_neq _ (pattern_size p))) by lia. cbn [andb].
    rewrite <-(length_snoc pre x). rewrite (IH (pre +:+ String x "")); [by rewrite app_assoc_s|by rewrite Hp, app_assoc_s|done|].
    rewrite length_snoc. lia.
Qed.

(** An item, read from its percent sign. *)
Lemma scan_directive p pre name fmt rest :
  p = pre +:+ print_piece (Item name fmt) +:+ rest → name ≠ "" →
  every isalpha name = true → every (not_char "}") fmt = true →
  fmt ≠ "" ∨ ends_name rest = true →
  scan_item p (pattern_size p - String.length pre) (String.length pre) (String.length pre + 1) false 0 "" "" =
    Some (String.length (pre +:+ print_piece (Item name fmt)), false, name, fmt).
Proof.
  intros Hp Hne Hn Hf Hr. cbn [print_piece] in *.
  assert (String.length (pre +:+ "%") = String.length pre + 1) as Hl by apply length_snoc.
  rewrite <-Hl. case_bool_decide as Ef.
  - subst fmt. rewrite app_nil_s in *. rewrite app_assoc_s in Hp. destruct Hr as [|Hr]; [done|].
    assert (p = (pre +:+ "%") +:+ name +:+ rest) as Hp' by (by rewrite Hp, !app_assoc_s).
    destruct rest as [|c r].
    + rewrite app_nil_s in Hp'. rewrite (scan_letters_end p (pre +:+ "%") name); [|done..|lia].
      assert (substr p (String.length pre + 1) (pattern_size p - (String.length pre + 1)) = name) as ->.
      { rewrite <-Hl. pose proof (substr_app (pre +:+ "%") name "" _ _ eq_refl eq_refl) as E.
        rewrite app_nil_s, <-Hp' in E. rewrite <-E. f_equal. unfold pattern_size. rewrite Hp', !length_app_s. lia. }
      replace (pre +:+ "%" +:+ name) with p by (by rewrite Hp, app_nil_s). done.
    + destruct (scan_letters p (pre +:+ "%") name c r (pattern_size p - String.length pre) (String.length pre) 0 "")
        as (fuel'&Hf'&->); [done|done|lia|].
      assert (String.length ((pre +:+ "%") +:+ name) < pattern_size p) as Hs.
      { unfold pattern_size. rewrite Hp', !length_app_s. simpl. lia. }
      destruct fuel' as [|fuel']; [lia|]. cbn [scan_item]. rewrite (proj2 (Nat.leb_gt _ _)) by done.
      assert (char_at p (String.length ((pre +:+ "%") +:+ name)) = c) as ->
        by (rewrite Hp', <-app_assoc_s; apply char_at_app).
      cbn [ends_name] in Hr. apply andb_true_iff in Hr as [Hr H3]. apply andb_true_iff in Hr as [H1 H2].
      rewrite H1, H2, H3. cbn [negb andb]. rewrite app_assoc_s. do 3 f_equal. rewrite Hp'.
      apply substr_app; [by rewrite length_snoc|rewrite !length_app_s; simpl; lia].
  - assert (p = (pre +:+ "%") +:+ name +:+ String "{" (fmt +:+ "}" +:+ rest)) as Hp'.
    { rewrite Hp, !app_assoc_s. done. }
    destruct (scan_letters p (pre +:+ "%") name "{" (fmt +:+ "}" +:+ rest) (pattern_size p - String.length pre)
      (String.length pre) 0 "") as (fuel'&Hf'&->); [done|done|lia|].
    assert (String.length ((pre +:+ "%") +:+ name) < pattern_size p) as Hs.
    { unfold pattern_size. rewrite Hp', !length_app_s. simpl. lia. }
    destruct fuel' as [|fuel']; [lia|]. cbn [scan_item]. rewrite (proj2 (Nat.leb_gt _ _)) by done.
    assert (char_at p (String.length ((pre +:+ "%") +:+ name)) = "{"%char) as ->
      by (rewrite Hp', <-app_assoc_s; apply char_at_app).
    change (isalpha "{") with false. cbn [negb andb Ascii.eqb Bool.eqb].
    set (q := (pre +:+ "%") +:+ name) in *.
    assert (p = (q +:+ "{") +:+ fmt +:+ "}" +:+ rest) as Hq by (unfold q; rewrite Hp', !app_assoc_s; done).
    rewrite <-(length_snoc q "{"), (scan_braced p (q +:+ "{") fmt rest) by (done || (rewrite length_snoc; lia)).
    do 2 f_equal; [do 2 f_equal|].
    + unfold q. rewrite !length_app_s. simpl. lia.
    + rewrite Hp'. apply substr_app; [by rewrite length_snoc|unfold q; rewrite !length_app_s; simpl; lia].
    + rewrite Hq. apply substr_app; [by rewrite length_snoc|rewrite !length_app_s; simpl; lia].
Qed.

(** ** Reading a pattern *)

Lemma scan_text p pre s rest fuel nstr vec error :
  p = pre +:+ s +:+ rest → every (not_char "%") s = true → pattern_size p - String.length pre ≤ fuel →
  ∃ fuel', pattern_size p - String.length (pre +:+ s) ≤ fuel' ∧
    scan_pattern p fuel (String.length pre) nstr vec error =
      scan_pattern p fuel' (String.length (pre +:+ s)) (nstr +:+ s) vec error.
Proof.
  revert pre fuel nstr. induction s as [|x s IH]; intros pre fuel nstr Hp Hs Hf.
  { exists fuel. by rewrite !app_nil_s. }
  cbn [every] in Hs. apply andb_true_iff in Hs as [Hx Hs].
  assert (String.length pre < pattern_size p) as Hlt by (unfold pattern_size; rewrite Hp, length_app_s; simpl; lia).
  destruct fuel as [|fuel]; [lia|].
  destruct (IH (pre +:+ String x "") fuel (nstr +:+ String x "")) as (fuel'&Hf'&E);
    [by rewrite Hp, app_assoc_s|done|rewrite length_snoc; lia|].
  rewrite !app_assoc_s in *. exists fuel'. split; [done|]. change (String x "" +:+ s) with (String x s) in E. rewrite <-E.
  cbn [scan_pattern]. rewrite (proj2 (Nat.leb_gt _ _)) by done.
  assert (char_at p (String.length pre) = x) as -> by (rewrite Hp; apply char_at_app).
  unfold not_char in Hx. rewrite Hx. by rewrite length_snoc.
Qed.
Lemma flush_empty vec : flush "" vec = vec.
Proof. done. Qed.
Lemma flush_text s vec : s ≠ "" → flush s vec = vec ++ [(s, "", 0%Z)].
Proof. intros H. unfold flush. by rewrite bool_decide_false. Qed.

(** A percent sign and what follows up to the next piece. *)
Lemma scan_one_item p pre name fmt rest fuel nstr vec error :
  p = pre +:+ print_piece (Item name fmt) +:+ rest → name ≠ "" →
  every isalpha name = true → every (not_char "}") fmt = true → fmt ≠ "" ∨ ends_name rest = true →
  pattern_size p - String.length pre ≤ fuel →
  ∃ fuel', pattern_size p - String.length (pre +:+ print_piece (Item name fmt)) ≤ fuel' ∧
    scan_pattern p fuel (String.length pre) nstr vec error =
      scan_pattern p fuel' (String.length (pre +:+ print_piece (Item name fmt))) ""
        (flush nstr vec ++ [(name, fmt, 1%Z)]) error.
Proof.
  intros Hp Hne Hn Hf Hr Hfuel. pose proof (scan_directive p pre name fmt rest Hp Hne Hn Hf Hr) as E.
  set (t := print_piece (Item name fmt)) in *.
  assert (2 ≤ String.length t) as Ht.
  { unfold t. cbn [print_piece]. rewrite !length_app_s. destruct name; [done|]. simpl. lia. }
  assert (pattern_size p = String.length pre + String.length t + String.length rest) as Hs.
  { unfold pattern_size. rewrite Hp, !length_app_s. lia. }
  destruct fuel as [|fuel]; [lia|]. exists fuel. split; [rewrite length_app_s; lia|].
  destruct name as [|x name]; [done|]. cbn [every] in Hn. apply andb_true_iff in Hn as [Hx Hn].
  assert (p = pre +:+ String "%" (String x (name +:+ (if bool_decide (fmt = "") then "" else "{" +:+ fmt +:+ "}") +:+ rest))) as Hp'.
  { rewrite Hp. unfold t. cbn [print_piece]. by rewrite !app_assoc_s. }
  cbn [scan_pattern]. rewrite (proj2 (Nat.leb_gt _ _)) by lia.
  assert (char_at p (String.length pre) = "%"%char) as -> by (rewrite Hp'; apply char_at_app).
  assert (char_at p (String.length pre + 1) = x) as ->.
  { rewrite Hp'. rewrite <-(length_snoc pre "%").
    change (String "%" (String x ?r)) with ("%" +:+ String x r). rewrite <-app_assoc_s. apply char_at_app. }
  assert (Ascii.eqb x "%" = false) as -> by (apply Ascii.eqb_neq; intros ->; done).
  rewrite andb_false_r. change (negb (Ascii.eqb "%" "%")) with false. cbv iota. by rewrite E.
Qed.

Lemma scan_pieces p pre l fuel nstr vec :
  p = pre +:+ print l → pieces_ok l = true → nstr = "" ∨ starts_text l = false →
  pattern_size p - String.length pre ≤ fuel →
  scan_pattern p fuel (String.length pre) nstr vec false = Some (flush nstr vec ++ (piece_entry <$> l), false).
Proof.
  revert pre fuel nstr vec. induction l as [|[s|name fmt] l IH]; intros pre fuel nstr vec Hp Hl Hn Hf.
  - cbn [print] in Hp. rewrite app_nil_s in Hp. subst pre.
    destruct fuel; cbn [scan_pattern]; (rewrite (proj2 (Nat.leb_le _ _)) by done); by rewrite app_nil_r.
  - cbn [pieces_ok] in Hl. rewrite !andb_true_iff, !negb_true_iff, bool_decide_eq_false in Hl.
    destruct Hl as [[[Hs He] Ht] Hl]. destruct Hn as [->|]; [|done]. cbn [print print_piece] in Hp.
    destruct (scan_text p pre s (print l) fuel "" vec false Hp He Hf) as (fuel'&Hf'&->).
    rewrite app_empty_s, (IH (pre +:+ s)); [|by rewrite app_assoc_s|done|by right|done].
    rewrite flush_text, flush_empty, <-app_assoc by done. done.
  - cbn [pieces_ok] in Hl. rewrite !andb_true_iff, negb_true_iff, bool_decide_eq_false, orb_true_iff, negb_true_iff,
      bool_decide_eq_false in Hl. destruct Hl as [[[[Hne Ha] Hb] Hr] Hl]. cbn [print] in Hp.
    destruct (scan_one_item p pre name fmt (print l) fuel nstr vec false Hp Hne Ha Hb Hr Hf) as (fuel'&Hf'&->).
    rewrite (IH (pre +:+ print_piece (Item name fmt))); [|by rewrite app_assoc_s|done|by left|done].
    rewrite flush_empty, <-app_assoc. done.
Qed.

(** The formatter a list of entries makes. *)
Definition formatter_of (pattern : string) (vec : list (string * string * Z)) : LogFormatter :=
  mkLogFormatter pattern (fst <$> (make_item <$> vec)) (existsb snd (make_item <$> vec)).

(** C29: a pattern is read for every text.  Printed from pieces that can be told
    apart it is read as exactly these pieces, and is an error exactly when a name is
    unknown.  "%%" is not an escaped percent sign: the second one still begins an
    item, here the one that follows. *)
Theorem pattern_roundtrip (l : list piece) :
  pieces_ok l = true →
  LogFormatter_new (print l) = Some (formatter_of (print l) (piece_entry <$> l)) ∧
  (∀ name fmt l', l = Item name fmt :: l' →
     LogFormatter_new ("%" +:+ print l) = Some (formatter_of ("%" +:+ print l) (("%", "", 0%Z) :: (piece_entry <$> l)))) ∧
  ∀ p, is_Some (LogFormatter_new p).
Proof.
  intros Hl. split_and!.
  - unfold LogFormatter_new. change 0 with (String.length "").
    rewrite (scan_pieces (print l) "" l) by (done || (by left) || (simpl; lia)). done.
  - intros name fmt l' ->. unfold LogFormatter_new. set (p := "%" +:+ print _).
    cbn [pieces_ok] in Hl. rewrite !andb_true_iff, negb_true_iff, bool_decide_eq_false in Hl.
    destruct Hl as [[[[Hne Ha] Hb] Hr] Hl].
    assert (scan_pattern p (pattern_size p) 0 "" [] false =
      Some ([("%", "", 0%Z)] ++ (piece_entry <$> Item name fmt :: l'), false)) as ->; [|done].
    assert (pattern_size p = S (String.length (print (Item name fmt :: l')))) as Es by done. rewrite Es.
    cbn [scan_pattern]. rewrite (proj2 (Nat.leb_gt _ _)) by lia.
    change (char_at p 0) with "%"%char. change (char_at p (0 + 1)) with "%"%char.
    assert (0 + 1 < pattern_size p) as H1%Nat.ltb_lt.
    { rewrite Es. cbn [print print_piece]. rewrite length_app_s. simpl. lia. }
    rewrite H1. change (negb (Ascii.eqb "%" "%")) with false. change (Ascii.eqb "%" "%") with true. cbv iota. cbn [andb].
    change (0 + 1) with (String.length "%"). rewrite app_empty_s.
    rewrite (scan_pieces p "%" (Item name fmt :: l')); [by rewrite flush_text|done| |by right|rewrite Es; simpl; lia].
    cbn [pieces_ok]. rewrite !andb_true_iff, negb_true_iff, bool_decide_eq_false. done.
  - exact LogFormatter_total.
Qed.
Lemma pattern_roundtrip_witness :
  let l := [Text "["; Item "d" "%H:%M"; Text "]"; Item "T" ""; Item "m" ""; Text " 100"; Item "n" ""] in
  print l = "[%d{%H:%M}]%T%m 100%n"%string ∧
  LogFormatter_new (print l) =
    Some (mkLogFormatter (print l)
      [StringFormatItem "["; DateTimeFormatItem "%H:%M"; StringFormatItem "]"; TabFormatItem; MessageFormatItem;
       StringFormatItem " 100"; NewLineFormatItem] false).
Proof.
  split; [done|].
  destruct (pattern_roundtrip [Text "["; Item "d" "%H:%M"; Text "]"; Item "T" ""; Item "m" ""; Text " 100"; Item "n" ""]
    eq_refl) as [E _]. exact E.
Defined.

(** The pattern of new loggers. *)
Definition default_pattern : string :=
  "%d{%Y-%m-%d %H:%M:%S}%T%t%T%N%T%F%T[%p]%T[%c]%T<%f:%l>%T%m%n".
Lemma default_pattern_ok : option_map m_error (LogFormatter_new default_pattern) = Some false.
Proof. reflexivity. Qed.
(** Patterns with "%%", and an open brace, which moves the text in front of it
    behind the error. *)
Lemma pattern_oddities :
  option_map m_items (LogFormatter_new "100%% %m") =
    Some [StringFormatItem "100%"; StringFormatItem "<< error_format %>>"; StringFormatItem " "; MessageFormatItem] ∧
  option_map m_items (LogFormatter_new "abc%d{xx") =
    Some [StringFormatItem "<<pattern_error>>"; StringFormatItem "abcd{xx"].
Proof. split; reflexivity. Qed.
