(* ===== verification/Logger.v ===== *)
(** Loggers, appenders and their manager ([sylar/log.h], [log.cc]).

    Loggers and appenders are shared objects, named by their addresses: changing an
    appender shows in every logger that has it.  Each method holds the lock of its
    object, so it is one step.  Times are readings of [time(0)], in seconds. *)
From S2P Require Import Prelude Text LogFormatter.
From Stdlib Require Import Ascii.
From stdpp Require Import gmap strings.

Local Open Scope string_scope.
Local Open Scope Z_scope.

(** Whether a file can be opened for appending at a time. *)
Class Files := can_open : string → Z → bool.

Inductive Kind := StdoutLogAppender | FileLogAppender (filename : string).
Record LogAppender := mkLogAppender {
  kind : Kind;
  a_level : Level;
  m_hasFormatter : bool;
  a_formatter : option LogFormatter;
  is_open : bool;
  m_lastTime : Z;
}.
Record Logger := mkLogger {
  m_name : string;
  l_level : Level;
  m_appenders : list positive;
  l_formatter : option LogFormatter;
  m_root : option positive;
}.
(** Where text goes: the console or a file. *)
Inductive sink := Console | File (name : string).
#[export] Instance sink_eq_dec : EqDecision sink.
Proof. solve_decision. Defined.

(** The objects, the members of [LoggerManager], and what was written. *)
Record Logs := mkLogs {
  loggers : gmap positive Logger;
  appenders : gmap positive LogAppender;
  m_loggers : gmap string positive;
  root : positive;
  written : list (sink * string);
}.
Definition set_loggers (v : gmap positive Logger) (s : Logs) : Logs :=
  mkLogs v (appenders s) (m_loggers s) (root s) (written s).
Definition set_appenders (v : gmap positive LogAppender) (s : Logs) : Logs :=
  mkLogs (loggers s) v (m_loggers s) (root s) (written s).
Definition set_names (v : gmap string positive) (s : Logs) : Logs :=
  mkLogs (loggers s) (appenders s) v (root s) (written s).
Definition write (k : sink) (text : string) (s : Logs) : Logs :=
  mkLogs (loggers s) (appenders s) (m_loggers s) (root s) (written s ++ [(k, text)])%list.

Definition get_logger (i : positive) : M Logs Logger := s ← get; deref (loggers s !! i).
Definition get_appender (a : positive) : M Logs LogAppender := s ← get; deref (appenders s !! a).
Definition put_logger (i : positive) (l : Logger) : M Logs unit := modify (λ s, set_loggers (<[i := l]> (loggers s)) s).
Definition put_appender (a : positive) (v : LogAppender) : M Logs unit :=
  modify (λ s, set_appenders (<[a := v]> (appenders s)) s).

(** ** Appenders *)

Definition with_formatter (has : bool) (f : option LogFormatter) (a : LogAppender) : LogAppender :=
  mkLogAppender (kind a) (a_level a) has f (is_open a) (m_lastTime a).
Definition with_file (open : bool) (t : Z) (a : LogAppender) : LogAppender :=
  mkLogAppender (kind a) (a_level a) (m_hasFormatter a) (a_formatter a) open t.
(** [LogAppender::setLevel] *)
Definition appender_setLevel (a : positive) (val : Level) : M Logs unit :=
  v ← get_appender a;
  put_appender a (mkLogAppender (kind v) val (m_hasFormatter v) (a_formatter v) (is_open v) (m_lastTime v)).
(** [LogAppender::setFormatter] *)
Definition appender_setFormatter (a : positive) (val : option LogFormatter) : M Logs unit :=
  v ← get_appender a; put_appender a (with_formatter (bool_decide (is_Some val)) val v).

Section log.
Context `{LocalTime, Files}.

(** A new object with the defaults of the members; the constructor of a file
    appender opens the file. *)
Definition new_appender (k : Kind) (now : Z) : M Logs positive :=
  s ← get;
  let a := fresh (dom (appenders s)) in
  let open := match k with FileLogAppender f => can_open f now | StdoutLogAppender => true end in
  put_appender a (mkLogAppender k DEBUG false None open 0);;
  mret a.

Definition name_of (i : positive) : M Logs string := l ← get_logger i; mret (m_name l).

(** [StdoutLogAppender::log] and [FileLogAppender::log] *)
Definition appender_log (now : Z) (a : positive) (level : Level) (event : LogEvent) : M Logs unit :=
  v ← get_appender a;
  if level <? a_level v then mret tt
  else
    match kind v with
    | StdoutLogAppender =>
        f ← deref (a_formatter v);
        text ← format name_of (m_items f) level event;
        modify (write Console text)
    | FileLogAppender file =>
        let v := if now =? m_lastTime v then v else with_file (can_open file now) now v in
        put_appender a v;;
        f ← deref (a_formatter v);
        text ← format name_of (m_items f) level event;
        if is_open v then modify (write (File file) text) else mret tt
    end.
Fixpoint appenders_log (now : Z) (l : list positive) (level : Level) (event : LogEvent) : M Logs unit :=
  match l with
  | [] => mret tt
  | a :: l => appender_log now a level event;; appenders_log now l level event
  end.

(** ** Loggers *)

(** [Logger::log]: a logger without appenders hands the event to its root. *)
Fixpoint log (fuel : nat) (now : Z) (i : positive) (level : Level) (event : LogEvent) : M Logs unit :=
  match fuel with
  | O => undef NoFuel
  | S fuel =>
      l ← get_logger i;
      if level <? l_level l then mret tt
      else if negb (bool_decide (m_appenders l = [])) then appenders_log now (m_appenders l) level event
      else match m_root l with Some r => log fuel now r level event | None => mret tt end
  end.
(** [LogEventWrap::~LogEventWrap] *)
Definition LogEventWrap_destroy (fuel : nat) (now : Z) (event : LogEvent) : M Logs unit :=
  log fuel now (m_logger event) (m_level event) event.
(** [SYLAR_LOG_LEVEL(logger, level) << text], the event without its text given. *)
Definition SYLAR_LOG_LEVEL (fuel : nat) (now : Z) (i : positive) (level : Level) (event : LogEvent) (text : string)
    : M Logs unit :=
  l ← get_logger i;
  if l_level l <=? level then LogEventWrap_destroy fuel now (append text event) else mret tt.

Definition setLevel (i : positive) (val : Level) : M Logs unit :=
  l ← get_logger i; put_logger i (mkLogger (m_name l) val (m_appenders l) (l_formatter l) (m_root l)).
Definition set_list (i : positive) (v : list positive) : M Logs unit :=
  l ← get_logger i; put_logger i (mkLogger (m_name l) (l_level l) v (l_formatter l) (m_root l)).

(** [Logger::addAppender] *)
Definition addAppender (i a : positive) : M Logs unit :=
  l ← get_logger i;
  v ← get_appender a;
  (if bool_decide (a_formatter v = None) then put_appender a (with_formatter (m_hasFormatter v) (l_formatter l) v)
   else mret tt);;
  set_list i (m_appenders l ++ [a])%list.
(** [Logger::delAppender]: the first occurrence. *)
Fixpoint remove_first (a : positive) (l : list positive) : list positive :=
  match l with [] => [] | b :: l => if bool_decide (b = a) then l else b :: remove_first a l end.
Definition delAppender (i a : positive) : M Logs unit :=
  l ← get_logger i; set_list i (remove_first a (m_appenders l)).
Definition clearAppenders (i : positive) : M Logs unit := set_list i [].

(** [Logger::setFormatter(LogFormatter::ptr)]: appenders without a formatter of
    their own follow. *)
Fixpoint pass_formatter (val : option LogFormatter) (l : list positive) : M Logs unit :=
  match l with
  | [] => mret tt
  | a :: l =>
      v ← get_appender a;
      (if m_hasFormatter v then mret tt else put_appender a (with_formatter false val v));;
      pass_formatter val l
  end.
Definition setFormatter (i : positive) (val : option LogFormatter) : M Logs unit :=
  l ← get_logger i;
  put_logger i (mkLogger (m_name l) (l_level l) (m_appenders l) val (m_root l));;
  pass_formatter val (m_appenders l).
(** A pattern that is read; see [LogFormatterSpec.LogFormatter_total]. *)
Definition make_formatter (pattern : string) : M Logs LogFormatter :=
  match LogFormatter_new pattern with Some f => mret f | None => undef NoFuel end.
(** [Logger::setFormatter(const std::string&)] *)
Definition setFormatter_pattern (i : positive) (val : string) : M Logs unit :=
  new_val ← make_formatter val;
  l ← get_logger i;
  if m_error new_val
  then modify (write Console ("Logger setFormatter name=" +:+ m_name l +:+ " value=" +:+ val +:+ " invalid formatter"
                              +:+ String "010" ""))
  else setFormatter i (Some new_val).

(** ** The manager *)

(** [Logger::Logger] *)
Definition new_logger (name : string) (root : option positive) : M Logs positive :=
  f ← make_formatter "%d{%Y-%m-%d %H:%M:%S}%T%t%T%N%T%F%T[%p]%T[%c]%T<%f:%l>%T%m%n";
  s ← get;
  let i := fresh (dom (loggers s)) in
  put_logger i (mkLogger name DEBUG [] (Some f) root);;
  mret i.
(** [LoggerManager::getLogger] *)
Definition getLogger (name : string) : M Logs positive :=
  s ← get;
  match m_loggers s !! name with
  | Some i => mret i
  | None =>
      i ← new_logger name (Some (root s));
      modify (λ s, set_names (<[name := i]> (m_loggers s)) s);;
      mret i
  end.
(** [LoggerManager::LoggerManager], from nothing. *)
Definition LoggerManager_new : M Logs unit :=
  i ← new_logger "root" None;
  a ← new_appender StdoutLogAppender 0;
  addAppender i a;;
  modify (λ s, mkLogs (loggers s) (appenders s) (<["root" := i]> (m_loggers s)) i (written s)).
Definition no_logs : Logs := mkLogs ∅ ∅ ∅ 1 [].

End log.

(** ** The other methods *)

Module Methods.
Section methods.
Context `{LocalTime, Files}.
(** [Logger::debug] to [Logger::fatal] *)
Definition debug (fuel : nat) (now : Z) (i : positive) (event : LogEvent) : M Logs unit := log fuel now i DEBUG event.
Definition info (fuel : nat) (now : Z) (i : positive) (event : LogEvent) : M Logs unit := log fuel now i INFO event.
Definition warn (fuel : nat) (now : Z) (i : positive) (event : LogEvent) : M Logs unit := log fuel now i WARN event.
Definition error (fuel : nat) (now : Z) (i : positive) (event : LogEvent) : M Logs unit := log fuel now i ERROR event.
Definition fatal (fuel : nat) (now : Z) (i : positive) (event : LogEvent) : M Logs unit := log fuel now i FATAL event.
(** [LogEvent::format(fmt, ...)]: what [vasprintf] prints, nothing when it fails. *)
Definition format (printed : option string) (event : LogEvent) : LogEvent :=
  match printed with Some text => append text event | None => event end.
(** [SYLAR_LOG_FMT_LEVEL(logger, level, fmt, ...)] *)
Definition SYLAR_LOG_FMT_LEVEL (fuel : nat) (now : Z) (i : positive) (level : Level) (event : LogEvent) (printed : option string)
    : M Logs unit :=
  l ← get_logger i;
  if l_level l <=? level then LogEventWrap_destroy fuel now (format printed event) else mret tt.
(** [Logger::getFormatter], [LogAppender::getFormatter] *)
Definition getFormatter (i : positive) : M Logs (option LogFormatter) := l ← get_logger i; mret (l_formatter l).
Definition appender_getFormatter (a : positive) : M Logs (option LogFormatter) := v ← get_appender a; mret (a_formatter v).
(** [FileLogAppender::reopen], whether the file is open afterwards *)
Definition reopen (now : Z) (a : positive) : M Logs bool :=
  v ← get_appender a;
  match kind v with
  | FileLogAppender file =>
      put_appender a (with_file (can_open file now) (m_lastTime v) v);;
      mret (can_open file now)
  | StdoutLogAppender => mret true
  end.
End methods.
End Methods.
