(* ===== verification/LoggerSpec.v ===== *)
(** Loggers: the invariant of the shared objects, and what logging writes. *)
From S2P Require Import Prelude Text LogFormatter LogFormatterSpec Logger.
From stdpp Require Import gmap strings.

Local Open Scope string_scope.
Local Open Scope list_scope.
Local Open Scope Z_scope.

Section spec.
Context `{LocalTime, Files}.

(** ** The invariant *)

(** The appender exists and has something to format with. *)
Definition ready (s : Logs) (a : positive) : Prop :=
  ∃ v, appenders s !! a = Some v ∧ is_Some (a_formatter v).
(** The manager's names lead to loggers of these names; only the root has no root;
    every logger has a formatter and appenders that can be used. *)
Record wf (s : Logs) : Prop := mk_wf {
  wf_root : m_loggers s !! "root" = Some (root s);
  wf_names : ∀ name i, m_loggers s !! name = Some i →
    ∃ l, loggers s !! i = Some l ∧ m_name l = name ∧
      m_root l = (if bool_decide (i = root s) then None else Some (root s));
  wf_all : ∀ i l, loggers s !! i = Some l → is_Some (l_formatter l) ∧ Forall (ready s) (m_appenders l);
}.

Lemma wf_inj s n1 n2 i : wf s → m_loggers s !! n1 = Some i → m_loggers s !! n2 = Some i → n1 = n2.
Proof.
  intros Hw H1 H2. destruct (wf_names s Hw _ _ H1) as (l&Hl&<-&_), (wf_names s Hw _ _ H2) as (l'&Hl'&<-&_). congruence.
Qed.

(** ** What logging writes *)

Definition render_item (s : Logs) (x : FormatItem) (level : Level) (event : LogEvent) : string :=
  match x with
  | MessageFormatItem => m_ss event
  | LevelFormatItem => ToString level
  | ElapseFormatItem => show (m_elapse event)
  | NameFormatItem => default "" (m_name <$> loggers s !! m_logger event)
  | ThreadIdFormatItem => show (getThreadId event)
  | FiberIdFormatItem => show (getFiberId event)
  | ThreadNameFormatItem => m_threadName event
  | DateTimeFormatItem f => default "" (strftime (c_str f) (getTime event))
  | FilenameFormatItem => m_file event
  | LineFormatItem => show_signed (m_line event)
  | NewLineFormatItem => String (Ascii.ascii_of_nat 10) ""
  | StringFormatItem t => t
  | TabFormatItem => String (Ascii.ascii_of_nat 9) ""
  end.
Definition render (s : Logs) (f : LogFormatter) (level : Level) (event : LogEvent) : string :=
  foldr (λ x t, render_item s x level event +:+ t) "" (m_items f).
(** The line of one appender: nothing below its level or when its file cannot be
    opened. *)
Definition line (s : Logs) (now : Z) (level : Level) (event : LogEvent) (a : positive) : list (sink * string) :=
  match appenders s !! a with
  | None => []
  | Some v =>
      if level <? a_level v then []
      else
        let text := from_option (λ f, render s f level event) "" (a_formatter v) in
        match kind v with
        | StdoutLogAppender => [(Console, text)]
        | FileLogAppender file =>
            if (if now =? m_lastTime v then is_open v else can_open file now) then [(File file, text)] else []
        end
  end.
(** The appenders a logger uses for a level: its own, or those of the root. *)
Definition effective (s : Logs) (l : Logger) (level : Level) : list positive :=
  if level <? l_level l then []
  else
    match m_appenders l with
    | [] =>
        match m_root l ≫= λ r, loggers s !! r with
        | Some r => if level <? l_level r then [] else m_appenders r
        | None => []
        end
    | _ => m_appenders l
    end.

(** Logging changes nothing but the state of the files. *)
Definition same_logs (s s' : Logs) : Prop :=
  loggers s' = loggers s ∧ m_loggers s' = m_loggers s ∧ root s' = root s ∧
  ∀ a, (λ v, (kind v, a_level v, m_hasFormatter v, a_formatter v)) <$> appenders s' !! a =
       (λ v, (kind v, a_level v, m_hasFormatter v, a_formatter v)) <$> appenders s !! a.
#[local] Instance same_logs_refl : Reflexive same_logs.
Proof. by intros s. Qed.
#[local] Instance same_logs_trans : Transitive same_logs.
Proof. intros s1 s2 s3 (?&?&?&Ha) (?&?&?&Hb). split_and!; congruence. Qed.

Lemma get_appender_ok s a v : appenders s !! a = Some v → get_appender a s = Ok v s.
Proof. intros Hv. unfold get_appender. rewrite bind_get. unfold deref. by rewrite Hv. Qed.
Lemma get_logger_ok s i l : loggers s !! i = Some l → get_logger i s = Ok l s.
Proof. intros Hl. unfold get_logger. rewrite bind_get. unfold deref. by rewrite Hl. Qed.
(** The time of the event, printed by the formatters in use, fits the buffer. *)
Definition fits (f : LogFormatter) (event : LogEvent) : Prop :=
  Forall (λ x, match x with DateTimeFormatItem t => is_Some (strftime (c_str t) (getTime event)) | _ => True end) (m_items f).
Definition all_fit (s : Logs) (event : LogEvent) : Prop :=
  ∀ a v f, appenders s !! a = Some v → a_formatter v = Some f → fits f event.

Lemma render_ok s f level event :
  is_Some (loggers s !! m_logger event) → fits f event →
  format name_of (m_items f) level event s = Ok (render s f level event) s.
Proof.
  intros [l Hl]. unfold render, fits. induction (m_items f) as [|x xs IH]; [done|].
  intros [Hx Hxs]%Forall_cons. specialize (IH Hxs). cbn [format foldr].
  assert (format_item name_of x level event s = Ok (render_item s x level event) s) as E.
  { destruct x; try done; cbn [format_item render_item].
    - unfold name_of, get_logger. rewrite bind_assoc, bind_get, Hl. done.
    - destruct Hx as [t ->]. done. }
  step_with E. step_with IH. done.
Qed.
Lemma render_same s s' f level event : loggers s' = loggers s → render s' f level event = render s f level event.
Proof.
  intros E. unfold render. induction (m_items f) as [|x xs IH]; [done|]. cbn [foldr]. rewrite IH. f_equal.
  destruct x; try done. cbn [render_item]. by rewrite E.
Qed.

Lemma appender_log_ok s now a level event :
  is_Some (loggers s !! m_logger event) → ready s a → all_fit s event →
  ∃ s', appender_log now a level event s = Ok tt s' ∧ same_logs s s' ∧
    written s' = written s ++ line s now level event a ∧
    ∀ b, line s' now level event b = line s now level event b.
Proof.
  intros Hl (v&Hv&f&Hf) Hfit. specialize (Hfit a v f Hv Hf).
  assert (line s now level event a =
    if level <? a_level v then [] else
      match kind v with
      | StdoutLogAppender => [(Console, render s f level event)]
      | FileLogAppender file =>
          if (if now =? m_lastTime v then is_open v else can_open file now) then [(File file, render s f level event)] else []
      end) as -> by (unfold line; by rewrite Hv, Hf).
  unfold appender_log. step_with (get_appender_ok s a v Hv).
  destruct (level <? a_level v) eqn:Elv.
  { exists s. rewrite app_nil_r. done. }
  destruct (kind v) as [|file] eqn:Ek.
  - rewrite Hf. unfold deref. unfold mbind at 1, M_bind at 1.
    step_with (render_ok s f level event Hl Hfit). eexists. split; [done|]. split; [done|]. split; [done|].
    intros b. unfold line. cbn [appenders write]. destruct (appenders s !! b) as [w|]; [|done].
    destruct (a_formatter w) as [g|]; [|done]. cbn [from_option]. by rewrite (render_same s).
  - set (v' := if now =? m_lastTime v then v else with_file (can_open file now) now v).
    assert (a_formatter v' = Some f) as Hf' by (unfold v'; by destruct (now =? m_lastTime v)).
    unfold put_appender. rewrite bind_modify. set (s1 := set_appenders _ s).
    rewrite Hf'. unfold deref. unfold mbind at 1, M_bind at 1.
    step_with (render_ok s1 f level event Hl Hfit). rewrite (render_same s s1) by done.
    assert (same_logs s s1) as Hs1.
    { split_and!; try done. intros b. unfold s1. cbn [appenders set_appenders].
      destruct (decide (b = a)) as [->|]; [|by rewrite lookup_insert_ne].
      rewrite lookup_insert_eq, Hv. unfold v'. by destruct (now =? m_lastTime v). }
    assert (is_open v' = if now =? m_lastTime v then is_open v else can_open file now) as Ho
      by (unfold v'; by destruct (now =? m_lastTime v)).
    assert (∀ b, line s1 now level event b = line s now level event b) as Hline.
    { intros b. unfold line. destruct (decide (b = a)) as [->|Hb].
      - unfold s1. cbn [appenders set_appenders]. rewrite lookup_insert_eq, Hv.
        assert (kind v' = kind v ∧ a_level v' = a_level v) as [-> ->] by (unfold v'; by destruct (now =? m_lastTime v)).
        rewrite Elv, Ek, Hf', Hf, Ho. cbn [from_option]. rewrite (render_same s s1) by done.
        unfold v'. destruct (now =? m_lastTime v) eqn:En; [by rewrite En|]. cbn [with_file m_lastTime].
        by rewrite Z.eqb_refl.
      - unfold s1 at 1. cbn [appenders set_appenders]. rewrite lookup_insert_ne by done.
        destruct (appenders s !! b) as [w|]; [|done]. destruct (a_formatter w); [|done]. cbn [from_option].
        by rewrite (render_same s s1). }
    rewrite Ho. destruct (if now =? m_lastTime v then is_open v else can_open file now).
    + eexists. split; [done|]. split; [exact Hs1|]. split; [done|]. intros b. rewrite <-Hline. unfold line.
      cbn [appenders write]. destruct (appenders s1 !! b) as [w|]; [|done].
      destruct (a_formatter w) as [g|]; [|done]. cbn [from_option]. by rewrite (render_same s1).
    + exists s1. split; [done|]. split; [exact Hs1|]. split; [by rewrite app_nil_r|exact Hline].
Qed.

Lemma same_ready s s' a : same_logs s s' → ready s a → ready s' a.
Proof.
  intros (_&_&_&Ha) (v&Hv&Hf). specialize (Ha a). rewrite Hv in Ha. unfold ready.
  destruct (appenders s' !! a) as [w|]; [|done]. exists w. split; [done|]. simpl in Ha. congruence.
Qed.
Lemma same_fit s s' event : same_logs s s' → all_fit s event → all_fit s' event.
Proof.
  intros (_&_&_&Ha) Hfit a v f Hv Hf. specialize (Ha a). rewrite Hv in Ha. simpl in Ha.
  destruct (appenders s !! a) as [w|] eqn:Hw; [|done]. apply (Hfit a w f Hw). simpl in Ha. congruence.
Qed.
Lemma same_wf s s' : same_logs s s' → wf s → wf s'.
Proof.
  intros Hs [W1 W2 W3]. pose proof Hs as (El&En&Er&_). split; [congruence|by rewrite En, El, Er|].
  intros i l. rewrite El. intros [Hf Ha]%W3. split; [done|]. eapply Forall_impl; [exact Ha|].
  intros a. by apply same_ready.
Qed.

Lemma appenders_log_ok s now l level event :
  is_Some (loggers s !! m_logger event) → Forall (ready s) l → all_fit s event →
  ∃ s', appenders_log now l level event s = Ok tt s' ∧ same_logs s s' ∧
    written s' = written s ++ (l ≫= line s now level event).
Proof.
  revert s. induction l as [|a l IH]; intros s Hl Hr Hfit.
  { exists s. cbn. by rewrite app_nil_r. }
  inversion_clear Hr as [|? ? Ha Hr']. cbn [appenders_log].
  destruct (appender_log_ok s now a level event Hl Ha Hfit) as (s1&E1&S1&W1&L1). step_with E1.
  destruct (IH s1) as (s2&E2&S2&W2).
  { by destruct S1 as (->&_). }
  { eapply Forall_impl; [exact Hr'|]. intros b. by apply same_ready. }
  { by eapply same_fit. }
  exists s2. split; [done|]. split; [by etrans|]. rewrite W2, W1, <-app_assoc. f_equal. cbn [mbind list_bind]. f_equal.
  clear -L1. induction l as [|b l IH]; [done|]. cbn [mbind list_bind]. by rewrite L1, IH.
Qed.

Lemma log_writes s name i l now level event :
  wf s → m_loggers s !! name = Some i → loggers s !! i = Some l → is_Some (loggers s !! m_logger event) →
  all_fit s event →
  ∃ s', log 2 now i level event s = Ok tt s' ∧ same_logs s s' ∧
    written s' = written s ++ (effective s l level ≫= line s now level event).
Proof.
  intros Hw Hi Hl He Hfit. destruct (wf_names s Hw name i Hi) as (l'&Hl'&_&Hr).
  rewrite Hl in Hl'. injection Hl' as <-. destruct (wf_all s Hw i l Hl) as [_ Ha]. cbn [log]. step_with (get_logger_ok s i l Hl). unfold effective.
  destruct (level <? l_level l); [exists s; cbn; by rewrite app_nil_r|].
  destruct (decide (m_appenders l = [])) as [Ea|Ea].
  - rewrite Ea, Hr, (bool_decide_true ([] = [])) by done. cbn [negb].
    destruct (decide (i = root s)) as [Er|Er].
    { rewrite bool_decide_true by done. exists s. cbn. by rewrite app_nil_r. }
    rewrite bool_decide_false by done. cbn [mbind option_bind].
    destruct (wf_names s Hw "root" (root s) (wf_root s Hw)) as (r&Hlr&_&Hrr).
    destruct (wf_all s Hw _ r Hlr) as [_ Har].
    step_with (get_logger_ok s (root s) r Hlr). rewrite Hlr.
    destruct (level <? l_level r); [exists s; cbn; by rewrite app_nil_r|].
    destruct (decide (m_appenders r = [])) as [Eb|Eb].
    + rewrite Eb, Hrr, !bool_decide_true by done. exists s. cbn. by rewrite app_nil_r.
    + rewrite bool_decide_false by done. by apply appenders_log_ok.
  - rewrite bool_decide_false by done. cbn [negb]. destruct (m_appenders l) as [|a q] eqn:E; [done|].
    by apply appenders_log_ok.
Qed.

(** ** Operations *)

(** What users of the log do; formatters they hand over are not null. *)
Inductive op :=
  | GetLogger (name : string)
  | NewAppender (k : Kind) (now : Z)
  | AppenderLevel (a : positive) (val : Level)
  | AppenderFormatter (a : positive) (f : LogFormatter)
  | Level_ (i : positive) (val : Level)
  | AddAppender (i a : positive)
  | DelAppender (i a : positive)
  | ClearAppenders (i : positive)
  | Formatter (i : positive) (f : LogFormatter)
  | Pattern (i : positive) (pattern : string)
  | Log (now : Z) (i : positive) (level : Level) (event : LogEvent).
Definition exec (o : op) : M Logs unit :=
  match o with
  | GetLogger name => getLogger name;; mret tt
  | NewAppender k now => new_appender k now;; mret tt
  | AppenderLevel a val => appender_setLevel a val
  | AppenderFormatter a f => appender_setFormatter a (Some f)
  | Level_ i val => setLevel i val
  | AddAppender i a => addAppender i a
  | DelAppender i a => delAppender i a
  | ClearAppenders i => clearAppenders i
  | Formatter i f => setFormatter i (Some f)
  | Pattern i p => setFormatter_pattern i p
  | Log now i level event => log 2 now i level event
  end.

(** Changing the fields of a logger. *)
Lemma wf_put_logger s i l l' :
  wf s → loggers s !! i = Some l → m_name l' = m_name l → m_root l' = m_root l →
  is_Some (l_formatter l') → Forall (ready s) (m_appenders l') →
  wf (set_loggers (<[i := l']> (loggers s)) s).
Proof.
  intros [W1 W2 W3] Hl Hn Hr Hf Ha. split; [done| |].
  - intros name j Hj. destruct (W2 name j Hj) as (k&Hk&Hkn&Hkr). cbn [loggers set_loggers root].
    destruct (decide (j = i)) as [->|Hne].
    + assert (k = l) as -> by congruence. exists l'. rewrite lookup_insert_eq. split_and!; congruence.
    + exists k. by rewrite lookup_insert_ne.
  - intros j k. cbn [loggers set_loggers]. intros [[<- <-]|[? ?]]%lookup_insert_Some; [done|]. by apply (W3 j).
Qed.
Lemma ready_put s a v b :
  (∀ w, appenders s !! a = Some w → is_Some (a_formatter w) → is_Some (a_formatter v)) →
  ready s b → ready (set_appenders (<[a := v]> (appenders s)) s) b.
Proof.
  intros Ha (w&Hw&Hf). unfold ready. cbn [appenders set_appenders]. destruct (decide (b = a)) as [->|].
  - rewrite lookup_insert_eq. exists v. split; [done|]. by apply (Ha w).
  - rewrite lookup_insert_ne by done. by exists w.
Qed.
Lemma wf_put_appender s a v :
  wf s → (∀ w, appenders s !! a = Some w → is_Some (a_formatter w) → is_Some (a_formatter v)) →
  wf (set_appenders (<[a := v]> (appenders s)) s).
Proof.
  intros [W1 W2 W3] Ha. split; [done|done|]. intros i l Hl. destruct (W3 i l Hl) as [Hf Hr]. split; [done|].
  eapply Forall_impl; [exact Hr|]. intros b. by apply ready_put.
Qed.
Lemma get_logger_inv i s l s' : get_logger i s = Ok l s' → s' = s ∧ loggers s !! i = Some l.
Proof.
  unfold get_logger. rewrite bind_get. unfold deref. destruct (loggers s !! i); naive_solver.
Qed.
Lemma get_appender_inv a s v s' : get_appender a s = Ok v s' → s' = s ∧ appenders s !! a = Some v.
Proof.
  unfold get_appender. rewrite bind_get. unfold deref. destruct (appenders s !! a); naive_solver.
Qed.

Ltac use_logger H := apply bind_inv in H as (?&?&[-> ?]%get_logger_inv&H).
Ltac use_appender H := apply bind_inv in H as (?&?&[-> ?]%get_appender_inv&H).

Lemma new_appender_wf k now : triple wf (new_appender k now) (λ _, wf).
Proof.
  intros s a s' Hw E. unfold new_appender in E. rewrite bind_get in E. cbv zeta in E.
  unfold put_appender in E. rewrite bind_modify in E. injection E as <- <-.
  apply wf_put_appender; [done|]. intros w Hw'. exfalso.
  apply (is_fresh (dom (appenders s))), elem_of_dom. eauto.
Qed.
Lemma set_list_wf i v s s' : wf s → Forall (ready s) v → set_list i v s = Ok tt s' → wf s'.
Proof.
  intros Hw Hv E. unfold set_list in E. use_logger E. injection E as <-.
  eapply wf_put_logger; [done..| |done]. by destruct (wf_all s Hw i x).
Qed.
Lemma pass_formatter_wf f l : triple wf (pass_formatter (Some f) l) (λ _, wf).
Proof.
  induction l as [|a l IH]; intros s [] s' Hw E; cbn [pass_formatter] in E; [by injection E as <-|].
  use_appender E. apply bind_inv in E as ([]&s1&E1&E). eapply IH, E. destruct (m_hasFormatter x).
  - by injection E1 as <-.
  - injection E1 as <-. apply wf_put_appender; [done|]. simpl. eauto.
Qed.
Lemma setFormatter_wf i f : triple wf (setFormatter i (Some f)) (λ _, wf).
Proof.
  intros s [] s' Hw E. unfold setFormatter in E. use_logger E. unfold put_logger in E. rewrite bind_modify in E.
  eapply pass_formatter_wf, E. eapply wf_put_logger; [done..|]. by destruct (wf_all s Hw i x).
Qed.
Lemma addAppender_wf i a : triple wf (addAppender i a) (λ _, wf).
Proof.
  intros s [] s' Hw E. unfold addAppender in E. use_logger E. use_appender E.
  apply bind_inv in E as ([]&s1&E1&E). destruct (wf_all s Hw i x) as [[f Hf] Hr]; [done|].
  assert (wf s1 ∧ ready s1 a ∧ ∀ b, ready s b → ready s1 b) as (Hw1&Hra&Hb).
  { case_bool_decide as En; injection E1 as <-.
    - assert (∀ w, appenders s !! a = Some w → is_Some (a_formatter w) → is_Some (l_formatter x)) as Hx by (rewrite Hf; eauto).
      split_and!; [by apply wf_put_appender| |intros b; by apply ready_put].
      eexists. split; [apply lookup_insert_eq|]. by rewrite Hf.
    - split_and!; [done| |done]. exists x0. split; [done|]. by destruct (a_formatter x0). }
  eapply set_list_wf; [exact Hw1| |exact E]. apply Forall_app. split; [|by constructor].
  eapply Forall_impl; [exact Hr|done].
Qed.
Lemma remove_first_sub a l b : b ∈ remove_first a l → b ∈ l.
Proof.
  induction l as [|c l IH]; cbn [remove_first]; [done|]. case_bool_decide; [by right|].
  intros [->|?]%elem_of_cons; [by left|right; auto].
Qed.
Lemma make_formatter_inv p s f s' : make_formatter p s = Ok f s' → s' = s.
Proof. unfold make_formatter. destruct (LogFormatter_new p); [by intros [= _ ->]|done]. Qed.
Lemma new_logger_spec name r s i s' :
  new_logger name r s = Ok i s' →
  ∃ f, i = fresh (dom (loggers s)) ∧ s' = set_loggers (<[i := mkLogger name DEBUG [] (Some f) r]> (loggers s)) s.
Proof.
  unfold new_logger. intros (f&s1&->%make_formatter_inv&E)%bind_inv. rewrite bind_get in E. cbv zeta in E.
  unfold put_logger in E. rewrite bind_modify in E. injection E as <- <-. by exists f.
Qed.
Lemma getLogger_wf name : triple wf (getLogger name) (λ _, wf).
Proof.
  intros s i s' Hw E. unfold getLogger in E. rewrite bind_get in E.
  destruct (m_loggers s !! name) as [j|] eqn:Ej; [by injection E as <- <-|].
  apply bind_inv in E as (j&s1&(f&->&->)%new_logger_spec&E). rewrite bind_modify in E. injection E as <- <-.
  set (j := fresh (dom (loggers s))). assert (loggers s !! j = None) as Hj by (apply not_elem_of_dom, is_fresh).
  destruct Hw as [W1 W2 W3].
  assert (root s ≠ j) as Hroot by (intros Er; destruct (W2 _ _ W1) as (l&Hl&_); congruence).
  split; cbn [m_loggers set_names set_loggers loggers root appenders].
  - rewrite lookup_insert_ne; [done|]. intros ->. congruence.
  - intros n k [[<- <-]|[Hn Hk]]%lookup_insert_Some.
    + rewrite lookup_insert_eq. eexists. split; [done|]. by rewrite bool_decide_false.
    + destruct (W2 n k Hk) as (l&Hl&Hr). exists l. rewrite lookup_insert_ne; [done|]. congruence.
  - intros k l [[<- <-]|[Hn Hk]]%lookup_insert_Some; [by split; [|constructor]|]. by apply (W3 k).
Qed.
Definition default_formatter : LogFormatter :=
  default (mkLogFormatter "" [] true) (LogFormatter_new default_pattern).
Definition initial : Logs :=
  mkLogs {[1%positive := mkLogger "root" DEBUG [1%positive] (Some default_formatter) None]}
    {[1%positive := mkLogAppender StdoutLogAppender DEBUG false (Some default_formatter) true 0]}
    {["root" := 1%positive]} 1 [].
Lemma LoggerManager_initial : LoggerManager_new no_logs = Ok tt initial.
Proof. vm_compute. reflexivity. Qed.
Lemma initial_wf : wf initial.
Proof.
  split; cbn [initial m_loggers root loggers].
  - by rewrite lookup_singleton_eq.
  - intros name i [<- <-]%lookup_singleton_Some. eexists. rewrite lookup_singleton_eq. done.
  - intros i l [<- <-]%lookup_singleton_Some. cbn [l_formatter m_appenders]. split; [eauto|].
    constructor; [|constructor]. eexists. cbn [initial appenders]. rewrite lookup_singleton_eq. split; [done|]. simpl. eauto.
Qed.

(** Logging in any state. *)
Lemma format_same l level event s t s' : format name_of l level event s = Ok t s' → s' = s.
Proof.
  revert s t s'. induction l as [|x l IH]; intros s t s' E; [by injection E as _ <-|]. cbn [format] in E.
  apply bind_inv in E as (a&s1&E1&E). apply bind_inv in E as (b&s2&->%IH&E). injection E as _ <-.
  destruct x; cbn [format_item] in E1; try by injection E1 as _ <-.
  - unfold name_of in E1. use_logger E1. by injection E1 as _ <-.
  - destruct (strftime _ _); [by injection E1 as _ <-|done].
Qed.
Lemma deref_inv {A} (o : option A) s a (s' : Logs) : deref o s = Ok a s' → s' = s ∧ o = Some a.
Proof. unfold deref. destruct o; naive_solver. Qed.
Lemma appender_log_same now a level event s s' : appender_log now a level event s = Ok tt s' → same_logs s s'.
Proof.
  intros E. unfold appender_log in E. apply bind_inv in E as (v&s1&[-> Hv]%get_appender_inv&E).
  destruct (level <? a_level v); [by injection E as <-|]. destruct (kind v) as [|file].
  - apply bind_inv in E as (f&s1&[-> _]%deref_inv&E). apply bind_inv in E as (t&s1&->%format_same&E).
    by injection E as <-.
  - apply bind_inv in E as ([]&s1&E1&E). apply bind_inv in E as (f&s2&[-> _]%deref_inv&E).
    apply bind_inv in E as (t&s2&->%format_same&E).
    assert (same_logs s s1) as H1.
    { injection E1 as <-. split_and!; try done. intros b. cbn [appenders set_appenders].
      destruct (decide (b = a)) as [->|]; [|by rewrite lookup_insert_ne].
      rewrite lookup_insert_eq, Hv. by destruct (now =? m_lastTime v). }
    etrans; [exact H1|]. by destruct (is_open _); injection E as <-.
Qed.
Lemma appenders_log_same now l level event s s' : appenders_log now l level event s = Ok tt s' → same_logs s s'.
Proof.
  revert s. induction l as [|a l IH]; intros s E; [by injection E as <-|]. cbn [appenders_log] in E.
  apply bind_inv in E as ([]&s1&E1%appender_log_same&E%IH). by etrans.
Qed.
Lemma log_same fuel now i level event s s' : log fuel now i level event s = Ok tt s' → same_logs s s'.
Proof.
  revert i. induction fuel as [|fuel IH]; intros i E; [done|]. cbn [log] in E. use_logger E.
  destruct (level <? l_level x); [by injection E as <-|].
  destruct (negb _); [by eapply appenders_log_same|]. destruct (m_root x); [by eapply IH|]. by injection E as <-.
Qed.

Lemma exec_wf o : triple wf (exec o) (λ _, wf).
Proof.
  intros s [] s' Hw E. destruct o as [name|k now|a val|a f|i val|i a|i a|i|i f|i p|now i level event]; cbn [exec] in E.
  - apply bind_inv in E as (j&s1&E1&E). injection E as <-. by eapply getLogger_wf.
  - apply bind_inv in E as (j&s1&E1&E). injection E as <-. by eapply new_appender_wf.
  - unfold appender_setLevel in E. use_appender E. injection E as <-. apply wf_put_appender; [done|]. naive_solver.
  - unfold appender_setFormatter in E. use_appender E. injection E as <-. apply wf_put_appender; [done|]. simpl. eauto.
  - unfold setLevel in E. use_logger E. injection E as <-. destruct (wf_all s Hw i x); [done|].
    by eapply wf_put_logger.
  - by eapply addAppender_wf.
  - unfold delAppender in E. use_logger E. destruct (wf_all s Hw i x) as [_ Hr]; [done|].
    eapply set_list_wf; [done| |exact E]. rewrite Forall_forall in Hr |- *. intros b Hb%remove_first_sub. auto.
  - by eapply set_list_wf, E.
  - by eapply setFormatter_wf.
  - unfold setFormatter_pattern in E. apply bind_inv in E as (f&s1&->%make_formatter_inv&E). use_logger E.
    destruct (m_error f); [|by eapply setFormatter_wf]. injection E as <-. destruct Hw. by split.
  - apply log_same in E. by eapply same_wf.
Qed.

(** States the log can be in. *)
Inductive reachable : Logs → Prop :=
  | reach_initial s : LoggerManager_new no_logs = Ok tt s → reachable s
  | reach_step s o s' : reachable s → exec o s = Ok tt s' → reachable s'.
Lemma reachable_wf s : reachable s → wf s.
Proof.
  induction 1 as [s E|s o s' _ IH E]; [|by eapply exec_wf].
  rewrite LoggerManager_initial in E. injection E as <-. exact initial_wf.
Qed.

(** C30: whatever was done to loggers and appenders, an event logged to a logger the
    manager knows is written once by each appender in effect, in order: its own if
    it has any, else those of the root, each with its own level, format and file;
    nothing else is written, and nothing but the state of files changes.  Asking
    for a known name gives the same logger and changes nothing. *)
Theorem logging_exact (s : Logs) (name : string) (i : positive) (l : Logger) (now : Z) (event : LogEvent) :
  reachable s → m_loggers s !! name = Some i → loggers s !! i = Some l →
  m_logger event = i → all_fit s event →
  (∃ s', LogEventWrap_destroy 2 now event s = Ok tt s' ∧ same_logs s s' ∧
     written s' = written s ++ (effective s l (m_level event) ≫= line s now (m_level event) event)) ∧
  m_name l = name ∧ getLogger name s = Ok i s.
Proof.
  intros Hs%reachable_wf Hi Hl He Hfit. split_and!.
  - unfold LogEventWrap_destroy. rewrite He. eapply log_writes; [done..| |done]. rewrite He. eauto.
  - destruct (wf_names s Hs name i Hi) as (l'&Hl'&Hn&_). congruence.
  - unfold getLogger. by rewrite bind_get, Hi.
Qed.
End spec.

(** A new logger without appenders writes through the root. *)
Module Demo.
#[local] Instance demo_time : LocalTime := λ _ _, Some "12:00".
#[local] Instance demo_files : Files := λ _ _, true.

Definition after (o : op) (s : Logs) : Logs := match exec o s with Ok _ s => s | _ => s end.
Definition demo_logs : Logs := after (Pattern 2 "%p %c: %m") (after (GetLogger "app") initial).
Definition demo_logger : Logger :=
  mkLogger "app" DEBUG [] (LogFormatter_new "%p %c: %m") (Some 1%positive).
Definition demo_event : LogEvent := append "hello" (LogEvent_new 2 INFO "main.cc" 7 0 100 0 5 "main").
Lemma logging_exact_witness :
  ∃ s', LogEventWrap_destroy 2 9 demo_event demo_logs = Ok tt s' ∧
    written s' = [(Console, "12:00" +:+ String (Ascii.ascii_of_nat 9) "100" +:+ String (Ascii.ascii_of_nat 9) "main"
      +:+ String (Ascii.ascii_of_nat 9) "0" +:+ String (Ascii.ascii_of_nat 9) "[INFO]"
      +:+ String (Ascii.ascii_of_nat 9) "[app]" +:+ String (Ascii.ascii_of_nat 9) "<main.cc:7>"
      +:+ String (Ascii.ascii_of_nat 9) "hello" +:+ String (Ascii.ascii_of_nat 10) "")].
Proof.
  destruct (logging_exact demo_logs "app" 2 demo_logger 9 demo_event) as ((s'&E&_&W)&_&_).
  - eapply (reach_step (after (GetLogger "app") initial) (Pattern 2 "%p %c: %m")); [|vm_compute; reflexivity].
    eapply (reach_step initial (GetLogger "app")); [|vm_compute; reflexivity].
    apply reach_initial, LoggerManager_initial.
  - vm_compute. reflexivity.
  - vm_compute. reflexivity.
  - reflexivity.
  - intros a v f _ _. apply Forall_forall. intros [] _; try exact I. eexists. reflexivity.
  - exists s'. split; [exact E|]. rewrite W. vm_compute. reflexivity.
Defined.
End Demo.
