(* ===== verification/Yaml.v ===== *)
(** The part of yaml-cpp the program calls.

    yaml-cpp is not part of the repository: a node is an abstract value, and these
    are the calls of [YAML::Node] and the functions [YAML::Load] and [operator<<].
    Copying a node and changing the copy is value-like in all uses the program
    makes: it only changes nodes it has just made. *)
From S2P Require Import Prelude.

Class Yaml (Node : Type) := {
  (** [YAML::Load]; nothing when it throws *)
  Load : string → option Node;
  (** [ss << node] *)
  emit : Node → string;
  IsMap : Node → bool;
  IsScalar : Node → bool;
  (** [Scalar()], empty for a node that is no scalar *)
  Scalar : Node → string;
  (** [as<std::string>()]; nothing when it throws *)
  as_string : Node → option string;
  (** [size()] and [operator[](size_t)] *)
  elements : Node → list Node;
  (** The pairs between [begin()] and [end()] *)
  members : Node → list (Node * Node);
  (** [node[key]] when it [IsDefined] *)
  field : Node → string → option Node;
  (** [Node()], a node from a string, [node[key] = v], [push_back] *)
  Null : Node;
  of_string : string → Node;
  set_field : string → Node → Node → Node;
  push_back : Node → Node → Node;
}.

(** [as<std::string>] of a call that may throw. *)
Definition yaml_error : exn := logic_error "YAML::Exception".
Definition or_throw {S A} (o : option A) : M S A := match o with Some a => mret a | None => throw yaml_error end.
