(* ===== verification/Lexical.v ===== *)
(** The conversions of containers ([LexicalCast] of [sylar/config.h]): a value is
    written as a YAML document and read from one, element by element.

    A conversion is the pair of the two specialisations for a type; either throws
    when it gives nothing.  Containers are the lists of their elements in the order
    of iteration: a [set] and a [map] in the order of the keys, the unordered ones in
    the order their table has, which [place] decides when an element is new. *)
From stdpp Require Import strings.
From S2P Require Import Prelude Text Yaml.

Local Open Scope string_scope.

(** [LexicalCast<std::string, T>] and [LexicalCast<T, std::string>] *)
Record Cast (A : Type) := mkCast { from_string : string → option A; to_string : A → option string }.
#[global] Arguments mkCast {A}.
#[global] Arguments from_string {A}.
#[global] Arguments to_string {A}.

Section containers.
Context {Node : Type} `{Yaml Node}.

(** The loop over the elements of a sequence; [ins] is [push_back] or [insert]. *)
Definition read_elements {A} (c : Cast A) (ins : A → list A → list A) (v : string) : option (list A) :=
  node ← Load v;
  xs ← mapM (λ n, from_string c (emit n)) (elements node);
  Some (foldl (λ vec x, ins x vec) [] xs).
Definition write_elements {A} (c : Cast A) (v : list A) : option string :=
  nodes ← mapM (λ i, s ← to_string c i; Load s) v;
  Some (emit (foldl (λ node n, push_back n node) Null nodes)).
(** The loop over the members of a map with strings as keys. *)
Definition read_members {A} (c : Cast A) (ins : string * A → list (string * A) → list (string * A)) (v : string)
    : option (list (string * A)) :=
  node ← Load v;
  xs ← mapM (λ m, x ← from_string c (emit m.2); Some (Scalar m.1, x)) (members node);
  Some (foldl (λ vec x, ins x vec) [] xs).
Definition write_members {A} (c : Cast A) (v : list (string * A)) : option string :=
  nodes ← mapM (λ i, s ← to_string c i.2; n ← Load s; Some (i.1, n)) v;
  Some (emit (foldl (λ node e, set_field e.1 e.2 node) Null nodes)).

(** [push_back]; [insert] into an ordered container, which keeps an equivalent element;
    [insert] into a table. *)
Definition push {A} (x : A) (l : list A) : list A := (l ++ [x])%list.
Fixpoint insert_ordered {A} (less : A → A → bool) (x : A) (l : list A) : list A :=
  match l with
  | [] => [x]
  | y :: l => if less y x then y :: insert_ordered less x l else if less x y then x :: y :: l else y :: l
  end.
Definition insert_table {A} (same : A → A → bool) (place : A → list A → list A) (x : A) (l : list A) : list A :=
  if existsb (same x) l then l else place x l.
Definition key_less {A} (a b : string * A) : bool := String.ltb a.1 b.1.
Definition key_same {A} (a b : string * A) : bool := bool_decide (a.1 = b.1).

Definition vector_cast {A} (c : Cast A) : Cast (list A) := mkCast (read_elements c push) (write_elements c).
Definition list_cast {A} (c : Cast A) : Cast (list A) := mkCast (read_elements c push) (write_elements c).
Definition set_cast {A} (less : A → A → bool) (c : Cast A) : Cast (list A) :=
  mkCast (read_elements c (insert_ordered less)) (write_elements c).
Definition unordered_set_cast {A} (same : A → A → bool) (place : A → list A → list A) (c : Cast A) : Cast (list A) :=
  mkCast (read_elements c (insert_table same place)) (write_elements c).
Definition map_cast {A} (c : Cast A) : Cast (list (string * A)) :=
  mkCast (read_members c (insert_ordered key_less)) (write_members c).
Definition unordered_map_cast {A} (place : string * A → list (string * A) → list (string * A)) (c : Cast A)
    : Cast (list (string * A)) :=
  mkCast (read_members c (insert_table key_same place)) (write_members c).
End containers.
