(* ===== verification/LexicalSpec.v ===== *)
(** A container that is written and read again is the same container, at any depth of
    nesting. *)
From Stdlib Require Import Ascii.
From stdpp Require Import strings countable.
From S2P Require Import Prelude Text Yaml Lexical.

Local Open Scope string_scope.
Local Open Scope list_scope.

(** What is used of yaml-cpp: a document that was written reads back as itself, and
    sequences and maps hold what was put into them, in order. *)
Class YamlLaws (Node : Type) `{Yaml Node} := {
  load_emit : ∀ n, Load (emit n) = Some n;
  elements_pushed : ∀ l, elements (foldl (λ node n, push_back n node) Null l) = l;
  members_set : ∀ l : list (string * Node), NoDup l.*1 →
    members (foldl (λ node e, set_field e.1 e.2 node) Null l) = map (λ e, (of_string e.1, e.2)) l;
  scalar_string : ∀ s, Scalar (of_string s) = s;
}.

(** What is used of maps and strings. *)
Class YamlFields (Node : Type) `{Yaml Node} := {
  field_set : ∀ k v n k', field (set_field k v n) k' = if bool_decide (k = k') then Some v else field n k';
  field_null : ∀ k, field Null k = None;
  set_not_scalar : ∀ k v n, IsScalar (set_field k v n) = false;
  string_read : ∀ s, as_string (of_string s) = Some s;
}.

Section containers.
Context {Node : Type} `{YL : YamlLaws Node}.

(** The text of [x] is a document, and what that document is written as reads as [y]. *)
Definition reads_as {A} (c : Cast A) (x y : A) : Prop :=
  ∃ s n, to_string c x = Some s ∧ Load s = Some n ∧ from_string c (emit n) = Some y.
Definition faithful {A} (c : Cast A) (x : A) : Prop := reads_as c x x.

Lemma written {A} (c : Cast A) l : Forall (faithful c) l →
  ∃ nodes, mapM (λ i, s ← to_string c i; Load s) l = Some nodes ∧ mapM (λ n, from_string c (emit n)) nodes = Some l.
Proof.
  induction 1 as [|x l (s&n&Es&En&Ex) _ (nodes&E1&E2)]; [by exists []|]. exists (n :: nodes).
  cbn [mapM]. rewrite Es. cbn. rewrite En. cbn. rewrite E1, Ex. cbn. by rewrite E2.
Qed.
Lemma written_members {A} (c : Cast A) (l : list (string * A)) : Forall (λ e, faithful c e.2) l →
  ∃ nodes, mapM (λ i : string * A, s ← to_string c i.2; n ← Load s; Some (i.1, n)) l = Some nodes ∧ nodes.*1 = l.*1 ∧
    mapM (λ m : Node * Node, x ← from_string c (emit m.2); Some (Scalar m.1, x)) (map (λ e, (of_string e.1, e.2)) nodes) = Some l.
Proof.
  induction 1 as [|[k x] l (s&n&Es&En&Ex) _ (nodes&E1&E2&E3)]; [by exists []|]. exists ((k, n) :: nodes).
  cbn [mapM map fst snd]. cbn [snd] in *. rewrite Es. cbn. rewrite En. cbn. rewrite E1, Ex. cbn. rewrite E3, E2. cbn.
  by rewrite scalar_string.
Qed.
(** The document of a container, and what an insertion makes of its elements. *)
Lemma elements_read {A} (c : Cast A) ins (l : list A) : Forall (faithful c) l →
  reads_as (mkCast (read_elements c ins) (write_elements c)) l (foldl (λ vec x, ins x vec) [] l).
Proof.
  intros (nodes&E1&E2)%written. set (N := foldl (λ node n, push_back n node) Null nodes).
  exists (emit N), N. cbn [to_string from_string]. unfold write_elements. rewrite E1. cbn. split; [done|].
  split; [apply load_emit|]. unfold read_elements. rewrite load_emit. cbn. unfold N. rewrite elements_pushed. by rewrite E2.
Qed.
Lemma members_read {A} (c : Cast A) ins (l : list (string * A)) : Forall (λ e, faithful c e.2) l → NoDup l.*1 →
  reads_as (mkCast (read_members c ins) (write_members c)) l (foldl (λ vec x, ins x vec) [] l).
Proof.
  intros (nodes&E1&E2&E3)%written_members Hn. set (N := foldl (λ node e, set_field e.1 e.2 node) Null nodes).
  exists (emit N), N. cbn [to_string from_string]. unfold write_members. rewrite E1. cbn. split; [done|].
  split; [apply load_emit|]. unfold read_members. rewrite load_emit. cbn. unfold N. rewrite members_set by (by rewrite E2).
  by rewrite E3.
Qed.

(** ** Insertions *)

Lemma push_all {A} (l acc : list A) : foldl (λ vec x, push x vec) acc l = acc ++ l.
Proof.
  revert acc. induction l as [|x l IH]; intros acc; cbn [foldl]; [by rewrite app_nil_r|].
  rewrite IH. unfold push. by rewrite <-app_assoc.
Qed.
Lemma insert_last {A} (less : A → A → bool) x l : Forall (λ y, less y x = true) l → insert_ordered less x l = l ++ [x].
Proof. induction 1 as [|y l Hy _ IH]; [done|]. cbn [insert_ordered app]. by rewrite Hy, IH. Qed.
Lemma insert_all_ordered {A} (less : A → A → bool) (l acc : list A) :
  StronglySorted (λ a b, less a b = true) (acc ++ l) → foldl (λ vec x, insert_ordered less x vec) acc l = acc ++ l.
Proof.
  revert acc. induction l as [|x l IH]; intros acc Hs; cbn [foldl]; [by rewrite app_nil_r|].
  assert (Forall (λ y, less y x = true) acc) as Hx.
  { clear IH. induction acc as [|y acc IHa]; [constructor|]. apply StronglySorted_inv in Hs as [Hs Hy].
    constructor; [|by apply IHa]. rewrite Forall_app, Forall_cons in Hy. tauto. }
  rewrite insert_last by done. rewrite IH; by rewrite <-app_assoc.
Qed.
Lemma insert_all_table {A} (same : A → A → bool) place (l acc done_ : list A) :
  (∀ x l, place x l ≡ₚ x :: l) → acc ≡ₚ done_ → StronglySorted (λ a b, same b a = false) (done_ ++ l) →
  foldl (λ vec x, insert_table same place x vec) acc l ≡ₚ done_ ++ l.
Proof.
  intros Hp. revert acc done_. induction l as [|x l IH]; intros acc done_ Ha Hs; cbn [foldl]; [by rewrite app_nil_r|].
  assert (existsb (same x) acc = false) as Hx.
  { apply not_true_iff_false. intros (y&Hy&Hsame)%existsb_exists. apply list_elem_of_In in Hy. rewrite Ha in Hy.
    clear -Hs Hy Hsame. induction done_ as [|z done_ IHd]; [by apply elem_of_nil in Hy|].
    apply StronglySorted_inv in Hs as [Hs Hz]. apply elem_of_cons in Hy as [->|Hy]; [|by apply IHd].
    rewrite Forall_app, Forall_cons in Hz. destruct Hz as (_&Hz&_). congruence. }
  unfold insert_table at 2. rewrite Hx. rewrite (IH _ (done_ ++ [x])); [by rewrite <-app_assoc| |by rewrite <-app_assoc].
  rewrite Hp, Ha. apply Permutation_cons_append.
Qed.

(** C38: the containers of the configuration.  When the elements are written and read
    faithfully, so is a vector or a list of them, a set of them in its order, a map
    from strings to them, and, up to the order of iteration, an unordered set or map.
    As the result is of the same form, this holds for containers of containers. *)
Theorem containers_roundtrip {A} (c : Cast A) (less same : A → A → bool) place pair_place
    (l : list A) (m : list (string * A)) :
  (∀ x l, place x l ≡ₚ x :: l) → (∀ e m, pair_place e m ≡ₚ e :: m) →
  Forall (faithful c) l → Forall (λ e, faithful c e.2) m → NoDup m.*1 →
  faithful (vector_cast c) l ∧ faithful (list_cast c) l ∧
  (StronglySorted (λ a b, less a b = true) l → faithful (set_cast less c) l) ∧
  (StronglySorted (λ a b, same b a = false) l → ∃ l', l' ≡ₚ l ∧ reads_as (unordered_set_cast same place c) l l') ∧
  (StronglySorted (λ a b, key_less a b = true) m → faithful (map_cast c) m) ∧
  (∃ m', m' ≡ₚ m ∧ reads_as (unordered_map_cast pair_place c) m m').
Proof.
  intros Hp Hpp Hl Hm Hn. pose proof (elements_read c push l Hl) as Hv. rewrite push_all in Hv.
  split; [exact Hv|]. split; [exact Hv|]. split; [|split; [|split]].
  - intros Hs. pose proof (elements_read c (insert_ordered less) l Hl) as Hx. by rewrite insert_all_ordered in Hx.
  - intros Hs. exists (foldl (λ vec x, insert_table same place x vec) [] l).
    split; [by apply (insert_all_table same place l [] [])|by apply elements_read].
  - intros Hs. pose proof (members_read c (insert_ordered key_less) m Hm Hn) as Hx. by rewrite insert_all_ordered in Hx.
  - exists (foldl (λ vec x, insert_table key_same pair_place x vec) [] m).
    split; [|by apply members_read]. apply (insert_all_table key_same pair_place m [] []); [done|done|].
    cbn [app]. clear -Hn. induction m as [|[k x] m IH]; [constructor|]. cbn in Hn. apply NoDup_cons in Hn as [Hk Hn].
    constructor; [by apply IH|]. apply Forall_forall. intros [k' x'] Hin. unfold key_same. cbn [fst]. apply bool_decide_eq_false.
    intros ->. apply Hk. apply list_elem_of_fmap. by exists (k, x').
Qed.
End containers.

(** ** A small YAML *)

(** Documents are scalars, sequences and maps; a scalar is written as it is unless its
    text begins with an exclamation mark, everything else as a number that encodes it. *)
Module SmallYaml.
Notation doc := (gen_tree string).
Notation scalar s := (GenLeaf s).
Notation seq l := (GenNode 0 l).
Notation dict l := (GenNode 1 l).
Definition coded (n : doc) : string := String "!"%char (show (Zpos (encode n))).
Definition emit_doc (n : doc) : string :=
  match n with scalar s => match s with String "!" _ => coded n | _ => s end | _ => coded n end.
Definition load_doc (s : string) : option doc :=
  match s with
  | String "!" t => z ← read_dec t; decode (Z.to_pos z)
  | _ => Some (scalar s)
  end.
Definition elements_doc (n : doc) : list doc := match n with seq l => l | _ => [] end.
Fixpoint members_doc (l : list doc) : list (doc * doc) := match l with k :: v :: l => (k, v) :: members_doc l | _ => [] end.
Definition scalar_doc (n : doc) : string := match n with scalar s => s | _ => "" end.
Fixpoint put_doc (k : string) (v : doc) (l : list doc) : list doc :=
  match l with
  | k' :: v' :: l => if bool_decide (k' = scalar k) then k' :: v :: l else k' :: v' :: put_doc k v l
  | _ => [scalar k; v]
  end.
Fixpoint find_doc (k : string) (l : list doc) : option doc :=
  match l with k' :: v :: l => if bool_decide (k' = scalar k) then Some v else find_doc k l | _ => None end.
#[export] Instance doc_yaml : Yaml doc := {
  Load := load_doc;
  emit := emit_doc;
  IsMap n := match n with dict _ => true | _ => false end;
  IsScalar n := match n with scalar _ => true | _ => false end;
  Scalar := scalar_doc;
  as_string n := match n with scalar s => Some s | _ => None end;
  elements := elements_doc;
  members n := match n with dict l => members_doc l | _ => [] end;
  field n k := match n with dict l => find_doc k l | _ => None end;
  Null := GenNode 2 [];
  of_string s := scalar s;
  set_field k v n := dict (put_doc k v (match n with dict l => l | _ => [] end));
  push_back v n := seq (elements_doc n ++ [v]);
}.
Lemma load_coded n : load_doc (coded n) = Some n.
Proof. unfold load_doc, coded. rewrite read_dec_show by lia. cbn. apply decode_encode. Qed.
Lemma load_emit_doc n : load_doc (emit_doc n) = Some n.
Proof.
  destruct n as [s|i l]; [|apply load_coded]. unfold emit_doc. destruct s as [|c s]; [done|].
  destruct (decide (c = "!"%char)) as [->|Hc]; [apply load_coded|].
  assert (∀ (x y : string), match c with "!"%char => x | _ => y end = y) as Hm by (intros x y; by destruct c as [[] [] [] [] [] [] [] []]).
  rewrite Hm. unfold load_doc. by destruct c as [[] [] [] [] [] [] [] []].
Qed.
Lemma put_doc_new k v l : Forall (λ m, m.1 ≠ scalar k) (members_doc l) → Nat.Even (length l) →
  members_doc (put_doc k v l) = members_doc l ++ [(scalar k, v)] ∧ Nat.Even (length (put_doc k v l)).
Proof.
  revert l. fix IH 1. intros [|k' [|v' l]] Hk He; [split; [done|by exists 1]|destruct He as [z Hz]; cbn [length] in Hz; lia|].
  cbn [members_doc] in Hk. apply Forall_cons in Hk as [Hk' Hk]. cbn [fst] in Hk'. cbn [put_doc].
  rewrite bool_decide_false by done. destruct (IH l Hk) as [E He'].
  { destruct He as [x Hx]. exists (x - 1). cbn [length] in Hx. lia. }
  cbn [members_doc]. rewrite E. split; [done|]. destruct He' as [x Hx]. exists (S x). cbn [length]. lia.
Qed.
#[export] Instance doc_laws : YamlLaws doc.
Proof.
  split; [apply load_emit_doc|..|done].
  - intros l. change (elements (foldl (λ node n, push_back n node) Null l)) with (elements_doc (foldl (λ node n, push_back n node) (Null : doc) l)).
    assert (∀ acc : doc, elements_doc (foldl (λ node n, push_back n node) acc l) = elements_doc acc ++ l) as Hg; [|by rewrite Hg].
    induction l as [|x l IH]; intros acc; cbn [foldl]; [by rewrite app_nil_r|]. rewrite IH. cbn. by rewrite <-app_assoc.
  - intros l Hn.
    assert (∀ acc, Nat.Even (length acc) → (∀ k, k ∈ l.*1 → Forall (λ m, m.1 ≠ scalar k) (members_doc acc)) →
      members (foldl (λ node e, set_field e.1 e.2 node) (dict acc : doc) l) = members_doc acc ++ map (λ e, (of_string e.1, e.2)) l) as Hg.
    { induction l as [|[k v] l IH]; intros acc He Hk; cbn [foldl map]; [by rewrite app_nil_r|].
      cbn in Hn. apply NoDup_cons in Hn as [Hkn Hn].
      destruct (put_doc_new k v acc (Hk k (list_elem_of_here _ _)) He) as [E He'].
      change (set_field (k, v).1 (k, v).2 (dict acc : doc)) with (dict (put_doc k v acc) : doc).
      rewrite IH; [by rewrite E, <-app_assoc|done|done|]. intros k' Hk'. rewrite E. apply Forall_app. split.
      - apply Hk. cbn. by apply list_elem_of_further.
      - constructor; [|done]. cbn. intros [= ->]. done. }
    destruct l as [|e l]; [done|].
    change (foldl (λ node e, set_field e.1 e.2 node) Null (e :: l)) with
      (foldl (λ node e, set_field e.1 e.2 node) (dict [] : doc) (e :: l)).
    apply (Hg []); [by exists 0|]. intros k _. constructor.
Qed.
Lemma find_put k v k' : ∀ l, find_doc k' (put_doc k v l) = if bool_decide (k = k') then Some v else find_doc k' l.
Proof.
  assert (∀ v1 l, find_doc k' (scalar k :: v1 :: l) = if bool_decide (k = k') then Some v1 else find_doc k' l) as H0.
  { intros v1 l. cbn [find_doc]. destruct (decide (k = k')) as [->|Hne]; [by rewrite !bool_decide_true|].
    rewrite !bool_decide_false; [done|done|congruence]. }
  fix IH 1. intros [|k1 [|v1 l]]; [exact (H0 v [])|exact (H0 v [])|].
  pose proof (IH l) as IHl. clear IH. cbn [put_doc]. destruct (decide (k1 = scalar k)) as [->|E].
  - rewrite bool_decide_true by done. rewrite !H0. by case_bool_decide.
  - rewrite (bool_decide_false (k1 = _)) by done. cbn [find_doc]. rewrite IHl. destruct (decide (k = k')) as [->|Hne]; [by rewrite (bool_decide_false (k1 = _))|].
    by rewrite (bool_decide_false (k = k')).
Qed.
#[export] Instance doc_fields : YamlFields doc.
Proof.
  split; [|done..].
  intros k v n k'. change (field (set_field k v n) k') with (find_doc k' (put_doc k v (match n with dict l => l | _ => [] end))).
  rewrite find_put. by destruct n as [|[|[|]] l].
Qed.
End SmallYaml.

Module Demo.
Import SmallYaml.
Definition num_cast : Cast Z := mkCast read_dec (λ z, Some (show z)).
Definition less (a b : Z) : bool := (a <? b)%Z.
Definition same (a b : Z) : bool := (a =? b)%Z.
Lemma num_faithful : Forall (faithful num_cast) [1; 5; 80]%Z.
Proof. repeat constructor; eexists _, _; (split; [reflexivity|split; reflexivity]). Qed.
(** A set of numbers, a map of numbers, and then a map of sets. *)
Lemma containers_roundtrip_witness :
  faithful (set_cast less num_cast) [1; 5; 80]%Z ∧
  faithful (map_cast (set_cast less num_cast)) [("a", [1; 5; 80]%Z)].
Proof.
  assert (StronglySorted (λ a b, less a b = true) [1; 5; 80]%Z) as Hs by (repeat constructor).
  destruct (containers_roundtrip num_cast less same cons cons [1; 5; 80]%Z []) as (_&_&Hset&_).
  - reflexivity.
  - reflexivity.
  - apply num_faithful.
  - constructor.
  - constructor.
  - specialize (Hset Hs). split; [exact Hset|].
    destruct (containers_roundtrip (set_cast less num_cast) (λ _ _, false) (λ _ _, false) cons cons [] [("a", [1; 5; 80]%Z)])
      as (_&_&_&_&Hmap&_).
    + reflexivity.
    + reflexivity.
    + constructor.
    + repeat constructor. exact Hset.
    + repeat constructor. by intros ?%elem_of_nil.
    + apply Hmap. repeat constructor.
Defined.
End Demo.
