(* ===== verification/LogConfig.v ===== *)
(** The configuration of the log ([sylar/log.cc]): the variable "logs", its
    conversions from and to YAML, and the listener that applies a change. *)
From S2P Require Import Prelude Text LogFormatter Logger Yaml.
From Stdlib Require Import Ascii.

Local Open Scope string_scope.
Local Open Scope Z_scope.

Record LogAppenderDefine := mkLogAppenderDefine {
  type : Z;
  ad_level : Level;
  ad_formatter : string;
  file : string;
}.
Record LogDefine := mkLogDefine {
  name : string;
  level : Level;
  formatter : string;
  define_appenders : list LogAppenderDefine;
}.
#[export] Instance LogAppenderDefine_eq_dec : EqDecision LogAppenderDefine.
Proof. solve_decision. Defined.
#[export] Instance LogDefine_eq_dec : EqDecision LogDefine.
Proof. solve_decision. Defined.

(** A [std::set<LogDefine>], in its order: by name, one element for a name. *)
Notation defines := (list LogDefine).
(** [operator<] of [std::string] *)
Fixpoint codes (s : string) : list N := match s with "" => [] | String c s => N_of_ascii c :: codes s end.
Definition name_lt (a b : string) : bool := lex_lt (codes a) (codes b).
(** [insert]: an element of the same name stays. *)
Fixpoint insert (d : LogDefine) (l : defines) : defines :=
  match l with
  | [] => [d]
  | e :: r => if name_lt (name d) (name e) then d :: l else if name_lt (name e) (name d) then e :: insert d r else l
  end.
(** [find] *)
Fixpoint find (n : string) (l : defines) : option LogDefine :=
  match l with
  | [] => None
  | e :: l => if negb (name_lt n (name e)) && negb (name_lt (name e) n) then Some e else find n l
  end.

(** ** The conversions *)

Section yaml.
Context `{Yaml Node}.

(** An appender of the list; nothing when it is skipped with a message. *)
Definition read_appender {S} (a : Node) : M S (option LogAppenderDefine) :=
  match field a "type" with
  | None => mret None
  | Some t =>
      ty ← or_throw (as_string t);
      if bool_decide (ty = "FileLogAppender") then
        match field a "file" with
        | None => mret None
        | Some f =>
            f ← or_throw (as_string f);
            fmt ← (match field a "formatter" with Some x => or_throw (as_string x) | None => mret "" end);
            mret (Some (mkLogAppenderDefine 1 UNKNOW fmt f))
        end
      else if bool_decide (ty = "StdoutLogAppender") then mret (Some (mkLogAppenderDefine 2 UNKNOW "" ""))
      else mret None
  end.
Fixpoint read_appenders {S} (l : list Node) : M S (list LogAppenderDefine) :=
  match l with
  | [] => mret []
  | a :: l =>
      x ← read_appender a; r ← read_appenders l;
      mret (match x with Some d => d :: r | None => r end)
  end.
Definition read_define {S} (n : Node) : M S (option LogDefine) :=
  match field n "name" with
  | None => mret None
  | Some x =>
      nm ← or_throw (as_string x);
      lv ← (match field n "level" with Some x => or_throw (as_string x) | None => mret "" end);
      fmt ← (match field n "formatter" with Some x => or_throw (as_string x) | None => mret "" end);
      aps ← (match field n "appenders" with Some x => read_appenders (elements x) | None => mret [] end);
      mret (Some (mkLogDefine nm (FromString lv) fmt aps))
  end.
Fixpoint read_defines {S} (l : list Node) (vec : defines) : M S defines :=
  match l with
  | [] => mret vec
  | n :: l => d ← read_define n; read_defines l (match d with Some d => insert d vec | None => vec end)
  end.
(** [LexicalCast<std::string, std::set<LogDefine>>] *)
Definition defines_of_string {S} (v : string) : M S defines :=
  node ← or_throw (Load v); read_defines (elements node) [].

(** [LexicalCast<std::set<LogDefine>, std::string>] *)
Definition write_appender (a : LogAppenderDefine) : Node :=
  let na := Null in
  let na := if type a =? 1 then set_field "file" (of_string (file a)) (set_field "type" (of_string "FileLogAppender") na)
            else if type a =? 2 then set_field "type" (of_string "StdoutLoaAppender") na else na in
  let na := if negb (ad_level a =? UNKNOW) then set_field "level" (of_string (ToString (ad_level a))) na else na in
  if negb (bool_decide (ad_formatter a = "")) then set_field "formatter" (of_string (ad_formatter a)) na else na.
Definition write_define (i : LogDefine) : Node :=
  let n := set_field "name" (of_string (name i)) Null in
  let n := if negb (level i =? UNKNOW) then set_field "level" (of_string (ToString (level i))) n else n in
  let n := if bool_decide (formatter i = "") then set_field "formatter" (of_string (formatter i)) n else n in
  foldl (λ n a, set_field "appenders" (push_back (write_appender a) (default Null (field n "appenders"))) n) n
    (define_appenders i).
Definition string_of_defines (v : defines) : string := emit (foldl (λ node i, push_back (write_define i) node) Null v).
End yaml.

(** ** The listener *)

Section apply.
Context `{LocalTime, Files}.

Definition endl : string := String "010" "".
(** The appenders of a definition, made and added in order; a type that is neither
    1 nor 2 leaves the pointer null. *)
Definition make_appender (now : Z) (logger : string) (i : positive) (a : LogAppenderDefine) : M Logs unit :=
  ap ← (if type a =? 1 then new_appender (FileLogAppender (file a)) now
        else if type a =? 2 then new_appender StdoutLogAppender now else undef NullDeref);
  appender_setLevel ap (ad_level a);;
  (if bool_decide (ad_formatter a = "") then mret tt
   else
     fmt ← make_formatter (ad_formatter a);
     if m_error fmt then appender_setFormatter ap (Some fmt)
     else modify (write Console ("log.name=" +:+ logger +:+ " appender type=" +:+ show_signed (type a)
                                 +:+ " formatter=" +:+ ad_formatter a +:+ " is invalid" +:+ endl)));;
  addAppender i ap.
Fixpoint make_appenders (now : Z) (logger : string) (i : positive) (l : list LogAppenderDefine) : M Logs unit :=
  match l with [] => mret tt | a :: l => make_appender now logger i a;; make_appenders now logger i l end.

(** A definition that is new or has changed. *)
Definition apply_define (now : Z) (d : LogDefine) : M Logs unit :=
  i ← getLogger (name d);
  setLevel i (level d);;
  (if bool_decide (formatter d = "") then mret tt else setFormatter_pattern i (formatter d));;
  clearAppenders i;;
  make_appenders now (name d) i (define_appenders d).
Fixpoint apply_new (now : Z) (old new : defines) : M Logs unit :=
  match new with
  | [] => mret tt
  | d :: new =>
      (if bool_decide (find (name d) old = Some d) then mret tt else apply_define now d);;
      apply_new now old new
  end.
(** A definition that is gone: the logger is kept and switched off. *)
Fixpoint apply_old (old new : defines) : M Logs unit :=
  match old with
  | [] => mret tt
  | d :: old =>
      (match find (name d) new with
       | Some _ => mret tt
       | None => i ← getLogger (name d); setLevel i 100;; clearAppenders i
       end);;
      apply_old old new
  end.
(** The function [LogIniter] adds to "logs". *)
Definition on_change (now : Z) (old_value new_value : defines) : M Logs unit :=
  apply_new now old_value new_value;; apply_old old_value new_value.
End apply.
