(* ===== verification/LogConfigSpec.v ===== *)
(** What a change of the variable "logs" does to the loggers. *)
From S2P Require Import Prelude Text LogFormatter LogFormatterSpec Logger LoggerSpec Yaml LogConfig.
From stdpp Require Import gmap strings.

Local Open Scope string_scope.
Local Open Scope list_scope.
Local Open Scope Z_scope.

Section spec.
Context `{LocalTime, Files}.

(** ** Changing one logger *)

Definition apps (s : Logs) (i : positive) : list positive := from_option m_appenders [] (loggers s !! i).
(** Logger [i], its appenders and new appenders are all that changes. *)
Record touches (i : positive) (s s' : Logs) : Prop := mk_touches {
  t_names : ∀ n j, m_loggers s !! n = Some j → m_loggers s' !! n = Some j;
  t_root : root s' = root s;
  t_loggers : ∀ j, j ≠ i → loggers s' !! j = loggers s !! j;
  t_apps : ∀ a v, appenders s !! a = Some v → a ∉ apps s i → appenders s' !! a = Some v;
  t_list : ∀ a, a ∈ apps s' i → a ∈ apps s i ∨ appenders s !! a = None;
  t_dom : ∀ a, is_Some (appenders s !! a) → is_Some (appenders s' !! a);
}.
Lemma touches_refl i s : touches i s s.
Proof. split; auto. Qed.
Lemma touches_trans i s1 s2 s3 : touches i s1 s2 → touches i s2 s3 → touches i s1 s3.
Proof.
  intros [N1 R1 L1 A1 S1 D1] [N2 R2 L2 A2 S2 D2]. split; eauto.
  - congruence.
  - intros j Hj. by rewrite L2, L1.
  - intros a v Hv Ha. apply A2; [by apply A1|]. intros [?|E]%S1; congruence.
  - intros a [Ha|E]%S2; [by apply S1|]. right. destruct (appenders s1 !! a) eqn:Ea; [|done].
    destruct (D1 a) as [v Hv]; [eauto|congruence].
Qed.
(** The logger's entry replaced, its list kept, shortened or emptied. *)
Lemma touches_put i s l l' :
  loggers s !! i = Some l → (∀ a, a ∈ m_appenders l' → a ∈ m_appenders l) →
  touches i s (set_loggers (<[i := l']> (loggers s)) s).
Proof.
  intros Hl Hsub. split; cbn [loggers m_loggers root appenders set_loggers]; auto.
  - intros j Hj. by rewrite lookup_insert_ne.
  - unfold apps. cbn [loggers set_loggers]. intros a. rewrite lookup_insert_eq, Hl. simpl. auto.
Qed.

Lemma make_formatter_ok p s : ∃ f, LogFormatter_new p = Some f ∧ make_formatter p s = Ok f s.
Proof. destruct (LogFormatter_total p) as [f E]. exists f. split; [done|]. unfold make_formatter. by rewrite E. Qed.

Lemma new_logger_ok n r s :
  ∃ f, new_logger n r s =
    Ok (fresh (dom (loggers s))) (set_loggers (<[fresh (dom (loggers s)) := mkLogger n DEBUG [] (Some f) r]> (loggers s)) s).
Proof.
  destruct (make_formatter_ok "%d{%Y-%m-%d %H:%M:%S}%T%t%T%N%T%F%T[%p]%T[%c]%T<%f:%l>%T%m%n" s) as (f&_&E).
  exists f. unfold new_logger. step_with E. done.
Qed.
Lemma getLogger_ok n s :
  wf s → ∃ i s' l, getLogger n s = Ok i s' ∧ wf s' ∧ touches i s s' ∧
    m_loggers s' !! n = Some i ∧ loggers s' !! i = Some l.
Proof.
  intros Hw. assert (∃ i s', getLogger n s = Ok i s') as (i&s'&E).
  { unfold getLogger. rewrite bind_get. destruct (m_loggers s !! n); [by eexists _, _|].
    destruct (new_logger_ok n (Some (root s)) s) as (f&E). step_with E. by eexists _, _. }
  exists i, s'. assert (wf s') as Hw' by (by eapply getLogger_wf).
  assert (m_loggers s' !! n = Some i ∧ touches i s s') as [Hi Ht].
  { unfold getLogger in E. rewrite bind_get in E. destruct (m_loggers s !! n) as [j|] eqn:Ej.
    { injection E as <- <-. split; [done|apply touches_refl]. }
    apply bind_inv in E as (j&s1&(f&->&->)%new_logger_spec&E). rewrite bind_modify in E. injection E as <- <-.
    set (j := fresh (dom (loggers s))) in *.
    split; [apply lookup_insert_eq|].
    split; cbn [loggers m_loggers root appenders set_loggers set_names]; auto.
    - intros n' k Hk. rewrite lookup_insert_ne; [done|]. intros ->. congruence.
    - intros k Hk. by rewrite lookup_insert_ne.
    - intros a. unfold apps at 1. cbn [loggers set_names set_loggers]. rewrite lookup_insert_eq. simpl. set_solver. }
  destruct (wf_names s' Hw' n i Hi) as (l&Hl&_). by exists l.
Qed.

(** ** The appenders of a definition *)

Definition kind_of (a : LogAppenderDefine) : Kind := if type a =? 1 then FileLogAppender (file a) else StdoutLogAppender.
(** The appender a definition makes for logger [l]: a pattern of its own is used only
    when it is erroneous. *)
Definition made (l : Logger) (a : LogAppenderDefine) (v : LogAppender) : Prop :=
  kind v = kind_of a ∧ a_level v = ad_level a ∧
  a_formatter v =
    match LogFormatter_new (ad_formatter a) with
    | Some f => if negb (bool_decide (ad_formatter a = "")) && m_error f then Some f else l_formatter l
    | None => None
    end.
Definition type_ok (a : LogAppenderDefine) : Prop := type a = 1 ∨ type a = 2.

Definition with_list (v : list positive) (l : Logger) : Logger :=
  mkLogger (m_name l) (l_level l) v (l_formatter l) (m_root l).
Lemma set_list_ok i v l s :
  loggers s !! i = Some l → set_list i v s = Ok tt (set_loggers (<[i := with_list v l]> (loggers s)) s).
Proof. intros Hl. unfold set_list. by step_with (get_logger_ok s i l Hl). Qed.

Lemma new_appender_ok k now s :
  ∃ v, new_appender k now s = Ok (fresh (dom (appenders s))) (set_appenders (<[fresh (dom (appenders s)) := v]> (appenders s)) s) ∧
    kind v = k ∧ a_formatter v = None.
Proof.
  unfold new_appender. rewrite bind_get. cbv zeta. unfold put_appender. rewrite bind_modify.
  eexists. split; [reflexivity|done].
Qed.

(** The four steps of [make_appender], on an appender [ap] that is there. *)
Lemma make_appender_ok now n i a l s :
  wf s → loggers s !! i = Some l → type_ok a →
  ∃ s' ap v, make_appender now n i a s = Ok tt s' ∧ appenders s !! ap = None ∧
    loggers s' = <[i := with_list (m_appenders l ++ [ap]) l]> (loggers s) ∧
    m_loggers s' = m_loggers s ∧ root s' = root s ∧ appenders s' = <[ap := v]> (appenders s) ∧ made l a v.
Proof.
  intros Hw Hl Ht. destruct (new_appender_ok (kind_of a) now s) as (v0&E0&K0&F0).
  set (ap := fresh (dom (appenders s))) in *.
  assert (appenders s !! ap = None) as Hap by (apply not_elem_of_dom, is_fresh).
  assert ((if type a =? 1 then new_appender (FileLogAppender (file a)) now
    else if type a =? 2 then new_appender StdoutLogAppender now else undef NullDeref) s =
    Ok ap (set_appenders (<[ap := v0]> (appenders s)) s)) as E1.
  { rewrite <-E0. unfold kind_of. destruct (type a =? 1) eqn:E; [done|]. destruct Ht as [Ht|Ht]; rewrite Ht in *; done. }
  unfold make_appender. step_with E1. set (s1 := set_appenders _ s).
  assert (appenders s1 !! ap = Some v0) as H1 by apply lookup_insert_eq.
  set (v1 := mkLogAppender (kind v0) (ad_level a) (m_hasFormatter v0) None (is_open v0) (m_lastTime v0)).
  assert (appender_setLevel ap (ad_level a) s1 = Ok tt (set_appenders (<[ap := v1]> (appenders s)) s)) as E2.
  { unfold appender_setLevel. step_with (get_appender_ok s1 ap v0 H1). unfold put_appender, modify. unfold v1, s1.
    unfold set_appenders. cbn [appenders loggers m_loggers root written]. by rewrite F0, insert_insert_eq. }
  step_with E2. set (s2 := set_appenders _ s).
  assert (appenders s2 !! ap = Some v1) as H2 by apply lookup_insert_eq.
  destruct (make_formatter_ok (ad_formatter a) s2) as (f&Ef&E3).
  unfold made. rewrite Ef.
  (* the formatter *)
  assert (∃ s3 v2,
    (if bool_decide (ad_formatter a = "") then mret tt
     else fmt ← make_formatter (ad_formatter a);
       if m_error fmt then appender_setFormatter ap (Some fmt)
       else modify (write Console ("log.name=" +:+ n +:+ " appender type=" +:+ show_signed (type a)
                                 +:+ " formatter=" +:+ ad_formatter a +:+ " is invalid" +:+ endl))) s2 = Ok tt s3 ∧
    loggers s3 = loggers s ∧ m_loggers s3 = m_loggers s ∧ root s3 = root s ∧ appenders s3 = <[ap := v2]> (appenders s) ∧
    kind v2 = kind v0 ∧ a_level v2 = ad_level a ∧
    a_formatter v2 = if negb (bool_decide (ad_formatter a = "")) && m_error f then Some f else None)
    as (s3&v2&E4&L3&N3&R3&A3&K3&V3&F3).
  { case_bool_decide; cbn [negb andb]; [by exists s2, v1|]. step_with E3. destruct (m_error f).
    - unfold appender_setFormatter. step_with (get_appender_ok s2 ap v1 H2). eexists _, _. split; [done|].
      unfold s2. cbn [set_appenders appenders loggers m_loggers root]. rewrite insert_insert_eq. split_and!; done.
    - by eexists _, v1. }
  step_with E4. unfold addAppender.
  assert (loggers s3 !! i = Some l) as Hl3 by (by rewrite L3).
  assert (appenders s3 !! ap = Some v2) as H3 by (rewrite A3; apply lookup_insert_eq).
  step_with (get_logger_ok s3 i l Hl3). step_with (get_appender_ok s3 ap v2 H3).
  rewrite F3. destruct (negb _ && m_error f) eqn:Ee.
  - rewrite bool_decide_false by done. rewrite bind_ret, (set_list_ok i _ l s3 Hl3).
    eexists _, ap, v2. split; [done|]. cbn [set_loggers loggers m_loggers root appenders]. rewrite L3.
    split_and!; try done. by rewrite K3, K0.
  - rewrite bool_decide_true by done. unfold put_appender. rewrite bind_modify. rewrite (set_list_ok i _ l) by done.
    eexists _, ap, _. split; [done|]. cbn [set_loggers set_appenders loggers m_loggers root appenders].
    rewrite L3, A3, insert_insert_eq. split_and!; try done. by rewrite <-K0.
Qed.

Lemma made_formatter l a v : is_Some (l_formatter l) → made l a v → is_Some (a_formatter v).
Proof.
  intros Hl (_&_&->). destruct (LogFormatter_total (ad_formatter a)) as [f ->]. by destruct (_ && _).
Qed.
Lemma wf_ext s s' :
  loggers s' = loggers s → m_loggers s' = m_loggers s → root s' = root s → appenders s' = appenders s → wf s → wf s'.
Proof.
  intros El En Er Ea [W1 W2 W3]. split; rewrite ?El, ?En, ?Er; try done. intros i l Hl. destruct (W3 i l Hl) as [Hf Hr].
  split; [done|]. eapply Forall_impl; [exact Hr|]. intros a. unfold ready. by rewrite Ea.
Qed.
Lemma wf_add_appender s i l ap v :
  wf s → loggers s !! i = Some l → appenders s !! ap = None → is_Some (a_formatter v) →
  wf (set_loggers (<[i := with_list (m_appenders l ++ [ap]) l]> (loggers s)) (set_appenders (<[ap := v]> (appenders s)) s)).
Proof.
  intros Hw Hl Hap Hv. destruct (wf_all s Hw i l Hl) as [Hf Hr].
  assert (wf (set_appenders (<[ap := v]> (appenders s)) s)) as Hw1 by (by apply wf_put_appender).
  eapply (wf_put_logger (set_appenders _ s)); [done..|]. cbn [with_list m_appenders]. apply Forall_app. split.
  - eapply Forall_impl; [exact Hr|]. intros b. by apply ready_put.
  - constructor; [|constructor]. exists v. split; [apply lookup_insert_eq|done].
Qed.

Lemma make_appenders_ok now n i ads l s :
  wf s → loggers s !! i = Some l → Forall type_ok ads →
  ∃ s' new, make_appenders now n i ads s = Ok tt s' ∧ wf s' ∧
    loggers s' = <[i := with_list (m_appenders l ++ new) l]> (loggers s) ∧
    m_loggers s' = m_loggers s ∧ root s' = root s ∧
    (∀ a v, appenders s !! a = Some v → appenders s' !! a = Some v) ∧
    Forall2 (λ ap ad, appenders s !! ap = None ∧ ∃ v, appenders s' !! ap = Some v ∧ made l ad v) new ads.
Proof.
  revert l s. induction ads as [|ad ads IH]; intros l s Hw Hl Ht.
  - exists s, []. split; [done|]. split; [done|]. split; [|by split_and!].
    rewrite app_nil_r. rewrite insert_id; [done|]. rewrite Hl. by destruct l.
  - apply Forall_cons in Ht as [Hta Ht].
    destruct (make_appender_ok now n i ad l s Hw Hl Hta) as (s1&ap&v&E1&Hap&L1&N1&R1&A1&M1).
    assert (wf s1) as Hw1.
    { assert (is_Some (a_formatter v)) as Hv by (eapply made_formatter; [by destruct (wf_all s Hw i l Hl)|done]).
      refine (wf_ext _ s1 _ _ _ _ (wf_add_appender s i l ap v Hw Hl Hap Hv)); done. }
    destruct (IH (with_list (m_appenders l ++ [ap]) l) s1) as (s2&new&E2&Hw2&L2&N2&R2&A2&F2);
      [done|by rewrite L1, lookup_insert_eq|done|].
    exists s2, (ap :: new). cbn [make_appenders]. step_with E1. split; [done|]. split; [done|].
    split; [|split; [congruence|split; [congruence|split]]].
    + rewrite L2, L1, insert_insert_eq. cbn [with_list m_appenders m_name l_level l_formatter m_root].
      by rewrite <-app_assoc.
    + intros a w Ha. apply A2. rewrite A1, lookup_insert_ne; [done|]. congruence.
    + constructor.
      * split; [done|]. exists v. split; [|done]. apply A2. by rewrite A1, lookup_insert_eq.
      * eapply Forall2_impl; [exact F2|]. intros b bd (Hb&w&Hw'&Hm). split; [|by exists w].
        rewrite A1 in Hb. by apply lookup_insert_None in Hb as [? _].
Qed.

(** ** A definition that is applied *)

(** No appender of logger [i] belongs to another one. *)
Definition owned (s : Logs) (i : positive) : Prop := ∀ j a, j ≠ i → a ∈ apps s i → a ∉ apps s j.
(** The logger is as the definition says. *)
Definition configured (s : Logs) (d : LogDefine) : Prop :=
  ∃ i l, m_loggers s !! name d = Some i ∧ loggers s !! i = Some l ∧ l_level l = level d ∧
    Forall2 (λ ap ad, ∃ v, appenders s !! ap = Some v ∧ made l ad v) (m_appenders l) (define_appenders d) ∧
    owned s i.
Definition switched_off (s : Logs) (n : string) : Prop :=
  ∃ i l, m_loggers s !! n = Some i ∧ loggers s !! i = Some l ∧ l_level l = 100 ∧ m_appenders l = [].

Lemma setFormatter_pattern_ok i p l s :
  wf s → loggers s !! i = Some l →
  ∃ s' l', setFormatter_pattern i p s = Ok tt s' ∧ touches i s s' ∧ loggers s' !! i = Some l' ∧
    l_level l' = l_level l ∧ m_appenders l' = m_appenders l.
Proof.
  intros Hw Hl. unfold setFormatter_pattern. destruct (make_formatter_ok p s) as (f&_&E). step_with E.
  step_with (get_logger_ok s i l Hl). destruct (m_error f).
  { eexists _, l. split; [done|]. split; [|done]. split; auto. }
  unfold setFormatter. step_with (get_logger_ok s i l Hl). unfold put_logger. rewrite bind_modify.
  set (l1 := mkLogger _ _ _ _ _). set (s1 := set_loggers _ s).
  assert (touches i s s1) as Ht by (eapply touches_put; [exact Hl|done]).
  assert (wf s1) as Hw1.
  { destruct (wf_all s Hw i l Hl) as [_ Hr]. by eapply wf_put_logger. }
  assert (∀ k t, (∀ a, a ∈ k → a ∈ apps s1 i ∧ is_Some (appenders t !! a)) → loggers t = loggers s1 → touches i s1 t →
    ∃ t', pass_formatter (Some f) k t = Ok tt t' ∧ loggers t' = loggers s1 ∧ touches i s1 t') as Hpass.
  { induction k as [|a k IH]; intros t Hk Hlt Htt; [by exists t|]. cbn [pass_formatter].
    destruct (Hk a) as [Ha [v Hv]]; [by left|]. step_with (get_appender_ok t a v Hv).
    destruct (m_hasFormatter v).
    - rewrite bind_ret. apply IH; [|done|done]. intros b Hb. apply Hk. by right.
    - unfold put_appender. rewrite bind_modify. apply IH; [|done|].
      + intros b Hb. destruct (Hk b) as [? Hs]; [by right|]. split; [done|]. cbn [appenders set_appenders].
        destruct (decide (b = a)) as [->|]; [rewrite lookup_insert_eq; eauto|by rewrite lookup_insert_ne].
      + eapply touches_trans; [exact Htt|]. split; cbn [set_appenders loggers m_loggers root appenders]; auto.
        * intros b w Hb Hnb. rewrite lookup_insert_ne; [done|]. intros ->. apply Hnb.
          unfold apps. by rewrite Hlt.
        * intros b Hb. destruct (decide (b = a)) as [->|]; [rewrite lookup_insert_eq; eauto|by rewrite lookup_insert_ne]. }
  assert (apps s1 i = m_appenders l) as Happs by (unfold apps, s1; cbn [loggers set_loggers]; by rewrite lookup_insert_eq).
  destruct (Hpass (m_appenders l) s1) as (t&Et&Lt&Tt); [|done|apply touches_refl|].
  { intros a Ha. rewrite Happs. split; [done|]. destruct (wf_all s Hw i l Hl) as [_ Hr].
    rewrite Forall_forall in Hr. destruct (Hr a Ha) as (v&Hv&_). eauto. }
  exists t, l1. split; [exact Et|]. split; [by eapply touches_trans|]. split; [|done].
  rewrite Lt. apply lookup_insert_eq.
Qed.

Lemma apply_define_ok now d s :
  wf s → Forall type_ok (define_appenders d) →
  ∃ s' i, apply_define now d s = Ok tt s' ∧ wf s' ∧ m_loggers s' !! name d = Some i ∧ touches i s s' ∧ configured s' d.
Proof.
  intros Hw Ht. unfold apply_define. destruct (getLogger_ok (name d) s Hw) as (i&s1&l&E1&Hw1&T1&I1&L1). step_with E1.
  assert (setLevel i (level d) s1 = Ok tt (set_loggers (<[i := mkLogger (m_name l) (level d) (m_appenders l) (l_formatter l) (m_root l)]> (loggers s1)) s1)) as E2
    by (unfold setLevel; by step_with (get_logger_ok s1 i l L1)).
  step_with E2. set (l2 := mkLogger _ _ _ _ _) in *. set (s2 := set_loggers _ s1) in *.
  assert (wf s2) as Hw2 by (exact (exec_wf (Level_ i (level d)) s1 tt s2 Hw1 E2)).
  assert (touches i s1 s2) as T2 by (by eapply touches_put).
  assert (∃ s3 l3, (if bool_decide (formatter d = "") then mret tt else setFormatter_pattern i (formatter d)) s2 = Ok tt s3 ∧
    wf s3 ∧ touches i s2 s3 ∧ loggers s3 !! i = Some l3 ∧ l_level l3 = level d) as (s3&l3&E3&Hw3&T3&L3&V3).
  { assert (loggers s2 !! i = Some l2) as L2 by apply lookup_insert_eq. case_bool_decide.
    - exists s2, l2. split_and!; try done; apply touches_refl.
    - destruct (setFormatter_pattern_ok i (formatter d) l2 s2 Hw2 L2) as (s3&l3&E3&T3&L3&V3&_). exists s3, l3.
      split; [done|]. split; [exact (exec_wf (Pattern i (formatter d)) s2 tt s3 Hw2 E3)|done]. }
  step_with E3. assert (clearAppenders i s3 = Ok tt (set_loggers (<[i := with_list [] l3]> (loggers s3)) s3)) as E4
    by (by apply set_list_ok).
  step_with E4. set (s4 := set_loggers _ s3) in *.
  assert (wf s4) as Hw4 by (exact (exec_wf (ClearAppenders i) s3 tt s4 Hw3 E4)).
  assert (touches i s3 s4) as T4 by (eapply touches_put; [exact L3|intros a []%elem_of_nil]).
  assert (loggers s4 !! i = Some (with_list [] l3)) as L4 by apply lookup_insert_eq.
  destruct (make_appenders_ok now (name d) i (define_appenders d) (with_list [] l3) s4 Hw4 L4 Ht)
    as (s5&new&E5&Hw5&L5&N5&R5&A5&F5). cbn [with_list m_appenders app] in L5.
  assert (apps s5 i = new) as Hnew by (unfold apps; by rewrite L5, lookup_insert_eq).
  assert (∀ a, a ∈ new → appenders s4 !! a = None) as Hfresh.
  { intros a [k Hk]%list_elem_of_lookup. destruct (Forall2_lookup_l _ _ _ _ _ F5 Hk) as (b&_&Hb&_). done. }
  assert (touches i s4 s5) as T5.
  { split; [by rewrite N5|done|intros j Hj; by rewrite L5, lookup_insert_ne|by eauto| |].
    - intros a. rewrite Hnew. intros Ha. right. by apply Hfresh.
    - intros a [v Hv]. eauto. }
  exists s5, i. split; [exact E5|]. split; [done|].
  assert (m_loggers s5 !! name d = Some i) as I5.
  { apply (t_names _ _ _ T5), (t_names _ _ _ T4), (t_names _ _ _ T3), (t_names _ _ _ T2). done. }
  split; [done|]. split.
  { eapply touches_trans, touches_trans, touches_trans, touches_trans; eassumption. }
  eexists i, _. split; [exact I5|]. split; [rewrite L5; apply lookup_insert_eq|]. cbn [with_list l_level m_appenders].
  split; [done|]. split.
  - eapply Forall2_impl; [exact F5|]. intros a ad (_&v&Hv&Hm). by exists v.
  - intros j a Hj Ha Hin. rewrite Hnew in Ha. unfold apps in Hin. rewrite L5, lookup_insert_ne in Hin by done.
    destruct (loggers s4 !! j) as [k|] eqn:Ek; [|by apply elem_of_nil in Hin]. cbn [from_option] in Hin.
    destruct (wf_all s4 Hw4 j k Ek) as [_ Hr]. rewrite Forall_forall in Hr. destruct (Hr a Hin) as (v&Hv&_).
    rewrite (Hfresh a Ha) in Hv. done.
Qed.

(** ** Several definitions *)

(** A step for the logger named [n] leaves the others as they are. *)
Definition effect (n : string) (s s' : Logs) : Prop := ∃ i, m_loggers s' !! n = Some i ∧ touches i s s'.
Lemma effect_other n m i s s' :
  wf s' → effect n s s' → m ≠ n → m_loggers s !! m = Some i →
  m_loggers s' !! m = Some i ∧ loggers s' !! i = loggers s !! i ∧ ∃ k, k ≠ i ∧ touches k s s'.
Proof.
  intros Hw (k&Hk&T) Hne Hi. pose proof (t_names _ _ _ T _ _ Hi) as Hi'.
  assert (k ≠ i) as Hki by (intros ->; apply Hne; by eapply wf_inj).
  split; [done|]. split; [by apply (t_loggers _ _ _ T)|by exists k].
Qed.
Lemma configured_effect n d s s' :
  wf s → wf s' → effect n s s' → name d ≠ n → configured s d → configured s' d.
Proof.
  intros Hw Hw' He Hne (i&l&Hi&Hl&Hv&HF&Ho). destruct (effect_other n (name d) i s s' Hw' He Hne Hi) as (Hi'&Hl'&k&Hk&T).
  exists i, l. split; [done|]. split; [congruence|]. split; [done|].
  assert (apps s i = m_appenders l) as Ha by (unfold apps; by rewrite Hl).
  assert (apps s' i = m_appenders l) as Ha' by (unfold apps; by rewrite Hl', Hl).
  split.
  - apply Forall2_same_length_lookup. apply Forall2_same_length_lookup in HF as [Hlen HF]. split; [done|].
    intros x ap ad H1 H2. destruct (HF x ap ad H1 H2) as (v&Hap&Hm). exists v. split; [|done].
    apply (t_apps _ _ _ T); [done|]. apply (Ho k); [done|]. rewrite Ha. by eapply list_elem_of_lookup_2.
  - intros j a Hj Hin. rewrite Ha' in Hin. destruct (wf_all s Hw i l Hl) as [_ Hr]. rewrite Forall_forall in Hr.
    destruct (Hr a Hin) as (v&Hav&_). destruct (decide (j = k)) as [->|Hjk].
    + intros [Hs|Hs]%(t_list _ _ _ T); [|congruence]. apply (Ho k a); [done|by rewrite Ha|done].
    + unfold apps. rewrite (t_loggers _ _ _ T) by done. apply (Ho j a); [done|by rewrite Ha].
Qed.
Lemma switched_off_effect n m s s' :
  wf s' → effect n s s' → m ≠ n → switched_off s m → switched_off s' m.
Proof.
  intros Hw He Hne (i&l&Hi&Hl&Hv&Ha). destruct (effect_other n m i s s' Hw He Hne Hi) as (Hi'&Hl'&_).
  exists i, l. split; [done|]. split; [congruence|done].
Qed.

Lemma apply_new_ok now old new s :
  wf s → NoDup (name <$> new) → Forall (λ d, Forall type_ok (define_appenders d)) new →
  ∃ s', apply_new now old new s = Ok tt s' ∧ wf s' ∧
    (∀ d, d ∈ new → LogConfig.find (name d) old ≠ Some d → configured s' d) ∧
    (∀ d, name d ∉ name <$> new → configured s d → configured s' d) ∧
    ∀ m i, m_loggers s !! m = Some i → (∀ d, d ∈ new → name d = m → LogConfig.find m old = Some d) →
      m_loggers s' !! m = Some i ∧ loggers s' !! i = loggers s !! i.
Proof.
  revert s. induction new as [|d new IH]; intros s Hw Hnd Ht.
  - exists s. split; [done|]. split; [done|]. split; [intros d []%elem_of_nil|]. auto.
  - cbn [fmap list_fmap] in Hnd. apply NoDup_cons in Hnd as [Hd Hnd]. apply Forall_cons in Ht as [Htd Ht].
    cbn [apply_new].
    assert (∃ s1, (if bool_decide (LogConfig.find (name d) old = Some d) then mret tt else apply_define now d) s = Ok tt s1 ∧
      wf s1 ∧ (LogConfig.find (name d) old ≠ Some d → configured s1 d) ∧ (effect (name d) s s1 ∨ s1 = s ∧ LogConfig.find (name d) old = Some d))
      as (s1&E1&Hw1&C1&He).
    { case_bool_decide; [by exists s; split_and!; auto|].
      destruct (apply_define_ok now d s Hw Htd) as (s1&i&E1&Hw1&I1&T1&C1). exists s1. split_and!; try done.
      left. by exists i. }
    step_with E1. destruct (IH s1 Hw1 Hnd Ht) as (s2&E2&Hw2&C2&P2&U2). exists s2. split; [done|]. split; [done|].
    split; [|split].
    + intros e [->|He']%elem_of_cons Hf; [apply P2; auto|by apply C2].
    + intros e Hne He'. cbn [fmap list_fmap] in Hne. apply not_elem_of_cons in Hne as [Hn1 Hn2]. apply P2; [done|].
      destruct He as [He|[-> _]]; [|done]. by apply (configured_effect (name d) e s s1).
    + intros m i Hi Hall.
      assert (m_loggers s1 !! m = Some i ∧ loggers s1 !! i = loggers s !! i) as [Hi1 Hl1].
      { destruct He as [He|[-> _]]; [|done]. destruct (decide (m = name d)) as [->|Hm].
        - assert (LogConfig.find (name d) old = Some d) as Hf by (apply Hall; [by left|done]). 
          revert E1. rewrite bool_decide_true by done. by intros [= ->].
        - by destruct (effect_other (name d) m i s s1 Hw1 He Hm Hi) as (?&?&_). }
      rewrite <-Hl1. apply U2; [done|]. intros e He' Hn. apply Hall; [by right|done].
Qed.

Lemma find_none n l : LogConfig.find n l = None → n ∉ name <$> l.
Proof.
  induction l as [|e l IH]; [by intros _ ?%elem_of_nil|]. cbn [LogConfig.find fmap list_fmap].
  destruct (negb _ && _) eqn:E; [done|]. intros Hf [->|?]%elem_of_cons; [|by apply IH].
  unfold name_lt in E. by rewrite lex_lt_irrefl in E.
Qed.
Lemma switch_off_ok n s :
  wf s → ∃ s', (i ← getLogger n; setLevel i 100;; clearAppenders i) s = Ok tt s' ∧
    wf s' ∧ effect n s s' ∧ switched_off s' n.
Proof.
  intros Hw. destruct (getLogger_ok n s Hw) as (i&s1&l&E1&Hw1&T1&I1&L1). step_with E1.
  set (l2 := mkLogger (m_name l) 100 (m_appenders l) (l_formatter l) (m_root l)).
  assert (setLevel i 100 s1 = Ok tt (set_loggers (<[i := l2]> (loggers s1)) s1)) as E2
    by (unfold setLevel; by step_with (get_logger_ok s1 i l L1)).
  step_with E2. set (s2 := set_loggers _ s1) in *.
  assert (loggers s2 !! i = Some l2) as L2 by apply lookup_insert_eq.
  assert (clearAppenders i s2 = Ok tt (set_loggers (<[i := with_list [] l2]> (loggers s2)) s2)) as E3 by (by apply set_list_ok).
  eexists. split; [exact E3|]. assert (wf s2) as Hw2 by (exact (exec_wf (Level_ i 100) s1 tt s2 Hw1 E2)).
  split; [exact (exec_wf (ClearAppenders i) s2 tt _ Hw2 E3)|]. split.
  - exists i. split; [done|]. eapply touches_trans; [exact T1|].
    eapply touches_trans; [by eapply (touches_put i s1 l l2)|]. eapply touches_put; [exact L2|by intros a ?%elem_of_nil].
  - eexists i, _. split; [done|]. split; [apply lookup_insert_eq|done].
Qed.
Lemma apply_old_ok old new s :
  wf s →
  ∃ s', apply_old old new s = Ok tt s' ∧ wf s' ∧
    (∀ d, d ∈ old → LogConfig.find (name d) new = None → switched_off s' (name d)) ∧
    (∀ n, switched_off s n → switched_off s' n) ∧
    (∀ d, name d ∈ name <$> new → configured s d → configured s' d) ∧
    ∀ m i, m_loggers s !! m = Some i → (∀ d, d ∈ old → name d = m → LogConfig.find m new ≠ None) →
      m_loggers s' !! m = Some i ∧ loggers s' !! i = loggers s !! i.
Proof.
  revert s. induction old as [|d old IH]; intros s Hw.
  - exists s. split; [done|]. split; [done|]. split; [intros d []%elem_of_nil|]. auto.
  - cbn [apply_old]. destruct (LogConfig.find (name d) new) as [e|] eqn:Ef.
    + rewrite bind_ret. destruct (IH s Hw) as (s'&E&Hw'&S'&P'&C'&U'). exists s'. split_and!; try done.
      * intros x [->|Hx]%elem_of_cons Hn; [congruence|by apply S'].
      * intros m i Hi Hall. apply U'; [done|]. intros x Hx. apply Hall. by right.
    + destruct (switch_off_ok (name d) s Hw) as (s1&E1&Hw1&He&Hs1).
      assert (∀ k : unit → M Logs unit, (x ← (i ← getLogger (name d); setLevel i 100;; clearAppenders i); k x) s = k tt s1)
        as Hk by (intros k; by step_with E1).
      rewrite Hk. destruct (IH s1 Hw1) as (s'&E&Hw'&S'&P'&C'&U'). exists s'. split; [done|]. split; [done|]. split_and!.
      * intros x [->|Hx]%elem_of_cons Hn; [by apply P'|by apply S'].
      * intros n Hn. apply P'. destruct (decide (n = name d)) as [->|Hne]; [done|].
        by apply (switched_off_effect (name d) n s s1).
      * intros x Hx Hc. apply C'; [done|]. apply (configured_effect (name d) x s s1); try done.
        intros Hx'. rewrite Hx' in Hx. by apply (find_none (name d) new).
      * intros m i Hi Hall.
        assert (m ≠ name d) as Hm by (intros ->; by apply (Hall d); [left|..]).
        destruct (effect_other (name d) m i s s1 Hw1 He Hm Hi) as (Hi1&Hl1&_).
        rewrite <-Hl1. apply U'; [done|]. intros x Hx. apply Hall. by right.
Qed.

End spec.

Module Demo.
#[local] Instance demo_time : LocalTime := λ _ _, Some "12:00".
#[local] Instance demo_files : Files := λ _ _, true.

Definition old_defines : defines := [mkLogDefine "gone" INFO "" []].
(** A console appender with a pattern of its own, which is good. *)
Definition new_defines : defines := [mkLogDefine "app" WARN "%m" [mkLogAppenderDefine 2 INFO "%p" ""]].
End Demo.
