(* ===== verification/LogYaml.v ===== *)
(** The configuration of the log as text ([toYamlString] of loggers, appenders and the
    manager in [sylar/log.cc]). *)
From stdpp Require Import gmap strings sorting.
From S2P Require Import Prelude Text LogFormatter Logger Yaml LogConfig.

Local Open Scope string_scope.
Local Open Scope Z_scope.

Section yaml.
Context `{Yaml Node}.

(** A level is written unless it is [UNKNOW]. *)
Definition level_field (level : Level) (node : Node) : Node :=
  if negb (level =? UNKNOW) then set_field "level" (of_string (ToString level)) node else node.
Definition formatter_field (f : option LogFormatter) (node : Node) : Node :=
  match f with Some f => set_field "formatter" (of_string (m_pattern f)) node | None => node end.

(** [StdoutLogAppender::toYamlString] and [FileLogAppender::toYamlString] *)
Definition appender_node (v : LogAppender) : Node :=
  let node :=
    match kind v with
    | StdoutLogAppender => set_field "type" (of_string "StdoutLogAppender") Null
    | FileLogAppender filename =>
        set_field "file" (of_string filename) (set_field "type" (of_string "FileLogAppender") Null)
    end in
  let node := level_field (a_level v) node in
  if m_hasFormatter v then formatter_field (a_formatter v) node else node.
Definition appender_toYamlString (a : positive) : M Logs string :=
  v ← get_appender a; mret (emit (appender_node v)).

(** [Logger::toYamlString]: the text of every appender is read again. *)
Fixpoint appenders_field (l : list positive) (node : Node) : M Logs Node :=
  match l with
  | [] => mret node
  | i :: l =>
      text ← appender_toYamlString i;
      n ← or_throw (Load text);
      appenders_field l (set_field "appenders" (push_back n (default Null (field node "appenders"))) node)
  end.
Definition logger_toYamlString (i : positive) : M Logs string :=
  l ← get_logger i;
  node ← appenders_field (m_appenders l)
    (formatter_field (l_formatter l) (level_field (l_level l) (set_field "name" (of_string (m_name l)) Null)));
  mret (emit node).

(** [LoggerManager::toYamlString]: the loggers in the order of their names. *)
Definition name_le (a b : string * positive) : Prop := name_lt b.1 a.1 = false.
#[export] Instance name_le_dec : RelDecision name_le.
Proof. intros a b. unfold name_le. apply _. Defined.
Definition in_order (m : gmap string positive) : list (string * positive) := merge_sort name_le (map_to_list m).
Fixpoint loggers_node (l : list (string * positive)) (node : Node) : M Logs Node :=
  match l with
  | [] => mret node
  | (_, i) :: l =>
      text ← logger_toYamlString i;
      n ← or_throw (Load text);
      loggers_node l (push_back n node)
  end.
Definition manager_toYamlString : M Logs string :=
  s ← get;
  node ← loggers_node (in_order (m_loggers s)) Null;
  mret (emit node).
End yaml.
