(* ===== verification/LogYamlSpec.v ===== *)
(** The configuration of the log that is printed reads back as a definition of every
    logger: what the definitions keep and what they lose. *)
From stdpp Require Import gmap strings sorting.
From S2P Require Import Prelude Text LogFormatter LogFormatterSpec Logger LoggerSpec Yaml LexicalSpec LogConfig LogConfigSpec LogYaml.

Local Open Scope string_scope.
Local Open Scope list_scope.
Local Open Scope Z_scope.

(** ** The definitions *)

(** The levels that have a name; the others become [UNKNOW]. *)
Definition level_kept (level : Level) : Level := if (1 <=? level) && (level <=? 5) then level else UNKNOW.
(** Of an appender the level is lost, and the pattern of one that writes to the console. *)
Definition define_of_appender (v : LogAppender) : LogAppenderDefine :=
  match kind v with
  | FileLogAppender f => mkLogAppenderDefine 1 UNKNOW (if m_hasFormatter v then from_option m_pattern "" (a_formatter v) else "") f
  | StdoutLogAppender => mkLogAppenderDefine 2 UNKNOW "" ""
  end.
Definition appenders_of (s : Logs) (l : Logger) : list LogAppender := omap (λ a, appenders s !! a) (m_appenders l).
Definition define_of (s : Logs) (l : Logger) : LogDefine :=
  mkLogDefine (m_name l) (level_kept (l_level l)) (from_option m_pattern "" (l_formatter l))
    (define_of_appender <$> appenders_of s l).
Definition all_loggers (s : Logs) : list Logger := omap (λ e, loggers s !! e.2) (in_order (m_loggers s)).

Lemma level_kept_text level : FromString (ToString level) = level_kept level.
Proof.
  unfold level_kept. destruct (decide (1 ≤ level ≤ 5)) as [Hl|Hl].
  - rewrite (proj2 (andb_true_iff _ _)) by lia.
    assert (level = 1 ∨ level = 2 ∨ level = 3 ∨ level = 4 ∨ level = 5) as Hc by lia. by repeat destruct Hc as [->|Hc]; subst.
  - assert (((1 <=? level) && (level <=? 5)) = false) as -> by (apply andb_false_iff; lia).
    unfold ToString, DEBUG, INFO, WARN, ERROR, FATAL. by rewrite !(proj2 (Z.eqb_neq _ _)) by lia.
Qed.

(** ** Sets of definitions in the order of their names *)

Lemma codes_inj a b : codes a = codes b → a = b.
Proof.
  revert b. induction a as [|c a IH]; intros [|d b]; try done. cbn. intros [= Hc H]. f_equal; [|by apply IH].
  by rewrite <-(Ascii.ascii_N_embedding c), Hc, Ascii.ascii_N_embedding.
Qed.
Lemma name_lt_irrefl a : name_lt a a = false.
Proof. apply lex_lt_irrefl. Qed.
Lemma name_lt_total a b : name_lt a b = false → name_lt b a = false → a = b.
Proof. intros H1 H2. apply codes_inj. by apply lex_lt_total. Qed.
#[export] Instance name_le_total : Total name_le.
Proof.
  intros a b. unfold name_le, name_lt. destruct (lex_lt (codes b.1) (codes a.1)) eqn:E; [right|by left]. by apply lex_lt_asym.
Qed.
#[export] Instance name_le_trans : Transitive name_le.
Proof.
  intros a b c. unfold name_le, name_lt. intros H1 H2. destruct (lex_lt (codes c.1) (codes a.1)) eqn:E; [|done].
  destruct (lex_lt (codes b.1) (codes c.1)) eqn:E2.
  - rewrite (lex_lt_trans _ _ _ E2 E) in H1. done.
  - assert (codes c.1 = codes b.1) as Hc by (by apply lex_lt_total). by rewrite <-Hc, E in H1.
Qed.
Lemma in_order_perm m : in_order m ≡ₚ map_to_list m.
Proof. apply merge_sort_Permutation. Qed.
Lemma in_order_sorted m : StronglySorted (λ a b, name_lt a.1 b.1 = true) (in_order m).
Proof.
  pose proof (StronglySorted_merge_sort name_le (map_to_list m)) as Hs. fold (in_order m) in Hs.
  assert (NoDup (in_order m).*1) as Hn by (rewrite in_order_perm; apply NoDup_fst_map_to_list).
  induction Hs as [|a l _ IH Ha]; [constructor|]. cbn in Hn. apply NoDup_cons in Hn as [Hna Hn].
  constructor; [by apply IH|]. apply Forall_forall. intros b Hb. rewrite Forall_forall in Ha. pose proof (Ha b Hb) as Hle.
  destruct (name_lt a.1 b.1) eqn:E; [done|]. exfalso. apply Hna. rewrite (name_lt_total a.1 b.1 E Hle).
  by apply list_elem_of_fmap_2.
Qed.
Lemma insert_define_last d l : Forall (λ e, name_lt (name e) (name d) = true) l → LogConfig.insert d l = l ++ [d].
Proof.
  induction 1 as [|e l He _ IH]; [done|]. cbn. unfold name_lt in *. rewrite (lex_lt_asym _ _ He), He. by rewrite IH.
Qed.
Lemma find_elem d l : NoDup (name <$> l) → d ∈ l → LogConfig.find (name d) l = Some d.
Proof.
  induction l as [|e l IH]; intros Hn; [by intros ?%elem_of_nil|]. cbn in Hn. apply NoDup_cons in Hn as [Hne Hn].
  cbn [LogConfig.find]. intros [->|Hd]%elem_of_cons; [by rewrite name_lt_irrefl|].
  destruct (negb _ && negb _) eqn:E; [|by apply IH]. exfalso. apply Hne.
  apply andb_true_iff in E as [E1%negb_true_iff E2%negb_true_iff]. rewrite (name_lt_total _ _ E2 E1). by apply list_elem_of_fmap_2.
Qed.

(** ** Reading what is written *)

Section spec.
Context {Node : Type} `{YL : YamlLaws Node} `{!YamlFields Node}.

Ltac fields := rewrite ?field_set, ?field_null, ?string_read;
  repeat first [rewrite bool_decide_true by done | rewrite bool_decide_false by done].

Lemma level_field_other level (node : Node) k : k ≠ "level" → field (level_field level node) k = field node k.
Proof. intros Hk. unfold level_field. destruct (negb _); [|done]. by rewrite field_set, bool_decide_false. Qed.
Lemma formatter_field_other f (node : Node) k : k ≠ "formatter" → field (formatter_field f node) k = field node k.
Proof. intros Hk. destruct f; [|done]. cbn. by rewrite field_set, bool_decide_false. Qed.
(** The text of a field, empty when it is not there. *)
Definition text_field {S} (n : Node) (k : string) : M S string :=
  match field n k with Some x => or_throw (as_string x) | None => mret "" end.
Lemma formatter_field_text {S} f (node : Node) (t : S) : field node "formatter" = None →
  text_field (formatter_field f node) "formatter" t = Ok (from_option m_pattern "" f) t.
Proof.
  intros Hn. unfold text_field. destruct f as [f|]; cbn; [|by rewrite Hn].
  rewrite field_set, bool_decide_true by done. by rewrite string_read.
Qed.
Lemma level_field_text {S} level (node : Node) (t : S) : field node "level" = None →
  ∃ lv, text_field (level_field level node) "level" t = Ok lv t ∧ FromString lv = level_kept level.
Proof.
  intros Hn. unfold text_field, level_field. destruct (Z.eqb_spec level UNKNOW) as [->|Hl]; cbn [negb].
  - rewrite Hn. by exists "".
  - rewrite field_set, bool_decide_true by done. rewrite string_read. exists (ToString level). split; [done|]. apply level_kept_text.
Qed.

Lemma read_appender_ok {S} v (t : S) : read_appender (appender_node (Node := Node) v) t = Ok (Some (define_of_appender v)) t.
Proof.
  set (base := match kind v with
    | StdoutLogAppender => set_field "type" (of_string "StdoutLogAppender") Null
    | FileLogAppender f => set_field "file" (of_string f) (set_field "type" (of_string "FileLogAppender") (Null : Node)) end).
  assert (∀ k, k ≠ "level" → k ≠ "formatter" → field (appender_node v) k = field base k) as Hk.
  { intros k Hl Hf. unfold appender_node. fold base. destruct (m_hasFormatter v);
      rewrite ?formatter_field_other, level_field_other by done; done. }
  unfold read_appender, define_of_appender. rewrite Hk by done. unfold base. destruct (kind v) as [|f] eqn:Ek.
  - fields. rewrite string_read. reflexivity.
  - fields. rewrite string_read. cbn [or_throw]. rewrite bind_ret, bool_decide_true by done. rewrite Hk by done.
    unfold base. fields. rewrite string_read. cbn [or_throw]. rewrite bind_ret. fold (text_field (S := S) (appender_node v) "formatter").
    rewrite (bind_ok _ _ _ (if m_hasFormatter v then from_option m_pattern "" (a_formatter v) else "") t); [done|].
    assert (field (level_field (a_level v) base) "formatter" = None) as Hn.
    { rewrite level_field_other by done. unfold base. rewrite ?Ek. fields. done. }
    unfold appender_node. rewrite Ek. fold base.
    destruct (m_hasFormatter v); [by apply formatter_field_text|]. unfold text_field. by rewrite Hn.
Qed.
Lemma read_appenders_ok {S} vs (t : S) : read_appenders (appender_node (Node := Node) <$> vs) t = Ok (define_of_appender <$> vs) t.
Proof.
  induction vs as [|v vs IH]; [done|]. cbn [fmap list_fmap read_appenders].
  rewrite (bind_ok _ _ _ _ _ (read_appender_ok v t)), (bind_ok _ _ _ _ _ IH). done.
Qed.

(** The appenders of a logger are written one behind the other. *)
Notation pushed l := (foldl (λ node n, push_back n node) Null l).
Lemma appenders_field_ok s l (pre : list Node) node : Forall (ready s) l →
  default Null (field node "appenders") = pushed pre →
  ∃ node', appenders_field l node s = Ok node' s ∧
    (∀ k, k ≠ "appenders" → field node' k = field node k) ∧
    elements (default Null (field node' "appenders")) = pre ++ (appender_node <$> omap (λ a, appenders s !! a) l).
Proof.
  intros Hl. revert pre node. induction Hl as [|a l (v&Hv&Hf) _ IH]; intros pre node Hp.
  - exists node. split_and!; [done..|]. by rewrite Hp, elements_pushed, app_nil_r.
  - cbn [appenders_field]. unfold appender_toYamlString. rewrite bind_assoc, (bind_ok _ _ _ v s) by (unfold get_appender; by rewrite bind_get, Hv).
    rewrite bind_ret, load_emit. cbn [or_throw]. rewrite bind_ret, Hp.
    destruct (IH (pre ++ [appender_node v]) (set_field "appenders" (push_back (appender_node v) (pushed pre)) node)) as (node'&E&Hk&He).
    { rewrite field_set, bool_decide_true by done. by rewrite foldl_app. }
    exists node'. split; [exact E|]. split.
    + intros k Hne. by rewrite Hk, field_set, bool_decide_false.
    + rewrite He, <-app_assoc. cbn [omap list_omap]. by rewrite Hv.
Qed.
Lemma appenders_field_none l (node node' : Node) s : appenders_field l node s = Ok node' s → field node "appenders" = None →
  l = [] ∨ ∃ n, field node' "appenders" = Some n.
Proof.
  intros E Hn. destruct l as [|a l]; [by left|right]. cbn [appenders_field] in E.
  apply bind_inv in E as (text&s1&_&E). apply bind_inv in E as (n&s2&_&E).
  set (node1 := set_field "appenders" _ node) in E.
  assert (∃ x, field node1 "appenders" = Some x) as Hx by (unfold node1; eexists; by rewrite field_set, bool_decide_true).
  clearbody node1. clear Hn node n text s1. revert node1 Hx s2 E.
  induction l as [|b l IH]; intros node1 Hx s2 E; [by injection E as <- _|]. cbn [appenders_field] in E.
  apply bind_inv in E as (text&s3&_&E). apply bind_inv in E as (n&s4&_&E). eapply IH, E.
  eexists. by rewrite field_set, bool_decide_true.
Qed.
Lemma read_define_ok {S} s i l (t : S) : wf s → loggers s !! i = Some l →
  ∃ node : Node, logger_toYamlString i s = Ok (emit node) s ∧ read_define node t = Ok (Some (define_of s l)) t.
Proof.
  intros Hw Hl. destruct (wf_all s Hw i l Hl) as [_ Hr].
  set (base := set_field "name" (of_string (m_name l)) (Null : Node)).
  set (base2 := formatter_field (l_formatter l) (level_field (l_level l) base)).
  assert (∀ k, k ≠ "name" → field base k = None) as Hb.
  { intros k Hk. unfold base. by rewrite field_set, bool_decide_false, field_null. }
  assert (field base2 "appenders" = None) as Ha.
  { unfold base2. rewrite formatter_field_other, level_field_other, Hb by done. done. }
  destruct (appenders_field_ok s (m_appenders l) [] base2 Hr) as (node&E&Hk&He); [by rewrite Ha|].
  exists node. split.
  { unfold logger_toYamlString. rewrite (bind_ok _ _ _ l s) by (unfold get_logger; by rewrite bind_get, Hl).
    fold base base2. by rewrite (bind_ok _ _ _ _ _ E). }
  unfold read_define. rewrite (Hk "name") by done. unfold base2 at 1. rewrite formatter_field_other, level_field_other by done.
  unfold base at 1. rewrite field_set, bool_decide_true, string_read by done. cbn [or_throw]. rewrite bind_ret.
  destruct (level_field_text (l_level l) base t (Hb "level" ltac:(done))) as (lv&El&Elv).
  rewrite (bind_ok _ _ _ lv t); [|rewrite Hk by done; unfold base2; rewrite formatter_field_other by done; exact El].
  rewrite (bind_ok _ _ _ (from_option m_pattern "" (l_formatter l)) t).
  2: { rewrite Hk by done. unfold base2. apply formatter_field_text. rewrite level_field_other by done. by apply Hb. }
  rewrite (bind_ok _ _ _ (define_of_appender <$> appenders_of s l) t); [by rewrite Elv|].
  destruct (appenders_field_none _ _ _ _ E Ha) as [Hnil|[n Hn]].
  - rewrite Hnil in E. injection E as <-. rewrite Ha. unfold appenders_of. by rewrite Hnil.
  - rewrite Hn in He |- *. cbn in He. rewrite He. apply read_appenders_ok.
Qed.

(** ** All loggers *)

Lemma loggers_node_ok {S} s es (pre : list Node) (t : S) : wf s → Forall (λ e, is_Some (loggers s !! e.2)) es →
  ∃ nodes : list Node, loggers_node es (pushed pre) s = Ok (pushed (pre ++ nodes)) s ∧
    Forall2 (λ n l, read_define n t = Ok (Some (define_of s l)) t) nodes (omap (λ e, loggers s !! e.2) es).
Proof.
  intros Hw Hes. revert pre. induction Hes as [|[n i] es [l Hl] _ IH]; intros pre; [by exists []; rewrite app_nil_r|].
  destruct (read_define_ok s i l t Hw Hl) as (node&E&Er). destruct (IH (pre ++ [node])) as (nodes&E2&Er2).
  exists (node :: nodes). rewrite cons_middle, app_assoc. split.
  - cbn [loggers_node]. rewrite (bind_ok _ _ _ _ _ E), load_emit. cbn [or_throw]. rewrite bind_ret.
    rewrite foldl_app in E2. exact E2.
  - cbn [omap list_omap snd]. cbn [snd] in Hl. rewrite Hl. by constructor.
Qed.
Lemma read_defines_ok {S} nodes ds vec (t : S) : Forall2 (λ (n : Node) d, read_define n t = Ok (Some d) t) nodes ds →
  StronglySorted (λ a b, name_lt (name a) (name b) = true) (vec ++ ds) → read_defines nodes vec t = Ok (vec ++ ds) t.
Proof.
  intros H2. revert vec. induction H2 as [|n d nodes ds Er _ IH]; intros vec Hs; cbn [read_defines]; [by rewrite app_nil_r|].
  rewrite (bind_ok _ _ _ _ _ Er), insert_define_last, IH; rewrite <-?app_assoc; try done.
  clear -Hs. induction vec as [|e vec IH]; [constructor|]. cbn [app] in Hs.
  apply StronglySorted_inv in Hs as [Hs He]. constructor; [|by apply IH]. rewrite Forall_app in He. destruct He as [_ He].
  by apply Forall_cons in He as [He _].
Qed.
Lemma all_loggers_sorted s : wf s → StronglySorted (λ a b, name_lt (name a) (name b) = true) (define_of s <$> all_loggers s) ∧
  Forall (λ e, is_Some (loggers s !! e.2)) (in_order (m_loggers s)).
Proof.
  intros Hw. unfold all_loggers.
  assert (Forall (λ e, ∃ l, loggers s !! e.2 = Some l ∧ m_name l = e.1) (in_order (m_loggers s))) as Hall.
  { apply Forall_forall. intros [n i]. rewrite in_order_perm, elem_of_map_to_list. intros (l&Hl&Hn&_)%(wf_names s Hw). by exists l. }
  split; [|eapply Forall_impl; [exact Hall|]; intros e (l&Hl&_); by exists l].
  pose proof (in_order_sorted (m_loggers s)) as Hs. induction Hs as [|e es _ IH He]; [constructor|].
  apply Forall_cons in Hall as [(l&Hl&Hn) Hall]. cbn [omap list_omap]. rewrite Hl. cbn [fmap list_fmap].
  constructor; [by apply IH|]. apply Forall_fmap, Forall_forall. intros l' ([n i]&Hin&Hl')%list_elem_of_omap.
  rewrite Forall_forall in He, Hall. destruct (Hall _ Hin) as (l2&Hl2&Hn2). cbn in *.
  assert (l2 = l') as -> by congruence. rewrite Hn, Hn2. by apply (He (n, i)).
Qed.

(** C24: the printed configuration.  [LoggerManager::toYamlString] prints the loggers
    without changing anything, and the text, read as the variable "logs", defines every
    logger under its name with its level, its pattern and its appenders, and nothing
    else; a level without a name, as that of a logger that was switched off, becomes
    [UNKNOW], and of the appenders the levels are lost, and the patterns of those that
    write to the console. *)
Theorem manager_text_reads {S} (s : Logs) (t : S) : wf s →
  ∃ text ds, manager_toYamlString s = Ok text s ∧ defines_of_string text t = Ok ds t ∧
    ds = define_of s <$> all_loggers s ∧
    (∀ n i l, m_loggers s !! n = Some i → loggers s !! i = Some l → LogConfig.find n ds = Some (define_of s l)) ∧
    (∀ n, n ∈ name <$> ds → is_Some (m_loggers s !! n)).
Proof.
  intros Hw. destruct (all_loggers_sorted s Hw) as [Hs Hall].
  destruct (loggers_node_ok s (in_order (m_loggers s)) [] t Hw Hall) as (nodes&E&Er). cbn [app] in E.
  exists (emit (pushed nodes)), (define_of s <$> all_loggers s). split_and!.
  - unfold manager_toYamlString. rewrite bind_get. by rewrite (bind_ok _ _ _ _ _ E).
  - unfold defines_of_string. rewrite load_emit. cbn [or_throw]. rewrite bind_ret, elements_pushed.
    apply (read_defines_ok nodes _ []); [|done]. apply Forall2_fmap_r. exact Er.
  - done.
  - intros n i l Hi Hl. destruct (wf_names s Hw n i Hi) as (l'&Hl'&Hn&_). assert (l' = l) as -> by congruence.
    rewrite <-Hn. apply (find_elem (define_of s l)).
    + clear -Hs. induction Hs as [|d ds _ IH Hd]; [constructor|]. cbn. constructor; [|done].
      intros (d'&E&Hin)%list_elem_of_fmap. rewrite Forall_forall in Hd. specialize (Hd d' Hin). by rewrite E, name_lt_irrefl in Hd.
    + apply list_elem_of_fmap_2. unfold all_loggers. apply list_elem_of_omap. exists (n, i). split; [|done].
      by rewrite in_order_perm, elem_of_map_to_list.
  - intros n (d&->&(l&->&([m i]&Hin&Hl)%list_elem_of_omap)%list_elem_of_fmap)%list_elem_of_fmap.
    rewrite in_order_perm, elem_of_map_to_list in Hin. destruct (wf_names s Hw m i Hin) as (l'&Hl'&Hn&_). cbn in *.
    assert (l' = l) as -> by congruence. rewrite Hn. by exists i.
Qed.
End spec.

(** ** A logger that was switched off *)

Module Demo.
Import SmallYaml.
#[local] Instance demo_time : LocalTime := λ _ _, Some "12:00".
#[local] Instance demo_files : Files := λ _ _, true.
(** The logger "app" has level 100, as the listener of "logs" leaves it, and a file. *)
Definition demo_ops : list op := [GetLogger "app"; Level_ 2 100; Pattern 2 "%m"; NewAppender (FileLogAppender "/tmp/app.log") 5;
  AppenderLevel 2 ERROR; AddAppender 2 2].
Fixpoint exec_all (l : list op) : M Logs unit := match l with [] => mret tt | o :: l => exec o;; exec_all l end.
Definition off_logs : Logs := match exec_all demo_ops initial with Ok _ s => s | _ => initial end.
Lemma exec_all_wf l s s' : wf s → exec_all l s = Ok tt s' → wf s'.
Proof.
  revert s. induction l as [|o l IH]; intros s Hw; cbn [exec_all]; [by intros [= <-]|].
  intros ([]&s1&E1&E)%bind_inv. eapply IH, E. by eapply (exec_wf o).
Qed.
(** Read back, it logs everything, into the file. *)
Lemma manager_text_reads_witness : ∃ text ds,
  manager_toYamlString (Node := doc) off_logs = Ok text off_logs ∧ defines_of_string (Node := doc) text tt = Ok ds tt ∧
  LogConfig.find "app" ds = Some (mkLogDefine "app" UNKNOW "%m" [mkLogAppenderDefine 1 UNKNOW "" "/tmp/app.log"]).
Proof.
  destruct (manager_text_reads (Node := doc) off_logs tt) as (text&ds&E1&E2&_&Hf&_).
  - apply (exec_all_wf demo_ops initial); [apply initial_wf|]. vm_compute. reflexivity.
  - exists text, ds. split; [exact E1|]. split; [exact E2|].
    rewrite (Hf "app" 2%positive (default (mkLogger "" 0 [] None None) (loggers off_logs !! 2%positive)));
      [vm_compute; reflexivity..].
Defined.
End Demo.
