(* ===== verification/Config.v ===== *)
(** Configuration variables ([sylar/config.h], [config.cc]): variables with
    listeners, the registry, and loading values from YAML.

    The template parameter [T] of [ConfigVar] ranges over a universe of types [Ty];
    [FromStr] and [ToStr] are the conversions, nothing when they throw.  Listeners
    act on the rest of the program, of state [S]; they run while the lock of their
    variable is held. *)
From S2P Require Import Prelude Text Yaml.
From Stdlib Require Import Ascii.
From stdpp Require Import gmap strings.

Local Open Scope string_scope.
Local Open Scope Z_scope.

Class Types (Ty : Type) (Val : Ty → Type) := {
  ty_dec :: EqDecision Ty;
  val_dec :: ∀ t, EqDecision (Val t);
  FromStr : ∀ t, string → option (Val t);
  ToStr : ∀ t, Val t → option string;
}.

Section config.
Context {Ty : Type} {Val : Ty → Type} `{!Types Ty Val} {S : Type}.

Definition on_change_cb (t : Ty) : Type := Val t → Val t → M S unit.
(** [ConfigVar<T>]; [m_cbs] in the order of the ids, as in a [std::map]. *)
Record ConfigVar (t : Ty) := mkConfigVar {
  m_name : string;
  m_description : string;
  m_val : Val t;
  m_cbs : list (Z * on_change_cb t);
}.
#[global] Arguments mkConfigVar {t}.
#[global] Arguments m_name {t}.
#[global] Arguments m_description {t}.
#[global] Arguments m_val {t}.
#[global] Arguments m_cbs {t}.

(** [std::transform(..., ::tolower)] *)
Definition tolower (c : ascii) : ascii := ascii_of_N (lower c).
Fixpoint lowercase (s : string) : string := match s with "" => "" | String c s => String (tolower c) (lowercase s) end.

Section var.
Context {t : Ty}.
Implicit Types c : ConfigVar t.

(** [ConfigVar::ConfigVar] *)
Definition ConfigVar_new (name : string) (default_value : Val t) (description : string) : ConfigVar t :=
  mkConfigVar (lowercase name) description default_value [].
Definition with_val (v : Val t) c : ConfigVar t := mkConfigVar (m_name c) (m_description c) v (m_cbs c).
Definition with_cbs (l : list (Z * on_change_cb t)) c : ConfigVar t :=
  mkConfigVar (m_name c) (m_description c) (m_val c) l.

(** The loop over the listeners. *)
Fixpoint call_listeners (l : list (Z * on_change_cb t)) (old_value new_value : Val t) : M S unit :=
  match l with
  | [] => mret tt
  | i :: l => i.2 old_value new_value;; call_listeners l old_value new_value
  end.
(** [ConfigVar::setValue]: the variable afterwards. *)
Definition setValue (v : Val t) c : M S (ConfigVar t) :=
  if bool_decide (v = m_val c) then mret c
  else call_listeners (m_cbs c) (m_val c) v;; mret (with_val v c).
Definition getValue c : Val t := m_val c.
(** [ConfigVar::fromString]: exceptions are logged, and it answers false in any case. *)
Definition fromString (val : string) c : M S (bool * ConfigVar t) := λ s,
  match FromStr t val with
  | None => Ok (false, c) s
  | Some v =>
      match setValue v c s with
      | Ok c' s' => Ok (false, c') s'
      | Throw _ s' => Ok (false, c) s'
      | Abort => Abort
      | Undef u => Undef u
      end
  end.
(** [ConfigVar::toString] *)
Definition toString c : string := default "" (ToStr t (m_val c)).

(** [m_cbs[key] = cb], [erase], [find] and [clear] *)
Fixpoint map_put (key : Z) (cb : on_change_cb t) (l : list (Z * on_change_cb t)) : list (Z * on_change_cb t) :=
  match l with
  | [] => [(key, cb)]
  | e :: r => if key <? e.1 then (key, cb) :: l else if key =? e.1 then (key, cb) :: r else e :: map_put key cb r
  end.
Definition delListener (key : Z) c : ConfigVar t := with_cbs (filter (λ e, e.1 ≠ key) (m_cbs c)) c.
Definition getListener (key : Z) c : option (on_change_cb t) :=
  match list_find (λ e, e.1 = key) (m_cbs c) with Some (_, e) => Some e.2 | None => None end.
Definition clearListener c : ConfigVar t := with_cbs [] c.
End var.

(** ** The registry *)

(** A [ConfigVarBase::ptr]: a variable of some type, whose name [typeid] gives. *)
Definition ConfigVarBase : Type := { t : Ty & ConfigVar t }.
(** The static variables, and the rest of the program. *)
Record Configs := mkConfigs {
  s_datas : gmap string ConfigVarBase;
  s_fun_id : Ty → Z;
  s_file2modifytime : gmap string Z;
  world : S;
}.
Definition set_datas (v : gmap string ConfigVarBase) (s : Configs) : Configs :=
  mkConfigs v (s_fun_id s) (s_file2modifytime s) (world s).
Definition set_var {t} (name : string) (c : ConfigVar t) (s : Configs) : Configs :=
  set_datas (<[name := existT t c]> (s_datas s)) s.
Definition in_world {A} (m : M S A) : M Configs A := λ s,
  let back w := mkConfigs (s_datas s) (s_fun_id s) (s_file2modifytime s) w in
  match m (world s) with
  | Ok a w => Ok a (back w)
  | Throw e w => Throw e (back w)
  | Abort => Abort
  | Undef u => Undef u
  end.

(** The characters a name may have; there is no 9. *)
Definition name_char (c : ascii) : bool :=
  let n := N_of_ascii c in
  (((97 <=? n) && (n <=? 122)) || (n =? 46) || (n =? 95) || ((48 <=? n) && (n <=? 56)))%N.
Definition valid_name (name : string) : bool := every name_char name.

(** [Config::LookupBase] *)
Definition LookupBase (name : string) : M Configs (option ConfigVarBase) := gets (λ s, s_datas s !! name).
(** [dynamic_pointer_cast<ConfigVar<T>>] *)
Definition cast (t : Ty) (b : ConfigVarBase) : option (ConfigVar t) :=
  match decide (projT1 b = t) with left E => Some (eq_rect _ ConfigVar (projT2 b) t E) | right _ => None end.
(** [Config::Lookup<T>(name)] *)
Definition Lookup (t : Ty) (name : string) : M Configs (option (ConfigVar t)) :=
  gets (λ s, s_datas s !! name ≫= cast t).
(** [Config::Lookup<T>(name, default_value, description)]: the null pointer for a
    variable of another type. *)
Definition Lookup_or_add (t : Ty) (name : string) (default_value : Val t) (description : string)
    : M Configs (option (ConfigVar t)) :=
  s ← get;
  match s_datas s !! name with
  | Some b => mret (cast t b)
  | None =>
      if negb (valid_name name) then throw (invalid_argument name)
      else
        let v := ConfigVar_new name default_value description in
        modify (set_var name v);; mret (Some v)
  end.

(** The methods of the variable [name] that change it. *)
Definition with_var {A} (t : Ty) (name : string) (f : ConfigVar t → M Configs (A * ConfigVar t)) : M Configs A :=
  v ← Lookup t name;
  c ← deref v;
  '(a, c) ← f c;
  modify (set_var name c);; mret a.
Definition var_setValue (t : Ty) (name : string) (v : Val t) : M Configs unit :=
  with_var t name (λ c, c ← in_world (setValue v c); mret (tt, c)).
(** [ConfigVar::addListener]: the counter is shared by all variables of a type. *)
Definition addListener (t : Ty) (name : string) (cb : on_change_cb t) : M Configs Z :=
  with_var t name (λ c,
    modify (λ s, mkConfigs (s_datas s) (λ u, if decide (u = t) then wrapu 64 (s_fun_id s t + 1) else s_fun_id s u)
                   (s_file2modifytime s) (world s));;
    id ← gets (λ s, s_fun_id s t);
    mret (id, with_cbs (map_put id cb (m_cbs c)) c)).
Definition var_delListener (t : Ty) (name : string) (key : Z) : M Configs unit :=
  with_var t name (λ c, mret (tt, delListener key c)).

(** [Config::Visit]: [cb] gets each variable, named by its key; [keys] is the order in
    which the hash table has them. *)
Fixpoint visit_all (cb : string → M Configs unit) (l : list string) : M Configs unit :=
  match l with [] => mret tt | name :: l => cb name;; visit_all cb l end.
Definition Visit (keys : gmap string ConfigVarBase → list string) (cb : string → M Configs unit) : M Configs unit :=
  m ← gets s_datas;
  visit_all cb (keys m).

(** ** Loading *)

Section yaml.
Context `{Yaml Node}.

Definition dotted (prefix key : string) : string := if bool_decide (prefix = "") then key else prefix +:+ "." +:+ key.
(** [ListAllMember]: the nodes with their dotted paths, in order; [fuel] bounds the
    depth. *)
Fixpoint ListAllMember (fuel : nat) (prefix : string) (node : Node) : option (list (string * Node)) :=
  if negb (valid_name prefix) then Some []
  else if IsMap node then
    match fuel with
    | O => None
    | Datatypes.S fuel =>
        below ← (fix go (l : list (Node * Node)) : option (list (string * Node)) :=
          match l with
          | [] => Some []
          | (k, v) :: l => a ← ListAllMember fuel (dotted prefix (Scalar k)) v; b ← go l; Some (a ++ b)%list
          end) (members node);
        Some ((prefix, node) :: below)
    end
  else Some [(prefix, node)].

(** What an entry of the list does. *)
Definition entry_text (n : Node) : string := if IsScalar n then Scalar n else emit n.
Definition load_entry (e : string * Node) : M Configs unit :=
  let '(key, node) := e in
  if bool_decide (key = "") then mret tt
  else
    let key := lowercase key in
    var ← LookupBase key;
    match var with
    | None => mret tt
    | Some (existT t c) =>
        '(_, c) ← in_world (fromString (entry_text node) c);
        modify (set_var key c)
    end.
Fixpoint load_entries (l : list (string * Node)) : M Configs unit :=
  match l with [] => mret tt | e :: l => load_entry e;; load_entries l end.
(** [Config::LoadFromYaml] *)
Definition LoadFromYaml (fuel : nat) (root : Node) : M Configs unit :=
  match ListAllMember fuel "" root with
  | None => undef NoFuel
  | Some all_nodes => load_entries all_nodes
  end.

(** [Config::LoadFromConfDir]: the files found, with their modification times and
    what [YAML::LoadFile] makes of them; a file is skipped while its time is the
    recorded one, and failures are logged. *)
Definition catch_all (m : M Configs unit) : M Configs unit := λ s,
  match m s with Throw _ s => Ok tt s | r => r end.
Fixpoint LoadFromConfDir (fuel : nat) (files : list (string * Z * option Node)) : M Configs unit :=
  match files with
  | [] => mret tt
  | (name, mtime, root) :: files =>
      s ← get;
      (if default 0 (s_file2modifytime s !! name) =? wrapu 64 mtime then mret tt
       else
         modify (λ s, mkConfigs (s_datas s) (s_fun_id s) (<[name := wrapu 64 mtime]> (s_file2modifytime s)) (world s));;
         catch_all (match root with Some root => LoadFromYaml fuel root | None => throw yaml_error end));;
      LoadFromConfDir fuel files
  end.
End yaml.
End config.
