(* ===== verification/ConfigSpec.v ===== *)
(** Loading a configuration: which nodes reach which variables. *)
From S2P Require Import Prelude Text Yaml Config.
From Stdlib Require Import Ascii.
From stdpp Require Import gmap strings.

Local Open Scope string_scope.
Local Open Scope list_scope.
Local Open Scope Z_scope.

(** ** Names *)

Lemma tolower_valid c : name_char c = true → tolower c = c.
Proof. destruct c as [[] [] [] [] [] [] [] []]; done. Qed.
Lemma lowercase_valid s : valid_name s = true → lowercase s = s.
Proof.
  unfold valid_name. induction s as [|c s IH]; [done|]. cbn [every lowercase]. intros [Hc Hs]%andb_true_iff.
  by rewrite tolower_valid, IH.
Qed.

Section spec.
Context {Ty : Type} {Val : Ty → Type} `{!Types Ty Val} {S : Type} `{Yaml Node}.
Notation Configs := (@Configs Ty Val S).
Notation ConfigVarBase := (@ConfigVarBase Ty Val S).
Notation ConfigVar := (@ConfigVar Ty Val S).
Notation on_change_cb := (@on_change_cb Ty Val S).

(** ** The nodes of a tree *)

(** The tree is not deeper than [n]. *)
Inductive within : nat → Node → Prop :=
  | within_leaf n node : IsMap node = false → within n node
  | within_map n node : (∀ k v, (k, v) ∈ members node → within n v) → within (Datatypes.S n) node.
(** The nodes a walk reaches: each name on the way has only allowed characters. *)
Inductive visible : string → Node → string → Node → Prop :=
  | visible_here prefix node : valid_name prefix = true → visible prefix node prefix node
  | visible_below prefix node k v key n :
      valid_name prefix = true → IsMap node = true → (k, v) ∈ members node →
      visible (dotted prefix (Scalar k)) v key n → visible prefix node key n.

Lemma visible_valid prefix node key n : visible prefix node key n → valid_name key = true.
Proof. by induction 1. Qed.

Lemma ListAllMember_visible fuel prefix node :
  within fuel node →
  ∃ l, ListAllMember fuel prefix node = Some l ∧ ∀ key n, (key, n) ∈ l ↔ visible prefix node key n.
Proof.
  intros Hd. revert prefix. induction Hd as [fuel node Hm|fuel node Hk IH]; intros prefix.
  - assert (∀ f, ListAllMember f prefix node = if valid_name prefix then Some [(prefix, node)] else Some []) as E.
    { intros [|f]; cbn [ListAllMember]; rewrite Hm; by destruct (valid_name prefix). }
    rewrite E. destruct (valid_name prefix) eqn:Ev.
    + eexists. split; [done|]. intros key n. rewrite list_elem_of_singleton. split.
      * intros [= -> ->]. by constructor.
      * inversion 1; subst; [done|congruence].
    + eexists. split; [done|]. intros key n. split; [by intros ?%elem_of_nil|]. inversion 1; congruence.
  - cbn [ListAllMember]. destruct (valid_name prefix) eqn:Ev; cbn [negb].
    2: { eexists. split; [done|]. intros key n. split; [by intros ?%elem_of_nil|]. inversion 1; congruence. }
    destruct (IsMap node) eqn:Em.
    2: { eexists. split; [done|]. intros key n. rewrite list_elem_of_singleton. split.
         - intros [= -> ->]. by constructor.
         - inversion 1; subst; [done|congruence]. }
    set (go := fix go (l : list (Node * Node)) : option (list (string * Node)) := _).
    assert (∀ l, (∀ k v, (k, v) ∈ l → (k, v) ∈ members node) →
      ∃ b, go l = Some b ∧ ∀ key n, (key, n) ∈ b ↔ ∃ k v, (k, v) ∈ l ∧ visible (dotted prefix (Scalar k)) v key n) as Hgo.
    { induction l as [|[k v] l IHl]; intros Hsub.
      - exists []. split; [done|]. intros key n. split; [by intros ?%elem_of_nil|]. by intros (?&?&?%elem_of_nil&_).
      - destruct (IH k v (Hsub k v ltac:(by left)) (dotted prefix (Scalar k))) as (a&Ea&Ha).
        destruct IHl as (b&Eb&Hb); [intros ???; apply Hsub; by right|].
        exists (a ++ b). cbn [go]. fold go. rewrite Ea. cbn [mbind option_bind]. rewrite Eb. split; [done|].
        intros key n. rewrite elem_of_app, Ha, Hb. split.
        + intros [?|(k'&v'&?&?)]; [exists k, v|exists k', v']; (split; [|done]); [by left|by right].
        + intros (k'&v'&[[= -> ->]|?]%elem_of_cons&?); [by left|right; eauto]. }
    destruct (Hgo (members node)) as (b&Eb&Hb); [done|]. rewrite Eb. eexists. split; [done|].
    intros key n. rewrite elem_of_cons, Hb. split.
    + intros [[= -> ->]|(k&v&?&?)]; [by constructor|by eapply visible_below].
    + inversion 1; subst; [by left|right; eauto].
Qed.

(** ** Loading *)

(** Listeners that return. *)
Definition calm {t} (c : ConfigVar t) : Prop :=
  Forall (λ e, ∀ a b (w : S), ∃ w', e.2 a b w = Ok tt w') (m_cbs c).
Lemma call_listeners_calm {t} (l : list (Z * on_change_cb t)) a b w :
  Forall (λ e, ∀ a b (w : S), ∃ w', e.2 a b w = Ok tt w') l → ∃ w', call_listeners l a b w = Ok tt w'.
Proof.
  intros Hl. revert w. induction Hl as [|e l He Hl IH]; intros w; [by eexists|]. cbn [call_listeners].
  destruct (He a b w) as (w1&E). step_with E. apply IH.
Qed.
(** The value a text leaves, the one there was if it cannot be converted. *)
Definition update (t : Ty) (v : Val t) (text : string) : Val t := default v (FromStr t text).
Lemma with_val_id {t} (c : ConfigVar t) : with_val (m_val c) c = c.
Proof. by destruct c. Qed.
Lemma fromString_calm {t} (c : ConfigVar t) text (w : S) :
  calm c → ∃ w', fromString text c w = Ok (false, with_val (update t (m_val c) text) c) w'.
Proof.
  intros Hc. unfold fromString, update. destruct (FromStr t text) as [v|]; cbn [default].
  2: { exists w. unfold id. by rewrite with_val_id. }
  unfold setValue. case_bool_decide as E.
  - exists w. cbn. unfold id. subst v. by rewrite with_val_id.
  - destruct (call_listeners_calm (m_cbs c) (m_val c) v w Hc) as (w'&El). exists w'. by rewrite (bind_ok _ _ _ _ _ El).
Qed.

Definition all_calm (s : Configs) : Prop := ∀ name t c, s_datas s !! name = Some (existT t c) → calm c.
(** The texts meant for the variable [name], in order; the root, whose name is
    empty, is none. *)
Definition texts (name : string) (l : list (string * Node)) : list string :=
  (λ e, entry_text e.2) <$> filter (λ e, e.1 = name ∧ name ≠ "") l.
(** The registry after the texts of [l]. *)
Definition loaded (l : list (string * Node)) (name : string) (b : ConfigVarBase) : ConfigVarBase :=
  existT (projT1 b) (with_val (foldl (update (projT1 b)) (m_val (projT2 b)) (texts name l)) (projT2 b)).

Lemma load_entries_ok l (s : Configs) :
  all_calm s → Forall (λ e, valid_name e.1 = true) l →
  ∃ s', load_entries l s = Ok tt s' ∧ s_fun_id s' = s_fun_id s ∧ s_file2modifytime s' = s_file2modifytime s ∧
    ∀ name, s_datas s' !! name = loaded l name <$> s_datas s !! name.
Proof.
  revert s. induction l as [|[key node] l IH]; intros s Hs Hl.
  - exists s. split_and!; try done. intros name. destruct (s_datas s !! name) as [[t c]|]; [|done].
    unfold loaded. cbn. by rewrite with_val_id.
  - apply Forall_cons in Hl as [Hk Hl]. cbn [fst] in Hk. cbn [load_entries].
    assert (∃ s1, load_entry (key, node) s = Ok tt s1 ∧ s_fun_id s1 = s_fun_id s ∧ s_file2modifytime s1 = s_file2modifytime s ∧
      ∀ name, s_datas s1 !! name = loaded [(key, node)] name <$> s_datas s !! name) as (s1&E1&F1&M1&D1).
    { unfold load_entry. case_bool_decide as Ek.
      - exists s. split_and!; try done. intros name. destruct (s_datas s !! name) as [[t c]|] eqn:E; [|done].
        unfold loaded, texts. rewrite filter_cons_False by (cbn; intros [<- ?]; congruence). cbn. by rewrite with_val_id.
      - rewrite lowercase_valid by done. unfold LookupBase. rewrite bind_gets.
        destruct (s_datas s !! key) as [[t c]|] eqn:E.
        + destruct (fromString_calm c (entry_text node) (world s) (Hs key t c E)) as (w'&Ef).
          set (c' := with_val (update t (m_val c) (entry_text node)) c) in *.
          assert (in_world (fromString (entry_text node) c) s =
            Ok (false, c') (mkConfigs (s_datas s) (s_fun_id s) (s_file2modifytime s) w')) as Ew
            by (unfold in_world; by rewrite Ef).
          step_with Ew. eexists. split; [done|]. cbn [set_var set_datas s_datas s_fun_id s_file2modifytime]. split_and!; try done.
          intros name. unfold loaded, texts. destruct (decide (name = key)) as [->|Hne].
          * rewrite lookup_insert_eq, E, filter_cons_True by done. done.
          * rewrite lookup_insert_ne, filter_cons_False by (cbn; naive_solver congruence).
            destruct (s_datas s !! name) as [[u d]|]; [|done]. cbn. by rewrite with_val_id.
        + exists s. split_and!; try done. intros name. destruct (s_datas s !! name) as [[u d]|] eqn:E'; [|done].
          unfold loaded, texts. rewrite filter_cons_False by (cbn; naive_solver congruence). cbn. by rewrite with_val_id. }
    step_with E1. destruct (IH s1) as (s2&E2&F2&M2&D2); [|done|].
    { intros name t c. rewrite D1. destruct (s_datas s !! name) as [[u d]|] eqn:E; [|done]. cbn.
      intros Hx. pose proof (Hs name u d E) as Hc. apply (f_equal (λ o, match o with Some b => Forall (λ e, ∀ a b (w : S), ∃ w', e.2 a b w = Ok tt w') (m_cbs (projT2 b)) | None => True end)) in Hx.
      cbn in Hx. unfold calm. rewrite <-Hx. exact Hc. }
    exists s2. split; [done|]. split; [congruence|]. split; [congruence|]. intros name. rewrite D2, D1.
    assert (texts name ((key, node) :: l) = texts name [(key, node)] ++ texts name l) as Et
      by (unfold texts; by rewrite <-fmap_app, <-filter_app).
    destruct (s_datas s !! name) as [[u d]|]; [|done]. cbn [fmap option_fmap option_map]. unfold loaded.
    cbn [projT1 projT2]. rewrite Et, foldl_app. done.
Qed.

(** C32: loading a tree sets the variables it names and nothing else.  The nodes that
    count are those reached by names of lower-case letters, the digits 0 to 8, dots
    and underscores only: a name with any other character hides all nodes below it.
    Each variable takes the texts of its nodes in order, a text that cannot be
    converted leaving the value as it is; its type, its listeners and all other
    variables stay. *)
Theorem load_exact (fuel : nat) (root : Node) (s : Configs) :
  within fuel root → all_calm s →
  ∃ l s', LoadFromYaml fuel root s = Ok tt s' ∧
    (∀ key n, (key, n) ∈ l ↔ visible "" root key n) ∧
    s_fun_id s' = s_fun_id s ∧ s_file2modifytime s' = s_file2modifytime s ∧
    (∀ name, s_datas s' !! name = loaded l name <$> s_datas s !! name) ∧
    ∀ name, valid_name name = false ∨ name = "" ∨ (∀ n, ¬ visible "" root name n) → s_datas s' !! name = s_datas s !! name.
Proof.
  intros Hd Hs. destruct (ListAllMember_visible fuel "" root Hd) as (l&El&Hl).
  destruct (load_entries_ok l s Hs) as (s'&E&F&M&D).
  { apply Forall_forall. intros [key n] Hk. apply Hl in Hk. by eapply visible_valid. }
  exists l, s'. unfold LoadFromYaml. rewrite El. split_and!; try done. intros name Hn. rewrite D.
  assert (texts name l = []) as Et.
  { unfold texts. rewrite filter_none_elem; [done|]. intros [key n] Hk%Hl [<- Hne]. cbn [fst] in *.
    destruct Hn as [Hn|[Hn|Hn]]; [|done|by eapply Hn]. apply visible_valid in Hk. congruence. }
  destruct (s_datas s !! name) as [[t c]|]; [|done]. cbn [fmap option_fmap option_map]. unfold loaded.
  cbn [projT1 projT2]. rewrite Et. cbn [foldl]. by rewrite with_val_id.
Qed.
End spec.

(** A tree of two levels; the key with a capital letter and the one with a nine are
    not seen. *)
Module Demo.
Inductive tree := TScalar (s : string) | TEmpty | TPair (k v rest : tree).
Fixpoint pairs (n : tree) : list (tree * tree) := match n with TPair k v r => (k, v) :: pairs r | _ => [] end.
#[local] Instance tree_yaml : Yaml tree := {
  Load := λ _, None;
  emit := λ _, "";
  IsMap := λ n, match n with TScalar _ => false | _ => true end;
  IsScalar := λ n, match n with TScalar _ => true | _ => false end;
  Scalar := λ n, match n with TScalar s => s | _ => "" end;
  as_string := λ n, match n with TScalar s => Some s | _ => None end;
  elements := λ _, [];
  members := pairs;
  field := λ _ _, None;
  Null := TEmpty;
  of_string := TScalar;
  set_field := λ _ _ n, n;
  push_back := λ _ n, n;
}.
#[local] Instance number_types : Types unit (λ _, Z) := {
  FromStr := λ _, read_dec;
  ToStr := λ _ v, Some (show v);
}.
Definition root : tree :=
  TPair (TScalar "system")
    (TPair (TScalar "port") (TScalar "80")
      (TPair (TScalar "Port") (TScalar "81") (TPair (TScalar "port9") (TScalar "82") TEmpty))) TEmpty.
Definition port (v : Z) : @ConfigVar unit (λ _, Z) unit tt := mkConfigVar "system.port" "" v [].
Definition before : @Configs unit (λ _, Z) unit :=
  mkConfigs {["system.port" := existT tt (port 8080)]} (λ _, 0) ∅ tt.
Lemma load_exact_witness :
  ∃ s', LoadFromYaml 2 root before = Ok tt s' ∧ s_datas s' !! "system.Port" = None ∧ s_datas s' !! "port9" = None.
Proof.
  destruct (load_exact 2 root before) as (l&s'&E&_&_&_&_&U).
  - apply within_map. intros k v [[= -> ->]|[]%elem_of_nil]%elem_of_cons. apply within_map.
    intros k v Hk. repeat (apply elem_of_cons in Hk as [[= -> ->]|Hk]; [by apply within_leaf|]). by apply elem_of_nil in Hk.
  - assert (∀ (name : string) (b : @ConfigVarBase unit (λ _, Z) unit), s_datas before !! name = Some b → m_cbs (projT2 b) = []) as Hb.
    { intros name b Hb. unfold before in Hb. cbn [s_datas] in Hb. apply lookup_singleton_Some in Hb as [_ <-]. reflexivity. }
    intros name t c Hc%Hb. cbn in Hc. unfold calm. rewrite Hc. constructor.
  - exists s'. split; [exact E|]. split; rewrite U; [reflexivity| |reflexivity|]; left; reflexivity.
Defined.
Lemma load_demo :
  ∃ s', LoadFromYaml 2 root before = Ok tt s' ∧ s_datas s' !! "system.port" = Some (existT tt (port 80)).
Proof. eexists. split; [vm_compute; reflexivity|]. vm_compute. reflexivity. Qed.
End Demo.
