(* ===== verification/Limits.v ===== *)
(** Static variables that follow the configuration ([hook.cc], [http/http_parser.cc]):
    the initialisers copy a configuration variable and add a listener that copies
    every change. *)
From stdpp Require Import gmap strings.
From S2P Require Import Prelude Text Config.

Local Open Scope string_scope.
Local Open Scope Z_scope.

(** The static variables of the two files. *)
Record Globals := mkGlobals {
  s_connect_timeout : Z;
  s_http_request_buffer_size : Z;
  s_http_request_max_body_size : Z;
  s_http_response_buffer_size : Z;
  s_http_response_max_body_size : Z;
}.
Definition Globals_new : Globals := mkGlobals (wrapu 64 (-1)) 0 0 0 0.
Definition set_connect_timeout (v : Z) (g : Globals) : Globals :=
  mkGlobals v (s_http_request_buffer_size g) (s_http_request_max_body_size g) (s_http_response_buffer_size g) (s_http_response_max_body_size g).
Definition set_request_buffer_size (v : Z) (g : Globals) : Globals :=
  mkGlobals (s_connect_timeout g) v (s_http_request_max_body_size g) (s_http_response_buffer_size g) (s_http_response_max_body_size g).
Definition set_request_max_body_size (v : Z) (g : Globals) : Globals :=
  mkGlobals (s_connect_timeout g) (s_http_request_buffer_size g) v (s_http_response_buffer_size g) (s_http_response_max_body_size g).
Definition set_response_buffer_size (v : Z) (g : Globals) : Globals :=
  mkGlobals (s_connect_timeout g) (s_http_request_buffer_size g) (s_http_request_max_body_size g) v (s_http_response_max_body_size g).
Definition set_response_max_body_size (v : Z) (g : Globals) : Globals :=
  mkGlobals (s_connect_timeout g) (s_http_request_buffer_size g) (s_http_request_max_body_size g) (s_http_response_buffer_size g) v.

(** The program state the listeners act on holds these variables. *)
Class HasGlobals (S : Type) := {
  globals : S → Globals;
  set_globals : Globals → S → S;
  globals_set : ∀ g s, globals (set_globals g s) = g;
}.
(** The types [int] and [uint64_t] among those of the configuration. *)
Class Numbers (Ty : Type) (Val : Ty → Type) := {
  Int : Ty;
  Uint64 : Ty;
  int_value : Val Int → Z;
  int_of : Z → Val Int;
  uint64_value : Val Uint64 → Z;
  uint64_of : Z → Val Uint64;
}.

Section limits.
Context {Ty : Type} {Val : Ty → Type} `{!Types Ty Val} `{!Numbers Ty Val} {S : Type} `{!HasGlobals S}.

Definition assign (f : Globals → Globals) : M S unit := modify (λ s, set_globals (f (globals s)) s).
(** [g_x = Config::Lookup(name, default_value, description)] *)
Definition declare (t : Ty) (name : string) (default_value : Val t) (description : string) : M (@Configs Ty Val S) unit :=
  Lookup_or_add t name default_value description;; mret tt.
(** [x = g_x->getValue()] *)
Definition copy {t : Ty} (name : string) (put : Val t → Globals → Globals) : M (@Configs Ty Val S) unit :=
  v ← Lookup t name;
  c ← deref v;
  in_world (assign (put (getValue c))).
(** [g_x->addListener([](ov, nv) { x = nv; })] *)
Definition follow {t : Ty} (name : string) (put : Val t → Globals → Globals) : M (@Configs Ty Val S) unit :=
  addListener t name (λ _ nv, assign (put nv));; mret tt.

(** The variables [g_tcp_connect_timeout] and those of the parsers, with their
    defaults. *)
Definition hook_variables : M (@Configs Ty Val S) unit :=
  declare Int "tcp.connect.timeout" (int_of 5000) "rcp connect timeout".
Definition parser_variables : M (@Configs Ty Val S) unit :=
  declare Uint64 "http.request.buffer_size" (uint64_of (4 * 1024)) "http request buffer size";;
  declare Uint64 "http.request.max_body_size" (uint64_of (64 * 1024 * 1024)) "http request max body size";;
  declare Uint64 "http.response.buffer_size" (uint64_of (4 * 1024)) "http response buffer size";;
  declare Uint64 "http.response.max_body_size" (uint64_of (64 * 1024 * 1024)) "http response max body size".
(** What is assigned: an [int] becomes a [uint64_t]. *)
Definition put_connect_timeout (v : Val Int) : Globals → Globals := set_connect_timeout (wrapu 64 (int_value v)).
Definition put_request_buffer_size (v : Val Uint64) : Globals → Globals := set_request_buffer_size (uint64_value v).
Definition put_request_max_body_size (v : Val Uint64) : Globals → Globals := set_request_max_body_size (uint64_value v).
Definition put_response_buffer_size (v : Val Uint64) : Globals → Globals := set_response_buffer_size (uint64_value v).
Definition put_response_max_body_size (v : Val Uint64) : Globals → Globals := set_response_max_body_size (uint64_value v).
(** [_HookIniter], after [hook_init] *)
Definition HookIniter : M (@Configs Ty Val S) unit :=
  copy "tcp.connect.timeout" put_connect_timeout;;
  follow "tcp.connect.timeout" put_connect_timeout.
(** [_RequestSizeIniter] *)
Definition RequestSizeIniter : M (@Configs Ty Val S) unit :=
  copy "http.request.buffer_size" put_request_buffer_size;;
  copy "http.request.max_body_size" put_request_max_body_size;;
  copy "http.response.buffer_size" put_response_buffer_size;;
  copy "http.response.max_body_size" put_response_max_body_size;;
  follow "http.request.buffer_size" put_request_buffer_size;;
  follow "http.request.max_body_size" put_request_max_body_size;;
  follow "http.response.buffer_size" put_response_buffer_size;;
  follow "http.response.max_body_size" put_response_max_body_size.
(** Before [main]. *)
Definition static_init : M (@Configs Ty Val S) unit :=
  hook_variables;; HookIniter;; parser_variables;; RequestSizeIniter.

Definition GetHttpRequestBufferSize (s : S) : Z := s_http_request_buffer_size (globals s).
Definition GetHttpRequestMaxBodySize (s : S) : Z := s_http_request_max_body_size (globals s).
Definition GetHttpResponseBufferSize (s : S) : Z := s_http_response_buffer_size (globals s).
Definition GetHttpResponseMaxBodySize (s : S) : Z := s_http_response_max_body_size (globals s).
End limits.
