(* ===== verification/LimitsSpec.v ===== *)
(** The limits of the parsers and the timeout of connections are at any time what the
    configuration says. *)
From Stdlib Require Import Eqdep_dec.
From stdpp Require Import gmap strings.
From S2P Require Import Prelude Text Yaml Config ConfigSpec LexicalSpec Limits.

Local Open Scope string_scope.
Local Open Scope list_scope.
Local Open Scope Z_scope.

Section spec.
Context {Ty : Type} {Val : Ty → Type} `{!Types Ty Val} `{!Numbers Ty Val} {S : Type} `{!HasGlobals S} `{Yaml Node}.
Notation Configs := (@Configs Ty Val S).
Notation ConfigVarBase := (@ConfigVarBase Ty Val S).
Notation ConfigVar := (@ConfigVar Ty Val S).

(** ** The five variables *)

(** A configuration variable and the static variable that follows it. *)
Record entry := mkEntry {
  e_type : Ty;
  e_name : string;
  e_put : Val e_type → Globals → Globals;
  e_get : Globals → Z;
  e_val : Val e_type → Z;
}.
Definition e_timeout : entry := mkEntry Int "tcp.connect.timeout" put_connect_timeout s_connect_timeout (λ v, wrapu 64 (int_value v)).
Definition e_req_buffer : entry := mkEntry Uint64 "http.request.buffer_size" put_request_buffer_size s_http_request_buffer_size uint64_value.
Definition e_req_body : entry := mkEntry Uint64 "http.request.max_body_size" put_request_max_body_size s_http_request_max_body_size uint64_value.
Definition e_rsp_buffer : entry := mkEntry Uint64 "http.response.buffer_size" put_response_buffer_size s_http_response_buffer_size uint64_value.
Definition e_rsp_body : entry := mkEntry Uint64 "http.response.max_body_size" put_response_max_body_size s_http_response_max_body_size uint64_value.
Definition entries : list entry := [e_timeout; e_req_buffer; e_req_body; e_rsp_buffer; e_rsp_body].

Ltac entry_cases He :=
  unfold entries in He; repeat (apply elem_of_cons in He as [->|He]); [..|by apply elem_of_nil in He].
Lemma put_get e v g : e ∈ entries → e_get e (e_put e v g) = e_val e v.
Proof. intros He. by entry_cases He. Qed.
Lemma put_other e e' v g : e ∈ entries → e' ∈ entries → e_name e' ≠ e_name e → e_get e' (e_put e v g) = e_get e' g.
Proof. intros He He' Hn. entry_cases He; entry_cases He'; done. Qed.
Lemma entry_valid e : e ∈ entries → valid_name (e_name e) = true.
Proof. intros He. by entry_cases He. Qed.
Lemma entry_inj e e' : e ∈ entries → e' ∈ entries → e_name e' = e_name e → e' = e.
Proof. intros He He' Hn. entry_cases He; entry_cases He'; done. Qed.

(** ** The invariant *)

(** What a call leaves alone, when it returns and when it throws. *)
Definition same_globals {A} (m : M S A) : Prop := ∀ w,
  match m w with Ok _ w' | Throw _ w' => globals w' = globals w | _ => True end.
Definition quiet {t} (c : ConfigVar t) : Prop := Forall (λ l, ∀ a b, same_globals (l.2 a b)) (m_cbs c).
Definition listener (e : entry) : @on_change_cb Ty Val S (e_type e) := λ _ nv, assign (e_put e nv).
(** How far the initialisation of an entry is: no variable; one without listeners; one
    that was copied; one that is followed. *)
Definition is_var (e : entry) (σ : Configs) (c : ConfigVar (e_type e)) : Prop :=
  s_datas σ !! e_name e = Some (existT (e_type e) c : ConfigVarBase).
Definition stage (k : nat) (e : entry) (σ : Configs) : Prop :=
  match k with
  | O => s_datas σ !! e_name e = None
  | 1%nat => ∃ c, is_var e σ c ∧ m_cbs c = []
  | 2%nat => ∃ c, is_var e σ c ∧ m_cbs c = [] ∧
      e_get e (globals (world σ)) = e_val e (m_val c)
  | _ => ∃ c id, is_var e σ c ∧ m_cbs c = [(id, listener e)] ∧
      e_get e (globals (world σ)) = e_val e (m_val c)
  end.
Record inv (ks : string → nat) (σ : Configs) : Prop := {
  inv_stage e : e ∈ entries → stage (ks (e_name e)) e σ;
  inv_quiet name t c : (∀ e, e ∈ entries → name ≠ e_name e) → s_datas σ !! name = Some (existT t c : ConfigVarBase) → quiet c;
}.
Definition upd (name : string) (k : nat) (ks : string → nat) : string → nat := λ n, if decide (n = name) then k else ks n.

Lemma existT_eq {t} (c c' : ConfigVar t) : existT t c = existT t c' → c = c'.
Proof. apply inj_pair2_eq_dec. intros x y. apply ty_dec. Qed.
Lemma lookup_ok t name (c : ConfigVar t) (σ : Configs) : s_datas σ !! name = Some (existT t c : ConfigVarBase) → Lookup t name σ = Ok (Some c) σ.
Proof.
  intros E. unfold Lookup, gets. rewrite E. cbn. unfold cast. cbn [projT1 projT2]. destruct (decide (t = t)) as [Et|]; [|done].
  by rewrite <-(eq_rect_eq_dec ty_dec).
Qed.
(** A stage depends on the variable of its name and on its static variable. *)
Lemma stage_ext k e σ σ' : s_datas σ' !! e_name e = s_datas σ !! e_name e →
  e_get e (globals (world σ')) = e_get e (globals (world σ)) → stage k e σ → stage k e σ'.
Proof. intros Hd Hg. destruct k as [|[|[|k]]]; unfold stage, is_var; by rewrite Hd, ?Hg. Qed.
(** One variable changes, and perhaps the static variable of its entry. *)
Lemma inv_step ks σ σ' e k b : inv ks σ → e ∈ entries → s_datas σ' = <[e_name e := b]> (s_datas σ) →
  (∀ e', e' ∈ entries → e_name e' ≠ e_name e → e_get e' (globals (world σ')) = e_get e' (globals (world σ))) →
  stage k e σ' → inv (upd (e_name e) k ks) σ'.
Proof.
  intros [I1 I2] He Hd Hg Hs. split.
  - intros e' He'. unfold upd. destruct (decide (e_name e' = e_name e)) as [Hn|Hn].
    + by rewrite (entry_inj e e' He He' Hn).
    + eapply stage_ext, I1; [by rewrite Hd, lookup_insert_ne|by apply Hg|done].
  - intros name t c Hn. rewrite Hd, lookup_insert_ne by (symmetry; by apply Hn). by apply I2.
Qed.

(** ** The initialisation *)

Lemma declare_ok ks σ e d descr : inv ks σ → e ∈ entries → ks (e_name e) = O →
  ∃ σ', declare (e_type e) (e_name e) d descr σ = Ok tt σ' ∧ inv (upd (e_name e) 1 ks) σ'.
Proof.
  intros Hi He Hk. pose proof (inv_stage ks σ Hi e He) as Hs. rewrite Hk in Hs. cbn in Hs.
  unfold declare, Lookup_or_add. rewrite (bind_assoc get), bind_get, Hs, entry_valid by done. cbn [negb].
  eexists. split; [reflexivity|]. apply (inv_step ks σ _ e 1 (existT (e_type e) (ConfigVar_new (e_name e) d descr))); try done.
  eexists. split; [apply lookup_insert_eq|done].
Qed.
Lemma copy_ok ks σ e : inv ks σ → e ∈ entries → ks (e_name e) = 1%nat →
  ∃ σ', copy (e_name e) (e_put e) σ = Ok tt σ' ∧ inv (upd (e_name e) 2 ks) σ'.
Proof.
  intros Hi He Hk. pose proof (inv_stage ks σ Hi e He) as Hs. rewrite Hk in Hs. destruct Hs as (c&Hc&Hn).
  unfold copy. rewrite (bind_ok _ _ _ _ _ (lookup_ok _ _ c σ Hc)). rewrite (bind_ok _ _ _ c σ) by done.
  eexists. split; [reflexivity|]. apply (inv_step ks σ _ e 2 (existT (e_type e) c)); try done; cbn [s_datas world].
  - by rewrite insert_id.
  - intros e' He' Hne. rewrite globals_set. by apply put_other.
  - exists c. split_and!; [exact Hc|done|]. cbn [world]. rewrite globals_set. by apply put_get.
Qed.
Lemma follow_ok ks σ e : inv ks σ → e ∈ entries → ks (e_name e) = 2%nat →
  ∃ σ', follow (e_name e) (e_put e) σ = Ok tt σ' ∧ inv (upd (e_name e) 3 ks) σ'.
Proof.
  intros Hi He Hk. pose proof (inv_stage ks σ Hi e He) as Hs. rewrite Hk in Hs. destruct Hs as (c&Hc&Hn&Hv).
  unfold follow, addListener, with_var. rewrite !bind_assoc, (bind_ok _ _ _ _ _ (lookup_ok _ _ c σ Hc)).
  rewrite bind_assoc, (bind_ok _ _ _ c σ) by done. eexists. split; [reflexivity|].
  apply (inv_step ks σ _ e 3 (existT (e_type e) (with_cbs [(wrapu 64 (s_fun_id σ (e_type e) + 1), listener e)] c))); try done;
    cbn [s_datas world set_var set_datas].
  - do 2 f_equal. rewrite Hn. cbn. by rewrite decide_True by done.
  - exists (with_cbs [(wrapu 64 (s_fun_id σ (e_type e) + 1), listener e)] c), (wrapu 64 (s_fun_id σ (e_type e) + 1)).
    split_and!; [|done|done]. unfold is_var. cbn [s_datas set_var set_datas]. rewrite lookup_insert_eq. do 2 f_equal.
    rewrite Hn. cbn. by rewrite decide_True by done.
Qed.
Lemma seq_ok (m k : M Configs unit) (I J : Configs → Prop) σ :
  (∃ σ', m σ = Ok tt σ' ∧ I σ') → (∀ σ', I σ' → ∃ σ'', k σ' = Ok tt σ'' ∧ J σ'') → ∃ σ'', (m;; k) σ = Ok tt σ'' ∧ J σ''.
Proof. intros (σ'&E&HI) Hk. rewrite (bind_ok _ _ _ _ _ E). eauto. Qed.
Ltac initialised L e := eapply (L _ _ e); [eassumption|set_solver|reflexivity].
Ltac then_initialised L e := eapply seq_ok; [initialised L e|cbv beta; intros ? ?].
Definition followed (σ : Configs) : Prop := inv (λ _, 3%nat) σ.
Lemma inv_ext ks ks' σ : (∀ e, e ∈ entries → ks (e_name e) = ks' (e_name e)) → inv ks σ → inv ks' σ.
Proof. intros Hk [I1 I2]. split; [|done]. intros e He. rewrite <-Hk by done. by apply I1. Qed.
Lemma ended (m : M Configs unit) ks σ : (∃ σ', m σ = Ok tt σ' ∧ inv ks σ') → (∀ e, e ∈ entries → ks (e_name e) = 3%nat) →
  ∃ σ', m σ = Ok tt σ' ∧ followed σ'.
Proof. intros (σ'&E&Hi) Hk. exists σ'. split; [done|]. by eapply inv_ext. Qed.
Lemma static_init_ok σ : inv (λ _, 0%nat) σ → ∃ σ', static_init σ = Ok tt σ' ∧ followed σ'.
Proof.
  intros Hi. unfold static_init, HookIniter, RequestSizeIniter, parser_variables, hook_variables. rewrite ?bind_assoc.
  then_initialised declare_ok e_timeout. rewrite ?bind_assoc.
  then_initialised copy_ok e_timeout. then_initialised follow_ok e_timeout. rewrite ?bind_assoc.
  then_initialised declare_ok e_req_buffer. rewrite ?bind_assoc. then_initialised declare_ok e_req_body. rewrite ?bind_assoc.
  then_initialised declare_ok e_rsp_buffer. then_initialised declare_ok e_rsp_body.
  then_initialised copy_ok e_req_buffer. then_initialised copy_ok e_req_body.
  then_initialised copy_ok e_rsp_buffer. then_initialised copy_ok e_rsp_body.
  then_initialised follow_ok e_req_buffer. then_initialised follow_ok e_req_body.
  then_initialised follow_ok e_rsp_buffer.
  eapply ended; [initialised follow_ok e_rsp_body|]. intros e He. by entry_cases He.
Qed.

(** ** The rest of the run *)

(** Other listeners do not touch the static variables. *)
Definition others_quiet (σ : Configs) : Prop :=
  ∀ name t c, s_datas σ !! name = Some (existT t c : ConfigVarBase) → quiet c.
Lemma others_followed σ : others_quiet σ → (∀ e, e ∈ entries → s_datas σ !! e_name e = None) → inv (λ _, 0%nat) σ.
Proof. intros Ho Hn. split; [by intros e He; apply Hn|]. intros name t c _. apply Ho. Qed.

Definition keeps {A} (m : M Configs A) : Prop := ∀ σ, followed σ →
  match m σ with Ok _ σ' | Throw _ σ' => followed σ' | _ => True end.
Lemma keeps_ret {A} (a : A) : keeps (mret a).
Proof. by intros σ Hσ. Qed.
Lemma keeps_throw {A} e : keeps (throw e : M Configs A).
Proof. by intros σ Hσ. Qed.
Lemma keeps_bind {A B} (m : M Configs A) (k : A → M Configs B) : keeps m → (∀ a, keeps (k a)) → keeps (mbind k m).
Proof.
  intros Hm Hk σ Hσ. specialize (Hm σ Hσ). unfold mbind, M_bind. destruct (m σ) as [a σ'|e σ'| |u]; try done. by apply Hk.
Qed.
Lemma world_keeps (σ : Configs) w : followed σ → globals w = globals (world σ) →
  followed (mkConfigs (s_datas σ) (s_fun_id σ) (s_file2modifytime σ) w).
Proof. intros [I1 I2] Hg. split; [|done]. intros e He. eapply stage_ext; [| |by apply I1]; [done|]. cbn. by rewrite Hg. Qed.
Lemma keeps_world {A} (m : M S A) : same_globals m → keeps (in_world m).
Proof.
  intros Hm σ Hσ. specialize (Hm (world σ)). unfold in_world. by destruct (m (world σ)); [apply world_keeps..| |].
Qed.
Lemma same_globals_bind {A B} (m : M S A) (k : A → M S B) : same_globals m → (∀ a, same_globals (k a)) → same_globals (mbind k m).
Proof.
  intros Hm Hk w. specialize (Hm w). unfold mbind, M_bind. destruct (m w) as [a w'|e w'| |u]; try done.
  specialize (Hk a w'). destruct (k a w'); by rewrite ?Hk.
Qed.
Lemma call_listeners_quiet {t} (l : list (Z * @on_change_cb Ty Val S t)) a b :
  Forall (λ l, ∀ a b, same_globals (l.2 a b)) l → same_globals (call_listeners l a b).
Proof. induction 1 as [|x l Hx Hl IH]; [done|]. apply same_globals_bind; [apply Hx|done]. Qed.

(** What [setValue] and [fromString] do to the variable of an entry, and to another. *)
Definition own_step (e : entry) (c : ConfigVar (e_type e)) (w : S) (c' : ConfigVar (e_type e)) (w' : S) : Prop :=
  m_cbs c' = m_cbs c ∧ (e_get e (globals w) = e_val e (m_val c) → e_get e (globals w') = e_val e (m_val c')) ∧
  ∀ e', e' ∈ entries → e_name e' ≠ e_name e → e_get e' (globals w') = e_get e' (globals w).
Lemma own_setValue e c id v w : e ∈ entries → m_cbs c = [(id, listener e)] →
  ∃ c' w', setValue v c w = Ok c' w' ∧ own_step e c w c' w'.
Proof.
  intros He Hc. unfold setValue. case_bool_decide as Hv; [by eexists _, _|]. rewrite Hc. eexists _, _. split; [reflexivity|].
  cbn. unfold own_step. rewrite globals_set. split_and!; [done| |].
  - intros _. by apply put_get.
  - intros e' He' Hn. by apply put_other.
Qed.
Lemma own_fromString e c id text w : e ∈ entries → m_cbs c = [(id, listener e)] →
  ∃ c' w', fromString text c w = Ok (false, c') w' ∧ own_step e c w c' w'.
Proof.
  intros He Hc. unfold fromString. destruct (FromStr (e_type e) text) as [v|]; [|by eexists _, _].
  destruct (own_setValue e c id v w He Hc) as (c'&w'&->&Hs). by eexists _, _.
Qed.
Definition quiet_result {t A} (f : A → ConfigVar t) (r : res S A) (w : S) : Prop :=
  match r with Ok a w' => globals w' = globals w ∧ quiet (f a) | Throw _ w' => globals w' = globals w | _ => True end.
Lemma foreign_setValue {t} (c : ConfigVar t) v w : quiet c → quiet_result id (setValue v c w) w.
Proof.
  intros Hc. unfold setValue. case_bool_decide; [done|]. pose proof (call_listeners_quiet (m_cbs c) (m_val c) v Hc w) as Hl.
  unfold mbind, M_bind. by destruct (call_listeners _ _ _ w) as [[]| | |].
Qed.
Lemma foreign_fromString {t} (c : ConfigVar t) text w : quiet c → quiet_result snd (fromString text c w) w.
Proof.
  intros Hc. unfold fromString. destruct (FromStr t text) as [v|]; [|done].
  pose proof (foreign_setValue c v w Hc) as Hl. by destruct (setValue v c w).
Qed.

(** The variable is put back. *)
Lemma own_back e c id (σ : Configs) c' w' : e ∈ entries → followed σ → is_var e σ c → m_cbs c = [(id, listener e)] →
  e_get e (globals (world σ)) = e_val e (m_val c) → own_step e c (world σ) c' w' →
  followed (set_var (e_name e) c' (mkConfigs (s_datas σ) (s_fun_id σ) (s_file2modifytime σ) w')).
Proof.
  intros He Hi Hv Hc Hg (Hcbs&Hown&Hoth). eapply inv_ext with (ks := upd (e_name e) 3 (λ _, 3%nat)).
  { intros e' _. unfold upd. by case_decide. }
  eapply inv_step; [exact Hi|done|reflexivity|exact Hoth|]. exists c', id. unfold is_var. cbn [s_datas world set_var set_datas].
  rewrite lookup_insert_eq. split_and!; [done|by rewrite Hcbs|by apply Hown].
Qed.
Lemma foreign_back name t (c c' : ConfigVar t) (σ : Configs) w' : followed σ → (∀ e, e ∈ entries → name ≠ e_name e) →
  quiet c' → globals w' = globals (world σ) →
  followed (set_var name c' (mkConfigs (s_datas σ) (s_fun_id σ) (s_file2modifytime σ) w')).
Proof.
  intros [I1 I2] Hn Hq Hg. split.
  - intros e He. eapply stage_ext; [| |by apply I1]; cbn [s_datas world set_var set_datas]; [|by rewrite Hg].
    apply lookup_insert_ne. by apply Hn.
  - intros name' t' d Hn'. cbn [s_datas set_var set_datas]. destruct (decide (name = name')) as [<-|Hne].
    + rewrite lookup_insert_eq. intros [= <- E]. apply existT_eq in E as <-. done.
    + rewrite lookup_insert_ne by done. by apply I2.
Qed.

(** ** The operations *)

Notation back σ w := (mkConfigs (s_datas σ) (s_fun_id σ) (s_file2modifytime σ) w).
Lemma own_or_foreign name : (∃ e, e ∈ entries ∧ name = e_name e) ∨ ∀ e, e ∈ entries → name ≠ e_name e.
Proof.
  destruct (decide (name ∈ e_name <$> entries)) as [(e&->&He)%list_elem_of_fmap|Hn]; [left; eauto|right].
  intros e He ->. apply Hn, list_elem_of_fmap. eauto.
Qed.
Lemma own_var e t (c : ConfigVar t) (σ : Configs) : e ∈ entries → followed σ → s_datas σ !! e_name e = Some (existT t c : ConfigVarBase) →
  ∃ d id, (existT t c : ConfigVarBase) = existT (e_type e) d ∧ is_var e σ d ∧ m_cbs d = [(id, listener e)] ∧
    e_get e (globals (world σ)) = e_val e (m_val d).
Proof.
  intros He Hi Hl. destruct (inv_stage _ _ Hi e He) as (d&id&Hd&Hc&Hg). exists d, id. split_and!; try done.
  unfold is_var in Hd. rewrite Hl in Hd. by injection Hd.
Qed.
Lemma setValue_keeps name t (c : ConfigVar t) v (σ : Configs) : followed σ → s_datas σ !! name = Some (existT t c : ConfigVarBase) →
  match setValue v c (world σ) with
  | Ok c' w' => followed (set_var name c' (back σ w'))
  | Throw _ w' => followed (back σ w')
  | _ => True
  end.
Proof.
  intros Hi Hl. destruct (own_or_foreign name) as [(e&He&->)|Hn].
  - destruct (own_var e t c σ He Hi Hl) as (d&id&E&Hv&Hc&Hg).
    pose proof (f_equal (@projT1 _ _) E) as Et. cbn in Et. subst t. apply existT_eq in E as <-.
    destruct (own_setValue e c id v (world σ) He Hc) as (c'&w'&->&Hs). by eapply own_back.
  - pose proof (foreign_setValue c v (world σ) (inv_quiet _ _ Hi _ _ _ Hn Hl)) as Hq.
    destruct (setValue v c (world σ)) as [c' w'|x w'| |]; [|by apply world_keeps|done..].
    destruct Hq. by eapply foreign_back.
Qed.
Lemma fromString_keeps name t (c : ConfigVar t) text (σ : Configs) : followed σ → s_datas σ !! name = Some (existT t c : ConfigVarBase) →
  match fromString text c (world σ) with
  | Ok (_, c') w' => followed (set_var name c' (back σ w'))
  | Throw _ w' => followed (back σ w')
  | _ => True
  end.
Proof.
  intros Hi Hl. destruct (own_or_foreign name) as [(e&He&->)|Hn].
  - destruct (own_var e t c σ He Hi Hl) as (d&id&E&Hv&Hc&Hg).
    pose proof (f_equal (@projT1 _ _) E) as Et. cbn in Et. subst t. apply existT_eq in E as <-.
    destruct (own_fromString e c id text (world σ) He Hc) as (c'&w'&->&Hs). by eapply own_back.
  - pose proof (foreign_fromString c text (world σ) (inv_quiet _ _ Hi _ _ _ Hn Hl)) as Hq.
    destruct (fromString text c (world σ)) as [[b c'] w'|x w'| |]; [|by apply world_keeps|done..].
    destruct Hq. by eapply foreign_back.
Qed.
Lemma cast_inv t (b : ConfigVarBase) (c : ConfigVar t) : cast t b = Some c → b = existT t c.
Proof. destruct b as [u d]. unfold cast. cbn. case_decide as E; [|done]. destruct E. by intros [= ->]. Qed.
Lemma var_setValue_keeps t name v : keeps (var_setValue t name v).
Proof.
  intros σ Hi. unfold var_setValue, with_var, Lookup. rewrite bind_gets.
  destruct (s_datas σ !! name ≫= cast t) as [c|] eqn:El; [|done].
  destruct (s_datas σ !! name) as [b|] eqn:Eb; [|done]. apply cast_inv in El as ->.
  rewrite (bind_ok _ _ σ c σ) by done. rewrite bind_assoc. pose proof (setValue_keeps name t c v σ Hi Eb) as Hk.
  unfold mbind, M_bind, in_world. by destruct (setValue v c (world σ)).
Qed.
Lemma declared_keeps t name d descr : keeps (Lookup_or_add t name d descr).
Proof.
  intros σ Hi. unfold Lookup_or_add. rewrite bind_get. destruct (s_datas σ !! name) as [b|] eqn:Eb; [done|].
  destruct (valid_name name); cbn [negb]; [|done]. cbn.
  apply (foreign_back name t (ConfigVar_new name d descr) _ σ (world σ)); [done| |by constructor|done].
  intros e He ->. destruct (inv_stage _ _ Hi e He) as (c&id&Hc&_). unfold is_var in Hc. congruence.
Qed.
Lemma load_entry_keeps e : keeps (load_entry e).
Proof.
  destruct e as [key node]. intros σ Hi. unfold load_entry. case_bool_decide; [done|]. unfold LookupBase. rewrite bind_gets.
  destruct (s_datas σ !! lowercase key) as [[t c]|] eqn:El; [|done].
  pose proof (fromString_keeps (lowercase key) t c (entry_text node) σ Hi El) as Hk.
  unfold mbind, M_bind, in_world. by destruct (fromString (entry_text node) c (world σ)) as [[? ?]| | |].
Qed.
Lemma load_entries_keeps l : keeps (load_entries l).
Proof. induction l as [|e l IH]; [apply keeps_ret|]. apply keeps_bind; [apply load_entry_keeps|done]. Qed.
Lemma LoadFromYaml_keeps fuel root : keeps (LoadFromYaml fuel root).
Proof. unfold LoadFromYaml. destruct (ListAllMember fuel "" root); [apply load_entries_keeps|done]. Qed.
Lemma catch_all_keeps m : keeps m → keeps (catch_all m).
Proof. intros Hm σ Hi. specialize (Hm σ Hi). unfold catch_all. by destruct (m σ). Qed.
Lemma LoadFromConfDir_keeps fuel files : keeps (LoadFromConfDir fuel files).
Proof.
  induction files as [|[[name mtime] root] files IH]; [apply keeps_ret|]. cbn [LoadFromConfDir]. intros σ Hi.
  rewrite bind_get. revert σ Hi. intros σ0 Hi. eapply keeps_bind; [|done|exact Hi]. case_match; [apply keeps_ret|].
  apply keeps_bind; [|intros _; apply catch_all_keeps; destruct root; [apply LoadFromYaml_keeps|apply keeps_throw]].
  intros σ [I1 I2]. by split.
Qed.

(** ** Any run *)

(** What the program does with the registry, and what else it does. *)
Inductive call : Type :=
  | SetValue (t : Ty) (name : string) (v : Val t)
  | NewVar (t : Ty) (name : string) (d : Val t) (descr : string)
  | LoadYaml (fuel : nat) (root : Node)
  | LoadConfDir (fuel : nat) (files : list (string * Z * option Node))
  | Other (m : M S unit).
Definition run_call (x : call) : M Configs unit :=
  match x with
  | SetValue t name v => var_setValue t name v
  | NewVar t name d descr => declare t name d descr
  | LoadYaml fuel root => LoadFromYaml fuel root
  | LoadConfDir fuel files => LoadFromConfDir fuel files
  | Other m => in_world m
  end.
(** Other code does not assign the static variables. *)
Definition harmless (x : call) : Prop := match x with Other m => same_globals m | _ => True end.
(** The calls one after the other; an exception of one is caught by its caller. *)
Inductive ran : list call → Configs → Configs → Prop :=
  | ran_nil σ : ran [] σ σ
  | ran_returned x l σ σ1 σ2 : run_call x σ = Ok tt σ1 → ran l σ1 σ2 → ran (x :: l) σ σ2
  | ran_thrown x l e σ σ1 σ2 : run_call x σ = Throw e σ1 → ran l σ1 σ2 → ran (x :: l) σ σ2.
Lemma run_call_keeps x : harmless x → keeps (run_call x).
Proof.
  destruct x; cbn [run_call harmless]; intros Hx.
  - apply var_setValue_keeps.
  - apply keeps_bind; [apply declared_keeps|intros _; apply keeps_ret].
  - apply LoadFromYaml_keeps.
  - apply LoadFromConfDir_keeps.
  - by apply keeps_world.
Qed.
Lemma ran_followed l σ σ' : Forall harmless l → ran l σ σ' → followed σ → followed σ'.
Proof.
  intros Hl Hr. induction Hr as [σ|x l σ σ1 σ2 E Hr IH|x l e σ σ1 σ2 E Hr IH]; intros Hi; [done| |];
    apply Forall_cons in Hl as [Hx Hl]; apply IH; try done; pose proof (run_call_keeps x Hx σ Hi) as Hk; by rewrite E in Hk.
Qed.

(** The variable [name] exists, and [v] is its value. *)
Definition says {t} (name : string) (val : Val t → Z) (σ : Configs) (v : Z) : Prop :=
  ∃ c, Lookup t name σ = Ok (Some c) σ ∧ v = val (getValue c).
Definition agree (σ : Configs) : Prop :=
  says "tcp.connect.timeout" (λ v, wrapu 64 (int_value v)) σ (s_connect_timeout (globals (world σ))) ∧
  says "http.request.buffer_size" uint64_value σ (GetHttpRequestBufferSize (world σ)) ∧
  says "http.request.max_body_size" uint64_value σ (GetHttpRequestMaxBodySize (world σ)) ∧
  says "http.response.buffer_size" uint64_value σ (GetHttpResponseBufferSize (world σ)) ∧
  says "http.response.max_body_size" uint64_value σ (GetHttpResponseMaxBodySize (world σ)).
Lemma followed_says e σ : followed σ → e ∈ entries → says (e_name e) (e_val e) σ (e_get e (globals (world σ))).
Proof.
  intros Hi He. destruct (inv_stage _ _ Hi e He) as (c&id&Hc&_&Hg). exists c. split; [by apply lookup_ok|exact Hg].
Qed.
Lemma followed_agree σ : followed σ → agree σ.
Proof.
  intros Hi. split_and!.
  - apply (followed_says e_timeout); [done|set_solver].
  - apply (followed_says e_req_buffer); [done|set_solver].
  - apply (followed_says e_req_body); [done|set_solver].
  - apply (followed_says e_rsp_buffer); [done|set_solver].
  - apply (followed_says e_rsp_body); [done|set_solver].
Qed.

(** C23: the limits follow the configuration.  The initialisers of the parsers and of the
    hooks return, and after them, whatever the program then sets, declares or loads from
    texts and directories, with calls that return and calls that throw, the connect
    timeout and the four limits of the parsers are what the configuration variables
    say. *)
Theorem limits_follow (σ0 : Configs) :
  others_quiet σ0 → (∀ e, e ∈ entries → s_datas σ0 !! e_name e = None) →
  ∃ σ1, static_init σ0 = Ok tt σ1 ∧ ∀ l σ2, Forall harmless l → ran l σ1 σ2 → agree σ2.
Proof.
  intros Ho Hn. destruct (static_init_ok σ0 (others_followed σ0 Ho Hn)) as (σ1&E&Hi). exists σ1. split; [done|].
  intros l σ2 Hl Hr. apply followed_agree. by eapply ran_followed.
Qed.
End spec.

Module Demo.
Import SmallYaml.
(** The types [int], [true], and [uint64_t]. *)
#[local] Instance two_types : Types bool (λ _, Z) := { FromStr := λ _, read_dec; ToStr := λ _ v, Some (show v) }.
#[local] Instance two_numbers : Numbers bool (λ _, Z) := {
  Int := true; Uint64 := false; int_value := λ v, v; int_of := λ v, v; uint64_value := λ v, v; uint64_of := λ v, v;
}.
#[local] Program Instance only_globals : HasGlobals Globals := { globals := λ g, g; set_globals := λ g _, g }.
Next Obligation. done. Qed.
Definition start : @Configs bool (λ _, Z) Globals := mkConfigs ∅ (λ _, 0) ∅ Globals_new.
Definition root : gen_tree string :=
  dict [scalar "http"; dict [scalar "request"; dict [scalar "buffer_size"; scalar "8192"; scalar "max_body_size"; scalar "none"]]].
Definition calls : list (call (Val := λ _ : bool, Z) (S := Globals) (Node := gen_tree string)) :=
  [LoadYaml 4 root; NewVar true "http server" 1 ""; SetValue true "tcp.connect.timeout" (-1)].
Notation Cs := (@Configs bool (λ _, Z) Globals).
Definition state_of {A} (r : res Cs A) (σ : Cs) : Cs := match r with Ok _ σ' | Throw _ σ' => σ' | _ => σ end.
Definition goes_on {A} (r : res Cs A) : bool := match r with Ok _ _ | Throw _ _ => true | _ => false end.
Definition after_all (l : list call) (σ : Cs) : Cs := foldl (λ σ x, state_of (run_call x σ) σ) σ l.
Fixpoint all_go_on (l : list (call (Val := λ _ : bool, Z) (S := Globals) (Node := gen_tree string))) (σ : Cs) : bool :=
  match l with [] => true | x :: l => goes_on (run_call x σ) && all_go_on l (state_of (run_call x σ) σ) end.
Lemma ran_after l σ : all_go_on l σ = true → ran l σ (after_all l σ).
Proof.
  revert σ. induction l as [|x l IH]; intros σ; cbn [all_go_on after_all foldl]; [constructor|].
  intros [Hx Hl]%andb_true_iff. destruct (run_call x σ) as [[] σ'|e σ'| |] eqn:E; cbn [goes_on state_of] in *; try done.
  - by eapply ran_returned, IH.
  - by eapply ran_thrown, IH.
Qed.
Lemma limits_follow_witness :
  ∃ σ1 σ2, static_init start = Ok tt σ1 ∧ ran calls σ1 σ2 ∧ agree σ2 ∧
    GetHttpRequestBufferSize (world σ2) = 8192 ∧ GetHttpRequestMaxBodySize (world σ2) = 67108864 ∧
    s_connect_timeout (globals (world σ2)) = 2 ^ 64 - 1.
Proof.
  destruct (limits_follow start) as (σ1&E&Ha).
  - intros name t c Hc. unfold start in Hc. cbn [s_datas] in Hc. rewrite lookup_empty in Hc. discriminate Hc.
  - intros e He. reflexivity.
  - assert (σ1 = state_of (static_init start) start) as -> by (rewrite E; reflexivity).
    eexists _, (after_all calls (state_of (static_init start) start)). split_and!.
    + exact E.
    + apply ran_after. vm_compute. reflexivity.
    + apply (Ha calls); [repeat constructor|]. apply ran_after. vm_compute. reflexivity.
    + vm_compute. reflexivity.
    + vm_compute. reflexivity.
    + vm_compute. reflexivity.
Defined.
End Demo.
