(* ===== verification/Env.v ===== *)
(** The environment of the process ([sylar/env.h], [env.cc]): arguments, help texts,
    environment variables and paths.

    Each method holds the lock, except [addHelp], which is two steps.  The path of
    the executable, which [init] reads from a link of the system, is an argument. *)
From S2P Require Import Prelude Text.
From Stdlib Require Import Ascii.
From stdpp Require Import gmap strings.

Local Open Scope string_scope.

Record Env := mkEnv {
  m_args : gmap string string;
  m_helps : list (string * string);
  m_program : string;
  m_exe : string;
  m_cwd : string;
}.
Definition Env_new : Env := mkEnv ∅ [] "" "" "".
Definition set_args (v : gmap string string) (e : Env) : Env := mkEnv v (m_helps e) (m_program e) (m_exe e) (m_cwd e).
Definition set_helps (v : list (string * string)) (e : Env) : Env := mkEnv (m_args e) v (m_program e) (m_exe e) (m_cwd e).

Definition add (key val : string) (e : Env) : Env := set_args (<[key := val]> (m_args e)) e.
Definition has (key : string) (e : Env) : bool := bool_decide (is_Some (m_args e !! key)).
Definition get (key default_val : string) (e : Env) : string := default default_val (m_args e !! key).
Definition del (key : string) (e : Env) : Env := set_args (delete key (m_args e)) e.

(** The text before the last slash, all of it when there is none. *)
Fixpoint before_last_slash (s : string) : option string :=
  match s with
  | "" => None
  | String c s =>
      match before_last_slash s with
      | Some t => Some (String c t)
      | None => if Ascii.eqb c "/" then Some "" else None
      end
  end.
Definition directory (exe : string) : string := default exe (before_last_slash exe) +:+ "/".

(** The loop over the arguments behind the program: [now_key] is the key that waits
    for its value. *)
Fixpoint parse_args (now_key : option string) (argv : list string) (e : Env) : bool * Env :=
  match argv with
  | [] => (true, match now_key with Some k => add k "" e | None => e end)
  | arg :: argv =>
      match arg with
      | String "-" key =>
          if bool_decide (key = "") then (false, e)
          else parse_args (Some key) argv (match now_key with Some k => add k "" e | None => e end)
      | _ =>
          match now_key with
          | Some k => parse_args None argv (add k arg e)
          | None => (false, e)
          end
      end
  end.
(** [Env::init]; an empty [argv] is read out of bounds. *)
Definition init (exe : string) (argv : list string) (e : Env) : option (bool * Env) :=
  match argv with
  | [] => None
  | program :: argv =>
      Some (parse_args None argv (mkEnv (m_args e) (m_helps e) program exe (directory exe)))
  end.

Fixpoint remove_help (key : string) (l : list (string * string)) : list (string * string) :=
  match l with [] => [] | h :: l => if bool_decide (h.1 = key) then l else h :: remove_help key l end.
Definition removeHelp (key : string) (e : Env) : Env := set_helps (remove_help key (m_helps e)) e.
(** The second step of [addHelp] *)
Definition push_help (key desc : string) (e : Env) : Env := set_helps (m_helps e ++ [(key, desc)])%list e.
Definition addHelp (key desc : string) (e : Env) : Env := push_help key desc (removeHelp key e).
(** [printHelp]: what is written. *)
Definition printHelp (e : Env) : string :=
  "Usage: " +:+ m_program e +:+ " [options]" +:+ String "010"
    (foldr (λ h t, "    -" +:+ h.1 +:+ " : " +:+ h.2 +:+ String "010" t) "" (m_helps e)).

(** [getAbsolutePath] *)
Definition getAbsolutePath (path : string) (e : Env) : string :=
  match path with
  | "" => m_cwd e
  | String "/" _ => path
  | _ => m_cwd e +:+ path
  end.

(** The variables of the process: [setenv] rejects an empty name and one with an
    equals sign; its answer, 0 for success, is returned as a truth value. *)
Notation environ := (gmap string string).
Definition setEnv (key val : string) (v : environ) : bool * environ :=
  let key := c_str key in
  if bool_decide (key = "") || negb (every (not_char "=") key) then (true, v) else (false, <[key := c_str val]> v).
Definition getEnv (key default_val : string) (v : environ) : string := default default_val (v !! c_str key).
