(* ===== verification/EnvSpec.v ===== *)
(** The arguments [Env::init] accepts, and what it makes of them. *)
From S2P Require Import Prelude Text Env.
From Stdlib Require Import Ascii.
From stdpp Require Import gmap strings.

Local Open Scope string_scope.
Local Open Scope list_scope.

(** ** The arguments as options *)

(** A key with or without a value. *)
Notation option_ := (string * option string)%type.
Definition is_key (arg : string) : bool := match arg with String "-" _ => true | _ => false end.
Definition option_ok (o : option_) : Prop :=
  o.1 ≠ "" ∧ match o.2 with Some v => is_key v = false | None => True end.
Fixpoint arguments (l : list option_) : list string :=
  match l with
  | [] => []
  | (k, v) :: l => ("-" +:+ k) :: (match v with Some v => [v] | None => [] end) ++ arguments l
  end.
(** The table after the options, a later one for the same key replacing it. *)
Definition table (l : list option_) (m : gmap string string) : gmap string string :=
  foldl (λ m o, <[o.1 := default "" o.2]> m) m l.

(** The two kinds of arguments. *)
Lemma parse_key key k l e :
  k ≠ "" →
  parse_args key (("-" +:+ k) :: l) e = parse_args (Some k) l (match key with Some j => add j "" e | None => e end).
Proof. intros Hk. rewrite app_cons_s, app_empty_s. cbn [parse_args]. by rewrite bool_decide_false. Qed.
Lemma parse_dash key l e : parse_args key ("-" :: l) e = (false, e).
Proof. done. Qed.
Lemma parse_value key v l e :
  is_key v = false →
  parse_args key (v :: l) e = match key with Some k => parse_args None l (add k v e) | None => (false, e) end.
Proof. destruct v as [|[[] [] [] [] [] [] [] []] v]; done. Qed.
Lemma key_split arg : is_key arg = true → ∃ k, arg = "-" +:+ k.
Proof. destruct arg as [|[[] [] [] [] [] [] [] []] k]; try done. intros _. by exists k. Qed.

Lemma parse_arguments opts e :
  Forall option_ok opts →
  parse_args None (arguments opts) e = (true, set_args (table opts (m_args e)) e) ∧
  ∀ k, parse_args (Some k) (arguments opts) e = (true, set_args (table ((k, None) :: opts) (m_args e)) e).
Proof.
  intros Ho. revert e. induction Ho as [|[k v] opts [Hk Hv] _ IH]; intros e.
  - split; [by destruct e|done].
  - cbn [fst snd] in *. cbn [arguments].
    assert (∀ key, parse_args key (("-" +:+ k) :: (match v with Some v => [v] | None => [] end) ++ arguments opts) e =
      (true, set_args (table ((k, v) :: opts) (m_args (match key with Some j => add j "" e | None => e end))) e)) as E.
    { intros key. rewrite parse_key by done. set (e1 := match key with Some j => add j "" e | None => e end).
      assert (∀ m, set_args m e1 = set_args m e) as Es by (intros m; by destruct key). destruct v as [v|]; cbn [app].
      - rewrite parse_value by done. destruct (IH (add k v e1)) as [-> _]. by rewrite <-Es.
      - destruct (IH e1) as [_ ->]. by rewrite <-Es. }
    split; [apply E|intros j; rewrite E; done].
Qed.

Lemma parse_inv key l e e' :
  match key with Some k => k ≠ "" | None => True end →
  parse_args key l e = (true, e') →
  ∃ opts, Forall option_ok opts ∧
    arguments opts = (match key with Some k => ("-" +:+ k) :: l | None => l end) ∧
    e' = set_args (table opts (m_args e)) e.
Proof.
  revert key e. induction l as [|arg l IH]; intros key e Hkey E.
  - destruct key as [k|]; cbn in E; injection E as <-; [exists [(k, None)]|exists []]; split_and!; try done.
    + by repeat constructor.
    + by destruct e.
  - destruct (is_key arg) eqn:Ea.
    + apply key_split in Ea as [k ->]. destruct (decide (k = "")) as [->|Hk]; [by rewrite parse_dash in E|].
      rewrite parse_key in E by done. apply IH in E as (opts&Ho&El&->); [|done].
      destruct key as [j|]; [exists ((j, None) :: opts)|exists opts]; split_and!; try done.
      * by constructor.
      * cbn [arguments app]. by rewrite El.
    + rewrite parse_value in E by done. destruct key as [k|]; [|done]. apply IH in E as (opts&Ho&El&->); [|done].
      exists ((k, Some arg) :: opts). split_and!; [by constructor|cbn [arguments app]; by rewrite El|done].
Qed.

(** C33: [init] accepts exactly the arguments that are a list of options, "-key" with
    or without a value that does not begin with a dash, and then [m_args] maps every
    key to the value it was last given, the empty text for none; everything else is
    refused. *)
Theorem init_grammar (exe program : string) (argv : list string) (e : Env) :
  let e0 := mkEnv (m_args e) (m_helps e) program exe (directory exe) in
  (∀ e', init exe (program :: argv) e = Some (true, e') ↔
     ∃ opts, Forall option_ok opts ∧ argv = arguments opts ∧ e' = set_args (table opts (m_args e)) e0) ∧
  ((∀ opts, Forall option_ok opts → argv ≠ arguments opts) → ∃ e', init exe (program :: argv) e = Some (false, e')).
Proof.
  intros e0. unfold init. fold e0.
  assert (∀ e', parse_args None argv e0 = (true, e') ↔
     ∃ opts, Forall option_ok opts ∧ argv = arguments opts ∧ e' = set_args (table opts (m_args e)) e0) as Hi.
  { intros e'. split.
    - intros (opts&Ho&El&->)%parse_inv; [|done]. by exists opts.
    - intros (opts&Ho&->&->). by destruct (parse_arguments opts e0 Ho) as [-> _]. }
  split.
  - intros e'. rewrite <-Hi. split; [by intros [= ->]|by intros ->].
  - intros Hno. destruct (parse_args None argv e0) as [[] e'] eqn:E; [|by exists e'].
    destruct (proj1 (Hi e') eq_refl) as (opts&Ho&El&_). by destruct (Hno opts Ho).
Qed.
Lemma init_grammar_witness :
  ∃ e', init "/opt/bin/server" ["server"; "-d"; "-c"; "conf"; "-d"] Env_new = Some (true, e') ∧
    get "c" "none" e' = "conf" ∧ get "d" "none" e' = "" ∧ m_cwd e' = "/opt/bin/".
Proof.
  eexists. split.
  - apply (init_grammar "/opt/bin/server" "server" ["-d"; "-c"; "conf"; "-d"] Env_new).
    exists [("d", None); ("c", Some "conf"); ("d", None)]. split; [by repeat constructor|]. split; reflexivity.
  - split; [reflexivity|split; reflexivity].
Defined.
