(* ===== verification/Application.v ===== *)
(** The start of the process ([sylar/application.h], [application.cc]): arguments,
    configuration, the pid file and the HTTP servers of the configuration.

    The program state is that of the environment, the configuration, the file system
    and what is printed; the servers start in the state of the connections. *)
From Stdlib Require Import Ascii.
From stdpp Require Import gmap strings.
From S2P Require Import Prelude Text Endian Address Yaml Lexical Util Env Config FdManager Hook Socket TcpServer.
From S2P Require HttpServer.

Local Open Scope string_scope.
Local Open Scope Z_scope.

(** ** The configuration of a server *)

Record HttpServerConf := mkHttpServerConf {
  address : list string;
  keepalive : Z;
  timeout : Z;
  name : string;
}.
Definition HttpServerConf_new : HttpServerConf := mkHttpServerConf [] 0 (1000 * 2 * 60) "".
Definition isValid (c : HttpServerConf) : bool := negb (bool_decide (address c = [])).
#[export] Instance HttpServerConf_eq_dec : EqDecision HttpServerConf.
Proof. solve_decision. Defined.
Definition conf_eq (a b : HttpServerConf) : bool := bool_decide (a = b).

(** [as<int>()] and a node from an [int] *)
Class YamlInt (Node : Type) := { as_int : Node → option Z; of_int : Z → Node }.

Section conf.
Context {Node : Type} `{Yaml Node, YamlInt Node}.

(** [node[key].as<T>(fallback)] *)
Definition field_or {A} (conv : Node → option A) (node : Node) (key : string) (fallback : A) : A :=
  default fallback (field node key ≫= conv).
(** [LexicalCast<std::string, HttpServerConf>]; a scalar has no members to ask for. *)
Definition conf_of_string (v : string) : option HttpServerConf :=
  node ← Load v;
  if IsScalar node then None
  else
    let keepalive := field_or as_int node "keepalive" (keepalive HttpServerConf_new) in
    let timeout := field_or as_int node "timeout" (timeout HttpServerConf_new) in
    let name := field_or as_string node "name" "" in
    address ← match field node "address" with Some a => mapM as_string (elements a) | None => Some [] end;
    Some (mkHttpServerConf address keepalive timeout name).
(** [LexicalCast<HttpServerConf, std::string>] *)
Definition conf_to_string (c : HttpServerConf) : option string :=
  let node := set_field "timeout" (of_int (timeout c))
    (set_field "keepalive" (of_int (keepalive c)) (set_field "name" (of_string (name c)) Null)) in
  Some (emit (foldl (λ node i, set_field "address" (push_back (of_string i) (default Null (field node "address"))) node)
    node (address c))).
Definition conf_cast : Cast HttpServerConf := mkCast conf_of_string conf_to_string.
(** The type of the variable "http_servers" *)
Definition confs_cast : Cast (list HttpServerConf) := vector_cast conf_cast.
End conf.

(** ** [init] and the pid file *)

Section application.
Context {FS : Type} `{FileSystem FS} {Node : Type} `{Yaml Node}.
Context {Ty : Type} {Val : Ty → Type} `{!Types Ty Val} {S : Type}.
(** The type of strings among the types of variables, the link to the executable and
    the modification times. *)
Context (TString : Ty) (string_of : Val TString → string) (exe : string) (st_mtime : string → FS → Z).

Record App := mkApp {
  a_env : Env.Env;
  a_conf : @Configs Ty Val S;
  a_files : FS;
  a_out : string;
}.
Definition on_env {A} (f : Env.Env → A * Env.Env) : M App A := λ s,
  let '(a, e) := f (a_env s) in Ok a (mkApp e (a_conf s) (a_files s) (a_out s)).
Definition on_conf {A} (m : M (@Configs Ty Val S) A) : M App A := λ s,
  let back c := mkApp (a_env s) c (a_files s) (a_out s) in
  match m (a_conf s) with
  | Ok a c => Ok a (back c)
  | Throw e c => Throw e (back c)
  | Abort => Abort
  | Undef u => Undef u
  end.
Definition on_files {A} (m : M FS A) : M App A := λ s,
  let back f := mkApp (a_env s) (a_conf s) f (a_out s) in
  match m (a_files s) with
  | Ok a f => Ok a (back f)
  | Throw e f => Throw e (back f)
  | Abort => Abort
  | Undef u => Undef u
  end.
Definition print_help : M App unit := modify (λ s, mkApp (a_env s) (a_conf s) (a_files s) (a_out s +:+ printHelp (a_env s))).

(** [Config::LoadFromConfDir(path)]: the files are found by [ListAllFile], to a depth
    of [fuel], and read. *)
Definition LoadFromConfDir (fuel : nat) (path : string) : M App unit :=
  absolute_path ← gets (λ s, getAbsolutePath path (a_env s));
  files ← on_files (ListAllFile fuel [] absolute_path ".yml");
  fs ← gets a_files;
  on_conf (Config.LoadFromConfDir fuel (map (λ f, (f, st_mtime f fs, read_file f fs ≫= Load)) files)).

(** [g_server_work_path->getValue()] and the like *)
Definition value_of (var : string) : M App string :=
  v ← on_conf (Lookup TString var);
  c ← deref v;
  mret (string_of (getValue c)).
Definition pidfile_path : M App string :=
  w ← value_of "server.work_path";
  p ← value_of "server.pid_file";
  mret (w +:+ "/" +:+ p).

(** [Application::init] *)
Definition init (fuel : nat) (argv : list string) : M App bool :=
  on_env (λ e, (tt, addHelp "s" "start with the terminal" e));;
  on_env (λ e, (tt, addHelp "d" "run as daemon" e));;
  on_env (λ e, (tt, addHelp "c" "conf path default: ./conf" e));;
  on_env (λ e, (tt, addHelp "p" "print help" e));;
  e ← gets a_env;
  match Env.init exe argv e with
  | None => undef OutOfBounds
  | Some (ok, e) =>
      on_env (λ _, (tt, e));;
      if negb ok || has "p" e then print_help;; mret false
      else if negb (has "s" e) && negb (has "d" e) then print_help;; mret false
      else
        LoadFromConfDir fuel (getAbsolutePath (Env.get "c" "conf" e) e);;
        pidfile ← pidfile_path;
        running ← on_files (IsRunningPidfile pidfile);
        if (running : bool) then mret false
        else
          work_path ← value_of "server.work_path";
          made ← on_files (Mkdir work_path);
          mret made
  end.
(** [Application::main] up to the IOManager: the pid file is written, and what runs
    then is [serve]; the result is the status of the process. *)
Definition main (pid : Z) (serve : M App unit) : M App Z :=
  pidfile ← pidfile_path;
  fs ← gets a_files;
  match write_file pidfile (show pid) fs with
  | None => mret 0
  | Some fs =>
      on_files (modify (λ _, fs));;
      serve;;
      mret 0
  end.
End application.

(** ** The servers *)

Section servers.
Context `{Host, Resolver, Kernel, Names} (t_hook_enable iom : bool) (read_timeout : Z).

Definition lifted {S A} (m : M unit A) : M S A := λ s,
  match m tt with Ok a _ => Ok a s | Throw e _ => Throw e s | Abort => Abort | Undef u => Undef u end.
(** The loop of [run_fiber] over the addresses of a configuration: the addresses of one
    text; a null pointer for one that is no IP address. *)
Definition resolve_one (a : string) : M unit (list (option Address)) :=
  match cut ":" a with
  | None => u ← UnixAddress_new a; mret [Some u]
  | Some (host, rest) =>
      let port := wrapu 16 (atoi (c_str rest)) in
      addr ← IPAddress_Create host port;
      match addr with
      | Some addr => mret [Some addr]
      | None =>
          result ← GetInterfaceAddresses host AF_INET;
          match result with
          | None => mret []
          | Some result => mret (map (λ x, if is_ip x.1 then Some (setPort port x.1) else None) result)
          end
      end
  end.
Fixpoint resolve_all (l : list string) : M unit (list (option Address)) :=
  match l with
  | [] => mret []
  | a :: l => x ← resolve_one a; y ← resolve_all l; mret (x ++ y)%list
  end.
(** [bind] takes the family of every address. *)
Fixpoint all_set {S} (l : list (option Address)) : M S (list Address) :=
  match l with
  | [] => mret []
  | o :: l => a ← deref o; r ← all_set l; mret (a :: r)
  end.

(** One turn of the loop of [run_fiber]: false when the process exits, with status 0. *)
Definition serve_conf (c : HttpServerConf) : M World bool :=
  addrs ← lifted (resolve_all (address c));
  addrs ← all_set addrs;
  '(ok, _) ← TcpServer.bind t_hook_enable iom addrs [];
  if negb ok then mret false
  else
    (if bool_decide (name c = "") then mret tt else update_srv (setName (name c)));;
    TcpServer.start;;
    mret true.

(** A started server: its HTTP part and the sockets, the members and the scheduled
    fibers of its TCP part. *)
Record server := mk_server {
  s_http : HttpServer.HttpServer;
  s_objs : gmap nat Socket;
  s_tcp : TcpServer;
  s_tasks : list accept_task;
}.
Definition server_of (c : HttpServerConf) (w : World) : server :=
  mk_server (HttpServer.HttpServer_new (negb (keepalive c =? 0))) (w_objs w) (w_srv w) (w_accept w).
(** The loop of [Application::run_fiber]: nothing when the process exits. *)
Fixpoint run_confs (confs : list HttpServerConf) (m_httpservers : list server) : M Process (option (list server)) :=
  match confs with
  | [] => mret (Some m_httpservers)
  | c :: confs => λ p,
      match serve_conf c (mkWorld p ∅ (TcpServer_new read_timeout) [] []) with
      | Ok true w => run_confs confs (m_httpservers ++ [server_of c w])%list (w_proc w)
      | Ok false w => Ok None (w_proc w)
      | Throw e w => Throw e (w_proc w)
      | Abort => Abort
      | Undef u => Undef u
      end
  end.
End servers.
