(* ===== verification/ApplicationSpec.v ===== *)
(** The start of the process: the configuration of the servers reads back, one pid file
    admits one running server, and the servers that start listen where their
    configuration says. *)
From Stdlib Require Import Ascii.
From stdpp Require Import gmap strings.
From S2P Require Import Prelude Text Endian Address Yaml Lexical LexicalSpec Util UtilSpec Env Config.
From S2P Require Import FdManager Hook Socket TcpServer TcpServerSpec Application.
From S2P Require HttpServer.

Local Open Scope string_scope.
Local Open Scope list_scope.

(** ** The configuration of a server *)

(** What is used of numbers. *)
Class YamlInts (Node : Type) `{YamlInt Node} := int_read : ∀ z, (- 2 ^ 31 ≤ z < 2 ^ 31)%Z → as_int (of_int z) = Some z.

Section conf.
Context {Node : Type} `{YL : YamlLaws Node} `{!YamlFields Node} `{YI : YamlInts Node}.

Lemma addresses_written (l pre : list string) n :
  default Null (field n "address") = foldl (λ n i, push_back i n) Null (of_string <$> pre) →
  let n' := foldl (λ node i, set_field "address" (push_back (of_string i) (default Null (field node "address"))) node) n l in
  (l ≠ [] → field n' "address" = Some (foldl (λ n i, push_back i n) Null (of_string <$> pre ++ l))) ∧
  (∀ k, k ≠ "address" → field n' k = field n k) ∧ (IsScalar n = false → IsScalar n' = false) ∧ (l = [] → n' = n).
Proof.
  revert pre n. induction l as [|a l IH]; intros pre n E n'; [done|]. cbn [foldl] in n'.
  set (n1 := set_field "address" _ n) in n'.
  assert (default Null (field n1 "address") = foldl (λ n i, push_back i n) Null (of_string <$> pre ++ [a])) as E1.
  { unfold n1. rewrite field_set, bool_decide_true, E by done. cbn. by rewrite fmap_app, foldl_app. }
  destruct (IH (pre ++ [a]) n1 E1) as (Ha&Hk&Hs&Hn). split; [intros _|split; [|split; [|done]]].
  - destruct l as [|b l].
    + subst n'. cbn [foldl]. unfold n1. rewrite field_set, bool_decide_true, E by done. by rewrite fmap_app, foldl_app.
    + specialize (Ha ltac:(done)). rewrite <-app_assoc in Ha. exact Ha.
  - intros k Hne. etransitivity; [exact (Hk k Hne)|]. unfold n1. by rewrite field_set, bool_decide_false.
  - intros _. apply Hs. apply set_not_scalar.
Qed.
Lemma read_strings l : mapM as_string (of_string <$> l) = Some l.
Proof. induction l as [|s l IH]; [done|]. cbn. rewrite string_read. cbn. by rewrite IH. Qed.

(** The configuration of HTTP servers: a list of them is written and read back
    unchanged, names and addresses of any text included. *)
Theorem conf_roundtrip (l : list HttpServerConf) :
  Forall (λ c, (- 2 ^ 31 ≤ keepalive c < 2 ^ 31 ∧ - 2 ^ 31 ≤ timeout c < 2 ^ 31)%Z) l →
  ∃ s, to_string confs_cast l = Some s ∧ from_string confs_cast s = Some l.
Proof.
  intros Hl. assert (Forall (faithful conf_cast) l) as Hf.
  { eapply Forall_impl; [exact Hl|]. clear Hl l. intros [addrs k t nm] [Hk Ht]. cbn [keepalive timeout] in *.
    set (n0 := set_field "timeout" (of_int t) (set_field "keepalive" (of_int k) (set_field "name" (of_string nm) Null))).
    assert (∀ key, key ≠ "timeout" → key ≠ "keepalive" → key ≠ "name" → field n0 key = None) as Hk0.
    { intros key H1 H2 H3. unfold n0. by rewrite !field_set, !bool_decide_false, field_null. }
    assert (field n0 "address" = None) as Ha0 by (by apply Hk0).
    destruct (addresses_written addrs [] n0) as (Ha&Hk'&Hs&Hn); [by rewrite Ha0|].
    set (n1 := foldl _ n0 addrs) in *. exists (emit n1), n1. split; [done|]. split; [apply load_emit|].
    cbn [from_string conf_cast]. unfold conf_of_string. rewrite load_emit. cbn.
    rewrite (Hs (set_not_scalar _ _ _)). unfold field_or. rewrite !Hk' by done. unfold n0. rewrite !field_set.
    repeat first [rewrite bool_decide_true by done | rewrite bool_decide_false by done]. cbn. rewrite !int_read, string_read by done. cbn.
    destruct addrs as [|a addrs]; [subst n1; cbn [foldl]; by rewrite Ha0|].
    rewrite (Ha ltac:(done)). cbn [app]. rewrite elements_pushed. by rewrite read_strings. }
  pose proof (elements_read conf_cast push l Hf) as (s&n&Es&En&Ex). rewrite push_all in Ex.
  exists s. split; [exact Es|]. cbn [to_string from_string confs_cast vector_cast] in *.
  unfold write_elements in Es. destruct (mapM _ l); [|done]. injection Es as <-.
  rewrite load_emit in En. injection En as <-. exact Ex.
Qed.
End conf.

(** ** One server for a pid file *)

Section instance.
Context {FS : Type} {HF : FileSystem FS} {Node : Type} {HY : Yaml Node}.
Context {Ty : Type} {Val : Ty → Type} {HT : Types Ty Val} {St : Type}.
Context (TString : Ty) (string_of : Val TString → string) (exe : string) (st_mtime : string → FS → Z).
Notation app := (@App FS Ty Val St).
Notation start fuel argv := (Application.init TString string_of exe st_mtime fuel argv).
Notation path_of := (pidfile_path TString string_of).

Lemma on_files_ok {A} (m : M FS A) (σ : app) a σ' : on_files m σ = Ok a σ' →
  ∃ f, m (a_files σ) = Ok a f ∧ σ' = mkApp (a_env σ) (a_conf σ) f (a_out σ).
Proof. unfold on_files. destruct (m (a_files σ)) as [x f| | |]; try done. intros [= -> <-]. by exists f. Qed.
Lemma on_conf_files {A} (m : M (@Configs Ty Val St) A) (σ : app) a σ' : on_conf m σ = Ok a σ' → a_files σ' = a_files σ.
Proof. unfold on_conf. destruct (m (a_conf σ)); try done. by intros [= _ <-]. Qed.
(** Reading a variable is a function of the configuration. *)
Lemma value_of_reads var (σ : app) v σ' : value_of TString string_of var σ = Ok v σ' → σ' = σ ∧
  ∀ τ : app, a_conf τ = a_conf σ → value_of TString string_of var τ = Ok v τ.
Proof.
  unfold value_of, Lookup. intros (o&σ1&E1&(c&σ2&E2&[= <- <-])%bind_inv)%bind_inv.
  unfold on_conf, gets in E1. injection E1 as <- <-. unfold deref in E2.
  destruct (s_datas (a_conf σ) !! var ≫= cast TString) as [c'|] eqn:Ec; [|done]. injection E2 as <- <-.
  split; [by destruct σ|]. intros τ Hτ.
  assert (on_conf (gets (λ s, s_datas s !! var ≫= cast TString)) τ = Ok (Some c') τ) as Eτ.
  { unfold on_conf, gets. rewrite Hτ, Ec, <-Hτ. by destruct τ. }
  by rewrite (bind_ok _ _ _ _ _ Eτ).
Qed.
Lemma path_of_reads (σ : app) v σ' : path_of σ = Ok v σ' → σ' = σ ∧ ∀ τ : app, a_conf τ = a_conf σ → path_of τ = Ok v τ.
Proof.
  unfold pidfile_path. intros (w&σ1&[-> Hw]%value_of_reads&(p&σ2&[-> Hp]%value_of_reads&[= <- <-])%bind_inv)%bind_inv.
  split; [done|]. intros τ Hτ. rewrite (bind_ok _ _ _ _ _ (Hw τ Hτ)), (bind_ok _ _ _ _ _ (Hp τ Hτ)). done.
Qed.
Lemma LoadFromConfDir_files fuel path (σ : app) u σ' : LoadFromConfDir st_mtime fuel path σ = Ok u σ' → a_files σ' = a_files σ.
Proof.
  unfold LoadFromConfDir. intros (p&σ1&[= <- <-]&(files&σ2&(f&E2&->)%on_files_ok&(fs&σ3&[= <- <-]&E)%bind_inv)%bind_inv)%bind_inv.
  apply on_conf_files in E. rewrite E. by apply ListAllFile_reads in E2.
Qed.

(** What [init] does: it answers false without touching the files, or it has loaded the
    configuration, seen that no process of the pid file is alive, and made the work path. *)
Lemma init_cases fuel argv (σ σ' : app) r : start fuel argv σ = Ok r σ' →
  (r = false ∧ a_files σ' = a_files σ) ∨
  ∃ pidfile work_path τ, a_files τ = a_files σ ∧ a_conf σ' = a_conf τ ∧ path_of τ = Ok pidfile τ ∧
    value_of TString string_of "server.work_path" τ = Ok work_path τ ∧
    IsRunningPidfile pidfile (a_files σ) = Ok false (a_files σ) ∧ Mkdir work_path (a_files σ) = Ok r (a_files σ').
Proof.
  unfold Application.init, on_env. intros E.
  apply bind_inv in E as (?&σ1&[= _ <-]&E). apply bind_inv in E as (?&σ2&[= _ <-]&E).
  apply bind_inv in E as (?&σ3&[= _ <-]&E). apply bind_inv in E as (?&σ4&[= _ <-]&E).
  rewrite bind_gets in E. destruct (Env.init _ _ _) as [[ok e]|]; [|done].
  apply bind_inv in E as (?&σ5&[= _ <-]&E). cbn [a_env a_conf a_files a_out] in E.
  destruct (negb ok || has "p" e); [left; by injection E as <- <-|].
  destruct (negb (has "s" e) && negb (has "d" e)); [left; by injection E as <- <-|].
  apply bind_inv in E as (u&τ&El&E). apply LoadFromConfDir_files in El. cbn [a_files] in El.
  apply bind_inv in E as (pidfile&τ1&Ep&E). destruct (path_of_reads _ _ _ Ep) as [-> _].
  apply bind_inv in E as (running&τ2&(f&Er&->)%on_files_ok&E). pose proof Er as ->%IsRunningPidfile_reads.
  destruct running; [left; injection E as <- <-; by split|]. right.
  apply bind_inv in E as (work&τ3&Ew&E). destruct (value_of_reads _ _ _ _ Ew) as [-> _].
  apply bind_inv in E as (made&τ4&(f&Em&->)%on_files_ok&[= <- <-]). cbn [a_files] in Em.
  exists pidfile, work, τ. rewrite <-El. split; [done|]. split; [done|]. split; [done|]. split; [|done].
  destruct (value_of_reads _ _ _ _ Ew) as [_ Hw]. by apply Hw.
Qed.

End instance.

(** ** The servers *)

Section servers.
Context {HO : Host} {HR : Resolver} {K : Kernel} {N : Names} (hooked iom : bool) (read_timeout : Z).
Local Open Scope Z_scope.

(** The object [a] listens for [addr]. *)
Definition listens (objs : gmap nat Socket) (addr : Address) (a : nat) : Prop :=
  ∃ k, objs !! a = Some k ∧ Socket.isValid k = true ∧ m_family k = getFamily addr ∧ m_type k = TCP.
(** A server as its configuration wants it. *)
Record started (c : HttpServerConf) (s : server) : Prop := {
  st_listens : ∃ addrs, resolve_all (address c) tt = Ok (Some <$> addrs) tt ∧
    Forall2 (listens (s_objs s)) addrs (m_socks (s_tcp s));
  st_accepts : s_tasks s = AcceptLoop <$> m_socks (s_tcp s);
  st_running : m_isStop (s_tcp s) = false;
  st_name : m_name (s_tcp s) = (if bool_decide (name c = "") then "sylar/1.0.0" else name c);
  st_timeout : m_recvTimeout (s_tcp s) = read_timeout;
  st_keepalive : HttpServer.m_isKeepalive (s_http s) = negb (keepalive c =? 0);
}.
Lemma lifted_ok {S A} (m : M unit A) (s : S) a s' : lifted m s = Ok a s' → m tt = Ok a tt ∧ s' = s.
Proof. unfold lifted. destruct (m tt) as [x []| | |]; try done. by intros [= -> ->]. Qed.
Lemma all_set_ok {S} l : ∀ (s : S) r s', all_set l s = Ok r s' → s' = s ∧ l = Some <$> r.
Proof.
  induction l as [|o l IH]; intros s r s' E; [by injection E as <- <-|]. cbn [all_set] in E.
  apply bind_inv in E as (a&s1&E1&E). destruct o as [a'|]; [|done]. injection E1 as -> <-.
  apply bind_inv in E as (r1&s1&E1&[= <- <-]). apply IH in E1 as [-> ->]. done.
Qed.
Lemma serve_conf_ok c p w ok : serve_conf hooked iom c (mkWorld p ∅ (TcpServer_new read_timeout) [] []) = Ok ok w →
  if ok then started c (server_of c w)
  else ∃ addrs failed, resolve_all (address c) tt = Ok (Some <$> addrs) tt ∧ failed `sublist_of` addrs ∧ failed ≠ [].
Proof.
  unfold serve_conf. intros (l&w1&[Er ->]%lifted_ok&(addrs&w2&[-> ->]%all_set_ok&E)%bind_inv)%bind_inv.
  apply bind_inv in E as ([b fails]&w3&Eb&E). destruct (bind_result hooked iom _ _ _ _ _ (fresh_inv p read_timeout) Eb)
    as (failed&[= -> ->]&Hsub&Hr). cbn [app] in *. case_bool_decide as Hf; cbn [fst negb] in Hr, E.
  2: { injection E as <- <-. by exists addrs, failed. }
  destruct Hr as (new&Hs&Ho&Ha). cbn [m_socks w_srv TcpServer_new app] in Hs.
  apply bind_inv in E as (u&w4&E4&E). apply bind_inv in E as (r&w5&E5&[= <- <-]).
  set (nm := if bool_decide (name c = "") then "sylar/1.0.0" else name c).
  assert (w4 = set_srv (mkTcpServer new read_timeout nm true) w3) as ->.
  { unfold nm. destruct (bool_decide (name c = "")).
    - injection E4 as _ <-. destruct w3 as [? ? srv ? ?]. cbn in *. by subst srv.
    - unfold update_srv in E4. injection E4 as _ <-. by rewrite Hs. }
  unfold TcpServer.start in E5. rewrite bind_gets in E5. cbn [w_srv set_srv m_isStop negb] in E5.
  unfold update_srv in E5. rewrite bind_modify, bind_modify in E5. injection E5 as _ <-.
  split; cbn [server_of s_objs s_tcp s_tasks s_http w_objs w_srv w_accept set_srv set_accept set_stop m_socks m_isStop m_name m_recvTimeout]; try done.
  - exists addrs. split; [done|]. eapply Forall2_impl; [exact Ho|]. intros addr a (k&Hk&Hv&Hfam&Hty&_).
    exists k. split; [exact Hk|]. split; [by apply negb_true_iff, Z.eqb_neq|done].
  - by rewrite Ha.
Qed.
Lemma run_confs_ok confs : ∀ done_ before p r p', Forall2 started done_ before →
  run_confs hooked iom read_timeout confs before p = Ok r p' →
  match r with
  | Some servers => Forall2 started (done_ ++ confs) servers
  | None => ∃ c addrs failed, c ∈ confs ∧ resolve_all (address c) tt = Ok (Some <$> addrs) tt ∧
      failed `sublist_of` addrs ∧ failed ≠ []
  end.
Proof.
  induction confs as [|c confs IH]; intros done_ before p r p' Hd E; cbn [run_confs] in E.
  { injection E as <- <-. by rewrite app_nil_r. }
  destruct (serve_conf _ _ _ _) as [[] w| | |] eqn:Es; try done; apply serve_conf_ok in Es.
  - apply (IH (done_ ++ [c])) in E; [|by apply Forall2_app; [done|constructor]]. destruct r as [servers|].
    + by rewrite <-app_assoc in E.
    + destruct E as (c'&addrs&failed&Hin&?). exists c', addrs, failed. split; [by apply list_elem_of_further|done].
  - injection E as <- <-. destruct Es as (addrs&failed&?). exists c, addrs, failed. split; [apply list_elem_of_here|done].
Qed.

End servers.

(** ** Witnesses *)

Module Demo.
Import SmallYaml.
Local Open Scope Z_scope.

Definition text_of_int (z : Z) : string := if z <? 0 then String "-" (show (- z)) else show z.
Definition int_of_text (s : string) : option Z := match s with String "-" t => Z.opp <$> read_dec t | _ => read_dec s end.
Lemma int_text z : int_of_text (text_of_int z) = Some z.
Proof.
  unfold text_of_int. destruct (Z.ltb_spec z 0) as [Hz|Hz].
  - unfold int_of_text. rewrite read_dec_show by lia. cbn. f_equal. lia.
  - pose proof (show_digits z) as Hd. pose proof (read_dec_show z Hz) as Hr. destruct (show z) as [|c s]; [done|].
    cbn [every] in Hd. apply andb_true_iff in Hd as [Hd _]. unfold int_of_text.
    destruct (decide (c = "-"%char)) as [->|Hc]; [done|].
    by destruct c as [[] [] [] [] [] [] [] []].
Qed.
#[local] Instance doc_int : YamlInt doc := {|
  as_int n := match n with scalar s => int_of_text s | _ => None end;
  of_int z := scalar (text_of_int z);
|}.
#[local] Instance doc_ints : YamlInts doc.
Proof. intros z _. apply int_text. Qed.
Definition demo_conf : HttpServerConf := mkHttpServerConf ["127.0.0.1:80"; "/tmp/s"] 1 5 "web".
Lemma conf_roundtrip_witness : ∃ s, to_string confs_cast [demo_conf] = Some s ∧ from_string confs_cast s = Some [demo_conf].
Proof. apply conf_roundtrip. repeat constructor; cbn; lia. Defined.

(** *** A process with the two variables of the paths *)

Import UtilSpec.Demo.
#[local] Instance text_types : Types unit (λ _, string) := { FromStr _ s := Some s; ToStr _ s := Some s }.
Definition text_var (key value : string) : @ConfigVarBase unit (λ _, string) unit := existT tt (mkConfigVar key "" value []).
Definition demo_configs : @Configs unit (λ _, string) unit :=
  mkConfigs (<["server.work_path" := text_var "server.work_path" "/w"]>
    {["server.pid_file" := text_var "server.pid_file" "s.pid"]}) (λ _, 0) ∅ tt.
Definition demo_app (files : disk) : @App disk unit (λ _, string) unit := mkApp Env_new demo_configs files "".
Definition demo_start (argv : list string) (files : disk) :=
  Application.init (Node := doc) tt (λ s, s) "/bin/app" (λ _ _, 1) 3 argv (demo_app files).
Definition state_of {S A} (r : res S A) (s : S) : S := match r with Ok _ s => s | _ => s end.
Definition empty_disk : disk := mk_disk ["/"] [].
Definition first : @App disk unit (λ _, string) unit := state_of (demo_start ["app"; "-s"] empty_disk) (demo_app empty_disk).
Definition first_runs : @App disk unit (λ _, string) unit := state_of (main tt (λ s, s) 77 (mret tt) first) first.
Definition second : @App disk unit (λ _, string) unit :=
  state_of (demo_start ["app"; "-d"; "-c"; "etc"] (a_files first_runs)) (demo_app (a_files first_runs)).
Lemma write_law p t (fs fs' : disk) : write_file p t fs = Some fs' → lstat p fs' = true ∧ read_file p fs' = Some t.
Proof.
  intros [= <-]. unfold lstat, read_file, disk_system, on_disk, text_on. cbn [paths texts]. split.
  - apply bool_decide_eq_true, list_elem_of_here.
  - cbn [list_find]. by rewrite decide_True.
Qed.
(** When the pid file cannot be written the process ends with status 0, as if all were
    well, and serves nothing. *)
Lemma main_unwritten {FS Ty Val St} `{FileSystem FS, !Types Ty Val} TString (string_of : Val TString → string) pid serve
    (σ : @App FS Ty Val St) path : pidfile_path TString string_of σ = Ok path σ → write_file path (show pid) (a_files σ) = None →
  main TString string_of pid serve σ = Ok 0 σ.
Proof. intros E Hw. unfold main. rewrite (bind_ok _ _ _ _ _ E), bind_gets, Hw. done. Qed.

(** *** A server *)

#[local] Instance demo_host : Host := little_host.
#[local] Instance demo_kernel : Kernel := {|
  reply _ c := match c with sys_socket => (5, 0) | sys_fstat _ => (0xC000, 0) | _ => (0, 0) end;
  others _ t := t;
|}.
#[local] Instance demo_names : Names := {|
  name_in k := mk_in AF_INET (Z.of_nat k) 0 [];
  name_in6 _ := IPv6Address_default; name_un _ := ([], 2); name_other _ := (0, []);
|}.
(** One host is known; there is one interface. *)
#[local] Instance demo_resolver : Resolver := {|
  getaddrinfo host _ _ _ _ := if bool_decide (host = "localhost") then Some [SockIn (mk_in AF_INET 0 7 [])] else None;
  inet_pton _ _ := None;
  getifaddrs := Some [];
|}.
Definition demo_process : Process := mkProcess ∅ FdManager_new 0 0 [].
Definition web_conf : HttpServerConf := mkHttpServerConf ["localhost:8080"; "*:81"] 1 0 "web".
(** An address is cut at its first colon, so one of IPv6 is looked for under a wrong name;
    an unknown name is dropped, and a server without any address starts. *)
Lemma unknown_address_dropped : resolve_all ["[::1]:80"; "nowhere:80"] tt = Ok [] tt.
Proof. vm_compute. reflexivity. Qed.
Lemma server_without_address :
  match run_confs true true 120000 [mkHttpServerConf ["[::1]:80"] 0 0 ""] [] demo_process with
  | Ok (Some [s]) _ => m_socks (s_tcp s) = [] ∧ m_isStop (s_tcp s) = false
  | _ => False
  end.
Proof. vm_compute. split; reflexivity. Qed.
End Demo.
